(* ===== verification/_CoqProject ===== *)
-Q . S2P
Prelude.v
Bytes.v
Str.v
Json.v
Decimal.v
Temporal.v
Floats.v
Gtid.v
Events.v
EventWire.v
EventScan.v
BinlogIndex.v
GtidManager.v
Storage.v
Pipeline.v
Expire.v
Restart.v
Recovery.v
PortPool.v
Dumper.v
Stream.v
Service.v
DataType.v
RowImage.v
TableCache.v
Converter.v
Replay.v
PacketBuf.v
Sha1.v
Auth.v
Connection.v
Handshake.v
MsgBuf.v
Client.v
Login.v
ResultSet.v
SqlCommands.v
Command.v
Selection.v
Metadata.v
Election.v
