(* ===== verification/Prelude.v ===== *)
(** * A verification of the binlog service of oblogproxy

    ** The program

    oblogproxy turns the change stream of an OceanBase tenant into MySQL binlog files and
    serves them to MySQL replicas.  The library verifies the part that decides what is in
    those files and in the stream a replica receives.

    - Change records of the tenant are converted to events
      ([binlog-instance/parallel_convert.cpp]): a transaction becomes a GTID event, a query
      event, table map and rows events and an xid event.  Tables get identifiers
      ([table_cache.{h,cpp}]); the text of each column value becomes the bytes that MySQL
      stores for its type ([data_type.{h,cpp}], [json_parser.h], [common_util.h]).
    - Events ([src/src/binlog/ob_log_event.{h,cpp}]) are built by the conversion, numbered
      and positioned, written in the MySQL binlog format, and read back by the scans that
      recovery and the SQL commands rely on.
    - The storage ([src/src/binlog/binlog-instance/binlog_storage.{h,cpp}]) is a pipeline of
      three stages on batches of events: allocation gives GTIDs, xids and positions and
      decides where a file ends; serialisation writes the bytes into a growing buffer;
      persistence appends them to the current file, opens the next one and keeps the index.
    - The index ([binlog_index.{h,cpp}]) is a text file with one row per binlog file.
    - The GTID manager ([gtid_manager.{h,cpp}]) keeps checkpoints that map transactions to
      GTIDs and the variables [gtid_purged] and [gtid_executed].
    - Old files are purged by age and by total size.
    - An instance that starts ([binlog_instance_entry.cpp], [BinlogStorage::init]) repairs
      the last file, reads the GTID variables back and resumes after the last complete
      transaction.
    - A dumper thread per replica ([binlog_dumper.{h,cpp}]) reads the files while the storage
      writes them and sends their events, from a position or after a set of GTIDs.
    - Replicas and SQL clients speak the MySQL protocol with it: a buffer for one packet
      ([mysql-protocol/packet_buf.{h,inl}]), the packets of the protocol
      ([mysql-protocol/*_packet.inl]), the connection with framing, handshake and
      authentication ([connection.{h,cpp}], [password.cpp], [obaccess/ob_sha1.{h,cpp}]), the
      processors of commands ([cmd_processor.cpp]) and of SQL statements
      ([sql_cmd_processor.cpp]).
    - The manager process and the log reader are clients of such servers themselves
      ([obaccess/mysql_protocol.cpp], [obaccess/ob_mysql_packet.cpp],
      [common/msg_buf.{h,cpp}]); the manager forwards the queries of an instance's users.
    - A manager process hands out the TCP ports of its instances ([tcp_port_pool.{h,cpp}]),
      places instances on nodes and elects the master of a tenant
      ([selection_strategy.{h,cpp}]), probes them and keeps their checkpoints in the metadata
      database ([cluster/database_protocol.cpp], [cluster/node.cpp]), and gives a new or a
      replacing instance its starting point ([instance_tasks.cpp]).

    ** Files

    - [Prelude]: machine integers, byte strings, the result type [outcome] ([Crash] is a
      failed assert, a null pointer, an access out of bounds, an exception that nobody
      catches or a loop that does not end),
      readers, ordered maps, shared lemmas and tactics.
    - [Bytes]: fixed-width and length-encoded integers ([byte_decoder.h],
      [ob_mysql_packet.cpp]).
    - [Str]: splitting, joining, trimming, hexadecimal and decimal text, lines.
    - [Json]: the binary form of JSON documents and of partial updates ([json_parser.h]),
      with a reader of MySQL's format.
    - [Decimal], [Temporal], [Floats]: DECIMAL; TIMESTAMP, TIME, DATETIME, DATE and YEAR;
      FLOAT and DOUBLE with the decimal-to-binary conversion of [std::stod].
    - [Gtid]: [GtidMessage], the text of GTID sets, [merge_gtid_before], [GTID_SUBSET] and
      [GTID_SUBTRACT].
    - [Events]: the event classes with [flush_to_buff], [deserialize] and constructors.
    - [EventWire]: well-formed events, their length, and that they are read back.
    - [EventScan]: [seek_gtid_event], [seek_events], [seek_and_verify_complete_trx].
    - [BinlogIndex]: the index; the class [GtidPurge] is what it asks of the GTID manager.
    - [GtidManager]: checkpoints, their file, the GTID variables; implements [GtidPurge].
    - [Storage]: the three stages, with the state each owns ([Allocator], [SerializeEvent],
      [Disk]) and [run_batch], their composition.
    - [Pipeline]: the invariant [pipeline_inv] and what a batch does to it.
    - [Expire]: purging.
    - [Restart]: start-up, and the first start of an instance.
    - [Recovery]: a restart on the files another run left.
    - [PortPool]: the port pool.
    - [Dumper]: the dumper thread, in a monad over its state; every access to what other
      threads change is an observation of a world that may be different each time.
    - [Stream]: weakest preconditions for that monad, the abstract stream of a replica and
      its refinement.
    - [Service]: the states the storage passes through as a world of the dumper; the
      composition of [Pipeline] and [Stream].
    - [DataType]: metadata and values of every column type, images of rows.
    - [RowImage]: what a replica reads from them ([read_cell], [read_row]), and the relation
      [shows] between the text of a value and the value.
    - [TableCache]: the identifiers of tables.
    - [Converter]: the conversion handler.
    - [Replay]: records that show changes, the changes a replica reads from events, and the
      composition of [Converter] and [Service].
    - [PacketBuf]: the packet buffer and its fields.
    - [Sha1], [Auth]: SHA-1; the token of the client and its check by the server.
    - [Connection]: [readn] and [writen] over a kernel that splits and interrupts, and the
      framing of packets.
    - [Handshake]: the packets as instances of the class [DataPacket] with their laws
      [PacketLaws]; sending of packets and rows; greeting and response.
    - [MsgBuf], [Client]: the message buffer, and the client over it.
    - [Login]: client and server authenticate.
    - [ResultSet]: a result set from server to client.
    - [SqlCommands]: SHOW BINARY LOGS, SHOW MASTER STATUS, SHOW BINLOG EVENTS.
    - [Command]: the dispatch of commands, the requests of replicas, the forwarding.
    - [Selection]: nodes and instances, the chain of filters that places an instance.
    - [Metadata]: the table of the checkpoints, as the class [GtidSeqTable] with its laws
      [GtidSeqTableLaws], and the probe of an instance with the report it answers.
    - [Election]: the master of a tenant, the starting point and the recovery point.

    A record of the library has the fields of the class it models and a definition the name
    of the method; state is passed explicitly.  [Disk] holds the files as a finite map from
    paths to bytes.

    ** What is shown

    - Conversion: for every column type the bytes written are those from which MySQL's format
      gives the value back, for the values that [RowImage.shows] has (it leaves out ENUM and
      SET members that are prefixes of others, negative TIME values with more digits than are
      stored, DECIMAL texts that are too short, documents of more than 99 levels); records of
      transactions with such values become well-formed events from which a replica reads the
      same changes, through the conversion alone and through storage and dumper.  Identifiers
      of tables are distinct, and stay the same until they are refreshed.
    - Wire format: every well-formed event occupies exactly the bytes its header announces
      and is read back as itself, but for UPDATE rows, whose reader is unfinished, the status
      variables of queries and the types, metadata and null bits of table maps, which the
      readers drop; clearing the in-use flag in place gives the bytes of the cleared event.
    - Scans: on a file the storage wrote, each scan ends and returns exactly what is in the
      file; a tail that is not a complete transaction is recognised as such, also when it is
      torn inside an event, unless that is an xid event.
    - Index: any sequence of operations refines the same operations on a list of rows; an
      addition or an update whose write fails in part tears at most the last row; purging
      removes exactly the rows it should.
    - GTIDs: printing and parsing, merging, subset and difference against the sets of
      transactions they denote, with the inputs where the code departs from them.
    - Pipeline: one batch keeps [pipeline_inv]; the events to be stored are marked so, and no
      others; positions are without gaps, GTIDs consecutive, a file is closed when it is full
      and only then, each closed file ends with its rotate event, the index has the exact
      sizes, no other file changes.
    - Life cycle: the first start establishes [pipeline_inv], every batch and every purge
      keep it, and a restart re-establishes it from what a run left between two batches, or
      inside a transaction that is in the index.
    - Replicas: whatever the other threads do, the dumper does not crash and what it has
      sent is a run of the abstract stream; so from the file where it starts the replica has
      the log in order and misses only transactions it asked to leave out.  A file is sent
      once more when the dumper sees it complete before the index is updated; without such a
      moment there are no duplicates.  A closed file is sent to its end.
    - Service: the worlds of that theorem include every history of the storage pipeline, one
      write at a time, so that what a replica has is at any moment what a reader has read of
      the transactions of the batches who only goes back in the moment just mentioned.
    - Protocol: what one side writes the other reads, at every layer: fields in the packet
      buffer, packets through framing, the greeting and its response, a result set, a
      request to dump; for every splitting of the transfer by the kernels.  Reading is safe
      whatever arrives, except for strings without terminator.  The SHA-1 class computes the
      function of FIPS 180, written a second time from the standard, and the right password
      is accepted unless its stored hash has a zero byte.
    - Commands: a dump request starts a dumper that refines the stream that was asked for;
      the SHOW commands return, to the client, the rows of the index, the record that the
      index has in memory, and the events; the manager relays queries and answers unchanged.
    - Cluster: placement, election, starting point and recovery point each agree with a
      short specification; a probe outside the seconds of the purge brings the next
      checkpoints of an instance into the table of the manager, in order, and touches no
      other row.
    - Errors: where the code does not do what it means to, the theorem states the exact
      inputs: a head that outgrows its block, a torn xid event, an index row that was not
      updated, a purge that races with the storage, a port
      returned from past the reserved range, a replica that asks for the end of a closed
      file, a transaction that is skipped in part, a first file chosen one too late; in the
      conversion the assert on fractions, a fraction that is too short, a long JSON diff,
      the borrow of a negative TIME, a refresh between two lookups of a table; in the index a
      row torn by a full disk, a record in memory that is behind; an initial transaction
      without a number; in the
      protocol a string that is not terminated, a password hash with a zero byte, a token
      that is too short, a plugin name that is too long, attributes that are announced and
      not sent, a request for GTIDs that is cut, an error code that is read one byte early;
      in the manager the weights that are all zero, a region that is not looked at, a least
      checkpoint that is computed and not used, a paused instance that is marked running, the
      column of a report that is taken for another.

    ** Bounds

    Integers keep their width: [u8] to [u64] and [sint] write the wrap-around out, and the
    theorems carry the bounds under which it does not happen ([headroom], [alloc_ok],
    [fits]).  Loops whose end depends on the data take [fuel]: scans need more fuel than the
    file has events, the binary search as much as the list is long, growing a buffer as much
    as is missing, a port two passes, a closed file sent to a replica as
    much as it has events and two, SHOW BINLOG EVENTS more than the events, deleting rows in
    portions more than the rows; each theorem
    states the amount and concludes that the
    result is reached.  Reading JSON takes the height of the document, counting digits 20,
    the numbers of a 64-bit integer, and [assign_new_table_id] two, since zero is skipped
    once.  The loops over the frames of a packet and over received packets
    compute their fuel from the bytes that are there, and the theorems show it is enough;
    only the loop over connection attributes takes a fuel that may not suffice
    ([Handshake.handshake_never_ends]).  The theorems on all runs of a dumper hold for every fuel, also in
    the state where it is used up, since the thread need not end.

    ** Parameters

    For the conversion: the records and the metadata of their columns (classes of the
    log-message library, [ILogRecord], [IColMeta]), [Parse] of rapidjson, [createFromWkt] of
    GDAL with the export to WKB, the DDL parser [ddl_parse], what [malloc] returns
    ([alloc]), whether asserts are compiled in ([ndebug]), and what a field holds that no
    constructor sets ([undefined]).  Elsewhere: zlib's [crc32] (a function into 32-bit numbers), the calendar conversion of the purge
    command, the clock, what file-system calls report and how much they write ([disk]; the pipeline runs on one
    that accepts every write), the test whether a port is
    in use and the list of instances of the metadata database.  For a dumper: the world it
    observes ([env]: files, index, whether it is to stop, whether its connection is killed
    or refuses to send), two variables of its session and the heartbeat interval.  For
    connections: what the kernel returns from reads, writes and polls, what is in fresh
    memory ([alloc], [memory], [heap], [junk]), how much memory there is ([limit]),
    [rand_r], the table of users and the credentials of the instance, the SQL parser with
    the processors of its statements, the connection to an instance.  For the manager: the
    table of checkpoints as an interface whose laws are those of the SQL statements used
    (a list of rows satisfies them), the queries for nodes, instances and the oldest log,
    the clock, whether a process is alive, and the random number of a draw.

    ** Not modelled

    The queues and the ring buffer between reader, conversion and storage (a handler is a
    function of its batch and of the table cache), partial JSON updates and heartbeats in
    [Replay] (a heartbeat of the conversion has no length; the storage does not write it),
    [log10] above 10^15, where it may round, sign and payload of NaN, the unused
    [parallel_do_convert], the event loop around connections, rate limiters,
    which only delay, SQL parsing (generated), the SQL commands that manage instances, the
    driver of the metadata database and the tables other than the checkpoints, the tasks that
    start, stop and watch processes, metrics, logging, configuration loading, the vendored ring buffer.  Threads: the
    dumper observes the world anew at each access, and the storage changes it one write at a
    time in [Service]; otherwise an operation is atomic unless a theorem says otherwise (the
    purge, which reads the index and rewrites it later: [Expire.purge_race_loses_updates]). *)

From stdpp Require Export prelude strings gmap sorting.
From Stdlib Require Export ZArith Lia.
From Stdlib Require Ascii.

#[local] Open Scope Z_scope.
#[export] Set Default Goal Selector "!".

(** ** Machine integers and byte strings

    A [w]-bit integer is a [Z]; the wrap-around of the C++ unsigned types is
    written out with the functions below.  A [std::string] and a memory buffer
    are both a list of bytes, each byte a [Z] in [[0, 256)]. *)

Abbreviation bytes := (list Z).

Definition u8 (z : Z) : Z := z `mod` 2 ^ 8.
Definition u16 (z : Z) : Z := z `mod` 2 ^ 16.
Definition u32 (z : Z) : Z := z `mod` 2 ^ 32.
Definition u64 (z : Z) : Z := z `mod` 2 ^ 64.

(** Two's complement reading of the low [w] bits. *)
Definition sint (w z : Z) : Z := (z + 2 ^ (w - 1)) `mod` 2 ^ w - 2 ^ (w - 1).

Definition is_u8 (z : Z) : Prop := 0 <= z < 2 ^ 8.
Definition is_u16 (z : Z) : Prop := 0 <= z < 2 ^ 16.
Definition is_u32 (z : Z) : Prop := 0 <= z < 2 ^ 32.
Definition is_u64 (z : Z) : Prop := 0 <= z < 2 ^ 64.

#[export] Instance is_u8_dec z : Decision (is_u8 z) := _.
#[export] Instance is_u16_dec z : Decision (is_u16 z) := _.
#[export] Instance is_u32_dec z : Decision (is_u32 z) := _.
#[export] Instance is_u64_dec z : Decision (is_u64 z) := _.

(** The length of a list, as the [size_t] the code computes with. *)
Definition zlen {A} (l : list A) : Z := Z.of_nat (length l).

(** [buff + n], reading from it, and overwriting it in place. *)
Definition skip {A} (n : Z) (l : list A) : list A := drop (Z.to_nat n) l.
Definition first {A} (n : Z) (l : list A) : list A := take (Z.to_nat n) l.
Definition overwrite {A} (off : Z) (new l : list A) : list A :=
  first off l ++ new ++ skip (off + zlen new) l.

(** String literals as byte lists. *)
Fixpoint str (s : string) : bytes :=
  match s with
  | EmptyString => []
  | String c s => Z.of_N (Ascii.N_of_ascii c) :: str s
  end.

(** Little-endian representation of the low [n] bytes of an integer. *)
Fixpoint le_split (n : nat) (z : Z) : bytes :=
  match n with
  | O => []
  | S n => z `mod` 256 :: le_split n (z `div` 256)
  end.

Fixpoint le_combine (l : bytes) : Z :=
  match l with
  | [] => 0
  | b :: l => b + 256 * le_combine l
  end.

(** A decidable test used by the code's [strcmp] and [==] on strings. *)
Definition beq (a b : bytes) : bool := bool_decide (a = b).

(** ** Return codes (common.h) *)
Inductive ret := OMS_OK | OMS_FAILED.
#[export] Instance ret_eq_dec : EqDecision ret.
Proof. solve_decision. Defined.

(** Outcome of code that may not return normally: a null dereference, a write past a
    heap block, a read of uninitialised memory, a failed [assert], an uncaught exception
    ([std::stol] on text) or an endless loop. *)
Inductive outcome (A : Type) := Done (a : A) | Crash.
Arguments Done {A} a.
Arguments Crash {A}.

#[export] Instance outcome_ret : MRet outcome := fun A x => Done x.
#[export] Instance outcome_bind : MBind outcome :=
  fun A B k m => match m with Done x => k x | Crash => Crash end.

Lemma Done_inj {A} (x y : A) : Done x = Done y -> x = y.
Proof. by intros [=]. Qed.

Definition of_option {A} (o : option A) : outcome A :=
  match o with Some x => Done x | None => Crash end.

(** [memcpy(buf + off, new, ...)] into a heap block: a write past its end crashes. *)
Definition heap_write (off : Z) (new buf : bytes) : outcome bytes :=
  if off + zlen new <=? zlen buf then Done (overwrite off new buf) else Crash.

(** [memcpy(..., buf + off, n)] from a heap block. *)
Definition heap_read (off n : Z) (buf : bytes) : outcome bytes :=
  if bool_decide (0 <= off /\ 0 <= n /\ off + n <= zlen buf) then Done (first n (skip off buf)) else Crash.

(** ** Code with a state of its own *)

Definition stateful (S A : Type) : Type := S -> outcome (A * S).
#[export] Instance stateful_ret {S} : MRet (stateful S) := fun A x s => Done (x, s).
#[export] Instance stateful_bind {S} : MBind (stateful S) := fun A B k m s =>
  match m s with Done (x, s') => k x s' | Crash => Crash end.

(** [m] does not crash and ends as [Q] says. *)
Definition runs {S A} (m : stateful S A) (s : S) (Q : A -> S -> Prop) : Prop :=
  match m s with Done (x, s') => Q x s' | Crash => False end.

(** ** [std::map<std::string, A>]: an association list in key order *)

Fixpoint bytes_ltb (a b : bytes) : bool :=
  match a, b with
  | _, [] => false
  | [], _ :: _ => true
  | x :: a, y :: b => (x <? y) || ((x =? y) && bytes_ltb a b)
  end.

(** [emplace]: an existing key keeps its value. *)
Fixpoint omap_emplace {A} (k : bytes) (v : A) (m : list (bytes * A)) : list (bytes * A) :=
  match m with
  | [] => [(k, v)]
  | (k', v') :: m' =>
      if bytes_ltb k k' then (k, v) :: m
      else if beq k k' then m
      else (k', v') :: omap_emplace k v m'
  end.

(** [m[k] = v] *)
Fixpoint omap_set {A} (k : bytes) (v : A) (m : list (bytes * A)) : list (bytes * A) :=
  match m with
  | [] => [(k, v)]
  | (k', v') :: m' =>
      if bytes_ltb k k' then (k, v) :: m
      else if beq k k' then (k, v) :: m'
      else (k', v') :: omap_set k v m'
  end.

Fixpoint omap_find {A} (k : bytes) (m : list (bytes * A)) : option A :=
  match m with
  | [] => None
  | (k', v) :: m => if beq k k' then Some v else omap_find k m
  end.

(** ** Cursor reader

    [deserialize] functions walk a buffer with a running [pos].  A reader keeps
    [pos] and the bytes still ahead; [None] stands for a read past the end of the
    buffer or a failed [assert]. *)
Record cursor := Cursor { cur_pos : Z; cur_rest : bytes }.
Definition reader (A : Type) : Type := cursor -> option (A * cursor).

#[export] Instance reader_ret : MRet reader := fun A x c => Some (x, c).
#[export] Instance reader_bind : MBind reader :=
  fun A B k m c => match m c with Some (x, c') => k x c' | None => None end.

Definition rd_take (n : Z) : reader bytes := fun c =>
  if bool_decide (0 <= n <= zlen (cur_rest c))
  then Some (first n (cur_rest c), Cursor (cur_pos c + n) (skip n (cur_rest c)))
  else None.

Definition rd_pos : reader Z := fun c => Some (cur_pos c, c).

Definition rd_assert (P : Prop) `{Decision P} : reader unit := fun c =>
  if bool_decide P then Some (tt, c) else None.

(** Code that can crash, called while reading. *)
Definition rd_outcome {A} (o : outcome A) : reader A := fun c =>
  match o with Done x => Some (x, c) | Crash => None end.

(** Run a reader from the start of a buffer. *)
Definition run_reader {A} (m : reader A) (b : bytes) : option A :=
  fst <$> m (Cursor 0 b).

(** Repeat a reader [n] times (a counting [for] loop). *)
Fixpoint rd_times {A} (n : nat) (m : reader A) : reader (list A) :=
  match n with
  | O => mret []
  | S n => x ← m; xs ← rd_times n m; mret (x :: xs)
  end.

(** ** Automation *)

#[local] Ltac Zify.zify_post_hook ::= Z.to_euclidean_division_equations.

(** [zif] decides every integer comparison of the goal, dropping the branches
    [lia] refutes. *)
Ltac zif :=
  repeat match goal with
  | |- context [Z.ltb ?a ?b] => destruct (Z.ltb_spec a b); try lia
  | |- context [Z.leb ?a ?b] => destruct (Z.leb_spec a b); try lia
  | |- context [Z.gtb ?a ?b] => rewrite (Z.gtb_ltb a b)
  | |- context [Z.geb ?a ?b] => rewrite (Z.geb_leb a b)
  | |- context [Z.eqb ?a ?b] => destruct (Z.eqb_spec a b); try lia
  end.

(** [by_compute] proves a decidable closed proposition by evaluating its decision. *)
Ltac by_compute := apply (bool_decide_unpack _); vm_compute; exact I.

Create Rewrite HintDb len.

Lemma zlen_nil {A} : zlen (@nil A) = 0.
Proof. done. Qed.
Lemma zlen_cons {A} (x : A) l : zlen (x :: l) = 1 + zlen l.
Proof. unfold zlen. simpl. lia. Qed.
Lemma zlen_app {A} (a b : list A) : zlen (a ++ b) = zlen a + zlen b.
Proof. unfold zlen. rewrite length_app. lia. Qed.
Lemma zlen_nonneg {A} (l : list A) : 0 <= zlen l.
Proof. unfold zlen. lia. Qed.
Lemma zlen_replicate {A} n (x : A) : zlen (replicate n x) = Z.of_nat n.
Proof. unfold zlen. by rewrite length_replicate. Qed.
Lemma zlen_fmap {A B} (f : A -> B) l : zlen (f <$> l) = zlen l.
Proof. unfold zlen. by rewrite length_fmap. Qed.
Lemma zlen_le_split n z : zlen (le_split n z) = Z.of_nat n.
Proof.
  revert z. induction n as [|n IH]; intros z; [done|].
  simpl. rewrite zlen_cons, IH. lia.
Qed.
Lemma zlen_0_nil {A} (l : list A) : zlen l = 0 -> l = [].
Proof. destruct l; [done|]. rewrite zlen_cons. pose proof (zlen_nonneg l). lia. Qed.
Lemma zlen_first {A} n (l : list A) : 0 <= n <= zlen l -> zlen (first n l) = n.
Proof. unfold zlen, first. intros. rewrite length_take. lia. Qed.
Lemma zlen_skip {A} n (l : list A) : 0 <= n <= zlen l -> zlen (skip n l) = zlen l - n.
Proof. unfold zlen, skip. intros. rewrite length_drop. lia. Qed.

#[export] Hint Rewrite @zlen_nil @zlen_cons @zlen_app @zlen_replicate @zlen_fmap zlen_le_split : len.

(** [len] normalises lengths and closes the linear goal that is left. *)
Ltac len := autorewrite with len in *; simpl in *; try lia.

Lemma skip_0 {A} (l : list A) : skip 0 l = l.
Proof. done. Qed.
Lemma first_app {A} n (a b : list A) : zlen a = n -> first n (a ++ b) = a.
Proof. intros <-. unfold first, zlen. rewrite Nat2Z.id. apply take_app_length. Qed.
Lemma skip_app {A} n (a b : list A) : zlen a = n -> skip n (a ++ b) = b.
Proof. intros <-. unfold skip, zlen. rewrite Nat2Z.id. apply drop_app_length. Qed.
Lemma first_ge {A} n (l : list A) : zlen l <= n -> first n l = l.
Proof. unfold first, zlen. intros. apply take_ge. lia. Qed.
Lemma skip_skip {A} n m (l : list A) :
  0 <= n -> 0 <= m -> skip m (skip n l) = skip (n + m) l.
Proof. unfold skip. intros. rewrite drop_drop. f_equal. lia. Qed.
Lemma first_skip {A} n (l : list A) : first n l ++ skip n l = l.
Proof. apply take_drop. Qed.
Lemma skip_app_ge {A} n (a b : list A) : zlen a <= n -> skip n (a ++ b) = skip (n - zlen a) b.
Proof. unfold skip, zlen. intros. rewrite drop_app_ge by lia. f_equal. lia. Qed.

(** Overwriting exactly the middle segment. *)
Lemma overwrite_app {A} off (a m b new : list A) :
  zlen a = off -> zlen new = zlen m -> overwrite off new (a ++ m ++ b) = a ++ new ++ b.
Proof.
  intros Ha Hm. unfold overwrite. rewrite first_app by done.
  do 2 f_equal. rewrite (app_assoc a m b). apply skip_app. rewrite zlen_app. lia.
Qed.

Lemma zlen_overwrite {A} off (new l : list A) :
  0 <= off -> off + zlen new <= zlen l -> zlen (overwrite off new l) = zlen l.
Proof.
  intros. pose proof (zlen_nonneg new). unfold overwrite.
  rewrite !zlen_app, zlen_first, zlen_skip by lia. lia.
Qed.

(** Little-endian round trip: exact modulo the width, and exact in range. *)
Lemma le_combine_split n z : le_combine (le_split n z) = z `mod` 256 ^ Z.of_nat n.
Proof.
  revert z. induction n as [|n IH]; intros z; [by rewrite Z.mod_1_r|].
  rewrite Nat2Z.inj_succ, Z.pow_succ_r by lia.
  simpl. rewrite IH.
  rewrite Z.rem_mul_r by lia. done.
Qed.

Lemma le_combine_split_id n z :
  0 <= z < 256 ^ Z.of_nat n -> le_combine (le_split n z) = z.
Proof. intros. rewrite le_combine_split. by apply Z.mod_small. Qed.

Lemma le_combine_bound l : Forall is_u8 l -> 0 <= le_combine l < 256 ^ zlen l.
Proof.
  induction 1 as [|b l Hb _ IH]; [done|].
  rewrite zlen_cons, Z.pow_add_r by (pose proof (zlen_nonneg l); lia).
  unfold is_u8 in Hb. simpl in *. lia.
Qed.

Lemma le_split_combine l : Forall is_u8 l -> le_split (length l) (le_combine l) = l.
Proof.
  induction 1 as [|b l Hb _ IH]; [done|].
  unfold is_u8 in Hb. simpl in *.
  assert ((b + 256 * le_combine l) `mod` 256 = b) as -> by lia.
  assert ((b + 256 * le_combine l) `div` 256 = le_combine l) as -> by lia.
  by rewrite IH.
Qed.

Lemma le_split_u8 n z : Forall is_u8 (le_split n z).
Proof.
  revert z. induction n as [|n IH]; intros z; constructor; [|done].
  unfold is_u8. lia.
Qed.

Lemma le_split_wrap n z : le_split n (z `mod` 256 ^ Z.of_nat n) = le_split n z.
Proof.
  rewrite <-le_combine_split.
  pose proof (le_split_combine (le_split n z) (le_split_u8 n z)) as H.
  pose proof (zlen_le_split n z) as Hl. unfold zlen in Hl.
  by replace (length (le_split n z)) with n in H by lia.
Qed.

Lemma u8_id z : is_u8 z -> u8 z = z.
Proof. apply Z.mod_small. Qed.
Lemma u16_id z : is_u16 z -> u16 z = z.
Proof. apply Z.mod_small. Qed.
Lemma u32_id z : is_u32 z -> u32 z = z.
Proof. apply Z.mod_small. Qed.
Lemma u64_id z : is_u64 z -> u64 z = z.
Proof. apply Z.mod_small. Qed.
Lemma u64_range z : is_u64 (u64 z).
Proof. apply Z.mod_pos_bound. lia. Qed.
Lemma u16_range z : is_u16 (u16 z).
Proof. unfold is_u16, u16. apply Z.mod_pos_bound. lia. Qed.
Lemma u32_range z : is_u32 (u32 z).
Proof. apply Z.mod_pos_bound. lia. Qed.

Lemma str_u8 s : Forall is_u8 (str s).
Proof.
  induction s as [|c s IH]; constructor; [|done].
  pose proof (Ascii.N_ascii_bounded c). unfold is_u8. simpl. lia.
Qed.

Lemma beq_true a b : beq a b = true <-> a = b.
Proof. apply bool_decide_eq_true. Qed.
Lemma beq_false a b : beq a b = false <-> a <> b.
Proof. apply bool_decide_eq_false. Qed.
Lemma beq_refl a : beq a a = true.
Proof. by apply beq_true. Qed.

(** ** Laws of the ordered map *)

Lemma bytes_ltb_irrefl a : bytes_ltb a a = false.
Proof. induction a as [|x a IH]; [done|]. simpl. rewrite IH. zif; done. Qed.

Lemma bytes_ltb_asym a b : bytes_ltb a b = true -> bytes_ltb b a = false.
Proof.
  revert b. induction a as [|x a IH]; intros [|y b]; simpl; try done.
  zif; simpl; auto.
Qed.

Lemma bytes_ltb_trans a b c : bytes_ltb a b = true -> bytes_ltb b c = true -> bytes_ltb a c = true.
Proof.
  revert b c. induction a as [|x a IH]; intros [|y b] [|z c]; simpl; try done.
  zif; simpl; try done. apply IH.
Qed.

Lemma bytes_ltb_total a b : bytes_ltb a b = false -> a <> b -> bytes_ltb b a = true.
Proof.
  revert b. induction a as [|x a IH]; intros [|y b]; simpl; try done.
  zif; simpl; try done. intros Hl Hn. apply IH; [done|congruence].
Qed.

(** The keys of a [std::map] are in strictly increasing order. *)
Definition keys_sorted {A} (m : list (bytes * A)) : Prop :=
  StronglySorted (fun a b => bytes_ltb a b = true) (fst <$> m).
#[export] Instance keys_sorted_dec {A} (m : list (bytes * A)) : Decision (keys_sorted m).
Proof. unfold keys_sorted. apply _. Defined.

Lemma omap_emplace_snoc {A} k (v : A) m :
  Forall (fun e => bytes_ltb e.1 k = true) m -> omap_emplace k v m = m ++ [(k, v)].
Proof.
  induction 1 as [|[k' v'] m Hk _ IH]; [done|]. simpl in *.
  rewrite (bytes_ltb_asym _ _ Hk). destruct (beq k k') eqn:E; [|by rewrite IH].
  apply beq_true in E as ->. by rewrite bytes_ltb_irrefl in Hk.
Qed.

Lemma keys_sorted_app_inv {A} (m1 m2 : list (bytes * A)) k v :
  keys_sorted (m1 ++ (k, v) :: m2) -> Forall (fun e => bytes_ltb e.1 k = true) m1.
Proof.
  unfold keys_sorted. rewrite fmap_app. intros H. apply Forall_forall. intros [k' v'] Hin.
  apply (StronglySorted_app_1_elem_of _ _ _ _ k H); [|by left].
  apply list_elem_of_fmap. by exists (k', v').
Qed.

Lemma omap_emplace_elem {A} k (v : A) m e : e ∈ omap_emplace k v m -> e = (k, v) \/ e ∈ m.
Proof.
  induction m as [|[k' v'] m IH]; simpl; [set_solver|].
  destruct (bytes_ltb k k'); [by intros ?%elem_of_cons|]. destruct (beq k k'); [by right|].
  rewrite !elem_of_cons. tauto.
Qed.

Lemma keys_sorted_cons {A} k (v : A) m :
  keys_sorted ((k, v) :: m) <-> keys_sorted m /\ forall e, e ∈ m -> bytes_ltb k e.1 = true.
Proof.
  unfold keys_sorted. rewrite fmap_cons. split.
  - intros H. apply StronglySorted_inv in H as [H1 H2]. split; [done|]. intros e He.
    eapply Forall_forall in H2; [exact H2|]. by apply list_elem_of_fmap_2.
  - intros [H1 H2]. constructor; [done|]. apply Forall_forall. intros x Hx.
    apply list_elem_of_fmap in Hx as (e & -> & He). by apply H2.
Qed.

Lemma omap_emplace_sorted {A} k (v : A) m : keys_sorted m -> keys_sorted (omap_emplace k v m).
Proof.
  induction m as [|[k' v'] m IH]; intros Hs; simpl.
  { apply keys_sorted_cons. split; [done|]. set_solver. }
  pose proof Hs as [Hm Hk]%keys_sorted_cons.
  destruct (bytes_ltb k k') eqn:E1.
  { apply keys_sorted_cons. split; [done|]. intros e [->|He]%elem_of_cons; [done|].
    eapply bytes_ltb_trans; [exact E1|]. by apply Hk. }
  destruct (beq k k') eqn:E2; [done|]. apply beq_false in E2.
  apply keys_sorted_cons. split; [by apply IH|].
  intros e [->|He]%omap_emplace_elem; [|by apply Hk]. by apply bytes_ltb_total.
Qed.

Lemma omap_emplace_perm {A} k (v : A) m : k ∉ (fst <$> m) -> omap_emplace k v m ≡ₚ (k, v) :: m.
Proof.
  induction m as [|[k' v'] m IH]; intros Hk; [done|]. cbn [omap_emplace].
  rewrite fmap_cons, not_elem_of_cons in Hk. destruct Hk as [Hne Hk]. simpl in Hne.
  destruct (bytes_ltb k k'); [done|]. rewrite (proj2 (beq_false k k')) by done.
  rewrite IH by done. constructor.
Qed.

Lemma omap_set_elem {A} k (v : A) m e : e ∈ omap_set k v m -> e = (k, v) \/ e ∈ m.
Proof.
  induction m as [|[k' v'] m IH]; cbn [omap_set]; [by intros ->%list_elem_of_singleton; left|]. destruct (bytes_ltb k k'); [by intros ?%elem_of_cons|].
  destruct (beq k k'); [intros [->|?]%elem_of_cons; [by left|by right; apply list_elem_of_further]|]. intros [->|He]%elem_of_cons; [right; apply list_elem_of_here|]. destruct (IH He) as [->|?]; [by left|right; by apply list_elem_of_further].
Qed.

Lemma omap_set_keys {A} k (v : A) m k' : k' ∈ (fst <$> omap_set k v m) <-> k' = k \/ k' ∈ (fst <$> m).
Proof.
  induction m as [|[k1 v1] m IH]; cbn [omap_set]; [cbn; rewrite list_elem_of_singleton, elem_of_nil; tauto|].
  destruct (bytes_ltb k k1); [by rewrite !fmap_cons, !elem_of_cons|].
  destruct (beq k k1) eqn:E; rewrite !fmap_cons, !elem_of_cons; [apply beq_true in E as <-; tauto|]. rewrite IH. tauto.
Qed.

Lemma omap_set_sorted {A} k (v : A) m : keys_sorted m -> keys_sorted (omap_set k v m).
Proof.
  induction m as [|[k1 v1] m IH]; intros Hs; cbn [omap_set]; [apply keys_sorted_cons; split; [done|set_solver]|]. pose proof Hs as [Hm Hk]%keys_sorted_cons. destruct (bytes_ltb k k1) eqn:E1.
  { apply keys_sorted_cons. split; [done|]. intros e [->|He]%elem_of_cons; [done|]. eapply bytes_ltb_trans; [exact E1|]. by apply Hk. }
  destruct (beq k k1) eqn:E2; [apply beq_true in E2 as <-; by apply keys_sorted_cons|]. apply beq_false in E2. apply keys_sorted_cons. split; [by apply IH|].
  intros e [->|He]%omap_set_elem; [|by apply Hk]. by apply bytes_ltb_total.
Qed.

(** ** Signed integers *)

Lemma sint_id w z : 0 < w -> - 2 ^ (w - 1) <= z < 2 ^ (w - 1) -> sint w (z `mod` 2 ^ w) = z.
Proof.
  intros Hw Hz. unfold sint. assert (2 ^ w = 2 * 2 ^ (w - 1)) as E by (rewrite <-Z.pow_succ_r by lia; f_equal; lia).
  rewrite Z.add_mod_idemp_l by lia. rewrite Z.mod_small by lia. lia.
Qed.

(** ** Reader laws *)

Lemma reader_bind_eq {A B} (m : reader A) (k : A -> reader B) c x c' :
  m c = Some (x, c') -> (m ≫= k) c = k x c'.
Proof. unfold mbind, reader_bind. by intros ->. Qed.

Lemma rd_take_app n p a b :
  zlen a = n -> rd_take n (Cursor p (a ++ b)) = Some (a, Cursor (p + n) b).
Proof.
  intros Ha. unfold rd_take. simpl. pose proof (zlen_nonneg a). pose proof (zlen_nonneg b).
  rewrite bool_decide_true by (rewrite zlen_app; lia).
  by rewrite first_app, skip_app.
Qed.

Lemma rd_take_all n p a :
  zlen a = n -> rd_take n (Cursor p a) = Some (a, Cursor (p + n) []).
Proof. intros Ha. by rewrite <-(app_nil_r a) at 1; rewrite rd_take_app. Qed.

Lemma rd_assert_true P `{Decision P} c : P -> rd_assert P c = Some (tt, c).
Proof. intros. unfold rd_assert. by rewrite bool_decide_true. Qed.

(** Rules for [runs]. *)
Lemma runs_bind {S A B} (m : stateful S A) (k : A -> stateful S B) s Q : runs m s (fun x s' => runs (k x) s' Q) -> runs (m ≫= k) s Q.
Proof. unfold runs, mbind, stateful_bind. by destruct (m s) as [[]|]. Qed.
Lemma runs_ret {S A} (x : A) s (Q : A -> S -> Prop) : Q x s -> runs (mret x) s Q.
Proof. done. Qed.
Lemma runs_mono {S A} (m : stateful S A) s (P Q : A -> S -> Prop) : runs m s P -> (forall x s', P x s' -> Q x s') -> runs m s Q.
Proof. unfold runs. destruct (m s) as [[x s']|]; [intros H HQ; by apply HQ|done]. Qed.
Lemma runs_done {S A} (m : stateful S A) s Q : runs m s Q <-> exists x s', m s = Done (x, s') /\ Q x s'.
Proof. unfold runs. destruct (m s) as [[x s']|]; split; [intros H; by exists x, s'|by intros (y & t & [= <- <-] & H)|done|by intros (y & t & [=] & _)]. Qed.

Lemma join_cons {A} (x : list A) xs : mjoin (x :: xs) = x ++ mjoin xs.
Proof. done. Qed.

Lemma rd_times_spec {A B} (m : reader B) (g : A -> B) (enc : A -> bytes) (xs : list A) p rest :
  (forall x q r, x ∈ xs -> m (Cursor q (enc x ++ r)) = Some (g x, Cursor (q + zlen (enc x)) r)) ->
  rd_times (length xs) m (Cursor p (mjoin (enc <$> xs) ++ rest))
  = Some (g <$> xs, Cursor (p + zlen (mjoin (enc <$> xs))) rest).
Proof.
  revert p. induction xs as [|x xs IH]; intros p Hm.
  - simpl. unfold mret, reader_ret. do 3 f_equal. rewrite zlen_nil. lia.
  - rewrite fmap_cons, join_cons, <-app_assoc. cbn [length rd_times].
    erewrite reader_bind_eq by (apply Hm; set_solver).
    erewrite reader_bind_eq by (apply IH; set_solver).
    unfold mret, reader_ret. rewrite zlen_app. do 3 f_equal. lia.
Qed.

Lemma to_nat_zlen {A} (l : list A) : Z.to_nat (zlen l) = length l.
Proof. apply Nat2Z.id. Qed.

(** The length of a concatenation whose pieces have known sizes. *)
Definition sum (l : list Z) : Z := foldr Z.add 0 l.

Lemma zlen_join {A} (xs : list (list A)) : zlen (mjoin xs) = sum (zlen <$> xs).
Proof.
  induction xs as [|x xs IH]; [done|]. rewrite join_cons, zlen_app, IH. done.
Qed.

Lemma zlen_join_size {A B} (f : A -> list B) (size : A -> Z) (xs : list A) :
  (forall x, x ∈ xs -> zlen (f x) = size x) -> zlen (mjoin (f <$> xs)) = sum (size <$> xs).
Proof.
  intros H. rewrite zlen_join. f_equal. rewrite <-list_fmap_compose.
  apply list_fmap_ext. intros i x Hi. apply H. by eapply list_elem_of_lookup_2.
Qed.

Lemma sum_perm l l' : l ≡ₚ l' -> sum l = sum l'.
Proof. unfold sum. induction 1; simpl; lia. Qed.

Lemma sum_const {A} (c : Z) (xs : list A) : sum ((fun _ => c) <$> xs) = c * zlen xs.
Proof.
  induction xs as [|x xs IH]; [unfold zlen; simpl; lia|]. cbn. unfold sum in IH. rewrite IH, zlen_cons. lia.
Qed.

(** ** Bits *)

Lemma lor_shiftl a b n : 0 <= n -> 0 <= b < 2 ^ n -> Z.lor (Z.shiftl a n) b = a * 2 ^ n + b.
Proof.
  intros Hn Hb. rewrite Z.shiftl_mul_pow2 by done. pose proof (Z.add_lor_land (a * 2 ^ n) b) as H.
  assert (Z.land (a * 2 ^ n) b = 0) as E; [|lia]. destruct (decide (b = 0)) as [->|]; [by rewrite Z.land_0_r|].
  apply Z.bits_inj'. intros i Hi. rewrite Z.land_spec, Z.bits_0.
  destruct (Z.ltb_spec i n); [by rewrite Z.mul_pow2_bits_low|]. rewrite andb_comm, (Z.bits_above_log2 b); [done|lia|]. apply Z.log2_lt_pow2; [lia|]. eapply Z.lt_le_trans; [apply Hb|]. apply Z.pow_le_mono_r; lia.
Qed.

(** ** Filters *)

Section Filters.
Context {A} (P : A -> Prop) `{forall x, Decision (P x)}.

Lemma filter_all (l : list A) : (forall x, x ∈ l -> P x) -> filter P l = l.
Proof.
  induction l as [|x l IH]; intros Hp; [done|]. rewrite filter_cons_True by (apply Hp; by left).
  rewrite IH; [done|]. intros y Hy. apply Hp. by right.
Qed.

Lemma filter_none (l : list A) : Forall (fun x => ~ P x) l -> filter P l = [].
Proof. induction 1 as [|x l Hx _ IH]; [done|]. by rewrite filter_cons, decide_False. Qed.

Lemma Forall_filter_sub (Q : A -> Prop) (l : list A) : Forall Q l -> Forall Q (filter P l).
Proof.
  intros HQ. apply Forall_forall. intros x Hx. apply list_elem_of_filter in Hx as [_ Hx].
  by eapply Forall_forall in HQ.
Qed.

End Filters.
