(* ===== verification/Bytes.v ===== *)
(** * Bytes: fixed-width and length-encoded integers

    The store/load primitives of [src/src/codec/byte_decoder.h] and the
    length-encoded integers of [src/src/obaccess/ob_mysql_packet.cpp].  A store
    [xxstore(T, A)] is the list of bytes it leaves at [T], [T+1], ...; the host is
    little-endian (x86-64), as the casts of the source assume. *)

From S2P Require Import Prelude.

#[local] Open Scope Z_scope.
#[local] Ltac Zify.zify_post_hook ::= Z.to_euclidean_division_equations.

(** ** byte_decoder.h: little-endian stores *)

Definition int1store (A : Z) : bytes := [u8 A].
Definition int2store (A : Z) : bytes := le_split 2 (u16 A).
Definition int4store (A : Z) : bytes := le_split 4 (u32 A).
Definition int8store (A : Z) : bytes := le_split 8 (u64 A).

Definition int3store (A : Z) : bytes :=
  let A := u32 A in
  [u8 A; u8 (Z.shiftr A 8); u8 (Z.shiftr A 16)].

Definition int5store (A : Z) : bytes :=
  let A := u64 A in
  [u8 A; u8 (Z.shiftr A 8); u8 (Z.shiftr A 16); u8 (Z.shiftr A 24); u8 (Z.shiftr A 32)].

Definition int6store (A : Z) : bytes :=
  let A := u64 A in
  [u8 A; u8 (Z.shiftr A 8); u8 (Z.shiftr A 16); u8 (Z.shiftr A 24); u8 (Z.shiftr A 32);
   u8 (Z.shiftr A 40)].

(** [int_variable_store]: the default branch writes nothing. *)
Definition int_variable_store (A variable : Z) : bytes :=
  match variable with
  | 1 => int1store A
  | 2 => int2store A
  | 3 => int3store A
  | 4 => int4store A
  | 5 => int5store A
  | 6 => int6store A
  | 8 => int8store A
  | _ => []
  end.

(** ** Big-endian stores *)

Definition be_int2store (A : Z) : bytes :=
  let temp := u16 A in [u8 (Z.shiftr temp 8); u8 temp].

Definition be_int3store (A : Z) : bytes :=
  let A := u32 A in [u8 (Z.shiftr A 16); u8 (Z.shiftr A 8); u8 A].

Definition be_int4store (A : Z) : bytes :=
  let A := u32 A in [u8 (Z.shiftr A 24); u8 (Z.shiftr A 16); u8 (Z.shiftr A 8); u8 A].

Definition be_int5store (A : Z) : bytes :=
  let A := u64 A in
  [u8 (Z.shiftr A 32); u8 (Z.shiftr A 24); u8 (Z.shiftr A 16); u8 (Z.shiftr A 8); u8 A].

Definition hf_int1store (A : Z) : bytes := [u8 A].

Definition hf_int2store (A : Z) : bytes :=
  let def_temp := u16 A in [u8 (Z.shiftr def_temp 8); u8 def_temp].

Definition hf_int3store (A : Z) : bytes :=
  let def_temp := u32 A in [u8 (Z.shiftr def_temp 16); u8 (Z.shiftr def_temp 8); u8 def_temp].

Definition hf_int4store (A : Z) : bytes :=
  let def_temp := u32 A in
  [u8 (Z.shiftr def_temp 24); u8 (Z.shiftr def_temp 16); u8 (Z.shiftr def_temp 8); u8 def_temp].

Definition hf_int5store (A : Z) : bytes :=
  let def_temp := u64 A in
  let def_temp2 := Z.shiftr (u64 A) 32 in
  [u8 def_temp2; u8 (Z.shiftr def_temp 24); u8 (Z.shiftr def_temp 16); u8 (Z.shiftr def_temp 8);
   u8 def_temp].

Definition hf_int6store (A : Z) : bytes :=
  let def_temp := u64 A in
  let def_temp2 := Z.shiftr (u64 A) 32 in
  [u8 (Z.shiftr def_temp2 8); u8 def_temp2; u8 (Z.shiftr def_temp 24); u8 (Z.shiftr def_temp 16);
   u8 (Z.shiftr def_temp 8); u8 def_temp].

Definition hf_int7store (A : Z) : bytes :=
  let def_temp := u64 A in
  let def_temp2 := Z.shiftr (u64 A) 32 in
  [u8 (Z.shiftr def_temp2 16); u8 (Z.shiftr def_temp2 8); u8 def_temp2; u8 (Z.shiftr def_temp 24);
   u8 (Z.shiftr def_temp 16); u8 (Z.shiftr def_temp 8); u8 def_temp].

Definition hf_int8store (A : Z) : bytes :=
  let def_temp3 := u64 A in
  let def_temp4 := Z.shiftr (u64 A) 32 in
  hf_int4store def_temp4 ++ hf_int4store def_temp3.

(** ** Loads *)

Definition int1load (T : bytes) : Z := le_combine (first 1 T).
Definition int2load (T : bytes) : Z := le_combine (first 2 T).
Definition int4load (T : bytes) : Z := le_combine (first 4 T).
Definition int8load (T : bytes) : Z := le_combine (first 8 T).

Definition int6load (T : bytes) : Z :=
  let t i := nth i T 0 in
  u64 (u32 (t 0%nat + Z.shiftl (t 1%nat) 8 + Z.shiftl (t 2%nat) 16 + Z.shiftl (t 3%nat) 24)
       + Z.shiftl (t 4%nat) 32 + Z.shiftl (t 5%nat) 40).

(** [fill_bit_map]: [bytes] bytes of ones. *)
Definition fill_bit_map (n : Z) : bytes := replicate (Z.to_nat n) 255.

(** ** Length-encoded integers *)

(** [packet_store_length]: 251 is reserved for NULL. *)
Definition packet_store_length (length : Z) : bytes :=
  if length <? 251 then [u8 length]
  else if length <? 65536 then 252 :: int2store length
  else if length <? 16777216 then 253 :: int3store length
  else 254 :: int8store length.

(** [write_lenenc_uint]: [None] is [OMS_FAILED].  The 3-byte case copies
    from one byte past the start of [num], that is bytes 1..3 of the little-endian [num]. *)
Definition write_lenenc_uint (capacity integer : Z) : option bytes :=
  if integer <? 251 then
    if 1 <=? capacity then Some [u8 integer] else None
  else if integer <? Z.shiftl 1 16 then
    if 3 <=? capacity then Some (252 :: le_split 2 (u16 integer)) else None
  else if integer <? Z.shiftl 1 24 then
    if 4 <=? capacity then Some (253 :: first 3 (skip 1 (le_split 4 (u32 integer)))) else None
  else if integer <? 2 ^ 64 - 1 then
    if 9 <=? capacity then Some (254 :: le_split 8 (u64 integer)) else None
  else if integer =? 2 ^ 64 - 1 then
    if 1 <=? capacity then Some [251] else None
  else None.

(** [get_lenenc_uint(buf, pos)]: the value read and the new [pos]; every width is
    read into a 32-bit [tmp]. *)
Definition get_lenenc_uint (buf : bytes) (pos : Z) : Z * Z :=
  let num := nth (Z.to_nat pos) buf 0 in
  if num <? 251 then (num, pos + 1)
  else if num =? 251 then (2 ^ 64 - 1, pos + 1)
  else if num =? 252 then (le_combine (first 2 (skip (pos + 1) buf)), pos + 3)
  else if num =? 253 then (le_combine (first 3 (skip (pos + 1) buf)), pos + 4)
  else (le_combine (first 4 (skip (pos + 1) buf)), pos + 9).

Definition get_packed_integer (val : Z) : Z :=
  if val <? 251 then 1
  else if val <? Z.shiftl 2 16 then 3
  else if val <? Z.shiftl 2 24 then 4
  else 9.

(** [write_null_terminate_string]: copies [len] bytes and a NUL. *)
Definition write_null_terminate_string (capacity : Z) (s : bytes) : option bytes :=
  if zlen s + 1 >? capacity then None else Some (s ++ [0]).

(** [write_string] *)
Definition write_string (capacity : Z) (s : bytes) : option bytes :=
  if zlen s >? capacity then None else Some s.

(** ** Lemmas *)

(** Reference big-endian representation. *)
Definition be_split (n : nat) (z : Z) : bytes := rev (le_split n z).
Lemma zlen_be_split n z : zlen (be_split n z) = Z.of_nat n.
Proof. unfold be_split, zlen. rewrite length_rev. apply (zlen_le_split n z). Qed.

(** [solve_store] reduces a store written with shifts to the reference split. *)
Ltac solve_store :=
  unfold be_split, u8, u16, u32, u64; cbn [le_split rev app];
  rewrite ?Z.shiftr_shiftr, ?Z.shiftr_div_pow2 by lia;
  rewrite ?Z.div_div by lia;
  change (2 ^ 8) with 256; change (2 ^ 16) with 65536; change (2 ^ 24) with 16777216;
  change (2 ^ 32) with 4294967296; change (2 ^ 40) with 1099511627776;
  change (2 ^ 48) with 281474976710656; change (2 ^ 64) with 18446744073709551616;
  repeat match goal with |- _ :: _ = _ :: _ => f_equal end; try reflexivity; try lia.

Lemma int1store_le A : int1store A = le_split 1 A.
Proof. done. Qed.
Lemma int2store_le A : int2store A = le_split 2 A.
Proof. apply (le_split_wrap 2 A). Qed.
Lemma int3store_le A : int3store A = le_split 3 A.
Proof. unfold int3store. solve_store. Qed.
Lemma int4store_le A : int4store A = le_split 4 A.
Proof. apply (le_split_wrap 4 A). Qed.
Lemma int5store_le A : int5store A = le_split 5 A.
Proof. unfold int5store. solve_store. Qed.
Lemma int6store_le A : int6store A = le_split 6 A.
Proof. unfold int6store. solve_store. Qed.
Lemma int8store_le A : int8store A = le_split 8 A.
Proof. apply (le_split_wrap 8 A). Qed.

Lemma be_int2store_be A : be_int2store A = be_split 2 A.
Proof. unfold be_int2store. solve_store. Qed.
Lemma be_int3store_be A : be_int3store A = be_split 3 A.
Proof. unfold be_int3store. solve_store. Qed.
Lemma be_int4store_be A : be_int4store A = be_split 4 A.
Proof. unfold be_int4store. solve_store. Qed.
Lemma be_int5store_be A : be_int5store A = be_split 5 A.
Proof. unfold be_int5store. solve_store. Qed.
Lemma hf_int4store_be A : hf_int4store A = be_split 4 A.
Proof. unfold hf_int4store. solve_store. Qed.
Lemma hf_int5store_be A : hf_int5store A = be_split 5 A.
Proof. unfold hf_int5store. solve_store. Qed.
Lemma hf_int6store_be A : hf_int6store A = be_split 6 A.
Proof. unfold hf_int6store. solve_store. Qed.
Lemma hf_int7store_be A : hf_int7store A = be_split 7 A.
Proof. unfold hf_int7store. solve_store. Qed.
Lemma hf_int8store_be A : hf_int8store A = be_split 8 A.
Proof.
  unfold hf_int8store. cbn zeta. rewrite !hf_int4store_be. solve_store.
Qed.

Lemma zlen_int1store A : zlen (int1store A) = 1.
Proof. done. Qed.
Lemma zlen_int2store A : zlen (int2store A) = 2.
Proof. done. Qed.
Lemma zlen_int4store A : zlen (int4store A) = 4.
Proof. done. Qed.
Lemma zlen_int6store A : zlen (int6store A) = 6.
Proof. done. Qed.
Lemma zlen_int8store A : zlen (int8store A) = 8.
Proof. done. Qed.

#[export] Hint Rewrite zlen_int1store zlen_int2store zlen_int4store zlen_int6store
  zlen_int8store : len.

(** Loading what a store of the same width left. *)
Lemma load_split n A rest :
  0 <= A < 256 ^ Z.of_nat n -> le_combine (first (Z.of_nat n) (le_split n A ++ rest)) = A.
Proof.
  intros. rewrite first_app by apply zlen_le_split. by apply le_combine_split_id.
Qed.

Lemma int1load_store A rest : is_u8 A -> int1load (int1store A ++ rest) = A.
Proof. rewrite int1store_le. intros. by apply (load_split 1). Qed.
Lemma int2load_store A rest : is_u16 A -> int2load (int2store A ++ rest) = A.
Proof. rewrite int2store_le. intros. by apply (load_split 2). Qed.
Lemma int4load_store A rest : is_u32 A -> int4load (int4store A ++ rest) = A.
Proof. rewrite int4store_le. intros. by apply (load_split 4). Qed.
Lemma int8load_store A rest : is_u64 A -> int8load (int8store A ++ rest) = A.
Proof. rewrite int8store_le. intros. by apply (load_split 8). Qed.
Lemma int6load_store A rest : 0 <= A < 2 ^ 48 -> int6load (int6store A ++ rest) = A.
Proof.
  intros HA. rewrite int6store_le. unfold int6load, u64, u32. cbn [le_split nth app].
  rewrite !Z.shiftl_mul_pow2 by lia. rewrite !Z.div_div by lia.
  change (2 ^ 8) with 256. change (2 ^ 16) with 65536. change (2 ^ 24) with 16777216.
  change (2 ^ 32) with 4294967296. change (2 ^ 40) with 1099511627776.
  change (2 ^ 48) with 281474976710656 in HA. change (2 ^ 64) with 18446744073709551616. lia.
Qed.

(** ** Readers used by the [deserialize] functions *)

Definition rd1 : reader Z := b ← rd_take 1; mret (int1load b).
Definition rd2 : reader Z := b ← rd_take 2; mret (int2load b).
Definition rd4 : reader Z := b ← rd_take 4; mret (int4load b).
Definition rd6 : reader Z := b ← rd_take 6; mret (int6load b).
Definition rd8 : reader Z := b ← rd_take 8; mret (int8load b).

(** [get_lenenc_uint(buff, pos)] with [pos] taken by reference; reading past the
    buffer is refused. *)
Definition rd_lenenc : reader Z := fun c =>
  let '(v, n) := get_lenenc_uint (cur_rest c) 0 in
  if bool_decide (cur_rest c <> [] /\ n <= zlen (cur_rest c))
  then Some (v, Cursor (cur_pos c + n) (skip n (cur_rest c))) else None.

Lemma rd_load_store (n : Z) (load : bytes -> Z) (a : bytes) A p r :
  zlen a = n -> load (a ++ []) = A ->
  (b ← rd_take n; mret (load b)) (Cursor p (a ++ r)) = Some (A, Cursor (p + n) r).
Proof.
  intros Hn HA. rewrite app_nil_r in HA.
  erewrite reader_bind_eq by (by apply rd_take_app).
  unfold mret, reader_ret. by rewrite HA.
Qed.

Lemma rd1_store A p r : is_u8 A -> rd1 (Cursor p (int1store A ++ r)) = Some (A, Cursor (p + 1) r).
Proof. intros. apply rd_load_store; [done|]. by apply int1load_store. Qed.
Lemma rd2_store A p r : is_u16 A -> rd2 (Cursor p (int2store A ++ r)) = Some (A, Cursor (p + 2) r).
Proof. intros. apply rd_load_store; [done|]. by apply int2load_store. Qed.
Lemma rd4_store A p r : is_u32 A -> rd4 (Cursor p (int4store A ++ r)) = Some (A, Cursor (p + 4) r).
Proof. intros. apply rd_load_store; [done|]. by apply int4load_store. Qed.
Lemma rd6_store A p r :
  0 <= A < 2 ^ 48 -> rd6 (Cursor p (int6store A ++ r)) = Some (A, Cursor (p + 6) r).
Proof. intros. apply rd_load_store; [done|]. by apply int6load_store. Qed.
Lemma rd8_store A p r : is_u64 A -> rd8 (Cursor p (int8store A ++ r)) = Some (A, Cursor (p + 8) r).
Proof. intros. apply rd_load_store; [done|]. by apply int8load_store. Qed.

(** ** Length-encoded integers: what holds, and where it stops holding *)

(** The values [write_lenenc_uint]/[get_lenenc_uint] transport faithfully. *)
Definition lenenc_ok (v : Z) : Prop :=
  0 <= v < 2 ^ 16 \/ 2 ^ 24 <= v < 2 ^ 32.

#[export] Instance lenenc_ok_dec v : Decision (lenenc_ok v).
Proof. unfold lenenc_ok. apply _. Defined.

Lemma le_combine_le_split_first n m v r :
  (m <= n)%nat -> le_combine (first (Z.of_nat m) (le_split n v ++ r)) = v `mod` 256 ^ Z.of_nat m.
Proof.
  revert n v. induction m as [|m IH]; intros n v Hm.
  - by rewrite Z.mod_1_r.
  - destruct n as [|n]; [lia|]. rewrite Nat2Z.inj_succ, Z.pow_succ_r by lia.
    replace (first (Z.succ (Z.of_nat m)) (le_split (S n) v ++ r))
      with (v `mod` 256 :: first (Z.of_nat m) (le_split n (v `div` 256) ++ r)).
    + cbn [le_combine]. rewrite IH by lia. rewrite Z.rem_mul_r by lia. done.
    + unfold first. cbn [le_split app].
      by replace (Z.to_nat (Z.succ (Z.of_nat m))) with (S (Z.to_nat (Z.of_nat m))) by lia.
Qed.

(** The encoding chosen by [write_lenenc_uint] with enough room, by cases. *)
Lemma write_lenenc_uint_cases cap v :
  9 <= cap -> 0 <= v < 2 ^ 64 ->
  (0 <= v < 251 /\ write_lenenc_uint cap v = Some [v]) \/
  (251 <= v < 2 ^ 16 /\ write_lenenc_uint cap v = Some (252 :: le_split 2 v)) \/
  (2 ^ 16 <= v < 2 ^ 24 /\ write_lenenc_uint cap v = Some (253 :: le_split 3 (v `div` 256))) \/
  (2 ^ 24 <= v < 2 ^ 64 - 1 /\ write_lenenc_uint cap v = Some (254 :: le_split 8 v)) \/
  (v = 2 ^ 64 - 1 /\ write_lenenc_uint cap v = Some [251]).
Proof.
  intros Hc Hv. unfold write_lenenc_uint.
  change (Z.shiftl 1 16) with (2 ^ 16). change (Z.shiftl 1 24) with (2 ^ 24).
  rewrite !(proj2 (Z.leb_le _ cap)) by lia.
  destruct (Z.ltb_spec v 251) as [H|H]; [left|right].
  { split; [lia|]. rewrite u8_id; [done|]. unfold is_u8. lia. }
  destruct (Z.ltb_spec v (2 ^ 16)); [left|right].
  { split; [lia|]. rewrite u16_id; [done|]. unfold is_u16. lia. }
  destruct (Z.ltb_spec v (2 ^ 24)); [left|right].
  { split; [lia|]. rewrite u32_id; [done|]. unfold is_u32. lia. }
  destruct (Z.ltb_spec v (2 ^ 64 - 1)); [left|right].
  { split; [lia|]. rewrite u64_id; [done|]. unfold is_u64. lia. }
  assert (v = 2 ^ 64 - 1) as -> by lia. by rewrite Z.eqb_refl.
Qed.

(** [get_lenenc_uint] at the boundary of a prefix reads the tag and what follows. *)
Lemma get_lenenc_uint_at pre tag l :
  get_lenenc_uint (pre ++ tag :: l) (zlen pre)
  = (if tag <? 251 then (tag, zlen pre + 1)
     else if tag =? 251 then (2 ^ 64 - 1, zlen pre + 1)
     else if tag =? 252 then (le_combine (first 2 l), zlen pre + 3)
     else if tag =? 253 then (le_combine (first 3 l), zlen pre + 4)
     else (le_combine (first 4 l), zlen pre + 9)).
Proof.
  unfold get_lenenc_uint.
  replace (nth (Z.to_nat (zlen pre)) (pre ++ tag :: l) 0) with tag
    by (unfold zlen; rewrite Nat2Z.id, app_nth2, Nat.sub_diag by lia; done).
  replace (skip (zlen pre + 1) (pre ++ tag :: l)) with l; [done|].
  symmetry. change (tag :: l) with ([tag] ++ l). rewrite app_assoc.
  apply skip_app. rewrite zlen_app. done.
Qed.

(** Reading back what [write_lenenc_uint] wrote, for every 64-bit value: the
    value arrives modulo the mistakes of the 3-byte and 8-byte cases. *)
Definition lenenc_readback (v : Z) : Z :=
  if v <? 2 ^ 16 then v
  else if v <? 2 ^ 24 then v `div` 256
  else if v =? 2 ^ 64 - 1 then v
  else v `mod` 2 ^ 32.

Lemma lenenc_readback_spec cap v e pre r :
  9 <= cap -> 0 <= v < 2 ^ 64 -> write_lenenc_uint cap v = Some e ->
  get_lenenc_uint (pre ++ e ++ r) (zlen pre) = (lenenc_readback v, zlen pre + zlen e).
Proof.
  intros Hc Hv He. unfold lenenc_readback.
  destruct (write_lenenc_uint_cases cap v Hc Hv) as [[? E]|[[? E]|[[? E]|[[? E]|[? E]]]]];
    (rewrite E in He; apply Some_inj in He; subst e; rewrite <-app_comm_cons, get_lenenc_uint_at;
     rewrite zlen_cons, ?zlen_le_split; zif; try done; f_equal; try lia).
  - rewrite (le_combine_le_split_first 2 2) by lia. rewrite Z.mod_small; lia.
  - rewrite (le_combine_le_split_first 3 3) by lia. rewrite Z.mod_small; lia.
  - by rewrite (le_combine_le_split_first 8 4) by lia.
Qed.

Lemma rd_lenenc_write cap v e p r :
  9 <= cap -> lenenc_ok v -> write_lenenc_uint cap v = Some e ->
  rd_lenenc (Cursor p (e ++ r)) = Some (v, Cursor (p + zlen e) r).
Proof.
  intros Hc Hv He. unfold lenenc_ok in Hv. unfold rd_lenenc. simpl.
  assert (0 <= v < 2 ^ 64) as Hv64 by lia.
  pose proof (lenenc_readback_spec cap v e [] r Hc Hv64 He) as Hrb.
  cbn [app] in Hrb. rewrite zlen_nil, Z.add_0_l in Hrb. rewrite Hrb.
  assert (e <> []) as Hne.
  { destruct (write_lenenc_uint_cases cap v Hc Hv64) as [[? E]|[[? E]|[[? E]|[[? E]|[? E]]]]];
      rewrite E in He; by destruct e. }
  rewrite bool_decide_true.
  2: { split; [by destruct e|]. rewrite zlen_app. pose proof (zlen_nonneg r). lia. }
  rewrite skip_app by done. do 2 f_equal. unfold lenenc_readback.
  destruct (Z.ltb_spec v (2 ^ 16)); [done|].
  rewrite (proj2 (Z.ltb_ge v _)), (proj2 (Z.eqb_neq v _)) by lia. by rewrite Z.mod_small by lia.
Qed.

(** ** Properties *)

(** For every width the code's [int_variable_store] supports, the store
    leaves the little-endian representation of the value reduced to that width,
    whichever of the cast or the byte-by-byte shifts implements it. *)
Theorem int_variable_store_spec A variable :
  variable ∈ [1; 2; 3; 4; 5; 6; 8] ->
  int_variable_store A variable = le_split (Z.to_nat variable) A /\
  le_combine (int_variable_store A variable) = A `mod` 2 ^ (8 * variable).
Proof.
  intros Hv.
  assert (int_variable_store A variable = le_split (Z.to_nat variable) A) as ->.
  { set_unfold in Hv. unfold int_variable_store. destruct_or!; subst; simpl.
    - done.
    - by rewrite int2store_le.
    - by rewrite int3store_le.
    - by rewrite int4store_le.
    - by rewrite int5store_le.
    - by rewrite int6store_le.
    - by rewrite int8store_le. }
  split; [done|]. rewrite le_combine_split.
  set_unfold in Hv. by destruct_or!; subst.
Qed.

Lemma int_variable_store_spec_witness :
  int_variable_store 305419896 3 = [120; 86; 52] /\
  le_combine (int_variable_store 305419896 3) = 305419896 `mod` 2 ^ 24.
Proof.
  split; [done|].
  apply (int_variable_store_spec 305419896 3). apply list_elem_of_In. simpl. tauto.
Defined.

(** Every big-endian store ([be_intNstore] and [hf_intNstore]) leaves the
    reverse of the little-endian representation of the value at its width. *)
Theorem be_store_spec A :
  be_int2store A = be_split 2 A /\ be_int3store A = be_split 3 A /\
  be_int4store A = be_split 4 A /\ be_int5store A = be_split 5 A /\
  hf_int1store A = be_split 1 A /\ hf_int2store A = be_split 2 A /\
  hf_int3store A = be_split 3 A /\ hf_int4store A = be_split 4 A /\
  hf_int5store A = be_split 5 A /\ hf_int6store A = be_split 6 A /\
  hf_int7store A = be_split 7 A /\ hf_int8store A = be_split 8 A.
Proof.
  split_and!;
    [ apply be_int2store_be | apply be_int3store_be | apply be_int4store_be
    | apply be_int5store_be | done | apply be_int2store_be | apply be_int3store_be
    | apply hf_int4store_be | apply hf_int5store_be | apply hf_int6store_be
    | apply hf_int7store_be | apply hf_int8store_be ].
Qed.

(** exact domain of the length-encoded round trip.  Reading back at the
    position where [write_lenenc_uint] wrote returns the value if and only if the
    value is not in the 3-byte range (where the writer copies the wrong bytes) nor
    in the part of the 8-byte range above 32 bits (where the reader truncates);
    the position always advances by the encoded length. *)
Theorem lenenc_roundtrip_iff cap v e pre r :
  9 <= cap -> 0 <= v < 2 ^ 64 -> write_lenenc_uint cap v = Some e ->
  (get_lenenc_uint (pre ++ e ++ r) (zlen pre) = (v, zlen pre + zlen e) <->
   ~ (2 ^ 16 <= v < 2 ^ 24) /\ ~ (2 ^ 32 <= v < 2 ^ 64 - 1)) /\
  (get_lenenc_uint (pre ++ e ++ r) (zlen pre)).2 = zlen pre + zlen e.
Proof.
  intros Hc Hv He. rewrite (lenenc_readback_spec cap v e) by done.
  split; [|done]. unfold lenenc_readback.
  split.
  - intros [= Hrb]. revert Hrb. zif; lia.
  - intros [? ?]. f_equal. zif.
Qed.

Lemma lenenc_roundtrip_iff_witness :
  9 <= 9 /\ 0 <= 70000 < 2 ^ 64 /\
  write_lenenc_uint 9 70000 = Some [253; 17; 1; 0] /\
  get_lenenc_uint ([7] ++ [253; 17; 1; 0] ++ []) 1 <> (70000, 5) /\
  (get_lenenc_uint ([7] ++ [253; 17; 1; 0] ++ []) (zlen [7])).2 = 5.
Proof.
  split_and!; [lia | lia | lia | done | | ].
  - intros H.
    destruct (lenenc_roundtrip_iff 9 70000 [253; 17; 1; 0] [7] []
                ltac:(lia) ltac:(lia) eq_refl) as [[Hr _] _].
    destruct (Hr H). lia.
  - by apply (lenenc_roundtrip_iff 9 70000 [253; 17; 1; 0] [7] []).
Defined.

(** [get_packed_integer], used to size row events, agrees with the length
    [write_lenenc_uint] really writes except on [2^16, 2^17) and [2^24, 2^25). *)
Theorem get_packed_integer_spec cap v e :
  9 <= cap -> 0 <= v < 2 ^ 64 - 1 -> write_lenenc_uint cap v = Some e ->
  (get_packed_integer v = zlen e <-> ~ (2 ^ 16 <= v < 2 ^ 17) /\ ~ (2 ^ 24 <= v < 2 ^ 25)).
Proof.
  intros Hc Hv He. unfold get_packed_integer.
  change (Z.shiftl 2 16) with (2 ^ 17). change (Z.shiftl 2 24) with (2 ^ 25).
  destruct (write_lenenc_uint_cases cap v Hc ltac:(lia)) as [[? E]|[[? E]|[[? E]|[[? E]|[? E]]]]];
    rewrite E in He; apply Some_inj in He; subst e;
    rewrite zlen_cons, ?zlen_nil, ?zlen_le_split; zif; simpl; lia.
Qed.

Lemma get_packed_integer_spec_witness :
  9 <= 9 /\ 0 <= 300 < 2 ^ 64 - 1 /\ write_lenenc_uint 9 300 = Some [252; 44; 1] /\
  get_packed_integer 300 = 3.
Proof.
  split_and!; [lia | lia | lia | done | ].
  apply (get_packed_integer_spec 9 300 [252; 44; 1]); [lia | lia | done | lia].
Defined.
