(* ===== verification/Str.v ===== *)
(** * Str: string helpers

    [src/src/common/str.cpp] (split, trim, pad), the hexadecimal helpers of
    [src/src/common/common.cpp] and [src/src/binlog/common_util.h], the decimal
    conversions of the C/C++ library the code relies on ([std::to_string],
    [atoll], [std::stol]) and line-by-line reading ([std::getline]). *)

From S2P Require Import Prelude.

#[local] Open Scope Z_scope.
#[local] Ltac Zify.zify_post_hook ::= Z.to_euclidean_division_equations.

(** ** Characters *)
Definition isspace (c : Z) : bool := (c =? 32) || ((9 <=? c) && (c <=? 13)).
Definition isdigit (c : Z) : bool := (48 <=? c) && (c <=? 57).
Definition isupper (c : Z) : bool := (65 <=? c) && (c <=? 90).
Definition tolower (c : Z) : Z := if isupper c then c + 32 else c.

(** [c_str()] read as a C string: up to the first NUL. *)
Fixpoint cstr (s : bytes) : bytes :=
  match s with
  | [] => []
  | c :: s => if c =? 0 then [] else c :: cstr s
  end.

Definition strcasecmp_eq (a b : bytes) : bool := beq (tolower <$> cstr a) (tolower <$> cstr b).

(** ** str.cpp: splitting *)

(** The loop of [split] and [split_all]: [cur] is the piece between [p_pre] and
    [p_cur], [flag] says that a separator was already used. *)
Fixpoint split_loop (is_sep : Z -> bool) (first flag : bool) (cur l : bytes) : list bytes :=
  match l with
  | [] => [cur]
  | c :: l =>
      if is_sep c && (negb first || negb flag)
      then cur :: split_loop is_sep first true [] l
      else split_loop is_sep first flag (cur ++ [c]) l
  end.

Definition split_all (s seps : bytes) (first : bool) : list bytes :=
  match s with
  | [] => []
  | _ => split_loop (fun c => bool_decide (c ∈ seps)) first false [] (cstr s)
  end.

Definition split (s : bytes) (sep : Z) (first : bool) : list bytes :=
  match s with
  | [] => []
  | _ => split_loop (fun c => c =? sep) first false [] (cstr s)
  end.

(** [join_vector_str] with its separator (common.h). *)
Fixpoint join_from (join_str sep : bytes) (parts : list bytes) : bytes :=
  match parts with
  | [] => join_str
  | p :: parts =>
      join_from (join_str ++ (match join_str with [] => [] | _ => sep end) ++ p) sep parts
  end.
Definition join_vector_str (parts : list bytes) (sep : bytes) : bytes := join_from [] sep parts.

(** ** str.cpp: trimming and padding *)

Fixpoint ltrim (s : bytes) : bytes :=
  match s with
  | [] => []
  | c :: s' => if isspace c then ltrim s' else s
  end.
Definition rtrim (s : bytes) : bytes := rev (ltrim (rev s)).
Definition trim (s : bytes) : bytes := rtrim (ltrim s).

(** [pad_left]: returns [nullptr] (no string) when the value is too long. *)
Definition pad_left (value : bytes) (size padding : Z) : option bytes :=
  let pad_len := size - zlen value in
  if pad_len >? 0 then Some (replicate (Z.to_nat pad_len) padding ++ value)
  else if pad_len =? 0 then Some value else None.

Definition pad_right (value : bytes) (size padding : Z) : bytes :=
  let pad_len := size - zlen value in
  if pad_len >? 0 then value ++ replicate (Z.to_nat pad_len) padding
  else value.

Fixpoint index_of (range : bytes) (c : Z) (i : Z) : Z :=
  match range with
  | [] => -1
  | x :: range => if x =? c then i else index_of range c (i + 1)
  end.

(** ** Decimal numbers *)

(** [std::to_string] on an unsigned value; 20 digits hold any 64-bit value. *)
Fixpoint dec_fuel (fuel : nat) (n : Z) : bytes :=
  match fuel with
  | O => []
  | S f => if n <? 10 then [48 + n] else dec_fuel f (n `div` 10) ++ [48 + n `mod` 10]
  end.
Definition to_dec (n : Z) : bytes := dec_fuel 20 n.

(** [std::to_string] on a signed 64-bit value. *)
Definition to_dec_signed (n : Z) : bytes := if n <? 0 then 45 :: to_dec (- n) else to_dec n.

Fixpoint digits_val (l : bytes) (acc : Z) : Z :=
  match l with
  | [] => acc
  | c :: l => if isdigit c then digits_val l (acc * 10 + (c - 48)) else acc
  end.

Definition read_sign (l : bytes) : bool * bytes :=
  match l with
  | c :: l' => if c =? 45 then (true, l') else if c =? 43 then (false, l') else (false, l)
  | [] => (false, [])
  end.

Definition LLONG_MAX : Z := 2 ^ 63 - 1.
Definition LLONG_MIN : Z := - 2 ^ 63.

(** The signed number at the head of a C string and whether a digit was read. *)
Definition read_number (s : bytes) : Z * bool :=
  let '(neg, l) := read_sign (ltrim (cstr s)) in
  let v := digits_val l 0 in
  (if neg then - v else v, match l with c :: _ => isdigit c | [] => false end).

(** [atoll]/[strtoll]: 0 without digits, clamped to the 64-bit range. *)
Definition atoll (s : bytes) : Z :=
  Z.max LLONG_MIN (Z.min LLONG_MAX (read_number s).1).

(** [std::stol]: [None] is the exception ([invalid_argument], [out_of_range]). *)
Definition stol (s : bytes) : option Z :=
  let '(v, ok) := read_number s in
  if ok && (LLONG_MIN <=? v) && (v <=? LLONG_MAX) then Some v else None.

(** ** common.cpp: hexadecimal *)

Definition hex_digit (h : Z) : Z := if 10 <=? h then h + 65 - 10 else h + 48.

(** [dumphex(data, size, hex)]: two upper-case digits per byte. *)
Definition dumphex (data : bytes) : bytes :=
  mjoin ((fun c => [hex_digit (Z.land (Z.shiftr c 4) 15); hex_digit (Z.land c 15)]) <$> data).

Definition hex_val (c : Z) : option Z :=
  if (48 <=? c) && (c <=? 57) then Some (c - 48)
  else if (65 <=? c) && (c <=? 70) then Some (c - 65 + 10)
  else if (97 <=? c) && (c <=? 102) then Some (c - 97 + 10)
  else None.

(** [hex2bin]: characters that are no digit are skipped; [last] holds the pending
    high half when an odd number of digits was seen. *)
Fixpoint hex2bin_loop (data : bytes) (last : option Z) : bytes :=
  match data with
  | [] => []
  | c :: data =>
      match hex_val c, last with
      | None, _ => hex2bin_loop data last
      | Some v, None => hex2bin_loop data (Some (u8 (Z.shiftl v 4)))
      | Some v, Some h => Z.lor h v :: hex2bin_loop data None
      end
  end.
Definition hex2bin (data : bytes) : option bytes :=
  if zlen data `mod` 2 =? 0 then Some (hex2bin_loop data None) else None.

(** [istringstream >> std::hex >> element] on a piece of at most two characters:
    blanks, a sign, then hexadecimal digits; 0 when there is none. *)
Fixpoint hex_digits_val (l : bytes) (acc : Z) : Z :=
  match l with
  | [] => acc
  | c :: l => match hex_val c with Some v => hex_digits_val l (acc * 16 + v) | None => acc end
  end.
Definition hex_stream (s : bytes) : Z :=
  let '(neg, l) := read_sign (ltrim s) in
  let v := hex_digits_val l 0 in if neg then - v else v.

(** [CommonUtils::hex_to_bin]: one byte per two characters (the last may be alone). *)
Fixpoint hex_to_bin (fuel : nat) (hex : bytes) : bytes :=
  match fuel, hex with
  | S f, c1 :: c2 :: hex => u8 (hex_stream [c1; c2]) :: hex_to_bin f hex
  | S f, [c] => [u8 (hex_stream [c])]
  | _, _ => []
  end.

(** ** common_util.h: names *)

(** [fill_binlog_file_name] with the configured prefix and width. *)
Definition fill_binlog_file_name (prefix : bytes) (width index : Z) : bytes :=
  let s := to_dec index in
  prefix ++ str "." ++ replicate (Z.to_nat (width - zlen s)) 48 ++ s.

(** [get_binlog_index]: [substr] throws when the name is shorter than the width. *)
Definition get_binlog_index (width : Z) (binlog_file : bytes) : option Z :=
  if zlen binlog_file <? width then None
  else Some (u64 (atoll (skip (zlen binlog_file - width) binlog_file))).

Definition is_prefix (p s : bytes) : bool := beq (first (zlen p) s) p.

(** [get_dbname_without_tenant]: [find] returning 0 is a prefix match. *)
Definition get_dbname_without_tenant (full_dbname tenant_name : bytes) : bytes :=
  match full_dbname, tenant_name with
  | [], _ | _, [] => full_dbname
  | _, _ =>
      if is_prefix tenant_name full_dbname && (zlen full_dbname >? zlen tenant_name)
      then skip (zlen tenant_name + 1) full_dbname else full_dbname
  end.

(** ** Lines of a text file *)

(** [std::getline] until it fails: the text between newlines; a last piece without
    newline counts when it is not empty. *)
Fixpoint getlines_from (cur l : bytes) : list bytes :=
  match l with
  | [] => match cur with [] => [] | _ => [cur] end
  | c :: l => if c =? 10 then cur :: getlines_from [] l else getlines_from (cur ++ [c]) l
  end.
Definition getlines (l : bytes) : list bytes := getlines_from [] l.

(** POSIX [getline(&buffer, ...)]: the same lines, each with its newline. *)
Fixpoint getlines_nl_from (cur l : bytes) : list bytes :=
  match l with
  | [] => match cur with [] => [] | _ => [cur] end
  | c :: l => if c =? 10 then (cur ++ [10]) :: getlines_nl_from [] l
              else getlines_nl_from (cur ++ [c]) l
  end.
Definition getlines_nl (l : bytes) : list bytes := getlines_nl_from [] l.

(** ** Splitting: lemmas *)

(** Reference join: [sep] between consecutive parts. *)
Fixpoint intercalate (sep : Z) (parts : list bytes) : bytes :=
  match parts with
  | [] => []
  | [p] => p
  | p :: parts => p ++ sep :: intercalate sep parts
  end.

Lemma cstr_id s : 0 ∉ s -> cstr s = s.
Proof.
  induction s as [|c s IH]; [done|]. intros H. simpl.
  destruct (Z.eqb_spec c 0); [set_solver|]. f_equal. apply IH. set_solver.
Qed.

Lemma cstr_app a b : 0 ∉ a -> cstr (a ++ b) = a ++ cstr b.
Proof.
  induction a as [|c a IH]; [done|]. intros H. simpl.
  destruct (Z.eqb_spec c 0); [set_solver|]. f_equal. apply IH. set_solver.
Qed.

Lemma split_loop_no_sep f first flag cur l :
  (forall c, c ∈ l -> f c = false) -> split_loop f first flag cur l = [cur ++ l].
Proof.
  revert cur. induction l as [|c l IH]; intros cur H; simpl; [by rewrite app_nil_r|].
  rewrite H by set_solver. simpl. rewrite IH by set_solver. by rewrite <-app_assoc.
Qed.

Lemma split_loop_sep sep flag cur a l :
  sep ∉ a ->
  split_loop (fun c => c =? sep) false flag cur (a ++ sep :: l)
  = (cur ++ a) :: split_loop (fun c => c =? sep) false true [] l.
Proof.
  revert cur. induction a as [|c a IH]; intros cur H; simpl.
  - by rewrite Z.eqb_refl, app_nil_r.
  - destruct (Z.eqb_spec c sep); [set_solver|]. simpl.
    rewrite IH by set_solver. by rewrite <-app_assoc.
Qed.

Lemma split_loop_last sep flag cur l :
  sep ∉ l -> split_loop (fun c => c =? sep) false flag cur l = [cur ++ l].
Proof.
  intros H. apply split_loop_no_sep. intros c Hc. apply Z.eqb_neq. set_solver.
Qed.

Lemma split_loop_intercalate sep flag parts :
  parts <> [] -> Forall (fun p => sep ∉ p) parts ->
  split_loop (fun c => c =? sep) false flag [] (intercalate sep parts) = parts.
Proof.
  revert flag. induction parts as [|p parts IH]; intros flag Hne Hall; [done|].
  apply Forall_cons in Hall as [Hp Hall]. destruct parts as [|q parts].
  - by rewrite split_loop_last.
  - cbn [intercalate]. rewrite split_loop_sep by done. rewrite IH; done.
Qed.

Lemma intercalate_not_in c sep parts :
  c <> sep -> Forall (fun p => c ∉ p) parts -> c ∉ intercalate sep parts.
Proof.
  intros Hc. induction 1 as [|p parts Hp Hall IH]; [by apply not_elem_of_nil|].
  destruct parts as [|q parts]; [done|]. cbn [intercalate] in *.
  rewrite not_elem_of_app, not_elem_of_cons. done.
Qed.

Lemma split_nonempty s sep : s <> [] -> split s sep false = split_loop (fun c => c =? sep) false false [] (cstr s).
Proof. by destruct s. Qed.

Lemma split_intercalate sep parts :
  intercalate sep parts <> [] -> 0 ∉ intercalate sep parts ->
  Forall (fun p => sep ∉ p) parts ->
  split (intercalate sep parts) sep false = parts.
Proof.
  intros Hne H0 Hall. rewrite split_nonempty, cstr_id by done.
  apply split_loop_intercalate; [|done]. by intros ->.
Qed.

Lemma split_loop_nonempty f first flag cur l : split_loop f first flag cur l <> [].
Proof. revert flag cur. induction l as [|c l IH]; intros; simpl; [done|]. by case_match. Qed.

Lemma split_loop_join sep flag cur l :
  intercalate sep (split_loop (fun c => c =? sep) false flag cur l) = cur ++ l.
Proof.
  revert flag cur. induction l as [|c l IH]; intros flag cur; simpl; [by rewrite app_nil_r|].
  destruct (Z.eqb_spec c sep) as [->|]; simpl.
  - pose proof (split_loop_nonempty (fun c => c =? sep) false true [] l) as Hne.
    specialize (IH true []). cbn [app] in IH. rewrite <-IH at 2.
    by destruct (split_loop _ _ _ _ l).
  - rewrite IH. by rewrite <-app_assoc.
Qed.

(** ** Decimal numbers: lemmas *)

Definition digits (l : bytes) : Prop := Forall (fun c => 48 <= c <= 57) l.

(** What may follow a number without being read as part of it. *)
Definition no_digit_head (r : bytes) : Prop :=
  match r with [] => True | c :: _ => isdigit c = false end.

Lemma isdigit_spec c : isdigit c = true <-> 48 <= c <= 57.
Proof. unfold isdigit. rewrite andb_true_iff, !Z.leb_le. done. Qed.

Lemma dec_fuel_digits f n : 0 <= n -> digits (dec_fuel f n).
Proof.
  revert n. induction f as [|f IH]; intros n Hn; [constructor|]. simpl.
  destruct (Z.ltb_spec n 10); [repeat constructor; lia|].
  apply Forall_app; split; [apply IH; lia|repeat constructor; lia].
Qed.

Lemma dec_fuel_val f n acc r :
  0 <= n < 10 ^ Z.of_nat f -> no_digit_head r ->
  digits_val (dec_fuel f n ++ r) acc = acc * 10 ^ zlen (dec_fuel f n) + n.
Proof.
  revert n acc r. induction f as [|f IH]; intros n acc r Hn Hr.
  - change (10 ^ Z.of_nat 0) with 1 in Hn. cbn [dec_fuel app]. rewrite zlen_nil, Z.pow_0_r.
    destruct r as [|c r]; simpl in *; [|rewrite Hr]; lia.
  - rewrite Nat2Z.inj_succ, Z.pow_succ_r in Hn by lia.
    simpl. destruct (Z.ltb_spec n 10) as [H10|H10].
    + rewrite zlen_cons, zlen_nil. simpl.
      rewrite (proj2 (isdigit_spec (48 + n))) by lia.
      destruct r as [|c r]; simpl in *; [|rewrite Hr]; lia.
    + assert (forall acc' r', no_digit_head r' -> forall d, 0 <= d < 10 ->
        digits_val (dec_fuel f (n `div` 10) ++ (48 + d) :: r') acc'
        = (acc' * 10 ^ zlen (dec_fuel f (n `div` 10)) + n `div` 10) * 10 + d) as Hstep.
      { clear r Hr acc. intros acc r Hr d Hd.
        assert (forall l a, digits l ->
          digits_val (l ++ (48 + d) :: r) a = digits_val l a * 10 + d) as Hl.
        { intros l. induction l as [|c l IHl]; intros a Hdig; simpl.
          - rewrite (proj2 (isdigit_spec (48 + d))) by lia.
            destruct r as [|c r]; simpl in *; [|rewrite Hr]; lia.
          - apply Forall_cons in Hdig as [Hc Hdig].
            rewrite (proj2 (isdigit_spec c)) by lia. by apply IHl. }
        rewrite Hl by (apply dec_fuel_digits; lia).
        rewrite <-(app_nil_r (dec_fuel f (n `div` 10))) at 1.
        rewrite IH; [done|lia|done]. }
      rewrite <-app_assoc. cbn [app]. rewrite Hstep by (done || lia).
      rewrite zlen_app, Z.pow_add_r by (apply zlen_nonneg || (rewrite zlen_cons, zlen_nil; lia)).
      rewrite zlen_cons, zlen_nil. simpl (10 ^ (1 + 0)). nia.
Qed.

Lemma dec_fuel_nonempty f n : (0 < f)%nat -> dec_fuel f n <> [].
Proof. destruct f; [lia|]. simpl. intros _. destruct (n <? 10); [done|]. by destruct (dec_fuel f _). Qed.

Lemma to_dec_digits n : 0 <= n -> digits (to_dec n).
Proof. apply dec_fuel_digits. Qed.
Lemma to_dec_nonempty n : to_dec n <> [].
Proof. apply dec_fuel_nonempty. lia. Qed.

Lemma digits_not_in c l : digits l -> ~ (48 <= c <= 57) -> c ∉ l.
Proof. intros H Hc Hin. apply Hc. by eapply Forall_forall in H. Qed.

Lemma to_dec_not_in c n : 0 <= n -> ~ (48 <= c <= 57) -> c ∉ to_dec n.
Proof. intros. by apply digits_not_in; [apply to_dec_digits|]. Qed.

Lemma read_number_to_dec n r :
  0 <= n < 10 ^ 20 -> no_digit_head r -> read_number (to_dec n ++ r) = (n, true).
Proof.
  intros Hn Hr.
  pose proof (to_dec_digits n ltac:(lia)) as Hd. pose proof (to_dec_nonempty n) as Hne.
  assert (no_digit_head (cstr r)) as Hr'.
  { destruct r as [|c r]; simpl in *; [done|]. by destruct (c =? 0). }
  unfold read_number. rewrite cstr_app by (apply digits_not_in; [done|lia]).
  pose proof (dec_fuel_val 20 n 0 (cstr r) Hn Hr') as Hv. fold (to_dec n) in Hv.
  destruct (to_dec n) as [|c l]; [done|]. apply Forall_cons in Hd as [Hc _].
  cbn [app ltrim]. unfold isspace. zif. simpl. unfold read_sign. zif.
  rewrite Z.mul_0_l, Z.add_0_l in Hv. cbn [app] in Hv. rewrite Hv. f_equal.
  by apply isdigit_spec.
Qed.

Lemma atoll_to_dec n r :
  0 <= n <= LLONG_MAX -> no_digit_head r -> atoll (to_dec n ++ r) = n.
Proof.
  unfold LLONG_MAX. intros Hn Hr. unfold atoll. rewrite read_number_to_dec by (done || lia).
  unfold LLONG_MAX, LLONG_MIN. simpl. lia.
Qed.

Lemma stol_to_dec n r :
  0 <= n <= LLONG_MAX -> no_digit_head r -> stol (to_dec n ++ r) = Some n.
Proof.
  unfold LLONG_MAX. intros Hn Hr. unfold stol. rewrite read_number_to_dec by (done || lia).
  unfold LLONG_MAX, LLONG_MIN. simpl (true && _). zif. done.
Qed.

(** ** Hexadecimal: lemmas *)

Lemma nibbles c : is_u8 c ->
  Z.land (Z.shiftr c 4) 15 = c `div` 16 /\ Z.land c 15 = c `mod` 16.
Proof.
  unfold is_u8. intros Hc. change 15 with (Z.ones 4).
  rewrite !Z.land_ones, Z.shiftr_div_pow2 by lia.
  change (2 ^ 4) with 16. split; [|done]. apply Z.mod_small. lia.
Qed.

Lemma hex_val_digit h : 0 <= h < 16 -> hex_val (hex_digit h) = Some h.
Proof.
  intros. unfold hex_digit, hex_val.
  destruct (Z.leb_spec 10 h); zif; simpl; f_equal; lia.
Qed.

Lemma hex_val_tolower_digit h : 0 <= h < 16 -> hex_val (tolower (hex_digit h)) = Some h.
Proof.
  intros. unfold hex_digit.
  destruct (Z.leb_spec 10 h); unfold tolower, isupper; zif; simpl (_ && _);
    unfold hex_val; zif; simpl; f_equal; lia.
Qed.

Lemma lor_nibbles h l : 0 <= h < 16 -> 0 <= l < 16 -> Z.lor (u8 (Z.shiftl h 4)) l = 16 * h + l.
Proof.
  intros Hh Hl. rewrite Z.shiftl_mul_pow2 by lia. change (2 ^ 4) with 16.
  rewrite u8_id by (unfold is_u8; lia).
  pose proof (Z.add_lor_land (h * 16) l) as Hadd.
  enough (Z.land (h * 16) l = 0) by lia.
  apply Z.bits_inj'. intros n Hn. rewrite Z.land_spec, Z.bits_0.
  change 16 with (2 ^ 4). destruct (Z.ltb_spec n 4).
  - by rewrite Z.mul_pow2_bits_low.
  - replace l with (l `mod` 2 ^ 4) by (change (2 ^ 4) with 16; apply Z.mod_small; lia).
    rewrite Z.mod_pow2_bits_high by lia. apply andb_false_r.
Qed.

Lemma dumphex_cons c data :
  dumphex (c :: data)
  = hex_digit (Z.land (Z.shiftr c 4) 15) :: hex_digit (Z.land c 15) :: dumphex data.
Proof. done. Qed.

Lemma zlen_dumphex data : zlen (dumphex data) = 2 * zlen data.
Proof. induction data as [|c data IH]; [done|]. rewrite dumphex_cons, !zlen_cons, IH. lia. Qed.

#[export] Hint Rewrite zlen_dumphex : len.

Lemma hex2bin_loop_dumphex data :
  Forall is_u8 data -> hex2bin_loop (dumphex data) None = data.
Proof.
  induction 1 as [|c data Hc _ IH]; [done|].
  rewrite dumphex_cons. destruct (nibbles c Hc) as [-> ->]. unfold is_u8 in Hc.
  cbn [hex2bin_loop]. rewrite !hex_val_digit by lia. rewrite IH.
  rewrite lor_nibbles by lia. f_equal. lia.
Qed.

Lemma dumphex_inj a b : Forall is_u8 a -> Forall is_u8 b -> dumphex a = dumphex b -> a = b.
Proof. intros Ha Hb E. by rewrite <-(hex2bin_loop_dumphex a Ha), <-(hex2bin_loop_dumphex b Hb), E. Qed.

Lemma hex_stream_pair c1 c2 h l :
  hex_val c1 = Some h -> hex_val c2 = Some l -> 48 <= c1 ->
  hex_stream [c1; c2] = 16 * h + l.
Proof.
  intros H1 H2 Hc. unfold hex_stream. cbn [ltrim].
  assert (isspace c1 = false) as -> by (unfold isspace; zif; done).
  cbn [read_sign]. zif. cbn [hex_digits_val]. rewrite H1, H2. lia.
Qed.

Lemma hex_to_bin_dumphex f data :
  Forall is_u8 data -> (length data <= f)%nat ->
  hex_to_bin f (tolower <$> dumphex data) = data.
Proof.
  intros H. revert f. induction H as [|c data Hc _ IH]; intros f Hf; [by destruct f|].
  simpl in Hf. destruct f as [|f]; [lia|]. rewrite dumphex_cons.
  destruct (nibbles c Hc) as [-> ->]. pose proof Hc as Hc'. unfold is_u8 in Hc.
  cbn [fmap list_fmap hex_to_bin]. rewrite IH by lia. f_equal.
  erewrite hex_stream_pair; [ | apply hex_val_tolower_digit; lia | apply hex_val_tolower_digit; lia | ].
  - replace (16 * (c `div` 16) + c `mod` 16) with c by lia. by apply u8_id.
  - unfold hex_digit. destruct (Z.leb_spec 10 (c `div` 16)); unfold tolower, isupper; zif; simpl; lia.
Qed.

(** ** Lines: lemmas *)

Lemma getlines_from_line cur l rest :
  10 ∉ l -> getlines_from cur (l ++ 10 :: rest) = (cur ++ l) :: getlines_from [] rest.
Proof.
  revert cur. induction l as [|c l IH]; intros cur H; simpl; [by rewrite app_nil_r|].
  destruct (Z.eqb_spec c 10); [set_solver|]. rewrite IH by set_solver. by rewrite <-app_assoc.
Qed.

Lemma getlines_nl_from_line cur l rest :
  10 ∉ l -> getlines_nl_from cur (l ++ 10 :: rest) = (cur ++ l ++ [10]) :: getlines_nl_from [] rest.
Proof.
  revert cur. induction l as [|c l IH]; intros cur H; simpl; [done|].
  destruct (Z.eqb_spec c 10); [set_solver|]. rewrite IH by set_solver. by rewrite <-app_assoc.
Qed.

(** A text file: every line followed by its newline. *)
Definition unlines (ls : list bytes) : bytes := mjoin ((fun l => l ++ [10]) <$> ls).

Lemma unlines_cons l ls : unlines (l :: ls) = l ++ 10 :: unlines ls.
Proof. unfold unlines. simpl. by rewrite <-app_assoc. Qed.

Lemma unlines_app a b : unlines (a ++ b) = unlines a ++ unlines b.
Proof. unfold unlines. by rewrite fmap_app, join_app. Qed.

Lemma getlines_unlines ls : Forall (fun l => 10 ∉ l) ls -> getlines (unlines ls) = ls.
Proof.
  unfold getlines. induction 1 as [|l ls Hl _ IH]; [done|].
  rewrite unlines_cons, getlines_from_line by done. by rewrite IH.
Qed.

Lemma getlines_nl_unlines ls :
  Forall (fun l => 10 ∉ l) ls -> getlines_nl (unlines ls) = (fun l => l ++ [10]) <$> ls.
Proof.
  unfold getlines_nl. induction 1 as [|l ls Hl _ IH]; [done|].
  rewrite unlines_cons, getlines_nl_from_line by done. by rewrite IH.
Qed.

(** ** Properties *)

(** [split] inverts joining with a separator, and nothing of the text is lost:
    re-joining the pieces of a NUL-free string gives the string back. *)
Theorem split_join_inverse sep s parts :
  (s <> [] -> 0 ∉ s -> intercalate sep (split s sep false) = s) /\
  (intercalate sep parts <> [] -> 0 ∉ intercalate sep parts -> Forall (fun p => sep ∉ p) parts ->
   split (intercalate sep parts) sep false = parts).
Proof.
  split.
  - intros Hne H0. rewrite split_nonempty, cstr_id by done. by rewrite split_loop_join.
  - apply split_intercalate.
Qed.

Lemma split_join_inverse_witness :
  split (str "1#ob_txn#7#0") 35 false = [str "1"; str "ob_txn"; str "7"; str "0"] /\
  intercalate 35 (split (str "1#ob_txn#7#0") 35 false) = str "1#ob_txn#7#0".
Proof.
  split.
  - apply (split_join_inverse 35 [] [str "1"; str "ob_txn"; str "7"; str "0"]);
      [done | by_compute | by_compute].
  - apply (split_join_inverse 35 (str "1#ob_txn#7#0") []); [done | by_compute].
Defined.

(** The two hexadecimal decoders of the code invert [dumphex], the second after
    the lower-casing that GTID printing applies. *)
Theorem hex_roundtrip data :
  Forall is_u8 data ->
  hex2bin (dumphex data) = Some data /\
  hex_to_bin (length data) (tolower <$> dumphex data) = data.
Proof.
  intros H. split.
  - unfold hex2bin. rewrite zlen_dumphex. zif. by rewrite hex2bin_loop_dumphex.
  - by apply hex_to_bin_dumphex.
Qed.

Lemma hex_roundtrip_witness :
  hex2bin (dumphex [250; 22; 62; 0]) = Some [250; 22; 62; 0] /\
  hex_to_bin 4 (tolower <$> dumphex [250; 22; 62; 0]) = [250; 22; 62; 0].
Proof. apply (hex_roundtrip [250; 22; 62; 0]). by_compute. Defined.
