(* ===== verification/Json.v ===== *)
(** * Binary JSON

    [JsonParser] of [src/src/binlog/json_parser.h]: JSON documents and JSON diffs in the
    binary format of MySQL.  A document of the external rapidjson library is a [json]; its
    parser is a parameter.  A reference decoder reads the format as MySQL documents it
    ([json_binary.h] of the server), and every document is shown to be read back by it. *)

From S2P Require Import Prelude Bytes Str.

#[local] Open Scope Z_scope.

(** ** Documents *)

(** What [rapidjson::Value] distinguishes: integers of any of its four integer types, and
    doubles, here by their bits. *)
#[warnings="-register-all"] Inductive json :=
| JNull
| JBool (b : bool)
| JNumber (n : Z)
| JDouble (bits : Z)
| JString (s : bytes)
| JArray (l : list json)
| JObject (ms : list (bytes * json)).

Definition IsInt (n : Z) : bool := (- 2 ^ 31 <=? n) && (n <? 2 ^ 31).
Definition IsUint (n : Z) : bool := (0 <=? n) && (n <? 2 ^ 32).
Definition IsInt64 (n : Z) : bool := (- 2 ^ 63 <=? n) && (n <? 2 ^ 63).
Definition IsUint64 (n : Z) : bool := (0 <=? n) && (n <? 2 ^ 64).

(** ** JsonParser *)

Definition JSONB_TYPE_LARGE_OBJECT : Z := 1.
Definition JSONB_TYPE_LARGE_ARRAY : Z := 3.
Definition JSONB_TYPE_LITERAL : Z := 4.
Definition JSONB_TYPE_INT16 : Z := 5.
Definition JSONB_TYPE_UINT16 : Z := 6.
Definition JSONB_TYPE_INT32 : Z := 7.
Definition JSONB_TYPE_UINT32 : Z := 8.
Definition JSONB_TYPE_INT64 : Z := 9.
Definition JSONB_TYPE_UINT64 : Z := 10.
Definition JSONB_TYPE_DOUBLE : Z := 11.
Definition JSONB_TYPE_STRING : Z := 12.
Definition JSONB_NULL_LITERAL : Z := 0.
Definition JSONB_TRUE_LITERAL : Z := 1.
Definition JSONB_FALSE_LITERAL : Z := 2.
Definition KEY_ENTRY_SIZE_LARGE : Z := 6.
Definition VALUE_ENTRY_SIZE_LARGE : Z := 5.
Definition JSON_DOCUMENT_MAX_DEPTH : Z := 100.

Definition is_int16 (num : Z) : bool := (- 2 ^ 15 <=? num) && (num <=? 2 ^ 15 - 1).
Definition is_int32 (num : Z) : bool := (- 2 ^ 31 <=? num) && (num <=? 2 ^ 31 - 1).
Definition is_uint16 (num : Z) : bool := num <=? 2 ^ 16 - 1.
Definition is_uint32 (num : Z) : bool := (2 ^ 16 - 1 <=? num) && (num <=? 2 ^ 32 - 1).

(** The inlined value and its type; the value is an [int32_t], which [is_uint16] and
    [is_uint32] take as a [uint64_t]. *)
Definition should_inline_value (value : json) (large : bool) : option (Z * Z) :=
  match value with
  | JNull => Some (JSONB_NULL_LITERAL, JSONB_TYPE_LITERAL)
  | JBool b => Some (if b then JSONB_TRUE_LITERAL else JSONB_FALSE_LITERAL, JSONB_TYPE_LITERAL)
  | JNumber n =>
      if IsInt n then
        if is_int16 n || (large && is_int32 n) then Some (n, if is_int16 n then JSONB_TYPE_INT16 else JSONB_TYPE_INT32) else None
      else if IsUint n then
        let inlined_val := sint 32 n in
        if is_uint16 (u64 inlined_val) || (large && is_uint32 (u64 inlined_val))
        then Some (inlined_val, if is_uint16 n then JSONB_TYPE_UINT16 else JSONB_TYPE_UINT32) else None
      else None
  | _ => None
  end.

Definition fill_value (v : Z) (large : bool) : bytes := if large then int4store v else int2store v.

(** [append_variable_length]: seven bits a byte; ten bytes hold any [size_t]. *)
Fixpoint variable_length (fuel : nat) (length : Z) : bytes :=
  match fuel with
  | O => []
  | S fuel =>
      let ch := Z.land length 0x7F in
      let length := Z.shiftr length 7 in
      if length =? 0 then [ch] else Z.lor ch 0x80 :: variable_length fuel length
  end.
Definition append_variable_length (length : Z) : bytes := variable_length 10 length.

(** The type, the bytes and how far [offset] moves. *)
Definition encoded : Type := Z * bytes * Z.

(** [append_value]: the value entry, the bytes behind it and the new offset; [nested] is
    [parse_nested_object] one level down. *)
Definition append_value (nested : json -> encoded) (offset : Z) (large : bool) (val : json) : bytes * bytes * Z :=
  match should_inline_value val large with
  | Some (inlined_value, element_type) => (element_type :: fill_value inlined_value large, [], offset)
  | None => let '(ty, element, n) := nested val in (ty :: fill_value offset large, element, offset + n)
  end.

(** The loop over the values: the entries in place and the values behind. *)
Definition append_values {A} (value : A -> json) (nested : json -> encoded) (large : bool) : Z -> list A -> bytes * bytes * Z :=
  fix loop offset vs :=
    match vs with
    | [] => ([], [], offset)
    | v :: vs =>
        let '(entry, data, offset) := append_value nested offset large (value v) in
        let '(entries, datas, offset) := loop offset vs in
        (entry ++ entries, data ++ datas, offset)
    end.

(** The entries of the keys: where each one is, and its length up to the first NUL. *)
Fixpoint key_entries (offset : Z) (large : bool) (keys : list bytes) : bytes * Z :=
  match keys with
  | [] => ([], offset)
  | k :: keys =>
      let key_len := zlen (cstr k) in
      let '(entries, offset') := key_entries (offset + key_len) large keys in
      (fill_value offset large ++ fill_value key_len false ++ entries, offset')
  end.

Definition number_value (n : Z) : encoded :=
  if IsInt n then
    if is_int16 n then (JSONB_TYPE_INT16, int2store n, 2) else (JSONB_TYPE_INT32, int4store n, 4)
  else if IsInt64 n then (JSONB_TYPE_INT64, int8store n, 8)
  else if IsUint n then
    if is_uint16 n then (JSONB_TYPE_UINT16, int2store n, 2) else (JSONB_TYPE_UINT32, int4store n, 4)
  else (JSONB_TYPE_UINT64, int8store n, 8).

(** The size of the object or array is filled in at the end. *)
Definition sized (n : Z) (rest : bytes) : bytes :=
  fill_value n true ++ fill_value (zlen (fill_value n true ++ fill_value 0 true ++ rest)) true ++ rest.

(** [parse_nested_object]: with a header the type goes there, without one in front. *)
Fixpoint parse_nested_object (depth : Z) (value : json) : encoded :=
  match value with
  | JNull => (JSONB_TYPE_LITERAL, [JSONB_NULL_LITERAL], 1)
  | JBool b => (JSONB_TYPE_LITERAL, [if b then JSONB_TRUE_LITERAL else JSONB_FALSE_LITERAL], 1)
  | JObject ms =>
      let large := true in
      let object_size := zlen ms in
      let offset := 4 + 4 + object_size * (KEY_ENTRY_SIZE_LARGE + VALUE_ENTRY_SIZE_LARGE) in
      let '(keys, offset) := key_entries offset large (fst <$> ms) in
      let '(entries, data, offset) := append_values snd (parse_nested_object (depth + 1)) large offset ms in
      (JSONB_TYPE_LARGE_OBJECT, sized object_size (keys ++ entries ++ mjoin (cstr <$> (fst <$> ms)) ++ data), offset)
  | JArray l =>
      let large := true in
      let array_size := zlen l in
      let offset := 4 + 4 + array_size * VALUE_ENTRY_SIZE_LARGE in
      if (0 <? array_size) && (JSON_DOCUMENT_MAX_DEPTH <=? depth) then
        (JSONB_TYPE_LARGE_ARRAY, fill_value array_size large ++ fill_value 0 large ++ replicate (Z.to_nat (array_size * VALUE_ENTRY_SIZE_LARGE)) 0, offset)
      else
        let '(entries, data, offset) := append_values id (parse_nested_object (depth + 1)) large offset l in
        (JSONB_TYPE_LARGE_ARRAY, sized array_size (entries ++ data), offset)
  | JString s => (JSONB_TYPE_STRING, append_variable_length (zlen s) ++ s, zlen (append_variable_length (zlen s)) + zlen s)
  | JNumber n => number_value n
  | JDouble bits => (JSONB_TYPE_DOUBLE, le_split 8 bits, 8)
  end.

Definition top_level (value : json) : bytes := let '(ty, body, _) := parse_nested_object 1 value in ty :: body.

(** ** Documents and diffs *)

Section Documents.
(** [rapidjson::Document::Parse]; [None]: a parse error, which leaves the null document. *)
Context (Parse : bytes -> option json).

Definition parser (data : bytes) : bytes := top_level (default JNull (Parse data)).

Definition json_diff_op (op_str : bytes) : Z :=
  if beq (cstr op_str) (str "replace") then 0 else if beq (cstr op_str) (str "insert") then 1 else 2.

(** [value[name]]: the first member of that name; it must be an object that has one. *)
Definition member (value : json) (name : bytes) : outcome json :=
  match value with
  | JObject ms => of_option (x ← list_find (fun m => fst m = name) ms; Some x.2.2)
  | _ => Crash
  end.
Definition GetString (value : json) : outcome bytes := match value with JString s => Done s | _ => Crash end.

Definition MAX_PACKET_INTEGER_LEN : Z := 9.
(** A length in a block of the size that [get_packed_integer] computes. *)
Definition packed_length (n : Z) : outcome bytes :=
  match write_lenenc_uint MAX_PACKET_INTEGER_LEN n with
  | Some e => heap_write 0 e (replicate (Z.to_nat (get_packed_integer n)) 0)
  | None => Done (replicate (Z.to_nat (get_packed_integer n)) 0)
  end.

Definition diff_bytes (diff : json) : outcome bytes :=
  op ← member diff (str "op"); op_str ← GetString op;
  let op_code := json_diff_op op_str in
  path ← member diff (str "path"); path ← GetString path;
  path_len ← packed_length (zlen path);
  path_value ← heap_read 0 (zlen path) (cstr path ++ [0]);
  let head := int1store op_code ++ path_len ++ path_value in
  if op_code =? 2 then Done head
  else
    value ← member diff (str "value");
    let value_bytes := top_level value in
    value_len ← packed_length (zlen value_bytes);
    Done (head ++ value_len ++ value_bytes).

Fixpoint diffs_bytes (diffs : list json) : outcome bytes :=
  match diffs with
  | [] => Done []
  | d :: diffs => b ← diff_bytes d; rest ← diffs_bytes diffs; Done (b ++ rest)
  end.

(** An illegal diff is logged and leaves nothing. *)
Definition parse_json_diff (data : bytes) : outcome bytes :=
  match Parse data with
  | None => Done []
  | Some (JObject ms) =>
      match list_find (fun m => fst m = str "diffs") ms with
      | None => Done []
      | Some (_, (_, JArray diffs)) => diffs_bytes diffs
      | Some _ => Done []
      end
  | Some _ => Crash
  end.
End Documents.

(** ** The format, as MySQL reads it *)

(** [len] bytes at [off], which must be there. *)
Definition slice (off len : Z) (l : bytes) : option bytes :=
  if bool_decide (0 <= off /\ 0 <= len /\ off + len <= zlen l) then Some (first len (skip off l)) else None.
Definition le_at (n off : Z) (l : bytes) : option Z := le_combine <$> slice off n l.

(** A length of seven bits a byte, and what follows. *)
Fixpoint read_variable_length (l : bytes) : option (Z * bytes) :=
  match l with
  | [] => None
  | b :: l =>
      if b <? 128 then Some (b, l)
      else '(n, rest) ← read_variable_length l; Some (b - 128 + 128 * n, rest)
  end.

Definition read_scalar (ty : Z) (l : bytes) : option json :=
  if ty =? 4 then
    b ← le_at 1 0 l; (if b =? 0 then Some JNull else if b =? 1 then Some (JBool true) else if b =? 2 then Some (JBool false) else None)
  else if ty =? 5 then JNumber ∘ sint 16 <$> le_at 2 0 l
  else if ty =? 6 then JNumber <$> le_at 2 0 l
  else if ty =? 7 then JNumber ∘ sint 32 <$> le_at 4 0 l
  else if ty =? 8 then JNumber <$> le_at 4 0 l
  else if ty =? 9 then JNumber ∘ sint 64 <$> le_at 8 0 l
  else if ty =? 10 then JNumber <$> le_at 8 0 l
  else if ty =? 11 then JDouble <$> le_at 8 0 l
  else if ty =? 12 then '(n, rest) ← read_variable_length l; JString <$> slice 0 n rest
  else None.

(** In the large format literals and integers of up to 32 bits are in the entry. *)
Definition is_inlined (ty : Z) : bool := (4 <=? ty) && (ty <=? 8).

(** The entry at [at_] of an object or array with bytes [l]. *)
Definition read_entry (decode : Z -> bytes -> option json) (l : bytes) (at_ : Z) : option json :=
  ty ← le_at 1 at_ l;
  if is_inlined ty then f ← slice (at_ + 1) 4 l; read_scalar ty f
  else off ← le_at 4 (at_ + 1) l; decode ty (skip off l).
Definition read_key (l : bytes) (at_ : Z) : option bytes :=
  off ← le_at 4 at_ l; n ← le_at 2 (at_ + 4) l; slice off n l.

Fixpoint decode (fuel : nat) (ty : Z) (l : bytes) : option json :=
  match fuel with
  | O => None
  | S fuel =>
      if ty =? 1 then
        n ← le_at 4 0 l; size ← le_at 4 4 l;
        if size <=? zlen l then
          ms ← mapM (fun i => k ← read_key l (8 + 6 * Z.of_nat i); v ← read_entry (decode fuel) l (8 + 6 * n + 5 * Z.of_nat i); Some (k, v)) (seq 0 (Z.to_nat n));
          Some (JObject ms)
        else None
      else if ty =? 3 then
        n ← le_at 4 0 l; size ← le_at 4 4 l;
        if size <=? zlen l then
          vs ← mapM (fun i => read_entry (decode fuel) l (8 + 5 * Z.of_nat i)) (seq 0 (Z.to_nat n));
          Some (JArray vs)
        else None
      else read_scalar ty l
  end.

Definition read_document (fuel : nat) (l : bytes) : option json := match l with ty :: l => decode fuel ty l | [] => None end.

(** ** Documents that the format holds *)

Fixpoint height (v : json) : nat :=
  match v with
  | JArray l => S (foldr max O (height <$> l))
  | JObject ms => S (foldr max O ((fun m => height m.2) <$> ms))
  | _ => 1
  end.

(** The integers and doubles of rapidjson, keys of at most 65535 bytes without NUL. *)
Fixpoint representable (v : json) : Prop :=
  match v with
  | JNumber n => - 2 ^ 63 <= n < 2 ^ 64
  | JDouble bits => is_u64 bits
  | JArray l => foldr (fun v P => representable v /\ P) True l
  | JObject ms => foldr (fun m P => ((0 ∉ (m.1)) /\ zlen (m.1) < 2 ^ 16 /\ representable (m.2)) /\ P) True ms
  | _ => True
  end.

(** Induction over a document, with the property for all values inside. *)
Lemma json_nested_ind (P : json -> Prop) :
  P JNull -> (forall b, P (JBool b)) -> (forall n, P (JNumber n)) -> (forall bits, P (JDouble bits)) -> (forall s, P (JString s)) ->
  (forall l, Forall P l -> P (JArray l)) -> (forall ms, Forall (fun m => P m.2) ms -> P (JObject ms)) -> forall v, P v.
Proof.
  intros H1 H2 H3 H4 H5 H6 H7. fix go 1. intros [|b|n|bits|s|l|ms]; [exact H1|exact (H2 b)|exact (H3 n)|exact (H4 bits)|exact (H5 s)| |].
  - apply H6. induction l as [|v l IH]; constructor; [apply go|exact IH].
  - apply H7. induction ms as [|[k v] ms IH]; constructor; [apply go|exact IH].
Qed.

(** ** Reading back *)

Lemma slice_at a x b off len : zlen a = off -> zlen x = len -> slice off len (a ++ x ++ b) = Some x.
Proof.
  intros Ha Hx. unfold slice. pose proof (zlen_nonneg a). pose proof (zlen_nonneg x). pose proof (zlen_nonneg b).
  rewrite bool_decide_eq_true_2 by (rewrite !zlen_app; lia). by rewrite skip_app, first_app.
Qed.
Lemma le_at_split (n : nat) a v b off : zlen a = off -> 0 <= v < 256 ^ Z.of_nat n -> le_at (Z.of_nat n) off (a ++ le_split n v ++ b) = Some v.
Proof. intros Ha Hv. unfold le_at. rewrite slice_at by (done || apply zlen_le_split). cbn. by rewrite le_combine_split_id. Qed.
Lemma le_at_u8 a v b off : zlen a = off -> le_at 1 off (a ++ v :: b) = Some v.
Proof. intros Ha. unfold le_at. change (v :: b) with ([v] ++ b). rewrite slice_at by done. cbn. f_equal. lia. Qed.
Lemma head_at v b : le_at 1 0 (v :: b) = Some v.
Proof. by apply (le_at_u8 []). Qed.
Lemma slice_head x b len : zlen x = len -> slice 0 len (x ++ b) = Some x.
Proof. by apply (slice_at []). Qed.
Lemma scalar_at (n : nat) v r : le_at (Z.of_nat n) 0 (le_split n v ++ r) = Some (v `mod` 256 ^ Z.of_nat n).
Proof. rewrite <-le_split_wrap. apply (le_at_split n []); [done|]. apply Z.mod_pos_bound. apply Z.pow_pos_nonneg; lia. Qed.

Lemma variable_length_ok fuel n rest : 0 <= n < 128 ^ Z.of_nat fuel -> (0 < fuel)%nat -> read_variable_length (variable_length fuel n ++ rest) = Some (n, rest).
Proof.
  revert n. induction fuel as [|fuel IH]; intros n Hn Hf; [lia|]. cbn [variable_length]. change 0x7F with (Z.ones 7). rewrite Z.land_ones, Z.shiftr_div_pow2 by lia. change (2 ^ 7) with 128.
  pose proof (Z.mod_pos_bound n 128 ltac:(lia)). pose proof (Z.div_mod n 128 ltac:(lia)) as E. destruct (Z.eqb_spec (n / 128) 0) as [E0|E0].
  - cbn. rewrite (proj2 (Z.ltb_lt _ _)) by lia. f_equal. f_equal. lia.
  - assert (Z.lor (n `mod` 128) 128 = 128 + n `mod` 128) as ->.
    { assert (Z.land (n `mod` 128) 128 = 0) as E1; [|pose proof (Z.add_lor_land (n `mod` 128) 128); lia].
      change 128 with (2 ^ 7) at 1. rewrite <-Z.land_ones, <-Z.land_assoc by lia. apply Z.land_0_r. }
    cbn [app read_variable_length]. rewrite (proj2 (Z.ltb_ge _ _)) by lia. destruct fuel as [|fuel]; [cbn in Hn; lia|].
    rewrite IH; [| |lia].
    + cbn [mbind option_bind]. f_equal. f_equal. lia.
    + split; [apply Z.div_pos; lia|]. apply Z.div_lt_upper_bound; [lia|]. rewrite <-Z.pow_succ_r by lia. replace (Z.succ (Z.of_nat (S fuel))) with (Z.of_nat (S (S fuel))) by lia. lia.
Qed.

(** A value that is written by itself. *)
Lemma number_value_ok n r : - 2 ^ 63 <= n < 2 ^ 64 ->
  let '(ty, b, o) := number_value n in read_scalar ty (b ++ r) = Some (JNumber n) /\ o = zlen b /\ is_u8 ty /\ (ty =? 1) = false /\ (ty =? 3) = false /\ (IsInt n = false -> is_inlined ty = false).
Proof.
  intros Hn. unfold number_value. destruct (IsInt n) eqn:E1; [destruct (is_int16 n) eqn:E2|destruct (IsInt64 n) eqn:E3; [|destruct (IsUint n) eqn:E4]].
  - split_and!; try done. rewrite int2store_le. unfold read_scalar. cbn [JSONB_TYPE_INT16 Z.eqb Pos.eqb]. rewrite (scalar_at 2). cbn [fmap option_fmap option_map compose]. do 2 f_equal. unfold is_int16 in E2. apply (sint_id 16); lia.
  - split_and!; try done. rewrite int4store_le. unfold read_scalar. cbn [JSONB_TYPE_INT32 Z.eqb Pos.eqb]. rewrite (scalar_at 4). cbn [fmap option_fmap option_map compose]. do 2 f_equal. unfold IsInt in E1. apply (sint_id 32); lia.
  - split_and!; try done. rewrite int8store_le. unfold read_scalar. cbn [JSONB_TYPE_INT64 Z.eqb Pos.eqb]. rewrite (scalar_at 8). cbn [fmap option_fmap option_map compose]. do 2 f_equal. unfold IsInt64 in E3. apply (sint_id 64); lia.
  - unfold IsUint, IsInt64 in *. lia.
  - split_and!; try done. rewrite int8store_le. unfold read_scalar. cbn [JSONB_TYPE_UINT64 Z.eqb Pos.eqb]. rewrite (scalar_at 8). cbn [fmap option_fmap option_map compose]. do 2 f_equal. unfold IsInt64 in E3. apply Z.mod_small. lia.
Qed.

Lemma literal_at k r : le_at 1 0 (le_split 4 k ++ r) = Some (k `mod` 256).
Proof. change (le_split 4 k) with (le_split 1 k ++ le_split 3 (k / 256)). rewrite <-app_assoc. apply (scalar_at 1). Qed.

Lemma inline_ok v val ty r : should_inline_value v true = Some (val, ty) -> read_scalar ty (fill_value val true ++ r) = Some v /\ is_inlined ty = true.
Proof.
  unfold should_inline_value, fill_value. rewrite int4store_le. destruct v as [|[]|n| | | |]; try done.
  - intros [= <- <-]. split; [|done]. unfold read_scalar. cbn [JSONB_TYPE_LITERAL Z.eqb Pos.eqb]. by rewrite literal_at.
  - intros [= <- <-]. split; [|done]. unfold read_scalar. cbn [JSONB_TYPE_LITERAL Z.eqb Pos.eqb]. by rewrite literal_at.
  - intros [= <- <-]. split; [|done]. unfold read_scalar. cbn [JSONB_TYPE_LITERAL Z.eqb Pos.eqb]. by rewrite literal_at.
  - destruct (IsInt n) eqn:E1.
    + assert (is_int32 n = true) as -> by (unfold IsInt, is_int32 in *; lia). rewrite orb_true_r. intros [= <- <-]. destruct (is_int16 n) eqn:E2; (split; [|done]); unfold read_scalar.
      * cbn [JSONB_TYPE_INT16 Z.eqb Pos.eqb]. change (le_split 4 n) with (le_split 2 n ++ le_split 2 (n / 256 / 256)). rewrite <-app_assoc, (scalar_at 2). cbn [fmap option_fmap option_map compose]. do 2 f_equal. unfold is_int16 in E2. apply (sint_id 16); lia.
      * cbn [JSONB_TYPE_INT32 Z.eqb Pos.eqb]. rewrite (scalar_at 4). cbn [fmap option_fmap option_map compose]. do 2 f_equal. unfold IsInt in E1. apply (sint_id 32); lia.
    + destruct (IsUint n) eqn:E4; [|done]. assert (is_uint16 (u64 (sint 32 n)) || true && is_uint32 (u64 (sint 32 n)) = false) as ->; [|done].
      unfold IsInt, IsUint in *. assert (sint 32 n = n - 2 ^ 32) as ->; [unfold sint; change (32 - 1) with 31; replace (n + 2 ^ 31) with (n - 2 ^ 31 + 1 * 2 ^ 32) by lia; rewrite Z.mod_add, Z.mod_small by lia; lia|].
      unfold u64. replace (n - 2 ^ 32) with (n - 2 ^ 32 + 2 ^ 64 + (-1) * 2 ^ 64) by lia. rewrite Z.mod_add, Z.mod_small by lia. unfold is_uint16, is_uint32. lia.
Qed.

(** [nested] writes [v] so that [dec] reads it, with anything behind it. *)
Definition good (nested : json -> encoded) (dec : Z -> bytes -> option json) (v : json) : Prop :=
  let '(ty, b, o) := nested v in
  o = zlen b /\ (should_inline_value v true = None -> is_inlined ty = false) /\ (zlen b < 2 ^ 32 -> forall r, dec ty (b ++ r) = Some v).

Section Entries.
Context (nested : json -> encoded) (dec : Z -> bytes -> option json).

Lemma append_value_size v offset e d o : good nested dec v -> append_value nested offset true v = (e, d, o) -> zlen e = 5 /\ o = offset + zlen d.
Proof using.
  unfold good, append_value. destruct (should_inline_value v true) as [[val ty]|]; [intros _ [= <- <- <-]|destruct (nested v) as [[ty b] n]; intros [-> _] [= <- <- <-]];
    rewrite zlen_cons; unfold fill_value; rewrite zlen_int4store, ?zlen_nil; lia.
Qed.

Lemma entry_read v offset e d o l pre mid tail :
  good nested dec v -> append_value nested offset true v = (e, d, o) -> l = pre ++ e ++ mid -> skip offset l = d ++ tail -> 0 <= offset -> offset + zlen d < 2 ^ 32 ->
  read_entry dec l (zlen pre) = Some v.
Proof using.
  unfold good, append_value. destruct (should_inline_value v true) as [[val ty]|] eqn:Ei.
  - intros _ [= <- <- <-] -> Hs Ho Hb. apply inline_ok with (r := []) in Ei as [Er Hi]. rewrite app_nil_r in Er. unfold read_entry. rewrite <-app_comm_cons, le_at_u8 by done. cbn [mbind option_bind]. rewrite Hi.
    rewrite cons_middle, app_assoc, slice_at; [done|by rewrite zlen_app|apply zlen_int4store].
  - destruct (nested v) as [[ty b] n]. intros (-> & Hi & Hd) [= <- <- <-] Hl Hs Ho Hb. specialize (Hi eq_refl). pose proof (zlen_nonneg b). unfold read_entry. rewrite Hl at 1. rewrite <-app_comm_cons, le_at_u8 by done.
    cbn [mbind option_bind]. rewrite Hi. assert (le_at 4 (zlen pre + 1) l = Some offset) as ->; [|cbn [mbind option_bind]; rewrite Hs; apply Hd; lia].
    rewrite Hl. unfold fill_value. rewrite int4store_le, <-app_comm_cons, cons_middle, app_assoc. apply (le_at_split 4); [by rewrite zlen_app|]. change (256 ^ Z.of_nat 4) with (2 ^ 32). lia.
Qed.

Context {A : Type} (value : A -> json).

Lemma append_values_size vs : forall offset es d o, Forall (fun v => good nested dec (value v)) vs -> append_values value nested true offset vs = (es, d, o) ->
  zlen es = 5 * zlen vs /\ o = offset + zlen d.
Proof using.
  induction vs as [|v vs IH]; intros offset es d o Hvs E; cbn [append_values] in E; [injection E as <- <- <-; split; [done|by rewrite Z.add_0_r]|]. apply Forall_cons in Hvs as [Hv Hvs].
  destruct (append_value nested offset true (value v)) as [[e1 d1] o1] eqn:E1. destruct (append_value_size _ _ _ _ _ Hv E1) as [Z1 ->].
  fold (append_values value nested true) in E. destruct (append_values value nested true (offset + zlen d1) vs) as [[es2 d2] o2] eqn:E2. injection E as <- <- <-.
  destruct (IH _ _ _ _ Hvs E2) as [Z2 ->]. rewrite !zlen_app, zlen_cons. lia.
Qed.

Lemma entries_read vs : forall offset es d o l pre mid tail i v,
  Forall (fun v => good nested dec (value v)) vs -> append_values value nested true offset vs = (es, d, o) -> l = pre ++ es ++ mid -> skip offset l = d ++ tail ->
  0 <= offset -> offset + zlen d < 2 ^ 32 -> vs !! i = Some v -> read_entry dec l (zlen pre + 5 * Z.of_nat i) = Some (value v).
Proof using.
  induction vs as [|v vs IH]; intros offset es d o l pre mid tail i w Hvs E Hl Hs Ho Hb Hi; [done|]. cbn [append_values] in E. apply Forall_cons in Hvs as [Hv Hvs].
  destruct (append_value nested offset true (value v)) as [[e1 d1] o1] eqn:E1. destruct (append_value_size _ _ _ _ _ Hv E1) as [Z1 ->].
  fold (append_values value nested true) in E. destruct (append_values value nested true (offset + zlen d1) vs) as [[es2 d2] o2] eqn:E2. injection E as <- <- <-.
  rewrite zlen_app in Hb. pose proof (zlen_nonneg d1). pose proof (zlen_nonneg d2). rewrite <-app_assoc in Hl, Hs. destruct i as [|i].
  - injection Hi as <-. change (5 * Z.of_nat 0) with 0. rewrite Z.add_0_r. eapply entry_read; [done|done|exact Hl|exact Hs|done|lia].
  - replace (zlen pre + 5 * Z.of_nat (S i)) with (zlen (pre ++ e1) + 5 * Z.of_nat i) by (rewrite zlen_app; lia). eapply IH; [done|done|by rewrite Hl, app_assoc| |lia|lia|done].
    rewrite <-(skip_skip offset (zlen d1)) by lia. rewrite Hs, skip_app by done. done.
Qed.
End Entries.

Lemma fill_large v : fill_value v true = le_split 4 v.
Proof. apply int4store_le. Qed.
Lemma fill_small v : fill_value v false = le_split 2 v.
Proof. apply int2store_le. Qed.

#[local] Opaque fill_value.

Lemma key_entries_size keys : forall offset es o, key_entries offset true keys = (es, o) -> zlen es = 6 * zlen keys /\ o = offset + zlen (mjoin (cstr <$> keys)).
Proof.
  induction keys as [|k keys IH]; intros offset es o E; cbn [key_entries] in E; [injection E as <- <-; split; [done|by rewrite Z.add_0_r]|].
  destruct (key_entries (offset + zlen (cstr k)) true keys) as [es2 o2] eqn:E2. injection E as <- <-. destruct (IH _ _ _ E2) as [Z2 ->].
  rewrite fmap_cons, join_cons, !zlen_app, zlen_cons, fill_large, fill_small, !zlen_le_split. lia.
Qed.

Lemma keys_read keys : forall offset es o l pre mid tail i k,
  Forall (fun k => (0 ∉ k) /\ zlen k < 2 ^ 16) keys -> key_entries offset true keys = (es, o) -> l = pre ++ es ++ mid -> skip offset l = mjoin (cstr <$> keys) ++ tail ->
  0 <= offset -> offset + zlen (mjoin (cstr <$> keys)) <= zlen l -> offset + zlen (mjoin (cstr <$> keys)) < 2 ^ 32 -> keys !! i = Some k -> read_key l (zlen pre + 6 * Z.of_nat i) = Some k.
Proof.
  induction keys as [|k keys IH]; intros offset es o l pre mid tail i w Hks E Hl Hs Ho Hle Hb Hi; [done|]. cbn [key_entries] in E. apply Forall_cons in Hks as [[Hk Hk'] Hks].
  destruct (key_entries (offset + zlen (cstr k)) true keys) as [es2 o2] eqn:E2. injection E as <- <-. rewrite fmap_cons, join_cons in Hs, Hb, Hle. rewrite zlen_app in Hb, Hle. rewrite <-app_assoc in Hs.
  rewrite (cstr_id k) in * by done. pose proof (zlen_nonneg k). pose proof (zlen_nonneg (mjoin (cstr <$> keys))). rewrite fill_large, fill_small, <-!app_assoc in Hl. destruct i as [|i].
  - injection Hi as <-. change (6 * Z.of_nat 0) with 0. rewrite Z.add_0_r. unfold read_key. rewrite Hl at 1. rewrite (le_at_split 4) by (done || (change (256 ^ Z.of_nat 4) with (2 ^ 32); lia)). cbn [mbind option_bind].
    rewrite Hl at 1. rewrite app_assoc, (le_at_split 2); [|by rewrite zlen_app, zlen_le_split|change (256 ^ Z.of_nat 2) with (2 ^ 16); lia]. cbn [mbind option_bind].
    unfold slice. rewrite Hs, first_app by done. rewrite bool_decide_eq_true_2; [done|]. lia.
  - replace (zlen pre + 6 * Z.of_nat (S i)) with (zlen (pre ++ le_split 4 offset ++ le_split 2 (zlen k)) + 6 * Z.of_nat i) by (rewrite !zlen_app, !zlen_le_split; lia).
    eapply IH; [done|exact E2|by rewrite Hl, <-!app_assoc| |lia|lia|lia|done]. rewrite <-(skip_skip offset (zlen k)) by lia. rewrite Hs, skip_app by done. done.
Qed.

Lemma zlen_sized n rest : zlen (sized n rest) = 8 + zlen rest.
Proof. unfold sized. rewrite !zlen_app, !fill_large, !zlen_le_split. lia. Qed.
Lemma sized_shape n rest r : zlen (sized n rest) < 2 ^ 32 -> 0 <= n <= zlen rest ->
  exists pre, sized n rest ++ r = pre ++ rest ++ r /\ zlen pre = 8 /\
    le_at 4 0 (sized n rest ++ r) = Some n /\ le_at 4 4 (sized n rest ++ r) = Some (zlen (sized n rest)).
Proof.
  intros Hz Hn. pose proof (zlen_sized n rest) as E. remember (zlen (sized n rest)) as size eqn:Es.
  assert (sized n rest = le_split 4 n ++ le_split 4 size ++ rest) as ->; [unfold sized; rewrite !fill_large, !zlen_app, !zlen_le_split; do 3 f_equal; lia|]. clear Es.
  exists (le_split 4 n ++ le_split 4 size). rewrite <-!app_assoc. split_and!.
  - done.
  - by rewrite zlen_app, !zlen_le_split.
  - apply (le_at_split 4 []); [done|]. change (256 ^ Z.of_nat 4) with (2 ^ 32). lia.
  - apply (le_at_split 4); [by rewrite zlen_le_split|]. change (256 ^ Z.of_nat 4) with (2 ^ 32). pose proof (zlen_nonneg rest). lia.
Qed.

Lemma mapM_seq {A} (f : nat -> option A) (xs : list A) : (forall i x, xs !! i = Some x -> f i = Some x) -> mapM f (seq 0 (length xs)) = Some xs.
Proof.
  intros H. apply mapM_Some_2. apply Forall2_same_length_lookup. split; [by rewrite length_seq|]. intros i x y Hx Hy. apply lookup_seq in Hx as [-> _]. by apply H.
Qed.

Lemma height_elem {A} (h : A -> nat) l x : x ∈ l -> (h x <= foldr max O (h <$> l))%nat.
Proof. induction 1 as [x l|x y l _ IH]; cbn; lia. Qed.

Lemma representable_values l : representable (JArray l) -> Forall representable l.
Proof. cbn. induction l as [|v l IH]; [done|]. cbn. intros [H1 H2]. constructor; [done|by apply IH]. Qed.
Lemma representable_members ms : representable (JObject ms) -> Forall (fun m => ((0 ∉ m.1) /\ zlen m.1 < 2 ^ 16) /\ representable m.2) ms.
Proof. cbn. induction ms as [|v ms IH]; [done|]. cbn. intros [(H0 & H1 & H2) H3]. constructor; [done|by apply IH]. Qed.

Lemma array_good fuel depth l : depth < 100 -> Forall (good (parse_nested_object (depth + 1)) (decode fuel)) l -> good (parse_nested_object depth) (decode (S fuel)) (JArray l).
Proof.
  intros Hd Hl. unfold good. cbn [parse_nested_object]. rewrite (proj2 (Z.leb_gt JSON_DOCUMENT_MAX_DEPTH depth)) by done. rewrite andb_false_r.
  destruct (append_values _ _ _ _ l) as [[es d] o] eqn:E. destruct (append_values_size _ (decode fuel) id l _ _ _ _ Hl E) as [Z1 ->]. pose proof (zlen_nonneg l). pose proof (zlen_nonneg d).
  rewrite zlen_sized, zlen_app, Z1. change VALUE_ENTRY_SIZE_LARGE with 5. split; [lia|]. split; [done|]. intros Hz r.
  destruct (sized_shape (zlen l) (es ++ d) r) as (pre & Eb & Zp & R0 & R4); [by rewrite zlen_sized, zlen_app, Z1|rewrite zlen_app; lia|].
  cbn [decode]. change (JSONB_TYPE_LARGE_ARRAY =? 1) with false. change (JSONB_TYPE_LARGE_ARRAY =? 3) with true. cbn iota. rewrite R0. cbn [mbind option_bind]. rewrite R4. cbn [mbind option_bind].
  rewrite (proj2 (Z.leb_le _ _)) by (rewrite zlen_app; pose proof (zlen_nonneg r); lia). rewrite to_nat_zlen, mapM_seq with (xs := l); [done|]. intros i v Hi. rewrite <-Zp.
  eapply (entries_read _ _ id l _ es d _ _ pre (d ++ r) r); [exact Hl|exact E|by rewrite Eb, <-!app_assoc| | | |exact Hi]; change VALUE_ENTRY_SIZE_LARGE with 5; [|lia|lia].
  rewrite Eb. rewrite <-app_assoc, app_assoc. apply skip_app. rewrite zlen_app. lia.
Qed.

Lemma object_good fuel depth ms : Forall (fun m => (0 ∉ m.1) /\ zlen m.1 < 2 ^ 16) ms -> Forall (fun m => good (parse_nested_object (depth + 1)) (decode fuel) m.2) ms ->
  good (parse_nested_object depth) (decode (S fuel)) (JObject ms).
Proof.
  intros Hk Hl. unfold good. cbn [parse_nested_object]. destruct (key_entries _ _ _) as [ks o1] eqn:E1. destruct (key_entries_size _ _ _ _ E1) as [Z1 ->]. rewrite zlen_fmap in Z1.
  destruct (append_values _ _ _ _ ms) as [[es d] o] eqn:E. destruct (append_values_size _ (decode fuel) snd ms _ _ _ _ Hl E) as [Z2 ->].
  set (kd := mjoin (cstr <$> (fst <$> ms))) in *. pose proof (zlen_nonneg ms). pose proof (zlen_nonneg d). pose proof (zlen_nonneg kd).
  rewrite zlen_sized, !zlen_app, Z1, Z2. change VALUE_ENTRY_SIZE_LARGE with 5 in *. change KEY_ENTRY_SIZE_LARGE with 6 in *. split; [lia|]. split; [done|]. intros Hz r.
  destruct (sized_shape (zlen ms) (ks ++ es ++ kd ++ d) r) as (pre & Eb & Zp & R0 & R4); [by rewrite zlen_sized, !zlen_app, Z1, Z2|rewrite !zlen_app; lia|].
  cbn [decode]. change (JSONB_TYPE_LARGE_OBJECT =? 1) with true. cbn iota. rewrite R0. cbn [mbind option_bind]. rewrite R4. cbn [mbind option_bind].
  rewrite (proj2 (Z.leb_le _ _)) by (rewrite zlen_app; pose proof (zlen_nonneg r); lia). rewrite to_nat_zlen, mapM_seq with (xs := ms); [done|]. intros i [k v] Hi. rewrite <-Zp at 1.
  assert (zlen (sized (zlen ms) (ks ++ es ++ kd ++ d) ++ r) = 8 + zlen ks + zlen es + zlen kd + zlen d + zlen r) as Zl by (rewrite Eb, !zlen_app; lia). pose proof (zlen_nonneg r).
  erewrite (keys_read (fst <$> ms) _ ks _ _ pre (es ++ kd ++ d ++ r) (d ++ r) i k); [|by apply Forall_fmap|exact E1|by rewrite Eb, <-!app_assoc| | | | |by rewrite list_lookup_fmap, Hi].
  - cbn [mbind option_bind]. replace (8 + 6 * zlen ms) with (zlen (pre ++ ks)) by (rewrite zlen_app; lia).
    erewrite (entries_read _ _ snd ms _ es d _ _ (pre ++ ks) (kd ++ d ++ r) r i (k, v)); [done|exact Hl|exact E|by rewrite Eb, <-!app_assoc| | | |exact Hi]; [|lia|lia].
    rewrite Eb. rewrite <-!app_assoc. rewrite (app_assoc pre), (app_assoc (pre ++ ks)), (app_assoc ((pre ++ ks) ++ es)). apply skip_app. rewrite !zlen_app. lia.
  - rewrite Eb. rewrite <-!app_assoc. rewrite (app_assoc pre), (app_assoc (pre ++ ks)). apply skip_app. rewrite !zlen_app. lia.
  - lia.
  - fold kd. lia.
  - fold kd. lia.
Qed.

Lemma nested_good v : forall depth fuel, representable v -> depth + Z.of_nat (height v) <= 100 -> (height v <= fuel)%nat -> good (parse_nested_object depth) (decode fuel) v.
Proof.
  induction v as [|b|n|bits|s|l IH|ms IH] using json_nested_ind; intros depth fuel Hr Hd Hf; (destruct fuel as [|fuel]; [cbn in Hf; lia|]).
  - split_and!; try done. intros _ r. cbn [decode]. unfold read_scalar. cbn [JSONB_TYPE_LITERAL Z.eqb Pos.eqb app]. by rewrite head_at.
  - split_and!; try done. intros _ r. cbn [decode]. unfold read_scalar. cbn [JSONB_TYPE_LITERAL Z.eqb Pos.eqb app]. rewrite head_at. by destruct b.
  - unfold good. cbn [parse_nested_object]. pose proof (number_value_ok n) as H. destruct (number_value n) as [[ty b] o]. destruct (H [] Hr) as (_ & -> & _ & T1 & T3 & Hi). split; [done|]. split.
    + intros Hs. apply Hi. destruct (IsInt n) eqn:E; [|done]. cbn in Hs. rewrite E in Hs. assert (is_int32 n = true) as E' by (unfold IsInt, is_int32 in *; lia). by rewrite E', orb_true_r in Hs.
    + intros _ r. cbn [decode]. rewrite T1, T3. by apply H.
  - split_and!; try done. intros _ r. cbn [decode]. unfold read_scalar. cbn [JSONB_TYPE_DOUBLE Z.eqb Pos.eqb]. rewrite (scalar_at 8). cbn [fmap option_fmap option_map]. rewrite Z.mod_small by apply Hr. done.
  - unfold good. cbn [parse_nested_object]. rewrite zlen_app. split_and!; try done. intros Hz r. cbn [decode]. unfold read_scalar. cbn [JSONB_TYPE_STRING Z.eqb Pos.eqb]. rewrite <-app_assoc. unfold append_variable_length in *.
    pose proof (zlen_nonneg s). pose proof (zlen_nonneg (variable_length 10 (zlen s))). rewrite variable_length_ok; [|change (128 ^ Z.of_nat 10) with (2 ^ 70); lia|lia]. cbn [mbind option_bind]. by rewrite slice_head.
  - cbn in Hd, Hf. apply array_good; [lia|]. apply representable_values in Hr. rewrite Forall_forall in IH, Hr |- *. intros v Hv. pose proof (height_elem height l v Hv). apply IH; [done|by apply Hr|lia|lia].
  - cbn in Hd, Hf. apply representable_members in Hr. rewrite Forall_forall in IH, Hr. apply object_good; rewrite Forall_forall; intros m Hm; [by apply Hr|].
    pose proof (height_elem (fun m => height m.2) ms m Hm). apply IH; [done|by apply Hr|cbn in *; lia|cbn in *; lia].
Qed.

Lemma top_level_read fuel v : representable v -> (height v <= 99)%nat -> (height v <= fuel)%nat -> zlen (top_level v) <= 2 ^ 32 -> read_document fuel (top_level v) = Some v.
Proof.
  intros Hr Hh Hf. pose proof (nested_good v 1 fuel Hr ltac:(lia) Hf) as H. revert H. unfold good, top_level. destruct (parse_nested_object 1 v) as [[ty b] o]. intros (_ & _ & H).
  rewrite zlen_cons. intros Hz. cbn [read_document]. specialize (H ltac:(lia) []). by rewrite app_nil_r in H.
Qed.

(** C28: A JSON document survives the conversion: the bytes that are written for it, read as
    MySQL reads its binary format (offsets, inlined values, sizes), give the same document,
    members in the same order; for documents of less than 4 GB nested at most 99 deep, with
    integers of any of the four types of the parser. *)
Theorem json_roundtrip Parse data v fuel :
  Parse data = Some v -> representable v -> (height v <= 99)%nat -> (height v <= fuel)%nat -> zlen (parser Parse data) <= 2 ^ 32 ->
  read_document fuel (parser Parse data) = Some v.
Proof.
  intros E. unfold parser. rewrite E. apply top_level_read.
Qed.

(** ** Diffs *)

Inductive diff := Replace (path : bytes) (v : json) | Insert (path : bytes) (v : json) | Remove (path : bytes).

(** A diff as the source of the changes writes it. *)
Definition diff_json (d : diff) : json :=
  match d with
  | Replace path v => JObject [(str "op", JString (str "replace")); (str "path", JString path); (str "value", v)]
  | Insert path v => JObject [(str "op", JString (str "insert")); (str "path", JString path); (str "value", v)]
  | Remove path => JObject [(str "op", JString (str "remove")); (str "path", JString path)]
  end.

Definition read_length (l : bytes) : option (Z * bytes) :=
  b ← le_at 1 0 l;
  if b <? 251 then Some (b, skip 1 l) else if b =? 252 then n ← le_at 2 1 l; Some (n, skip 3 l) else None.
Definition read_sized (l : bytes) : option (bytes * bytes) :=
  '(n, l) ← read_length l; x ← slice 0 n l; Some (x, skip n l).

(** The diffs of a partial update, as MySQL reads them; lengths of up to two bytes. *)
Fixpoint read_diffs (n fuel : nat) (l : bytes) : option (list diff) :=
  match n with
  | O => match l with [] => Some [] | _ => None end
  | S n =>
      op ← le_at 1 0 l;
      '(path, l) ← read_sized (skip 1 l);
      if op =? 2 then ds ← read_diffs n fuel l; Some (Remove path :: ds)
      else
        '(value, l) ← read_sized l;
        v ← read_document fuel value;
        ds ← read_diffs n fuel l;
        if op =? 0 then Some (Replace path v :: ds) else if op =? 1 then Some (Insert path v :: ds) else None
  end.

Definition path_ok (path : bytes) : Prop := (0 ∉ path) /\ zlen path < 2 ^ 16.
Definition value_ok (fuel : nat) (v : json) : Prop := representable v /\ (height v <= 99)%nat /\ (height v <= fuel)%nat /\ zlen (top_level v) < 2 ^ 16.
Definition diff_ok (fuel : nat) (d : diff) : Prop :=
  match d with Replace path v | Insert path v => path_ok path /\ value_ok fuel v | Remove path => path_ok path end.

Lemma packed_length_ok x : zlen x < 2 ^ 16 -> exists e, packed_length (zlen x) = Done e /\ forall r, read_sized (e ++ x ++ r) = Some (x, r).
Proof.
  intros Hx. pose proof (zlen_nonneg x). unfold packed_length, write_lenenc_uint, get_packed_integer. change (Z.shiftl 1 16) with (2 ^ 16). change (Z.shiftl 2 16) with (2 ^ 17).
  destruct (Z.ltb_spec (zlen x) 251) as [H1|H1].
  - exists [u8 (zlen x)]. split; [done|]. intros r. unfold read_sized, read_length. cbn [app]. rewrite head_at. cbn [mbind option_bind]. rewrite u8_id by (unfold is_u8; lia). rewrite (proj2 (Z.ltb_lt _ _)) by lia. cbn [mbind option_bind].
    change (skip 1 (zlen x :: x ++ r)) with (x ++ r). rewrite slice_head by done. cbn [mbind option_bind]. by rewrite skip_app.
  - rewrite (proj2 (Z.ltb_lt _ _)) by lia. rewrite (proj2 (Z.ltb_lt (zlen x) (2 ^ 17))) by lia. rewrite u16_id by (unfold is_u16; lia). exists (252 :: le_split 2 (zlen x)). split; [done|]. intros r.
    unfold read_sized, read_length. rewrite <-app_comm_cons, head_at. cbn [mbind option_bind]. change (252 <? 251) with false. change (252 =? 252) with true. cbn iota.
    change (252 :: le_split 2 (zlen x) ++ x ++ r) with ([252] ++ le_split 2 (zlen x) ++ x ++ r). rewrite (le_at_split 2) by (done || (change (256 ^ Z.of_nat 2) with (2 ^ 16); lia)). cbn [mbind option_bind].
    rewrite app_assoc, skip_app by (by rewrite zlen_app, zlen_le_split). rewrite slice_head by done. cbn [mbind option_bind]. by rewrite skip_app.
Qed.

Lemma heap_read_path path : 0 ∉ path -> heap_read 0 (zlen path) (cstr path ++ [0]) = Done path.
Proof.
  intros H. rewrite cstr_id by done. unfold heap_read. pose proof (zlen_nonneg path). rewrite bool_decide_eq_true_2 by (rewrite zlen_app; change (zlen [0]) with 1; lia). by rewrite skip_0, first_app.
Qed.

Definition diff_path (d : diff) : bytes := match d with Replace path _ | Insert path _ | Remove path => path end.
Definition diff_value (d : diff) : option json := match d with Replace _ v | Insert _ v => Some v | Remove _ => None end.
Definition diff_code (d : diff) : Z := match d with Replace _ _ => 0 | Insert _ _ => 1 | Remove _ => 2 end.

Lemma diff_bytes_eq d : diff_bytes (diff_json d) =
  path_len ← packed_length (zlen (diff_path d)); path_value ← heap_read 0 (zlen (diff_path d)) (cstr (diff_path d) ++ [0]);
  let head := int1store (diff_code d) ++ path_len ++ path_value in
  match diff_value d with None => Done head | Some v => value_len ← packed_length (zlen (top_level v)); Done (head ++ value_len ++ top_level v) end.
Proof. by destruct d. Qed.

(** What [diff_bytes] writes for a diff is read back, with anything behind it. *)
Lemma diff_read fuel d n : diff_ok fuel d -> exists b, diff_bytes (diff_json d) = Done b /\
  forall r, read_diffs (S n) fuel (b ++ r) = ds ← read_diffs n fuel r; Some (d :: ds).
Proof.
  intros Hd. assert (path_ok (diff_path d) /\ forall v, diff_value d = Some v -> value_ok fuel v) as [[H0 Hp] Hv].
  { destruct d; cbn in Hd |- *; [split; [apply Hd|intros ? [= <-]; apply Hd]..|done]. }
  destruct (packed_length_ok (diff_path d) Hp) as (e1 & E1 & R1). rewrite diff_bytes_eq, E1. cbn [mbind outcome_bind]. rewrite heap_read_path by done. cbn [mbind outcome_bind]. cbn zeta.
  assert (int1store (diff_code d) = [diff_code d]) as -> by by destruct d. destruct (diff_value d) as [v|] eqn:Ev.
  - destruct (Hv v eq_refl) as (Hr & Hh & Hf & Hz). destruct (packed_length_ok (top_level v) Hz) as (e2 & E2 & R2). rewrite E2. cbn [mbind outcome_bind]. eexists. split; [done|]. intros r.
    rewrite <-!app_assoc. change ([diff_code d] ++ ?l) with (diff_code d :: l). cbn [read_diffs]. rewrite head_at. cbn [mbind option_bind]. change (skip 1 (diff_code d :: ?l)) with l. rewrite R1. cbn [mbind option_bind].
    destruct d as [path v'|path v'|path]; [injection Ev as ->|injection Ev as ->|done]; cbn [diff_code diff_path]; [change (0 =? 2) with false|change (1 =? 2) with false]; cbn iota;
      rewrite R2; cbn [mbind option_bind]; rewrite top_level_read by (done || lia); done.
  - eexists. split; [done|]. intros r. rewrite <-!app_assoc. change ([diff_code d] ++ ?l) with (diff_code d :: l). cbn [read_diffs]. rewrite head_at. cbn [mbind option_bind]. change (skip 1 (diff_code d :: ?l)) with l.
    rewrite R1. cbn [mbind option_bind]. by destruct d.
Qed.

Lemma diffs_read fuel ds : Forall (diff_ok fuel) ds -> exists b, diffs_bytes (diff_json <$> ds) = Done b /\ read_diffs (length ds) fuel b = Some ds.
Proof.
  induction 1 as [|d ds Hd _ (b & E & R)]; [by exists []|]. destruct (diff_read fuel d (length ds) Hd) as (b1 & E1 & R1). rewrite fmap_cons. cbn [diffs_bytes]. rewrite E1. cbn [mbind outcome_bind]. rewrite E.
  eexists. split; [done|]. cbn [length]. rewrite R1, R. done.
Qed.


(** The lengths of a diff are written into blocks that are too small for them: a path or a
    value of 64 KB to 128 KB makes the conversion write past its block. *)
Theorem long_diff_overflows d path v :
  d = Replace path v \/ d = Insert path v -> (0 ∉ path) -> zlen path < 2 ^ 16 -> 2 ^ 16 <= zlen (top_level v) < 2 ^ 17 -> diff_bytes (diff_json d) = Crash.
Proof.
  intros Hd H0 Hp Hv. rewrite diff_bytes_eq. assert (diff_path d = path /\ diff_value d = Some v) as [-> ->] by (by destruct Hd; subst). destruct (packed_length_ok path Hp) as (e1 & -> & _). cbn [mbind outcome_bind].
  rewrite heap_read_path by done. cbn [mbind outcome_bind]. cbn zeta. unfold packed_length, get_packed_integer. change (Z.shiftl 2 16) with (2 ^ 17). rewrite (proj2 (Z.ltb_ge _ 251)) by lia. rewrite (proj2 (Z.ltb_lt _ (2 ^ 17))) by lia.
  destruct (write_lenenc_uint_cases MAX_PACKET_INTEGER_LEN (zlen (top_level v)) ltac:(done) ltac:(lia)) as [[? E]|[[? E]|[[? E]|[[? E]|[? E]]]]]; try lia. rewrite E. unfold heap_write. cbv beta iota.
  rewrite (proj2 (Z.leb_gt _ _)); [done|]. rewrite zlen_cons, zlen_le_split, zlen_replicate. lia.
Qed.

(** ** Concrete instances *)

#[local] Transparent fill_value.

Definition j_doc : json :=
  JObject [(str "id", JNumber 5); (str "tags", JArray [JNull; JNumber (-70000); JNumber 5000000000; JString (str "hello"); JNumber (2 ^ 31 + 7)]);
           (str "more", JObject [(str "ok", JBool true); (str "none", JArray [])]); (str "x", JDouble 4607182418800017408); (str "big", JNumber (2 ^ 64 - 1))].
Definition j_diffs : list diff := [Replace (str "$.id") (JNumber 6); Insert (str "$.tags[2]") (JString (str "t")); Remove (str "$.x")].
Definition j_parse (data : bytes) : option json :=
  if beq data (str "doc") then Some j_doc else if beq data (str "diff") then Some (JObject [(str "diffs", JArray (diff_json <$> j_diffs))]) else None.

Lemma json_roundtrip_witness : read_document 4 (parser j_parse (str "doc")) = Some j_doc.
Proof.
  apply json_roundtrip; [done| |cbn; lia|cbn; lia|by vm_compute].
  cbn. split_and!; try done; try lia; try (by_compute).
Defined.


Lemma long_diff_overflows_witness : diff_bytes (diff_json (Replace (str "$.x") (JString (replicate (Z.to_nat 70000) 65)))) = Crash.
Proof. apply (long_diff_overflows _ (str "$.x") (JString (replicate (Z.to_nat 70000) 65))); [by left|by_compute|by_compute|by_compute]. Defined.

(** A text that is not JSON is stored as the JSON null. *)
Example j_malformed : parser j_parse (str "{") = [4; 0].
Proof. reflexivity. Qed.

(** The elements of an array 100 levels down are lost. *)
Example j_too_deep : (parse_nested_object 100 (JArray [JNumber 7])).1.2 = [1; 0; 0; 0; 0; 0; 0; 0; 0; 0; 0; 0; 0].
Proof. reflexivity. Qed.
