(* ===== verification/Decimal.v ===== *)
(** * Decimal columns

    [convert_binlog_decimal] of [src/src/binlog/data_type.cpp]: the text of a DECIMAL value
    in the packed format of MySQL.  A reference decoder reads that format
    ([bin2decimal] of the server), and the values are shown to be read back by it. *)

From S2P Require Import Prelude Bytes Str.

#[local] Open Scope Z_scope.

(** ** Columns *)

(** What the conversion asks of [IColMeta], a class of the external log-message library. *)
Record IColMeta := mkColMeta {
  getType : Z;
  getLength : Z;
  getPrecision : Z;
  getScale : Z;
  getEncoding : bytes;
  getValuesOfEnumSet : list bytes;
  isNotNull : bool
}.

Definition atoi (s : bytes) : Z := sint 32 (atoll s).
(** [std::stoi]: [None] is the exception. *)
Definition stoi (s : bytes) : option Z := v ← stol s; if (- 2 ^ 31 <=? v) && (v <? 2 ^ 31) then Some v else None.

(** ** The conversion *)

Definition DECODE_BASE_LEN : Z := 9.
Definition DECIMAL_STORE_BASE_LEN : Z := 4.
Definition powers10 (n : Z) : Z := 10 ^ n.
Definition dig2bytes (n : Z) : outcome Z := if 0 <=? n then of_option ([0; 1; 1; 2; 2; 3; 3; 4; 4; 4] !! Z.to_nat n) else Crash.

(** The [switch] over the number of bytes. *)
Definition hf_store (bytes_size value : Z) : bytes :=
  if bytes_size =? 1 then hf_int1store value
  else if bytes_size =? 2 then hf_int2store value
  else if bytes_size =? 3 then hf_int3store value
  else if bytes_size =? 4 then hf_int4store value
  else [].

(** The groups of nine digits: where reading goes on, the block and the offset. *)
Fixpoint store_groups (n : nat) (data : bytes) (mask from : Z) (s : bytes * Z) : outcome (Z * (bytes * Z)) :=
  match n with
  | O => Done (from, s)
  | S n =>
      group ← heap_read from DECODE_BASE_LEN (data ++ [0]);
      let value := Z.lxor (atoi group) mask in
      buff ← heap_write s.2 (hf_int4store value) s.1;
      store_groups n data mask (from + DECODE_BASE_LEN) (buff, s.2 + DECIMAL_STORE_BASE_LEN)
  end.

Section Decimal.
(** [alloc]: what is in a block that [malloc] returns; [ndebug]: asserts are compiled out. *)
Context (alloc : Z -> bytes) (ndebug : bool).

Definition assert_ (b : bool) : outcome unit := if ndebug || b then Done tt else Crash.

(** The digits in front of the groups, in the integer part and behind them, in the fraction. *)
Definition store_lead (data : bytes) (mask sign_size intg0x orig_isize0 : Z) (s : bytes * Z) : outcome (bytes * Z) :=
  if (0 <? intg0x) && negb (orig_isize0 =? 0) then
    intg0x_str ← heap_read sign_size intg0x (data ++ [0]);
    bytes_size ← dig2bytes intg0x;
    let value := Z.lxor (Z.rem (atoi intg0x_str) (powers10 intg0x)) mask in
    buff ← heap_write s.2 (hf_store bytes_size value) s.1;
    Done (buff, s.2 + bytes_size)
  else Done s.

Definition store_tail (data : bytes) (mask from frac0x total : Z) (s : bytes * Z) : outcome (bytes * Z) :=
  if 0 <? frac0x then
    frac_str ← heap_read from frac0x (data ++ [0]);
    bytes_size ← dig2bytes frac0x;
    v ← of_option (stoi frac_str);
    let value := u32 (Z.lxor v mask) in
    assert_ (s.2 + bytes_size <? total);;
    buff ← heap_write s.2 (hf_store bytes_size value) s.1;
    Done (buff, s.2 + bytes_size)
  else Done s.

Definition convert_binlog_decimal (col_meta : IColMeta) (data : bytes) : outcome (Z * list bytes) :=
  let data_len := zlen data in
  let frac_max := if 0 <=? getScale col_meta then getScale col_meta else 0 in
  let precision := if 0 <=? getPrecision col_meta then getPrecision col_meta else 10 in
  let mask := if beq (first 1 data) [45] then -1 else 0 in
  let sign_size := if mask <? 0 then 1 else 0 in
  let intg_max := precision - frac_max in
  let index := index_of (cstr data) 46 0 in
  let intg := if 0 <? index then index - sign_size else data_len - sign_size in
  let frac := data_len - (intg + sign_size) - (if 0 <? index then 1 else 0) in
  let intg0 := Z.quot intg DECODE_BASE_LEN in
  let intg_max0 := Z.quot intg_max DECODE_BASE_LEN in
  let frac0 := Z.quot frac DECODE_BASE_LEN in
  let frac_max0 := Z.quot frac_max DECODE_BASE_LEN in
  let intg0x := intg - intg0 * DECODE_BASE_LEN in
  let intg_max0x := intg_max - intg_max0 * DECODE_BASE_LEN in
  let frac0x := frac - frac0 * DECODE_BASE_LEN in
  let frac_max0x := frac_max - frac_max0 * DECODE_BASE_LEN in
  i ← dig2bytes intg0x; im ← dig2bytes intg_max0x; f ← dig2bytes frac0x; fm ← dig2bytes frac_max0x;
  let isize0 := intg0 * DECIMAL_STORE_BASE_LEN + i in
  let isize_max0 := intg_max0 * DECIMAL_STORE_BASE_LEN + im in
  let fsize0 := frac0 * DECIMAL_STORE_BASE_LEN + f in
  let fsize_max0 := frac_max0 * DECIMAL_STORE_BASE_LEN + fm in
  let total := isize_max0 + fsize_max0 in
  let fill := Z.max 0 (isize_max0 - isize0) in
  buff ← heap_write 0 (replicate (Z.to_nat fill) (u8 mask)) (alloc total);
  let '(frac0, frac0x, fsize_max) :=
    if (fsize0 <? fsize_max0) && negb (frac0x =? 0)
    then if frac0 =? frac_max0 then (frac0, frac_max0x, fsize0) else (frac0 + 1, 0, fsize_max0)
    else (frac0, frac0x, fsize_max0) in
  s ← store_lead data mask sign_size intg0x isize_max0 (buff, fill);
  '(from, s) ← store_groups (Z.to_nat intg0) data mask (intg0x + sign_size) s;
  '(from, s) ← store_groups (Z.to_nat frac0) data mask (from + 1) s;
  '(buff, offset) ← store_tail data mask from frac0x total s;
  let rest := Z.max 0 (Z.min (fsize_max - fsize0) (total - offset)) in
  buff ← heap_write offset (replicate (Z.to_nat rest) (u8 mask)) buff;
  match buff with
  | [] => Crash
  | b :: buff => Done (total, [Z.lxor b 0x80 :: buff])
  end.
End Decimal.

(** ** The format, as MySQL reads it *)

Definition be_combine (l : bytes) : Z := le_combine (rev l).

(** How many bytes hold [n] digits, up to nine. *)
Definition group_bytes (n : Z) : Z := (n + 1) / 2 - n / 9.

(** Digits and bytes of each group: the digits that do not fill a group come first in the
    integer part and last in the fraction. *)
Definition layout (precision scale : Z) : list (Z * Z) :=
  let intg := precision - scale in
  [(intg `mod` 9, group_bytes (intg `mod` 9))] ++ replicate (Z.to_nat (intg / 9)) (9, 4) ++
  replicate (Z.to_nat (scale / 9)) (9, 4) ++ [(scale `mod` 9, group_bytes (scale `mod` 9))].

Fixpoint read_groups (groups : list (Z * Z)) (acc : Z) (b : bytes) : Z :=
  match groups with
  | [] => acc
  | (digits, n) :: groups => read_groups groups (acc * 10 ^ digits + be_combine (first n b)) (skip n b)
  end.

(** The sign, and the digits as one integer. *)
Definition bin2decimal (precision scale : Z) (b : bytes) : option (bool * Z) :=
  match b with
  | [] => None
  | b0 :: rest =>
      let negative := b0 <? 0x80 in
      let b := Z.lxor b0 0x80 :: rest in
      Some (negative, read_groups (layout precision scale) 0 (if negative then Z.lxor 0xFF <$> b else b))
  end.

(** ** Digits *)

Lemma digits_val_acc l acc : digits l -> digits_val l acc = acc * 10 ^ zlen l + digits_val l 0.
Proof.
  revert acc. induction l as [|c l IH]; intros acc Hl; [change (10 ^ zlen (@nil Z)) with 1; cbn [digits_val]; lia|]. apply Forall_cons in Hl as [Hc Hl]. cbn [digits_val]. rewrite (proj2 (isdigit_spec c)) by done.
  rewrite IH by done. rewrite (IH (0 * 10 + _)) by done. rewrite zlen_cons, Z.pow_add_r by (pose proof (zlen_nonneg l); lia). lia.
Qed.
Lemma digits_val_app a b acc : digits a -> digits_val (a ++ b) acc = digits_val b (digits_val a acc).
Proof. revert acc. induction a as [|c a IH]; intros acc Ha; [done|]. apply Forall_cons in Ha as [Hc Ha]. cbn [app digits_val]. rewrite (proj2 (isdigit_spec c)) by done. by apply IH. Qed.
Lemma digits_val_bound l : digits l -> 0 <= digits_val l 0 < 10 ^ zlen l.
Proof.
  induction l as [|c l IH] using rev_ind; intros Hl; [done|]. apply Forall_app in Hl as [Hl Hc]. apply Forall_cons in Hc as [Hc _]. rewrite digits_val_app by done. cbn [digits_val]. rewrite (proj2 (isdigit_spec c)) by done.
  rewrite zlen_app. change (zlen [c]) with 1. rewrite Z.pow_add_r by (pose proof (zlen_nonneg l); lia). specialize (IH Hl). change (10 ^ 1) with 10. lia.
Qed.
Lemma digits_app a b : digits (a ++ b) <-> digits a /\ digits b.
Proof. apply Forall_app. Qed.
Lemma digits_first n l : digits l -> digits (first n l).
Proof. apply Forall_take. Qed.
Lemma digits_skip n l : digits l -> digits (skip n l).
Proof. apply Forall_drop. Qed.

Lemma read_number_digits s : digits s -> s <> [] -> read_number s = (digits_val s 0, true).
Proof.
  intros Hs Hne. unfold read_number. rewrite cstr_id by (apply digits_not_in; [done|lia]). destruct s as [|c s]; [done|]. apply Forall_cons in Hs as [Hc Hs].
  cbn [ltrim]. assert (isspace c = false) as -> by (unfold isspace; lia). cbn [read_sign]. rewrite (proj2 (Z.eqb_neq c 45)), (proj2 (Z.eqb_neq c 43)) by lia. by rewrite (proj2 (isdigit_spec c)).
Qed.

(** A group of at most nine digits is read as the number it denotes. *)
Lemma group_value s : digits s -> s <> [] -> zlen s <= 9 -> atoi s = digits_val s 0 /\ stoi s = Some (digits_val s 0).
Proof.
  intros Hs Hne Hz. pose proof (digits_val_bound s Hs) as Hb. assert (10 ^ zlen s <= 10 ^ 9) as Hp by (apply Z.pow_le_mono_r; lia). change (10 ^ 9) with 1000000000 in Hp.
  unfold atoi, atoll, stoi, stol. rewrite read_number_digits by done. cbn [fst]. split.
  - rewrite Z.min_r, Z.max_r by (unfold LLONG_MAX, LLONG_MIN; lia). unfold sint. rewrite Z.mod_small by lia. lia.
  - rewrite (proj2 (Z.leb_le LLONG_MIN _)), (proj2 (Z.leb_le _ LLONG_MAX)) by (unfold LLONG_MAX, LLONG_MIN; lia). cbn [andb mbind option_bind].
    rewrite (proj2 (Z.leb_le _ _)), (proj2 (Z.ltb_lt _ _)) by lia. done.
Qed.

(** ** Blocks that are written from the front *)

Definition filled (w : bytes) (total : Z) (s : bytes * Z) : Prop := s.2 = zlen w /\ zlen s.1 = total /\ first (zlen w) s.1 = w.

Lemma heap_write_filled w total s new : filled w total s -> zlen w + zlen new <= total ->
  exists buff, heap_write s.2 new s.1 = Done buff /\ filled (w ++ new) total (buff, s.2 + zlen new).
Proof.
  destruct s as [b o]. unfold filled. cbn [fst snd]. intros (-> & Hz & Hw) Ht. unfold heap_write. rewrite (proj2 (Z.leb_le _ _)) by lia. eexists. split; [done|].
  pose proof (zlen_nonneg w). pose proof (zlen_nonneg new). unfold overwrite. rewrite Hw. split_and!.
  - by rewrite zlen_app.
  - rewrite !zlen_app, zlen_skip by lia. lia.
  - rewrite app_assoc. by apply first_app.
Qed.

Lemma hf_store_be n v : (1 <= n <= 4)%nat -> hf_store (Z.of_nat n) v = be_split n v.
Proof. intros Hn. destruct (be_store_spec v) as (_ & _ & _ & _ & H1 & H2 & H3 & H4 & _). assert (n = 1 \/ n = 2 \/ n = 3 \/ n = 4)%nat as [->|[->|[->| ->]]] by lia; done. Qed.

(** ** Sign *)

(** The bytes of [v ^ mask]. *)
Definition masked (mask : Z) (l : bytes) : bytes := if mask =? 0 then l else Z.lxor 0xFF <$> l.

Lemma be_split_lnot n v : be_split n (Z.lxor v (-1)) = Z.lxor 0xFF <$> be_split n v.
Proof.
  unfold be_split. change (fmap (M := list) ?f) with (List.map f). rewrite List.map_rev. f_equal. change (List.map ?f) with (fmap (M := list) f). rewrite Z.lxor_m1_r. revert v. induction n as [|n IH]; intros v; [done|]. cbn [le_split]. rewrite fmap_cons. unfold Z.lnot. f_equal.
  - pose proof (Z.mod_pos_bound v 256 ltac:(lia)). assert (forall x, 0 <= x < 256 -> Z.lxor 255 x = 255 - x) as Hx.
    { intros x Hx. assert (Forall (fun k => Z.lxor 255 (Z.of_nat k) = 255 - Z.of_nat k) (seq 0 256)) as H0 by by_compute. rewrite Forall_forall in H0. specialize (H0 (Z.to_nat x)). rewrite Z2Nat.id in H0 by lia. apply H0, elem_of_seq. lia. }
    rewrite Hx by lia. symmetry. apply (Z.mod_unique _ _ (- (v / 256) - 1)); [lia|]. pose proof (Z.div_mod v 256 ltac:(lia)). lia.
  - rewrite <-(IH (v / 256)). unfold Z.lnot. f_equal. symmetry. apply (Z.div_unique _ _ _ (255 - v `mod` 256)); pose proof (Z.mod_pos_bound v 256 ltac:(lia)); [lia|]. pose proof (Z.div_mod v 256 ltac:(lia)). lia.
Qed.
Lemma masked_be mask n v : mask = 0 \/ mask = -1 -> be_split n (Z.lxor v mask) = masked mask (be_split n v).
Proof. unfold masked. intros [-> | ->]; cbn [Z.eqb]; [by rewrite Z.lxor_0_r|apply be_split_lnot]. Qed.
Lemma masked_app mask a b : masked mask (a ++ b) = masked mask a ++ masked mask b.
Proof. unfold masked. destruct (mask =? 0); [done|apply fmap_app]. Qed.
Lemma masked_zeros mask n : mask = 0 \/ mask = -1 -> replicate n (u8 mask) = masked mask (replicate n 0).
Proof. unfold masked. intros [-> | ->]; cbn [Z.eqb]; [done|]. by rewrite fmap_replicate. Qed.
Lemma zlen_masked mask l : zlen (masked mask l) = zlen l.
Proof. unfold masked. destruct (mask =? 0); [done|apply zlen_fmap]. Qed.

(** ** Writing *)

Fixpoint group_enc (n : nat) (ds : bytes) : bytes :=
  match n with O => [] | S n => be_split 4 (digits_val (first 9 ds) 0) ++ group_enc n (skip 9 ds) end.

Lemma zlen_group_enc n ds : zlen (group_enc n ds) = 4 * Z.of_nat n.
Proof. revert ds. induction n as [|n IH]; intros ds; [done|]. cbn [group_enc]. rewrite zlen_app, zlen_be_split, IH. lia. Qed.

Lemma heap_read_at pre x post : heap_read (zlen pre) (zlen x) (pre ++ x ++ post) = Done x.
Proof.
  unfold heap_read. pose proof (zlen_nonneg pre). pose proof (zlen_nonneg x). pose proof (zlen_nonneg post). rewrite bool_decide_eq_true_2 by (rewrite !zlen_app; lia). by rewrite skip_app, first_app.
Qed.

Lemma small_cases (P : Z -> Prop) n : 0 <= n < 9 -> Forall P [0; 1; 2; 3; 4; 5; 6; 7; 8] -> P n.
Proof. intros Hn H. rewrite Forall_forall in H. apply H. rewrite !elem_of_cons. lia. Qed.
Lemma dig2bytes_ok n : 0 <= n < 9 -> dig2bytes n = Done (group_bytes n).
Proof. intros Hn. apply (small_cases (fun n => dig2bytes n = Done (group_bytes n)) n Hn). repeat constructor. Qed.
Lemma group_bytes_bound n : 0 <= n < 9 -> 0 <= group_bytes n <= 4 /\ (0 < n -> 1 <= group_bytes n).
Proof. intros Hn. apply (small_cases (fun n => 0 <= group_bytes n <= 4 /\ (0 < n -> 1 <= group_bytes n)) n Hn). repeat constructor; by_compute. Qed.
Lemma group_bytes_mono a b : 0 <= a <= b -> b < 9 -> group_bytes a <= group_bytes b.
Proof. intros Ha Hb. unfold group_bytes. rewrite !(Z.div_small _ 9) by lia. pose proof (Z.div_le_mono (a + 1) (b + 1) 2). lia. Qed.
(** A group leaves the top bit of its bytes free. *)
Lemma group_fits n : 0 <= n < 9 -> 2 * 10 ^ n <= 256 ^ group_bytes n \/ n = 0.
Proof. intros Hn. apply (small_cases (fun n => 2 * 10 ^ n <= 256 ^ group_bytes n \/ n = 0) n Hn). repeat constructor; by_compute. Qed.

Lemma hf_store_group n v : 0 < n < 9 -> hf_store (group_bytes n) v = be_split (Z.to_nat (group_bytes n)) v.
Proof. intros Hn. destruct (group_bytes_bound n ltac:(lia)) as [H1 H2]. rewrite <-hf_store_be by lia. by rewrite Z2Nat.id by lia. Qed.

Section Stores.
Context (alloc : Z -> bytes) (ndebug : bool) (data : bytes) (mask total : Z) (Hmask : mask = 0 \/ mask = -1).

Lemma store_groups_ok n : forall pre ds post w s, data ++ [0] = pre ++ ds ++ post -> digits ds -> zlen ds = 9 * Z.of_nat n -> filled w total s -> zlen w + 4 * Z.of_nat n <= total ->
  exists s', store_groups n data mask (zlen pre) s = Done (zlen pre + 9 * Z.of_nat n, s') /\ filled (w ++ masked mask (group_enc n ds)) total s'.
Proof using Hmask.
  induction n as [|n IH]; intros pre ds post w s Hd Hds Hz Hs Hw; [exists s; cbn; rewrite Z.add_0_r; unfold masked; destruct (mask =? 0); by rewrite app_nil_r|].
  assert (zlen (first 9 ds) = 9) as Z9 by (apply zlen_first; lia). destruct (group_value (first 9 ds) (digits_first 9 ds Hds)) as [Hv _]; [by intros E; rewrite E in Z9|lia|].
  assert (data ++ [0] = pre ++ first 9 ds ++ skip 9 ds ++ post) as Hd' by (by rewrite Hd, (app_assoc (first 9 ds)), first_skip).
  pose proof (heap_read_at pre (first 9 ds) (skip 9 ds ++ post)) as Hread. rewrite Z9, <-Hd' in Hread. cbn [store_groups]. change DECODE_BASE_LEN with 9. rewrite Hread. cbn [mbind outcome_bind]. rewrite Hv.
  rewrite hf_int4store_be, masked_be by done. destruct (heap_write_filled w total s (masked mask (be_split 4 (digits_val (first 9 ds) 0))) Hs) as (b & Eb & Hb); [rewrite zlen_masked, zlen_be_split; lia|].
  rewrite Eb. cbn [mbind outcome_bind]. rewrite zlen_masked, zlen_be_split in Hb. change (Z.of_nat 4) with DECIMAL_STORE_BASE_LEN in Hb.
  destruct (IH (pre ++ first 9 ds) (skip 9 ds) post _ _ ltac:(by rewrite Hd', <-app_assoc) (digits_skip 9 ds Hds) ltac:(rewrite zlen_skip; lia) Hb) as (s' & Es & Hs').
  { rewrite zlen_app, zlen_masked, zlen_be_split. lia. }
  exists s'. rewrite zlen_app, Z9 in Es. rewrite Es. split; [do 2 f_equal; lia|]. cbn [group_enc]. by rewrite masked_app, app_assoc.
Qed.

Lemma store_lead_ok pre ds post orig w s : data ++ [0] = pre ++ ds ++ post -> digits ds -> zlen ds < 9 -> orig <> 0 -> filled w total s -> zlen w + group_bytes (zlen ds) <= total ->
  exists s', store_lead data mask (zlen pre) (zlen ds) orig s = Done s' /\ filled (w ++ masked mask (be_split (Z.to_nat (group_bytes (zlen ds))) (digits_val ds 0))) total s'.
Proof using Hmask.
  intros Hd Hds Hz Ho Hs Hw. pose proof (zlen_nonneg ds). unfold store_lead. rewrite (proj2 (Z.eqb_neq orig 0)) by done. cbn [negb]. rewrite andb_true_r. destruct (Z.ltb_spec 0 (zlen ds)) as [Hp|Hp].
  - rewrite Hd, heap_read_at. cbn [mbind outcome_bind]. rewrite dig2bytes_ok by lia. cbn [mbind outcome_bind]. destruct (group_value ds Hds) as [Hv _]; [by intros ->|lia|]. pose proof (digits_val_bound ds Hds).
    rewrite Hv. unfold powers10. rewrite Z.rem_small by lia. destruct (group_bytes_bound (zlen ds) ltac:(lia)) as [Hg1 Hg2].
    rewrite hf_store_group, masked_be by (done || lia).
    destruct (heap_write_filled w total s (masked mask (be_split (Z.to_nat (group_bytes (zlen ds))) (digits_val ds 0))) Hs) as (b & Eb & Hb); [rewrite zlen_masked, zlen_be_split; lia|].
    rewrite Eb. cbn [mbind outcome_bind]. rewrite zlen_masked, zlen_be_split, Z2Nat.id in Hb by lia. by eexists.
  - assert (ds = []) as -> by (apply zlen_0_nil; lia). exists s. split; [done|]. cbn. unfold masked. destruct (mask =? 0); by rewrite app_nil_r.
Qed.

Lemma store_tail_ok pre ds post w s : data ++ [0] = pre ++ ds ++ post -> digits ds -> zlen ds < 9 -> ndebug = true \/ ds = [] -> filled w total s -> zlen w + group_bytes (zlen ds) <= total ->
  exists s', store_tail ndebug data mask (zlen pre) (zlen ds) total s = Done s' /\ filled (w ++ masked mask (be_split (Z.to_nat (group_bytes (zlen ds))) (digits_val ds 0))) total s'.
Proof using Hmask.
  intros Hd Hds Hz Hn Hs Hw. pose proof (zlen_nonneg ds). unfold store_tail. destruct (Z.ltb_spec 0 (zlen ds)) as [Hp|Hp].
  - rewrite Hd, heap_read_at. cbn [mbind outcome_bind]. rewrite dig2bytes_ok by lia. cbn [mbind outcome_bind]. destruct (group_value ds Hds) as [_ Hv]; [by intros ->|lia|].
    rewrite Hv. cbn [of_option mbind outcome_bind]. destruct Hn as [-> | ->]; [|by cbn in Hp]. cbn [assert_ orb mbind outcome_bind]. destruct (group_bytes_bound (zlen ds) ltac:(lia)) as [Hg1 Hg2].
    rewrite hf_store_group by lia.
    assert (be_split (Z.to_nat (group_bytes (zlen ds))) (u32 (Z.lxor (digits_val ds 0) mask)) = masked mask (be_split (Z.to_nat (group_bytes (zlen ds))) (digits_val ds 0))) as ->.
    { rewrite <-masked_be by done. unfold be_split. f_equal. set (g := Z.to_nat (group_bytes (zlen ds))). unfold u32. rewrite <-(le_split_wrap g (_ `mod` _)), <-(le_split_wrap g (Z.lxor _ _)). f_equal.
      apply Z.mod_mod_divide. exists (256 ^ (4 - Z.of_nat g)). change (2 ^ 32) with (256 ^ 4). rewrite <-Z.pow_add_r by lia. f_equal. lia. }
    destruct (heap_write_filled w total s (masked mask (be_split (Z.to_nat (group_bytes (zlen ds))) (digits_val ds 0))) Hs) as (b & Eb & Hb); [rewrite zlen_masked, zlen_be_split; lia|].
    rewrite Eb. cbn [mbind outcome_bind]. rewrite zlen_masked, zlen_be_split, Z2Nat.id in Hb by lia. by eexists.
  - assert (ds = []) as -> by (apply zlen_0_nil; lia). exists s. split; [done|]. cbn. unfold masked. destruct (mask =? 0); by rewrite app_nil_r.
Qed.
End Stores.

(** ** Reading *)

Lemma be_combine_split n v : be_combine (be_split n v) = v `mod` 256 ^ Z.of_nat n.
Proof. unfold be_combine, be_split. rewrite rev_involutive. apply le_combine_split. Qed.
Lemma le_combine_app a b : le_combine (a ++ b) = le_combine a + 256 ^ zlen a * le_combine b.
Proof.
  induction a as [|x a IH]; [change (256 ^ zlen (@nil Z)) with 1; cbn [app le_combine]; lia|]. cbn [app le_combine]. rewrite IH, zlen_cons, Z.pow_add_r by (pose proof (zlen_nonneg a); lia). lia.
Qed.
Lemma be_combine_zeros k l : be_combine (replicate k 0 ++ l) = be_combine l.
Proof.
  induction k as [|k IH]; [done|]. rewrite <-IH. unfold be_combine. cbn [replicate app rev]. rewrite le_combine_app. cbn [le_combine]. lia.
Qed.

Lemma read_groups_step digits_ n lay acc x rest : zlen x = n -> read_groups ((digits_, n) :: lay) acc (x ++ rest) = read_groups lay (acc * 10 ^ digits_ + be_combine x) rest.
Proof. intros Hx. cbn [read_groups]. by rewrite first_app, skip_app. Qed.

Lemma read_groups_enc n : forall ds acc rest lay, digits ds -> zlen ds = 9 * Z.of_nat n ->
  read_groups (replicate n (9, 4) ++ lay) acc (group_enc n ds ++ rest) = read_groups lay (digits_val ds acc) rest.
Proof.
  induction n as [|n IH]; intros ds acc rest lay Hds Hz; [assert (ds = []) as -> by (apply zlen_0_nil; lia); done|]. cbn [group_enc replicate app]. rewrite <-app_assoc, read_groups_step by (by rewrite zlen_be_split).
  assert (zlen (first 9 ds) = 9) as Z9 by (apply zlen_first; lia). pose proof (digits_val_bound _ (digits_first 9 ds Hds)) as Hb. rewrite Z9 in Hb. change (10 ^ 9) with 1000000000 in *.
  rewrite be_combine_split. change (256 ^ Z.of_nat 4) with 4294967296. rewrite Z.mod_small by lia. rewrite IH; [|by apply digits_skip|rewrite zlen_skip; lia]. f_equal.
  rewrite <-(first_skip 9 ds) at 3. rewrite digits_val_app by (by apply digits_first). f_equal. rewrite (digits_val_acc (first 9 ds) acc) by (by apply digits_first). rewrite Z9. done.
Qed.
Lemma read_groups_zeros n lay rest : read_groups (replicate n (9, 4) ++ lay) 0 (replicate (4 * n) 0 ++ rest) = read_groups lay 0 rest.
Proof.
  induction n as [|n IH]; [done|]. replace (4 * S n)%nat with (4 + 4 * n)%nat by lia. rewrite replicate_add, <-app_assoc. cbn [replicate app].
  change (0 :: 0 :: 0 :: 0 :: replicate (4 * n) 0 ++ rest) with ([0; 0; 0; 0] ++ replicate (4 * n) 0 ++ rest). rewrite read_groups_step by done. apply IH.
Qed.

Lemma lead_value ds : digits ds -> zlen ds < 9 -> digits_val ds 0 `mod` 256 ^ Z.of_nat (Z.to_nat (group_bytes (zlen ds))) = digits_val ds 0.
Proof.
  intros Hds Hz. pose proof (zlen_nonneg ds). pose proof (digits_val_bound ds Hds). destruct (group_bytes_bound (zlen ds) ltac:(lia)). rewrite Z2Nat.id by lia. apply Z.mod_small.
  destruct (group_fits (zlen ds) ltac:(lia)) as [Hf| E]; [lia|]. rewrite E. apply zlen_0_nil in E as ->. done.
Qed.

(** The integer part, with the zeros in front of it. *)
Lemma read_integer ip intg lay rest : digits ip -> zlen ip <= intg ->
  let x := zlen ip `mod` 9 in let n := zlen ip / 9 in let mx := intg `mod` 9 in let mn := intg / 9 in
  0 <= mn * 4 + group_bytes mx - (n * 4 + group_bytes x) /\
  read_groups ((mx, group_bytes mx) :: replicate (Z.to_nat mn) (9, 4) ++ lay) 0
    (replicate (Z.to_nat (mn * 4 + group_bytes mx - (n * 4 + group_bytes x))) 0 ++ be_split (Z.to_nat (group_bytes x)) (digits_val (first x ip) 0) ++ group_enc (Z.to_nat n) (skip x ip) ++ rest)
  = read_groups lay (digits_val ip 0) rest.
Proof.
  intros Hip Hz. cbn zeta. pose proof (zlen_nonneg ip). pose proof (Z.mod_pos_bound (zlen ip) 9 ltac:(lia)). pose proof (Z.mod_pos_bound intg 9 ltac:(lia)).
  pose proof (Z.div_mod (zlen ip) 9 ltac:(lia)) as Ei. pose proof (Z.div_mod intg 9 ltac:(lia)) as Em. set (x := zlen ip `mod` 9) in *. set (n := zlen ip / 9) in *. set (mx := intg `mod` 9) in *. set (mn := intg / 9) in *.
  assert (0 <= n <= mn) as Hn by lia. destruct (group_bytes_bound x ltac:(lia)) as [Bx _]. destruct (group_bytes_bound mx ltac:(lia)) as [Bm _].
  assert (zlen (first x ip) = x) as Zx by (apply zlen_first; lia). pose proof (lead_value (first x ip) (digits_first x ip Hip)) as Lx. rewrite Zx in Lx. specialize (Lx ltac:(lia)).
  assert (zlen (skip x ip) = 9 * Z.of_nat (Z.to_nat n)) as Zs by (rewrite zlen_skip; lia).
  assert (digits_val ip 0 = digits_val (skip x ip) (digits_val (first x ip) 0)) as -> by (rewrite <-digits_val_app by (by apply digits_first); by rewrite first_skip).
  assert (zlen (be_split (Z.to_nat (group_bytes x)) (digits_val (first x ip) 0)) = group_bytes x) as Zb by (rewrite zlen_be_split; lia).
  destruct (decide (n = mn)) as [E|E].
  - pose proof (group_bytes_mono x mx ltac:(lia) ltac:(lia)). split; [lia|]. replace (mn * 4 + group_bytes mx - (n * 4 + group_bytes x)) with (group_bytes mx - group_bytes x) by lia.
    rewrite app_assoc, read_groups_step by (rewrite zlen_app, zlen_replicate, Zb; lia). rewrite be_combine_zeros, be_combine_split, Lx. rewrite E in Zs |- *. apply read_groups_enc; [by apply digits_skip|done].
  - split; [lia|]. replace (Z.to_nat (mn * 4 + group_bytes mx - (n * 4 + group_bytes x))) with (Z.to_nat (group_bytes mx) + (4 * Z.to_nat (mn - n - 1) + Z.to_nat (4 - group_bytes x)))%nat by lia.
    rewrite !replicate_add, <-!app_assoc. rewrite read_groups_step by (rewrite zlen_replicate; lia). rewrite <-(app_nil_r (replicate (Z.to_nat (group_bytes mx)) 0)), be_combine_zeros. change (0 * 10 ^ mx + be_combine []) with 0.
    replace (Z.to_nat mn) with (Z.to_nat (mn - n - 1) + (1 + Z.to_nat n))%nat by lia. rewrite !replicate_add, <-!app_assoc, read_groups_zeros. cbn [replicate app].
    rewrite (app_assoc (replicate (Z.to_nat (4 - group_bytes x)) 0)), read_groups_step by (rewrite zlen_app, zlen_replicate, Zb; lia). rewrite be_combine_zeros, be_combine_split, Lx. apply read_groups_enc; [by apply digits_skip|done].
Qed.

Definition head_small (l : bytes) : Prop := match l with [] => True | b :: _ => 0 <= b < 128 end.
Lemma head_small_app a b : head_small a -> head_small b -> head_small (a ++ b).
Proof. by destruct a. Qed.
Lemma be_split_S n v : be_split (S n) v = (v / 256 ^ Z.of_nat n) `mod` 256 :: be_split n v.
Proof.
  unfold be_split. revert v. induction n as [|n IH]; intros v; [cbn; by rewrite Z.div_1_r|].
  change (rev (le_split (S (S n)) v)) with (rev (le_split (S n) (v / 256)) ++ [v `mod` 256]). rewrite IH. cbn [le_split rev app]. f_equal.
  rewrite Z.div_div by (lia || (apply Z.pow_pos_nonneg; lia)). do 2 f_equal. rewrite Nat2Z.inj_succ, Z.pow_succ_r by lia. lia.
Qed.
Lemma be_split_head n v : 0 <= v -> 2 * v < 256 ^ Z.of_nat n -> head_small (be_split n v).
Proof.
  intros H0 Hv. destruct n as [|n]; [done|]. rewrite be_split_S. cbn [head_small]. rewrite Nat2Z.inj_succ, Z.pow_succ_r in Hv by lia. assert (0 < 256 ^ Z.of_nat n) by (apply Z.pow_pos_nonneg; lia).
  assert (0 <= v / 256 ^ Z.of_nat n < 128) by (split; [apply Z.div_pos; lia|apply Z.div_lt_upper_bound; lia]). rewrite Z.mod_small by lia. lia.
Qed.
Lemma lead_head ds : digits ds -> zlen ds < 9 -> head_small (be_split (Z.to_nat (group_bytes (zlen ds))) (digits_val ds 0)).
Proof.
  intros Hds Hz. pose proof (zlen_nonneg ds). pose proof (digits_val_bound ds Hds). destruct (group_bytes_bound (zlen ds) ltac:(lia)). destruct (group_fits (zlen ds) ltac:(lia)) as [Hf|E].
  - apply be_split_head; [lia|]. rewrite Z2Nat.id by lia. lia.
  - rewrite E. done.
Qed.
Lemma group_enc_head n ds : digits ds -> head_small (group_enc n ds).
Proof.
  intros Hds. destruct n as [|n]; [done|]. cbn [group_enc]. pose proof (digits_val_bound _ (digits_first 9 ds Hds)) as Hv.
  assert (10 ^ zlen (first 9 ds) <= 10 ^ 9) as Hp by (apply Z.pow_le_mono_r; [lia|]; unfold first, zlen; rewrite length_take; lia). change (10 ^ 9) with 1000000000 in Hp.
  assert (head_small (be_split 4 (digits_val (first 9 ds) 0))) as Hh by (apply be_split_head; [lia|]; change (256 ^ Z.of_nat 4) with 4294967296; lia). rewrite be_split_S in Hh |- *. exact Hh.
Qed.

(** The fraction, whose last digits may not fill a group. *)
Definition frac_enc (fp : bytes) : bytes :=
  let n := zlen fp / 9 in group_enc (Z.to_nat n) (first (9 * n) fp) ++ be_split (Z.to_nat (group_bytes (zlen fp `mod` 9))) (digits_val (skip (9 * n) fp) 0).
Definition intg_enc (ip : bytes) (intg : Z) : bytes :=
  let x := zlen ip `mod` 9 in let n := zlen ip / 9 in
  replicate (Z.to_nat (intg / 9 * 4 + group_bytes (intg `mod` 9) - (n * 4 + group_bytes x))) 0 ++ be_split (Z.to_nat (group_bytes x)) (digits_val (first x ip) 0) ++ group_enc (Z.to_nat n) (skip x ip).

Lemma frac_parts fp : digits fp -> let n := zlen fp / 9 in
  zlen (first (9 * n) fp) = 9 * Z.of_nat (Z.to_nat n) /\ zlen (skip (9 * n) fp) = zlen fp `mod` 9 /\ digits (first (9 * n) fp) /\ digits (skip (9 * n) fp) /\ 0 <= n /\ 0 <= zlen fp `mod` 9 < 9.
Proof.
  intros Hfp. cbn zeta. pose proof (zlen_nonneg fp). pose proof (Z.mod_pos_bound (zlen fp) 9 ltac:(lia)). pose proof (Z.div_mod (zlen fp) 9 ltac:(lia)). assert (0 <= zlen fp / 9) by (apply Z.div_pos; lia).
  split_and!; try lia; [rewrite zlen_first; lia|rewrite zlen_skip; lia|by apply digits_first|by apply digits_skip].
Qed.

Lemma read_fraction fp acc : digits fp -> let s := zlen fp in
  read_groups (replicate (Z.to_nat (s / 9)) (9, 4) ++ [(s `mod` 9, group_bytes (s `mod` 9))]) acc (frac_enc fp) = digits_val fp acc.
Proof.
  intros Hfp. cbn zeta. unfold frac_enc. destruct (frac_parts fp Hfp) as (Z1 & Z2 & D1 & D2 & Hn & Hm). rewrite read_groups_enc by done.
  rewrite <-(app_nil_r (be_split _ _)). destruct (group_bytes_bound (zlen fp `mod` 9) Hm) as [Hg _]. rewrite read_groups_step by (rewrite zlen_be_split; lia). cbn [read_groups]. rewrite be_combine_split.
  rewrite <-Z2 at 2. rewrite lead_value by (done || lia). 
  assert (forall k, digits_val fp acc = digits_val (skip k fp) (digits_val (first k fp) acc)) as Hk by (intros k; rewrite <-digits_val_app by (by apply digits_first); by rewrite first_skip).
  rewrite (Hk (9 * (zlen fp / 9))), (digits_val_acc (skip _ fp) (digits_val _ acc)), Z2 by done. done.
Qed.

Lemma frac_head fp : digits fp -> head_small (frac_enc fp).
Proof.
  intros Hfp. destruct (frac_parts fp Hfp) as (Z1 & Z2 & D1 & D2 & Hn & Hm). apply head_small_app; [by apply group_enc_head|]. rewrite <-Z2. apply lead_head; [done|lia].
Qed.
Lemma intg_head ip intg : digits ip -> head_small (intg_enc ip intg).
Proof.
  intros Hip. apply head_small_app; [by destruct (Z.to_nat _)|]. pose proof (Z.mod_pos_bound (zlen ip) 9 ltac:(lia)). pose proof (zlen_nonneg ip). assert (zlen (first (zlen ip `mod` 9) ip) = zlen ip `mod` 9) as Zx by (apply zlen_first; pose proof (Z.mod_le (zlen ip) 9 ltac:(lia) ltac:(lia)); lia).
  apply head_small_app; [|by apply group_enc_head, digits_skip]. rewrite <-Zx at 1. apply lead_head; [by apply digits_first|lia].
Qed.
Lemma zlen_frac_enc fp : digits fp -> zlen (frac_enc fp) = zlen fp / 9 * 4 + group_bytes (zlen fp `mod` 9).
Proof. intros Hfp. destruct (frac_parts fp Hfp) as (Z1 & Z2 & D1 & D2 & Hn & Hm). destruct (group_bytes_bound (zlen fp `mod` 9) Hm). unfold frac_enc. rewrite zlen_app, zlen_group_enc, zlen_be_split. lia. Qed.
Lemma zlen_intg_enc ip intg : digits ip -> zlen ip <= intg -> zlen (intg_enc ip intg) = intg / 9 * 4 + group_bytes (intg `mod` 9).
Proof.
  intros Hip Hi. destruct (read_integer ip intg [] [] Hip Hi) as [H0 _]. pose proof (zlen_nonneg ip). pose proof (Z.mod_pos_bound (zlen ip) 9 ltac:(lia)). destruct (group_bytes_bound (zlen ip `mod` 9) ltac:(lia)).
  assert (0 <= zlen ip / 9) by (apply Z.div_pos; lia). unfold intg_enc. rewrite !zlen_app, zlen_replicate, zlen_group_enc, zlen_be_split. lia.
Qed.

(** ** The whole value *)

(** The text of a value of DECIMAL([precision], [scale]): sign, integer part, fraction. *)
Definition decimal_text (neg : bool) (ip fp : bytes) : bytes := (if neg then [45] else []) ++ ip ++ (if 0 <? zlen fp then 46 :: fp else []).
Definition decimal_fits (precision scale : Z) (ip fp : bytes) : Prop :=
  digits ip /\ digits fp /\ ip <> [] /\ zlen fp = scale /\ 0 < precision /\ (zlen ip <= precision - scale \/ (precision = scale /\ ip = [48])).

Lemma index_of_skip a c r i : c ∉ a -> index_of (a ++ c :: r) c i = i + zlen a.
Proof.
  revert i. induction a as [|x a IH]; intros i Ha; [cbn; rewrite Z.eqb_refl; change (zlen (@nil Z)) with 0; lia|]. apply not_elem_of_cons in Ha as [Hx Ha]. cbn [app index_of]. rewrite (proj2 (Z.eqb_neq x c)) by done. rewrite IH, zlen_cons by done. lia.
Qed.
Lemma index_of_none a c i : c ∉ a -> index_of a c i = -1.
Proof. revert i. induction a as [|x a IH]; intros i Ha; [done|]. apply not_elem_of_cons in Ha as [Hx Ha]. cbn [index_of]. rewrite (proj2 (Z.eqb_neq x c)) by done. by apply IH. Qed.

Definition mask_of (neg : bool) : Z := if neg then -1 else 0.
Definition sign_of (neg : bool) : bytes := if neg then [45] else [].
Lemma mask_cases neg : mask_of neg = 0 \/ mask_of neg = -1.
Proof. destruct neg; auto. Qed.

Section Whole.
Context (neg : bool) (ip fp : bytes) (Hip : digits ip) (Hfp : digits fp) (Hne : ip <> []).
Let data := decimal_text neg ip fp.

(** The text, up to its end, as the conversion walks over it. *)
Lemma text_walk : exists sep post, data ++ [0] = sign_of neg ++ ip ++ [sep] ++ fp ++ post.
Proof using Hfp.
  unfold data, decimal_text. destruct (Z.ltb_spec 0 (zlen fp)) as [H|H].
  - exists 46, [0]. by rewrite <-!app_assoc.
  - assert (fp = []) as -> by (apply zlen_0_nil; pose proof (zlen_nonneg fp); lia). exists 0, []. by rewrite <-!app_assoc.
Qed.
Lemma text_sign : beq (first 1 data) [45] = neg.
Proof using Hip Hne.
  unfold data, decimal_text. destruct neg; [done|]. destruct ip as [|c ip']; [done|]. apply Forall_cons in Hip as [Hc _]. apply beq_false. intros E. injection E. lia.
Qed.
Lemma text_point : index_of (cstr data) 46 0 = if 0 <? zlen fp then zlen (sign_of neg) + zlen ip else -1.
Proof using Hip Hfp Hne.
  assert (0 ∉ data) as H0.
  { unfold data, decimal_text. rewrite !not_elem_of_app. split_and!; [destruct neg; [apply not_elem_of_cons; split; [done|]|]; apply not_elem_of_nil|by apply digits_not_in; [|lia]|]. destruct (0 <? zlen fp); [|apply not_elem_of_nil]. rewrite not_elem_of_cons. split; [lia|]. by apply digits_not_in; [|lia]. }
  assert (46 ∉ sign_of neg ++ ip) as Hs by (rewrite not_elem_of_app; split; [destruct neg; [apply not_elem_of_cons; split; [done|]|]; apply not_elem_of_nil|by apply digits_not_in; [|lia]]).
  rewrite cstr_id by done. unfold data, decimal_text. fold (sign_of neg). destruct (0 <? zlen fp).
  - rewrite app_assoc, index_of_skip by done. by rewrite zlen_app.
  - rewrite app_nil_r. by apply index_of_none.
Qed.
Lemma text_len : zlen data = zlen (sign_of neg) + zlen ip + (if 0 <? zlen fp then 1 + zlen fp else 0).
Proof using Hfp. unfold data, decimal_text. fold (sign_of neg). rewrite !zlen_app. destruct (0 <? zlen fp); [rewrite zlen_cons|change (zlen (@nil Z)) with 0]; lia. Qed.
End Whole.

(** The sign bit is inverted in the first byte. *)
Definition flip (l : bytes) : bytes := match l with [] => [] | b :: l => Z.lxor b 0x80 :: l end.

Section Convert.
Context (alloc : Z -> bytes) (ndebug : bool) (Halloc : forall n, 0 <= n -> zlen (alloc n) = n).
Context (m : IColMeta) (neg : bool) (ip fp : bytes).

(** The integer part that is stored: nothing when no digit is left for it. *)
Let stored : bytes := if getPrecision m =? getScale m then [] else ip.

Let intg := getPrecision m - getScale m.
Let fill := Z.max 0 (intg / 9 * 4 + group_bytes (intg `mod` 9) - (zlen ip / 9 * 4 + group_bytes (zlen ip `mod` 9))).

Lemma stored_fits : decimal_fits (getPrecision m) (getScale m) ip fp -> digits stored /\ zlen stored <= intg /\ digits_val (stored ++ fp) 0 = digits_val (ip ++ fp) 0 /\ 0 <= intg.
Proof using.
  intros (Hip & Hfp & Hne & Hsc & Hpr & Hint). pose proof (zlen_nonneg ip). unfold stored, intg. destruct (Z.eqb_spec (getPrecision m) (getScale m)) as [E|E].
  - destruct Hint as [Hint|[_ ->]]; [destruct Hne; apply zlen_0_nil; lia|]. change (zlen (@nil Z)) with 0. split_and!; [constructor|lia|done|lia].
  - split_and!; try done; lia.
Qed.
Lemma zlen_stored_enc : decimal_fits (getPrecision m) (getScale m) ip fp -> zlen (intg_enc stored intg) = intg / 9 * 4 + group_bytes (intg `mod` 9).
Proof using. intros Hf. destruct (stored_fits Hf) as (H1 & H2 & _ & _). by apply zlen_intg_enc. Qed.

Lemma intg_stores total s : decimal_fits (getPrecision m) (getScale m) ip fp -> intg / 9 * 4 + group_bytes (intg `mod` 9) <= total ->
  filled (masked (mask_of neg) (replicate (Z.to_nat fill) 0)) total s ->
  let data := decimal_text neg ip fp in let sg := zlen (sign_of neg) in
  exists s1 s2, store_lead data (mask_of neg) sg (zlen ip `mod` 9) (intg / 9 * 4 + group_bytes (intg `mod` 9)) s = Done s1 /\
    store_groups (Z.to_nat (zlen ip / 9)) data (mask_of neg) (zlen ip `mod` 9 + sg) s1 = Done (sg + zlen ip, s2) /\
    filled (masked (mask_of neg) (intg_enc stored intg)) total s2.
Proof using.
  intros Hf Ht Hs. pose proof (stored_fits Hf) as (_ & Hst & _ & Hi0). pose proof (zlen_stored_enc Hf) as Hzs. destruct Hf as (Hip & Hfp & Hne & Hsc & Hpr & Hint). cbn zeta. destruct (text_walk neg ip fp Hfp) as (sep & post & Hd).
  pose proof (zlen_nonneg ip). destruct (group_bytes_bound (intg `mod` 9) (Z.mod_pos_bound _ 9 ltac:(lia))) as [Bi Bi'].
  unfold stored, fill in *. destruct (Z.eqb_spec (getPrecision m) (getScale m)) as [E|E].
  - destruct Hint as [Hint|[_ ->]]; [destruct Hne; apply zlen_0_nil; lia|]. unfold intg in *. rewrite E, Z.sub_diag in *. exists s, s. split_and!; try done. by destruct neg.
  - assert (zlen ip <= intg) as Hint' by (destruct Hint as [Hint|[? _]]; done).
    pose proof (Z.div_mod (zlen ip) 9 ltac:(lia)) as Ei. pose proof (Z.mod_pos_bound (zlen ip) 9 ltac:(lia)) as Bx. set (x := zlen ip `mod` 9) in *. set (n := zlen ip / 9) in *.
    assert (zlen (first x ip) = x) as Zx by (apply zlen_first; lia). destruct (read_integer ip intg [] [] Hip Hint') as [Hfill _]. fold x n in Hfill. destruct (group_bytes_bound x ltac:(lia)) as [Gx Gx'].
    assert (zlen (skip x ip) = 9 * Z.of_nat (Z.to_nat n)) as Zs by (rewrite zlen_skip; lia).
    rewrite Z.max_r in Hs by lia. assert (0 < intg / 9 * 4 + group_bytes (intg `mod` 9)) as Hpos.
    { assert (0 < intg) as Hi by lia. pose proof (Z.div_mod intg 9 ltac:(lia)). pose proof (Z.mod_pos_bound intg 9 ltac:(lia)). destruct (decide (intg `mod` 9 = 0)); lia. }
    destruct (store_lead_ok (decimal_text neg ip fp) (mask_of neg) total (mask_cases neg) (sign_of neg) (first x ip) (skip x ip ++ [sep] ++ fp ++ post) (intg / 9 * 4 + group_bytes (intg `mod` 9)) (masked (mask_of neg) (replicate (Z.to_nat (intg / 9 * 4 + group_bytes (intg `mod` 9) - (n * 4 + group_bytes x))) 0)) s) as (s1 & E1 & F1);
      [by rewrite Hd, (app_assoc (first x ip)), first_skip|by apply digits_first|lia|lia|exact Hs|rewrite zlen_masked, zlen_replicate, Zx; lia|]. rewrite Zx in E1, F1.
    destruct (store_groups_ok (decimal_text neg ip fp) (mask_of neg) total (mask_cases neg) (Z.to_nat n) (sign_of neg ++ first x ip) (skip x ip) ([sep] ++ fp ++ post) (masked (mask_of neg) (replicate (Z.to_nat (intg / 9 * 4 + group_bytes (intg `mod` 9) - (n * 4 + group_bytes x))) 0) ++ masked (mask_of neg) (be_split (Z.to_nat (group_bytes x)) (digits_val (first x ip) 0))) s1) as (s2 & E2 & F2);
      [by rewrite Hd, <-app_assoc, (app_assoc (first x ip)), first_skip|by apply digits_skip|done|exact F1|rewrite zlen_app, !zlen_masked, zlen_replicate, zlen_be_split; lia|]. rewrite zlen_app, Zx in E2.
    exists s1, s2. rewrite (Z.add_comm x), E1, E2. split_and!; [done|do 2 f_equal; lia|]. unfold intg_enc. fold x n. by rewrite !masked_app, app_assoc.
Qed.

Lemma frac_groups total w s : digits fp -> zlen w + zlen (frac_enc fp) <= total -> filled w total s ->
  let data := decimal_text neg ip fp in let from := zlen (sign_of neg) + zlen ip + 1 in let n := zlen fp / 9 in
  exists s1, store_groups (Z.to_nat n) data (mask_of neg) from s = Done (from + 9 * n, s1) /\ filled (w ++ masked (mask_of neg) (group_enc (Z.to_nat n) (first (9 * n) fp))) total s1.
Proof using.
  clear fill stored intg. intros Hfp Ht Hs. cbn zeta. destruct (text_walk neg ip fp Hfp) as (sep & post & Hd). rewrite zlen_frac_enc in Ht by done. destruct (frac_parts fp Hfp) as (Z1 & Z2 & D1 & D2 & Hn & Hm). destruct (group_bytes_bound (zlen fp `mod` 9) Hm) as [Gx _].
  set (k := 9 * (zlen fp / 9)) in *. set (n := zlen fp / 9) in *. assert (zlen (sign_of neg ++ ip ++ [sep]) = zlen (sign_of neg) + zlen ip + 1) as Zp by (rewrite !zlen_app; change (zlen [sep]) with 1; lia).
  destruct (store_groups_ok (decimal_text neg ip fp) (mask_of neg) total (mask_cases neg) (Z.to_nat n) (sign_of neg ++ ip ++ [sep]) (first k fp) (skip k fp ++ post) w s) as (s1 & E1 & F1);
    [by rewrite Hd, <-!app_assoc, (app_assoc (first k fp)), first_skip|done|done|exact Hs|lia|]. rewrite Zp, Z2Nat.id in E1 by lia. fold k in E1. by exists s1.
Qed.

Lemma frac_tail total w s : digits fp -> ndebug = true \/ zlen fp `mod` 9 = 0 -> let n := zlen fp / 9 in
  filled (w ++ masked (mask_of neg) (group_enc (Z.to_nat n) (first (9 * n) fp))) total s -> zlen w + zlen (frac_enc fp) <= total ->
  exists s', store_tail ndebug (decimal_text neg ip fp) (mask_of neg) (zlen (sign_of neg) + zlen ip + 1 + 9 * n) (zlen fp `mod` 9) total s = Done s' /\ filled (w ++ masked (mask_of neg) (frac_enc fp)) total s'.
Proof using.
  clear fill stored intg. intros Hfp Hnd. cbn zeta. intros Hs Ht. destruct (text_walk neg ip fp Hfp) as (sep & post & Hd). rewrite zlen_frac_enc in Ht by done. destruct (frac_parts fp Hfp) as (Z1 & Z2 & D1 & D2 & Hn & Hm).
  set (k := 9 * (zlen fp / 9)) in *. set (n := zlen fp / 9) in *. assert (zlen (sign_of neg ++ ip ++ [sep]) = zlen (sign_of neg) + zlen ip + 1) as Zp by (rewrite !zlen_app; change (zlen [sep]) with 1; lia).
  destruct (store_tail_ok ndebug (decimal_text neg ip fp) (mask_of neg) total (mask_cases neg) ((sign_of neg ++ ip ++ [sep]) ++ first k fp) (skip k fp) post (w ++ masked (mask_of neg) (group_enc (Z.to_nat n) (first k fp))) s) as (s2 & E2 & F2);
    [by rewrite Hd, <-!app_assoc, (app_assoc (first k fp)), first_skip|done|lia| |exact Hs|rewrite zlen_app, zlen_masked, zlen_group_enc, Z2; lia|].
  { destruct Hnd as [?|Hnd]; [by left|right]. apply zlen_0_nil. lia. }
  rewrite zlen_app, Zp, Z1, Z2Nat.id in E2 by lia. fold k in E2. rewrite Z2 in E2, F2. exists s2. split; [done|]. unfold frac_enc. fold n k. by rewrite masked_app, app_assoc.
Qed.

Lemma enc_len : decimal_fits (getPrecision m) (getScale m) ip fp -> let enc := intg_enc stored intg ++ frac_enc fp in
  zlen enc = intg / 9 * 4 + group_bytes (intg `mod` 9) + (zlen fp / 9 * 4 + group_bytes (zlen fp `mod` 9)) /\ 0 < zlen enc.
Proof using.
  intros Hf. pose proof (zlen_stored_enc Hf) as Zi. pose proof (stored_fits Hf) as (_ & _ & _ & Hi0). destruct Hf as (Hip & Hfp & Hne & Hsc & Hpr & Hint). cbn zeta. pose proof (zlen_frac_enc fp Hfp) as Zf. pose proof (zlen_nonneg fp).
  rewrite zlen_app, Zi, Zf. split; [done|]. assert (intg = getPrecision m - zlen fp) as Ei by (unfold intg; lia). pose proof (Z.mod_pos_bound (zlen fp) 9 ltac:(lia)) as H1. pose proof (Z.mod_pos_bound intg 9 ltac:(lia)) as H2.
  pose proof (Z.div_mod intg 9 ltac:(lia)). pose proof (Z.div_mod (zlen fp) 9 ltac:(lia)). destruct (group_bytes_bound _ H1), (group_bytes_bound _ H2); lia.
Qed.

(** Up to the last digits of the fraction. *)
Lemma convert_to_tail : decimal_fits (getPrecision m) (getScale m) ip fp ->
  let enc := intg_enc stored intg ++ frac_enc fp in let n := zlen fp / 9 in
  exists s, filled (masked (mask_of neg) (intg_enc stored intg) ++ masked (mask_of neg) (group_enc (Z.to_nat n) (first (9 * n) fp))) (zlen enc) s /\
    convert_binlog_decimal alloc ndebug m (decimal_text neg ip fp) =
      ('(buff, offset) ← store_tail ndebug (decimal_text neg ip fp) (mask_of neg) (zlen (sign_of neg) + zlen ip + 1 + 9 * n) (zlen fp `mod` 9) (zlen enc) s;
       buff ← heap_write offset [] buff;
       match buff with [] => Crash | b :: buff => Done (zlen enc, [Z.lxor b 0x80 :: buff]) end).
Proof using Halloc.
  intros Hf. pose proof (enc_len Hf) as [Ze Hpos]. pose proof (zlen_stored_enc Hf) as Zi. pose proof (stored_fits Hf) as (_ & _ & _ & Hi0). assert (decimal_fits (getPrecision m) (getScale m) ip fp) as (Hip & Hfp & Hne & Hsc & Hpr & Hint) by done. cbn zeta in *.
  pose proof (zlen_frac_enc fp Hfp) as Zf. rewrite Ze in *. clear Ze. pose proof (zlen_nonneg fp) as Hz0. assert (zlen ip <> 0) as Hzi by (intros E; by apply zlen_0_nil in E). pose proof (zlen_nonneg ip).
  set (total := intg / 9 * 4 + group_bytes (intg `mod` 9) + (zlen fp / 9 * 4 + group_bytes (zlen fp `mod` 9))) in *. assert (intg = getPrecision m - zlen fp) as Ei by (unfold intg; lia).
  pose proof (Z.mod_pos_bound (zlen ip) 9 ltac:(lia)) as H0. pose proof (Z.mod_pos_bound (zlen fp) 9 ltac:(lia)) as H1. pose proof (Z.mod_pos_bound intg 9 ltac:(lia)) as H2.
  unfold convert_binlog_decimal. rewrite (proj2 (Z.leb_le 0 (getScale m))), (proj2 (Z.leb_le 0 (getPrecision m))) by lia.
  rewrite text_sign, text_point, text_len by done. fold (mask_of neg).
  assert ((if mask_of neg <? 0 then 1 else 0) = zlen (sign_of neg)) as -> by by destruct neg.
  set (sg := zlen (sign_of neg)). assert (0 <= sg) by apply zlen_nonneg.
  assert ((if 0 <? (if 0 <? zlen fp then sg + zlen ip else -1) then (if 0 <? zlen fp then sg + zlen ip else -1) - sg else sg + zlen ip + (if 0 <? zlen fp then 1 + zlen fp else 0) - sg) = zlen ip) as ->.
  { destruct (Z.ltb_spec 0 (zlen fp)); [rewrite (proj2 (Z.ltb_lt 0 _)) by lia; lia|cbn; lia]. }
  assert (sg + zlen ip + (if 0 <? zlen fp then 1 + zlen fp else 0) - (zlen ip + sg) - (if 0 <? (if 0 <? zlen fp then sg + zlen ip else -1) then 1 else 0) = zlen fp) as ->.
  { destruct (Z.ltb_spec 0 (zlen fp)); [rewrite (proj2 (Z.ltb_lt 0 _)) by lia; lia|cbn; lia]. }
  fold intg. rewrite <-Hsc. change DECODE_BASE_LEN with 9. change DECIMAL_STORE_BASE_LEN with 4. rewrite !Z.quot_div_nonneg by lia.
  assert (forall a, a - a / 9 * 9 = a `mod` 9) as Hmod by (intros a; pose proof (Z.div_mod a 9 ltac:(lia)); lia). rewrite !Hmod, !dig2bytes_ok by done. cbn [mbind outcome_bind]. fold total fill.
  destruct (group_bytes_bound _ H0) as [G0 _]. destruct (group_bytes_bound _ H1) as [G1 _]. destruct (group_bytes_bound _ H2) as [G2 _].
  assert (0 <= intg / 9) by (apply Z.div_pos; lia). assert (0 <= zlen fp / 9) by (apply Z.div_pos; lia). assert (0 <= zlen ip / 9) by (apply Z.div_pos; lia).
  assert (intg / 9 * 4 + group_bytes (intg `mod` 9) + (zlen fp / 9 * 4 + group_bytes (zlen fp `mod` 9)) = total) as Et by done. assert (0 <= fill <= total) as Hfl by (unfold fill; lia).
  destruct (heap_write_filled [] total (alloc total, 0) (replicate (Z.to_nat fill) (u8 (mask_of neg)))) as (b & Eb & Hb); [split_and!; [done|apply Halloc; lia|done]|change (zlen (@nil Z)) with 0; rewrite zlen_replicate; lia|].
  cbn [fst snd] in Eb, Hb. rewrite Eb. cbn [mbind outcome_bind]. rewrite zlen_replicate, Z.add_0_l, Z2Nat.id, masked_zeros in Hb by (apply mask_cases || lia). rewrite Z.ltb_irrefl. cbn [andb].
  destruct (intg_stores total (b, fill) Hf ltac:(lia) Hb) as (s1 & s2 & E1 & E2 & F2). fold sg in E1, E2. rewrite E1. cbn [mbind outcome_bind]. rewrite E2. cbn [mbind outcome_bind].
  destruct (frac_groups total (masked (mask_of neg) (intg_enc stored intg)) s2 Hfp ltac:(rewrite zlen_masked; lia) F2) as (s3 & E3 & F3). fold sg in E3. rewrite E3. cbn [mbind outcome_bind]. exists s3. split; [done|].
  destruct (store_tail _ _ _ _ _ _ _) as [[buff offset]|]; [|done]. cbn [mbind outcome_bind]. by rewrite Z.sub_diag, (Z.max_l 0 (Z.min 0 _)) by lia.
Qed.

Lemma convert_encodes : decimal_fits (getPrecision m) (getScale m) ip fp -> ndebug = true \/ zlen fp `mod` 9 = 0 ->
  let enc := intg_enc stored intg ++ frac_enc fp in
  convert_binlog_decimal alloc ndebug m (decimal_text neg ip fp) = Done (zlen enc, [flip (masked (mask_of neg) enc)]).
Proof using Halloc.
  intros Hf Hnd. destruct (convert_to_tail Hf) as (s & Fs & ->). pose proof (enc_len Hf) as [_ Hpos]. cbn zeta in *. set (enc := intg_enc stored intg ++ frac_enc fp) in *. assert (digits fp) as Hfp by apply Hf.
  destruct (frac_tail (zlen enc) (masked (mask_of neg) (intg_enc stored intg)) s Hfp Hnd Fs) as (s' & Es & F4); [unfold enc; rewrite zlen_masked, zlen_app; lia|]. rewrite Es. cbn [mbind outcome_bind].
  destruct s' as [buff offset]. rewrite <-masked_app in F4. fold enc in F4.
  destruct (heap_write_filled _ (zlen enc) (buff, offset) [] F4) as (b' & Eb' & _ & Hz & Hw); [rewrite zlen_masked; change (zlen (@nil Z)) with 0; lia|]. cbn [fst snd] in Eb', Hz, Hw |- *. rewrite Eb'. cbn [mbind outcome_bind].
  rewrite app_nil_r, first_ge in Hw by (rewrite zlen_masked; lia). rewrite Hw. destruct (masked (mask_of neg) enc) as [|h t] eqn:Em; [|done].
  apply (f_equal zlen) in Em. rewrite zlen_masked in Em. change (zlen (@nil Z)) with 0 in Em. lia.
Qed.
End Convert.

Lemma bin2decimal_flip p sc neg enc : enc <> [] -> head_small enc -> bin2decimal p sc (flip (masked (mask_of neg) enc)) = Some (neg, read_groups (layout p sc) 0 enc).
Proof.
  intros Hne Hh. destruct enc as [|h t]; [done|]. cbn [head_small] in Hh.
  assert (Forall (fun k => let h := Z.of_nat k in (0x80 <=? Z.lxor h 0x80) && (Z.lxor (Z.lxor 0xFF h) 0x80 <? 0x80) = true) (seq 0 128)) as Hs by by_compute. rewrite Forall_forall in Hs.
  specialize (Hs (Z.to_nat h) ltac:(apply elem_of_seq; lia)). cbn zeta in Hs. rewrite Z2Nat.id in Hs by lia. apply andb_true_iff in Hs as [Hs1 Hs2].
  assert (forall z, Z.lxor (Z.lxor z 0x80) 0x80 = z) as Hi by (intros z; by rewrite Z.lxor_assoc, Z.lxor_nilpotent, Z.lxor_0_r).
  unfold bin2decimal, masked, mask_of. destruct neg; cbn [Z.eqb]; [rewrite fmap_cons|]; cbn [flip]; rewrite Hi.
  - rewrite Hs2, fmap_cons, <-list_fmap_compose. do 3 f_equal. f_equal; [by rewrite <-Z.lxor_assoc, Z.lxor_nilpotent, Z.lxor_0_l|]. rewrite <-(list_fmap_id t) at 2. apply list_fmap_ext. intros ? x _. cbn. by rewrite <-Z.lxor_assoc, Z.lxor_nilpotent, Z.lxor_0_l.
  - by rewrite (proj2 (Z.ltb_ge _ _)) by lia.
Qed.

Lemma decimal_readable (alloc : Z -> bytes) (ndebug : bool) (m : IColMeta) (neg : bool) (ip fp : bytes)
  (Halloc : forall n, 0 <= n -> zlen (alloc n) = n) (Hfits : decimal_fits (getPrecision m) (getScale m) ip fp) (Hnd : ndebug = true \/ zlen fp `mod` 9 = 0) :
  exists b, convert_binlog_decimal alloc ndebug m (decimal_text neg ip fp) = Done (zlen b, [b]) /\
    zlen b = (getPrecision m - getScale m) / 9 * 4 + group_bytes ((getPrecision m - getScale m) `mod` 9) + (getScale m / 9 * 4 + group_bytes (getScale m `mod` 9)) /\
    bin2decimal (getPrecision m) (getScale m) b = Some (neg, digits_val (ip ++ fp) 0).
Proof.
  set (st := if getPrecision m =? getScale m then [] else ip). set (enc := intg_enc st (getPrecision m - getScale m) ++ frac_enc fp). exists (flip (masked (mask_of neg) enc)).
  pose proof (enc_len m ip fp Hfits) as [Hlen Hpos]. pose proof (stored_fits m ip fp Hfits) as (Hst & Hz & Hv & _). cbn zeta in Hpos, Hlen. fold st in Hpos, Hlen, Hst, Hz, Hv. fold enc in Hpos, Hlen. assert (digits fp) as Hfp by apply Hfits. assert (zlen fp = getScale m) as Hsc by apply Hfits.
  assert (zlen (flip (masked (mask_of neg) enc)) = zlen enc) as Hzf by (rewrite <-(zlen_masked (mask_of neg) enc); by destruct (masked _ _)). split_and!.
  - rewrite convert_encodes by done. fold st enc. by rewrite Hzf.
  - by rewrite Hzf, Hlen, Hsc.
  - rewrite bin2decimal_flip; [|by intros E; rewrite E in Hpos|apply head_small_app; [by apply intg_head|by apply frac_head]]. do 2 f_equal. rewrite <-Hv, digits_val_app by done.
    unfold layout, enc, intg_enc. rewrite <-!app_assoc. cbn [app]. pose proof (read_integer st (getPrecision m - getScale m) (replicate (Z.to_nat (getScale m / 9)) (9, 4) ++ [(getScale m `mod` 9, group_bytes (getScale m `mod` 9))]) (frac_enc fp) Hst Hz) as [_ ->].
    assert (zlen fp = getScale m) as <- by apply Hfits. by apply read_fraction.
Qed.


(** A value of DECIMAL(25, 10), and a value below one of DECIMAL(5, 5). *)
Definition dec_25_10 : IColMeta := mkColMeta 246 0 25 10 [] [] false.

(** A build that keeps its asserts stops at every value whose fraction does not fill its
    groups of nine digits: the last bytes of the value end exactly at the end of the
    block, and the assert asks them to end before it. *)
Theorem decimal_assert_fails (alloc : Z -> bytes) (m : IColMeta) (neg : bool) (ip fp : bytes)
  (Halloc : forall n, 0 <= n -> zlen (alloc n) = n) (Hfits : decimal_fits (getPrecision m) (getScale m) ip fp) (Hfp : zlen fp `mod` 9 <> 0) :
  convert_binlog_decimal alloc false m (decimal_text neg ip fp) = Crash.
Proof.
  destruct (convert_to_tail alloc false Halloc m neg ip fp Hfits) as (s & (Hs & _ & _) & ->). assert (digits fp) as Hd by apply Hfits. destruct (frac_parts fp Hd) as (Z1 & Z2 & D1 & D2 & Hn & Hm). destruct (group_bytes_bound _ Hm) as [Gm _].
  unfold store_tail. rewrite (proj2 (Z.ltb_lt 0 _)) by lia. destruct (heap_read _ _ _); [|done]. cbn [mbind outcome_bind]. rewrite dig2bytes_ok by done. cbn [mbind outcome_bind]. destruct (of_option _); [|done]. cbn [mbind outcome_bind].
  rewrite Hs, !zlen_app, !zlen_masked, zlen_group_enc, zlen_frac_enc by done. rewrite (proj2 (Z.ltb_ge _ _)) by lia. done.
Qed.
Lemma decimal_assert_fails_witness : convert_binlog_decimal (fun n => replicate (Z.to_nat n) 0) false dec_25_10 (decimal_text false (to_dec 1) (to_dec 1122330000)) = Crash.
Proof. apply (decimal_assert_fails (fun n => replicate (Z.to_nat n) 0) dec_25_10 false (to_dec 1) (to_dec 1122330000)); [intros n Hn; rewrite zlen_replicate; lia|unfold decimal_fits; split_and!; [by_compute|by_compute|done|done|by_compute|left; by_compute]|done]. Defined.

(** A fraction with fewer digits than the column has is stored without the zeros behind it:
    5.1 becomes 5.01 in a DECIMAL(10, 2). *)
Example short_fraction : exists b, convert_binlog_decimal (fun n => replicate (Z.to_nat n) 0) true (mkColMeta 246 0 10 2 [] [] false) [53; 46; 49] = Done (zlen b, [b]) /\ bin2decimal 10 2 b = Some (false, 501).
Proof. exists [128; 0; 0; 5; 1]. split; vm_compute; reflexivity. Qed.
