(* ===== verification/Temporal.v ===== *)
(** * Date and time columns

    The conversions of [src/src/binlog/data_type.cpp] for TIMESTAMP, TIME, DATETIME, DATE
    and YEAR: the text of a value, as OBCDC prints it, in the packed formats of MySQL.
    The readers of the server are the reference, and values are shown to be read back. *)

From S2P Require Import Prelude Bytes Str Decimal.

#[local] Open Scope Z_scope.

(** ** Parsed texts *)

Record IDate := mkDate {
  year : Z; month : Z; day : Z; hour : Z; minute : Z; second : Z;
  mill_second : Z; precision : Z; sign : Z; prefix_zero_num : Z
}.
Definition IDate_init : IDate := mkDate 0 0 0 0 0 0 0 0 0 0.
Definition with_ymd (y m d : Z) (t : IDate) : IDate := mkDate y m d (hour t) (minute t) (second t) (mill_second t) (precision t) (sign t) (prefix_zero_num t).
Definition with_hms (h m s : Z) (t : IDate) : IDate := mkDate (year t) (month t) (day t) h m s (mill_second t) (precision t) (sign t) (prefix_zero_num t).
Definition with_fraction (ms p z : Z) (t : IDate) : IDate := mkDate (year t) (month t) (day t) (hour t) (minute t) (second t) ms p (sign t) z.
Definition with_sign (s : Z) (t : IDate) : IDate := mkDate (year t) (month t) (day t) (hour t) (minute t) (second t) (mill_second t) (precision t) s (prefix_zero_num t).

Record IUnixTime := mkUnixTime { sec : Z; us : Z; ut_precision : Z; ut_prefix_zero_num : Z }.

(** The number of decimal digits, which the source takes from [std::log10]; the logarithm
    in double precision gives it for all numbers below 10^15. *)
Fixpoint number_len (fuel : nat) (number : Z) : Z :=
  match fuel with O => 0 | S f => if number <? 10 then 1 else 1 + number_len f (number `div` 10) end.
Definition get_number_len (number : Z) : Z := number_len 20 (u64 number).

(** The two loops: [n] multiplications or divisions by ten. *)
Fixpoint pad_zeros (n : nat) (number : Z) : Z := match n with O => number | S n => pad_zeros n (u64 (number * 10)) end.
Fixpoint cutout (n : nat) (number : Z) : Z := match n with O => number | S n => cutout n (number `div` 10) end.
Definition cutout_or_pad_zero (number target_length : Z) : Z :=
  let number := u64 number in
  let length := get_number_len number in
  if length <=? target_length then pad_zeros (Z.to_nat (target_length - length)) number
  else cutout (Z.to_nat (length - target_length)) number.

Definition remainder_switch (remainder : Z) : Z :=
  if remainder =? 0 then 0
  else if (remainder =? 1) || (remainder =? 2) then 1
  else if (remainder =? 3) || (remainder =? 4) then 2
  else if (remainder =? 5) || (remainder =? 6) then 3
  else if (remainder =? 7) || (remainder =? 8) then 4
  else -1.

Definition year_gap (real_year : Z) : Z := u64 (real_year - 1900).
Definition TIME_ZERO_THREE : Z := 0x800000.
Definition TIME_ZERO_FIVE : Z := 0x8000000000.

(** [at]: throws out of range. *)
Definition at_ {A} (l : list A) (i : nat) : outcome A := of_option (l !! i).

(** [std::equal] over the whole of [str]; behind the literal and its terminator it would
    read foreign memory. *)
Definition zero_date : bytes := str "-9223372022400.000000".
Definition is_zero_date (s : bytes) : outcome bool :=
  if beq s (first (zlen s) (zero_date ++ [0])) then Done true
  else if beq (first (zlen zero_date + 1) s) (zero_date ++ [0]) then Crash else Done false.

Definition millis_to_seconds (ms : Z) : Z := u64 (Z.quot ms 1000).
Definition seconds_to_millis (s : Z) : Z := u64 (s * 1000).

(** The [switch] over the precision: [part n] is the fraction with [n] digits. *)
Definition store_fraction (precision pos : Z) (part : Z -> Z) (buff : bytes) : outcome bytes :=
  if (precision =? 1) || (precision =? 2) then heap_write pos (int1store (part 2)) buff
  else if (precision =? 3) || (precision =? 4) then heap_write pos (be_int2store (part 4)) buff
  else if (precision =? 5) || (precision =? 6) then heap_write pos (be_int3store (part 6)) buff
  else Done buff.

Section Temporal.
Context (alloc : Z -> bytes) (ndebug : bool).

Definition remainder_bytes (remainder : Z) : outcome Z :=
  assert_ ndebug ((0 <=? remainder) && (remainder <=? 9));; Done (remainder_switch remainder).

(** ** Parsing *)

Definition str_2_yyyymmdd (s : bytes) (date : IDate) : outcome IDate :=
  let dates := split s 45 false in
  assert_ ndebug (zlen dates =? 3);;
  y ← at_ dates 0; m ← at_ dates 1; d ← at_ dates 2;
  Done (with_ymd (atoi y) (atoi m) (atoi d) date).

Definition str_2_hhmmss (s : bytes) (date : IDate) : outcome IDate :=
  match s with
  | [] => Done date
  | _ =>
      let dates := split s 46 false in
      assert_ ndebug (0 <? zlen dates);;
      part ← at_ dates 0;
      let parts := split part 58 false in
      assert_ ndebug (zlen parts =? 3);;
      h ← at_ parts 0; m ← at_ parts 1; sc ← at_ parts 2;
      let date := with_hms (atoi h) (atoi m) (atoi sc) date in
      if zlen dates =? 2 then
        f ← at_ dates 1;
        Done (with_fraction (atoi f) (zlen f) (zlen f - get_number_len (atoi f)) date)
      else Done date
  end.

Definition str_2_idate (s : bytes) : outcome IDate :=
  match s with
  | [] => Done IDate_init
  | c :: rest =>
      let '(date, s) := if c =? 45 then (with_sign (-1) IDate_init, rest) else (IDate_init, s) in
      let dates := split s 32 false in
      if zlen dates =? 2 then
        d ← at_ dates 0; t ← at_ dates 1;
        date ← str_2_yyyymmdd d date; str_2_hhmmss t date
      else if bool_decide (45 ∈ s) then str_2_yyyymmdd s date
      else if bool_decide (58 ∈ s) then str_2_hhmmss s date
      else Done date
  end.

Definition str_2_unix_time (s : bytes) : outcome IUnixTime :=
  match s with
  | [] => Done (mkUnixTime 0 0 0 0)
  | _ =>
      let dates := split s 46 false in
      d ← at_ dates 0;
      if zlen dates =? 2 then
        f ← at_ dates 1;
        Done (mkUnixTime (u64 (atoll d)) (u64 (atoll f)) (zlen f) (zlen f - get_number_len (u64 (atoll f))))
      else Done (mkUnixTime (u64 (atoll d)) 0 0 0)
  end.

(** ** Conversions: the number of bytes returned, and the chunks appended *)

Definition convert_binlog_timestamp (col_meta : IColMeta) (data : bytes) : outcome (Z * list bytes) :=
  unix_time ← str_2_unix_time data;
  let precision := getScale col_meta in
  r ← remainder_bytes precision;
  let buff_len := 4 + r in
  zero ← is_zero_date data;
  buff ← heap_write 0 (be_int4store (if zero : bool then 0 else sec unix_time)) (alloc buff_len);
  let part n := cutout_or_pad_zero (us unix_time) (n - ut_prefix_zero_num unix_time) in
  buff ← store_fraction precision 4 part buff;
  Done (4 + r, [buff]).

Definition convert_binlog_time (col_meta : IColMeta) (data : bytes) : outcome (Z * list bytes) :=
  date ← str_2_idate (cstr data);
  let precision := getScale col_meta in
  r ← remainder_bytes precision;
  let buff_len := 3 + r in
  let time := Z.lor (Z.lor (Z.shiftl ((if 0 <? month date then 0 else day date * 24) + hour date) 12) (Z.shiftl (minute date) 6)) (second date) in
  let '(time, sign) := if sign date <? 0 then (if mill_second date =? 0 then - time else - (time + 1), -1) else (time, 1) in
  buff ← heap_write 0 (be_int3store (TIME_ZERO_THREE + time)) (alloc buff_len);
  let part n := u64 (sign * cutout_or_pad_zero (mill_second date) (n - prefix_zero_num date)) in
  buff ← store_fraction precision 3 part buff;
  Done (3 + r, [buff]).

(** The multiplication by ten is a signed one: beyond [int] it is undefined. *)
Definition times_ten (n : Z) : outcome Z := if (- 2 ^ 31 <=? n * 10) && (n * 10 <? 2 ^ 31) then Done (n * 10) else Crash.

Definition packed_datetime (date : IDate) : Z :=
  let time := u64 (sign date) in
  let time := u64 (Z.shiftl (Z.lor (u64 (Z.shiftl time 17)) (u64 (year date * 13 + month date))) 5) in
  let time := Z.lor time (u64 (day date)) in
  let time := Z.lor (u64 (Z.shiftl time 5)) (u64 (hour date)) in
  let time := Z.lor (u64 (Z.shiftl time 6)) (u64 (minute date)) in
  Z.lor (u64 (Z.shiftl time 6)) (u64 (second date)).

Definition convert_binlog_datetime (col_meta : IColMeta) (data : bytes) : outcome (Z * list bytes) :=
  date ← str_2_idate data;
  let precision := getScale col_meta in
  r ← remainder_bytes precision;
  let buff_len := 5 + r in
  let time := packed_datetime date in
  mill_second ← (if negb (Z.rem precision 2 =? 0) then times_ten (mill_second date) else Done (mill_second date));
  buff ← heap_write 0 (be_int5store (u64 (time + TIME_ZERO_FIVE))) (alloc buff_len);
  let part n := cutout_or_pad_zero mill_second (n - prefix_zero_num date) in
  buff ← store_fraction precision 5 part buff;
  Done (5 + r, [buff]).

Definition convert_binlog_year (data : bytes) : outcome (Z * list bytes) :=
  let real_year := u64 (atoi data) in
  assert_ ndebug (negb ((real_year <? 0) || (2155 <? real_year)));;
  if real_year =? 0 then Done (1, [int1store real_year])
  else Done (1, [int1store (year_gap (u64 (atoi data)))]).

Definition convert_binlog_date (data : bytes) : outcome (Z * list bytes) :=
  i_date ← str_2_idate data;
  let date := day i_date + month i_date * 32 + year i_date * 16 * 32 in
  Done (3, [int3store date]).
End Temporal.

(** ** Texts *)

Definition date_text (y m d : bytes) : bytes := intercalate 45 [y; m; d].
Definition time_text (h m s f : bytes) : bytes := intercalate 46 (intercalate 58 [h; m; s] :: match f with [] => [] | _ => [f] end).
Definition datetime_text (y m d h mi s f : bytes) : bytes := intercalate 32 [date_text y m d; time_text h mi s f].

(** A field that holds a number up to [hi]. *)
Definition field (ds : bytes) (hi : Z) : Prop := digits ds /\ ds <> [] /\ zlen ds <= 9 /\ digits_val ds 0 <= hi.
Definition fraction (f : bytes) : Prop := digits f /\ zlen f <= 6.
Definition val (ds : bytes) : Z := digits_val ds 0.
(** The fraction [f] with [n] digits, the others cut off or padded with zeros. *)
Definition frac_value (n : Z) (f : bytes) : Z := (val f * 10 ^ n) `div` 10 ^ zlen f.

Lemma field_atoi ds hi : field ds hi -> atoi ds = val ds /\ 0 <= val ds <= hi.
Proof. intros (Hd & Hne & Hz & Hv). destruct (group_value ds Hd Hne Hz) as [-> _]. pose proof (digits_val_bound ds Hd). unfold val. lia. Qed.

Lemma fraction_bound f : fraction f -> 0 <= val f < 10 ^ 6 /\ val f < 10 ^ zlen f.
Proof. intros [Hd Hz]. pose proof (digits_val_bound f Hd). assert (10 ^ zlen f <= 10 ^ 6) by (apply Z.pow_le_mono_r; lia). unfold val. lia. Qed.

(** ** Numbers of digits *)

Lemma number_len_pos fuel v : 1 <= number_len (S fuel) v.
Proof. revert v. induction fuel as [|fuel IH]; intros v; [cbn; by destruct (v <? 10)|]. change (number_len (S (S fuel)) v) with (if v <? 10 then 1 else 1 + number_len (S fuel) (v / 10)). destruct (v <? 10); [done|]. specialize (IH (v / 10)). lia. Qed.

Lemma number_len_times_ten fuel v : 0 < v < 10 ^ Z.of_nat fuel -> number_len (S fuel) (v * 10) = 1 + number_len fuel v.
Proof.
  intros Hv. cbn [number_len]. rewrite (proj2 (Z.ltb_ge (v * 10) 10)) by lia. rewrite Z.div_mul by lia. done.
Qed.
Lemma number_len_fuel fuel v : 0 <= v < 10 ^ Z.of_nat fuel -> (1 <= fuel)%nat -> number_len (S fuel) v = number_len fuel v.
Proof.
  revert v. induction fuel as [|fuel IH]; intros v Hv Hf; [lia|]. cbn [number_len]. destruct (Z.ltb_spec v 10) as [H|H]; [done|]. f_equal. rewrite Nat2Z.inj_succ, Z.pow_succ_r in Hv by lia.
  assert (0 <= v / 10 < 10 ^ Z.of_nat fuel) by (split; [apply Z.div_pos; lia|apply Z.div_lt_upper_bound; lia]). destruct fuel as [|fuel]; [change (10 ^ Z.of_nat 0) with 1 in *; lia|]. exact (IH (v / 10) ltac:(lia) ltac:(lia)).
Qed.

Lemma get_number_len_pos v : 1 <= get_number_len v.
Proof. apply number_len_pos. Qed.
Lemma get_number_len_ten v : 0 < v < 10 ^ 7 -> get_number_len (v * 10) = 1 + get_number_len v.
Proof.
  intros Hv. unfold get_number_len, u64. rewrite !Z.mod_small by lia. rewrite (number_len_times_ten 19) by (change (10 ^ Z.of_nat 19) with 10000000000000000000; lia). by rewrite (number_len_fuel 19 v) by (change (10 ^ Z.of_nat 19) with 10000000000000000000; lia).
Qed.

Lemma cutout_div n v : 0 <= v -> cutout n v = v `div` 10 ^ Z.of_nat n.
Proof.
  revert v. induction n as [|n IH]; intros v Hv; [cbn [cutout]; by rewrite Z.div_1_r|]. cbn [cutout]. rewrite IH by (apply Z.div_pos; lia). rewrite Z.div_div by (lia || (apply Z.pow_pos_nonneg; lia)). by rewrite Nat2Z.inj_succ, Z.pow_succ_r by lia.
Qed.
Lemma pad_zeros_mul n v : 0 <= v -> v * 10 ^ Z.of_nat n < 2 ^ 64 -> pad_zeros n v = v * 10 ^ Z.of_nat n.
Proof.
  revert v. induction n as [|n IH]; intros v H0 Hv; [cbn [pad_zeros]; change (10 ^ Z.of_nat 0) with 1; lia|]. cbn [pad_zeros]. rewrite Nat2Z.inj_succ, Z.pow_succ_r in Hv |- * by lia. assert (0 < 10 ^ Z.of_nat n) by (apply Z.pow_pos_nonneg; lia).
  assert (v * 10 < 2 ^ 64) by nia. unfold u64. rewrite Z.mod_small by lia. rewrite IH by lia. lia.
Qed.

(** Relative to the digits of the number. *)
Lemma cutout_or_pad v d : 0 <= v < 10 ^ 8 -> -20 <= d <= 8 -> cutout_or_pad_zero v (get_number_len v + d) = if 0 <=? d then v * 10 ^ d else v `div` 10 ^ (- d).
Proof.
  intros Hv Hd. unfold cutout_or_pad_zero. assert (u64 v = v) as -> by (unfold u64; apply Z.mod_small; lia). destruct (Z.leb_spec 0 d) as [H|H].
  - rewrite (proj2 (Z.leb_le _ _)) by lia. replace (get_number_len v + d - get_number_len v) with d by lia. assert (10 ^ d <= 10 ^ 8) by (apply Z.pow_le_mono_r; lia). assert (0 < 10 ^ d) by (apply Z.pow_pos_nonneg; lia). change (10 ^ 8) with 100000000 in *. rewrite pad_zeros_mul; rewrite ?Z2Nat.id by lia; [done|lia|nia].
  - rewrite (proj2 (Z.leb_gt _ _)) by lia. replace (get_number_len v - (get_number_len v + d)) with (- d) by lia. rewrite cutout_div, Z2Nat.id by lia. done.
Qed.

Lemma scaled v n k : 0 <= v -> 0 <= n -> 0 <= k -> (if 0 <=? n - k then v * 10 ^ (n - k) else v `div` 10 ^ (- (n - k))) = (v * 10 ^ n) `div` 10 ^ k.
Proof.
  intros Hv Hn Hk. assert (0 < 10 ^ k) by (apply Z.pow_pos_nonneg; lia). destruct (Z.leb_spec 0 (n - k)) as [Hc|Hc].
  - assert (10 ^ n = 10 ^ (n - k) * 10 ^ k) as -> by (rewrite <-Z.pow_add_r by lia; f_equal; lia). rewrite Z.mul_assoc, Z.div_mul by lia. done.
  - assert (10 ^ k = 10 ^ (k - n) * 10 ^ n) as -> by (rewrite <-Z.pow_add_r by lia; f_equal; lia). assert (0 < 10 ^ n) by (apply Z.pow_pos_nonneg; lia). assert (0 < 10 ^ (k - n)) by (apply Z.pow_pos_nonneg; lia). rewrite Z.div_mul_cancel_r by lia. do 2 f_equal. lia.
Qed.

(** What the conversions store of a fraction [f], whose zeros in front are counted, also
    after the multiplication by ten. *)
Lemma part_value f n : fraction f -> 0 <= n <= 6 -> cutout_or_pad_zero (val f) (n - (zlen f - get_number_len (val f))) = frac_value n f.
Proof.
  intros Hf Hn. pose proof (fraction_bound f Hf). destruct Hf as [_ Hz]. pose proof (zlen_nonneg f). change (10 ^ 6) with 1000000 in *. replace (n - (zlen f - get_number_len (val f))) with (get_number_len (val f) + (n - zlen f)) by lia.
  rewrite cutout_or_pad by (change (10 ^ 8) with 100000000; lia). apply scaled; lia.
Qed.
Lemma part_value_ten f n : fraction f -> 0 <= n <= 6 -> cutout_or_pad_zero (val f * 10) (n - (zlen f - get_number_len (val f))) = frac_value n f.
Proof.
  intros Hf Hn. pose proof (fraction_bound f Hf). assert (fraction f) as [_ Hz] by done. pose proof (zlen_nonneg f). change (10 ^ 6) with 1000000 in *. destruct (decide (val f = 0)) as [E|E]; [rewrite <-part_value by done; by rewrite E|].
  replace (n - (zlen f - get_number_len (val f))) with (get_number_len (val f * 10) + (n - (zlen f + 1))) by (rewrite get_number_len_ten by (change (10 ^ 7) with 10000000; lia); lia).
  rewrite cutout_or_pad by (change (10 ^ 8) with 100000000; lia). rewrite scaled by lia. unfold frac_value. rewrite Z.pow_add_r by lia. change (10 ^ 1) with 10. replace (val f * 10 * 10 ^ n) with (val f * 10 ^ n * 10) by ring. apply Z.div_mul_cancel_r; [|lia]. apply Z.pow_nonzero; lia.
Qed.

(** ** Parsing *)

Lemma field_free ds hi c : field ds hi -> ~ (48 <= c <= 57) -> c ∉ ds.
Proof. intros (Hd & _) Hc. by apply digits_not_in. Qed.
#[local] Hint Resolve field_free : core.

Lemma three_free c sep a b d ha hb hd : field a ha -> field b hb -> field d hd -> c <> sep -> ~ (48 <= c <= 57) -> c ∉ intercalate sep [a; b; d].
Proof. intros Ha Hb Hd Hc Hr. apply intercalate_not_in; [done|]. repeat (constructor; [by eapply field_free|]). constructor. Qed.
Lemma three_split sep a b d ha hb hd : field a ha -> field b hb -> field d hd -> 0 < sep < 48 \/ 57 < sep -> split (intercalate sep [a; b; d]) sep false = [a; b; d].
Proof.
  intros Ha Hb Hd Hs. apply split_intercalate.
  - destruct Ha as (_ & Ha & _). by destruct a.
  - eapply three_free; [done..| |]; lia.
  - repeat (constructor; [eapply field_free; [done|lia]|]). constructor.
Qed.

Lemma assert_true ndebug : assert_ ndebug true = Done tt.
Proof. by destruct ndebug. Qed.

Lemma parse_date (ndebug : bool) y m d ym date : field y ym -> field m 99 -> field d 99 -> str_2_yyyymmdd ndebug (date_text y m d) date = Done (with_ymd (val y) (val m) (val d) date).
Proof.
  intros Hy Hm Hd. unfold str_2_yyyymmdd, date_text. rewrite (three_split 45 y m d ym 99 99) by (done || lia). change (zlen [y; m; d] =? 3) with true. rewrite assert_true. cbn.
  by rewrite (proj1 (field_atoi y ym Hy)), (proj1 (field_atoi m 99 Hm)), (proj1 (field_atoi d 99 Hd)).
Qed.

Lemma fraction_free f c : fraction f -> ~ (48 <= c <= 57) -> c ∉ f.
Proof. intros [Hd _] Hc. by apply digits_not_in. Qed.
Lemma time_free c h m s f hm : field h hm -> field m 99 -> field s 99 -> fraction f -> c <> 58 -> c <> 46 -> ~ (48 <= c <= 57) -> c ∉ time_text h m s f.
Proof.
  intros Hh Hm Hs Hf H1 H2 Hc. apply intercalate_not_in; [done|]. constructor; [by eapply three_free|]. destruct f; [constructor|]. constructor; [by apply fraction_free|constructor].
Qed.
Lemma time_split h m s f hm : field h hm -> field m 99 -> field s 99 -> fraction f ->
  split (time_text h m s f) 46 false = intercalate 58 [h; m; s] :: match f with [] => [] | _ => [f] end.
Proof.
  intros Hh Hm Hs Hf. apply split_intercalate.
  - destruct Hh as (_ & Hh & _). destruct h; [done|]. by destruct f.
  - eapply (time_free 0); done || lia.
  - constructor; [eapply three_free; [done..| |]; lia|]. destruct f; [constructor|]. constructor; [apply fraction_free; [done|lia]|constructor].
Qed.
Lemma fraction_atoi f : fraction f -> f <> [] -> atoi f = val f.
Proof. intros [Hd Hz] Hne. by destruct (group_value f Hd Hne ltac:(lia)) as [-> _]. Qed.

(** The fraction as it is kept; nothing when there is none. *)
Definition frac_digits (f : bytes) : Z := match f with [] => 0 | _ => zlen f end.
Definition frac_zeros (f : bytes) : Z := match f with [] => 0 | _ => zlen f - get_number_len (val f) end.
Lemma parse_time (ndebug : bool) h m s f hm date : field h hm -> field m 99 -> field s 99 -> fraction f ->
  str_2_hhmmss ndebug (time_text h m s f) date = Done (let date := with_hms (val h) (val m) (val s) date in match f with [] => date | _ => with_fraction (val f) (frac_digits f) (frac_zeros f) date end).
Proof.
  intros Hh Hm Hs Hf. unfold str_2_hhmmss. destruct (time_text h m s f) as [|c rest] eqn:Et; [exfalso; destruct Hh as (_ & Hh & _); destruct h; [done|]; by destruct f|]. rewrite <-Et, (time_split h m s f hm) by done.
  rewrite (proj2 (Z.ltb_lt 0 _)) by (rewrite zlen_cons; pose proof (zlen_nonneg (match f with [] => [] | _ => [f] end)); lia). rewrite assert_true. cbn [mbind outcome_bind]. change (at_ (?x :: ?l) 0) with (Done x). cbn [mbind outcome_bind].
  rewrite (three_split 58 h m s hm 99 99) by (done || lia). change (zlen [h; m; s] =? 3) with true. rewrite assert_true. cbn. rewrite (proj1 (field_atoi h hm Hh)), (proj1 (field_atoi m 99 Hm)), (proj1 (field_atoi s 99 Hs)).
  destruct f as [|x f]; [done|]. cbn [zlen length Z.of_nat]. unfold at_. cbn [lookup list_lookup of_option mbind outcome_bind]. by rewrite fraction_atoi.
Qed.

Lemma idate_datetime (ndebug : bool) y m d h mi s f ym hm : field y ym -> field m 99 -> field d 99 -> field h hm -> field mi 99 -> field s 99 -> fraction f ->
  str_2_idate ndebug (datetime_text y m d h mi s f) =
    Done (mkDate (val y) (val m) (val d) (val h) (val mi) (val s) (val f) (frac_digits f) 0 (frac_zeros f)).
Proof.
  intros Hy Hm Hd Hh Hmi Hs Hf. assert (exists c rest, datetime_text y m d h mi s f = c :: rest /\ c <> 45) as (c & rest & Et & Hc).
  { destruct Hy as (Hd0 & Hne & _). destruct y as [|c y]; [done|]. apply Forall_cons in Hd0 as [Hc _]. eexists c, _. split; [reflexivity|lia]. }
  unfold str_2_idate. rewrite Et, (proj2 (Z.eqb_neq c 45)), <-Et by done. assert (split (datetime_text y m d h mi s f) 32 false = [date_text y m d; time_text h mi s f]) as ->.
  { assert (Forall (fun p => 32 ∉ p) [date_text y m d; time_text h mi s f]) as H32 by (constructor; [eapply three_free; [done..| |]; lia|constructor; [eapply time_free; done || lia|constructor]]).
    apply split_intercalate; [unfold datetime_text in Et; by rewrite Et| |done]. apply intercalate_not_in; [done|]. constructor; [eapply three_free; [done..| |]; lia|]. constructor; [eapply time_free; done || lia|constructor]. }
  change (zlen [date_text y m d; time_text h mi s f] =? 2) with true. change (at_ (date_text y m d :: ?l) 0) with (Done (date_text y m d)). change (at_ (date_text y m d :: ?t :: ?l) 1) with (Done t). cbn [mbind outcome_bind].
  rewrite (parse_date ndebug y m d ym) by done. cbn [mbind outcome_bind]. rewrite (parse_time ndebug h mi s f hm) by done. f_equal. by destruct f.
Qed.

Lemma split_whole s sep : s <> [] -> 0 ∉ s -> sep ∉ s -> split s sep false = [s].
Proof. intros Hne H0 Hs. rewrite split_nonempty, cstr_id by done. by rewrite split_loop_last. Qed.

Lemma idate_time (ndebug neg : bool) h m s f hm : field h hm -> field m 99 -> field s 99 -> fraction f ->
  str_2_idate ndebug (sign_of neg ++ time_text h m s f) = Done (mkDate 0 0 0 (val h) (val m) (val s) (val f) (frac_digits f) (mask_of neg) (frac_zeros f)).
Proof.
  intros Hh Hm Hs Hf. assert (exists c rest, time_text h m s f = c :: rest /\ c <> 45) as (c & rest & Et & Hc).
  { destruct Hh as (Hd0 & Hne & _). destruct h as [|c h]; [done|]. apply Forall_cons in Hd0 as [Hc _]. exists c. unfold time_text. destruct f; eexists; (split; [reflexivity|lia]). }
  assert (58 ∈ time_text h m s f) as Hcolon by (unfold time_text; destruct f; cbn [intercalate]; rewrite ?elem_of_app, ?elem_of_cons; auto).
  assert (forall date, (if zlen (split (time_text h m s f) 32 false) =? 2 then
        d ← at_ (split (time_text h m s f) 32 false) 0; t ← at_ (split (time_text h m s f) 32 false) 1; date ← str_2_yyyymmdd ndebug d date; str_2_hhmmss ndebug t date
      else if bool_decide (45 ∈ time_text h m s f) then str_2_yyyymmdd ndebug (time_text h m s f) date
      else if bool_decide (58 ∈ time_text h m s f) then str_2_hhmmss ndebug (time_text h m s f) date else Done date) = str_2_hhmmss ndebug (time_text h m s f) date) as Hgo.
  { intros date. rewrite split_whole; [|by rewrite Et|eapply (time_free 0); done || lia|eapply (time_free 32); done || lia]. change (zlen [?x] =? 2) with false. cbn iota. rewrite bool_decide_eq_false_2 by (eapply (time_free 45); done || lia). by rewrite bool_decide_eq_true_2. }
  unfold str_2_idate. destruct neg; cbn [sign_of app].
  - change (45 =? 45) with true. cbn iota. rewrite Hgo, (parse_time ndebug h m s f hm) by done. f_equal. by destruct f.
  - rewrite Et, (proj2 (Z.eqb_neq c 45)), <-Et by done. rewrite Hgo, (parse_time ndebug h m s f hm) by done. f_equal. by destruct f.
Qed.

Lemma idate_date (ndebug : bool) y m d ym : field y ym -> field m 99 -> field d 99 ->
  str_2_idate ndebug (date_text y m d) = Done (mkDate (val y) (val m) (val d) 0 0 0 0 0 0 0).
Proof.
  intros Hy Hm Hd. assert (exists c rest, date_text y m d = c :: rest /\ c <> 45) as (c & rest & Et & Hc).
  { destruct Hy as (Hd0 & Hne & _). destruct y as [|c y]; [done|]. apply Forall_cons in Hd0 as [Hc _]. eexists c, _. split; [reflexivity|lia]. }
  unfold str_2_idate. rewrite Et, (proj2 (Z.eqb_neq c 45)), <-Et by done. rewrite split_whole; [|by rewrite Et|eapply three_free; [done..| |]; lia|eapply three_free; [done..| |]; lia].
  change (zlen [?x] =? 2) with false. cbn iota. rewrite bool_decide_eq_true_2 by (unfold date_text; cbn [intercalate]; rewrite ?elem_of_app, ?elem_of_cons; auto). by rewrite (parse_date ndebug y m d ym).
Qed.

(** ** The formats, as MySQL reads them *)

(** The fraction behind the first [pos] bytes, in microseconds. *)
Definition read_micros (scale pos : Z) (b : bytes) : Z := be_combine (skip pos b) * 10 ^ (6 - 2 * remainder_switch scale).

Definition read_timestamp (scale : Z) (b : bytes) : Z * Z := (be_combine (first 4 b), read_micros scale 4 b).

(** A signed number of 2^-24 seconds; in the short forms a fraction of a negative value
    is borrowed from the seconds. *)
Definition read_time (scale : Z) (b : bytes) : Z :=
  let r := remainder_switch scale in
  let intpart := be_combine (first 3 b) - 0x800000 in
  let frac := be_combine (skip 3 b) in
  if r =? 3 then intpart * 2 ^ 24 + frac
  else
    let '(intpart, frac) := if (intpart <? 0) && negb (frac =? 0) then (intpart + 1, frac - 256 ^ r) else (intpart, frac) in
    intpart * 2 ^ 24 + frac * 10 ^ (6 - 2 * r).

Definition read_datetime (scale : Z) (b : bytes) : Z * Z * Z * (Z * Z * Z) * Z :=
  let packed := be_combine (first 5 b) - 0x8000000000 in
  let ymd := packed / 2 ^ 17 in let ym := ymd / 2 ^ 5 in let hms := packed `mod` 2 ^ 17 in
  (ym / 13, ym `mod` 13, ymd `mod` 2 ^ 5, (hms / 2 ^ 12, (hms / 2 ^ 6) `mod` 2 ^ 6, hms `mod` 2 ^ 6), read_micros scale 5 b).

Definition read_date (b : bytes) : Z * Z * Z := let v := le_combine b in (v / 2 ^ 9, (v / 2 ^ 5) `mod` 2 ^ 4, v `mod` 2 ^ 5).
Definition read_year (b : bytes) : Z := let v := le_combine b in if v =? 0 then 0 else 1900 + v.

(** ** Blocks *)

Lemma scale_cases (P : Z -> Prop) n : 0 <= n <= 6 -> Forall P [0; 1; 2; 3; 4; 5; 6] -> P n.
Proof. intros Hn H. rewrite Forall_forall in H. apply H. rewrite !elem_of_cons. lia. Qed.
Lemma remainder_ok ndebug sc : 0 <= sc <= 6 -> remainder_bytes ndebug sc = Done (remainder_switch sc).
Proof. intros Hs. unfold remainder_bytes. rewrite (proj2 (Z.leb_le 0 sc)), (proj2 (Z.leb_le sc 9)) by lia. cbn [andb]. by rewrite assert_true. Qed.
Lemma remainder_range sc : 0 <= sc <= 6 -> 0 <= remainder_switch sc <= 3 /\ sc <= 2 * remainder_switch sc.
Proof. intros Hs. apply (scale_cases (fun sc => 0 <= remainder_switch sc <= 3 /\ sc <= 2 * remainder_switch sc) sc Hs). repeat constructor; done. Qed.

Lemma store_fraction_cases sc pos part buff : 0 <= sc <= 6 -> let r := remainder_switch sc in
  store_fraction sc pos part buff = if r =? 0 then Done buff else heap_write pos (be_split (Z.to_nat r) (part (2 * r))) buff.
Proof.
  intros Hs. cbn zeta. apply (scale_cases (fun sc => store_fraction sc pos part buff = if remainder_switch sc =? 0 then Done buff else heap_write pos (be_split (Z.to_nat (remainder_switch sc)) (part (2 * remainder_switch sc))) buff) sc Hs).
  repeat constructor; unfold store_fraction; cbn [Z.eqb Pos.eqb orb]; rewrite ?be_int2store_be, ?be_int3store_be; reflexivity.
Qed.

Lemma block_written (alloc : Z -> bytes) hd sc part : (forall n, 0 <= n -> zlen (alloc n) = n) -> 0 <= sc <= 6 -> let r := remainder_switch sc in
  exists buff, heap_write 0 hd (alloc (zlen hd + r)) = Done buff /\ store_fraction sc (zlen hd) part buff = Done (hd ++ be_split (Z.to_nat r) (part (2 * r))).
Proof.
  intros Ha Hs. cbn zeta. destruct (remainder_range sc Hs) as [Hr _]. pose proof (zlen_nonneg hd).
  destruct (heap_write_filled [] (zlen hd + remainder_switch sc) (alloc (zlen hd + remainder_switch sc), 0) hd) as (b & Eb & Hb); [split_and!; [done|apply Ha; lia|done]|change (zlen (@nil Z)) with 0; lia|].
  cbn [fst snd app] in Eb, Hb. exists b. split; [done|]. rewrite store_fraction_cases by done. destruct (Z.eqb_spec (remainder_switch sc) 0) as [E|E].
  - rewrite E. cbn [Z.to_nat be_split]. destruct Hb as (_ & Hz & Hw). cbn [fst] in Hz, Hw. rewrite first_ge in Hw by lia. rewrite Hw. unfold be_split. cbn. by rewrite app_nil_r.
  - destruct (heap_write_filled hd (zlen hd + remainder_switch sc) (b, 0 + zlen hd) (be_split (Z.to_nat (remainder_switch sc)) (part (2 * remainder_switch sc)))) as (b' & Eb' & _ & Hz & Hw); [exact Hb|rewrite zlen_be_split; lia|].
    cbn [fst snd] in Eb', Hz, Hw. rewrite Z.add_0_l in Eb'. rewrite Eb'. rewrite first_ge in Hw by (rewrite zlen_app, zlen_be_split; lia). by rewrite Hw.
Qed.

Lemma frac_value_bound n f : fraction f -> 0 <= n -> 0 <= frac_value n f < 10 ^ n.
Proof.
  intros Hf Hn. destruct (fraction_bound f Hf) as [H0 H1]. unfold frac_value. pose proof (zlen_nonneg f). assert (0 < 10 ^ zlen f) by (apply Z.pow_pos_nonneg; lia). assert (0 < 10 ^ n) by (apply Z.pow_pos_nonneg; lia).
  split; [apply Z.div_pos; lia|]. apply Z.div_lt_upper_bound; [lia|]. nia.
Qed.
(** [2 r] digits fit into [r] bytes. *)
Lemma frac_bytes sc f : 0 <= sc <= 6 -> fraction f -> let r := remainder_switch sc in 0 <= frac_value (2 * r) f < 256 ^ Z.of_nat (Z.to_nat r).
Proof.
  intros Hs Hf. cbn zeta. destruct (remainder_range sc Hs) as [Hr _]. pose proof (frac_value_bound (2 * remainder_switch sc) f Hf ltac:(lia)) as Hb. rewrite Z2Nat.id by lia.
  assert (10 ^ (2 * remainder_switch sc) <= 256 ^ remainder_switch sc) by (rewrite Z.pow_mul_r by lia; apply Z.pow_le_mono_l; lia). lia.
Qed.

(** The fraction that the conversions compute, with and without digits. *)
Lemma part_or_zero f n : fraction f -> 0 <= n <= 6 -> cutout_or_pad_zero (val f) (n - frac_zeros f) = frac_value n f.
Proof.
  intros Hf Hn. destruct f as [|c f]; [|by apply part_value]. unfold frac_zeros, frac_value, val. cbn [digits_val]. rewrite Z.mul_0_l, Z.div_0_l by done.
  replace (n - 0) with (get_number_len 0 + (n - 1)) by (change (get_number_len 0) with 1; lia). rewrite cutout_or_pad; [|split; [done|reflexivity]|lia]. destruct (Z.leb_spec 0 (n - 1)); [done|]. apply Z.div_0_l. apply Z.pow_nonzero; lia.
Qed.
Lemma part_or_zero_ten f n : fraction f -> 0 <= n <= 6 -> cutout_or_pad_zero (val f * 10) (n - frac_zeros f) = frac_value n f.
Proof. intros Hf Hn. destruct f as [|c f]; [|by apply part_value_ten]. rewrite <-part_or_zero by done. done. Qed.

(** ** Round trips *)

Lemma be_combine_small r v : 0 <= v < 256 ^ Z.of_nat r -> be_combine (be_split r v) = v.
Proof. intros Hv. rewrite be_combine_split. by apply Z.mod_small. Qed.

Lemma read_micros_ok hd sc f : 0 <= sc <= 6 -> fraction f -> let n := 2 * remainder_switch sc in
  read_micros sc (zlen hd) (hd ++ be_split (Z.to_nat (remainder_switch sc)) (frac_value n f)) = frac_value n f * 10 ^ (6 - n).
Proof. intros Hs Hf. cbn zeta. unfold read_micros. rewrite skip_app by done. by rewrite be_combine_small by (by apply frac_bytes). Qed.

Lemma atoll_digits ds : digits ds -> ds <> [] -> zlen ds <= 18 -> atoll ds = val ds /\ 0 <= val ds < 10 ^ 18.
Proof.
  intros Hd Hne Hz. unfold atoll. rewrite read_number_digits by done. pose proof (digits_val_bound ds Hd). assert (10 ^ zlen ds <= 10 ^ 18) by (apply Z.pow_le_mono_r; lia). change (10 ^ 18) with 1000000000000000000 in *. unfold val, LLONG_MAX, LLONG_MIN. cbn [fst]. split; lia.
Qed.

Definition timestamp_text (s f : bytes) : bytes := intercalate 46 (s :: match f with [] => [] | _ => [f] end).

Lemma parse_unix_time s f : digits s -> s <> [] -> zlen s <= 18 -> fraction f -> str_2_unix_time (timestamp_text s f) = Done (mkUnixTime (val s) (val f) (frac_digits f) (frac_zeros f)).
Proof.
  intros Hs Hne Hz Hf. unfold str_2_unix_time. destruct (timestamp_text s f) as [|c rest] eqn:Et; [exfalso; destruct s; [done|]; by destruct f|]. rewrite <-Et.
  assert (split (timestamp_text s f) 46 false = s :: match f with [] => [] | _ => [f] end) as ->.
  { apply split_intercalate; [unfold timestamp_text in Et; by rewrite Et| |].
    - apply intercalate_not_in; [done|]. constructor; [apply digits_not_in; [done|lia]|]. destruct f; [constructor|]. constructor; [apply fraction_free; [done|lia]|constructor].
    - constructor; [apply digits_not_in; [done|lia]|]. destruct f; [constructor|]. constructor; [apply fraction_free; [done|lia]|constructor]. }
  change (at_ (s :: ?l) 0) with (Done s). cbn [mbind outcome_bind]. destruct (atoll_digits s Hs Hne Hz) as [-> Bs]. change (10 ^ 18) with 1000000000000000000 in Bs. assert (u64 (val s) = val s) as -> by (unfold u64; apply Z.mod_small; lia).
  destruct f as [|x f]; [done|]. change (zlen [s; x :: f] =? 2) with true. cbn iota. change (at_ (s :: ?t :: ?l) 1) with (Done t). cbn [mbind outcome_bind]. destruct Hf as [Hfd Hfz]. destruct (atoll_digits (x :: f) Hfd ltac:(done) ltac:(lia)) as [-> Bf]. change (10 ^ 18) with 1000000000000000000 in Bf.
  assert (u64 (val (x :: f)) = val (x :: f)) as -> by (unfold u64; apply Z.mod_small; lia). done.
Qed.

Lemma field_le ds a b : field ds a -> a <= b -> field ds b.
Proof. intros (H1 & H2 & H3 & H4) Hab. split_and!; done || lia. Qed.

Lemma packed_datetime_eq y mo d h mi s ms p z : 0 <= y <= 9999 -> 0 <= mo <= 12 -> 0 <= d <= 31 -> 0 <= h <= 23 -> 0 <= mi <= 59 -> 0 <= s <= 59 ->
  packed_datetime (mkDate y mo d h mi s ms p 0 z) = ((y * 13 + mo) * 32 + d) * 131072 + h * 4096 + mi * 64 + s.
Proof.
  intros Hy Hmo Hd Hh Hmi Hs. unfold packed_datetime. cbn [sign year month day hour minute second]. change (u64 0) with 0. change (u64 (Z.shiftl 0 17)) with 0. rewrite Z.lor_0_l.
  assert (forall x, 0 <= x < 2 ^ 40 -> u64 x = x) as Hu by (intros x Hx; unfold u64; apply Z.mod_small; change (2 ^ 40) with 1099511627776 in Hx; lia). change (2 ^ 40) with 1099511627776 in Hu.
  rewrite !(Hu d), !(Hu h), !(Hu mi), !(Hu s), (Hu (y * 13 + mo)) by lia.
  assert (forall a k b, 0 <= k -> 0 <= b < 2 ^ k -> 0 <= a * 2 ^ k < 1099511627776 -> Z.lor (u64 (Z.shiftl a k)) b = a * 2 ^ k + b) as Hl by (intros a k b Hk Hb Ha; rewrite <-(lor_shiftl a b k) by done; rewrite Hu; [done|]; rewrite Z.shiftl_mul_pow2 by done; lia).
  rewrite (Hl (y * 13 + mo) 5 d), (Hl _ 5 h) by lia. rewrite (Hl _ 6 mi), (Hl _ 6 s) by lia. lia.
Qed.

(** The stored fraction of a negative time: the complement. *)
Lemma be_combine_neg r p : (r <= 8)%nat -> be_combine (be_split r (u64 (-1 * p))) = (- p) `mod` 256 ^ Z.of_nat r.
Proof.
  intros Hr. rewrite be_combine_split. unfold u64. change (2 ^ 64) with (256 ^ 8). rewrite Z.mod_mod_divide; [f_equal; lia|]. exists (256 ^ (8 - Z.of_nat r)). rewrite <-Z.pow_add_r by lia. f_equal. lia.
Qed.

Lemma time_packed h mi s : 0 <= mi < 64 -> 0 <= s < 64 -> Z.lor (Z.lor (Z.shiftl h 12) (Z.shiftl mi 6)) s = h * 4096 + mi * 64 + s.
Proof.
  intros Hm Hs. rewrite (lor_shiftl h (Z.shiftl mi 6) 12) by (rewrite ?Z.shiftl_mul_pow2; lia). replace (h * 2 ^ 12 + Z.shiftl mi 6) with (Z.shiftl (h * 64 + mi) 6) by (rewrite !Z.shiftl_mul_pow2; lia). rewrite lor_shiftl by lia. lia.
Qed.

Section Roundtrips.
Context (alloc : Z -> bytes) (ndebug : bool) (m : IColMeta).
Context (Halloc : forall n, 0 <= n -> zlen (alloc n) = n) (Hscale : 0 <= getScale m <= 6).
Let n : Z := 2 * remainder_switch (getScale m).

Lemma scale_digits : 0 <= n <= 6.
Proof using Hscale. destruct (remainder_range _ Hscale). unfold n. lia. Qed.
Lemma zlen_block hd v : zlen (hd ++ be_split (Z.to_nat (remainder_switch (getScale m))) v) = zlen hd + remainder_switch (getScale m).
Proof using Hscale. destruct (remainder_range _ Hscale). rewrite zlen_app, zlen_be_split. lia. Qed.

Lemma timestamp_readable s f : digits s -> s <> [] -> zlen s <= 18 -> val s < 2 ^ 32 -> fraction f ->
  exists b, convert_binlog_timestamp alloc ndebug m (timestamp_text s f) = Done (zlen b, [b]) /\ zlen b = 4 + remainder_switch (getScale m) /\ read_timestamp (getScale m) b = (val s, frac_value n f * 10 ^ (6 - n)).
Proof using Halloc Hscale.
  intros Hd Hne Hz Hv Hf.
  pose proof scale_digits as Hn. destruct (remainder_range _ Hscale) as [Hr _]. pose proof (digits_val_bound s Hd) as Hb. fold (val s) in Hb. change (2 ^ 32) with 4294967296 in *.
  unfold convert_binlog_timestamp. rewrite parse_unix_time by done. cbn [mbind outcome_bind]. rewrite remainder_ok by done. cbn [mbind outcome_bind].
  assert (is_zero_date (timestamp_text s f) = Done false) as ->.
  { destruct s as [|c s]; [done|]. apply Forall_cons in Hd as [Hc _]. assert (exists t, timestamp_text (c :: s) f = c :: t) as [t ->] by (destruct f; by eexists). unfold is_zero_date.
    rewrite (proj2 (beq_false _ _)); [|rewrite zlen_cons; unfold first; rewrite Z2Nat.inj_add by (done || apply zlen_nonneg); cbn; intros E; injection E; lia].
    rewrite (proj2 (beq_false _ _)); [done|]. cbn. intros E. injection E. lia. }
  cbn [mbind outcome_bind sec]. destruct (block_written alloc (be_int4store (val s)) (getScale m) (fun k => cutout_or_pad_zero (val f) (k - frac_zeros f)) Halloc Hscale) as (b0 & E0 & E1). cbn zeta in E0, E1. fold n in E1.
  rewrite be_int4store_be in *. change (zlen (be_split 4 (val s))) with 4 in *. rewrite E0. cbn [mbind outcome_bind]. cbn [us ut_prefix_zero_num]. rewrite E1. cbn [mbind outcome_bind]. rewrite part_or_zero by done.
  exists (be_split 4 (val s) ++ be_split (Z.to_nat (remainder_switch (getScale m))) (frac_value n f)). split; [by rewrite zlen_block|]. split; [by rewrite zlen_block|]. unfold read_timestamp. rewrite first_app by done. rewrite be_combine_small by (change (256 ^ Z.of_nat 4) with 4294967296; lia). f_equal. apply (read_micros_ok (be_split 4 (val s))); done.
Qed.

Lemma datetime_readable y mo d h mi s f : field y 9999 -> field mo 12 -> field d 31 -> field h 23 -> field mi 59 -> field s 59 -> fraction f ->
  exists b, convert_binlog_datetime alloc ndebug m (datetime_text y mo d h mi s f) = Done (zlen b, [b]) /\ zlen b = 5 + remainder_switch (getScale m) /\
    read_datetime (getScale m) b = (val y, val mo, val d, (val h, val mi, val s), frac_value n f * 10 ^ (6 - n)).
Proof using Halloc Hscale.
  intros Hy Hmo Hd Hh Hmi Hs Hf. pose proof scale_digits as Hn. destruct (remainder_range _ Hscale) as [Hr _].
  destruct (field_atoi _ _ Hy) as [_ By], (field_atoi _ _ Hmo) as [_ Bmo], (field_atoi _ _ Hd) as [_ Bd], (field_atoi _ _ Hh) as [_ Bh], (field_atoi _ _ Hmi) as [_ Bmi], (field_atoi _ _ Hs) as [_ Bs].
  unfold convert_binlog_datetime. rewrite (idate_datetime ndebug y mo d h mi s f 9999 23) by (done || (eapply field_le; [eassumption|lia])). cbn [mbind outcome_bind]. rewrite remainder_ok by done. cbn [mbind outcome_bind].
  set (date := mkDate (val y) (val mo) (val d) (val h) (val mi) (val s) (val f) (frac_digits f) 0 (frac_zeros f)). set (packed := ((val y * 13 + val mo) * 32 + val d) * 131072 + val h * 4096 + val mi * 64 + val s).
  assert (packed_datetime date = packed) as -> by (apply packed_datetime_eq; done || lia). assert (0 <= packed < 2 ^ 39) as Bp by (unfold packed; change (2 ^ 39) with 549755813888; lia).
  assert (exists ms, (if negb (Z.rem (getScale m) 2 =? 0) then times_ten (mill_second date) else Done (mill_second date)) = Done ms /\ forall k, 0 <= k <= 6 -> cutout_or_pad_zero ms (k - frac_zeros f) = frac_value k f) as (ms & -> & Hms).
  { destruct (fraction_bound f Hf) as [Bf _]. change (10 ^ 6) with 1000000 in Bf. destruct (negb _); [|exists (val f); split; [done|intros k Hk; by apply part_or_zero]]. exists (val f * 10). split; [|intros k Hk; by apply part_or_zero_ten].
    unfold times_ten. cbn [mill_second date]. rewrite (proj2 (Z.leb_le _ _)), (proj2 (Z.ltb_lt _ _)) by lia. done. }
  cbn [mbind outcome_bind]. assert (u64 (packed + TIME_ZERO_FIVE) = packed + 549755813888) as -> by (unfold u64, TIME_ZERO_FIVE; rewrite Z.mod_small; lia).
  destruct (block_written alloc (be_int5store (packed + 549755813888)) (getScale m) (fun k => cutout_or_pad_zero ms (k - frac_zeros f)) Halloc Hscale) as (b0 & E0 & E1). cbn zeta in E0, E1. fold n in E1.
  rewrite be_int5store_be in *. change (zlen (be_split 5 (packed + 549755813888))) with 5 in *. rewrite E0. cbn [mbind outcome_bind prefix_zero_num date]. rewrite E1. cbn [mbind outcome_bind]. rewrite Hms by done.
  exists (be_split 5 (packed + 549755813888) ++ be_split (Z.to_nat (remainder_switch (getScale m))) (frac_value n f)). split; [by rewrite zlen_block|]. split; [by rewrite zlen_block|]. unfold read_datetime. rewrite first_app by done.
  rewrite be_combine_small by (change (256 ^ Z.of_nat 5) with 1099511627776; change (2 ^ 39) with 549755813888 in Bp; lia). replace (packed + 549755813888 - 0x8000000000) with packed by lia.
  rewrite (read_micros_ok (be_split 5 (packed + 549755813888))) by done. fold n. f_equal. unfold packed. change (2 ^ 17) with 131072. change (2 ^ 5) with 32. change (2 ^ 12) with 4096. change (2 ^ 6) with 64.
  set (hms := val h * 4096 + val mi * 64 + val s). replace (((val y * 13 + val mo) * 32 + val d) * 131072 + val h * 4096 + val mi * 64 + val s) with (((val y * 13 + val mo) * 32 + val d) * 131072 + hms) by (unfold hms; lia).
  assert (0 <= hms < 131072) as Bhms by (unfold hms; lia). rewrite Z.div_add_l, (Z.div_small hms), Z.add_0_r by lia. rewrite Z.div_add_l, (Z.div_small (val d)), Z.add_0_r by lia. rewrite Z.div_add_l, (Z.div_small (val mo)), Z.add_0_r by lia.
  rewrite (Z.add_comm (_ * 131072)), Z.mod_add, (Z.mod_small hms) by lia. rewrite (Z.add_comm (val y * 13)), Z.mod_add, (Z.mod_small (val mo)) by lia. rewrite (Z.add_comm (_ * 32) (val d)), Z.mod_add, (Z.mod_small (val d)) by lia.
  unfold hms. repeat f_equal; Z.to_euclidean_division_equations; lia.
Qed.

(** What the server makes of the two parts. *)
Lemma read_time_ok (neg : bool) t p : 0 <= t < 2 ^ 23 - 1 -> 0 <= p < 10 ^ n -> let r := remainder_switch (getScale m) in
  read_time (getScale m) (be_split 3 (8388608 + (if neg then (if p =? 0 then - t else - (t + 1)) else t)) ++ be_split (Z.to_nat r) (u64 ((if neg then -1 else 1) * p))) =
    (if neg then -1 else 1) * (t * 2 ^ 24 + p * 10 ^ (6 - n)).
Proof using Hscale.
  intros Ht Hp. cbn zeta. destruct (remainder_range _ Hscale) as [Hr _]. pose proof scale_digits as Hn. change (2 ^ 23 - 1) with 8388607 in Ht. unfold read_time. rewrite first_app, skip_app by done. set (r := remainder_switch (getScale m)) in *.
  assert (p < 256 ^ r) as Hpr by (assert (10 ^ n <= 256 ^ r) by (unfold n; rewrite Z.pow_mul_r by lia; apply Z.pow_le_mono_l; lia); lia).
  assert (256 ^ r <= 256 ^ 3) as Hr3 by (apply Z.pow_le_mono_r; lia). change (256 ^ 3) with 16777216 in Hr3.
  rewrite (be_combine_small 3) by (change (256 ^ Z.of_nat 3) with 16777216; destruct neg; [destruct (p =? 0)|]; lia). destruct neg.
  - rewrite be_combine_neg, Z2Nat.id by lia. destruct (Z.eqb_spec p 0) as [->|Hp0].
    + rewrite Z.mod_0_l by lia. cbn [Z.eqb negb]. rewrite andb_false_r. destruct (r =? 3); lia.
    + assert ((- p) `mod` 256 ^ r = 256 ^ r - p) as -> by (symmetry; apply (Z.mod_unique _ _ (-1)); lia). rewrite (proj2 (Z.ltb_lt _ _)), (proj2 (Z.eqb_neq (256 ^ r - p) 0)) by lia. cbn [negb andb].
      destruct (Z.eqb_spec r 3) as [E|E]; [|fold n; lia]. unfold n. fold r. rewrite E. change (256 ^ 3) with 16777216. change (10 ^ (6 - 2 * 3)) with 1. lia.
  - rewrite Z.mul_1_l, be_combine_split, Z2Nat.id by lia. unfold u64. rewrite (Z.mod_small p (2 ^ 64)), Z.mod_small by lia. rewrite (proj2 (Z.ltb_ge _ 0)) by lia. cbn [andb]. destruct (Z.eqb_spec r 3) as [E|E]; [|fold n; lia]. unfold n. fold r. rewrite E. change (10 ^ (6 - 2 * 3)) with 1. lia.
Qed.

Lemma time_readable (neg : bool) h mi s f : field h 838 -> field mi 59 -> field s 59 -> fraction f -> neg = false \/ zlen f <= n ->
  exists b, convert_binlog_time alloc ndebug m (sign_of neg ++ time_text h mi s f) = Done (zlen b, [b]) /\ zlen b = 3 + remainder_switch (getScale m) /\
    read_time (getScale m) b = (if neg then -1 else 1) * ((val h * 4096 + val mi * 64 + val s) * 2 ^ 24 + frac_value n f * 10 ^ (6 - n)).
Proof using Halloc Hscale.
  intros Hh Hmi Hs Hf Hneg. pose proof scale_digits as Hn. destruct (remainder_range _ Hscale) as [Hr _]. destruct (field_atoi _ _ Hh) as [_ Bh], (field_atoi _ _ Hmi) as [_ Bmi], (field_atoi _ _ Hs) as [_ Bs].
  unfold convert_binlog_time. rewrite cstr_id by (rewrite not_elem_of_app; split; [destruct neg; [apply not_elem_of_cons; split; [done|]|]; apply not_elem_of_nil|eapply (time_free 0); (done || lia || (eapply field_le; [eassumption|lia]))]).
  rewrite (idate_time ndebug neg h mi s f 838) by (done || (eapply field_le; [eassumption|lia])). cbn [mbind outcome_bind]. rewrite remainder_ok by done. cbn [mbind outcome_bind month day hour minute second sign mill_second prefix_zero_num].
  change (0 <? 0) with false. cbn iota. rewrite Z.mul_0_l, Z.add_0_l, time_packed by lia. set (t := val h * 4096 + val mi * 64 + val s).
  pose proof (frac_value_bound n f Hf ltac:(lia)) as Bp. assert (neg = true -> (val f =? 0) = (frac_value n f =? 0)) as Hzero.
  { intros ->. destruct Hneg as [?|Hz]; [done|]. destruct (fraction_bound f Hf) as [Bf _]. pose proof (zlen_nonneg f). unfold frac_value. replace (val f * 10 ^ n) with (val f * 10 ^ (n - zlen f) * 10 ^ zlen f) by (rewrite <-Z.mul_assoc, <-Z.pow_add_r by lia; do 2 f_equal; lia).
    rewrite Z.div_mul by (apply Z.pow_nonzero; lia). assert (0 < 10 ^ (n - zlen f)) by (apply Z.pow_pos_nonneg; lia). destruct (Z.eqb_spec (val f) 0) as [E|E]; [by rewrite E|]. symmetry. apply Z.eqb_neq. nia. }
  assert ((if mask_of neg <? 0 then (if val f =? 0 then - t else - (t + 1), -1) else (t, 1)) = (if neg then (if frac_value n f =? 0 then - t else - (t + 1)) else t, if neg then -1 else 1)) as -> by (destruct neg; [cbn [mask_of Z.ltb Z.compare]; by rewrite Hzero|done]).
  set (v := if neg then (if frac_value n f =? 0 then - t else - (t + 1)) else t). change (TIME_ZERO_THREE + v) with (8388608 + v).
  destruct (block_written alloc (be_int3store (8388608 + v)) (getScale m) (fun k => u64 ((if neg then -1 else 1) * cutout_or_pad_zero (val f) (k - frac_zeros f))) Halloc Hscale) as (b0 & E0 & E1). cbn zeta in E0, E1. fold n in E1.
  rewrite be_int3store_be in *. change (zlen (be_split 3 (8388608 + v))) with 3 in *. rewrite E0. cbn [mbind outcome_bind]. rewrite E1. cbn [mbind outcome_bind]. rewrite part_or_zero by done.
  eexists (be_split 3 (8388608 + v) ++ be_split (Z.to_nat (remainder_switch (getScale m))) (u64 ((if neg then -1 else 1) * frac_value n f))). split; [by rewrite zlen_block|]. split; [by rewrite zlen_block|]. apply read_time_ok; [change (2 ^ 23 - 1) with 8388607; unfold t; lia|done].
Qed.

End Roundtrips.

Lemma date_readable (ndebug : bool) y mo d : field y 9999 -> field mo 12 -> field d 31 ->
  exists b, convert_binlog_date ndebug (date_text y mo d) = Done (zlen b, [b]) /\ zlen b = 3 /\ read_date b = (val y, val mo, val d).
Proof.
  intros Hy Hmo Hd. destruct (field_atoi _ _ Hy) as [_ By], (field_atoi _ _ Hmo) as [_ Bmo], (field_atoi _ _ Hd) as [_ Bd].
  unfold convert_binlog_date. rewrite (idate_date ndebug y mo d 9999) by (done || (eapply field_le; [eassumption|lia])). cbn [mbind outcome_bind year month day]. exists (int3store (val d + val mo * 32 + val y * 16 * 32)). split; [reflexivity|]. split; [reflexivity|]. unfold read_date. rewrite int3store_le, le_combine_split.
  change (256 ^ Z.of_nat 3) with 16777216. rewrite Z.mod_small by lia. change (2 ^ 9) with 512. change (2 ^ 5) with 32. change (2 ^ 4) with 16. repeat f_equal; Z.to_euclidean_division_equations; lia.
Qed.

Lemma year_readable (ndebug : bool) y : field y 2155 -> val y = 0 \/ 1901 <= val y ->
  exists b, convert_binlog_year ndebug y = Done (zlen b, [b]) /\ zlen b = 1 /\ read_year b = val y.
Proof.
  intros Hy Hv. destruct (field_atoi _ _ Hy) as [Ea By]. unfold convert_binlog_year. rewrite Ea. assert (u64 (val y) = val y) as -> by (unfold u64; apply Z.mod_small; lia).
  rewrite (proj2 (Z.ltb_ge (val y) 0)), (proj2 (Z.ltb_ge 2155 (val y))) by lia. cbn [orb negb]. rewrite assert_true. cbn [mbind outcome_bind]. destruct (Z.eqb_spec (val y) 0) as [E|E].
  - exists (int1store (val y)). split; [reflexivity|]. split; [reflexivity|]. by rewrite E.
  - exists (int1store (year_gap (val y))). split; [reflexivity|]. split; [reflexivity|]. unfold read_year, year_gap, int1store. cbn [le_combine]. unfold u64, u8. rewrite (Z.mod_small (_ - _)), Z.mod_small by lia. rewrite (proj2 (Z.eqb_neq _ 0)) by lia. lia.
Qed.

(** C30: DATETIME, DATE, TIME, TIMESTAMP and YEAR values are stored in the packed formats that
    MySQL reads back as the same value, for every scale from 0 to 6 and in every build: each
    conversion appends as many bytes as it returns, and the fraction, zeros in front of it
    included, is padded or cut to the digits that the format stores, which are the digits of
    the scale rounded up to an even number (a text with four digits keeps the fourth in a
    column of scale 3).  A negative TIME borrows from the seconds as the server expects when
    its text has no more digits than these; one with more is left out, since it loses a second
    ([negative_time_borrows]). *)
Theorem temporal_roundtrip (alloc : Z -> bytes) (ndebug : bool) (m : IColMeta) (y mo d h mi s f th sec_ yr : bytes) (neg : bool)
  (Halloc : forall n, 0 <= n -> zlen (alloc n) = n) (Hscale : 0 <= getScale m <= 6)
  (Hy : field y 9999) (Hmo : field mo 12) (Hd : field d 31) (Hh : field h 23) (Hmi : field mi 59) (Hs : field s 59) (Hf : fraction f)
  (Hth : field th 838) (Hneg : neg = false \/ zlen f <= 2 * remainder_switch (getScale m))
  (Hsec : digits sec_ /\ sec_ <> [] /\ zlen sec_ <= 18 /\ val sec_ < 2 ^ 32) (Hyr : field yr 2155 /\ (val yr = 0 \/ 1901 <= val yr)) :
  let n := 2 * remainder_switch (getScale m) in let micros := frac_value n f * 10 ^ (6 - n) in
  (exists b, convert_binlog_datetime alloc ndebug m (datetime_text y mo d h mi s f) = Done (zlen b, [b]) /\ read_datetime (getScale m) b = (val y, val mo, val d, (val h, val mi, val s), micros)) /\
  (exists b, convert_binlog_date ndebug (date_text y mo d) = Done (zlen b, [b]) /\ read_date b = (val y, val mo, val d)) /\
  (exists b, convert_binlog_time alloc ndebug m (sign_of neg ++ time_text th mi s f) = Done (zlen b, [b]) /\
     read_time (getScale m) b = (if neg then -1 else 1) * ((val th * 4096 + val mi * 64 + val s) * 2 ^ 24 + micros)) /\
  (exists b, convert_binlog_timestamp alloc ndebug m (timestamp_text sec_ f) = Done (zlen b, [b]) /\ read_timestamp (getScale m) b = (val sec_, micros)) /\
  (exists b, convert_binlog_year ndebug yr = Done (zlen b, [b]) /\ read_year b = val yr).
Proof.
  cbn zeta. destruct Hsec as (Hd' & Hne & Hz & Hv), Hyr as [Hyr1 Hyr2].
  destruct (datetime_readable alloc ndebug m Halloc Hscale y mo d h mi s f) as (b1 & E1 & _ & R1); [done..|]. destruct (date_readable ndebug y mo d) as (b2 & E2 & _ & R2); [done..|]. destruct (time_readable alloc ndebug m Halloc Hscale neg th mi s f) as (b3 & E3 & _ & R3); [done..|].
  destruct (timestamp_readable alloc ndebug m Halloc Hscale sec_ f) as (b4 & E4 & _ & R4); [done..|]. destruct (year_readable ndebug yr) as (b5 & E5 & _ & R5); [done..|].
  split_and!; by eexists.
Qed.
Lemma temporal_roundtrip_witness :
  (exists b, convert_binlog_time (fun n => replicate (Z.to_nat n) 170) true (mkColMeta 11 0 0 3 [] [] false) (str "-100:05:09.025") = Done (zlen b, [b]) /\ read_time 3 b = -1 * ((100 * 4096 + 5 * 64 + 9) * 2 ^ 24 + 25000)) /\
  (exists b, convert_binlog_datetime (fun n => replicate (Z.to_nat n) 170) true (mkColMeta 12 0 0 3 [] [] false) (str "2024-02-29 23:05:09.025") = Done (zlen b, [b]) /\ read_datetime 3 b = (2024, 2, 29, (23, 5, 9), 25000)).
Proof.
  destruct (temporal_roundtrip (fun n => replicate (Z.to_nat n) 170) true (mkColMeta 11 0 0 3 [] [] false) (str "2024") (str "02") (str "29") (str "23") (str "05") (str "09") (str "025") (str "100") (str "1662034855") (str "1999") true) as (H1 & _ & H3 & _ & _);
    [intros n Hn; rewrite zlen_replicate; lia|cbn; lia|by_compute..| | |by split; [exact H3|exact H1]].
  - split_and!; by_compute.
  - split; [by_compute|right; by_compute].
Defined.

(** Digits behind those of the format make a negative TIME lose a second: the seconds are
    borrowed for a fraction that is then cut off. *)
Example negative_time_borrows : exists b, convert_binlog_time (fun n => replicate (Z.to_nat n) 0) true (mkColMeta 11 0 0 0 [] [] false) (str "-00:00:01.5") = Done (3, [b]) /\ read_time 0 b = -2 * 2 ^ 24.
Proof. eexists. split; [vm_compute; reflexivity|reflexivity]. Qed.

(** A text that is a prefix of the one for the zero date counts as zero. *)
Example prefix_is_zero_date : is_zero_date (str "-9") = Done true.
Proof. reflexivity. Qed.
