(* ===== verification/Floats.v ===== *)
(** * Floating-point columns

    [convert_binlog_float] and [convert_binlog_double] of [src/src/binlog/data_type.cpp],
    with [std::stod] as they use it: the exact value of the text, rounded to the nearest
    double, and the exceptions for texts that are no number or out of range. *)

From Stdlib Require Import SpecFloat.
From S2P Require Import Prelude Bytes Str Decimal.

#[local] Open Scope Z_scope.

(** ** std::stod *)

Definition xdigit (c : Z) : option Z :=
  if isdigit c then Some (c - 48)
  else if (97 <=? tolower c) && (tolower c <=? 102) then Some (tolower c - 87) else None.

(** Digits of a base, from the front: their value, how many, and what follows. *)
Fixpoint read_digits (base : Z) (l : bytes) (acc n : Z) : Z * Z * bytes :=
  match l with
  | c :: l' =>
      match xdigit c with
      | Some d => if d <? base then read_digits base l' (acc * base + d) (n + 1) else (acc, n, l)
      | None => (acc, n, l)
      end
  | [] => (acc, n, l)
  end.

(** Digits with a point: the value without it, the digits behind it, all digits. *)
Definition read_mantissa (base : Z) (l : bytes) : Z * Z * Z * bytes :=
  let '(v, n, l) := read_digits base l 0 0 in
  match l with
  | c :: l' => if c =? 46 then let '(v, k, l') := read_digits base l' v 0 in (v, k, n + k, if 0 <? n + k then l' else l) else (v, 0, n, l)
  | [] => (v, 0, n, l)
  end.

(** The exponent behind [e] or [p], when digits follow. *)
Definition read_exponent (mark : Z) (l : bytes) : Z :=
  match l with
  | c :: l' =>
      if tolower c =? mark then
        let '(neg, l') := read_sign l' in
        let '(e, n, _) := read_digits 10 l' 0 0 in
        if 0 <? n then (if neg then - e else e) else 0
      else 0
  | [] => 0
  end.

(** A text is infinite, not a number, or a fraction. *)
Inductive literal := Infinite | NotANumber | Ratio (num den : Z).

Definition scale_by (base v e : Z) : literal := if 0 <=? e then Ratio (v * base ^ e) 1 else Ratio v (base ^ (- e)).
Definition starts_with_ci (l word : bytes) : bool := beq (tolower <$> first (zlen word) l) word.

Definition read_literal (l : bytes) : option literal :=
  if starts_with_ci l (str "inf") then Some Infinite
  else if starts_with_ci l (str "nan") then Some NotANumber
  else
    let '(hv, hk, hn, hrest) := read_mantissa 16 (skip 2 l) in
    if starts_with_ci l (str "0x") && (0 <? hn) then Some (scale_by 2 hv (read_exponent 112 hrest - 4 * hk))
    else
      let '(v, k, n, rest) := read_mantissa 10 l in
      if 0 <? n then Some (scale_by 10 v (read_exponent 101 rest - k)) else None.

(** The nearest double to [num / den]. *)
Definition round_ratio (neg : bool) (num den : Z) : spec_float :=
  match num, den with
  | Zpos n, Zpos d => SFdiv 53 1024 (S754_finite neg n 0) (S754_finite false d 0)
  | _, _ => S754_zero neg
  end.

(** [ERANGE]: too large, or too small and not exact. *)
Definition tiny (num den : Z) : bool := (0 <? num) && (num * 2 ^ 1076 <? (2 ^ 54 - 1) * den).
Definition exact (num den : Z) (f : spec_float) : bool :=
  match f with
  | S754_finite _ m e => if 0 <=? e then Zpos m * 2 ^ e * den =? num else Zpos m * den =? num * 2 ^ (- e)
  | S754_zero _ => num =? 0
  | _ => false
  end.

(** [None] is the exception; sign and payload of a NaN are not kept. *)
Definition stod (s : bytes) : option spec_float :=
  let '(neg, l) := read_sign (ltrim (cstr s)) in
  lit ← read_literal l;
  match lit with
  | Infinite => Some (S754_infinity neg)
  | NotANumber => Some S754_nan
  | Ratio num den =>
      let f := round_ratio neg num den in
      match f with
      | S754_infinity _ => None
      | _ => if tiny num den && negb (exact num den f) then None else Some f
      end
  end.

(** [(float)]: rounding to single precision. *)
Definition to_float (f : spec_float) : spec_float :=
  match f with
  | S754_finite s m e => binary_normalize 24 128 (if s then Zneg m else Zpos m) e s
  | _ => f
  end.

(** ** IEEE 754 formats *)

(** The bits of a number with [mw] bits of mantissa and [ew] of exponent. *)
Definition float_bits (mw ew : Z) (f : spec_float) : Z :=
  let top (s : bool) := if s then 2 ^ (mw + ew) else 0 in
  match f with
  | S754_zero s => top s
  | S754_infinity s => top s + (2 ^ ew - 1) * 2 ^ mw
  | S754_nan => (2 ^ ew - 1) * 2 ^ mw + 2 ^ (mw - 1)
  | S754_finite s m e => top s + (e + (2 ^ (ew - 1) + mw - 2)) * 2 ^ mw + Zpos m
  end.
Definition double_bytes (f : spec_float) : bytes := le_split 8 (float_bits 52 11 f).
Definition float_bytes (f : spec_float) : bytes := le_split 4 (float_bits 23 8 f).

(** ** Conversions *)

Definition convert_binlog_float (col_meta : IColMeta) (data : bytes) : outcome (Z * list bytes) :=
  value ← of_option (stod data);
  if 24 <? getPrecision col_meta then Done (8, [double_bytes value])
  else Done (4, [float_bytes (to_float value)]).

Definition convert_binlog_double (data : bytes) : outcome (Z * list bytes) :=
  value ← of_option (stod data);
  Done (8, [double_bytes value]).

(** ** Known values *)

Example stod_values :
  (fun s => float_bits 52 11 <$> stod (str s)) <$> ["0.1"; "-1.5e3"; " 12345678901234567890"; "5e-324"; "1e400"; "1e-400"; "abc"; "0x1.8p1"; "-inf"; "2.2250738585072014e-308"; ".5"; "1e"]%string =
  [Some 0x3FB999999999999A; Some 0xC097700000000000; Some 0x43E56A95319D63E1; None; None; None; None; Some 0x4008000000000000; Some 0xFFF0000000000000; Some 0x0010000000000000; Some 0x3FE0000000000000; Some 0x3FF0000000000000].
Proof. vm_compute. reflexivity. Qed.
Example float_values :
  (fun s => convert_binlog_float (mkColMeta 4 0 0 0 [] [] false) (str s)) <$> ["0.1"; "16777217"; "-1.17549e-38"]%string =
  [Done (4, [[0xCD; 0xCC; 0xCC; 0x3D]]); Done (4, [[0; 0; 0x80; 0x4B]]); Done (4, [[0xE1; 0xFF; 0x7F; 0x80]])].
Proof. vm_compute. reflexivity. Qed.
