(* ===== verification/Gtid.v ===== *)
(** * Gtid: GTID sets

    [GtidMessage] of [src/src/binlog/ob_log_event.{h,cpp}] (one server UUID and its
    transaction intervals), [merge_gtid_before] of [src/src/binlog/gtid_manager.cpp]
    and the SQL functions [GTID_SUBSET]/[GTID_SUBTRACT] of
    [src/src/binlog/binlog-instance/binlog_func.cpp].

    An interval is a pair of 64-bit numbers, both ends included.  The heap block
    that holds a UUID is a list of 16 bytes; a null pointer is [None].  The cached
    textual UUID of the source is recomputed at each use: no code changes the UUID
    of a message that has been printed. *)

From S2P Require Import Prelude Str.

#[local] Open Scope Z_scope.

Definition SERVER_UUID_LEN : Z := 16.

Definition txn_range : Type := Z * Z.

Record GtidMessage := mkGtidMessage {
  gtid_uuid : option bytes;
  gtid_txn_id_intervals : Z;
  get_txn_range : list txn_range
}.

Definition empty_message : GtidMessage := mkGtidMessage None 0 [].

#[export] Instance GtidMessage_eq_dec : EqDecision GtidMessage.
Proof. solve_decision. Defined.

Definition set_txn_range (r : list txn_range) (m : GtidMessage) : GtidMessage :=
  mkGtidMessage (gtid_uuid m) (gtid_txn_id_intervals m) r.
Definition set_gtid_txn_id_intervals (n : Z) (m : GtidMessage) : GtidMessage :=
  mkGtidMessage (gtid_uuid m) n (get_txn_range m).
Definition set_uuid (u : bytes) (m : GtidMessage) : GtidMessage :=
  mkGtidMessage (Some u) (gtid_txn_id_intervals m) (get_txn_range m).

(** ** UUID text *)

(** [get_gtid_uuid_str]: upper-case hexadecimal; a null UUID is dereferenced. *)
Definition get_gtid_uuid_str (m : GtidMessage) : outcome bytes :=
  u ← of_option (gtid_uuid m); Done (dumphex u).

(** [uuid_hex_bin_to_str_with_delim]: 8-4-4-4-12 lower-case digits. *)
Definition uuid_hex_bin_to_str_with_delim (u : bytes) : bytes :=
  let uuid_str := dumphex u in
  let item pos len := tolower <$> first len (skip pos uuid_str) in
  item 0 8 ++ str "-" ++ item 8 4 ++ str "-" ++ item 12 4 ++ str "-" ++ item 16 4 ++ str "-"
  ++ item 20 12.

(** [uuid_str_to_hex_bin]: the five parts are written at offsets 0, 4, 6, 8, 10 of a
    fresh 16-byte block (whose initial content, unspecified, is taken as zeros). *)
Definition uuid_str_to_hex_bin (uuid_str : bytes) : outcome (option bytes) :=
  match split uuid_str 45 false with
  | [p0; p1; p2; p3; p4] =>
      let bin p := hex_to_bin (length p) p in
      b ← heap_write 0 (bin p0) (replicate (Z.to_nat SERVER_UUID_LEN) 0);
      b ← heap_write 4 (bin p1) b;
      b ← heap_write 6 (bin p2) b;
      b ← heap_write 8 (bin p3) b;
      b ← heap_write 10 (bin p4) b;
      Done (Some b)
  | _ => Done None
  end.

(** [GtidMessage::set_gtid_uuid(const std::string&)] *)
Definition set_gtid_uuid (m : GtidMessage) (uuid_str : bytes) : outcome (ret * GtidMessage) :=
  b ← uuid_str_to_hex_bin uuid_str;
  Done (match b with Some b => (OMS_OK, set_uuid b m) | None => (OMS_FAILED, m) end).

(** ** Text of a GTID set: [uuid:1-5:999] *)

Definition format_range (i : txn_range) : bytes :=
  if i.2 =? i.1 then str ":" ++ to_dec i.1
  else str ":" ++ to_dec i.1 ++ str "-" ++ to_dec i.2.

Definition format_string (m : GtidMessage) : outcome bytes :=
  u ← of_option (gtid_uuid m);
  Done (uuid_hex_bin_to_str_with_delim u ++ mjoin (format_range <$> get_txn_range m)).

(** The loop of [merge_txn_range] over [full_range]; [start = 0] means no open
    interval; [end + 1] wraps at 64 bits. *)
Fixpoint merge_loop (start end_ : Z) (full_range merge : list txn_range) : list txn_range :=
  match full_range with
  | [] => if start =? 0 then merge else merge ++ [(start, end_)]
  | range :: full_range =>
      if start =? 0 then merge_loop range.1 range.2 full_range merge
      else if range.1 <=? u64 (end_ + 1) then
        merge_loop start (Z.max end_ range.2) full_range merge
      else merge_loop range.1 range.2 full_range (merge ++ [(start, end_)])
  end.

(** [merge_txn_range(message, target)]: the new range of [target]. *)
Definition merge_txn_range (message target : GtidMessage) : GtidMessage :=
  set_txn_range (merge_loop 0 0 (get_txn_range message ++ get_txn_range target) []) target.

(** One [:]-separated interval of [deserialize_gtid_set]. *)
Definition parse_range (part : bytes) : option txn_range :=
  match split part 45 false with
  | [a] => Some (u64 (atoll a), u64 (atoll a))
  | [a; b] => Some (u64 (atoll a), u64 (atoll b))
  | _ => None
  end.

(** The [for] loop: intervals before a malformed one stay in the message. *)
Fixpoint parse_ranges (parts : list bytes) (m : GtidMessage) : ret * GtidMessage :=
  match parts with
  | [] => (OMS_OK, m)
  | p :: parts =>
      match parse_range p with
      | Some r => parse_ranges parts (set_txn_range (get_txn_range m ++ [r]) m)
      | None => (OMS_FAILED, m)
      end
  end.

Definition deserialize_gtid_set (m : GtidMessage) (gtid_set : bytes) : outcome (ret * GtidMessage) :=
  match split gtid_set 58 false with
  | [] | [_] => Done (OMS_FAILED, m)
  | p0 :: parts =>
      '(r, m) ← set_gtid_uuid m p0;
      match r with
      | OMS_FAILED => Done (OMS_FAILED, m)
      | OMS_OK =>
          let '(r, m) := parse_ranges parts m in
          match r with
          | OMS_FAILED => Done (OMS_FAILED, m)
          | OMS_OK => Done (OMS_OK, merge_txn_range m m)
          end
      end
  end.

(** [get_gtid_length]: its size inside a previous-gtids event. *)
Definition get_gtid_length (m : GtidMessage) : Z :=
  SERVER_UUID_LEN + 8 + zlen (get_txn_range m) * 16.

(** ** gtid_manager.cpp: merge_gtid_before *)

(** What happens to the intervals of the message of the master's UUID. *)
Definition merge_last (ranges : list txn_range) (gtid_range : txn_range) : list txn_range :=
  match last ranges with
  | None => ranges ++ [gtid_range]
  | Some last_range =>
      if gtid_range.1 >? u64 (last_range.2 + 1) then ranges ++ [gtid_range]
      else if gtid_range.2 >? last_range.2 then
        <[pred (length ranges) := (last_range.1, gtid_range.2)]> ranges
      else ranges
  end.

Definition same_uuid (server_uuid : bytes) (m : GtidMessage) : outcome bool :=
  u ← of_option (gtid_uuid m);
  Done (strcasecmp_eq (uuid_hex_bin_to_str_with_delim u) server_uuid).

Fixpoint merge_messages (server_uuid : bytes) (gtid_range : txn_range) (ms : list GtidMessage)
    : outcome (bool * list GtidMessage) :=
  match ms with
  | [] => Done (false, [])
  | m :: ms =>
      same ← same_uuid server_uuid m;
      '(existed, ms') ← merge_messages server_uuid gtid_range ms;
      Done (if same : bool then
              let rs := merge_last (get_txn_range m) gtid_range in
              (true, set_gtid_txn_id_intervals (zlen rs) (set_txn_range rs m) :: ms')
            else (existed, m :: ms'))
  end.

(** [merge_gtid_before(gtid_message_set, gtid_range)]; the result of [set_gtid_uuid]
    on the configured UUID is ignored by the code. *)
Definition merge_gtid_before (server_uuid : bytes) (ms : list GtidMessage) (gtid_range : txn_range)
    : outcome (list GtidMessage) :=
  '(uuid_existed, ms) ← merge_messages server_uuid gtid_range ms;
  if (uuid_existed : bool) then Done ms
  else if (gtid_range.1 >? 0) && (gtid_range.2 >? 0) then
    '(_, m) ← set_gtid_uuid empty_message server_uuid;
    let m := set_txn_range (get_txn_range m ++ [gtid_range]) m in
    Done (ms ++ [set_gtid_txn_id_intervals (zlen (get_txn_range m)) m])
  else Done ms.

(** ** binlog_func.cpp: GTID_SUBSET and GTID_SUBTRACT *)

Definition gtid_map : Type := list (bytes * GtidMessage).

(** [BinlogFunction::merge_txn_range], a copy of the one of [GtidMessage]. *)
Definition func_merge_txn_range (message target : GtidMessage) : GtidMessage :=
  set_txn_range (merge_loop 0 0 (get_txn_range message ++ get_txn_range target) []) target.

(** One [,]-separated set; the result of [deserialize_gtid_set] is ignored. *)
Definition deserialization_step (acc : outcome gtid_map) (gtid_set : bytes) : outcome gtid_map :=
  gm ← acc;
  '(_, message) ← deserialize_gtid_set empty_message gtid_set;
  key ← get_gtid_uuid_str message;
  Done (match omap_find key gm with
        | Some target => omap_set key (func_merge_txn_range message target) gm
        | None => omap_set key message gm
        end).

Definition deserialization (gtid_str : bytes) : outcome gtid_map :=
  fold_left deserialization_step (split gtid_str 44 false) (Done []).

Definition is_subset (subset target : list txn_range) : bool :=
  forallb (fun sub => existsb (fun tar => (tar.1 <=? sub.1) && (sub.2 <=? tar.2)) target) subset.

Definition gtid_subset (set_sub set_target : bytes) : outcome Z :=
  sub_msg ← deserialization set_sub;
  target_msg ← deserialization set_target;
  Done (if forallb (fun '(k, sub) =>
                      match omap_find k target_msg with
                      | None => false
                      | Some target => is_subset (get_txn_range sub) (get_txn_range target)
                      end) sub_msg
        then 1 else 0).

(** The inner [for] of [difference]: [done] are the entries before index [i], [rest]
    the others; [emplace_back] appends at the end.  64-bit wrap-around kept. *)
Fixpoint dig_target (t : txn_range) (rest : list txn_range) : list txn_range :=
  match rest with
  | [] => []
  | o :: rest' =>
      if t.2 <? o.1 then rest
      else if t.1 >? o.2 then o :: dig_target t rest'
      else if (t.2 <? o.2) && (t.1 >? o.1) then
        ((u64 (t.2 + 1), o.2) :: rest') ++ [(o.1, u64 (t.1 - 1))]
      else if t.2 >=? o.2 then
        if t.1 <=? o.1 then (0, 0) :: dig_target t rest'
        else (o.1, u64 (t.1 + 1)) :: dig_target t rest'
      else if o.1 >=? t.1 then (u64 (t.2 + 1), o.2) :: rest'
      else ((o.1, u64 (t.1 - 1)) :: rest') ++ [(u64 (t.2 + 1), o.2)]
  end.

Definition range_le (a b : txn_range) : Prop := a.1 < b.1 \/ (a.1 = b.1 /\ a.2 <= b.2).
#[export] Instance range_le_dec a b : Decision (range_le a b).
Proof. unfold range_le. apply _. Defined.

Definition difference (origin target : list txn_range) : list txn_range :=
  let origin := merge_sort range_le origin in
  let target := merge_sort range_le target in
  let origin := fold_left (fun o t => dig_target t o) target origin in
  filter (fun r => r.1 <> 0 /\ r.2 <> 0) origin.

Definition gtid_subtract_msgs (origin_msg target_msg : gtid_map) : gtid_map :=
  fold_left (fun result '(k, origin) =>
    match omap_find k target_msg with
    | None => omap_set k (mkGtidMessage (gtid_uuid origin) 0 (get_txn_range origin)) result
    | Some target =>
        match difference (get_txn_range origin) (get_txn_range target) with
        | [] => result
        | diff => omap_set k (mkGtidMessage (gtid_uuid origin) 0 (merge_sort range_le diff)) result
        end
    end) origin_msg [].

Fixpoint format_all (l : gtid_map) : outcome (list bytes) :=
  match l with
  | [] => Done []
  | (_, m) :: l => s ← format_string m; ss ← format_all l; Done (s :: ss)
  end.

Definition gtid_subtract (set_origin set_target : bytes) : outcome bytes :=
  origin_msg ← deserialization set_origin;
  target_msg ← deserialization set_target;
  texts ← format_all (gtid_subtract_msgs origin_msg target_msg);
  Done (intercalate 44 texts).

(** ** Specification: the set of transactions an interval list denotes *)

Definition covered (x : Z) (rs : list txn_range) : Prop := exists r, r ∈ rs /\ r.1 <= x <= r.2.

(** Sorted by start, each interval non-empty, no end at the top of the 64-bit range. *)
Fixpoint sorted_from (lo : Z) (rs : list txn_range) : Prop :=
  match rs with
  | [] => True
  | r :: rs => lo <= r.1 <= r.2 /\ r.2 < 2 ^ 64 - 1 /\ sorted_from r.1 rs
  end.

(** moreover at least one missing number between two intervals. *)
Fixpoint canon_from (lo : Z) (rs : list txn_range) : Prop :=
  match rs with
  | [] => True
  | r :: rs => lo <= r.1 <= r.2 /\ r.2 < 2 ^ 64 - 1 /\ canon_from (r.2 + 2) rs
  end.

#[export] Instance sorted_from_dec lo rs : Decision (sorted_from lo rs).
Proof. revert lo. induction rs; intros; simpl; apply _. Defined.
#[export] Instance canon_from_dec lo rs : Decision (canon_from lo rs).
Proof. revert lo. induction rs; intros; simpl; apply _. Defined.

Lemma covered_nil x : ~ covered x [].
Proof. intros (r & Hr & _). by apply elem_of_nil in Hr. Qed.
Lemma covered_cons x r rs : covered x (r :: rs) <-> r.1 <= x <= r.2 \/ covered x rs.
Proof.
  unfold covered. split.
  - intros (r' & [->|Hin]%elem_of_cons & Hx); eauto.
  - intros [Hx|(r' & Hin & Hx)]; eexists; rewrite elem_of_cons; eauto.
Qed.
Lemma covered_app x a b : covered x (a ++ b) <-> covered x a \/ covered x b.
Proof.
  unfold covered. split.
  - intros (r & [Hr|Hr]%elem_of_app & Hx); eauto.
  - intros [(r & Hr & Hx)|(r & Hr & Hx)]; exists r; rewrite elem_of_app; eauto.
Qed.
Lemma covered_singleton x r : covered x [r] <-> r.1 <= x <= r.2.
Proof. rewrite covered_cons. pose proof (covered_nil x). tauto. Qed.

Lemma canon_from_weaken lo lo' rs : lo' <= lo -> canon_from lo rs -> canon_from lo' rs.
Proof. destruct rs; simpl; intuition lia. Qed.
Lemma sorted_from_weaken lo lo' rs : lo' <= lo -> sorted_from lo rs -> sorted_from lo' rs.
Proof. destruct rs; simpl; intuition lia. Qed.

Lemma canon_from_lower lo rs x : canon_from lo rs -> covered x rs -> lo <= x.
Proof.
  revert lo. induction rs as [|r rs IH]; intros lo; [by intros _ ?%covered_nil|].
  simpl. intros (H1 & _ & H2) [?|Hx]%covered_cons; [lia|].
  pose proof (IH _ H2 Hx). lia.
Qed.

Lemma canon_from_sorted lo rs : canon_from lo rs -> sorted_from lo rs.
Proof.
  revert lo. induction rs as [|r rs IH]; intros lo; [done|].
  simpl. intros (H1 & H2 & H3). split_and!; [lia | lia | lia |].
  apply sorted_from_weaken with (r.2 + 2); [lia|]. by apply IH.
Qed.

Lemma canon_from_app lo a r b :
  canon_from lo (a ++ [r]) -> canon_from (r.2 + 2) b -> canon_from lo (a ++ r :: b).
Proof.
  revert lo. induction a as [|x a IH]; intros lo; simpl; [tauto|].
  intros (H1 & H2 & H3) Hb. split_and!; [lia | lia | lia |]. by apply IH.
Qed.

(** In a canonical list the number after an interval is missing. *)
Lemma canon_from_gap lo rs r : canon_from lo rs -> r ∈ rs -> ~ covered (r.2 + 1) rs.
Proof.
  revert lo. induction rs as [|q rs IH]; intros lo; [by intros _ ?%elem_of_nil|].
  simpl. intros (H1 & _ & H2) Hr Hc. apply covered_cons in Hc.
  apply elem_of_cons in Hr as [->|Hr].
  - destruct Hc as [?|Hc]; [lia|]. pose proof (canon_from_lower _ _ _ H2 Hc). lia.
  - destruct Hc as [Hc|Hc]; [|by apply (IH _ H2 Hr)].
    assert (sorted_from (q.2 + 2) rs) as Hs by (by apply canon_from_sorted).
    assert (covered r.1 rs) as Hc1.
    { exists r. split; [done|]. clear -Hs Hr. revert Hs. generalize (q.2 + 2).
      induction rs as [|p rs IH]; intros lo; [by apply elem_of_nil in Hr|].
      simpl. intros (? & ? & ?). apply elem_of_cons in Hr as [->|Hr]; [lia|]. eauto. }
    pose proof (canon_from_lower _ _ _ H2 Hc1).
    assert (r.1 <= r.2); [|lia]. clear -Hs Hr. revert Hs. generalize (q.2 + 2).
    induction rs as [|p rs IH]; intros lo; [by apply elem_of_nil in Hr|].
    simpl. intros (? & ? & ?). apply elem_of_cons in Hr as [->|Hr]; [lia|]. eauto.
Qed.

(** Canonical lists are determined by the set they denote. *)
Lemma canonical_unique lo rs1 rs2 :
  canon_from lo rs1 -> canon_from lo rs2 -> (forall x, covered x rs1 <-> covered x rs2) ->
  rs1 = rs2.
Proof.
  revert lo rs2. induction rs1 as [|r1 rs1 IH]; intros lo [|r2 rs2] H1 H2 Hc; [done|..].
  - destruct (covered_nil r2.1). apply Hc, covered_cons. simpl in H2. lia.
  - destruct (covered_nil r1.1). apply Hc, covered_cons. simpl in H1. lia.
  - pose proof (canon_from_gap lo _ r1 H1 ltac:(left)) as E1.
    pose proof (canon_from_gap lo _ r2 H2 ltac:(left)) as E2.
    destruct H1 as (L1 & U1 & H1), H2 as (L2 & U2 & H2).
    assert (r1.1 = r2.1) as Es.
    { pose proof (proj1 (Hc r1.1) ltac:(apply covered_cons; lia)) as A1.
      pose proof (proj2 (Hc r2.1) ltac:(apply covered_cons; lia)) as A2.
      apply covered_cons in A1, A2.
      destruct A1 as [?|A1], A2 as [?|A2]; [lia|..].
      - pose proof (canon_from_lower _ _ _ H1 A2). lia.
      - pose proof (canon_from_lower _ _ _ H2 A1). lia.
      - pose proof (canon_from_lower _ _ _ H1 A2). pose proof (canon_from_lower _ _ _ H2 A1). lia. }
    assert (r1.2 = r2.2) as Ee.
    { destruct (Z.lt_trichotomy r1.2 r2.2) as [?|[?|?]]; [|done|]; exfalso.
      - apply E1, Hc, covered_cons. lia.
      - apply E2, Hc, covered_cons. lia. }
    assert (r1 = r2) as -> by (destruct r1, r2; simpl in *; congruence).
    f_equal. apply (IH (r2.2 + 2)); [done | done |]. intros x.
    specialize (Hc x). rewrite !covered_cons in Hc. split; intros Hx.
    + pose proof (canon_from_lower _ _ _ H1 Hx). intuition lia.
    + pose proof (canon_from_lower _ _ _ H2 Hx). intuition lia.
Qed.

(** ** Merging intervals *)

(** Over a sorted stretch [rs] the loop closes canonical intervals [out] and is left
    with an open interval [(s, e)] that dominates everything read so far. *)
Lemma merge_loop_sorted rs : forall start end_ tail acc,
  1 <= start <= end_ -> end_ < 2 ^ 64 - 1 -> sorted_from start rs ->
  exists out s e,
    merge_loop start end_ (rs ++ tail) acc = merge_loop s e tail (acc ++ out) /\
    canon_from start (out ++ [(s, e)]) /\
    (forall x, covered x (out ++ [(s, e)]) <-> start <= x <= end_ \/ covered x rs) /\
    (1 <= s <= e /\ end_ <= e < 2 ^ 64 - 1 /\ forall r, r ∈ rs -> r.1 <= e + 1 /\ r.2 <= e).
Proof.
  induction rs as [|r rs IH]; intros start end_ tail acc Hs He Hsort.
  - exists [], start, end_. rewrite app_nil_r. simpl. split_and!; try done; try lia.
    + intros x. rewrite covered_singleton. simpl. pose proof (covered_nil x). tauto.
    + intros r Hr. by apply elem_of_nil in Hr.
  - destruct Hsort as (H1 & H2 & H3). cbn [app merge_loop].
    rewrite (u64_id (end_ + 1)) by (unfold is_u64; lia).
    rewrite (proj2 (Z.eqb_neq start 0)) by lia.
    destruct (Z.leb_spec r.1 (end_ + 1)) as [Hle|Hgt].
    + destruct (IH start (Z.max end_ r.2) tail acc) as (out & s & e & Hm & Hc & Hcov & Hd);
        [lia | lia | apply sorted_from_weaken with r.1; [lia|done] |].
      exists out, s, e. split_and!; try done; try lia.
      * intros x. rewrite Hcov, covered_cons. split; [|intuition lia].
        intros [?|?]; [|tauto]. destruct (Z.le_gt_cases x end_); [tauto|]. right. left. lia.
      * intros q [->|Hq]%elem_of_cons; [lia|]. destruct Hd as (_ & _ & Hd). by apply Hd.
    + destruct (IH r.1 r.2 tail (acc ++ [(start, end_)])) as (out & s & e & Hm & Hc & Hcov & Hd);
        [lia | lia | done |].
      exists ((start, end_) :: out), s, e. cbn [app]. split_and!; try lia.
      * rewrite Hm, <-app_assoc. done.
      * simpl. split_and!; [lia | lia | lia |]. apply canon_from_weaken with r.1; [lia|done].
      * intros x. rewrite covered_cons, Hcov, covered_cons. simpl. tauto.
      * intros q [->|Hq]%elem_of_cons; [lia|]. destruct Hd as (_ & _ & Hd). by apply Hd.
Qed.

(** Intervals below the open one are absorbed. *)
Lemma merge_loop_absorb rs : forall s e acc,
  1 <= s -> 0 <= e < 2 ^ 64 - 1 -> (forall r, r ∈ rs -> r.1 <= e + 1 /\ r.2 <= e) ->
  merge_loop s e rs acc = acc ++ [(s, e)].
Proof.
  induction rs as [|r rs IH]; intros s e acc Hs He Hr; simpl.
  - by rewrite (proj2 (Z.eqb_neq s 0)) by lia.
  - rewrite (proj2 (Z.eqb_neq s 0)), (u64_id (e + 1)) by (unfold is_u64; lia).
    destruct (Hr r ltac:(left)) as [Hr1 Hr2]. rewrite (proj2 (Z.leb_le _ _)) by lia.
    rewrite Z.max_l by lia. apply IH; [lia | lia |]. intros q Hq. apply Hr. by right.
Qed.

Lemma merge_loop_self rs :
  sorted_from 1 rs ->
  canon_from 1 (merge_loop 0 0 (rs ++ rs) []) /\
  forall x, covered x (merge_loop 0 0 (rs ++ rs) []) <-> covered x rs.
Proof.
  destruct rs as [|r rs]; [done|]. intros (H1 & H2 & H3). cbn [app merge_loop].
  destruct (merge_loop_sorted rs r.1 r.2 (r :: rs) []) as (out & s & e & Hm & Hc & Hcov & Hd);
    [lia | lia | done |].
  change (0 =? 0) with true. cbn [app] in Hm. cbn [app]. rewrite Hm.
  destruct Hd as (Hse & He & Hd).
  rewrite merge_loop_absorb; [|lia|lia|].
  - split; [apply canon_from_weaken with r.1; [lia|done]|]. intros x. by rewrite Hcov, covered_cons.
  - intros q [->|Hq]%elem_of_cons; [lia|]. by apply Hd.
Qed.

Lemma merge_loop_self_canonical rs : canon_from 1 rs -> merge_loop 0 0 (rs ++ rs) [] = rs.
Proof.
  intros H. destruct (merge_loop_self rs) as [Hc Hcov]; [by apply canon_from_sorted|].
  by apply (canonical_unique 1).
Qed.

(** [last] and updating the last entry. *)
Lemma insert_last {A} (l : list A) (x y : A) : <[pred (length (l ++ [x])) := y]> (l ++ [x]) = l ++ [y].
Proof.
  rewrite length_app. simpl. rewrite insert_app_r_alt by lia.
  by replace (pred (length l + 1) - length l)%nat with 0%nat by lia.
Qed.

Lemma merge_last_cases rs r q :
  q.2 < 2 ^ 64 - 1 -> 0 <= q.2 ->
  merge_last (rs ++ [q]) r
  = if r.1 >? q.2 + 1 then rs ++ [q; r]
    else if r.2 >? q.2 then rs ++ [(q.1, r.2)] else rs ++ [q].
Proof.
  intros Hq H0. unfold merge_last. rewrite last_snoc.
  rewrite (u64_id (q.2 + 1)) by (unfold is_u64; lia).
  by rewrite insert_last, <-app_assoc.
Qed.

Lemma canon_from_snoc_inv lo rs q : canon_from lo (rs ++ [q]) -> lo <= q.1 <= q.2 /\ q.2 < 2 ^ 64 - 1.
Proof.
  revert lo. induction rs as [|r rs IH]; intros lo; simpl; [tauto|].
  intros (? & ? & H). apply IH in H. lia.
Qed.

Lemma canon_from_snoc_replace lo rs q e :
  canon_from lo (rs ++ [q]) -> q.1 <= e < 2 ^ 64 - 1 -> canon_from lo (rs ++ [(q.1, e)]).
Proof.
  revert lo. induction rs as [|r rs IH]; intros lo; simpl; [intuition lia|].
  intros (? & ? & H) He. split_and!; try lia. by apply IH.
Qed.

(** ** UUID text: round trip *)

Definition is_uuid (u : bytes) : Prop := zlen u = SERVER_UUID_LEN /\ Forall is_u8 u.
#[export] Instance is_uuid_dec u : Decision (is_uuid u).
Proof. unfold is_uuid. apply _. Defined.

Definition low_hex (b : bytes) : bytes := tolower <$> dumphex b.

Lemma dumphex_app a b : dumphex (a ++ b) = dumphex a ++ dumphex b.
Proof. unfold dumphex. by rewrite fmap_app, join_app. Qed.

Lemma low_hex_app a b : low_hex (a ++ b) = low_hex a ++ low_hex b.
Proof. unfold low_hex. by rewrite dumphex_app, fmap_app. Qed.

Lemma zlen_low_hex b : zlen (low_hex b) = 2 * zlen b.
Proof. unfold low_hex. by rewrite zlen_fmap, zlen_dumphex. Qed.

#[export] Hint Rewrite zlen_low_hex : len.

(** Lower-case hexadecimal digits only. *)
Lemma low_hex_chars b c :
  Forall is_u8 b -> c ∈ low_hex b -> 48 <= c <= 57 \/ 97 <= c <= 102.
Proof.
  unfold low_hex. induction 1 as [|x b Hx _ IH]; [by intros ?%elem_of_nil|].
  rewrite dumphex_cons. cbn [fmap list_fmap]. destruct (nibbles x Hx) as [-> ->].
  unfold is_u8 in Hx.
  assert (forall h, 0 <= h < 16 ->
    48 <= tolower (hex_digit h) <= 57 \/ 97 <= tolower (hex_digit h) <= 102) as Hh.
  { intros h Hh. unfold hex_digit. destruct (Z.leb_spec 10 h); unfold tolower, isupper; zif; simpl; lia. }
  intros [->|[->|Hc]%elem_of_cons]%elem_of_cons; [| |by apply IH]; apply Hh.
  - pose proof (Z.div_lt_upper_bound x 16 16). pose proof (Z.div_pos x 16). lia.
  - pose proof (Z.mod_pos_bound x 16). lia.
Qed.

Lemma low_hex_not_in b c :
  Forall is_u8 b -> ~ (48 <= c <= 57 \/ 97 <= c <= 102) -> c ∉ low_hex b.
Proof. intros Hb Hc Hin. by apply Hc, (low_hex_chars b). Qed.

Lemma item_segment (a b c : bytes) (pos len : Z) :
  pos = 2 * zlen a -> len = 2 * zlen b ->
  tolower <$> first len (skip pos (dumphex (a ++ b ++ c))) = low_hex b.
Proof.
  intros -> ->. rewrite !dumphex_app. rewrite skip_app by apply zlen_dumphex.
  by rewrite first_app by apply zlen_dumphex.
Qed.

(** A UUID cut at the dashes. *)
Lemma uuid_segments u : is_uuid u ->
  exists a b c d e, u = a ++ b ++ c ++ d ++ e /\
    zlen a = 4 /\ zlen b = 2 /\ zlen c = 2 /\ zlen d = 2 /\ zlen e = 6 /\
    Forall is_u8 a /\ Forall is_u8 b /\ Forall is_u8 c /\ Forall is_u8 d /\ Forall is_u8 e.
Proof.
  intros [Hl Hu]. unfold SERVER_UUID_LEN in Hl.
  exists (first 4 u), (first 2 (skip 4 u)), (first 2 (skip 6 u)), (first 2 (skip 8 u)), (skip 10 u).
  split.
  { rewrite <-(first_skip 4 u) at 1. f_equal.
    rewrite <-(first_skip 2 (skip 4 u)) at 1. f_equal. rewrite skip_skip by lia.
    rewrite <-(first_skip 2 (skip (4 + 2) u)) at 1. f_equal. rewrite skip_skip by lia.
    rewrite <-(first_skip 2 (skip (4 + 2 + 2) u)) at 1. f_equal. by rewrite skip_skip by lia. }
  rewrite !zlen_first, !zlen_skip by (rewrite ?zlen_skip by lia; lia).
  split_and!; try lia; unfold first, skip; repeat (apply Forall_take || apply Forall_drop); done.
Qed.

Lemma uuid_text_intercalate a b c d e :
  zlen a = 4 -> zlen b = 2 -> zlen c = 2 -> zlen d = 2 -> zlen e = 6 ->
  uuid_hex_bin_to_str_with_delim (a ++ b ++ c ++ d ++ e)
  = intercalate 45 [low_hex a; low_hex b; low_hex c; low_hex d; low_hex e].
Proof.
  intros. unfold uuid_hex_bin_to_str_with_delim. cbn zeta.
  pose proof (item_segment [] a (b ++ c ++ d ++ e) 0 8) as Hi. cbn [app] in Hi.
  rewrite Hi by len. clear Hi.
  rewrite (item_segment a b) by len.
  rewrite (app_assoc a b), (item_segment (a ++ b) c) by len.
  rewrite (app_assoc (a ++ b) c), (item_segment ((a ++ b) ++ c) d) by len.
  rewrite (app_assoc ((a ++ b) ++ c) d).
  rewrite <-(app_nil_r e) at 1. rewrite (item_segment (((a ++ b) ++ c) ++ d) e) by len.
  done.
Qed.

Lemma low_hex_bin a : Forall is_u8 a -> hex_to_bin (length (low_hex a)) (low_hex a) = a.
Proof.
  intros Ha. apply hex_to_bin_dumphex; [done|].
  pose proof (zlen_low_hex a) as Hl. unfold zlen in Hl. lia.
Qed.

Lemma heap_write_mid off (a m b new : bytes) :
  zlen a = off -> zlen new = zlen m -> heap_write off new (a ++ m ++ b) = Done (a ++ new ++ b).
Proof.
  intros Ha Hm. unfold heap_write. rewrite overwrite_app by done.
  pose proof (zlen_nonneg b). rewrite (proj2 (Z.leb_le _ _)) by (len; lia). done.
Qed.

Lemma uuid_str_to_hex_bin_text u :
  is_uuid u -> uuid_str_to_hex_bin (uuid_hex_bin_to_str_with_delim u) = Done (Some u).
Proof.
  intros Hu. destruct (uuid_segments u Hu) as (a & b & c & d & e & -> & La & Lb & Lc & Ld & Le & Ha & Hb & Hc & Hd & He).
  rewrite uuid_text_intercalate by done. unfold uuid_str_to_hex_bin.
  rewrite split_intercalate.
  2: { cbn [intercalate]. intros [? ?]%app_eq_nil. done. }
  2: { apply intercalate_not_in; [done|]. repeat constructor; apply low_hex_not_in; (done || lia). }
  2: { repeat constructor; apply low_hex_not_in; (done || lia). }
  cbn zeta. rewrite !low_hex_bin by done.
  change (replicate (Z.to_nat SERVER_UUID_LEN) 0)
    with ([] ++ [0; 0; 0; 0] ++ [0; 0] ++ [0; 0] ++ [0; 0] ++ [0; 0; 0; 0; 0; 0]).
  unfold mbind, outcome_bind.
  rewrite (heap_write_mid 0 []) by (done || len). cbv beta iota. rewrite app_nil_l.
  rewrite (heap_write_mid 4 a [0; 0]) by (done || len). cbv beta iota.
  rewrite (app_assoc a b), (heap_write_mid 6 (a ++ b) [0; 0]) by (done || len). cbv beta iota.
  rewrite (app_assoc (a ++ b) c), (heap_write_mid 8 ((a ++ b) ++ c) [0; 0]) by (done || len).
  cbv beta iota. rewrite (app_assoc ((a ++ b) ++ c) d), <-(app_nil_r [0; 0; 0; 0; 0; 0]).
  rewrite (heap_write_mid 10 (((a ++ b) ++ c) ++ d)) by (done || len).
  by rewrite app_nil_r, <-!app_assoc.
Qed.

Lemma uuid_text_inj u v :
  is_uuid u -> is_uuid v ->
  uuid_hex_bin_to_str_with_delim u = uuid_hex_bin_to_str_with_delim v -> u = v.
Proof.
  intros Hu Hv E. pose proof (uuid_str_to_hex_bin_text u Hu) as H.
  rewrite E, uuid_str_to_hex_bin_text in H by done. by injection H.
Qed.

Lemma strcasecmp_uuid u v :
  is_uuid u -> is_uuid v ->
  strcasecmp_eq (uuid_hex_bin_to_str_with_delim u) (uuid_hex_bin_to_str_with_delim v)
  = bool_decide (u = v).
Proof.
  assert (forall w, is_uuid w ->
    tolower <$> cstr (uuid_hex_bin_to_str_with_delim w) = uuid_hex_bin_to_str_with_delim w) as Hw.
  { intros w Hw. destruct (uuid_segments w Hw)
      as (a & b & c & d & e & -> & La & Lb & Lc & Ld & Le & Ha & Hb & Hc & Hd & He).
    rewrite uuid_text_intercalate by done. set (t := intercalate _ _).
    assert (forall x, x ∈ t -> x = 45 \/ 48 <= x <= 57 \/ 97 <= x <= 102) as Ht.
    { intros x Hx. destruct (decide (x = 45)); [tauto|].
      destruct (decide (48 <= x <= 57 \/ 97 <= x <= 102)); [tauto|]. exfalso. revert Hx.
      apply intercalate_not_in; [done|]. repeat constructor; by apply low_hex_not_in. }
    rewrite cstr_id by (intros H0; apply Ht in H0; lia).
    rewrite <-(list_fmap_id t) at 2. apply list_fmap_ext. intros i x Hx.
    apply list_elem_of_lookup_2, Ht in Hx. unfold tolower, isupper. zif; simpl; done || lia. }
  intros Hu Hv. unfold strcasecmp_eq, beq. rewrite !Hw by done. apply bool_decide_ext.
  split; [by apply uuid_text_inj|congruence].
Qed.

(** What [merge_gtid_before] makes of a message of the master's UUID. *)
Definition merged (r : txn_range) (m : GtidMessage) : GtidMessage :=
  let rs := merge_last (get_txn_range m) r in mkGtidMessage (gtid_uuid m) (zlen rs) rs.

Definition has_uuid (m : GtidMessage) : Prop :=
  match gtid_uuid m with Some u => is_uuid u | None => False end.
#[export] Instance has_uuid_dec m : Decision (has_uuid m).
Proof. unfold has_uuid. destruct (gtid_uuid m); apply _. Defined.

Lemma merge_messages_spec u r ms :
  is_uuid u -> Forall has_uuid ms ->
  merge_messages (uuid_hex_bin_to_str_with_delim u) r ms
  = Done (bool_decide (Exists (fun m => gtid_uuid m = Some u) ms),
          (fun m => if decide (gtid_uuid m = Some u) then merged r m else m) <$> ms).
Proof.
  intros Hu. induction 1 as [|m ms Hm _ IH]; [done|].
  cbn [merge_messages]. unfold same_uuid, mbind, outcome_bind in *. rewrite IH.
  unfold has_uuid in Hm. destruct (gtid_uuid m) as [v|] eqn:Ev; [|done].
  simpl. rewrite strcasecmp_uuid by done.
  destruct (decide (v = u)) as [->|Hne].
  - rewrite (bool_decide_true (u = u)) by done. rewrite (decide_True (P := gtid_uuid m = Some u)) by done.
    rewrite bool_decide_true by (left; congruence). unfold merged, set_gtid_txn_id_intervals, set_txn_range.
    simpl. by rewrite Ev.
  - rewrite (bool_decide_false (v = u)) by done.
    rewrite (decide_False (P := gtid_uuid m = Some u)) by congruence.
    do 2 f_equal. apply bool_decide_ext. rewrite Exists_cons. split; [by right|].
    intros [?|?]; [congruence|done].
Qed.

Lemma merge_gtid_before_total u r ms :
  is_uuid u -> Forall has_uuid ms ->
  exists ms', merge_gtid_before (uuid_hex_bin_to_str_with_delim u) ms r = Done ms' /\ Forall has_uuid ms'.
Proof.
  intros Hu Hms. unfold merge_gtid_before, mbind, outcome_bind.
  rewrite merge_messages_spec by done. cbv beta iota.
  set (ms1 := _ <$> ms). assert (Forall has_uuid ms1) as H1.
  { apply Forall_fmap. eapply Forall_impl; [exact Hms|]. intros m Hm. simpl. by case_decide. }
  destruct (bool_decide _); [by exists ms1|]. destruct (_ && _); [|by exists ms1].
  unfold set_gtid_uuid, mbind, outcome_bind. rewrite uuid_str_to_hex_bin_text by done.
  eexists. split; [done|]. apply Forall_app. split; [done|]. by constructor.
Qed.

(** ** Properties *)

(** [deserialize_gtid_set] normalises by merging a message with itself.
    On intervals given in increasing order the result is canonical (disjoint,
    increasing, not adjacent) and denotes exactly the same transactions; an already
    canonical list is unchanged. *)
Theorem merge_txn_range_self m :
  sorted_from 1 (get_txn_range m) ->
  canon_from 1 (get_txn_range (merge_txn_range m m)) /\
  (forall x, covered x (get_txn_range (merge_txn_range m m)) <-> covered x (get_txn_range m)) /\
  (canon_from 1 (get_txn_range m) -> merge_txn_range m m = m).
Proof.
  intros Hs. unfold merge_txn_range. simpl.
  destruct (merge_loop_self _ Hs) as [Hc Hcov]. split_and!; [done|done|].
  intros Hcanon. rewrite merge_loop_self_canonical by done. by destruct m.
Qed.

Lemma merge_txn_range_self_witness :
  sorted_from 1 [(1, 5); (4, 9); (20, 20)] /\
  covered 7 (get_txn_range (merge_txn_range (mkGtidMessage None 0 [(1, 5); (4, 9); (20, 20)])
                                            (mkGtidMessage None 0 [(1, 5); (4, 9); (20, 20)]))).
Proof.
  split; [by_compute|].
  apply (merge_txn_range_self (mkGtidMessage None 0 [(1, 5); (4, 9); (20, 20)])); [by_compute|].
  exists (4, 9). split; [|simpl; lia]. right. left.
Defined.

(** the same normalisation on intervals that are not in increasing order
    silently drops transactions: of [a-b:c-d] with [d < a] only [a-b] is kept. *)
Theorem merge_txn_range_unordered_drops u n a b c d :
  1 <= c <= d -> d < a -> a <= b < 2 ^ 64 - 1 ->
  let m := mkGtidMessage u n [(a, b); (c, d)] in
  get_txn_range (merge_txn_range m m) = [(a, b)] /\
  forall x, c <= x <= d -> ~ covered x (get_txn_range (merge_txn_range m m)).
Proof.
  intros Hc Hd Ha m.
  assert (get_txn_range (merge_txn_range m m) = [(a, b)]) as ->.
  { apply (merge_loop_absorb [(c, d); (a, b); (c, d)] a b []); [lia | lia |].
    intros r Hr. set_unfold in Hr. destruct_or!; subst; simpl; lia. }
  split; [done|]. intros x Hx. rewrite covered_singleton. simpl. lia.
Qed.

Lemma merge_txn_range_unordered_drops_witness :
  get_txn_range (merge_txn_range (mkGtidMessage None 0 [(20, 30); (1, 5)])
                                 (mkGtidMessage None 0 [(20, 30); (1, 5)])) = [(20, 30)].
Proof. apply (merge_txn_range_unordered_drops None 0 20 30 1 5); lia. Defined.

(** Adding a range to the canonical intervals of a server keeps them
    canonical and adds exactly the numbers from the later of the two starts; in
    particular [1-n] extended with [1-g] is [1-max(n,g)]. *)
Theorem merge_last_spec rs r :
  canon_from 1 rs -> 1 <= r.1 <= r.2 -> r.2 < 2 ^ 64 - 1 ->
  canon_from 1 (merge_last rs r) /\
  (forall x, covered x (merge_last rs r) <->
     covered x rs \/ Z.max r.1 (from_option fst r.1 (last rs)) <= x <= r.2) /\
  (forall n, rs = [(1, n)] -> r.1 = 1 -> merge_last rs r = [(1, Z.max n r.2)]).
Proof.
  intros Hc Hr Hr2. destruct rs as [|q rs _] using rev_ind.
  { change (merge_last [] r) with [r]. split_and!; [simpl; lia | | done]. intros x.
    rewrite covered_singleton. simpl. pose proof (covered_nil x). rewrite Z.max_id. tauto. }
  destruct (canon_from_snoc_inv _ _ _ Hc) as [Hq Hq2].
  rewrite merge_last_cases by lia. rewrite last_snoc. simpl. split_and!.
  - zif; [|by apply canon_from_snoc_replace; [|lia]|done].
    apply (canon_from_app _ rs q [r]); [done|]. simpl. lia.
  - intros x. zif; rewrite !covered_app, ?covered_cons; simpl; pose proof (covered_nil x);
      intuition lia.
  - intros n Hn H1. destruct rs as [|? [|? ?]]; simplify_list_eq. simpl. zif; do 2 f_equal; lia.
Qed.

Lemma merge_last_spec_witness :
  canon_from 1 [(1, 5); (10, 12)] /\ covered 14 (merge_last [(1, 5); (10, 12)] (1, 14)).
Proof.
  split; [by_compute|].
  apply (merge_last_spec [(1, 5); (10, 12)] (1, 14)); [by_compute | simpl; lia | simpl; lia |].
  right. simpl. lia.
Defined.

(** [merge_gtid_before] never crashes on messages that carry a UUID; it
    updates every message of the master's UUID, adds one for a positive range when
    there is none, and leaves the messages of other servers alone. *)
Theorem merge_gtid_before_spec u r ms :
  is_uuid u -> Forall has_uuid ms ->
  merge_gtid_before (uuid_hex_bin_to_str_with_delim u) ms r
  = Done (if decide (Exists (fun m => gtid_uuid m = Some u) ms) then
            (fun m => if decide (gtid_uuid m = Some u) then merged r m else m) <$> ms
          else if decide (r.1 > 0 /\ r.2 > 0) then ms ++ [mkGtidMessage (Some u) 1 [r]]
          else ms).
Proof.
  intros Hu Hms. unfold merge_gtid_before, mbind, outcome_bind.
  rewrite merge_messages_spec by done. cbv beta iota.
  case_bool_decide as Hex; [by rewrite decide_True|]. rewrite decide_False by done.
  replace ((fun m => if decide (gtid_uuid m = Some u) then merged r m else m) <$> ms) with ms.
  2: { rewrite <-(list_fmap_id ms) at 1. apply list_fmap_ext. intros i m Hm.
       rewrite decide_False; [done|]. intros E. apply Hex, Exists_exists.
       exists m. split; [by eapply list_elem_of_lookup_2|done]. }
  unfold set_gtid_uuid, mbind, outcome_bind. rewrite uuid_str_to_hex_bin_text by done.
  rewrite !Z.gtb_ltb. case_decide as Hr; [zif; done|].
  destruct (Z.ltb_spec 0 r.1), (Z.ltb_spec 0 r.2); simpl; done || lia.
Qed.

Definition sample_uuid : bytes := [137; 251; 206; 162; 219; 101; 17; 231; 168; 81; 250; 22; 62; 97; 139; 172].

Lemma merge_gtid_before_spec_witness :
  merge_gtid_before (str "89fbcea2-db65-11e7-a851-fa163e618bac")
    [mkGtidMessage (Some sample_uuid) 1 [(1, 5)]] (1, 9)
  = Done [mkGtidMessage (Some sample_uuid) 1 [(1, 9)]].
Proof.
  apply (merge_gtid_before_spec sample_uuid (1, 9) [mkGtidMessage (Some sample_uuid) 1 [(1, 5)]]);
    by_compute.
Defined.

(** ** GTID functions *)

(** An interval inside a canonical set lies inside one of its intervals. *)
Lemma canon_contains lo rs a b :
  canon_from lo rs -> a <= b -> (forall x, a <= x <= b -> covered x rs) ->
  exists r, r ∈ rs /\ r.1 <= a /\ b <= r.2.
Proof.
  intros Hc Hab Hin. destruct (Hin a) as (r & Hr & Ha); [lia|].
  exists r. split_and!; [done | lia |].
  destruct (Z.le_gt_cases b r.2); [done|]. exfalso.
  apply (canon_from_gap _ _ _ Hc Hr), Hin. lia.
Qed.

(** C37: [is_subset] decides inclusion of the sets of transactions, for a
    canonical target. *)
Theorem is_subset_spec subset target :
  Forall (fun r => r.1 <= r.2) subset -> canon_from 1 target ->
  is_subset subset target = true <-> (forall x, covered x subset -> covered x target).
Proof.
  intros Hsub Hc. unfold is_subset. rewrite forallb_forall. split.
  - intros H x (r & Hr & Hx). apply list_elem_of_In in Hr.
    apply H, existsb_exists in Hr as (t & Ht & [H1 H2]%andb_true_iff).
    apply Z.leb_le in H1, H2. exists t. split; [by apply list_elem_of_In|lia].
  - intros H r Hr. apply list_elem_of_In in Hr.
    pose proof (proj1 (Forall_forall _ _) Hsub r Hr) as Hle. simpl in Hle.
    destruct (canon_contains 1 target r.1 r.2) as (t & Ht & H1 & H2); [done | done | |].
    + intros x Hx. apply H. by exists r.
    + apply existsb_exists. exists t. split; [by apply list_elem_of_In|].
      rewrite andb_true_iff, !Z.leb_le. lia.
Qed.

Lemma is_subset_spec_witness :
  is_subset [(2, 3); (7, 7)] [(1, 5); (7, 9)] = true.
Proof.
  apply is_subset_spec; [by_compute | by_compute |].
  intros x. rewrite !covered_cons. simpl. intros [?|[?|?%covered_nil]]; [lia | lia | done].
Defined.

(** [difference] of one interval by another is the set difference if and
    only if the target does not cut off the end of the origin; in that case the result
    keeps up to [t.1 + 1] instead of [t.1 - 1]. *)
Theorem difference_single o t :
  1 <= o.1 <= o.2 -> 1 <= t.1 <= t.2 -> o.2 < 2 ^ 64 - 1 -> t.2 < 2 ^ 64 - 1 ->
  ((forall x, covered x (difference [o] [t]) <-> o.1 <= x <= o.2 /\ ~ (t.1 <= x <= t.2)) <->
   ~ (o.1 < t.1 /\ t.1 <= o.2 /\ o.2 <= t.2)) /\
  (o.1 < t.1 /\ t.1 <= o.2 /\ o.2 <= t.2 -> difference [o] [t] = [(o.1, t.1 + 1)]).
Proof.
  intros Ho Ht Ho2 Ht2.
  assert (difference [o] [t] = filter (fun r => r.1 <> 0 /\ r.2 <> 0) (dig_target t [o])) as ->
    by done.
  cbn [dig_target]. rewrite (u64_id (t.2 + 1)), (u64_id (t.1 - 1)), (u64_id (t.1 + 1))
    by (unfold is_u64; lia).
  destruct o as [o1 o2], t as [t1 t2]. simpl in *.
  destruct (decide (o1 < t1 /\ t1 <= o2 /\ o2 <= t2)) as [Hcut|Hcut].
  - zif. simpl. rewrite filter_cons_True by (simpl; lia).
    split; [|done]. split; [|tauto]. intros Hall. exfalso.
    destruct (proj1 (Hall t1)) as [_ []]; [|lia]. apply covered_singleton. simpl. lia.
  - split; [|tauto]. split; [done|]. intros _ x.
    zif; simpl; rewrite ?filter_cons, ?filter_nil; simpl;
      repeat (case_decide; simpl in *; try lia);
      rewrite ?covered_cons; simpl; pose proof (covered_nil x); intuition lia.
Qed.

Lemma difference_single_witness :
  difference [(1, 10)] [(5, 10)] = [(1, 6)] /\
  ~ (forall x, covered x (difference [(1, 10)] [(5, 10)]) <-> 1 <= x <= 10 /\ ~ (5 <= x <= 10)).
Proof.
  destruct (difference_single (1, 10) (5, 10)) as [H1 H2];
    [simpl; lia | simpl; lia | simpl; lia | simpl; lia |].
  split; [apply H2; simpl; lia|]. intros H. apply H1 in H. simpl in H. lia.
Defined.

(** ** Text round trip *)

Definition range_text (i : txn_range) : bytes :=
  if i.2 =? i.1 then to_dec i.1 else to_dec i.1 ++ 45 :: to_dec i.2.

Lemma format_range_text i : format_range i = 58 :: range_text i.
Proof. unfold format_range, range_text. by destruct (i.2 =? i.1). Qed.

Lemma format_ranges_intercalate p rs :
  p ++ mjoin (format_range <$> rs) = intercalate 58 (p :: (range_text <$> rs)).
Proof.
  revert p. induction rs as [|r rs IH]; intros p; [by rewrite app_nil_r|].
  cbn [fmap list_fmap mjoin list_join]. rewrite format_range_text.
  cbn [intercalate app]. f_equal. f_equal. apply IH.
Qed.

Lemma range_text_not_in c i :
  0 <= i.1 -> 0 <= i.2 -> ~ (48 <= c <= 57) -> c <> 45 -> c ∉ range_text i.
Proof.
  intros. unfold range_text. case_match; rewrite ?not_elem_of_app, ?not_elem_of_cons;
    split_and?; try done; by apply to_dec_not_in.
Qed.

Lemma atoll_dec n : 0 <= n <= LLONG_MAX -> u64 (atoll (to_dec n)) = n.
Proof.
  intros H. rewrite <-(app_nil_r (to_dec n)), atoll_to_dec by done.
  apply u64_id. unfold is_u64, LLONG_MAX in *. lia.
Qed.

Lemma parse_range_text i :
  0 <= i.1 <= LLONG_MAX -> 0 <= i.2 <= LLONG_MAX -> parse_range (range_text i) = Some i.
Proof.
  intros H1 H2. unfold parse_range, range_text. destruct i as [a b]. simpl in *.
  destruct (Z.eqb_spec b a) as [->|Hne].
  - assert (split (to_dec a) 45 false = [to_dec a]) as ->; [|by rewrite atoll_dec].
    apply (split_intercalate 45 [to_dec a] (to_dec_nonempty a));
      repeat constructor; apply to_dec_not_in; lia.
  - assert (split (to_dec a ++ 45 :: to_dec b) 45 false = [to_dec a; to_dec b]) as ->;
      [|by rewrite !atoll_dec].
    apply (split_intercalate 45 [to_dec a; to_dec b]).
    + simpl. intros [? ?]%app_eq_nil. done.
    + apply intercalate_not_in; [done|]. repeat constructor; apply to_dec_not_in; lia.
    + repeat constructor; apply to_dec_not_in; lia.
Qed.

Lemma parse_ranges_text rs m :
  Forall (fun i => 0 <= i.1 <= LLONG_MAX /\ 0 <= i.2 <= LLONG_MAX) rs ->
  parse_ranges (range_text <$> rs) m = (OMS_OK, set_txn_range (get_txn_range m ++ rs) m).
Proof.
  intros H. revert m. induction H as [|i rs [H1 H2] _ IH]; intros m; simpl.
  - rewrite app_nil_r. by destruct m.
  - rewrite parse_range_text by done. rewrite IH. unfold set_txn_range. simpl.
    by rewrite <-app_assoc.
Qed.

Lemma uuid_text_not_in c u :
  is_uuid u -> ~ (48 <= c <= 57 \/ 97 <= c <= 102) -> c <> 45 ->
  c ∉ uuid_hex_bin_to_str_with_delim u.
Proof.
  intros Hu Hc H45. destruct (uuid_segments u Hu)
    as (a & b & d & e & f & -> & La & Lb & Lc & Ld & Le & Ha & Hb & Hd & He & Hf).
  rewrite uuid_text_intercalate by done. apply intercalate_not_in; [done|].
  repeat constructor; by apply low_hex_not_in.
Qed.

(** C39: the text of a GTID set, parsed into a new message, gives the same UUID and the same
    intervals, for one interval or more, in order, apart and within the signed 64-bit range;
    the count of intervals, a member of its own, is left 0 by the parser. *)
Theorem gtid_set_text_roundtrip m u :
  gtid_uuid m = Some u -> is_uuid u -> get_txn_range m <> [] -> canon_from 1 (get_txn_range m) ->
  Forall (fun r => r.2 <= LLONG_MAX) (get_txn_range m) ->
  exists text, format_string m = Done text /\
    deserialize_gtid_set empty_message text
    = Done (OMS_OK, mkGtidMessage (Some u) 0 (get_txn_range m)).
Proof.
  intros Hu Huuid Hne Hcanon Hmax. destruct m as [mu n rs]. simpl in *. subst mu.
  assert (Forall (fun i : txn_range => 0 <= i.1 <= LLONG_MAX /\ 0 <= i.2 <= LLONG_MAX) rs) as Hb.
  { apply Forall_forall. intros r Hr. pose proof (proj1 (Forall_forall _ _) Hmax r Hr) as Hle.
    apply canon_from_sorted in Hcanon. revert Hcanon. clear -Hr Hle.
    assert (1 >= 0) as H1 by lia. revert H1. generalize 1.
    induction rs as [|q rs IH]; intros lo Hlo; [by apply elem_of_nil in Hr|].
    simpl. intros (? & ? & ?). apply elem_of_cons in Hr as [->|Hr]; [simpl in *; lia|].
    apply (IH Hr q.1); [lia|done]. }
  assert (forall c, ~ (48 <= c <= 57 \/ 97 <= c <= 102) -> c <> 45 ->
    Forall (fun p => c ∉ p) (uuid_hex_bin_to_str_with_delim u :: (range_text <$> rs))) as Hparts.
  { intros c Hc H45. constructor; [by apply uuid_text_not_in|]. apply Forall_fmap.
    eapply Forall_impl; [exact Hb|]. intros i [? ?]. apply range_text_not_in; lia. }
  eexists. split; [unfold format_string; simpl; reflexivity|].
  rewrite format_ranges_intercalate. unfold deserialize_gtid_set.
  rewrite split_intercalate.
  2: { destruct rs; [done|]. cbn [fmap list_fmap intercalate]. intros [? ?]%app_eq_nil. done. }
  2: { apply intercalate_not_in; [done|]. apply (Hparts 0); lia. }
  2: { apply (Hparts 58); lia. }
  destruct (range_text <$> rs) as [|p ps] eqn:Eps; [by destruct rs|]. rewrite <-Eps.
  unfold set_gtid_uuid, mbind, outcome_bind. rewrite uuid_str_to_hex_bin_text by done.
  cbv beta iota. rewrite parse_ranges_text by done. cbv beta iota.
  unfold merge_txn_range, set_txn_range. simpl. by rewrite merge_loop_self_canonical.
Qed.

Lemma gtid_set_text_roundtrip_witness :
  exists text, format_string (mkGtidMessage (Some sample_uuid) 2 [(1, 5); (999, 999)]) = Done text /\
    deserialize_gtid_set empty_message text
    = Done (OMS_OK, mkGtidMessage (Some sample_uuid) 0 [(1, 5); (999, 999)]).
Proof.
  apply (gtid_set_text_roundtrip (mkGtidMessage (Some sample_uuid) 2 [(1, 5); (999, 999)]) sample_uuid);
    [done | by_compute | done | by_compute | by_compute].
Defined.
