(* ===== verification/Events.v ===== *)
(** * Events: binlog events and their wire format

    [src/src/binlog/ob_log_event.{h,cpp}] and [src/src/binlog/oblogevent_type.h].
    An event is the fields of the base class [ObLogEvent] (header, transaction id,
    checkpoint, checksum flag, filter mark) and the payload of its subclass.
    [flush_to_buff] is the list of bytes it leaves in the buffer; [Crash] stands for
    a failed [assert], a null pointer or a copy past the end of its source.
    [deserialize] is a cursor reader over the buffer.

    [crc32] is zlib's checksum function, [binlog_checksum] and [server_id] are the
    configuration the constructors read. *)

From S2P Require Import Prelude Bytes Str Gtid.

#[local] Open Scope Z_scope.

(** ** Event types and layout constants *)

Definition UNKNOWN_EVENT : Z := 0.
Definition QUERY_EVENT : Z := 2.
Definition ROTATE_EVENT : Z := 4.
Definition FORMAT_DESCRIPTION_EVENT : Z := 15.
Definition XID_EVENT : Z := 16.
Definition TABLE_MAP_EVENT : Z := 19.
Definition HEARTBEAT_LOG_EVENT : Z := 27.
Definition WRITE_ROWS_EVENT : Z := 30.
Definition UPDATE_ROWS_EVENT : Z := 31.
Definition DELETE_ROWS_EVENT : Z := 32.
Definition GTID_LOG_EVENT : Z := 33.
Definition PREVIOUS_GTIDS_LOG_EVENT : Z := 35.
Definition PARTIAL_UPDATE_ROWS_EVENT : Z := 39.
Definition ENUM_END_EVENT : Z := 40.

Definition COMMON_HEADER_LENGTH : Z := 19.
Definition ST_SERVER_VER_LEN : Z := 50.
Definition COMMON_CHECKSUM_LENGTH : Z := 4.
Definition MAX_PACKET_INTEGER_LEN : Z := 9.
Definition FLAGS_OFFSET : Z := 17.
Definition BINLOG_MAGIC_SIZE : Z := 4.
Definition LOG_EVENT_TYPES : Z := ENUM_END_EVENT - 1.
Definition LOG_EVENT_BINLOG_IN_USE_F : Z := 1.
Definition BINLOG_START_FIXED_POS : Z := 151.
Definition BINLOG_VERSION : Z := 4.
Definition INT32_MAX : Z := 2 ^ 31 - 1.
Definition binlog_magic : bytes := [254; 98; 105; 110].
Definition SERVER_VERSION : bytes := str "5.7.38".
Definition BEGIN_VAR : bytes := str "BEGIN".

(** [enum_post_header_length], the members the code uses *)
Definition START_V3_HEADER_LEN : Z := 2 + ST_SERVER_VER_LEN + 4.
Definition QUERY_HEADER_LEN : Z := (4 + 4 + 1 + 2) + 2.
Definition LOAD_HEADER_LEN : Z := 4 + 4 + 4 + 1 + 1 + 4.
Definition ROTATE_HEADER_LEN : Z := 8.
Definition FORMAT_DESCRIPTION_HEADER_LEN : Z := START_V3_HEADER_LEN + 1 + LOG_EVENT_TYPES.
Definition EXECUTE_LOAD_QUERY_HEADER_LEN : Z := QUERY_HEADER_LEN + (4 + 4 + 4 + 1).
Definition TABLE_MAP_HEADER_LEN : Z := 8.
Definition ROWS_HEADER_LEN_V1 : Z := 8.
Definition ROWS_HEADER_LEN_V2 : Z := 10.
Definition HEARTBEAT_HEADER_LEN : Z := 0.
Definition GTID_HEADER_LEN : Z := 42.

(** [enum_checksum_flag] *)
Definition OFF : Z := 0.
Definition CRC32 : Z := 1.

(** ** Data *)

Record OblogEventHeader := mkHeader {
  h_timestamp : Z;
  h_type_code : Z;
  h_server_id : Z;
  h_event_length : Z;
  h_next_position : Z;
  h_flags : Z
}.

Record FormatDescription := mkFormatDescription {
  fd_version : Z;
  fd_server_version : bytes;
  fd_timestamp : Z;
  fd_header_len : Z;
  fd_event_type_header_len : list Z
}.

Record GtidLog := mkGtidLog {
  gl_commit_flag : Z;
  gl_gtid_uuid : bytes;
  gl_gtid_txn_id : Z;
  gl_ts_type : Z;
  gl_last_committed : Z;
  gl_sequence_number : Z
}.

Inductive rotate_op := INIT | ROTATE.

Record Rotate := mkRotate {
  ro_next_binlog_position : Z;
  ro_next_binlog_file_name : bytes;
  ro_index : Z;
  ro_next_previous_gtids : list GtidMessage;
  ro_op : rotate_op;
  ro_existed : bool
}.

Record Query := mkQuery {
  q_thread_id : Z;
  q_query_exec_time : Z;
  q_db_len : Z;
  q_sql_statment_len : Z;
  q_error_code : Z;
  q_status_var_len : Z;
  q_status_vars : bytes;
  q_dbname : bytes;
  q_sql_statment : bytes;
  q_is_ddl : bool
}.

(** Pointer fields are [option]s; a pointer to memory nobody filled is [None] too. *)
Record TableMap := mkTableMap {
  tm_table_id : Z;
  tm_flags : Z;
  tm_db_name : bytes;
  tm_db_len : Z;
  tm_tb_name : bytes;
  tm_tb_len : Z;
  tm_column_count : Z;
  tm_column_type : option bytes;
  tm_metadata_len : Z;
  tm_metadata : option bytes;
  tm_null_bits : option bytes
}.

Inductive RowsEventType := INSERT | DELETE | UPDATE.
#[export] Instance RowsEventType_eq_dec : EqDecision RowsEventType.
Proof. solve_decision. Defined.

(** Rows are [MsgBuf]s: lists of chunks. *)
Record Rows := mkRows {
  r_table_id : Z;
  r_flags : Z;
  r_var_header_len : Z;
  r_width : Z;
  r_before_image_cols : Z;
  r_after_image_cols : Z;
  r_columns_before_bitmaps : option bytes;
  r_columns_after_bitmaps : option bytes;
  r_partial_columns_bitmaps : option bytes;
  r_partial_cols_bytes : Z;
  r_before_row : list bytes;
  r_after_row : list bytes;
  r_before_pos : Z;
  r_after_pos : Z;
  r_rows_event_type : RowsEventType
}.

Inductive EventBody :=
| FormatDescriptionEvent (e : FormatDescription)
| PreviousGtidsLogEvent (gtid_uuid_num : Z) (gtid_messages : gtid_map)
| GtidLogEvent (e : GtidLog)
| RotateEvent (e : Rotate)
| QueryEvent (e : Query)
| XidEvent (xid : Z)
| TableMapEvent (e : TableMap)
| RowsEvent (e : Rows)
| HeartbeatEvent (binlog_file_name : bytes).

Record ObLogEvent := mkEvent {
  get_header : OblogEventHeader;
  get_ob_txn : bytes;
  get_checkpoint : Z;
  get_checksum_flag : Z;
  is_filter : bool;
  get_body : EventBody
}.

(** ** Setters used on live events *)

Definition set_next_position (p : Z) (h : OblogEventHeader) : OblogEventHeader :=
  mkHeader (h_timestamp h) (h_type_code h) (h_server_id h) (h_event_length h) (u32 p) (h_flags h).
Definition set_event_length (n : Z) (h : OblogEventHeader) : OblogEventHeader :=
  mkHeader (h_timestamp h) (h_type_code h) (h_server_id h) (u32 n) (h_next_position h) (h_flags h).
Definition set_header_timestamp (t : Z) (h : OblogEventHeader) : OblogEventHeader :=
  mkHeader (u64 t) (h_type_code h) (h_server_id h) (h_event_length h) (h_next_position h) (h_flags h).
Definition set_header (h : OblogEventHeader) (e : ObLogEvent) : ObLogEvent :=
  mkEvent h (get_ob_txn e) (get_checkpoint e) (get_checksum_flag e) (is_filter e) (get_body e).
Definition set_filter (f : bool) (e : ObLogEvent) : ObLogEvent :=
  mkEvent (get_header e) (get_ob_txn e) (get_checkpoint e) (get_checksum_flag e) f (get_body e).
Definition set_body (b : EventBody) (e : ObLogEvent) : ObLogEvent :=
  mkEvent (get_header e) (get_ob_txn e) (get_checkpoint e) (get_checksum_flag e) (is_filter e) b.

(** [get_checksum_len] *)
Definition checksum_len_of (flag : Z) : Z := if flag =? OFF then 0 else COMMON_CHECKSUM_LENGTH.
Definition get_checksum_len (e : ObLogEvent) : Z := checksum_len_of (get_checksum_flag e).

(** ** Header *)

(** [OblogEventHeader::flush_to_buff]: the fields at offsets 0, 4, 5, 9, 13, 17. *)
Definition header_flush (h : OblogEventHeader) : bytes :=
  int4store (h_timestamp h) ++ int1store (h_type_code h) ++ int4store (h_server_id h) ++
  int4store (h_event_length h) ++ int4store (h_next_position h) ++ int2store (h_flags h).

(** [OblogEventHeader::deserialize] *)
Definition header_deserialize : reader OblogEventHeader :=
  timestamp ← rd4; type_code ← rd1; server_id ← rd4; event_length ← rd4;
  next_position ← rd4; flags ← rd2;
  mret (mkHeader timestamp type_code server_id event_length next_position flags).

(** [memcpy(dst, src, n)]: copying more than the source holds crashes. *)
Definition copy (n : Z) (src : bytes) : outcome bytes :=
  if (0 <=? n) && (n <=? zlen src) then Done (first n src) else Crash.
Definition copy_ptr (n : Z) (src : option bytes) : outcome bytes :=
  s ← of_option src; copy n s.

(** [write_null_terminate_string(buff + pos, len + 1, s)] followed by [pos += len + 1]:
    when [len] is not the size of [s] bytes nobody wrote are left in the event. *)
Definition nts_field (len : Z) (s : bytes) : outcome bytes :=
  if zlen s =? len then of_option (write_null_terminate_string (len + 1) s) else Crash.

(** [(n + 7) / 8] *)
Definition bitmap_bytes (n : Z) : Z := (n + 7) `div` 8.

Section Wire.
Context (crc32 : bytes -> Z).

(** [ObLogEvent::write_checksum] *)
Definition write_checksum (flag : Z) (buff : bytes) : bytes :=
  if flag =? CRC32 then buff ++ int4store (crc32 buff) else buff.

(** [strncpy(buff + pos, server_version, ST_SERVER_VER_LEN - 1)] over zeroed memory *)
Definition server_version_field (v : bytes) : bytes :=
  let s := first (ST_SERVER_VER_LEN - 1) (cstr v) in
  s ++ replicate (Z.to_nat (ST_SERVER_VER_LEN - zlen s)) 0.

(** [FormatDescriptionEvent::flush_to_buff]: the in-use flag is cleared while the
    checksum is computed and restored afterwards. *)
Definition format_description_flush (h : OblogEventHeader) (flag : Z) (e : FormatDescription) : bytes :=
  let buff := header_flush h ++ int2store (fd_version e) ++
    server_version_field (fd_server_version e) ++ int4store (fd_timestamp e) ++
    int1store (fd_header_len e) ++ mjoin (int1store <$> fd_event_type_header_len e) ++
    int1store flag in
  let in_use := negb (Z.land (h_flags h) LOG_EVENT_BINLOG_IN_USE_F =? 0) in
  let buff := if in_use then overwrite FLAGS_OFFSET (int2store 0) buff else buff in
  let buff := write_checksum flag buff in
  if in_use then overwrite FLAGS_OFFSET (int2store (h_flags h)) buff else buff.

(** One message of [PreviousGtidsLogEvent::flush_to_buff]: intervals are stored
    left-closed, right-open. *)
Definition gtid_message_flush (m : GtidMessage) : outcome bytes :=
  uuid ← copy_ptr SERVER_UUID_LEN (gtid_uuid m);
  Done (uuid ++ int8store (gtid_txn_id_intervals m) ++
        mjoin ((fun r => int8store r.1 ++ int8store (r.2 + 1)) <$> get_txn_range m)).

Fixpoint gtid_messages_flush (ms : gtid_map) : outcome bytes :=
  match ms with
  | [] => Done []
  | (_, m) :: ms => b ← gtid_message_flush m; bs ← gtid_messages_flush ms; Done (b ++ bs)
  end.

Definition previous_gtids_flush (gtid_uuid_num : Z) (ms : gtid_map) : outcome bytes :=
  if gtid_uuid_num =? zlen ms then
    bs ← gtid_messages_flush ms; Done (int8store gtid_uuid_num ++ bs)
  else Crash.

(** [GtidLogEvent::flush_to_buff] *)
Definition gtid_log_flush (e : GtidLog) : outcome bytes :=
  uuid ← copy SERVER_UUID_LEN (gl_gtid_uuid e);
  Done (int1store (gl_commit_flag e) ++ uuid ++ int8store (gl_gtid_txn_id e) ++
        int1store (gl_ts_type e) ++ int8store (gl_last_committed e) ++
        int8store (gl_sequence_number e)).

(** [RotateEvent::flush_to_buff] *)
Definition rotate_flush (e : Rotate) : bytes :=
  int8store (ro_next_binlog_position e) ++ ro_next_binlog_file_name e.

(** [QueryEvent::flush_to_buff]; [c_str()] has one more byte, the terminator. *)
Definition query_flush (e : Query) : outcome bytes :=
  status_vars ← copy (q_status_var_len e) (q_status_vars e ++ [0]);
  dbname ← nts_field (q_db_len e) (q_dbname e);
  sql ← copy (q_sql_statment_len e) (q_sql_statment e ++ [0]);
  Done (int4store (q_thread_id e) ++ int4store (q_query_exec_time e) ++ int1store (q_db_len e) ++
        int2store (q_error_code e) ++ int2store (q_status_var_len e) ++ status_vars ++ dbname ++ sql).

(** [XidEvent::flush_to_buff] *)
Definition xid_flush (xid : Z) : bytes := int8store xid.

(** [TableMapEvent::flush_to_buff] *)
Definition table_map_flush (e : TableMap) : outcome bytes :=
  db ← nts_field (tm_db_len e) (tm_db_name e);
  tb ← nts_field (tm_tb_len e) (tm_tb_name e);
  count ← of_option (write_lenenc_uint INT32_MAX (tm_column_count e));
  types ← copy_ptr (tm_column_count e) (tm_column_type e);
  meta_len ← of_option (write_lenenc_uint INT32_MAX (tm_metadata_len e));
  metadata ← copy_ptr (tm_metadata_len e) (tm_metadata e);
  null_bits ← copy_ptr (bitmap_bytes (tm_column_count e)) (tm_null_bits e);
  Done (int6store (tm_table_id e) ++ int2store (tm_flags e) ++ int1store (tm_db_len e) ++ db ++
        int1store (tm_tb_len e) ++ tb ++ count ++ types ++ meta_len ++ metadata ++ null_bits).

(** [write_rows]: the first [len] bytes of the row's chunks. *)
Definition write_rows (rows : list bytes) (len : Z) : outcome bytes := copy len (mjoin rows).

(** One image of a rows event, absent for one of the three kinds: the columns bitmap
    and the row. *)
Definition rows_image (absent : bool) (width : Z) (bitmaps : option bytes) (row : list bytes) (pos : Z)
    : outcome bytes :=
  if absent then Done [] else
  bitmap ← copy_ptr (bitmap_bytes width) bitmaps;
  r ← write_rows row pos;
  Done (bitmap ++ r).

(** The shared image, only in [PARTIAL_UPDATE_ROWS_EVENT]. *)
Definition rows_partial (type_code : Z) (e : Rows) : outcome bytes :=
  if type_code =? PARTIAL_UPDATE_ROWS_EVENT then
    cols ← copy_ptr (r_partial_cols_bytes e) (r_partial_columns_bitmaps e);
    Done (int1store 1 ++ cols)
  else Done [].

Definition no_before (e : Rows) : bool := bool_decide (r_rows_event_type e = INSERT).
Definition no_after (e : Rows) : bool := bool_decide (r_rows_event_type e = DELETE).

(** [RowsEvent::flush_to_buff] *)
Definition rows_flush (type_code : Z) (e : Rows) : outcome bytes :=
  width ← of_option (write_lenenc_uint MAX_PACKET_INTEGER_LEN (r_width e));
  let before_cols := if no_before e then [] else fill_bit_map (r_before_image_cols e) in
  let after_cols := if no_after e then [] else fill_bit_map (r_after_image_cols e) in
  before ← rows_image (no_before e) (r_width e) (r_columns_before_bitmaps e) (r_before_row e) (r_before_pos e);
  partial ← rows_partial type_code e;
  after ← rows_image (no_after e) (r_width e) (r_columns_after_bitmaps e) (r_after_row e) (r_after_pos e);
  Done (int6store (r_table_id e) ++ int2store (r_flags e) ++ int2store (r_var_header_len e) ++
        width ++ before_cols ++ after_cols ++ before ++ partial ++ after).

(** The payload of every event but the format description. *)
Definition body_flush (h : OblogEventHeader) (b : EventBody) : outcome bytes :=
  match b with
  | FormatDescriptionEvent _ => Crash
  | PreviousGtidsLogEvent n ms => previous_gtids_flush n ms
  | GtidLogEvent e => gtid_log_flush e
  | RotateEvent e => Done (rotate_flush e)
  | QueryEvent e => query_flush e
  | XidEvent xid => Done (xid_flush xid)
  | TableMapEvent e => table_map_flush e
  | RowsEvent e => rows_flush (h_type_code h) e
  | HeartbeatEvent name => Done name
  end.

(** [flush_to_buff], the virtual method *)
Definition flush_to_buff (ev : ObLogEvent) : outcome bytes :=
  match get_body ev with
  | FormatDescriptionEvent e =>
      Done (format_description_flush (get_header ev) (get_checksum_flag ev) e)
  | b =>
      payload ← body_flush (get_header ev) b;
      Done (write_checksum (get_checksum_flag ev) (header_flush (get_header ev) ++ payload))
  end.

End Wire.

(** ** Constructors *)

Section Constructors.
Context (binlog_checksum : bool) (server_id : Z).

(** [ObLogEvent::ObLogEvent]: the checksum flag follows the configuration. *)
Definition config_checksum_flag : Z := if binlog_checksum then CRC32 else OFF.
Definition config_checksum_len : Z := checksum_len_of config_checksum_flag.

Definition new_event (h : OblogEventHeader) (b : EventBody) : ObLogEvent :=
  mkEvent h [] 0 config_checksum_flag true b.

(** [OblogEventHeader(type_code, timestamp, event_length, next_position)] *)
Definition new_header (type_code timestamp event_length next_position : Z) : OblogEventHeader :=
  mkHeader (u64 timestamp) type_code server_id (u32 event_length) (u32 next_position) 1.

(** [server_event_header_length] *)
Definition server_event_header_length : list Z :=
  [START_V3_HEADER_LEN; QUERY_HEADER_LEN; 0; ROTATE_HEADER_LEN; 0; LOAD_HEADER_LEN; 0; 4; 4; 4; 4;
   LOAD_HEADER_LEN; 0; 0; FORMAT_DESCRIPTION_HEADER_LEN; 0; 4; EXECUTE_LOAD_QUERY_HEADER_LEN;
   TABLE_MAP_HEADER_LEN; 0; 0; 0; ROWS_HEADER_LEN_V1; ROWS_HEADER_LEN_V1; ROWS_HEADER_LEN_V1; 2; 0;
   0; 0; ROWS_HEADER_LEN_V2; ROWS_HEADER_LEN_V2; ROWS_HEADER_LEN_V2; GTID_HEADER_LEN;
   GTID_HEADER_LEN; 0; 18; 52; 0; ROWS_HEADER_LEN_V2].

(** [FormatDescriptionEvent(timestamp)] *)
Definition new_format_description (timestamp : Z) : ObLogEvent :=
  let lens := u8 <$> server_event_header_length in
  let event_len := config_checksum_len + 1 + COMMON_HEADER_LENGTH +
    nth (Z.to_nat (FORMAT_DESCRIPTION_EVENT - 1)) lens 0 in
  new_event
    (mkHeader (u64 timestamp) FORMAT_DESCRIPTION_EVENT server_id (u32 event_len)
       (u32 (BINLOG_MAGIC_SIZE + event_len)) LOG_EVENT_BINLOG_IN_USE_F)
    (FormatDescriptionEvent
       (mkFormatDescription BINLOG_VERSION SERVER_VERSION timestamp COMMON_HEADER_LENGTH lens)).

(** [PreviousGtidsLogEvent::set_gtid_messages] *)
Fixpoint set_gtid_messages (messages : list GtidMessage) (m : gtid_map) : outcome gtid_map :=
  match messages with
  | [] => Done m
  | g :: messages => k ← get_gtid_uuid_str g; set_gtid_messages messages (omap_emplace k g m)
  end.

(** [PreviousGtidsLogEvent(gtid_uuid_num, gtid_messages, timestamp)] *)
Definition previous_gtids_len (m : gtid_map) : Z :=
  COMMON_HEADER_LENGTH + 8 +
  foldr (fun '(_, msg) n => SERVER_UUID_LEN + 8 + 16 * zlen (get_txn_range msg) + n) 0 m +
  config_checksum_len.

Definition new_previous_gtids (gtid_uuid_num : Z) (messages : list GtidMessage) (timestamp : Z)
    : outcome ObLogEvent :=
  m ← set_gtid_messages messages [];
  if u32 gtid_uuid_num =? zlen m then
    Done (new_event (new_header PREVIOUS_GTIDS_LOG_EVENT timestamp (previous_gtids_len m) 0)
            (PreviousGtidsLogEvent (u32 gtid_uuid_num) m))
  else Crash.

(** [RotateEvent(next_binlog_position, next_binlog_file_name, timestamp, begin_position)];
    [_index] and [_op] are left unset by the source and are set by its callers. *)
Definition new_rotate (next_binlog_position : Z) (name : bytes) (timestamp begin_position : Z)
    (index : Z) (op : rotate_op) : ObLogEvent :=
  let event_len := u32 (COMMON_HEADER_LENGTH + ROTATE_HEADER_LEN + zlen name + config_checksum_len) in
  let end_position := u32 (begin_position + event_len) in
  new_event (new_header ROTATE_EVENT timestamp event_len end_position)
    (RotateEvent (mkRotate next_binlog_position name index [] op false)).

(** [HeartbeatEvent()] and [HeartbeatEvent(binlog_file_name, pos)] *)
Definition new_heartbeat : ObLogEvent :=
  new_event (new_header HEARTBEAT_LOG_EVENT 0 0 0) (HeartbeatEvent []).
Definition new_heartbeat_at (name : bytes) (pos : Z) : ObLogEvent :=
  let event_len := COMMON_HEADER_LENGTH + HEARTBEAT_HEADER_LEN + zlen name + config_checksum_len in
  new_event (new_header HEARTBEAT_LOG_EVENT 0 event_len pos) (HeartbeatEvent name).

(** ** Deserialization: the object is created with the configured checksum flag *)

(** [std::string(const char* )] over a block that need not hold a NUL. *)
Definition c_string (b : bytes) : reader bytes := fun c =>
  if bool_decide (0 ∈ b) then Some (cstr b, c) else None.

Definition format_description_deserialize : reader ObLogEvent :=
  header ← header_deserialize;
  version ← rd2;
  raw ← rd_take ST_SERVER_VER_LEN;
  server_version ← c_string raw;
  timestamp ← rd4;
  header_len ← rd1;
  pos ← rd_pos;
  _ ← rd_assert (pos + LOG_EVENT_TYPES <= h_event_length header);
  lens ← rd_times (Z.to_nat LOG_EVENT_TYPES) rd1;
  flag ← rd1;
  mret (mkEvent header [] 0 flag true
    (FormatDescriptionEvent (mkFormatDescription version server_version timestamp header_len lens))).

Definition gtid_interval_deserialize : reader txn_range :=
  txn_start ← rd8; txn_end ← rd8;
  mret (txn_start, if txn_start =? txn_end then txn_end else u64 (txn_end - 1)).

Definition gtid_message_deserialize : reader GtidMessage :=
  uuid ← rd_take SERVER_UUID_LEN;
  intervals ← rd8;
  ranges ← rd_times (Z.to_nat intervals) gtid_interval_deserialize;
  mret (mkGtidMessage (Some uuid) intervals ranges).

Definition previous_gtids_deserialize : reader ObLogEvent :=
  header ← header_deserialize;
  num ← rd8;
  messages ← rd_times (Z.to_nat num) gtid_message_deserialize;
  m ← rd_outcome (set_gtid_messages messages []);
  mret (new_event header (PreviousGtidsLogEvent num m)).

Definition gtid_log_deserialize : reader ObLogEvent :=
  header ← header_deserialize;
  commit_flag ← rd1;
  gtid_uuid ← rd_take SERVER_UUID_LEN;
  gtid_txn_id ← rd8;
  ts_type ← rd1;
  last_committed ← rd8;
  sequence_number ← rd8;
  mret (new_event header
    (GtidLogEvent (mkGtidLog commit_flag gtid_uuid gtid_txn_id ts_type last_committed sequence_number))).

Definition rotate_deserialize : reader ObLogEvent :=
  header ← header_deserialize;
  position ← rd8;
  pos ← rd_pos;
  name ← rd_take (h_event_length header - config_checksum_len - pos);
  _ ← rd_take config_checksum_len;
  pos ← rd_pos;
  _ ← rd_assert (pos = h_event_length header);
  mret (new_event header (RotateEvent (mkRotate position name 0 [] ROTATE false))).

Definition query_deserialize : reader ObLogEvent :=
  header ← header_deserialize;
  thread_id ← rd4;
  exec_time ← rd4;
  db_len ← rd1;
  error_code ← rd2;
  status_var_len ← rd2;
  raw_vars ← rd_take status_var_len;
  status_vars ← c_string raw_vars;
  raw_db ← rd_take (db_len + 1);
  dbname ← c_string raw_db;
  pos ← rd_pos;
  let sql_len := h_event_length header - config_checksum_len - pos in
  sql ← rd_take sql_len;
  _ ← rd_take config_checksum_len;
  pos ← rd_pos;
  _ ← rd_assert (pos = h_event_length header);
  mret (new_event header
    (QueryEvent (mkQuery thread_id exec_time db_len sql_len error_code status_var_len status_vars
       dbname sql false))).

Definition xid_deserialize : reader ObLogEvent :=
  header ← header_deserialize;
  xid ← rd8;
  _ ← rd_take config_checksum_len;
  pos ← rd_pos;
  _ ← rd_assert (pos = h_event_length header);
  mret (new_event header (XidEvent xid)).

(** [TableMapEvent::deserialize]: the column types, metadata and null bits are skipped
    over; the object is left pointing to memory nobody filled. *)
Definition table_map_deserialize : reader ObLogEvent :=
  header ← header_deserialize;
  table_id ← rd6;
  flags ← rd2;
  db_len ← rd1;
  db_name ← rd_take db_len;
  _ ← rd_take 1;
  tb_len ← rd1;
  tb_name ← rd_take tb_len;
  _ ← rd_take 1;
  column_count ← rd_lenenc;
  _ ← rd_take column_count;
  metadata_len ← rd_lenenc;
  _ ← rd_take metadata_len;
  _ ← rd_take (bitmap_bytes column_count);
  mret (new_event header
    (TableMapEvent (mkTableMap table_id flags db_name db_len tb_name tb_len column_count None
       metadata_len None None))).

(** [WriteRowsEvent::deserialize] and [DeleteRowsEvent::deserialize] *)
Definition rows_deserialize (ty : RowsEventType) : reader ObLogEvent :=
  header ← header_deserialize;
  table_id ← rd6;
  flags ← rd2;
  var_header_len ← rd2;
  width ← rd_lenenc;
  _ ← rd_take (bitmap_bytes width);
  bitmaps ← rd_take (bitmap_bytes width);
  pos ← rd_pos;
  row ← rd_take (h_event_length header - pos - config_checksum_len);
  _ ← rd_take config_checksum_len;
  pos ← rd_pos;
  _ ← rd_assert (pos = h_event_length header);
  mret (new_event header (RowsEvent (
    match ty with
    | DELETE => mkRows table_id flags var_header_len width width 0 (Some bitmaps) None None 0 [row] [] 0 0 ty
    | _ => mkRows table_id flags var_header_len width 0 width None (Some bitmaps) None 0 [] [row] 0 0 ty
    end))).

(** [UpdateRowsEvent::deserialize]: the layout of the rows is not decoded (the source
    marks it as to be done); what follows the first two bitmaps becomes the before row. *)
Definition update_rows_deserialize : reader ObLogEvent :=
  header ← header_deserialize;
  table_id ← rd6;
  flags ← rd2;
  var_header_len ← rd2;
  width ← rd_lenenc;
  _ ← rd_take (bitmap_bytes width);
  bitmaps ← rd_take (bitmap_bytes width);
  pos ← rd_pos;
  row ← rd_take (h_event_length header - pos - config_checksum_len);
  mret (new_event header (RowsEvent
    (mkRows table_id flags var_header_len width 0 width None (Some bitmaps) None 0 [row] [] 0 0 UPDATE))).

(** The [switch] of [seek_events]: which class reads an event of a given type. *)
Definition deserialize_event (type_code : Z) : option (reader ObLogEvent) :=
  if type_code =? QUERY_EVENT then Some query_deserialize
  else if type_code =? ROTATE_EVENT then Some rotate_deserialize
  else if type_code =? FORMAT_DESCRIPTION_EVENT then Some format_description_deserialize
  else if type_code =? XID_EVENT then Some xid_deserialize
  else if type_code =? TABLE_MAP_EVENT then Some table_map_deserialize
  else if type_code =? WRITE_ROWS_EVENT then Some (rows_deserialize INSERT)
  else if (type_code =? UPDATE_ROWS_EVENT) || (type_code =? PARTIAL_UPDATE_ROWS_EVENT)
    then Some update_rows_deserialize
  else if type_code =? DELETE_ROWS_EVENT then Some (rows_deserialize DELETE)
  else if type_code =? GTID_LOG_EVENT then Some gtid_log_deserialize
  else if type_code =? PREVIOUS_GTIDS_LOG_EVENT then Some previous_gtids_deserialize
  else None.

End Constructors.
