(* ===== verification/EventWire.v ===== *)
(** * EventWire: what the wire format of the events guarantees

    [event_ok] says when the fields of an event fit its layout; for such an event
    [flush_to_buff] writes exactly [event_length] bytes and [deserialize] reads the
    event back ([reread] is what survives: the readers of the code drop some fields).  The event classes are those of
    [Events]. *)

From S2P Require Import Prelude Bytes Str Gtid Events.

#[local] Open Scope Z_scope.

(** ** Well-formed fields *)

Definition header_ok (h : OblogEventHeader) : Prop :=
  is_u32 (h_timestamp h) /\ is_u8 (h_type_code h) /\ is_u32 (h_server_id h) /\
  is_u32 (h_event_length h) /\ is_u32 (h_next_position h) /\ is_u16 (h_flags h).
#[export] Instance header_ok_dec h : Decision (header_ok h).
Proof. unfold header_ok. apply _. Defined.

(** Each class answers to one type code, rows to the codes of their kind. *)
Definition body_type_ok (type_code : Z) (b : EventBody) : bool :=
  match b with
  | FormatDescriptionEvent _ => type_code =? FORMAT_DESCRIPTION_EVENT
  | PreviousGtidsLogEvent _ _ => type_code =? PREVIOUS_GTIDS_LOG_EVENT
  | GtidLogEvent _ => type_code =? GTID_LOG_EVENT
  | RotateEvent _ => type_code =? ROTATE_EVENT
  | QueryEvent _ => type_code =? QUERY_EVENT
  | XidEvent _ => type_code =? XID_EVENT
  | TableMapEvent _ => type_code =? TABLE_MAP_EVENT
  | RowsEvent e =>
      match r_rows_event_type e with
      | INSERT => type_code =? WRITE_ROWS_EVENT
      | DELETE => type_code =? DELETE_ROWS_EVENT
      | UPDATE => (type_code =? UPDATE_ROWS_EVENT) || (type_code =? PARTIAL_UPDATE_ROWS_EVENT)
      end
  | HeartbeatEvent _ => type_code =? HEARTBEAT_LOG_EVENT
  end.

Definition range_ok (r : txn_range) : Prop :=
  is_u64 r.1 /\ 0 <= r.2 < 2 ^ 64 - 1 /\ r.1 <> r.2 + 1.
Definition message_ok (e : bytes * GtidMessage) : Prop :=
  match gtid_uuid e.2 with
  | Some u => zlen u = SERVER_UUID_LEN /\ e.1 = dumphex u
  | None => False
  end /\
  gtid_txn_id_intervals e.2 = zlen (get_txn_range e.2) /\ is_u64 (zlen (get_txn_range e.2)) /\
  Forall range_ok (get_txn_range e.2).
#[export] Instance range_ok_dec r : Decision (range_ok r).
Proof. unfold range_ok. apply _. Defined.
#[export] Instance message_ok_dec e : Decision (message_ok e).
Proof. unfold message_ok. destruct (gtid_uuid e.2); apply _. Defined.

Definition has_len (n : Z) (o : option bytes) : Prop :=
  match o with Some b => zlen b = n | None => False end.
#[export] Instance has_len_dec n o : Decision (has_len n o).
Proof. unfold has_len. destruct o; apply _. Defined.

(** The encoded size of a length-encoded integer. *)
Definition lenenc_size (v : Z) : Z :=
  if v <? 251 then 1 else if v <? 2 ^ 16 then 3 else if v <? 2 ^ 24 then 4 else 9.

Definition body_ok (type_code : Z) (b : EventBody) : Prop :=
  match b with
  | FormatDescriptionEvent e =>
      is_u16 (fd_version e) /\ (0 ∉ fd_server_version e) /\
      zlen (fd_server_version e) < ST_SERVER_VER_LEN /\ is_u32 (fd_timestamp e) /\
      is_u8 (fd_header_len e) /\ zlen (fd_event_type_header_len e) = LOG_EVENT_TYPES /\
      Forall is_u8 (fd_event_type_header_len e)
  | PreviousGtidsLogEvent n ms =>
      n = zlen ms /\ is_u64 n /\ keys_sorted ms /\ Forall message_ok ms
  | GtidLogEvent e =>
      is_u8 (gl_commit_flag e) /\ zlen (gl_gtid_uuid e) = SERVER_UUID_LEN /\
      is_u64 (gl_gtid_txn_id e) /\ is_u8 (gl_ts_type e) /\ is_u64 (gl_last_committed e) /\
      is_u64 (gl_sequence_number e)
  | RotateEvent e => is_u64 (ro_next_binlog_position e)
  | QueryEvent e =>
      is_u32 (q_thread_id e) /\ is_u32 (q_query_exec_time e) /\
      q_db_len e = zlen (q_dbname e) /\ is_u8 (q_db_len e) /\ (0 ∉ q_dbname e) /\
      is_u16 (q_error_code e) /\
      q_status_var_len e = zlen (q_status_vars e) /\ is_u16 (q_status_var_len e) /\
      (0 ∈ q_status_vars e) /\ q_sql_statment_len e = zlen (q_sql_statment e)
  | XidEvent xid => is_u64 xid
  | TableMapEvent e =>
      0 <= tm_table_id e < 2 ^ 48 /\ is_u16 (tm_flags e) /\
      tm_db_len e = zlen (tm_db_name e) /\ is_u8 (tm_db_len e) /\
      tm_tb_len e = zlen (tm_tb_name e) /\ is_u8 (tm_tb_len e) /\
      lenenc_ok (tm_column_count e) /\ has_len (tm_column_count e) (tm_column_type e) /\
      lenenc_ok (tm_metadata_len e) /\ has_len (tm_metadata_len e) (tm_metadata e) /\
      has_len (bitmap_bytes (tm_column_count e)) (tm_null_bits e)
  | RowsEvent e =>
      0 <= r_table_id e < 2 ^ 48 /\ is_u16 (r_flags e) /\ is_u16 (r_var_header_len e) /\
      lenenc_ok (r_width e) /\
      (no_before e = false ->
         r_before_image_cols e = bitmap_bytes (r_width e) /\
         has_len (bitmap_bytes (r_width e)) (r_columns_before_bitmaps e) /\
         r_before_pos e = zlen (mjoin (r_before_row e))) /\
      (no_after e = false ->
         r_after_image_cols e = bitmap_bytes (r_width e) /\
         has_len (bitmap_bytes (r_width e)) (r_columns_after_bitmaps e) /\
         r_after_pos e = zlen (mjoin (r_after_row e))) /\
      (type_code = PARTIAL_UPDATE_ROWS_EVENT ->
         has_len (r_partial_cols_bytes e) (r_partial_columns_bitmaps e))
  | HeartbeatEvent _ => True
  end.
#[export] Instance body_ok_dec t b : Decision (body_ok t b).
Proof. destruct b; simpl; apply _. Defined.

(** The number of payload bytes. *)
Definition message_size (e : bytes * GtidMessage) : Z := get_gtid_length e.2.

Definition body_length (type_code : Z) (b : EventBody) : Z :=
  match b with
  | FormatDescriptionEvent e => 2 + ST_SERVER_VER_LEN + 4 + 1 + LOG_EVENT_TYPES + 1
  | PreviousGtidsLogEvent _ ms => 8 + sum (message_size <$> ms)
  | GtidLogEvent _ => GTID_HEADER_LEN
  | RotateEvent e => ROTATE_HEADER_LEN + zlen (ro_next_binlog_file_name e)
  | QueryEvent e =>
      QUERY_HEADER_LEN + zlen (q_status_vars e) + zlen (q_dbname e) + 1 + zlen (q_sql_statment e)
  | XidEvent _ => 8
  | TableMapEvent e =>
      TABLE_MAP_HEADER_LEN + 1 + zlen (tm_db_name e) + 1 + 1 + zlen (tm_tb_name e) + 1 +
      lenenc_size (tm_column_count e) + tm_column_count e + lenenc_size (tm_metadata_len e) +
      tm_metadata_len e + bitmap_bytes (tm_column_count e)
  | RowsEvent e =>
      let n := bitmap_bytes (r_width e) in
      ROWS_HEADER_LEN_V2 + lenenc_size (r_width e) +
      (if no_before e then 0 else n + n + r_before_pos e) +
      (if type_code =? PARTIAL_UPDATE_ROWS_EVENT then 1 + r_partial_cols_bytes e else 0) +
      (if no_after e then 0 else n + n + r_after_pos e)
  | HeartbeatEvent name => zlen name
  end.

(** A flag of [enum_checksum_flag]. *)
Definition flag_ok (flag : Z) : Prop := flag = OFF \/ flag = CRC32.
#[export] Instance flag_ok_dec f : Decision (flag_ok f).
Proof. unfold flag_ok. apply _. Defined.

(** An event whose header and fields agree. *)
Definition event_ok (ev : ObLogEvent) : Prop :=
  header_ok (get_header ev) /\ flag_ok (get_checksum_flag ev) /\
  body_type_ok (h_type_code (get_header ev)) (get_body ev) = true /\
  body_ok (h_type_code (get_header ev)) (get_body ev) /\
  h_event_length (get_header ev) =
    COMMON_HEADER_LENGTH + body_length (h_type_code (get_header ev)) (get_body ev) + get_checksum_len ev.
#[export] Instance event_ok_dec ev : Decision (event_ok ev).
Proof. unfold event_ok. apply _. Defined.

(** ** Lengths *)

Lemma zlen_header_flush h : zlen (header_flush h) = COMMON_HEADER_LENGTH.
Proof. done. Qed.
#[export] Hint Rewrite zlen_header_flush : len.

Lemma write_lenenc_size cap v :
  9 <= cap -> lenenc_ok v -> exists e, write_lenenc_uint cap v = Some e /\ zlen e = lenenc_size v.
Proof.
  intros Hc Hv. unfold lenenc_ok in Hv. unfold lenenc_size.
  pose proof (write_lenenc_uint_cases cap v Hc ltac:(lia)) as Hw.
  destruct_or! Hw; destruct Hw as [? ->].
  all: eexists; split; [done|]; zif; done.
Qed.

Lemma copy_exact n b : zlen b = n -> copy n b = Done b.
Proof.
  intros H. pose proof (zlen_nonneg b). unfold copy. zif. simpl. by rewrite first_ge by lia.
Qed.
Lemma copy_app n a b : zlen a = n -> copy n (a ++ b) = Done a.
Proof.
  intros H. pose proof (zlen_nonneg a). pose proof (zlen_nonneg b). unfold copy.
  rewrite zlen_app. zif. simpl. by rewrite first_app.
Qed.
Lemma copy_ptr_exact n o : has_len n o -> exists b, o = Some b /\ copy_ptr n o = Done b /\ zlen b = n.
Proof. destruct o as [b|]; [|done]. intros H. exists b. split; [done|]. split; [by apply copy_exact|done]. Qed.
Lemma nts_field_exact n s : n = zlen s -> nts_field n s = Done (s ++ [0]).
Proof.
  intros ->. unfold nts_field, write_null_terminate_string. zif. done.
Qed.

(** ** The checksum trailer *)

Section WithCrc.
Context (crc32 : bytes -> Z).

Definition trailer (flag : Z) (b : bytes) : bytes :=
  if flag =? CRC32 then int4store (crc32 b) else [].

Lemma write_checksum_trailer flag b : write_checksum crc32 flag b = b ++ trailer flag b.
Proof. unfold write_checksum, trailer. destruct (flag =? CRC32); by rewrite ?app_nil_r. Qed.

Lemma zlen_trailer flag b : flag_ok flag -> zlen (trailer flag b) = checksum_len_of flag.
Proof. by intros [-> | ->]. Qed.

End WithCrc.

(** ** Payload of each class, for well-formed fields *)

Definition range_bytes (r : txn_range) : bytes := int8store r.1 ++ int8store (r.2 + 1).
Definition message_bytes (e : bytes * GtidMessage) : bytes :=
  default [] (gtid_uuid e.2) ++ int8store (gtid_txn_id_intervals e.2) ++
  mjoin (range_bytes <$> get_txn_range e.2).

Lemma zlen_ranges (rs : list txn_range) : zlen (mjoin (range_bytes <$> rs)) = 16 * zlen rs.
Proof. rewrite (zlen_join_size _ (fun _ => 16)) by done. apply sum_const. Qed.

Lemma zlen_message e : message_ok e -> zlen (message_bytes e) = message_size e.
Proof.
  intros [Hu _]. unfold message_bytes, message_size, get_gtid_length, SERVER_UUID_LEN in *.
  destruct (gtid_uuid e.2); [|done]. destruct Hu as [Hu _].
  rewrite !zlen_app, zlen_ranges. simpl. rewrite Hu, zlen_int8store. lia.
Qed.

Lemma gtid_messages_flush_ok ms :
  Forall message_ok ms -> gtid_messages_flush ms = Done (mjoin (message_bytes <$> ms)).
Proof.
  induction 1 as [|[k m] ms [Hu _] _ IH]; [done|]. simpl in Hu.
  rewrite fmap_cons, join_cons. cbn [gtid_messages_flush]. rewrite IH.
  unfold gtid_message_flush, copy_ptr, message_bytes. simpl.
  destruct (gtid_uuid m) as [u|]; [|done]. destruct Hu as [Hlen _]. simpl.
  rewrite (copy_exact _ u) by done. done.
Qed.

(** [run_outcome] discharges the copies of a [flush_to_buff]. *)
Ltac run_outcome :=
  repeat first
    [ rewrite copy_app by (first [done | symmetry; assumption])
    | rewrite copy_exact by (first [done | symmetry; assumption])
    | rewrite nts_field_exact by done
    | match goal with
      | H : copy_ptr _ _ = Done _ |- _ => rewrite H
      | H : write_lenenc_uint _ _ = Some _ |- _ => rewrite H
      end
    | progress cbn [of_option mbind outcome_bind] ].

Lemma query_flush_ok e t :
  body_ok t (QueryEvent e) ->
  query_flush e = Done (int4store (q_thread_id e) ++ int4store (q_query_exec_time e) ++
    int1store (q_db_len e) ++ int2store (q_error_code e) ++ int2store (q_status_var_len e) ++
    q_status_vars e ++ (q_dbname e ++ [0]) ++ q_sql_statment e).
Proof.
  intros (_ & _ & Hdb & _ & _ & _ & Hsv & _ & _ & Hsql). unfold query_flush. run_outcome. done.
Qed.

Lemma table_map_flush_ok e t :
  body_ok t (TableMapEvent e) ->
  exists count types meta_len metadata null_bits,
    write_lenenc_uint INT32_MAX (tm_column_count e) = Some count /\
    write_lenenc_uint INT32_MAX (tm_metadata_len e) = Some meta_len /\
    zlen count = lenenc_size (tm_column_count e) /\ zlen types = tm_column_count e /\
    zlen meta_len = lenenc_size (tm_metadata_len e) /\ zlen metadata = tm_metadata_len e /\
    zlen null_bits = bitmap_bytes (tm_column_count e) /\
    table_map_flush e = Done (int6store (tm_table_id e) ++ int2store (tm_flags e) ++
      int1store (tm_db_len e) ++ (tm_db_name e ++ [0]) ++ int1store (tm_tb_len e) ++
      (tm_tb_name e ++ [0]) ++ count ++ types ++ meta_len ++ metadata ++ null_bits).
Proof.
  intros (_ & _ & Hdb & _ & Htb & _ & Hc & Ht & Hm & Hmd & Hn).
  destruct (write_lenenc_size INT32_MAX _ ltac:(done) Hc) as (count & ? & ?).
  destruct (write_lenenc_size INT32_MAX _ ltac:(done) Hm) as (meta_len & ? & ?).
  apply copy_ptr_exact in Ht as (types & _ & ? & ?).
  apply copy_ptr_exact in Hmd as (metadata & _ & ? & ?).
  apply copy_ptr_exact in Hn as (null_bits & _ & ? & ?).
  exists count, types, meta_len, metadata, null_bits. repeat (split; [done|]).
  unfold table_map_flush. run_outcome. done.
Qed.

Lemma zlen_fill_bit_map n : 0 <= n -> zlen (fill_bit_map n) = n.
Proof. intros. unfold fill_bit_map. rewrite zlen_replicate. lia. Qed.

Lemma bitmap_bytes_nonneg n : 0 <= n -> 0 <= bitmap_bytes n.
Proof. intros. apply Z.div_pos; lia. Qed.

Lemma lenenc_ok_nonneg v : lenenc_ok v -> 0 <= v.
Proof. unfold lenenc_ok. lia. Qed.

(** One image of a rows event: its bitmap and its row. *)
Definition image_bytes (absent : bool) (b : bytes) (row : list bytes) : bytes :=
  if absent then [] else b ++ mjoin row.

Lemma rows_image_ok absent width cols bitmap row pos :
  0 <= width ->
  (absent = false -> cols = bitmap_bytes width /\ has_len (bitmap_bytes width) bitmap /\
    pos = zlen (mjoin row)) ->
  exists b, zlen b = bitmap_bytes width /\ (absent = false -> bitmap = Some b) /\
    rows_image absent width bitmap row pos = Done (image_bytes absent b row).
Proof.
  intros Hw H. destruct absent.
  { exists (fill_bit_map (bitmap_bytes width)). split; [|done].
    apply zlen_fill_bit_map, bitmap_bytes_nonneg, Hw. }
  destruct (H eq_refl) as (_ & Hb & Hp). apply copy_ptr_exact in Hb as (b & -> & Hb & Hl).
  exists b. split; [done|]. split; [done|]. unfold rows_image, write_rows. run_outcome. done.
Qed.

Lemma rows_partial_ok t e :
  (t = PARTIAL_UPDATE_ROWS_EVENT -> has_len (r_partial_cols_bytes e) (r_partial_columns_bitmaps e)) ->
  exists p, zlen p = (if t =? PARTIAL_UPDATE_ROWS_EVENT then 1 + r_partial_cols_bytes e else 0) /\
    rows_partial t e = Done p.
Proof.
  intros H. unfold rows_partial. destruct (Z.eqb_spec t PARTIAL_UPDATE_ROWS_EVENT) as [E|E]; [|by exists []].
  destruct (copy_ptr_exact _ _ (H E)) as (c & _ & Ec & Hc).
  exists (int1store 1 ++ c). split; [len|]. by rewrite Ec.
Qed.

Lemma rows_flush_ok e t :
  body_ok t (RowsEvent e) ->
  let n := bitmap_bytes (r_width e) in
  exists width b1 b2 partial,
    write_lenenc_uint MAX_PACKET_INTEGER_LEN (r_width e) = Some width /\
    zlen width = lenenc_size (r_width e) /\ zlen b1 = n /\ zlen b2 = n /\
    (no_before e = false -> r_columns_before_bitmaps e = Some b1) /\
    (no_after e = false -> r_columns_after_bitmaps e = Some b2) /\
    zlen partial = (if t =? PARTIAL_UPDATE_ROWS_EVENT then 1 + r_partial_cols_bytes e else 0) /\
    rows_flush t e = Done (int6store (r_table_id e) ++ int2store (r_flags e) ++
      int2store (r_var_header_len e) ++ width ++
      (if no_before e then [] else fill_bit_map n) ++ (if no_after e then [] else fill_bit_map n) ++
      image_bytes (no_before e) b1 (r_before_row e) ++ partial ++
      image_bytes (no_after e) b2 (r_after_row e)).
Proof.
  intros (_ & _ & _ & Hw & Hbefore & Hafter & Hpart). cbn zeta.
  destruct (write_lenenc_size MAX_PACKET_INTEGER_LEN _ ltac:(done) Hw) as (width & Ew & ?).
  apply lenenc_ok_nonneg in Hw.
  destruct (rows_image_ok _ _ _ _ _ _ Hw Hbefore) as (b1 & ? & ? & Eb).
  destruct (rows_image_ok _ _ _ _ _ _ Hw Hafter) as (b2 & ? & ? & Ea).
  destruct (rows_partial_ok _ _ Hpart) as (p & ? & Ep).
  exists width, b1, b2, p. do 7 (split; [done|]).
  unfold rows_flush. rewrite Ew, Eb, Ep, Ea. cbn [of_option mbind outcome_bind].
  destruct (no_before e); [|destruct (Hbefore eq_refl) as [-> _]];
  destruct (no_after e); [done|destruct (Hafter eq_refl) as [-> _]; done|done|
    destruct (Hafter eq_refl) as [-> _]; done].
Qed.

(** ** Exact length *)

Lemma body_flush_length h b :
  body_ok (h_type_code h) b -> (forall e, b <> FormatDescriptionEvent e) ->
  exists p, body_flush h b = Done p /\ zlen p = body_length (h_type_code h) b.
Proof.
  intros Hok Hfd. destruct b as [e|n ms|e|e|e|xid|e|e|name]; cbn [body_flush body_length].
  - by destruct (Hfd e).
  - destruct Hok as (-> & _ & _ & Hms). unfold previous_gtids_flush.
    rewrite Z.eqb_refl, gtid_messages_flush_ok by done. eexists; split; [done|].
    rewrite zlen_app, (zlen_join_size _ message_size), zlen_int8store; [done|].
    intros x Hx. apply zlen_message. by eapply Forall_forall in Hms.
  - destruct Hok as (_ & Hu & _). unfold gtid_log_flush. run_outcome. eexists; split; [done|].
    autorewrite with len. rewrite Hu. done.
  - eexists; split; [done|]. unfold rotate_flush. by autorewrite with len.
  - rewrite (query_flush_ok _ _ Hok). eexists; split; [done|].
    autorewrite with len. unfold QUERY_HEADER_LEN. simpl. lia.
  - by eexists.
  - destruct (table_map_flush_ok _ _ Hok) as (c & ty & ml & md & nb & _ & _ & Hc & Hty & Hml & Hmd & Hnb & ->).
    eexists; split; [done|]. autorewrite with len. rewrite Hc, Hty, Hml, Hmd, Hnb.
    unfold TABLE_MAP_HEADER_LEN. simpl. lia.
  - destruct (rows_flush_ok _ _ Hok) as (w & b1 & b2 & p & _ & Hw & H1 & H2 & _ & _ & Hp & ->).
    eexists; split; [done|]. destruct Hok as (_ & _ & _ & Hwd & Hb & Ha & _).
    apply lenenc_ok_nonneg, bitmap_bytes_nonneg in Hwd.
    autorewrite with len. rewrite Hw, Hp. unfold ROWS_HEADER_LEN_V2, image_bytes.
    destruct (no_before e); [|destruct (Hb eq_refl) as (_ & _ & ->)];
      (destruct (no_after e); [|destruct (Ha eq_refl) as (_ & _ & ->)]);
      rewrite ?zlen_app, ?zlen_fill_bit_map, ?H1, ?H2 by done; rewrite ?zlen_nil; lia.
  - by eexists.
Qed.

(** The format description: clearing and restoring the in-use flag around the checksum
    leaves the header as it was. *)
Definition format_description_payload (flag : Z) (e : FormatDescription) : bytes :=
  int2store (fd_version e) ++ server_version_field (fd_server_version e) ++
  int4store (fd_timestamp e) ++ int1store (fd_header_len e) ++
  mjoin (int1store <$> fd_event_type_header_len e) ++ int1store flag.

Definition set_flags (f : Z) (h : OblogEventHeader) : OblogEventHeader :=
  mkHeader (h_timestamp h) (h_type_code h) (h_server_id h) (h_event_length h) (h_next_position h) (u16 f).

Definition flags_for_checksum (h : OblogEventHeader) : OblogEventHeader :=
  if negb (Z.land (h_flags h) LOG_EVENT_BINLOG_IN_USE_F =? 0) then set_flags 0 h else h.

Lemma overwrite_flags f h rest :
  overwrite FLAGS_OFFSET (int2store f) (header_flush h ++ rest) = header_flush (set_flags f h) ++ rest.
Proof.
  unfold header_flush. cbn [h_timestamp h_type_code h_server_id h_event_length h_next_position h_flags set_flags].
  rewrite !app_assoc, <-(app_assoc _ (int2store _) rest).
  rewrite overwrite_app; [|done|done]. rewrite <-!app_assoc. do 5 f_equal.
  unfold int2store. f_equal. unfold u16. by rewrite Z.mod_mod.
Qed.

Section FormatDescriptionWire.
Context (crc32 : bytes -> Z).

Lemma format_description_flush_eq h flag e :
  is_u16 (h_flags h) ->
  format_description_flush crc32 h flag e =
    header_flush h ++ format_description_payload flag e ++
    trailer crc32 flag (header_flush (flags_for_checksum h) ++ format_description_payload flag e).
Proof.
  intros Hf. unfold format_description_flush, flags_for_checksum.
  fold (format_description_payload flag e). cbn zeta.
  destruct (negb _); rewrite ?overwrite_flags, write_checksum_trailer, <-?app_assoc; [|done].
  rewrite overwrite_flags.
  assert (set_flags (h_flags h) (set_flags 0 h) = h) as ->; [|done].
  destruct h. unfold set_flags. simpl in *. by rewrite u16_id.
Qed.

Lemma zlen_server_version v : zlen (server_version_field v) = ST_SERVER_VER_LEN.
Proof.
  unfold server_version_field. set (s := first _ _).
  assert (zlen s <= ST_SERVER_VER_LEN - 1).
  { unfold s, first, zlen. rewrite length_take. unfold ST_SERVER_VER_LEN. lia. }
  rewrite zlen_app, zlen_replicate. pose proof (zlen_nonneg s). lia.
Qed.

Lemma zlen_int1stores l : zlen (mjoin (int1store <$> l)) = zlen l.
Proof. rewrite (zlen_join_size _ (fun _ => 1)) by done. rewrite sum_const. lia. Qed.

Lemma zlen_format_description flag e t :
  body_ok t (FormatDescriptionEvent e) ->
  zlen (format_description_payload flag e) = body_length t (FormatDescriptionEvent e).
Proof.
  intros (_ & _ & _ & _ & _ & Hl & _). unfold format_description_payload.
  autorewrite with len. rewrite zlen_server_version, zlen_int1stores, Hl. done.
Qed.

(** What a flush leaves: header, payload and checksum trailer. *)
Lemma flush_to_buff_eq ev :
  event_ok ev ->
  exists payload crc_input,
    flush_to_buff crc32 ev = Done (header_flush (get_header ev) ++ payload ++ trailer crc32 (get_checksum_flag ev) crc_input) /\
    zlen payload = body_length (h_type_code (get_header ev)) (get_body ev) /\
    match get_body ev with
    | FormatDescriptionEvent e => payload = format_description_payload (get_checksum_flag ev) e
    | b => body_flush (get_header ev) b = Done payload /\ crc_input = header_flush (get_header ev) ++ payload
    end.
Proof.
  intros (Hh & Hf & _ & Hb & _). unfold flush_to_buff.
  destruct (get_body ev) as [e|n ms|e|e|e|xid|e|e|name] eqn:E.
  { destruct Hh as (_ & _ & _ & _ & _ & Hfl).
    rewrite format_description_flush_eq by done. eexists _, _. split; [done|]. split; [|done].
    by apply zlen_format_description. }
  all: destruct (body_flush_length _ _ Hb) as (p & Ep & Hp); [done|].
  all: exists p, (header_flush (get_header ev) ++ p); rewrite Ep; cbn [mbind outcome_bind].
  all: by rewrite write_checksum_trailer, <-app_assoc.
Qed.

End FormatDescriptionWire.

(** ** Reading events back *)

Lemma header_read h p r :
  header_ok h ->
  header_deserialize (Cursor p (header_flush h ++ r)) = Some (h, Cursor (p + COMMON_HEADER_LENGTH) r).
Proof.
  intros (? & ? & ? & ? & ? & ?). unfold header_deserialize, header_flush. rewrite <-!app_assoc.
  do 3 (erewrite reader_bind_eq by (first [by apply rd4_store | by apply rd1_store])).
  do 2 (erewrite reader_bind_eq by (by apply rd4_store)).
  erewrite reader_bind_eq by (by apply rd2_store).
  unfold mret, reader_ret. destruct h. do 3 f_equal. unfold COMMON_HEADER_LENGTH. simpl. lia.
Qed.

Lemma c_string_ok b p : 0 ∈ b -> c_string b p = Some (cstr b, p).
Proof. intros. unfold c_string. by rewrite bool_decide_true. Qed.

(** [rd_run] walks a reader over a buffer laid out by the stores. *)
Ltac rd_step :=
  first
    [ erewrite reader_bind_eq by reflexivity
    | erewrite reader_bind_eq by (apply header_read; assumption)
    | erewrite reader_bind_eq by (apply rd8_store; assumption)
    | erewrite reader_bind_eq by (apply rd4_store; assumption)
    | erewrite reader_bind_eq by (apply rd1_store; assumption)
    | erewrite reader_bind_eq by (apply rd2_store; assumption)
    | erewrite reader_bind_eq by (apply rd6_store; assumption)
    | erewrite reader_bind_eq by (apply rd_take_app; solve [assumption | symmetry; assumption | done])
    | erewrite reader_bind_eq by (apply rd_take_all; solve [assumption | symmetry; assumption])
    | erewrite reader_bind_eq by (apply c_string_ok; assumption) ].
Ltac rd_run := rewrite <-?app_assoc; repeat rd_step; cbn [cur_pos cur_rest].

Section ReadBack.
Context (binlog_checksum : bool) (server_id : Z).
#[local] Abbreviation clen := (config_checksum_len binlog_checksum).
#[local] Abbreviation new_event := (new_event binlog_checksum).

Lemma xid_read h xid tail :
  header_ok h -> is_u64 xid -> zlen tail = clen -> h_event_length h = COMMON_HEADER_LENGTH + 8 + clen ->
  run_reader (xid_deserialize binlog_checksum) (header_flush h ++ xid_flush xid ++ tail)
  = Some (new_event h (XidEvent xid)).
Proof.
  intros Hh Hx Ht Hl. unfold run_reader, xid_deserialize, xid_flush. rd_run.
  erewrite reader_bind_eq by (apply rd_assert_true; lia). done.
Qed.

Lemma rotate_read h e tail :
  header_ok h -> body_ok (h_type_code h) (RotateEvent e) -> zlen tail = clen ->
  h_event_length h = COMMON_HEADER_LENGTH + body_length (h_type_code h) (RotateEvent e) + clen ->
  run_reader (rotate_deserialize binlog_checksum) (header_flush h ++ rotate_flush e ++ tail)
  = Some (new_event h (RotateEvent (mkRotate (ro_next_binlog_position e) (ro_next_binlog_file_name e)
                                      0 [] ROTATE false))).
Proof.
  intros Hh Hb Ht Hl. simpl in Hb, Hl. unfold ROTATE_HEADER_LEN in Hl.
  unfold run_reader, rotate_deserialize, rotate_flush. rd_run.
  erewrite reader_bind_eq by (apply rd_take_app; lia). rd_run.
  erewrite reader_bind_eq by (apply rd_assert_true; lia). done.
Qed.

Lemma gtid_log_read h e tail :
  header_ok h -> body_ok (h_type_code h) (GtidLogEvent e) ->
  exists p, body_flush h (GtidLogEvent e) = Done p /\
    run_reader (gtid_log_deserialize binlog_checksum) (header_flush h ++ p ++ tail)
    = Some (new_event h (GtidLogEvent e)).
Proof.
  intros Hh (H1 & H2 & H3 & H4 & H5 & H6). cbn [body_flush]. unfold gtid_log_flush. run_outcome.
  eexists; split; [done|]. unfold run_reader, gtid_log_deserialize. rd_run. by destruct e.
Qed.

Lemma cstr_app_nul s r : 0 ∉ s -> cstr (s ++ 0 :: r) = s.
Proof.
  induction s as [|x s IH]; [done|]. intros H. simpl. rewrite IH by set_solver.
  destruct (Z.eqb_spec x 0); [set_solver|done].
Qed.

Lemma query_read h e tail :
  header_ok h -> body_ok (h_type_code h) (QueryEvent e) -> zlen tail = clen ->
  h_event_length h = COMMON_HEADER_LENGTH + body_length (h_type_code h) (QueryEvent e) + clen ->
  exists p, body_flush h (QueryEvent e) = Done p /\
    run_reader (query_deserialize binlog_checksum) (header_flush h ++ p ++ tail)
    = Some (new_event h (QueryEvent (mkQuery (q_thread_id e) (q_query_exec_time e) (q_db_len e)
        (q_sql_statment_len e) (q_error_code e) (q_status_var_len e) (cstr (q_status_vars e))
        (q_dbname e) (q_sql_statment e) false))).
Proof.
  intros Hh Hok Ht Hl. cbn [body_flush]. rewrite (query_flush_ok _ _ Hok). eexists; split; [done|].
  destruct Hok as (? & ? & Hdb & ? & Hnul & ? & Hsv & ? & Hin & Hsql). cbn [body_length] in Hl.
  unfold run_reader, query_deserialize.
  rd_run. rewrite (app_assoc (q_dbname e)).
  erewrite reader_bind_eq by (apply rd_take_app; rewrite zlen_app, <-Hdb; done).
  erewrite reader_bind_eq by (apply c_string_ok; set_solver). rewrite cstr_app_nul by done.
  rd_step. cbn [cur_pos]. unfold QUERY_HEADER_LEN in Hl.
  replace (h_event_length h - clen - _) with (q_sql_statment_len e) by lia.
  rd_run. erewrite reader_bind_eq by (apply rd_assert_true; lia). done.
Qed.

Lemma table_map_read h e tail :
  header_ok h -> body_ok (h_type_code h) (TableMapEvent e) ->
  exists p, body_flush h (TableMapEvent e) = Done p /\
    run_reader (table_map_deserialize binlog_checksum) (header_flush h ++ p ++ tail)
    = Some (new_event h (TableMapEvent (mkTableMap (tm_table_id e) (tm_flags e) (tm_db_name e)
        (tm_db_len e) (tm_tb_name e) (tm_tb_len e) (tm_column_count e) None (tm_metadata_len e)
        None None))).
Proof.
  intros Hh Hok. cbn [body_flush].
  destruct (table_map_flush_ok _ _ Hok) as (c & ty & ml & md & nb & Ec & Em & Hc & Hty & Hml & Hmd & Hnb & ->).
  eexists; split; [done|].
  destruct Hok as (? & ? & Hdb & ? & Htb & ? & Hcc & _ & Hm & _ & _).
  unfold run_reader, table_map_deserialize. rd_run.
  erewrite reader_bind_eq by (eapply rd_lenenc_write; [|exact Hcc|exact Ec]; done). rd_run.
  erewrite reader_bind_eq by (eapply rd_lenenc_write; [|exact Hm|exact Em]; done). rd_run.
  done.
Qed.

(** The image an insert or a delete carries. *)
Definition the_bitmap (e : Rows) : option bytes :=
  if no_after e then r_columns_before_bitmaps e else r_columns_after_bitmaps e.
Definition the_row (e : Rows) : bytes := mjoin (if no_after e then r_before_row e else r_after_row e).

Lemma single_image_flush t e :
  body_ok t (RowsEvent e) -> r_rows_event_type e <> UPDATE -> t <> PARTIAL_UPDATE_ROWS_EVENT ->
  let n := bitmap_bytes (r_width e) in
  exists width bm, write_lenenc_uint MAX_PACKET_INTEGER_LEN (r_width e) = Some width /\
    zlen bm = n /\ the_bitmap e = Some bm /\
    body_length t (RowsEvent e) = 10 + zlen width + n + n + zlen (the_row e) /\
    rows_flush t e = Done (int6store (r_table_id e) ++ int2store (r_flags e) ++
      int2store (r_var_header_len e) ++ width ++ fill_bit_map n ++ bm ++ the_row e).
Proof.
  intros Hok Hu Hty n.
  destruct (rows_flush_ok _ _ Hok) as (w & b1 & b2 & p & Ew & Hw & H1 & H2 & E1 & E2 & Hp & ->).
  destruct Hok as (_ & _ & _ & _ & Hb & Ha & _). cbn [body_length]. fold n.
  rewrite (proj2 (Z.eqb_neq _ _) Hty) in *. apply zlen_0_nil in Hp as ->. rewrite <-Hw.
  unfold the_bitmap, the_row, image_bytes, no_before, no_after, ROWS_HEADER_LEN_V2 in *.
  destruct (r_rows_event_type e); [| |done]; simpl in *.
  - destruct (Ha eq_refl) as (_ & _ & ->). exists w, b2. rewrite (E2 eq_refl).
    repeat (split; [first [done | lia]|]). done.
  - destruct (Hb eq_refl) as (_ & _ & ->). exists w, b1. rewrite (E1 eq_refl), app_nil_r.
    repeat (split; [first [done | lia]|]). done.
Qed.

Lemma rows_read h e tail :
  header_ok h -> body_ok (h_type_code h) (RowsEvent e) -> r_rows_event_type e <> UPDATE ->
  h_type_code h <> PARTIAL_UPDATE_ROWS_EVENT -> zlen tail = clen ->
  h_event_length h = COMMON_HEADER_LENGTH + body_length (h_type_code h) (RowsEvent e) + clen ->
  exists p, body_flush h (RowsEvent e) = Done p /\
    run_reader (rows_deserialize binlog_checksum (r_rows_event_type e)) (header_flush h ++ p ++ tail)
    = Some (new_event h (RowsEvent
        (if no_after e then
           mkRows (r_table_id e) (r_flags e) (r_var_header_len e) (r_width e) (r_width e) 0
             (the_bitmap e) None None 0 [the_row e] [] 0 0 DELETE
         else
           mkRows (r_table_id e) (r_flags e) (r_var_header_len e) (r_width e) 0 (r_width e)
             None (the_bitmap e) None 0 [] [the_row e] 0 0 INSERT))).
Proof.
  intros Hh Hok Hu Hty Ht Hl. cbn [body_flush].
  destruct (single_image_flush _ _ Hok Hu Hty) as (w & bm & Ew & Hbm & -> & Hlen & ->).
  eexists; split; [done|]. rewrite Hlen in Hl.
  destruct Hok as (? & ? & ? & Hwd & _).
  assert (zlen (fill_bit_map (bitmap_bytes (r_width e))) = bitmap_bytes (r_width e)) as Hf
    by (by apply zlen_fill_bit_map, bitmap_bytes_nonneg, lenenc_ok_nonneg).
  unfold run_reader, rows_deserialize. rd_run.
  erewrite reader_bind_eq by (eapply rd_lenenc_write; [|exact Hwd|exact Ew]; done). rd_run.
  erewrite reader_bind_eq by (apply rd_take_app; lia). rd_run.
  erewrite reader_bind_eq by (apply rd_assert_true; lia).
  unfold no_after. by destruct (r_rows_event_type e).
Qed.

Lemma interval_read r q rest :
  range_ok r ->
  gtid_interval_deserialize (Cursor q (range_bytes r ++ rest)) = Some (r, Cursor (q + zlen (range_bytes r)) rest).
Proof.
  intros (H1 & H2 & H3). unfold gtid_interval_deserialize, range_bytes.
  assert (is_u64 (r.2 + 1)) by (unfold is_u64; lia). rd_run.
  rewrite (proj2 (Z.eqb_neq _ _) H3). unfold mret, reader_ret, u64.
  replace (r.2 + 1 - 1) with r.2 by lia. rewrite Z.mod_small by lia. destruct r. f_equal. f_equal.
  f_equal. rewrite zlen_app, !zlen_int8store. lia.
Qed.

Lemma message_read e q rest :
  message_ok e ->
  gtid_message_deserialize (Cursor q (message_bytes e ++ rest))
  = Some (e.2, Cursor (q + zlen (message_bytes e)) rest).
Proof.
  intros (Hu & Hn & Hw & Hrs). destruct e as [k [u n rs]]. simpl in *.
  destruct u as [u|]; [|done]. destruct Hu as [Hu _]. subst n.
  unfold gtid_message_deserialize, message_bytes. simpl. rd_run.
  rewrite to_nat_zlen.
  erewrite reader_bind_eq by (apply (rd_times_spec _ id); intros; apply interval_read; by eapply Forall_forall in Hrs).
  rewrite list_fmap_id. unfold mret, reader_ret. do 3 f_equal. autorewrite with len. rewrite zlen_ranges, Hu. lia.
Qed.

Lemma set_gtid_messages_sorted ms : forall done_,
  keys_sorted (done_ ++ ms) -> Forall message_ok ms ->
  set_gtid_messages (snd <$> ms) done_ = Done (done_ ++ ms).
Proof.
  induction ms as [|[k m] ms IH]; intros done_ Hs Hms; [by rewrite app_nil_r|].
  apply Forall_cons in Hms as [[Hm _] Hms]. simpl in Hm.
  cbn [set_gtid_messages fmap list_fmap snd]. unfold get_gtid_uuid_str.
  destruct (gtid_uuid m) as [u|]; [|done]. destruct Hm as [_ ->]. cbn [of_option mbind outcome_bind].
  rewrite omap_emplace_snoc by (by eapply keys_sorted_app_inv).
  rewrite IH, <-app_assoc; [done| |done]. by rewrite <-app_assoc.
Qed.

Lemma previous_gtids_read h n ms tail :
  header_ok h -> body_ok (h_type_code h) (PreviousGtidsLogEvent n ms) ->
  exists p, body_flush h (PreviousGtidsLogEvent n ms) = Done p /\
    run_reader (previous_gtids_deserialize binlog_checksum) (header_flush h ++ p ++ tail)
    = Some (new_event h (PreviousGtidsLogEvent n ms)).
Proof.
  intros Hh (-> & Hn & Hs & Hms). cbn [body_flush]. unfold previous_gtids_flush.
  rewrite Z.eqb_refl, gtid_messages_flush_ok by done. eexists; split; [done|].
  unfold run_reader, previous_gtids_deserialize. rd_run.
  rewrite to_nat_zlen.
  erewrite reader_bind_eq by (apply (rd_times_spec _ snd message_bytes); intros;
    apply message_read; by eapply Forall_forall in Hms).
  unfold rd_outcome, mbind, reader_bind. by rewrite set_gtid_messages_sorted.
Qed.

Lemma server_version_cstr v :
  0 ∉ v -> zlen v < ST_SERVER_VER_LEN ->
  0 ∈ server_version_field v /\ cstr (server_version_field v) = v.
Proof.
  intros Hn Hl. unfold server_version_field. rewrite cstr_id by done.
  rewrite first_ge by lia.
  destruct (Z.to_nat (ST_SERVER_VER_LEN - zlen v)) as [|n] eqn:E; [lia|].
  cbn [replicate]. split; [set_solver|]. by apply cstr_app_nul.
Qed.

Lemma format_description_read h flag e tail :
  header_ok h -> body_ok (h_type_code h) (FormatDescriptionEvent e) -> is_u8 flag -> 0 <= zlen tail ->
  h_event_length h = COMMON_HEADER_LENGTH + body_length (h_type_code h) (FormatDescriptionEvent e) + zlen tail ->
  run_reader format_description_deserialize (header_flush h ++ format_description_payload flag e ++ tail)
  = Some (mkEvent h [] 0 flag true (FormatDescriptionEvent e)).
Proof.
  intros Hh (? & Hn & Hv & ? & ? & Hl & Hall) Hf Ht Hlen.
  destruct (server_version_cstr _ Hn Hv) as [Hin Hcs].
  pose proof (zlen_server_version (fd_server_version e)).
  unfold run_reader, format_description_deserialize, format_description_payload. rd_run. rewrite Hcs.
  erewrite reader_bind_eq by (apply rd_assert_true; rewrite Hlen; unfold body_length; lia).
  rewrite <-Hl, to_nat_zlen.
  erewrite reader_bind_eq by (apply (rd_times_spec _ id); intros; apply rd1_store; by eapply Forall_forall in Hall).
  rewrite list_fmap_id. rd_run. by destruct e.
Qed.

(** ** What survives a write and a read *)

(** What the readers make of an event.  Fields that are not on the wire are reset; and of
    those that are on the wire, the status variables of a query are cut at their first NUL
    ([std::string] from a [char*]), and the column types, metadata and null bits of a table
    map are not kept: the reader allocates memory for them and does not fill it. *)
Definition reread_body (b : EventBody) : EventBody :=
  match b with
  | RotateEvent e =>
      RotateEvent (mkRotate (ro_next_binlog_position e) (ro_next_binlog_file_name e) 0 [] ROTATE false)
  | QueryEvent e =>
      QueryEvent (mkQuery (q_thread_id e) (q_query_exec_time e) (q_db_len e) (q_sql_statment_len e)
        (q_error_code e) (q_status_var_len e) (cstr (q_status_vars e)) (q_dbname e)
        (q_sql_statment e) false)
  | TableMapEvent e =>
      TableMapEvent (mkTableMap (tm_table_id e) (tm_flags e) (tm_db_name e) (tm_db_len e)
        (tm_tb_name e) (tm_tb_len e) (tm_column_count e) None (tm_metadata_len e) None None)
  | RowsEvent e => RowsEvent
      (if no_after e then
         mkRows (r_table_id e) (r_flags e) (r_var_header_len e) (r_width e) (r_width e) 0
           (the_bitmap e) None None 0 [the_row e] [] 0 0 DELETE
       else
         mkRows (r_table_id e) (r_flags e) (r_var_header_len e) (r_width e) 0 (r_width e)
           None (the_bitmap e) None 0 [] [the_row e] 0 0 INSERT)
  | b => b
  end.

(** [UpdateRowsEvent::deserialize] is unfinished in the source and heartbeats have no
    reader. *)
Definition readable (b : EventBody) : bool :=
  match b with
  | RowsEvent e => bool_decide (r_rows_event_type e <> UPDATE)
  | HeartbeatEvent _ => false
  | _ => true
  end.

(** The reader of each class, and that the type code selects it. *)
Definition reader_of (b : EventBody) : reader ObLogEvent :=
  match b with
  | FormatDescriptionEvent _ => format_description_deserialize
  | PreviousGtidsLogEvent _ _ => previous_gtids_deserialize binlog_checksum
  | GtidLogEvent _ => gtid_log_deserialize binlog_checksum
  | RotateEvent _ => rotate_deserialize binlog_checksum
  | QueryEvent _ => query_deserialize binlog_checksum
  | XidEvent _ | HeartbeatEvent _ => xid_deserialize binlog_checksum
  | TableMapEvent _ => table_map_deserialize binlog_checksum
  | RowsEvent e => rows_deserialize binlog_checksum (r_rows_event_type e)
  end.

Lemma deserialize_event_class t b :
  body_type_ok t b = true -> readable b = true ->
  deserialize_event binlog_checksum t = Some (reader_of b).
Proof.
  destruct b as [e|n ms|e|e|e|xid|e|e|name]; cbn [body_type_ok readable reader_of];
    rewrite ?Z.eqb_eq; try (by intros ->).
  rewrite bool_decide_eq_true. destruct (r_rows_event_type e); [rewrite Z.eqb_eq; by intros ->..|done].
Qed.

Lemma read_back h b flag p tail :
  header_ok h -> body_type_ok (h_type_code h) b = true -> body_ok (h_type_code h) b ->
  readable b = true -> flag = config_checksum_flag binlog_checksum -> zlen tail = clen ->
  h_event_length h = COMMON_HEADER_LENGTH + body_length (h_type_code h) b + clen ->
  match b with
  | FormatDescriptionEvent e => p = format_description_payload flag e
  | b => body_flush h b = Done p
  end ->
  run_reader (reader_of b) (header_flush h ++ p ++ tail)
  = Some (mkEvent h [] 0 flag true (reread_body b)).
Proof.
  intros Hh Ht Hb Hr -> Htl Hl Hp. fold (new_event h (reread_body b)).
  destruct b as [e|n ms|e|e|e|xid|e|e|name]; cbn beta iota delta [reader_of reread_body] in *.
  - subst p. apply format_description_read; try done.
    + by destruct binlog_checksum.
    + apply zlen_nonneg.
    + by rewrite Htl.
  - destruct (previous_gtids_read h n ms tail Hh Hb) as (q & Eq & Hq). rewrite Eq in Hp. by injection Hp as <-.
  - destruct (gtid_log_read h e tail Hh Hb) as (q & Eq & Hq). rewrite Eq in Hp. by injection Hp as <-.
  - simplify_eq/=. by apply rotate_read.
  - destruct (query_read h e tail Hh Hb Htl Hl) as (q & Eq & Hq). rewrite Eq in Hp. by injection Hp as <-.
  - simplify_eq/=. by apply xid_read.
  - destruct (table_map_read h e tail Hh Hb) as (q & Eq & Hq). rewrite Eq in Hp. by injection Hp as <-.
  - cbn [readable] in Hr. apply bool_decide_eq_true in Hr.
    assert (h_type_code h <> PARTIAL_UPDATE_ROWS_EVENT) as Hn.
    { cbn [body_type_ok] in Ht. destruct (r_rows_event_type e); [| |done];
        apply Z.eqb_eq in Ht; by rewrite Ht. }
    destruct (rows_read h e tail Hh Hb Hr Hn Htl Hl) as (q & Eq & Hq). rewrite Eq in Hp. by injection Hp as <-.
  - done.
Qed.

End ReadBack.

(** ** Properties *)

Section Properties.
Context (crc32 : bytes -> Z).

(** An event as [deserialize] builds it. *)
Definition reread (ev : ObLogEvent) : ObLogEvent :=
  mkEvent (get_header ev) [] 0 (get_checksum_flag ev) true (reread_body (get_body ev)).

Lemma event_read_back binlog_checksum ev b :
  event_ok ev -> readable (get_body ev) = true ->
  get_checksum_flag ev = config_checksum_flag binlog_checksum -> flush_to_buff crc32 ev = Done b ->
  run_reader (reader_of binlog_checksum (get_body ev)) b = Some (reread ev).
Proof.
  intros Hok Hr Hc Hb. destruct (flush_to_buff_eq crc32 ev Hok) as (p & ci & E & _ & Hp).
  rewrite E in Hb. apply Done_inj in Hb as <-.
  destruct Hok as (Hh & Hf & Ht & Hbo & Hl). unfold get_checksum_len in Hl. apply read_back; try done.
  - rewrite zlen_trailer by done. by rewrite Hc.
  - by rewrite Hl, Hc.
  - by destruct (get_body ev); destruct_and?.
Qed.

Lemma flush_length ev :
  event_ok ev ->
  exists b, flush_to_buff crc32 ev = Done b /\ zlen b = h_event_length (get_header ev).
Proof.
  intros Hok. destruct (flush_to_buff_eq crc32 ev Hok) as (p & ci & -> & Hp & _).
  destruct Hok as (_ & Hf & _ & _ & ->). eexists; split; [done|].
  rewrite !zlen_app, Hp, zlen_trailer by done. rewrite zlen_header_flush. unfold get_checksum_len. lia.
Qed.

(** C13: reading back what was written restores the event, for every class but UPDATE rows,
    whose reader is unfinished, and heartbeats, which have none; the class is found by the
    type code of the header, as [seek_events] does.  Restored are the header, the checksum
    mode and every field of the body that is on the wire, but these, which the readers of the
    code do not keep: the status variables of a query from their first NUL on, and the
    column types, the metadata and the null bits of a table map. *)
Theorem event_roundtrip binlog_checksum ev :
  event_ok ev -> readable (get_body ev) = true ->
  get_checksum_flag ev = config_checksum_flag binlog_checksum ->
  exists b rd, flush_to_buff crc32 ev = Done b /\
    deserialize_event binlog_checksum (h_type_code (get_header ev)) = Some rd /\
    run_reader rd b = Some (reread ev).
Proof.
  intros Hok Hr Hc. destruct (flush_to_buff_eq crc32 ev Hok) as (p & ci & E & _).
  eexists _, _. split; [exact E|]. split; [apply deserialize_event_class; [apply Hok|done]|].
  by eapply event_read_back.
Qed.

(** closing a binlog clears the in-use flag of its format description in
    place; the bytes are then those of the event written with the flag cleared, so the
    stored checksum is still the right one. *)
Theorem format_description_flag_cleared h flag e :
  is_u16 (h_flags h) -> Z.land (h_flags h) LOG_EVENT_BINLOG_IN_USE_F <> 0 ->
  overwrite FLAGS_OFFSET (int2store 0) (format_description_flush crc32 h flag e)
  = format_description_flush crc32 (set_flags 0 h) flag e.
Proof.
  intros Hf Hu. rewrite !format_description_flush_eq by done. rewrite overwrite_flags.
  unfold flags_for_checksum. rewrite (proj2 (Z.eqb_neq _ _) Hu). done.
Qed.

End Properties.

(** ** The constructors build well-formed events *)

Section ConstructorsOk.
Context (binlog_checksum : bool) (server_id : Z).
Hypothesis server_id_ok : is_u32 server_id.

Lemma config_flag_ok : flag_ok (config_checksum_flag binlog_checksum).
Proof. destruct binlog_checksum; [by right|by left]. Qed.
Lemma config_len_bound : 0 <= config_checksum_len binlog_checksum <= 4.
Proof. by destruct binlog_checksum. Qed.

Lemma new_format_description_ok timestamp :
  is_u32 timestamp -> event_ok (new_format_description binlog_checksum server_id timestamp).
Proof.
  intros Ht. assert (u64 timestamp = timestamp) as E by (apply u64_id; unfold is_u32, is_u64 in *; lia).
  unfold new_format_description. rewrite E. unfold event_ok. cbn [get_header get_body get_checksum_flag new_event].
  split; [|split; [apply config_flag_ok|]].
  - unfold header_ok. cbn. destruct binlog_checksum; repeat (split; [done|]); done.
  - split; [done|]. split.
    + cbn [body_ok fd_version fd_server_version fd_timestamp fd_header_len fd_event_type_header_len].
      split; [done|]. split; [by_compute|]. do 2 (split; [done|]). split; [done|]. split; [done|]. by_compute.
    + by destruct binlog_checksum.
Qed.

Lemma header_of_new_header_ok t ts len pos :
  is_u8 t -> is_u32 ts -> header_ok (new_header server_id t ts len pos).
Proof.
  intros Ht Hts. unfold new_header, header_ok. cbn.
  rewrite u64_id by (unfold is_u32, is_u64 in *; lia).
  repeat (split; [first [done | apply u32_range]|]). done.
Qed.

Lemma new_rotate_ok position name timestamp begin_position index op :
  is_u64 position -> is_u32 timestamp -> zlen name < 2 ^ 31 ->
  event_ok (new_rotate binlog_checksum server_id position name timestamp begin_position index op).
Proof.
  intros Hp Hts Hn. pose proof config_len_bound. pose proof (zlen_nonneg name).
  unfold new_rotate, event_ok. cbn [get_header get_body get_checksum_flag new_event].
  split; [by apply header_of_new_header_ok|]. split; [apply config_flag_ok|]. do 2 (split; [done|]).
  cbn [new_header h_event_length body_length ro_next_binlog_file_name].
  unfold COMMON_HEADER_LENGTH, ROTATE_HEADER_LEN, get_checksum_len in *. cbn [get_checksum_flag new_event].
  fold (config_checksum_len binlog_checksum). rewrite u32_id by apply u32_range.
  rewrite u32_id by (unfold is_u32; lia). lia.
Qed.

Lemma new_heartbeat_ok name pos :
  zlen name < 2 ^ 31 -> event_ok (new_heartbeat_at binlog_checksum server_id name pos).
Proof.
  intros Hn. pose proof config_len_bound. pose proof (zlen_nonneg name).
  unfold new_heartbeat_at, event_ok. cbn [get_header get_body get_checksum_flag new_event].
  split; [by apply header_of_new_header_ok|]. split; [apply config_flag_ok|]. do 2 (split; [done|]).
  cbn [new_header h_event_length body_length].
  unfold COMMON_HEADER_LENGTH, HEARTBEAT_HEADER_LEN, get_checksum_len in *. cbn [get_checksum_flag new_event].
  fold (config_checksum_len binlog_checksum). rewrite u32_id; unfold is_u32; lia.
Qed.

(** A message the constructor of the previous-gtids event accepts. *)
Definition gtid_message_ok (m : GtidMessage) : Prop :=
  message_ok (dumphex (default [] (gtid_uuid m)), m).
#[export] Instance gtid_message_ok_dec m : Decision (gtid_message_ok m).
Proof. unfold gtid_message_ok. apply _. Defined.

Lemma set_gtid_messages_ok messages : forall m,
  keys_sorted m -> Forall message_ok m -> Forall gtid_message_ok messages ->
  exists m', set_gtid_messages messages m = Done m' /\ keys_sorted m' /\ Forall message_ok m'.
Proof.
  induction messages as [|g messages IH]; intros m Hs Hm Hg; [by exists m|].
  apply Forall_cons in Hg as [Hg Hgs]. cbn [set_gtid_messages]. unfold get_gtid_uuid_str.
  pose proof Hg as [Hu _]. unfold gtid_message_ok in Hg. cbn in Hu.
  destruct (gtid_uuid g) as [u|]; [|done]. cbn [of_option mbind outcome_bind default] in *.
  apply IH; [by apply omap_emplace_sorted| |done].
  apply Forall_forall. intros e [->|He]%omap_emplace_elem; [done|]. by eapply Forall_forall in Hm.
Qed.

Lemma previous_gtids_len_eq m :
  previous_gtids_len binlog_checksum m = COMMON_HEADER_LENGTH + (8 + sum (message_size <$> m)) + config_checksum_len binlog_checksum.
Proof.
  unfold previous_gtids_len. cut (foldr (fun '(_, msg) n => SERVER_UUID_LEN + 8 + 16 * zlen (get_txn_range msg) + n) 0 m
    = sum (message_size <$> m)); [lia|].
  induction m as [|[k g] m IH]; [done|]. cbn [foldr fmap list_fmap]. rewrite IH. unfold sum. cbn [foldr].
  unfold message_size, get_gtid_length. simpl. lia.
Qed.

Lemma new_previous_gtids_ok num messages timestamp ev :
  Forall gtid_message_ok messages -> is_u32 timestamp ->
  new_previous_gtids binlog_checksum server_id num messages timestamp = Done ev ->
  h_event_length (get_header ev) = previous_gtids_len binlog_checksum
    (match get_body ev with PreviousGtidsLogEvent _ m => m | _ => [] end) ->
  event_ok ev.
Proof.
  intros Hg Hts. unfold new_previous_gtids.
  destruct (set_gtid_messages_ok messages [] ltac:(by constructor) ltac:(done) Hg) as (m & -> & Hs & Hm).
  cbn [mbind outcome_bind]. destruct (Z.eqb_spec (u32 num) (zlen m)) as [E|]; [|done].
  intros H. injection H as <-. cbn [get_header get_body new_event]. intros Hl.
  unfold event_ok. cbn [get_header get_body get_checksum_flag new_event].
  split; [by apply header_of_new_header_ok|]. split; [apply config_flag_ok|]. split; [done|].
  pose proof (u32_range num). split; [|by rewrite Hl, previous_gtids_len_eq].
  repeat (split; [first [done | unfold is_u32, is_u64 in *; lia]|]). done.
Qed.

End ConstructorsOk.

(** C35: serialising a well-formed event never crashes and writes exactly the
    number of bytes its header announces, so a buffer of [event_length] bytes is
    enough and no byte of it is left unwritten; the constructors of format descriptions,
    rotate events and heartbeats build such events under either checksum setting. *)
Theorem flush_to_buff_length crc32 ev binlog_checksum server_id timestamp name position begin_position index op :
  event_ok ev -> is_u32 server_id -> is_u32 timestamp -> zlen name < 2 ^ 31 -> is_u64 position ->
  Forall (fun ev => exists b, flush_to_buff crc32 ev = Done b /\ zlen b = h_event_length (get_header ev))
    [ev; new_format_description binlog_checksum server_id timestamp;
     new_rotate binlog_checksum server_id position name timestamp begin_position index op;
     new_heartbeat_at binlog_checksum server_id name begin_position].
Proof.
  intros Hok Hs Ht Hn Hp.
  repeat constructor; apply flush_length; [done|..].
  - by apply new_format_description_ok.
  - by apply new_rotate_ok.
  - by apply new_heartbeat_ok.
Qed.

(** ** Concrete events *)

Definition sample_crc (b : bytes) : Z := u32 (sum b).
Definition sample_gtids : EventBody :=
  PreviousGtidsLogEvent 1
    [(dumphex sample_uuid, mkGtidMessage (Some sample_uuid) 2 [(1, 5); (9, 9)])].
Definition sample_previous_gtids : ObLogEvent :=
  mkEvent (mkHeader 100 PREVIOUS_GTIDS_LOG_EVENT 1 87 242 1) [] 0 CRC32 true sample_gtids.
Definition sample_query : ObLogEvent :=
  mkEvent (mkHeader 100 QUERY_EVENT 1 54 300 1) [] 0 CRC32 true
    (QueryEvent (mkQuery 7 0 4 5 0 8 ([0; 1; 0; 0; 6; 3; 115; 116]) (str "shop") (str "BEGIN") false)).

Lemma flush_to_buff_length_witness :
  Forall (fun ev => exists b, flush_to_buff sample_crc ev = Done b /\ zlen b = h_event_length (get_header ev))
    [sample_query; new_format_description false 1 100;
     new_rotate false 1 4 (str "mysql-bin.000002") 100 700 2 ROTATE;
     new_heartbeat_at false 1 (str "mysql-bin.000002") 700].
Proof.
  apply (flush_to_buff_length sample_crc sample_query false 1 100 (str "mysql-bin.000002") 4 700 2 ROTATE); by_compute.
Defined.

Lemma event_roundtrip_witness :
  exists b rd, flush_to_buff sample_crc sample_previous_gtids = Done b /\
    deserialize_event true PREVIOUS_GTIDS_LOG_EVENT = Some rd /\
    run_reader rd b = Some sample_previous_gtids.
Proof.
  apply (event_roundtrip sample_crc true sample_previous_gtids); [by_compute|done|done].
Defined.

Lemma format_description_flag_cleared_witness :
  let ev := new_format_description true 1 100 in
  overwrite FLAGS_OFFSET (int2store 0)
    (format_description_flush sample_crc (get_header ev) CRC32 (mkFormatDescription 4 (str "5.7.38") 100 19 []))
  = format_description_flush sample_crc (set_flags 0 (get_header ev)) CRC32
      (mkFormatDescription 4 (str "5.7.38") 100 19 []).
Proof. apply (format_description_flag_cleared sample_crc); [by_compute|done]. Defined.
