(* ===== verification/EventScan.v ===== *)
(** * EventScan: scanning a binlog file

    The functions of [src/src/binlog/ob_log_event.cpp] that walk a binlog file event by
    event: [seek_gtid_event], [seek_events], [verify_event_checksum] and
    [seek_and_verify_complete_trx].  A file is its bytes; [fuel] bounds the number of
    headers read, because a header whose [next_position] does not advance makes the
    source loop forever.  [Crash] covers the reads of uninitialised memory that a file
    shorter than its magic number leads to. *)

From S2P Require Import Prelude Bytes Str Gtid Events EventWire.

#[local] Open Scope Z_scope.

(** ** FsUtil::read_file *)

(** [fseek] and [fread] of exactly [len] bytes; a short read is an error. *)
Definition read_file (file : bytes) (start_pos len : Z) : option bytes :=
  if (0 <=? start_pos) && (0 <=? len) && (start_pos + len <=? zlen file)
  then Some (first len (skip start_pos file)) else None.

(** The magic number: compared even when the read failed. *)
Definition check_magic (file : bytes) (pos : Z) : outcome bool :=
  magic ← of_option (read_file file pos BINLOG_MAGIC_SIZE);
  Done (beq magic binlog_magic).

Definition read_header (file : bytes) (pos : Z) : option OblogEventHeader :=
  b ← read_file file pos COMMON_HEADER_LENGTH; run_reader header_deserialize b.

(** [malloc], [read_file] and [deserialize] of one event: [Done None] when the read
    failed, [Crash] when the object reads past its buffer or an [assert] fails. *)
Definition load_event (rd : reader ObLogEvent) (file : bytes) (pos len : Z) : outcome (option ObLogEvent) :=
  match read_file file pos len with
  | None => Done None
  | Some b => ev ← of_option (run_reader rd b); Done (Some ev)
  end.

(** The [while (pos < file_size)] loop the scans share: read the common header, stop
    when that fails, handle the event, go on at [next_position].  [None] when the fuel
    is not enough. *)
Fixpoint scan_loop {S} (step : bytes -> Z -> OblogEventHeader -> S -> outcome S) (fuel : nat)
    (file : bytes) (pos : Z) (s : S) : outcome (option (S * Z)) :=
  if pos <? zlen file then
    match fuel with
    | O => Done None
    | S fuel =>
        match read_header file pos with
        | None => Done (Some (s, pos))
        | Some h => s ← step file pos h s; scan_loop step fuel file (h_next_position h) s
        end
    end
  else Done (Some (s, pos)).

Section Scan.
Context (binlog_checksum : bool).

(** ** seek_gtid_event *)

Record gtid_scan := mkGtidScan {
  gs_gtid_log_events : list ObLogEvent;
  gs_rotate_existed : bool;
  gs_checksum_flag : Z;
  gs_last_xid : Z;
  gs_previous_gtid_messages : list GtidMessage
}.

Definition add_gtid_log_event (ev : ObLogEvent) (s : gtid_scan) : gtid_scan :=
  mkGtidScan (gs_gtid_log_events s ++ [ev]) (gs_rotate_existed s) (gs_checksum_flag s)
    (gs_last_xid s) (gs_previous_gtid_messages s).

(** What each class leaves in the result. *)
Definition gtid_scan_event (ev : ObLogEvent) (s : gtid_scan) : gtid_scan :=
  match get_body ev with
  | XidEvent xid =>
      mkGtidScan (gs_gtid_log_events s) (gs_rotate_existed s) (gs_checksum_flag s) xid
        (gs_previous_gtid_messages s)
  | GtidLogEvent _ => add_gtid_log_event ev s
  | FormatDescriptionEvent _ =>
      mkGtidScan (gs_gtid_log_events s) (gs_rotate_existed s) (get_checksum_flag ev) (gs_last_xid s)
        (gs_previous_gtid_messages s)
  | PreviousGtidsLogEvent _ ms =>
      mkGtidScan (gs_gtid_log_events s) (gs_rotate_existed s) (gs_checksum_flag s) (gs_last_xid s)
        (gs_previous_gtid_messages s ++ (snd <$> ms))
  | RotateEvent _ =>
      mkGtidScan (gs_gtid_log_events s) true (gs_checksum_flag s) (gs_last_xid s)
        (gs_previous_gtid_messages s)
  | _ => s
  end.

(** The types [seek_gtid_event] deserialises; a rotate event is only noticed. *)
Definition gtid_scan_reader (type_code : Z) : option (reader ObLogEvent) :=
  if type_code =? XID_EVENT then Some (xid_deserialize binlog_checksum)
  else if type_code =? GTID_LOG_EVENT then Some (gtid_log_deserialize binlog_checksum)
  else if type_code =? FORMAT_DESCRIPTION_EVENT then Some format_description_deserialize
  else if type_code =? PREVIOUS_GTIDS_LOG_EVENT then Some (previous_gtids_deserialize binlog_checksum)
  else None.

Definition gtid_scan_step (file : bytes) (pos : Z) (h : OblogEventHeader) (s : gtid_scan) : outcome gtid_scan :=
  match gtid_scan_reader (h_type_code h) with
  | Some rd =>
      ev ← load_event rd file pos (h_event_length h);
      Done (match ev with Some ev => gtid_scan_event ev s | None => s end)
  | None =>
      Done (if h_type_code h =? ROTATE_EVENT
            then mkGtidScan (gs_gtid_log_events s) true (gs_checksum_flag s) (gs_last_xid s)
                   (gs_previous_gtid_messages s)
            else s)
  end.

(** [file] is [None] when it cannot be opened, which the source reports as success. *)
Definition seek_gtid_event (fuel : nat) (file : option bytes) (s : gtid_scan) (pos : Z)
    : outcome (option (ret * gtid_scan * Z)) :=
  match file with
  | None => Done (Some (OMS_OK, s, pos))
  | Some file =>
      ok ← check_magic file pos;
      if (ok : bool) then
        r ← scan_loop gtid_scan_step fuel file (pos + BINLOG_MAGIC_SIZE) s;
        Done (match r with Some (s, pos) => Some (OMS_OK, s, pos) | None => None end)
      else Done (Some (OMS_FAILED, s, pos))
  end.

(** ** seek_events *)

(** One event: read in full whatever its type, kept when the type is asked for. *)
Definition seek_step (file : bytes) (pos event_type : Z) (h : OblogEventHeader) (log_events : list ObLogEvent)
    : outcome (list ObLogEvent) :=
  b ← of_option (read_file file pos (h_event_length h));
  if (event_type =? ENUM_END_EVENT) || (h_type_code h =? event_type) then
    match deserialize_event binlog_checksum (h_type_code h) with
    | Some rd => ev ← of_option (run_reader rd b); Done (log_events ++ [ev])
    | None => Done log_events
    end
  else Done log_events.

Fixpoint seek_loop (fuel : nat) (file : bytes) (pos event_type : Z) (single : bool) (log_events : list ObLogEvent)
    : outcome (option (list ObLogEvent)) :=
  if pos <? zlen file then
    match fuel with
    | O => Done None
    | S fuel =>
        h ← of_option (read_header file pos);
        log_events ← seek_step file pos event_type h log_events;
        if single && negb (bool_decide (log_events = [])) then Done (Some log_events)
        else seek_loop fuel file (h_next_position h) event_type single log_events
    end
  else Done (Some log_events).

Definition seek_events (fuel : nat) (file : bytes) (event_type : Z) (single : bool)
    : outcome (option (ret * list ObLogEvent)) :=
  ok ← check_magic file 0;
  if (ok : bool) then
    r ← seek_loop fuel file BINLOG_MAGIC_SIZE event_type single [];
    Done (match r with Some evs => Some (OMS_OK, evs) | None => None end)
  else Done (Some (OMS_FAILED, [])).

(** ** verify_event_checksum *)

Section Checksum.
Context (crc32 : bytes -> Z).

Definition verify_event_checksum (start_pos : Z) (file : bytes) (require_event_existed : bool) : outcome ret :=
  match read_header file start_pos with
  | None => Done (if require_event_existed then OMS_FAILED else OMS_OK)
  | Some h =>
      match read_file file start_pos (h_event_length h) with
      | None => Done OMS_FAILED
      | Some buffer =>
          let check_sum_pos := u32 (h_event_length h - 4) in
          tail ← of_option (read_file buffer check_sum_pos 4);
          let check_sum_compute := u32 (crc32 (first check_sum_pos buffer)) in
          Done (if int4load tail =? check_sum_compute then OMS_OK else OMS_FAILED)
      end
  end.

(** ** seek_and_verify_complete_trx *)

Record BinlogTrxOverview := mkOverview {
  has_previous_gtids_event : bool;
  last_complete_trx_end_pos : Z;
  last_complete_trx_gtid : Z;
  trx_need_truncated_gtid : Z;
  trx_specify_truncated_gtid : Z;
  trx_specify_truncated_end_pos : Z
}.

Definition new_overview (specify : Z) : BinlogTrxOverview := mkOverview false 0 0 0 specify 0.

Definition trx_previous_gtids (h : OblogEventHeader) (o : BinlogTrxOverview) : BinlogTrxOverview :=
  mkOverview true (h_next_position h) (last_complete_trx_gtid o) (trx_need_truncated_gtid o)
    (trx_specify_truncated_gtid o) (trx_specify_truncated_end_pos o).
Definition trx_gtid (gtid : Z) (o : BinlogTrxOverview) : BinlogTrxOverview :=
  mkOverview (has_previous_gtids_event o) (last_complete_trx_end_pos o) (last_complete_trx_gtid o)
    gtid (trx_specify_truncated_gtid o) (trx_specify_truncated_end_pos o).
Definition trx_end (h : OblogEventHeader) (o : BinlogTrxOverview) : BinlogTrxOverview :=
  let gtid := trx_need_truncated_gtid o in
  let end_pos := h_next_position h in
  mkOverview (has_previous_gtids_event o) end_pos gtid 0 (trx_specify_truncated_gtid o)
    (if gtid =? trx_specify_truncated_gtid o then end_pos else trx_specify_truncated_end_pos o).

(** One event of the scan; the second component is [last_event_start_pos_in_complete_trx]. *)
Definition trx_step (file : bytes) (pos : Z) (h : OblogEventHeader) (st : BinlogTrxOverview * Z)
    : outcome (BinlogTrxOverview * Z) :=
  let '(o, last) := st in
  if h_type_code h =? PREVIOUS_GTIDS_LOG_EVENT then Done (trx_previous_gtids h o, pos)
  else if h_type_code h =? GTID_LOG_EVENT then
    ev ← load_event (gtid_log_deserialize binlog_checksum) file pos (h_event_length h);
    Done (match get_body <$> ev with Some (GtidLogEvent e) => trx_gtid (gl_gtid_txn_id e) o | _ => o end, last)
  else if h_type_code h =? XID_EVENT then Done (trx_end h o, pos)
  else if h_type_code h =? QUERY_EVENT then
    ev ← load_event (query_deserialize binlog_checksum) file pos (h_event_length h);
    Done (match get_body <$> ev with
          | Some (QueryEvent e) =>
              if beq (cstr (q_sql_statment e)) BEGIN_VAR then (o, last) else (trx_end h o, pos)
          | _ => (o, last)
          end)
  else Done st.

Definition seek_and_verify_complete_trx (fuel : nat) (file : option bytes) (o : BinlogTrxOverview)
    : outcome (option (ret * BinlogTrxOverview)) :=
  match file with
  | None => Done (Some (OMS_FAILED, o))
  | Some file =>
      ok ← check_magic file 0;
      if (ok : bool) then
        r ← scan_loop trx_step fuel file BINLOG_MAGIC_SIZE (o, 0);
        match r with
        | None => Done None
        | Some ((o, last), _) =>
            if has_previous_gtids_event o then
              v ← verify_event_checksum last file true; Done (Some (v, o))
            else Done (Some (OMS_OK, o))
        end
      else Done (Some (OMS_OK, o))
  end.

End Checksum.
End Scan.

(** ** Files written by the storage *)

(** Events laid out one after the other from [pos]: each announces where it ends. *)
Fixpoint chained (pos : Z) (evs : list ObLogEvent) : Prop :=
  match evs with
  | [] => True
  | ev :: evs =>
      event_ok ev /\ h_next_position (get_header ev) = pos + h_event_length (get_header ev) /\
      chained (h_next_position (get_header ev)) evs
  end.
#[export] Instance chained_dec pos evs : Decision (chained pos evs).
Proof. revert pos. induction evs; intros; simpl; apply _. Defined.

Fixpoint flush_all (crc32 : bytes -> Z) (evs : list ObLogEvent) : outcome bytes :=
  match evs with
  | [] => Done []
  | ev :: evs => b ← flush_to_buff crc32 ev; bs ← flush_all crc32 evs; Done (b ++ bs)
  end.

Lemma read_file_mid (pre b post : bytes) pos len :
  zlen pre = pos -> zlen b = len -> read_file (pre ++ b ++ post) pos len = Some b.
Proof.
  intros Hp Hb. pose proof (zlen_nonneg pre). pose proof (zlen_nonneg b). pose proof (zlen_nonneg post).
  unfold read_file. rewrite !zlen_app. zif. simpl. by rewrite skip_app, first_app.
Qed.

Lemma read_file_short file pos len : zlen file < pos + len -> read_file file pos len = None.
Proof. intros. unfold read_file. rewrite (proj2 (Z.leb_gt (pos + len) _)) by lia. by rewrite andb_false_r. Qed.

Lemma read_header_mid pre h post pos :
  zlen pre = pos -> header_ok h -> read_header (pre ++ header_flush h ++ post) pos = Some h.
Proof.
  intros Hp Hh. unfold read_header. erewrite read_file_mid by done.
  cbn [mbind option_bind]. rewrite <-(app_nil_r (header_flush h)). unfold run_reader.
  by rewrite header_read.
Qed.

Section Written.
Context (crc32 : bytes -> Z).

(** An event of a file with what surrounds it. *)
Lemma flush_to_buff_header ev :
  event_ok ev -> exists rest, flush_to_buff crc32 ev = Done (header_flush (get_header ev) ++ rest) /\
    COMMON_HEADER_LENGTH + zlen rest = h_event_length (get_header ev).
Proof.
  intros Hok. destruct (flush_to_buff_eq crc32 ev Hok) as (p & ci & -> & Hp & _).
  destruct Hok as (_ & Hf & _ & _ & ->). eexists; split; [done|].
  rewrite zlen_app, Hp, zlen_trailer by done. unfold get_checksum_len. lia.
Qed.

Definition placed (file : bytes) (pos : Z) (ev : ObLogEvent) : Prop :=
  exists pre b post, file = pre ++ b ++ post /\ zlen pre = pos /\ flush_to_buff crc32 ev = Done b /\ event_ok ev.

Lemma placed_read file pos ev b :
  placed file pos ev -> flush_to_buff crc32 ev = Done b ->
  read_file file pos (h_event_length (get_header ev)) = Some b.
Proof.
  intros (pre & b' & post & -> & Hp & Hb & Hok) Hb'. rewrite Hb in Hb'. injection Hb' as ->.
  apply read_file_mid; [done|]. destruct (flush_to_buff_header ev Hok) as (rest & E & <-).
  rewrite E in Hb. apply Done_inj in Hb as <-. by rewrite zlen_app.
Qed.

Lemma placed_header file pos ev : placed file pos ev -> read_header file pos = Some (get_header ev).
Proof.
  intros (pre & b & post & -> & Hp & Hb & Hok).
  destruct (flush_to_buff_header ev Hok) as (rest & E & _). rewrite E in Hb. apply Done_inj in Hb as <-.
  rewrite <-app_assoc. apply read_header_mid; [done|]. apply Hok.
Qed.

Lemma placed_bounds file pos ev :
  placed file pos ev -> 0 <= pos /\ COMMON_HEADER_LENGTH <= h_event_length (get_header ev) /\
    pos + h_event_length (get_header ev) <= zlen file.
Proof.
  intros (pre & b & post & -> & <- & Hb & Hok).
  destruct (flush_to_buff_header ev Hok) as (rest & E & <-). rewrite E in Hb. apply Done_inj in Hb as <-.
  rewrite !zlen_app. rewrite zlen_header_flush.
  pose proof (zlen_nonneg pre). pose proof (zlen_nonneg rest). pose proof (zlen_nonneg post). lia.
Qed.

(** The scan over a chained file computes the fold of what each event means. *)
Fixpoint fold_events {S} (spec : Z -> ObLogEvent -> S -> S) (pos : Z) (evs : list ObLogEvent) (s : S) : S :=
  match evs with
  | [] => s
  | ev :: evs => fold_events spec (h_next_position (get_header ev)) evs (spec pos ev s)
  end.

Lemma scan_loop_prefix {S} step (spec : Z -> ObLogEvent -> S -> S) (P : ObLogEvent -> Prop) evs :
  (forall file pos ev s, placed file pos ev -> P ev -> step file pos (get_header ev) s = Done (spec pos ev s)) ->
  forall fuel pre body rest pos s,
  chained pos evs -> Forall P evs -> flush_all crc32 evs = Done body -> zlen pre = pos ->
  scan_loop step (length evs + fuel) (pre ++ body ++ rest) pos s
  = scan_loop step fuel (pre ++ body ++ rest) (pos + zlen body) (fold_events spec pos evs s).
Proof.
  intros Hstep. induction evs as [|ev evs IH]; intros fuel pre body rest pos s Hc HP Hb Hp.
  - injection Hb as <-. by rewrite zlen_nil, Z.add_0_r.
  - destruct Hc as (Hok & Hnext & Hc). apply Forall_cons in HP as [HPe HP].
    cbn [flush_all] in Hb. destruct (flush_to_buff_header ev Hok) as (tl & E & Hlen).
    rewrite E in Hb. cbn [mbind outcome_bind] in Hb.
    destruct (flush_all crc32 evs) as [bs|] eqn:Ebs; [|done]. apply Done_inj in Hb as <-.
    set (b := header_flush (get_header ev) ++ tl) in *.
    assert (zlen b = h_event_length (get_header ev)) as Hbl by (unfold b; by rewrite zlen_app).
    assert (placed (pre ++ (b ++ bs) ++ rest) pos ev) as Hpl.
    { exists pre, b, (bs ++ rest). by rewrite <-app_assoc. }
    pose proof (placed_bounds _ _ _ Hpl) as (? & ? & ?). unfold COMMON_HEADER_LENGTH in *.
    cbn [length Nat.add]. cbn [scan_loop].
    destruct (Z.ltb_spec pos (zlen (pre ++ (b ++ bs) ++ rest))); [|lia].
    rewrite (placed_header _ _ _ Hpl), (Hstep _ _ _ _ Hpl HPe). cbn [mbind outcome_bind fold_events].
    replace (pre ++ (b ++ bs) ++ rest) with ((pre ++ b) ++ bs ++ rest) by (by rewrite <-!app_assoc).
    rewrite IH; try done.
    + rewrite Hnext, zlen_app, Hbl. f_equal. lia.
    + rewrite zlen_app, Hbl, Hnext. lia.
Qed.

Lemma scan_loop_chained {S} step (spec : Z -> ObLogEvent -> S -> S) (P : ObLogEvent -> Prop) evs :
  (forall file pos ev s, placed file pos ev -> P ev -> step file pos (get_header ev) s = Done (spec pos ev s)) ->
  forall fuel pre body torn pos s,
  chained pos evs -> Forall P evs -> flush_all crc32 evs = Done body -> zlen pre = pos ->
  zlen torn < COMMON_HEADER_LENGTH -> (length evs < fuel)%nat ->
  scan_loop step fuel (pre ++ body ++ torn) pos s
  = Done (Some (fold_events spec pos evs s, pos + zlen body)).
Proof.
  intros Hstep fuel pre body torn pos s Hc HP Hb Hp Ht Hf.
  replace fuel with (length evs + Datatypes.S (fuel - length evs - 1))%nat by lia.
  rewrite (scan_loop_prefix step spec P evs) by done. cbn [scan_loop].
  destruct (Z.ltb_spec (pos + zlen body) (zlen (pre ++ body ++ torn))); [|done].
  unfold read_header. rewrite read_file_short; [done|]. rewrite !zlen_app. lia.
Qed.

(** The bytes after the last complete event, which ends at [pos]: less than a header, or the
    start of an event whose header alone does not count. *)
Definition torn_at (pos : Z) (torn : bytes) : Prop :=
  zlen torn < COMMON_HEADER_LENGTH \/
  exists t b n, event_ok t /\ h_next_position (get_header t) = pos + h_event_length (get_header t) /\
    h_type_code (get_header t) <> XID_EVENT /\ h_type_code (get_header t) <> PREVIOUS_GTIDS_LOG_EVENT /\
    flush_to_buff crc32 t = Done b /\ 0 <= n < zlen b /\ torn = first n b.

(** A torn event is passed over when the step only looks at complete ones. *)
Lemma scan_loop_torn {S} step (spec : Z -> ObLogEvent -> S -> S) (P : ObLogEvent -> Prop) evs :
  (forall file pos ev s, placed file pos ev -> P ev -> step file pos (get_header ev) s = Done (spec pos ev s)) ->
  (forall file pos h s, h_type_code h <> XID_EVENT -> h_type_code h <> PREVIOUS_GTIDS_LOG_EVENT -> 0 <= pos -> zlen file < pos + h_event_length h ->
    step file pos h s = Done s) ->
  forall fuel pre body torn pos s,
  chained pos evs -> Forall P evs -> flush_all crc32 evs = Done body -> zlen pre = pos ->
  torn_at (pos + zlen body) torn -> (length evs < fuel)%nat ->
  exists p, scan_loop step fuel (pre ++ body ++ torn) pos s = Done (Some (fold_events spec pos evs s, p)).
Proof.
  intros Hstep Htorn fuel pre body torn pos s Hc HP Hb Hp Ht Hf.
  destruct (decide (zlen torn < COMMON_HEADER_LENGTH)) as [Hs|Hs]; [eexists; by apply (scan_loop_chained step spec P)|].
  destruct Ht as [?|(t & b & n & Hok & Hnext & Hx & Hpr & Eb & Hn & ->)]; [lia|].
  destruct (flush_to_buff_header t Hok) as (rest & E & Hlen). rewrite E in Eb. apply Done_inj in Eb as <-. rewrite zlen_first in Hs by lia.
  rewrite zlen_app, zlen_header_flush in Hn. unfold COMMON_HEADER_LENGTH in *.
  assert (first n (header_flush (get_header t) ++ rest) = header_flush (get_header t) ++ first (n - 19) rest) as ->.
  { unfold first. rewrite take_app_ge by (simpl; lia). f_equal. f_equal. simpl. lia. }
  replace fuel with (length evs + Datatypes.S (fuel - length evs - 1))%nat by lia.
  rewrite (scan_loop_prefix step spec P evs) by done. set (file := pre ++ body ++ _). cbn [scan_loop].
  assert (zlen file = pos + zlen body + n) as Hfl.
  { unfold file. rewrite !zlen_app, zlen_header_flush, zlen_first by lia. unfold COMMON_HEADER_LENGTH. lia. }
  assert (read_header file (pos + zlen body) = Some (get_header t)) as Hh.
  { unfold file. rewrite (app_assoc pre). apply read_header_mid; [rewrite zlen_app; lia|apply Hok]. }
  rewrite (proj2 (Z.ltb_lt _ _)) by lia. rewrite Hh, Htorn by (done || pose proof (zlen_nonneg pre); pose proof (zlen_nonneg body); lia).
  cbn [mbind outcome_bind]. exists (h_next_position (get_header t)).
  destruct (fuel - length evs - 1)%nat; cbn [scan_loop]; by rewrite (proj2 (Z.ltb_ge _ _)) by lia.
Qed.

(** Splitting a written file at an event. *)
Definition end_pos (pos : Z) (evs : list ObLogEvent) : Z :=
  fold_left (fun _ ev => h_next_position (get_header ev)) evs pos.

Lemma flush_all_app evs1 evs2 body :
  flush_all crc32 (evs1 ++ evs2) = Done body ->
  exists a b, flush_all crc32 evs1 = Done a /\ flush_all crc32 evs2 = Done b /\ body = a ++ b.
Proof.
  revert body. induction evs1 as [|ev evs1 IH]; intros body H; [by exists [], body|].
  cbn [flush_all app] in *. destruct (flush_to_buff crc32 ev) as [b0|]; [|done]. cbn [mbind outcome_bind] in *.
  destruct (flush_all crc32 (evs1 ++ evs2)) as [bs|]; [|done].
  destruct (IH _ eq_refl) as (a & b & -> & -> & ->). apply Done_inj in H as <-.
  exists (b0 ++ a), b. by rewrite <-app_assoc.
Qed.

Lemma chained_app pos evs1 evs2 :
  chained pos (evs1 ++ evs2) <-> chained pos evs1 /\ chained (end_pos pos evs1) evs2.
Proof.
  revert pos. induction evs1 as [|ev evs1 IH]; intros pos; [simpl; tauto|].
  cbn [chained app]. rewrite IH. unfold end_pos. cbn [fold_left]. tauto.
Qed.

Lemma chained_end pos evs body :
  chained pos evs -> flush_all crc32 evs = Done body -> end_pos pos evs = pos + zlen body.
Proof.
  revert pos body. induction evs as [|ev evs IH]; intros pos body Hc Hb.
  { injection Hb as <-. rewrite zlen_nil. unfold end_pos. simpl. lia. }
  destruct Hc as (Hok & Hnext & Hc). cbn [flush_all] in Hb.
  destruct (flush_to_buff_header ev Hok) as (tl & E & Hlen). rewrite E in Hb. cbn [mbind outcome_bind] in Hb.
  destruct (flush_all crc32 evs) as [bs|] eqn:Ebs; [|done]. apply Done_inj in Hb as <-.
  unfold end_pos in *. cbn [fold_left]. rewrite (IH _ _ Hc eq_refl), Hnext. rewrite !zlen_app, zlen_header_flush. lia.
Qed.

Lemma chained_placed evs1 ev evs2 pre body rest pos :
  chained pos (evs1 ++ ev :: evs2) -> flush_all crc32 (evs1 ++ ev :: evs2) = Done body -> zlen pre = pos ->
  placed (pre ++ body ++ rest) (end_pos pos evs1) ev.
Proof.
  intros Hc Hb Hp. apply flush_all_app in Hb as (a & b & Ha & Hb & ->).
  apply chained_app in Hc as [Hc1 (Hok & Hnext & Hc2)]. cbn [flush_all] in Hb.
  destruct (flush_to_buff crc32 ev) as [b0|] eqn:E0; [|done]. cbn [mbind outcome_bind] in Hb.
  destruct (flush_all crc32 evs2) as [bs|]; [|done]. apply Done_inj in Hb as <-.
  exists (pre ++ a), b0, (bs ++ rest). rewrite <-!app_assoc. split; [done|].
  split; [|done]. rewrite zlen_app, (chained_end _ _ _ Hc1 Ha). lia.
Qed.

Lemma fold_events_app {S} (spec : Z -> ObLogEvent -> S -> S) evs1 evs2 pos s :
  fold_events spec pos (evs1 ++ evs2) s
  = fold_events spec (end_pos pos evs1) evs2 (fold_events spec pos evs1 s).
Proof. revert pos s. induction evs1 as [|ev evs1 IH]; intros pos s; [done|]. apply IH. Qed.

End Written.

(** ** What the scans compute on a written file *)

Section Specs.
Context (crc32 : bytes -> Z) (binlog_checksum : bool).

(** Written under the same checksum configuration as the reader's. *)
Definition same_config (ev : ObLogEvent) : Prop :=
  get_checksum_flag ev = config_checksum_flag binlog_checksum.
#[export] Instance same_config_dec ev : Decision (same_config ev).
Proof. unfold same_config. apply _. Defined.

Lemma load_event_placed file pos ev :
  placed crc32 file pos ev -> readable (get_body ev) = true -> same_config ev ->
  load_event (reader_of binlog_checksum (get_body ev)) file pos (h_event_length (get_header ev))
  = Done (Some (reread ev)).
Proof.
  intros Hpl Hr Hc. pose proof Hpl as (_ & b & _ & _ & _ & Hb & Hok).
  unfold load_event. rewrite (placed_read _ _ _ _ _ Hpl Hb).
  by rewrite (event_read_back crc32 binlog_checksum ev b).
Qed.

Definition gtid_scan_spec (_ : Z) (ev : ObLogEvent) (s : gtid_scan) : gtid_scan :=
  gtid_scan_event (reread ev) s.

Definition gtid_scanned (b : EventBody) : bool :=
  match b with
  | XidEvent _ | GtidLogEvent _ | FormatDescriptionEvent _ | PreviousGtidsLogEvent _ _ => true
  | _ => false
  end.

(** [type_cases] turns the type code of a body into the constant of its class. *)
Ltac type_cases H :=
  cbn [body_type_ok] in H;
  try match type of H with context [r_rows_event_type ?e] => destruct (r_rows_event_type e) end;
  rewrite ?orb_true_iff, ?Z.eqb_eq in H; destruct_or? H; rewrite H.

Lemma gtid_scan_reader_class t b :
  body_type_ok t b = true ->
  gtid_scan_reader binlog_checksum t = if gtid_scanned b then Some (reader_of binlog_checksum b) else None.
Proof. intros H. destruct b as [e|n ms|e|e|e|xid|e|e|name]; type_cases H; done. Qed.

Lemma gtid_scan_step_spec file pos ev s :
  placed crc32 file pos ev -> same_config ev ->
  gtid_scan_step binlog_checksum file pos (get_header ev) s = Done (gtid_scan_spec pos ev s).
Proof.
  intros Hpl Hc. pose proof Hpl as (_ & _ & _ & _ & _ & _ & Hok). destruct Hok as (_ & _ & Ht & _).
  unfold gtid_scan_step. rewrite (gtid_scan_reader_class _ _ Ht).
  destruct (gtid_scanned (get_body ev)) eqn:Es.
  - rewrite load_event_placed; [done|done| |done]. by destruct (get_body ev).
  - unfold gtid_scan_spec, gtid_scan_event, reread. cbn [get_body].
    destruct (get_body ev) as [e|n ms|e|e|e|xid|e|e|name]; try done; type_cases Ht; done.
Qed.

Definition trx_spec (pos : Z) (ev : ObLogEvent) (st : BinlogTrxOverview * Z) : BinlogTrxOverview * Z :=
  let '(o, last) := st in
  match get_body ev with
  | PreviousGtidsLogEvent _ _ => (trx_previous_gtids (get_header ev) o, pos)
  | GtidLogEvent e => (trx_gtid (gl_gtid_txn_id e) o, last)
  | XidEvent _ => (trx_end (get_header ev) o, pos)
  | QueryEvent e =>
      if beq (cstr (q_sql_statment e)) BEGIN_VAR then st else (trx_end (get_header ev) o, pos)
  | _ => st
  end.

Lemma trx_step_spec file pos ev st :
  placed crc32 file pos ev -> same_config ev ->
  trx_step binlog_checksum file pos (get_header ev) st = Done (trx_spec pos ev st).
Proof.
  intros Hpl Hc. pose proof Hpl as (_ & _ & _ & _ & _ & _ & Hok). destruct Hok as (_ & _ & Ht & _).
  pose proof (load_event_placed _ _ _ Hpl) as Hl. destruct st as [o last]. unfold trx_step, trx_spec, reread in *.
  destruct (get_body ev) as [e|n ms|e|e|e|xid|e|e|name]; cbn [reader_of] in Hl; type_cases Ht; try done.
  - cbn -[load_event]. by rewrite Hl.
  - cbn -[load_event]. rewrite Hl by done. cbn. by destruct (beq _ _).
Qed.

(** ** The checksum of a written event *)

Lemma verify_placed file pos ev :
  placed crc32 file pos ev -> get_checksum_flag ev = CRC32 ->
  (forall e, get_body ev <> FormatDescriptionEvent e) ->
  (forall b, is_u32 (crc32 b)) ->
  verify_event_checksum crc32 pos file true = Done OMS_OK.
Proof.
  intros Hpl Hf Hn Hcrc. pose proof Hpl as (_ & b & _ & _ & _ & Hb & Hok).
  unfold verify_event_checksum. rewrite (placed_header _ _ _ _ Hpl), (placed_read _ _ _ _ _ Hpl Hb).
  destruct (flush_to_buff_eq crc32 ev Hok) as (p & ci & E & Hp & Hci).
  rewrite E in Hb. apply Done_inj in Hb as <-.
  assert (ci = header_flush (get_header ev) ++ p) as ->.
  { destruct (get_body ev) eqn:Eb; [by destruct (Hn e)|by destruct Hci..]. }
  destruct Hok as (Hh & _ & _ & _ & Hl). unfold get_checksum_len in Hl. rewrite Hf in *.
  unfold trailer. rewrite Z.eqb_refl. set (c := crc32 (header_flush (get_header ev) ++ p)).
  assert (u32 (h_event_length (get_header ev) - 4) = zlen (header_flush (get_header ev) ++ p)) as Hcp.
  { destruct Hh as (_ & _ & _ & He & _). rewrite zlen_app, Hp. unfold is_u32 in He. rewrite zlen_header_flush.
    change (checksum_len_of CRC32) with 4 in Hl. pose proof (zlen_nonneg p).
    rewrite u32_id; [lia|]. unfold is_u32, COMMON_HEADER_LENGTH in *. lia. }
  pose proof (read_file_mid (header_flush (get_header ev) ++ p) (int4store c) [] _ 4 eq_refl eq_refl) as Hr.
  rewrite app_nil_r in Hr. rewrite Hcp.
  replace (header_flush (get_header ev) ++ p ++ int4store c) with ((header_flush (get_header ev) ++ p) ++ int4store c) by (by rewrite <-app_assoc).
  cbn zeta. rewrite Hr. cbn [of_option mbind outcome_bind].
  rewrite first_app by done. fold c.
  pose proof (int4load_store c [] (Hcrc _)) as Hld. rewrite app_nil_r in Hld.
  by rewrite Hld, u32_id, Z.eqb_refl by apply Hcrc.
Qed.

End Specs.

(** ** Properties *)

Definition binlog_file (body : bytes) : bytes := binlog_magic ++ body.

Lemma check_magic_file body : check_magic (binlog_file body) 0 = Done true.
Proof.
  unfold check_magic, binlog_file. pose proof (read_file_mid [] binlog_magic body 0 4 eq_refl eq_refl) as H.
  rewrite app_nil_l in H. unfold BINLOG_MAGIC_SIZE. by rewrite H.
Qed.

Definition wanted (event_type : Z) (ev : ObLogEvent) : bool :=
  (event_type =? ENUM_END_EVENT) || (h_type_code (get_header ev) =? event_type).

(** What [seek_events] is asked for. *)
Definition sought (event_type : Z) (single : bool) (evs : list ObLogEvent) : list ObLogEvent :=
  let found := reread <$> filter (fun ev => wanted event_type ev = true) evs in
  if single then take 1 found else found.

Section Properties.
Context (crc32 : bytes -> Z) (binlog_checksum : bool).

Lemma seek_gtid_event_ok evs body torn fuel s :
  chained BINLOG_MAGIC_SIZE evs -> Forall (same_config binlog_checksum) evs ->
  flush_all crc32 evs = Done body -> zlen torn < COMMON_HEADER_LENGTH -> (length evs < fuel)%nat ->
  seek_gtid_event binlog_checksum fuel (Some (binlog_file (body ++ torn))) s 0
  = Done (Some (OMS_OK, fold_left (fun s ev => gtid_scan_event (reread ev) s) evs s,
                zlen (binlog_file body))).
Proof.
  intros Hc HP Hb Ht Hf. unfold seek_gtid_event. rewrite check_magic_file. cbn [mbind outcome_bind].
  unfold binlog_file. rewrite (scan_loop_chained crc32 _ gtid_scan_spec (same_config binlog_checksum) evs); try done.
  - cbn [mbind outcome_bind]. rewrite zlen_app. repeat f_equal.
    generalize (0 + BINLOG_MAGIC_SIZE). revert s. clear. induction evs as [|ev evs IH]; intros s p; [done|].
    simpl. rewrite IH. done.
  - intros. by apply (gtid_scan_step_spec crc32).
Qed.

(** on a file the storage wrote, the recovery scan terminates, stops
    exactly at the end of the complete events (a torn header at the end is ignored), and
    collects every GTID event, the last xid, the presence of a rotate event, the
    checksum mode of the file and its previous GTIDs. *)
Theorem seek_gtid_event_written evs body torn fuel s :
  chained BINLOG_MAGIC_SIZE evs -> Forall (same_config binlog_checksum) evs ->
  flush_all crc32 evs = Done body -> zlen torn < COMMON_HEADER_LENGTH -> (length evs < fuel)%nat ->
  seek_gtid_event binlog_checksum fuel (Some (binlog_file (body ++ torn))) s 0
  = Done (Some (OMS_OK, fold_left (fun s ev => gtid_scan_event (reread ev) s) evs s,
                zlen (binlog_file body))).
Proof. apply seek_gtid_event_ok. Qed.

Lemma seek_step_placed file pos ev event_type acc :
  placed crc32 file pos ev -> same_config binlog_checksum ev ->
  (wanted event_type ev = true -> readable (get_body ev) = true) ->
  seek_step binlog_checksum file pos event_type (get_header ev) acc
  = Done (if wanted event_type ev then acc ++ [reread ev] else acc).
Proof.
  intros Hpl Hc Hr. pose proof Hpl as (_ & b & _ & _ & _ & Hb & Hok).
  unfold seek_step. rewrite (placed_read _ _ _ _ _ Hpl Hb). cbn [of_option mbind outcome_bind].
  fold (wanted event_type ev). destruct (wanted event_type ev); [|done]. specialize (Hr eq_refl).
  rewrite (deserialize_event_class _ _ (get_body ev)); [|apply Hok|done].
  by rewrite (event_read_back crc32 binlog_checksum ev b).
Qed.

Lemma seek_loop_written event_type single evs : forall fuel pre body pos acc,
  chained pos evs -> Forall (same_config binlog_checksum) evs ->
  Forall (fun ev => wanted event_type ev = true -> readable (get_body ev) = true) evs ->
  flush_all crc32 evs = Done body -> zlen pre = pos -> (length evs < fuel)%nat ->
  (single = true -> acc = []) ->
  seek_loop binlog_checksum fuel (pre ++ body) pos event_type single acc
  = Done (Some (acc ++ sought event_type single evs)).
Proof.
  induction evs as [|ev evs IH]; intros fuel pre body pos acc Hc HP HR Hb Hp Hf Hs.
  - injection Hb as <-. rewrite app_nil_r. unfold sought.
    replace (if single then _ else _) with (@nil ObLogEvent) by (by destruct single).
    rewrite app_nil_r. destruct fuel; cbn [seek_loop]; rewrite (proj2 (Z.ltb_ge _ _)) by lia; done.
  - destruct Hc as (Hok & Hnext & Hc). apply Forall_cons in HP as [HPe HP]. apply Forall_cons in HR as [HRe HR].
    cbn [flush_all] in Hb. destruct (flush_to_buff_header crc32 ev Hok) as (rest & E & Hlen).
    rewrite E in Hb. cbn [mbind outcome_bind] in Hb.
    destruct (flush_all crc32 evs) as [bs|] eqn:Ebs; [|done]. apply Done_inj in Hb as <-.
    set (b := header_flush (get_header ev) ++ rest) in *.
    assert (zlen b = h_event_length (get_header ev)) as Hbl by (unfold b; by rewrite zlen_app).
    assert (placed crc32 (pre ++ b ++ bs) pos ev) as Hpl by (by exists pre, b, bs).
    pose proof (placed_bounds _ _ _ _ Hpl) as (? & ? & ?). unfold COMMON_HEADER_LENGTH in *.
    destruct fuel as [|fuel]; [simpl in Hf; lia|]. cbn [seek_loop].
    destruct (Z.ltb_spec pos (zlen (pre ++ b ++ bs))); [|lia].
    rewrite (placed_header _ _ _ _ Hpl). cbn [of_option mbind outcome_bind].
    rewrite (seek_step_placed _ _ _ _ _ Hpl HPe HRe). cbn [mbind outcome_bind].
    unfold sought. rewrite filter_cons.
    assert (forall acc', (single = true -> acc' = []) -> seek_loop binlog_checksum fuel (pre ++ b ++ bs)
      (h_next_position (get_header ev)) event_type single acc' = Done (Some (acc' ++ sought event_type single evs))) as IH'.
    { intros acc' Ha. replace (pre ++ b ++ bs) with ((pre ++ b) ++ bs) by (by rewrite <-app_assoc).
      apply IH; try done; [rewrite zlen_app, Hbl, Hnext; lia|simpl in Hf; lia]. }
    destruct (wanted event_type ev) eqn:Ew; cbn [bool_decide decide decide_rel]; destruct single; simpl.
    + rewrite (Hs eq_refl). done.
    + rewrite IH' by done. unfold sought. by rewrite <-app_assoc.
    + rewrite (Hs eq_refl). simpl. rewrite IH' by done. done.
    + by rewrite IH'.
Qed.

Lemma seek_events_ok evs body fuel event_type single :
  chained BINLOG_MAGIC_SIZE evs -> Forall (same_config binlog_checksum) evs ->
  Forall (fun ev => wanted event_type ev = true -> readable (get_body ev) = true) evs ->
  flush_all crc32 evs = Done body -> (length evs < fuel)%nat ->
  seek_events binlog_checksum fuel (binlog_file body) event_type single
  = Done (Some (OMS_OK, sought event_type single evs)).
Proof.
  intros Hc HP HR Hb Hf. unfold seek_events. rewrite check_magic_file. cbn [mbind outcome_bind].
  unfold binlog_file. by rewrite (seek_loop_written event_type single evs).
Qed.

(** [seek_events] on a written file returns exactly the events of the
    requested type in file order (all of them for [ENUM_END_EVENT]), or the first one
    when a single event is asked for. *)
Theorem seek_events_written evs body fuel event_type single :
  chained BINLOG_MAGIC_SIZE evs -> Forall (same_config binlog_checksum) evs ->
  Forall (fun ev => wanted event_type ev = true -> readable (get_body ev) = true) evs ->
  flush_all crc32 evs = Done body -> (length evs < fuel)%nat ->
  seek_events binlog_checksum fuel (binlog_file body) event_type single
  = Done (Some (OMS_OK, sought event_type single evs)).
Proof. apply seek_events_ok. Qed.

(** ** Complete transactions *)

(** A transaction ends with its xid, or with the statement itself for a ddl. *)
Definition ends_trx (ev : ObLogEvent) : bool :=
  match get_body ev with
  | XidEvent _ => true
  | QueryEvent e => negb (beq (cstr (q_sql_statment e)) BEGIN_VAR)
  | _ => false
  end.
Definition is_previous_gtids (ev : ObLogEvent) : bool :=
  match get_body ev with PreviousGtidsLogEvent _ _ => true | _ => false end.

(** The GTID of the transaction still open after the events, 0 for none. *)
Definition open_gtid (g : Z) (evs : list ObLogEvent) : Z :=
  fold_left (fun g ev => match get_body ev with
    | GtidLogEvent e => gl_gtid_txn_id e
    | _ => if ends_trx ev then 0 else g
    end) evs g.

Lemma trx_spec_cases pos ev o last :
  trx_spec pos ev (o, last) =
    if ends_trx ev then (trx_end (get_header ev) o, pos)
    else if is_previous_gtids ev then (trx_previous_gtids (get_header ev) o, pos)
    else (trx_gtid (open_gtid (trx_need_truncated_gtid o) [ev]) o, last).
Proof.
  assert (forall o, trx_gtid (trx_need_truncated_gtid o) o = o) as Hid by (by intros []).
  unfold trx_spec, ends_trx, is_previous_gtids, open_gtid, ends_trx. cbn [fold_left].
  destruct (get_body ev); try (by rewrite Hid); try done.
  destruct (beq _ _); simpl; by rewrite ?Hid.
Qed.

Lemma fold_trx_open evs pos o last :
  trx_need_truncated_gtid (fold_events trx_spec pos evs (o, last)).1
  = open_gtid (trx_need_truncated_gtid o) evs.
Proof.
  revert pos o last. induction evs as [|ev evs IH]; intros pos o last; [done|].
  cbn [fold_events]. rewrite trx_spec_cases. change (open_gtid ?g (ev :: evs)) with (open_gtid (open_gtid g [ev]) evs).
  destruct (ends_trx ev) eqn:E1; [|destruct (is_previous_gtids ev) eqn:E2]; rewrite IH; [f_equal..|done].
  - unfold open_gtid. cbn [fold_left]. rewrite E1. unfold ends_trx in E1. by destruct (get_body ev).
  - unfold open_gtid. cbn [fold_left]. rewrite E1. unfold is_previous_gtids in E2. by destruct (get_body ev).
Qed.

(** Events that neither end a transaction nor open the file leave the overview alone. *)
Lemma fold_trx_tail evs pos o last :
  Forall (fun ev => ends_trx ev = false /\ is_previous_gtids ev = false) evs ->
  exists g, fold_events trx_spec pos evs (o, last) = (trx_gtid g o, last).
Proof.
  revert pos o. induction evs as [|ev evs IH]; intros pos o H.
  { exists (trx_need_truncated_gtid o). by destruct o. }
  apply Forall_cons in H as [[H1 H2] H]. cbn [fold_events]. rewrite trx_spec_cases, H1, H2.
  destruct (IH (h_next_position (get_header ev)) (trx_gtid (open_gtid (trx_need_truncated_gtid o) [ev]) o) H) as [g ->].
  by exists g.
Qed.

Lemma fold_trx_has_previous evs pos o last :
  has_previous_gtids_event (fold_events trx_spec pos evs (o, last)).1
  = has_previous_gtids_event o || existsb is_previous_gtids evs.
Proof.
  revert pos o last. induction evs as [|ev evs IH]; intros pos o last; [by rewrite orb_false_r|].
  cbn [fold_events existsb]. rewrite trx_spec_cases.
  destruct (ends_trx ev) eqn:E1; [|destruct (is_previous_gtids ev) eqn:E2]; rewrite IH; simpl.
  - unfold ends_trx, is_previous_gtids in *. by destruct (get_body ev).
  - by rewrite orb_true_r.
  - done.
Qed.

(** The checksum function returns a 32-bit value, as zlib documents. *)
Definition crc32_ok : Prop := forall b, is_u32 (crc32 b).

Lemma trx_step_torn cs file pos h s :
  h_type_code h <> XID_EVENT -> h_type_code h <> PREVIOUS_GTIDS_LOG_EVENT -> 0 <= pos -> zlen file < pos + h_event_length h -> trx_step cs file pos h s = Done s.
Proof.
  intros Hx Hp H0 Hl. destruct s as [o last]. unfold trx_step, load_event. rewrite (proj2 (Z.eqb_neq _ PREVIOUS_GTIDS_LOG_EVENT) Hp), (proj2 (Z.eqb_neq _ XID_EVENT) Hx).
  rewrite read_file_short by done. destruct (_ =? GTID_LOG_EVENT); [done|]. by destruct (_ =? QUERY_EVENT).
Qed.

Lemma complete_trx_scan evs e tail kept lost torn fuel specify :
  binlog_checksum = true -> crc32_ok ->
  chained BINLOG_MAGIC_SIZE ((evs ++ [e]) ++ tail) ->
  Forall (same_config binlog_checksum) ((evs ++ [e]) ++ tail) ->
  existsb is_previous_gtids evs = true -> ends_trx e = true ->
  Forall (fun ev => ends_trx ev = false /\ is_previous_gtids ev = false) tail ->
  flush_all crc32 (evs ++ [e]) = Done kept -> flush_all crc32 ((evs ++ [e]) ++ tail) = Done (kept ++ lost) ->
  torn_at crc32 (end_pos BINLOG_MAGIC_SIZE ((evs ++ [e]) ++ tail)) torn -> (length ((evs ++ [e]) ++ tail) < fuel)%nat ->
  exists o, seek_and_verify_complete_trx binlog_checksum crc32 fuel
      (Some (binlog_file ((kept ++ lost) ++ torn))) (new_overview specify) = Done (Some (OMS_OK, o)) /\
    has_previous_gtids_event o = true /\
    last_complete_trx_end_pos o = zlen (binlog_file kept) /\
    last_complete_trx_gtid o = open_gtid 0 evs /\
    trx_need_truncated_gtid o = open_gtid 0 tail.
Proof.
  intros Hcs Hcrc Hc HP Hprev He Htail Hk Hall Ht Hf.
  unfold seek_and_verify_complete_trx. rewrite check_magic_file. cbn [mbind outcome_bind]. unfold binlog_file.
  rewrite (chained_end crc32 _ _ _ Hc Hall) in Ht.
  destruct (scan_loop_torn crc32 (trx_step binlog_checksum) trx_spec (same_config binlog_checksum) ((evs ++ [e]) ++ tail)
    ltac:(intros; by apply (trx_step_spec crc32)) (trx_step_torn binlog_checksum) fuel binlog_magic (kept ++ lost) torn BINLOG_MAGIC_SIZE (new_overview specify, 0) Hc HP Hall eq_refl Ht Hf) as [p ->].
  cbn [mbind outcome_bind]. rewrite !fold_events_app. cbn [fold_events].
  pose proof (fold_trx_open evs BINLOG_MAGIC_SIZE (new_overview specify) 0) as Hopen.
  pose proof (fold_trx_has_previous evs BINLOG_MAGIC_SIZE (new_overview specify) 0) as Hhas.
  destruct (fold_events trx_spec BINLOG_MAGIC_SIZE evs (new_overview specify, 0)) as [o1 last1].
  cbn [fst] in Hhas, Hopen. rewrite Hprev in Hhas. simpl in Hhas, Hopen.
  rewrite trx_spec_cases, He. set (pe := end_pos BINLOG_MAGIC_SIZE evs).
  pose proof (fold_trx_open tail (end_pos BINLOG_MAGIC_SIZE (evs ++ [e])) (trx_end (get_header e) o1) pe) as Hopen2.
  destruct (fold_trx_tail tail (end_pos BINLOG_MAGIC_SIZE (evs ++ [e])) (trx_end (get_header e) o1) pe Htail) as [g Eg].
  rewrite Eg in *. simpl in Hopen2.
  assert (placed crc32 (binlog_magic ++ (kept ++ lost) ++ torn) pe e) as Hpl.
  { unfold pe. rewrite <-app_assoc in Hc, Hall. by eapply chained_placed. }
  cbn [has_previous_gtids_event trx_gtid trx_end]. rewrite Hhas.
  rewrite (verify_placed crc32 _ _ _ Hpl); [| | |done].
  - eexists. split; [done|].
    cbn [has_previous_gtids_event last_complete_trx_end_pos last_complete_trx_gtid trx_need_truncated_gtid trx_gtid trx_end].
    split; [done|]. split; [|split; [done|by rewrite Hopen2]].
    apply chained_app in Hc as [Hc _]. pose proof (chained_end crc32 _ _ _ Hc Hk) as Hend.
    unfold end_pos in Hend. rewrite fold_left_app in Hend. simpl in Hend.
    rewrite Hend. unfold binlog_file. rewrite zlen_app. done.
  - rewrite Hcs in HP. apply Forall_app in HP as [HP _]. apply Forall_app in HP as [_ HP].
    by apply Forall_inv in HP.
  - intros f Ef. unfold ends_trx in He. by rewrite Ef in He.
Qed.

(** C12: crash recovery, with checksums on.  When a binlog holds complete transactions up to
    [e], then complete events [tail] of a transaction that never ended, and then bytes that
    were torn off, less than a common header or the start of any event but an xid event, the
    scan succeeds, verifies the checksum of [e], and reports the end of [e] as the place to
    truncate at: keeping that many bytes keeps exactly the events up to [e].  It also reports
    the GTID of the transaction that must be dropped (0 when there is none).  A file torn
    inside an xid event is refused: [torn_xid_is_refused]. *)
Theorem recovery_keeps_complete_transactions evs e tail kept lost torn fuel specify :
  binlog_checksum = true -> crc32_ok ->
  chained BINLOG_MAGIC_SIZE ((evs ++ [e]) ++ tail) ->
  Forall (same_config binlog_checksum) ((evs ++ [e]) ++ tail) ->
  existsb is_previous_gtids evs = true -> ends_trx e = true ->
  Forall (fun ev => ends_trx ev = false /\ is_previous_gtids ev = false) tail ->
  flush_all crc32 (evs ++ [e]) = Done kept -> flush_all crc32 ((evs ++ [e]) ++ tail) = Done (kept ++ lost) ->
  torn_at crc32 (end_pos BINLOG_MAGIC_SIZE ((evs ++ [e]) ++ tail)) torn -> (length ((evs ++ [e]) ++ tail) < fuel)%nat ->
  exists o, seek_and_verify_complete_trx binlog_checksum crc32 fuel
      (Some (binlog_file ((kept ++ lost) ++ torn))) (new_overview specify) = Done (Some (OMS_OK, o)) /\
    has_previous_gtids_event o = true /\
    first (last_complete_trx_end_pos o) (binlog_file ((kept ++ lost) ++ torn)) = binlog_file kept /\
    last_complete_trx_gtid o = open_gtid 0 evs /\
    trx_need_truncated_gtid o = open_gtid 0 tail.
Proof.
  intros Hcs Hcrc Hc HP Hprev He Htail Hk Hall Ht Hf.
  destruct (complete_trx_scan evs e tail kept lost torn fuel specify) as (o & E & H1 & H2 & H3 & H4); try done.
  exists o. split; [done|]. split; [done|]. split; [|done]. rewrite H2. unfold binlog_file.
  rewrite <-!app_assoc, (app_assoc binlog_magic). by apply first_app.
Qed.

(** the scan takes an xid event as the end of a transaction from its header
    alone.  When the process died inside an xid event, after its common header, the scan
    moves [last_complete_trx_end_pos] past the end of the file and then fails to read the
    event whose checksum it must verify: the file is refused instead of being truncated to
    the previous transaction. *)
Theorem torn_xid_is_refused evs e xid body b n fuel specify :
  chained BINLOG_MAGIC_SIZE (evs ++ [e]) -> Forall (same_config binlog_checksum) evs ->
  existsb is_previous_gtids evs = true -> get_body e = XidEvent xid ->
  flush_all crc32 evs = Done body -> flush_to_buff crc32 e = Done b ->
  COMMON_HEADER_LENGTH <= n < zlen b -> (length evs < fuel)%nat ->
  exists o, seek_and_verify_complete_trx binlog_checksum crc32 fuel
      (Some (binlog_file (body ++ first n b))) (new_overview specify) = Done (Some (OMS_FAILED, o)) /\
    zlen (binlog_file (body ++ first n b)) < last_complete_trx_end_pos o.
Proof.
  intros Hc HP Hprev Hxid Hb He Hn Hf. apply chained_app in Hc as [Hc (Hok & Hnext & _)].
  destruct (flush_to_buff_header crc32 e Hok) as (rest & E & Hlen).
  rewrite E in He. apply Done_inj in He as <-. unfold COMMON_HEADER_LENGTH in *.
  rewrite zlen_app, zlen_header_flush in Hn. unfold COMMON_HEADER_LENGTH in Hn.
  assert (exists r, first n (header_flush (get_header e) ++ rest) = header_flush (get_header e) ++ r /\ 19 + zlen r = n) as (r & -> & Hr).
  { exists (first (n - 19) rest). split; [|rewrite zlen_first by lia; lia].
    unfold first. rewrite take_app_ge by (simpl; lia). f_equal. f_equal. simpl. lia. }
  unfold seek_and_verify_complete_trx. rewrite check_magic_file. cbn [mbind outcome_bind]. unfold binlog_file.
  replace fuel with (length evs + S (fuel - length evs - 1))%nat by lia.
  rewrite (scan_loop_prefix crc32 _ trx_spec (same_config binlog_checksum) evs); try done;
    [|intros; by apply (trx_step_spec crc32)].
  pose proof (fold_trx_has_previous evs BINLOG_MAGIC_SIZE (new_overview specify) 0) as Hhas.
  destruct (fold_events _ _ _ _) as [o last]. cbn [fst] in Hhas. rewrite Hprev in Hhas. simpl in Hhas.
  rewrite (chained_end crc32 _ _ _ Hc Hb) in Hnext.
  set (pos := BINLOG_MAGIC_SIZE + zlen body) in *.
  set (file := binlog_magic ++ body ++ header_flush (get_header e) ++ r).
  assert (zlen file = pos + n) as Hfl by (unfold file; rewrite !zlen_app, zlen_header_flush; change (zlen binlog_magic) with BINLOG_MAGIC_SIZE;
      unfold pos, COMMON_HEADER_LENGTH; lia).
  assert (read_header file pos = Some (get_header e)) as Hh.
  { unfold file. rewrite (app_assoc binlog_magic). apply read_header_mid; [by rewrite zlen_app|apply Hok]. }
  cbn [scan_loop]. destruct (Z.ltb_spec pos (zlen file)); [|lia]. rewrite Hh.
  destruct Hok as (_ & _ & Hty & _). rewrite Hxid in Hty. apply Z.eqb_eq in Hty.
  unfold trx_step. rewrite Hty. cbn [Z.eqb Pos.eqb PREVIOUS_GTIDS_LOG_EVENT GTID_LOG_EVENT XID_EVENT mbind outcome_bind].
  replace (scan_loop _ _ file (h_next_position (get_header e)) (trx_end (get_header e) o, pos))
    with (Done (Some ((trx_end (get_header e) o, pos), h_next_position (get_header e))))
    by (destruct (fuel - length evs - 1)%nat; cbn [scan_loop]; rewrite (proj2 (Z.ltb_ge _ _)) by lia; done).
  cbn [mbind outcome_bind]. change (has_previous_gtids_event (trx_end (get_header e) o)) with (has_previous_gtids_event o).
  rewrite Hhas. unfold verify_event_checksum. rewrite Hh, read_file_short by lia.
  eexists. split; [done|]. cbn [trx_end last_complete_trx_end_pos]. lia.
Qed.

End Properties.

(** ** A concrete binlog file *)

Definition sample_hdr (t len next : Z) : OblogEventHeader := mkHeader 100 t 1 len next 1.
Definition sample_head : list ObLogEvent :=
  [ new_format_description true 1 100;
    mkEvent (sample_hdr PREVIOUS_GTIDS_LOG_EVENT 87 211) [] 0 CRC32 false sample_gtids ].
Definition sample_gtid (gtid next : Z) : ObLogEvent :=
  mkEvent (sample_hdr GTID_LOG_EVENT 65 next) [] 0 CRC32 false
    (GtidLogEvent (mkGtidLog 0 sample_uuid gtid 2 5 6)).
Definition sample_begin (next : Z) : ObLogEvent := set_header (sample_hdr QUERY_EVENT 54 next) sample_query.
Definition sample_xid (next : Z) : ObLogEvent :=
  mkEvent (sample_hdr XID_EVENT 31 next) [] 0 CRC32 false (XidEvent 77).

Definition sample_evs : list ObLogEvent := sample_head ++ [sample_gtid 10 276; sample_begin 330].
Definition sample_end : ObLogEvent := sample_xid 361.
Definition sample_tail : list ObLogEvent := [sample_gtid 11 426; sample_begin 480].

Definition bytes_of (o : outcome bytes) : bytes := match o with Done b => b | Crash => [] end.

Lemma seek_gtid_event_written_witness :
  seek_gtid_event true 10 (Some (binlog_file (bytes_of (flush_all sample_crc (sample_evs ++ [sample_end])) ++ [1; 2])))
    (mkGtidScan [] false 0 0 []) 0
  = Done (Some (OMS_OK,
      mkGtidScan [reread (sample_gtid 10 276)] false CRC32 77
        [mkGtidMessage (Some sample_uuid) 2 [(1, 5); (9, 9)]], 361)).
Proof.
  apply (seek_gtid_event_written sample_crc true (sample_evs ++ [sample_end])
    (bytes_of (flush_all sample_crc (sample_evs ++ [sample_end]))) [1; 2] 10).
  - by_compute.
  - repeat constructor.
  - vm_compute; reflexivity.
  - done.
  - simpl; lia.
Defined.

Lemma seek_events_written_witness :
  seek_events true 10 (binlog_file (bytes_of (flush_all sample_crc (sample_evs ++ [sample_end])))) GTID_LOG_EVENT false
  = Done (Some (OMS_OK, [reread (sample_gtid 10 276)])).
Proof.
  apply (seek_events_written sample_crc true (sample_evs ++ [sample_end])).
  - by_compute.
  - repeat constructor.
  - repeat constructor.
  - vm_compute; reflexivity.
  - simpl; lia.
Defined.

(** The statement after the last one of [sample_tail], of which 40 bytes were written. *)
Definition sample_torn : bytes := first 40 (bytes_of (flush_to_buff sample_crc (sample_begin 534))).

Lemma recovery_keeps_complete_transactions_witness :
  let file := binlog_file ((bytes_of (flush_all sample_crc (sample_evs ++ [sample_end])) ++ bytes_of (flush_all sample_crc sample_tail)) ++ sample_torn) in
  exists o, seek_and_verify_complete_trx true sample_crc 20 (Some file) (new_overview 0) = Done (Some (OMS_OK, o)) /\
    has_previous_gtids_event o = true /\
    first (last_complete_trx_end_pos o) file = binlog_file (bytes_of (flush_all sample_crc (sample_evs ++ [sample_end]))) /\
    last_complete_trx_gtid o = 10 /\ trx_need_truncated_gtid o = 11.
Proof.
  apply (recovery_keeps_complete_transactions sample_crc true sample_evs sample_end sample_tail).
  - done.
  - intros b. apply u32_range.
  - by_compute.
  - repeat constructor.
  - done.
  - done.
  - repeat constructor.
  - vm_compute; reflexivity.
  - vm_compute; reflexivity.
  - right. exists (sample_begin 534), (bytes_of (flush_to_buff sample_crc (sample_begin 534))), 40.
    split; [by_compute|]. split; [by_compute|]. split; [done|]. split; [done|]. split; [vm_compute; reflexivity|]. split; [by_compute|done].
  - simpl; lia.
Defined.

Lemma torn_xid_is_refused_witness :
  exists o, seek_and_verify_complete_trx true sample_crc 20
      (Some (binlog_file (bytes_of (flush_all sample_crc sample_evs) ++
         first 25 (bytes_of (flush_to_buff sample_crc sample_end))))) (new_overview 0)
      = Done (Some (OMS_FAILED, o)) /\
    zlen (binlog_file (bytes_of (flush_all sample_crc sample_evs) ++
         first 25 (bytes_of (flush_to_buff sample_crc sample_end)))) < last_complete_trx_end_pos o.
Proof.
  apply (torn_xid_is_refused sample_crc true sample_evs sample_end 77).
  - by_compute.
  - repeat constructor.
  - done.
  - done.
  - vm_compute; reflexivity.
  - vm_compute; reflexivity.
  - split; vm_compute; [done|reflexivity].
  - simpl; lia.
Defined.
