(* ===== verification/BinlogIndex.v ===== *)
(** * BinlogIndex: the index of binlog files

    [src/src/binlog/binlog_index.{h,cpp}] and the last-line helper of
    [src/src/common/fs_util.cpp].  The index file [mysql-bin.index] is its bytes
    ([None] when it cannot be opened); a [disk] says what file-system
    calls report and how much of a write reaches the file. *)

From S2P Require Import Prelude Str.

#[local] Open Scope Z_scope.

(** ** BinlogIndexRecord *)

Definition mapping : Type := bytes * Z.

Record BinlogIndexRecord := mkIndexRecord {
  get_file_name : bytes;
  get_index : Z;
  get_before_mapping : mapping;
  get_current_mapping : mapping;
  get_checkpoint : Z;
  get_position : Z
}.
#[export] Instance BinlogIndexRecord_eq_dec : EqDecision BinlogIndexRecord.
Proof. solve_decision. Defined.

Definition empty_record : BinlogIndexRecord := mkIndexRecord [] 0 ([], 0) ([], 0) 0 0.

Definition set_before_mapping (m : mapping) (r : BinlogIndexRecord) : BinlogIndexRecord :=
  mkIndexRecord (get_file_name r) (get_index r) m (get_current_mapping r) (get_checkpoint r) (get_position r).
Definition set_current_mapping (m : mapping) (r : BinlogIndexRecord) : BinlogIndexRecord :=
  mkIndexRecord (get_file_name r) (get_index r) (get_before_mapping r) m (get_checkpoint r) (get_position r).
Definition set_file_name (n : bytes) (r : BinlogIndexRecord) : BinlogIndexRecord :=
  mkIndexRecord n (get_index r) (get_before_mapping r) (get_current_mapping r) (get_checkpoint r) (get_position r).
Definition set_index (i : Z) (r : BinlogIndexRecord) : BinlogIndexRecord :=
  mkIndexRecord (get_file_name r) i (get_before_mapping r) (get_current_mapping r) (get_checkpoint r) (get_position r).
Definition set_checkpoint (c : Z) (r : BinlogIndexRecord) : BinlogIndexRecord :=
  mkIndexRecord (get_file_name r) (get_index r) (get_before_mapping r) (get_current_mapping r) c (get_position r).
Definition set_position (p : Z) (r : BinlogIndexRecord) : BinlogIndexRecord :=
  mkIndexRecord (get_file_name r) (get_index r) (get_before_mapping r) (get_current_mapping r) (get_checkpoint r) p.

(** [get_mapping_str]: the number passes through [int64_t]. *)
Definition get_mapping_str (m : mapping) : bytes := m.1 ++ str "=" ++ to_dec_signed (sint 64 m.2).

Definition parse_mapping_str (s : bytes) : outcome mapping :=
  match s with
  | [] => Done ([], 0)
  | _ =>
      let pos := index_of s 61 0 in
      n ← of_option (stol (skip (pos + 1) s));
      Done (if pos <? 0 then s else first pos s, u64 n)
  end.

Definition to_string (r : BinlogIndexRecord) : bytes :=
  intercalate 9 [get_file_name r; to_dec (get_index r); get_mapping_str (get_current_mapping r);
    get_mapping_str (get_before_mapping r); to_dec (get_checkpoint r); to_dec (get_position r)] ++ [10].

(** [parse]: anything but six fields leaves the record as it was; [std::stol] throws. *)
Definition parse (r : BinlogIndexRecord) (content : bytes) : outcome BinlogIndexRecord :=
  match split content 9 false with
  | [f0; f1; f2; f3; f4; f5] =>
      index ← of_option (stol f1);
      current ← parse_mapping_str f2;
      before ← parse_mapping_str f3;
      checkpoint ← of_option (stol f4);
      position ← of_option (stol f5);
      Done (mkIndexRecord f0 (u64 index) before current (u64 checkpoint) (u64 position))
  | _ => Done r
  end.

(** [strcmp(a.c_str(), b.c_str()) == 0] *)
Definition strcmp_eq (a b : bytes) : bool := beq (cstr a) (cstr b).

Definition equal_to (a b : BinlogIndexRecord) : bool :=
  strcmp_eq (get_file_name a) (get_file_name b) && (get_index a =? get_index b).

(** ** FsUtil::seekg_last_line *)

(** From offset [k] backwards to the byte after a newline, or to the start. *)
Fixpoint last_line_from (k : nat) (file : bytes) : Z :=
  match k with
  | O => 0
  | S k' => if nth k file 0 =? 10 then Z.of_nat k + 1 else last_line_from k' file
  end.

(** On a file of one byte [fseek(-2)] keeps failing and the loop never ends. *)
Definition seekg_last_line (file : bytes) : outcome Z :=
  if zlen file =? 1 then Crash else Done (last_line_from (length file - 2) file).

(** ** BinlogIndexManager *)

(** A write: what the call reports, and how many bytes have reached the file when it is not
    all of them.  The two are independent: [fwrite] can fail after a part, and what it leaves
    in its buffer is written by an [fclose] or [fflush] whose result nobody looks at. *)
Record write := mkWrite { w_reported : bool; w_short : option nat }.
Definition write_ok : write := mkWrite true None.
Definition written (w : write) (content : bytes) : bytes :=
  match w_short w with None => content | Some n => take n content end.

(** What the file-system calls do: [d_open] is [fopen], [d_append], [d_rewrite] and [d_write]
    the writes of [FsUtil::append_file], [FsUtil::rewrite] and [FsUtil::write_file]. *)
Record disk := mkDisk {
  d_open : bool; d_append : write; d_copy : bool; d_resize : bool; d_rewrite : write; d_rename : bool; d_write : write; d_remove : bool
}.
Definition disk_ok : disk := mkDisk true write_ok true true write_ok true write_ok true.

Record BinlogIndexManager := mkIndexManager {
  im_index_file : option bytes;
  im_memory_index_record : BinlogIndexRecord
}.
Definition set_index_file (f : option bytes) (m : BinlogIndexManager) : BinlogIndexManager :=
  mkIndexManager f (im_memory_index_record m).

(** Parsing lines one by one into fresh records. *)
Fixpoint parse_lines (lines : list bytes) : outcome (list BinlogIndexRecord) :=
  match lines with
  | [] => Done []
  | l :: lines => r ← parse empty_record l; rs ← parse_lines lines; Done (r :: rs)
  end.

Definition fetch_index_vector (m : BinlogIndexManager) : outcome (ret * list BinlogIndexRecord) :=
  match im_index_file m with
  | None => Done (OMS_FAILED, [])
  | Some file =>
      rs ← parse_lines (getlines_nl file);
      Done (OMS_OK, filter (fun r => 0 < get_index r) rs)
  end.

Section Manager.
Context (prefix : bytes) (width : Z).

(** [get_index]: the first record whose generated name is the one asked for. *)
Fixpoint find_index (binlog_file : bytes) (lines : list bytes) : outcome (option BinlogIndexRecord) :=
  match lines with
  | [] => Done None
  | l :: lines =>
      r ← parse empty_record l;
      if (0 <? get_index r) && strcmp_eq binlog_file (fill_binlog_file_name prefix width (get_index r))
      then Done (Some r) else find_index binlog_file lines
  end.

Definition get_index_of (m : BinlogIndexManager) (binlog_file : bytes) (record : BinlogIndexRecord)
    : outcome (ret * BinlogIndexRecord) :=
  match im_index_file m with
  | None => Done (OMS_FAILED, record)
  | Some file =>
      r ← find_index binlog_file (getlines file);
      Done (match r with Some r => (OMS_OK, r) | None => (OMS_FAILED, record) end)
  end.

End Manager.

Definition get_first_index (m : BinlogIndexManager) (record : BinlogIndexRecord) : outcome (ret * BinlogIndexRecord) :=
  match im_index_file m with
  | None => Done (OMS_FAILED, record)
  | Some file => r ← parse record (hd [] (getlines file)); Done (OMS_OK, r)
  end.

(** [parse_index_record]: at the end of the file [getline] leaves its buffer
    uninitialised. *)
Definition parse_index_record (rest : bytes) (record : BinlogIndexRecord) : outcome BinlogIndexRecord :=
  match getlines_nl rest with
  | [] => Crash
  | l :: _ => parse record l
  end.

Definition get_latest_index (m : BinlogIndexManager) (record : BinlogIndexRecord) : outcome (ret * BinlogIndexRecord) :=
  match im_index_file m with
  | None => Done (OMS_FAILED, record)
  | Some file =>
      pos ← seekg_last_line file;
      r ← parse_index_record (skip pos file) record;
      Done (OMS_OK, r)
  end.

(** [append_file] creates the file when needed; a part of the line may be in the file when
    it fails. *)
Definition add_index (d : disk) (m : BinlogIndexManager) (record : BinlogIndexRecord) : ret * BinlogIndexManager :=
  if d_open d then
    (if w_reported (d_append d) then OMS_OK else OMS_FAILED,
     set_index_file (Some (default [] (im_index_file m) ++ written (d_append d) (to_string record))) m)
  else (OMS_FAILED, m).

Definition is_active (m : BinlogIndexManager) (file : bytes) : bool :=
  beq (get_file_name (im_memory_index_record m)) [] || beq (get_file_name (im_memory_index_record m)) file.

Definition get_memory_index (m : BinlogIndexManager) : outcome (BinlogIndexRecord * BinlogIndexManager) :=
  if beq (get_file_name (im_memory_index_record m)) [] then
    '(_, r) ← get_latest_index m (im_memory_index_record m);
    Done (r, mkIndexManager (im_index_file m) r)
  else Done (im_memory_index_record m, m).

(** [is_behind_current_pos]: the predicate the waiting thread tests. *)
Definition behind_current_pos (m : BinlogIndexManager) (file_index pos : Z) : bool :=
  let r := im_memory_index_record m in
  (file_index <? get_index r) || ((get_index r =? file_index) && (pos <? get_position r)).

(** [update_index]: the last line of a copy is replaced, then the copy is renamed over
    the index, whatever [FsUtil::rewrite] reports. *)
Definition update_index (d : disk) (m : BinlogIndexManager) (record : BinlogIndexRecord)
    : outcome (ret * BinlogIndexManager) :=
  match im_index_file m with
  | None => Done (OMS_FAILED, m)
  | Some file =>
      if d_copy d && d_open d then
        pos ← seekg_last_line file;
        if d_resize d && d_rename d
        then Done (OMS_OK, mkIndexManager (Some (first pos file ++ written (d_rewrite d) (to_string record))) record)
        else Done (OMS_FAILED, m)
      else Done (OMS_FAILED, m)
  end.

(** [FsUtil::write_file] into a file of its own: nothing is written of an empty text. *)
Definition write_reported (d : disk) (content : bytes) : bool :=
  d_open d && match content with [] => true | _ => w_reported (d_write d) end.

(** [rewrite_index_file]: the file that was written is renamed over the index. *)
Definition rewrite_index_file (d : disk) (m : BinlogIndexManager) (rs : list BinlogIndexRecord)
    : ret * BinlogIndexManager :=
  let records := mjoin (to_string <$> rs) in
  if write_reported d records && d_rename d then (OMS_OK, set_index_file (Some (written (d_write d) records)) m)
  else (OMS_FAILED, m).

(** [remove_binlog]: the last component is the binlog files deleted. *)
Definition remove_binlog (d : disk) (m : BinlogIndexManager) (record : BinlogIndexRecord)
    : outcome (ret * BinlogIndexManager * list bytes) :=
  match im_index_file m with
  | None => Done (OMS_FAILED, m, [])
  | Some file =>
      rs ← parse_lines (getlines file);
      let kept := filter (fun r => equal_to r record = false) rs in
      if bool_decide (length kept = length rs) then Done (OMS_OK, m, [])
      else
        let '(r, m) := rewrite_index_file d m kept in
        if decide (r = OMS_OK) then
          if d_remove d then Done (OMS_OK, m, [get_file_name record]) else Done (OMS_FAILED, m, [])
        else Done (OMS_FAILED, m, [])
  end.

(** *** Purging *)

Record purge := mkPurge {
  p_index_records : list BinlogIndexRecord;
  p_purge_binlog_files : list bytes;
  p_last_gtid_seq : Z
}.

(** [purge_binlog_before_ts], with the timestamp already converted. *)
Fixpoint purge_before_loop (m : BinlogIndexManager) (purge_ts : Z) (rs : list BinlogIndexRecord) (p : purge) : purge :=
  match rs with
  | [] => p
  | r :: rs =>
      if (get_checkpoint r <? purge_ts) && negb (is_active m (get_file_name r)) then
        purge_before_loop m purge_ts rs
          (mkPurge (p_index_records p) (p_purge_binlog_files p ++ [get_file_name r]) (get_current_mapping r).2)
      else
        purge_before_loop m purge_ts rs
          (mkPurge (p_index_records p ++ [r]) (p_purge_binlog_files p) (p_last_gtid_seq p))
  end.

Definition purge_binlog_before_ts (convert_ts : bytes -> Z) (m : BinlogIndexManager) (before_purge_ts : bytes)
    (rs : list BinlogIndexRecord) : ret * purge :=
  match before_purge_ts with
  | [] => (OMS_FAILED, mkPurge rs [] 0)
  | _ => (OMS_OK, purge_before_loop m (convert_ts before_purge_ts) rs (mkPurge [] [] 0))
  end.

(** [purge_binlog_to_file] walks the records backwards; [rrs] is the reversed rest. *)
Fixpoint purge_to_loop (m : BinlogIndexManager) (to_binlog_index : bytes) (rrs : list BinlogIndexRecord)
    (found : bool) (p : purge) : bool * purge :=
  match rrs with
  | [] => (found, p)
  | r :: rrs =>
      let found := found || strcmp_eq (get_file_name r) to_binlog_index in
      if found && negb (is_active m (get_file_name r)) then
        purge_to_loop m to_binlog_index rrs found
          (mkPurge (p_index_records p) (p_purge_binlog_files p ++ [get_file_name r])
             (if p_last_gtid_seq p =? 0 then (get_current_mapping r).2 else p_last_gtid_seq p))
      else
        purge_to_loop m to_binlog_index rrs found
          (mkPurge (r :: p_index_records p) (p_purge_binlog_files p) (p_last_gtid_seq p))
  end.

Definition purge_binlog_to_file (m : BinlogIndexManager) (to_binlog_index : bytes) (rs : list BinlogIndexRecord)
    : ret * purge :=
  let '(found, p) := purge_to_loop m to_binlog_index (rev rs) false (mkPurge [] [] 0) in
  (if found then OMS_OK else OMS_FAILED, p).

(** What the index asks of the GTID manager when binlogs are purged. *)
Class GtidPurge (G : Type) := purge_gtid_before : Z -> G -> outcome G.

Section Purge.
Context {G : Type} `{GtidPurge G} (convert_ts : bytes -> Z).

(** [purge_binlog_index]: the files to delete are returned to the caller. *)
Definition purge_binlog_index (d : disk) (m : BinlogIndexManager) (g : G) (base_name binlog_file before_purge_ts : bytes)
    : outcome (ret * BinlogIndexManager * G * list bytes) :=
  '(r, rs) ← fetch_index_vector m;
  if decide (r = OMS_OK) then
    let '(r, p) := match binlog_file with
                   | [] => purge_binlog_before_ts convert_ts m before_purge_ts rs
                   | _ => purge_binlog_to_file m (base_name ++ binlog_file) rs
                   end in
    g ← (if p_last_gtid_seq p =? 0 then Done g else purge_gtid_before (p_last_gtid_seq p) g);
    if bool_decide (r = OMS_OK) && negb (bool_decide (p_purge_binlog_files p = [])) &&
       negb (bool_decide (p_index_records p = []))
    then
      let '(r, m) := rewrite_index_file d m (p_index_records p) in
      Done (r, m, g, p_purge_binlog_files p)
    else Done (r, m, g, p_purge_binlog_files p)
  else Done (OMS_FAILED, m, g, []).

End Purge.

(** ** Well-formed records and their text *)

Definition text_ok (forbidden : list Z) (s : bytes) : Prop := Forall (fun c => c ∉ forbidden) s.
#[export] Instance text_ok_dec f s : Decision (text_ok f s).
Proof. unfold text_ok. apply _. Defined.
Definition is_i63 (n : Z) : Prop := 0 <= n <= LLONG_MAX.
#[export] Instance is_i63_dec n : Decision (is_i63 n).
Proof. unfold is_i63. apply _. Defined.

Definition mapping_ok (m : mapping) : Prop := text_ok [0; 9; 10; 61] m.1 /\ is_i63 m.2.
Definition record_ok (r : BinlogIndexRecord) : Prop :=
  text_ok [0; 9; 10] (get_file_name r) /\ is_i63 (get_index r) /\ mapping_ok (get_current_mapping r) /\
  mapping_ok (get_before_mapping r) /\ is_i63 (get_checkpoint r) /\ is_i63 (get_position r).
#[export] Instance mapping_ok_dec m : Decision (mapping_ok m).
Proof. unfold mapping_ok. apply _. Defined.
#[export] Instance record_ok_dec r : Decision (record_ok r).
Proof. unfold record_ok. apply _. Defined.

Lemma text_ok_not_in f s c : text_ok f s -> c ∈ f -> c ∉ s.
Proof. intros H Hc Hin. by eapply Forall_forall in H. Qed.

Lemma index_of_app a c r i : c ∉ a -> index_of (a ++ c :: r) c i = i + zlen a.
Proof.
  revert i. induction a as [|x a IH]; intros i H; simpl.
  - rewrite Z.eqb_refl, zlen_nil. lia.
  - destruct (Z.eqb_spec x c); [set_solver|]. rewrite IH by set_solver. rewrite zlen_cons. lia.
Qed.

Lemma to_dec_signed_i63 n : is_i63 n -> to_dec_signed (sint 64 n) = to_dec n.
Proof.
  unfold is_i63, LLONG_MAX. intros Hn. unfold to_dec_signed, sint.
  rewrite Z.mod_small by lia. replace (n + 2 ^ (64 - 1) - 2 ^ (64 - 1)) with n by lia. zif. done.
Qed.

Lemma u64_i63 n : is_i63 n -> u64 n = n.
Proof. unfold is_i63, LLONG_MAX. intros. apply u64_id. unfold is_u64. lia. Qed.

Lemma stol_i63 n r : is_i63 n -> no_digit_head r -> stol (to_dec n ++ r) = Some n.
Proof. intros. by apply stol_to_dec. Qed.

Lemma mapping_roundtrip m : mapping_ok m -> parse_mapping_str (get_mapping_str m) = Done m.
Proof.
  intros [Ht Hn]. unfold parse_mapping_str, get_mapping_str. rewrite to_dec_signed_i63 by done.
  change (str "=" ++ to_dec m.2) with (61 :: to_dec m.2).
  destruct (m.1 ++ 61 :: to_dec m.2) as [|c0 s0] eqn:E; [by destruct m.1|]. rewrite <-E.
  rewrite (index_of_app m.1 61) by (eapply text_ok_not_in; [done|set_solver]). rewrite Z.add_0_l.
  pose proof (zlen_nonneg m.1).
  replace (skip (zlen m.1 + 1) _) with (to_dec m.2)
    by (rewrite skip_app_ge by lia; by replace (zlen m.1 + 1 - zlen m.1) with 1 by lia).
  rewrite <-(app_nil_r (to_dec m.2)) at 1. rewrite stol_i63 by done. cbn [of_option mbind outcome_bind].
  zif. rewrite first_app by done. rewrite u64_i63 by done. by destruct m.
Qed.

(** NUL, tab and newline separate fields and records. *)
Definition is_separator (c : Z) : Prop := c = 0 \/ c = 9 \/ c = 10.

Lemma mapping_str_not_in m c : mapping_ok m -> is_separator c -> c ∉ get_mapping_str m.
Proof.
  intros [Ht Hn] Hc. unfold get_mapping_str. rewrite to_dec_signed_i63 by done.
  rewrite !not_elem_of_app. split.
  { eapply text_ok_not_in; [done|]. destruct_or! Hc; subst; by_compute. }
  split; [destruct_or! Hc; subst; by_compute|].
  apply to_dec_not_in; [apply Hn|unfold is_separator in Hc; lia].
Qed.

Definition fields (r : BinlogIndexRecord) (nl : bytes) : list bytes :=
  [get_file_name r; to_dec (get_index r); get_mapping_str (get_current_mapping r);
   get_mapping_str (get_before_mapping r); to_dec (get_checkpoint r); to_dec (get_position r) ++ nl].

Lemma to_string_fields r : to_string r = intercalate 9 (fields r [10]).
Proof.
  unfold to_string, fields. cbn [intercalate]. repeat (rewrite <-app_assoc || rewrite <-app_comm_cons). done.
Qed.

Lemma fields_not_in r nl c :
  record_ok r -> is_separator c -> c ∉ nl -> Forall (fun p => c ∉ p) (fields r nl).
Proof.
  intros (Hf & Hi & Hcm & Hbm & Hcp & Hp) Hc Hnl.
  assert (forall n, is_i63 n -> c ∉ to_dec n) as Hd.
  { intros n Hn. apply to_dec_not_in; [apply Hn|]. unfold is_separator in Hc. lia. }
  unfold fields. repeat constructor; auto using mapping_str_not_in.
  - eapply text_ok_not_in; [done|]. destruct_or! Hc; subst; by_compute.
  - rewrite not_elem_of_app. auto.
Qed.

Lemma parse_fields r r0 nl :
  record_ok r -> nl = [] \/ nl = [10] -> parse r0 (intercalate 9 (fields r nl)) = Done r.
Proof.
  intros Hr Hnl.
  assert ((0 ∉ nl) /\ (9 ∉ nl)) as [Hn0 Hn9] by (destruct Hnl; subst; by_compute).
  unfold parse. rewrite split_intercalate.
  - destruct Hr as (_ & Hi & Hcm & Hbm & Hcp & Hp). unfold fields.
    rewrite <-(app_nil_r (to_dec (get_index r))), <-(app_nil_r (to_dec (get_checkpoint r))).
    rewrite !stol_i63 by (done || (destruct Hnl; by subst)).
    rewrite !mapping_roundtrip by done. cbn [of_option mbind outcome_bind].
    rewrite !u64_i63 by done. by destruct r.
  - unfold fields. cbn [intercalate]. by destruct (get_file_name r).
  - apply intercalate_not_in; [done|]. by apply fields_not_in; [|unfold is_separator; lia|].
  - by apply fields_not_in; [|unfold is_separator; lia|].
Qed.

(** ** The index file as a list of records *)

Definition line (r : BinlogIndexRecord) : bytes := intercalate 9 (fields r []).
Definition index_text (rs : list BinlogIndexRecord) : bytes := mjoin (to_string <$> rs).

Lemma to_string_line r : to_string r = line r ++ [10].
Proof.
  unfold to_string, line, fields. rewrite app_nil_r. done.
Qed.
Lemma line_no_newline r : record_ok r -> 10 ∉ line r.
Proof.
  intros. apply intercalate_not_in; [done|]. apply fields_not_in; [done|by right; right|].
  by apply not_elem_of_nil.
Qed.
Lemma line_length r : 1 <= zlen (line r).
Proof. unfold line, fields. cbn [intercalate]. rewrite zlen_app, zlen_cons. pose proof (zlen_nonneg (get_file_name r)).
  match goal with |- context [1 + zlen ?l] => pose proof (zlen_nonneg l) end. lia.
Qed.

Lemma index_text_unlines rs : index_text rs = unlines (line <$> rs).
Proof.
  unfold index_text, unlines. f_equal. rewrite <-list_fmap_compose.
  apply list_fmap_ext. intros i r _. apply to_string_line.
Qed.

Lemma index_lines rs :
  Forall record_ok rs -> getlines (index_text rs) = line <$> rs /\ getlines_nl (index_text rs) = to_string <$> rs.
Proof.
  intros H. rewrite index_text_unlines.
  assert (Forall (fun l => 10 ∉ l) (line <$> rs)) as Hl.
  { apply Forall_fmap. eapply Forall_impl; [exact H|]. intros r. apply line_no_newline. }
  rewrite getlines_unlines, getlines_nl_unlines by done. split; [done|].
  rewrite <-list_fmap_compose. apply list_fmap_ext. intros i r _. symmetry. apply to_string_line.
Qed.

Lemma parse_line r r0 : record_ok r -> parse r0 (line r) = Done r.
Proof. intros. apply parse_fields; [done|by left]. Qed.
Lemma parse_to_string r r0 : record_ok r -> parse r0 (to_string r) = Done r.
Proof. intros. rewrite to_string_fields. apply parse_fields; [done|by right]. Qed.

Lemma parse_lines_all (f : BinlogIndexRecord -> bytes) rs :
  (forall r r0, record_ok r -> parse r0 (f r) = Done r) -> Forall record_ok rs -> parse_lines (f <$> rs) = Done rs.
Proof.
  intros Hf. induction 1 as [|r rs Hr _ IH]; [done|]. cbn [fmap list_fmap parse_lines].
  by rewrite Hf, IH by done.
Qed.

(** The start of the last line. *)
Lemma last_line_from_skip k j file :
  (j <= k)%nat -> (forall i, (j < i <= k)%nat -> nth i file 0 <> 10) ->
  last_line_from k file = last_line_from j file.
Proof.
  induction k as [|k IH]; intros Hj Hn; [by replace j with 0%nat by lia|].
  destruct (decide (j = S k)) as [->|Hne]; [done|]. cbn [last_line_from].
  rewrite (proj2 (Z.eqb_neq _ _)) by (apply Hn; lia). apply IH; [lia|]. intros i Hi. apply Hn. lia.
Qed.

Lemma index_text_snoc rs r : index_text (rs ++ [r]) = index_text rs ++ to_string r.
Proof. unfold index_text. by rewrite fmap_app, join_app, fmap_cons, join_cons, app_nil_r. Qed.

Lemma index_text_last rs : rs <> [] -> exists pre, index_text rs = pre ++ [10] /\ 1 <= zlen pre.
Proof.
  intros Hne. destruct (exists_last Hne) as (rs' & r & ->). rewrite index_text_snoc, to_string_line, app_assoc.
  eexists; split; [done|]. rewrite zlen_app. pose proof (zlen_nonneg (index_text rs')). pose proof (line_length r). lia.
Qed.

Lemma seekg_last_line_snoc rs r :
  record_ok r -> seekg_last_line (index_text (rs ++ [r])) = Done (zlen (index_text rs)).
Proof.
  intros Hr. rewrite index_text_snoc, to_string_line. set (A := index_text rs). set (L := line r).
  pose proof (line_length r) as HL. fold L in HL. pose proof (zlen_nonneg A).
  unfold seekg_last_line. rewrite !zlen_app. change (zlen [10]) with 1. rewrite (proj2 (Z.eqb_neq _ _)) by lia. f_equal.
  set (F := A ++ L ++ [10]).
  assert (length F = length A + length L + 1)%nat as Hlen by (unfold F; rewrite !length_app; simpl; lia).
  assert (forall i, (length A <= i <= length F - 2)%nat -> nth i F 0 <> 10) as Hmid.
  { intros i Hi E. unfold zlen in HL. unfold F in E.
    rewrite app_nth2, app_nth1 in E by lia. apply (line_no_newline r Hr). rewrite <-E.
    apply list_elem_of_In, nth_In. fold L. lia. }
  unfold zlen in HL.
  destruct (decide (rs = [])) as [->|Hne].
  { change A with (@nil Z) in *. rewrite (last_line_from_skip _ 0); [done|lia|]. intros i Hi. apply Hmid. simpl in *. lia. }
  destruct (index_text_last rs Hne) as (pre & Epre & Hpre). fold A in Epre. unfold zlen in Hpre.
  assert (length A = S (length pre)) as HA by (rewrite Epre, length_app; simpl; lia).
  rewrite (last_line_from_skip _ (length pre)); [|lia|intros i Hi; apply Hmid; lia].
  destruct (length pre) as [|k] eqn:Ek; [lia|]. cbn [last_line_from].
  replace (nth (S k) F 0) with 10
    by (unfold F; rewrite app_nth1 by lia; rewrite Epre, app_nth2 by lia; by rewrite Ek, Nat.sub_diag).
  rewrite Z.eqb_refl. unfold zlen. rewrite HA. lia.
Qed.

(** ** Abstract specification and refinement *)

(** The index promises to be a list of records. *)
Inductive index_op :=
| AddIndex (r : BinlogIndexRecord)
| UpdateIndex (r : BinlogIndexRecord)
| RemoveBinlog (r : BinlogIndexRecord)
| RewriteIndex (rs : list BinlogIndexRecord).

Definition abstract_op (rs : list BinlogIndexRecord) (op : index_op) : list BinlogIndexRecord :=
  match op with
  | AddIndex r => rs ++ [r]
  | UpdateIndex r => removelast rs ++ [r]
  | RemoveBinlog r => filter (fun r' => equal_to r' r = false) rs
  | RewriteIndex rs' => rs'
  end.

Definition op_ok (op : index_op) : Prop :=
  match op with
  | AddIndex r | UpdateIndex r => record_ok r
  | RemoveBinlog _ => True
  | RewriteIndex rs => Forall record_ok rs
  end.
#[export] Instance op_ok_dec op : Decision (op_ok op).
Proof. destruct op; simpl; apply _. Defined.

Definition run_op (m : BinlogIndexManager) (op : index_op) : outcome (ret * BinlogIndexManager) :=
  match op with
  | AddIndex r => Done (add_index disk_ok m r)
  | UpdateIndex r => update_index disk_ok m r
  | RemoveBinlog r => '(r, m, _) ← remove_binlog disk_ok m r; Done (r, m)
  | RewriteIndex rs => Done (rewrite_index_file disk_ok m rs)
  end.

Fixpoint run_ops (m : BinlogIndexManager) (ops : list index_op) : outcome (list ret * BinlogIndexManager) :=
  match ops with
  | [] => Done ([], m)
  | op :: ops =>
      '(r, m) ← run_op m op;
      '(rs, m) ← run_ops m ops;
      Done (r :: rs, m)
  end.

Definition represents (m : BinlogIndexManager) (rs : list BinlogIndexRecord) : Prop :=
  im_index_file m = Some (index_text rs) /\ Forall record_ok rs.

Lemma update_index_spec m rs r :
  represents m rs ->
  update_index disk_ok m r = Done (OMS_OK, mkIndexManager (Some (index_text (removelast rs ++ [r]))) r).
Proof.
  intros [Hf Hr]. unfold update_index. rewrite Hf. cbn [d_copy d_open d_resize d_rename disk_ok andb].
  destruct rs as [|r1 rs1] eqn:E; [cbn; by rewrite app_nil_r|]. rewrite <-E in *.
  destruct (exists_last (l := rs)) as (rs' & last & ->); [by rewrite E|].
  rewrite seekg_last_line_snoc by (by apply Forall_app in Hr as [_ Hr]; apply Forall_inv in Hr).
  cbn [mbind outcome_bind]. rewrite !index_text_snoc, first_app, removelast_last by done. done.
Qed.

Lemma rewrite_disk_ok m rs : rewrite_index_file disk_ok m rs = (OMS_OK, set_index_file (Some (index_text rs)) m).
Proof. unfold rewrite_index_file, write_reported, index_text. cbn [d_open d_write d_rename disk_ok andb w_reported write_ok]. destruct (mjoin (to_string <$> rs)); reflexivity. Qed.

Lemma remove_binlog_spec m rs r :
  represents m rs ->
  exists m' gone, remove_binlog disk_ok m r = Done (OMS_OK, m', gone) /\
    represents m' (filter (fun r' => equal_to r' r = false) rs).
Proof.
  intros [Hf Hr]. unfold remove_binlog. rewrite Hf, (proj1 (index_lines rs Hr)).
  rewrite (parse_lines_all line) by (done || apply parse_line). cbn [mbind outcome_bind].
  case_bool_decide as Hl.
  - exists m, []. split; [done|]. rewrite filter_all; [by split|].
    intros x Hx. destruct (equal_to x r) eqn:E; [|done].
    exfalso. assert (length (filter (fun r' => equal_to r' r = false) rs) < length rs)%nat; [|lia].
    apply (length_filter_lt _ _ x); [done|]. by rewrite E.
  - rewrite rewrite_disk_ok. cbn. eexists _, _. split; [done|]. split; [done|]. by apply Forall_filter_sub.
Qed.

Lemma run_op_refines m rs op :
  represents m rs -> op_ok op ->
  exists m', run_op m op = Done (OMS_OK, m') /\ represents m' (abstract_op rs op).
Proof.
  intros Hm Hop. destruct op as [r|r|r|rs']; cbn [run_op abstract_op op_ok] in *.
  - destruct Hm as [Hf Hr]. unfold add_index. rewrite Hf. eexists; split; [done|].
    split; [by rewrite index_text_snoc|]. apply Forall_app. split; [done|by constructor].
  - rewrite (update_index_spec m rs) by done. eexists; split; [done|]. split; [done|].
    destruct Hm as [_ Hr]. apply Forall_app. split; [|by constructor].
    apply Forall_forall. intros x Hx. eapply Forall_forall in Hr; [done|].
    destruct rs as [|y rs]; [done|]. rewrite (app_removelast_last y) by done. set_solver.
  - destruct (remove_binlog_spec m rs r Hm) as (m' & gone & -> & Hm'). by exists m'.
  - rewrite rewrite_disk_ok. eexists; split; [done|]. by split.
Qed.

(** ** Properties *)

(** an index record survives being written and parsed, whatever the record
    object held before, both with the newline ([getline]) and without ([std::getline]). *)
Theorem index_record_roundtrip r r0 :
  record_ok r -> parse r0 (to_string r) = Done r /\ parse r0 (line r) = Done r.
Proof. intros. split; [by apply parse_to_string|by apply parse_line]. Qed.

Lemma run_ops_refines ops : forall m rs,
  represents m rs -> Forall op_ok ops ->
  exists m', run_ops m ops = Done (replicate (length ops) OMS_OK, m') /\
    represents m' (fold_left abstract_op ops rs).
Proof.
  induction ops as [|op ops IH]; intros m rs Hm Hops; [by exists m|].
  apply Forall_cons in Hops as [Hop Hops]. destruct (run_op_refines m rs op Hm Hop) as (m1 & E1 & Hm1).
  destruct (IH m1 (abstract_op rs op) Hm1 Hops) as (m2 & E2 & Hm2).
  exists m2. cbn [run_ops fold_left]. rewrite E1. cbn [mbind outcome_bind]. by rewrite E2.
Qed.

(** C15: the index file implements a list of records: any sequence of
    additions, updates of the last record, removals and rewrites succeeds, and leaves
    the text of the list the same operations give. *)
Theorem index_refinement ops : forall m rs,
  represents m rs -> Forall op_ok ops ->
  exists m', run_ops m ops = Done (replicate (length ops) OMS_OK, m') /\
    represents m' (fold_left abstract_op ops rs).
Proof. apply run_ops_refines. Qed.

Lemma fetch_represented m rs :
  represents m rs -> fetch_index_vector m = Done (OMS_OK, filter (fun x => 0 < get_index x) rs).
Proof.
  intros [Hf Hr]. unfold fetch_index_vector. rewrite Hf, (proj2 (index_lines _ Hr)).
  rewrite (parse_lines_all to_string) by (done || apply parse_to_string). done.
Qed.

Lemma latest_represented m rs r r0 : represents m (rs ++ [r]) -> get_latest_index m r0 = Done (OMS_OK, r).
Proof.
  intros [Hf Hr].
  assert (record_ok r) as Hlast by (by apply Forall_app in Hr as [_ Hr]; apply Forall_inv in Hr).
  unfold get_latest_index. rewrite Hf. rewrite seekg_last_line_snoc by done. cbn [mbind outcome_bind].
  rewrite index_text_snoc, skip_app by done. unfold parse_index_record.
  replace (to_string r) with (index_text [r]) by (unfold index_text; simpl; by rewrite app_nil_r).
  rewrite (proj2 (index_lines [r] ltac:(by constructor))). cbn [fmap list_fmap]. by rewrite parse_to_string.
Qed.

(** The readers of the index see that list: all of it in order (records
    with index 0 are dropped), its first and its last element. *)
Theorem index_queries m rs r r0 :
  represents m (rs ++ [r]) ->
  fetch_index_vector m = Done (OMS_OK, filter (fun x => 0 < get_index x) (rs ++ [r])) /\
  get_latest_index m r0 = Done (OMS_OK, r) /\
  get_first_index m r0 = Done (OMS_OK, hd r rs).
Proof.
  intros Hm. split; [by apply fetch_represented|]. split; [by eapply latest_represented|].
  destruct Hm as [Hf Hr]. unfold get_first_index. rewrite Hf, (proj1 (index_lines _ Hr)).
  destruct rs as [|r1 rs]; cbn [hd app fmap list_fmap]; by rewrite parse_line by (by apply Forall_inv in Hr).
Qed.

(** *** A file system that fails *)

(** Whatever the file system does, adding a row and updating the last one keep all the rows
    before it; a part of the new row may follow them, also when success is reported. *)
Lemma rows_before_kept d m rs r :
  represents m rs ->
  (exists n, default [] (im_index_file (add_index d m r).2) = index_text rs ++ take n (to_string r)) /\
  (exists v m', update_index d m r = Done (v, m') /\
     (m' = m \/ exists n, im_index_file m' = Some (index_text (removelast rs) ++ take n (to_string r)))).
Proof.
  assert (forall w s, exists n, written w s = take n s) as Hw.
  { intros w s. unfold written. destruct (w_short w) as [n|]; [by exists n|]. exists (length s). by rewrite take_ge. }
  intros Hm. pose proof Hm as [Hf Hr]. split.
  - unfold add_index. destruct (Hw (d_append d) (to_string r)) as [n Hn]. destruct (d_open d); cbn [snd set_index_file im_index_file]; rewrite Hf; cbn [default].
    + exists n. by rewrite Hn.
    + exists 0%nat. by rewrite app_nil_r.
  - pose proof (update_index_spec m rs r Hm) as E. unfold update_index in *. rewrite Hf in *. cbn [d_copy d_open d_resize d_rename disk_ok andb] in E.
    destruct (seekg_last_line (index_text rs)) as [pos|]; [|done]. cbn [mbind outcome_bind] in E |- *. apply Done_inj in E. injection E as E.
    assert (first pos (index_text rs) = index_text (removelast rs)) as ->.
    { unfold index_text in E at 2. rewrite fmap_app, join_app in E. cbn in E. rewrite app_nil_r in E. by apply app_inv_tail in E. }
    destruct (d_copy d && d_open d); [|eexists _, m; split; [done|by left]]. destruct (d_resize d && d_rename d); [|eexists _, m; split; [done|by left]].
    eexists _, _. split; [done|]. right. destruct (Hw (d_rewrite d) (to_string r)) as [n ->]. by exists n.
Qed.

(** *** Purging up to a file *)

Definition active (m : BinlogIndexManager) (r : BinlogIndexRecord) : Prop := is_active m (get_file_name r) = true.
Definition inactive (m : BinlogIndexManager) (r : BinlogIndexRecord) : Prop := is_active m (get_file_name r) = false.
#[export] Instance active_dec m r : Decision (active m r).
Proof. unfold active. apply _. Defined.
#[export] Instance inactive_dec m r : Decision (inactive m r).
Proof. unfold inactive. apply _. Defined.
Definition latest_gtid (g : Z) (rs : list BinlogIndexRecord) : Z :=
  fold_left (fun g r => if g =? 0 then (get_current_mapping r).2 else g) rs g.

Lemma purge_to_loop_before m t l : forall k p,
  Forall (fun r => strcmp_eq (get_file_name r) t = false) l ->
  purge_to_loop m t (l ++ k) false p
  = purge_to_loop m t k false (mkPurge (rev l ++ p_index_records p) (p_purge_binlog_files p) (p_last_gtid_seq p)).
Proof.
  induction l as [|r l IH]; intros k p H; [by destruct p|].
  apply Forall_cons in H as [Hr H]. cbn [app purge_to_loop]. rewrite Hr. cbn [orb andb].
  rewrite IH by done. cbn [p_index_records p_purge_binlog_files p_last_gtid_seq rev]. by rewrite <-app_assoc.
Qed.

Lemma purge_to_loop_found m t l : forall p,
  purge_to_loop m t l true p
  = (true, mkPurge (rev (filter (active m) l) ++ p_index_records p)
             (p_purge_binlog_files p ++ (get_file_name <$> filter (inactive m) l))
             (latest_gtid (p_last_gtid_seq p) (filter (inactive m) l))).
Proof.
  induction l as [|r l IH]; intros p; [cbn; rewrite app_nil_r; by destruct p|].
  cbn [purge_to_loop orb]. rewrite !filter_cons.
  destruct (is_active m (get_file_name r)) eqn:E; cbn [negb andb]; rewrite IH;
    cbn [p_index_records p_purge_binlog_files p_last_gtid_seq].
  - rewrite decide_True, decide_False by (unfold active, inactive; congruence). cbn [rev]. by rewrite <-app_assoc.
  - rewrite decide_False, decide_True by (unfold active, inactive; congruence). cbn [fmap list_fmap]. by rewrite <-app_assoc.
Qed.

Lemma filter_rev {A} (P : A -> Prop) `{forall x, Decision (P x)} (l : list A) : filter P (rev l) = rev (filter P l).
Proof.
  induction l as [|x l IH]; [done|]. cbn [rev]. rewrite filter_app, IH, !filter_cons, filter_nil.
  destruct (decide (P x)); [done|by rewrite app_nil_r].
Qed.

(** purging up to a binlog removes from the index exactly that binlog and the
    earlier ones, except the binlog being written; it lists the removed files newest
    first and purges GTIDs up to the newest of them.  An unknown name is an error and
    removes nothing. *)
Theorem purge_binlog_to_file_spec m t before r after :
  strcmp_eq (get_file_name r) t = true ->
  Forall (fun r => strcmp_eq (get_file_name r) t = false) after ->
  purge_binlog_to_file m t (before ++ r :: after)
  = (OMS_OK, mkPurge (filter (active m) (before ++ [r]) ++ after)
      (get_file_name <$> rev (filter (inactive m) (before ++ [r])))
      (latest_gtid 0 (rev (filter (inactive m) (before ++ [r]))))) /\
  purge_binlog_to_file m t after = (OMS_FAILED, mkPurge after [] 0).
Proof.
  intros Hr Ha.
  assert (Forall (fun r => strcmp_eq (get_file_name r) t = false) (rev after)) as Ha'.
  { apply Forall_forall. intros x Hx. rewrite list_elem_of_In, <-in_rev, <-list_elem_of_In in Hx.
    by eapply Forall_forall in Ha. }
  unfold purge_binlog_to_file. split.
  - replace (rev (before ++ r :: after)) with (rev after ++ rev (before ++ [r]))
      by (by rewrite <-rev_app_distr, <-app_assoc).
    rewrite purge_to_loop_before by done. cbn [p_index_records p_purge_binlog_files p_last_gtid_seq].
    rewrite app_nil_r, rev_involutive, rev_app_distr. cbn [rev app].
    replace (purge_to_loop m t (r :: rev before) false _)
      with (purge_to_loop m t (r :: rev before) true (mkPurge after [] 0))
      by (cbn [purge_to_loop]; rewrite Hr; done).
    rewrite purge_to_loop_found. cbn [p_index_records p_purge_binlog_files p_last_gtid_seq].
    change (r :: rev before) with (rev [r] ++ rev before). rewrite <-rev_app_distr, !filter_rev, rev_involutive. done.
  - rewrite <-(app_nil_r (rev after)), purge_to_loop_before by done. cbn. by rewrite app_nil_r, rev_involutive.
Qed.

(** ** Concrete instances *)

Definition sample_record (i gtid pos : Z) : BinlogIndexRecord :=
  mkIndexRecord (str "./data/mysql-bin." ++ to_dec i) i (str "tx0", 1) (str "tx1", gtid) 1700000000 pos.

Lemma index_record_roundtrip_witness :
  parse empty_record (to_string (sample_record 3 9 240)) = Done (sample_record 3 9 240) /\
  parse empty_record (line (sample_record 3 9 240)) = Done (sample_record 3 9 240).
Proof. apply (index_record_roundtrip (sample_record 3 9 240) empty_record). by_compute. Defined.

Lemma index_refinement_witness :
  exists m', run_ops (mkIndexManager (Some []) empty_record)
      [AddIndex (sample_record 1 5 155); UpdateIndex (sample_record 1 7 400); AddIndex (sample_record 2 7 155);
       RemoveBinlog (sample_record 1 7 400)]
      = Done ([OMS_OK; OMS_OK; OMS_OK; OMS_OK], m') /\ represents m' [sample_record 2 7 155].
Proof.
  apply (index_refinement
    [AddIndex (sample_record 1 5 155); UpdateIndex (sample_record 1 7 400); AddIndex (sample_record 2 7 155);
     RemoveBinlog (sample_record 1 7 400)] (mkIndexManager (Some []) empty_record) []).
  - by split.
  - by_compute.
Defined.

Lemma index_queries_witness :
  let m := mkIndexManager (Some (index_text ([sample_record 1 5 155] ++ [sample_record 2 7 155]))) empty_record in
  fetch_index_vector m = Done (OMS_OK, [sample_record 1 5 155; sample_record 2 7 155]) /\
  get_latest_index m empty_record = Done (OMS_OK, sample_record 2 7 155) /\
  get_first_index m empty_record = Done (OMS_OK, sample_record 1 5 155).
Proof.
  intros m. apply (index_queries m [sample_record 1 5 155] (sample_record 2 7 155) empty_record).
  split; [done|]. by_compute.
Defined.

(** A disk that fills up while a line is written: the row added is torn, and the next row
    continues its line. *)
Definition full_disk (n : nat) : disk := mkDisk true (mkWrite false (Some n)) true true (mkWrite false (Some n)) true (mkWrite false (Some n)) true.
Example add_index_torn :
  let m := mkIndexManager (Some (index_text [sample_record 1 5 155])) empty_record in
  (add_index (full_disk 10) m (sample_record 2 7 155)).1 = OMS_FAILED /\
  let m' := (add_index disk_ok (add_index (full_disk 10) m (sample_record 2 7 155)).2 (sample_record 2 7 155)).2 in
  get_latest_index m' empty_record = Done (OMS_OK, mkIndexRecord (str "./data/mys./data/mysql-bin.2") 2 (str "tx0", 1) (str "tx1", 7) 1700000000 155).
Proof. vm_compute. split; reflexivity. Qed.

(** On the same disk an update of the last row reports success and has lost the row: the
    result of [FsUtil::rewrite] is not looked at, and the short copy is renamed over the
    index. *)
Example update_index_loses_row :
  let m := mkIndexManager (Some (index_text [sample_record 1 5 155; sample_record 2 7 155])) empty_record in
  exists m', update_index (full_disk 0) m (sample_record 2 8 300) = Done (OMS_OK, m') /\
    fetch_index_vector m' = Done (OMS_OK, [sample_record 1 5 155]) /\ im_memory_index_record m' = sample_record 2 8 300.
Proof. intros m. eexists. split; [vm_compute; reflexivity|]. split; vm_compute; reflexivity. Qed.

Lemma purge_binlog_to_file_spec_witness :
  let m := mkIndexManager None (sample_record 3 9 240) in
  purge_binlog_to_file m (get_file_name (sample_record 2 7 155))
    ([sample_record 1 5 155] ++ sample_record 2 7 155 :: [sample_record 3 9 240])
  = (OMS_OK, mkPurge [sample_record 3 9 240]
      [get_file_name (sample_record 2 7 155); get_file_name (sample_record 1 5 155)] 7).
Proof.
  intros m. apply (proj1 (purge_binlog_to_file_spec m (get_file_name (sample_record 2 7 155))
    [sample_record 1 5 155] (sample_record 2 7 155) [sample_record 3 9 240] eq_refl ltac:(repeat constructor))).
Defined.
