(* ===== verification/GtidManager.v ===== *)
(** * GtidManager: the transaction / GTID checkpoints

    [src/src/binlog/gtid_manager.{h,cpp}].  The manager keeps a bounded window of
    checkpoints in memory and all of them in a text file, compresses them by time and by
    number of transactions, and maintains the [gtid_purged] and [gtid_executed]
    variables.  The file is its bytes ([None] when it cannot be opened). *)

From S2P Require Import Prelude Bytes Str Gtid Events EventWire EventScan BinlogIndex.

#[local] Open Scope Z_scope.

(** ** GtidSeq *)

Record GtidSeq := mkGtidSeq {
  get_commit_version_start : Z;
  get_xid_start : bytes;
  get_gtid_start : Z;
  get_trxs_num : Z
}.
#[export] Instance GtidSeq_eq_dec : EqDecision GtidSeq.
Proof. solve_decision. Defined.

Definition empty_seq : GtidSeq := mkGtidSeq 0 [] 0 0.

Definition serialize (s : GtidSeq) : bytes :=
  intercalate 35 [to_dec (get_commit_version_start s); get_xid_start s; to_dec (get_gtid_start s);
                  to_dec (get_trxs_num s)].

(** [deserialize]: anything but four fields leaves the object as it was. *)
Definition deserialize (s : GtidSeq) (line : bytes) : GtidSeq :=
  match split line 35 false with
  | [f0; f1; f2; f3] => mkGtidSeq (u64 (atoll f0)) f1 (u64 (atoll f2)) (u64 (atoll f3))
  | _ => s
  end.

(** ** Configuration *)

Record gtid_config := mkGtidConfig {
  gtid_marking_step_size : Z;
  gtid_seq_compressed_interval_s : Z;
  gtid_seq_compressed_trx_size : Z;
  gtid_memory_cache_seconds : Z;
  max_incr_gtid_seqs_num : Z;
  binlog_expire_logs_seconds : Z;
  initial_ob_txn_gtid_seq : Z;
  master_server_uuid : bytes
}.

(** ** GtidManager *)

Record GtidManager := mkGtidManager {
  nof_trx : Z;
  curr_hb_checkpoint : Z;
  curr_trx_checkpoint : Z;
  last_saved_commit_version_high : Z;
  gtid_seq_file : option bytes;
  first_entry_after_restarted : bool;
  gtid_checkpoint_set : list GtidSeq;
  last_gtid_purged : Z;
  last_checkpoint_purged : Z;
  gtid_seq_set : list (Z * bytes);
  gtid_purged_set : list GtidMessage;
  gtid_executed_set : list GtidMessage;
  var_gtid_purged : bytes;
  var_gtid_executed : bytes
}.

Definition new_gtid_manager (file : option bytes) : GtidManager :=
  mkGtidManager 0 0 0 0 file false [] 0 0 [] [] [] [] [].

Definition with_counters (trx hb t high : Z) (m : GtidManager) : GtidManager :=
  mkGtidManager trx hb t high (gtid_seq_file m) (first_entry_after_restarted m) (gtid_checkpoint_set m)
    (last_gtid_purged m) (last_checkpoint_purged m) (gtid_seq_set m) (gtid_purged_set m)
    (gtid_executed_set m) (var_gtid_purged m) (var_gtid_executed m).
Definition with_checkpoints (l : list GtidSeq) (m : GtidManager) : GtidManager :=
  mkGtidManager (nof_trx m) (curr_hb_checkpoint m) (curr_trx_checkpoint m) (last_saved_commit_version_high m)
    (gtid_seq_file m) (first_entry_after_restarted m) l (last_gtid_purged m) (last_checkpoint_purged m)
    (gtid_seq_set m) (gtid_purged_set m) (gtid_executed_set m) (var_gtid_purged m) (var_gtid_executed m).
Definition with_store (file : option bytes) (first_entry : bool) (set_ : list (Z * bytes)) (m : GtidManager) : GtidManager :=
  mkGtidManager (nof_trx m) (curr_hb_checkpoint m) (curr_trx_checkpoint m) (last_saved_commit_version_high m)
    file first_entry (gtid_checkpoint_set m) (last_gtid_purged m) (last_checkpoint_purged m)
    set_ (gtid_purged_set m) (gtid_executed_set m) (var_gtid_purged m) (var_gtid_executed m).
Definition with_purged (gtid cp : Z) (file : option bytes) (m : GtidManager) : GtidManager :=
  mkGtidManager (nof_trx m) (curr_hb_checkpoint m) (curr_trx_checkpoint m) (last_saved_commit_version_high m)
    file (first_entry_after_restarted m) (gtid_checkpoint_set m) gtid cp
    (gtid_seq_set m) (gtid_purged_set m) (gtid_executed_set m) (var_gtid_purged m) (var_gtid_executed m).
Definition with_variables (purged executed : list GtidMessage) (vp ve : bytes) (m : GtidManager) : GtidManager :=
  mkGtidManager (nof_trx m) (curr_hb_checkpoint m) (curr_trx_checkpoint m) (last_saved_commit_version_high m)
    (gtid_seq_file m) (first_entry_after_restarted m) (gtid_checkpoint_set m) (last_gtid_purged m)
    (last_checkpoint_purged m) (gtid_seq_set m) purged executed vp ve.

(** [join_vector_str(set, gtid_str_generator)] *)
Fixpoint format_messages (ms : list GtidMessage) : outcome (list bytes) :=
  match ms with
  | [] => Done []
  | m :: ms => b ← format_string m; bs ← format_messages ms; Done (b :: bs)
  end.
Definition gtid_set_str (ms : list GtidMessage) : outcome bytes :=
  bs ← format_messages ms; Done (join_vector_str bs (str ",")).

Section Manager.
Context (cfg : gtid_config) (append_ok : bool).

(** [mark_event] *)
Definition mark_event (is_heartbeat : bool) (checkpoint : Z) (trx_mapping : mapping) (m : GtidManager)
    : outcome GtidManager :=
  let checkpoint_s := checkpoint `div` 1000000 in
  if is_heartbeat then
    Done (with_counters (nof_trx m) checkpoint_s (curr_trx_checkpoint m) (last_saved_commit_version_high m) m)
  else
    let m := with_counters (u64 (nof_trx m + 1)) (curr_hb_checkpoint m) checkpoint_s
               (last_saved_commit_version_high m) m in
    if gtid_marking_step_size cfg =? 0 then Crash
    else if trx_mapping.2 `mod` gtid_marking_step_size cfg =? 0 then
      Done (with_checkpoints (gtid_checkpoint_set m ++ [mkGtidSeq checkpoint_s trx_mapping.1 trx_mapping.2 0]) m)
    else Done m.

(** The cached entries dropped from the front of the window: an unsigned difference. *)
Fixpoint drop_expired (curr : Z) (l : list (Z * bytes)) : list (Z * bytes) :=
  match l with
  | [] => []
  | e :: l' => if u64 (curr - e.1) <? gtid_memory_cache_seconds cfg then l else drop_expired curr l'
  end.

(** [save_gtid_seq] *)
Definition save_gtid_seq (s : GtidSeq) (m : GtidManager) : ret * GtidManager :=
  let skip_it :=
    match last (gtid_seq_set m) with
    | Some e => first_entry_after_restarted m &&
        (get_commit_version_start s <=? get_commit_version_start (deserialize empty_seq e.2))
    | None => false
    end in
  if skip_it then (OMS_OK, m)
  else
    let cache := drop_expired (get_commit_version_start s) (gtid_seq_set m) ++
                 [(get_commit_version_start s, serialize s)] in
    if append_ok then
      (OMS_OK, with_store (Some (default [] (gtid_seq_file m) ++ serialize s ++ [10])) false cache m)
    else (OMS_FAILED, with_store (gtid_seq_file m) (first_entry_after_restarted m) cache m).

(** [rewrite_gtid_file]: without an existing file nothing happens. *)
Definition first_checkpoint (kept : list bytes) : Z :=
  fold_left (fun c l => if c =? 0 then get_commit_version_start (deserialize empty_seq l) else c) kept 0.

Definition rewrite_gtid_file (compare_func : GtidSeq -> bool) (update_first_checkpoint : bool) (m : GtidManager)
    : GtidManager :=
  match gtid_seq_file m with
  | None => m
  | Some file =>
      let kept := filter (fun l => compare_func (deserialize empty_seq l) = true) (getlines file) in
      with_purged (last_gtid_purged m)
        (if update_first_checkpoint then first_checkpoint kept else last_checkpoint_purged m)
        (Some (unlines kept)) m
  end.

(** [clear_outdated_heartbeat_gtid_seqs_periodically]; [(int)(1.2 * (double)n)] is
    [6 n / 5] for every [n] an [int] can hold. *)
Definition clear_outdated (current_checkpoint : Z) (m : GtidManager) : GtidManager :=
  let elapsed := sint 32 (current_checkpoint - last_checkpoint_purged m) in
  if (6 * binlog_expire_logs_seconds cfg) `div` 5 <? elapsed then
    let cp := u64 (current_checkpoint - binlog_expire_logs_seconds cfg) in
    let m := with_purged (last_gtid_purged m) cp (gtid_seq_file m) m in
    rewrite_gtid_file (fun s =>
      (cp <=? get_commit_version_start s) ||
      ((get_commit_version_start s <? cp) && negb (beq (get_xid_start s) []))) false m
  else m.

(** [compress_and_save_gtid_seq] *)
Definition save_checkpoints (m : GtidManager) : GtidManager :=
  with_checkpoints [] (fold_left (fun m s => (save_gtid_seq s m).2) (gtid_checkpoint_set m) m).

Definition compress_and_save_gtid_seq (trx_mapping : mapping) (m : GtidManager) : GtidManager :=
  let m := save_checkpoints m in
  let max_curr := Z.max (curr_hb_checkpoint m) (curr_trx_checkpoint m) in
  let high := last_saved_commit_version_high m in
  if max_curr <=? high then m
  else if (gtid_seq_compressed_interval_s cfg <=? max_curr - high) ||
          (gtid_seq_compressed_trx_size cfg <=? nof_trx m) then
    let has_trx := 0 <? nof_trx m in
    let s := mkGtidSeq (if has_trx then curr_trx_checkpoint m else curr_hb_checkpoint m)
               (if has_trx then trx_mapping.1 else []) trx_mapping.2 (nof_trx m) in
    let m := (save_gtid_seq s m).2 in
    let m := with_counters 0 (curr_hb_checkpoint m) (curr_trx_checkpoint m) max_curr m in
    clear_outdated max_curr m
  else m.

(** [update_gtid_purged], [update_gtid_executed], [purge_gtid_before] *)
Definition update_gtid_purged (gtid : Z) (m : GtidManager) : outcome GtidManager :=
  purged ← merge_gtid_before (master_server_uuid cfg) (gtid_purged_set m) (1, gtid);
  s ← gtid_set_str purged;
  Done (with_variables purged (gtid_executed_set m) s (var_gtid_executed m)
          (with_purged gtid (last_checkpoint_purged m) (gtid_seq_file m) m)).

Definition update_gtid_executed (gtid : Z) (m : GtidManager) : outcome GtidManager :=
  executed ← merge_gtid_before (master_server_uuid cfg) (gtid_executed_set m) (1, gtid);
  s ← gtid_set_str executed;
  Done (with_variables (gtid_purged_set m) executed (var_gtid_purged m) s m).

Definition purge_gtid_before_impl (last_gtid : Z) (m : GtidManager) : outcome GtidManager :=
  update_gtid_purged last_gtid (rewrite_gtid_file (fun s => last_gtid <? get_gtid_start s) true m).

(** [get_instance_incr_gtids_string], with the lock obtained: at most
    [max_incr_gtid_seqs_num + 1] entries newer than [timestamp], joined with [|]. *)
Fixpoint incr_loop (timestamp : Z) (entries : list (Z * bytes)) (count : Z) (gtids : bytes) : bytes :=
  match entries with
  | [] => gtids
  | e :: entries =>
      let take_it := timestamp <? e.1 in
      let gtids := if take_it then gtids ++ e.2 ++ str "|" else gtids in
      let count := if take_it then count + 1 else count in
      if max_incr_gtid_seqs_num cfg <? count then gtids else incr_loop timestamp entries count gtids
  end.

Definition get_instance_incr_gtids_string (timestamp : Z) (m : GtidManager) (gtids : bytes) : bytes :=
  match gtid_seq_set m with
  | [] => gtids
  | e0 :: _ =>
      if e0.1 <=? timestamp then
        removelast (incr_loop timestamp (gtid_seq_set m) 0 gtids)
      else
        match gtid_seq_file m with
        | None => gtids
        | Some file =>
            removelast (incr_loop timestamp
              ((fun l => (get_commit_version_start (deserialize empty_seq l), l)) <$> getlines file) 0 gtids)
        end
  end.

Definition get_latest_gtid_seq (m : GtidManager) (s : GtidSeq) : ret * GtidSeq :=
  match last (gtid_seq_set m) with
  | None => (OMS_FAILED, s)
  | Some e => (OMS_OK, deserialize s e.2)
  end.

(** [get_first_le_gtid_seq]: backwards through the cache; an entry with the same GTID but
    no transaction (a heartbeat) is passed over. *)
Definition le_gtid (gtid : Z) (s : GtidSeq) : bool :=
  (get_gtid_start s <? gtid) || ((get_gtid_start s =? gtid) && negb (beq (get_xid_start s) [])).

Definition get_first_le_gtid_seq (gtid : Z) (m : GtidManager) (s : GtidSeq) : ret * GtidSeq :=
  match list_find (fun e => le_gtid gtid (deserialize empty_seq e.2) = true) (rev (gtid_seq_set m)) with
  | Some (_, e) => (OMS_OK, deserialize empty_seq e.2)
  | None => (OMS_FAILED, s)
  end.

Definition init_start_timestamp (start_timestamp : Z) (m : GtidManager) : GtidManager :=
  with_counters (nof_trx m) (curr_hb_checkpoint m) (curr_trx_checkpoint m) start_timestamp m.

(** *** Start-up *)

(** [read_last_valid_gtid_seq]: from the end of the file backwards, line by line, until a
    line gives a non-zero checkpoint.  [newline_before file size pos] is the inner loop:
    the last newline at or before [pos], the one ending the last line left out. *)
Fixpoint newline_before (file : bytes) (size : Z) (pos : nat) : nat :=
  match pos with
  | O => O
  | S p => if (nth pos file 0 =? 10) && negb (Z.of_nat pos =? size - 1) then pos else newline_before file size p
  end.

Fixpoint read_last_loop (fuel : nat) (file : bytes) (size : Z) (s : GtidSeq) : GtidSeq :=
  match fuel with
  | O => s
  | S fuel =>
      if (0 <? size) && (get_commit_version_start s =? 0) then
        let position := newline_before file size (Z.to_nat (size - 1)) in
        let start := if (position =? 0)%nat then 0 else Z.of_nat position + 1 in
        let s := deserialize s (hd [] (getlines (skip start file))) in
        read_last_loop fuel file (Z.of_nat position) s
      else s
  end.

(** Each round moves the end of the region left, so [length file] rounds are enough. *)
Definition read_last_valid_gtid_seq (m : GtidManager) (s : GtidSeq) : GtidSeq :=
  match gtid_seq_file m with
  | None => s
  | Some file => read_last_loop (S (length file)) file (zlen file) s
  end.

(** [init_gtid_seq]: the same object is reused for every line. *)
Fixpoint init_loop (last_checkpoint : Z) (lines : list bytes) (s : GtidSeq) (purged : Z) (cache : list (Z * bytes))
    : Z * list (Z * bytes) :=
  match lines with
  | [] => (purged, cache)
  | l :: lines =>
      let s := deserialize s l in
      let cp := get_commit_version_start s in
      init_loop last_checkpoint lines s (if purged =? 0 then cp else purged)
        (if u64 (last_checkpoint - cp) <? gtid_memory_cache_seconds cfg then cache ++ [(cp, l)] else cache)
  end.

Definition init_gtid_seq (now_s : Z) (m : GtidManager) : GtidManager :=
  let last := get_commit_version_start (read_last_valid_gtid_seq m empty_seq) in
  let last_checkpoint := if last =? 0 then now_s else last in
  match gtid_seq_file m with
  | None => m
  | Some file =>
      let '(purged, cache) := init_loop last_checkpoint (getlines file) empty_seq (last_checkpoint_purged m) (gtid_seq_set m) in
      with_store (gtid_seq_file m) true cache (with_purged (last_gtid_purged m) purged (gtid_seq_file m) m)
  end.

(** *** The gtid variables at start-up *)

Section Files.
Context (binlog_checksum : bool) (fuel : nat) (binlogs : bytes -> option bytes).

(** A scan that does not end is a [Crash]. *)
Definition scan_file (name : bytes) (event_type : Z) (single : bool) : outcome (ret * list ObLogEvent) :=
  file ← of_option (binlogs name);
  r ← seek_events binlog_checksum fuel file event_type single;
  of_option r.

(** [get_previous_gtid_set] *)
Definition get_previous_gtid_set (name : bytes) (gtid_set : list GtidMessage) : outcome (ret * list GtidMessage) :=
  '(r, evs) ← scan_file name PREVIOUS_GTIDS_LOG_EVENT true;
  if decide (r = OMS_OK) then
    match evs with
    | [ev] =>
        match get_body ev with
        | PreviousGtidsLogEvent _ ms => Done (OMS_OK, gtid_set ++ (snd <$> ms))
        | _ => Crash
        end
    | _ => Crash
    end
  else Done (OMS_FAILED, gtid_set).

Definition last_gtid_of (evs : list ObLogEvent) (r : BinlogIndexRecord) : outcome Z :=
  match last evs with
  | Some ev => match get_body ev with GtidLogEvent e => Done (gl_gtid_txn_id e) | _ => Crash end
  | None =>
      Done (if 0 <? (get_current_mapping r).2 then
              if beq (get_before_mapping r).1 [] then (get_current_mapping r).2 - 1 else (get_current_mapping r).2
            else 0)
  end.

(** The sets [init_gtid_variables] computes; [None] is [OMS_FAILED]. *)
Definition init_gtid_sets (index_records : list BinlogIndexRecord) (purged executed : list GtidMessage)
    : outcome (option (list GtidMessage * list GtidMessage)) :=
  match index_records with
  | [] =>
      if 1 <? initial_ob_txn_gtid_seq cfg then
        let range := (1, initial_ob_txn_gtid_seq cfg - 1) in
        purged ← merge_gtid_before (master_server_uuid cfg) purged range;
        executed ← merge_gtid_before (master_server_uuid cfg) executed range;
        Done (Some (purged, executed))
      else Done (Some (purged, executed))
  | first_record :: _ =>
      let last_record := List.last index_records first_record in
      '(r1, purged) ← get_previous_gtid_set (get_file_name first_record) purged;
      if decide (r1 = OMS_OK) then
        '(r2, executed) ← get_previous_gtid_set (get_file_name last_record) executed;
        if decide (r2 = OMS_OK) then
          '(r3, evs) ← scan_file (get_file_name last_record) GTID_LOG_EVENT false;
          if decide (r3 = OMS_OK) then
            last_gtid ← last_gtid_of evs last_record;
            executed ← (if 0 <? last_gtid then merge_gtid_before (master_server_uuid cfg) executed (1, last_gtid)
                        else Done executed);
            Done (Some (purged, executed))
          else Done None
        else Done None
      else Done None
  end.

Definition init_gtid_variables (index_records : list BinlogIndexRecord) (m : GtidManager) : outcome (ret * GtidManager) :=
  sets ← init_gtid_sets index_records (gtid_purged_set m) (gtid_executed_set m);
  match sets with
  | None => Done (OMS_FAILED, m)
  | Some (purged, executed) =>
      vp ← gtid_set_str purged;
      ve ← gtid_set_str executed;
      Done (OMS_OK, with_variables purged executed vp ve m)
  end.

End Files.
End Manager.

(** The implementation the index relies on. *)
#[export] Instance GtidManager_purge (cfg : gtid_config) : GtidPurge GtidManager := purge_gtid_before_impl cfg.

(** ** Searching a reported list *)

(** [binary_search_gtid_seq]: indices are 64-bit; [fuel] bounds the loop, a subscript out
    of range is a [Crash]. *)
Fixpoint search_loop (fuel : nat) (timestamp : Z) (seqs : list bytes) (low high : Z) (s : GtidSeq)
    : outcome (option Z) :=
  if low <=? high then
    match fuel with
    | O => Done None
    | S fuel =>
        let mid := low + Z.shiftr (high - low) 1 in
        l ← of_option (seqs !! Z.to_nat mid);
        let s := deserialize s l in
        if timestamp <? get_commit_version_start s
        then search_loop fuel timestamp seqs low (u64 (mid - 1)) s
        else search_loop fuel timestamp seqs (mid + 1) high s
    end
  else Done (Some high).

Definition binary_search_gtid_seq (fuel : nat) (timestamp : Z) (tenant_gtids_str : bytes) (gtid_seq : GtidSeq)
    : outcome (option (ret * GtidSeq)) :=
  match split tenant_gtids_str 124 false with
  | [] => Done (Some (OMS_FAILED, gtid_seq))
  | (front :: _) as seqs =>
      let back := List.last seqs front in
      let s := deserialize empty_seq back in
      if (0 =? timestamp) || (get_commit_version_start s <? timestamp)
      then Done (Some (OMS_OK, deserialize gtid_seq back))
      else
        let s := deserialize s front in
        if timestamp <? get_commit_version_start s then Done (Some (OMS_OK, deserialize gtid_seq front))
        else
          r ← search_loop fuel timestamp seqs 0 (zlen seqs - 1) s;
          match r with
          | None => Done None
          | Some i => l ← of_option (seqs !! Z.to_nat i); Done (Some (OMS_OK, deserialize gtid_seq l))
          end
  end.

(** [boundary_gtid_seq]: the text before the first bar and after the last one. *)
Definition boundary_gtid_seq (tenant_gtids_str : bytes) (a b : GtidSeq) : ret * (GtidSeq * GtidSeq) :=
  match tenant_gtids_str with
  | [] => (OMS_FAILED, (a, b))
  | _ =>
      let pos := index_of tenant_gtids_str 124 0 in
      let '(minimum, maximum) :=
        if pos <? 0 then (tenant_gtids_str, tenant_gtids_str)
        else (first pos tenant_gtids_str,
              rev (first (index_of (rev tenant_gtids_str) 124 0) (rev tenant_gtids_str))) in
      (OMS_OK, (deserialize a minimum, deserialize b maximum))
  end.

(** ** Text of a checkpoint *)

Definition seq_ok (s : GtidSeq) : Prop :=
  is_i63 (get_commit_version_start s) /\ text_ok [0; 10; 35; 124] (get_xid_start s) /\
  is_i63 (get_gtid_start s) /\ is_i63 (get_trxs_num s).
#[export] Instance seq_ok_dec s : Decision (seq_ok s).
Proof. unfold seq_ok. apply _. Defined.

Lemma atoll_i63 n : is_i63 n -> atoll (to_dec n) = n.
Proof. intros H. pose proof (atoll_to_dec n [] H ltac:(done)) as E. by rewrite app_nil_r in E. Qed.

Lemma seq_parts_not_in c s :
  seq_ok s -> c = 0 \/ c = 10 \/ c = 35 \/ c = 124 ->
  Forall (fun p => c ∉ p) [to_dec (get_commit_version_start s); get_xid_start s; to_dec (get_gtid_start s);
                           to_dec (get_trxs_num s)].
Proof.
  intros (H1 & H2 & H3 & H4) Hc.
  assert (forall n, is_i63 n -> c ∉ to_dec n) as Hd
    by (intros n Hn; apply to_dec_not_in; [apply Hn|lia]).
  repeat constructor; auto. eapply text_ok_not_in; [done|]. destruct_or! Hc; subst; by_compute.
Qed.

Lemma serialize_not_in c s : seq_ok s -> c = 0 \/ c = 10 \/ c = 124 -> c ∉ serialize s.
Proof.
  intros Hs Hc. apply intercalate_not_in; [lia|]. apply seq_parts_not_in; [done|lia].
Qed.

Lemma split_serialize s : seq_ok s ->
  split (serialize s) 35 false =
    [to_dec (get_commit_version_start s); get_xid_start s; to_dec (get_gtid_start s); to_dec (get_trxs_num s)].
Proof.
  intros Hs. unfold serialize. apply split_intercalate.
  - cbn [intercalate]. pose proof (to_dec_nonempty (get_commit_version_start s)).
    by destruct (to_dec (get_commit_version_start s)).
  - by apply serialize_not_in; [|left].
  - apply seq_parts_not_in; [done|lia].
Qed.

Lemma deserialize_serialize s0 s : seq_ok s -> deserialize s0 (serialize s) = s.
Proof.
  intros Hs. unfold deserialize. rewrite split_serialize by done. destruct Hs as (H1 & _ & H3 & H4).
  rewrite !atoll_i63, !u64_i63 by done. by destruct s.
Qed.

(** A list of checkpoints as it is reported: joined with bars. *)
Definition report (ss : list GtidSeq) : bytes := intercalate 124 (serialize <$> ss).

Lemma split_report ss : ss <> [] -> Forall seq_ok ss -> split (report ss) 124 false = serialize <$> ss.
Proof.
  intros Hne Hss. unfold report.
  assert (forall c, c = 0 \/ c = 124 -> Forall (fun p => c ∉ p) (serialize <$> ss)) as Hn.
  { intros c Hc. apply Forall_fmap. eapply Forall_impl; [exact Hss|]. intros s Hs. apply serialize_not_in; [done|lia]. }
  apply split_intercalate; [|apply intercalate_not_in; [done|]; apply Hn; lia|apply Hn; lia].
  destruct ss as [|s ss]; [done|]. cbn [fmap list_fmap intercalate].
  assert (serialize s <> []) as Hs.
  { unfold serialize. cbn [intercalate]. pose proof (to_dec_nonempty (get_commit_version_start s)).
    by destruct (to_dec (get_commit_version_start s)). }
  destruct ss; [done|]. by destruct (serialize s).
Qed.

(** ** Binary search *)

(** Checkpoints in order of time. *)
Definition by_time (ss : list GtidSeq) : Prop :=
  forall i j a b, (i <= j)%nat -> ss !! i = Some a -> ss !! j = Some b ->
    get_commit_version_start a <= get_commit_version_start b.

Lemma search_loop_spec ss timestamp : forall fuel low high s,
  Forall seq_ok ss -> by_time ss -> 0 <= low -> high < zlen ss -> low - 1 <= high -> zlen ss < 2 ^ 63 ->
  (forall i a, Z.of_nat i < low -> ss !! i = Some a -> get_commit_version_start a <= timestamp) ->
  (forall i a, high < Z.of_nat i -> ss !! i = Some a -> timestamp < get_commit_version_start a) ->
  (exists a, ss !! 0%nat = Some a /\ get_commit_version_start a <= timestamp) ->
  high - low + 1 < Z.of_nat fuel ->
  exists k, search_loop fuel timestamp (serialize <$> ss) low high s = Done (Some k) /\ 0 <= k < zlen ss /\
    (forall i a, Z.of_nat i <= k -> ss !! i = Some a -> get_commit_version_start a <= timestamp) /\
    (forall i a, k < Z.of_nat i -> ss !! i = Some a -> timestamp < get_commit_version_start a).
Proof.
  induction fuel as [|fuel IH]; intros low high s Hok Hsort Hlow Hhigh Hlh Hlen Hleft Hright H0 Hf; [lia|].
  cbn [search_loop]. destruct (Z.leb_spec low high) as [Hle|Hgt].
  - set (mid := low + Z.shiftr (high - low) 1).
    assert (low <= mid <= high) as Hmid.
    { unfold mid. rewrite Z.shiftr_div_pow2 by lia. change (2 ^ 1) with 2.
      pose proof (Z.div_pos (high - low) 2 ltac:(lia) ltac:(lia)).
      pose proof (Z.div_le_upper_bound (high - low) 2 (high - low) ltac:(lia) ltac:(lia)). lia. }
    clearbody mid. destruct (lookup_lt_is_Some_2 ss (Z.to_nat mid)) as [a Ha]; [unfold zlen in *; lia|].
    rewrite list_lookup_fmap, Ha. cbn [fmap option_fmap option_map of_option mbind outcome_bind].
    rewrite deserialize_serialize by (eapply Forall_lookup_1 in Hok; done).
    assert (ss !! Z.to_nat mid = Some a) as Ham by done.
    destruct (Z.ltb_spec timestamp (get_commit_version_start a)) as [Hlt|Hge].
    + assert (mid <> 0) as Hm0.
      { intros E. destruct H0 as (b & Hb & Hb'). rewrite E in Ham. change (Z.to_nat 0) with 0%nat in Ham.
        rewrite Hb in Ham. apply Some_inj in Ham as ->. lia. }
      rewrite u64_id by (unfold is_u64; lia).
      apply IH; try done; try lia. intros i b Hi Hb.
      pose proof (Hsort (Z.to_nat mid) i a b ltac:(lia) Ham Hb). lia.
    + apply IH; try done; try lia. intros i b Hi Hb.
      pose proof (Hsort i (Z.to_nat mid) b a ltac:(lia) Hb Ham). lia.
  - assert (high = low - 1) as -> by lia. exists (low - 1). split; [done|].
    assert (0 <= low - 1) as Hnn.
    { destruct (decide (low = 0)) as [->|]; [|lia]. destruct H0 as (a & Ha & Ht).
      pose proof (Hright 0%nat a ltac:(lia) Ha). lia. }
    split; [lia|]. split; [|done]. intros i a Hi Ha. apply (Hleft i); [lia|done].
Qed.

(** C36: looking up a timestamp in a reported list always ends and answers as a
    specification by order: past the last checkpoint (or 0) the last one, before the
    first checkpoint the first one, and otherwise the last checkpoint that is not later
    than the timestamp. *)
Theorem binary_search_gtid_seq_spec ss timestamp s0 front back fuel :
  Forall seq_ok ss -> by_time ss -> ss !! 0%nat = Some front -> last ss = Some back -> zlen ss < 2 ^ 63 ->
  (length ss < fuel)%nat ->
  exists s, binary_search_gtid_seq fuel timestamp (report ss) s0 = Done (Some (OMS_OK, s)) /\
    (timestamp = 0 \/ get_commit_version_start back < timestamp -> s = back) /\
    (timestamp <> 0 -> timestamp < get_commit_version_start front -> s = front) /\
    (timestamp <> 0 -> get_commit_version_start front <= timestamp <= get_commit_version_start back ->
     exists k, ss !! k = Some s /\ get_commit_version_start s <= timestamp /\
       forall j b, (k < j)%nat -> ss !! j = Some b -> timestamp < get_commit_version_start b).
Proof.
  intros Hok Hsort Hfront Hback Hlen Hf. destruct ss as [|f ss']; [done|]. injection Hfront as ->.
  set (ss := front :: ss') in *. unfold binary_search_gtid_seq. rewrite split_report by done.
  assert (List.last (serialize <$> ss) (serialize front) = serialize back) as Hlast.
  { rewrite last_lookup in Hback. pose proof Hback as Hb.
    destruct (exists_last (l := ss)) as (l & x & E); [done|]. rewrite E in *.
    rewrite fmap_app. change (serialize <$> [x]) with [serialize x]. rewrite last_last. rewrite length_app, Nat.add_1_r in Hb. simpl in Hb.
    rewrite lookup_app_r, Nat.sub_diag in Hb by lia. by injection Hb as ->. }
  assert (seq_ok back) as Hbk by (rewrite last_lookup in Hback; by eapply Forall_lookup_1 in Hok).
  assert (seq_ok front) as Hfr by (by apply Forall_inv in Hok).
  assert (get_commit_version_start front <= get_commit_version_start back) as Hfb.
  { rewrite last_lookup in Hback. eapply (Hsort 0%nat); [|done|exact Hback]. lia. }
  unfold ss at 1. rewrite fmap_cons. cbn beta iota zeta.
  match goal with |- context [List.last ?l ?d] => replace (List.last l d) with (serialize back) by (symmetry; exact Hlast) end.
  rewrite !deserialize_serialize by done.
  destruct (Z.eqb_spec 0 timestamp) as [E|E]; [|destruct (Z.ltb_spec (get_commit_version_start back) timestamp)]; cbn [orb].
  1,2: exists back; split; [done|]; split; [done|]; split; intros; lia.
  destruct (Z.ltb_spec timestamp (get_commit_version_start front)).
  { exists front. split; [done|]. split; [intros; lia|]. split; [done|]. intros; lia. }
  destruct (search_loop_spec ss timestamp fuel 0 (zlen ss - 1) front) as (k & Hk & Hkr & Hle & Hgt); try done; try lia.
  - pose proof (zlen_nonneg ss). lia.
  - intros i a Hi Ha. apply lookup_lt_Some in Ha. unfold zlen in Hi. lia.
  - exists front. split; [done|lia].
  - unfold zlen. lia.
  - change (serialize <$> ss) with (serialize front :: (serialize <$> ss')) in Hk.
    replace (zlen (serialize front :: (serialize <$> ss'))) with (zlen ss)
      by (unfold ss; rewrite !zlen_cons, zlen_fmap; done).
    rewrite Hk. cbn [mbind outcome_bind].
    destruct (lookup_lt_is_Some_2 ss (Z.to_nat k)) as [a Ha]; [unfold zlen in *; lia|].
    assert ((serialize front :: (serialize <$> ss')) !! Z.to_nat k = Some (serialize a)) as ->.
    { change (serialize front :: (serialize <$> ss')) with (serialize <$> ss). by rewrite list_lookup_fmap, Ha. }
    cbn [of_option mbind outcome_bind]. rewrite deserialize_serialize by (by eapply Forall_lookup_1 in Hok).
    exists a. split; [done|]. split; [intros [?|?]; lia|]. split; [lia|].
    intros _ _. exists (Z.to_nat k). split; [done|]. split; [apply (Hle (Z.to_nat k)); [lia|done]|].
    intros j b Hj Hb. apply (Hgt j); [lia|done].
Qed.

(** A checkpoint survives being written and read, and its text has no newline,
    so one checkpoint is one line. *)
Theorem gtid_seq_roundtrip s s0 :
  seq_ok s -> deserialize s0 (serialize s) = s /\ getlines (serialize s ++ [10]) = [serialize s].
Proof.
  intros Hs. split; [by apply deserialize_serialize|].
  change (serialize s ++ [10]) with ([] ++ serialize s ++ [10]).
  pose proof (getlines_unlines [serialize s]) as H. unfold unlines in H. simpl in H.
  rewrite app_nil_r in H. apply H. constructor; [|done]. by apply serialize_not_in; [|right; left].
Qed.

(** ** The window of checkpoints in memory *)

(** In order of time, and no entry newer than [hi]. *)
Fixpoint window (lo hi : Z) (l : list (Z * bytes)) : Prop :=
  match l with
  | [] => True
  | e :: l => lo <= e.1 <= hi /\ window e.1 hi l
  end.
#[export] Instance window_dec lo hi l : Decision (window lo hi l).
Proof. revert lo. induction l; intros; simpl; apply _. Defined.

Lemma window_weaken lo lo' hi hi' l : lo' <= lo -> hi <= hi' -> window lo hi l -> window lo' hi' l.
Proof.
  revert lo lo'. induction l as [|e l IH]; intros lo lo' H1 H2; simpl; [done|].
  intros [? ?]. split; [lia|]. by apply (IH e.1); [lia|lia|].
Qed.

Lemma window_snoc lo hi l e : lo <= hi -> window lo hi l -> e.1 = hi -> window lo hi (l ++ [e]).
Proof.
  revert lo. induction l as [|x l IH]; intros lo Hlo; simpl; [intros _ ->; lia|].
  intros [? ?] He. split; [done|]. apply IH; [lia|done|done].
Qed.

Lemma drop_expired_window cfg curr lo l :
  0 <= lo -> curr < 2 ^ 64 -> window lo curr l ->
  window (Z.max lo (curr - gtid_memory_cache_seconds cfg + 1)) curr (drop_expired cfg curr l).
Proof.
  intros Hlo Hc. revert lo Hlo. induction l as [|e l IH]; intros lo Hlo Hw; [done|]. destruct Hw as [He Hl]. cbn [drop_expired].
  rewrite u64_id by (unfold is_u64; lia).
  destruct (Z.ltb_spec (curr - e.1) (gtid_memory_cache_seconds cfg)); [split; [lia|done]|].
  eapply window_weaken; [| |apply (IH e.1); [lia|done]]; lia.
Qed.

(** saving a checkpoint that is not older than the cached ones appends it to
    the file and to the cache, keeps the cache in order of time, and keeps only entries
    of the last [gtid_memory_cache_seconds] seconds; nothing else changes. *)
Theorem save_gtid_seq_window cfg s m :
  let curr := get_commit_version_start s in
  window 0 curr (gtid_seq_set m) -> 0 <= curr < 2 ^ 64 -> 0 < gtid_memory_cache_seconds cfg ->
  first_entry_after_restarted m = false ->
  exists cache, save_gtid_seq cfg true s m =
      (OMS_OK, with_store (Some (default [] (gtid_seq_file m) ++ serialize s ++ [10])) false
                 (cache ++ [(curr, serialize s)]) m) /\
    window (Z.max 0 (curr - gtid_memory_cache_seconds cfg + 1)) curr (cache ++ [(curr, serialize s)]) /\
    cache `suffix_of` gtid_seq_set m.
Proof.
  intros curr Hw Hc Hcfg Hf. exists (drop_expired cfg curr (gtid_seq_set m)).
  unfold save_gtid_seq. rewrite Hf. split; [by destruct (last _)|]. split.
  - apply window_snoc; [lia| |done]. apply drop_expired_window; [lia|lia|done].
  - generalize (gtid_seq_set m). clear. induction l as [|e l IH]; [done|]. cbn [drop_expired].
    destruct (_ <? _); [done|]. by apply suffix_cons_r.
Qed.

(** ** Compression *)

Lemma save_gtid_seq_counters cfg ok s m :
  let m' := (save_gtid_seq cfg ok s m).2 in
  nof_trx m' = nof_trx m /\ curr_hb_checkpoint m' = curr_hb_checkpoint m /\
  curr_trx_checkpoint m' = curr_trx_checkpoint m /\
  last_saved_commit_version_high m' = last_saved_commit_version_high m.
Proof. unfold save_gtid_seq. destruct (last (gtid_seq_set m)); [destruct (_ && _)|]; destruct ok; done. Qed.

Lemma save_checkpoints_counters cfg ok m :
  let m' := save_checkpoints cfg ok m in
  nof_trx m' = nof_trx m /\ curr_hb_checkpoint m' = curr_hb_checkpoint m /\
  curr_trx_checkpoint m' = curr_trx_checkpoint m /\
  last_saved_commit_version_high m' = last_saved_commit_version_high m /\ gtid_checkpoint_set m' = [].
Proof.
  unfold save_checkpoints. cbn [with_checkpoints nof_trx curr_hb_checkpoint curr_trx_checkpoint
    last_saved_commit_version_high gtid_checkpoint_set].
  generalize (gtid_checkpoint_set m). intros l. revert m. induction l as [|s l IH]; intros m; [done|].
  cbn [fold_left]. destruct (IH (save_gtid_seq cfg ok s m).2) as (-> & -> & -> & -> & _).
  destruct (save_gtid_seq_counters cfg ok s m) as (-> & -> & -> & ->). done.
Qed.

Lemma clear_outdated_counters cfg c m :
  let m' := clear_outdated cfg c m in
  nof_trx m' = nof_trx m /\ curr_hb_checkpoint m' = curr_hb_checkpoint m /\
  curr_trx_checkpoint m' = curr_trx_checkpoint m /\
  last_saved_commit_version_high m' = last_saved_commit_version_high m /\
  gtid_checkpoint_set m' = gtid_checkpoint_set m.
Proof.
  unfold clear_outdated, rewrite_gtid_file. destruct (_ <? _); [|done]. cbn. by destruct (gtid_seq_file m).
Qed.

(** after a compression round nothing marked is left pending, and the
    progress that is not on disk is bounded: either no checkpoint is newer than the last
    saved one, or it is less than the configured interval ahead and fewer than the
    configured number of transactions are unsaved. *)
Theorem compress_bounds_loss cfg ok trx_mapping m :
  0 < gtid_seq_compressed_interval_s cfg -> 0 < gtid_seq_compressed_trx_size cfg ->
  let m' := compress_and_save_gtid_seq cfg ok trx_mapping m in
  let newest := Z.max (curr_hb_checkpoint m') (curr_trx_checkpoint m') in
  gtid_checkpoint_set m' = [] /\
  (newest <= last_saved_commit_version_high m' \/
   newest - last_saved_commit_version_high m' < gtid_seq_compressed_interval_s cfg /\
   nof_trx m' < gtid_seq_compressed_trx_size cfg).
Proof.
  intros Hi Hn. cbn zeta. unfold compress_and_save_gtid_seq.
  destruct (save_checkpoints_counters cfg ok m) as (E1 & E2 & E3 & E4 & E5).
  set (m1 := save_checkpoints cfg ok m) in *.
  destruct (Z.leb_spec (Z.max (curr_hb_checkpoint m1) (curr_trx_checkpoint m1)) (last_saved_commit_version_high m1)).
  { split; [done|]. by left. }
  destruct ((gtid_seq_compressed_interval_s cfg <=? _) || _) eqn:E.
  2: { apply orb_false_iff in E as [Ea Eb]. rewrite Z.leb_gt in Ea, Eb. split; [done|]. right. split; lia. }
  set (s := mkGtidSeq _ _ _ _). destruct (save_gtid_seq_counters cfg ok s m1) as (_ & F1 & F2 & _).
  match goal with |- context [clear_outdated cfg ?c ?x] =>
    destruct (clear_outdated_counters cfg c x) as (_ & -> & -> & -> & ->) end.
  cbn [with_counters curr_hb_checkpoint curr_trx_checkpoint last_saved_commit_version_high gtid_checkpoint_set].
  rewrite F1, F2. split; [|left; lia].
  unfold save_gtid_seq. destruct (last _); [destruct (_ && _)|]; by destruct ok.
Qed.

(** ** Purging *)

(** purging GTIDs up to [g] keeps, in order, exactly the checkpoints of
    later transactions in the file, remembers [g], extends [gtid_purged] by [1..g] and
    publishes it; it never touches [gtid_executed]. *)
Theorem purge_gtid_before_spec cfg m g ss m' :
  gtid_seq_file m = Some (unlines (serialize <$> ss)) -> Forall seq_ok ss ->
  purge_gtid_before_impl cfg g m = Done m' ->
  gtid_seq_file m' = Some (unlines (serialize <$> filter (fun s => g < get_gtid_start s) ss)) /\
  last_gtid_purged m' = g /\
  merge_gtid_before (master_server_uuid cfg) (gtid_purged_set m) (1, g) = Done (gtid_purged_set m') /\
  gtid_set_str (gtid_purged_set m') = Done (var_gtid_purged m') /\
  gtid_executed_set m' = gtid_executed_set m /\ var_gtid_executed m' = var_gtid_executed m.
Proof.
  intros Hf Hss. unfold purge_gtid_before_impl, rewrite_gtid_file. rewrite Hf.
  rewrite getlines_unlines.
  2: { apply Forall_fmap. eapply Forall_impl; [exact Hss|]. intros s Hs. by apply serialize_not_in; [|right; left]. }
  assert (filter (fun l => (g <? get_gtid_start (deserialize empty_seq l)) = true) (serialize <$> ss)
    = serialize <$> filter (fun s => g < get_gtid_start s) ss) as ->.
  { clear Hf. induction Hss as [|s ss Hs _ IH]; [done|]. rewrite fmap_cons, !filter_cons, IH, deserialize_serialize by done.
    destruct (Z.ltb_spec g (get_gtid_start s)); [rewrite !decide_True by done|rewrite !decide_False by (done || lia)]; done. }
  unfold update_gtid_purged. cbn [with_purged gtid_purged_set].
  destruct (merge_gtid_before _ _ _) as [purged|] eqn:Em; [|done]. cbn [mbind outcome_bind].
  destruct (gtid_set_str purged) as [v|] eqn:Ev; [|done]. cbn [mbind outcome_bind].
  intros H. apply Done_inj in H as <-.
  split; [done|]. split; [done|]. split; [done|]. split; [exact Ev|]. done.
Qed.

(** ** Looking up the restart point *)

(** The restart checkpoint for a GTID is the newest cached one that belongs to
    an earlier transaction, or to that transaction itself when it is not a heartbeat;
    there is none exactly when no cached checkpoint qualifies. *)
Theorem get_first_le_gtid_seq_spec g m s0 :
  match get_first_le_gtid_seq g m s0 with
  | (OMS_OK, s) =>
      exists older e newer, gtid_seq_set m = older ++ e :: newer /\ s = deserialize empty_seq e.2 /\
        le_gtid g s = true /\ Forall (fun e => le_gtid g (deserialize empty_seq e.2) = false) newer
  | (OMS_FAILED, s) =>
      s = s0 /\ Forall (fun e => le_gtid g (deserialize empty_seq e.2) = false) (gtid_seq_set m)
  end.
Proof.
  unfold get_first_le_gtid_seq.
  assert (forall l : list (Z * bytes), Forall (fun e => le_gtid g (deserialize empty_seq e.2) = false) l ->
    Forall (fun e => le_gtid g (deserialize empty_seq e.2) = false) (rev l)) as Hrev.
  { intros l Hl. apply Forall_forall. intros x Hx. rewrite list_elem_of_In, <-in_rev, <-list_elem_of_In in Hx.
    by eapply Forall_forall in Hl. }
  destruct (list_find _ _) as [[i e]|] eqn:E.
  - apply list_find_Some in E as (Hl & He & Hmin).
    apply take_drop_middle in Hl. set (a := take i _) in Hl. set (b := drop (S i) _) in Hl.
    exists (rev b), e, (rev a). split; [|split; [done|split; [done|]]].
    + rewrite <-(rev_involutive (gtid_seq_set m)), <-Hl, rev_app_distr. cbn [rev]. by rewrite <-app_assoc.
    + apply Hrev. apply Forall_forall. intros x Hx. apply list_elem_of_lookup in Hx as [j Hj].
      unfold a in Hj. apply lookup_take_Some in Hj as [Hj Hji]. apply not_true_is_false, (Hmin j x Hj Hji).
  - apply list_find_None in E. split; [done|]. rewrite <-(rev_involutive (gtid_seq_set m)). apply Hrev.
    eapply Forall_impl; [exact E|]. intros x Hx. by apply not_true_is_false.
Qed.

(** ** Concrete instances *)

Definition sample_seq (t gtid : Z) : GtidSeq := mkGtidSeq t (str "tx") gtid 4.
Definition sample_cfg : gtid_config :=
  mkGtidConfig 10 10 100000 300 1000 86400 0 (uuid_hex_bin_to_str_with_delim sample_uuid).

Lemma gtid_seq_roundtrip_witness :
  deserialize empty_seq (serialize (sample_seq 100 7)) = sample_seq 100 7 /\
  getlines (serialize (sample_seq 100 7) ++ [10]) = [serialize (sample_seq 100 7)].
Proof. apply (gtid_seq_roundtrip (sample_seq 100 7) empty_seq). by_compute. Defined.

Definition sample_seqs : list GtidSeq := [sample_seq 100 7; sample_seq 110 9; sample_seq 130 12].

Lemma sample_seqs_by_time : by_time sample_seqs.
Proof.
  intros i j a b Hij Ha Hb.
  destruct i as [|[|[|i]]], j as [|[|[|j]]]; simplify_eq/=; lia.
Qed.

Lemma binary_search_gtid_seq_spec_witness :
  exists s, binary_search_gtid_seq 4 120 (report sample_seqs) empty_seq = Done (Some (OMS_OK, s)) /\
    (120 = 0 \/ get_commit_version_start (sample_seq 130 12) < 120 -> s = sample_seq 130 12) /\
    (120 <> 0 -> 120 < get_commit_version_start (sample_seq 100 7) -> s = sample_seq 100 7) /\
    (120 <> 0 -> 100 <= 120 <= 130 ->
     exists k, sample_seqs !! k = Some s /\ get_commit_version_start s <= 120 /\
       forall j b, (k < j)%nat -> sample_seqs !! j = Some b -> 120 < get_commit_version_start b).
Proof.
  apply (binary_search_gtid_seq_spec sample_seqs 120 empty_seq (sample_seq 100 7) (sample_seq 130 12) 4).
  - by_compute.
  - apply sample_seqs_by_time.
  - reflexivity.
  - reflexivity.
  - reflexivity.
  - simpl; lia.
Defined.

Lemma save_gtid_seq_window_witness :
  let m := with_store None false [(100, str "a"); (350, str "b")] (new_gtid_manager None) in
  exists cache, save_gtid_seq sample_cfg true (sample_seq 420 7) m =
      (OMS_OK, with_store (Some (default [] (gtid_seq_file m) ++ serialize (sample_seq 420 7) ++ [10])) false
                 (cache ++ [(420, serialize (sample_seq 420 7))]) m) /\
    window (Z.max 0 (420 - 300 + 1)) 420 (cache ++ [(420, serialize (sample_seq 420 7))]) /\
    cache `suffix_of` gtid_seq_set m.
Proof.
  apply (save_gtid_seq_window sample_cfg (sample_seq 420 7)
    (with_store None false [(100, str "a"); (350, str "b")] (new_gtid_manager None))).
  - by_compute.
  - by_compute.
  - reflexivity.
  - reflexivity.
Defined.

Lemma compress_bounds_loss_witness :
  let m := with_counters 5 100 130 100 (new_gtid_manager (Some [])) in
  let m' := compress_and_save_gtid_seq sample_cfg true (str "tx", 9) m in
  let newest := Z.max (curr_hb_checkpoint m') (curr_trx_checkpoint m') in
  gtid_checkpoint_set m' = [] /\
  (newest <= last_saved_commit_version_high m' \/
   newest - last_saved_commit_version_high m' < 10 /\ nof_trx m' < 100000).
Proof.
  intros m. apply (compress_bounds_loss sample_cfg true (str "tx", 9) m); reflexivity.
Defined.

Definition sample_purged : outcome GtidManager :=
  purge_gtid_before_impl sample_cfg 9
    (with_store (Some (unlines (serialize <$> sample_seqs))) false [] (new_gtid_manager None)).

Lemma purge_gtid_before_spec_witness :
  exists m', sample_purged = Done m' /\
  gtid_seq_file m' = Some (unlines (serialize <$> [sample_seq 130 12])) /\ last_gtid_purged m' = 9.
Proof.
  destruct sample_purged as [m'|] eqn:E; [|vm_compute in E; discriminate].
  exists m'. split; [reflexivity|].
  destruct (purge_gtid_before_spec sample_cfg
    (with_store (Some (unlines (serialize <$> sample_seqs))) false [] (new_gtid_manager None)) 9 sample_seqs m'
    eq_refl ltac:(by_compute) E) as (H1 & H2 & _).
  split; [exact H1|exact H2].
Defined.
