(* ===== verification/Storage.v ===== *)
(** * Storage: from events to binlog files

    [src/src/binlog/binlog-instance/binlog_storage.{h,cpp}] and
    [src/src/common/buffer_manager.hpp].  A batch of events goes through three stages of a
    pipeline: allocation (GTIDs, xids, positions, rotation), serialisation into a growing
    buffer, and persistence (binlog files, index, GTID checkpoints).  The stages are
    functions on the state each of them owns; the batch is what they hand over. *)

From S2P Require Import Prelude Bytes Str Gtid Events EventWire EventScan BinlogIndex GtidManager.

#[local] Open Scope Z_scope.

(** ** Configuration *)

Record storage_config := mkStorageConfig {
  c_binlog_checksum : bool;
  c_server_id : Z;
  c_max_binlog_size : Z;
  c_prefix : bytes;
  c_width : Z;
  c_start_timestamp : Z;
  c_gtid : gtid_config
}.

Definition binlog_name (cfg : storage_config) (index : Z) : bytes :=
  fill_binlog_file_name (c_prefix cfg) (c_width cfg) index.
Definition binlog_path (name : bytes) : bytes := str "./data/" ++ name.

(** ** BufferManager *)

(** The bytes published so far and the size of the block they live in. *)
Record BufferManager := mkBuffer { b_data : bytes; b_capacity : Z; b_growth_step : Z }.

(** [while (new_capacity < _offset + length) new_capacity += _growth_step]; a zero step
    never ends. *)
Fixpoint grow (fuel : nat) (new_capacity need step : Z) : outcome Z :=
  if new_capacity <? need then
    match fuel with
    | O => Crash
    | S fuel => grow fuel (new_capacity + step) need step
    end
  else Done new_capacity.

Definition ensure_capacity (len : Z) (b : BufferManager) : outcome BufferManager :=
  let need := zlen (b_data b) + len in
  if need >? b_capacity b then
    c ← grow (Z.to_nat (need - b_capacity b)) (b_capacity b + b_growth_step b) need (b_growth_step b);
    Done (mkBuffer (b_data b) c (b_growth_step b))
  else Done b.

(** [flush_to_buff(data_cur())] then [publish(len)]: bytes past the block, or bytes that
    nobody wrote, are a [Crash]. *)
Definition emit (bs : bytes) (len : Z) (b : BufferManager) : outcome BufferManager :=
  if (zlen (b_data b) + zlen bs <=? b_capacity b) && (len <=? zlen bs)
  then Done (mkBuffer (b_data b ++ first len bs) (b_capacity b) (b_growth_step b)) else Crash.

(** ** SerializeEvent: the batch *)

Record SerializeEvent := mkBatch {
  sb_events : list ObLogEvent;
  sb_buffer : BufferManager;
  sb_is_rotation : bool;
  sb_rotate_offsets : list Z;
  sb_rotate_events : list ObLogEvent;
  sb_index_pos : Z;
  sb_index_records : list BinlogIndexRecord
}.
Definition with_events (evs : list ObLogEvent) (b : SerializeEvent) : SerializeEvent :=
  mkBatch evs (sb_buffer b) (sb_is_rotation b) (sb_rotate_offsets b) (sb_rotate_events b) (sb_index_pos b)
    (sb_index_records b).
Definition with_index_records (pos : Z) (rs : list BinlogIndexRecord) (b : SerializeEvent) : SerializeEvent :=
  mkBatch (sb_events b) (sb_buffer b) (sb_is_rotation b) (sb_rotate_offsets b) (sb_rotate_events b) pos rs.
Definition add_rotate_event (ev : ObLogEvent) (b : SerializeEvent) : SerializeEvent :=
  mkBatch (sb_events b) (sb_buffer b) true (sb_rotate_offsets b) (sb_rotate_events b ++ [ev]) (sb_index_pos b)
    (sb_index_records b).

(** [SerializeEvent::update_index_record] *)
Definition batch_update_index_record (r : BinlogIndexRecord) (b : SerializeEvent) : outcome SerializeEvent :=
  let rs := sb_index_records b in
  if zlen rs <=? sb_index_pos b then Done (with_index_records (sb_index_pos b) (rs ++ [r]) b)
  else if sb_index_pos b =? zlen rs - 1
  then Done (with_index_records (sb_index_pos b) (<[Z.to_nat (sb_index_pos b) := r]> rs) b)
  else Crash.

(** ** Allocation *)

(** What [global_allocation_of_backfill_events] owns. *)
Record Allocator := mkAllocator {
  a_txn_gtid_seq : Z;
  a_xid : Z;
  a_cur_pos : Z;
  a_binlog_file_index : Z;
  a_txn_mapping : mapping;
  a_filter_util_checkpoint_trx : bool;
  a_meet_initial_trx : bool;
  a_filter_checkpoint_trx : bool;
  a_first_gtid_seq : Z;
  a_previous_gtid_messages : list GtidMessage;
  a_last_record_ts : Z;
  a_valid_events_coming : bool;
  a_index_record : BinlogIndexRecord;
  a_gtid : GtidManager
}.

Definition with_filter (until meet : bool) (a : Allocator) : Allocator :=
  mkAllocator (a_txn_gtid_seq a) (a_xid a) (a_cur_pos a) (a_binlog_file_index a) (a_txn_mapping a) until meet
    (a_filter_checkpoint_trx a) (a_first_gtid_seq a) (a_previous_gtid_messages a) (a_last_record_ts a)
    (a_valid_events_coming a) (a_index_record a) (a_gtid a).
Definition with_txn_gtid_seq (g : Z) (a : Allocator) : Allocator :=
  mkAllocator g (a_xid a) (a_cur_pos a) (a_binlog_file_index a) (a_txn_mapping a)
    (a_filter_util_checkpoint_trx a) (a_meet_initial_trx a) (a_filter_checkpoint_trx a) (a_first_gtid_seq a)
    (a_previous_gtid_messages a) (a_last_record_ts a) (a_valid_events_coming a) (a_index_record a) (a_gtid a).
Definition with_gtid_manager (g : GtidManager) (a : Allocator) : Allocator :=
  mkAllocator (a_txn_gtid_seq a) (a_xid a) (a_cur_pos a) (a_binlog_file_index a) (a_txn_mapping a)
    (a_filter_util_checkpoint_trx a) (a_meet_initial_trx a) (a_filter_checkpoint_trx a) (a_first_gtid_seq a)
    (a_previous_gtid_messages a) (a_last_record_ts a) (a_valid_events_coming a) (a_index_record a) g.
Definition with_xid (x : Z) (a : Allocator) : Allocator :=
  mkAllocator (a_txn_gtid_seq a) x (a_cur_pos a) (a_binlog_file_index a) (a_txn_mapping a)
    (a_filter_util_checkpoint_trx a) (a_meet_initial_trx a) (a_filter_checkpoint_trx a) (a_first_gtid_seq a)
    (a_previous_gtid_messages a) (a_last_record_ts a) (a_valid_events_coming a) (a_index_record a) (a_gtid a).
Definition with_cur_pos (p : Z) (a : Allocator) : Allocator :=
  mkAllocator (a_txn_gtid_seq a) (a_xid a) p (a_binlog_file_index a) (a_txn_mapping a)
    (a_filter_util_checkpoint_trx a) (a_meet_initial_trx a) (a_filter_checkpoint_trx a) (a_first_gtid_seq a)
    (a_previous_gtid_messages a) (a_last_record_ts a) (a_valid_events_coming a) (a_index_record a) (a_gtid a).
Definition with_record (first_gtid : Z) (valid : bool) (r : BinlogIndexRecord) (a : Allocator) : Allocator :=
  mkAllocator (a_txn_gtid_seq a) (a_xid a) (a_cur_pos a) (a_binlog_file_index a) (a_txn_mapping a)
    (a_filter_util_checkpoint_trx a) (a_meet_initial_trx a) (a_filter_checkpoint_trx a) first_gtid
    (a_previous_gtid_messages a) (a_last_record_ts a) valid r (a_gtid a).
Definition with_next_file (index first_gtid : Z) (ms : list GtidMessage) (r : BinlogIndexRecord) (a : Allocator) : Allocator :=
  mkAllocator (a_txn_gtid_seq a) (a_xid a) (a_cur_pos a) index (a_txn_mapping a)
    (a_filter_util_checkpoint_trx a) (a_meet_initial_trx a) (a_filter_checkpoint_trx a) first_gtid
    ms (a_last_record_ts a) (a_valid_events_coming a) r (a_gtid a).

Section Stages.
Context (cfg : storage_config) (crc32 : bytes -> Z).

(** [set_start_pos]: where the events of a new file begin. *)
Definition start_pos (previous_gtids : list GtidMessage) : Z :=
  let checksum := if c_binlog_checksum cfg then COMMON_CHECKSUM_LENGTH else 0 in
  fold_left (fun pos g => u32 (pos + get_gtid_length g)) previous_gtids (u32 (BINLOG_START_FIXED_POS + checksum)).

(** [rotate_binlog_file] *)
Definition rotate_binlog_file (timestamp : Z) (a : Allocator) (b : SerializeEvent) : outcome (Allocator * SerializeEvent) :=
  if a_cur_pos a >? c_max_binlog_size cfg then
    let index := u64 (a_binlog_file_index a + 1) in
    let name := binlog_name cfg index in
    let record := set_file_name (binlog_path name) (set_index index (a_index_record a)) in
    previous ← merge_gtid_before (master_server_uuid (c_gtid cfg)) (a_previous_gtid_messages a)
                 (a_first_gtid_seq a, u64 (a_txn_gtid_seq a - 1));
    let ev := new_rotate (c_binlog_checksum cfg) (c_server_id cfg) BINLOG_MAGIC_SIZE name timestamp (a_cur_pos a)
                index ROTATE in
    let ev := match get_body ev with
              | RotateEvent e => set_body (RotateEvent (mkRotate (ro_next_binlog_position e)
                  (ro_next_binlog_file_name e) (ro_index e) previous (ro_op e) (ro_existed e))) ev
              | _ => ev
              end in
    Done (with_cur_pos (start_pos previous) (with_next_file index 0 previous record a), add_rotate_event ev b)
  else Done (a, b).

(** The GTID branch: the event with its GTID, and whether it is kept ([continue] drops it
    from the file by leaving its filter mark set). *)
Definition is_checkpoint_trx (ev : ObLogEvent) (gtid : Z) (a : Allocator) : bool :=
  beq (get_ob_txn ev) (a_txn_mapping a).1 && (gtid =? (a_txn_mapping a).2).

Definition gtid_accepted (ev : ObLogEvent) (gtid : Z) (a : Allocator) : outcome Allocator :=
  let r := set_before_mapping (get_current_mapping (a_index_record a)) (a_index_record a) in
  let first_gtid := if a_first_gtid_seq a =? 0 then gtid else a_first_gtid_seq a in
  let r := set_current_mapping (get_ob_txn ev, gtid) r in
  g ← mark_event (c_gtid cfg) false (Events.get_checkpoint ev) (get_current_mapping r) (a_gtid a);
  let r := set_checkpoint (Events.get_checkpoint ev `div` 1000000) r in
  Done (with_gtid_manager g (with_record first_gtid true r (with_txn_gtid_seq (u64 (gtid + 1)) a))).

Definition allocate_gtid (ev : ObLogEvent) (e : GtidLog) (a : Allocator) : outcome (bool * ObLogEvent * Allocator) :=
  let gtid := a_txn_gtid_seq a in
  let ev := set_body (GtidLogEvent (mkGtidLog (gl_commit_flag e) (gl_gtid_uuid e) gtid (gl_ts_type e)
              (gl_last_committed e) (gl_sequence_number e))) ev in
  let accept a := a ← gtid_accepted ev gtid a; Done (true, ev, a) in
  if a_filter_util_checkpoint_trx a then
    let here := is_checkpoint_trx ev gtid a in
    if negb (a_meet_initial_trx a) && negb here then Done (false, ev, a)
    else if here then
      let a := with_filter (a_filter_util_checkpoint_trx a) true a in
      if a_filter_checkpoint_trx a then Done (false, ev, with_filter true true (with_txn_gtid_seq (u64 (gtid + 1)) a))
      else accept (with_filter false true a)
    else if a_meet_initial_trx a || (Events.get_checkpoint ev >? c_start_timestamp cfg)
    then accept (with_filter false (a_meet_initial_trx a) a)
    else accept a
  else accept a.

(** One event: whether it is kept, whether the file is rotated after it, the event and
    the state. *)
Definition too_long (ev : ObLogEvent) (a : Allocator) : bool :=
  u32 (a_cur_pos a + h_event_length (get_header ev)) >? c_max_binlog_size cfg.

Definition allocate_one (ev : ObLogEvent) (a : Allocator) : outcome (bool * bool * ObLogEvent * Allocator) :=
  let t := h_type_code (get_header ev) in
  if t =? HEARTBEAT_LOG_EVENT then
    if a_filter_util_checkpoint_trx a then Done (false, false, ev, a)
    else
      let m := get_current_mapping (a_index_record a) in
      g ← mark_event (c_gtid cfg) true (Events.get_checkpoint ev) m (a_gtid a);
      Done (false, false, ev, with_gtid_manager (compress_and_save_gtid_seq (c_gtid cfg) true m g) a)
  else if t =? GTID_LOG_EVENT then
    match get_body ev with
    | GtidLogEvent e => '(kept, ev, a) ← allocate_gtid ev e a; Done (kept, false, ev, a)
    | _ => Crash
    end
  else if t =? XID_EVENT then
    if a_filter_util_checkpoint_trx a then
      Done (false, false, ev, if a_meet_initial_trx a then with_filter false (a_meet_initial_trx a) a else a)
    else
      match get_body ev with
      | XidEvent _ =>
          let xid := u64 (a_xid a + 1) in
          Done (true, too_long ev a, set_body (XidEvent xid) ev, with_xid xid a)
      | _ => Crash
      end
  else if t =? QUERY_EVENT then
    if a_filter_util_checkpoint_trx a then Done (false, false, ev, a)
    else
      match get_body ev with
      | QueryEvent e => Done (true, q_is_ddl e && too_long ev a, ev, a)
      | _ => Crash
      end
  else if a_filter_util_checkpoint_trx a then Done (false, false, ev, a)
  else Done (true, false, ev, a).

(** After the [switch]: the event takes its place in the file. *)
Definition place (rotate : bool) (ev : ObLogEvent) (a : Allocator) (b : SerializeEvent)
    : outcome (ObLogEvent * Allocator * SerializeEvent) :=
  let pos := u32 (a_cur_pos a + h_event_length (get_header ev)) in
  let ev := set_filter false (set_header (set_next_position pos (get_header ev)) ev) in
  let a := with_cur_pos pos a in
  b ← batch_update_index_record (a_index_record a) b;
  if rotate then
    '(a, b) ← rotate_binlog_file (a_last_record_ts a) a b;
    Done (ev, a, with_index_records (sb_index_pos b + 1) (sb_index_records b) b)
  else Done (ev, a, b).

Fixpoint allocate_loop (events done_ : list ObLogEvent) (a : Allocator) (b : SerializeEvent)
    : outcome (Allocator * SerializeEvent) :=
  match events with
  | [] =>
      b ← batch_update_index_record (a_index_record a) b;
      Done (a, with_events done_ b)
  | ev :: events =>
      '(kept, rotate, ev, a) ← allocate_one ev a;
      if (kept : bool) then
        '(ev, a, b) ← place rotate ev a b;
        allocate_loop events (done_ ++ [ev]) a b
      else allocate_loop events (done_ ++ [ev]) a b
  end.

(** [global_allocation_of_backfill_events] *)
Definition global_allocation_of_backfill_events (a : Allocator) (b : SerializeEvent) : outcome (Allocator * SerializeEvent) :=
  allocate_loop (sb_events b) [] a b.

(** ** Serialisation *)

Definition event_start (ev : ObLogEvent) : Z :=
  u32 (h_next_position (get_header ev) - h_event_length (get_header ev)).

(** [SerializeHandler::onEvent]: the rotate event goes right after the event that ends at
    its start; its offset becomes an offset in the buffer. *)
Fixpoint serialize_loop (is_rotation : bool) (events rotate_events : list ObLogEvent) (offsets : list Z)
    (index : nat) (buf : BufferManager) : outcome (list Z * BufferManager) :=
  match events with
  | [] => Done (offsets, buf)
  | ev :: events =>
      if is_filter ev then serialize_loop is_rotation events rotate_events offsets index buf
      else
        let len := h_event_length (get_header ev) in
        match (if is_rotation then rotate_events !! index else None), offsets !! index with
        | Some rot, Some off =>
            if h_next_position (get_header ev) =? off then
              let rlen := h_event_length (get_header rot) in
              buf ← ensure_capacity (u32 (len + rlen)) buf;
              bs ← flush_to_buff crc32 ev;
              buf ← emit bs len buf;
              rbs ← flush_to_buff crc32 rot;
              buf ← emit rbs rlen buf;
              serialize_loop is_rotation events rotate_events (<[index := zlen (b_data buf)]> offsets) (S index) buf
            else
              buf ← ensure_capacity len buf;
              bs ← flush_to_buff crc32 ev;
              buf ← emit bs len buf;
              serialize_loop is_rotation events rotate_events offsets index buf
        | _, _ =>
            buf ← ensure_capacity len buf;
            bs ← flush_to_buff crc32 ev;
            buf ← emit bs len buf;
            serialize_loop is_rotation events rotate_events offsets index buf
        end
  end.

Definition serialize_on_event (b : SerializeEvent) : outcome SerializeEvent :=
  let buf := mkBuffer [] (b_capacity (sb_buffer b)) (b_growth_step (sb_buffer b)) in
  let offsets := sb_rotate_offsets b ++ (event_start <$> sb_rotate_events b) in
  '(offsets, buf) ← serialize_loop (sb_is_rotation b) (sb_events b) (sb_rotate_events b) offsets 0 buf;
  Done (mkBatch [] buf (sb_is_rotation b) offsets (sb_rotate_events b) (sb_index_pos b) (sb_index_records b)).

(** ** Persistence *)

Record Disk := mkStore {
  st_files : gmap bytes bytes;
  st_index : BinlogIndexManager;
  st_file_name : bytes;
  st_offset : Z;
  st_valid_events_coming : bool;
  st_gtid : GtidManager
}.

Definition file_size (name : bytes) (d : Disk) : Z :=
  match st_files d !! name with Some f => zlen f | None => 0 end.
(** [FsUtil::append_file]: the file is created when it does not exist. *)
Definition append_file (name content : bytes) (d : Disk) : Disk :=
  mkStore (<[name := default [] (st_files d !! name) ++ content]> (st_files d)) (st_index d) (st_file_name d)
    (st_offset d) (st_valid_events_coming d) (st_gtid d).

(** [BinlogStorage::update_index_record] *)
Definition update_index_record (r : BinlogIndexRecord) (d : Disk) : outcome (BinlogIndexRecord * Disk) :=
  let offset := file_size (st_file_name d) d in
  let r := set_position offset r in
  '(_, im) ← update_index disk_ok (st_index d) r;
  let g := compress_and_save_gtid_seq (c_gtid cfg) true (get_current_mapping r) (st_gtid d) in
  g ← (if st_valid_events_coming d then update_gtid_executed (c_gtid cfg) (get_current_mapping r).2 g else Done g);
  Done (r, mkStore (st_files d) im (st_file_name d) offset (st_valid_events_coming d) g).

(** [persistent_binlog], on a disk that accepts the write *)
Definition persistent_binlog (content : bytes) (r : BinlogIndexRecord) (d : Disk) : outcome (BinlogIndexRecord * Disk) :=
  update_index_record r (append_file (st_file_name d) content d).

(** [FsUtil::rewrite] of the flags of the format description; a null [FILE*] crashes. *)
Definition clear_in_use (name : bytes) (d : Disk) : outcome Disk :=
  f ← of_option (st_files d !! name);
  Done (mkStore (<[name := overwrite (BINLOG_MAGIC_SIZE + FLAGS_OFFSET) (int2store 0) f]> (st_files d)) (st_index d)
          (st_file_name d) (st_offset d) (st_valid_events_coming d) (st_gtid d)).

(** The head of a new binlog file: magic number, format description, previous GTIDs; the
    buffer they are built in has 1024 bytes. *)
Definition head_events (timestamp : Z) (gtids : list GtidMessage) : outcome (ObLogEvent * ObLogEvent) :=
  let fde := new_format_description (c_binlog_checksum cfg) (c_server_id cfg) timestamp in
  prev ← new_previous_gtids (c_binlog_checksum cfg) (c_server_id cfg) (zlen gtids) gtids timestamp;
  let next_pos := u32 (h_next_position (get_header fde) + h_event_length (get_header prev)) in
  Done (fde, set_header (set_next_position next_pos (get_header prev)) prev).

Definition binlog_head (timestamp : Z) (gtids : list GtidMessage) : outcome bytes :=
  '(fde, prev) ← head_events timestamp gtids;
  b1 ← flush_to_buff crc32 fde;
  b2 ← flush_to_buff crc32 prev;
  let content := binlog_magic ++ b1 ++ b2 in
  if zlen content <=? 1024 then Done content else Crash.

(** [add_next_binlog_index] *)
Definition add_next_binlog_index (r : BinlogIndexRecord) (e : Rotate) (d : Disk) : outcome (BinlogIndexRecord * Disk) :=
  let path := binlog_path (ro_next_binlog_file_name e) in
  let r := set_position (file_size path d) (set_file_name path (set_index (ro_index e) r)) in
  let '(_, im) := add_index disk_ok (st_index d) r in
  Done (r, mkStore (st_files d) im path (st_offset d) (st_valid_events_coming d) (st_gtid d)).

(** [init_next_binlog_file] *)
Definition init_next_binlog_file (rot : ObLogEvent) (r : BinlogIndexRecord) (d : Disk) : outcome (BinlogIndexRecord * Disk) :=
  match get_body rot with
  | RotateEvent e =>
      d ← clear_in_use (binlog_path (binlog_name cfg (u64 (ro_index e - 1)))) d;
      head ← binlog_head (h_timestamp (get_header rot)) (ro_next_previous_gtids e);
      add_next_binlog_index r e (append_file (binlog_path (ro_next_binlog_file_name e)) head d)
  | _ => Crash
  end.

(** [StorageHandler::onEvent]: one segment of the buffer per file. *)
Fixpoint store_loop (data : bytes) (offsets : list Z) (rotate_events : list ObLogEvent)
    (records : list BinlogIndexRecord) (cur : Z) (d : Disk) : outcome (Z * list BinlogIndexRecord * Disk) :=
  match offsets with
  | [] => Done (cur, records, d)
  | off :: offsets =>
      match rotate_events, records with
      | rot :: rotate_events, r :: records =>
          if off >? cur then
            '(r, d) ← persistent_binlog (first (off - cur) (skip cur data)) r d;
            '(_, d) ← init_next_binlog_file rot r d;
            store_loop data offsets rotate_events records off d
          else Crash
      | _, _ => Crash
      end
  end.

Definition storage_on_event (b : SerializeEvent) (d : Disk) : outcome (SerializeEvent * Disk) :=
  let data := b_data (sb_buffer b) in
  d ← (if sb_is_rotation b then
         '(cur, records, d) ← store_loop data (sb_rotate_offsets b) (sb_rotate_events b) (sb_index_records b) 0 d;
         if cur <? zlen data then
           match records with
           | [r] => '(_, d) ← persistent_binlog (skip cur data) r d; Done d
           | _ => Crash
           end
         else Done d
       else
         match sb_index_records b with
         | [r] => '(_, d) ← persistent_binlog data r d; Done d
         | _ => Crash
         end);
  Done (mkBatch (sb_events b) (sb_buffer b) false [] [] 0 [], d).

(** The three stages on one batch; the flag that valid events have come and the GTID
    manager are shared between the first and the last stage. *)
Definition run_batch (events : list ObLogEvent) (a : Allocator) (b : SerializeEvent) (d : Disk)
    : outcome (Allocator * SerializeEvent * Disk) :=
  '(a, b) ← global_allocation_of_backfill_events a (with_events events b);
  b ← serialize_on_event b;
  let d := mkStore (st_files d) (st_index d) (st_file_name d) (st_offset d) (a_valid_events_coming a) (a_gtid a) in
  '(b, d) ← storage_on_event b d;
  Done (with_gtid_manager (st_gtid d) a, b, d).

End Stages.

(** ** The head of a binlog file *)

Definition uuid_key (g : GtidMessage) : bytes := dumphex (default [] (gtid_uuid g)).

Lemma set_gtid_messages_perm gs : forall m,
  Forall gtid_message_ok gs -> NoDup ((fst <$> m) ++ (uuid_key <$> gs)) ->
  exists m', set_gtid_messages gs m = Done m' /\ m' ≡ₚ m ++ ((fun g => (uuid_key g, g)) <$> gs).
Proof.
  induction gs as [|g gs IH]; intros m Hg Hnd; [exists m; by rewrite app_nil_r|].
  apply Forall_cons in Hg as [Hok Hg]. cbn [set_gtid_messages]. unfold get_gtid_uuid_str.
  destruct Hok as [Hu _]. cbn in Hu. unfold uuid_key in *. rewrite !fmap_cons in *.
  destruct (gtid_uuid g) as [u|]; [|done]. cbn [of_option mbind outcome_bind default] in *.
  assert (dumphex u ∉ fst <$> m) as Hnot.
  { intros Hin. apply NoDup_app in Hnd as (_ & Hd & _). apply (Hd _ Hin). by left. }
  pose proof (omap_emplace_perm (dumphex u) g m Hnot) as Hp.
  destruct (IH (omap_emplace (dumphex u) g m)) as (m' & -> & Hm'); [done| |].
  - rewrite Hp, fmap_cons. cbn [fst]. rewrite <-app_comm_cons. by rewrite Permutation_middle.
  - exists m'. split; [done|]. rewrite Hm', Hp, <-app_comm_cons. by rewrite Permutation_middle.
Qed.

Section Head.
Context (cfg : storage_config) (crc32 : bytes -> Z) (gtids : list GtidMessage) (timestamp : Z).
Hypothesis server_id_ok : is_u32 (c_server_id cfg).
Hypothesis timestamp_ok : is_u32 timestamp.
Hypothesis gtids_ok : Forall gtid_message_ok gtids.
Hypothesis gtids_distinct : NoDup (uuid_key <$> gtids).

Definition gtids_size : Z := sum (get_gtid_length <$> gtids).
Hypothesis size_bound : gtids_size < 2 ^ 31.

Lemma gtids_size_bounds : 0 <= gtids_size /\ zlen gtids < 2 ^ 32.
Proof.
  cut (24 * zlen gtids <= gtids_size); [pose proof (zlen_nonneg gtids); lia|].
  unfold gtids_size. clear. induction gtids as [|g gs IH]; [done|]. cbn [fmap list_fmap]. unfold sum in *.
  cbn [foldr]. rewrite zlen_cons. unfold get_gtid_length at 1, SERVER_UUID_LEN.
  pose proof (zlen_nonneg (get_txn_range g)). lia.
Qed.

Definition clen : Z := if c_binlog_checksum cfg then 4 else 0.

Lemma config_len_clen : config_checksum_len (c_binlog_checksum cfg) = clen.
Proof. unfold clen. by destruct (c_binlog_checksum cfg). Qed.

Lemma fde_head :
  let fde := new_format_description (c_binlog_checksum cfg) (c_server_id cfg) timestamp in
  event_ok fde /\ h_event_length (get_header fde) = 116 + clen /\ h_next_position (get_header fde) = 120 + clen.
Proof.
  split; [by apply new_format_description_ok|]. unfold clen. by destruct (c_binlog_checksum cfg).
Qed.

Lemma prev_head :
  exists prev, new_previous_gtids (c_binlog_checksum cfg) (c_server_id cfg) (zlen gtids) gtids timestamp = Done prev /\
    event_ok prev /\ h_event_length (get_header prev) = 27 + gtids_size + clen.
Proof.
  destruct gtids_size_bounds as [Hs0 Hz]. pose proof (zlen_nonneg gtids).
  destruct (set_gtid_messages_perm gtids [] gtids_ok gtids_distinct) as (m & Em & Hm).
  assert (zlen m = zlen gtids) as Hlen.
  { unfold zlen. rewrite Hm. simpl. by rewrite length_fmap. }
  assert (previous_gtids_len (c_binlog_checksum cfg) m = 27 + gtids_size + clen) as Hpl.
  { rewrite previous_gtids_len_eq, config_len_clen. unfold COMMON_HEADER_LENGTH.
    replace (sum (message_size <$> m)) with gtids_size; [lia|]. unfold gtids_size.
    rewrite (sum_perm (message_size <$> m) (message_size <$> ((fun g => (uuid_key g, g)) <$> gtids)));
      [|apply fmap_Permutation, Hm].
    by rewrite <-list_fmap_compose. }
  assert (0 <= clen <= 4) by (unfold clen; by destruct (c_binlog_checksum cfg)).
  eexists. unfold new_previous_gtids at 1. rewrite Em. cbn [mbind outcome_bind].
  rewrite u32_id by (unfold is_u32; lia). rewrite Hlen, Z.eqb_refl. split; [done|].
  assert (u32 (previous_gtids_len (c_binlog_checksum cfg) m) = 27 + gtids_size + clen) as Hu.
  { rewrite Hpl. apply u32_id. unfold is_u32. lia. }
  split; [|exact Hu].
  eapply (new_previous_gtids_ok (c_binlog_checksum cfg) (c_server_id cfg) server_id_ok (zlen gtids) gtids timestamp);
    [done|done| |].
  - unfold new_previous_gtids. rewrite Em. cbn [mbind outcome_bind].
    rewrite (u32_id (zlen gtids)) by (unfold is_u32; lia). by rewrite Hlen, Z.eqb_refl.
  - cbn. by rewrite Hu, Hpl.
Qed.

Lemma set_next_position_ok ev p :
  event_ok ev -> event_ok (set_header (set_next_position p (get_header ev)) ev).
Proof.
  intros ((H1 & H2 & H3 & H4 & _ & H6) & Hf & Ht & Hb & Hl). unfold event_ok, get_checksum_len in *.
  cbn [get_header get_body get_checksum_flag set_header set_next_position h_type_code h_event_length].
  split; [|done]. unfold header_ok. cbn. pose proof (u32_range p). done.
Qed.

Lemma start_pos_eq : start_pos cfg gtids = 151 + clen + gtids_size.
Proof.
  unfold start_pos. assert (0 <= clen <= 4) as Hc by (unfold clen; by destruct (c_binlog_checksum cfg)).
  replace (u32 (BINLOG_START_FIXED_POS + _)) with (151 + clen) by (unfold clen; by destruct (c_binlog_checksum cfg)).
  destruct gtids_size_bounds as [Hs0 _]. unfold gtids_size in *.
  assert (0 <= 151 + clen /\ 151 + clen + sum (get_gtid_length <$> gtids) < 2 ^ 32) as [Hp0 Hp] by lia.
  revert Hp0 Hp. generalize (151 + clen). clear. induction gtids as [|g gs IH]; intros p Hp0 Hp.
  { unfold sum. simpl. lia. }
  cbn [fold_left fmap list_fmap] in *. unfold sum in *. cbn [foldr] in *.
  assert (0 <= get_gtid_length g) by (unfold get_gtid_length, SERVER_UUID_LEN; pose proof (zlen_nonneg (get_txn_range g)); lia).
  assert (0 <= foldr Z.add 0 (get_gtid_length <$> gs)).
  { clear. induction gs as [|x gs IH]; [done|]. cbn [fmap list_fmap foldr].
    unfold get_gtid_length at 1, SERVER_UUID_LEN. pose proof (zlen_nonneg (get_txn_range x)). lia. }
  rewrite u32_id by (unfold is_u32; lia). rewrite IH; lia.
Qed.

Lemma head_events_ok :
  exists fde prev, head_events cfg timestamp gtids = Done (fde, prev) /\
    chained BINLOG_MAGIC_SIZE [fde; prev] /\
    h_next_position (get_header prev) = 147 + 2 * clen + gtids_size /\
    h_event_length (get_header fde) + h_event_length (get_header prev) = 143 + 2 * clen + gtids_size.
Proof.
  destruct fde_head as (Hf & Hfl & Hfn). destruct prev_head as (prev & Ep & Hp & Hpl).
  destruct gtids_size_bounds as [Hs0 _].
  assert (0 <= clen <= 4) by (unfold clen; by destruct (c_binlog_checksum cfg)).
  unfold head_events. rewrite Ep. cbn [mbind outcome_bind]. eexists _, _. split; [done|].
  cbn [chained get_header set_header set_next_position h_next_position h_event_length].
  rewrite Hfn, Hfl, Hpl. rewrite !(u32_id (120 + clen + (27 + gtids_size + clen))) by (unfold is_u32; lia).
  split; [|lia]. split; [done|]. split; [unfold BINLOG_MAGIC_SIZE; lia|].
  split; [|split; [lia|done]].
  by apply set_next_position_ok.
Qed.

(** The bytes of the head. *)
Lemma binlog_head_eq :
  exists fde prev body, head_events cfg timestamp gtids = Done (fde, prev) /\
    chained BINLOG_MAGIC_SIZE [fde; prev] /\ flush_all crc32 [fde; prev] = Done body /\
    zlen (binlog_file body) = 147 + 2 * clen + gtids_size /\
    h_next_position (get_header prev) = zlen (binlog_file body) /\
    binlog_head cfg crc32 timestamp gtids
    = if 147 + 2 * clen + gtids_size <=? 1024 then Done (binlog_file body) else Crash.
Proof.
  destruct head_events_ok as (fde & prev & Eh & Hc & Hn & Hl).
  pose proof Hc as (Hf & _ & Hp & _). destruct (flush_length crc32 fde Hf) as (b1 & E1 & L1).
  destruct (flush_length crc32 prev Hp) as (b2 & E2 & L2).
  assert (zlen (binlog_file (b1 ++ b2)) = 147 + 2 * clen + gtids_size) as Hlen.
  { unfold binlog_file. rewrite !zlen_app, L1, L2. change (zlen binlog_magic) with 4. lia. }
  exists fde, prev, (b1 ++ b2). split; [done|]. split; [done|]. split.
  { cbn [flush_all]. rewrite E1, E2. cbn [mbind outcome_bind]. by rewrite app_nil_r. }
  split; [done|]. split; [by rewrite Hn|].
  unfold binlog_head. rewrite Eh. cbn [mbind outcome_bind]. rewrite E1. cbn [mbind outcome_bind].
  rewrite E2. cbn [mbind outcome_bind]. change (binlog_magic ++ b1 ++ b2) with (binlog_file (b1 ++ b2)).
  by rewrite Hlen.
Qed.

End Head.

(** the head of a new file (magic number, format description, previous
    GTIDs) is a well-chained file, and the position allocation starts from agrees with
    its size exactly when checksums are on; with checksums off the fixed constant counts
    four bytes that are not written, so every position handed out afterwards is 4 too
    large. *)
Theorem start_position cfg crc32 gtids timestamp :
  is_u32 (c_server_id cfg) -> is_u32 timestamp -> Forall gtid_message_ok gtids -> NoDup (uuid_key <$> gtids) ->
  155 + gtids_size gtids <= 1024 ->
  exists fde prev body, head_events cfg timestamp gtids = Done (fde, prev) /\
    flush_all crc32 [fde; prev] = Done body /\ binlog_head cfg crc32 timestamp gtids = Done (binlog_file body) /\
    chained BINLOG_MAGIC_SIZE [fde; prev] /\
    start_pos cfg gtids = zlen (binlog_file body) + (if c_binlog_checksum cfg then 0 else 4).
Proof.
  intros Hs Ht Hg Hd Hb.
  assert (0 <= clen cfg <= 4) by (unfold clen; by destruct (c_binlog_checksum cfg)).
  destruct (binlog_head_eq cfg crc32 gtids timestamp Hs Ht Hg Hd ltac:(lia)) as (fde & prev & body & E & Hc & Hf & Hl & _ & Hh).
  exists fde, prev, body. split; [done|]. split; [done|].
  split; [rewrite Hh, (proj2 (Z.leb_le _ _)) by lia; done|]. split; [done|].
  rewrite start_pos_eq by lia. rewrite Hl. unfold clen. destruct (c_binlog_checksum cfg); lia.
Qed.

(** the head is built in a block of 1024 bytes whatever the number of
    GTID intervals; as soon as the previous GTIDs need more, the write runs past it. *)
Theorem head_overflow cfg crc32 gtids timestamp :
  is_u32 (c_server_id cfg) -> is_u32 timestamp -> Forall gtid_message_ok gtids -> NoDup (uuid_key <$> gtids) ->
  877 < gtids_size gtids < 2 ^ 31 -> binlog_head cfg crc32 timestamp gtids = Crash.
Proof.
  intros Hs Ht Hg Hd Hb.
  destruct (binlog_head_eq cfg crc32 gtids timestamp Hs Ht Hg Hd ltac:(lia)) as (fde & prev & body & _ & _ & _ & _ & _ & ->).
  assert (0 <= clen cfg <= 4) by (unfold clen; by destruct (c_binlog_checksum cfg)).
  by rewrite (proj2 (Z.leb_gt _ _)) by lia.
Qed.

(** ** The growing buffer *)

Lemma grow_ok fuel cap need step :
  0 < step -> need - cap <= Z.of_nat fuel -> exists c, grow fuel cap need step = Done c /\ need <= c /\ cap <= c.
Proof.
  revert cap. induction fuel as [|fuel IH]; intros cap Hs Hf; cbn [grow].
  - rewrite (proj2 (Z.ltb_ge _ _)) by lia. exists cap. split; [done|lia].
  - destruct (Z.ltb_spec cap need); [|exists cap; split; [done|lia]].
    destruct (IH (cap + step) Hs ltac:(lia)) as (c & -> & ? & ?). exists c. split; [done|lia].
Qed.

Lemma ensure_capacity_ok len b :
  0 < b_growth_step b ->
  exists c, ensure_capacity len b = Done (mkBuffer (b_data b) c (b_growth_step b)) /\
    zlen (b_data b) + len <= c.
Proof.
  intros Hs. unfold ensure_capacity. rewrite Z.gtb_ltb.
  destruct (Z.ltb_spec (b_capacity b) (zlen (b_data b) + len)) as [H|H].
  - destruct (grow_ok (Z.to_nat (zlen (b_data b) + len - b_capacity b)) (b_capacity b + b_growth_step b)
      (zlen (b_data b) + len) (b_growth_step b) Hs ltac:(lia)) as (c & -> & ? & ?). by exists c.
  - exists (b_capacity b). split; [by destruct b|done].
Qed.

Lemma emit_ok bs b :
  zlen (b_data b) + zlen bs <= b_capacity b ->
  emit bs (zlen bs) b = Done (mkBuffer (b_data b ++ bs) (b_capacity b) (b_growth_step b)).
Proof.
  intros H. unfold emit. rewrite (proj2 (Z.leb_le _ (b_capacity b))) by lia. rewrite Z.leb_refl. cbn [andb].
  by rewrite first_ge by lia.
Qed.

(** The events that reach the file. *)
Definition unfiltered (evs : list ObLogEvent) : list ObLogEvent := filter (fun ev => is_filter ev = false) evs.

(** One event that no rotate event follows: room, flush, publish. *)
Lemma serialize_one crc32 (is_rotation : bool) ev evs rots offs index buf :
  is_filter ev = false -> event_ok ev -> 0 < b_growth_step buf ->
  (forall rot off, (if is_rotation then rots !! index else None) = Some rot -> offs !! index = Some off ->
     h_next_position (get_header ev) <> off) ->
  exists bs c, flush_to_buff crc32 ev = Done bs /\
    serialize_loop crc32 is_rotation (ev :: evs) rots offs index buf
    = serialize_loop crc32 is_rotation evs rots offs index (mkBuffer (b_data buf ++ bs) c (b_growth_step buf)).
Proof.
  intros Hf Hok Hs Hno. destruct (flush_length crc32 ev Hok) as (bs & E & Hl).
  destruct (ensure_capacity_ok (h_event_length (get_header ev)) buf Hs) as (c & Ec & Hc).
  exists bs, c. split; [done|]. cbn [serialize_loop]. rewrite Hf, Ec, E. cbn [mbind outcome_bind]. rewrite <-Hl.
  rewrite emit_ok by (cbn; lia). cbn [mbind outcome_bind b_data b_capacity b_growth_step].
  destruct (if is_rotation then _ else _) as [rot|]; [|done].
  destruct (offs !! index) as [off|]; [|done]. by rewrite (proj2 (Z.eqb_neq _ _) (Hno rot off eq_refl eq_refl)).
Qed.

Lemma serialize_loop_plain crc32 (is_rotation : bool) rots offs index evs : forall buf,
  (if is_rotation then rots !! index else None) = None ->
  Forall event_ok (unfiltered evs) -> 0 < b_growth_step buf ->
  exists body c, flush_all crc32 (unfiltered evs) = Done body /\
    serialize_loop crc32 is_rotation evs rots offs index buf
    = Done (offs, mkBuffer (b_data buf ++ body) c (b_growth_step buf)).
Proof.
  induction evs as [|ev evs IH]; intros buf Hno Hok Hs.
  { exists [], (b_capacity buf). split; [done|]. cbn. rewrite app_nil_r. by destruct buf. }
  unfold unfiltered in *. rewrite filter_cons in *.
  destruct (is_filter ev) eqn:Ef.
  { rewrite decide_False in * by done. cbn [serialize_loop]. rewrite Ef. by apply IH. }
  rewrite decide_True in * by done. apply Forall_cons in Hok as [Hev Hok].
  destruct (serialize_one crc32 is_rotation ev evs rots offs index buf Ef Hev Hs) as (bs & c & Ebs & ->).
  { by rewrite Hno. }
  destruct (IH (mkBuffer (b_data buf ++ bs) c (b_growth_step buf)) Hno Hok Hs) as (body & c' & Eb & ->).
  exists (bs ++ body), c'. cbn [flush_all]. rewrite Ebs, Eb. split; [done|].
  cbn [b_data b_growth_step]. by rewrite <-app_assoc.
Qed.

(** ** Concrete instances *)

Definition sample_config (checksum : bool) : storage_config :=
  mkStorageConfig checksum 1 600 (str "mysql-bin") 6 0 sample_cfg.
Definition sample_previous : list GtidMessage := [mkGtidMessage (Some sample_uuid) 1 [(1, 9)]].

Lemma start_position_witness :
  exists fde prev body, head_events (sample_config false) 100 sample_previous = Done (fde, prev) /\
    flush_all sample_crc [fde; prev] = Done body /\
    binlog_head (sample_config false) sample_crc 100 sample_previous = Done (binlog_file body) /\
    chained BINLOG_MAGIC_SIZE [fde; prev] /\
    start_pos (sample_config false) sample_previous = zlen (binlog_file body) + 4.
Proof. apply (start_position (sample_config false) sample_crc sample_previous 100); by_compute. Defined.

(** Sixty gaps in the history of one server are enough. *)
Definition sample_gaps : list GtidMessage :=
  [mkGtidMessage (Some sample_uuid) 60 ((fun i => (3 * Z.of_nat i + 1, 3 * Z.of_nat i + 2)) <$> seq 0 60)].

Lemma head_overflow_witness : binlog_head (sample_config true) sample_crc 100 sample_gaps = Crash.
Proof. apply (head_overflow (sample_config true) sample_crc sample_gaps 100); by_compute. Defined.
