(* ===== verification/Pipeline.v ===== *)
(** * Pipeline: what a batch leaves on disk

    Theorems about the three stages of [Storage]: what allocation makes of a batch
    (positions, GTIDs, rotations), what serialisation makes of the result, and what is in
    the binlog files and in the index once the batch is stored. *)

From S2P Require Import Prelude Bytes Str Gtid Events EventWire EventScan BinlogIndex GtidManager Storage.

#[local] Open Scope Z_scope.

(** ** Names of binlog files *)

Definition name_char (c : Z) : Prop := c <> 0 /\ c <> 9 /\ c <> 10.

Lemma length_dec_fuel f n : (length (dec_fuel f n) <= f)%nat.
Proof.
  revert n. induction f as [|f IH]; intros n; [done|]. cbn [dec_fuel]. destruct (n <? 10); [simpl; lia|].
  rewrite length_app. simpl. specialize (IH (n `div` 10)). lia.
Qed.

Definition config_ok (cfg : storage_config) (u : bytes) : Prop :=
  c_binlog_checksum cfg = true /\ is_u32 (c_server_id cfg) /\ is_u32 (c_max_binlog_size cfg) /\
  gtid_marking_step_size (c_gtid cfg) <> 0 /\ is_uuid u /\
  master_server_uuid (c_gtid cfg) = uuid_hex_bin_to_str_with_delim u /\
  zlen (c_prefix cfg) <= 255 /\ c_width cfg <= 255 /\ text_ok [0; 9; 10] (c_prefix cfg).

Lemma zlen_binlog_name cfg u i : config_ok cfg u -> zlen (binlog_name cfg i) <= 511.
Proof.
  intros (_ & _ & _ & _ & _ & _ & Hp & Hw & _). unfold binlog_name, fill_binlog_file_name.
  rewrite !zlen_app, zlen_replicate. change (zlen (str ".")) with 1.
  assert (zlen (to_dec i) <= 20) by (unfold zlen, to_dec; pose proof (length_dec_fuel 20 i); lia).
  pose proof (zlen_nonneg (to_dec i)). lia.
Qed.

Lemma binlog_path_text cfg u i : config_ok cfg u -> 0 <= i -> text_ok [0; 9; 10] (binlog_path (binlog_name cfg i)).
Proof.
  intros (_ & _ & _ & _ & _ & _ & _ & _ & Ht) Hi. unfold text_ok in *.
  unfold binlog_path, binlog_name, fill_binlog_file_name. repeat (apply Forall_app; split).
  - by_compute.
  - done.
  - by_compute.
  - apply Forall_replicate. by_compute.
  - eapply Forall_impl; [apply to_dec_digits, Hi|]. intros c Hc Hin. cbn beta in Hc.
    rewrite !elem_of_cons, elem_of_nil in Hin. lia.
Qed.

(** The number is in the name. *)
Lemma dec_fuel_inj f : forall i j, 0 <= i < 10 ^ Z.of_nat f -> 0 <= j < 10 ^ Z.of_nat f -> forall m n,
  replicate m 48 ++ dec_fuel f i = replicate n 48 ++ dec_fuel f j -> i = j.
Proof.
  intros i j Hi Hj m n E.
  assert (forall m i, 0 <= i < 10 ^ Z.of_nat f -> digits_val (replicate m 48 ++ dec_fuel f i) 0 = i) as H.
  { clear. intros m i Hi. induction m as [|m IH]; [|exact IH]. cbn [replicate app].
    rewrite <-(app_nil_r (dec_fuel f i)), dec_fuel_val by done. lia. }
  rewrite <-(H m i Hi), <-(H n j Hj). by f_equal.
Qed.

Lemma binlog_path_inj cfg i j :
  is_u64 i -> is_u64 j -> binlog_path (binlog_name cfg i) = binlog_path (binlog_name cfg j) -> i = j.
Proof.
  unfold is_u64. intros Hi Hj E. unfold binlog_path, binlog_name, fill_binlog_file_name in E.
  do 3 apply (inj (app _)) in E. apply (dec_fuel_inj 20 i j) in E; [done| |]; simpl; lia.
Qed.

(** ** The GTID set a rotation hands to the next file *)

Definition message_sane (m : GtidMessage) : Prop :=
  gtid_message_ok m /\ has_uuid m /\ Forall (fun r : txn_range => r.1 <= r.2) (get_txn_range m).
#[export] Instance message_sane_dec m : Decision (message_sane m).
Proof. unfold message_sane. apply _. Defined.

Lemma merge_last_ok rs r :
  Forall range_ok rs -> Forall (fun r : txn_range => r.1 <= r.2) rs -> range_ok r -> r.1 <= r.2 ->
  Forall range_ok (merge_last rs r) /\ Forall (fun r : txn_range => r.1 <= r.2) (merge_last rs r) /\
  zlen (merge_last rs r) <= zlen rs + 1.
Proof.
  intros Hok Hle Hr Hr'. unfold merge_last. destruct (last rs) as [l|] eqn:El.
  2: { rewrite zlen_app. split; [|split; [|done]]; apply Forall_app; split; done || by constructor. }
  assert (l ∈ rs) as Hl. { apply last_Some in El as [rs' ->]. apply elem_of_app. right. by left. }
  assert (range_ok l) as Hlo by (by eapply Forall_forall in Hok). assert (l.1 <= l.2) by (by eapply Forall_forall in Hle).
  destruct (_ >? _).
  { rewrite zlen_app. split; [|split; [|done]]; apply Forall_app; split; done || by constructor. }
  rewrite Z.gtb_ltb. destruct (Z.ltb_spec l.2 r.2); [|split; [done|split; [done|lia]]].
  unfold zlen. rewrite length_insert. unfold range_ok, is_u64 in *. simpl in *.
  split; [|split; [|lia]]; apply Forall_insert; try done; cbn [fst snd]; lia.
Qed.

Lemma merged_ok r m :
  message_sane m -> range_ok r -> r.1 <= r.2 -> zlen (get_txn_range m) + 1 < 2 ^ 32 ->
  message_sane (merged r m) /\ gtid_uuid (merged r m) = gtid_uuid m /\
  get_gtid_length (merged r m) <= get_gtid_length m + 16.
Proof.
  intros (Hok & Hu & Hle) Hr Hr' Hz. destruct Hok as (Hk & _ & _ & Hrs). cbn [fst snd] in *.
  destruct (merge_last_ok (get_txn_range m) r Hrs Hle Hr Hr') as (H1 & H2 & H3).
  pose proof (zlen_nonneg (merge_last (get_txn_range m) r)).
  split; [|split; [done|]].
  - split; [|done]. split; [exact Hk|]. cbn. unfold is_u64. split; [done|]. split; [lia|done].
  - unfold get_gtid_length. cbn. lia.
Qed.

Definition merge_all (u : bytes) (r : txn_range) (ms : list GtidMessage) : list GtidMessage :=
  (fun m => if decide (gtid_uuid m = Some u) then merged r m else m) <$> ms.

Lemma merge_all_fresh u r ms : Forall (fun m => gtid_uuid m <> Some u) ms -> merge_all u r ms = ms.
Proof.
  unfold merge_all. induction 1 as [|m ms Hm _ IH]; [done|]. rewrite fmap_cons, IH.
  by rewrite decide_False.
Qed.

Lemma uuid_key_eq m m' : message_sane m -> message_sane m' -> gtid_uuid m = gtid_uuid m' -> uuid_key m = uuid_key m'.
Proof. unfold uuid_key. by intros _ _ ->. Qed.

Section MergeAll.
Context (u : bytes) (r : txn_range) (k : Z).
Hypothesis range_good : range_ok r.
Hypothesis range_le : r.1 <= r.2.
Hypothesis k_bound : 0 <= k < 2 ^ 31.

Definition room (m : GtidMessage) : Prop := message_sane m /\ zlen (get_txn_range m) + k + 1 < 2 ^ 32.
Definition room' (m : GtidMessage) : Prop := message_sane m /\ zlen (get_txn_range m) + k < 2 ^ 32.

Lemma merge_all_ok ms :
  Forall room ms -> NoDup (uuid_key <$> ms) ->
  Forall room' (merge_all u r ms) /\ uuid_key <$> merge_all u r ms = uuid_key <$> ms /\
  gtids_size (merge_all u r ms) <= gtids_size ms + 16.
Proof.
  unfold merge_all, gtids_size, sum. induction ms as [|m ms IH]; intros Hms Hnd; [split; [done|split; [done|simpl; lia]]|].
  apply Forall_cons in Hms as [[Hm Hz] Hms]. rewrite fmap_cons in Hnd. apply NoDup_cons in Hnd as [Hni Hnd].
  destruct (IH Hms Hnd) as (H1 & H2 & H3). clear IH. rewrite !fmap_cons. case_decide as Hd.
  - destruct (merged_ok r m Hm range_good range_le ltac:(lia)) as (Hs & Hu & Hl).
    assert (Forall (fun m' => gtid_uuid m' <> Some u) ms) as Hfresh.
    { apply Forall_forall. intros x Hx Ex. apply Hni. apply list_elem_of_fmap. exists x. split; [|done].
      unfold uuid_key. by rewrite Ex, Hd. }
    pose proof (merge_all_fresh u r ms Hfresh) as E. unfold merge_all in E. rewrite E in *.
    split; [|split].
    + constructor; [|done]. split; [done|]. unfold get_gtid_length in Hl. cbn [merged get_txn_range] in *. lia.
    + done.
    + cbn [foldr]. lia.
  - split; [|split].
    + constructor; [|done]. split; [done|lia].
    + by f_equal.
    + cbn [foldr]. lia.
Qed.

Lemma gtids_size_snoc ms m : gtids_size (ms ++ [m]) = gtids_size ms + get_gtid_length m.
Proof.
  unfold gtids_size, sum. rewrite fmap_app, foldr_app. cbn. induction (get_gtid_length <$> ms) as [|x l IH]; [simpl; lia|].
  cbn [foldr]. rewrite IH. lia.
Qed.

Lemma merge_gtid_before_sane ms :
  is_uuid u -> Forall room ms -> NoDup (uuid_key <$> ms) ->
  exists ms', merge_gtid_before (uuid_hex_bin_to_str_with_delim u) ms r = Done ms' /\ Forall room' ms' /\
    NoDup (uuid_key <$> ms') /\ gtids_size ms' <= gtids_size ms + 40.
Proof.
  intros Hu Hms Hnd. destruct (merge_all_ok ms Hms Hnd) as (H1 & H2 & H3).
  assert (Forall has_uuid ms) as Hh by (eapply Forall_impl; [exact Hms|]; intros m [(_ & Hm & _) _]; exact Hm).
  unfold merge_gtid_before, mbind, outcome_bind. rewrite merge_messages_spec by done. cbv beta iota.
  fold (merge_all u r ms). case_bool_decide as Hex.
  { eexists. split; [done|]. split; [done|]. rewrite H2. split; [done|lia]. }
  destruct (_ && _).
  2: { eexists. split; [done|]. split; [done|]. rewrite H2. split; [done|lia]. }
  unfold set_gtid_uuid, mbind, outcome_bind. rewrite uuid_str_to_hex_bin_text by done.
  set (m := mkGtidMessage (Some u) 1 [r]). exists (merge_all u r ms ++ [m]). split; [done|].
  assert (message_sane m) as Hsane.
  { split; [|split; [exact Hu|by constructor]]. split; [|split; [done|split; [done|by constructor]]].
    cbn. split; [|done]. destruct Hu as [Hu _]. done. }
  split; [|split].
  - apply Forall_app. split; [done|]. constructor; [|done]. split; [done|]. change (zlen (get_txn_range m)) with 1. lia.
  - rewrite fmap_app, H2. apply NoDup_app. split; [done|]. split; [|apply NoDup_singleton].
    intros x Hx Hin. apply list_elem_of_singleton in Hin as ->. apply list_elem_of_fmap in Hx as (m' & E & Hm').
    apply Hex, Exists_exists. exists m'. split; [done|].
    eapply Forall_forall in Hh; [|exact Hm']. unfold has_uuid in Hh. unfold uuid_key in E.
    destruct (gtid_uuid m') as [v|]; [|done]. cbn in E. f_equal. symmetry. apply dumphex_inj; [apply Hu|apply Hh|done].
  - rewrite gtids_size_snoc. change (get_gtid_length m) with 40.
    rewrite merge_all_fresh; [lia|]. apply Forall_forall. intros x Hx E. apply Hex, Exists_exists. by exists x.
Qed.

End MergeAll.

(** ** Allocation *)

Definition gtid_of (ev : ObLogEvent) : option Z :=
  match get_body ev with GtidLogEvent e => Some (gl_gtid_txn_id e) | _ => None end.

(** What allocation does not touch: everything but the GTID, the xid, the position and
    the filter mark. *)
Definition erase_body (b : EventBody) : EventBody :=
  match b with
  | GtidLogEvent e => GtidLogEvent (mkGtidLog (gl_commit_flag e) (gl_gtid_uuid e) 0 (gl_ts_type e)
                        (gl_last_committed e) (gl_sequence_number e))
  | XidEvent _ => XidEvent 0
  | b => b
  end.
Definition erase (ev : ObLogEvent) : ObLogEvent :=
  set_filter true (set_body (erase_body (get_body ev)) (set_header (set_next_position 0 (get_header ev)) ev)).

(** The events the conversion hands over: built, marked as filtered until they are placed. *)
Definition incoming (ev : ObLogEvent) : Prop :=
  event_ok ev /\ is_filter ev = true /\ text_ok [0; 9; 10; 61] (get_ob_txn ev) /\ is_i63 (Events.get_checkpoint ev).
#[export] Instance incoming_dec ev : Decision (incoming ev).
Proof. unfold incoming. apply _. Defined.

(** Marking and compressing leave the executed set alone. *)
Lemma save_gtid_seq_executed cfg ok s m : gtid_executed_set (save_gtid_seq cfg ok s m).2 = gtid_executed_set m.
Proof. unfold save_gtid_seq. destruct (last (gtid_seq_set m)); [destruct (_ && _)|]; by destruct ok. Qed.

Lemma clear_outdated_executed cfg c m : gtid_executed_set (clear_outdated cfg c m) = gtid_executed_set m.
Proof. unfold clear_outdated, rewrite_gtid_file. destruct (_ <? _); [|done]. cbn. by destruct (gtid_seq_file m). Qed.

Lemma compress_executed cfg ok tm m : gtid_executed_set (compress_and_save_gtid_seq cfg ok tm m) = gtid_executed_set m.
Proof.
  assert (gtid_executed_set (save_checkpoints cfg ok m) = gtid_executed_set m) as E.
  { unfold save_checkpoints. cbn. generalize (gtid_checkpoint_set m). intros l. revert m.
    induction l as [|s l IH]; intros m; [done|]. cbn [fold_left]. by rewrite IH, save_gtid_seq_executed. }
  unfold compress_and_save_gtid_seq. destruct (_ <=? _); [done|]. destruct (_ || _); [|done].
  rewrite <-E, clear_outdated_executed. apply save_gtid_seq_executed.
Qed.

(** ** Which events are kept

    Heartbeats never are.  After a restart the events before transaction [txn] and, when it
    is complete in the files ([skip]), those of that transaction are in the files already:
    they are passed over until the GTID event of [txn] with the number it had, or, once that
    was met, until the transaction ends. *)

Definition heartbeat (ev : ObLogEvent) : bool := h_type_code (get_header ev) =? HEARTBEAT_LOG_EVENT.
Definition all_but_heartbeats (evs : list ObLogEvent) : list bool := (fun ev => negb (heartbeat ev)) <$> evs.

Fixpoint keeps_from (txn : bytes * Z) (skip met : bool) (seq : Z) (evs : list ObLogEvent) : list bool :=
  match evs with
  | [] => []
  | ev :: evs =>
      match get_body ev with
      | GtidLogEvent _ =>
          if beq (get_ob_txn ev) txn.1 && (seq =? txn.2) then
            if skip then false :: keeps_from txn skip true (seq + 1) evs else true :: all_but_heartbeats evs
          else if met then true :: all_but_heartbeats evs
          else false :: keeps_from txn skip met seq evs
      | XidEvent _ => false :: if met then all_but_heartbeats evs else keeps_from txn skip met seq evs
      | _ => false :: keeps_from txn skip met seq evs
      end
  end.

Definition keeps (a : Allocator) (evs : list ObLogEvent) : list bool :=
  if a_filter_util_checkpoint_trx a
  then keeps_from (a_txn_mapping a) (a_filter_checkpoint_trx a) (a_meet_initial_trx a) (a_txn_gtid_seq a) evs
  else all_but_heartbeats evs.

Lemma keeps_nil a : keeps a [] = [].
Proof. unfold keeps. by destruct (a_filter_util_checkpoint_trx a). Qed.

(** The events after which a file may be closed. *)
Definition ends_transaction (ev : ObLogEvent) : bool :=
  match get_body ev with XidEvent _ => true | QueryEvent e => q_is_ddl e | _ => false end.

Section Allocation.
Context (cfg : storage_config) (u : bytes) (cfg_ok : config_ok cfg u).

(** The state of allocation, with room for [k] more events. *)
Definition record_for (index : Z) (r : BinlogIndexRecord) : Prop :=
  record_ok r /\ get_index r = index /\ get_file_name r = binlog_path (binlog_name cfg index).

Record alloc_ok (k : Z) (a : Allocator) : Prop := {
  ao_k : 0 <= k < 2 ^ 31;
  ao_gtid : 1 <= a_txn_gtid_seq a /\ a_txn_gtid_seq a + k <= LLONG_MAX;
  ao_first : 0 <= a_first_gtid_seq a < a_txn_gtid_seq a;
  ao_ts : is_u32 (a_last_record_ts a);
  ao_index : 0 <= a_binlog_file_index a /\ a_binlog_file_index a + k <= LLONG_MAX;
  ao_record : record_for (a_binlog_file_index a) (a_index_record a);
  ao_previous : Forall (room' k) (a_previous_gtid_messages a);
  ao_distinct : NoDup (uuid_key <$> a_previous_gtid_messages a);
  ao_size : gtids_size (a_previous_gtid_messages a) + 40 * k < 2 ^ 31 - 1024;
  ao_executed : Forall has_uuid (gtid_executed_set (a_gtid a))
}.

(** What one event changes besides the record and the GTID manager. *)
Definition same_place (a a' : Allocator) : Prop :=
  a_cur_pos a' = a_cur_pos a /\ a_binlog_file_index a' = a_binlog_file_index a /\
  a_previous_gtid_messages a' = a_previous_gtid_messages a /\ a_last_record_ts a' = a_last_record_ts a.

(** How it is numbered. *)
Definition numbered (kept : bool) (g : option Z) (a a' : Allocator) : Prop :=
  if kept then
    a_filter_util_checkpoint_trx a' = false /\
    match g with
    | Some g => g = a_txn_gtid_seq a /\ a_txn_gtid_seq a' = a_txn_gtid_seq a + 1
    | None => a_filter_util_checkpoint_trx a = false /\ a_txn_gtid_seq a' = a_txn_gtid_seq a
    end
  else
    a_txn_gtid_seq a <= a_txn_gtid_seq a' /\
    (a_filter_util_checkpoint_trx a = false ->
     a_filter_util_checkpoint_trx a' = false /\ a_txn_gtid_seq a' = a_txn_gtid_seq a).

Record one_step (k : Z) (ev : ObLogEvent) (a : Allocator) (kept rotate : bool) (ev' : ObLogEvent) (a' : Allocator) : Prop := {
  os_state : alloc_ok k a';
  os_place : same_place a a';
  os_event : event_ok ev';
  os_header : get_header ev' = get_header ev;
  os_filter : is_filter ev' = true;
  os_erase : erase ev' = erase ev;
  os_number : numbered kept (gtid_of ev') a a';
  os_kept : rotate = true -> kept = true /\ too_long cfg ev' a' = true;
  os_rotate : kept = true -> rotate = ends_transaction ev' && too_long cfg ev' a';
  os_marks : forall more, keeps a (ev :: more) = kept :: keeps a' more
}.

Lemma mark_event_total hb cp m g :
  exists g', mark_event (c_gtid cfg) hb cp m g = Done g' /\ gtid_executed_set g' = gtid_executed_set g.
Proof.
  destruct cfg_ok as (_ & _ & _ & Hs & _). unfold mark_event. destruct hb; [by eexists|].
  rewrite (proj2 (Z.eqb_neq _ _) Hs). destruct (_ =? 0); by eexists.
Qed.

Lemma alloc_ok_weaken k a : 0 <= k -> alloc_ok (k + 1) a -> alloc_ok k a.
Proof.
  intros Hk []. split; try done; try lia.
  eapply Forall_impl; [eassumption|]. intros m [? ?]. split; [done|lia].
Qed.

Lemma gtid_body_ok ev e g :
  event_ok ev -> get_body ev = GtidLogEvent e -> is_u64 g ->
  let ev' := set_body (GtidLogEvent (mkGtidLog (gl_commit_flag e) (gl_gtid_uuid e) g (gl_ts_type e)
               (gl_last_committed e) (gl_sequence_number e))) ev in
  event_ok ev' /\ erase ev' = erase ev.
Proof.
  intros (Hh & Hf & Ht & Hb & Hl) E Hg. rewrite E in *. split; [|unfold erase; cbn; by rewrite E].
  unfold event_ok, get_checksum_len in *. cbn [get_header get_body get_checksum_flag set_body] in *.
  destruct Hb as (? & ? & ? & ? & ? & ?). done.
Qed.

Lemma xid_body_ok ev x0 x :
  event_ok ev -> get_body ev = XidEvent x0 -> is_u64 x ->
  event_ok (set_body (XidEvent x) ev) /\ erase (set_body (XidEvent x) ev) = erase ev.
Proof.
  intros (Hh & Hf & Ht & Hb & Hl) E Hx. rewrite E in *. split; [|unfold erase; cbn; by rewrite E].
  unfold event_ok, get_checksum_len in *. cbn [get_header get_body get_checksum_flag set_body] in *. done.
Qed.

Lemma body_by_type ev :
  event_ok ev -> let t := h_type_code (get_header ev) in
  (t = GTID_LOG_EVENT -> exists e, get_body ev = GtidLogEvent e) /\
  (t = XID_EVENT -> exists x, get_body ev = XidEvent x) /\
  (t = QUERY_EVENT -> exists e, get_body ev = QueryEvent e) /\
  (t <> GTID_LOG_EVENT -> gtid_of ev = None).
Proof.
  intros (_ & _ & Ht & _). cbn zeta. unfold gtid_of.
  split; [|split; [|split]]; intros E; [rewrite E in Ht..|];
    destruct (get_body ev) as [e|n m|e|e|e|x|e|e|n]; try done; try (by eexists); try (cbn in Ht; by destruct (r_rows_event_type e)).
  by apply Z.eqb_eq in Ht.
Qed.

(** A transaction is accepted: it takes the next number. *)
Lemma gtid_accepted_ok k ev ev0 gtid a :
  0 <= k -> alloc_ok (k + 1) a -> incoming ev0 -> get_ob_txn ev = get_ob_txn ev0 ->
  Events.get_checkpoint ev = Events.get_checkpoint ev0 -> gtid = a_txn_gtid_seq a ->
  exists a', gtid_accepted cfg ev gtid a = Done a' /\ alloc_ok k a' /\ same_place a a' /\
    a_txn_gtid_seq a' = gtid + 1 /\ a_filter_util_checkpoint_trx a' = a_filter_util_checkpoint_trx a.
Proof.
  intros Hk0 Ha (_ & _ & Ht & Hc) Et Ec ->. pose proof (alloc_ok_weaken k a Hk0 Ha) as Hk.
  unfold gtid_accepted. cbn [get_current_mapping set_current_mapping set_before_mapping].
  edestruct (mark_event_total false) as (g & -> & Eg). cbn [mbind outcome_bind]. eexists. split; [done|].
  destruct Ha as [Hk1 Hg Hf _ Hi (Hr & Hri & Hrn) _ _ _ Hex]. destruct Hk as [Hk Hg' _ Hts _ _ Hp Hd Hs _].
  unfold LLONG_MAX in *.
  assert (u64 (a_txn_gtid_seq a + 1) = a_txn_gtid_seq a + 1) as Eu by (apply u64_id; unfold is_u64; lia).
  split; [|done || by rewrite Eu].
  destruct Hr as (Hr1 & Hr2 & Hr3 & Hr4 & Hr5 & Hr6). unfold is_i63, LLONG_MAX in *.
  split; cbn [a_txn_gtid_seq a_first_gtid_seq a_last_record_ts a_binlog_file_index a_index_record
    a_previous_gtid_messages with_gtid_manager with_record with_txn_gtid_seq]; rewrite ?Eu; try done; unfold LLONG_MAX; try lia.
  - destruct (Z.eqb_spec (a_first_gtid_seq a) 0); lia.
  - split; [|split; [exact Hri|exact Hrn]]. unfold record_ok, mapping_ok, is_i63, LLONG_MAX. cbn. rewrite Et, Ec.
    assert (0 <= Events.get_checkpoint ev0 `div` 1000000 <= 2 ^ 63 - 1)
      by (split; [apply Z.div_pos|apply Z.div_le_upper_bound]; lia).
    split_and!; try done; try lia; apply Hr3.
  - cbn. by rewrite Eg.
Qed.

Lemma alloc_ok_filter k x y a : alloc_ok k a -> alloc_ok k (with_filter x y a).
Proof. intros []. by split. Qed.
Lemma alloc_ok_manager' k g a : Forall has_uuid (gtid_executed_set g) -> alloc_ok k a -> alloc_ok k (with_gtid_manager g a).
Proof. intros E []. by split. Qed.
Lemma alloc_ok_manager k g a :
  gtid_executed_set g = gtid_executed_set (a_gtid a) -> alloc_ok k a -> alloc_ok k (with_gtid_manager g a).
Proof. intros E []. split; try done. cbn. by rewrite E. Qed.
Lemma alloc_ok_xid k x a : alloc_ok k a -> alloc_ok k (with_xid x a).
Proof. intros []. by split. Qed.
Lemma alloc_ok_next k a : 0 <= k -> alloc_ok (k + 1) a -> alloc_ok k (with_txn_gtid_seq (u64 (a_txn_gtid_seq a + 1)) a).
Proof.
  intros Hk Ha. pose proof (alloc_ok_weaken k a Hk Ha) as []. destruct Ha as [_ Hg _ _ _ _ _ _ _ _]. unfold LLONG_MAX in *.
  assert (u64 (a_txn_gtid_seq a + 1) = a_txn_gtid_seq a + 1) as E by (apply u64_id; unfold is_u64; lia).
  rewrite E. split; cbn; try done; unfold LLONG_MAX; lia.
Qed.

Lemma gtid_not_heartbeat ev e : event_ok ev -> get_body ev = GtidLogEvent e -> heartbeat ev = false.
Proof. intros (_ & _ & Ht & _) E. rewrite E in Ht. unfold heartbeat. apply Z.eqb_eq in Ht. by rewrite Ht. Qed.

Lemma allocate_gtid_ok k ev e a :
  0 <= k -> alloc_ok (k + 1) a -> incoming ev -> get_body ev = GtidLogEvent e ->
  exists kept ev' a', allocate_gtid cfg ev e a = Done (kept, ev', a') /\ one_step k ev a kept false ev' a'.
Proof.
  intros Hk Ha Hin Eb. pose proof Hin as (Hok & Hfil & _). unfold allocate_gtid.
  assert (is_u64 (a_txn_gtid_seq a)) as Hg.
  { destruct Ha as [_ Hg _ _ _ _ _ _ _ _]. unfold LLONG_MAX, is_u64 in *. lia. }
  assert (u64 (a_txn_gtid_seq a + 1) = a_txn_gtid_seq a + 1) as Eu.
  { destruct Ha as [_ Hg' _ _ _ _ _ _ _ _]. apply u64_id. unfold LLONG_MAX, is_u64 in *. lia. }
  destruct (gtid_body_ok ev e (a_txn_gtid_seq a) Hok Eb Hg) as [Hok' He]. pose proof (gtid_not_heartbeat ev e Hok Eb) as Hhb.
  set (ev' := set_body _ ev) in *.
  assert (forall x y, (x = false) -> (forall more, keeps a (ev :: more) = true :: all_but_heartbeats more) -> exists a',
    (a0 ← gtid_accepted cfg ev' (a_txn_gtid_seq a) (with_filter x y a); Done (true, ev', a0)) = Done (true, ev', a') /\
    one_step k ev a true false ev' a') as Hacc.
  { intros x y -> Hm. destruct (gtid_accepted_ok k ev' ev (a_txn_gtid_seq a) (with_filter false y a) Hk
      (alloc_ok_filter _ _ _ _ Ha) Hin eq_refl eq_refl eq_refl) as (a' & -> & H1 & H2 & H3 & H4).
    exists a'. split; [done|]. split; try done. intros more. rewrite Hm. unfold keeps. by rewrite H4. }
  assert (forall a1, alloc_ok k a1 -> same_place a a1 -> a_txn_gtid_seq a <= a_txn_gtid_seq a1 ->
    a_filter_util_checkpoint_trx a = true -> (forall more, keeps a (ev :: more) = false :: keeps a1 more) -> one_step k ev a false false ev' a1) as Hdrop.
  { intros a1 H1 H2 H3 H4 H5. split; try done. split; [done|]. by rewrite H4. }
  destruct (a_filter_util_checkpoint_trx a) eqn:Ef.
  2: { destruct (Hacc false (a_meet_initial_trx a) eq_refl) as (a' & E & H).
       { intros more. unfold keeps, all_but_heartbeats. by rewrite Ef, fmap_cons, Hhb. }
       exists true, ev', a'. split; [|done]. rewrite <-E. rewrite <-Ef. by destruct a. }
  assert (forall more, keeps a (ev :: more) = if is_checkpoint_trx ev' (a_txn_gtid_seq a) a
    then if a_filter_checkpoint_trx a then false :: keeps_from (a_txn_mapping a) (a_filter_checkpoint_trx a) true (a_txn_gtid_seq a + 1) more else true :: all_but_heartbeats more
    else if a_meet_initial_trx a then true :: all_but_heartbeats more else false :: keeps a more) as Hmarks.
  { intros more. unfold keeps, is_checkpoint_trx. rewrite Ef. cbn [keeps_from]. by rewrite Eb. }
  destruct (is_checkpoint_trx ev' (a_txn_gtid_seq a) a) eqn:Eh; [rewrite andb_false_r|].
  - destruct (a_filter_checkpoint_trx (with_filter true true a)) eqn:Ec; change (a_filter_checkpoint_trx (with_filter true true a)) with (a_filter_checkpoint_trx a) in Ec.
    + eexists _, _, _. split; [done|]. apply Hdrop; [|done| |done|].
      * by apply alloc_ok_filter, (alloc_ok_next k (with_filter true true a)), alloc_ok_filter.
      * cbn. lia.
      * intros more. rewrite Hmarks, Ec. unfold keeps. cbn. by rewrite Ec, Eu.
    + destruct (Hacc false true eq_refl) as (a' & E & H); [intros more; by rewrite Hmarks, Ec|]. by exists true, ev', a'.
  - rewrite andb_true_r. destruct (a_meet_initial_trx a) eqn:Em; cbn [negb orb].
    + destruct (Hacc false true eq_refl) as (a' & E & H); [intros more; by rewrite Hmarks|]. by exists true, ev', a'.
    + eexists _, _, _. split; [done|]. apply Hdrop; [by apply alloc_ok_weaken|done|lia|done|done].
Qed.

(** An event that is passed over while the restart point is looked for. *)
Lemma keeps_other ev a more :
  a_filter_util_checkpoint_trx a = true -> (forall e, get_body ev <> GtidLogEvent e) -> (forall x, get_body ev <> XidEvent x) ->
  keeps a (ev :: more) = false :: keeps a more.
Proof.
  intros Ef Hg Hx. unfold keeps. rewrite Ef. cbn [keeps_from].
  destruct (get_body ev) as [e|n m|e|e|e|x|e|e|n]; try done; [by destruct (Hg e)|by destruct (Hx x)].
Qed.

Lemma allocate_one_ok k ev a :
  0 <= k -> alloc_ok (k + 1) a -> incoming ev ->
  exists kept rotate ev' a', allocate_one cfg ev a = Done (kept, rotate, ev', a') /\ one_step k ev a kept rotate ev' a'.
Proof.
  intros Hk Ha Hin. pose proof Hin as (Hok & Hfil & _). pose proof (alloc_ok_weaken k a Hk Ha) as Hw.
  destruct (body_by_type ev Hok) as (Hgtid & Hxid & Hquery & Hno). pose proof Hok as (_ & _ & Hbt & _). unfold allocate_one.
  assert (forall a1, alloc_ok k a1 -> same_place a a1 -> a_txn_gtid_seq a1 = a_txn_gtid_seq a ->
    (a_filter_util_checkpoint_trx a = false -> a_filter_util_checkpoint_trx a1 = false) ->
    (forall more, keeps a (ev :: more) = false :: keeps a1 more) -> one_step k ev a false false ev a1) as Hdrop.
  { intros a1 H1 H2 H3 H4 H5. split; try done. split; [lia|]. intros Hf. split; [by apply H4|done]. }
  assert (forall rotate ev1 a1, alloc_ok k a1 -> same_place a a1 -> a_txn_gtid_seq a1 = a_txn_gtid_seq a ->
    a_filter_util_checkpoint_trx a = false -> a_filter_util_checkpoint_trx a1 = false -> event_ok ev1 ->
    erase ev1 = erase ev -> get_header ev1 = get_header ev -> is_filter ev1 = true -> gtid_of ev1 = None ->
    rotate = ends_transaction ev1 && too_long cfg ev1 a1 -> heartbeat ev = false ->
    one_step k ev a true rotate ev1 a1) as Hkeep.
  { intros rotate ev1 a1 H1 H2 H3 H4 H5 H6 H7 H8 H9 H10 H11 H12. split; try done.
    - by rewrite H10.
    - rewrite H11. by intros [_ H]%andb_true_iff.
    - intros more. unfold keeps, all_but_heartbeats. by rewrite H4, H5, fmap_cons, H12. }
  destruct (Z.eqb_spec (h_type_code (get_header ev)) HEARTBEAT_LOG_EVENT) as [Et|Hnh].
  { assert (heartbeat ev = true) as Hhb by (by apply Z.eqb_eq). destruct (a_filter_util_checkpoint_trx a) eqn:Ef.
    - eexists _, _, _, _. split; [done|]. apply Hdrop; try done. intros more. rewrite Et in Hbt.
      apply keeps_other; [done|intros e E; by rewrite E in Hbt|intros x E; by rewrite E in Hbt].
    - edestruct (mark_event_total true) as (g & -> & Eg). cbn [mbind outcome_bind].
      eexists _, _, _, _. split; [done|]. apply Hdrop; try done; [apply alloc_ok_manager; [|done]; by rewrite compress_executed|].
      intros more. unfold keeps, all_but_heartbeats. cbn. by rewrite Ef, Hhb. }
  assert (heartbeat ev = false) as Hhb by (by apply Z.eqb_neq).
  destruct (Z.eqb_spec (h_type_code (get_header ev)) GTID_LOG_EVENT) as [Et|Hng].
  { destruct (Hgtid Et) as [e Eb]. rewrite Eb.
    destruct (allocate_gtid_ok k ev e a Hk Ha Hin Eb) as (kept & ev' & a' & -> & H). by eexists _, _, _, _. }
  assert (forall e, get_body ev <> GtidLogEvent e) as Hnb by (intros e E; rewrite E in Hbt; by apply Z.eqb_eq in Hbt).
  destruct (Z.eqb_spec (h_type_code (get_header ev)) XID_EVENT) as [Et|Hnx].
  { destruct (Hxid Et) as [x Eb]. rewrite Eb.
    destruct (xid_body_ok ev x (u64 (a_xid a + 1)) Hok Eb (u64_range _)) as [H1 H2].
    destruct (a_filter_util_checkpoint_trx a) eqn:Ef; eexists _, _, _, _; (split; [done|]).
    - apply Hdrop; [destruct (a_meet_initial_trx a); [by apply alloc_ok_filter|done]|by destruct (a_meet_initial_trx a)..|done|].
      intros more. unfold keeps. rewrite Ef. cbn [keeps_from]. rewrite Eb. destruct (a_meet_initial_trx a) eqn:Em; [done|]. by rewrite Ef, Em.
    - apply Hkeep; try done. by apply alloc_ok_xid. }
  assert (forall x, get_body ev <> XidEvent x) as Hnxb by (intros x E; rewrite E in Hbt; by apply Z.eqb_eq in Hbt).
  destruct (a_filter_util_checkpoint_trx a) eqn:Ef.
  { destruct (_ =? QUERY_EVENT); eexists _, _, _, _; (split; [done|]); apply Hdrop; try done; intros more; by apply keeps_other. }
  destruct (Z.eqb_spec (h_type_code (get_header ev)) QUERY_EVENT) as [Et|Hnq].
  { destruct (Hquery Et) as [e Eb]. rewrite Eb. eexists _, _, _, _. split; [done|]. apply Hkeep; try done.
    - by apply Hno.
    - unfold ends_transaction. by rewrite Eb. }
  eexists _, _, _, _. split; [done|]. apply Hkeep; try done; [by apply Hno|].
  unfold ends_transaction. destruct (get_body ev) as [e|n m|e|e|e|x|e|e|n] eqn:Eb; try done; [|by destruct (Hnxb x)].
  cbn in Hbt. by apply Z.eqb_eq in Hbt.
Qed.

(** ** Rotation and placement *)

Definition next_gtids (rot : ObLogEvent) : list GtidMessage :=
  match get_body rot with RotateEvent e => ro_next_previous_gtids e | _ => [] end.

Definition rotates_to (index : Z) (rot : ObLogEvent) : Prop :=
  exists e, get_body rot = RotateEvent e /\ ro_index e = index /\ ro_next_binlog_position e = BINLOG_MAGIC_SIZE /\
    ro_next_binlog_file_name e = binlog_name cfg index /\
    Forall message_sane (ro_next_previous_gtids e) /\ NoDup (uuid_key <$> ro_next_previous_gtids e) /\
    gtids_size (ro_next_previous_gtids e) < 2 ^ 31 - 1024 /\ same_config (c_binlog_checksum cfg) rot.

Definition rotated (rot : ObLogEvent) (a a' : Allocator) : Prop :=
  a_binlog_file_index a' = a_binlog_file_index a + 1 /\ a_cur_pos a' = start_pos cfg (next_gtids rot) /\
  a_previous_gtid_messages a' = next_gtids rot /\ a_txn_gtid_seq a' = a_txn_gtid_seq a /\
  a_filter_util_checkpoint_trx a' = a_filter_util_checkpoint_trx a /\ forall evs, keeps a' evs = keeps a evs.

Lemma new_rotate_header position name ts begin index op :
  zlen name <= 511 -> is_u32 ts -> 0 <= begin -> begin + 600 < 2 ^ 32 ->
  let h := get_header (new_rotate true (c_server_id cfg) position name ts begin index op) in
  h_event_length h = 31 + zlen name /\ h_next_position h = begin + h_event_length h /\ h_timestamp h = ts.
Proof.
  intros Hn Hts Hb Hb'. pose proof (zlen_nonneg name). unfold is_u32 in *.
  cbn [new_rotate new_event get_header new_header h_event_length h_next_position h_timestamp].
  change (config_checksum_len true) with 4. change (COMMON_HEADER_LENGTH + ROTATE_HEADER_LEN) with 27.
  rewrite !(u32_id (27 + zlen name + 4)) by (unfold is_u32; lia).
  rewrite !(u32_id (begin + (27 + zlen name + 4))) by (unfold is_u32; lia). rewrite u64_id by (unfold is_u64; lia). lia.
Qed.

Lemma rotate_binlog_file_ok k a b :
  0 <= k -> alloc_ok (k + 1) a -> 0 <= a_cur_pos a -> a_cur_pos a + 600 < 2 ^ 32 -> c_max_binlog_size cfg < a_cur_pos a ->
  exists a' rot, rotate_binlog_file cfg (a_last_record_ts a) a b = Done (a', add_rotate_event rot b) /\
    alloc_ok k a' /\ event_ok rot /\ rotates_to (a_binlog_file_index a + 1) rot /\ rotated rot a a' /\
    h_next_position (get_header rot) = a_cur_pos a + h_event_length (get_header rot) /\
    h_timestamp (get_header rot) = a_last_record_ts a /\
    gtids_size (next_gtids rot) <= gtids_size (a_previous_gtid_messages a) + 40.
Proof.
  intros Hk Ha Hp0 Hp Hmax. destruct Ha as [Hk1 Hg Hf Hts Hi (Hr & Hri & Hrn) Hprev Hdist Hsize Hex].
  pose proof cfg_ok as (Hck & Hsid & _ & _ & Hu & Huu & _). unfold rotate_binlog_file. rewrite Z.gtb_ltb, (proj2 (Z.ltb_lt _ _) Hmax).
  unfold LLONG_MAX in *. rewrite !(u64_id (a_binlog_file_index a + 1)) by (unfold is_u64; lia).
  rewrite !(u64_id (a_txn_gtid_seq a - 1)) by (unfold is_u64; lia). set (r := (a_first_gtid_seq a, a_txn_gtid_seq a - 1)).
  assert (range_ok r) as Hro by (unfold range_ok, is_u64, r; simpl; lia). assert (r.1 <= r.2) as Hrl by (unfold r; simpl; lia).
  destruct (merge_gtid_before_sane u r k Hro Hrl ltac:(lia) (a_previous_gtid_messages a) Hu) as (ms & Em & Hms & Hnd & Hsz).
  { eapply Forall_impl; [exact Hprev|]. intros m [H1 H2]. split; [done|lia]. }
  { done. }
  rewrite Huu, Em. cbn [mbind outcome_bind].
  set (index := a_binlog_file_index a + 1) in *. set (name := binlog_name cfg index).
  pose proof (zlen_binlog_name cfg u index cfg_ok) as Hname. fold name in Hname. pose proof (zlen_nonneg name).
  rewrite Hck. destruct (new_rotate_header BINLOG_MAGIC_SIZE name (a_last_record_ts a) (a_cur_pos a) index ROTATE
    Hname Hts Hp0 Hp) as (_ & Hnext & Hstamp).
  assert (event_ok (new_rotate true (c_server_id cfg) BINLOG_MAGIC_SIZE name (a_last_record_ts a) (a_cur_pos a) index ROTATE))
    as Hrot by (apply new_rotate_ok; done || lia).
  assert (Forall message_sane ms) as Hsane by (eapply Forall_impl; [exact Hms|]; by intros m []).
  eexists _, _. split; [reflexivity|].
  split; [|split; [|split; [|split; [done|split; [exact Hnext|split; [exact Hstamp|exact Hsz]]]]]].
  - split; cbn [a_txn_gtid_seq a_first_gtid_seq a_last_record_ts a_binlog_file_index a_index_record
      a_previous_gtid_messages with_next_file with_cur_pos]; try done; unfold LLONG_MAX; try lia.
    split; [|done]. destruct Hr as (Hr1 & Hr2 & Hr3 & Hr4 & Hr5 & Hr6). unfold record_ok, is_i63, LLONG_MAX in *. cbn.
    split; [|split; [lia|done]]. apply (binlog_path_text cfg u); [done|lia].
  - destruct Hrot as (H1 & H2 & H3 & H4 & H5). exact (conj H1 (conj H2 (conj H3 (conj H4 H5)))).
  - eexists. split; [reflexivity|]. do 5 (split; [done|]). cbn [ro_next_previous_gtids]. split; [lia|]. by rewrite Hck.
Qed.

(** The batch as allocation leaves it: the events of each file that is closed with the
    rotate event that closes it, the events of the file left open, and one index record
    per file. *)
Fixpoint layout (pos index : Z) (segs : list (list ObLogEvent * ObLogEvent)) (tail : list ObLogEvent)
    (recs : list BinlogIndexRecord) : Prop :=
  match segs, recs with
  | [], [r] => chained pos (unfiltered tail) /\ record_for index r
  | (seg, rot) :: segs, r :: recs =>
      unfiltered seg <> [] /\ chained pos (unfiltered seg ++ [rot]) /\ record_for index r /\
      rotates_to (index + 1) rot /\ layout (start_pos cfg (next_gtids rot)) (index + 1) segs tail recs
  | _, _ => False
  end.

Definition all_events (segs : list (list ObLogEvent * ObLogEvent)) (tail : list ObLogEvent) : list ObLogEvent :=
  mjoin (fst <$> segs) ++ tail.

Definition event_len (ev : ObLogEvent) : Z := h_event_length (get_header ev).
Fixpoint end_position (pos : Z) (segs : list (list ObLogEvent * ObLogEvent)) (tail : list ObLogEvent) : Z :=
  match segs with
  | [] => pos + sum (event_len <$> unfiltered tail)
  | (_, rot) :: segs => end_position (start_pos cfg (next_gtids rot)) segs tail
  end.

(** An event in front of the first file of a batch. *)
Definition push_segs (ev : ObLogEvent) (segs : list (list ObLogEvent * ObLogEvent)) : list (list ObLogEvent * ObLogEvent) :=
  match segs with [] => [] | (seg, rot) :: segs => (ev :: seg, rot) :: segs end.
Definition push_tail (ev : ObLogEvent) (segs : list (list ObLogEvent * ObLogEvent)) (tail : list ObLogEvent) : list ObLogEvent :=
  match segs with [] => ev :: tail | _ => tail end.

Lemma all_events_push ev segs tail : all_events (push_segs ev segs) (push_tail ev segs tail) = ev :: all_events segs tail.
Proof. by destruct segs as [|[seg rot] segs]. Qed.
Lemma snd_push ev segs : snd <$> push_segs ev segs = snd <$> segs.
Proof. by destruct segs as [|[seg rot] segs]. Qed.

Lemma unfiltered_kept ev evs : is_filter ev = false -> unfiltered (ev :: evs) = ev :: unfiltered evs.
Proof. intros H. unfold unfiltered. by rewrite filter_cons_True. Qed.
Lemma unfiltered_dropped ev evs : is_filter ev = true -> unfiltered (ev :: evs) = unfiltered evs.
Proof. intros H. unfold unfiltered. rewrite filter_cons_False; [done|]. by rewrite H. Qed.

Lemma layout_push_kept pos index ev segs tail recs :
  is_filter ev = false -> event_ok ev -> h_next_position (get_header ev) = pos + event_len ev ->
  layout (h_next_position (get_header ev)) index segs tail recs ->
  layout pos index (push_segs ev segs) (push_tail ev segs tail) recs.
Proof.
  intros Hf Hok Hn. destruct segs as [|[seg rot] segs], recs as [|r recs]; try done; cbn [layout push_segs push_tail].
  - destruct recs; [|done]. rewrite unfiltered_kept by done. by intros [Hc Hr].
  - rewrite unfiltered_kept by done. by intros (? & ? & ? & ? & ?).
Qed.

Lemma layout_push_dropped pos index ev segs tail recs :
  is_filter ev = true -> layout pos index segs tail recs ->
  layout pos index (push_segs ev segs) (push_tail ev segs tail) recs.
Proof.
  intros Hf. destruct segs as [|[seg rot] segs], recs as [|r recs]; try done; cbn [layout push_segs push_tail];
    by rewrite unfiltered_dropped.
Qed.

Lemma end_pos_push_kept pos ev segs tail :
  is_filter ev = false -> end_position pos (push_segs ev segs) (push_tail ev segs tail) = end_position (pos + event_len ev) segs tail.
Proof.
  intros Hf. destruct segs as [|[seg rot] segs]; [|done]. cbn [end_position push_segs push_tail].
  rewrite unfiltered_kept by done. unfold sum. cbn [fmap list_fmap foldr]. lia.
Qed.

Lemma end_pos_push_dropped pos ev segs tail :
  is_filter ev = true -> end_position pos (push_segs ev segs) (push_tail ev segs tail) = end_position pos segs tail.
Proof.
  intros Hf. destruct segs as [|[seg rot] segs]; [|done]. cbn [end_position push_segs push_tail].
  by rewrite unfiltered_dropped.
Qed.

Definition index_slots (n : Z) (b : SerializeEvent) : Prop :=
  0 <= n /\ sb_index_pos b = n /\ n <= zlen (sb_index_records b) <= n + 1.

Lemma batch_update_ok n r b :
  index_slots n b ->
  batch_update_index_record r b = Done (with_index_records n (first n (sb_index_records b) ++ [r]) b) /\
  index_slots n (with_index_records n (first n (sb_index_records b) ++ [r]) b).
Proof.
  intros (Hn & Hp & Hl). unfold batch_update_index_record, index_slots. rewrite Hp. cbn.
  split; [|rewrite zlen_app, zlen_first by lia; unfold zlen; simpl; lia].
  destruct (Z.leb_spec (zlen (sb_index_records b)) n); [by rewrite first_ge by lia|].
  rewrite (proj2 (Z.eqb_eq _ _)) by lia. do 2 f_equal.
  assert (length (sb_index_records b) = S (Z.to_nat n)) as Hlen by (unfold zlen in *; lia).
  destruct (sb_index_records b) as [|x l] eqn:E using rev_ind; [done|]. clear IHl.
  rewrite length_app in Hlen. simpl in Hlen. unfold first.
  replace (Z.to_nat n) with (length l + 0)%nat by lia.
  rewrite insert_app_r, take_app_length' by lia. done.
Qed.

Definition numbering (a a' : Allocator) (evs : list ObLogEvent) : Prop :=
  exists g0 n, (a_filter_util_checkpoint_trx a = false -> g0 = a_txn_gtid_seq a) /\ a_txn_gtid_seq a <= g0 /\ 0 <= n /\
    omap gtid_of (unfiltered evs) = seqZ g0 n /\ a_txn_gtid_seq a' = g0 + n.

Lemma numbering_dropped g ev evs a a1 a' :
  is_filter ev = true -> numbered false g a a1 -> numbering a1 a' evs -> numbering a a' (ev :: evs).
Proof.
  intros Hf [H1 H2] (g0 & n & H3 & H4 & H5 & H6 & H7). exists g0, n. rewrite unfiltered_dropped by done.
  split; [|split; [lia|done]]. intros Hft. destruct (H2 Hft) as [Hft' E]. rewrite H3 by done. done.
Qed.

Lemma numbering_kept ev evs a a1 a2 a' :
  is_filter ev = false -> numbered true (gtid_of ev) a a1 -> a_txn_gtid_seq a2 = a_txn_gtid_seq a1 ->
  a_filter_util_checkpoint_trx a2 = a_filter_util_checkpoint_trx a1 ->
  numbering a2 a' evs -> numbering a a' (ev :: evs).
Proof.
  intros Hf [H1 H2] E1 E2 (g0 & n & H3 & H4 & H5 & H6 & H7). unfold numbering.
  rewrite unfiltered_kept by done.
  cbn [omap list_omap]. destruct (gtid_of ev) as [g|].
  - destruct H2 as [-> H2]. exists (a_txn_gtid_seq a), (n + 1). rewrite H3 in * by congruence.
    split; [done|]. split; [lia|]. split; [lia|]. split; [|lia].
    rewrite (seqZ_cons _ (n + 1)) by lia. f_equal. rewrite H6. f_equal; lia.
  - destruct H2 as [H2 H8]. exists g0, n. rewrite H3 in * by congruence. split; [lia|]. split; [lia|done].
Qed.

Definition put (pos : Z) (ev : ObLogEvent) : ObLogEvent :=
  set_filter false (set_header (set_next_position pos (get_header ev)) ev).

Lemma put_ok pos ev :
  event_ok ev -> is_u32 pos ->
  event_ok (put pos ev) /\ h_next_position (get_header (put pos ev)) = pos /\ event_len (put pos ev) = event_len ev /\
  erase (put pos ev) = erase ev /\ gtid_of (put pos ev) = gtid_of ev.
Proof.
  intros Hok Hp. split; [exact (set_next_position_ok ev pos Hok)|]. split; [by apply u32_id|]. done.
Qed.

(** The end of one event. *)
Lemma place_plain ev a b n :
  index_slots n b ->
  let pos := u32 (a_cur_pos a + event_len ev) in
  let b' := with_index_records n (first n (sb_index_records b) ++ [a_index_record a]) b in
  place cfg false ev a b = Done (put pos ev, with_cur_pos pos a, b') /\ index_slots n b'.
Proof.
  intros Hb. destruct (batch_update_ok n (a_index_record a) b Hb) as [E Hb'].
  split; [|done]. unfold place. cbn [a_index_record with_cur_pos]. rewrite E. done.
Qed.

Lemma place_rotate k ev a b n :
  index_slots n b -> 0 <= k -> alloc_ok (k + 1) a -> 0 <= a_cur_pos a -> 0 <= event_len ev ->
  a_cur_pos a + event_len ev + 600 < 2 ^ 32 -> too_long cfg ev a = true ->
  let pos := a_cur_pos a + event_len ev in
  exists a' rot, let b' := mkBatch (sb_events b) (sb_buffer b) true (sb_rotate_offsets b) (sb_rotate_events b ++ [rot])
        (n + 1) (first n (sb_index_records b) ++ [a_index_record a]) in
    place cfg true ev a b = Done (put pos ev, a', b') /\ index_slots (n + 1) b' /\ alloc_ok k a' /\ event_ok rot /\
    rotates_to (a_binlog_file_index a + 1) rot /\ rotated rot a a' /\
    h_next_position (get_header rot) = pos + event_len rot /\
    gtids_size (next_gtids rot) <= gtids_size (a_previous_gtid_messages a) + 40.
Proof.
  intros Hb Hk Ha Hp0 Hl Hp Ht. cbn zeta. destruct (batch_update_ok n (a_index_record a) b Hb) as [E Hb'].
  unfold too_long in Ht. rewrite Z.gtb_ltb in Ht. apply Z.ltb_lt in Ht.
  fold (event_len ev) in Ht. rewrite u32_id in Ht by (unfold is_u32; lia).
  unfold place. cbn [a_index_record with_cur_pos]. rewrite E. cbn [mbind outcome_bind].
  fold (event_len ev). rewrite u32_id by (unfold is_u32; lia).
  assert (alloc_ok (k + 1) (with_cur_pos (a_cur_pos a + event_len ev) a)) as Ha' by (destruct Ha; by split).
  destruct (rotate_binlog_file_ok k _ (with_index_records n (first n (sb_index_records b) ++ [a_index_record a]) b)
    Hk Ha' ltac:(cbn; lia) ltac:(cbn; lia) Ht) as (a' & rot & Er & H1 & H2 & H3 & H4 & H5 & _ & H7).
  rewrite Er. cbn [mbind outcome_bind]. exists a', rot. split; [done|].
  split; [|done]. destruct Hb' as (Hn & _ & Hz). unfold index_slots in *. cbn in *. split; [lia|].
  split; [done|]. rewrite zlen_app in *. destruct Hb as (_ & _ & Hz'). rewrite zlen_first in * by lia. unfold zlen in *. simpl in *. lia.
Qed.

(** The batch fits below 4 GiB whatever file it ends in. *)
Definition headroom (k : Z) (a : Allocator) (evs : list ObLogEvent) : Prop :=
  0 <= a_cur_pos a /\
  Z.max (a_cur_pos a) (155 + gtids_size (a_previous_gtid_messages a) + 40 * k) + sum (event_len <$> evs) + 600 < 2 ^ 32.

Lemma event_len_nonneg ev : event_ok ev -> 0 <= event_len ev.
Proof. intros ((_ & _ & _ & H & _) & _). unfold is_u32 in H. unfold event_len. lia. Qed.

Lemma sum_len_nonneg evs : Forall incoming evs -> 0 <= sum (event_len <$> evs).
Proof.
  unfold sum. induction 1 as [|ev evs [Hok _] _ IH]; [done|]. cbn [fmap list_fmap foldr].
  pose proof (event_len_nonneg ev Hok). lia.
Qed.

Lemma gtids_size_nonneg gs : 0 <= gtids_size gs.
Proof.
  unfold gtids_size, sum. induction gs as [|g gs IH]; [done|]. cbn [fmap list_fmap foldr].
  unfold get_gtid_length at 1, SERVER_UUID_LEN. pose proof (zlen_nonneg (get_txn_range g)). lia.
Qed.

(** Moving on after an event that stays in the file, or that closes it. *)
Lemma headroom_kept k ev evs a a' :
  0 <= k -> event_ok ev -> Forall incoming evs -> headroom (k + 2) a (ev :: evs) ->
  a_cur_pos a' = a_cur_pos a + event_len ev -> a_previous_gtid_messages a' = a_previous_gtid_messages a ->
  headroom k a' evs.
Proof.
  unfold headroom, sum. cbn [fmap list_fmap foldr]. intros Hk Hok Hev [H1 H2] E1 E2. rewrite E1, E2.
  pose proof (event_len_nonneg ev Hok). lia.
Qed.
Lemma headroom_dropped k ev evs a a' :
  0 <= k -> event_ok ev -> headroom (k + 2) a (ev :: evs) ->
  a_cur_pos a' = a_cur_pos a -> a_previous_gtid_messages a' = a_previous_gtid_messages a -> headroom k a' evs.
Proof.
  unfold headroom, sum. cbn [fmap list_fmap foldr]. intros Hk Hok [H1 H2] E1 E2. rewrite E1, E2.
  pose proof (event_len_nonneg ev Hok). lia.
Qed.
Lemma headroom_rotated k ev evs a a' rot :
  0 <= k -> event_ok ev -> Forall incoming evs -> headroom (k + 2) a (ev :: evs) ->
  rotates_to (a_binlog_file_index a + 1) rot -> rotated rot a a' ->
  gtids_size (next_gtids rot) <= gtids_size (a_previous_gtid_messages a) + 40 -> headroom k a' evs.
Proof.
  unfold headroom, sum. cbn [fmap list_fmap foldr]. intros Hk Hok Hev [H1 H2] (e & Eb & _ & _ & _ & Hs & Hd & Hz) (_ & E1 & E2 & _) Hg.
  rewrite E1, E2. unfold next_gtids in *. rewrite Eb in *.
  pose proof (gtids_size_nonneg (ro_next_previous_gtids e)). pose proof (event_len_nonneg ev Hok).
  destruct cfg_ok as (Hck & _). rewrite start_pos_eq by lia. unfold clen. rewrite Hck. lia.
Qed.

(** A file is closed by the first event that ends a transaction beyond the maximal size. *)
Definition in_bounds (ev : ObLogEvent) : Prop := ends_transaction ev = true -> h_next_position (get_header ev) <= c_max_binlog_size cfg.
Definition closed_when_due (seg : list ObLogEvent) : Prop :=
  exists evs ev, unfiltered seg = evs ++ [ev] /\ ends_transaction ev = true /\ c_max_binlog_size cfg < h_next_position (get_header ev) /\ Forall in_bounds evs.
Definition rotations_due (segs : list (list ObLogEvent * ObLogEvent)) (tail : list ObLogEvent) : Prop :=
  Forall (fun sg => closed_when_due sg.1) segs /\ Forall in_bounds (unfiltered tail).

Lemma due_push_dropped ev segs tail : is_filter ev = true -> rotations_due segs tail -> rotations_due (push_segs ev segs) (push_tail ev segs tail).
Proof.
  intros Hf. destruct segs as [|[seg rot] segs]; unfold rotations_due, closed_when_due; cbn [push_segs push_tail]; rewrite ?unfiltered_dropped by done; [done|].
  intros [H Ht]. apply Forall_cons in H as [H Hs]. split; [|done]. constructor; [|done]. cbn [fst] in *. by rewrite unfiltered_dropped.
Qed.

Lemma due_push_kept ev segs tail : is_filter ev = false -> in_bounds ev -> rotations_due segs tail -> rotations_due (push_segs ev segs) (push_tail ev segs tail).
Proof.
  intros Hf Hb. destruct segs as [|[seg rot] segs]; unfold rotations_due, closed_when_due; cbn [push_segs push_tail]; rewrite ?unfiltered_kept by done.
  - intros [_ Ht]. split; [done|]. by constructor.
  - intros [H Ht]. apply Forall_cons in H as [(evs & e & E & H) Hs]. split; [|done]. constructor; [|done]. cbn [fst] in *. rewrite unfiltered_kept, E by done.
    exists (ev :: evs), e. destruct H as (H1 & H2 & H3). split; [done|]. split; [done|]. split; [done|]. by constructor.
Qed.

Record allocated (a : Allocator) (events : list ObLogEvent) (a' : Allocator) segs tail recs : Prop := {
  al_layout : layout (a_cur_pos a) (a_binlog_file_index a) segs tail recs;
  al_erase : erase <$> all_events segs tail = erase <$> events;
  al_number : numbering a a' (all_events segs tail);
  al_index : a_binlog_file_index a' = a_binlog_file_index a + zlen segs;
  al_pos : a_cur_pos a' = end_position (a_cur_pos a) segs tail;
  al_state : alloc_ok 0 a';
  al_marks : forall more, keeps a (events ++ more) = ((fun ev => negb (is_filter ev)) <$> all_events segs tail) ++ keeps a' more;
  al_due : rotations_due segs tail
}.

(** An event in front of an allocated batch: dropped, placed, or closing the file. *)
Lemma allocated_dropped k ev ev' rotate a a1 a' events segs tail recs :
  one_step k ev a false rotate ev' a1 -> allocated a1 events a' segs tail recs ->
  allocated a (ev :: events) a' (push_segs ev' segs) (push_tail ev' segs tail) recs.
Proof.
  intros [_ (Hpos & Hidx & _ & _) _ _ Hfil Her Hnum _ _ Hmk] []. split; rewrite ?all_events_push.
  - rewrite <-Hpos, <-Hidx. by apply layout_push_dropped.
  - rewrite !fmap_cons. by f_equal.
  - by apply (numbering_dropped (gtid_of ev') ev' _ a a1 a').
  - rewrite al_index0, Hidx. by destruct segs as [|[]].
  - rewrite al_pos0, end_pos_push_dropped by done. by rewrite Hpos.
  - done.
  - intros more. cbn [app]. by rewrite Hmk, al_marks0, fmap_cons, Hfil.
  - by apply due_push_dropped.
Qed.

Lemma allocated_kept k ev ev' rotate a a1 a' events segs tail recs pos :
  one_step k ev a true rotate ev' a1 -> rotate = false -> pos = a_cur_pos a1 + event_len ev' -> is_u32 pos ->
  allocated (with_cur_pos pos a1) events a' segs tail recs ->
  allocated a (ev :: events) a' (push_segs (put pos ev') segs) (push_tail (put pos ev') segs tail) recs.
Proof.
  intros [_ (Hpos & Hidx & _ & _) Hok _ _ Her Hnum _ Hro Hmk] Hnr Ep Hu [].
  destruct (put_ok pos ev' Hok Hu) as (Hok2 & Hn2 & Hl2 & He2 & Hg2).
  cbn [a_cur_pos a_binlog_file_index with_cur_pos] in *. split; rewrite ?all_events_push.
  - rewrite <-Hpos, <-Hidx. apply layout_push_kept; rewrite ?Hn2, ?Hl2; done.
  - rewrite !fmap_cons, He2, Her. by f_equal.
  - by apply (numbering_kept _ _ a a1 (with_cur_pos pos a1) a').
  - rewrite al_index0, Hidx. by destruct segs as [|[]].
  - rewrite al_pos0, end_pos_push_kept, Hl2 by done. rewrite <-Hpos. by f_equal.
  - done.
  - intros more. cbn [app]. rewrite Hmk, fmap_cons. change (keeps a1 ?l) with (keeps (with_cur_pos pos a1) l). by rewrite al_marks0.
  - apply due_push_kept; [done| |done]. intros He. rewrite Hn2. specialize (Hro eq_refl). rewrite Hnr in Hro.
    change (ends_transaction (put pos ev')) with (ends_transaction ev') in He. rewrite He in Hro. cbn [andb] in Hro.
    unfold too_long in Hro. fold (event_len ev') in Hro. rewrite <-Ep, u32_id, Z.gtb_ltb in Hro by done. symmetry in Hro. by apply Z.ltb_ge in Hro.
Qed.

Lemma allocated_rotated k ev ev' a a1 a2 a' rot events segs tail recs pos :
  one_step k ev a true true ev' a1 -> pos = a_cur_pos a1 + event_len ev' -> is_u32 pos ->
  event_ok rot -> rotates_to (a_binlog_file_index a1 + 1) rot -> rotated rot a1 a2 ->
  h_next_position (get_header rot) = pos + event_len rot -> allocated a2 events a' segs tail recs ->
  allocated a (ev :: events) a' (([put pos ev'], rot) :: segs) tail (a_index_record a1 :: recs).
Proof.
  intros [Hs (Hpos & Hidx & _ & _) Hok _ _ Her Hnum _ Hro Hmk] Ep Hu Hrok Hto (Hi2 & Hp2 & _ & Htx & Hfl & Hke) Hrn [].
  destruct (put_ok pos ev' Hok Hu) as (Hok2 & Hn2 & Hl2 & He2 & Hg2).
  assert (all_events (([put pos ev'], rot) :: segs) tail = put pos ev' :: all_events segs tail) as Eall by done.
  split; rewrite ?Eall.
  - cbn [layout]. rewrite unfiltered_kept by done. change (unfiltered []) with (@nil ObLogEvent). cbn [app chained].
    rewrite <-Hpos, <-Hidx, Hn2. fold (event_len (put pos ev')). rewrite Hl2. split; [done|].
    split; [done|]. split; [by destruct Hs|]. split; [done|]. rewrite <-Hp2, <-Hi2. done.
  - rewrite !fmap_cons, He2, Her. by f_equal.
  - by apply (numbering_kept _ _ a a1 a2 a').
  - rewrite al_index0, Hi2, Hidx, zlen_cons. lia.
  - cbn [end_position]. by rewrite al_pos0, Hp2.
  - done.
  - intros more. cbn [app]. by rewrite Hmk, <-Hke, al_marks0, fmap_cons.
  - destruct al_due0 as [Hd Ht]. split; [|done]. constructor; [|done]. exists [], (put pos ev'). cbn [fst]. rewrite unfiltered_kept by done.
    split; [done|]. specialize (Hro eq_refl). symmetry in Hro. apply andb_true_iff in Hro as [He Hl]. split; [done|]. split; [|done]. rewrite Hn2.
    unfold too_long in Hl. fold (event_len ev') in Hl. by rewrite <-Ep, u32_id, Z.gtb_ltb, Z.ltb_lt in Hl by done.
Qed.

(** The batch a run of the loop ends with. *)
Definition batch_after (done_ : list ObLogEvent) (n : Z) (b : SerializeEvent) segs tail recs : SerializeEvent :=
  mkBatch (done_ ++ all_events segs tail) (sb_buffer b) (match segs with [] => sb_is_rotation b | _ => true end)
    (sb_rotate_offsets b) (sb_rotate_events b ++ (snd <$> segs)) (n + zlen segs) (first n (sb_index_records b) ++ recs).

Lemma allocate_loop_ok events : forall done_ a b n,
  alloc_ok (2 * zlen events) a -> Forall incoming events -> index_slots n b -> headroom (2 * zlen events) a events ->
  exists segs tail recs a', allocated a events a' segs tail recs /\
    allocate_loop cfg events done_ a b = Done (a', batch_after done_ n b segs tail recs).
Proof.
  induction events as [|ev events IH]; intros done_ a b n Ha Hev Hb Hroom; cbn [allocate_loop].
  { destruct (batch_update_ok n (a_index_record a) b Hb) as [-> _]. cbn [mbind outcome_bind].
    exists [], [], [a_index_record a], a. split.
    - split; try done.
      + split; [done|by destruct Ha].
      + exists (a_txn_gtid_seq a), 0. cbn. split_and!; done || lia.
      + rewrite zlen_nil. lia.
      + cbn. unfold sum. simpl. lia.
    - unfold with_events, batch_after. cbn. rewrite !app_nil_r, Z.add_0_r. done. }
  apply Forall_cons in Hev as [Hin Hev]. set (k := 2 * zlen events).
  rewrite zlen_cons in *. replace (2 * (1 + zlen events)) with (k + 2) in * by lia.
  pose proof (zlen_nonneg events). pose proof Hin as (Hok & _). pose proof (event_len_nonneg ev Hok) as Hlen.
  destruct (allocate_one_ok (k + 1) ev a ltac:(lia) ltac:(by replace (k + 1 + 1) with (k + 2) by lia) Hin)
    as (kept & rotate & ev' & a1 & -> & Hstep). cbn [mbind outcome_bind].
  pose proof Hstep as [Hs (Hpos & Hidx & Hprev & Hts) Hok' Hhd _ _ _ Hrot].
  assert (event_len ev' = event_len ev) as El by (unfold event_len; by rewrite Hhd).
  assert (headroom (k + 2) a1 (ev' :: events)) as Hroom1.
  { unfold headroom in *. rewrite Hpos, Hprev, fmap_cons, El. exact Hroom. }
  assert (is_u32 (a_cur_pos a1 + event_len ev') /\ a_cur_pos a1 + event_len ev' + 600 < 2 ^ 32) as [Hu Hsmall].
  { pose proof (sum_len_nonneg events Hev). unfold headroom, sum, is_u32 in *. cbn [fmap list_fmap foldr] in Hroom1. lia. }
  destruct kept; [destruct rotate|].
  - destruct (place_rotate k ev' a1 b n Hb ltac:(lia) Hs ltac:(destruct Hroom; lia) ltac:(lia) Hsmall (proj2 (Hrot eq_refl)))
      as (a2 & rot & -> & Hb2 & Ha2 & Hrok & Hto & Hrd & Hrn & Hgs). cbn [mbind outcome_bind].
    destruct (IH (done_ ++ [put (a_cur_pos a1 + event_len ev') ev']) a2 _ (n + 1) Ha2 Hev Hb2) as (segs & tail & recs & a' & Hal & ->).
    { by apply (headroom_rotated k ev' events a1 a2 rot ltac:(lia)). }
    eexists _, _, _, _. split; [by eapply (allocated_rotated (k + 1) ev ev')|].
    unfold batch_after. cbn [sb_buffer sb_is_rotation sb_rotate_offsets sb_rotate_events sb_index_records].
    rewrite (first_ge (n + 1)); [rewrite <-!app_assoc, zlen_cons, Z.add_assoc; by destruct segs|].
    rewrite zlen_app. destruct Hb as (Hn0 & _ & Hz). rewrite zlen_first by lia. unfold zlen. simpl. lia.
  - destruct (place_plain ev' a1 b n Hb) as [-> Hb2]. cbn [mbind outcome_bind]. rewrite u32_id by done.
    edestruct (IH (done_ ++ [put (a_cur_pos a1 + event_len ev') ev']) (with_cur_pos (a_cur_pos a1 + event_len ev') a1))
      as (segs & tail & recs & a' & Hal & ->); [|done|exact Hb2|by apply (headroom_kept k ev' events a1 _ ltac:(lia))|].
    { destruct (alloc_ok_weaken k a1 ltac:(lia) Hs). by split. }
    eexists _, _, _, _. split; [by eapply (allocated_kept (k + 1) ev ev')|].
    unfold batch_after. rewrite all_events_push, snd_push, <-app_assoc.
    cbn [with_index_records sb_buffer sb_is_rotation sb_rotate_offsets sb_rotate_events sb_index_records].
    destruct Hb as (Hn0 & _ & Hz). rewrite first_app by (apply zlen_first; lia). by destruct segs as [|[]].
  - destruct (IH (done_ ++ [ev']) a1 b n) as (segs & tail & recs & a' & Hal & ->); [by apply alloc_ok_weaken; [lia|]|done|done| |].
    { by apply (headroom_dropped k ev events a a1 ltac:(lia)). }
    eexists _, _, _, _. split; [by eapply allocated_dropped|].
    unfold batch_after. rewrite all_events_push, snd_push, <-app_assoc. by destruct segs as [|[]].
Qed.
End Allocation.

(** ** Serialisation *)

Section Serialisation.
Context (cfg : storage_config) (crc32 : bytes -> Z).

Lemma serialize_filtered is_rotation seg rest rots offs index buf :
  unfiltered seg = [] ->
  serialize_loop crc32 is_rotation (seg ++ rest) rots offs index buf = serialize_loop crc32 is_rotation rest rots offs index buf.
Proof.
  induction seg as [|ev seg IH]; [done|]. destruct (is_filter ev) eqn:Ef.
  - rewrite unfiltered_dropped by done. intros H. cbn [app serialize_loop]. rewrite Ef. by apply IH.
  - by rewrite unfiltered_kept.
Qed.

(** An event that is followed by a rotate event. *)
Lemma serialize_closing ev rest rots rot offs index buf :
  is_filter ev = false -> event_ok ev -> event_ok rot -> 0 < b_growth_step buf ->
  rots !! index = Some rot -> offs !! index = Some (h_next_position (get_header ev)) ->
  event_len ev + event_len rot < 2 ^ 32 ->
  exists b1 b2 c, flush_to_buff crc32 ev = Done b1 /\ flush_to_buff crc32 rot = Done b2 /\
    serialize_loop crc32 true (ev :: rest) rots offs index buf
    = serialize_loop crc32 true rest rots (<[index := zlen (b_data buf ++ b1 ++ b2)]> offs) (S index)
        (mkBuffer (b_data buf ++ b1 ++ b2) c (b_growth_step buf)).
Proof.
  intros Hf Hok Hrok Hs Hr Ho Hlen. destruct (flush_length crc32 ev Hok) as (b1 & E1 & L1).
  destruct (flush_length crc32 rot Hrok) as (b2 & E2 & L2). fold (event_len ev) in L1. fold (event_len rot) in L2.
  pose proof (event_len_nonneg ev Hok). pose proof (event_len_nonneg rot Hrok).
  destruct (ensure_capacity_ok (event_len ev + event_len rot) buf Hs) as (c & Ec & Hc).
  exists b1, b2, c. split; [done|]. split; [done|]. cbn [serialize_loop]. rewrite Hf, Hr, Ho, Z.eqb_refl.
  fold (event_len ev) (event_len rot). rewrite u32_id by (unfold is_u32; lia). rewrite Ec. cbn [mbind outcome_bind].
  rewrite E1. cbn [mbind outcome_bind]. rewrite <-L1, emit_ok by (cbn; lia). cbn [mbind outcome_bind b_data b_capacity b_growth_step].
  rewrite E2. cbn [mbind outcome_bind]. rewrite <-L2, emit_ok by (cbn; rewrite zlen_app; lia).
  cbn [mbind outcome_bind b_data b_capacity b_growth_step]. by rewrite <-app_assoc.
Qed.

Lemma chained_split pos a b :
  chained pos (a ++ b) <-> chained pos a /\ chained (pos + sum (event_len <$> a)) b.
Proof.
  revert pos. induction a as [|ev a IH]; intros pos; cbn [app chained].
  - unfold sum. simpl. rewrite Z.add_0_r. tauto.
  - rewrite IH. unfold sum. cbn [fmap list_fmap foldr]. fold (event_len ev). rewrite Z.add_assoc.
    split; [intros (? & E & ? & ?)|intros ((? & E & ?) & ?)]; rewrite E in *; done.
Qed.

Lemma chained_ok pos evs : chained pos evs -> Forall event_ok evs.
Proof. revert pos. induction evs as [|ev evs IH]; intros pos; [done|]. intros (? & ? & ?). constructor; [done|by eapply IH]. Qed.

Lemma event_len_pos ev : event_ok ev -> COMMON_HEADER_LENGTH <= event_len ev.
Proof.
  intros Hok. destruct (flush_to_buff_header crc32 ev Hok) as (rest & _ & E). unfold event_len.
  pose proof (zlen_nonneg rest). lia.
Qed.

Lemma sum_len_pos evs : Forall event_ok evs -> 19 * zlen evs <= sum (event_len <$> evs).
Proof.
  unfold sum. induction 1 as [|ev evs H _ IH]; [done|]. cbn [fmap list_fmap foldr]. rewrite zlen_cons.
  pose proof (event_len_pos ev H). unfold COMMON_HEADER_LENGTH in *. lia.
Qed.

(** The events of one closed file. *)
Lemma serialize_segment seg rest rots rot offs index : forall pos buf,
  unfiltered seg <> [] -> 0 <= pos -> chained pos (unfiltered seg ++ [rot]) -> 0 < b_growth_step buf ->
  rots !! index = Some rot -> offs !! index = Some (pos + sum (event_len <$> unfiltered seg)) ->
  exists body c, flush_all crc32 (unfiltered seg ++ [rot]) = Done body /\
    serialize_loop crc32 true (seg ++ rest) rots offs index buf
    = serialize_loop crc32 true rest rots (<[index := zlen (b_data buf ++ body)]> offs) (S index)
        (mkBuffer (b_data buf ++ body) c (b_growth_step buf)).
Proof.
  induction seg as [|ev seg IH]; intros pos buf Hne Hp Hc Hs Hr Ho; [done|]. destruct (is_filter ev) eqn:Ef.
  { rewrite unfiltered_dropped in * by done. cbn [app serialize_loop]. rewrite Ef. by apply (IH pos). }
  rewrite unfiltered_kept in * by done. cbn [app chained fmap list_fmap] in *. destruct Hc as (Hok & Hn & Hc).
  unfold sum in *. cbn [foldr] in *. fold (event_len ev) in *. fold (sum (event_len <$> unfiltered seg)) in *.
  pose proof (event_len_nonneg ev Hok).
  destruct (unfiltered seg) as [|ev2 evs] eqn:Eu.
  - destruct Hc as (Hrok & Hrn & _). assert (event_len ev + event_len rot < 2 ^ 32).
    { destruct Hrok as ((_ & _ & _ & _ & Hb & _) & _). unfold is_u32 in Hb. fold (event_len rot) in Hrn. lia. }
    destruct (serialize_closing ev (seg ++ rest) rots rot offs index buf Ef Hok Hrok Hs Hr) as (b1 & b2 & c & E1 & E2 & ->); [|done|].
    { rewrite Ho, Hn. f_equal. unfold sum. simpl. lia. }
    exists (b1 ++ b2), c. cbn [app flush_all]. rewrite E1, E2. cbn [mbind outcome_bind]. rewrite app_nil_r. split; [done|].
    by apply serialize_filtered.
  - rewrite <-Eu in *. assert (0 < sum (event_len <$> unfiltered seg)) as Hpos.
    { apply chained_split in Hc as [Hc _]. pose proof (sum_len_pos _ (chained_ok _ _ Hc)) as H19.
      rewrite Eu, zlen_cons in H19 at 1. pose proof (zlen_nonneg evs). lia. }
    destruct (serialize_one crc32 true ev (seg ++ rest) rots offs index buf Ef Hok Hs) as (bs & c & E1 & ->).
    { intros rot' off _ E. rewrite Ho in E. apply Some_inj in E as <-. lia. }
    destruct (IH (h_next_position (get_header ev)) (mkBuffer (b_data buf ++ bs) c (b_growth_step buf))) as (body & c' & Eb & ->).
    { by rewrite Eu. } { lia. } { done. } { done. } { done. } { rewrite Ho, Hn. f_equal. lia. }
    exists (bs ++ body), c'. cbn [flush_all]. rewrite E1, Eb. split; [done|]. cbn [b_data b_growth_step]. by rewrite <-app_assoc.
Qed.

Definition segment_bodies (segs : list (list ObLogEvent * ObLogEvent)) (bodies : list bytes) : Prop :=
  Forall2 (fun s body => flush_all crc32 (unfiltered s.1 ++ [s.2]) = Done body) segs bodies.

Fixpoint ends (pos : Z) (bodies : list bytes) : list Z :=
  match bodies with [] => [] | b :: bodies => (pos + zlen b) :: ends (pos + zlen b) bodies end.

Lemma start_pos_nonneg index rot : rotates_to cfg index rot -> 0 <= start_pos cfg (next_gtids rot).
Proof.
  intros (e & Eb & _ & _ & _ & _ & _ & Hz). unfold next_gtids. rewrite Eb.
  rewrite start_pos_eq by lia. pose proof (gtids_size_nonneg (ro_next_previous_gtids e)).
  unfold clen. destruct (c_binlog_checksum cfg); lia.
Qed.

Lemma layout_event_start pos seg rot :
  0 <= pos -> chained pos (unfiltered seg ++ [rot]) -> event_start rot = pos + sum (event_len <$> unfiltered seg).
Proof.
  intros Hp Hc. apply chained_split in Hc as [Hc (Hrok & Hrn & _)]. fold (event_len rot) in Hrn.
  unfold event_start. fold (event_len rot). pose proof (sum_len_pos _ (chained_ok _ _ Hc)).
  pose proof (zlen_nonneg (unfiltered seg)). pose proof (event_len_nonneg rot Hrok).
  destruct Hrok as ((_ & _ & _ & _ & Hb & _) & _). unfold is_u32 in Hb.
  rewrite Hrn, u32_id by (unfold is_u32; lia). lia.
Qed.

Lemma serialize_layout segs : forall tail recs pos index buf rots0 offs0,
  layout cfg pos index segs tail recs -> 0 <= pos -> length rots0 = length offs0 -> 0 < b_growth_step buf ->
  exists bodies tb c, segment_bodies segs bodies /\ flush_all crc32 (unfiltered tail) = Done tb /\
    serialize_loop crc32 true (all_events segs tail) (rots0 ++ (snd <$> segs)) (offs0 ++ (event_start <$> (snd <$> segs)))
      (length rots0) buf
    = Done (offs0 ++ ends (zlen (b_data buf)) bodies, mkBuffer (b_data buf ++ mjoin bodies ++ tb) c (b_growth_step buf)).
Proof.
  induction segs as [|[seg rot] segs IH]; intros tail recs pos index buf rots0 offs0 Hl Hp Hlen Hs.
  { destruct recs as [|r []]; try done. destruct Hl as [Hc _].
    destruct (serialize_loop_plain crc32 true (rots0 ++ []) (offs0 ++ []) (length rots0) tail buf) as (tb & c & Et & E).
    { apply lookup_ge_None. by rewrite app_nil_r. } { by eapply chained_ok. } { done. }
    exists [], tb, c. split; [constructor|]. split; [done|]. exact E. }
  destruct recs as [|r recs]; [done|]. destruct Hl as (Hne & Hc & _ & Hto & Hl).
  cbn [fmap list_fmap snd]. rewrite (layout_event_start pos seg rot Hp Hc).
  change (all_events ((seg, rot) :: segs) tail) with ((seg ++ mjoin (fst <$> segs)) ++ tail). rewrite <-app_assoc.
  destruct (serialize_segment seg (mjoin (fst <$> segs) ++ tail) (rots0 ++ rot :: (snd <$> segs)) rot
    (offs0 ++ (pos + sum (event_len <$> unfiltered seg)) :: (event_start <$> (snd <$> segs))) (length rots0) pos buf Hne Hp Hc Hs)
    as (body & c & Eb & ->).
  { by rewrite lookup_app_r, Nat.sub_diag by lia. } { by rewrite Hlen, lookup_app_r, Nat.sub_diag by lia. }
  destruct (IH tail recs (start_pos cfg (next_gtids rot)) (index + 1) (mkBuffer (b_data buf ++ body) c (b_growth_step buf))
    (rots0 ++ [rot]) (offs0 ++ [zlen (b_data buf ++ body)]) Hl (start_pos_nonneg _ _ Hto)) as (bodies & tb & c' & Hbs & Et & E).
  { rewrite !length_app. simpl. lia. } { done. }
  exists (body :: bodies), tb, c'. split; [by constructor|]. split; [done|].
  rewrite length_app in E. simpl length in E. rewrite Nat.add_1_r in E. rewrite <-!app_assoc in E. cbn [app] in E.
  rewrite Hlen, insert_app_r_alt, Nat.sub_diag by lia. cbn [insert list_insert]. rewrite <-Hlen.
  unfold all_events in E. rewrite E. cbn [b_data b_growth_step ends]. by rewrite zlen_app, join_cons, <-!app_assoc.
Qed.

(** The whole stage, with or without rotations. *)
Lemma serialize_on_event_ok b segs tail recs pos index :
  layout cfg pos index segs tail recs -> 0 <= pos -> 0 < b_growth_step (sb_buffer b) -> sb_rotate_offsets b = [] ->
  sb_events b = all_events segs tail -> sb_rotate_events b = snd <$> segs ->
  sb_is_rotation b = match segs with [] => false | _ => true end ->
  exists bodies tb c, segment_bodies segs bodies /\ flush_all crc32 (unfiltered tail) = Done tb /\
    serialize_on_event crc32 b =
      Done (mkBatch [] (mkBuffer (mjoin bodies ++ tb) c (b_growth_step (sb_buffer b))) (sb_is_rotation b) (ends 0 bodies)
              (snd <$> segs) (sb_index_pos b) (sb_index_records b)).
Proof.
  intros Hl Hp Hs Ho He Hr Hrot. unfold serialize_on_event. rewrite Ho, He, Hr, Hrot.
  set (buf := mkBuffer [] _ _). destruct segs as [|s segs].
  - destruct recs as [|r []]; try done. destruct Hl as [Hc _].
    destruct (serialize_loop_plain crc32 false [] [] 0 tail buf eq_refl (chained_ok _ _ Hc) Hs) as (tb & c & Et & E).
    exists [], tb, c. split; [constructor|]. split; [done|]. cbn [fmap list_fmap app] in *.
    change (all_events [] tail) with tail. rewrite E. done.
  - destruct (serialize_layout (s :: segs) tail recs pos index buf [] [] Hl Hp eq_refl Hs) as (bodies & tb & c & Hbs & Et & E).
    exists bodies, tb, c. split; [done|]. split; [done|]. cbn [app length] in *. rewrite E. done.
Qed.
End Serialisation.

(** ** Persistence *)

Lemma gtid_set_str_total ms : Forall has_uuid ms -> exists s, gtid_set_str ms = Done s.
Proof.
  intros H. unfold gtid_set_str. assert (exists l, format_messages ms = Done l) as [l ->]; [|by eexists].
  induction H as [|m ms Hm _ [l IH]]; [by eexists|]. cbn [format_messages]. rewrite IH. unfold format_string, has_uuid in *.
  destruct (gtid_uuid m); [|done]. by eexists.
Qed.

Lemma update_gtid_executed_total cfg u g m :
  master_server_uuid cfg = uuid_hex_bin_to_str_with_delim u -> is_uuid u -> Forall has_uuid (gtid_executed_set m) ->
  exists m', update_gtid_executed cfg g m = Done m' /\ Forall has_uuid (gtid_executed_set m').
Proof.
  intros Hu Hi Hm. unfold update_gtid_executed. rewrite Hu.
  destruct (merge_gtid_before_total u (1, g) (gtid_executed_set m) Hi Hm) as (ms & -> & Hms).
  cbn [mbind outcome_bind]. destruct (gtid_set_str_total ms Hms) as [s ->]. by eexists.
Qed.

(** Closing a file: the in-use flag of its format description is cleared in place. *)
Definition in_use (ev : ObLogEvent) : Prop :=
  (exists e, get_body ev = FormatDescriptionEvent e) /\ Z.land (h_flags (get_header ev)) LOG_EVENT_BINLOG_IN_USE_F <> 0.
Definition cleared (ev : ObLogEvent) : ObLogEvent := set_header (set_flags 0 (get_header ev)) ev.
Definition close (evs : list ObLogEvent) : list ObLogEvent :=
  match evs with [] => [] | fde :: evs => cleared fde :: evs end.

Lemma overwrite_skip {A} off (new a b : list A) :
  0 <= off -> overwrite (zlen a + off) new (a ++ b) = a ++ overwrite off new b.
Proof.
  intros H. unfold overwrite, first, skip, zlen. rewrite take_app_ge, drop_app_ge, <-app_assoc by lia.
  do 2 f_equal; [f_equal; lia|]. do 2 f_equal. lia.
Qed.

Section Files.
Context (cfg : storage_config) (crc32 : bytes -> Z).

Lemma flush_cleared ev b rest :
  event_ok ev -> in_use ev -> flush_to_buff crc32 ev = Done b ->
  exists b', flush_to_buff crc32 (cleared ev) = Done b' /\
    overwrite FLAGS_OFFSET (int2store 0) (b ++ rest) = b' ++ rest.
Proof.
  intros Hok [[e Eb] Hu] E. unfold flush_to_buff in *. cbn [cleared get_body set_header get_header get_checksum_flag].
  rewrite Eb in *. apply Done_inj in E as <-. eexists. split; [done|].
  assert (is_u16 (h_flags (get_header ev))) as Hf by (apply Hok).
  rewrite !format_description_flush_eq by (done || apply u16_range). rewrite <-app_assoc, overwrite_flags.
  unfold flags_for_checksum. rewrite (proj2 (Z.eqb_neq _ _) Hu). by rewrite <-!app_assoc.
Qed.

Lemma cleared_ok ev : event_ok ev -> event_ok (cleared ev).
Proof.
  intros ((H1 & H2 & H3 & H4 & H5 & _) & H6). exact (conj (conj H1 (conj H2 (conj H3 (conj H4 (conj H5 (u16_range 0)))))) H6).
Qed.

Definition holds (d : Disk) (name : bytes) (evs : list ObLogEvent) : Prop :=
  exists body, flush_all crc32 evs = Done body /\ st_files d !! name = Some (binlog_file body).

(** A file of well-formed events that is still in use. *)
Definition open_file (evs : list ObLogEvent) : Prop :=
  chained BINLOG_MAGIC_SIZE evs /\ match evs with fde :: _ => in_use fde | [] => False end.

Definition file_len (evs : list ObLogEvent) : Z := BINLOG_MAGIC_SIZE + sum (event_len <$> evs).

Lemma zlen_flush_all evs body : Forall event_ok evs -> flush_all crc32 evs = Done body -> zlen body = sum (event_len <$> evs).
Proof.
  intros H. revert body. unfold sum. induction H as [|ev evs Hok _ IH]; intros body E.
  { apply Done_inj in E as <-. done. }
  cbn [flush_all] in E. destruct (flush_length crc32 ev Hok) as (b & Eb & Lb). rewrite Eb in E. cbn [mbind outcome_bind] in E.
  destruct (flush_all crc32 evs) as [bs|]; [|done]. cbn [mbind outcome_bind] in E. apply Done_inj in E as <-.
  cbn [fmap list_fmap foldr]. rewrite zlen_app, Lb, (IH bs eq_refl). done.
Qed.

Lemma flush_all_concat a b ba bb :
  flush_all crc32 a = Done ba -> flush_all crc32 b = Done bb -> flush_all crc32 (a ++ b) = Done (ba ++ bb).
Proof.
  intros Ha Hb. revert ba Ha. induction a as [|ev a IH]; intros ba Ha; [by apply Done_inj in Ha as <-|].
  cbn [flush_all app] in *. destruct (flush_to_buff crc32 ev) as [x|]; [|done]. cbn [mbind outcome_bind] in *.
  destruct (flush_all crc32 a) as [y|]; [|done]. cbn [mbind outcome_bind] in *. apply Done_inj in Ha as <-.
  rewrite (IH y eq_refl). cbn [mbind outcome_bind]. by rewrite <-app_assoc.
Qed.

Lemma holds_close d name evs :
  open_file evs -> holds d name evs ->
  exists d', clear_in_use name d = Done d' /\ holds d' name (close evs) /\
    d' = mkStore (st_files d') (st_index d) (st_file_name d) (st_offset d) (st_valid_events_coming d) (st_gtid d) /\
    (forall n, n <> name -> st_files d' !! n = st_files d !! n).
Proof.
  intros [Hc Hu] (body & Eb & Ef). destruct evs as [|fde evs]; [done|]. destruct Hc as (Hok & _).
  cbn [flush_all] in Eb. destruct (flush_to_buff crc32 fde) as [b|] eqn:E1; [|done]. cbn [mbind outcome_bind] in Eb.
  destruct (flush_all crc32 evs) as [bs|] eqn:E2; [|done]. cbn [mbind outcome_bind] in Eb. apply Done_inj in Eb as <-.
  destruct (flush_cleared fde b bs Hok Hu E1) as (b' & E1' & Eo).
  unfold clear_in_use. rewrite Ef. cbn [of_option mbind outcome_bind]. eexists. split; [done|]. split; [|split; [done|]].
  - exists (b' ++ bs). cbn [close flush_all]. rewrite E1', E2. split; [done|]. cbn [st_files]. rewrite lookup_insert_eq. f_equal.
    unfold binlog_file. change BINLOG_MAGIC_SIZE with (zlen binlog_magic). rewrite overwrite_skip by done. by rewrite Eo.
  - intros n Hn. cbn. by rewrite lookup_insert_ne.
Qed.

Lemma chained_close pos evs : chained pos evs -> chained pos (close evs).
Proof. destruct evs as [|ev evs]; [done|]. intros (Hok & Hn & Hc). split; [by apply cleared_ok|done]. Qed.

Lemma chained_end_u32 pos evs : chained pos evs -> evs <> [] -> is_u32 (pos + sum (event_len <$> evs)).
Proof.
  intros Hc Hne. destruct (exists_last Hne) as (l & ev & ->). apply chained_split in Hc as [_ (Hok & Hn & _)].
  destruct Hok as ((_ & _ & _ & _ & Hu & _) & _). rewrite Hn in Hu. unfold sum in *.
  replace (pos + foldr Z.add 0 (event_len <$> l ++ [ev])) with
    (pos + foldr Z.add 0 (event_len <$> l) + h_event_length (get_header ev)); [done|].
  rewrite fmap_app, foldr_app. cbn. fold (event_len ev). generalize (event_len ev), (event_len <$> l). intros x xs.
  induction xs as [|y xs IH]; simpl; lia.
Qed.

Lemma file_len_app a b : file_len (a ++ b) = file_len a + sum (event_len <$> b).
Proof.
  unfold file_len, sum. rewrite fmap_app, foldr_app. generalize (event_len <$> a), (event_len <$> b). intros xs ys.
  induction xs as [|y xs IH]; simpl; lia.
Qed.

Lemma open_file_app evs new : open_file evs -> chained (file_len evs) new -> open_file (evs ++ new).
Proof.
  intros [Hc Hu] Hn. split; [by apply chained_split|]. by destruct evs.
Qed.

Definition path (index : Z) : bytes := binlog_path (binlog_name cfg index).

(** The disk between two batches: the current file holds [evs], later files do not exist,
    the index has the rows [rs]. *)
Record disk_inv (index : Z) (d : Disk) (rs : list BinlogIndexRecord) (evs : list ObLogEvent) : Prop := {
  di_bound : 0 <= index <= LLONG_MAX;
  di_name : st_file_name d = path index;
  di_open : open_file evs;
  di_holds : holds d (path index) evs;
  di_fresh : forall j, index < j <= LLONG_MAX -> st_files d !! path j = None;
  di_index : represents (st_index d) rs;
  di_gtid : Forall has_uuid (gtid_executed_set (st_gtid d))
}.

(** The row of the index for a file that holds [evs]. *)
Definition row_for (index : Z) (evs : list ObLogEvent) (r : BinlogIndexRecord) : Prop :=
  record_for cfg index r /\ get_position r = file_len evs.

Lemma path_inj i j : 0 <= i <= LLONG_MAX -> 0 <= j <= LLONG_MAX -> path i = path j -> i = j.
Proof. unfold LLONG_MAX. intros Hi Hj. apply binlog_path_inj; unfold is_u64; lia. Qed.

Definition unchanged (index n : Z) (d d' : Disk) : Prop :=
  forall name, (forall j, index <= j <= index + n -> name <> path j) -> st_files d' !! name = st_files d !! name.

Lemma record_for_position index p r : record_for cfg index r -> is_i63 p -> record_for cfg index (set_position p r).
Proof. intros ((H1 & H2 & H3 & H4 & H5 & _) & H6) Hp. exact (conj (conj H1 (conj H2 (conj H3 (conj H4 (conj H5 Hp))))) H6). Qed.

Lemma Forall_removelast {A} (P : A -> Prop) l : Forall P l -> Forall P (removelast l).
Proof. induction 1 as [|x l Hx Hl IH]; [done|]. cbn. destruct l; [done|]. by constructor. Qed.

Section Steps.
Context (u : bytes) (cfg_ok : config_ok cfg u).

Lemma persistent_binlog_ok index d rs evs new body r :
  disk_inv index d rs evs -> record_for cfg index r -> chained (file_len evs) new -> flush_all crc32 new = Done body ->
  exists d' r', persistent_binlog cfg body r d = Done (r', d') /\ row_for index (evs ++ new) r' /\
    disk_inv index d' (removelast rs ++ [r']) (evs ++ new) /\ unchanged index 0 d d'.
Proof.
  intros [Hb Hn Hopen (old & Eo & Ef) Hfresh Hidx Hg] Hr Hc Eb.
  pose proof cfg_ok as (_ & _ & _ & _ & Hu & Huu & _). pose proof (open_file_app evs new Hopen Hc) as Hopen'.
  assert (file_size (st_file_name d) (append_file (st_file_name d) body d) = file_len (evs ++ new)) as Hsize.
  { unfold file_size, append_file. cbn [st_files]. rewrite lookup_insert_eq, Hn, Ef. cbn [default from_option id].
    rewrite zlen_app. unfold binlog_file. rewrite zlen_app. change (zlen binlog_magic) with BINLOG_MAGIC_SIZE.
    rewrite (zlen_flush_all evs old) by (done || eapply chained_ok, Hopen).
    rewrite (zlen_flush_all new body) by (done || by eapply chained_ok). rewrite file_len_app. unfold file_len. lia. }
  assert (is_i63 (file_len (evs ++ new))) as Hlen.
  { destruct Hopen' as [Hc' _]. apply chained_end_u32 in Hc'; [|by destruct Hopen as [_ Ho]; destruct evs].
    unfold file_len, is_i63, is_u32, LLONG_MAX in *. lia. }
  unfold persistent_binlog, update_index_record. cbn [st_file_name append_file].
  fold (append_file (st_file_name d) body d). rewrite Hsize. cbn [st_index append_file].
  rewrite (update_index_spec (st_index d) rs) by done. cbn [mbind outcome_bind].
  set (r' := set_position (file_len (evs ++ new)) r). cbn [st_valid_events_coming st_gtid append_file].
  pose proof (record_for_position index _ r Hr Hlen) as Hr'. fold r' in Hr'.
  set (g1 := compress_and_save_gtid_seq _ _ _ _).
  assert (Forall has_uuid (gtid_executed_set g1)) as Hg1 by (unfold g1; by rewrite compress_executed).
  assert (exists g2, (if st_valid_events_coming d then update_gtid_executed (c_gtid cfg) (get_current_mapping r').2 g1
    else Done g1) = Done g2 /\ Forall has_uuid (gtid_executed_set g2)) as (g2 & -> & Hg2).
  { destruct (st_valid_events_coming d); [|by eexists]. by apply (update_gtid_executed_total _ u). }
  cbn [mbind outcome_bind]. eexists _, r'. split; [done|]. split; [by split|]. split.
  - split; try done; cbn [st_files append_file st_index st_gtid].
    + exists (old ++ body). split; [by apply flush_all_concat|]. cbn [st_files append_file].
      rewrite Hn, lookup_insert_eq, Ef. cbn [default from_option id]. unfold binlog_file. by rewrite <-app_assoc.
    + intros j Hj. rewrite Hn, lookup_insert_ne; [by apply Hfresh|]. intros E. apply path_inj in E; [lia|done|lia].
    + destruct Hidx as [_ Hall]. split; [done|]. apply Forall_app. split; [by apply Forall_removelast|].
      constructor; [by destruct Hr'|done].
  - intros name Hname. cbn [st_files append_file]. rewrite Hn, lookup_insert_ne; [done|].
    intros E. apply (Hname index); [lia|done].
Qed.

Definition head_of (rot : ObLogEvent) : list ObLogEvent :=
  match head_events cfg (h_timestamp (get_header rot)) (next_gtids rot) with Done (fde, prev) => [fde; prev] | Crash => [] end.

(** The previous GTIDs fit in the buffer the head of the next file is built in. *)
Definition head_fits (rot : ObLogEvent) : Prop := 155 + gtids_size (next_gtids rot) <= 1024.

(** The head of a file is an open file of the length allocation starts from. *)
Lemma head_file ts gtids :
  is_u32 ts -> Forall message_sane gtids -> NoDup (uuid_key <$> gtids) -> 155 + gtids_size gtids <= 1024 ->
  exists fde prev body, head_events cfg ts gtids = Done (fde, prev) /\ flush_all crc32 [fde; prev] = Done body /\
    binlog_head cfg crc32 ts gtids = Done (binlog_file body) /\ open_file [fde; prev] /\
    file_len [fde; prev] = start_pos cfg gtids.
Proof.
  intros Hts Hs Hd Hfit. pose proof cfg_ok as (Hck & Hsid & _).
  assert (Forall gtid_message_ok gtids) as Hg by (eapply Forall_impl; [exact Hs|]; by intros m []).
  assert (clen cfg = 4) as Hcl by (unfold clen; by rewrite Hck).
  destruct (binlog_head_eq cfg crc32 gtids ts Hsid Hts Hg Hd ltac:(lia))
    as (fde & prev & body & Eh & Hc & Hf & Hl & _ & Ehead).
  exists fde, prev, body. rewrite Ehead, (proj2 (Z.leb_le _ _)) by lia.
  split; [done|]. split; [done|]. split; [done|]. split.
  - split; [done|]. unfold head_events in Eh. destruct (new_previous_gtids _ _ _ _ _); [|done].
    cbn [mbind outcome_bind] in Eh. apply Done_inj in Eh. injection Eh as <- _. split; [by eexists|done].
  - rewrite start_pos_eq by lia. unfold binlog_file in Hl. rewrite zlen_app in Hl.
    rewrite (zlen_flush_all [fde; prev] body (chained_ok _ _ Hc) Hf) in Hl. unfold file_len.
    change (zlen binlog_magic) with 4 in Hl. change BINLOG_MAGIC_SIZE with 4. lia.
Qed.

Lemma head_of_ok index rot :
  event_ok rot -> rotates_to cfg index rot -> head_fits rot ->
  exists body, binlog_head cfg crc32 (h_timestamp (get_header rot)) (next_gtids rot) = Done (binlog_file body) /\
    flush_all crc32 (head_of rot) = Done body /\ open_file (head_of rot) /\
    file_len (head_of rot) = start_pos cfg (next_gtids rot).
Proof.
  intros ((Hts & _) & _) (e & Eb & _ & _ & _ & Hs & Hd & _) Hfit. unfold head_fits, head_of, next_gtids in *. rewrite Eb in *.
  destruct (head_file _ _ Hts Hs Hd Hfit) as (fde & prev & body & Eh & Ef & Ehead & Ho & Hl).
  exists body. by rewrite Eh.
Qed.

Lemma init_next_binlog_file_ok index d rs evs rot r :
  disk_inv index d rs evs -> record_for cfg index r -> event_ok rot -> rotates_to cfg (index + 1) rot -> head_fits rot ->
  index + 1 <= LLONG_MAX ->
  exists d' r', init_next_binlog_file cfg crc32 rot r d = Done (r', d') /\ row_for (index + 1) (head_of rot) r' /\
    disk_inv (index + 1) d' (rs ++ [r']) (head_of rot) /\ holds d' (path index) (close evs) /\ unchanged index 1 d d'.
Proof.
  intros Hinv Hr Hok Hto Hfit Hb'. pose proof Hinv as [Hb Hn Hopen Hholds Hfresh [Hif Hall] Hg].
  destruct (head_of_ok (index + 1) rot Hok Hto Hfit) as (body & Ehead & Ef & Hopen' & _).
  destruct Hto as (e & Eb & Ei & _ & En & _). unfold next_gtids in Ehead. rewrite Eb in Ehead.
  destruct (holds_close d (path index) evs Hopen Hholds) as (d1 & Ec & Hcl & Ed1 & Hsame).
  unfold init_next_binlog_file. rewrite Eb, Ei. rewrite u64_id by (unfold is_u64, LLONG_MAX in *; lia).
  replace (index + 1 - 1) with index by lia. fold (path index). rewrite Ec. cbn [mbind outcome_bind]. rewrite Ehead.
  cbn [mbind outcome_bind]. rewrite En. fold (path (index + 1)).
  assert (path (index + 1) <> path index) as Hne by (intros E; apply path_inj in E; unfold LLONG_MAX in *; lia).
  assert (st_files d1 !! path (index + 1) = None) as Hnone by (rewrite Hsame by done; apply Hfresh; lia).
  assert (file_size (path (index + 1)) (append_file (path (index + 1)) (binlog_file body) d1) = file_len (head_of rot)) as Hsize.
  { unfold file_size, append_file. cbn [st_files]. rewrite lookup_insert_eq, Hnone. cbn [default from_option id app].
    unfold binlog_file. rewrite zlen_app, (zlen_flush_all (head_of rot) body) by (done || eapply chained_ok, Hopen'). done. }
  assert (is_i63 (file_len (head_of rot))) as Hlen.
  { destruct Hopen' as [Hc' Hu]. apply chained_end_u32 in Hc'; [|by destruct (head_of rot)].
    unfold file_len, is_i63, is_u32, LLONG_MAX in *. lia. }
  unfold add_next_binlog_index. rewrite En, Ei. fold (path (index + 1)). rewrite Hsize.
  set (r' := set_position _ _).
  assert (row_for (index + 1) (head_of rot) r') as Hrow.
  { split; [|done]. split; [|done]. destruct Hr as ((H1 & H2 & H3 & H4 & H5 & _) & _). unfold is_i63 in *.
    split; [by apply (binlog_path_text cfg u); [|lia]|]. split; [unfold is_i63; cbn [get_index r' set_position set_file_name set_index]; lia|done]. }
  cbn [add_index disk_ok d_open d_append written w_short w_reported write_ok]. eexists _, r'. split; [done|]. split; [done|]. split; [|split].
  - split; try done; cbn [st_files st_index append_file st_gtid]; [lia| | | |].
    + exists body. split; [done|]. cbn [st_files append_file]. by rewrite lookup_insert_eq, Hnone.
    + intros j Hj. rewrite lookup_insert_ne by (intros E; apply path_inj in E; lia).
      rewrite Hsame by (intros E; apply path_inj in E; lia). apply Hfresh. lia.
    + rewrite Ed1. cbn [st_index set_index_file]. split; [cbn; rewrite Hif; by rewrite index_text_snoc|].
      apply Forall_app. split; [done|]. constructor; [by destruct Hrow as [[]]|done].
    + rewrite Ed1. done.
  - destruct Hcl as (b0 & E0 & F0). exists b0. split; [done|]. cbn [st_files append_file]. by rewrite lookup_insert_ne.
  - intros name Hname. cbn [st_files append_file]. rewrite lookup_insert_ne by (intros E; by apply (Hname (index + 1)); [lia|]).
    apply Hsame. apply Hname. lia.
Qed.

(** The files a batch closes, and what the file left open held before its own events. *)
Fixpoint closed_files (evs : list ObLogEvent) (segs : list (list ObLogEvent * ObLogEvent)) : list (list ObLogEvent) :=
  match segs with
  | [] => []
  | (seg, rot) :: segs => close (evs ++ unfiltered seg ++ [rot]) :: closed_files (head_of rot) segs
  end.
Fixpoint open_events (evs : list ObLogEvent) (segs : list (list ObLogEvent * ObLogEvent)) : list ObLogEvent :=
  match segs with [] => evs | (_, rot) :: segs => open_events (head_of rot) segs end.

(** Consecutive files with their rows in the index. *)
Fixpoint files_at (d : Disk) (index : Z) (files : list (list ObLogEvent)) (rows : list BinlogIndexRecord) : Prop :=
  match files, rows with
  | [], [] => True
  | evs :: files, r :: rows =>
      chained BINLOG_MAGIC_SIZE evs /\ holds d (path index) evs /\ row_for index evs r /\ files_at d (index + 1) files rows
  | _, _ => False
  end.

Lemma unchanged_trans index n m d d1 d2 :
  0 <= n -> 0 <= m -> unchanged index n d d1 -> unchanged (index + n) m d1 d2 -> unchanged index (n + m) d d2.
Proof.
  intros Hn Hm H1 H2 name Hname. rewrite H2, H1; [done| |]; intros j Hj; apply Hname; lia.
Qed.

Lemma file_len_close evs : file_len (close evs) = file_len evs.
Proof. by destruct evs. Qed.

Lemma zlen_segment pos seg rot body :
  chained pos (unfiltered seg ++ [rot]) -> flush_all crc32 (unfiltered seg ++ [rot]) = Done body -> 0 < zlen body.
Proof.
  intros Hc E. rewrite (zlen_flush_all _ _ (chained_ok _ _ Hc) E).
  pose proof (sum_len_pos crc32 _ (chained_ok _ _ Hc)) as H. rewrite zlen_app in H.
  pose proof (zlen_nonneg (unfiltered seg)). change (zlen [rot]) with 1 in H. lia.
Qed.

Record stored (index : Z) d rs evs segs (d' : Disk) (rs' : list BinlogIndexRecord) : Prop := {
  sr_disk : disk_inv (index + zlen segs) d' rs' (open_events evs segs);
  sr_rows : exists closed, removelast rs' = removelast rs ++ closed /\ files_at d' index (closed_files evs segs) closed;
  sr_last : match segs with
            | [] => rs' = rs
            | _ => exists r, rs' = removelast rs' ++ [r] /\ row_for (index + zlen segs) (open_events evs segs) r
            end;
  sr_same : unchanged index (zlen segs) d d'
}.

Lemma store_loop_ok segs : forall tail recs index bodies tb pre d rs evs,
  layout cfg (file_len evs) index segs tail recs -> segment_bodies crc32 segs bodies ->
  disk_inv index d rs evs -> Forall head_fits (snd <$> segs) -> index + zlen segs <= LLONG_MAX ->
  exists d' r rs', stored index d rs evs segs d' rs' /\ record_for cfg (index + zlen segs) r /\
    chained (file_len (open_events evs segs)) (unfiltered tail) /\
    store_loop cfg crc32 (pre ++ mjoin bodies ++ tb) (ends (zlen pre) bodies) (snd <$> segs) recs (zlen pre) d
    = Done (zlen pre + zlen (mjoin bodies), [r], d').
Proof.
  induction segs as [|[seg rot] segs IH]; intros tail recs index bodies tb pre d rs evs Hl Hbs Hd Hfit Hmax.
  { apply Forall2_nil_inv_l in Hbs as ->. destruct recs as [|r []]; try done. destruct Hl as [Hc Hr].
    exists d, r, rs. rewrite zlen_nil, Z.add_0_r. split; [|split; [done|split; [done|cbn; by rewrite Z.add_0_r]]].
    split; [by rewrite zlen_nil, Z.add_0_r|exists []; by rewrite app_nil_r|done|done]. }
  destruct recs as [|r recs]; [done|]. destruct Hl as (Hne & Hc & Hr & Hto & Hl).
  apply Forall2_cons_inv_l in Hbs as (body & bodies' & Eb & Hbs & ->). cbn [fst snd] in Eb.
  cbn [fmap list_fmap snd] in *. apply Forall_cons in Hfit as [Hfit Hfits]. rewrite zlen_cons in *. pose proof (zlen_nonneg segs).
  pose proof (zlen_segment _ _ _ _ Hc Eb) as Hbody.
  destruct (persistent_binlog_ok index d rs evs _ body r Hd Hr Hc Eb) as (d1 & r1 & E1 & [Hr1 Hp1] & Hd1 & Hs1).
  assert (event_ok rot) as Hrok by (apply chained_split in Hc as [_ (? & _)]; done).
  destruct (init_next_binlog_file_ok index d1 _ _ rot r1 Hd1 Hr1 Hrok Hto Hfit ltac:(lia)) as (d2 & r2 & E2 & Hr2 & Hd2 & Hh2 & Hs2).
  destruct (head_of_ok (index + 1) rot Hrok Hto Hfit) as (_ & _ & _ & _ & Hstart).
  rewrite <-Hstart in Hl.
  destruct (IH tail recs (index + 1) bodies' tb (pre ++ body) d2 _ _ Hl Hbs Hd2 Hfits ltac:(lia))
    as (d' & rl & rs' & [Hd' (cl & Erows & Hfiles) Hlast Hsame] & Hrl & Htail & E).
  exists d', rl, rs'. split; [|split; [|split; [done|]]].
  - split.
    + rewrite zlen_cons, Z.add_assoc. done.
    + rewrite removelast_last in Erows. exists (r1 :: cl). split; [by rewrite Erows, <-app_assoc|].
      cbn [closed_files files_at]. split; [|split; [|split; [|done]]].
      * apply chained_close. by destruct Hd1 as [_ _ [] _ _ _ _].
      * destruct Hh2 as (b & Ef & F). exists b. split; [done|]. rewrite Hsame; [done|].
        intros j Hj Ep. apply path_inj in Ep; destruct Hd; lia.
      * split; [done|]. by rewrite file_len_close.
    + rewrite zlen_cons, Z.add_assoc. cbn [open_events]. destruct segs as [|s segs]; [|exact Hlast].
      exists r2. rewrite Hlast, removelast_last. split; [done|]. by rewrite zlen_nil, Z.add_0_r.
    + rewrite zlen_cons. apply (unchanged_trans index 1 _ _ d2); [lia|lia| |done].
      apply (unchanged_trans index 0 1 _ d1); [lia|lia|done|by rewrite Z.add_0_r].
  - by rewrite Z.add_assoc.
  - cbn [store_loop ends]. rewrite join_cons, <-app_assoc. rewrite Z.gtb_ltb, (proj2 (Z.ltb_lt _ _)) by lia.
    rewrite skip_app, first_app by lia. rewrite E1. cbn [mbind outcome_bind]. rewrite E2. cbn [mbind outcome_bind].
    rewrite <-zlen_app, (app_assoc pre body), E. rewrite !zlen_app, Z.add_assoc. done.
Qed.

Lemma files_at_snoc d d' index files rows evs r :
  files_at d index files rows -> 0 <= index -> index + zlen files <= LLONG_MAX ->
  unchanged (index + zlen files) 0 d d' -> chained BINLOG_MAGIC_SIZE evs -> holds d' (path (index + zlen files)) evs ->
  row_for (index + zlen files) evs r -> files_at d' index (files ++ [evs]) (rows ++ [r]).
Proof.
  revert index rows. induction files as [|x files IH]; intros index [|y rows] Hf Hi Hm Hs Hc Hh Hr; try done; cbn [app files_at] in *.
  - rewrite zlen_nil, Z.add_0_r in *. done.
  - destruct Hf as (H1 & (b & E & F) & H3 & H4). rewrite zlen_cons in *. pose proof (zlen_nonneg files).
    rewrite !(Z.add_assoc index 1) in *. split; [done|]. split; [|split; [done|]].
    + exists b. split; [done|]. rewrite Hs; [done|]. intros j Hj Ep. apply path_inj in Ep; lia.
    + apply IH; done || lia.
Qed.

Lemma length_closed_files evs segs : zlen (closed_files evs segs) = zlen segs.
Proof. revert evs. induction segs as [|[seg rot] segs IH]; intros evs; [done|]. cbn [closed_files]. by rewrite !zlen_cons, IH. Qed.

Lemma chained_open_events evs segs : closed_files evs segs = [] -> open_events evs segs = evs.
Proof. by destruct segs as [|[]]. Qed.

(** What a batch leaves in the files. *)
Definition files_after (evs : list ObLogEvent) segs (tail : list ObLogEvent) : list (list ObLogEvent) :=
  closed_files evs segs ++ [open_events evs segs ++ unfiltered tail].

Record persisted (index : Z) d rs evs segs tail (d' : Disk) : Prop := {
  ps_rows : exists rows, files_at d' index (files_after evs segs tail) rows /\
              disk_inv (index + zlen segs) d' (removelast rs ++ rows) (open_events evs segs ++ unfiltered tail);
  ps_same : unchanged index (zlen segs) d d'
}.

(** The last write of a batch, after the closed files. *)
Lemma persist_tail index d rs evs segs tail tb d1 rs1 r :
  stored index d rs evs segs d1 rs1 -> 0 <= index -> index + zlen segs <= LLONG_MAX ->
  record_for cfg (index + zlen segs) r ->
  chained (file_len (open_events evs segs)) (unfiltered tail) -> flush_all crc32 (unfiltered tail) = Done tb ->
  exists r' d', persistent_binlog cfg tb r d1 = Done (r', d') /\ persisted index d rs evs segs tail d'.
Proof.
  intros [Hd (cl & Ec & Hf) _ Hsame] Hi Hm Hr Hc Et.
  destruct (persistent_binlog_ok (index + zlen segs) d1 rs1 _ _ tb r Hd Hr Hc Et) as (d' & r' & E & Hr' & Hd' & Hs').
  exists r', d'. split; [done|]. rewrite Ec in Hd'. split; rewrite <-(length_closed_files evs segs) in *.
  - exists (cl ++ [r']). rewrite app_assoc. split; [|done].
    apply (files_at_snoc d1); try done; by destruct Hd' as [_ _ [] ? _ _ _].
  - pose proof (zlen_nonneg (closed_files evs segs)). rewrite <-(Z.add_0_r (zlen _)).
    by apply (unchanged_trans index _ 0 _ d1); [lia|lia| |].
Qed.

Lemma storage_on_event_ok b d index rs evs segs tail recs bodies tb :
  disk_inv index d rs evs -> layout cfg (file_len evs) index segs tail recs -> index + zlen segs <= LLONG_MAX ->
  Forall head_fits (snd <$> segs) -> segment_bodies crc32 segs bodies -> flush_all crc32 (unfiltered tail) = Done tb ->
  b_data (sb_buffer b) = mjoin bodies ++ tb -> sb_rotate_offsets b = ends 0 bodies -> sb_rotate_events b = snd <$> segs ->
  sb_index_records b = recs -> sb_is_rotation b = match segs with [] => false | _ => true end ->
  exists d', storage_on_event cfg crc32 b d = Done (mkBatch (sb_events b) (sb_buffer b) false [] [] 0 [], d') /\
    persisted index d rs evs segs tail d'.
Proof.
  intros Hd Hl Hm Hfit Hbs Et Eb Eo Er Erec Erot. pose proof Hd as [Hi _ _ _ _ _ _].
  destruct (store_loop_ok segs tail recs index bodies tb [] d rs evs Hl Hbs Hd Hfit Hm) as (d1 & r & rs1 & Hst & Hr & Hc & E).
  destruct (persist_tail index d rs evs segs tail tb d1 rs1 r Hst ltac:(lia) Hm Hr Hc Et) as (r' & d' & Ep & Hp).
  unfold storage_on_event. rewrite Eb, Eo, Er, Erec, Erot. destruct segs as [|s segs].
  { apply Forall2_nil_inv_l in Hbs as ->. destruct recs as [|r0 []]; try done.
    cbn in E. apply Done_inj in E. injection E as -> ->. cbn [mjoin list_join app]. rewrite Ep. by eexists. }
  cbn [app] in E. rewrite zlen_nil in E. rewrite E. cbn [mbind outcome_bind]. rewrite Z.add_0_l, zlen_app.
  pose proof (zlen_nonneg tb). destruct (Z.ltb_spec (zlen (mjoin bodies)) (zlen (mjoin bodies) + zlen tb)) as [_|H0].
  { rewrite skip_app by done. rewrite Ep. by eexists. }
  assert (unfiltered tail = []) as Enil.
  { apply zlen_0_nil. pose proof (sum_len_pos crc32 _ (chained_ok _ _ Hc)). rewrite (zlen_flush_all _ tb (chained_ok _ _ Hc) Et) in H0.
    pose proof (zlen_nonneg (unfiltered tail)). lia. }
  cbn [mbind outcome_bind]. eexists. split; [done|]. destruct Hst as [Hd1 (cl & Ec & Hf) (r1 & E1 & Hr1) Hs1].
  split; [|done]. exists (cl ++ [r1]). unfold files_after. rewrite Enil, app_nil_r. rewrite E1, Ec in Hd1.
  split; [|by rewrite app_assoc]. rewrite <-(length_closed_files evs (s :: segs)) in *.
  apply (files_at_snoc d1); try done; [lia|..]; by destruct Hd1 as [_ _ [] ? _ _ _].
Qed.
End Steps.
End Files.

(** ** The pipeline *)

(** A batch slot of the ring as the storage stage leaves it. *)
Definition idle_batch (b : SerializeEvent) : Prop :=
  sb_is_rotation b = false /\ sb_rotate_offsets b = [] /\ sb_rotate_events b = [] /\ sb_index_pos b = 0 /\
  sb_index_records b = [] /\ 0 < b_growth_step (sb_buffer b).

(** Allocation and disk agree: same file, and the next event goes where it ends. *)
Record pipeline_inv (cfg : storage_config) (crc32 : bytes -> Z) (k : Z) (a : Allocator) (d : Disk)
    (rs : list BinlogIndexRecord) (evs : list ObLogEvent) : Prop := {
  pi_alloc : alloc_ok cfg k a;
  pi_disk : disk_inv cfg crc32 (a_binlog_file_index a) d rs evs;
  pi_pos : a_cur_pos a = file_len evs
}.

Lemma end_pos_file_len cfg (crc32 : bytes -> Z) u segs : forall evs tail recs index,
  config_ok cfg u -> layout cfg (file_len evs) index segs tail recs -> Forall head_fits (snd <$> segs) ->
  end_position cfg (file_len evs) segs tail = file_len (open_events cfg evs segs ++ unfiltered tail).
Proof.
  induction segs as [|[seg rot] segs IH]; intros evs tail recs index Hcfg Hl Hfit; cbn [end_position open_events].
  { by rewrite file_len_app. }
  destruct recs as [|r recs]; [done|]. destruct Hl as (_ & Hc & _ & Hto & Hl).
  cbn [fmap list_fmap snd] in Hfit. apply Forall_cons in Hfit as [Hfit Hfits].
  assert (event_ok rot) as Hrok by (apply chained_split in Hc as [_ (? & _)]; done).
  destruct (head_of_ok cfg crc32 u Hcfg (index + 1) rot Hrok Hto Hfit) as (_ & _ & _ & _ & Hstart).
  rewrite <-Hstart in *. by apply (IH _ _ recs (index + 1)).
Qed.

(** C14: allocation never crashes and never loses or reorders an event: what it
    hands on are the incoming events, changed only in GTID, xid, position and filter mark.
    Exactly the events that the restart point leaves to be stored are marked to be kept:
    all but heartbeats, once the restart point is passed.  The events that are kept follow
    each other without gap from the current position, or from the start of a file after a
    rotation; a file is closed by the first event that ends a transaction beyond the maximal
    size, and only then, with a rotate event that names the next one; the transactions that
    are kept are numbered consecutively, from the next free number unless the restart point
    is still being looked for; and the batch carries one index record per file. *)
Theorem allocation_correct cfg u a b events :
  config_ok cfg u -> alloc_ok cfg (2 * zlen events) a -> headroom (2 * zlen events) a events ->
  Forall incoming events -> idle_batch b ->
  exists segs tail recs a' b',
    global_allocation_of_backfill_events cfg a (with_events events b) = Done (a', b') /\
    sb_events b' = all_events segs tail /\ sb_rotate_events b' = snd <$> segs /\ sb_index_records b' = recs /\
    layout cfg (a_cur_pos a) (a_binlog_file_index a) segs tail recs /\ rotations_due cfg segs tail /\
    erase <$> sb_events b' = erase <$> events /\
    (fun ev => negb (is_filter ev)) <$> sb_events b' = keeps a events /\
    (exists g0 n, omap gtid_of (unfiltered (sb_events b')) = seqZ g0 n /\ a_txn_gtid_seq a' = g0 + n /\
       a_txn_gtid_seq a <= g0 /\ (a_filter_util_checkpoint_trx a = false -> g0 = a_txn_gtid_seq a)) /\
    a_cur_pos a' = end_position cfg (a_cur_pos a) segs tail /\ a_binlog_file_index a' = a_binlog_file_index a + zlen segs.
Proof.
  intros Hcfg Ha Hroom Hev (_ & _ & Hr & Hp & Hrec & _).
  destruct (allocate_loop_ok cfg u Hcfg events [] a (with_events events b) 0 Ha Hev) as (segs & tail & recs & a' & Hal & E).
  { split; [done|]. cbn. by rewrite Hp, Hrec. } { done. }
  exists segs, tail, recs, a', (batch_after [] 0 (with_events events b) segs tail recs).
  destruct Hal as [H1 H2 (g0 & n & H3 & H4 & _ & H5 & H6) H7 H8 _ H9 H10]. split; [exact E|].
  unfold batch_after. cbn. rewrite Hr, Hrec. split_and!; try done; [|by exists g0, n].
  specialize (H9 []). by rewrite keeps_nil, !app_nil_r in H9.
Qed.

(** The bytes of a batch in the order they are written. *)
Definition in_order (segs : list (list ObLogEvent * ObLogEvent)) (tail : list ObLogEvent) : list ObLogEvent :=
  mjoin ((fun s => unfiltered s.1 ++ [s.2]) <$> segs) ++ unfiltered tail.
Fixpoint boundaries (pos : Z) (segs : list (list ObLogEvent * ObLogEvent)) : list Z :=
  match segs with
  | [] => []
  | (seg, rot) :: segs => let p := pos + sum (event_len <$> (unfiltered seg ++ [rot])) in p :: boundaries p segs
  end.

Lemma segment_bodies_in_order cfg crc32 segs : forall tail recs pos index bodies tb,
  layout cfg pos index segs tail recs -> segment_bodies crc32 segs bodies -> flush_all crc32 (unfiltered tail) = Done tb ->
  flush_all crc32 (in_order segs tail) = Done (mjoin bodies ++ tb) /\ forall p, ends p bodies = boundaries p segs.
Proof.
  induction segs as [|[seg rot] segs IH]; intros tail recs pos index bodies tb Hl Hbs Et.
  { by apply Forall2_nil_inv_l in Hbs as ->. }
  destruct recs as [|r recs]; [done|]. destruct Hl as (_ & Hc & _ & _ & Hl).
  apply Forall2_cons_inv_l in Hbs as (body & bodies' & Eb & Hbs & ->). cbn [fst snd] in Eb.
  destruct (IH tail recs _ _ bodies' tb Hl Hbs Et) as [E1 E2]. split.
  - unfold in_order in *. rewrite fmap_cons, !join_cons, <-!app_assoc. cbn [fst snd].
    rewrite (app_assoc (unfiltered seg)). by apply flush_all_concat.
  - intros p. cbn [ends boundaries]. rewrite (zlen_flush_all crc32 _ body (chained_ok _ _ Hc) Eb). by rewrite E2.
Qed.

(** the serialisation stage never writes past its buffer, whatever its
    initial size, and leaves in it exactly the bytes of the events that are not filtered,
    in order, each rotate event right after the event it follows in its file; the
    offsets become the places in the buffer where one file ends and the next begins. *)
Theorem serialisation_correct cfg crc32 b segs tail recs pos index :
  layout cfg pos index segs tail recs -> 0 <= pos -> 0 < b_growth_step (sb_buffer b) -> sb_rotate_offsets b = [] ->
  sb_events b = all_events segs tail -> sb_rotate_events b = snd <$> segs ->
  sb_is_rotation b = match segs with [] => false | _ => true end ->
  exists b' data, serialize_on_event crc32 b = Done b' /\ flush_all crc32 (in_order segs tail) = Done data /\
    b_data (sb_buffer b') = data /\ sb_rotate_offsets b' = boundaries 0 segs /\
    sb_rotate_events b' = sb_rotate_events b /\ sb_index_records b' = sb_index_records b.
Proof.
  intros Hl Hp Hg Ho He Hr Hrot.
  destruct (serialize_on_event_ok cfg crc32 b segs tail recs pos index Hl Hp Hg Ho He Hr Hrot) as (bodies & tb & c & Hbs & Et & E).
  destruct (segment_bodies_in_order cfg crc32 segs tail recs pos index bodies tb Hl Hbs Et) as [E1 E2].
  eexists _, _. split; [exact E|]. split; [exact E1|]. cbn. by rewrite E2, Hr.
Qed.


(** ** Concrete instances *)

(** Four transactions; the third one makes the file longer than 600 bytes. *)
Definition sample_transaction : list ObLogEvent := set_filter true <$> [sample_gtid 0 0; sample_begin 0; sample_xid 0].
Definition sample_events : list ObLogEvent := mjoin (replicate 4 sample_transaction).

Definition sample_open : list ObLogEvent :=
  match head_events (sample_config true) 100 [] with Done (fde, prev) => [fde; prev] | Crash => [] end.
Definition sample_content : bytes :=
  match flush_all sample_crc sample_open with Done b => binlog_file b | Crash => [] end.
Definition sample_row : BinlogIndexRecord :=
  mkIndexRecord (path (sample_config true) 1) 1 ([], 0) ([], 0) 0 155.
Definition sample_allocator : Allocator :=
  mkAllocator 1 0 155 1 ([], 0) false false false 0 [] 100 false sample_row (new_gtid_manager None).
Definition sample_disk : Disk :=
  mkStore {[ path (sample_config true) 1 := sample_content ]}
    (mkIndexManager (Some (index_text [sample_row])) empty_record) (path (sample_config true) 1) 0 false (new_gtid_manager None).
Definition idle : SerializeEvent := mkBatch [] (mkBuffer [] 64 64) false [] [] 0 [].

Lemma sample_config_ok : config_ok (sample_config true) sample_uuid.
Proof. by_compute. Qed.

Lemma sample_alloc_ok : alloc_ok (sample_config true) 24 sample_allocator.
Proof. split; by_compute. Qed.

Lemma sample_disk_inv : disk_inv (sample_config true) sample_crc 1 sample_disk [sample_row] sample_open.
Proof.
  split; try by_compute.
  - split; [by_compute|]. split; [by eexists|by_compute].
  - exists (bytes_of (flush_all sample_crc sample_open)). split; [vm_compute; reflexivity|]. unfold sample_disk. cbn [st_files]. by rewrite lookup_singleton_eq.
  - intros j Hj. unfold sample_disk. cbn [st_files]. apply lookup_singleton_ne. intros E.
    apply path_inj in E; unfold LLONG_MAX in *; lia.
Qed.

Lemma allocation_correct_witness :
  exists segs tail recs a' b',
    global_allocation_of_backfill_events (sample_config true) sample_allocator (with_events sample_events idle) = Done (a', b') /\
    sb_events b' = all_events segs tail /\ sb_rotate_events b' = snd <$> segs /\ sb_index_records b' = recs /\
    layout (sample_config true) 155 1 segs tail recs /\ rotations_due (sample_config true) segs tail /\
    erase <$> sb_events b' = erase <$> sample_events /\
    (fun ev => negb (is_filter ev)) <$> sb_events b' = replicate (length sample_events) true /\
    (exists g0 n, omap gtid_of (unfiltered (sb_events b')) = seqZ g0 n /\ a_txn_gtid_seq a' = g0 + n /\
       1 <= g0 /\ (false = false -> g0 = 1)) /\
    a_cur_pos a' = end_position (sample_config true) 155 segs tail /\ a_binlog_file_index a' = 1 + zlen segs.
Proof.
  apply (allocation_correct (sample_config true) sample_uuid sample_allocator idle sample_events sample_config_ok).
  - exact sample_alloc_ok.
  - by_compute.
  - by_compute.
  - by_compute.
Defined.


(** The same batch, run: the first file is closed at 652 bytes, the second holds the rest. *)
Example sample_run :
  match run_batch (sample_config true) sample_crc sample_events sample_allocator idle sample_disk with
  | Done (a, _, d) =>
      a_cur_pos a = 345 /\ zlen <$> st_files d !! path (sample_config true) 1 = Some 652 /\
      zlen <$> st_files d !! path (sample_config true) 2 = Some 345
  | Crash => False
  end.
Proof. vm_compute. done. Qed.

(** A batch that closes one file: the rotate event starts at 240 in its file and at 85 in the
    buffer. *)
Definition sample_rotate : ObLogEvent := new_rotate true 1 4 (binlog_name (sample_config true) 2) 100 240 2 ROTATE.
Definition sample_batch : SerializeEvent :=
  mkBatch [set_filter false (sample_begin 209); sample_begin 384; set_filter false (sample_xid 240); sample_gtid 3 220]
    (mkBuffer [] 16 8) true [] [sample_rotate] 1 [sample_row; set_file_name (path (sample_config true) 2) (set_index 2 sample_row)].

Lemma serialisation_correct_witness :
  exists b' data, serialize_on_event sample_crc sample_batch = Done b' /\
    flush_all sample_crc (in_order [([set_filter false (sample_begin 209); sample_begin 384; set_filter false (sample_xid 240)],
      sample_rotate)] [sample_gtid 3 220]) = Done data /\
    b_data (sb_buffer b') = data /\
    sb_rotate_offsets b' = boundaries 0 [([set_filter false (sample_begin 209); sample_begin 384; set_filter false (sample_xid 240)],
      sample_rotate)] /\
    sb_rotate_events b' = [sample_rotate] /\ sb_index_records b' = sb_index_records sample_batch.
Proof.
  apply (serialisation_correct (sample_config true) sample_crc sample_batch
    [([set_filter false (sample_begin 209); sample_begin 384; set_filter false (sample_xid 240)], sample_rotate)]
    [sample_gtid 3 220] (sb_index_records sample_batch) 155 1).
  - split; [by_compute|]. split; [by_compute|]. split; [by_compute|]. split; [|by_compute].
    eexists. split; [reflexivity|]. by_compute.
  - lia.
  - done.
  - done.
  - done.
  - done.
  - done.
Defined.
