(* ===== verification/Expire.v ===== *)
(** * Expire: removing expired binlog files

    [BinlogStorage::purge_expired_binlog] of
    [src/src/binlog/binlog-instance/binlog_storage.cpp] and the function of the same name
    that a purge thread runs after a rotation.  Records are dropped from the oldest end of
    the index while they are too old, then while the newer files together are large
    enough; the record of the current file is passed over. *)

From S2P Require Import Prelude Bytes Str Gtid Events EventWire EventScan BinlogIndex GtidManager Storage Pipeline.

#[local] Open Scope Z_scope.

(** ** The walk over the index records *)

(** [binlog_expire_logs_seconds]: forwards, up to the first record that is young enough.
    The age is an unsigned difference.  Result: the purged records and the others. *)
Fixpoint expire_by_time (cur : BinlogIndexRecord) (now_s expire_seconds : Z) (rs : list BinlogIndexRecord)
    : list BinlogIndexRecord * list BinlogIndexRecord :=
  match rs with
  | [] => ([], [])
  | r :: rs' =>
      if equal_to cur r then
        let '(purged, kept) := expire_by_time cur now_s expire_seconds rs' in (purged, r :: kept)
      else if u64 (now_s - get_checkpoint r) <? expire_seconds then ([], rs)
      else let '(purged, kept) := expire_by_time cur now_s expire_seconds rs' in (r :: purged, kept)
  end.

(** [binlog_expire_logs_size]: backwards ([rrs] is the reversed vector), keeping records
    while the total is below the limit. *)
Fixpoint expire_by_size (cur : BinlogIndexRecord) (expire_size total : Z) (rrs : list BinlogIndexRecord)
    : list BinlogIndexRecord * list BinlogIndexRecord :=
  match rrs with
  | [] => ([], [])
  | r :: rrs =>
      if equal_to cur r then
        let '(purged, kept) := expire_by_size cur expire_size total rrs in (purged, r :: kept)
      else if total <? expire_size then
        let '(purged, kept) := expire_by_size cur expire_size (u64 (total + get_position r)) rrs in (purged, r :: kept)
      else
        let '(purged, kept) := expire_by_size cur expire_size total rrs in (r :: purged, kept)
  end.

Definition purged_gtid (purged : list BinlogIndexRecord) : Z :=
  fold_left (fun g r => if g <? (get_current_mapping r).2 then (get_current_mapping r).2 else g) purged 0.

Section Expire.
Context (cfg : storage_config) (expire_size now_s : Z).

(** The records to purge, in the order they are met, and those that stay, in the order of
    the index. *)
Definition expired (cur : BinlogIndexRecord) (rs : list BinlogIndexRecord)
    : list BinlogIndexRecord * list BinlogIndexRecord :=
  let seconds := binlog_expire_logs_seconds (c_gtid cfg) in
  let '(p1, rs) := if 0 <? seconds then expire_by_time cur now_s seconds rs else ([], rs) in
  let '(p2, rrs) := if 0 <? expire_size then expire_by_size cur expire_size 0 (rev rs) else ([], rev rs) in
  (p1 ++ p2, rev rrs).

Definition with_index (im : BinlogIndexManager) (d : Disk) : Disk :=
  mkStore (st_files d) im (st_file_name d) (st_offset d) (st_valid_events_coming d) (st_gtid d).
Definition with_gtids (g : GtidManager) (d : Disk) : Disk :=
  mkStore (st_files d) (st_index d) (st_file_name d) (st_offset d) (st_valid_events_coming d) g.
Definition remove_files (names : list bytes) (d : Disk) : Disk :=
  mkStore (foldr delete (st_files d) names) (st_index d) (st_file_name d) (st_offset d) (st_valid_events_coming d)
    (st_gtid d).

(** Steps 3 to 5: the GTIDs, the index, the files.  The last log line looks at the first
    and last record left. *)
Definition apply_purge (dk : disk) (purged kept : list BinlogIndexRecord) (d : Disk) : outcome Disk :=
  g ← (if purged_gtid purged =? 0 then Done (st_gtid d)
       else purge_gtid_before_impl (c_gtid cfg) (purged_gtid purged) (st_gtid d));
  let d := with_gtids g d in
  let '(r, im) := match purged with [] => (OMS_OK, st_index d) | _ => rewrite_index_file dk (st_index d) kept end in
  if decide (r = OMS_OK) then
    let d := with_index im d in
    let d := if d_remove dk then remove_files (get_file_name <$> purged) d else d in
    match kept with [] => Crash | _ => Done d end
  else Done (with_index im d).

(** [purge_expired_binlog(index_record)]: the first log line looks at the first and last
    record of the index. *)
Definition purge_expired_binlog (dk : disk) (cur : BinlogIndexRecord) (d : Disk) : outcome Disk :=
  '(_, rs) ← fetch_index_vector (st_index d);
  match rs with
  | [] => Crash
  | _ => let '(purged, kept) := expired cur rs in apply_purge dk purged kept d
  end.

(** What the purge thread runs. *)
Definition purge_task (dk : disk) (d : Disk) : outcome Disk :=
  '(_, cur) ← get_latest_index (st_index d) empty_record;
  purge_expired_binlog dk cur d.

End Expire.

(** ** What is purged *)

Definition others (cur : BinlogIndexRecord) (rs : list BinlogIndexRecord) : list BinlogIndexRecord :=
  filter (fun r => equal_to cur r = false) rs.

Definition old_enough (now_s seconds : Z) (r : BinlogIndexRecord) : bool :=
  negb (u64 (now_s - get_checkpoint r) <? seconds).

(** The rule for the record with number [i] among those that are not current: it and all
    older ones are old enough, or the newer ones already fill the space. *)
Definition should_purge (now_s seconds expire_size : Z) (rs : list BinlogIndexRecord) (i : nat) : Prop :=
  (0 < seconds /\ Forall (fun r => old_enough now_s seconds r = true) (take (S i) rs)) \/
  (0 < expire_size /\ expire_size <= sum (get_position <$> drop (S i) rs)).

Section Walks.
Context (cur : BinlogIndexRecord).

Lemma others_cons r rs :
  others cur (r :: rs) = if equal_to cur r then others cur rs else r :: others cur rs.
Proof. unfold others. rewrite filter_cons. by destruct (equal_to cur r). Qed.

Lemma others_app a b : others cur (a ++ b) = others cur a ++ others cur b.
Proof. apply filter_app. Qed.

(** Both walks split the records: the purged ones are not current, nothing is lost. *)
Lemma expire_by_time_split now_s seconds rs :
  let '(p, k) := expire_by_time cur now_s seconds rs in
  p ++ others cur k = others cur rs /\ k `sublist_of` rs /\
  Forall (fun r => old_enough now_s seconds r = true) p /\
  (forall r rest, others cur k = r :: rest -> old_enough now_s seconds r = false) /\
  filter (fun r => equal_to cur r = true) k = filter (fun r => equal_to cur r = true) rs.
Proof.
  induction rs as [|r rs IH]; [done|]. cbn [expire_by_time].
  destruct (expire_by_time cur now_s seconds rs) as [p k]. destruct IH as (H1 & H2 & H3 & H4 & H5).
  destruct (equal_to cur r) eqn:E.
  { rewrite !others_cons, E. rewrite !filter_cons, !decide_True by done.
    rewrite H5. split_and!; [done|by constructor|done|done|done]. }
  destruct (u64 _ <? _) eqn:Eage.
  - split_and!; [done|done|done| |done].
    intros r' rest. rewrite others_cons, E. intros [= <- _]. unfold old_enough. by rewrite Eage.
  - rewrite others_cons, E, <-app_comm_cons, H1. rewrite !filter_cons, (decide_False (P := equal_to cur r = true)) by congruence.
    split_and!; [done|by constructor| |done|done]. constructor; [|done]. unfold old_enough. by rewrite Eage.
Qed.

Lemma expire_by_size_split limit rrs : forall total,
  0 <= total -> Forall (fun r => 0 <= get_position r) rrs -> total + sum (get_position <$> rrs) < 2 ^ 64 ->
  let '(p, k) := expire_by_size cur limit total rrs in
  others cur k ++ p = others cur rrs /\ k `sublist_of` rrs /\
  (forall i, (i < length (others cur k))%nat -> total + sum (get_position <$> take i (others cur rrs)) < limit) /\
  (p <> [] -> limit <= total + sum (get_position <$> others cur k)) /\
  filter (fun r => equal_to cur r = true) k = filter (fun r => equal_to cur r = true) rrs.
Proof.
  induction rrs as [|r rrs IH]; intros total Ht Hpos Hsum; [cbn; split_and!; try done; intros; lia|].
  apply Forall_cons in Hpos as [Hr Hpos]. cbn [expire_by_size]. rewrite fmap_cons in Hsum. unfold sum in *.
  cbn [foldr] in Hsum.
  assert (forall l : list BinlogIndexRecord, Forall (fun r => 0 <= get_position r) l -> 0 <= foldr Z.add 0 (get_position <$> l)) as Hnn.
  { clear. induction 1; cbn; [done|lia]. }
  pose proof (Hnn _ Hpos). rewrite !(others_cons r rrs). rewrite (filter_cons (fun r => equal_to cur r = true) r rrs).
  destruct (equal_to cur r) eqn:E.
  { specialize (IH total Ht Hpos ltac:(lia)). destruct (expire_by_size cur limit total rrs) as [p k].
    destruct IH as (H1 & H2 & H3 & H4 & H5). rewrite others_cons, E, filter_cons, E, !decide_True, H5 by done.
    split_and!; [done|by constructor|done|done|done]. }
  rewrite (decide_False (P := false = true)) by done.
  destruct (Z.ltb_spec total limit) as [Hlt|Hge].
  - rewrite u64_id by (unfold is_u64; lia). specialize (IH (total + get_position r) ltac:(lia) Hpos ltac:(lia)).
    destruct (expire_by_size cur limit (total + get_position r) rrs) as [p k].
    destruct IH as (H1 & H2 & H3 & H4 & H5). rewrite others_cons, E, filter_cons, E, decide_False by done.
    split_and!; [by rewrite <-H1|by constructor| | |done].
    + intros [|i] Hi; [cbn; lia|]. cbn [length] in Hi. specialize (H3 i ltac:(lia)).
      rewrite firstn_cons, fmap_cons. cbn [foldr]. lia.
    + intros Hp. rewrite fmap_cons. cbn [foldr]. specialize (H4 Hp). lia.
  - specialize (IH total Ht Hpos ltac:(lia)).
    assert (forall rrs, others cur (expire_by_size cur limit total rrs).2 = []) as Hnone.
    { clear -Hge. induction rrs as [|r rrs IH]; [done|]. cbn [expire_by_size].
      rewrite (proj2 (Z.ltb_ge _ _)) by done.
      destruct (expire_by_size cur limit total rrs) as [p k]. destruct (equal_to cur r) eqn:E; [|done].
      cbn [snd] in *. by rewrite others_cons, E. }
    specialize (Hnone rrs). destruct (expire_by_size cur limit total rrs) as [p k]. cbn [snd] in Hnone.
    destruct IH as (H1 & H2 & H3 & H4 & H5). rewrite Hnone in *. cbn [app length] in *. rewrite <-H1.
    split_and!; [done|by constructor|intros; lia| |done]. intros _. cbn. lia.
Qed.

End Walks.

Lemma sum_app a b : sum (a ++ b) = sum a + sum b.
Proof. induction a as [|x a IH]; [done|]. unfold sum in *. cbn. lia. Qed.

Lemma sum_rev l : sum (rev l) = sum l.
Proof. apply sum_perm. symmetry. apply Permutation_rev. Qed.

Lemma rev_sublist {A} (l l' : list A) : l `sublist_of` l' -> rev l `sublist_of` rev l'.
Proof.
  induction 1 as [|x l1 l2 _ IH|x l1 l2 _ IH]; [done|..]; cbn [rev].
  - by apply sublist_app.
  - by apply sublist_inserts_r.
Qed.

Lemma sublist_Forall {A} (P : A -> Prop) l l' : l `sublist_of` l' -> Forall P l' -> Forall P l.
Proof. rewrite !Forall_forall. intros Hs H x Hx. by eapply H, elem_of_sublist. Qed.

Lemma fmap_rev {A B} (f : A -> B) l : f <$> rev l = rev (f <$> l).
Proof. apply map_rev. Qed.

Definition sizes_ok (rs : list BinlogIndexRecord) : Prop :=
  Forall (fun r => 0 <= get_position r) rs /\ sum (get_position <$> rs) < 2 ^ 64.

Lemma sum_positions_nonneg rs : Forall (fun r => 0 <= get_position r) rs -> 0 <= sum (get_position <$> rs).
Proof. induction 1 as [|r rs Hr _ IH]; [done|]. rewrite fmap_cons. unfold sum in *. cbn. lia. Qed.

Lemma sizes_ok_sublist rs rs' : rs' `sublist_of` rs -> sizes_ok rs -> sizes_ok rs'.
Proof.
  intros Hs [Hp Hsum]. assert (Forall (fun r => 0 <= get_position r) rs') as Hp' by (by eapply sublist_Forall).
  split; [done|]. revert Hp Hsum. clear Hp'. induction Hs as [|r l1 l2 Hs IH|r l1 l2 Hs IH]; intros Hp Hsum; [done| |].
  - apply Forall_cons in Hp as [Hr Hp]. rewrite fmap_cons in *. unfold sum in *. cbn in *.
    cut (foldr Z.add 0 (get_position <$> l1) <= foldr Z.add 0 (get_position <$> l2)); [lia|].
    clear -Hs Hp. induction Hs as [|x l1 l2 Hs IH|x l1 l2 Hs IH]; [done|..]; apply Forall_cons in Hp as [Hx Hp];
      specialize (IH Hp); rewrite ?fmap_cons; cbn; lia.
  - apply Forall_cons in Hp as [Hr Hp]. apply IH; [done|]. rewrite fmap_cons in Hsum. unfold sum in *. cbn in Hsum. lia.
Qed.

Lemma sizes_ok_rev rs : sizes_ok rs -> sizes_ok (rev rs).
Proof.
  intros [Hp Hs]. split; [by rewrite Permutation_rev in Hp|].
  rewrite (sum_perm _ (get_position <$> rs)); [done|]. apply fmap_Permutation. symmetry. apply Permutation_rev.
Qed.

Section Decided.
Context (cfg : storage_config) (expire_size now_s : Z) (cur : BinlogIndexRecord).

Abbreviation seconds := (binlog_expire_logs_seconds (c_gtid cfg)).

(** Each walk with its switch. *)
Lemma time_phase rs :
  exists p1 rs1, (if 0 <? seconds then expire_by_time cur now_s seconds rs else ([], rs)) = (p1, rs1) /\
    p1 ++ others cur rs1 = others cur rs /\ rs1 `sublist_of` rs /\
    (p1 <> [] -> 0 < seconds) /\ Forall (fun r => old_enough now_s seconds r = true) p1 /\
    (0 < seconds -> forall r rest, others cur rs1 = r :: rest -> old_enough now_s seconds r = false) /\
    filter (fun r => equal_to cur r = true) rs1 = filter (fun r => equal_to cur r = true) rs.
Proof.
  pose proof (expire_by_time_split cur now_s seconds rs) as Ht. destruct (Z.ltb_spec 0 seconds).
  - destruct (expire_by_time _ _ _ _) as [p k]. exists p, k. by destruct Ht as (? & ? & ? & ? & ?).
  - exists [], rs. split_and!; try done. lia.
Qed.

Lemma size_phase rs1 :
  sizes_ok (rev rs1) ->
  exists p2 krr, (if 0 <? expire_size then expire_by_size cur expire_size 0 (rev rs1) else ([], rev rs1)) = (p2, krr) /\
    others cur krr ++ p2 = others cur (rev rs1) /\ krr `sublist_of` rev rs1 /\
    (0 < expire_size -> forall i, (i < length (others cur krr))%nat ->
       sum (get_position <$> take i (others cur (rev rs1))) < expire_size) /\
    (p2 <> [] -> 0 < expire_size /\ expire_size <= sum (get_position <$> others cur krr)) /\
    filter (fun r => equal_to cur r = true) krr = filter (fun r => equal_to cur r = true) (rev rs1).
Proof.
  intros [S1 S2].
  pose proof (expire_by_size_split cur expire_size (rev rs1) 0 ltac:(lia) S1 ltac:(lia)) as Hz.
  destruct (Z.ltb_spec 0 expire_size).
  - destruct (expire_by_size _ _ _ _) as [p k]. exists p, k. destruct Hz as (? & ? & ? & H4 & ?).
    split_and!; try done. intros Hp. split; [done|]. by apply H4.
  - exists [], (rev rs1). rewrite app_nil_r. split_and!; try done. lia.
Qed.

(** The two walks together: oldest first, what goes is [take n] of the records that are not
    current, and [n] is what the rule says. *)
Lemma expired_split rs :
  sizes_ok rs ->
  let '(p, k) := expired cfg expire_size now_s cur rs in
  exists n, p ≡ₚ take n (others cur rs) /\ others cur k = drop n (others cur rs) /\ k `sublist_of` rs /\
    filter (fun r => equal_to cur r = true) k = filter (fun r => equal_to cur r = true) rs /\
    forall i, (i < length (others cur rs))%nat ->
      (i < n)%nat <-> should_purge now_s seconds expire_size (others cur rs) i.
Proof.
  intros Hsz. unfold expired.
  destruct (time_phase rs) as (p1 & rs1 & -> & T1 & T2 & T3 & T4 & T5 & T6).
  destruct (size_phase rs1 (sizes_ok_rev _ (sizes_ok_sublist _ _ T2 Hsz))) as (p2 & krr & -> & Z1 & Z2 & Z3 & Z4 & Z5).
  unfold others in Z1, Z3. rewrite filter_rev in Z1, Z3. fold (others cur krr) in Z1, Z3. fold (others cur rs1) in Z1, Z3.
  assert (others cur rs1 = rev p2 ++ others cur (rev krr)) as E1.
  { rewrite <-(rev_involutive (others cur rs1)), <-Z1, rev_app_distr. f_equal. unfold others. by rewrite filter_rev. }
  rewrite E1 in T1. set (ok := others cur (rev krr)) in *. set (o := others cur rs) in *.
  exists (length p1 + length p2)%nat.
  assert (o = (p1 ++ rev p2) ++ ok) as Eo by (by rewrite <-app_assoc).
  assert (length (p1 ++ rev p2) = (length p1 + length p2)%nat) as El by (by rewrite length_app, length_rev).
  split_and!.
  - rewrite Eo, take_app_length' by done. by rewrite <-Permutation_rev.
  - by rewrite Eo, drop_app_length' by done.
  - etransitivity; [|exact T2]. rewrite <-(rev_involutive rs1). by apply rev_sublist.
  - rewrite filter_rev, Z5, filter_rev, rev_involutive. done.
  - intros i Hi. rewrite Eo, length_app, El in Hi. split.
    + intros Hn. destruct (decide (i < length p1)%nat) as [Hlt|Hge].
      * left. split; [apply T3; by destruct p1; [cbn in Hlt; lia|]|].
        rewrite Eo, <-app_assoc, take_app_le by lia. by apply Forall_take.
      * right. destruct Z4 as [Hpos Hfull]; [destruct p2; [cbn in Hn; lia|done]|]. split; [done|].
        etransitivity; [exact Hfull|].
        replace (sum (get_position <$> others cur krr)) with (sum (get_position <$> ok)).
        2: { unfold ok, others. rewrite filter_rev, fmap_rev, sum_rev. done. }
        rewrite Eo, drop_app_le by lia. rewrite fmap_app, sum_app.
        assert (0 <= sum (get_position <$> drop (S i) (p1 ++ rev p2))); [|lia].
        apply sum_positions_nonneg. apply Forall_drop. destruct Hsz as [Hp _].
        apply (Forall_filter_sub (fun r => equal_to cur r = false)) in Hp. fold (others cur rs) in Hp. fold o in Hp.
        rewrite Eo in Hp. by apply Forall_app in Hp as [? _].
    + intros [[Hs Hall]|[Hs Hfull]]; apply Nat.nle_gt; intros Hn.
      * destruct (rev p2 ++ ok) as [|r rest] eqn:Er.
        { rewrite <-app_assoc, Er, app_nil_r in Eo. rewrite <-El, Eo in *. apply app_eq_nil in Er as [E2 E3].
          rewrite E3 in Hi. cbn in Hi. lia. }
        assert (r ∈ take (S i) o) as Hin.
        { rewrite <-T1. apply list_elem_of_lookup. exists (length p1). rewrite lookup_take_lt by lia.
          by rewrite lookup_app_r, Nat.sub_diag by lia. }
        rewrite Forall_forall in Hall. specialize (Hall r Hin). cbn beta in Hall. specialize (T5 Hs r rest E1). congruence.
      * specialize (Z3 Hs (length o - S i)%nat). rewrite E1 in Z3.
        replace (take (length o - S i) (rev (rev p2 ++ ok))) with (rev (drop (S i) o)) in Z3.
        2: { rewrite Eo, <-app_assoc, firstn_rev. f_equal. rewrite drop_app, drop_ge by lia. cbn [app]. f_equal.
             rewrite !length_app, length_rev. lia. }
        assert (length (others cur krr) = length ok) as Eok by (unfold ok, others; by rewrite filter_rev, length_rev).
        assert (length o = length p1 + length p2 + length ok)%nat as Elo by (by rewrite Eo, length_app, El).
        rewrite fmap_rev, sum_rev in Z3. lia.
Qed.
End Decided.

(** ** The purge as a whole *)

(** The row [cur] of the current file and, before it, rows of earlier files. *)
Definition earlier (cfg : storage_config) (index : Z) (r : BinlogIndexRecord) : Prop :=
  0 < get_index r < index /\ get_file_name r = path cfg (get_index r).

Definition rows_ok (cfg : storage_config) (index : Z) (rs : list BinlogIndexRecord) (cur : BinlogIndexRecord) : Prop :=
  record_for cfg index cur /\ 0 < index /\ Forall (earlier cfg index) rs /\ NoDup (get_index <$> rs) /\
  sizes_ok (rs ++ [cur]).

Lemma equal_to_self r : equal_to r r = true.
Proof. unfold equal_to, strcmp_eq. by rewrite beq_refl, Z.eqb_refl. Qed.

Lemma equal_to_index a b : get_index a <> get_index b -> equal_to a b = false.
Proof. intros H. unfold equal_to. by rewrite (proj2 (Z.eqb_neq _ _)), andb_false_r. Qed.

Lemma purged_gtid_nonneg p : 0 <= purged_gtid p.
Proof.
  unfold purged_gtid. cut (forall g, 0 <= g -> 0 <= fold_left (fun g r => if g <? (get_current_mapping r).2 then (get_current_mapping r).2 else g) p g);
    [intros H; by apply H|].
  induction p as [|r p IH]; intros g Hg; [done|]. cbn [fold_left]. apply IH. destruct (Z.ltb_spec g (get_current_mapping r).2); lia.
Qed.

Lemma purge_gtid_total cfg u g m :
  master_server_uuid cfg = uuid_hex_bin_to_str_with_delim u -> is_uuid u -> Forall has_uuid (gtid_purged_set m) ->
  exists m', purge_gtid_before_impl cfg g m = Done m' /\ Forall has_uuid (gtid_purged_set m') /\
    gtid_executed_set m' = gtid_executed_set m /\ var_gtid_executed m' = var_gtid_executed m /\
    gtid_seq_set m' = gtid_seq_set m /\ last_gtid_purged m' = g.
Proof.
  intros Hu Hi Hm. unfold purge_gtid_before_impl, update_gtid_purged. rewrite Hu.
  set (m1 := rewrite_gtid_file _ _ m).
  assert (gtid_purged_set m1 = gtid_purged_set m /\ gtid_executed_set m1 = gtid_executed_set m /\
    var_gtid_executed m1 = var_gtid_executed m /\ gtid_seq_set m1 = gtid_seq_set m) as (-> & E2 & E3 & E4)
    by (unfold m1, rewrite_gtid_file; by destruct (gtid_seq_file m)).
  destruct (merge_gtid_before_total u (1, g) (gtid_purged_set m) Hi Hm) as (ms & -> & Hms).
  cbn [mbind outcome_bind]. destruct (gtid_set_str_total ms Hms) as [s ->]. cbn [mbind outcome_bind].
  eexists. split; [done|]. cbn. by rewrite E2, E3, E4.
Qed.

Lemma lookup_foldr_delete {V} (names : list bytes) (m : gmap bytes V) name :
  foldr delete m names !! name = if decide (name ∈ names) then None else m !! name.
Proof.
  induction names as [|x names IH]; [done|]. cbn [foldr]. destruct (decide (x = name)) as [->|Hne].
  - rewrite lookup_delete_eq, decide_True by (by left). done.
  - rewrite lookup_delete_ne, IH by done. destruct (decide (name ∈ names)) as [Hin|Hin].
    + by rewrite decide_True by (by right).
    + rewrite decide_False; [done|]. intros Hin'; apply list_elem_of_In in Hin' as [->|Hin']; [done|]; by apply Hin, list_elem_of_In.
Qed.

Section Purge.
Context (cfg : storage_config) (crc32 : bytes -> Z) (u : bytes) (cfg_ok : config_ok cfg u).
Context (expire_size now_s : Z).

Abbreviation seconds := (binlog_expire_logs_seconds (c_gtid cfg)).

Lemma others_rows index rs cur : rows_ok cfg index rs cur -> others cur (rs ++ [cur]) = rs.
Proof.
  intros ((_ & Hi & _) & _ & Hrs & _). rewrite others_app. unfold others at 2. rewrite filter_cons, decide_False.
  2: { by rewrite equal_to_self. }
  rewrite app_nil_r. apply filter_all. intros r Hr. eapply Forall_forall in Hrs as [Hr' _]; [|exact Hr].
  apply equal_to_index. lia.
Qed.

(** Which rows go and which stay. *)
Lemma expired_rows index rs cur :
  rows_ok cfg index rs cur ->
  exists p n, expired cfg expire_size now_s cur (rs ++ [cur]) = (p, drop n rs ++ [cur]) /\ p ≡ₚ take n rs /\
    forall i, (i < length rs)%nat -> (i < n)%nat <-> should_purge now_s seconds expire_size rs i.
Proof.
  intros Hrows. pose proof (others_rows _ _ _ Hrows) as Ho. pose proof Hrows as ((_ & Hi & _) & _ & Hrs & _ & Hsz).
  pose proof (expired_split cfg expire_size now_s cur (rs ++ [cur]) Hsz) as H.
  destruct (expired cfg expire_size now_s cur (rs ++ [cur])) as [p k]. destruct H as (n & H1 & H2 & H3 & H4 & H5).
  rewrite Ho in *. exists p, n. split; [|split; [done|done]]. f_equal.
  apply sublist_app_r in H3 as (l1 & l2 & -> & Hl1 & Hl2).
  assert (Forall (fun r => equal_to cur r = false) l1) as Hne.
  { apply Forall_forall. intros r Hr. eapply elem_of_sublist in Hr; [|exact Hl1].
    eapply Forall_forall in Hrs as [Hr' _]; [|exact Hr]. apply equal_to_index. lia. }
  rewrite !filter_app, (filter_none _ l1), (filter_none _ rs) in H4.
  2: { eapply Forall_impl; [exact Hrs|]. intros r [Hr _]. rewrite equal_to_index by lia. done. }
  2: { eapply Forall_impl; [exact Hne|]. intros r. cbn. congruence. }
  rewrite (filter_cons _ cur), (decide_True (P := equal_to cur cur = true)) in H4 by apply equal_to_self. cbn [app] in H4.
  apply sublist_cons_r in Hl2 as [Hl2|(l' & -> & Hl2)]; apply sublist_nil_r in Hl2; subst; [done|].
  unfold others in H2. rewrite filter_app, (filter_all _ l1) in H2 by (intros x Hx; by eapply Forall_forall in Hne).
  rewrite (filter_none _ [cur]), app_nil_r in H2; [by subst|]. constructor; [|done]. by rewrite equal_to_self.
Qed.

Record purged_disk (index : Z) (rs : list BinlogIndexRecord) (cur : BinlogIndexRecord) (evs : list ObLogEvent)
    (n : nat) (d d' : Disk) : Prop := {
  pd_inv : disk_inv cfg crc32 index d' (drop n rs ++ [cur]) evs;
  pd_files : forall name, st_files d' !! name
             = if decide (name ∈ get_file_name <$> take n rs) then None else st_files d !! name;
  pd_rule : forall i, (i < length rs)%nat -> (i < n)%nat <-> should_purge now_s seconds expire_size rs i;
  pd_same : st_valid_events_coming d' = st_valid_events_coming d /\ st_offset d' = st_offset d /\
            im_memory_index_record (st_index d') = im_memory_index_record (st_index d);
  pd_executed : gtid_executed_set (st_gtid d') = gtid_executed_set (st_gtid d) /\
                var_gtid_executed (st_gtid d') = var_gtid_executed (st_gtid d) /\
                gtid_seq_set (st_gtid d') = gtid_seq_set (st_gtid d);
  pd_gtid : if decide (purged_gtid (take n rs) = 0) then st_gtid d' = st_gtid d
            else last_gtid_purged (st_gtid d') = purged_gtid (take n rs)
}.

Lemma purged_gtid_perm p p' : p ≡ₚ p' -> purged_gtid p = purged_gtid p'.
Proof.
  intros Hp. unfold purged_gtid. generalize 0. induction Hp as [|x l l' _ IH|x y l|l l' l'' _ IH1 _ IH2]; intros z; cbn [fold_left];
    [done|apply IH| |by rewrite IH1].
  f_equal. destruct (Z.ltb_spec z (get_current_mapping x).2), (Z.ltb_spec z (get_current_mapping y).2);
    repeat match goal with |- context [?a <? ?b] => destruct (Z.ltb_spec a b) end; lia.
Qed.

Lemma purge_expired_ok index rs cur evs d :
  disk_inv cfg crc32 index d (rs ++ [cur]) evs -> rows_ok cfg index rs cur -> Forall has_uuid (gtid_purged_set (st_gtid d)) ->
  exists n d', purge_expired_binlog cfg expire_size now_s disk_ok cur d = Done d' /\
    purged_disk index rs cur evs n d d'.
Proof.
  intros [Hb Hn Hopen Hholds Hfresh Hidx Hg] Hrows Hp. pose proof cfg_ok as (_ & _ & _ & _ & Hu & Huu & _).
  pose proof Hrows as ((_ & Hi & Hname) & Hpos & Hrs & Hnd & _).
  destruct (expired_rows index rs cur Hrows) as (p & n & E & Ep & Hrule).
  unfold purge_expired_binlog. rewrite (fetch_represented _ _ Hidx). cbn [mbind outcome_bind].
  rewrite filter_all.
  2: { intros r [Hr|Hr]%elem_of_app; [eapply Forall_forall in Hrs as [Hr' _]; [|exact Hr]; lia|].
       apply list_elem_of_singleton in Hr as ->. lia. }
  rewrite E. destruct (rs ++ [cur]) as [|r0 rr] eqn:Er; [by destruct rs|]. rewrite <-Er in *. clear r0 rr Er.
  unfold apply_purge. rewrite (purged_gtid_perm _ _ Ep).
  set (gg := purged_gtid (take n rs)).
  assert (exists g, (if gg =? 0 then Done (st_gtid d) else purge_gtid_before_impl (c_gtid cfg) gg (st_gtid d)) = Done g /\
    gtid_executed_set g = gtid_executed_set (st_gtid d) /\ var_gtid_executed g = var_gtid_executed (st_gtid d) /\
    gtid_seq_set g = gtid_seq_set (st_gtid d) /\
    (if decide (gg = 0) then g = st_gtid d else last_gtid_purged g = gg)) as (g & -> & Eg & Eg2 & Eg3 & Eg4).
  { destruct (Z.eqb_spec gg 0) as [E0|E0]; [exists (st_gtid d); by rewrite decide_True by done|].
    destruct (purge_gtid_total (c_gtid cfg) u gg (st_gtid d) Huu Hu Hp) as (m' & ? & ? & ? & ? & ? & ?).
    exists m'. by rewrite decide_False by done. }
  cbn [mbind outcome_bind].
  assert (exists im, match p with [] => (OMS_OK, st_index (with_gtids g d)) | _ :: _ =>
      rewrite_index_file disk_ok (st_index (with_gtids g d)) (drop n rs ++ [cur]) end = (OMS_OK, im) /\
    represents im (drop n rs ++ [cur]) /\ im_memory_index_record im = im_memory_index_record (st_index d)) as (im & -> & Him & Hmem).
  { destruct p as [|r p].
    - apply Permutation_nil in Ep. exists (st_index d). split; [done|]. split; [|done].
      assert (drop n rs = rs) as ->; [|done]. rewrite <-(take_drop n rs) at 2. by rewrite Ep.
    - rewrite rewrite_disk_ok. eexists. split; [done|]. split; [|done]. split; [done|]. destruct Hidx as [_ Hall].
      apply Forall_app in Hall as [H1 H2]. apply Forall_app. split; [by apply Forall_drop|done]. }
  rewrite decide_True by done. cbn [d_remove disk_ok].
  destruct (drop n rs ++ [cur]) as [|r0 rr] eqn:Er; [by destruct (drop n rs)|]. rewrite <-Er in *. clear r0 rr Er.
  exists n. eexists. split; [done|].
  assert (forall name, st_files (remove_files (get_file_name <$> p) (with_index im (with_gtids g d))) !! name
    = if decide (name ∈ get_file_name <$> take n rs) then None else st_files d !! name) as Hfiles.
  { intros name. cbn [remove_files st_files with_index with_gtids]. rewrite lookup_foldr_delete.
    apply decide_ext. by rewrite Ep. }
  assert (forall j, index <= j <= LLONG_MAX -> path cfg j ∉ get_file_name <$> take n rs) as Hkeep.
  { intros j Hj Hin. apply list_elem_of_fmap in Hin as (r & Er & Hr). eapply elem_of_sublist in Hr; [|apply sublist_take].
    eapply Forall_forall in Hrs as [Hr1 Hr2]; [|exact Hr]. rewrite Hr2 in Er. apply path_inj in Er; lia. }
  split; [|exact Hfiles|done|done|done|exact Eg4].
  split; try done.
  - destruct Hholds as (b & Eb & Ef). exists b. split; [done|]. rewrite Hfiles, decide_False; [done|]. apply Hkeep. lia.
  - intros j Hj. rewrite Hfiles. rewrite decide_False by (apply Hkeep; lia). by apply Hfresh.
  - cbn [st_gtid remove_files with_index with_gtids]. by rewrite Eg.
Qed.

End Purge.

(** C21: the purge task.  The row and the file of the current binlog are never
    touched; of the earlier files exactly those are removed, oldest first, that the
    configured age or total size allows to go ([should_purge]); the index lists the files
    that are left, no other file changes, and [gtid_purged] advances to the newest GTID of
    the files removed.  The storage invariant holds again, so the pipeline can go on. *)
Theorem purge_task_correct cfg crc32 u expire_size now_s index rs cur evs d :
  config_ok cfg u -> disk_inv cfg crc32 index d (rs ++ [cur]) evs -> rows_ok cfg index rs cur ->
  Forall has_uuid (gtid_purged_set (st_gtid d)) ->
  exists n d', purge_task cfg expire_size now_s disk_ok d = Done d' /\
    purged_disk cfg crc32 expire_size now_s index rs cur evs n d d'.
Proof.
  intros Hcfg Hd Hrows Hp. unfold purge_task. rewrite (latest_represented _ rs cur) by (by destruct Hd).
  cbn [mbind outcome_bind]. by apply (purge_expired_ok cfg crc32 u Hcfg).
Qed.

(** the purge thread reads the index and rewrites it later, holding the lock
    only during each of the two calls.  Whatever the storage thread wrote to the index in
    between (the rows of new files, the size of the current one) is lost: the index ends
    up with rows it had when the purge thread read it. *)
Theorem purge_race_loses_updates cfg u expire_size now_s cur rs purged kept ops d :
  config_ok cfg u -> Forall has_uuid (gtid_purged_set (st_gtid d)) -> represents (st_index d) rs -> sizes_ok rs ->
  expired cfg expire_size now_s cur (filter (fun r => 0 < get_index r) rs) = (purged, kept) -> purged <> [] -> kept <> [] ->
  Forall op_ok ops ->
  exists im d', run_ops (st_index d) ops = Done (replicate (length ops) OMS_OK, im) /\
    represents im (fold_left abstract_op ops rs) /\
    apply_purge cfg disk_ok purged kept (with_index im d) = Done d' /\
    represents (st_index d') kept /\ kept `sublist_of` rs.
Proof.
  intros Hcfg Hp Hr Hsz He Hne Hk Hops. destruct (run_ops_refines ops _ _ Hr Hops) as (im & Erun & Him). exists im.
  pose proof (sublist_filter (fun r => 0 < get_index r) rs) as Hs.
  pose proof (expired_split cfg expire_size now_s cur _ (sizes_ok_sublist _ _ Hs Hsz)) as H. rewrite He in H.
  destruct H as (n & _ & _ & Hsub & _). assert (kept `sublist_of` rs) as Hsub' by (by etransitivity).
  assert (exists g, (if (purged_gtid purged =? 0) then Done (st_gtid (with_index im d))
    else purge_gtid_before_impl (c_gtid cfg) (purged_gtid purged) (st_gtid (with_index im d))) = Done g) as [g Eg].
  { destruct (_ =? _); [by eexists|]. pose proof Hcfg as (_ & _ & _ & _ & Hu & Huu & _).
    destruct (purge_gtid_total (c_gtid cfg) u (purged_gtid purged) (st_gtid d) Huu Hu Hp) as (g & E & _). by exists g. }
  unfold apply_purge. rewrite Eg. cbn [mbind outcome_bind]. destruct purged as [|p ps]; [done|].
  rewrite rewrite_disk_ok, decide_True by done.
  destruct kept as [|k ks] eqn:Ek; [done|]. rewrite <-Ek in *. eexists. split; [done|]. split; [done|]. split; [done|].
  split; [|done]. split; [done|]. destruct Hr as [_ Hr]. by eapply sublist_Forall.
Qed.

(** ** Concrete instances *)

(** Three files, the oldest of which is more than a day old. *)
Definition sample_rows : list BinlogIndexRecord :=
  [mkIndexRecord (path (sample_config true) 1) 1 ([], 0) (str "tx", 7) 100 600;
   mkIndexRecord (path (sample_config true) 2) 2 (str "tx", 7) (str "ty", 9) 90000 400].
Definition sample_current : BinlogIndexRecord :=
  mkIndexRecord (path (sample_config true) 3) 3 (str "tx", 7) (str "ty", 9) 90000 155.
Definition sample_three : Disk :=
  mkStore {[ path (sample_config true) 1 := []; path (sample_config true) 2 := [];
             path (sample_config true) 3 := sample_content ]}
    (mkIndexManager (Some (index_text (sample_rows ++ [sample_current]))) empty_record)
    (path (sample_config true) 3) 0 false (new_gtid_manager None).

Lemma sample_three_inv : disk_inv (sample_config true) sample_crc 3 sample_three (sample_rows ++ [sample_current]) sample_open.
Proof.
  split; try by_compute.
  - split; [by_compute|]. split; [by eexists|by_compute].
  - exists (bytes_of (flush_all sample_crc sample_open)). split; [vm_compute; reflexivity|]. vm_compute. reflexivity.
  - intros j Hj. unfold sample_three. cbn [st_files].
    rewrite !lookup_insert_ne by (intros E; apply path_inj in E; unfold LLONG_MAX in *; lia).
    apply lookup_singleton_ne. intros E. apply path_inj in E; unfold LLONG_MAX in *; lia.
Qed.

Lemma sample_rows_ok : rows_ok (sample_config true) 3 sample_rows sample_current.
Proof. split; [by_compute|]. split; [lia|]. split; [|split; [by_compute|split; by_compute]]. repeat constructor. Qed.

Lemma purge_task_correct_witness :
  exists n d', purge_task (sample_config true) 0 100000 disk_ok sample_three = Done d' /\
    purged_disk (sample_config true) sample_crc 0 100000 3 sample_rows sample_current sample_open n sample_three d'.
Proof.
  apply (purge_task_correct (sample_config true) sample_crc sample_uuid 0 100000 3 sample_rows sample_current sample_open
    sample_three sample_config_ok sample_three_inv sample_rows_ok). by_compute.
Defined.

(** The same, run: the first file goes, the second and the current one stay. *)
Example sample_purge :
  match purge_task (sample_config true) 0 100000 disk_ok sample_three with
  | Done d => ((fun f => st_files d !! path (sample_config true) f) <$> [1; 2; 3], last_gtid_purged (st_gtid d))
  | Crash => ([], 0)
  end = ([None; Some []; Some sample_content], 7).
Proof. vm_compute. reflexivity. Qed.

(** A rotation between the two calls: the row of file 4 is gone. *)
Definition sample_next : BinlogIndexRecord :=
  mkIndexRecord (path (sample_config true) 4) 4 (str "tx", 7) (str "ty", 9) 90000 155.

Lemma purge_race_loses_updates_witness :
  exists im d', run_ops (st_index sample_three) [AddIndex sample_next] = Done ([OMS_OK], im) /\
    represents im ((sample_rows ++ [sample_current]) ++ [sample_next]) /\
    apply_purge (sample_config true) disk_ok (take 1 sample_rows) (drop 1 sample_rows ++ [sample_current])
      (with_index im sample_three) = Done d' /\
    represents (st_index d') (drop 1 sample_rows ++ [sample_current]) /\
    drop 1 sample_rows ++ [sample_current] `sublist_of` sample_rows ++ [sample_current].
Proof.
  apply (purge_race_loses_updates (sample_config true) sample_uuid 0 100000 sample_current
    (sample_rows ++ [sample_current]) (take 1 sample_rows) (drop 1 sample_rows ++ [sample_current])
    [AddIndex sample_next] sample_three sample_config_ok).
  - by_compute.
  - by_compute.
  - split; by_compute.
  - vm_compute. reflexivity.
  - done.
  - done.
  - by_compute.
Defined.
