(* ===== verification/Restart.v ===== *)
(** * Restart: bringing a binlog instance up

    [preprocess_breakpoint_binlog] of
    [src/src/binlog/binlog-instance/binlog_instance_entry.cpp] repairs the last binlog
    file after a crash; [BinlogStorage::init], [recover_safely], [init_restart_point] and
    [rotate] of [src/src/binlog/binlog-instance/binlog_storage.cpp] find out where
    conversion resumes and open the next file.  Together they lead from what a stopped
    instance left on disk to the state the pipeline runs from.

    A scan that does not end and a null [FILE*] are a [Crash]; the copies made by
    [backup_binlog] lie outside the data directory and are left out. *)

From S2P Require Import Prelude Bytes Str Gtid Events EventWire EventScan BinlogIndex GtidManager Storage Pipeline Expire.

#[local] Open Scope Z_scope.

(** ** Configuration and state *)

Record restart_config := mkRestartConfig {
  rc_initial_ob_txn_id : bytes;
  rc_gtid_heartbeat_duration_s : Z;
  rc_binlog_expire_logs_size : Z;
  rc_fuel : nat
}.

(** The members of [BinlogStorage] that recovery sets, with their initialisers; the GTID
    manager is the one of the disk state until conversion starts. *)
Definition new_allocator (g : GtidManager) : Allocator :=
  mkAllocator 1 0 0 0 ([], 0) true false true 1 [] 0 false empty_record g.

Definition with_filters (until checkpoint : bool) (a : Allocator) : Allocator :=
  mkAllocator (a_txn_gtid_seq a) (a_xid a) (a_cur_pos a) (a_binlog_file_index a) (a_txn_mapping a) until
    (a_meet_initial_trx a) checkpoint (a_first_gtid_seq a) (a_previous_gtid_messages a) (a_last_record_ts a)
    (a_valid_events_coming a) (a_index_record a) (a_gtid a).
Definition with_txn_mapping (m : mapping) (a : Allocator) : Allocator :=
  mkAllocator (a_txn_gtid_seq a) (a_xid a) (a_cur_pos a) (a_binlog_file_index a) m (a_filter_util_checkpoint_trx a)
    (a_meet_initial_trx a) (a_filter_checkpoint_trx a) (a_first_gtid_seq a) (a_previous_gtid_messages a)
    (a_last_record_ts a) (a_valid_events_coming a) (a_index_record a) (a_gtid a).
Definition with_previous (ms : list GtidMessage) (a : Allocator) : Allocator :=
  mkAllocator (a_txn_gtid_seq a) (a_xid a) (a_cur_pos a) (a_binlog_file_index a) (a_txn_mapping a)
    (a_filter_util_checkpoint_trx a) (a_meet_initial_trx a) (a_filter_checkpoint_trx a) (a_first_gtid_seq a) ms
    (a_last_record_ts a) (a_valid_events_coming a) (a_index_record a) (a_gtid a).
(** [_first_gtid_seq = 0], [_binlog_file_index], [set_start_pos] *)
Definition with_new_file (index pos : Z) (a : Allocator) : Allocator :=
  mkAllocator (a_txn_gtid_seq a) (a_xid a) pos index (a_txn_mapping a) (a_filter_util_checkpoint_trx a)
    (a_meet_initial_trx a) (a_filter_checkpoint_trx a) 0 (a_previous_gtid_messages a) (a_last_record_ts a)
    (a_valid_events_coming a) (a_index_record a) (a_gtid a).
Definition with_index_record (r : BinlogIndexRecord) (g : GtidManager) (a : Allocator) : Allocator :=
  mkAllocator (a_txn_gtid_seq a) (a_xid a) (a_cur_pos a) (a_binlog_file_index a) (a_txn_mapping a)
    (a_filter_util_checkpoint_trx a) (a_meet_initial_trx a) (a_filter_checkpoint_trx a) (a_first_gtid_seq a)
    (a_previous_gtid_messages a) (a_last_record_ts a) (a_valid_events_coming a) r g.

(** Allocation, disk and [cdc_config.start_timestamp]. *)
Record BinlogInstance := mkInstance { i_alloc : Allocator; i_disk : Disk; i_start_timestamp : Z }.

Definition set_checksum_flag (f : Z) (ev : ObLogEvent) : ObLogEvent :=
  mkEvent (get_header ev) (get_ob_txn ev) (Events.get_checkpoint ev) f (is_filter ev) (get_body ev).

Definition set_file (name content : bytes) (d : Disk) : Disk :=
  mkStore (<[name := content]> (st_files d)) (st_index d) (st_file_name d) (st_offset d) (st_valid_events_coming d)
    (st_gtid d).
Definition set_current_file (name : bytes) (d : Disk) : Disk :=
  mkStore (st_files d) (st_index d) name (st_offset d) (st_valid_events_coming d) (st_gtid d).

Section Restart.
Context (cfg : storage_config) (rcfg : restart_config) (crc32 : bytes -> Z).

(** ** preprocess_breakpoint_binlog *)

Definition scan_trx (name : bytes) (specify : Z) (d : Disk) : outcome (ret * BinlogTrxOverview) :=
  r ← seek_and_verify_complete_trx (c_binlog_checksum cfg) crc32 (rc_fuel rcfg) (st_files d !! name)
        (new_overview specify);
  of_option r.

(** [fs::resize_file]: [None] is the error. *)
Definition resize_file (name : bytes) (size : Z) (d : Disk) : option Disk :=
  match st_files d !! name with
  | None => None
  | Some f => Some (set_file name (first size (f ++ replicate (Z.to_nat (size - zlen f)) 0)) d)
  end.

Definition update_row (r : BinlogIndexRecord) (d : Disk) : outcome Disk :=
  '(_, im) ← update_index disk_ok (st_index d) r; Done (with_index im d).
Definition remove_row (r : BinlogIndexRecord) (d : Disk) : outcome (ret * Disk) :=
  '(v, im, gone) ← remove_binlog disk_ok (st_index d) r;
  Done (v, remove_files gone (with_index im d)).

(** Scenario 3: an incomplete transaction at the end of the file. *)
Definition truncate_incomplete (r : BinlogIndexRecord) (o : BinlogTrxOverview) (d : Disk) : outcome (ret * Disk) :=
  let name := get_file_name r in
  match (if last_complete_trx_end_pos o <? file_size name d then resize_file name (last_complete_trx_end_pos o) d
         else Some d) with
  | None => Done (OMS_FAILED, d)
  | Some d =>
      let r := if last_complete_trx_gtid o >? 0
               then set_current_mapping (get_before_mapping r) (set_position (last_complete_trx_end_pos o) r)
               else set_before_mapping ([], 0) r in
      d ← update_row r d; Done (OMS_OK, d)
  end.

(** The binlog file lags behind the index: back to the newest transaction that has a
    mapping. *)
Definition truncate_to_mapping (r : BinlogIndexRecord) (o : BinlogTrxOverview) (d : Disk) : outcome (ret * Disk) :=
  let name := get_file_name r in
  let '(v, s) := get_first_le_gtid_seq (last_complete_trx_gtid o) (st_gtid d) empty_seq in
  if decide (v = OMS_OK) then
    '(v, o) ← scan_trx name (get_gtid_start s) d;
    if decide (v = OMS_OK) then
      if trx_specify_truncated_end_pos o =? 0 then
        '(v, d) ← remove_row r d; Done (if decide (v = OMS_OK) then OMS_OK else OMS_FAILED, d)
      else
        match resize_file name (trx_specify_truncated_end_pos o) d with
        | None => Done (OMS_FAILED, d)
        | Some d =>
            d ← update_row (set_checkpoint (get_commit_version_start s)
                  (set_current_mapping (get_xid_start s, get_gtid_start s)
                    (set_position (trx_specify_truncated_end_pos o) r))) d;
            Done (OMS_OK, d)
        end
    else Done (OMS_FAILED, d)
  else Done (OMS_FAILED, d).

(** The binlog file is ahead of the index: back to the transaction of [before_mapping]. *)
Definition truncate_to_before (r : BinlogIndexRecord) (o : BinlogTrxOverview) (d : Disk) : outcome (ret * Disk) :=
  if trx_specify_truncated_end_pos o =? 0 then
    '(v, d) ← remove_row r d; Done (if decide (v = OMS_OK) then OMS_OK else OMS_FAILED, d)
  else
    match resize_file (get_file_name r) (trx_specify_truncated_end_pos o) d with
    | None => Done (OMS_FAILED, d)
    | Some d =>
        d ← update_row (set_current_mapping (get_before_mapping r)
              (set_position (trx_specify_truncated_end_pos o) r)) d;
        Done (OMS_OK, d)
    end.

Definition preprocess_breakpoint_binlog (d : Disk) : outcome (ret * Disk) :=
  '(_, r) ← get_latest_index (st_index d) empty_record;
  let name := get_file_name r in
  if beq name [] then Done (OMS_OK, d)
  else
    '(v, o) ← scan_trx name (get_before_mapping r).2 d;
    if decide (v = OMS_OK) then
      if negb (has_previous_gtids_event o) then
        '(v, d) ← remove_row r d; Done (if decide (v = OMS_OK) then OMS_OK else OMS_FAILED, d)
      else if (last_complete_trx_gtid o <=? (get_current_mapping r).2) &&
              ((get_before_mapping r).2 <=? last_complete_trx_gtid o) then
        if trx_need_truncated_gtid o =? 0 then
          let size := file_size name d in
          if get_position r =? size then Done (OMS_OK, d)
          else d ← update_row (set_position size r) d; Done (OMS_OK, d)
        else truncate_incomplete r o d
      else if (last_complete_trx_gtid o =? 0) && (trx_need_truncated_gtid o =? 0) then Done (OMS_OK, d)
      else if last_complete_trx_gtid o <? (get_before_mapping r).2 then truncate_to_mapping r o d
      else truncate_to_before r o d
    else Done (OMS_FAILED, d).

(** ** init_restart_point *)

(** No event for a long time: the last checkpoint is a heartbeat after the last
    transaction.  [interval] is an [int]; it is compared with a [uint32_t] and a
    [uint64_t]. *)
Definition heartbeat_restart (r : BinlogIndexRecord) (trx_ts : Z) (has_last : ret) (s : GtidSeq) : bool :=
  let interval := sint 32 (get_commit_version_start s - get_checkpoint r) in
  bool_decide (has_last = OMS_OK) &&
  ((rc_gtid_heartbeat_duration_s rcfg <? u32 interval) ||
   (binlog_expire_logs_seconds (c_gtid cfg) <? u64 interval)) &&
  (trx_ts <? get_commit_version_start s) && (get_gtid_start s =? (get_current_mapping r).2) &&
  beq (get_xid_start s) [] && (get_trxs_num s =? 0).

Definition matched_mapping (txn : Z) (r : BinlogIndexRecord) : option mapping :=
  if txn =? (get_current_mapping r).2 then Some ((get_current_mapping r).1, txn)
  else if txn =? (get_before_mapping r).2 then Some ((get_before_mapping r).1, txn)
  else None.

Definition init_restart_point (r : BinlogIndexRecord) (trx_ts : Z) (st : BinlogInstance) : ret * BinlogInstance :=
  let a := i_alloc st in
  let d := i_disk st in
  let '(has_last, s) := get_latest_gtid_seq (st_gtid d) empty_seq in
  if heartbeat_restart r trx_ts has_last s then
    (OMS_OK, mkInstance (with_txn_gtid_seq (u64 (get_gtid_start s + 1)) (with_filters false false a)) d
               (get_commit_version_start s))
  else
    let txn := a_txn_gtid_seq a in
    match matched_mapping txn r with
    | None => (OMS_FAILED, st)
    | Some m =>
        let a := with_txn_mapping m a in
        if beq m.1 [] then (OMS_OK, mkInstance (with_txn_gtid_seq (u64 (txn + 1)) a) d (get_checkpoint r))
        else if decide (has_last = OMS_FAILED) then (OMS_OK, mkInstance a d (get_checkpoint r))
        else
          let '(v, s) := get_first_le_gtid_seq txn (st_gtid d) s in
          if decide (v = OMS_OK) then (OMS_OK, mkInstance a d (get_commit_version_start s))
          else (OMS_FAILED, mkInstance a d (i_start_timestamp st))
    end.

(** ** rotate *)

Definition init_binlog_file (rot : ObLogEvent) (e : Rotate) (d : Disk) : outcome Disk :=
  head ← binlog_head cfg crc32 (h_timestamp (get_header rot)) (ro_next_previous_gtids e);
  let name := binlog_path (ro_next_binlog_file_name e) in
  Done (append_file name head (set_current_file name d)).

Definition rotate_current_binlog (rot : ObLogEvent) (e : Rotate) (r : BinlogIndexRecord) (d : Disk)
    : outcome (BinlogIndexRecord * Disk) :=
  '(r, d) ← (if ro_existed e then Done (r, d)
             else
               bs ← flush_to_buff crc32 rot;
               update_index_record cfg r (append_file (st_file_name d) bs d));
  d ← clear_in_use (st_file_name d) d;
  Done (r, d).

Definition rotate (now_s : Z) (rot : ObLogEvent) (r : BinlogIndexRecord) (d : Disk) : outcome Disk :=
  match get_body rot with
  | RotateEvent e =>
      match ro_op e with
      | INIT => init_binlog_file rot e d
      | ROTATE =>
          d ← purge_expired_binlog cfg (rc_binlog_expire_logs_size rcfg) now_s disk_ok r d;
          '(r, d) ← rotate_current_binlog rot e r d;
          d ← init_binlog_file rot e d;
          '(_, d) ← add_next_binlog_index r e d;
          Done d
      end
  | _ => Crash
  end.

(** ** recover_safely *)

(** Scenario 1, the first start. *)
Definition first_start (now_s : Z) (st : BinlogInstance) : BinlogInstance :=
  let id := rc_initial_ob_txn_id rcfg in
  let seq := initial_ob_txn_gtid_seq (c_gtid cfg) in
  let a := i_alloc st in
  let a := if (0 <? seq) || negb (beq id []) then with_txn_gtid_seq seq (with_txn_mapping (id, seq) a) else a in
  let a := with_filters (negb (beq (a_txn_mapping a).1 [])) false a in
  mkInstance a (i_disk st) (if i_start_timestamp st =? 0 then now_s else i_start_timestamp st).

(** Scenarios 2 and 3; [None] is [OMS_FAILED]. *)
Definition resume (r : BinlogIndexRecord) (st : BinlogInstance) : outcome (option (BinlogInstance * bool * Z)) :=
  let a := i_alloc st in
  let d := i_disk st in
  let file := st_files d !! get_file_name r in
  s ← seek_gtid_event (c_binlog_checksum cfg) (rc_fuel rcfg) file
        (mkGtidScan [] false (config_checksum_flag (c_binlog_checksum cfg)) (a_xid a) (a_previous_gtid_messages a)) 0;
  match s with
  | None => Crash
  | Some (v, s, offset) =>
      if decide (v = OMS_OK) then
        if negb (offset =? get_position r) && negb (offset =? file_size (get_file_name r) d) then Done None
        else
          let a := with_previous (gs_previous_gtid_messages s) (with_xid (gs_last_xid s) a) in
          let found := (gs_rotate_existed s, gs_checksum_flag s) in
          match last (gs_gtid_log_events s) with
          | None =>
              let a := with_txn_gtid_seq (get_current_mapping r).2 a in
              let '(v, st) := init_restart_point r 0 (mkInstance a d (i_start_timestamp st)) in
              if decide (v = OMS_OK) then
                let a := i_alloc st in
                let a := if a_filter_util_checkpoint_trx a
                         then with_filters (negb (beq (a_txn_mapping a).1 []))
                                (negb (beq (get_before_mapping r).1 [])) a
                         else a in
                Done (Some (mkInstance a (i_disk st) (i_start_timestamp st), found.1, found.2))
              else Done None
          | Some ev =>
              match get_body ev with
              | GtidLogEvent e =>
                  let a := with_txn_gtid_seq (gl_gtid_txn_id e) a in
                  let '(v, st) := init_restart_point r (gl_last_committed e) (mkInstance a d (i_start_timestamp st)) in
                  if decide (v = OMS_OK) then Done (Some (st, found.1, found.2)) else Done None
              | _ => Crash
              end
          end
      else Done None
  end.

(** The rotate event: built with the configured checksum, shortened when the file has
    none. *)
Definition recovery_rotate (next_index index size : Z) (op : rotate_op) (existed : bool) (checksum_flag : Z)
    (timestamp : Z) (previous : list GtidMessage) : ObLogEvent :=
  let ev := new_rotate (c_binlog_checksum cfg) (c_server_id cfg) BINLOG_MAGIC_SIZE (binlog_name cfg next_index)
              timestamp (u32 size) index op in
  let ev := set_body (RotateEvent (mkRotate BINLOG_MAGIC_SIZE (binlog_name cfg index) index previous op existed))
              (set_header (set_header_timestamp timestamp (get_header ev)) ev) in
  if (checksum_flag =? OFF) && (get_checksum_flag ev =? CRC32) then
    let len := get_checksum_len ev in
    let h := get_header ev in
    set_checksum_flag OFF (set_header (set_next_position (h_next_position h - len)
      (set_event_length (h_event_length h - len) h)) ev)
  else ev.

Definition recover_safely (now_s : Z) (st : BinlogInstance) : outcome (ret * BinlogInstance) :=
  let d := i_disk st in
  '(_, r) ← get_latest_index (st_index d) empty_record;
  let size := file_size (get_file_name r) d in
  let next_index := u64 (get_index r + 1) in
  found ← (if beq (get_file_name r) [] || (get_position r =? 0)
           then Done (Some (first_start now_s st, false, config_checksum_flag (c_binlog_checksum cfg), INIT))
           else
             s ← resume r st;
             Done (match s with Some (st, existed, flag) => Some (st, existed, flag, ROTATE) | None => None end));
  match found with
  | None => Done (OMS_FAILED, st)
  | Some (st, existed, flag, op) =>
      let a := i_alloc st in
      let last_gtid := if a_filter_util_checkpoint_trx a && a_filter_checkpoint_trx a
                       then a_txn_gtid_seq a else u64 (a_txn_gtid_seq a - 1) in
      previous ← merge_gtid_before (master_server_uuid (c_gtid cfg)) (a_previous_gtid_messages a)
                   (a_first_gtid_seq a, last_gtid);
      let a := with_previous previous a in
      text ← gtid_set_str previous;
      if strcmp_eq text (var_gtid_executed (st_gtid (i_disk st))) then
        let index := match op with INIT => u64 (next_index - 1) | ROTATE => next_index end in
        let ts := i_start_timestamp st in
        let rot := recovery_rotate next_index index size op existed flag ts previous in
        let a := with_new_file index (start_pos cfg previous) a in
        let d := with_gtids (init_start_timestamp ts (st_gtid (i_disk st))) (i_disk st) in
        d ← rotate now_s rot r d;
        Done (OMS_OK, mkInstance a d ts)
      else Done (OMS_FAILED, mkInstance a (i_disk st) (i_start_timestamp st))
  end.

(** ** BinlogStorage::init and the start of run *)

Definition first_row (start_timestamp : Z) : BinlogIndexRecord :=
  let id := rc_initial_ob_txn_id rcfg in
  let seq := initial_ob_txn_gtid_seq (c_gtid cfg) in
  let current := if negb (beq id []) || (0 <? seq)
                 then (id, if beq id [] then u64 (seq - 1) else seq) else ([], 0) in
  mkIndexRecord (binlog_path (binlog_name cfg 1)) 1 ([], 0) current start_timestamp 0.

Definition storage_init (now_s : Z) (st : BinlogInstance) : outcome (ret * BinlogInstance) :=
  let d := i_disk st in
  '(_, r) ← get_latest_index (st_index d) empty_record;
  let d := match get_file_name r with
           | [] => set_current_file (binlog_path (binlog_name cfg 1))
                     (with_index (add_index disk_ok (st_index d) (first_row (i_start_timestamp st))).2 d)
           | name => set_current_file name d
           end in
  recover_safely now_s (mkInstance (i_alloc st) d (i_start_timestamp st)).

(** [run] starts from the latest index record and stops when there is none. *)
Definition run_start (st : BinlogInstance) : outcome (ret * BinlogInstance) :=
  '(_, r) ← get_latest_index (st_index (i_disk st)) empty_record;
  match get_file_name r with
  | [] => Done (OMS_FAILED, st)
  | _ => Done (OMS_OK, mkInstance (with_index_record r (st_gtid (i_disk st)) (i_alloc st)) (i_disk st) (i_start_timestamp st))
  end.

(** ** The whole start, in the order of [main] *)

Definition start_instance (now_s : Z) (d : Disk) (start_timestamp : Z) : outcome (ret * BinlogInstance) :=
  let d := with_gtids (init_gtid_seq (c_gtid cfg) now_s (st_gtid d)) d in
  '(v, d) ← preprocess_breakpoint_binlog d;
  let st := mkInstance (new_allocator (st_gtid d)) d start_timestamp in
  if decide (v = OMS_OK) then
    '(_, rs) ← fetch_index_vector (st_index d);
    '(v, g) ← init_gtid_variables (c_gtid cfg) (c_binlog_checksum cfg) (rc_fuel rcfg) (fun n => st_files d !! n) rs (st_gtid d);
    if decide (v = OMS_OK) then
      '(v, st) ← storage_init now_s (mkInstance (new_allocator g) (with_gtids g d) start_timestamp);
      if decide (v = OMS_OK) then run_start st else Done (v, st)
    else Done (OMS_FAILED, st)
  else Done (OMS_FAILED, st).

End Restart.

(** ** The first start *)

Definition initial_gtids (u : bytes) (seq : Z) : list GtidMessage :=
  if 1 <? seq then [mkGtidMessage (Some u) 1 [(1, seq - 1)]] else [].

Lemma merge_initial u n :
  is_uuid u -> 0 <= n -> merge_gtid_before (uuid_hex_bin_to_str_with_delim u) [] (1, n) = Done (initial_gtids u (n + 1)).
Proof.
  intros Hu Hn. unfold merge_gtid_before, initial_gtids. cbn [merge_messages mbind outcome_bind fst snd].
  rewrite !Z.gtb_ltb. change (0 <? 1) with true. cbn [andb].
  destruct (Z.ltb_spec 0 n); [|by rewrite (proj2 (Z.ltb_ge 1 (n + 1))) by lia].
  rewrite (proj2 (Z.ltb_lt 1 (n + 1))) by lia. unfold set_gtid_uuid. rewrite uuid_str_to_hex_bin_text by done.
  cbn [mbind outcome_bind]. replace (n + 1 - 1) with n by lia. done.
Qed.

Lemma initial_gtids_sane u seq k :
  is_uuid u -> 0 <= seq <= LLONG_MAX -> 0 <= k < 2 ^ 31 ->
  Forall (room' k) (initial_gtids u seq) /\ NoDup (uuid_key <$> initial_gtids u seq) /\
  gtids_size (initial_gtids u seq) <= 40 /\ Forall has_uuid (initial_gtids u seq).
Proof.
  intros Hu Hs Hk. unfold initial_gtids, LLONG_MAX in *. destruct (Z.ltb_spec 1 seq) as [H|H].
  2: { cbn. split; [done|]. split; [constructor|]. split; [lia|done]. }
  set (m := mkGtidMessage _ _ _).
  assert (message_sane m) as Hm.
  { split; [|split; [exact Hu|constructor; [cbn; lia|done]]]. split; [|split; [done|split; [done|]]].
    - cbn. split; [|done]. by destruct Hu.
    - constructor; [|done]. cbn. unfold range_ok, is_u64. cbn. lia. }
  split; [|split; [apply NoDup_singleton|split; [|by constructor]]].
  - constructor; [|done]. split; [done|]. change (zlen (get_txn_range m)) with 1. lia.
  - change (gtids_size [m]) with (get_gtid_length m + 0). change (get_gtid_length m) with 40. lia.
Qed.

Section FirstStart.
Context (cfg : storage_config) (rcfg : restart_config) (crc32 : bytes -> Z) (u : bytes) (cfg_ok : config_ok cfg u).
Context (now_s ts k : Z) (now_ok : is_u32 now_s) (ts_ok : is_u32 ts) (k_ok : 0 <= k < 2 ^ 31).

Abbreviation seq := (initial_ob_txn_gtid_seq (c_gtid cfg)).
Abbreviation id := (rc_initial_ob_txn_id rcfg).
Context (seq_ok : 0 <= seq /\ seq + k < LLONG_MAX) (id_ok : text_ok [0; 9; 10; 61] id) (id_seq : id <> [] -> 1 <= seq).

Lemma first_row_ok : record_for cfg 1 (first_row cfg rcfg ts).
Proof.
  unfold LLONG_MAX, is_u32 in *. split; [|done]. unfold first_row. split_and!; cbn -[to_dec LLONG_MAX].
  - by apply (binlog_path_text cfg u).
  - unfold is_i63, LLONG_MAX. lia.
  - unfold mapping_ok, is_i63, LLONG_MAX. destruct (beq id []) eqn:E; cbn [negb orb].
    + apply beq_true in E. destruct (Z.ltb_spec 0 seq); cbn; rewrite ?E.
      * split; [constructor|]. rewrite u64_id by (unfold is_u64; lia). lia.
      * split; [constructor|lia].
    + cbn. split; [done|]. lia.
  - split; [constructor|]. unfold is_i63, LLONG_MAX. cbn. lia.
  - unfold is_i63, LLONG_MAX. lia.
  - unfold is_i63, LLONG_MAX. lia.
Qed.

Lemma first_variables binlogs :
  exists s g, gtid_set_str (initial_gtids u seq) = Done s /\
    init_gtid_variables (c_gtid cfg) (c_binlog_checksum cfg) (rc_fuel rcfg) binlogs [] (new_gtid_manager None) = Done (OMS_OK, g) /\
    gtid_executed_set g = initial_gtids u seq /\ gtid_purged_set g = initial_gtids u seq /\ var_gtid_executed g = s.
Proof.
  pose proof cfg_ok as (_ & _ & _ & _ & Hu & Huu & _).
  destruct (initial_gtids_sane u seq k Hu ltac:(unfold LLONG_MAX in *; lia) k_ok) as (_ & _ & _ & Hh).
  destruct (gtid_set_str_total _ Hh) as [s Es]. exists s. unfold init_gtid_variables.
  assert (init_gtid_sets (c_gtid cfg) (c_binlog_checksum cfg) (rc_fuel rcfg) binlogs [] [] []
    = Done (Some (initial_gtids u seq, initial_gtids u seq))) as E.
  { cbn [init_gtid_sets]. destruct (Z.ltb_spec 1 seq) as [H|H].
    - rewrite Huu, merge_initial by (done || lia). cbn [mbind outcome_bind]. by replace (seq - 1 + 1) with seq by lia.
    - unfold initial_gtids. by rewrite (proj2 (Z.ltb_ge _ _)) by lia. }
  cbn [new_gtid_manager gtid_purged_set gtid_executed_set]. rewrite E. cbn [mbind outcome_bind].
  rewrite Es. cbn [mbind outcome_bind]. eexists. done.
Qed.

Definition first_timestamp : Z := if ts =? 0 then now_s else ts.

(** The values recovery starts from. *)
Lemma first_start_state d g :
  let st := first_start cfg rcfg now_s (mkInstance (new_allocator g) d ts) in
  i_disk st = d /\ i_start_timestamp st = first_timestamp /\ a_txn_gtid_seq (i_alloc st) = Z.max 1 seq /\
  a_filter_util_checkpoint_trx (i_alloc st) = negb (beq id []) /\ a_filter_checkpoint_trx (i_alloc st) = false /\
  a_previous_gtid_messages (i_alloc st) = [] /\ a_first_gtid_seq (i_alloc st) = 1 /\
  a_last_record_ts (i_alloc st) = 0 /\ a_xid (i_alloc st) = 0.
Proof.
  unfold first_start. cbn [i_alloc i_disk i_start_timestamp].
  destruct (beq id []) eqn:E; cbn [negb orb].
  - apply beq_true in E. rewrite orb_false_r. destruct (Z.ltb_spec 0 seq); cbn; rewrite ?E; split_and!; try done; lia.
  - rewrite orb_true_r. pose proof (id_seq (proj1 (beq_false _ _) E)). cbn. rewrite E. split_and!; try done. lia.
Qed.

(** The first file: its head, nothing else. *)
Lemma first_file d g s0 fde prev body :
  (forall j, 1 <= j <= LLONG_MAX -> st_files d !! path cfg j = None) -> Forall has_uuid (gtid_executed_set g) ->
  flush_all crc32 [fde; prev] = Done body -> open_file [fde; prev] -> s0 = first_row cfg rcfg ts ->
  disk_inv cfg crc32 1
    (append_file (path cfg 1) (binlog_file body) (set_current_file (path cfg 1)
       (with_gtids g (with_index (mkIndexManager (Some (index_text [s0])) empty_record) d)))) [s0] [fde; prev].
Proof.
  intros Hfresh Hg Hf Ho ->. split; try done; cbn [append_file set_current_file with_gtids with_index st_files st_index st_gtid].
  - exists body. split; [done|]. cbn [st_files append_file set_current_file with_gtids with_index].
    rewrite lookup_insert_eq, Hfresh by (unfold LLONG_MAX; lia). done.
  - intros j Hj. rewrite lookup_insert_ne; [apply Hfresh; lia|]. intros E.
    apply path_inj in E; unfold LLONG_MAX in *; lia.
  - split; [done|]. constructor; [|done]. apply first_row_ok.
Qed.

Lemma first_recovery d g v im :
  (forall j, 1 <= j <= LLONG_MAX -> st_files d !! path cfg j = None) ->
  im = mkIndexManager (Some (index_text [first_row cfg rcfg ts])) empty_record ->
  gtid_set_str (initial_gtids u seq) = Done v -> var_gtid_executed g = v -> Forall has_uuid (gtid_executed_set g) ->
  exists a d' fde prev,
    recover_safely cfg rcfg crc32 now_s (mkInstance (new_allocator g)
      (set_current_file (path cfg 1) (with_index im (with_gtids g d))) ts)
    = Done (OMS_OK, mkInstance a d' first_timestamp) /\
    head_events cfg first_timestamp (initial_gtids u seq) = Done (fde, prev) /\
    disk_inv cfg crc32 1 d' [first_row cfg rcfg ts] [fde; prev] /\
    a_previous_gtid_messages a = initial_gtids u seq /\ a_txn_gtid_seq a = Z.max 1 seq /\ a_first_gtid_seq a = 0 /\
    a_last_record_ts a = 0 /\ a_binlog_file_index a = 1 /\ a_cur_pos a = file_len [fde; prev] /\
    a_filter_util_checkpoint_trx a = negb (beq id []).
Proof.
  intros Hfresh -> Ev Hv Hg. pose proof cfg_ok as (_ & _ & _ & _ & Hu & Huu & _).
  destruct (initial_gtids_sane u seq k Hu ltac:(unfold LLONG_MAX in *; lia) k_ok) as (Hr & Hnd & Hsz & _).
  assert (is_u32 first_timestamp) as Ht by (unfold first_timestamp; by destruct (ts =? 0)).
  destruct (head_file cfg crc32 u cfg_ok first_timestamp (initial_gtids u seq) Ht) as (fde & prev & body & Eh & Ef & Ehead & Ho & Hl);
    [eapply Forall_impl; [exact Hr|]; by intros m []|done|lia|].
  pose proof first_row_ok as Hrow.
  set (d1 := set_current_file _ _). unfold recover_safely. cbn [i_disk].
  rewrite (latest_represented (st_index d1) [] (first_row cfg rcfg ts)) by (split; [done|]; constructor; [by destruct Hrow|done]).
  cbn [mbind outcome_bind]. change (get_position (first_row cfg rcfg ts)) with 0. rewrite orb_true_r. cbn [mbind outcome_bind].
  destruct (first_start_state d1 g) as (S1 & S2 & S3 & S4 & S5 & S6 & S7 & S8 & _).
  set (st := first_start cfg rcfg now_s _) in *. rewrite S5, andb_false_r, S3, S6, S7, Huu.
  rewrite (u64_id (Z.max 1 seq - 1)) by (unfold is_u64, LLONG_MAX in *; lia). rewrite merge_initial by (done || lia).
  replace (initial_gtids u (Z.max 1 seq - 1 + 1)) with (initial_gtids u seq).
  2: { destruct (Z.ltb_spec 1 seq); [f_equal; lia|]. unfold initial_gtids. by rewrite !(proj2 (Z.ltb_ge _ _)) by lia. }
  cbn [mbind outcome_bind]. rewrite Ev. cbn [mbind outcome_bind]. rewrite S1. change (st_gtid d1) with g. rewrite Hv.
  assert (strcmp_eq v v = true) as -> by (unfold strcmp_eq; apply beq_refl).
  change (get_index (first_row cfg rcfg ts)) with 1. change (u64 (u64 (1 + 1) - 1)) with 1. change (u64 (1 + 1)) with 2.
  unfold rotate, recovery_rotate. rewrite S2.
  destruct (_ && _); cbn [get_body set_body set_header set_checksum_flag ro_op];
    unfold init_binlog_file; cbn [ro_next_previous_gtids ro_next_binlog_file_name get_header set_body set_header
      set_checksum_flag set_header_timestamp set_next_position set_event_length h_timestamp];
    rewrite u64_id by (unfold is_u64, is_u32 in *; lia); rewrite Ehead; cbn [mbind outcome_bind].
  all: eexists _, _, fde, prev; split; [reflexivity|]; split; [done|]; split;
    [by apply (first_file d (init_start_timestamp first_timestamp g) _ fde prev body)|].
  all: cbn [with_new_file with_previous a_previous_gtid_messages a_txn_gtid_seq a_first_gtid_seq a_last_record_ts
    a_binlog_file_index a_cur_pos a_filter_util_checkpoint_trx]; by rewrite S3, S4, S8, Hl.
Qed.

End FirstStart.

Lemma add_first_index r :
  (add_index disk_ok (mkIndexManager None empty_record) r).2 = mkIndexManager (Some (index_text [r])) empty_record.
Proof. cbn. unfold index_text. cbn. by rewrite app_nil_r. Qed.

