(* ===== verification/Recovery.v ===== *)
(** * Recovery: what a restart makes of the files on disk

    Theorems about [Restart] when binlog files exist: the last file is repaired, the GTID
    variables are read back from it, and conversion resumes in a new file right after the
    last complete transaction. *)

From S2P Require Import Prelude Bytes Str Gtid Events EventWire EventScan BinlogIndex GtidManager Storage Pipeline Expire Restart.

#[local] Open Scope Z_scope.

(** ** What the scans find *)

Definition is_gtid (ev : ObLogEvent) : bool := match get_body ev with GtidLogEvent _ => true | _ => false end.
Definition is_rotate (ev : ObLogEvent) : bool := match get_body ev with RotateEvent _ => true | _ => false end.
Definition messages_of (ev : ObLogEvent) : list GtidMessage :=
  match get_body ev with PreviousGtidsLogEvent _ ms => snd <$> ms | _ => [] end.
Definition last_xid (x : Z) (evs : list ObLogEvent) : Z :=
  fold_left (fun x ev => match get_body ev with XidEvent n => n | _ => x end) evs x.

Lemma scan_fold evs : forall s,
  Forall (same_config true) evs ->
  let s' := fold_left (fun s ev => gtid_scan_event (reread ev) s) evs s in
  gs_gtid_log_events s' = gs_gtid_log_events s ++ (reread <$> filter (fun ev => is_gtid ev = true) evs) /\
  gs_rotate_existed s' = gs_rotate_existed s || existsb is_rotate evs /\
  gs_previous_gtid_messages s' = gs_previous_gtid_messages s ++ mjoin (messages_of <$> evs) /\
  gs_last_xid s' = last_xid (gs_last_xid s) evs /\
  (gs_checksum_flag s = CRC32 -> gs_checksum_flag s' = CRC32).
Proof.
  induction evs as [|ev evs IH]; intros s Hc; cbn zeta.
  { cbn. rewrite !app_nil_r, orb_false_r. done. }
  apply Forall_cons in Hc as [Hf Hc]. cbn [fold_left]. destruct (IH (gtid_scan_event (reread ev) s) Hc) as (-> & -> & -> & -> & H5).
  rewrite filter_cons. unfold last_xid. cbn [existsb fmap list_fmap fold_left]. rewrite join_cons.
  assert (get_checksum_flag ev = CRC32) as Hcrc by exact Hf. clear IH Hf.
  unfold gtid_scan_event, add_gtid_log_event in *. cbn [reread get_body get_checksum_flag] in *.
  replace (is_gtid ev) with (match get_body ev with GtidLogEvent _ => true | _ => false end) by done.
  replace (is_rotate ev) with (match get_body ev with RotateEvent _ => true | _ => false end) by done.
  replace (messages_of ev) with (match get_body ev with PreviousGtidsLogEvent _ ms => snd <$> ms | _ => [] end) by done.
  destruct (get_body ev) eqn:Eb; cbn [reread_body] in *;
    cbn [gs_gtid_log_events gs_rotate_existed gs_previous_gtid_messages gs_last_xid gs_checksum_flag orb app] in *;
    rewrite ?orb_true_r, <-?app_assoc; split_and!; try done.
  intros _. by apply H5.
Qed.

(** The type code of the header and the class agree. *)
Ltac type_by_body ev Ht :=
  destruct (get_body ev) as [e|n m|e|e|e|x|e|e|n]; cbn [body_type_ok] in Ht;
  try destruct (r_rows_event_type e); try apply orb_true_iff in Ht as [Ht|Ht];
  apply Z.eqb_eq in Ht; rewrite Ht; reflexivity.

Lemma wanted_gtid ev : event_ok ev -> wanted GTID_LOG_EVENT ev = is_gtid ev.
Proof.
  intros (_ & _ & Ht & _). unfold wanted, is_gtid. change (GTID_LOG_EVENT =? ENUM_END_EVENT) with false. cbn [orb].
  type_by_body ev Ht.
Qed.

Lemma wanted_previous ev : event_ok ev -> wanted PREVIOUS_GTIDS_LOG_EVENT ev = is_previous_gtids ev.
Proof.
  intros (_ & _ & Ht & _). unfold wanted, is_previous_gtids. change (PREVIOUS_GTIDS_LOG_EVENT =? ENUM_END_EVENT) with false.
  cbn [orb]. type_by_body ev Ht.
Qed.

Lemma filter_wanted t (p : ObLogEvent -> bool) evs :
  (forall ev, event_ok ev -> wanted t ev = p ev) -> Forall event_ok evs ->
  filter (fun ev => wanted t ev = true) evs = filter (fun ev => p ev = true) evs.
Proof.
  intros Hp. induction 1 as [|ev evs Hok _ IH]; [done|]. by rewrite !filter_cons, IH, (Hp ev Hok).
Qed.

Lemma join_messages evs :
  mjoin (messages_of <$> evs) = mjoin (messages_of <$> filter (fun ev => is_previous_gtids ev = true) evs).
Proof.
  induction evs as [|ev evs IH]; [done|]. rewrite filter_cons. cbn [fmap list_fmap]. rewrite join_cons, IH.
  destruct (decide (is_previous_gtids ev = true)) as [E|E]; [by cbn [fmap list_fmap]; rewrite join_cons|].
  unfold is_previous_gtids in E. unfold messages_of at 1. by destruct (get_body ev).
Qed.

(** The last GTID event carries the last GTID. *)
Lemma last_gtid_event evs g :
  last (omap gtid_of evs) = Some g ->
  exists ev e, last (reread <$> filter (fun ev => is_gtid ev = true) evs) = Some ev /\ get_body ev = GtidLogEvent e /\
    gl_gtid_txn_id e = g.
Proof.
  induction evs as [|ev evs IH] using rev_ind; [done|].
  rewrite omap_app, filter_app, fmap_app, filter_cons. cbn [omap list_omap].
  destruct (decide (is_gtid ev = true)) as [E|E]; unfold is_gtid, gtid_of in *; destruct (get_body ev) eqn:Eb; try done;
    try (rewrite !app_nil_r; exact IH).
  rewrite filter_nil. cbn [fmap list_fmap]. rewrite !last_snoc. intros [= <-]. eexists _, _. split; [done|].
  cbn. by rewrite Eb.
Qed.

(** ** A file that can be resumed *)

(** Complete transactions, the last of which has GTID [G], in a file with previous GTIDs
    [ms]. *)
Record resumable (evs : list ObLogEvent) (ms : list GtidMessage) (G : Z) : Prop := {
  ra_complete : exists evs0 e, evs = evs0 ++ [e] /\ ends_trx e = true /\ existsb is_previous_gtids evs0 = true /\
                  open_gtid 0 evs0 = G;
  ra_config : Forall (same_config true) evs;
  ra_previous : exists pe, filter (fun ev => is_previous_gtids ev = true) evs = [pe] /\ messages_of pe = ms;
  ra_last : last (omap gtid_of evs) = Some G;
  ra_no_rotate : existsb is_rotate evs = false
}.

(** Events of a transaction that did not end. *)
Definition unfinished (tail : list ObLogEvent) : Prop :=
  Forall (fun ev => ends_trx ev = false /\ is_previous_gtids ev = false) tail.

Section Recovery.
Context (cfg : storage_config) (rcfg : restart_config) (crc32 : bytes -> Z) (u : bytes) (cfg_ok : config_ok cfg u).
Hypothesis crc_ok : crc32_ok crc32.

(** The disk after a crash: cut back to [evs] the current file would be as the storage
    keeps it, but it goes on with the events [tail] and the bytes [torn]. *)
Record crashed (index : Z) (d : Disk) (rs : list BinlogIndexRecord) (r : BinlogIndexRecord) (evs tail : list ObLogEvent)
    (kept lost torn : bytes) : Prop := {
  cr_inv : disk_inv cfg crc32 index (set_file (path cfg index) (binlog_file kept) d) (rs ++ [r]) evs;
  cr_file : st_files d !! path cfg index = Some (binlog_file ((kept ++ lost) ++ torn));
  cr_kept : flush_all crc32 evs = Done kept;
  cr_all : flush_all crc32 (evs ++ tail) = Done (kept ++ lost);
  cr_chain : chained BINLOG_MAGIC_SIZE (evs ++ tail);
  cr_config : Forall (same_config true) (evs ++ tail);
  cr_tail : unfinished tail;
  cr_torn : torn_at crc32 (EventScan.end_pos BINLOG_MAGIC_SIZE (evs ++ tail)) torn;
  cr_row : record_for cfg index r;
  cr_fuel : (length (evs ++ tail) < rc_fuel rcfg)%nat
}.

(** The row of the index after the repair. *)
Definition repaired_row (r : BinlogIndexRecord) (tail : list ObLogEvent) (size : Z) : BinlogIndexRecord :=
  if open_gtid 0 tail =? 0 then r else set_current_mapping (get_before_mapping r) (set_position size r).

Lemma path_not_nil index : path cfg index <> [].
Proof. done. Qed.

Lemma scan_crashed index d rs r evs tail kept lost torn ms G specify :
  crashed index d rs r evs tail kept lost torn -> resumable evs ms G ->
  exists o, scan_trx cfg rcfg crc32 (path cfg index) specify d = Done (OMS_OK, o) /\
    has_previous_gtids_event o = true /\ last_complete_trx_end_pos o = zlen (binlog_file kept) /\
    last_complete_trx_gtid o = G /\ trx_need_truncated_gtid o = open_gtid 0 tail.
Proof.
  intros [Hinv Hfile Hk Hall Hc Hconf Htail Ht _ Hfuel] [(evs0 & e & -> & He & Hp & <-) Hcf _ _ _].
  pose proof cfg_ok as (Hck & _). unfold scan_trx. rewrite Hfile, Hck.
  destruct (complete_trx_scan crc32 true evs0 e tail kept lost torn (rc_fuel rcfg) specify) as (o & E & H); try done.
  rewrite E. cbn [mbind outcome_bind of_option]. by exists o.
Qed.

Lemma set_file_same name f d : st_files d !! name = Some f -> set_file name f d = d.
Proof. intros H. unfold set_file. rewrite insert_id by done. by destruct d. Qed.

Lemma zlen_kept index d rs r evs tail kept lost torn :
  crashed index d rs r evs tail kept lost torn -> zlen (binlog_file kept) = file_len evs.
Proof.
  intros [_ _ Hk _ Hc _ _ _ _ _]. apply chained_app in Hc as [Hc _]. unfold binlog_file, file_len. rewrite zlen_app.
  rewrite (zlen_flush_all crc32 evs kept) by (done || by eapply chained_ok). done.
Qed.

(** The file is cut back to its complete transactions, and the row says so. *)
Lemma preprocess_crashed index d rs r evs tail kept lost torn ms G :
  crashed index d rs r evs tail kept lost torn -> resumable evs ms G ->
  (get_before_mapping r).2 <= G <= (get_current_mapping r).2 -> 0 < G ->
  get_position r = file_len evs \/ open_gtid 0 tail <> 0 ->
  (open_gtid 0 tail = 0 -> lost ++ torn = []) ->
  exists d', preprocess_breakpoint_binlog cfg rcfg crc32 d = Done (OMS_OK, d') /\
    disk_inv cfg crc32 index d' (rs ++ [repaired_row r tail (file_len evs)]) evs /\
    st_gtid d' = st_gtid d /\ st_files d' = <[path cfg index := binlog_file kept]> (st_files d).
Proof.
  intros Hcr Hres HG HG0 Hpos Hclean. pose proof (zlen_kept _ _ _ _ _ _ _ _ _ Hcr) as Hlen.
  pose proof Hcr as [Hinv Hfile _ _ Hc _ _ _ Hrow _]. pose proof Hrow as (Hrok & Hri & Hrn).
  pose proof Hinv as [Hb _ Hopen _ _ Hidx _].
  unfold preprocess_breakpoint_binlog. rewrite (latest_represented _ rs r) by exact Hidx. cbn [mbind outcome_bind].
  rewrite Hrn. fold (path cfg index). rewrite (proj2 (beq_false _ _) (path_not_nil index)).
  destruct (scan_crashed _ _ _ _ _ _ _ _ _ _ _ (get_before_mapping r).2 Hcr Hres) as (o & -> & Ho1 & Ho2 & Ho3 & Ho4).
  cbn [mbind outcome_bind]. rewrite decide_True, Ho1, Ho3, Ho4 by done. cbn [negb].
  rewrite !(proj2 (Z.leb_le _ _)) by lia. cbn [andb]. unfold repaired_row.
  destruct (Z.eqb_spec (open_gtid 0 tail) 0) as [E0|E0].
  { specialize (Hclean E0). apply app_eq_nil in Hclean as [-> ->]. rewrite !app_nil_r in Hfile.
    rewrite set_file_same in Hinv by done. destruct Hpos as [Hpos|]; [|done].
    unfold file_size. rewrite Hfile, Hpos, <-Hlen, Z.eqb_refl. exists d. split; [done|]. split; [done|].
    split; [done|]. by rewrite insert_id. }
  unfold truncate_incomplete. rewrite Ho2, Ho3, Hrn. fold (path cfg index). rewrite Z.gtb_ltb, (proj2 (Z.ltb_lt 0 G) HG0).
  assert (first (zlen (binlog_file kept)) (binlog_file ((kept ++ lost) ++ torn)) = binlog_file kept) as Hfirst.
  { unfold binlog_file. rewrite <-!app_assoc, (app_assoc binlog_magic). by apply first_app. }
  assert (exists d1, (if zlen (binlog_file kept) <? file_size (path cfg index) d
    then resize_file (path cfg index) (zlen (binlog_file kept)) d else Some d) = Some d1 /\
    d1 = set_file (path cfg index) (binlog_file kept) d) as (d1 & -> & ->).
  { unfold file_size, resize_file. rewrite Hfile. destruct (Z.ltb_spec (zlen (binlog_file kept)) (zlen (binlog_file ((kept ++ lost) ++ torn)))) as [Hlt|Hge].
    - eexists. split; [done|]. f_equal. rewrite <-Hfirst at 2. unfold first. rewrite take_app_le; [done|].
      unfold zlen in *. lia.
    - exists d. split; [done|]. symmetry. apply set_file_same. rewrite Hfile. f_equal. rewrite <-Hfirst.
      by rewrite first_ge by lia. }
  rewrite Hlen. set (r' := set_current_mapping _ _). unfold update_row.
  rewrite (update_index_spec _ (rs ++ [r])) by exact Hidx. cbn [mbind outcome_bind]. eexists. split; [done|].
  rewrite removelast_last.
  assert (record_ok r') as Hok.
  { destruct Hrok as (H1 & H2 & H3 & H4 & H5 & H6). unfold r', record_ok. cbn. split_and!; try done.
    apply chained_app in Hc as [Hc _]. apply chained_end_u32 in Hc; [|by destruct Hopen as [_ Ho]; destruct evs].
    unfold file_len, is_i63, is_u32, LLONG_MAX in *. lia. }
  split; [|done].
  destruct Hinv as [H1 H2 H3 H4 H5 [_ H6] H7]. split; try done. split; [done|].
  apply Forall_app in H6 as [H6 _]. apply Forall_app. split; [done|]. by constructor.
Qed.

(** *** The GTID variables *)

(** A file whose previous GTIDs can be read. *)
Definition has_previous (d : Disk) (name : bytes) (ms : list GtidMessage) : Prop :=
  exists evs pe, holds crc32 d name evs /\ chained BINLOG_MAGIC_SIZE evs /\ Forall (same_config true) evs /\
    (length evs < rc_fuel rcfg)%nat /\ filter (fun ev => is_previous_gtids ev = true) evs = [pe] /\ messages_of pe = ms.

Abbreviation scan := (scan_file (c_binlog_checksum cfg) (rc_fuel rcfg)).

Lemma scan_file_written d name evs t single :
  holds crc32 d name evs -> chained BINLOG_MAGIC_SIZE evs -> Forall (same_config true) evs -> (length evs < rc_fuel rcfg)%nat ->
  Forall (fun ev => wanted t ev = true -> readable (get_body ev) = true) evs ->
  scan (fun n => st_files d !! n) name t single = Done (OMS_OK, sought t single evs).
Proof.
  intros (body & Eb & Ef) Hc Hconf Hfuel Hr. pose proof cfg_ok as (Hck & _). unfold scan_file. rewrite Ef, Hck.
  cbn [of_option mbind outcome_bind]. by rewrite (seek_events_ok crc32 true evs body).
Qed.

Lemma previous_set_written d name ms acc :
  has_previous d name ms ->
  get_previous_gtid_set (c_binlog_checksum cfg) (rc_fuel rcfg) (fun n => st_files d !! n) name acc = Done (OMS_OK, acc ++ ms).
Proof.
  intros (evs & pe & Hh & Hc & Hconf & Hfuel & Hp & <-). pose proof (chained_ok _ _ Hc) as Hok.
  unfold get_previous_gtid_set. rewrite (scan_file_written d name evs) by
    (done || (apply Forall_forall; intros ev Hev; eapply Forall_forall in Hok; [|exact Hev]; rewrite wanted_previous by done;
              unfold is_previous_gtids; by destruct (get_body ev))).
  cbn [mbind outcome_bind]. rewrite decide_True by done. unfold sought.
  rewrite (filter_wanted _ is_previous_gtids) by (done || apply wanted_previous). rewrite Hp. cbn [fmap list_fmap take].
  assert (is_previous_gtids pe = true) as Hpe.
  { assert (pe ∈ filter (fun ev => is_previous_gtids ev = true) evs) as Hin by (rewrite Hp; by left).
    by apply list_elem_of_filter in Hin as [? _]. }
  unfold is_previous_gtids, messages_of in *. cbn [reread get_body].
  by destruct (get_body pe); cbn [reread_body].
Qed.

Lemma gtid_events_written d name evs :
  holds crc32 d name evs -> chained BINLOG_MAGIC_SIZE evs -> Forall (same_config true) evs -> (length evs < rc_fuel rcfg)%nat ->
  scan (fun n => st_files d !! n) name GTID_LOG_EVENT false
  = Done (OMS_OK, reread <$> filter (fun ev => is_gtid ev = true) evs).
Proof.
  intros Hh Hc Hconf Hfuel. pose proof (chained_ok _ _ Hc) as Hok. rewrite (scan_file_written d name evs) by
    (done || (apply Forall_forall; intros ev Hev; eapply Forall_forall in Hok; [|exact Hev]; rewrite wanted_gtid by done;
              unfold is_gtid; by destruct (get_body ev))).
  unfold sought. by rewrite (filter_wanted _ is_gtid) by (done || apply wanted_gtid).
Qed.

Lemma variables_resumed index d rs r evs ms G first_ms g :
  disk_inv cfg crc32 index d (rs ++ [r]) evs -> record_for cfg index r -> resumable evs ms G -> 0 < G ->
  (length evs < rc_fuel rcfg)%nat -> Forall has_uuid ms -> Forall has_uuid first_ms ->
  has_previous d (get_file_name (hd r rs)) first_ms ->
  gtid_purged_set g = [] -> gtid_executed_set g = [] ->
  exists previous text g', merge_gtid_before (master_server_uuid (c_gtid cfg)) ms (1, G) = Done previous /\
    gtid_set_str previous = Done text /\
    init_gtid_variables (c_gtid cfg) (c_binlog_checksum cfg) (rc_fuel rcfg) (fun n => st_files d !! n) (rs ++ [r]) g = Done (OMS_OK, g') /\
    Forall has_uuid (gtid_purged_set g') /\ Forall has_uuid (gtid_executed_set g') /\ var_gtid_executed g' = text /\
    gtid_seq_set g' = gtid_seq_set g.
Proof.
  intros Hinv (_ & _ & Hname) [Hcomp Hconf (pe & Hpe & Hms) Hlast _] HG Hfuel Hu1 Hu2 Hfirst Hgp Hge.
  pose proof cfg_ok as (_ & _ & _ & _ & Hu & Huu & _). pose proof Hinv as [_ _ [Hc _] Hh _ _ _].
  destruct (merge_gtid_before_total u (1, G) ms Hu Hu1) as (previous & Em & Hprev).
  destruct (gtid_set_str_total _ Hprev) as [text Et]. destruct (gtid_set_str_total _ Hu2) as [ptext Ept].
  exists previous, text. rewrite Huu. unfold init_gtid_variables. rewrite Hgp, Hge.
  assert (init_gtid_sets (c_gtid cfg) (c_binlog_checksum cfg) (rc_fuel rcfg) (fun n => st_files d !! n) (rs ++ [r]) [] []
    = Done (Some (first_ms, previous))) as E.
  { unfold init_gtid_sets. destruct (rs ++ [r]) as [|r0 rest] eqn:Er; [by destruct rs|].
    assert (r0 = hd r rs) as -> by (destruct rs; cbn in Er; by injection Er as -> _).
    replace (List.last (hd r rs :: rest) (hd r rs)) with r by (rewrite <-Er; symmetry; apply List.last_last).
    rewrite (previous_set_written d (get_file_name (hd r rs)) first_ms [] Hfirst). cbn [mbind outcome_bind]. rewrite decide_True by done.
    rewrite Hname. fold (path cfg index).
    rewrite (previous_set_written d (path cfg index) ms) by (by exists evs, pe). cbn [mbind outcome_bind].
    rewrite decide_True by done. rewrite (gtid_events_written d (path cfg index) evs) by done. cbn [mbind outcome_bind].
    rewrite decide_True by done. unfold last_gtid_of. destruct (last_gtid_event _ _ Hlast) as (ev & e & -> & -> & ->).
    cbn [mbind outcome_bind app]. rewrite (proj2 (Z.ltb_lt 0 G) HG), Huu, Em. done. }
  rewrite E. cbn [mbind outcome_bind]. rewrite Ept. cbn [mbind outcome_bind]. rewrite Et. cbn [mbind outcome_bind].
  eexists. done.
Qed.

(** *** Where conversion resumes *)

(** The cached checkpoints: none at all, or one at or before [G]. *)
Definition usable (G : Z) (cache : list (Z * bytes)) : Prop :=
  Forall (fun e => is_u32 (get_commit_version_start (deserialize empty_seq e.2))) cache /\
  (cache = [] \/ Exists (fun e => le_gtid G (deserialize empty_seq e.2) = true) cache).

(** Either transaction [G] is awaited and passed over, or a heartbeat after it is where
    conversion resumes; both ways the next transaction gets [G + 1]. *)
Definition resumed (G : Z) (id : bytes) (a a' : Allocator) : Prop :=
  a_xid a' = a_xid a /\ a_first_gtid_seq a' = a_first_gtid_seq a /\ a_last_record_ts a' = a_last_record_ts a /\
  a_previous_gtid_messages a' = a_previous_gtid_messages a /\
  ((a_txn_gtid_seq a' = G /\ a_txn_mapping a' = (id, G) /\
    a_filter_util_checkpoint_trx a' = a_filter_util_checkpoint_trx a /\
    a_filter_checkpoint_trx a' = a_filter_checkpoint_trx a) \/
   (a_txn_gtid_seq a' = G + 1 /\ a_filter_util_checkpoint_trx a' = false /\ a_filter_checkpoint_trx a' = false)).

Lemma init_restart_ok r trx_ts a d ts G :
  a_txn_gtid_seq a = G -> (get_current_mapping r).2 = G -> (get_current_mapping r).1 <> [] -> 0 < G < LLONG_MAX ->
  is_u32 (BinlogIndex.get_checkpoint r) -> usable G (gtid_seq_set (st_gtid d)) ->
  exists a' ts', init_restart_point cfg rcfg r trx_ts (mkInstance a d ts) = (OMS_OK, mkInstance a' d ts') /\
    is_u32 ts' /\ resumed G (get_current_mapping r).1 a a'.
Proof.
  intros Ha Hr Hid HG Hcp [Hts Hcache]. unfold init_restart_point. cbn [i_alloc i_disk]. unfold get_latest_gtid_seq.
  destruct (last (gtid_seq_set (st_gtid d))) as [e|] eqn:El.
  - assert (e ∈ gtid_seq_set (st_gtid d)) as He by (by apply last_Some_elem_of).
    assert (is_u32 (get_commit_version_start (deserialize empty_seq e.2))) as Hets by (by eapply Forall_forall in Hts).
    destruct (heartbeat_restart _ _ _ _ _ _) eqn:Eh.
    { unfold heartbeat_restart in Eh. rewrite !andb_true_iff in Eh. destruct Eh as [[[[_ _] Eg] _] _]. apply Z.eqb_eq in Eg.
      eexists _, _. split; [done|]. split; [done|]. rewrite Eg, Hr.
      rewrite u64_id by (unfold is_u64, LLONG_MAX in *; lia). do 4 (split; [done|]). by right. }
    unfold matched_mapping. rewrite Ha, Hr, Z.eqb_refl. cbn [fst]. rewrite (proj2 (beq_false _ _) Hid).
    rewrite decide_False by done. unfold get_first_le_gtid_seq.
    destruct (list_find _ _) as [[i e']|] eqn:Ef.
    + rewrite decide_True by done. eexists _, _. split; [done|]. apply list_find_Some in Ef as (Ei & _ & _).
      split.
      { apply list_elem_of_lookup_2, list_elem_of_In, in_rev, list_elem_of_In in Ei. by eapply Forall_forall in Hts. }
      do 4 (split; [done|]). by left.
    + apply list_find_None in Ef. destruct Hcache as [Hnil|Hex]; [by rewrite Hnil in El|]. apply Exists_exists in Hex as (x & Hx & Hle).
      exfalso. rewrite Forall_forall in Ef. apply (Ef x); [|done]. by rewrite list_elem_of_In, <-in_rev, <-list_elem_of_In.
  - unfold heartbeat_restart. rewrite bool_decide_false by done. cbn [andb].
    unfold matched_mapping. rewrite Ha, Hr, Z.eqb_refl. cbn [fst]. rewrite (proj2 (beq_false _ _) Hid).
    rewrite decide_True by done. eexists _, _. split; [done|]. split; [done|]. do 4 (split; [done|]). by left.
Qed.

(** The scan of the last file leads to [init_restart_point] with its last GTID. *)
Lemma resume_scan index d rs r evs ms G g ts :
  disk_inv cfg crc32 index d (rs ++ [r]) evs -> record_for cfg index r -> resumable evs ms G -> (length evs < rc_fuel rcfg)%nat ->
  exists e a, a_txn_gtid_seq a = G /\ a_xid a = last_xid 0 evs /\ a_previous_gtid_messages a = ms /\
    a_first_gtid_seq a = 1 /\ a_last_record_ts a = 0 /\
    a_filter_util_checkpoint_trx a = true /\ a_filter_checkpoint_trx a = true /\
    resume cfg rcfg r (mkInstance (new_allocator g) d ts)
    = let '(v, st) := init_restart_point cfg rcfg r (gl_last_committed e) (mkInstance a d ts) in
      if decide (v = OMS_OK) then Done (Some (st, false, CRC32)) else Done None.
Proof.
  intros Hinv (_ & _ & Hname) [_ Hconf (pe & Hpe & Hms) Hlast Hrot] Hfuel.
  pose proof Hinv as [_ _ [Hc _] (body & Eb & Ef) _ _ _]. pose proof cfg_ok as (Hck & _).
  unfold resume. cbn [i_alloc i_disk]. rewrite Hname. fold (path cfg index). rewrite Ef, Hck.
  replace (binlog_file body) with (binlog_file (body ++ [])) by (by rewrite app_nil_r).
  rewrite (seek_gtid_event_ok crc32 true evs body) by (done || (cbn; unfold COMMON_HEADER_LENGTH; lia)).
  cbn [mbind outcome_bind]. rewrite decide_True by done. unfold file_size. rewrite Ef.
  rewrite (Z.eqb_refl (zlen (binlog_file body))). rewrite andb_false_r.
  set (s0 := mkGtidScan _ _ _ _ _). destruct (scan_fold evs s0 Hconf) as (-> & -> & -> & -> & ->); [|done].
  cbn [gs_gtid_log_events gs_rotate_existed gs_previous_gtid_messages gs_last_xid s0 app orb new_allocator a_xid a_previous_gtid_messages].
  rewrite Hrot. destruct (last_gtid_event _ _ Hlast) as (ev & e & -> & -> & He). rewrite He.
  exists e. eexists. split; [|split; [|split; [|split; [|split; [|split; [|split; [|reflexivity]]]]]]]; try done.
  cbn. rewrite join_messages, Hpe, <-Hms. cbn. by rewrite app_nil_r.
Qed.

Lemma resume_ok index d rs r evs ms G g ts :
  disk_inv cfg crc32 index d (rs ++ [r]) evs -> record_for cfg index r -> resumable evs ms G ->
  (length evs < rc_fuel rcfg)%nat -> (get_current_mapping r).2 = G -> (get_current_mapping r).1 <> [] -> 0 < G < LLONG_MAX ->
  is_u32 (BinlogIndex.get_checkpoint r) -> usable G (gtid_seq_set (st_gtid d)) ->
  exists a ts', resume cfg rcfg r (mkInstance (new_allocator g) d ts) = Done (Some (mkInstance a d ts', false, CRC32)) /\
    is_u32 ts' /\ a_xid a = last_xid 0 evs /\ a_first_gtid_seq a = 1 /\ a_last_record_ts a = 0 /\
    a_previous_gtid_messages a = ms /\
    ((a_txn_gtid_seq a = G /\ a_txn_mapping a = get_current_mapping r /\
      a_filter_util_checkpoint_trx a = true /\ a_filter_checkpoint_trx a = true) \/
     (a_txn_gtid_seq a = G + 1 /\ a_filter_util_checkpoint_trx a = false /\ a_filter_checkpoint_trx a = false)).
Proof.
  intros Hinv Hrow Hres Hfuel Hr Hid HG Hcp Hus.
  destruct (resume_scan index d rs r evs ms G g ts Hinv Hrow Hres Hfuel) as (e & a & A1 & A2 & A3 & A4 & A5 & A6 & A7 & ->).
  destruct (init_restart_ok r (gl_last_committed e) a d ts G A1 Hr Hid HG Hcp Hus) as (a' & ts' & E & Hts & H1 & H2 & H3 & H4 & H5).
  rewrite E. rewrite decide_True by done. exists a', ts'. split; [done|]. split; [done|].
  rewrite H1, H2, H3, H4. do 4 (split; [done|]).
  destruct H5 as [(H5 & H6 & H7 & H8)|H5]; [left|by right]. rewrite H5, H6, H7, H8. split; [done|]. split; [|done].
  rewrite <-Hr. by destruct (get_current_mapping r).
Qed.

(** *** The rotation *)

(** After the purge, the rotation of a restart is the one of the pipeline: the rotate
    event is appended and indexed, the file is closed, the next one is opened. *)
Lemma rotate_as_pipeline rot e r d index bs :
  get_body rot = RotateEvent e -> ro_op e = ROTATE -> ro_existed e = false -> flush_to_buff crc32 rot = Done bs ->
  ro_index e = index + 1 -> 0 <= index < LLONG_MAX ->
  (forall r' d', persistent_binlog cfg bs r d = Done (r', d') -> st_file_name d' = path cfg index) ->
  ('(r, d) ← rotate_current_binlog cfg crc32 rot e r d; d ← init_binlog_file cfg crc32 rot e d;
   '(_, d) ← add_next_binlog_index r e d; Done d)
  = ('(r, d) ← persistent_binlog cfg bs r d; '(_, d) ← init_next_binlog_file cfg crc32 rot r d; Done d).
Proof.
  intros Eb Eo Ex Ef Ei Hi Hname. unfold rotate_current_binlog. rewrite Ex, Ef. cbn [mbind outcome_bind].
  unfold persistent_binlog in *. destruct (update_index_record _ _ _) as [[r' d']|]; [|done]. cbn [mbind outcome_bind].
  rewrite (Hname r' d' eq_refl). unfold init_next_binlog_file. rewrite Eb, Ei.
  rewrite u64_id by (unfold is_u64, LLONG_MAX in *; lia). replace (index + 1 - 1) with index by lia. fold (path cfg index).
  destruct (clear_in_use _ _) as [d1|]; [|done]. cbn [mbind outcome_bind]. unfold init_binlog_file.
  by destruct (binlog_head _ _ _ _).
Qed.

Lemma rotate_ok now_s index d rs r evs rot e :
  disk_inv cfg crc32 index d (rs ++ [r]) evs -> rows_ok cfg index rs r -> Forall has_uuid (gtid_purged_set (st_gtid d)) ->
  get_body rot = RotateEvent e -> ro_op e = ROTATE -> ro_existed e = false -> event_ok rot -> rotates_to cfg (index + 1) rot ->
  chained (file_len evs) [rot] -> head_fits rot -> index + 1 <= LLONG_MAX ->
  exists n d' closed row, rotate cfg rcfg crc32 now_s rot r d = Done d' /\
    disk_inv cfg crc32 (index + 1) d' (drop n rs ++ [closed; row]) (head_of cfg rot) /\
    row_for cfg index (evs ++ [rot]) closed /\ row_for cfg (index + 1) (head_of cfg rot) row /\
    holds crc32 d' (path cfg index) (close (evs ++ [rot])) /\
    (forall i, (i < length rs)%nat -> (i < n)%nat <->
       should_purge now_s (binlog_expire_logs_seconds (c_gtid cfg)) (rc_binlog_expire_logs_size rcfg) rs i) /\
    (forall name, name <> path cfg index -> name <> path cfg (index + 1) ->
       st_files d' !! name = if decide (name ∈ get_file_name <$> take n rs) then None else st_files d !! name).
Proof.
  intros Hd Hrows Hp Eb Eo Ex Hok Hto Hc Hfit Hb. pose proof Hrows as (Hrow & Hpos & _).
  unfold rotate. rewrite Eb, Eo.
  destruct (purge_expired_ok cfg crc32 u cfg_ok (rc_binlog_expire_logs_size rcfg) now_s index rs r evs d Hd Hrows Hp)
    as (n & d1 & -> & [Hd1 Hfiles Hrule _ _ _]). cbn [mbind outcome_bind].
  destruct (flush_length crc32 rot Hok) as (bs & Ebs & _).
  assert (flush_all crc32 [rot] = Done bs) as Eall by (cbn [flush_all]; rewrite Ebs; cbn; by rewrite app_nil_r).
  destruct (persistent_binlog_ok cfg crc32 u cfg_ok index d1 _ evs [rot] bs r Hd1 Hrow Hc Eall) as (d2 & r2 & E2 & Hr2 & Hd2 & Hs2).
  assert (ro_index e = index + 1) as Ei by (destruct Hto as (e' & Eb' & ? & _); congruence).
  rewrite (rotate_as_pipeline rot e r d1 index bs Eb Eo Ex Ebs Ei ltac:(lia)).
  2: { intros r' d' E. rewrite E2 in E. apply Done_inj in E. injection E as <- <-. by destruct Hd2. }
  rewrite E2. cbn [mbind outcome_bind]. rewrite removelast_last in Hd2.
  destruct (init_next_binlog_file_ok cfg crc32 u cfg_ok index d2 _ _ rot r2 Hd2 (proj1 Hr2) Hok Hto Hfit Hb)
    as (d3 & r3 & -> & Hr3 & Hd3 & Hcl & Hs3). cbn [mbind outcome_bind].
  exists n, d3, r2, r3. split; [done|]. rewrite <-app_assoc in Hd3. do 5 (split; [done|]).
  intros name H1 H2. rewrite (Hs3 name), (Hs2 name), Hfiles; [done|..]; intros j Hj.
  - replace j with index by lia. done.
  - destruct (decide (j = index)) as [->|]; [done|]. by replace j with (index + 1) by lia.
Qed.

Definition the_rotate (index size ts : Z) (previous : list GtidMessage) : ObLogEvent :=
  recovery_rotate cfg (index + 1) (index + 1) size ROTATE false CRC32 ts previous.

Lemma the_rotate_ok index size ts previous :
  is_u32 ts -> 0 <= size -> size + 600 < 2 ^ 32 -> 0 <= index -> Forall message_sane previous ->
  NoDup (uuid_key <$> previous) -> 155 + gtids_size previous <= 1024 ->
  let rot := the_rotate index size ts previous in
  event_ok rot /\ rotates_to cfg (index + 1) rot /\ chained size [rot] /\ head_fits rot /\ next_gtids rot = previous /\
  h_timestamp (get_header rot) = ts /\ is_rotate rot = true /\
  get_body rot = RotateEvent (mkRotate BINLOG_MAGIC_SIZE (binlog_name cfg (index + 1)) (index + 1) previous ROTATE false).
Proof.
  intros Hts Hs0 Hs Hi Hm Hnd Hfit. pose proof cfg_ok as (Hck & Hsid & _).
  pose proof (zlen_binlog_name cfg u (index + 1) cfg_ok) as Hname.
  unfold the_rotate, recovery_rotate. rewrite Hck. cbn zeta. cbn [get_checksum_flag set_body set_header]. change (CRC32 =? OFF) with false. cbn [andb].
  rewrite u32_id by (unfold is_u32; lia).
  destruct (new_rotate_header cfg BINLOG_MAGIC_SIZE (binlog_name cfg (index + 1)) ts size (index + 1) ROTATE Hname Hts Hs0 Hs) as (Hl & Hn & Ht).
  assert (event_ok (new_rotate true (c_server_id cfg) BINLOG_MAGIC_SIZE (binlog_name cfg (index + 1)) ts size (index + 1) ROTATE)) as Hok
    by (apply new_rotate_ok; done || lia).
  set (ev := new_rotate _ _ _ _ _ _ _ _) in *.
  assert (u64 ts = ts) as Ets by (apply u64_id; unfold is_u64, is_u32 in *; lia).
  set (rot := set_body _ _).
  assert (event_ok rot) as Hrot.
  { destruct Hok as ((H1 & H2) & H3 & H4 & H5 & H6). split; [|exact (conj H3 (conj H4 (conj H5 H6)))].
    split; [|exact H2]. cbn. rewrite Ets. exact Hts. }
  split; [done|]. split.
  { eexists. split; [reflexivity|]. do 5 (split; [done|]). cbn [ro_next_previous_gtids]. split; [lia|]. by rewrite Hck. }
  split; [|split; [done|split; [done|split; [exact Ets|done]]]].
  split; [done|]. split; [|done]. exact Hn.
Qed.

(** *** The instance after a restart *)

(** [n] expired files are gone, file [index] is closed with a rotate event, file
    [index + 1] is open and begins with the GTIDs executed so far. *)
Record restarted (index : Z) (rs : list BinlogIndexRecord) (evs : list ObLogEvent) (id : bytes) (G k now_s : Z) (d : Disk)
    (st : BinlogInstance) (n : nat) (rot : ObLogEvent) : Prop := {
  rt_rows : exists closed row,
    pipeline_inv cfg crc32 k (i_alloc st) (i_disk st) (drop n rs ++ [closed; row]) (head_of cfg rot) /\
    row_for cfg index (evs ++ [rot]) closed /\ row_for cfg (index + 1) (head_of cfg rot) row;
  rt_index : a_binlog_file_index (i_alloc st) = index + 1;
  rt_closed : holds crc32 (i_disk st) (path cfg index) (close (evs ++ [rot])) /\ is_rotate rot = true;
  rt_purged : forall i, (i < length rs)%nat -> (i < n)%nat <->
    should_purge now_s (binlog_expire_logs_seconds (c_gtid cfg)) (rc_binlog_expire_logs_size rcfg) rs i;
  rt_files : forall name, name <> path cfg index -> name <> path cfg (index + 1) ->
    st_files (i_disk st) !! name = if decide (name ∈ get_file_name <$> take n rs) then None else st_files d !! name;
  rt_xid : a_xid (i_alloc st) = last_xid 0 evs;
  rt_next : (a_txn_gtid_seq (i_alloc st) = G /\ a_txn_mapping (i_alloc st) = (id, G) /\
             a_filter_util_checkpoint_trx (i_alloc st) = true /\ a_filter_checkpoint_trx (i_alloc st) = true) \/
            (a_txn_gtid_seq (i_alloc st) = G + 1 /\ a_filter_util_checkpoint_trx (i_alloc st) = false)
}.

(** Room in the numbers: GTIDs, file indexes, the position in the file and the previous
    GTIDs the next head can hold. *)
Record fits (index : Z) (evs : list ObLogEvent) (ms : list GtidMessage) (G k : Z) : Prop := {
  ft_k : 0 <= k <= 2 ^ 25;
  ft_gtid : 0 < G /\ G + 1 + k <= LLONG_MAX;
  ft_index : index + 1 + k <= LLONG_MAX;
  ft_pos : file_len evs + 600 < 2 ^ 32;
  ft_room : Forall (room k) ms;
  ft_distinct : NoDup (uuid_key <$> ms);
  ft_size : 195 + gtids_size ms <= 1024
}.

Lemma file_len_pos evs : Forall event_ok evs -> 4 <= file_len evs.
Proof. intros H. unfold file_len, BINLOG_MAGIC_SIZE. pose proof (sum_len_pos crc32 evs H). pose proof (zlen_nonneg evs). lia. Qed.

Lemma recover_ok now_s ts index d rs r evs ms G k previous text :
  disk_inv cfg crc32 index d (rs ++ [r]) evs -> rows_ok cfg index rs r -> resumable evs ms G -> fits index evs ms G k ->
  (length evs < rc_fuel rcfg)%nat -> get_position r = file_len evs ->
  (get_current_mapping r).2 = G -> (get_current_mapping r).1 <> [] ->
  is_u32 (BinlogIndex.get_checkpoint r) -> usable G (gtid_seq_set (st_gtid d)) ->
  Forall has_uuid (gtid_purged_set (st_gtid d)) ->
  merge_gtid_before (master_server_uuid (c_gtid cfg)) ms (1, G) = Done previous -> gtid_set_str previous = Done text ->
  var_gtid_executed (st_gtid d) = text ->
  exists st st' n rot, storage_init cfg rcfg crc32 now_s (mkInstance (new_allocator (st_gtid d)) d ts) = Done (OMS_OK, st) /\
    run_start st = Done (OMS_OK, st') /\
    restarted index rs evs (get_current_mapping r).1 G k now_s d st' n rot /\ next_gtids rot = previous.
Proof.
  intros Hd Hrows Hres [Hk HG Hi Hpos Hroom Hnd Hsz] Hfuel Hp Hr Hid Hcp Hus Hpg Em Et Hv.
  pose proof Hrows as (Hrow & Hpos0 & _). pose proof Hrow as (_ & Hri & Hrn). pose proof Hd as [Hb Hn [Hch _] _ _ Hidx Hge].
  pose proof cfg_ok as (Hck & _ & _ & _ & Hu & Huu & _). pose proof (file_len_pos evs (chained_ok _ _ Hch)) as H4.
  assert (st_files d !! path cfg index <> None) as Hsome by (destruct Hd as [_ _ _ (b & _ & ->) _ _ _]; done).
  assert (file_size (path cfg index) d = file_len evs) as Hsize.
  { destruct Hd as [_ _ _ (b & Eb & Ef) _ _ _]. unfold file_size. rewrite Ef. unfold binlog_file, file_len. rewrite zlen_app.
    by rewrite (zlen_flush_all crc32 evs b) by (done || by eapply chained_ok). }
  destruct (merge_gtid_before_sane u (1, G) k ltac:(unfold range_ok, is_u64, LLONG_MAX in *; cbn; lia) ltac:(cbn; lia) ltac:(lia) ms Hu Hroom Hnd)
    as (ms' & Em' & Hms' & Hnd' & Hsz'). rewrite <-Huu, Em in Em'. apply Done_inj in Em' as <-.
  destruct (resume_ok index d rs r evs ms G (st_gtid d) ts Hd Hrow Hres Hfuel Hr Hid ltac:(lia) Hcp Hus)
    as (a & ts' & Eres & Hts & Hx & Hf & Hlr & Hprev & Hnext).
  assert (Forall message_sane previous) as Hsane by (eapply Forall_impl; [exact Hms'|]; by intros m []).
  destruct (the_rotate_ok index (file_len evs) ts' previous Hts ltac:(lia) Hpos ltac:(lia) Hsane Hnd' ltac:(lia))
    as (Hok & Hto & Hc & Hfit & Hng & _ & Hir & Eb).
  set (rot := the_rotate index (file_len evs) ts' previous) in *.
  set (d1 := with_gtids (init_start_timestamp ts' (st_gtid d)) d).
  assert (disk_inv cfg crc32 index d1 (rs ++ [r]) evs) as Hd1 by (destruct Hd; by split).
  destruct (rotate_ok now_s index d1 rs r evs rot _ Hd1 Hrows Hpg Eb eq_refl eq_refl Hok Hto Hc Hfit ltac:(lia))
    as (n & d' & closed & row & Erot & Hd' & Hcl & Hrw & Hholds & Hrule & Hfiles).
  set (a' := with_new_file (index + 1) (start_pos cfg previous) (with_previous previous a)).
  assert (get_latest_index (st_index d') empty_record = Done (OMS_OK, row)) as Elast.
  { apply (latest_represented _ (drop n rs ++ [closed])). rewrite <-app_assoc. by destruct Hd'. }
  exists (mkInstance a' d' ts'), (mkInstance (with_index_record row (st_gtid d') a') d' ts'), n, rot. split; [|split; [|split; [|done]]].
  - unfold storage_init. cbn [i_disk i_alloc i_start_timestamp]. rewrite (latest_represented _ rs r) by done.
    cbn [mbind outcome_bind]. rewrite Hrn. fold (path cfg index). destruct (path cfg index) as [|c0 l0] eqn:Epath; [by destruct (path_not_nil index)|].
    assert (set_current_file (c0 :: l0) d = d) as -> by (rewrite <-Hn; by destruct d).
    unfold recover_safely. cbn [i_disk]. rewrite (latest_represented _ rs r) by done. cbn [mbind outcome_bind].
    rewrite Hrn. fold (path cfg index). rewrite Epath, Hsize. rewrite (proj2 (Z.eqb_neq (get_position r) 0)) by lia.
    rewrite orb_false_r. change (beq (c0 :: l0) []) with false. rewrite Eres. cbn [mbind outcome_bind i_alloc i_disk i_start_timestamp].
    rewrite Hf, Hprev.
    assert ((if a_filter_util_checkpoint_trx a && a_filter_checkpoint_trx a then a_txn_gtid_seq a else u64 (a_txn_gtid_seq a - 1)) = G) as ->.
    { destruct Hnext as [(-> & _ & -> & ->)|(-> & -> & _)]; [done|]. cbn [andb]. rewrite u64_id by (unfold is_u64, LLONG_MAX in *; lia). lia. }
    rewrite Em. cbn [mbind outcome_bind]. rewrite Et. cbn [mbind outcome_bind]. rewrite Hv.
    assert (strcmp_eq text text = true) as -> by (unfold strcmp_eq; apply beq_refl).
    rewrite Hri. rewrite (u64_id (index + 1)) by (unfold is_u64, LLONG_MAX in *; lia).
    fold (the_rotate index (file_len evs) ts' previous). fold rot. fold d1. rewrite Erot. done.
  - unfold run_start. cbn [i_disk i_alloc i_start_timestamp]. rewrite Elast. cbn [mbind outcome_bind].
    destruct Hrw as [(_ & _ & Hname) _]. rewrite Hname. fold (path cfg (index + 1)).
    by destruct (path cfg (index + 1)) eqn:E; [destruct (path_not_nil (index + 1))|].
  - split; cbn [i_alloc i_disk]; try done.
    + exists closed, row. split; [|done]. split; cbn [a_binlog_file_index with_index_record with_new_file a_cur_pos a']; [|done|].
      * split; cbn [a_txn_gtid_seq a_first_gtid_seq a_last_record_ts a_binlog_file_index a_index_record a_previous_gtid_messages
          a_gtid with_index_record a' with_new_file with_previous]; try done; try lia.
        -- by rewrite Hlr.
        -- by destruct Hrw.
        -- by destruct Hd'.
      * rewrite <-Hng. symmetry. by destruct (head_of_ok cfg crc32 u cfg_ok (index + 1) rot Hok Hto Hfit) as (? & _ & _ & _ & ->).
    + cbn [a_txn_gtid_seq a_txn_mapping a_filter_util_checkpoint_trx a_filter_checkpoint_trx with_index_record a' with_new_file with_previous].
      destruct Hnext as [(H1 & H2 & H3)|(H1 & H2 & _)]; [left|by right]. split; [done|]. split; [|done].
      rewrite H2, <-Hr. by destruct (get_current_mapping r).
Qed.

End Recovery.

Lemma crashed_gtids cfg rcfg crc32 index d rs r evs tail kept lost torn g :
  Forall has_uuid (gtid_executed_set g) -> crashed cfg rcfg crc32 index d rs r evs tail kept lost torn ->
  crashed cfg rcfg crc32 index (with_gtids g d) rs r evs tail kept lost torn.
Proof. intros Hg [[H1 H2 H3 H4 H5 H6 _] H7 H8 H9 H10 H11 H12 H13 H14 H15]. by split. Qed.

Lemma init_gtid_seq_sets cfg now_s f :
  let g := init_gtid_seq cfg now_s (new_gtid_manager f) in gtid_purged_set g = [] /\ gtid_executed_set g = [].
Proof. unfold init_gtid_seq. destruct f as [f|]; [|done]. cbn [gtid_seq_file new_gtid_manager]. by destruct (init_loop _ _ _ _ _ _). Qed.

(** The start up to the initialisation of the storage: the repaired disk and the GTID
    variables read back from it. *)
Lemma start_prepared cfg rcfg crc32 u now_s ts index d rs r evs tail kept lost torn ms first_ms G k f :
  config_ok cfg u -> crc32_ok crc32 ->
  crashed cfg rcfg crc32 index d rs r evs tail kept lost torn -> resumable evs ms G -> fits index evs ms G k ->
  (get_before_mapping r).2 <= G <= (get_current_mapping r).2 -> get_position r = file_len evs \/ open_gtid 0 tail <> 0 ->
  (open_gtid 0 tail = 0 -> lost ++ torn = []) -> rows_ok cfg index rs (repaired_row r tail (file_len evs)) ->
  st_gtid d = new_gtid_manager f ->
  has_previous rcfg crc32 (set_file (path cfg index) (binlog_file kept) d) (get_file_name (hd r rs)) first_ms ->
  Forall has_uuid first_ms ->
  let g0 := init_gtid_seq (c_gtid cfg) now_s (st_gtid d) in
  exists d1 d2 previous text,
    preprocess_breakpoint_binlog cfg rcfg crc32 (with_gtids g0 d) = Done (OMS_OK, d1) /\ holds crc32 d1 (path cfg index) evs /\
    start_instance cfg rcfg crc32 now_s d ts
    = ('(v, st) ← storage_init cfg rcfg crc32 now_s (mkInstance (new_allocator (st_gtid d2)) d2 ts);
       if decide (v = OMS_OK) then run_start st else Done (v, st)) /\
    disk_inv cfg crc32 index d2 (rs ++ [repaired_row r tail (file_len evs)]) evs /\
    st_files d2 = <[path cfg index := binlog_file kept]> (st_files d) /\
    merge_gtid_before (master_server_uuid (c_gtid cfg)) ms (1, G) = Done previous /\ gtid_set_str previous = Done text /\
    var_gtid_executed (st_gtid d2) = text /\ Forall has_uuid (gtid_purged_set (st_gtid d2)) /\
    gtid_seq_set (st_gtid d2) = gtid_seq_set g0 /\ (length evs < rc_fuel rcfg)%nat.
Proof.
  intros Hcfg Hcrc Hcr Hres Hfits HG1 Hpos Hclean Hrows Hg Hfirst Hfu g0. set (r' := repaired_row r tail (file_len evs)) in *.
  pose proof Hfits as [Hk HG _ _ Hroom _ _]. pose proof (init_gtid_seq_sets (c_gtid cfg) now_s f) as [Hgp Hge].
  unfold start_instance. fold g0. rewrite <-Hg in Hgp, Hge. fold g0 in Hgp, Hge.
  apply (crashed_gtids _ _ _ _ _ _ _ _ _ _ _ _ g0) in Hcr; [|by rewrite Hge].
  assert ((length evs < rc_fuel rcfg)%nat) as Hfuel by (destruct Hcr as [_ _ _ _ _ _ _ _ _ Hf]; rewrite length_app in Hf; lia).
  destruct (preprocess_crashed cfg rcfg crc32 u Hcfg Hcrc _ _ _ _ _ _ _ _ _ _ _ Hcr Hres HG1 (proj1 HG) Hpos Hclean)
    as (d1 & -> & Hd1 & Hg1 & Hf1). cbn [mbind outcome_bind]. rewrite decide_True by done. fold r' in Hd1.
  rewrite (fetch_represented (st_index d1) (rs ++ [r'])) by (by destruct Hd1). cbn [mbind outcome_bind].
  pose proof Hrows as (Hrow & Hpos0 & Hearlier & _). pose proof Hrow as (_ & Hri & _).
  rewrite filter_all.
  2: { intros x [Hx|Hx]%elem_of_app; [by eapply Forall_forall in Hearlier as [[Hx' _] _]; [|exact Hx]|].
       apply list_elem_of_singleton in Hx as ->. lia. }
  assert (Forall has_uuid ms) as Hmu by (eapply Forall_impl; [exact Hroom|]; intros m [(_ & Hm & _) _]; exact Hm).
  assert (has_previous rcfg crc32 d1 (get_file_name (hd r' rs)) first_ms) as Hfirst'.
  { replace (get_file_name (hd r' rs)) with (get_file_name (hd r rs)) by (unfold r', repaired_row; destruct (_ =? _), rs; done).
    destruct Hfirst as (e1 & pe & (b & Eb & Ef) & H). exists e1, pe. split; [|exact H]. exists b. split; [done|]. by rewrite Hf1. }
  rewrite Hg1. change (st_gtid (with_gtids g0 d)) with g0.
  destruct (variables_resumed cfg rcfg crc32 u Hcfg index d1 rs r' evs ms G first_ms g0 Hd1 Hrow Hres (proj1 HG) Hfuel Hmu Hfu Hfirst' Hgp Hge)
    as (previous & text & g1 & Em & Et & -> & Hp1 & He1 & Hv & Hseq). cbn [mbind outcome_bind]. rewrite decide_True by done.
  exists d1, (with_gtids g1 d1), previous, text. split; [done|]. split; [by destruct Hd1|]. split; [done|].
  split; [destruct Hd1; by split|]. done.
Qed.

(** The two ways an instance stops: between batches, with file and index in agreement; or
    with a transaction half written whose GTID the index already has as the current one. *)
Definition stopped (r : BinlogIndexRecord) (evs tail : list ObLogEvent) (torn : bytes) (G : Z) : Prop :=
  (tail = [] /\ torn = [] /\ get_position r = file_len evs /\ (get_before_mapping r).2 <= G /\ (get_current_mapping r).2 = G) \/
  (open_gtid 0 tail <> 0 /\ (get_before_mapping r).2 = G /\ G <= (get_current_mapping r).2).

(** C5: a restart with binlog files on disk, written with checksums ([resumable]: the last one
    has no rotate event and at least one complete transaction, the last of them [G]; the
    first one can be read, [has_previous]; of the cached checkpoints of the GTID manager, if
    there are any, one is at or before [G], [usable]; there is room for the head of the next
    file, [fits]).  When the instance stopped
    between two batches with the index up to date, or in the middle of a transaction whose
    GTID event is on disk and in the index as the current one ([stopped]; after the last
    complete event there may be a part of an event other than an xid event), the start
    succeeds: a half written transaction is cut off and nothing else; the GTIDs executed are
    computed twice, from the index of files and from the last file, and agree; the last file
    gets its rotate event and its row its exact size; the next file begins with the GTIDs
    executed so far; expired files are gone; the next transaction after [G] will be numbered
    [G + 1] (after passing over [G] itself when it is read again); and the invariant of the
    pipeline holds, so that conversion goes on.  A crash between the append of a batch and
    the update of the index is not among these: [unindexed_tail_refused]. *)
Theorem restart_correct cfg rcfg crc32 u now_s ts index d rs r evs tail kept lost torn ms first_ms G k f :
  config_ok cfg u -> crc32_ok crc32 ->
  crashed cfg rcfg crc32 index d rs r evs tail kept lost torn -> resumable evs ms G -> stopped r evs tail torn G ->
  fits index evs ms G k -> rows_ok cfg index rs (repaired_row r tail (file_len evs)) ->
  (get_current_mapping (repaired_row r tail (file_len evs))).1 <> [] -> is_u32 (BinlogIndex.get_checkpoint r) ->
  st_gtid d = new_gtid_manager f -> usable G (gtid_seq_set (init_gtid_seq (c_gtid cfg) now_s (st_gtid d))) ->
  has_previous rcfg crc32 (set_file (path cfg index) (binlog_file kept) d) (get_file_name (hd r rs)) first_ms ->
  Forall has_uuid first_ms ->
  exists st n rot previous, start_instance cfg rcfg crc32 now_s d ts = Done (OMS_OK, st) /\
    merge_gtid_before (master_server_uuid (c_gtid cfg)) ms (1, G) = Done previous /\ next_gtids rot = previous /\
    restarted cfg rcfg crc32 index rs evs (get_current_mapping (repaired_row r tail (file_len evs))).1 G k now_s d st n rot.
Proof.
  intros Hcfg Hcrc Hcr Hres Hstop Hfits Hrows Hid Hcp Hg Hus Hfirst Hfu.
  assert ((get_before_mapping r).2 <= G <= (get_current_mapping r).2 /\
    (get_position r = file_len evs \/ open_gtid 0 tail <> 0) /\ (open_gtid 0 tail = 0 -> lost ++ torn = []))
    as (HG1 & Hpos & Hclean).
  { destruct Hstop as [(-> & -> & Hp & Hb & Hc)|(Ho & Hb & Hc)]; [|split; [lia|]; split; [by right|done]].
    split; [lia|]. split; [by left|]. intros _. rewrite app_nil_r. destruct Hcr as [_ _ Ek Ea _ _ _ _ _ _].
    rewrite app_nil_r in Ea. rewrite Ek in Ea. apply Done_inj in Ea. symmetry in Ea.
    rewrite <-(app_nil_r kept) in Ea at 2. by apply (inj (app kept)) in Ea. }
  destruct (start_prepared cfg rcfg crc32 u now_s ts index d rs r evs tail kept lost torn ms first_ms G k f Hcfg Hcrc Hcr Hres Hfits
    HG1 Hpos Hclean Hrows Hg Hfirst Hfu) as (d1 & d2 & previous & text & _ & _ & -> & Hd2 & Hf2 & Em & Et & Hv & Hp2 & Hseq & Hfuel).
  set (r' := repaired_row r tail (file_len evs)) in *.
  assert (get_position r' = file_len evs /\ (get_current_mapping r').2 = G /\
    BinlogIndex.get_checkpoint r' = BinlogIndex.get_checkpoint r) as (Hp' & Hc' & Hcp').
  { unfold r', repaired_row. destruct Hstop as [(-> & _ & Hp & _ & Hc)|(Ho & Hb & _)]; [done|].
    by rewrite (proj2 (Z.eqb_neq _ _) Ho). }
  destruct (recover_ok cfg rcfg crc32 u Hcfg now_s ts index d2 rs r' evs ms G k previous text Hd2 Hrows Hres Hfits Hfuel
    Hp' Hc' Hid ltac:(by rewrite Hcp') ltac:(by rewrite Hseq) Hp2 Em Et Hv) as (st & st' & n & rot & E1 & E2 & Hrt & Hng).
  rewrite E1. cbn [mbind outcome_bind]. rewrite decide_True by done.
  exists st', n, rot, previous. split; [exact E2|]. split; [done|]. split; [done|].
  destruct Hrt as [H1 H2 H3 H4 H5 H6 H7]. split; try done. intros name Hne1 Hne2. rewrite H5 by done.
  by rewrite Hf2, lookup_insert_ne by done.
Qed.

(** the repair of the index row assumes that the half written transaction
    is the current one of the row.  When the process dies after a batch was appended and
    before its row was updated, the row still has the last complete transaction [G] as
    current: the file is cut back correctly, but the row is set back to the transaction
    before [G], and the restart, which finds [G] at the end of the file, matches neither
    mapping and is refused. *)
Theorem unindexed_tail_refused cfg rcfg crc32 u now_s ts index d rs r evs tail kept lost torn ms first_ms G k f :
  config_ok cfg u -> crc32_ok crc32 ->
  crashed cfg rcfg crc32 index d rs r evs tail kept lost torn -> resumable evs ms G -> open_gtid 0 tail <> 0 ->
  (get_current_mapping r).2 = G -> (get_before_mapping r).2 < G ->
  fits index evs ms G k -> rows_ok cfg index rs (repaired_row r tail (file_len evs)) ->
  st_gtid d = new_gtid_manager f ->
  match last (gtid_seq_set (init_gtid_seq (c_gtid cfg) now_s (st_gtid d))) with
  | Some e => get_gtid_start (deserialize empty_seq e.2) <> (get_before_mapping r).2
  | None => True
  end ->
  has_previous rcfg crc32 (set_file (path cfg index) (binlog_file kept) d) (get_file_name (hd r rs)) first_ms ->
  Forall has_uuid first_ms ->
  exists d1 st, preprocess_breakpoint_binlog cfg rcfg crc32 (with_gtids (init_gtid_seq (c_gtid cfg) now_s (st_gtid d)) d)
      = Done (OMS_OK, d1) /\ holds crc32 d1 (path cfg index) evs /\
    start_instance cfg rcfg crc32 now_s d ts = Done (OMS_FAILED, st).
Proof.
  intros Hcfg Hcrc Hcr Hres Ho Hc Hb Hfits Hrows Hg Hhb Hfirst Hfu.
  destruct (start_prepared cfg rcfg crc32 u now_s ts index d rs r evs tail kept lost torn ms first_ms G k f Hcfg Hcrc Hcr Hres Hfits
    ltac:(lia) (or_intror Ho) ltac:(done) Hrows Hg Hfirst Hfu) as (d1 & d2 & _ & _ & Epre & Hh & -> & Hd2 & _ & _ & _ & _ & _ & Hseq & Hfuel).
  set (r' := repaired_row r tail (file_len evs)) in *. exists d1. pose proof Hrows as (Hrow & _). pose proof Hrow as (_ & _ & Hrn).
  assert ((get_current_mapping r').2 = (get_before_mapping r).2 /\ (get_before_mapping r').2 = (get_before_mapping r).2 /\
    get_position r' = file_len evs) as (Hc' & Hb' & Hp') by (unfold r', repaired_row; by rewrite (proj2 (Z.eqb_neq _ _) Ho)).
  assert (forall a trx_ts, a_txn_gtid_seq a = G -> init_restart_point cfg rcfg r' trx_ts (mkInstance a d2 ts) = (OMS_FAILED, mkInstance a d2 ts)) as Hfail.
  { intros a trx_ts Ha. unfold init_restart_point, get_latest_gtid_seq, heartbeat_restart, matched_mapping.
    cbn [i_alloc i_disk]. rewrite Hseq, Ha, Hc', Hb', (proj2 (Z.eqb_neq G (get_before_mapping r).2)) by lia.
    destruct (last (gtid_seq_set _)) as [e0|]; [rewrite (proj2 (Z.eqb_neq _ _) Hhb)|rewrite bool_decide_false by done];
      by rewrite ?andb_false_r. }
  assert (get_position r' <> 0) as Hp0.
  { rewrite Hp'. destruct Hd2 as [_ _ [Hch _] _ _ _ _]. pose proof (file_len_pos crc32 evs (chained_ok _ _ Hch)). lia. }
  unfold storage_init. cbn [i_disk i_alloc i_start_timestamp]. rewrite (latest_represented _ rs r') by (by destruct Hd2).
  cbn [mbind outcome_bind]. rewrite Hrn. fold (path cfg index). destruct (path cfg index) as [|c0 l0] eqn:Epath; [by destruct (path_not_nil cfg index)|].
  assert (set_current_file (c0 :: l0) d2 = d2) as -> by (rewrite <-Epath; destruct Hd2 as [_ <- _ _ _ _ _]; by destruct d2).
  unfold recover_safely. cbn [i_disk]. rewrite (latest_represented _ rs r') by (by destruct Hd2). cbn [mbind outcome_bind].
  rewrite Hrn. fold (path cfg index). rewrite Epath. change (beq (c0 :: l0) []) with false.
  rewrite (proj2 (Z.eqb_neq _ _) Hp0). cbn [orb].
  destruct (resume_scan cfg rcfg crc32 u Hcfg index d2 rs r' evs ms G (st_gtid d2) ts Hd2 Hrow Hres Hfuel) as (e & a & A1 & _ & _ & _ & _ & _ & _ & ->).
  rewrite (Hfail a _ A1). eexists. split; [exact Epre|]. split; [exact Hh|]. done.
Qed.

(** ** Concrete instances *)

Definition sample_restart : restart_config := mkRestartConfig [] 3600 0 100.

Definition sample_empty_disk : Disk := mkStore ∅ (mkIndexManager None empty_record) [] 0 false (new_gtid_manager None).


(** An initial transaction that is named without a number, which CREATE BINLOG accepts: the
    number before 0 wraps around to 2^64 - 1, and the start fails. *)
Example initial_number_zero_refused :
  match start_instance (sample_config true) (mkRestartConfig (str "{x}") 3600 0 100) sample_crc 5000 sample_empty_disk 1000 with
  | Done (OMS_FAILED, st) => get_txn_range <$> a_previous_gtid_messages (i_alloc st) = [[(1, 2 ^ 64 - 1)]]
  | _ => False
  end.
Proof. vm_compute. reflexivity. Qed.

(** Transactions [a] and [b] are complete, [c] is half written, and three more bytes of it
    reached the disk. *)
Definition sample_txn (name : string) : list ObLogEvent :=
  (fun ev => mkEvent (get_header ev) (str name) 90000000 (get_checksum_flag ev) true (get_body ev)) <$> sample_transaction.
Definition sample_written : list ObLogEvent :=
  match global_allocation_of_backfill_events (sample_config true) sample_allocator
          (with_events (sample_txn "a" ++ sample_txn "b" ++ take 2 (sample_txn "c")) idle) with
  | Done (_, b) => sb_events b
  | Crash => []
  end.
Definition sample_complete : list ObLogEvent := sample_open ++ take 6 sample_written.
Definition sample_half : list ObLogEvent := drop 6 sample_written.
Definition sample_kept : bytes := bytes_of (flush_all sample_crc sample_complete).
Definition sample_lost : bytes := bytes_of (flush_all sample_crc sample_half).

(** The row of the index knows of [c], or not yet. *)
Definition sample_crash_row (indexed : bool) : BinlogIndexRecord :=
  if indexed then mkIndexRecord (path (sample_config true) 1) 1 (str "b", 2) (str "c", 3) 90 574
  else mkIndexRecord (path (sample_config true) 1) 1 (str "a", 1) (str "b", 2) 90 455.
Definition sample_crash (indexed : bool) : Disk :=
  mkStore {[ path (sample_config true) 1 := binlog_file ((sample_kept ++ sample_lost) ++ [1; 2; 3]) ]}
    (mkIndexManager (Some (index_text [sample_crash_row indexed])) empty_record) (path (sample_config true) 1) 0 false
    (new_gtid_manager None).

Lemma sample_crc_ok : crc32_ok sample_crc.
Proof. intros b. unfold sample_crc. apply u32_range. Qed.

Lemma sample_crash_inv indexed :
  disk_inv (sample_config true) sample_crc 1
    (set_file (path (sample_config true) 1) (binlog_file sample_kept) (sample_crash indexed))
    ([] ++ [sample_crash_row indexed]) sample_complete.
Proof.
  split.
  - by_compute.
  - done.
  - split; [by_compute|]. split; [by eexists|by_compute].
  - exists sample_kept. split; [vm_compute; reflexivity|]. cbn [st_files set_file]. by rewrite lookup_insert_eq.
  - intros j Hj. cbn [st_files set_file sample_crash]. rewrite lookup_insert_ne by (intros E; apply path_inj in E; unfold LLONG_MAX in *; lia).
    apply lookup_singleton_ne. intros E. apply path_inj in E; unfold LLONG_MAX in *; lia.
  - destruct indexed; by_compute.
  - constructor.
Qed.

Lemma sample_crashed indexed :
  crashed (sample_config true) sample_restart sample_crc 1 (sample_crash indexed) [] (sample_crash_row indexed) sample_complete
    sample_half sample_kept sample_lost [1; 2; 3].
Proof.
  split.
  - apply sample_crash_inv.
  - apply lookup_singleton_eq.
  - vm_compute. reflexivity.
  - vm_compute. reflexivity.
  - by_compute.
  - unfold same_config. by_compute.
  - unfold unfinished. by_compute.
  - left. by_compute.
  - destruct indexed; by_compute.
  - by_compute.
Qed.

Definition sample_event (i : nat) : ObLogEvent := List.nth i sample_complete (sample_xid 0).

Lemma sample_resumable : resumable sample_complete [] 2.
Proof.
  split.
  - exists (take 7 sample_complete), (sample_event 7). vm_compute. repeat split.
  - unfold same_config. by_compute.
  - exists (sample_event 1). vm_compute. repeat split.
  - vm_compute. reflexivity.
  - vm_compute. reflexivity.
Qed.

Lemma sample_fits : fits 1 sample_complete [] 2 1000.
Proof. split; by_compute. Qed.

Lemma sample_previous_read indexed :
  has_previous sample_restart sample_crc (set_file (path (sample_config true) 1) (binlog_file sample_kept) (sample_crash indexed))
    (path (sample_config true) 1) [].
Proof.
  exists sample_complete, (sample_event 1).
  split; [exists sample_kept; split; [vm_compute; reflexivity|cbn [st_files set_file]; by rewrite lookup_insert_eq]|].
  split; [by_compute|]. split; [unfold same_config; by_compute|]. split; [by_compute|]. vm_compute. repeat split.
Qed.

Lemma sample_crash_rows indexed :
  rows_ok (sample_config true) 1 [] (repaired_row (sample_crash_row indexed) sample_half (file_len sample_complete)).
Proof.
  split; [destruct indexed; by_compute|]. split; [lia|]. split; [constructor|]. split; [constructor|].
  split; destruct indexed; by_compute.
Qed.

Lemma restart_correct_witness :
  exists st n rot previous,
    start_instance (sample_config true) sample_restart sample_crc 5000 (sample_crash true) 0 = Done (OMS_OK, st) /\
    merge_gtid_before (master_server_uuid sample_cfg) [] (1, 2) = Done previous /\ next_gtids rot = previous /\
    restarted (sample_config true) sample_restart sample_crc 1 [] sample_complete (str "b") 2 1000 5000 (sample_crash true) st n rot.
Proof.
  apply (restart_correct (sample_config true) sample_restart sample_crc sample_uuid 5000 0 1 (sample_crash true) []
    (sample_crash_row true) sample_complete sample_half sample_kept sample_lost [1; 2; 3] [] [] 2 1000 None
    sample_config_ok sample_crc_ok (sample_crashed true) sample_resumable).
  - right. by_compute.
  - exact sample_fits.
  - apply sample_crash_rows.
  - by_compute.
  - by_compute.
  - reflexivity.
  - split; [constructor|by left].
  - apply sample_previous_read.
  - constructor.
Defined.

Lemma unindexed_tail_refused_witness :
  exists d1 st, preprocess_breakpoint_binlog (sample_config true) sample_restart sample_crc
      (with_gtids (init_gtid_seq sample_cfg 5000 (new_gtid_manager None)) (sample_crash false)) = Done (OMS_OK, d1) /\
    holds sample_crc d1 (path (sample_config true) 1) sample_complete /\
    start_instance (sample_config true) sample_restart sample_crc 5000 (sample_crash false) 0 = Done (OMS_FAILED, st).
Proof.
  apply (unindexed_tail_refused (sample_config true) sample_restart sample_crc sample_uuid 5000 0 1 (sample_crash false) []
    (sample_crash_row false) sample_complete sample_half sample_kept sample_lost [1; 2; 3] [] [] 2 1000 None
    sample_config_ok sample_crc_ok (sample_crashed false) sample_resumable).
  - by_compute.
  - by_compute.
  - by_compute.
  - exact sample_fits.
  - apply sample_crash_rows.
  - reflexivity.
  - exact I.
  - apply sample_previous_read.
  - constructor.
Defined.

(** The two restarts, run: with [c] indexed, file 2 follows with the GTIDs 1-2. *)
Example sample_restart_run :
  match start_instance (sample_config true) sample_restart sample_crc 5000 (sample_crash true) 0 with
  | Done (v, st) => (v, a_txn_gtid_seq (i_alloc st), a_filter_checkpoint_trx (i_alloc st), a_cur_pos (i_alloc st),
                     get_txn_range <$> a_previous_gtid_messages (i_alloc st))
  | Crash => (OMS_FAILED, 0, false, 0, [])
  end = (OMS_OK, 2, true, 195, [[(1, 2)]]).
Proof. vm_compute. reflexivity. Qed.
