(* ===== verification/PortPool.v ===== *)
(** * PortPool: the TCP ports of the instances

    [src/src/binlog/tcp_port_pool.{h,cpp}].  A port is taken while its bit is set; the pool
    looks for a clear bit from where it stopped last, tries the port with [bind], and after
    a full pass may release the ports that nobody has bound.  Parameters: [bound], which
    ports [bind] refuses, and the instances [query_instances] returns. *)

From S2P Require Import Prelude.

#[local] Open Scope Z_scope.

(** ** Instances of the metadata database *)

Inductive InstanceState :=
| S_INIT | S_STARTING | S_RUNNING | S_FAILED | S_STOP | S_DROP | S_OFFLINE | S_PAUSED | S_GRAYSCALE | S_LOGICAL_DROP
| S_UNDEFINED.
#[export] Instance InstanceState_eq_dec : EqDecision InstanceState.
Proof. solve_decision. Defined.

Record BinlogEntry := mkEntry { e_state : InstanceState; e_port : Z }.

(** ** The pool *)

Record TcpPortPool := mkPool {
  start_tcp_port : Z;
  reserved_ports_num : Z;
  port_bits : list bool;
  bit_index : Z
}.

Definition NBITS : Z := 1024.

Definition new_pool (start reserved : Z) : TcpPortPool := mkPool start reserved (replicate 1024 false) 0.

Definition test (i : Z) (p : TcpPortPool) : bool := default true (port_bits p !! Z.to_nat i).
Definition set_bit (i : Z) (b : bool) (p : TcpPortPool) : TcpPortPool :=
  mkPool (start_tcp_port p) (reserved_ports_num p) (<[Z.to_nat i := b]> (port_bits p)) (bit_index p).
Definition set_bit_index (i : Z) (p : TcpPortPool) : TcpPortPool :=
  mkPool (start_tcp_port p) (reserved_ports_num p) (port_bits p) i.
Definition all_set (p : TcpPortPool) : bool := forallb (fun b => b) (port_bits p).

(** [available_port_count] *)
Definition available_port_count (p : TcpPortPool) : Z := zlen (filter (fun b => b = false) (port_bits p)).

(** [mark_port]: the index is a [uint16_t].  Locking a mutex this thread already holds
    does not return. *)
Definition mark_port (locked : bool) (port : Z) (is_in_used : bool) (p : TcpPortPool) : outcome TcpPortPool :=
  if locked then Crash
  else
    let index := u16 (port - start_tcp_port p) in
    Done (if index <? NBITS then set_bit index is_in_used p else p).

Definition return_port (port : Z) (p : TcpPortPool) : outcome TcpPortPool := mark_port false port false p.

Fixpoint mark_entries (locked : bool) (wanted : InstanceState -> bool) (entries : list BinlogEntry) (p : TcpPortPool)
    : outcome TcpPortPool :=
  match entries with
  | [] => Done p
  | e :: entries =>
      p ← (if wanted (e_state e) then mark_port locked (e_port e) true p else Done p);
      mark_entries locked wanted entries p
  end.

Definition holds_port (s : InstanceState) : bool :=
  match s with S_INIT | S_STARTING | S_RUNNING | S_OFFLINE => true | _ => false end.
Definition is_offline (s : InstanceState) : bool := match s with S_OFFLINE => true | _ => false end.

(** [for (i = from; ...)]: [n] bits set from [from] on. *)
Fixpoint set_from (n : nat) (from : Z) (p : TcpPortPool) : TcpPortPool :=
  match n with
  | O => p
  | S n => set_from n (from + 1) (set_bit from true p)
  end.

Definition init (entries : list BinlogEntry) (p : TcpPortPool) : outcome (ret * TcpPortPool) :=
  let reserved := reserved_ports_num p in
  if (reserved <=? 0) || (NBITS <? reserved) || (65535 <? start_tcp_port p + reserved) then Done (OMS_FAILED, p)
  else
    p ← mark_entries false holds_port entries (set_from (Z.to_nat (NBITS - reserved)) reserved p);
    Done (OMS_OK, p).

Section Take.
Context (bound : Z -> bool) (entries : list BinlogEntry).

(** One pass of the inner loop over the [n] bits from [_bit_index]. *)
Fixpoint take_pass (n : nat) (port : Z) (p : TcpPortPool) : bool * Z * TcpPortPool :=
  match n with
  | O => (false, port, p)
  | S n =>
      let i := bit_index p in
      if test i p then take_pass n port (set_bit_index (u16 (i + 1)) p)
      else
        let p := set_bit i true p in
        let port := u16 (start_tcp_port p + i) in
        if bound port then take_pass n port (set_bit_index (u16 (i + 1)) p) else (true, port, p)
  end.

(** [test_and_reset_ports_in_used], called with the lock held. *)
Fixpoint release_unbound (n : nat) (i : Z) (p : TcpPortPool) : TcpPortPool :=
  match n with
  | O => p
  | S n =>
      let p := if test i p && negb (bound (u16 (start_tcp_port p + i))) then set_bit i false p else p in
      release_unbound n (i + 1) p
  end.

Definition test_and_reset_ports_in_used (p : TcpPortPool) : outcome TcpPortPool :=
  mark_entries true is_offline entries (release_unbound (Z.to_nat (reserved_ports_num p)) 0 p).

(** [take_port]; [None] when [fuel] passes were not enough. *)
Fixpoint take_loop (fuel : nat) (test_and_reset : bool) (port : Z) (p : TcpPortPool)
    : outcome (option (ret * Z * TcpPortPool)) :=
  if all_set p then Done (Some (OMS_FAILED, port, p))
  else
    match fuel with
    | O => Done None
    | S fuel =>
        let '(found, port, p) := take_pass (Z.to_nat (reserved_ports_num p - bit_index p)) port p in
        if (found : bool) then Done (Some (OMS_OK, port, p))
        else
          p ← (if test_and_reset then test_and_reset_ports_in_used p else Done p);
          take_loop fuel test_and_reset port (set_bit_index 0 p)
    end.

Definition take_port (fuel : nat) (test_and_reset : bool) (port : Z) (p : TcpPortPool)
    : outcome (option (ret * Z * TcpPortPool)) := take_loop fuel test_and_reset port p.

End Take.

(** ** Bits *)

(** The range [init] accepts, and a bit for each of its 1024 places. *)
Definition pool_ok (p : TcpPortPool) : Prop :=
  0 < reserved_ports_num p <= NBITS /\ 0 <= start_tcp_port p /\ start_tcp_port p + reserved_ports_num p <= 65535 /\
  zlen (port_bits p) = NBITS /\ 0 <= bit_index p <= reserved_ports_num p.
#[export] Instance pool_ok_dec p : Decision (pool_ok p).
Proof. unfold pool_ok. apply _. Defined.

(** The bits past the reserved range are set. *)
Definition sealed (p : TcpPortPool) : Prop := forall i, reserved_ports_num p <= i < NBITS -> test i p = true.

(** The same pool but for its bits and its position. *)
Definition same_range (p p' : TcpPortPool) : Prop :=
  start_tcp_port p' = start_tcp_port p /\ reserved_ports_num p' = reserved_ports_num p.

Lemma test_set_bit i j b p :
  zlen (port_bits p) = NBITS -> 0 <= i < NBITS -> 0 <= j -> test j (set_bit i b p) = if i =? j then b else test j p.
Proof.
  unfold test, set_bit, zlen, NBITS. cbn [port_bits]. intros Hl Hi Hj. destruct (Z.eqb_spec i j) as [->|Hne].
  - by rewrite list_lookup_insert_eq by lia.
  - by rewrite list_lookup_insert_ne by lia.
Qed.

Lemma zlen_set_bit i b p : zlen (port_bits (set_bit i b p)) = zlen (port_bits p).
Proof. unfold set_bit, zlen. cbn [port_bits]. by rewrite length_insert. Qed.

Lemma all_set_spec p : zlen (port_bits p) = NBITS -> all_set p = true <-> forall i, 0 <= i < NBITS -> test i p = true.
Proof.
  intros Hl. unfold all_set, test. rewrite forallb_forall. split.
  - intros H i Hi. destruct (port_bits p !! Z.to_nat i) as [b|] eqn:E; [|done]. apply H. apply list_elem_of_In. by eapply list_elem_of_lookup_2.
  - intros H b Hb. apply list_elem_of_In, list_elem_of_lookup in Hb as [i Hi]. pose proof (lookup_lt_Some _ _ _ Hi).
    specialize (H (Z.of_nat i) ltac:(unfold zlen, NBITS in *; lia)). rewrite Nat2Z.id, Hi in H. done.
Qed.

Lemma u16_small x : 0 <= x <= 65535 -> u16 x = x.
Proof. intros H. apply u16_id. unfold is_u16. lia. Qed.

Section Passes.
Context (bound : Z -> bool) (entries : list BinlogEntry).

Definition free (i : Z) (p : TcpPortPool) : Prop := test i p = false /\ bound (start_tcp_port p + i) = false.

(** What a pass does: the bits it visits are set; it stops at the first free port. *)
Record passed (p : TcpPortPool) (found : bool) (port : Z) (p' : TcpPortPool) : Prop := {
  ps_range : same_range p p';
  ps_ok : pool_ok p';
  ps_found : if found then
      bit_index p <= bit_index p' < reserved_ports_num p /\ free (bit_index p') p /\ port = start_tcp_port p + bit_index p' /\
      (forall j, 0 <= j < NBITS -> test j p' = test j p || ((bit_index p <=? j) && (j <=? bit_index p')))
    else
      (forall j, bit_index p <= j < reserved_ports_num p -> ~ free j p) /\
      (forall j, 0 <= j < NBITS -> test j p' = test j p || ((bit_index p <=? j) && (j <? reserved_ports_num p)))
}.

Lemma pool_ok_bit i b p : pool_ok p -> pool_ok (set_bit i b p).
Proof. unfold pool_ok. by rewrite zlen_set_bit. Qed.

Lemma pool_ok_index i p : pool_ok p -> 0 <= i <= reserved_ports_num p -> pool_ok (set_bit_index i p).
Proof. unfold pool_ok. cbn. intros (H1 & H2 & H3 & H4 & _) Hi. done. Qed.

(** One place further, the bit of this one being set in [q]. *)
Lemma passed_step p q found port p' :
  pool_ok p -> bit_index p < reserved_ports_num p -> q = set_bit (bit_index p) true p -> ~ free (bit_index p) p ->
  passed (set_bit_index (bit_index p + 1) q) found port p' -> passed p found port p'.
Proof.
  intros (H1 & H2 & H3 & H4 & H5) Hlt -> Hnf [Hr Hok Hf].
  assert (forall j, 0 <= j < NBITS -> test j (set_bit_index (bit_index p + 1) (set_bit (bit_index p) true p))
    = if bit_index p =? j then true else test j p) as Ht.
  { intros j Hj. change (test j (set_bit_index _ ?q)) with (test j q). apply test_set_bit; lia. }
  cbn [bit_index set_bit_index reserved_ports_num set_bit start_tcp_port] in Hf. split; [done|done|]. destruct found.
  - destruct Hf as (Hi & [Hf1 Hf2] & Hp & Hb). rewrite Ht in Hf1 by lia.
    destruct (Z.eqb_spec (bit_index p) (bit_index p')) as [|Hne]; [done|].
    split; [lia|]. split; [done|]. split; [done|]. intros j Hj. rewrite Hb, Ht by done.
    destruct (Z.eqb_spec (bit_index p) j) as [<-|]; [by rewrite Z.leb_refl, (proj2 (Z.leb_le _ (bit_index p'))), orb_true_r by lia|].
    f_equal. destruct (Z.leb_spec (bit_index p + 1) j), (Z.leb_spec (bit_index p) j); try done; lia.
  - destruct Hf as [Hf Hb]. split.
    + intros j Hj. destruct (decide (j = bit_index p)) as [->|Hne]; [done|]. intros [Hj1 Hj2]. apply (Hf j); [lia|]. split; [|done].
      rewrite Ht by lia. by rewrite (proj2 (Z.eqb_neq _ _)) by lia.
    + intros j Hj. rewrite Hb, Ht by done.
      destruct (Z.eqb_spec (bit_index p) j) as [<-|]; [by rewrite Z.leb_refl, (proj2 (Z.ltb_lt _ (reserved_ports_num p))), orb_true_r by lia|].
      f_equal. destruct (Z.leb_spec (bit_index p + 1) j), (Z.leb_spec (bit_index p) j); try done; lia.
Qed.

Lemma set_bit_same i p : 0 <= i -> test i p = true -> zlen (port_bits p) = NBITS -> i < NBITS -> set_bit i true p = p.
Proof.
  unfold test, set_bit, zlen, NBITS. intros Hi Ht Hl Hn. rewrite list_insert_id; [by destruct p|].
  destruct (lookup_lt_is_Some_2 (port_bits p) (Z.to_nat i) ltac:(lia)) as [b Hb]. rewrite Hb in *. cbn in Ht. by subst.
Qed.

Lemma take_pass_ok n : forall port p,
  pool_ok p -> Z.of_nat n = reserved_ports_num p - bit_index p ->
  let '(found, port', p') := take_pass bound n port p in passed p found port' p'.
Proof.
  induction n as [|n IH]; intros port p Hp Hn; cbn [take_pass].
  { split; [done|done|]. split; [intros; lia|]. intros j Hj. destruct (Z.leb_spec (bit_index p) j), (Z.ltb_spec j (reserved_ports_num p)); cbn; rewrite ?orb_false_r; try done; lia. }
  pose proof Hp as (H1 & H2 & H3 & H4 & H5).
  rewrite !(u16_small (bit_index p + 1)) by (unfold NBITS in *; lia).
  assert (forall q, q = set_bit (bit_index p) true p -> ~ free (bit_index p) p -> forall port,
    let '(found, port', p') := take_pass bound n port (set_bit_index (bit_index p + 1) q) in passed p found port' p') as Hnext.
  { intros q Hq Hnf port0. specialize (IH port0 (set_bit_index (bit_index p + 1) q)).
    destruct (take_pass bound n port0 _) as [[found port'] p']. apply (passed_step p q); [done|lia|done|done|].
    subst q. apply IH; [apply pool_ok_index; [by apply pool_ok_bit|cbn; lia]|cbn; lia]. }
  destruct (test (bit_index p) p) eqn:Et.
  { apply Hnext; [symmetry; apply set_bit_same; (done || lia)|]. by intros [Hf _]; rewrite Et in Hf. }
  cbn [set_bit start_tcp_port bit_index]. fold (set_bit (bit_index p) true p). rewrite u16_small by lia.
  destruct (bound (start_tcp_port p + bit_index p)) eqn:Eb.
  { apply Hnext; [done|]. by intros [_ Hf]; rewrite Eb in Hf. }
  split; [done|by apply pool_ok_bit|]. cbn [bit_index set_bit reserved_ports_num].
  split; [lia|]. split; [done|]. split; [done|]. intros j Hj. rewrite test_set_bit by lia.
  destruct (Z.eqb_spec (bit_index p) j) as [<-|Hne]; [rewrite Z.leb_refl; cbn; by rewrite orb_true_r|].
  destruct (Z.leb_spec (bit_index p) j), (Z.leb_spec j (bit_index p)); cbn; rewrite ?orb_false_r; try done; lia.
Qed.

Lemma release_ok n : forall i p,
  pool_ok p -> 0 <= i -> i + Z.of_nat n <= reserved_ports_num p ->
  let p' := release_unbound bound n i p in
  same_range p p' /\ pool_ok p' /\ bit_index p' = bit_index p /\
  forall j, 0 <= j < NBITS -> test j p' = test j p && negb ((i <=? j) && (j <? i + Z.of_nat n) && negb (bound (start_tcp_port p + j))).
Proof.
  induction n as [|n IH]; intros i p Hp Hi Hn; cbn [release_unbound].
  { split; [done|]. split; [done|]. split; [done|]. intros j Hj.
    destruct (Z.leb_spec i j), (Z.ltb_spec j (i + Z.of_nat 0)); cbn [andb negb]; rewrite ?andb_true_r; try done; lia. }
  pose proof Hp as (H1 & H2 & H3 & H4 & H5). rewrite u16_small by lia.
  set (q := if test i p && negb (bound (start_tcp_port p + i)) then set_bit i false p else p).
  assert (pool_ok q /\ same_range p q /\ bit_index q = bit_index p /\
    forall j, 0 <= j < NBITS -> test j q = test j p && negb ((i =? j) && negb (bound (start_tcp_port p + j)))) as (Q1 & Q2 & Q3 & Q4).
  { unfold q. destruct (test i p) eqn:Et, (bound (start_tcp_port p + i)) eqn:Eb; cbn [andb negb]; split; try done; try (by apply pool_ok_bit);
      (split; [done|split; [done|]]); intros j Hj; rewrite ?test_set_bit by lia;
      destruct (Z.eqb_spec i j) as [<-|]; rewrite ?Eb, ?Et; cbn; by rewrite ?andb_true_r, ?andb_false_r. }
  destruct Q2 as [Q2 Q2']. destruct (IH (i + 1) q Q1 ltac:(lia) ltac:(lia)) as ([R1 R1'] & R2 & R3 & R4).
  split; [by split; congruence|]. split; [done|]. split; [congruence|]. intros j Hj. rewrite R4, Q4, Q2 by done.
  rewrite <-andb_assoc. f_equal. destruct (bound (start_tcp_port p + j)); cbn [negb]; rewrite ?andb_true_r, ?andb_false_r; [done|].
  destruct (Z.eqb_spec i j), (Z.leb_spec (i + 1) j), (Z.leb_spec i j), (Z.ltb_spec j (i + 1 + Z.of_nat n)), (Z.ltb_spec j (i + Z.of_nat (S n)));
    cbn [andb negb]; try done; lia.
Qed.

(** What [take_port] may release after a pass. *)
Definition resettable (reset : bool) : Prop := reset = true -> Forall (fun e => is_offline (e_state e) = false) entries.

Definition released (reset : bool) (j : Z) (p : TcpPortPool) : bool :=
  reset && (j <? reserved_ports_num p) && negb (bound (start_tcp_port p + j)).

Lemma mark_entries_none p : Forall (fun e => is_offline (e_state e) = false) entries -> mark_entries true is_offline entries p = Done p.
Proof. induction 1 as [|e l He _ IH]; [done|]. cbn [mark_entries]. by rewrite He. Qed.

Lemma reset_ok reset p :
  pool_ok p -> resettable reset ->
  exists q, (if reset then test_and_reset_ports_in_used bound entries p else Done p) = Done q /\ same_range p q /\ pool_ok q /\
    forall j, 0 <= j < NBITS -> test j q = test j p && negb (released reset j p).
Proof.
  intros Hp Hr. destruct reset.
  - unfold test_and_reset_ports_in_used. rewrite mark_entries_none by auto. eexists. split; [done|].
    pose proof Hp as (H1 & _). destruct (release_ok (Z.to_nat (reserved_ports_num p)) 0 p Hp ltac:(lia) ltac:(lia)) as (Q1 & Q2 & _ & Q3).
    split; [done|]. split; [done|]. intros j Hj. rewrite Q3 by done. rewrite Z2Nat.id, (proj2 (Z.leb_le 0 j)) by lia. done.
  - exists p. split; [done|]. split; [done|]. split; [done|]. intros j Hj. by rewrite andb_true_r.
Qed.

(** One turn of the outer loop. *)
Lemma take_turn fuel reset port p :
  pool_ok p -> resettable reset -> all_set p = false ->
  exists found port' p', passed p found port' p' /\
    if found then take_port bound entries (S fuel) reset port p = Done (Some (OMS_OK, port', p'))
    else exists q, take_port bound entries (S fuel) reset port p = take_port bound entries fuel reset port' q /\
      same_range p q /\ pool_ok q /\ bit_index q = 0 /\
      forall j, 0 <= j < NBITS -> test j q = test j p' && negb (released reset j p).
Proof.
  intros Hp Hr Ha. unfold take_port. cbn [take_loop]. rewrite Ha. pose proof Hp as (H1 & _ & _ & _ & H5).
  pose proof (take_pass_ok (Z.to_nat (reserved_ports_num p - bit_index p)) port p Hp ltac:(lia)) as Hps.
  destruct (take_pass _ _ port p) as [[found port'] p']. exists found, port', p'. split; [done|].
  destruct found; [done|]. destruct Hps as [[R1 R2] Hok _]. destruct (reset_ok reset p' Hok Hr) as (q & -> & [Q1 Q2] & Q3 & Q4).
  eexists. split; [done|]. split; [split; cbn; congruence|]. split; [apply pool_ok_index; [done|]; destruct Q3 as (Q3 & _); lia|].
  split; [done|]. intros j Hj. change (test j (set_bit_index 0 q)) with (test j q). rewrite Q4 by done. unfold released. by rewrite R1, R2.
Qed.

(** Bits only a release clears. *)
Definition kept (reset : bool) (p p' : TcpPortPool) : Prop :=
  forall j, 0 <= j < NBITS -> test j p = true -> released reset j p = false -> test j p' = true.

Lemma passed_kept reset p found port p' : passed p found port p' -> kept reset p p'.
Proof. intros [_ _ Hf] j Hj Ht _. destruct found; [destruct Hf as (_ & _ & _ & Hf)|destruct Hf as [_ Hf]]; by rewrite Hf, Ht. Qed.

Lemma kept_trans reset p q r : same_range p q -> kept reset p q -> kept reset q r -> kept reset p r.
Proof. intros [H1 H2] Hq Hr j Hj Ht Hl. apply Hr; [done|by apply Hq|]. unfold released in *. by rewrite H1, H2. Qed.

Lemma kept_sealed reset p p' : pool_ok p -> same_range p p' -> kept reset p p' -> sealed p -> sealed p'.
Proof.
  intros ((? & _) & _) [_ H2] Hk Hs j Hj. rewrite H2 in Hj. apply Hk; [lia|by apply Hs|]. unfold released.
  by rewrite (proj2 (Z.ltb_ge j _)), andb_false_r by lia.
Qed.

(** [all_set] in a sealed pool: its reserved bits. *)
Lemma all_set_reserved p :
  pool_ok p -> sealed p -> all_set p = true <-> forall i, 0 <= i < reserved_ports_num p -> test i p = true.
Proof.
  intros (H1 & _ & _ & H4 & _) Hs. rewrite all_set_spec by done. split; intros H i Hi; [apply H; lia|].
  destruct (decide (i < reserved_ports_num p)); [apply H; lia|apply Hs; lia].
Qed.

(** The result of [take_port] on [p]. *)
Record taken (reset : bool) (p : TcpPortPool) (r : ret) (port : Z) (p' : TcpPortPool) : Prop := {
  tk_range : same_range p p';
  tk_ok : pool_ok p';
  tk_sealed : sealed p';
  tk_kept : kept reset p p';
  tk_result :
    match r with
    | OMS_OK => exists i, 0 <= i < reserved_ports_num p /\ port = start_tcp_port p + i /\ bound port = false /\ test i p' = true /\
        if reset then all_set p = false else test i p = false
    | OMS_FAILED => all_set p' = true /\
        if reset then all_set p = true \/ forall i, 0 <= i < reserved_ports_num p -> bound (start_tcp_port p + i) = true
        else forall i, 0 <= i < reserved_ports_num p -> ~ free i p
    end
}.

Lemma taken_none reset p port : pool_ok p -> sealed p -> all_set p = true -> taken reset p OMS_FAILED port p.
Proof.
  intros Hp Hs Ha. split; try done. { intros j _ ? _. done. } split; [done|].
  destruct reset; [by left|]. intros i Hi [Hf _]. by rewrite (proj1 (all_set_reserved p Hp Hs) Ha i Hi) in Hf.
Qed.

Lemma taken_found reset p port p' :
  pool_ok p -> sealed p -> all_set p = false -> passed p true port p' -> taken reset p OMS_OK port p'.
Proof.
  intros Hp Hs Ha Hps. pose proof (passed_kept reset _ _ _ _ Hps) as Hk. pose proof Hp as (H1 & _ & _ & _ & H5).
  destruct Hps as [Hr Hok (Hi & [Ht Hb] & -> & Hf)].
  split; [done|done|by apply (kept_sealed reset p)|done|]. exists (bit_index p'). split; [lia|]. split; [done|]. split; [done|].
  split; [|by destruct reset]. rewrite Hf by lia. by rewrite (proj2 (Z.leb_le (bit_index p) (bit_index p'))), Z.leb_refl, orb_true_r by lia.
Qed.

(** The second pass, which starts from the first place: after it every bit is set. *)
Lemma second_pass fuel reset port p :
  pool_ok p -> sealed p -> resettable reset -> bit_index p = 0 ->
  (reset = true -> forall i, 0 <= i < reserved_ports_num p -> test i p = true -> bound (start_tcp_port p + i) = true) ->
  (fuel >= 1)%nat ->
  exists r port' p', take_port bound entries fuel reset port p = Done (Some (r, port', p')) /\ taken false p r port' p'.
Proof.
  intros Hp Hs Hr Hi Hrel Hfuel. destruct fuel as [|fuel]; [lia|]. pose proof Hp as ((H1 & H1') & _).
  destruct (all_set p) eqn:Ha.
  { exists OMS_FAILED, port, p. split; [unfold take_port; cbn [take_loop]; by rewrite Ha|by apply taken_none]. }
  destruct (take_turn fuel reset port p Hp Hr Ha) as ([] & port' & p' & Hps & Hn).
  { exists OMS_OK, port', p'. split; [done|by apply taken_found]. }
  pose proof (passed_kept false _ _ _ _ Hps) as Hk. destruct Hn as (q & -> & Qr & Qok & Q0 & Qt). destruct Hps as [[R1 R2] Hok [Hf Hb]].
  assert (forall i, 0 <= i < reserved_ports_num p -> test i q = true) as Hq.
  { intros i Hj. rewrite Qt, Hb by lia. rewrite Hi, (proj2 (Z.leb_le 0 i)), (proj2 (Z.ltb_lt i (reserved_ports_num p))) by lia.
    rewrite orb_true_r. cbn [andb]. unfold released. destruct reset; [|done].
    destruct (bound (start_tcp_port p + i)) eqn:Eb; [by rewrite andb_false_r|]. destruct (Hf i); [lia|]. split; [|done].
    destruct (test i p) eqn:Et; [|done]. by rewrite Hrel in Eb. }
  assert (kept false p q) as Hkq.
  { intros j Hj Ht _. destruct (decide (j < reserved_ports_num p)); [apply Hq; lia|]. rewrite Qt by done. rewrite (Hk j Hj Ht eq_refl).
    unfold released. by rewrite (proj2 (Z.ltb_ge j _)), andb_false_r by lia. }
  assert (sealed q) as Hsq by by apply (kept_sealed false p).
  assert (all_set q = true) as Haq. { apply all_set_reserved; [done..|]. destruct Qr as [_ ->]. done. }
  exists OMS_FAILED, port', q. split; [destruct fuel; unfold take_port; cbn [take_loop]; by rewrite Haq|].
  split; try done. split; [done|]. intros i Hj. apply Hf. lia.
Qed.

End Passes.

(** ** The pool in use *)

(** The states of the pool: after [init], then as calls of [take_port] return, with whatever
    [bind] and the metadata say each time, and ports of the range (and no others) are
    returned. *)
Inductive reachable : TcpPortPool -> Prop :=
| R_init start reserved entries p :
    0 <= start -> init entries (new_pool start reserved) = Done (OMS_OK, p) -> reachable p
| R_take bound entries fuel reset port p r port' p' :
    reachable p -> take_port bound entries fuel reset port p = Done (Some (r, port', p')) -> reachable p'
| R_return port p p' :
    reachable p -> start_tcp_port p <= port < start_tcp_port p + reserved_ports_num p -> return_port port p = Done p' -> reachable p'.

Lemma set_from_ok n : forall i p,
  zlen (port_bits p) = NBITS -> 0 <= i -> i + Z.of_nat n <= NBITS ->
  let p' := set_from n i p in
  same_range p p' /\ zlen (port_bits p') = NBITS /\ bit_index p' = bit_index p /\
  forall j, 0 <= j < NBITS -> i <= j < i + Z.of_nat n \/ test j p = true -> test j p' = true.
Proof.
  induction n as [|n IH]; intros i p Hl Hi Hn; cbn [set_from].
  { split; [done|]. split; [done|]. split; [done|]. intros j Hj [?|?]; [lia|done]. }
  destruct (IH (i + 1) (set_bit i true p)) as ([R1 R2] & Hl' & Hx & Ht); [by rewrite zlen_set_bit|lia|lia|].
  split; [done|]. split; [done|]. split; [done|]. intros j Hj Hc. apply Ht; [done|]. rewrite test_set_bit by lia.
  destruct (Z.eqb_spec i j) as [->|]; [by right|]. destruct Hc; [left; lia|by right].
Qed.

Lemma mark_port_bit port b p :
  zlen (port_bits p) = NBITS ->
  exists p', mark_port false port b p = Done p' /\ same_range p p' /\ zlen (port_bits p') = NBITS /\ bit_index p' = bit_index p /\
    forall j, 0 <= j < NBITS -> test j p' = if u16 (port - start_tcp_port p) =? j then b else test j p.
Proof.
  intros Hl. unfold mark_port. eexists. split; [done|]. pose proof (u16_range (port - start_tcp_port p)) as Hu. unfold is_u16 in Hu.
  destruct (Z.ltb_spec (u16 (port - start_tcp_port p)) NBITS).
  - split; [done|]. split; [by rewrite zlen_set_bit|]. split; [done|]. intros j Hj. apply test_set_bit; [done|lia|lia].
  - split; [done|]. split; [done|]. split; [done|]. intros j Hj. by rewrite (proj2 (Z.eqb_neq _ j)) by lia.
Qed.

Lemma mark_entries_set wanted entries : forall p,
  zlen (port_bits p) = NBITS ->
  exists p', mark_entries false wanted entries p = Done p' /\ same_range p p' /\ zlen (port_bits p') = NBITS /\
    bit_index p' = bit_index p /\ forall j, 0 <= j < NBITS -> test j p = true -> test j p' = true.
Proof.
  induction entries as [|e l IH]; intros p Hl; cbn [mark_entries]; [by exists p|].
  destruct (wanted (e_state e)); [|by apply IH].
  destruct (mark_port_bit (e_port e) true p Hl) as (q & -> & [Q1 Q2] & Ql & Qx & Qt). cbn.
  destruct (IH q Ql) as (r & -> & [R1 R2] & Rl & Rx & Rt). exists r. split; [done|]. split; [split; congruence|].
  split; [done|]. split; [congruence|]. intros j Hj Ht. apply Rt; [done|]. rewrite Qt by done. by destruct (_ =? _).
Qed.

Lemma init_ok start reserved entries p :
  0 <= start -> init entries (new_pool start reserved) = Done (OMS_OK, p) -> pool_ok p /\ sealed p.
Proof.
  unfold init. cbn [new_pool reserved_ports_num start_tcp_port]. intros Hs.
  destruct (Z.leb_spec reserved 0), (Z.ltb_spec NBITS reserved), (Z.ltb_spec 65535 (start + reserved)); cbn [orb]; try done.
  destruct (set_from_ok (Z.to_nat (NBITS - reserved)) reserved (new_pool start reserved)) as ([R1 R2] & Hl & Hx & Ht); [done|lia|lia|].
  destruct (mark_entries_set holds_port entries _ Hl) as (q & -> & [Q1 Q2] & Ql & Qx & Qt). cbn.
  intros [= <-]. rewrite R1 in Q1. rewrite R2 in Q2. rewrite Hx in Qx. cbn in Q1, Q2, Qx.
  split; [unfold pool_ok; rewrite Q1, Q2, Qx; lia|]. intros j Hj. rewrite Q2 in Hj. apply Qt; [lia|]. apply Ht; [lia|]. left. lia.
Qed.

Lemma return_ok port p p' :
  pool_ok p -> sealed p -> start_tcp_port p <= port < start_tcp_port p + reserved_ports_num p -> return_port port p = Done p' ->
  pool_ok p' /\ sealed p'.
Proof.
  intros Hp Hs Hport Hr. pose proof Hp as (H1 & H2 & H3 & H4 & H5). unfold return_port in Hr.
  destruct (mark_port_bit port false p H4) as (q & E & [Q1 Q2] & Ql & Qx & Qt). rewrite E in Hr. injection Hr as ->.
  split; [unfold pool_ok; by rewrite Q1, Q2, Ql, Qx|]. intros j Hj. rewrite Q2 in Hj. rewrite Qt by lia.
  rewrite u16_small by (unfold NBITS in *; lia). rewrite (proj2 (Z.eqb_neq _ j)) by lia. by apply Hs.
Qed.

Section Taking.
Context (bound : Z -> bool) (entries : list BinlogEntry).

(** The first pass from where the last one stopped, then the second from the first place. *)
Lemma take_ok fuel reset port p :
  pool_ok p -> sealed p -> resettable entries reset -> (2 <= fuel)%nat ->
  exists r port' p', take_port bound entries fuel reset port p = Done (Some (r, port', p')) /\ taken bound reset p r port' p'.
Proof.
  intros Hp Hs Hr Hfuel. destruct fuel as [|fuel]; [lia|]. pose proof Hp as ((H1 & H1') & _ & _ & _ & H5).
  destruct (all_set p) eqn:Ha.
  { exists OMS_FAILED, port, p. split; [unfold take_port; cbn [take_loop]; by rewrite Ha|by apply taken_none]. }
  destruct (take_turn bound entries fuel reset port p Hp Hr Ha) as ([] & port' & p' & Hps & Hn).
  { exists OMS_OK, port', p'. split; [done|by apply taken_found]. }
  pose proof (passed_kept bound reset _ _ _ _ Hps) as Hk. destruct Hn as (q & -> & Qr & Qok & Q0 & Qt). destruct Hps as [_ _ [Hf Hb]].
  assert (kept bound reset p q) as Hkq. { intros j Hj Ht Hl. by rewrite Qt, (Hk j Hj Ht Hl), Hl. }
  assert (sealed q) as Hsq by by apply (kept_sealed bound reset p). pose proof Qr as [Qr1 Qr2].
  destruct (second_pass bound entries fuel reset port' q) as (r & port2 & p2 & E & [T1 T2 T3 T4 T5]); [done..| |lia|].
  { intros -> i Hi Ht. rewrite Qr1. rewrite Qt in Ht by lia. unfold released in Ht. rewrite Qr2 in Hi.
    rewrite (proj2 (Z.ltb_lt i _)) in Ht by lia. destruct (bound _); [done|]. by rewrite andb_false_r in Ht. }
  exists r, port2, p2. split; [done|]. pose proof T1 as [T11 T12].
  split; [split; congruence|done|done|apply (kept_trans bound reset p q); [done..|intros j ? ? _; by apply T4]|].
  rewrite Qr1, Qr2 in T5. destruct r.
  - destruct T5 as (i & Hi & Ep & Eb & Et & Eq). exists i. split; [done|]. split; [done|]. split; [done|]. split; [done|].
    destruct reset; [done|]. destruct (test i p) eqn:E1; [|done]. rewrite (Hkq i) in Eq; [done|lia|done|done].
  - destruct T5 as (Ea & T5). split; [done|]. destruct reset.
    + right. intros i Hi. destruct (bound (start_tcp_port p + i)) eqn:Eb; [done|]. destruct (T5 i Hi). split; [|by rewrite Qr1].
      rewrite Qt by lia. unfold released. by rewrite Eb, (proj2 (Z.ltb_lt i _)), andb_false_r by lia.
    + intros i Hi [F1 F2]. destruct (decide (bit_index p <= i)); [by apply (Hf i); [lia|]|]. destruct (T5 i Hi). split; [|by rewrite Qr1].
      rewrite Qt, Hb, F1 by lia. by rewrite (proj2 (Z.leb_gt _ i)) by lia.
Qed.

(** More fuel, same result. *)
Lemma take_loop_more k reset : forall fuel port p x,
  take_loop bound entries fuel reset port p = Done (Some x) -> take_loop bound entries (fuel + k) reset port p = Done (Some x).
Proof.
  induction fuel as [|fuel IH]; intros port p x; cbn [take_loop Nat.add]; [destruct k; cbn [take_loop]; by destruct (all_set p)|].
  destruct (all_set p); [done|]. destruct (take_pass _ _ _ _) as [[[] port'] p']; [done|].
  destruct (if reset then _ else _); cbn; [apply IH|done..].
Qed.

End Taking.

Lemma mark_entries_locked p es : Exists (fun e => is_offline (e_state e) = true) es -> mark_entries true is_offline es p = Crash.
Proof. induction 1 as [e l He|e l _ IH]; cbn [mark_entries]; [by rewrite He|]. by destruct (is_offline (e_state e)). Qed.

(** A call that returns while an instance is offline has found its port, or that there is
    none, before any release. *)
Lemma take_offline_returns bound entries fuel port p x : Exists (fun e => is_offline (e_state e) = true) entries ->
  take_loop bound entries fuel true port p = Done (Some x) -> take_loop bound [] fuel false port p = Done (Some x).
Proof.
  intros He. destruct fuel as [|fuel]; cbn [take_loop]; [done|]. destruct (all_set p); [done|]. destruct (take_pass _ _ _ _) as [[[] port'] p']; [done|].
  intros E. exfalso. revert E. unfold test_and_reset_ports_in_used. by rewrite mark_entries_locked.
Qed.

Lemma take_returns_ok bound entries fuel reset port p r port' p' : pool_ok p -> sealed p -> resettable entries reset ->
  take_loop bound entries fuel reset port p = Done (Some (r, port', p')) -> pool_ok p' /\ sealed p'.
Proof.
  intros IH1 IH2 Hr E. destruct (take_ok bound entries (fuel + 2) reset port p IH1 IH2 Hr ltac:(lia)) as (r2 & port2 & p2 & E2 & T).
  apply (take_loop_more _ _ 2) in E. unfold take_port in E2. rewrite E in E2. injection E2 as -> -> ->. by destruct T.
Qed.

Lemma reachable_ok p : reachable p -> pool_ok p /\ sealed p.
Proof.
  induction 1 as [start reserved entries p Hs Hi|bound entries fuel reset port p r port' p' _ [IH1 IH2] E|port p p' _ [IH1 IH2] Hp E].
  - by eapply init_ok.
  - unfold take_port in E. destruct reset; [|eapply take_returns_ok; [done|done| |exact E]; intros [=]].
    destruct (decide (Exists (fun e => is_offline (e_state e) = true) entries)) as [He|Hn]; [apply take_offline_returns in E; [|done]; eapply take_returns_ok; [done|done| |exact E]; intros [=]|].
    eapply take_returns_ok; [done|done| |exact E]. intros _. apply not_Exists_Forall in Hn; [|apply _]. eapply Forall_impl; [exact Hn|]. intros e. apply not_true_is_false.
  - by eapply return_ok.
Qed.

(** C38: In every state of the pool that initialisation, calls of [take_port] that return and
    returns of ports of the range lead to, and however the bits and the bound ports lie,
    [take_port] returns after at most two passes, provided that no instance is offline or
    that it is not to release ports.  A port it hands out is of the range, nobody has bound
    it and its bit is set.  Without a release the bit was clear, so that no port is handed
    out twice; a release makes a port that is handed out but not yet bound available again
    ([taken_twice]).  It fails only when no port of the range is left: none both clear and
    unbound without a release; with a release every port bound, or every bit already set on
    entry, and then nothing is tried.  No bit is cleared but those a release clears, and the
    bits past the range stay set.  (With an instance offline a release blocks for ever,
    [take_port_offline_deadlock]; after the return of a port past the range the call can
    spin, [take_port_stray_spins].) *)
Theorem take_port_correct bound entries fuel reset port p :
  reachable p -> resettable entries reset -> (2 <= fuel)%nat ->
  exists r port' p', take_port bound entries fuel reset port p = Done (Some (r, port', p')) /\ taken bound reset p r port' p'.
Proof. intros Hp Hr Hf. destruct (reachable_ok p Hp). by apply take_ok. Qed.

(** Nothing left in the range, and a clear bit past it. *)
Lemma take_loop_spins bound entries reset k fuel : forall port p,
  pool_ok p -> resettable entries reset -> reserved_ports_num p <= k < NBITS -> test k p = false ->
  (forall i, 0 <= i < reserved_ports_num p -> bound (start_tcp_port p + i) = true) ->
  take_port bound entries fuel reset port p = Done None.
Proof.
  induction fuel as [|fuel IH]; intros port p Hp Hr Hk Ht Hb.
  all: assert (all_set p = false) as Ha by
    (apply not_true_is_false; intros Ha; rewrite all_set_spec in Ha by (by destruct Hp as (_ & _ & _ & ? & _));
     rewrite Ha in Ht; [done|destruct Hp as ((? & _) & _); lia]).
  { unfold take_port. cbn [take_loop]. by rewrite Ha. }
  destruct (take_turn bound entries fuel reset port p Hp Hr Ha) as ([] & port' & p' & [_ _ Hf] & Hn); pose proof Hp as ((? & _) & _ & _ & _ & ?).
  { destruct Hf as (Hi & [_ Hf] & _). rewrite Hb in Hf; [done|lia]. }
  destruct Hn as (q & -> & [Q1 Q2] & Qok & _ & Qt). destruct Hf as [_ Hf]. apply IH; rewrite ?Q1, ?Q2; try done.
  rewrite Qt, Hf, Ht by lia. by rewrite (proj2 (Z.ltb_ge k _)), andb_false_r by lia.
Qed.

(** When a port past the reserved range (but within 1024 of its start) is returned and then
    all the ports of the range are bound, [take_port] never returns, with the lock held:
    the bit is never looked at and keeps [all] false. *)
Theorem take_port_stray_spins bound entries reset port p stray :
  reachable p -> resettable entries reset ->
  start_tcp_port p + reserved_ports_num p <= stray < start_tcp_port p + NBITS -> stray <= 65535 ->
  (forall i, 0 <= i < reserved_ports_num p -> bound (start_tcp_port p + i) = true) ->
  exists q, return_port stray p = Done q /\ forall fuel, take_port bound entries fuel reset port q = Done None.
Proof.
  intros Hp Hr Hs Hs' Hb. apply reachable_ok in Hp as [Hp _]. pose proof Hp as (H1 & H2 & H3 & H4 & H5).
  destruct (mark_port_bit stray false p H4) as (q & E & [Q1 Q2] & Ql & Qx & Qt). exists q. split; [done|]. intros fuel.
  apply (take_loop_spins _ _ _ (stray - start_tcp_port p)); rewrite ?Q1, ?Q2; try done; [|lia|].
  - unfold pool_ok. by rewrite Q1, Q2, Ql, Qx.
  - rewrite Qt by lia. rewrite u16_small by lia. by rewrite Z.eqb_refl.
Qed.

(** When a pass finds nothing while an instance is offline, the release marks that
    instance's port with the lock already held: the thread locks its own mutex again. *)
Theorem take_port_offline_deadlock bound entries fuel port p :
  pool_ok p -> all_set p = false -> (forall i, bit_index p <= i < reserved_ports_num p -> ~ free bound i p) ->
  Exists (fun e => is_offline (e_state e) = true) entries ->
  take_port bound entries (S fuel) true port p = Crash.
Proof.
  intros Hp Ha Hf He. unfold take_port. cbn [take_loop]. rewrite Ha. pose proof Hp as (H1 & _ & _ & _ & H5).
  pose proof (take_pass_ok bound (Z.to_nat (reserved_ports_num p - bit_index p)) port p Hp ltac:(lia)) as Hps.
  destruct (take_pass _ _ port p) as [[[] port'] p'].
  - destruct Hps as [_ _ (Hi & Hfr & _)]. by destruct (Hf _ Hi).
  - unfold test_and_reset_ports_in_used. by rewrite mark_entries_locked.
Qed.

(** ** Witnesses *)

Definition sample_entries : list BinlogEntry := [mkEntry S_RUNNING 8100; mkEntry S_STOP 8101].
Definition sample_pool : TcpPortPool :=
  match init sample_entries (new_pool 8100 3) with Done (_, p) => p | _ => new_pool 8100 3 end.

Lemma sample_reachable : reachable sample_pool.
Proof. apply (R_init 8100 3 sample_entries); [lia|vm_compute; reflexivity]. Qed.

Lemma sample_resettable reset : resettable sample_entries reset.
Proof. intros _. repeat constructor. Qed.

Lemma take_port_correct_witness :
  exists r port p, take_port (Z.eqb 8101) sample_entries 2 false 0 sample_pool = Done (Some (r, port, p)) /\
    taken (Z.eqb 8101) false sample_pool r port p.
Proof. apply take_port_correct; [exact sample_reachable|apply sample_resettable|lia]. Defined.

Lemma take_port_stray_spins_witness :
  exists q, return_port 8200 sample_pool = Done q /\ forall fuel, take_port (fun _ => true) sample_entries fuel true 0 q = Done None.
Proof.
  apply take_port_stray_spins; [exact sample_reachable|apply sample_resettable|vm_compute; split; congruence|lia|done].
Defined.

(** Port 8100 belongs to a running instance, 8101 is bound by some other process. *)
Example sample_take :
  (x ← take_port (Z.eqb 8101) sample_entries 2 false 0 sample_pool;
   Done (match x with Some (r, port, p) => Some (r, port, available_port_count p) | None => None end)) = Done (Some (OMS_OK, 8102, 0)).
Proof. vm_compute. reflexivity. Qed.

(** 8100 is handed out to an instance that has not bound it yet and 8101 is bound by another
    process: the second call releases 8100 and hands it out again. *)
Example taken_twice :
  (ip ← init [] (new_pool 8100 2);
   x ← take_port (Z.eqb 8101) [] 2 true 0 ip.2;
   match x with
   | Some (r1, port1, p) =>
       y ← take_port (Z.eqb 8101) [] 2 true 0 p;
       Done (match y with Some (r2, port2, _) => Some (r1, port1, r2, port2) | None => None end)
   | None => Done None
   end) = Done (Some (OMS_OK, 8100, OMS_OK, 8100)).
Proof. vm_compute. reflexivity. Qed.
