(* ===== verification/Dumper.v ===== *)
(** * Dumper: sending binlog files to a replica

    [src/src/binlog/binlog-instance/binlog_dumper.{h,cpp}].  A dumper thread reads the binlog
    files that the storage thread is writing and sends their events over one connection, from
    a file and position or after the GTIDs the replica already has.  Every access to what
    other threads change is one observation of the world ([env]) at the dumper's own clock,
    so that any interleaving with the storage, the purge and the client is one [env].
    Counters, log lines and the rate limiter, which only
    delays, are left out. *)

From S2P Require Import Prelude Bytes Str Gtid Events EventWire EventScan BinlogIndex GtidManager Storage.

#[local] Open Scope Z_scope.

(** ** The world and the connection *)

Record World := mkWorld {
  w_files : gmap bytes bytes;
  w_index : BinlogIndexManager;
  w_run : bool;
  w_killed : bool;
  w_sends : bool
}.

(** What goes over the connection, by the function that sends it. *)
Inductive packet :=
| P_event (b : bytes)
| P_fake_rotate (b : bytes)
| P_heartbeat (b : bytes)
| P_err (message : bytes)
| P_eof.

Inductive IoResult := SUCCESS | FAIL | BINLOG_DUMP | QUIT | KILL.
#[export] Instance IoResult_eq_dec : EqDecision IoResult.
Proof. solve_decision. Defined.

(** [OMS_OK], [OMS_FAILED] and [OMS_BINLOG_SKIP] of [seek_binlog_end_pos] *)
Inductive end_pos_result := END_POS (end_pos : Z) | END_FAILED | END_SKIP.

Definition UNDEF : Z := 255.
Definition FAILED : Z := -1.
Definition BINLOG_DUMP_NON_BLOCK : Z := 1.

(** [bd_fp] is the open file: its name and the time of [fopen]; [bd_now] is the clock and
    [bd_sent] what went over the connection. *)
Record BinlogDumper := mkDumper {
  bd_file : bytes;
  bd_relative_file : bytes;
  bd_start_pos : Z;
  bd_gtid_mod : bool;
  bd_exclude_gtid : gtid_map;
  bd_checkpoint : bytes * Z;
  bd_flag : Z;
  bd_packet : list bytes;
  bd_fp : option (bytes * nat);
  bd_checkpoint_ts : Z;
  bd_checksum_flag : Z;
  bd_rotate_file : bytes;
  bd_now : nat;
  bd_sent : list packet
}.

Definition with_file (file relative : bytes) (s : BinlogDumper) : BinlogDumper :=
  mkDumper file relative (bd_start_pos s) (bd_gtid_mod s) (bd_exclude_gtid s) (bd_checkpoint s) (bd_flag s)
    (bd_packet s) (bd_fp s) (bd_checkpoint_ts s) (bd_checksum_flag s) (bd_rotate_file s) (bd_now s) (bd_sent s).
Definition with_start_pos (p : Z) (s : BinlogDumper) : BinlogDumper :=
  mkDumper (bd_file s) (bd_relative_file s) p (bd_gtid_mod s) (bd_exclude_gtid s) (bd_checkpoint s) (bd_flag s)
    (bd_packet s) (bd_fp s) (bd_checkpoint_ts s) (bd_checksum_flag s) (bd_rotate_file s) (bd_now s) (bd_sent s).
Definition with_checkpoint (c : bytes * Z) (s : BinlogDumper) : BinlogDumper :=
  mkDumper (bd_file s) (bd_relative_file s) (bd_start_pos s) (bd_gtid_mod s) (bd_exclude_gtid s) c (bd_flag s)
    (bd_packet s) (bd_fp s) (bd_checkpoint_ts s) (bd_checksum_flag s) (bd_rotate_file s) (bd_now s) (bd_sent s).
Definition with_packet (p : list bytes) (s : BinlogDumper) : BinlogDumper :=
  mkDumper (bd_file s) (bd_relative_file s) (bd_start_pos s) (bd_gtid_mod s) (bd_exclude_gtid s) (bd_checkpoint s) (bd_flag s)
    p (bd_fp s) (bd_checkpoint_ts s) (bd_checksum_flag s) (bd_rotate_file s) (bd_now s) (bd_sent s).
Definition with_fp (f : option (bytes * nat)) (s : BinlogDumper) : BinlogDumper :=
  mkDumper (bd_file s) (bd_relative_file s) (bd_start_pos s) (bd_gtid_mod s) (bd_exclude_gtid s) (bd_checkpoint s) (bd_flag s)
    (bd_packet s) f (bd_checkpoint_ts s) (bd_checksum_flag s) (bd_rotate_file s) (bd_now s) (bd_sent s).
Definition with_checkpoint_ts (t : Z) (s : BinlogDumper) : BinlogDumper :=
  mkDumper (bd_file s) (bd_relative_file s) (bd_start_pos s) (bd_gtid_mod s) (bd_exclude_gtid s) (bd_checkpoint s) (bd_flag s)
    (bd_packet s) (bd_fp s) t (bd_checksum_flag s) (bd_rotate_file s) (bd_now s) (bd_sent s).
Definition with_checksum_flag (f : Z) (s : BinlogDumper) : BinlogDumper :=
  mkDumper (bd_file s) (bd_relative_file s) (bd_start_pos s) (bd_gtid_mod s) (bd_exclude_gtid s) (bd_checkpoint s) (bd_flag s)
    (bd_packet s) (bd_fp s) (bd_checkpoint_ts s) f (bd_rotate_file s) (bd_now s) (bd_sent s).
Definition with_rotate_file (f : bytes) (s : BinlogDumper) : BinlogDumper :=
  mkDumper (bd_file s) (bd_relative_file s) (bd_start_pos s) (bd_gtid_mod s) (bd_exclude_gtid s) (bd_checkpoint s) (bd_flag s)
    (bd_packet s) (bd_fp s) (bd_checkpoint_ts s) (bd_checksum_flag s) f (bd_now s) (bd_sent s).
Definition tick (s : BinlogDumper) : BinlogDumper :=
  mkDumper (bd_file s) (bd_relative_file s) (bd_start_pos s) (bd_gtid_mod s) (bd_exclude_gtid s) (bd_checkpoint s) (bd_flag s)
    (bd_packet s) (bd_fp s) (bd_checkpoint_ts s) (bd_checksum_flag s) (bd_rotate_file s) (S (bd_now s)) (bd_sent s).
Definition deliver (p : packet) (s : BinlogDumper) : BinlogDumper :=
  mkDumper (bd_file s) (bd_relative_file s) (bd_start_pos s) (bd_gtid_mod s) (bd_exclude_gtid s) (bd_checkpoint s) (bd_flag s)
    (bd_packet s) (bd_fp s) (bd_checkpoint_ts s) (bd_checksum_flag s) (bd_rotate_file s) (bd_now s) (bd_sent s ++ [p]).

(** ** The monad of the dumper thread: [None] is a thread still running when the fuel of a
    loop is used up. *)

Definition dump (A : Type) : Type := BinlogDumper -> outcome (option A * BinlogDumper).

#[export] Instance dump_ret : MRet dump := fun A x s => Done (Some x, s).
#[export] Instance dump_bind : MBind dump := fun A B k m s =>
  match m s with
  | Done (Some x, s) => k x s
  | Done (None, s) => Done (None, s)
  | Crash => Crash
  end.

Definition get : dump BinlogDumper := fun s => Done (Some s, s).
Definition modify (f : BinlogDumper -> BinlogDumper) : dump unit := fun s => Done (Some tt, f s).
Definition lift {A} (o : outcome A) : dump A := fun s => match o with Done x => Done (Some x, s) | Crash => Crash end.
Definition still_running {A} : dump A := fun s => Done (None, s).

Definition toupper (c : Z) : Z := if (97 <=? c) && (c <=? 122) then c - 32 else c.

Section Dumper.
Context (cfg : storage_config) (crc32 : bytes -> Z).
(** The heartbeat interval of the configuration and two variables of the session *)
Context (heartbeat_interval_us : Z) (master_heartbeat_period master_binlog_checksum : bytes).
Context (env : nat -> World).

Definition observe : dump World := fun s => Done (Some (env (bd_now s)), tick s).

(** [is_run() && !_connection->killed()] *)
Definition running : dump bool := w ← observe; mret (w_run w && negb (w_killed w)).

Definition send (p : packet) : dump IoResult :=
  w ← observe;
  if w_sends w then modify (deliver p);; mret SUCCESS else mret FAIL.

(** The result of sending an error is not looked at. *)
Definition send_err (message : string) : dump unit := send (P_err (str message));; mret tt.

(** A file that is open keeps the content it last had under its name. *)
Fixpoint open_content (n : nat) (name : bytes) (t : nat) : option bytes :=
  match w_files (env t) !! name with
  | Some f => Some f
  | None => match n with O => None | S n => open_content n name (pred t) end
  end.

(** [FsUtil::read_file] on the open file *)
Definition read_stream (pos len : Z) : dump (option bytes) :=
  s ← get;
  observe;;
  '(name, opened) ← lift (of_option (bd_fp s));
  mret (f ← open_content (bd_now s - opened) name (bd_now s); read_file f pos len).

(** ** What to skip *)

(** [handle_gtid_event]: the transaction is in an interval of the same server. *)
Definition in_range (g_no : Z) (m : GtidMessage) : bool :=
  existsb (fun r : txn_range => (g_no <? r.2) && (r.1 <=? g_no)) (get_txn_range m).

Fixpoint excluded (uuid : bytes) (g_no : Z) (exclude : gtid_map) : outcome bool :=
  match exclude with
  | [] => Done false
  | (_, m) :: exclude =>
      exclude_uuid ← get_gtid_uuid_str m;
      if beq exclude_uuid (dumphex uuid) && in_range g_no m then Done true else excluded uuid g_no exclude
  end.

Definition handle_gtid_event (event : bytes) (exclude : gtid_map) : outcome bool :=
  ev ← of_option (run_reader (gtid_log_deserialize (c_binlog_checksum cfg)) event);
  match get_body ev with GtidLogEvent e => excluded (gl_gtid_uuid e) (gl_gtid_txn_id e) exclude | _ => Crash end.

Definition skip_event (h : OblogEventHeader) (event : bytes) (skip_record : bool) (s : BinlogDumper) : outcome bool :=
  if bd_gtid_mod s && negb (bool_decide (bd_exclude_gtid s = [])) then
    if h_type_code h =? ROTATE_EVENT then Done false
    else if h_type_code h =? GTID_LOG_EVENT then handle_gtid_event event (bd_exclude_gtid s)
    else Done skip_record
  else Done false.

(** ** Reading and sending events *)

(** [seek_event]: the type of the event, [UNKNOWN_EVENT] when it is skipped, with the new
    [skip_record]. *)
Definition seek_event (skip_record : bool) : dump (Z * bool) :=
  s ← get;
  let pos := (bd_checkpoint s).2 in
  buff ← read_stream pos COMMON_HEADER_LENGTH;
  match buff with
  | None => mret (FAILED, skip_record)
  | Some buff =>
      h ← lift (of_option (run_reader header_deserialize buff));
      let event_len := h_event_length h in
      event ← read_stream pos event_len;
      match event with
      | None => mret (FAILED, skip_record)
      | Some event =>
          (if h_type_code h =? FORMAT_DESCRIPTION_EVENT then
             fd ← lift (of_option (run_reader format_description_deserialize event));
             modify (with_checksum_flag (get_checksum_flag fd))
           else mret tt : dump unit);;
          s ← get;
          skip_record ← lift (skip_event h event skip_record s);
          modify (with_checkpoint ((bd_checkpoint s).1, u64 (pos + event_len)));;
          if (skip_record : bool) then mret (UNKNOWN_EVENT, true)
          else
            modify (fun s => with_checkpoint_ts (h_timestamp h) (with_packet (bd_packet s ++ [0 :: event]) s));;
            mret (h_type_code h, false)
      end
  end.

(** [send_packet]: the buffers in order, up to the first that fails. *)
Fixpoint send_chunks (l : list bytes) : dump IoResult :=
  match l with
  | [] => mret SUCCESS
  | b :: l => r ← send (P_event b); if bool_decide (r = SUCCESS) then send_chunks l else mret r
  end.

Definition send_packet : dump IoResult :=
  s ← get;
  r ← send_chunks (bd_packet s);
  modify (with_packet []);; mret r.

Definition is_legal_event (end_pos : Z) : dump bool :=
  s ← get;
  let offset := (bd_checkpoint s).2 in
  if end_pos <? u64 (offset + COMMON_HEADER_LENGTH) then mret false
  else
    buff ← read_stream offset COMMON_HEADER_LENGTH;
    match buff with
    | None => mret false
    | Some buff =>
        h ← lift (of_option (run_reader header_deserialize buff));
        mret (u64 (offset + h_event_length h) <=? end_pos)
    end.

(** [send_events(start_pos, end_pos)] *)
Fixpoint send_events_loop (fuel : nat) (end_pos : Z) (skip_record : bool) : dump IoResult :=
  w ← observe;
  s ← get;
  if w_killed w || (end_pos <=? (bd_checkpoint s).2) then mret SUCCESS
  else
    legal ← is_legal_event end_pos;
    if negb legal then mret SUCCESS
    else
      match fuel with
      | O => still_running
      | S fuel =>
          '(result, skip_record) ← seek_event skip_record;
          if result =? FAILED then send_err "I/O error reading log event";; mret FAIL
          else
            sent ← (if result =? UNKNOWN_EVENT then mret SUCCESS else send_packet);
            if negb (bool_decide (sent = SUCCESS)) then mret sent
            else if result =? ROTATE_EVENT then modify (fun s => with_rotate_file (bd_checkpoint s).1 s);; mret SUCCESS
            else send_events_loop fuel end_pos skip_record
      end.

Definition send_events (fuel : nat) (start_pos end_pos : Z) : dump IoResult :=
  modify (fun s => with_checkpoint ((bd_checkpoint s).1, start_pos) s);; send_events_loop fuel end_pos false.

(** ** Heartbeats *)

Definition send_heartbeat_event (pos : Z) : dump IoResult :=
  s ← get;
  let ev := new_heartbeat_at (c_binlog_checksum cfg) (c_server_id cfg) (bd_checkpoint s).1 pos in
  b ← lift (flush_to_buff crc32 (set_header (set_header_timestamp (bd_checkpoint_ts s) (get_header ev)) ev));
  send (P_heartbeat (0 :: b)).

Definition conn_liveness : dump ret :=
  s ← get;
  r ← send_heartbeat_event (bd_checkpoint s).2;
  mret (if bool_decide (r = SUCCESS) then OMS_OK else OMS_FAILED).

Definition get_heartbeat_period_us : Z :=
  if beq master_heartbeat_period [] then heartbeat_interval_us
  else u64 (Z.quot (atoll master_heartbeat_period) 1000).

(** [wait_event]: [None] is [OMS_FAILED]; the position is 0 when the thread was stopped. *)
Fixpoint wait_event (fuel : nat) (file : bytes) (pos : Z) : dump (option Z) :=
  run ← running;
  if negb run then mret (Some 0)
  else
    w ← observe;
    file_index ← lift (of_option (get_binlog_index (c_width cfg) file));
    if behind_current_pos (w_index w) file_index pos then
      w ← observe;
      mret (Some (match w_files w !! file with Some f => zlen f | None => 0 end))
    else
      r ← (if get_heartbeat_period_us =? 0 then mret SUCCESS else send_heartbeat_event pos);
      if negb (bool_decide (r = SUCCESS)) then mret None
      else match fuel with O => still_running | S fuel => wait_event fuel file pos end.

(** ** One file *)

Definition send_format_description_event : dump IoResult :=
  s ← get;
  if (bd_checksum_flag s =? UNDEF) && c_binlog_checksum cfg then
    send_err "Slave can not handle replication events with the checksum that master is configured to log";;
    mret FAIL
  else
    modify (fun s => with_checkpoint ((bd_checkpoint s).1, BINLOG_MAGIC_SIZE) s);;
    '(r, _) ← seek_event false;
    if negb (r =? FORMAT_DESCRIPTION_EVENT) then mret FAIL else send_packet.

Definition size_in (w : World) (file : bytes) : Z := match w_files w !! file with Some f => zlen f | None => 0 end.

Definition seek_binlog_end_pos (fuel : nat) (file : bytes) : dump end_pos_result :=
  w ← observe;
  s ← get;
  if negb (is_active (w_index w) file) then
    w ← observe;
    let file_end_pos := size_in w file in
    if ((bd_checkpoint s).2 =? file_end_pos) && strcmp_eq file (bd_rotate_file s) then mret END_SKIP
    else if file_end_pos <? (bd_checkpoint s).2 then mret END_FAILED
    else mret (END_POS file_end_pos)
  else
    w ← observe;
    let file_size := size_in w file in
    if (bd_checkpoint s).2 <? file_size then mret (END_POS file_size)
    else if bd_flag s =? BINLOG_DUMP_NON_BLOCK then send_packet;; mret END_SKIP
    else
      r ← wait_event fuel file (bd_checkpoint s).2;
      mret (match r with Some new_pos => END_POS new_pos | None => END_FAILED end).

(** The loop of [send_binlog] *)
Fixpoint send_binlog_loop (fuel : nat) (file : bytes) : dump IoResult :=
  run ← running;
  if negb run then w ← observe; mret (if w_killed w then KILL else SUCCESS)
  else
    match fuel with
    | O => still_running
    | S fuel =>
        e ← seek_binlog_end_pos fuel file;
        match e with
        | END_SKIP => mret SUCCESS
        | END_FAILED => mret FAIL
        | END_POS end_pos =>
            s ← get;
            r ← send_events fuel (bd_checkpoint s).2 end_pos;
            if negb (bool_decide (r = SUCCESS)) then mret FAIL
            else
              alive ← conn_liveness;
              if negb (bool_decide (alive = OMS_OK)) then mret FAIL else send_binlog_loop fuel file
        end
    end.

Definition send_binlog (fuel : nat) (file : bytes) (start_pos : Z) : dump IoResult :=
  r ← send_format_description_event;
  if negb (bool_decide (r = SUCCESS)) then mret FAIL
  else
    modify (fun s => if (bd_checkpoint s).2 <? start_pos then with_checkpoint ((bd_checkpoint s).1, start_pos) s else s);;
    send_binlog_loop fuel file.

Definition fake_rotate (file_name : bytes) (start_pos checksum_flag : Z) : ObLogEvent :=
  let ev := new_rotate (c_binlog_checksum cfg) (c_server_id cfg) 0 file_name 0 0 0 ROTATE in
  let h := get_header ev in
  let off := negb (checksum_flag =? CRC32) in
  let len := if off then h_event_length h - get_checksum_len ev else h_event_length h in
  mkEvent (mkHeader (h_timestamp h) (h_type_code h) (h_server_id h) (u32 len) 0 32) (get_ob_txn ev) (Events.get_checkpoint ev)
    (if off then checksum_flag else get_checksum_flag ev) (is_filter ev)
    (RotateEvent (mkRotate start_pos file_name 0 [] ROTATE false)).

Definition send_fake_rotate_event (file_name : bytes) (start_pos : Z) : dump IoResult :=
  s ← get;
  b ← lift (flush_to_buff crc32 (fake_rotate file_name start_pos (bd_checksum_flag s)));
  send (P_fake_rotate (0 :: b)).

(** ** From file to file *)

Definition set_dump_file (file : bytes) : dump unit := modify (with_file (binlog_path file) file).

Definition fetch_records : dump (list BinlogIndexRecord) :=
  w ← observe;
  '(_, rs) ← lift (fetch_index_vector (w_index w));
  mret rs.

Fixpoint wait_rotate_ready (retry : nat) (file : bytes) : dump unit :=
  w ← observe;
  if bool_decide (is_Some (w_files w !! file)) then mret tt
  else match retry with O => mret tt | S retry => wait_rotate_ready retry file end.

(** The record after the one of [file]: [None] when [file] is not found, [Some None] when
    it is the last one. *)
Fixpoint next_record (file : bytes) (rs : list BinlogIndexRecord) : option (option BinlogIndexRecord) :=
  match rs with
  | [] => None
  | r :: rs => if strcmp_eq (get_file_name r) file then Some (head rs) else next_record file rs
  end.

Definition seek_next_binlog : dump ret :=
  rs ← fetch_records;
  s ← get;
  match next_record (bd_file s) rs with
  | None => mret OMS_FAILED
  | Some None => mret OMS_OK
  | Some (Some r) =>
      modify (fun s => with_file (bd_file s) (binlog_name cfg (get_index r)) (with_checkpoint (get_file_name r, BINLOG_MAGIC_SIZE) s));;
      wait_rotate_ready 100 (get_file_name r);;
      mret OMS_OK
  end.

(** [is_subset_executed_gtid]: only the first interval of a message is compared. *)
Fixpoint is_subset_executed_gtid (gtids exclude : gtid_map) (is_subset : bool) : bool :=
  match gtids with
  | [] => is_subset
  | (k, gtid_message) :: gtids =>
      match omap_find k exclude with
      | None => is_subset_executed_gtid gtids exclude false
      | Some message =>
          match get_txn_range gtid_message with
          | [] => true
          | txn_range :: _ =>
              if existsb (fun e : Gtid.txn_range => (e.1 <=? txn_range.1) && (txn_range.2 <=? e.2)) (get_txn_range message)
              then is_subset_executed_gtid gtids exclude true else false
          end
      end
  end.

(** The records from the newest on. *)
Fixpoint seek_first_loop (scan_fuel : nat) (records : list BinlogIndexRecord) (is_subset : bool) : dump ret :=
  match records with
  | [] => mret OMS_OK
  | r :: records =>
      w ← observe;
      s ← get;
      evs ← lift (match w_files w !! get_file_name r with
                  | None => Done []
                  | Some f => x ← seek_events (c_binlog_checksum cfg) scan_fuel f PREVIOUS_GTIDS_LOG_EVENT true; '(_, evs) ← of_option x; Done evs
                  end);
      match get_body <$> head evs with
      | Some (PreviousGtidsLogEvent _ gtids) =>
          let is_subset := is_subset_executed_gtid gtids (bd_exclude_gtid s) is_subset in
          if is_subset then set_dump_file (binlog_name cfg (get_index r));; mret OMS_OK
          else seek_first_loop scan_fuel records is_subset
      | Some _ => lift Crash
      | None =>
          send_err "The requested gtid transaction no longer exists and may have been cleaned up";;
          mret OMS_FAILED
      end
  end.

Definition seek_first_binlog_file (scan_fuel : nat) : dump ret :=
  rs ← fetch_records;
  s ← get;
  r ← (if bool_decide (bd_exclude_gtid s = []) then
         match rs with
         | [] => mret OMS_OK
         | r :: _ => set_dump_file (binlog_name cfg (get_index r));; mret OMS_OK
         end
       else seek_first_loop scan_fuel (reverse rs) true : dump ret);
  if bool_decide (r = OMS_OK) then
    s ← get;
    if beq (bd_relative_file s) [] then
      send_err "The requested gtid transaction no longer exists and may have been cleaned up";;
      mret OMS_FAILED
    else mret OMS_OK
  else mret OMS_FAILED.

Definition fail_with (message : string) : dump ret := send_err message;; mret OMS_FAILED.

Definition check_start_file : dump ret :=
  s ← get;
  if beq (bd_relative_file s) [] then mret OMS_OK
  else
    w ← observe;
    '(_, r) ← lift (get_index_of (c_prefix cfg) (c_width cfg) (w_index w) (bd_relative_file s) empty_record);
    if beq (get_file_name r) [] then fail_with "Could not find first log file name in binary log index file"
    else if bd_gtid_mod s then mret OMS_OK
    else if get_position r <? bd_start_pos s then fail_with "Client requested master to start replication from position > file size"
    else if bd_start_pos s <? BINLOG_MAGIC_SIZE then fail_with "Client requested master to start replication from position < 4"
    else
      w ← observe;
      match w_files w !! bd_file s with
      | None => fail_with "Failed to open first binlog"
      | Some f =>
          v ← (if BINLOG_MAGIC_SIZE <? bd_start_pos s then lift (verify_event_checksum crc32 (bd_start_pos s) f false) else mret OMS_OK : dump ret);
          if bool_decide (v = OMS_OK) then mret OMS_OK else fail_with "Failed to verify first event from starting position"
      end.

Definition session_checksum : Z :=
  if beq master_binlog_checksum [] then (if c_binlog_checksum cfg then CRC32 else OFF)
  else if is_prefix (toupper <$> master_binlog_checksum) (str "CRC32") then CRC32 else OFF.

Definition init_binlog_checksum : dump unit := modify (with_checksum_flag session_checksum).

(** ** The thread *)

Definition choose_file : dump unit :=
  s ← get;
  if beq (bd_relative_file s) [] then
    rs ← fetch_records;
    match rs with [] => mret tt | r :: _ => set_dump_file (binlog_name cfg (get_index r)) end
  else mret tt.

(** [fopen] and the check of the magic number; [false] after an error packet. *)
Definition open_binlog : dump bool :=
  modify (with_fp None);;
  s ← get;
  w ← observe;
  match w_files w !! bd_file s with
  | None => send_err "failed to open binlog file";; mret false
  | Some _ =>
      modify (with_fp (Some (bd_file s, bd_now s)));;
      magic ← read_stream 0 BINLOG_MAGIC_SIZE;
      magic ← lift (of_option magic);
      if beq magic binlog_magic then mret true
      else send_err "Binlog has bad magic number;  It's not a binary log file that can be used by this version of MySQL.";; mret false
  end.

(** One turn of the loop once the file is chosen; [false] leaves the loop. *)
Definition dump_file (fuel : nat) : dump bool :=
  s ← get;
  r ← send_fake_rotate_event (bd_relative_file s) (bd_start_pos s);
  if negb (bool_decide (r = SUCCESS)) then mret false
  else if bd_start_pos s <? BINLOG_MAGIC_SIZE then
    send_err "Client requested master to start replication from position < 4.";; mret false
  else
    opened ← open_binlog;
    if negb opened then mret false
    else
      modify (fun s => with_checkpoint (bd_file s, bd_start_pos s) s);;
      s ← get;
      io_ret ← send_binlog fuel (bd_checkpoint s).1 (bd_checkpoint s).2;
      if negb (bool_decide (io_ret = SUCCESS)) then mret false
      else
        s ← get;
        if bd_flag s =? BINLOG_DUMP_NON_BLOCK then send_packet;; send P_eof;; mret false
        else
          next ← seek_next_binlog;
          if negb (bool_decide (next = OMS_OK)) then send_err "could not find next log.";; mret false
          else
            modify (fun s => with_start_pos BINLOG_MAGIC_SIZE (with_file (bd_checkpoint s).1 (bd_relative_file s) s));;
            mret true.

Fixpoint run_loop (fuel : nat) : dump unit :=
  go ← running;
  if negb go then mret tt
  else
    match fuel with
    | O => still_running
    | S fuel =>
        choose_file;;
        more ← dump_file fuel;
        if (more : bool) then run_loop fuel else mret tt
    end.

Definition run (scan_fuel fuel : nat) : dump unit :=
  s ← get;
  r ← (if bd_gtid_mod s then seek_first_binlog_file scan_fuel else mret OMS_OK : dump ret);
  if negb (bool_decide (r = OMS_OK)) then mret tt
  else
    c ← check_start_file;
    if negb (bool_decide (c = OMS_OK)) then mret tt
    else init_binlog_checksum;; run_loop fuel.

End Dumper.
