(* ===== verification/Stream.v ===== *)
(** * Stream: what a replica receives

    The dumper of [Dumper] against an abstract machine that sends the events of the binlog
    files in order, in any world where the files only hold prefixes of a fixed log: whatever
    the storage, purge and client threads do meanwhile, the packets sent are a run of that
    machine. *)

From S2P Require Import Prelude Bytes Str Gtid Events EventWire EventScan BinlogIndex GtidManager Storage Pipeline Dumper.

#[local] Open Scope Z_scope.

Lemma filter_true {A} (P : A -> Prop) `{forall x, Decision (P x)} (l : list A) : Forall P l -> filter P l = l.
Proof. induction 1 as [|x l Hx _ IH]; [done|]. rewrite filter_cons_True by done. by rewrite IH. Qed.

(** ** Weakest preconditions

    [wp m Q I s]: from [s] the code [m] does not crash; when it returns [Q] holds of the
    result, and when its fuel is used up [I] holds of the state reached. *)

Definition wp {A} (m : dump A) (Q : A -> BinlogDumper -> Prop) (I : BinlogDumper -> Prop) (s : BinlogDumper) : Prop :=
  match m s with
  | Done (Some x, s') => Q x s'
  | Done (None, s') => I s'
  | Crash => False
  end.

Section Rules.
Context {A B : Type}.

Lemma wp_ret (x : A) Q I s : Q x s -> wp (mret x) Q I s.
Proof. done. Qed.
Lemma wp_bind (m : dump A) (k : A -> dump B) Q I s :
  wp m (fun x s' => wp (k x) Q I s') I s -> wp (m ≫= k) Q I s.
Proof. unfold wp, mbind, dump_bind. destruct (m s) as [[[x|] s']|]; done. Qed.
Lemma wp_get Q I s : Q s s -> wp get Q I s.
Proof. done. Qed.
Lemma wp_modify f Q I s : Q tt (f s) -> wp (modify f) Q I s.
Proof. done. Qed.
Lemma wp_lift (o : outcome A) x Q I s : o = Done x -> Q x s -> wp (lift o) Q I s.
Proof. by intros ->. Qed.
Lemma wp_still Q (I : BinlogDumper -> Prop) s : I s -> wp (@still_running A) Q I s.
Proof. done. Qed.
Lemma wp_mono (m : dump A) Q Q' (I I' : BinlogDumper -> Prop) s :
  wp m Q I s -> (forall x s', Q x s' -> Q' x s') -> (forall s', I s' -> I' s') -> wp m Q' I' s.
Proof. unfold wp. destruct (m s) as [[[x|] s']|]; auto. Qed.

End Rules.

(** [wps] follows the code through its sequencing, reads and writes of the state. *)
Ltac wps :=
  repeat match goal with
  | |- wp (mret _) _ _ _ => apply wp_ret
  | |- wp (mbind _ _) _ _ _ => apply wp_bind
  | |- wp get _ _ _ => apply wp_get
  | |- wp (modify _) _ _ _ => apply wp_modify
  | |- wp still_running _ _ _ => apply wp_still
  end.

(** ** The log and its files *)

Section Log.
Context (cfg : storage_config) (crc32 : bytes -> Z) (log : Z -> list ObLogEvent).

Definition place_of (i : Z) (k : nat) : Z := EventScan.end_pos BINLOG_MAGIC_SIZE (take k (log i)).

(** The events of one file: a head, then the rest; a rotate event only at the end. *)
Record log_ok (evs : list ObLogEvent) : Prop := {
  lo_chain : chained BINLOG_MAGIC_SIZE evs;
  lo_config : Forall (same_config (c_binlog_checksum cfg)) evs;
  lo_head : exists fde prev rest n ms, evs = fde :: prev :: rest /\ in_use fde /\ get_body prev = PreviousGtidsLogEvent n ms;
  lo_rotate : forall k ev, evs !! k = Some ev -> h_type_code (get_header ev) = ROTATE_EVENT -> S k = length evs
}.

(** An event as it may be on disk: the in-use flag of the format description is cleared
    when the file is closed. *)
Definition variant (ev ev' : ObLogEvent) : Prop := ev' = ev \/ in_use ev /\ ev' = cleared ev.

(** A file of the log, complete or not; its head is written at once. *)
Definition written (i : Z) (f : bytes) : Prop :=
  exists evs body rest, (evs = log i \/ evs = close (log i)) /\ flush_all crc32 evs = Done body /\
    binlog_file body = f ++ rest /\ place_of i 2 <= zlen f.

Lemma variant_header ev ev' : variant ev ev' ->
  h_type_code (get_header ev') = h_type_code (get_header ev) /\ h_event_length (get_header ev') = h_event_length (get_header ev) /\
  h_timestamp (get_header ev') = h_timestamp (get_header ev) /\ get_body ev' = get_body ev /\ get_checksum_flag ev' = get_checksum_flag ev /\
  h_next_position (get_header ev') = h_next_position (get_header ev).
Proof. by intros [->|[_ ->]]. Qed.

Lemma end_pos_cons pos ev evs : EventScan.end_pos pos (ev :: evs) = EventScan.end_pos (h_next_position (get_header ev)) evs.
Proof. done. Qed.

Lemma read_file_fits f pos len x : read_file f pos len = Some x -> pos + len <= zlen f.
Proof. intros H. destruct (decide (zlen f < pos + len)) as [Hs|]; [|lia]. by rewrite read_file_short in H. Qed.

Lemma read_file_prefix f rest pos len x : read_file f pos len = Some x -> read_file (f ++ rest) pos len = Some x.
Proof.
  unfold read_file. destruct ((0 <=? pos) && (0 <=? len) && (pos + len <=? zlen f)) eqn:E; [|done].
  rewrite !andb_true_iff, !Z.leb_le in E. destruct E as [[H1 H2] H3]. pose proof (zlen_nonneg rest).
  rewrite zlen_app, (proj2 (Z.leb_le 0 pos)), (proj2 (Z.leb_le 0 len)), (proj2 (Z.leb_le (pos + len) _)) by lia. cbn [andb].
  intros [= <-]. f_equal. unfold first, skip, zlen in *. rewrite drop_app_le by lia. rewrite take_app_le; [done|]. rewrite length_drop. lia.
Qed.

Section One.
Context (i : Z) (Hlog : log_ok (log i)).

Lemma place_S k ev : log i !! k = Some ev -> place_of i (S k) = h_next_position (get_header ev) /\
  place_of i (S k) = place_of i k + h_event_length (get_header ev) /\ event_ok ev.
Proof.
  intros Hk. pose proof (lo_chain _ Hlog) as Hc. rewrite <-(take_drop_middle _ _ _ Hk) in Hc.
  apply chained_app in Hc as [_ (Hok & Hn & _)]. unfold place_of. rewrite (take_S_r _ _ _ Hk).
  unfold EventScan.end_pos in *. rewrite fold_left_app. cbn [fold_left]. rewrite Hn. done.
Qed.

Lemma variants_lookup evs k ev : evs = log i \/ evs = close (log i) -> log i !! k = Some ev ->
  exists ev', evs !! k = Some ev' /\ variant ev ev' /\ EventScan.end_pos BINLOG_MAGIC_SIZE (take k evs) = place_of i k.
Proof.
  intros [->| ->] Hk; [by exists ev; split; [|split; [left|]]|].
  destruct (lo_head _ Hlog) as (fde & prev & rest & n & ms & E & Hu & _). unfold place_of. rewrite E in *. cbn [close].
  destruct k as [|k]; cbn [lookup list_lookup] in *.
  - injection Hk as <-. exists (cleared fde). split; [done|]. split; [by right|done].
  - exists ev. split; [done|]. split; [by left|]. cbn [take]. by rewrite !end_pos_cons.
Qed.

Lemma chained_variants evs : evs = log i \/ evs = close (log i) -> chained BINLOG_MAGIC_SIZE evs.
Proof. intros [->| ->]; [|apply chained_close]; apply Hlog. Qed.

(** What can be read at the [k]-th event. *)
Lemma written_read k ev f :
  written i f -> log i !! k = Some ev ->
  exists ev' b, variant ev ev' /\ flush_to_buff crc32 ev' = Done b /\
    (forall x, read_file f (place_of i k) COMMON_HEADER_LENGTH = Some x -> run_reader header_deserialize x = Some (get_header ev')) /\
    (forall x, read_file f (place_of i k) (h_event_length (get_header ev)) = Some x -> x = b).
Proof.
  intros (evs & body & rest & Hv & Hb & Hf & _) Hk. destruct (variants_lookup evs k ev Hv Hk) as (ev' & Hk' & Hvar & Hp).
  pose proof (take_drop_middle _ _ _ Hk') as E. pose proof (chained_variants evs Hv) as Hc. rewrite <-E in Hc, Hb.
  pose proof (chained_placed crc32 _ _ _ binlog_magic body [] _ Hc Hb eq_refl) as Hpl. rewrite app_nil_r, Hp in Hpl.
  change (binlog_magic ++ body) with (binlog_file body) in Hpl. pose proof Hpl as (_ & b & _ & _ & _ & Eb & _).
  exists ev', b. split; [done|]. split; [done|]. split.
  - intros x Hx. apply (read_file_prefix _ rest) in Hx. rewrite <-Hf in Hx. pose proof (placed_header _ _ _ _ Hpl) as Hh.
    unfold read_header in Hh. rewrite Hx in Hh. done.
  - intros x Hx. apply (read_file_prefix _ rest) in Hx. rewrite <-Hf in Hx.
    pose proof (placed_read _ _ _ _ _ Hpl Eb) as Hr. destruct (variant_header _ _ Hvar) as (_ & E2 & _). rewrite E2 in Hr. congruence.
Qed.

(** Nothing can be read past the last event. *)
Lemma written_end f pos len x : written i f -> place_of i (length (log i)) <= pos -> 0 < len -> read_file f pos len = Some x -> False.
Proof.
  intros (evs & body & rest & Hv & Hb & Hf & _) Hp Hl Hr. pose proof (chained_variants evs Hv) as Hc.
  pose proof (chained_end crc32 _ _ _ Hc Hb) as He.
  assert (EventScan.end_pos BINLOG_MAGIC_SIZE evs = place_of i (length (log i))) as Ep.
  { destruct Hv as [->| ->]; unfold place_of; rewrite firstn_all; [done|].
    destruct (lo_head _ Hlog) as (fde & prev & rest' & n & ms & -> & _). done. }
  apply (read_file_prefix _ rest) in Hr. rewrite <-Hf in Hr. unfold read_file in Hr.
  destruct (_ && _) eqn:E in Hr; [|done]. rewrite !andb_true_iff, !Z.leb_le in E. destruct E as [_ E].
  unfold binlog_file in E. rewrite zlen_app in E. change (zlen binlog_magic) with BINLOG_MAGIC_SIZE in E. lia.
Qed.

End One.

Lemma place_lt i k k' : log_ok (log i) -> (k < k' <= length (log i))%nat -> place_of i k < place_of i k'.
Proof.
  intros Hl [Hlt Hle]. induction k' as [|k' IH]; [lia|].
  destruct (lookup_lt_is_Some_2 (log i) k') as [ev Hev]; [lia|]. destruct (place_S i Hl k' ev Hev) as (_ & -> & Hok).
  assert (0 < h_event_length (get_header ev)) as Hpos.
  { destruct (flush_to_buff_header crc32 ev Hok) as (rest & _ & <-). pose proof (zlen_nonneg rest). unfold COMMON_HEADER_LENGTH. lia. }
  destruct (decide (k = k')) as [->|]; [lia|]. specialize (IH ltac:(lia) ltac:(lia)). lia.
Qed.

Lemma place_pos i k : log_ok (log i) -> (k <= length (log i))%nat -> BINLOG_MAGIC_SIZE <= place_of i k.
Proof. intros Hl Hk. destruct k as [|k]; [done|]. apply Z.lt_le_incl. change BINLOG_MAGIC_SIZE with (place_of i 0). apply place_lt; [done|lia]. Qed.

Lemma place_room i k ev : log_ok (log i) -> log i !! k = Some ev ->
  BINLOG_MAGIC_SIZE <= place_of i k /\ COMMON_HEADER_LENGTH <= h_event_length (get_header ev) /\
  place_of i k + h_event_length (get_header ev) <= place_of i (length (log i)).
Proof.
  intros Hl Hk. destruct (place_S i Hl k ev Hk) as (_ & Hs & Hok). apply lookup_lt_Some in Hk as Hlt. split_and!.
  - destruct k as [|k]; [done|]. pose proof (place_lt i 0 (S k) Hl ltac:(lia)) as H. change (place_of i 0) with BINLOG_MAGIC_SIZE in H. lia.
  - destruct (flush_to_buff_header crc32 ev Hok) as (rest & _ & <-). pose proof (zlen_nonneg rest). lia.
  - rewrite <-Hs. destruct (decide (S k = length (log i))) as [->|]; [lia|]. apply Z.lt_le_incl, place_lt; [done|lia].
Qed.

(** ** The request and the filter it asks for *)

Context (gtid_mod : bool) (exclude : gtid_map) (flag : Z).
Context (Hexclude : Forall (fun e : bytes * GtidMessage => is_Some (gtid_uuid e.2)) exclude).

(** A transaction the replica has: the intervals of a request are open at their end. *)
Definition has_gtid (uuid : bytes) (g_no : Z) (m : GtidMessage) : Prop :=
  dumphex (default [] (gtid_uuid m)) = dumphex uuid /\ Exists (fun r : txn_range => r.1 <= g_no < r.2) (get_txn_range m).
#[local] Instance has_gtid_dec uuid g_no m : Decision (has_gtid uuid g_no m) := _.
Definition executed (uuid : bytes) (g_no : Z) : bool :=
  bool_decide (Exists (fun e : bytes * GtidMessage => has_gtid uuid g_no e.2) exclude).

Definition filtering : bool := gtid_mod && negb (bool_decide (exclude = [])).

Definition skips (skip : bool) (ev : ObLogEvent) : bool :=
  if filtering then
    match get_body ev with
    | RotateEvent _ => false
    | GtidLogEvent e => executed (gl_gtid_uuid e) (gl_gtid_txn_id e)
    | _ => skip
    end
  else false.

(** The events sent of [evs], [skip] telling whether the transaction they start in is
    skipped. *)
Fixpoint filtered (skip : bool) (evs : list ObLogEvent) : list ObLogEvent :=
  match evs with
  | [] => []
  | ev :: evs => (if skips skip ev then [] else [ev]) ++ filtered (skips skip ev) evs
  end.

Lemma in_range_spec g_no m : in_range g_no m = true <-> Exists (fun r : txn_range => r.1 <= g_no < r.2) (get_txn_range m).
Proof.
  unfold in_range. rewrite existsb_exists, List.Exists_exists. apply exist_proper. intros r.
  rewrite andb_true_iff, Z.ltb_lt, Z.leb_le. tauto.
Qed.

Lemma excluded_executed uuid g_no : excluded uuid g_no exclude = Done (executed uuid g_no).
Proof.
  unfold executed. induction Hexclude as [|[k m] l Hm Hl IH]; [done|]. cbn [excluded]. destruct Hm as [u Hu]. cbn [snd] in *.
  unfold get_gtid_uuid_str. rewrite Hu. cbn [mbind outcome_bind of_option].
  assert (beq (dumphex u) (dumphex uuid) && in_range g_no m = true <-> has_gtid uuid g_no m) as Hh.
  { unfold has_gtid. rewrite Hu, andb_true_iff, beq_true, in_range_spec. done. }
  destruct (_ && _).
  - rewrite bool_decide_eq_true_2; [done|]. by apply Exists_cons_hd, Hh.
  - etrans; [by apply IH|]. f_equal. apply bool_decide_ext. rewrite Exists_cons. cbn [snd]. rewrite <-Hh. split; [by right|by intros [|]].
Qed.

Lemma skip_event_spec ev ev' b skip s :
  event_ok ev' -> same_config (c_binlog_checksum cfg) ev' -> variant ev ev' -> flush_to_buff crc32 ev' = Done b ->
  bd_gtid_mod s = gtid_mod -> bd_exclude_gtid s = exclude ->
  skip_event cfg (get_header ev') b skip s = Done (skips skip ev).
Proof.
  intros Hok Hcfg Hv Hb Eg Ee. unfold skip_event, skips, filtering. rewrite Eg, Ee. destruct (gtid_mod && _); [|done].
  destruct (variant_header _ _ Hv) as (_ & _ & _ & Eb & _). rewrite <-Eb. pose proof Hok as (_ & _ & Ht & _).
  destruct (get_body ev') as [e|n ms|e|e|e|xid|e|e|name] eqn:E; cbn [body_type_ok] in Ht.
  8: destruct (r_rows_event_type e).
  all: rewrite ?orb_true_iff, ?Z.eqb_eq in Ht; destruct_or? Ht; rewrite Ht; cbn; try done.
  unfold handle_gtid_event. pose proof (event_read_back crc32 (c_binlog_checksum cfg) ev' b Hok) as Hr. rewrite E in Hr.
  cbn [reader_of readable] in Hr. rewrite Hr by done. cbn [of_option mbind outcome_bind reread get_body]. rewrite E. apply excluded_executed.
Qed.


(** ** The world the dumper runs in *)

Context (u : bytes) (cfg_ok : config_ok cfg u).
Context (heartbeat_interval_us : Z) (master_heartbeat_period master_binlog_checksum : bytes).
Context (env : nat -> World) (rows : nat -> list BinlogIndexRecord).

(** At every moment the index lists consecutive files and the files hold parts of the log;
    the data directory is not a file. *)
Record world_ok (w : World) (rs : list BinlogIndexRecord) : Prop := {
  wo_index : represents (w_index w) rs;
  wo_rows : exists a, 0 < a /\ a + zlen rs <= LLONG_MAX /\ forall n r, rs !! n = Some r -> record_for cfg (a + Z.of_nat n) r;
  wo_files : forall i f, 0 < i <= LLONG_MAX -> w_files w !! path cfg i = Some f -> written i f;
  wo_data : w_files w !! binlog_path [] = None
}.

(** File [i] was a row of the index at time [t] or before. *)
Definition listed (i : Z) (t : nat) : Prop := exists t0 r, (t0 <= t)%nat /\ r ∈ rows t0 /\ get_index r = i.

(** The file ends with its rotate event. *)
Definition closes (i : Z) : Prop := exists ev, last (log i) = Some ev /\ h_type_code (get_header ev) = ROTATE_EVENT.

(** By time [t], the first [k] events of file [i] were on disk. *)
Definition shown (i : Z) (k : nat) (t : nat) : Prop :=
  exists t0 f, (t0 <= t)%nat /\ w_files (env t0) !! path cfg i = Some f /\ place_of i k <= zlen f.

(** Over time: a thread that was stopped stays stopped, a killed connection killed, and a
    binlog file gets no shorter as long as it is there. *)
Record env_ok : Prop := {
  eo_world : forall t, world_ok (env t) (rows t);
  eo_log : forall i, 0 < i <= LLONG_MAX -> log_ok (log i);
  eo_stop : forall t t', (t <= t')%nat -> w_run (env t) = false -> w_run (env t') = false;
  eo_kill : forall t t', (t <= t')%nat -> w_killed (env t) = true -> w_killed (env t') = true;
  eo_grow : forall t t' i f f', (t <= t')%nat -> 0 < i <= LLONG_MAX ->
    w_files (env t) !! path cfg i = Some f -> w_files (env t') !! path cfg i = Some f' -> zlen f <= zlen f'
}.
Context (Henv : env_ok).

Lemma listed_mono i t t' : listed i t -> (t <= t')%nat -> listed i t'.
Proof. intros (t0 & r & Ht & Hr) Hle. exists t0, r. split; [lia|done]. Qed.

Lemma shown_mono i k t t' : shown i k t -> (t <= t')%nat -> shown i k t'.
Proof. intros (t0 & f & Ht & Hf) Hle. exists t0, f. split; [lia|done]. Qed.

#[local] Hint Extern 0 (listed _ _) => eapply listed_mono; [eassumption|cbn; lia] : core.
#[local] Hint Extern 0 (shown _ _ _) => eapply shown_mono; [eassumption|cbn; lia] : core.

Definition event_of (p : packet) : option bytes := match p with P_event b => Some b | _ => None end.
Definition wire (ev : ObLogEvent) (b : bytes) : Prop :=
  exists ev' x, variant ev ev' /\ flush_to_buff crc32 ev' = Done x /\ b = 0 :: x.

(** The request, and the log events sent so far. *)
Definition traced (E : list ObLogEvent) (s : BinlogDumper) : Prop :=
  bd_gtid_mod s = gtid_mod /\ bd_exclude_gtid s = exclude /\ bd_flag s = flag /\
  Forall2 wire E (omap event_of (bd_sent s)).

(** The file is complete, its rotate event included, and the index manager names another
    one as the current file; and at that time or later no row of the index follows it.  So it
    is between [append_file] and [update_index] in [persistent_binlog], when the append
    completes a file that the index manager does not know yet. *)
Definition lagging (i : Z) : Prop :=
  exists t t' r, (t <= t')%nat /\ closes i /\ listed i t /\ shown i (length (log i)) t /\
    is_active (w_index (env t)) (path cfg i) = false /\ last (rows t') = Some r /\ get_index r = i.

(** The rotate event last sent closed an earlier file, or this one. *)
Definition rotated_before (i : Z) (s : BinlogDumper) : Prop :=
  bd_rotate_file s = [] \/
  exists j, 0 < j <= LLONG_MAX /\ bd_rotate_file s = path cfg j /\
    (j < i \/ j = i /\ closes i /\ shown i (length (log i)) (bd_now s)).

Lemma rotated_mono i s s' :
  rotated_before i s -> bd_rotate_file s' = bd_rotate_file s -> (bd_now s <= bd_now s')%nat -> rotated_before i s'.
Proof.
  intros [H|(j & Hj & Ej & Hc)] E Ht; [left; congruence|]. right. exists j. split; [done|]. split; [congruence|].
  destruct Hc as [Hc|(H1 & H2 & H3)]; [by left|]. right. done.
Qed.

#[local] Hint Extern 0 (rotated_before _ _) => eapply rotated_mono; [eassumption|reflexivity|cbn; lia] : core.

(** Standing before event [k] of file [i], with [pk] read but not sent. *)
Record standing (i : Z) (k : nat) (E : list ObLogEvent) (pk : list bytes) (s : BinlogDumper) : Prop := {
  sd_file : 0 < i <= LLONG_MAX;
  sd_name : bd_file s = path cfg i;
  sd_fp : exists t, bd_fp s = Some (path cfg i, t);
  sd_at : bd_checkpoint s = (path cfg i, place_of i k);
  sd_k : (k <= length (log i))%nat;
  sd_packet : bd_packet s = pk;
  sd_trace : traced E s;
  sd_rotate : rotated_before i s;
  sd_listed : listed i (bd_now s);
  sd_relative : bd_relative_file s = binlog_name cfg i
}.

Lemma wp_observe Q I s : (world_ok (env (bd_now s)) (rows (bd_now s)) -> Q (env (bd_now s)) (tick s)) -> wp (observe env) Q I s.
Proof. intros H. apply H, Henv. Qed.

(** A world in which nothing hinders the dumper and file [i] is complete and closed. *)
Record steady (i : Z) : Prop := {
  sy_run : forall t, w_run (env t) = true;
  sy_alive : forall t, w_killed (env t) = false;
  sy_sends : forall t, w_sends (env t) = true;
  sy_closed : forall t, is_active (w_index (env t)) (path cfg i) = false;
  sy_file : forall t, exists f, w_files (env t) !! path cfg i = Some f /\ zlen f = place_of i (length (log i))
}.

Lemma standing_tick i k E pk s : standing i k E pk s -> standing i k E pk (tick s).
Proof. by intros []. Qed.

Lemma open_content_written i n t f :
  0 < i <= LLONG_MAX -> open_content env n (path cfg i) t = Some f -> written i f.
Proof.
  intros Hi. revert t. induction n as [|n IH]; intros t; cbn [open_content]; destruct (w_files (env t) !! path cfg i) as [f'|] eqn:E; try done.
  - intros [= <-]. by apply (wo_files _ _ (eo_world Henv t)).
  - intros [= <-]. by apply (wo_files _ _ (eo_world Henv t)).
  - apply IH.
Qed.

Lemma open_content_at n name t f : open_content env n name t = Some f -> exists t0, (t0 <= t)%nat /\ w_files (env t0) !! name = Some f.
Proof.
  revert t. induction n as [|n IH]; intros t; cbn [open_content]; destruct (w_files (env t) !! name) as [f'|] eqn:E; try done.
  1, 2: intros [= <-]; by exists t.
  intros H. destruct (IH _ H) as (t0 & Ht & Hf). exists t0. split; [lia|done].
Qed.

Lemma open_content_some name n : forall t, (n <= t)%nat -> is_Some (w_files (env (t - n)) !! name) -> is_Some (open_content env n name t).
Proof.
  induction n as [|n IH]; intros t Ht Hs; cbn [open_content].
  - rewrite Nat.sub_0_r in Hs. destruct Hs as [f ->]. by eexists.
  - destruct (w_files (env t) !! name); [by eexists|]. apply IH; [lia|]. by replace (pred t - n)%nat with (t - S n)%nat by lia.
Qed.

Lemma wp_read_stream i k E pk pos len Q I s :
  standing i k E pk s ->
  (forall x s', standing i k E pk s' -> (forall b, x = Some b -> exists f, written i f /\ read_file f pos len = Some b /\
      exists t0, (t0 <= bd_now s')%nat /\ w_files (env t0) !! path cfg i = Some f) ->
    (x = None -> steady i -> 0 <= pos -> 0 <= len -> pos + len <= place_of i (length (log i)) -> False) -> Q x s') ->
  wp (read_stream env pos len) Q I s.
Proof.
  intros Hs HQ. unfold read_stream. wps. apply wp_observe. intros _. destruct (sd_fp _ _ _ _ _ Hs) as [t Ht].
  apply wp_bind, (wp_lift _ (path cfg i, t)); [cbn; by rewrite Ht|]. wps. apply HQ; [by apply standing_tick|..].
  - intros b Hb. destruct (open_content _ _ _ _) as [f|] eqn:Ef; [|done]. exists f.
    split; [eapply open_content_written; [apply Hs|done]|]. split; [done|]. destruct (open_content_at _ _ _ _ Ef) as (t0 & Ht0 & Hf).
    exists t0. split; [cbn; lia|done].
  - intros Hn Hsy Hp Hl Hle. destruct (sy_file _ Hsy (bd_now s)) as (f & Ef & Hf).
    destruct (bd_now s - t)%nat; cbn [open_content] in Hn; rewrite Ef in Hn; cbn in Hn; unfold read_file in Hn; rewrite Hf in Hn;
      rewrite (proj2 (Z.leb_le 0 pos)), (proj2 (Z.leb_le 0 len)), (proj2 (Z.leb_le (pos + len) _)) in Hn by lia; done.
Qed.

Lemma log_at i k E pk s : standing i k E pk s -> log_ok (log i).
Proof. intros Hs. apply Henv, Hs. Qed.

Lemma variant_ok i k ev ev' : log_ok (log i) -> log i !! k = Some ev -> variant ev ev' -> event_ok ev' /\ same_config (c_binlog_checksum cfg) ev'.
Proof.
  intros Hl Hk Hv. destruct (place_S i Hl k ev Hk) as (_ & _ & Hok). pose proof (lo_config _ Hl) as Hc.
  rewrite Forall_lookup in Hc. specialize (Hc _ _ Hk). destruct Hv as [->|[_ ->]]; [exact (conj Hok Hc)|]. exact (conj (cleared_ok _ Hok) Hc).
Qed.


(** Once event [k] is read and handled. *)
Lemma standing_next i k E pk pk' ev s s' :
  log i !! k = Some ev -> standing i k E pk s ->
  bd_file s' = bd_file s -> bd_fp s' = bd_fp s -> bd_checkpoint s' = (path cfg i, place_of i (S k)) -> bd_packet s' = pk' -> traced E s' ->
  bd_rotate_file s' = bd_rotate_file s -> bd_relative_file s' = bd_relative_file s -> (bd_now s <= bd_now s')%nat -> standing i (S k) E pk' s'.
Proof.
  intros Hk Hs E0 E1 E2 E3 E4 E5 E7 E6. apply lookup_lt_Some in Hk as Hlt. destruct Hs as [H1 H0 H2 H3 H4 H5 H6 H7].
  split; try done; [congruence|by rewrite E1|by eapply rotated_mono|congruence].
Qed.

(** [seek_event] reads the event it stands before, or nothing. *)
Lemma seek_event_ok i k E ev skip I s :
  standing i k E [] s -> log i !! k = Some ev ->
  wp (seek_event cfg env skip) (fun '(r, skip') s' =>
    r = FAILED /\ standing i k E [] s' /\ ~ steady i \/
    skip' = skips skip ev /\
    if skip' then r = UNKNOWN_EVENT /\ standing i (S k) E [] s'
    else r = h_type_code (get_header ev) /\ exists b, wire ev b /\ standing i (S k) E [b] s' /\ shown i (S k) (bd_now s')) I s.
Proof.
  intros Hs Hk. pose proof (log_at _ _ _ _ _ Hs) as Hl. destruct (place_S i Hl k ev Hk) as (Hn & Hp & Hok).
  destruct (place_room i k ev Hl Hk) as (Hm & Hm1 & Hm2). unfold seek_event. wps. rewrite (sd_at _ _ _ _ _ Hs). cbn [snd].
  eapply (wp_read_stream i k E []); [done|]. intros [buff|] s1 Hs1 Hr1 Hn1; wps; [|left; split; [done|]; split; [done|]; intros Hsy; apply (Hn1 eq_refl Hsy); unfold BINLOG_MAGIC_SIZE, COMMON_HEADER_LENGTH in *; lia].
  destruct (Hr1 _ eq_refl) as (f1 & Hw1 & Hx1 & _). destruct (written_read i Hl k ev f1 Hw1 Hk) as (ev1 & b1 & Hv1 & _ & Hh1 & _).
  apply (wp_lift _ (get_header ev1)); [by rewrite (Hh1 _ Hx1)|]. destruct (variant_header _ _ Hv1) as (Et & El & Ets & _).
  wps. rewrite El. eapply (wp_read_stream i k E []); [done|]. intros [event|] s2 Hs2 Hr2 Hn2; wps; [|left; split; [done|]; split; [done|]; intros Hsy; apply (Hn2 eq_refl Hsy); unfold BINLOG_MAGIC_SIZE, COMMON_HEADER_LENGTH in *; lia].
  destruct (Hr2 _ eq_refl) as (f2 & Hw2 & Hx2 & t0 & Ht0 & Hf2).
  assert (shown i (S k) (bd_now s2)) as Hshown.
  { exists t0, f2. split; [done|]. split; [done|]. apply read_file_fits in Hx2. lia. }
  destruct (written_read i Hl k ev f2 Hw2 Hk) as (ev2 & b2 & Hv2 & Hb2 & _ & He2).
  apply He2 in Hx2 as ->. destruct (variant_ok i k ev ev2 Hl Hk Hv2) as [Hok2 Hc2].
  eapply (wp_mono _ (fun _ s' => standing i k E [] s' /\ shown i (S k) (bd_now s')) _ I I _);
    [|clear s2 Hs2 Hr2 Hn2 Ht0 Hshown; intros [] s2 [Hs2 Hshown]|done].
  { rewrite Et. destruct (Z.eqb_spec (h_type_code (get_header ev)) FORMAT_DESCRIPTION_EVENT) as [Ef|]; [|by wps].
    pose proof (event_read_back crc32 (c_binlog_checksum cfg) ev2 b2 Hok2) as Hr. destruct Hok2 as (_ & _ & Ht2 & _).
    destruct (variant_header _ _ Hv2) as (Et2 & _). rewrite Et2, Ef in Ht2.
    destruct (get_body ev2) as [e| | | | | | |e|] eqn:Eb; cbn in Ht2; try done; [|by destruct (r_rows_event_type e)].
    cbn [reader_of readable] in Hr. wps. apply (wp_lift _ (reread ev2)); [by rewrite Hr|]. wps. split; [by destruct Hs2|done]. }
  wps. pose proof (sd_trace _ _ _ _ _ Hs2) as (Tg & Te & Tf & Ts). pose proof (sd_packet _ _ _ _ _ Hs2) as Hpk.
  assert (skip_event cfg (get_header ev1) b2 skip s2 = Done (skips skip ev)) as Esk.
  { destruct (variant_header _ _ Hv2) as (Et2 & _). rewrite <-(skip_event_spec ev ev2 b2 skip s2) by done.
    unfold skip_event. by rewrite Et, Et2. }
  eapply wp_lift; [exact Esk|]. wps. clear Esk.
  assert (u64 (place_of i k + h_event_length (get_header ev)) = place_of i (S k)) as Eu.
  { rewrite <-Hp. apply u64_id. rewrite Hn. destruct Hok as ((_ & _ & _ & _ & Hu & _) & _). unfold is_u32, is_u64 in *. lia. }
  rewrite Eu, (sd_at _ _ _ _ _ Hs2). cbn [fst]. destruct (skips skip ev) eqn:Es; wps; right; (split; [done|]).
  - split; [done|]. by apply (standing_next i k E [] [] ev s2).
  - rewrite Et. split; [done|]. exists (0 :: b2). split; [by exists ev2, b2|].
    split; [|done]. apply (standing_next i k E [] [0 :: b2] ev s2); try done. cbn. by rewrite Hpk.
Qed.


(** ** Sending *)

Lemma wp_send p Q I s : (w_sends (env (bd_now s)) = false -> Q FAIL (tick s)) -> Q SUCCESS (deliver p (tick s)) -> wp (send env p) Q I s.
Proof. intros H1 H2. unfold send. apply wp_bind, wp_observe. intros _. destruct (w_sends _); [done|]. by apply H1. Qed.

Lemma traced_other p E s : event_of p = None -> traced E s -> traced E (deliver p s).
Proof. intros Hp (H1 & H2 & H3 & H4). split_and!; try done. cbn [bd_sent deliver]. rewrite omap_app. cbn. rewrite Hp. by rewrite app_nil_r. Qed.

Lemma traced_event ev b E s : wire ev b -> traced E s -> traced (E ++ [ev]) (deliver (P_event b) s).
Proof.
  intros Hw (H1 & H2 & H3 & H4). split_and!; try done. cbn [bd_sent deliver]. rewrite omap_app. apply Forall2_app; [done|].
  by constructor.
Qed.

Lemma standing_other p i k E pk s : event_of p = None -> standing i k E pk s -> standing i k E pk (deliver p s).
Proof. intros Hp [H1 H0 H2 H3 H4 H5 H6 H7]. split; try done. by apply traced_other. Qed.

Lemma wp_send_err m (R : BinlogDumper -> Prop) Q I s :
  (forall s, R s -> R (tick s)) -> (forall s p, event_of p = None -> R s -> R (deliver p s)) ->
  R s -> (forall s', R s' -> Q tt s') -> wp (send_err env m) Q I s.
Proof. intros Ht Hd Hs HQ. unfold send_err. apply wp_bind, wp_send; intros; wps; apply HQ; auto. Qed.

Lemma traced_tick E s : traced E s -> traced E (tick s).
Proof. done. Qed.

Lemma send_packet_ok i k E ev b I s :
  standing i k E [b] s -> wire ev b ->
  wp (send_packet env) (fun r s' => r = SUCCESS /\ standing i k (E ++ [ev]) [] s' /\ (bd_now s <= bd_now s')%nat \/
    r = FAIL /\ traced E s' /\ ~ steady i) I s.
Proof.
  intros Hs Hw. unfold send_packet. wps. rewrite (sd_packet _ _ _ _ _ Hs). cbn [send_chunks].
  apply wp_bind, wp_send; rewrite ?bool_decide_eq_true_2, ?bool_decide_eq_false_2 by done; [intros Hf|]; wps; [right|left].
  - split; [done|]. split; [by destruct Hs|]. intros Hsy. by rewrite (sy_sends _ Hsy) in Hf.
  - split; [done|]. destruct Hs as [H1 H0 H2 H3 H4 H5 H6 H7]. split; [|cbn; lia]. split; try done. by apply (traced_event ev b).
Qed.

Lemma is_legal_event_ok i k E pk end_pos I s :
  standing i k E pk s ->
  wp (is_legal_event env end_pos) (fun b s' => standing i k E pk s' /\ (b = true -> is_Some (log i !! k)) /\
    (b = false -> steady i -> forall ev, log i !! k = Some ev -> end_pos < place_of i (S k))) I s.
Proof.
  intros Hs. pose proof (log_at _ _ _ _ _ Hs) as Hl. unfold is_legal_event. wps. rewrite (sd_at _ _ _ _ _ Hs). cbn [snd].
  assert (forall ev, log i !! k = Some ev -> is_u64 (place_of i (S k)) /\ place_of i (S k) = place_of i k + h_event_length (get_header ev) /\
    BINLOG_MAGIC_SIZE <= place_of i k /\ COMMON_HEADER_LENGTH <= h_event_length (get_header ev) /\
    place_of i k + h_event_length (get_header ev) <= place_of i (length (log i))) as Hev.
  { intros ev Hk. destruct (place_S i Hl k ev Hk) as (Hn & Hp & ((_ & _ & _ & _ & Hu & _) & _)). split; [|split; [done|by apply place_room]].
    rewrite Hn. unfold is_u32, is_u64 in *. lia. }
  unfold is_u64, BINLOG_MAGIC_SIZE, COMMON_HEADER_LENGTH in *.
  destruct (end_pos <? _) eqn:Elt; wps.
  { split_and!; try done. intros _ _ ev Hk. destruct (Hev ev Hk) as (? & ? & ? & ? & ?). apply Z.ltb_lt in Elt.
    rewrite u64_id in Elt by (unfold is_u64; lia). lia. }
  eapply (wp_read_stream i k E pk); [done|]. intros [buff|] s1 Hs1 Hr Hn; wps.
  2: { split_and!; try done. intros _ Hsy ev Hk. destruct (Hev ev Hk) as (? & ? & ? & ? & ?). exfalso. apply (Hn eq_refl Hsy); lia. }
  destruct (Hr _ eq_refl) as (f & Hw & Hx & _).
  destruct (log i !! k) as [ev|] eqn:Hk.
  - destruct (written_read i Hl k ev f Hw Hk) as (ev1 & b1 & Hv1 & _ & Hh & _).
    apply (wp_lift _ (get_header ev1)); [by rewrite (Hh _ Hx)|]. wps. split; [done|]. split; [done|]. intros Hf _ ev' [= <-].
    destruct (variant_header _ _ Hv1) as (_ & El & _). destruct (Hev ev eq_refl) as (? & Ep & ? & ? & ?). apply Z.leb_gt in Hf.
    rewrite El, <-Ep, u64_id in Hf by done. done.
  - destruct (written_end i Hl f (place_of i k) COMMON_HEADER_LENGTH buff); try done.
    apply lookup_ge_None in Hk. pose proof (sd_k _ _ _ _ _ Hs). replace k with (length (log i)) by lia. lia.
Qed.

Definition chunk (i : Z) (k k' : nat) : list ObLogEvent := take (k' - k) (drop k (log i)).

Lemma chunk_nil i k : chunk i k k = [].
Proof. unfold chunk. by rewrite Nat.sub_diag. Qed.
Lemma chunk_cons i k k' ev : log i !! k = Some ev -> (S k <= k')%nat -> chunk i k k' = ev :: chunk i (S k) k'.
Proof. intros Hk Hle. unfold chunk. rewrite (drop_S _ _ _ Hk). replace (k' - k)%nat with (S (k' - S k)) by lia. done. Qed.

(** From [(k, E)] to [(k', E')]: the events between, filtered. *)
Definition sent_chunk (i : Z) (skip : bool) (k : nat) (E : list ObLogEvent) (k' : nat) (E' : list ObLogEvent) : Prop :=
  (k <= k' <= length (log i))%nat /\ E' = E ++ filtered skip (chunk i k k').

Lemma sent_chunk_refl i skip k E : (k <= length (log i))%nat -> sent_chunk i skip k E k E.
Proof. intros H. split; [lia|]. by rewrite chunk_nil, app_nil_r. Qed.

Lemma sent_chunk_cons i skip k E ev k' E' :
  log i !! k = Some ev -> sent_chunk i (skips skip ev) (S k) (E ++ if skips skip ev then [] else [ev]) k' E' -> sent_chunk i skip k E k' E'.
Proof. intros Hk [H ->]. split; [lia|]. rewrite (chunk_cons i k k' ev Hk) by lia. cbn [filtered]. by rewrite app_assoc. Qed.

(** After a call of [send_events]: what was sent, and when nothing hinders, everything. *)
Definition chunk_done (i : Z) (skip : bool) (k : nat) (E : list ObLogEvent) (end_pos : Z) (r : IoResult) (s : BinlogDumper) : Prop :=
  exists k' E', sent_chunk i skip k E k' E' /\ traced E' s /\ (r = SUCCESS -> standing i k' E' [] s) /\
    (steady i -> end_pos = place_of i (length (log i)) ->
     r = SUCCESS /\ k' = length (log i) /\ ((k < k')%nat -> closes i -> bd_rotate_file s = path cfg i)).

Definition chunk_sent (i : Z) (skip : bool) (k : nat) (E : list ObLogEvent) (fuel : nat) (end_pos : Z) (s : BinlogDumper) : Prop :=
  (exists k' E', sent_chunk i skip k E k' E' /\ traced E' s) /\
  (steady i -> end_pos = place_of i (length (log i)) -> (fuel < length (log i) - k)%nat).

Lemma at_end i k : log_ok (log i) -> (k <= length (log i))%nat -> place_of i (length (log i)) <= place_of i k -> k = length (log i).
Proof.
  intros Hl Hk Hp. destruct (decide (k = length (log i))) as [|Hne]; [done|]. pose proof (place_lt i k (length (log i)) Hl ltac:(lia)). lia.
Qed.

Lemma chunk_done_here i skip k E end_pos r s :
  standing i k E [] s -> (steady i -> end_pos = place_of i (length (log i)) -> r = SUCCESS /\ k = length (log i)) -> chunk_done i skip k E end_pos r s.
Proof.
  intros Hs Hsy. exists k, E. split; [apply sent_chunk_refl, Hs|]. split; [by destruct Hs|]. split; [done|]. intros H1 H2.
  destruct (Hsy H1 H2) as [-> ->]. split; [done|]. split; [done|]. lia.
Qed.

Lemma chunk_done_cons i skip k E end_pos ev r s :
  log i !! k = Some ev -> h_type_code (get_header ev) <> ROTATE_EVENT ->
  chunk_done i (skips skip ev) (S k) (E ++ if skips skip ev then [] else [ev]) end_pos r s -> chunk_done i skip k E end_pos r s.
Proof.
  intros Hk Hn (k' & E' & Hc & Ht & Hs & Hsy). exists k', E'. split; [by eapply sent_chunk_cons|]. split; [done|]. split; [done|].
  intros H1 H2. destruct (Hsy H1 H2) as (-> & -> & Hr). split; [done|]. split; [done|]. intros _ Hcl.
  destruct (decide (S k = length (log i))) as [He|He]; [|apply Hr; [destruct Hc; lia|done]].
  destruct Hcl as (ev' & Hl & Ht'). rewrite last_lookup, <-He in Hl. cbn in Hl. congruence.
Qed.

Lemma skips_rotate skip ev : event_ok ev -> h_type_code (get_header ev) = ROTATE_EVENT -> skips skip ev = false.
Proof.
  intros (_ & _ & Ht & _) Hr. rewrite Hr in Ht. unfold skips. destruct filtering; [|done].
  destruct (get_body ev) as [e| | | | | | |e|]; cbn in Ht; try done. by destruct (r_rows_event_type e).
Qed.

Lemma type_known ev : event_ok ev -> h_type_code (get_header ev) <> FAILED /\ h_type_code (get_header ev) <> UNKNOWN_EVENT.
Proof.
  intros (_ & _ & Ht & _). destruct (get_body ev) as [e| | | | | | |e|]; cbn in Ht; [..|destruct (r_rows_event_type e)|].
  all: rewrite ?orb_true_iff, ?Z.eqb_eq in Ht; destruct_or? Ht; rewrite Ht; by split.
Qed.

Lemma send_events_loop_ok i end_pos fuel : forall skip k E s,
  standing i k E [] s ->
  wp (send_events_loop cfg env fuel end_pos skip) (chunk_done i skip k E end_pos) (chunk_sent i skip k E fuel end_pos) s.
Proof.
  induction fuel as [|fuel IH]; intros skip k E s Hs; cbn [send_events_loop]; apply wp_bind, wp_observe; intros _; wps.
  all: pose proof (log_at _ _ _ _ _ Hs) as Hlog; pose proof (sd_k _ _ _ _ _ Hs) as Hkl.
  all: destruct (w_killed (env (bd_now s)) || _) eqn:Ek; wps; [apply chunk_done_here; [by apply standing_tick|]; intros Hsy Hend|].
  1, 3: split; [done|]; rewrite (sy_alive _ Hsy), (sd_at _ _ _ _ _ (standing_tick _ _ _ _ _ Hs)) in Ek; cbn in Ek;
    apply Z.leb_le in Ek; apply at_end; [done|done|lia].
  all: eapply wp_mono; [by apply (is_legal_event_ok i k E [] end_pos), standing_tick| |intros s' H; exact H].
  all: intros legal s1 (Hs1 & Hl & Hill); destruct legal; cbn [negb]; wps; [|apply chunk_done_here; [done|]; intros Hsy Hend; split; [done|]].
  2, 4: destruct (log i !! k) as [ev|] eqn:Hk; [|apply lookup_ge_None in Hk; lia]; specialize (Hill eq_refl Hsy ev eq_refl);
    destruct (place_S i Hlog k ev Hk) as (_ & Hp & _); destruct (place_room i k ev Hlog Hk) as (_ & _ & ?); lia.
  all: destruct (Hl eq_refl) as [ev Hk]; apply lookup_lt_Some in Hk as Hlt.
  { split; [exists k, E; split; [by apply sent_chunk_refl|by destruct Hs1]|]. lia. }
  eapply wp_mono; [by apply (seek_event_ok i k E ev)| |intros s' H; exact H].
  destruct (place_S i Hlog k ev Hk) as (_ & _ & Hok). destruct (type_known ev Hok) as [Hn1 Hn2].
  assert (forall s3, h_type_code (get_header ev) <> ROTATE_EVENT -> standing i (S k) (E ++ if skips skip ev then [] else [ev]) [] s3 ->
    wp (send_events_loop cfg env fuel end_pos (skips skip ev)) (chunk_done i skip k E end_pos) (chunk_sent i skip k E (S fuel) end_pos) s3) as Hgo.
  { intros s3 Hnr Hs3. eapply wp_mono; [by apply IH| |]; [intros r s'; by apply chunk_done_cons|].
    intros s' [(k' & E' & Hc' & H) Hsy]. split; [|intros H1 H2; specialize (Hsy H1 H2); lia]. exists k', E'. split; [by eapply sent_chunk_cons|done]. }
  intros [r skip'] s2 [(-> & Hs2 & Hns)|[-> Hc]].
  { cbn [Z.eqb]. rewrite Z.eqb_refl. wps. apply (wp_send_err _ (standing i k E [])); [apply standing_tick|by intros; apply standing_other|done|].
    intros s3 Hs3. wps. by apply chunk_done_here. }
  destruct (skips skip ev) eqn:Es.
  - destruct Hc as [-> Hs3]. cbn [Z.eqb FAILED UNKNOWN_EVENT]. wps. rewrite bool_decide_eq_true_2 by done. cbn [negb].
    apply Hgo; [|by rewrite app_nil_r]. intros Hr. by rewrite (skips_rotate skip ev Hok Hr) in Es.
  - destruct Hc as [-> (b & Hw & Hs3 & Hsh)]. rewrite (proj2 (Z.eqb_neq _ FAILED) Hn1), (proj2 (Z.eqb_neq _ UNKNOWN_EVENT) Hn2).
    wps. eapply wp_mono; [by apply (send_packet_ok i (S k) E ev b)| |intros s' H; exact H].
    intros r s4 [(-> & Hs4 & Hle)|(-> & Hs4 & Hns)]; rewrite ?bool_decide_eq_true_2, ?bool_decide_eq_false_2 by done; cbn [negb]; wps.
    2: { exists k, E. split; [by apply sent_chunk_refl|]. by split. }
    destruct (Z.eqb_spec (h_type_code (get_header ev)) ROTATE_EVENT) as [Er|]; [|by apply Hgo]. wps.
    pose proof (lo_rotate _ Hlog k ev Hk Er) as Hend. exists (S k), (E ++ [ev]).
    split; [apply (sent_chunk_cons i skip k E ev _ _ Hk); rewrite Es; apply sent_chunk_refl; lia|]. split; [by destruct Hs4|].
    destruct Hs4 as [H1 H0 H2 H3 H4 H5 H6 H7]. split; [|intros _ _; split; [done|split; [done|]]; intros _ _; cbn; by rewrite H3].
    intros _. split; try done. right. exists i. split; [done|]. cbn. rewrite H3. split; [done|]. right. split; [done|]. rewrite <-Hend.
    split; [|done]. exists ev. split; [|done]. rewrite last_lookup, <-Hend. exact Hk.
Qed.

(** ** The abstract machine

    It opens a file, which sends its format description, sends chunks of the file's events
    through the filter, and after the last event goes on to the next file, or to the start of
    this one when the index is behind. *)

Inductive phase := Ready (i : Z) (k : nat) | Opened (i : Z) (k : nat).

Inductive stream (i0 : Z) (k0 : nat) : phase -> list ObLogEvent -> Prop :=
| St_start : stream i0 k0 (Ready i0 k0) []
| St_open i k E fde : stream i0 k0 (Ready i k) E -> log i !! 0%nat = Some fde -> stream i0 k0 (Opened i (k `max` 1)) (E ++ [fde])
| St_chunk i k k' E : stream i0 k0 (Opened i k) E -> (k <= k' <= length (log i))%nat ->
    stream i0 k0 (Opened i k') (E ++ filtered false (chunk i k k'))
| St_next i E : stream i0 k0 (Opened i (length (log i))) E -> stream i0 k0 (Ready (i + 1) 0) E
| St_again i E : stream i0 k0 (Opened i (length (log i))) E -> lagging i -> stream i0 k0 (Ready i 0) E.

Section Machine.
Context (i0 : Z) (k0 : nat).

Definition reached (s : BinlogDumper) : Prop := exists ph E, stream i0 k0 ph E /\ traced E s.

Lemma reached_tick s : reached s -> reached (tick s).
Proof. done. Qed.
Lemma reached_other p s : event_of p = None -> reached s -> reached (deliver p s).
Proof. intros Hp (ph & E & H1 & H2). exists ph, E. split; [done|]. by apply traced_other. Qed.

Lemma wp_err_reached m Q I s : reached s -> (forall s', reached s' -> Q tt s') -> wp (send_err env m) Q I s.
Proof. intros Hs HQ. by apply (wp_send_err _ reached); [apply reached_tick|intros; by apply reached_other|..]. Qed.

(** ** Waiting *)

Lemma heartbeat_ok pos i k E pk I s :
  standing i k E pk s -> wp (send_heartbeat_event cfg crc32 env pos)
    (fun r s' => standing i k E pk s' /\ bd_rotate_file s' = bd_rotate_file s /\ (steady i -> r = SUCCESS)) I s.
Proof.
  intros Hs. unfold send_heartbeat_event. wps. eapply wp_lift; [done|]. apply wp_send.
  - intros Hf. split; [by apply standing_tick|]. split; [done|]. intros Hsy. by rewrite (sy_sends _ Hsy) in Hf.
  - split; [by apply standing_other, standing_tick|done].
Qed.

Lemma path_index i : is_Some (get_binlog_index (c_width cfg) (path cfg i)).
Proof.
  unfold get_binlog_index. rewrite (proj2 (Z.ltb_ge _ _)); [by eexists|].
  unfold path, binlog_path, binlog_name, fill_binlog_file_name. rewrite !zlen_app, zlen_replicate.
  pose proof (zlen_nonneg (str "./data/")). pose proof (zlen_nonneg (c_prefix cfg)). pose proof (zlen_nonneg (str ".")). lia.
Qed.

Lemma wait_event_ok i k E pk pos fuel : forall s,
  standing i k E pk s ->
  wp (wait_event cfg crc32 heartbeat_interval_us master_heartbeat_period env fuel (path cfg i) pos)
    (fun _ s' => standing i k E pk s') (standing i k E pk) s.
Proof.
  destruct (path_index i) as [n Hn].
  induction fuel as [|fuel IH]; intros s Hs; cbn [wait_event]; unfold running; wps; apply wp_observe; intros _; wps.
  all: destruct (_ && _); cbn [negb]; wps; [|by apply standing_tick].
  all: apply wp_observe; intros _; apply wp_bind, (wp_lift _ n); [by rewrite Hn|].
  all: destruct (behind_current_pos _ _ _); wps; [apply wp_observe; intros _; wps; by repeat apply standing_tick|].
  all: eapply (wp_mono _ (fun _ s' => standing i k E pk s') _ (standing i k E pk));
    [destruct (_ =? 0); wps; [by repeat apply standing_tick|eapply wp_mono; [by apply (heartbeat_ok pos i k E pk); repeat apply standing_tick|by intros ? ? [? _]|done]]| |done].
  all: intros r s' Hs'; destruct (bool_decide _); cbn [negb]; wps; [|done]; first [done|by apply IH].
Qed.


Lemma path_no_nul i : 0 < i -> 0 ∉ path cfg i.
Proof. intros Hi. apply (text_ok_not_in [0; 9; 10]); [apply (binlog_path_text cfg u); [done|lia]|by left]. Qed.

Lemma strcmp_path i j : 0 < i <= LLONG_MAX -> 0 < j <= LLONG_MAX -> strcmp_eq (path cfg i) (path cfg j) = true -> i = j.
Proof. intros Hi Hj. unfold strcmp_eq. rewrite !cstr_id by (apply path_no_nul; lia). rewrite beq_true. apply path_inj; lia. Qed.

Lemma strcmp_name i j : 0 < i <= LLONG_MAX -> 0 < j <= LLONG_MAX -> strcmp_eq (binlog_name cfg i) (binlog_name cfg j) = true -> i = j.
Proof.
  intros Hi Hj. assert (forall x, 0 < x -> 0 ∉ binlog_name cfg x) as Hn.
  { intros x Hx Hin. apply (path_no_nul x Hx). unfold path, binlog_path. apply elem_of_app. by right. }
  unfold strcmp_eq. rewrite !cstr_id by (apply Hn; lia). rewrite beq_true. intros E. apply (path_inj cfg); [lia|lia|].
  unfold path. by rewrite E.
Qed.

Lemma path_nonempty i : cstr (path cfg i) <> [].
Proof. done. Qed.

Lemma name_nonempty i : beq (binlog_name cfg i) [] = false.
Proof. apply beq_false. unfold binlog_name, fill_binlog_file_name. by destruct (c_prefix cfg). Qed.

(** The file, of the index, was seen not to be the current one. *)
Definition closed_before (i : Z) (s : BinlogDumper) : Prop :=
  exists t, (t <= bd_now s)%nat /\ closes i /\ listed i t /\ shown i (length (log i)) t /\ is_active (w_index (env t)) (path cfg i) = false.
Definition stopped (s : BinlogDumper) : Prop := exists t, (t <= bd_now s)%nat /\ w_run (env t) = false.

(** A file complete once has its full size as long as it is there. *)
Lemma size_complete i k E pk s :
  standing i k E pk s -> shown i (length (log i)) (bd_now s) ->
  ((bd_checkpoint (tick (tick s))).2 =? size_in (env (bd_now (tick s))) (path cfg i)) = true -> k = length (log i).
Proof.
  intros Hs (t0 & f & Ht & Hf & Hlen) Ez. pose proof (log_at _ _ _ _ _ Hs) as Hl. pose proof (sd_k _ _ _ _ _ Hs) as Hk.
  cbn [bd_checkpoint tick] in Ez. rewrite (sd_at _ _ _ _ _ Hs) in Ez. cbn [snd] in Ez. apply Z.eqb_eq in Ez. unfold size_in in Ez.
  apply at_end; [done|done|]. destruct (w_files (env (bd_now (tick s))) !! path cfg i) as [f'|] eqn:Ef'.
  - pose proof (eo_grow Henv t0 (bd_now (tick s)) i f f' ltac:(cbn; lia) (sd_file _ _ _ _ _ Hs) Hf Ef'). lia.
  - pose proof (place_pos i k Hl Hk). unfold BINLOG_MAGIC_SIZE in *. lia.
Qed.

Lemma seek_binlog_end_pos_ok i k E fuel s :
  standing i k E [] s ->
  wp (seek_binlog_end_pos cfg crc32 heartbeat_interval_us master_heartbeat_period env fuel (path cfg i))
    (fun e s' => standing i k E [] s' /\
      (e = END_SKIP -> flag = BINLOG_DUMP_NON_BLOCK \/ k = length (log i) /\ closed_before i s'))
    (standing i k E []) s.
Proof.
  intros Hs. unfold seek_binlog_end_pos. apply wp_bind, wp_observe. intros _. wps.
  destruct (is_active (w_index (env (bd_now s))) (path cfg i)) eqn:Ea; cbn [negb]; wps; apply wp_observe; intros _.
  - destruct (_ <? _); wps; [by split; [by repeat apply standing_tick|]|].
    pose proof (sd_trace _ _ _ _ _ Hs) as (_ & _ & Tf & _). cbn [bd_flag tick]. rewrite Tf.
    destruct (Z.eqb_spec flag BINLOG_DUMP_NON_BLOCK) as [Ef|]; wps.
    + unfold send_packet. wps. cbn [bd_packet tick]. rewrite (sd_packet _ _ _ _ _ Hs). cbn [send_chunks]. wps.
      split; [by destruct Hs|by left].
    + eapply wp_mono; [by apply wait_event_ok; repeat apply standing_tick| |done].
      intros [p|] s' Hs'; wps; done.
  - destruct (_ && _) eqn:Ec; wps.
    + split; [by repeat apply standing_tick|]. intros _. right. apply andb_true_iff in Ec as [Esz Ec]. cbn [bd_rotate_file tick] in Ec.
      destruct (sd_rotate _ _ _ _ _ Hs) as [E0|(j & Hj & Ej & Hc)]; rewrite ?E0, ?Ej in Ec.
      * unfold strcmp_eq in Ec. rewrite beq_true in Ec. by destruct (path_nonempty i).
      * apply strcmp_path in Ec as ->; [|by destruct Hs|done]. destruct Hc as [Hc|(_ & Hcl & Hsh)]; [lia|].
        split; [by eapply size_complete|]. exists (bd_now s). split; [cbn; lia|]. split; [done|]. split; [apply Hs|done].
    + destruct (_ <? _); wps; split; (done || by repeat apply standing_tick).
Qed.

Lemma not_running s :
  w_run (env (bd_now s)) && negb (w_killed (env (bd_now s))) = false ->
  (if w_killed (env (bd_now (tick s))) then KILL else SUCCESS) = SUCCESS -> stopped (tick (tick s)).
Proof.
  intros Er Hk. destruct (w_killed (env (bd_now (tick s)))) eqn:Ek; [done|]. exists (bd_now s). split; [cbn; lia|].
  destruct (w_run (env (bd_now s))); [|done]. destruct (w_killed (env (bd_now s))) eqn:E1; [|done].
  rewrite (eo_kill Henv (bd_now s) _) in Ek; [done|cbn; lia|done].
Qed.

(** How [send_binlog] may end well. *)
Definition finished (i : Z) (s : BinlogDumper) : Prop :=
  bd_packet s = [] /\
  (flag = BINLOG_DUMP_NON_BLOCK \/ stopped s \/
   exists E, stream i0 k0 (Opened i (length (log i))) E /\ standing i (length (log i)) E [] s /\ closed_before i s).

Lemma standing_reached i k E pk s : stream i0 k0 (Opened i k) E -> standing i k E pk s -> reached s.
Proof. intros Hst Hs. exists (Opened i k), E. split; [done|]. by destruct Hs. Qed.

Lemma chunk_reached i k E k' E' : stream i0 k0 (Opened i k) E -> sent_chunk i false k E k' E' -> stream i0 k0 (Opened i k') E'.
Proof. intros Hst [Hk ->]. by apply St_chunk. Qed.

Lemma send_binlog_loop_ok i fuel : forall k E s,
  stream i0 k0 (Opened i k) E -> standing i k E [] s ->
  wp (send_binlog_loop cfg crc32 heartbeat_interval_us master_heartbeat_period env fuel (path cfg i))
    (fun r s' => reached s' /\ (r = SUCCESS -> finished i s')) reached s.
Proof.
  induction fuel as [|fuel IH]; intros k E s Hst Hs; cbn [send_binlog_loop]; unfold running; wps; apply wp_observe; intros _; wps.
  all: pose proof (standing_reached _ _ _ _ _ Hst Hs) as Hre.
  all: destruct (w_run (env (bd_now s)) && negb (w_killed (env (bd_now s)))) eqn:Er; cbn [negb]; wps;
    [|apply wp_observe; intros _; wps; split; [done|]; intros Hk; split; [by destruct Hs|right; left; by apply not_running]].
  { done. }
  eapply wp_mono; [by apply (seek_binlog_end_pos_ok i k E), standing_tick| |by intros s'; apply standing_reached].
  intros [end_pos| |] s1 [Hs1 Hskip]; pose proof (standing_reached _ _ _ _ _ Hst Hs1) as Hre1; wps; [|done|].
  2: { split; [done|]. intros _. split; [by destruct Hs1|]. destruct (Hskip eq_refl) as [Hf|[-> Hc]]; [by left|]. right. right. by exists E. }
  unfold send_events. wps. rewrite (sd_at _ _ _ _ _ Hs1). cbn [snd fst].
  eapply wp_mono; [apply (send_events_loop_ok i end_pos fuel false k E)| |].
  { destruct Hs1. by split. }
  2: { intros s' [(k' & E' & Hc & Ht) _]. exists (Opened i k'), E'. split; [by eapply chunk_reached|done]. }
  intros r s2 (k' & E' & Hc & Ht & Hs2 & _). pose proof (chunk_reached _ _ _ _ _ Hst Hc) as Hst2.
  assert (reached s2) by (by exists (Opened i k'), E').
  destruct (decide (r = SUCCESS)) as [Hr|Hr]; [rewrite bool_decide_eq_true_2 by done|rewrite bool_decide_eq_false_2 by done]; cbn [negb]; wps; [|done].
  specialize (Hs2 Hr). unfold conn_liveness. wps. eapply (wp_mono _ _ _ reached); [by apply (heartbeat_ok _ i k' E' [])| |done].
  intros r3 s3 (Hs3 & _). wps. pose proof (standing_reached _ _ _ _ _ Hst2 Hs3) as Hre3.
  destruct (bool_decide (r3 = SUCCESS)); cbn; wps; [by apply (IH k' E')|done].
Qed.


(** ** Opening a file *)

Record ready (i : Z) (k : nat) (E : list ObLogEvent) (s : BinlogDumper) : Prop := {
  rd_file : 0 < i <= LLONG_MAX;
  rd_name : bd_file s = path cfg i;
  rd_k : (k <= length (log i))%nat;
  rd_stream : stream i0 k0 (Ready i k) E;
  rd_packet : bd_packet s = [];
  rd_trace : traced E s;
  rd_rotate : rotated_before i s;
  rd_listed : listed i (bd_now s);
  rd_relative : bd_relative_file s = binlog_name cfg i
}.

Lemma ready_reached i k E s : ready i k E s -> reached s.
Proof. intros []. by exists (Ready i k), E. Qed.

Lemma ready_standing i k E pos s :
  ready i k E s -> (exists t, bd_fp s = Some (path cfg i, t)) -> bd_checkpoint s = (path cfg i, pos) ->
  standing i 0 E [] (with_checkpoint (path cfg i, BINLOG_MAGIC_SIZE) s).
Proof.
  intros [H1 H0 H2 H3 H4 H5 H6] Hf Hc. split; try done. cbn. lia.
Qed.

Lemma send_format_description_ok i k E pos I s :
  ready i k E s -> (exists t, bd_fp s = Some (path cfg i, t)) -> bd_checkpoint s = (path cfg i, pos) ->
  wp (send_format_description_event cfg env)
    (fun r s' => reached s' /\ (r = SUCCESS -> exists fde, log i !! 0%nat = Some fde /\ standing i 1 (E ++ [fde]) [] s') /\
      (steady i -> bd_checksum_flag s <> UNDEF -> r = SUCCESS)) I s.
Proof.
  intros Hrd Hf Hc. pose proof (ready_reached _ _ _ _ Hrd) as Hre. unfold send_format_description_event. wps.
  destruct (_ && _) eqn:Eund; wps.
  { apply wp_err_reached; [done|]. intros s' Hs'. wps. split_and!; try done. intros _ Hn. apply andb_true_iff in Eund as [Eund _]. by apply Z.eqb_eq in Eund. }
  pose proof (ready_standing _ _ _ _ _ Hrd Hf Hc) as Hs. rewrite Hc. cbn [fst].
  destruct (lo_head _ (eo_log Henv i (rd_file _ _ _ _ Hrd))) as (fde & prev & rest & n & ms & El & [[e Eb] _] & _).
  assert (log i !! 0%nat = Some fde) as Hk by (by rewrite El).
  destruct (place_S i (log_at _ _ _ _ _ Hs) 0 fde Hk) as (_ & _ & Hok).
  assert (forall s', traced E s' -> reached s') as Htr by (intros s' Ht; exists (Ready i k), E; by destruct Hrd).
  eapply wp_mono; [by apply (seek_event_ok i 0 E fde)| |done]. intros [r skip] s1 [[-> Hs1]|[-> Hx]].
  { destruct Hs1 as [Hs1 Hns]. cbn. wps. split_and!; try done. apply Htr. by destruct Hs1. }
  assert (skips false fde = false) as Esk by (unfold skips; rewrite Eb; by destruct filtering). rewrite Esk in Hx.
  destruct Hx as [-> (b & Hw & Hs1 & _)]. destruct Hok as (_ & _ & Ht & _). rewrite Eb in Ht. cbn in Ht. rewrite Ht. cbn [negb].
  eapply wp_mono; [by apply (send_packet_ok i 1 E fde b)| |done]. intros r s2 [(-> & Hs2 & _)|(-> & Hs2 & Hns)]; [|by split; [apply Htr|]].
  split; [|by split; [exists fde|]]. exists (Opened i (k `max` 1)), (E ++ [fde]). split; [apply St_open; [by destruct Hrd|done]|by destruct Hs2].
Qed.

(** The position after the format description, or the one asked for when it is later. *)
Lemma start_standing i k E s :
  standing i 1 E [] s -> (k <= length (log i))%nat ->
  standing i (k `max` 1) E [] (if (bd_checkpoint s).2 <? place_of i k then with_checkpoint ((bd_checkpoint s).1, place_of i k) s else s).
Proof.
  intros Hs Hkl. pose proof (log_at _ _ _ _ _ Hs) as Hl. pose proof (sd_k _ _ _ _ _ Hs) as Hkl1.
  rewrite (sd_at _ _ _ _ _ Hs). cbn [fst snd]. destruct (decide (2 <= k)%nat) as [H2|H2].
  - rewrite (proj2 (Z.ltb_lt _ _)) by (apply place_lt; [done|lia]). replace (k `max` 1)%nat with k by lia.
    destruct Hs as [S1 S0 S2 S3 S4 S5 S6 S7]. by split.
  - replace (k `max` 1)%nat with 1%nat by lia. rewrite (proj2 (Z.ltb_ge _ _)); [done|].
    destruct (decide (k = 1%nat)) as [->|]; [lia|]. replace k with 0%nat by lia. apply Z.lt_le_incl, place_lt; [done|lia].
Qed.

Lemma send_binlog_ok i k E fuel s :
  ready i k E s -> (exists t, bd_fp s = Some (path cfg i, t)) -> bd_checkpoint s = (path cfg i, place_of i k) ->
  wp (send_binlog cfg crc32 heartbeat_interval_us master_heartbeat_period env fuel (path cfg i) (place_of i k))
    (fun r s' => reached s' /\ (r = SUCCESS -> finished i s')) reached s.
Proof.
  intros Hrd Hf Hc. unfold send_binlog. wps. eapply wp_mono; [by apply (send_format_description_ok i k E (place_of i k))| |done].
  intros r s1 (Hre & Hs1 & _). destruct (decide (r = SUCCESS)) as [Hr|Hr];
    [rewrite bool_decide_eq_true_2 by done|rewrite bool_decide_eq_false_2 by done]; cbn [negb]; wps; [|done].
  destruct (Hs1 Hr) as (fde & Hk & Hs). apply (send_binlog_loop_ok i fuel (k `max` 1) (E ++ [fde])); [apply St_open; [by destruct Hrd|done]|].
  apply start_standing; [done|by destruct Hrd].
Qed.


(** ** The next file *)

Lemma rows_positive (rs : list BinlogIndexRecord) a : 0 < a -> (forall n r, rs !! n = Some r -> record_for cfg (a + Z.of_nat n) r) ->
  filter (fun x => 0 < get_index x) rs = rs.
Proof.
  intros Ha Hr. apply filter_true, Forall_lookup. intros n r Hn. destruct (Hr n r Hn) as (_ & -> & _). lia.
Qed.

Lemma wp_fetch Q I s :
  (forall a, 0 < a -> a + zlen (rows (bd_now s)) <= LLONG_MAX ->
    (forall n r, rows (bd_now s) !! n = Some r -> record_for cfg (a + Z.of_nat n) r) -> Q (rows (bd_now s)) (tick s)) ->
  wp (fetch_records env) Q I s.
Proof.
  intros HQ. unfold fetch_records. apply wp_bind, wp_observe. intros [Hi (a & Ha & Hb & Hr) _ _].
  apply wp_bind. eapply wp_lift; [by apply fetch_represented|]. rewrite (rows_positive _ a) by done. wps. by apply (HQ a).
Qed.

Lemma next_record_spec i rs : forall a,
  0 < i <= LLONG_MAX -> 0 < a -> a + zlen rs <= LLONG_MAX ->
  (forall n r, rs !! n = Some r -> record_for cfg (a + Z.of_nat n) r) ->
  match next_record (path cfg i) rs with
  | None => True
  | Some o => exists n r, rs !! n = Some r /\ get_index r = i /\ o = rs !! S n
  end.
Proof.
  induction rs as [|r rs IH]; intros a Hi Ha Hb Hr; cbn [next_record]; [done|]. rewrite zlen_cons in Hb. pose proof (zlen_nonneg rs).
  destruct (Hr 0%nat r eq_refl) as (_ & Ei & En). rewrite Z.add_0_r in *. rewrite En.
  destruct (strcmp_eq (binlog_path (binlog_name cfg a)) (path cfg i)) eqn:E.
  - apply strcmp_path in E; [|lia|done]. exists 0%nat, r. split; [done|]. split; [congruence|]. by destruct rs.
  - specialize (IH (a + 1) Hi ltac:(lia) ltac:(lia)).
    destruct (next_record (path cfg i) rs) as [o|]; [|done]. destruct IH as (n & r' & Hn & Ei' & Eo).
    { intros n r' Hn. specialize (Hr (S n) r' Hn). by replace (a + 1 + Z.of_nat n) with (a + Z.of_nat (S n)) by lia. }
    by exists (S n), r'.
Qed.

Lemma wait_rotate_ready_ok (R : BinlogDumper -> Prop) retry file I :
  (forall s, R s -> R (tick s)) -> forall s, R s -> wp (wait_rotate_ready env retry file) (fun _ s' => R s') I s.
Proof.
  intros Ht. induction retry as [|n IH]; intros s Hs; cbn [wait_rotate_ready]; apply wp_bind, wp_observe; intros _.
  all: destruct (bool_decide _); wps; auto.
Qed.

(** The file to go on with, as [run] sets it after [seek_next_binlog]. *)
Definition moved (s : BinlogDumper) : BinlogDumper :=
  with_start_pos BINLOG_MAGIC_SIZE (with_file (bd_checkpoint s).1 (bd_relative_file s) s).

Definition boarded (i : Z) (k : nat) (E : list ObLogEvent) (s : BinlogDumper) : Prop :=
  ready i k E s /\ bd_relative_file s = binlog_name cfg i /\ bd_start_pos s = place_of i k.

Lemma seek_next_complete i E I s :
  stream i0 k0 (Opened i (length (log i))) E -> standing i (length (log i)) E [] s -> closed_before i s ->
  wp (seek_next_binlog cfg env) (fun r s' => reached s' /\ (r = OMS_OK -> exists j, boarded j 0 E (moved s'))) I s.
Proof.
  intros Hst Hs (t & Ht & Hclo & Hli & Hsh & Ha). pose proof (standing_reached _ _ _ _ _ Hst Hs) as Hre.
  unfold seek_next_binlog. apply wp_bind, wp_fetch. intros a Hpa Hb Hr. wps. cbn [bd_file tick]. rewrite (sd_name _ _ _ _ _ Hs).
  pose proof (next_record_spec i _ a (sd_file _ _ _ _ _ Hs) Hpa Hb Hr) as Hn.
  destruct (next_record _ _) as [o|]; wps; [|by split]. destruct Hn as (n & r & Hn & Ei & ->).
  destruct (rows (bd_now s) !! S n) as [r'|] eqn:Hn'; wps.
  2: { split; [done|]. intros _. exists i. assert (lagging i) as Hlag.
       { exists t, (bd_now s), r. do 5 (split; [done|]). split; [|done].
         apply lookup_ge_None in Hn'. apply lookup_lt_Some in Hn as Hlt. rewrite last_lookup. rewrite <-Hn. f_equal. lia. }
       destruct Hs as [H1 H0 H2 H3 H4 H5 H6 H7 H8 H9]. split; [|by split].
       split; try done; [cbn; by rewrite H3|lia|by apply St_again]. }
  destruct (Hr n r Hn) as (_ & Ei2 & _). destruct (Hr (S n) r' Hn') as (_ & Ei' & En').
  replace (a + Z.of_nat (S n)) with (i + 1) in * by lia. rewrite Ei', En'.
  apply lookup_lt_Some in Hn' as Hlt. assert (i + 1 <= LLONG_MAX) as Hi1 by (unfold zlen in Hb; lia).
  eapply wp_mono; [apply (wait_rotate_ready_ok (fun s' => reached s' /\ boarded (i + 1) 0 E (moved s')) _ _ I)| |done].
  { intros s' (Hr' & [] & Hn1 & Hn2). split; [done|]. split; [by split|done]. }
  2: { intros _ s' [Hr' Hs']. wps. split; [done|]. intros _. by exists (i + 1). }
  split; [done|].
  destruct Hs as [H1 H0 H2 H3 H4 H5 H6 H7]. split; [|done]. split; try done; [lia|lia|by apply St_next| |].
  2: { exists (bd_now s), r'. split; [cbn; lia|]. split; [by eapply list_elem_of_lookup_2|done]. }
  destruct H7 as [H7|(j & Hj & Ej & Hc)]; [by left|]. right. exists j. split; [done|]. split; [done|]. lia.
Qed.

Lemma seek_next_stopped I s :
  reached s -> stopped s -> wp (seek_next_binlog cfg env) (fun _ s' => reached s' /\ stopped s') I s.
Proof.
  intros Hre (t & Ht & Hw). assert (reached (tick s) /\ stopped (tick s)) as Hs by (split; [done|]; exists t; split; [cbn; lia|done]).
  unfold seek_next_binlog. apply wp_bind, wp_fetch. intros a _ _ _. wps.
  destruct (next_record _ _) as [[r|]|]; wps; try done.
  eapply (wp_mono _ (fun _ s' => reached s' /\ stopped s')); [|intros x s' Hs'; by wps|intros s' Hs'; exact Hs'].
  apply wait_rotate_ready_ok; [|done]. clear. intros s (Hr & t & Ht & Hw). split; [done|]. exists t. split; [cbn; lia|done].
Qed.


(** ** The thread *)

Lemma written_magic i f : log_ok (log i) -> written i f -> read_file f 0 BINLOG_MAGIC_SIZE = Some binlog_magic.
Proof.
  intros Hl (evs & body & rest & _ & _ & Hf & Hlen). pose proof (place_lt i 0 2 Hl) as Hp.
  destruct (lo_head _ Hl) as (fde & prev & rest' & n & ms & El & _). rewrite El in Hp. cbn [length] in Hp. specialize (Hp ltac:(lia)).
  change (place_of i 0) with BINLOG_MAGIC_SIZE in Hp. unfold BINLOG_MAGIC_SIZE in *. unfold read_file. rewrite (proj2 (Z.leb_le _ (zlen f))) by lia.
  cbn [andb Z.leb Z.compare]. f_equal. rewrite skip_0.
  assert (first 4 (f ++ rest) = binlog_magic) as <- by (rewrite <-Hf; by apply first_app).
  unfold first, zlen in *. rewrite take_app_le by lia. done.
Qed.

Lemma open_binlog_ok i k E I s :
  ready i k E s ->
  wp (open_binlog env) (fun b s' => reached s' /\ (b = true -> ready i k E s' /\ (exists t, bd_fp s' = Some (path cfg i, t)) /\
    bd_start_pos s' = bd_start_pos s)) I s.
Proof.
  intros Hrd. pose proof (ready_reached _ _ _ _ Hrd) as Hre. unfold open_binlog. wps. apply wp_observe. intros Hw.
  cbn [bd_file with_fp bd_now] in *. rewrite (rd_name _ _ _ _ Hrd).
  destruct (w_files (env (bd_now s)) !! path cfg i) as [f|] eqn:Ef; wps; [|apply wp_err_reached; [done|]; intros s' Hs'; wps; by split].
  unfold read_stream. wps. apply wp_observe. intros _. eapply wp_bind, wp_lift; [done|]. wps. cbn [bd_now with_fp tick].
  destruct (open_content_some (path cfg i) 1 (S (bd_now s))) as [f' Hf']; [lia|replace (S (bd_now s) - 1)%nat with (bd_now s) by lia; by eexists|].
  replace (S (bd_now s) - bd_now s)%nat with 1%nat by lia. rewrite Hf'. cbn [mbind option_bind].
  apply open_content_written in Hf'; [|apply Hrd]. rewrite (written_magic i) by (done || apply Henv, Hrd).
  apply wp_bind. eapply wp_lift; [done|]. rewrite beq_refl. wps. split; [done|]. intros _. split; [by destruct Hrd|]. split; [by eexists|done].
Qed.

Lemma dump_file_ok i k E fuel s :
  boarded i k E s ->
  wp (dump_file cfg crc32 heartbeat_interval_us master_heartbeat_period env fuel)
    (fun more s' => reached s' /\ (more = true -> stopped s' \/ exists i' E', boarded i' 0 E' s')) reached s.
Proof.
  intros (Hrd & Hrel & Hpos). pose proof (ready_reached _ _ _ _ Hrd) as Hre.
  unfold dump_file, send_fake_rotate_event. wps. eapply wp_lift; [done|].
  apply wp_send; rewrite ?bool_decide_eq_true_2, ?bool_decide_eq_false_2 by done; cbn [negb]; wps; [by split|].
  match goal with |- context [deliver ?p (tick s)] => set (s1 := deliver p (tick s)) end.
  assert (ready i k E s1) as Hrd1.
  { destruct Hrd as [H1 H0 H2 H3 H4 H5 H6]. split; try done. by apply traced_other. }
  pose proof (ready_reached _ _ _ _ Hrd1) as Hre1. destruct (_ <? _); wps; [apply wp_err_reached; [done|]; intros s' Hs'; wps; by split|].
  eapply wp_mono; [by apply (open_binlog_ok i k E)| |done]. intros [] s2 [Hre2 Hop]; cbn [negb]; wps; [|by split].
  destruct (Hop eq_refl) as (Hrd2 & Hfp & Hp2). cbn [bd_checkpoint with_checkpoint fst snd].
  assert (bd_start_pos s2 = place_of i k) as Hp2' by (by rewrite Hp2). rewrite Hp2', (rd_name _ _ _ _ Hrd2).
  eapply wp_mono; [apply (send_binlog_ok i k E)| |done]; [by destruct Hrd2|done|done|].
  intros r s3 [Hre3 Hfin]. destruct (decide (r = SUCCESS)) as [Hr|Hr];
    [rewrite bool_decide_eq_true_2 by done|rewrite bool_decide_eq_false_2 by done]; cbn [negb]; wps; [|by split].
  destruct (Hfin Hr) as [Hpk Hfin']. pose proof Hre3 as (ph & E3 & Hst3 & Htr3). pose proof Htr3 as (_ & _ & Hfl & _). rewrite Hfl.
  destruct (Z.eqb_spec flag BINLOG_DUMP_NON_BLOCK) as [Hnb|Hnb].
  { unfold send_packet. wps. rewrite Hpk. cbn [send_chunks]. wps. apply wp_send; wps; split; try done. by apply reached_other. }
  destruct Hfin' as [Hf|[Hf|(E' & Hst & Hsd & Hcl)]]; [done| |]; wps.
  - eapply wp_mono; [by apply seek_next_stopped| |done]. intros n s4 [Hre4 Hst4].
    destruct (bool_decide _); cbn [negb]; wps; [by split; [|by left]|apply wp_err_reached; [done|]; intros s' Hs'; wps; by split].
  - eapply wp_mono; [by apply (seek_next_complete i E')| |done]. intros n s4 [Hre4 Hb4].
    destruct (decide (n = OMS_OK)) as [Hn|Hn]; [rewrite bool_decide_eq_true_2 by done|rewrite bool_decide_eq_false_2 by done]; cbn [negb]; wps.
    + split; [done|]. intros _. right. destruct (Hb4 Hn) as [j Hj]. by exists j, E'.
    + apply wp_err_reached; [done|]. intros s' Hs'. wps. by split.
Qed.


Lemma run_loop_ok fuel : forall s,
  reached s -> (stopped s \/ exists i k E, boarded i k E s) ->
  wp (run_loop cfg crc32 heartbeat_interval_us master_heartbeat_period env fuel) (fun _ s' => reached s') reached s.
Proof.
  induction fuel as [|fuel IH]; intros s Hre Hc; cbn [run_loop]; unfold running; wps; apply wp_observe; intros _; wps.
  all: destruct (w_run (env (bd_now s)) && _) eqn:Er; cbn [negb]; wps; try done.
  destruct Hc as [(t & Ht & Hw)|(i & k & E & Hb)]; [by rewrite (eo_stop Henv t (bd_now s) Ht Hw) in Er|].
  assert (boarded i k E (tick s)) as Hb' by (destruct Hb as ([] & ? & ?); by split; [split|]).
  pose proof Hb' as (_ & Hrel & _). unfold choose_file. wps. rewrite Hrel.
  rewrite name_nonempty. wps.
  eapply wp_mono; [by apply (dump_file_ok i k E)| |done]. intros [] s1 [Hre1 Hm]; wps; [|done].
  apply IH; [done|]. destruct (Hm eq_refl) as [?|(i' & E' & ?)]; [by left|right; by exists i', 0%nat, E'].
Qed.

End Machine.

(** ** The start *)

Lemma written_placed i k ev f :
  log_ok (log i) -> written i f -> log i !! k = Some ev -> place_of i (S k) <= zlen f ->
  exists ev', variant ev ev' /\ placed crc32 f (place_of i k) ev'.
Proof.
  intros Hl (evs & body & rest & Hv & Hb & Hf & _) Hk Hlen. destruct (variants_lookup i Hl evs k ev Hv Hk) as (ev' & Hk' & Hvar & Hp).
  pose proof (take_drop_middle _ _ _ Hk') as E. pose proof (chained_variants i Hl evs Hv) as Hc. rewrite <-E in Hc, Hb.
  pose proof (chained_placed crc32 _ _ _ binlog_magic body [] _ Hc Hb eq_refl) as Hpl. rewrite app_nil_r, Hp in Hpl.
  change (binlog_magic ++ body) with (binlog_file body) in Hpl. rewrite Hf in Hpl. exists ev'. split; [done|].
  destruct Hpl as (pre & b & post & Ef & Hpre & Hbb & Hok). destruct (place_S i Hl k ev Hk) as (_ & Hps & _).
  destruct (flush_to_buff_header crc32 ev' Hok) as (tl & Et & Htl). rewrite Et in Hbb. apply Done_inj in Hbb as Eb.
  assert (zlen b = h_event_length (get_header ev)) as Hbl.
  { destruct (variant_header _ _ Hvar) as (_ & El & _). rewrite <-Eb, zlen_app, zlen_header_flush. lia. }
  rewrite app_assoc in Ef. apply app_eq_inv in Ef as [(l & E1 & E2)|(l & E1 & E2)].
  - exists pre, b, l. rewrite E1, <-app_assoc. split; [done|]. split; [done|]. by rewrite Et, Eb.
  - assert (l = []) as ->.
    { apply zlen_0_nil. apply (f_equal zlen) in E1. rewrite !zlen_app in E1. pose proof (zlen_nonneg l). lia. }
    rewrite app_nil_r in E1. exists pre, b, []. rewrite app_nil_r. split; [done|]. split; [done|]. by rewrite Et, Eb.
Qed.

(** The GTIDs before a file, wherever its writing stands. *)
Lemma seek_previous i f fuel :
  log_ok (log i) -> written i f -> (2 <= fuel)%nat ->
  exists prev n ms, log i !! 1%nat = Some prev /\ get_body prev = PreviousGtidsLogEvent n ms /\
    seek_events (c_binlog_checksum cfg) fuel f PREVIOUS_GTIDS_LOG_EVENT true = Done (Some (OMS_OK, [reread prev])).
Proof.
  intros Hl Hw Hfuel. destruct (lo_head _ Hl) as (fde & prev & rest & n & ms & El & [[e Eb] Hu] & Ep).
  assert (log i !! 0%nat = Some fde) as H0 by (by rewrite El). assert (log i !! 1%nat = Some prev) as H1 by (by rewrite El).
  exists prev, n, ms. split; [done|]. split; [done|].
  pose proof Hw as (_ & _ & _ & _ & _ & _ & Hlen).
  assert (place_of i 1 < place_of i 2 /\ place_of i 0 < place_of i 1) as [Hp2 Hp1] by (split; (apply place_lt; [done|rewrite El; cbn; lia])).
  destruct (written_placed i 0 fde f Hl Hw H0 ltac:(lia)) as (fde' & Hv0 & Hpl0).
  destruct (written_placed i 1 prev f Hl Hw H1 Hlen) as (prev' & Hv1 & Hpl1).
  assert (prev' = prev) as -> by (destruct Hv1 as [->|[[[e' Ee] _] _]]; congruence).
  destruct (variant_ok i 0 fde fde' Hl H0 Hv0) as [Hok0 Hc0]. destruct (variant_ok i 1 prev prev Hl H1 Hv1) as [Hok1 Hc1].
  destruct (variant_header _ _ Hv0) as (_ & _ & _ & Eb0 & _ & En0). destruct (place_S i Hl 0 fde H0) as (Hn0 & _ & _).
  destruct fuel as [|[|fuel]]; [lia|lia|]. unfold seek_events, check_magic. rewrite (written_magic i) by done. cbn [of_option mbind outcome_bind].
  rewrite beq_refl. cbn [seek_loop]. change BINLOG_MAGIC_SIZE with (place_of i 0). rewrite (proj2 (Z.ltb_lt (place_of i 0) (zlen f))) by lia.
  rewrite (placed_header _ _ _ _ Hpl0). cbn [of_option mbind outcome_bind].
  assert (wanted PREVIOUS_GTIDS_LOG_EVENT fde' = false /\ wanted PREVIOUS_GTIDS_LOG_EVENT prev = true) as [W0 W1].
  { unfold wanted. destruct Hok0 as (_ & _ & Ht0 & _). destruct Hok1 as (_ & _ & Ht1 & _). rewrite Eb0, Eb in Ht0. rewrite Ep in Ht1.
    cbn in Ht0, Ht1. apply Z.eqb_eq in Ht0 as ->. by rewrite Ht1. }
  rewrite (seek_step_placed crc32 _ _ _ fde' _ _ Hpl0 Hc0) by (by rewrite W0). rewrite W0. cbn [mbind outcome_bind andb negb].
  rewrite En0, <-Hn0. rewrite (proj2 (Z.ltb_lt (place_of i 1) (zlen f))) by lia.
  rewrite (placed_header _ _ _ _ Hpl1). cbn [of_option mbind outcome_bind bool_decide decide decide_rel].
  rewrite (seek_step_placed crc32 _ _ _ prev _ _ Hpl1 Hc1) by (by rewrite Ep). rewrite W1. done.
Qed.


(** The place a request names: a file and an event of it, or no file. *)
Definition named (s : BinlogDumper) : Prop :=
  bd_relative_file s = [] /\ bd_file s = binlog_path [] /\ bd_start_pos s = BINLOG_MAGIC_SIZE \/
  exists i k, 0 < i <= LLONG_MAX /\ (k <= length (log i))%nat /\
    bd_relative_file s = binlog_name cfg i /\ bd_file s = path cfg i /\ bd_start_pos s = place_of i k.

(** A dumper that has sent no event yet. *)
Record fresh (s : BinlogDumper) : Prop := {
  fr_trace : traced [] s;
  fr_packet : bd_packet s = [];
  fr_rotate : bd_rotate_file s = [];
  fr_named : named s
}.

Lemma fresh_tick s : fresh s -> fresh (tick s).
Proof. by intros []. Qed.
Lemma fresh_other p s : event_of p = None -> fresh s -> fresh (deliver p s).
Proof. intros Hp []. split; try done. by apply traced_other. Qed.

Lemma fresh_file i s :
  fresh s -> 0 < i <= LLONG_MAX -> bd_start_pos s = BINLOG_MAGIC_SIZE -> fresh (with_file (binlog_path (binlog_name cfg i)) (binlog_name cfg i) s).
Proof. intros [] Hi Hp. split; try done. right. exists i, 0%nat. split_and!; (done || lia). Qed.

Lemma fresh_boarded i k s :
  fresh s -> 0 < i <= LLONG_MAX -> (k <= length (log i))%nat -> bd_relative_file s = binlog_name cfg i -> bd_file s = path cfg i ->
  bd_start_pos s = place_of i k -> listed i (bd_now s) -> boarded i k i k [] s.
Proof. intros [H1 H2 H3 _] Hi Hk E1 E2 E3 E4. split; [|done]. split; try done; [constructor|by left]. Qed.

(** The transactions before file [i], as its second event has them. *)
Definition previous_of (i : Z) : gtid_map :=
  match get_body <$> log i !! 1%nat with Some (PreviousGtidsLogEvent _ ms) => ms | _ => [] end.

(** The newest file before which there are only transactions the replica has, by the
    comparison of the code; [sub] is the answer for a file with none before it. *)
Fixpoint newest_covered (records : list BinlogIndexRecord) (sub : bool) : option Z :=
  match records with
  | [] => None
  | r :: records =>
      if is_subset_executed_gtid (previous_of (get_index r)) exclude sub then Some (get_index r) else newest_covered records false
  end.

(** The file a request in GTID mode starts with, for the rows of one moment: the first one
    when nothing is excluded, otherwise the newest one covered; without any, the file the
    request names. *)
Definition gtid_start (rel : bytes) (i : Z) : Prop :=
  exists t, match (if bool_decide (exclude = []) then get_index <$> head (rows t) else newest_covered (reverse (rows t)) true) with
            | Some j => i = j
            | None => rel = binlog_name cfg i
            end.

(** Where the stream starts for a request. *)
Definition starts (rel : bytes) (pos : Z) (i0 : Z) (k0 : nat) : Prop :=
  0 < i0 <= LLONG_MAX /\ (k0 <= length (log i0))%nat /\
  if gtid_mod then k0 = 0%nat /\ gtid_start rel i0
  else if beq rel [] then k0 = 0%nat /\ exists t, get_index <$> head (rows t) = Some i0
  else rel = binlog_name cfg i0 /\ pos = place_of i0 k0.

(** No event was sent, or those of a run of the machine. *)
Definition refined (rel : bytes) (pos : Z) (s : BinlogDumper) : Prop :=
  traced [] s \/ exists i0 k0, starts rel pos i0 k0 /\ reached i0 k0 s.

Lemma wp_err_fresh m Q I s : fresh s -> (forall s', fresh s' -> Q tt s') -> wp (send_err env m) Q I s.
Proof. intros Hs HQ. by apply (wp_send_err _ fresh); [apply fresh_tick|intros; by apply fresh_other|..]. Qed.

Lemma row_at t n r : rows t !! n = Some r -> exists i, 0 < i <= LLONG_MAX /\ record_for cfg i r.
Proof.
  intros Hn. destruct (wo_rows _ _ (eo_world Henv t)) as (a & Ha & Hb & Hr). exists (a + Z.of_nat n). split; [|by apply Hr].
  apply lookup_lt_Some in Hn. unfold zlen in Hb. lia.
Qed.

(** After the search: the file found, or the one there was. *)
Definition searched (o : option Z) (rel0 : bytes) (v : ret) (s : BinlogDumper) : Prop :=
  fresh s /\ bd_start_pos s = BINLOG_MAGIC_SIZE /\
  (v = OMS_OK -> bd_relative_file s = from_option (binlog_name cfg) rel0 o).

Lemma seek_first_loop_ok scan_fuel I t records : (2 <= scan_fuel)%nat -> forall is_subset s,
  (forall r, r ∈ records -> r ∈ rows t) -> fresh s -> bd_start_pos s = BINLOG_MAGIC_SIZE ->
  wp (seek_first_loop cfg env scan_fuel records is_subset) (searched (newest_covered records is_subset) (bd_relative_file s)) I s.
Proof.
  intros Hfuel. induction records as [|r records IH]; intros is_subset s Hin Hs Hp; cbn [seek_first_loop]; wps; [done|].
  apply wp_observe. intros Hw. wps. assert (exists i, 0 < i <= LLONG_MAX /\ record_for cfg i r) as (i & Hi & _ & Ei & En).
  { destruct (proj1 (list_elem_of_lookup _ _) (Hin r ltac:(by left))) as [n Hn]. by eapply row_at. }
  rewrite En. cbn [newest_covered]. rewrite Ei. destruct (w_files (env (bd_now s)) !! _) as [f|] eqn:Ef.
  - apply (wo_files _ _ Hw) in Ef; [|done].
    destruct (seek_previous i f scan_fuel (eo_log Henv i Hi) Ef Hfuel) as (prev & n & ms & Ep & Eb & Es).
    apply (wp_lift _ [reread prev]); [by rewrite Es|]. cbn [head fmap option_fmap option_map reread get_body].
    unfold previous_of at 1. rewrite Ep. cbn [fmap option_fmap option_map]. rewrite Eb. cbn [reread_body].
    pose proof (fr_trace _ Hs) as (_ & Ex & _). cbn [bd_exclude_gtid tick]. rewrite Ex.
    destruct (is_subset_executed_gtid _ _ _); unfold set_dump_file; wps; [split; [by apply fresh_file; [apply fresh_tick|..]|done]|].
    apply (IH false (tick s)); [|by apply fresh_tick|done]. intros r' Hr'. apply Hin. by right.
  - apply (wp_lift _ []); [done|]. cbn. wps. apply (wp_send_err _ (fun s => fresh s /\ bd_start_pos s = BINLOG_MAGIC_SIZE)).
    + intros s' [H1 H2]. split; [by apply fresh_tick|done].
    + intros s' p Hpk [H1 H2]. split; [by apply fresh_other|done].
    + split; [by apply fresh_tick|done].
    + intros s' [H1 H2]. by wps.
Qed.

Definition search_result (t : nat) : option Z :=
  if bool_decide (exclude = []) then get_index <$> head (rows t) else newest_covered (reverse (rows t)) true.

Lemma newest_covered_row records sub i : newest_covered records sub = Some i -> exists r, r ∈ records /\ get_index r = i.
Proof.
  revert sub. induction records as [|r records IH]; intros sub; cbn [newest_covered]; [done|]. destruct (is_subset_executed_gtid _ _ _).
  - intros [= <-]. exists r. split; [by left|done].
  - intros H. destruct (IH _ H) as (r' & Hr' & E). exists r'. split; [by right|done].
Qed.

Lemma search_result_row t i : search_result t = Some i -> 0 < i <= LLONG_MAX.
Proof.
  intros H. assert (exists r, r ∈ rows t /\ get_index r = i) as (r & Hr & <-).
  { unfold search_result in H. destruct (bool_decide _).
    - destruct (rows t) as [|r l]; [done|]. injection H as <-. exists r. split; [by left|done].
    - apply newest_covered_row in H as (r & Hr & E). exists r. by rewrite elem_of_reverse in Hr. }
  apply list_elem_of_lookup in Hr as [n Hn]. by destruct (row_at t n r Hn) as (i & Hi & _ & -> & _).
Qed.

Lemma seek_first_ok scan_fuel I s :
  (2 <= scan_fuel)%nat -> fresh s -> bd_start_pos s = BINLOG_MAGIC_SIZE ->
  wp (seek_first_binlog_file cfg env scan_fuel)
    (fun v s' => searched (search_result (bd_now s)) (bd_relative_file s) v s' /\ (v = OMS_OK -> bd_relative_file s' <> [])) I s.
Proof.
  intros Hfuel Hs Hp. pose proof (fr_trace _ Hs) as (_ & Ex & _).
  unfold seek_first_binlog_file. apply wp_bind, wp_fetch. intros a Ha Hb Hr. wps. cbn [bd_exclude_gtid tick]. rewrite Ex.
  eapply (wp_mono _ (searched (search_result (bd_now s)) (bd_relative_file s))); [| |done].
  - unfold search_result. destruct (bool_decide _).
    + destruct (rows (bd_now s)) as [|r l] eqn:El; unfold set_dump_file; wps; [by split; [apply fresh_tick|]|]. destruct (row_at (bd_now s) 0 r) as (i & Hi & _ & Ei & _); [by rewrite El|].
      cbn [head fmap option_fmap option_map]. rewrite Ei. split; [by apply fresh_file; [apply fresh_tick|..]|done].
    + apply (seek_first_loop_ok _ _ (bd_now s) _ Hfuel true (tick s)); [intros r; by rewrite elem_of_reverse|by apply fresh_tick|done].
  - intros r s1 (Hs1 & Hp1 & Hre). destruct (decide (r = OMS_OK)) as [->|]; [rewrite bool_decide_eq_true_2 by done|rewrite bool_decide_eq_false_2 by done]; wps; [|done].
    destruct (beq (bd_relative_file s1) []) eqn:Erel; wps; [|split; [done|]; intros _ E; by rewrite E in Erel].
    apply (wp_send_err _ (fun s => fresh s /\ bd_start_pos s = BINLOG_MAGIC_SIZE)).
    + intros s' [H1 H2]. split; [by apply fresh_tick|done].
    + intros s' p Hpk [H1 H2]. split; [by apply fresh_other|done].
    + done.
    + intros s' [H1 H2]. by wps.
Qed.

Lemma find_index_total name rs : Forall record_ok rs ->
  exists o, find_index (c_prefix cfg) (c_width cfg) name (line <$> rs) = Done o /\
    forall r, o = Some r -> r ∈ rs /\ strcmp_eq name (binlog_name cfg (get_index r)) = true.
Proof.
  induction 1 as [|r rs Hr _ (o & IH & Ho)]; cbn [fmap list_fmap find_index]; [by exists None|]. rewrite parse_line by done. cbn [mbind outcome_bind].
  destruct (_ && _) eqn:E.
  - exists (Some r). split; [done|]. intros r' [= <-]. apply andb_true_iff in E as [_ E]. split; [by left|done].
  - exists o. split; [done|]. intros r' Hr'. destruct (Ho r' Hr') as [? ?]. split; [by right|done].
Qed.

Lemma verify_total i k f :
  log_ok (log i) -> written i f -> (k <= length (log i))%nat -> exists v, verify_event_checksum crc32 (place_of i k) f false = Done v.
Proof.
  intros Hl Hw Hk. unfold verify_event_checksum. destruct (read_header f (place_of i k)) as [h|] eqn:Eh; [|by eexists].
  unfold read_header in Eh. destruct (read_file f (place_of i k) COMMON_HEADER_LENGTH) as [x|] eqn:Ex; [|done]. cbn in Eh.
  destruct (log i !! k) as [ev|] eqn:Ek.
  2: { apply lookup_ge_None in Ek. destruct (written_end i Hl f (place_of i k) COMMON_HEADER_LENGTH x); try done.
       replace k with (length (log i)) by lia. lia. }
  destruct (written_read i Hl k ev f Hw Ek) as (ev' & b & Hv & Hb & Hh & He). rewrite (Hh _ Ex) in Eh. injection Eh as <-.
  destruct (variant_header _ _ Hv) as (_ & El & _). rewrite El. destruct (read_file f _ (h_event_length _)) as [y|] eqn:Ey; [|by eexists].
  pose proof (He y eq_refl) as ->. destruct (variant_ok i k ev ev' Hl Ek Hv) as [Hok _].
  destruct (flush_to_buff_header crc32 ev' Hok) as (tl & Et & Htl). rewrite Et in Hb. apply Done_inj in Hb as <-.
  assert (zlen (header_flush (get_header ev') ++ tl) = h_event_length (get_header ev)) as Hlen by (rewrite zlen_app, zlen_header_flush; lia).
  pose proof (zlen_nonneg tl). unfold COMMON_HEADER_LENGTH in *. destruct Hok as ((_ & _ & _ & Hu & _) & _). rewrite El in Hu. unfold is_u32 in Hu.
  rewrite (u32_id (h_event_length (get_header ev) - 4)) by (unfold is_u32; lia).
  set (x' := read_file _ _ 4). assert (is_Some x') as [t ->]; [|by eexists]. unfold x', read_file. rewrite Hlen.
  rewrite (proj2 (Z.leb_le 0 (h_event_length (get_header ev) - 4))), (proj2 (Z.leb_le _ (h_event_length (get_header ev)))) by lia. by eexists.
Qed.

(** The request of a fresh dumper. *)
Definition asking (rel : bytes) (pos : Z) (s : BinlogDumper) : Prop :=
  fresh s /\ bd_relative_file s = rel /\ bd_start_pos s = pos.

Lemma asking_tick rel pos s : asking rel pos s -> asking rel pos (tick s).
Proof. intros [H1 H2]. split; [by apply fresh_tick|done]. Qed.

(** The file of the request, if it names one, is in the index. *)
Definition found (rel : bytes) (s : BinlogDumper) : Prop :=
  forall i, 0 < i <= LLONG_MAX -> rel = binlog_name cfg i -> listed i (bd_now s).

Lemma found_tick rel s : found rel s -> found rel (tick s).
Proof. intros H i Hi Er. specialize (H i Hi Er). done. Qed.

Definition checked (rel : bytes) (pos : Z) (c : ret) (s : BinlogDumper) : Prop := asking rel pos s /\ (c = OMS_OK -> found rel s).

Lemma fail_with_ok rel pos m I s : asking rel pos s -> wp (fail_with env m) (checked rel pos) I s.
Proof.
  intros Hs. unfold fail_with. wps. apply (wp_send_err _ (asking rel pos)); [apply asking_tick| |done|by intros s' Hs'; wps].
  intros s' p Hp [H1 H2]. split; [by apply fresh_other|done].
Qed.

Lemma find_index_found rel r s :
  r ∈ rows (bd_now s) -> strcmp_eq rel (binlog_name cfg (get_index r)) = true -> found rel (tick s).
Proof.
  intros Hr Heq i Hi ->. exists (bd_now s), r. split; [cbn; lia|]. split; [done|].
  apply list_elem_of_lookup in Hr as [n Hn]. destruct (row_at _ _ _ Hn) as (j & Hj & _ & Ej & _). rewrite Ej in *.
  symmetry. by apply strcmp_name.
Qed.

Lemma check_start_file_ok rel pos I s :
  asking rel pos s -> wp (check_start_file cfg crc32 env) (checked rel pos) I s.
Proof.
  intros Hs. unfold check_start_file. wps. destruct (beq (bd_relative_file s) []) eqn:Erel; wps.
  { split; [done|]. intros _ i _ Ei. destruct Hs as (_ & Hrel & _). by rewrite Hrel, Ei, name_nonempty in Erel. }
  apply wp_observe. intros Hw. wps.
  destruct (wo_index _ _ Hw) as [Hi Hrs]. destruct (find_index_total (bd_relative_file s) _ Hrs) as (o & Ho & Hfo).
  apply (wp_lift _ (match o with Some r => (OMS_OK, r) | None => (OMS_FAILED, empty_record) end)).
  { unfold get_index_of. rewrite Hi, (proj1 (index_lines _ Hrs)). by rewrite Ho. }
  pose proof (asking_tick _ _ _ Hs) as Hs1. destruct o as [r|]; [|by apply fail_with_ok]. destruct (Hfo r eq_refl) as [Hin Hstr].
  assert (found rel (tick s)) as Hfound by (destruct Hs as (_ & Hrel & _); rewrite Hrel in Hstr; by eapply find_index_found).
  destruct (beq (get_file_name r) []); [by apply fail_with_ok|]. destruct (bd_gtid_mod s); wps; [done|].
  destruct (get_position r <? bd_start_pos s); [by apply fail_with_ok|].
  destruct (bd_start_pos s <? BINLOG_MAGIC_SIZE); [by apply fail_with_ok|]. wps. apply wp_observe. intros Hw2.
  pose proof (asking_tick _ _ _ Hs1) as Hs2. destruct (w_files _ !! bd_file s) as [f|] eqn:Ef; [|by apply fail_with_ok]. wps.
  eapply (wp_mono _ (fun _ s' => asking rel pos s' /\ found rel s')); [| |done].
  - apply found_tick in Hfound. destruct (_ <? _); wps; [|done]. destruct Hs as [[_ _ _ [(E0 & _)|(i & k & Hik & Hk & _ & En & Ep)]] _]; [by rewrite E0 in Erel|].
    rewrite En in Ef. apply (wo_files _ _ Hw2) in Ef; [|done]. rewrite Ep.
    destruct (verify_total i k f (eo_log Henv i Hik) Ef Hk) as [v' Hv']. by apply (wp_lift _ v').
  - intros v' s' [Hs' Hf']. destruct (bool_decide _); wps; [by split|by apply fail_with_ok].
Qed.

(** The file a request asks for, once the search in GTID mode is over. *)
Definition chosen (rel0 rel : bytes) : Prop :=
  if gtid_mod then rel <> [] /\ exists t, rel = from_option (binlog_name cfg) rel0 (search_result t) else rel0 = rel.

Lemma binlog_name_inj i j : 0 < i <= LLONG_MAX -> 0 < j <= LLONG_MAX -> binlog_name cfg i = binlog_name cfg j -> i = j.
Proof. intros Hi Hj E. apply (path_inj cfg); [lia|lia|]. unfold path. by rewrite E. Qed.

Lemma starts_file i k rel pos :
  0 < i <= LLONG_MAX -> (k <= length (log i))%nat -> rel = binlog_name cfg i -> pos = place_of i k ->
  (gtid_mod = true -> pos = BINLOG_MAGIC_SIZE) -> forall rel0, chosen rel0 rel -> starts rel0 pos i k.
Proof.
  intros Hi Hk -> -> Hg rel0 Hrel. split; [done|]. split; [done|]. unfold chosen in Hrel. destruct gtid_mod; cbn [orb].
  - destruct Hrel as (_ & t & Et). split; [|exists t; fold (search_result t); destruct (search_result t) as [j|] eqn:Ej; cbn in Et; [|done];
      apply binlog_name_inj; [done|by eapply search_result_row|done]].
    destruct k as [|k]; [done|]. pose proof (place_lt i 0 (S k) (eo_log Henv i Hi) ltac:(lia)) as H. rewrite Hg in H by done.
    change (place_of i 0) with BINLOG_MAGIC_SIZE in H. lia.
  - by rewrite Hrel, name_nonempty.
Qed.

(** No file to send. *)
Lemma dump_file_nothing I fuel s :
  traced [] s -> bd_file s = binlog_path [] ->
  wp (dump_file cfg crc32 heartbeat_interval_us master_heartbeat_period env fuel) (fun more s' => more = false /\ traced [] s') I s.
Proof.
  intros Ht Hf. assert (forall m s', traced [] s' -> wp (send_err env m) (fun _ s' => wp (mret false) (fun more s' => more = false /\ traced [] s') I s') I s') as Herr.
  { intros m s' Hs'. apply (wp_send_err _ (traced [])); [done|by intros; apply traced_other|done|]. intros s2 Hs2. by wps. }
  unfold dump_file, send_fake_rotate_event. wps. eapply wp_lift; [done|].
  apply wp_send; rewrite ?bool_decide_eq_true_2, ?bool_decide_eq_false_2 by done; cbn [negb]; wps; [done|].
  destruct (_ <? _); wps; [apply Herr; by apply traced_other|]. unfold open_binlog. wps. apply wp_observe. intros Hw.
  cbn [bd_file with_fp deliver tick]. rewrite Hf. rewrite (wo_data _ _ Hw). wps.
  apply (wp_send_err _ (traced [])); [done|by intros; apply traced_other|by apply traced_other|]. intros s2 Hs2. by wps.
Qed.

Lemma run_loop_fresh rel0 rel pos fuel s :
  asking rel pos s -> found rel s -> (gtid_mod = true -> pos = BINLOG_MAGIC_SIZE) -> chosen rel0 rel ->
  wp (run_loop cfg crc32 heartbeat_interval_us master_heartbeat_period env fuel) (fun _ s' => refined rel0 pos s') (refined rel0 pos) s.
Proof.
  intros (Hfr & Hrel & Hpos) Hfound Hg Hr0. pose proof Hfr as [Htr Hpk Hro Hnm].
  destruct Hnm as [(E1 & E2 & E3)|(i & k & Hi & Hk & E1 & E2 & E3)].
  2: { assert (starts rel0 pos i k) as Hst by (apply (starts_file i k rel pos); congruence || done).
       assert (boarded i k i k [] s) as Hb by (apply fresh_boarded; try done; apply Hfound; congruence || done).
       eapply wp_mono; [apply (run_loop_ok i k fuel s)| |]; [eapply ready_reached, Hb|right; by exists i, k, []| |].
       all: intros; right; by exists i, k. }
  assert (gtid_mod = false /\ rel0 = []) as [Egm Erel].
  { unfold chosen in Hr0. destruct gtid_mod; [|split; [done|congruence]]. destruct Hr0 as [[] _]. congruence. }
  assert (forall i t, 0 < i <= LLONG_MAX -> get_index <$> head (rows t) = Some i -> starts rel0 pos i 0) as Hst.
  { intros i t Hi Ht. split; [done|]. split; [lia|]. rewrite Egm, Erel. cbn. split; [done|]. by exists t. }
  assert (forall s', traced [] s' -> refined rel0 pos s') as Hempty by (intros s' Ht; by left).
  destruct fuel as [|fuel]; cbn [run_loop]; unfold running; wps; apply wp_observe; intros _; wps;
    destruct (_ && _); cbn [negb]; wps; try (by apply Hempty).
  unfold choose_file. wps. cbn [bd_relative_file tick]. rewrite E1, beq_refl. wps.
  apply wp_fetch. intros a Ha Hb Hr. cbn [bd_now tick] in *. destruct (rows (S (bd_now s))) as [|r l] eqn:El; wps.
  - eapply wp_mono; [by apply (dump_file_nothing (refined rel0 pos))| |done]. intros more s' [-> Hs']. wps. by apply Hempty.
  - unfold set_dump_file. wps. destruct (Hr 0%nat r eq_refl) as (_ & Ei & _). rewrite Ei, Z.add_0_r. rewrite zlen_cons in Hb.
    pose proof (zlen_nonneg l). assert (0 < a <= LLONG_MAX) as Hia by lia.
    match goal with |- wp _ _ _ ?x => set (s1 := x) end.
    assert (boarded a 0 a 0 [] s1) as Hb1.
    { apply fresh_boarded; try done; [apply fresh_file; [by repeat apply fresh_tick|done|done]|lia|].
      exists (S (bd_now s)), r. split; [cbn; lia|]. rewrite El, Ei, Z.add_0_r. split; [by left|done]. }
    assert (starts rel0 pos a 0) as Hsa by (apply (Hst a (S (bd_now s)) Hia); rewrite El; cbn; by rewrite Ei, Z.add_0_r).
    eapply wp_mono; [by apply (dump_file_ok a 0 a 0 [])| |].
    + intros [] s2 [Hre2 Hm]; wps; [|right; by exists a, 0%nat].
      eapply wp_mono; [apply (run_loop_ok a 0 fuel s2 Hre2)| |].
      * destruct (Hm eq_refl) as [?|(i' & E' & ?)]; [by left|right; by exists i', 0%nat, E'].
      * intros x s' Hs'. right. by exists a, 0%nat.
      * intros s' Hs'. right. by exists a, 0%nat.
    + intros s' Hs'. right. by exists a, 0%nat.
Qed.


(** ** A complete file *)

Lemma seek_end_steady i k E fuel Q I s :
  steady i -> standing i k E [] s ->
  Q (if (place_of i k =? place_of i (length (log i))) && strcmp_eq (path cfg i) (bd_rotate_file s) then END_SKIP
     else END_POS (place_of i (length (log i)))) (tick (tick s)) ->
  wp (seek_binlog_end_pos cfg crc32 heartbeat_interval_us master_heartbeat_period env fuel (path cfg i)) Q I s.
Proof.
  intros Hsy Hs HQ. unfold seek_binlog_end_pos. apply wp_bind, wp_observe. intros _. wps. rewrite (sy_closed _ Hsy). cbn [negb]. wps.
  apply wp_observe. intros _. cbn [bd_checkpoint bd_rotate_file tick]. rewrite (sd_at _ _ _ _ _ Hs). cbn [snd].
  assert (size_in (env (bd_now (tick s))) (path cfg i) = place_of i (length (log i))) as ->.
  { destruct (sy_file _ Hsy (bd_now (tick s))) as (f & Ef & Hf). unfold size_in. by rewrite Ef. }
  destruct (_ && _); wps; [done|]. rewrite (proj2 (Z.ltb_ge _ _)); [by wps|].
  pose proof (sd_k _ _ _ _ _ Hs). destruct (decide (k = length (log i))) as [->|]; [lia|].
  apply Z.lt_le_incl, place_lt; [by eapply log_at|lia].
Qed.

Lemma wp_running_steady i Q I s : steady i -> Q true (tick s) -> wp (running env) Q I s.
Proof. intros Hsy HQ. unfold running. apply wp_bind, wp_observe. intros _. wps. by rewrite (sy_run _ Hsy), (sy_alive _ Hsy). Qed.

(** With the file complete and closed, from before its end. *)
Lemma closed_loop i k E fuel s :
  steady i -> closes i -> (k < length (log i))%nat -> standing i k E [] s -> (length (log i) + 2 <= fuel)%nat ->
  wp (send_binlog_loop cfg crc32 heartbeat_interval_us master_heartbeat_period env fuel (path cfg i))
    (fun r s' => r = SUCCESS /\ traced (E ++ filtered false (chunk i k (length (log i)))) s') (fun _ => False) s.
Proof.
  intros Hsy Hcl Hk Hs Hfuel. destruct fuel as [|fuel]; [lia|]. pose proof (log_at _ _ _ _ _ Hs) as Hl.
  pose proof (place_lt i k (length (log i)) Hl ltac:(lia)) as Hlt. cbn [send_binlog_loop]. wps.
  apply (wp_running_steady i); [done|]. cbn [negb]. wps. apply (seek_end_steady i k E); [done|by apply standing_tick|].
  rewrite (proj2 (Z.eqb_neq _ _)) by lia. cbn [andb]. wps. unfold send_events. wps.
  cbn [bd_checkpoint tick]. rewrite (sd_at _ _ _ _ _ Hs). cbn [fst snd].
  eapply wp_mono; [apply (send_events_loop_ok i _ fuel false k E)| |].
  { destruct Hs. by split. }
  2: { intros s' [_ Hf]. specialize (Hf Hsy eq_refl). lia. }
  intros r s2 (k' & E' & Hc & Ht & Hs2 & Hend). destruct (Hend Hsy eq_refl) as (-> & -> & Hrot). specialize (Hrot Hk Hcl). specialize (Hs2 eq_refl).
  rewrite bool_decide_eq_true_2 by done. cbn [negb]. unfold conn_liveness. wps.
  eapply (wp_mono _ _ _ (fun _ => False)); [by apply (heartbeat_ok _ i (length (log i)) E' [])| |done]. intros r3 s3 (Hs3 & Hrot3 & Hr3). rewrite (Hr3 Hsy). wps.
  rewrite (bool_decide_eq_true_2 (SUCCESS = SUCCESS)), bool_decide_eq_true_2 by done. cbn [negb]. destruct fuel as [|fuel]; [lia|]. cbn [send_binlog_loop]. wps.
  apply (wp_running_steady i); [done|]. cbn [negb]. wps. apply (seek_end_steady i (length (log i)) E'); [done|by apply standing_tick|].
  cbn [bd_rotate_file tick]. rewrite Z.eqb_refl, Hrot3, Hrot. unfold strcmp_eq. rewrite beq_refl. cbn [andb]. wps.
  split; [done|]. destruct Hc as [_ <-]. by destruct Hs3.
Qed.

(** A binlog file that is complete and closed is sent to its end: from any place before
    its last event, with nothing hindering, [send_binlog] returns success with as much fuel
    as the file has events and two, and has sent the format description and all the events
    from that place on but those of transactions the replica has. *)
Theorem closed_file_sent i0 k0 i k E fuel s :
  steady i -> closes i -> ready i0 k0 i k E s -> (k < length (log i))%nat ->
  (exists t, bd_fp s = Some (path cfg i, t)) -> bd_checkpoint s = (path cfg i, place_of i k) -> bd_checksum_flag s <> UNDEF ->
  (length (log i) + 2 <= fuel)%nat ->
  wp (send_binlog cfg crc32 heartbeat_interval_us master_heartbeat_period env fuel (path cfg i) (place_of i k))
    (fun r s' => r = SUCCESS /\ traced (E ++ take 1 (log i) ++ filtered false (drop (k `max` 1) (log i))) s') (fun _ => False) s.
Proof.
  intros Hsy Hcl Hrd Hk Hf Hc Hu Hfuel. unfold send_binlog. wps.
  eapply (wp_mono _ _ _ (fun _ => False)); [by apply (send_format_description_ok i0 k0 i k E (place_of i k))| |done].
  intros r s1 (_ & Hs1 & Hok). specialize (Hok Hsy Hu) as ->. rewrite bool_decide_eq_true_2 by done. cbn [negb]. wps.
  destruct (Hs1 eq_refl) as (fde & Hfde & Hs). pose proof (start_standing i k (E ++ [fde]) s1 Hs ltac:(lia)) as Hst.
  destruct (lo_head _ (log_at _ _ _ _ _ Hs)) as (a & b & rest & n & ms & El & _).
  eapply wp_mono; [apply (closed_loop i (k `max` 1) (E ++ [fde])); [done|done|rewrite El in *; cbn in *; lia|done|done]| |done].
  intros r s2 [-> Ht]. split; [done|]. replace (take 1 (log i)) with [fde] by (rewrite El in *; cbn in *; congruence).
  rewrite <-app_assoc in Ht. unfold chunk in Ht. by rewrite (take_ge (drop _ _)) in Ht by (rewrite length_drop; lia).
Qed.

Lemma asking_refined rel0 rel pos s : asking rel pos s -> refined rel0 pos s.
Proof. intros ([Ht _ _ _] & _). by left. Qed.

Lemma run_refines scan_fuel fuel s :
  fresh s -> (gtid_mod = true -> bd_start_pos s = BINLOG_MAGIC_SIZE) -> (2 <= scan_fuel)%nat ->
  wp (run cfg crc32 heartbeat_interval_us master_heartbeat_period master_binlog_checksum env scan_fuel fuel)
    (fun _ s' => refined (bd_relative_file s) (bd_start_pos s) s') (refined (bd_relative_file s) (bd_start_pos s)) s.
Proof.
  intros Hs Hg Hfuel. unfold run. wps. set (rel0 := bd_relative_file s). set (pos := bd_start_pos s) in *.
  pose proof (fr_trace _ Hs) as (Tg & _).
  eapply (wp_mono _ (fun r s' => exists rel, asking rel pos s' /\ (r = OMS_OK -> chosen rel0 rel)) _ (fun _ => False)); [| |done].
  { rewrite Tg. destruct gtid_mod eqn:Eg; wps; [|exists rel0; unfold chosen; by rewrite Eg].
    eapply (wp_mono _ _ _ (fun _ => False)); [by apply (seek_first_ok scan_fuel); [| |apply Hg]| |done].
    intros r s' ((H1 & H2 & H3) & H4). exists (bd_relative_file s').
    split; [split; [done|split; [done|rewrite H2; symmetry; by apply Hg]]|]. intros Hr. unfold chosen. rewrite Eg. split; [by apply H4|]. exists (bd_now s). by apply H3. }
  intros r s1 (rel & Ha & Hr0). destruct (decide (r = OMS_OK)) as [Hr|Hr];
    [rewrite bool_decide_eq_true_2 by done|rewrite bool_decide_eq_false_2 by done]; cbn [negb]; wps; [|by apply (asking_refined rel0 rel)].
  eapply (wp_mono _ _ _ (fun _ => False)); [by apply (check_start_file_ok rel pos)| |done]. intros c s2 [Hs2 Hf2].
  destruct (decide (c = OMS_OK)) as [Hc|Hc]; [rewrite bool_decide_eq_true_2 by done|rewrite bool_decide_eq_false_2 by done]; cbn [negb]; wps;
    [|by apply (asking_refined rel0 rel)]. unfold init_binlog_checksum. wps.
  apply (run_loop_fresh rel0 rel pos); [|by apply Hf2|done|by apply Hr0]. destruct Hs2 as [[] ?]. split; [by split|done].
Qed.

(** C11: In any world whose files hold at every time a part of one log and get no shorter,
    whatever other threads do to it in the meantime and however far the thread gets, the
    dumper does not crash, and the packets it has sent are none or a run of the abstract
    machine [stream], started where the request says ([starts]; in GTID mode the start position
    is 4).  The machine goes through the files in order, and may send a complete file once
    more when the dumper saw it while the index was behind ([lagging]). *)
Theorem dump_refines scan_fuel fuel s :
  fresh s -> (gtid_mod = true -> bd_start_pos s = BINLOG_MAGIC_SIZE) -> (2 <= scan_fuel)%nat ->
  wp (run cfg crc32 heartbeat_interval_us master_heartbeat_period master_binlog_checksum env scan_fuel fuel)
    (fun _ s' => refined (bd_relative_file s) (bd_start_pos s) s') (refined (bd_relative_file s) (bd_start_pos s)) s.
Proof. apply run_refines. Qed.


(** ** What a run of the machine delivers *)

Lemma filtered_off skip evs : filtering = false -> filtered skip evs = evs.
Proof.
  intros Hf. revert skip. induction evs as [|ev evs IH]; intros skip; [done|]. cbn [filtered]. unfold skips at 1. rewrite Hf. by rewrite IH.
Qed.

Lemma filtered_sublist skip evs : sublist (filtered skip evs) evs.
Proof.
  revert skip. induction evs as [|ev evs IH]; intros skip; [done|]. cbn [filtered]. destruct (skips skip ev); cbn [app]; by constructor.
Qed.

(** Forgetting that a transaction is skipped sends more. *)
Lemma filtered_true evs : forall skip, sublist (filtered skip evs) (filtered false evs).
Proof.
  induction evs as [|ev evs IH]; intros skip; [done|]. cbn [filtered].
  assert (skips skip ev = skips false ev \/ skips skip ev = skip /\ skips false ev = false) as [->|[-> ->]]; [|done|].
  - unfold skips. destruct filtering; [|by left]. destruct (get_body ev); first [left; reflexivity|right; split; reflexivity].
  - destruct skip; cbn [app]; [|done]. by constructor.
Qed.

Lemma filtered_app skip a b : sublist (filtered skip (a ++ b)) (filtered skip a ++ filtered false b).
Proof.
  revert skip. induction a as [|ev a IH]; intros skip; [apply filtered_true|]. cbn [app filtered]. rewrite <-app_assoc.
  by apply sublist_app.
Qed.

Lemma chunk_app i a b c : (a <= b <= c)%nat -> chunk i a c = chunk i a b ++ chunk i b c.
Proof.
  intros H. unfold chunk. replace (c - a)%nat with ((b - a) + (c - b))%nat by lia. rewrite <-take_take_drop, drop_drop.
  do 3 f_equal. lia.
Qed.

Section Order.
Context (i0 : Z) (k0 : nat).

(** The events of file [i] from [ks] to before [k], with the format description that opens
    it; and those of them a replica needs. *)
Definition part (i : Z) (ks k : nat) : list ObLogEvent := take 1 (log i) ++ chunk i (ks `max` 1) k.
Definition needed (i : Z) (ks k : nat) : list ObLogEvent := take 1 (log i) ++ filtered false (chunk i (ks `max` 1) k).

(** The files passed so far, each to its end, and the current one: after a file comes the
    next one, or the same again when the index is behind. *)
Inductive visits : list Z -> Z -> Prop :=
| V_first : visits [] i0
| V_next l i : visits l i -> visits (l ++ [i]) (i + 1)
| V_again l i : visits l i -> lagging i -> visits (l ++ [i]) i.

Lemma visits_snoc l x i : visits (l ++ [x]) i -> visits l x.
Proof.
  intros Hv. remember (l ++ [x]) as l' eqn:E. destruct Hv as [|l' y Hx|l' y Hx _]; [by destruct l|apply app_inj_tail in E as [<- <-]; done..].
Qed.

Lemma visits_straight l i : (forall j, ~ lagging j) -> visits l i -> l = seqZ i0 (zlen l) /\ i = i0 + zlen l.
Proof.
  intros Hn. induction 1 as [|l i _ [IHl IHi]|l i _ _ Hlag]; [by rewrite zlen_nil, Z.add_0_r| |by destruct (Hn i)].
  rewrite zlen_app. change (zlen [i]) with 1. pose proof (zlen_nonneg l). split; [|lia]. rewrite seqZ_app by lia. rewrite <-IHl. f_equal.
  rewrite seqZ_cons, seqZ_nil by lia. by rewrite IHi.
Qed.

Definition start_of (l : list Z) : nat := match l with [] => k0 | _ => 0%nat end.

(** Complete files, the first one from where the stream starts. *)
Fixpoint passes (g : Z -> nat -> nat -> list ObLogEvent) (ks : nat) (l : list Z) : list ObLogEvent :=
  match l with
  | [] => []
  | i :: l => g i ks (length (log i)) ++ passes g 0 l
  end.

Lemma passes_snoc g l i : passes g k0 (l ++ [i]) = passes g k0 l ++ g i (start_of l) (length (log i)).
Proof.
  destruct l as [|j l]; cbn [app passes start_of]; [by rewrite app_nil_r|]. rewrite <-app_assoc. f_equal.
  induction l as [|x l IH]; cbn [app passes]; [by rewrite app_nil_r|]. by rewrite IH, app_assoc.
Qed.

Definition between (a E b : list ObLogEvent) : Prop := sublist a E /\ sublist E b /\ (filtering = false -> E = b).

Lemma between_app a E b a' E' b' : between a E b -> between a' E' b' -> between (a ++ a') (E ++ E') (b ++ b').
Proof.
  intros (H1 & H2 & H3) (H1' & H2' & H3'). split; [by apply sublist_app|]. split; [by apply sublist_app|]. intros Hf. by rewrite H3, H3'.
Qed.

Lemma start_of_snoc l i : start_of (l ++ [i]) = 0%nat.
Proof. by destruct l. Qed.

Lemma stream_between ph E : stream i0 k0 ph E ->
  match ph with
  | Ready i k => exists l, visits l i /\ k = start_of l /\ between (passes needed k0 l) E (passes part k0 l)
  | Opened i k => exists l, visits l i /\ (start_of l `max` 1 <= k)%nat /\
      between (passes needed k0 l ++ needed i (start_of l) k) E (passes part k0 l ++ part i (start_of l) k)
  end.
Proof.
  induction 1 as [|i k E fde Hst (l & Hv & -> & IH) Hfde|i k k' E Hst (l & Hv & Hk & IH) Hle|i E Hst (l & Hv & Hk & IH)|i E Hst (l & Hv & Hk & IH) Hlag].
  - exists []. split; [constructor|]. done.
  - exists l. split; [done|]. split; [done|]. apply between_app; [done|]. unfold needed, part. rewrite chunk_nil. cbn [filtered].
    replace (take 1 (log i)) with [fde]; [done|]. destruct (log i) as [|x evs]; [done|]. by injection Hfde as ->.
  - exists l. split; [done|]. split; [lia|]. unfold needed, part in *. rewrite (chunk_app _ _ k k') by lia.
    destruct IH as (H1 & H2 & H3). split; [|split].
    + etrans; [|apply sublist_app; [exact H1|reflexivity]]. rewrite <-!app_assoc. do 2 (apply sublist_app; [done|]). apply filtered_app.
    + etrans; [apply sublist_app; [exact H2|apply filtered_sublist]|]. by rewrite <-!app_assoc.
    + intros Hf. rewrite filtered_off by done. rewrite H3 by done. by rewrite <-!app_assoc.
  - exists (l ++ [i]). split; [by constructor|]. by rewrite start_of_snoc, !passes_snoc.
  - exists (l ++ [i]). split; [by constructor|]. by rewrite start_of_snoc, !passes_snoc.
Qed.

End Order.

(** What has been sent: nothing, or of the files [l] and of file [i] up to event [k], in
    that order, at least what the replica needs, at most everything, without a filter exactly
    everything; the files are consecutive unless the index was behind when one was read. *)
Definition delivered (rel : bytes) (pos : Z) (s : BinlogDumper) : Prop :=
  exists E, Forall2 wire E (omap event_of (bd_sent s)) /\
    (E = [] \/
     exists i0 k0 l i k, starts rel pos i0 k0 /\ visits i0 l i /\
       ((forall j, ~ lagging j) -> l = seqZ i0 (zlen l) /\ i = i0 + zlen l) /\
       between (passes needed k0 l ++ needed i (start_of k0 l) k) E (passes part k0 l ++ part i (start_of k0 l) k)).

Lemma refined_delivered rel pos s : refined rel pos s -> delivered rel pos s.
Proof.
  intros [(_ & _ & _ & Ht)|(i0 & k0 & Hst & [i k|i k] & E & Hph & (_ & _ & _ & Ht))]; [by exists []; split; [|left]|..]; apply stream_between in Hph.
  - destruct Hph as (l & Hv & -> & Hb). exists E. split; [done|].
    destruct l as [|x l _] using rev_ind; [left; destruct Hb as (_ & Hb & _); by apply sublist_nil_r in Hb|]. right.
    apply visits_snoc in Hv as Hx.
    exists i0, k0, l, x, (length (log x)). rewrite !passes_snoc in Hb. split; [done|]. split; [done|]. split; [|done]. intros Hn. by apply visits_straight.
  - destruct Hph as (l & Hv & _ & Hb). exists E. split; [done|]. right. exists i0, k0, l, i, k. split; [done|]. split; [done|]. split; [|done].
    intros Hn. by apply visits_straight.
Qed.

(** C6: The replica receives the log in order.  However the dumper is interleaved with the
    threads that write, close and purge files, the events sent so far are, file after file
    from the place where the dump starts, the format description and then the events of the
    file in order: without excluded GTIDs exactly all of them; with excluded GTIDs no event
    outside the log and, of these files, none missing of a transaction that is not excluded.
    After a file comes the next one, or, only when the dumper found the file complete while
    the index manager still named another one and the index had no row after it, the same
    file once more from its start; without such a moment the files are consecutive. *)
Theorem dump_in_order scan_fuel fuel s :
  fresh s -> (gtid_mod = true -> bd_start_pos s = BINLOG_MAGIC_SIZE) -> (2 <= scan_fuel)%nat ->
  wp (run cfg crc32 heartbeat_interval_us master_heartbeat_period master_binlog_checksum env scan_fuel fuel)
    (fun _ s' => delivered (bd_relative_file s) (bd_start_pos s) s') (delivered (bd_relative_file s) (bd_start_pos s)) s.
Proof. intros H1 H2 H3. eapply wp_mono; [by apply run_refines|intros; by apply refined_delivered..]. Qed.


(** ** Where the code departs from its purpose *)

(** A request for the end of a closed file, whose rotate event this thread has not
    sent itself, never gets to the next file: the thread keeps sending heartbeats. *)
Theorem end_of_closed_file_spins i E fuel s :
  steady i -> standing i (length (log i)) E [] s -> strcmp_eq (path cfg i) (bd_rotate_file s) = false ->
  wp (send_binlog_loop cfg crc32 heartbeat_interval_us master_heartbeat_period env fuel (path cfg i)) (fun _ _ => False) (traced E) s.
Proof.
  intros Hsy. revert s. induction fuel as [|fuel IH]; intros s Hs Hr; cbn [send_binlog_loop]; wps; apply (wp_running_steady i); try done; cbn [negb]; wps.
  { by destruct Hs. }
  apply (seek_end_steady i (length (log i)) E); [done|by apply standing_tick|]. cbn [bd_rotate_file tick]. rewrite Hr, andb_false_r. wps.
  unfold send_events. wps. cbn [bd_checkpoint tick]. rewrite (sd_at _ _ _ _ _ Hs). cbn [fst snd].
  set (s1 := with_checkpoint _ _). assert (standing i (length (log i)) E [] s1) as Hs1 by (destruct Hs; by split).
  assert (forall Q, Q SUCCESS (tick s1) -> wp (send_events_loop cfg env fuel (place_of i (length (log i))) false) Q (traced E) s1) as Hse.
  { intros Q HQ. destruct fuel; cbn [send_events_loop]; apply wp_bind, wp_observe; intros _; wps.
    all: rewrite (sy_alive _ Hsy); cbn [bd_checkpoint tick]; rewrite (sd_at _ _ _ _ _ Hs1); cbn [snd orb].
    all: rewrite (proj2 (Z.leb_le _ _)) by lia; by wps. }
  apply Hse. rewrite bool_decide_eq_true_2 by done. cbn [negb]. unfold conn_liveness. wps.
  eapply (wp_mono _ _ _ (traced E)); [by apply (heartbeat_ok _ i (length (log i)) E []), standing_tick| |done].
  intros r s2 (Hs2 & Hr2 & Hok). rewrite (Hok Hsy). wps. rewrite (bool_decide_eq_true_2 (SUCCESS = SUCCESS)), bool_decide_eq_true_2 by done. cbn [negb].
  apply IH; [done|]. by rewrite Hr2.
Qed.

(** [send_events] starts each call with no transaction to skip: when it is called inside a
    transaction, as happens when the file ended there a moment ago, the event it starts with
    is sent even if the replica has that transaction. *)
Theorem skip_forgotten i k E ev fuel s :
  steady i -> standing i k E [] s -> log i !! k = Some ev -> (forall e, get_body ev <> GtidLogEvent e) -> (length (log i) <= fuel)%nat ->
  wp (send_events cfg env fuel (place_of i k) (place_of i (length (log i))))
    (fun r s' => r = SUCCESS /\ exists E', traced (E ++ ev :: E') s') (fun _ => False) s.
Proof.
  intros Hsy Hs Hk Hn Hf. unfold send_events. wps. rewrite (sd_at _ _ _ _ _ Hs). cbn [fst].
  eapply wp_mono; [apply (send_events_loop_ok i _ fuel false k E)| |].
  { destruct Hs. by split. }
  2: { intros s' [_ H]. specialize (H Hsy eq_refl). lia. }
  intros r s' (k' & E' & [Hc ->] & Ht & _ & Hend). destruct (Hend Hsy eq_refl) as (-> & -> & _). split; [done|].
  apply lookup_lt_Some in Hk as Hlt. rewrite (chunk_cons i k _ ev Hk) in Ht by lia. cbn [filtered] in Ht.
  assert (skips false ev = false) as Esk by (unfold skips; destruct filtering; [|done]; by destruct (get_body ev); try destruct (Hn e)).
  rewrite Esk in Ht. by eexists.
Qed.

(** The file to start from, for a replica that has the transactions up to [hi - 1] of a
    server whose transactions up to [hi] precede file [i]: the interval of the request is
    open at its end and the one of the file is closed, and the code compares the ends as
    they are.  File [i] is chosen although transaction [hi] is in an earlier one. *)
Theorem first_file_misses_transaction i r records f prev uuid lo hi is_subset scan_fuel s :
  0 < i <= LLONG_MAX -> record_for cfg i r -> w_files (env (bd_now s)) !! path cfg i = Some f -> (2 <= scan_fuel)%nat ->
  log i !! 1%nat = Some prev -> get_body prev = PreviousGtidsLogEvent 1 [(dumphex uuid, mkGtidMessage (Some uuid) 1 [(lo, hi)])] ->
  bd_exclude_gtid s = exclude -> exclude = [(dumphex uuid, mkGtidMessage (Some uuid) 1 [(lo, hi)])] ->
  wp (seek_first_loop cfg env scan_fuel (r :: records) is_subset) (fun v s' => v = OMS_OK /\ bd_file s' = path cfg i) (fun _ => False) s /\
  executed uuid hi = false.
Proof.
  intros Hi (_ & Ei & En) Hf Hfuel Hp Hb He Hx. split.
  - cbn [seek_first_loop]. wps. apply wp_observe. intros Hw. wps. rewrite En. change (binlog_path (binlog_name cfg i)) with (path cfg i).
    rewrite Hf. apply (wo_files _ _ Hw) in Hf; [|done].
    destruct (seek_previous i f scan_fuel (eo_log Henv i Hi) Hf Hfuel) as (prev' & n & ms & Hp' & _ & Es).
    rewrite Hp in Hp'. injection Hp' as <-. apply (wp_lift _ [reread prev]); [by rewrite Es|].
    cbn [head fmap option_fmap option_map reread get_body]. rewrite Hb. cbn [reread_body bd_exclude_gtid tick]. rewrite He, Hx.
    cbn [is_subset_executed_gtid omap_find get_txn_range]. rewrite beq_refl. cbn [get_txn_range existsb fst snd]. rewrite !Z.leb_refl. cbn [andb orb].
    unfold set_dump_file. wps. rewrite Ei. done.
  - apply bool_decide_eq_false_2. rewrite Hx, Exists_cons, Exists_nil. unfold has_gtid. cbn [snd get_txn_range].
    rewrite Exists_cons, Exists_nil. cbn. lia.
Qed.

End Log.

(** ** A concrete world: one closed file, and the head of the current one *)

Definition s_cfg : storage_config := sample_config true.
Definition s_row (i position : Z) : BinlogIndexRecord := mkIndexRecord (path s_cfg i) i ([], 0) ([], 0) 0 position.
Definition s_rows : list BinlogIndexRecord := [s_row 1 408; s_row 2 155].
Definition s_world (file : bytes) : World :=
  mkWorld (<[path s_cfg 2 := first 211 file]> {[ path s_cfg 1 := file ]}) (mkIndexManager (Some (index_text s_rows)) (s_row 2 155)) true false true.

Definition s_rotate : ObLogEvent := new_rotate true 1 4 (binlog_name s_cfg 2) 100 361 2 ROTATE.
Definition s_log : list ObLogEvent := sample_evs ++ [sample_end; s_rotate].
Definition s_file (l : list ObLogEvent) : bytes := binlog_file (bytes_of (flush_all sample_crc l)).

(** A request, before its thread runs. *)
Definition s_dumper (gtid_mod : bool) (exclude : gtid_map) (flag : Z) (file : bytes) (pos : Z) : BinlogDumper :=
  mkDumper (binlog_path file) file pos gtid_mod exclude ([], 0) flag [] None 0 UNDEF [] 0 [].

Definition s_exclude (lo hi : Z) : gtid_map := [(dumphex sample_uuid, mkGtidMessage (Some sample_uuid) 1 [(lo, hi)])].

Lemma s_written l i body n :
  flush_all sample_crc l = Done body -> place_of (fun _ => l) i 2 <= zlen (first n (binlog_file body)) ->
  written sample_crc (fun _ => l) i (first n (binlog_file body)).
Proof. intros Hb Hl. exists l, body, (skip n (binlog_file body)). split; [by left|]. split; [done|]. split; [by rewrite first_skip|done]. Qed.

Lemma s_world_at l body :
  flush_all sample_crc l = Done body -> place_of (fun _ => l) 1 2 <= zlen (first 211 (binlog_file body)) ->
  world_ok s_cfg sample_crc (fun _ => l) (s_world (binlog_file body)) s_rows.
Proof.
  intros Hb Hlen. split; [by_compute| | |].
  - exists 1. split; [lia|]. split; [by_compute|]. intros [|[|n]] r; [intros [= <-]; by_compute..|done].
  - intros i f Hi Hf. cbn [w_files s_world] in Hf. pose proof (zlen_nonneg (skip 211 (binlog_file body))) as Hn.
    apply lookup_insert_Some in Hf as [[_ <-]|[_ Hf]]; [by apply s_written|].
    apply lookup_singleton_Some in Hf as [_ <-]. rewrite <-(first_ge (zlen (binlog_file body)) (binlog_file body)) by done.
    apply s_written; [done|]. rewrite first_ge by done. rewrite <-(first_skip 211 (binlog_file body)), zlen_app. cbn in *. lia.
  - cbn [w_files s_world]. rewrite lookup_insert_ne by by vm_compute. apply lookup_singleton_ne. by vm_compute.
Qed.

Lemma s_env_ok l body :
  log_ok s_cfg l -> flush_all sample_crc l = Done body -> place_of (fun _ => l) 1 2 <= zlen (first 211 (binlog_file body)) ->
  env_ok s_cfg sample_crc (fun _ => l) (fun _ => s_world (binlog_file body)) (fun _ => s_rows).
Proof.
  intros Hl Hb Hlen. split; [by intros _; apply s_world_at|done|done|done|].
  intros t t' i f f' _ _ -> [= ->]. done.
Qed.

Lemma s_log_ok : log_ok s_cfg s_log.
Proof.
  split.
  - by_compute.
  - unfold same_config. by_compute.
  - eexists _, _, _, _, _. split; [reflexivity|]. split; [|reflexivity]. split; [by eexists|by_compute].
  - intros k ev Hk. do 6 (destruct k as [|k]; [injection Hk as <-; by vm_compute|]). done.
Qed.

Lemma s_body : flush_all sample_crc s_log = Done (bytes_of (flush_all sample_crc s_log)).
Proof. vm_compute. reflexivity. Qed.

Definition s_env : nat -> World := fun _ => s_world (s_file s_log).

Lemma s_world_ok : env_ok s_cfg sample_crc (fun _ => s_log) s_env (fun _ => s_rows).
Proof. apply s_env_ok; [exact s_log_ok|exact s_body|by_compute]. Qed.

(** The same log before file 1 is complete and file 2 opened, and a world that rotates while
    the dumper runs. *)
Definition s_early : World :=
  mkWorld {[ path s_cfg 1 := first 361 (s_file s_log) ]} (mkIndexManager (Some (index_text [s_row 1 361])) (s_row 1 361)) true false true.
Definition s_turning (t : nat) : World := if decide (t < 30)%nat then s_early else s_world (s_file s_log).
Definition s_turning_rows (t : nat) : list BinlogIndexRecord := if decide (t < 30)%nat then [s_row 1 361] else s_rows.

Lemma s_early_ok : world_ok s_cfg sample_crc (fun _ => s_log) s_early [s_row 1 361].
Proof.
  split; [by_compute| | |].
  - exists 1. split; [lia|]. split; [by_compute|]. intros [|n] r; [intros [= <-]; by_compute|done].
  - intros i f Hi Hf. cbn [w_files s_early] in Hf. apply lookup_singleton_Some in Hf as [_ <-]. apply s_written; [exact s_body|by_compute].
  - cbn [w_files s_early]. apply lookup_singleton_ne. by vm_compute.
Qed.

Lemma s_turning_ok : env_ok s_cfg sample_crc (fun _ => s_log) s_turning s_turning_rows.
Proof.
  split.
  - intros t. unfold s_turning, s_turning_rows. destruct (decide (t < 30)%nat); [exact s_early_ok|].
    apply s_world_at; [exact s_body|by_compute].
  - intros i _. exact s_log_ok.
  - intros t t' _. unfold s_turning. by destruct (decide (t < 30)%nat).
  - intros t t' _. unfold s_turning. by destruct (decide (t < 30)%nat).
  - intros t t' i f f' Hle Hi. unfold s_turning. destruct (decide (t' < 30)%nat); [rewrite decide_True by lia; intros -> [= ->]; done|].
    destruct (decide (t < 30)%nat); [|intros -> [= ->]; done]. unfold s_early. cbn [w_files].
    intros Hf. apply lookup_singleton_Some in Hf as [Ep <-]. rewrite <-Ep. unfold s_world. cbn [w_files].
    rewrite lookup_insert_ne by by vm_compute. rewrite lookup_singleton_eq. intros [= <-]. by vm_compute.
Qed.

(** The type of each event sent; 0 for a fake rotate event, -1 for a heartbeat, -2 for an
    error and -3 for the end. *)
Definition kinds (x : outcome (option unit * BinlogDumper)) : option (bool * list Z) :=
  match x with
  | Done (o, s) =>
      Some (bool_decide (o = None),
        (fun p => match p with P_event b => nth 5 b 0 | P_fake_rotate _ => 0 | P_heartbeat _ => -1 | P_err _ => -2 | P_eof => -3 end) <$> bd_sent s)
  | Crash => None
  end.

(** From the first file on: its six events, then the head of the second, and the thread waits. *)
Example dump_by_position :
  kinds (run s_cfg sample_crc 0 [] [] s_env 2 12 (s_dumper false [] 0 (binlog_name s_cfg 1) 4))
  = Some (true, [0; 15; 35; 33; 2; 16; 4; -1; 0; 15; 35; -1]).
Proof. vm_compute. reflexivity. Qed.

Example dump_while_rotating :
  kinds (run s_cfg sample_crc 0 [] [] s_turning 2 20 (s_dumper false [] 0 (binlog_name s_cfg 1) 4))
  = Some (true, [0; 15; 35; 33; 2; 16; -1; 4; -1; 0; 15; 35; -1]).
Proof. vm_compute. reflexivity. Qed.

(** The non-blocking dump ends after the first file, the second one unsent. *)
Example dump_non_block :
  kinds (run s_cfg sample_crc 0 [] [] s_env 2 12 (s_dumper false [] BINLOG_DUMP_NON_BLOCK (binlog_name s_cfg 1) 4))
  = Some (false, [0; 15; 35; 33; 2; 16; 4; -1; -3]).
Proof. vm_compute. reflexivity. Qed.

(** File 2 and its rotate event were appended in one write, and the index manager still has
    file 1 in memory, as between [append_file] and [update_index] in [persistent_binlog]:
    the file counts as closed, has no successor yet, and is sent from its start again. *)
Definition s_window (t : nat) : World :=
  mkWorld (<[path s_cfg 2 := s_file s_log]> {[ path s_cfg 1 := s_file s_log ]})
    (mkIndexManager (Some (index_text s_rows)) (s_row 1 408)) true false true.
Example dump_sends_twice :
  kinds (run s_cfg sample_crc 0 [] [] s_window 2 7 (s_dumper false [] 0 (binlog_name s_cfg 2) 4))
  = Some (true, [0; 15; 35; 33; 2; 16; 4; -1; 0; 15; 35; 33; 2; 16]).
Proof. vm_compute. reflexivity. Qed.

(** One file, current, of which the storage has written the start of a transaction, and at
    time 20 the rest. *)
Definition s_growing (t : nat) : World :=
  mkWorld {[ path s_cfg 1 := first (if decide (t < 20)%nat then 330 else 361) (s_file s_log) ]}
    (mkIndexManager (Some (index_text [s_row 1 361])) (s_row 1 361)) true false true.

(** The replica has the transaction: it is skipped when the whole of it is there, but its end
    is sent when it is written later. *)
Example dump_skips :
  kinds (run s_cfg sample_crc 0 [] [] (fun t => s_growing (20 + t)) 2 8 (s_dumper true (s_exclude 1 11) 0 [] 4)) = Some (true, [0; 15; 35; -1]).
Proof. vm_compute. reflexivity. Qed.
Example dump_forgets_skip :
  kinds (run s_cfg sample_crc 0 [] [] s_growing 2 8 (s_dumper true (s_exclude 1 11) 0 [] 4)) = Some (true, [0; 15; 35; -1; 16; -1]).
Proof. vm_compute. reflexivity. Qed.

(** ** The theorems at the concrete world *)

Lemma s_fresh gtid_mod exclude file pos :
  named s_cfg (fun _ => s_log) (s_dumper gtid_mod exclude 0 file pos) ->
  fresh s_cfg sample_crc (fun _ => s_log) gtid_mod exclude 0 (s_dumper gtid_mod exclude 0 file pos).
Proof. intros H. by split. Qed.

Lemma s_steady : steady s_cfg (fun _ => s_log) s_env 1.
Proof.
  split; try done. intros t. exists (s_file s_log). split; [|vm_compute; reflexivity]. cbn [s_env s_world w_files].
  rewrite lookup_insert_ne by by vm_compute. by rewrite lookup_singleton_eq.
Qed.

Lemma s_listed : listed (fun _ => s_rows) 1 0.
Proof. exists 0%nat, (s_row 1 408). split; [lia|]. split; [by left|done]. Qed.

Lemma s_closes : closes (fun _ => s_log) 1.
Proof. exists s_rotate. by split. Qed.

(** A thread with file 1 open before event [k], nothing sent. *)
Definition s_opened (gtid_mod : bool) (exclude : gtid_map) (k : nat) : BinlogDumper :=
  mkDumper (path s_cfg 1) (binlog_name s_cfg 1) 4 gtid_mod exclude (path s_cfg 1, place_of (fun _ => s_log) 1 k) 0 []
    (Some (path s_cfg 1, 0%nat)) 0 CRC32 [] 0 [].

Lemma s_standing gtid_mod exclude k : (k <= 6)%nat ->
  standing s_cfg sample_crc (fun _ => s_log) gtid_mod exclude 0 s_env (fun _ => s_rows) 1 k [] [] (s_opened gtid_mod exclude k).
Proof. intros Hk. split; try done; [by exists 0%nat|by left|exact s_listed]. Qed.

Lemma s_excludes lo hi : Forall (fun e : bytes * GtidMessage => is_Some (gtid_uuid e.2)) (s_exclude lo hi).
Proof. constructor; [by eexists|constructor]. Qed.

Lemma dump_refines_witness :
  wp (run s_cfg sample_crc 0 [] [] s_turning 2 8)
    (fun _ => refined s_cfg sample_crc (fun _ => s_log) true (s_exclude 1 11) 0 s_turning s_turning_rows [] 4)
    (refined s_cfg sample_crc (fun _ => s_log) true (s_exclude 1 11) 0 s_turning s_turning_rows [] 4) (s_dumper true (s_exclude 1 11) 0 [] 4).
Proof.
  apply (dump_refines s_cfg sample_crc (fun _ => s_log) true (s_exclude 1 11) 0 (s_excludes 1 11) sample_uuid sample_config_ok
    0 [] [] s_turning s_turning_rows s_turning_ok 2 8 (s_dumper true (s_exclude 1 11) 0 [] 4)); [|done|lia].
  apply s_fresh. by left.
Defined.

Lemma s_window_ok : env_ok s_cfg sample_crc (fun _ => s_log) s_window (fun _ => s_rows).
Proof.
  assert (forall i f, w_files (s_window 0) !! path s_cfg i = Some f -> f = s_file s_log) as Hfile.
  { intros i f Hf. unfold s_window in Hf. cbn [w_files] in Hf. apply lookup_insert_Some in Hf as [[_ <-]|[_ Hf]]; [done|].
    by apply lookup_singleton_Some in Hf as [_ <-]. }
  split; [|by intros; apply s_log_ok|done|done|].
  - intros t. split; [by_compute| | |].
    + exists 1. split; [lia|]. split; [by_compute|]. intros [|[|n]] r; [intros [= <-]; by_compute..|done].
    + intros i f Hi Hf. apply Hfile in Hf as ->. exists s_log, (bytes_of (flush_all sample_crc s_log)), [].
      split; [by left|]. split; [exact s_body|]. split; [by rewrite app_nil_r|by_compute].
    + unfold s_window. cbn [w_files]. rewrite lookup_insert_ne by by vm_compute. apply lookup_singleton_ne. by vm_compute.
  - intros t t' i f f' _ _ Hf Hf'. apply Hfile in Hf as ->. apply Hfile in Hf' as ->. done.
Qed.

(** The world in which file 2 is sent twice. *)
Lemma dump_in_order_witness :
  let Q := delivered s_cfg sample_crc (fun _ => s_log) false [] s_window (fun _ => s_rows) (binlog_name s_cfg 2) 4 in
  wp (run s_cfg sample_crc 0 [] [] s_window 2 20) (fun _ => Q) Q (s_dumper false [] 0 (binlog_name s_cfg 2) 4).
Proof.
  apply (dump_in_order s_cfg sample_crc (fun _ => s_log) false [] 0 (Forall_nil_2 _) sample_uuid sample_config_ok
    0 [] [] s_window (fun _ => s_rows) s_window_ok 2 20 (s_dumper false [] 0 (binlog_name s_cfg 2) 4)); [|done|lia].
  apply s_fresh. right. exists 2, 0%nat. split; [unfold LLONG_MAX; lia|]. split; [lia|done].
Defined.

Lemma closed_file_sent_witness :
  wp (send_binlog s_cfg sample_crc 0 [] s_env 8 (path s_cfg 1) 4)
    (fun r s' => r = SUCCESS /\ traced sample_crc false [] 0 s_log s') (fun _ => False) (s_opened false [] 0).
Proof.
  apply (closed_file_sent s_cfg sample_crc (fun _ => s_log) false [] 0 (Forall_nil_2 _) 0 [] s_env (fun _ => s_rows) s_world_ok
    1 0 1 0 [] 8 (s_opened false [] 0)); [exact s_steady|exact s_closes| |cbn; lia|by exists 0%nat|done|done|cbn; lia].
  split; try done; [apply Nat.le_0_l|constructor|by left|exact s_listed].
Defined.

Lemma end_of_closed_file_spins_witness :
  wp (send_binlog_loop s_cfg sample_crc 0 [] s_env 100 (path s_cfg 1)) (fun _ _ => False) (traced sample_crc false [] 0 [])
    (s_opened false [] 6).
Proof.
  apply (end_of_closed_file_spins s_cfg sample_crc (fun _ => s_log) false [] 0 0 [] s_env (fun _ => s_rows) s_world_ok
    1 [] 100 (s_opened false [] 6)); [exact s_steady|by apply (s_standing false [] 6)|done].
Defined.

(** The replica has transaction 10, whose [Xid] event it gets. *)
Lemma skip_forgotten_witness :
  executed (s_exclude 1 11) sample_uuid 10 = true /\
  wp (send_events s_cfg s_env 6 330 408)
    (fun r s' => r = SUCCESS /\ exists E', traced sample_crc true (s_exclude 1 11) 0 (sample_end :: E') s') (fun _ => False)
    (s_opened true (s_exclude 1 11) 4).
Proof.
  split; [vm_compute; reflexivity|].
  replace 330 with (place_of (fun _ => s_log) 1 4) by (vm_compute; reflexivity).
  replace 408 with (place_of (fun _ => s_log) 1 (length s_log)) by (vm_compute; reflexivity).
  apply (skip_forgotten s_cfg sample_crc (fun _ => s_log) true (s_exclude 1 11) 0 (s_excludes 1 11) s_env (fun _ => s_rows) s_world_ok
    1 4 [] sample_end 6 (s_opened true (s_exclude 1 11) 4)); [exact s_steady|apply s_standing; lia|reflexivity|discriminate|cbn; lia].
Defined.

(** A file before which transactions 1 to 9 were written. *)
Definition s_later : list ObLogEvent :=
  match head_events s_cfg 100 (snd <$> s_exclude 1 9) with Done (fde, prev) => [fde; prev] | Crash => [] end.

Lemma s_later_ok : log_ok s_cfg s_later.
Proof.
  split.
  - by_compute.
  - unfold same_config. by_compute.
  - eexists _, _, _, _, _. split; [reflexivity|]. split; [|reflexivity]. split; [by eexists|by_compute].
  - intros k ev Hk. do 2 (destruct k as [|k]; [injection Hk as <-; by vm_compute|]). done.
Qed.

Lemma s_later_env : env_ok s_cfg sample_crc (fun _ => s_later) (fun _ => s_world (s_file s_later)) (fun _ => s_rows).
Proof. apply s_env_ok; [exact s_later_ok|vm_compute; reflexivity|by_compute]. Qed.

(** The replica has transactions 1 to 8; transaction 9 is in an earlier file. *)
Lemma first_file_misses_transaction_witness :
  wp (seek_first_loop s_cfg (fun _ => s_world (s_file s_later)) 2 (rev s_rows) false)
    (fun v s' => v = OMS_OK /\ bd_file s' = path s_cfg 2) (fun _ => False) (s_dumper true (s_exclude 1 9) 0 [] 4) /\
  executed (s_exclude 1 9) sample_uuid 9 = false.
Proof.
  apply (first_file_misses_transaction s_cfg sample_crc (fun _ => s_later) (s_exclude 1 9) (fun _ => s_world (s_file s_later))
    (fun _ => s_rows) s_later_env 2 (s_row 2 155) [s_row 1 408] (first 211 (s_file s_later))
    (default sample_end (s_later !! 1%nat)) sample_uuid 1 9 false 2 (s_dumper true (s_exclude 1 9) 0 [] 4)).
  - unfold LLONG_MAX. lia.
  - by_compute.
  - cbn [w_files s_world]. by rewrite lookup_insert_eq.
  - lia.
  - vm_compute. reflexivity.
  - vm_compute. reflexivity.
  - reflexivity.
  - reflexivity.
Defined.
