(* ===== verification/Service.v ===== *)
(** * Service: the storage and the dumpers together

    The storage thread appends to files and rewrites the index while dumper threads read
    both.  A history is the sequence of states the storage passes through, one action of
    its code at a time; a dumper that looks at such states, in order but at any pace, is in
    a world as [Stream] requires it, so that a replica receives what the pipeline was given. *)

From S2P Require Import Prelude Bytes Str Gtid Events EventWire EventScan BinlogIndex GtidManager Storage Pipeline Dumper Stream.

#[local] Open Scope Z_scope.

Section Service.
Context (cfg : storage_config) (crc32 : bytes -> Z) (u : bytes) (cfg_ok : config_ok cfg u) (base : Z).

(** ** Snapshots *)

(** The disk, the rows of its index, and the events of the files from [base] on. *)
Record snapshot := mkSnap {
  sn_disk : Disk;
  sn_rows : list BinlogIndexRecord;
  sn_files : list (list ObLogEvent)
}.

Definition complete (evs : list ObLogEvent) : Prop :=
  exists ev, last evs = Some ev /\ h_type_code (get_header ev) = ROTATE_EVENT.

(** The last row of the index. *)
Definition newest (s : snapshot) : Z := match last (sn_rows s) with Some r => get_index r | None => 0 end.
Definition file_of (s : snapshot) (i : Z) : option (list ObLogEvent) := sn_files s !! Z.to_nat (i - base).

(** A file that exists holds its events, with the in-use flag cleared or not; it is only
    cleared when the file is complete. *)
Definition kept (d : Disk) (i : Z) (evs : list ObLogEvent) : Prop :=
  forall f, st_files d !! path cfg i = Some f ->
    exists evs' body, (evs' = evs \/ evs' = close evs /\ complete evs) /\ flush_all crc32 evs' = Done body /\ f = binlog_file body.

Record snap_ok (s : snapshot) : Prop := {
  so_base : 0 < base /\ base + zlen (sn_files s) <= LLONG_MAX;
  so_log : Forall (log_ok cfg) (sn_files s);
  so_kept : forall j evs, sn_files s !! j = Some evs -> kept (sn_disk s) (base + Z.of_nat j) evs;
  so_range : forall i f, 0 < i <= LLONG_MAX -> st_files (sn_disk s) !! path cfg i = Some f -> base <= i < base + zlen (sn_files s);
  so_data : st_files (sn_disk s) !! binlog_path [] = None;
  so_index : represents (st_index (sn_disk s)) (sn_rows s);
  so_rows : exists a, base <= a /\ sn_rows s <> [] /\ a + zlen (sn_rows s) <= base + zlen (sn_files s) /\
    forall n r, sn_rows s !! n = Some r -> record_for cfg (a + Z.of_nat n) r
}.

(** Files only grow, and rows are only added at the end. *)
Record later (s s' : snapshot) : Prop := {
  lt_grows : forall j evs, sn_files s !! j = Some evs -> exists more, sn_files s' !! j = Some (evs ++ more);
  lt_newest : newest s <= newest s'
}.

#[export] Instance later_refl : Reflexive later.
Proof. intros s. split; [|lia]. intros j evs H. exists []. by rewrite app_nil_r. Qed.
#[export] Instance later_trans : Transitive later.
Proof.
  intros s1 s2 s3 [H1 H2] [H3 H4]. split; [|lia]. intros j evs H. destruct (H1 j evs H) as [m1 Hm1].
  destruct (H3 j _ Hm1) as [m2 Hm2]. exists (m1 ++ m2). by rewrite app_assoc.
Qed.

Lemma row_index s n r : snap_ok s -> sn_rows s !! n = Some r -> base <= get_index r <= newest s.
Proof.
  intros [_ _ _ _ _ _ (a & Ha & Hne & Hle & Hr)] Hn. destruct (Hr n r Hn) as (_ & Ei & _).
  unfold newest. rewrite last_lookup. apply lookup_lt_Some in Hn as Hlt.
  destruct (lookup_lt_is_Some_2 (sn_rows s) (pred (length (sn_rows s)))) as [r' Hr']; [lia|]. rewrite Hr'.
  destruct (Hr _ r' Hr') as (_ & Ei' & _). lia.
Qed.

Lemma newest_file s : snap_ok s -> base <= newest s < base + zlen (sn_files s).
Proof.
  intros Hs. pose proof Hs as [_ _ _ _ _ _ (a & Ha & Hne & Hle & Hr)]. unfold newest. rewrite last_lookup.
  destruct (sn_rows s) as [|r0 l] eqn:E; [done|]. rewrite <-E in *.
  destruct (lookup_lt_is_Some_2 (sn_rows s) (pred (length (sn_rows s)))) as [r' Hr']; [rewrite E; cbn; lia|]. rewrite Hr'.
  destruct (Hr _ r' Hr') as (_ & Ei' & _). apply lookup_lt_Some in Hr'. unfold zlen in *. lia.
Qed.

(** Nothing follows a rotate event. *)
Lemma complete_final evs more : log_ok cfg (evs ++ more) -> complete evs -> more = [].
Proof.
  intros Hl (ev & He & Ht). rewrite last_lookup in He. apply lookup_lt_Some in He as Hlt.
  assert ((evs ++ more) !! pred (length evs) = Some ev) as Hk by (by rewrite lookup_app_l).
  pose proof (lo_rotate _ _ Hl _ _ Hk Ht) as H. rewrite length_app in H. destruct more; [done|]. cbn in H. lia.
Qed.

Lemma flush_all_total evs : Forall event_ok evs -> exists body, flush_all crc32 evs = Done body.
Proof.
  induction 1 as [|ev evs Hok _ [b IH]]; [by eexists|]. cbn [flush_all]. destruct (flush_to_buff_header crc32 ev Hok) as (tl & E & _).
  rewrite E. cbn [mbind outcome_bind]. rewrite IH. by eexists.
Qed.

Lemma log_two evs : log_ok cfg evs -> (2 <= length evs)%nat.
Proof. intros Hl. destruct (lo_head _ _ Hl) as (a & b & l & n & ms & -> & _). cbn. lia. Qed.

(** The size of a file is the place after its last event. *)
Lemma kept_size (log : Z -> list ObLogEvent) i evs more evs' body :
  log i = evs ++ more -> log_ok cfg (log i) -> (evs' = evs \/ evs' = close evs) -> flush_all crc32 evs' = Done body ->
  zlen (binlog_file body) = place_of log i (length evs).
Proof.
  intros El Hl Hv Hb. unfold place_of. rewrite El, take_app_length. pose proof (lo_chain _ _ Hl) as Hc. rewrite El in Hc.
  apply chained_app in Hc as [Hc _]. assert (EventScan.end_pos BINLOG_MAGIC_SIZE evs = EventScan.end_pos BINLOG_MAGIC_SIZE evs' /\ chained BINLOG_MAGIC_SIZE evs') as [-> Hc'].
  { destruct Hv as [->| ->]; [done|]. split; [by destruct evs|by apply chained_close]. }
  rewrite (chained_end crc32 _ _ body Hc' Hb). unfold binlog_file. rewrite zlen_app. done.
Qed.

Lemma kept_written (log : Z -> list ObLogEvent) d i evs more f :
  log i = evs ++ more -> log_ok cfg (log i) -> (2 <= length evs)%nat -> kept d i evs -> st_files d !! path cfg i = Some f ->
  written crc32 log i f.
Proof.
  intros El Hl H2 Hk Hf. destruct (Hk f Hf) as (evs' & body & Hv & Hb & ->).
  assert (place_of log i 2 <= zlen (binlog_file body)) as Hp.
  { erewrite kept_size; [|done|done|by destruct Hv as [?|[? _]]; [left|right]|done]. pose proof (f_equal length El) as Hlen. rewrite length_app in Hlen.
    destruct (decide (length evs = 2%nat)) as [->|]; [lia|]. apply Z.lt_le_incl, (place_lt cfg crc32); [done|lia]. }
  destruct Hv as [->|[-> Hc]].
  - pose proof (lo_chain _ _ Hl) as Hch. rewrite El in Hch. apply chained_app in Hch as [_ Hch].
    destruct (flush_all_total more) as [bm Hm]; [by eapply chained_ok|].
    exists (log i), (body ++ bm), bm. split; [by left|]. split; [rewrite El; by apply flush_all_concat|]. split; [|done].
    unfold binlog_file. by rewrite app_assoc.
  - assert (more = []) as -> by (rewrite El in Hl; by eapply complete_final). rewrite app_nil_r in El.
    exists (close (log i)), body, []. split; [by right|]. split; [by rewrite El|]. split; [by rewrite app_nil_r|done].
Qed.

(** ** Histories *)

Definition history (h : list snapshot) : Prop := Forall snap_ok h /\ Sorted later h.

Lemma history_later h n m s s' : history h -> (n <= m)%nat -> h !! n = Some s -> h !! m = Some s' -> later s s'.
Proof.
  intros [_ Hs] Hle Hn Hm. apply Sorted_StronglySorted in Hs; [|exact later_trans]. revert n m Hle Hn Hm.
  induction Hs as [|x l _ IH Hf]; intros [|n] [|m] Hle Hn Hm; try done; try lia; cbn in Hn, Hm.
  - injection Hn as <-. by injection Hm as <-.
  - injection Hn as <-. rewrite Forall_lookup in Hf. by eapply Hf.
  - by apply (IH n m); [lia|..].
Qed.

(** The log, once the history is over; for a number without a file, the head of a file. *)
Definition log_of (final : snapshot) (i : Z) : list ObLogEvent :=
  default (take 2 (hd [] (sn_files final))) (if decide (base <= i) then file_of final i else None).

Lemma log_ok_head evs : log_ok cfg evs -> log_ok cfg (take 2 evs).
Proof.
  intros [H1 H2 (a & b & rest & n & ms & -> & H3 & H4) H5]. change (take 2 (a :: b :: rest)) with [a; b]. split.
  - by apply (chained_app _ [a; b] rest) in H1 as [H1 _].
  - by apply (Forall_app _ [a; b] rest) in H2 as [H2 _].
  - by exists a, b, [], n, ms.
  - intros k ev Hk Ht. assert ((a :: b :: rest) !! k = Some ev) as Hk' by (by destruct k as [|[|]]).
    pose proof (H5 k ev Hk' Ht) as Hl. apply lookup_lt_Some in Hk. cbn in *. lia.
Qed.

(** A dumper sees the states of a history in order. *)
Record observes (h : list snapshot) (env : nat -> World) (seen : nat -> nat) : Prop := {
  ob_mono : forall t t', (t <= t')%nat -> (seen t <= seen t')%nat;
  ob_state : forall t, exists s, h !! seen t = Some s /\ w_files (env t) = st_files (sn_disk s) /\ w_index (env t) = st_index (sn_disk s);
  ob_stop : forall t t', (t <= t')%nat -> w_run (env t) = false -> w_run (env t') = false;
  ob_kill : forall t t', (t <= t')%nat -> w_killed (env t) = true -> w_killed (env t') = true
}.
Definition rows_seen (h : list snapshot) (seen : nat -> nat) (t : nat) : list BinlogIndexRecord :=
  match h !! seen t with Some s => sn_rows s | None => [] end.

Section Observed.
Context (h : list snapshot) (final : snapshot) (env : nat -> World) (seen : nat -> nat).
Context (Hh : history (h ++ [final])) (Hob : observes (h ++ [final]) env seen).

Lemma final_ok : snap_ok final.
Proof. destruct Hh as [Ho _]. apply Forall_app in Ho as [_ Ho]. by inversion Ho. Qed.

Lemma log_of_ok i : log_ok cfg (log_of final i).
Proof.
  pose proof final_ok as Hf. pose proof (so_log _ Hf) as Hl. unfold log_of.
  assert (log_ok cfg (take 2 (hd [] (sn_files final)))) as Hd.
  { pose proof (newest_file _ Hf) as Hn. destruct (sn_files final) as [|evs l]; [rewrite zlen_nil in Hn; lia|]. apply log_ok_head. by inversion Hl. }
  destruct (decide (base <= i)); [|done]. unfold file_of. destruct (sn_files final !! _) as [evs|] eqn:E; [|done].
  rewrite Forall_lookup in Hl. by eapply Hl.
Qed.

Lemma seen_at t : exists s, (h ++ [final]) !! seen t = Some s /\ snap_ok s /\ later s final /\ rows_seen (h ++ [final]) seen t = sn_rows s /\
  w_files (env t) = st_files (sn_disk s) /\ w_index (env t) = st_index (sn_disk s).
Proof.
  destruct (ob_state _ _ _ Hob t) as (s & Hs & Hf & Hi). exists s. split; [done|]. split; [|split; [|split; [|done]]].
  - destruct Hh as [Ho _]. rewrite Forall_lookup in Ho. by eapply Ho.
  - eapply (history_later _ (seen t) (length h)); [done| |done|by rewrite lookup_app_r, Nat.sub_diag].
    apply lookup_lt_Some in Hs. rewrite length_app in Hs. cbn in Hs. lia.
  - unfold rows_seen. by rewrite Hs.
Qed.

(** What a file holds now, and what it will. *)
Lemma log_of_file s i evs : later s final -> base <= i -> file_of s i = Some evs -> exists more, log_of final i = evs ++ more.
Proof. intros [Hg _] Hi He. destruct (Hg _ _ He) as [more Hm]. exists more. unfold log_of, file_of. by rewrite decide_True, Hm by done. Qed.

Lemma file_exists s i f : snap_ok s -> 0 < i <= LLONG_MAX -> st_files (sn_disk s) !! path cfg i = Some f ->
  exists evs, base <= i /\ file_of s i = Some evs /\ kept (sn_disk s) i evs.
Proof.
  intros Hs Hi Hf. pose proof (so_range _ Hs i f Hi Hf) as Hr. unfold zlen in Hr.
  destruct (lookup_lt_is_Some_2 (sn_files s) (Z.to_nat (i - base))) as [evs He]; [lia|].
  exists evs. split; [lia|]. split; [done|]. pose proof (so_kept _ Hs _ _ He) as Hk.
  by replace (base + Z.of_nat (Z.to_nat (i - base))) with i in Hk by lia.
Qed.

Lemma seen_world t : world_ok cfg crc32 (log_of final) (env t) (rows_seen (h ++ [final]) seen t).
Proof.
  destruct (seen_at t) as (s & _ & Hs & Hl & Hr & Hf & Hi). split; rewrite ?Hf, ?Hi, ?Hr.
  - exact (so_index _ Hs).
  - destruct (so_rows _ Hs) as (a & Ha & _ & Hle & Hrec). exists a. destruct (so_base _ Hs). split; [lia|]. split; [lia|done].
  - intros i f Hib Hif. destruct (file_exists s i f Hs Hib Hif) as (evs & Hbi & He & Hk).
    destruct (log_of_file s i evs Hl Hbi He) as [more Hm]. eapply kept_written; try done; [apply log_of_ok|].
    pose proof (so_log _ Hs) as Ho. rewrite Forall_lookup in Ho. by apply log_two, (Ho _ _ He).
  - exact (so_data _ Hs).
Qed.

(** What was on disk of a file, as events. *)
Lemma shown_size s i f : snap_ok s -> later s final -> 0 < i <= LLONG_MAX -> st_files (sn_disk s) !! path cfg i = Some f ->
  exists evs more, base <= i /\ file_of s i = Some evs /\ log_of final i = evs ++ more /\ zlen f = place_of (log_of final) i (length evs).
Proof.
  intros Hs Hl Hi Hf. destruct (file_exists s i f Hs Hi Hf) as (evs & Hbi & He & Hk). destruct (log_of_file s i evs Hl Hbi He) as [more Hm].
  destruct (Hk f Hf) as (evs' & body & Hv & Hfb & ->). exists evs, more. do 3 (split; [done|]).
  eapply kept_size; [done|apply log_of_ok|by destruct Hv as [?|[? _]]; [left|right]|done].
Qed.

Lemma later_seen t t' s s' : (t <= t')%nat -> (h ++ [final]) !! seen t = Some s -> (h ++ [final]) !! seen t' = Some s' -> later s s'.
Proof. intros Ht Hs Hs'. eapply (history_later _ (seen t) (seen t')); [done|by apply Hob|done|done]. Qed.

(** The dumper has seen a state in which the newest file [i] is complete and the index
    manager names another one as the current file: [persistent_binlog] has appended the rotate
    event and not yet updated the index. *)
Definition lags (i : Z) : Prop :=
  exists t s evs, (h ++ [final]) !! seen t = Some s /\ newest s = i /\ file_of s i = Some evs /\ complete evs /\
    is_active (st_index (sn_disk s)) (path cfg i) = false.

Lemma lagging_lags i : lagging cfg (log_of final) env (rows_seen (h ++ [final]) seen) i -> lags i.
Proof.
  intros (t & t' & r' & Htt & Hc & (t0 & r & Ht0 & Hin & Hri) & (t1 & f & Ht1 & Hf & Hlen) & Ha & Hlast & Hi').
  destruct (seen_at t) as (s & Hs & Hok & Hlat & _ & _ & Hix).
  destruct (seen_at t0) as (s0 & Hs0 & Hok0 & _ & Hr0 & _). rewrite Hr0 in Hin. apply list_elem_of_lookup in Hin as [n Hn].
  pose proof (row_index _ _ _ Hok0 Hn) as Hi. rewrite Hri in Hi.
  destruct (seen_at t') as (s' & Hs' & Hok' & _ & Hr' & _). rewrite Hr' in Hlast.
  assert (newest s' = i) as Hnew' by (unfold newest; by rewrite Hlast).
  pose proof (lt_newest _ _ (later_seen t0 t s0 s Ht0 Hs0 Hs)) as Hn1. pose proof (lt_newest _ _ (later_seen t t' s s' Htt Hs Hs')) as Hn2.
  assert (newest s = i) as Hnew by lia.
  destruct (seen_at t1) as (s1 & Hs1 & Hok1 & Hlat1 & _ & Hf1 & _). rewrite Hf1 in Hf.
  pose proof (later_seen t1 t s1 s Ht1 Hs1 Hs) as Hls. pose proof (newest_file _ Hok) as Hnf. destruct (so_base _ Hok) as [Hb Hmax].
  destruct (shown_size s1 i f Hok1 Hlat1 ltac:(lia) Hf) as (evs & more & Hbi & He & Hm & Hsz). rewrite Hsz in Hlen.
  assert (length evs = length (log_of final i)) as Hle.
  { eapply (at_end cfg crc32); [apply log_of_ok|rewrite Hm, length_app; lia|done]. }
  assert (more = []) as -> by (rewrite Hm, length_app in Hle; apply nil_length_inv; lia). rewrite app_nil_r in Hm.
  destruct (lt_grows _ _ Hls _ _ He) as [more He']. assert (complete evs) as Hce by (by rewrite <-Hm).
  assert (more = []) as ->.
  { pose proof (so_log _ Hok) as Hl. rewrite Forall_lookup in Hl. eapply complete_final; [by eapply Hl|done]. }
  rewrite app_nil_r in He'. exists t, s, evs. by rewrite <-Hix.
Qed.

Lemma history_env_ok : env_ok cfg crc32 (log_of final) env (rows_seen (h ++ [final]) seen).
Proof.
  split; [exact seen_world|intros; apply log_of_ok|apply Hob|apply Hob|].
  intros t t' i f f' Ht Hi Hf Hf'. destruct (seen_at t) as (s & Hs & Hok & Hlat & _ & Hfs & _). destruct (seen_at t') as (s' & Hs' & Hok' & Hlat' & _ & Hfs' & _).
  rewrite Hfs in Hf. rewrite Hfs' in Hf'. destruct (shown_size s i f Hok Hlat Hi Hf) as (evs & more & Hbi & He & Hm & ->).
  destruct (shown_size s' i f' Hok' Hlat' Hi Hf') as (evs' & more' & _ & He' & Hm' & ->).
  destruct (lt_grows _ _ (later_seen t t' s s' Ht Hs Hs') _ _ He) as [x Hx]. unfold file_of in He'. rewrite Hx in He'. injection He' as <-.
  rewrite length_app. destruct x as [|e x]; [rewrite Nat.add_0_r; lia|]. apply Z.lt_le_incl, (place_lt cfg crc32); [apply log_of_ok|].
  rewrite Hm', !length_app. cbn. lia.
Qed.

End Observed.

(** ** The actions of the storage thread *)

(** One write to a file or to the index.  An append to the current file and the update of
    its row are two actions. *)
Inductive storage_action : Disk -> Disk -> Prop :=
| A_batch d valid g : storage_action d (mkStore (st_files d) (st_index d) (st_file_name d) (st_offset d) valid g)
| A_append content d : storage_action d (append_file (st_file_name d) content d)
| A_update r r' d d' : update_index_record cfg r d = Done (r', d') -> storage_action d d'
| A_clear name d d' : clear_in_use name d = Done d' -> storage_action d d'
| A_head name content d : st_files d !! name = None -> storage_action d (append_file name content d)
| A_add r e r' d d' : add_next_binlog_index r e d = Done (r', d') -> storage_action d d'.

(** The states before the last one of a run of actions. *)
Inductive evolves : snapshot -> list snapshot -> snapshot -> Prop :=
| Ev_refl s : evolves s [] s
| Ev_step s s1 l s' :
    storage_action (sn_disk s) (sn_disk s1) -> snap_ok s1 -> later s s1 -> evolves s1 l s' -> evolves s (s :: l) s'.

Lemma evolves_one s s' : storage_action (sn_disk s) (sn_disk s') -> snap_ok s' -> later s s' -> evolves s [s] s'.
Proof. intros. by eapply Ev_step; [..|apply Ev_refl]. Qed.

Lemma evolves_app s1 l1 s2 l2 s3 : evolves s1 l1 s2 -> evolves s2 l2 s3 -> evolves s1 (l1 ++ l2) s3.
Proof. induction 1 as [|s s1 l s' Ha Ho Hl _ IH]; [done|]. intros H. by eapply Ev_step; [..|apply IH]. Qed.

Lemma evolves_history s l s' : evolves s l s' -> snap_ok s -> history (l ++ [s']).
Proof.
  induction 1 as [s|s s1 l s' Ha Ho Hl Hev IH]; intros Hs; [split; [by apply Forall_singleton|by constructor; constructor]|]. destruct (IH Ho) as [H1 H2].
  split; [by constructor|]. constructor; [done|]. inversion Hev; subst; by constructor.
Qed.

(** ** The current file *)

Record current (s : snapshot) (index : Z) (evs : list ObLogEvent) (before : list (list ObLogEvent)) : Prop := {
  cu_core : snap_ok s;
  cu_disk : disk_inv cfg crc32 index (sn_disk s) (sn_rows s) evs;
  cu_files : sn_files s = before ++ [evs];
  cu_index : index = base + zlen before;
  cu_newest : newest s = index
}.

Lemma newest_snoc d rs r fs : newest (mkSnap d (rs ++ [r]) fs) = get_index r.
Proof. unfold newest. cbn [sn_rows]. by rewrite last_snoc. Qed.

Lemma current_file s index evs before : current s index evs before -> file_of s (newest s) = Some evs.
Proof.
  intros [_ _ Hf Hi Hn]. unfold file_of. rewrite Hn, Hi, Hf. replace (base + zlen before - base) with (zlen before) by lia.
  unfold zlen. by rewrite Nat2Z.id, lookup_app_r, Nat.sub_diag.
Qed.

Lemma newest_row s : snap_ok s -> exists rs r, sn_rows s = rs ++ [r].
Proof.
  intros Hs. destruct (so_rows _ Hs) as (a & _ & Hne & _). destruct (exists_last Hne) as (rs & r & E). by exists rs, r.
Qed.

(** The last row replaced by another one of the same file. *)
Lemma rows_replace s rs r r' : snap_ok s -> sn_rows s = rs ++ [r] -> record_for cfg (newest s) r' ->
  exists a, base <= a /\ rs ++ [r'] <> [] /\ a + zlen (rs ++ [r']) <= base + zlen (sn_files s) /\
    forall n x, (rs ++ [r']) !! n = Some x -> record_for cfg (a + Z.of_nat n) x.
Proof.
  intros Hs E Hr'. destruct (so_rows _ Hs) as (a & Ha & _ & Hle & Hr). exists a. rewrite E in *. rewrite !zlen_app in *. change (zlen [r']) with (zlen [r]).
  split; [done|]. split; [by destruct rs|]. split; [done|]. intros n x Hn. destruct (decide (n = length rs)) as [->|Hne].
  - rewrite lookup_app_r, Nat.sub_diag in Hn by done. injection Hn as <-.
    destruct (Hr (length rs) r) as (_ & Ei & _); [by rewrite lookup_app_r, Nat.sub_diag|].
    replace (a + Z.of_nat (length rs)) with (newest s); [done|]. unfold newest. rewrite E, last_snoc. done.
  - apply lookup_lt_Some in Hn as Hlt. rewrite length_app in Hlt. cbn in Hlt. apply Hr. rewrite lookup_app_l in Hn |- * by lia. done.
Qed.

(** The current file changes, and perhaps its row. *)
Lemma core_write s s' index evs evs' before :
  current s index evs before -> sn_files s' = before ++ [evs'] -> log_ok cfg evs' -> kept (sn_disk s') index evs' ->
  (forall name, name <> path cfg index -> st_files (sn_disk s') !! name = st_files (sn_disk s) !! name) ->
  represents (st_index (sn_disk s')) (sn_rows s') ->
  (sn_rows s' = sn_rows s \/ exists r', sn_rows s' = removelast (sn_rows s) ++ [r'] /\ record_for cfg index r') ->
  snap_ok s' /\ newest s' = index.
Proof.
  intros [Hs Hd Hf Hi Hn] Hf' Hl Hk Hsame Hrep Hrows. destruct (newest_row s Hs) as (rs & r & Er). pose proof Hs as [H1 H2 H3 H4 H5 H6 H7].
  assert (zlen (sn_files s') = zlen (sn_files s)) as Hlen by (rewrite Hf, Hf', !zlen_app; done). rewrite Hf in H2, H3.
  apply Forall_app in H2 as [H2 _]. assert (0 < index <= LLONG_MAX) as Hib by (rewrite Hf, zlen_app in H1; change (zlen [evs]) with 1 in H1; pose proof (zlen_nonneg before); lia).
  split.
  - split; rewrite ?Hlen, ?Hf'; try done.
    + apply Forall_app. split; [done|]. by constructor.
    + intros j x Hj. destruct (decide (j = length before)) as [->|Hne].
      * rewrite lookup_app_r, Nat.sub_diag in Hj by done. injection Hj as <-. unfold zlen in Hi. by rewrite <-Hi.
      * apply lookup_lt_Some in Hj as Hlt. rewrite length_app in Hlt. cbn in Hlt. rewrite lookup_app_l in Hj by lia.
        intros f. rewrite Hsame; [apply H3; by rewrite lookup_app_l by lia|]. intros Ep. unfold zlen in Hi. apply path_inj in Ep; lia.
    + intros i f Hb. destruct (decide (i = index)) as [->|Hne]; [intros _; rewrite Hf, zlen_app; change (zlen [evs]) with 1; pose proof (zlen_nonneg before); lia|].
      rewrite Hsame; [by apply H4|]. intros Ep. apply path_inj in Ep; lia.
    + rewrite Hsame; [done|]. unfold path, binlog_path. intros Ep. apply (inj (app _)) in Ep. symmetry in Ep. apply beq_true in Ep. by rewrite name_nonempty in Ep.
    + rewrite <-Hlen. destruct Hrows as [->|(r' & -> & Hr')]; [by rewrite Hlen|]. rewrite Er, removelast_last, Hlen. apply (rows_replace s rs r r' Hs Er).
      by rewrite Hn.
  - destruct s' as [d' rs' fs']. cbn [sn_rows] in *. destruct Hrows as [->|(r' & -> & Hr')]; [by rewrite <-Hn|].
    rewrite newest_snoc. by destruct Hr' as (_ & -> & _).
Qed.

(** ** What a batch does *)

Definition rotate_last (new : list ObLogEvent) : Prop :=
  forall k ev, new !! k = Some ev -> h_type_code (get_header ev) = ROTATE_EVENT -> S k = length new.

Lemma log_ok_app evs new :
  log_ok cfg evs -> ~ complete evs -> chained (file_len evs) new -> Forall (same_config (c_binlog_checksum cfg)) new -> rotate_last new ->
  log_ok cfg (evs ++ new).
Proof.
  intros [H1 H2 H3 H4] Hn Hc Hs Hr. split.
  - by apply chained_split.
  - by apply Forall_app.
  - destruct H3 as (a & b & rest & n & ms & -> & H). by exists a, b, (rest ++ new), n, ms.
  - intros k ev Hk Ht. rewrite length_app. apply lookup_app_Some in Hk as [Hk|[Hle Hk]].
    + pose proof (H4 k ev Hk Ht) as He. destruct Hn. exists ev. split; [|done]. by rewrite last_lookup, <-He.
    + pose proof (Hr _ _ Hk Ht). lia.
Qed.

Lemma holds_kept d i evs : holds crc32 d (path cfg i) evs -> kept d i evs.
Proof. intros (body & Hb & Hf) f Hf'. exists evs, body. split; [by left|]. split; [done|]. congruence. Qed.

Lemma later_grow s s' before evs new :
  sn_files s = before ++ [evs] -> sn_files s' = before ++ [evs ++ new] -> newest s = newest s' -> later s s'.
Proof.
  intros Hf Hf' Hn. split; [|lia]. intros j x Hj. rewrite Hf in Hj. rewrite Hf'. apply lookup_app_Some in Hj as [Hj|[Hle Hj]].
  - exists []. rewrite app_nil_r. by apply lookup_app_l_Some.
  - exists new. rewrite lookup_app_r by done. destruct (j - length before)%nat; [|done]. by injection Hj as <-.
Qed.

Lemma persist_evolves s index evs before new body r :
  current s index evs before -> ~ complete evs -> record_for cfg index r -> chained (file_len evs) new ->
  Forall (same_config (c_binlog_checksum cfg)) new -> rotate_last new -> flush_all crc32 new = Done body ->
  exists l s' r', evolves s l s' /\ snap_ok s' /\ persistent_binlog cfg body r (sn_disk s) = Done (r', sn_disk s') /\
    row_for cfg index (evs ++ new) r' /\ sn_rows s' = removelast (sn_rows s) ++ [r'] /\ current s' index (evs ++ new) before.
Proof.
  intros Hcur Hnc Hr Hc Hsc Hrl Hb. pose proof Hcur as [Hs Hd Hf Hi Hn].
  destruct (persistent_binlog_ok cfg crc32 u cfg_ok index _ _ evs new body r Hd Hr Hc Hb) as (d' & r' & E & Hrow & Hd' & Hun).
  assert (log_ok cfg evs) as Hle by (pose proof (so_log _ Hs) as Hl; rewrite Hf in Hl; apply Forall_app in Hl as [_ Hl]; by inversion Hl).
  assert (log_ok cfg (evs ++ new)) as Hlog by (by apply log_ok_app).
  assert (forall name, name <> path cfg index -> st_files d' !! name = st_files (sn_disk s) !! name) as Hsame
    by (intros name Hne; apply Hun; intros j Hj; by replace j with index by lia).
  set (rs' := removelast (sn_rows s) ++ [r']) in *. set (s' := mkSnap d' rs' (before ++ [evs ++ new])).
  destruct (core_write s s' index evs (evs ++ new) before Hcur eq_refl Hlog) as [Hcore Hnew].
  { by apply holds_kept, Hd'. } { done. } { apply Hd'. } { right. exists r'. split; [done|apply Hrow]. }
  assert (current s' index (evs ++ new) before) as Hcur' by (by split).
  assert (newest s = newest s') as Hns by congruence.
  set (s1 := mkSnap (append_file (st_file_name (sn_disk s)) body (sn_disk s)) (sn_rows s) (before ++ [evs ++ new])).
  pose proof (di_name _ _ _ _ _ _ Hd) as Hname. destruct (di_holds _ _ _ _ _ _ Hd) as (old & Eo & Ef).
  destruct (core_write s s1 index evs (evs ++ new) before Hcur eq_refl Hlog) as [Hcore1 Hnew1].
  { apply holds_kept. exists (old ++ body). split; [by apply flush_all_concat|]. unfold s1. cbn [sn_disk st_files append_file].
    rewrite Hname, lookup_insert_eq, Ef. cbn [default from_option id]. unfold binlog_file. by rewrite <-app_assoc. }
  { intros name Hne. unfold s1. cbn [sn_disk st_files append_file]. by rewrite Hname, lookup_insert_ne. }
  { exact (di_index _ _ _ _ _ _ Hd). } { by left. }
  exists [s; s1], s', r'. split; [|done]. apply (Ev_step s s1); [by apply A_append|done|by apply (later_grow _ _ before evs new); [..|congruence]|].
  apply evolves_one; [by eapply A_update|done|]. apply (later_grow _ _ before (evs ++ new) []); [done|by rewrite app_nil_r|congruence].
Qed.

(** A file is added, and then its row. *)
Lemma core_extend s s' evs :
  snap_ok s -> sn_files s' = sn_files s ++ [evs] -> base + zlen (sn_files s) + 1 <= LLONG_MAX -> log_ok cfg evs ->
  kept (sn_disk s') (base + zlen (sn_files s)) evs ->
  (forall name, name <> path cfg (base + zlen (sn_files s)) -> st_files (sn_disk s') !! name = st_files (sn_disk s) !! name) ->
  represents (st_index (sn_disk s')) (sn_rows s') -> sn_rows s' = sn_rows s -> snap_ok s'.
Proof.
  intros [H1 H2 H3 H4 H5 H6 H7] Hf Hmax Hl Hk Hsame Hrep Hrows. set (i := base + zlen (sn_files s)) in *.
  pose proof (zlen_nonneg (sn_files s)) as Hz. assert (zlen (sn_files s') = zlen (sn_files s) + 1) as Hlen by (by rewrite Hf, zlen_app).
  split; rewrite ?Hlen, ?Hf; try done; [lia|..].
  - apply Forall_app. split; [done|]. by constructor.
  - intros j x Hj. apply lookup_app_Some in Hj as [Hj|[Hle Hj]].
    + apply lookup_lt_Some in Hj as Hlt. intros f. rewrite Hsame; [by apply H3|]. intros Ep. unfold i, zlen in *. apply path_inj in Ep; lia.
    + destruct (j - length (sn_files s))%nat as [|n] eqn:E; [|done]. injection Hj as <-. replace (base + Z.of_nat j) with i; [done|]. unfold i, zlen. lia.
  - intros j f Hb. destruct (decide (j = i)) as [->|Hne]; [intros _; lia|].
    rewrite Hsame; [intros H; pose proof (H4 j f Hb H); lia|]. intros Ep. apply path_inj in Ep; lia.
  - rewrite Hsame; [done|]. unfold path, binlog_path. intros Ep. apply (inj (app _)) in Ep. symmetry in Ep. apply beq_true in Ep. by rewrite name_nonempty in Ep.
  - rewrite Hrows. destruct H7 as (a & Ha & Hne & Hle & Hr). exists a. split; [done|]. split; [done|]. split; [lia|done].
Qed.

Lemma core_row s s' r :
  snap_ok s -> sn_files s' = sn_files s -> st_files (sn_disk s') = st_files (sn_disk s) ->
  represents (st_index (sn_disk s')) (sn_rows s') -> sn_rows s' = sn_rows s ++ [r] -> record_for cfg (newest s + 1) r ->
  newest s + 1 < base + zlen (sn_files s) -> snap_ok s' /\ newest s' = newest s + 1.
Proof.
  intros Hs Hf Hsf Hrep Hrows Hr Hlt. pose proof Hs as [H1 H2 H3 H4 H5 H6 H7]. split.
  - split; rewrite ?Hf, ?Hsf; try done; [intros j x Hj f; rewrite Hsf; by apply H3|].
    destruct H7 as (a & Ha & Hne & Hle & Hrec). exists a. split; [done|]. rewrite Hrows. split; [by destruct (sn_rows s)|].
    destruct (newest_row s Hs) as (rs & r0 & Er).
    assert (newest s = a + zlen (sn_rows s) - 1) as Hnew.
    { unfold newest. rewrite Er, last_snoc, zlen_app. change (zlen [r0]) with 1. destruct (Hrec (length rs) r0) as (_ & Ei & _).
      { by rewrite Er, lookup_app_r, Nat.sub_diag. } unfold zlen. lia. }
    rewrite zlen_app. change (zlen [r]) with 1. split; [lia|]. intros n x Hn. apply lookup_app_Some in Hn as [Hn|[Hge Hn]]; [by apply Hrec|].
    destruct (n - length (sn_rows s))%nat as [|m] eqn:E; [|done]. injection Hn as <-.
    replace (a + Z.of_nat n) with (newest s + 1); [done|]. unfold zlen in *. lia.
  - destruct s' as [d' rs' fs']. cbn [sn_rows] in *. rewrite Hrows, newest_snoc. by destruct Hr as (_ & -> & _).
Qed.

Lemma head_log_ok index rot :
  event_ok rot -> rotates_to cfg index rot -> head_fits rot -> log_ok cfg (head_of cfg rot) /\ ~ complete (head_of cfg rot).
Proof.
  intros Hok Hto Hfit. destruct (head_of_ok cfg crc32 u cfg_ok index rot Hok Hto Hfit) as (body & _ & _ & [Hc Hu] & _).
  unfold head_of, head_events in *. destruct (new_previous_gtids _ _ _ _ _) as [prev|] eqn:Ep; cbn [mbind outcome_bind] in *; [|done].
  set (fde := new_format_description _ _ _) in *. set (prev' := set_header _ prev) in *.
  unfold new_previous_gtids in Ep. destruct (set_gtid_messages _ _) as [ms|] in Ep; cbn [mbind outcome_bind] in Ep; [|done].
  destruct (_ =? _); [|done]. apply Done_inj in Ep as <-. split.
  - split; [done| | |].
    + by repeat constructor.
    + by eexists fde, prev', [], _, _.
    + intros [|[|k]] ev [= <-]; done.
  - intros (ev & [= <-] & Ht). done.
Qed.

(** The steps of [init_next_binlog_file]: the in-use flag, the file, the row. *)
Lemma later_files s s' more : sn_files s' = sn_files s ++ more -> newest s <= newest s' -> later s s'.
Proof. intros Hf Hn. split; [|done]. intros j x Hj. exists []. rewrite app_nil_r, Hf. by apply lookup_app_l_Some. Qed.

Lemma log_current s index evs before : current s index evs before -> log_ok cfg evs.
Proof. intros [Hs _ Hf _ _]. pose proof (so_log _ Hs) as Hl. rewrite Hf in Hl. apply Forall_app in Hl as [_ Hl]. by inversion Hl. Qed.

Lemma clear_evolves s index evs before :
  snap_ok s -> current s index evs before -> complete evs ->
  exists d1, clear_in_use (path cfg index) (sn_disk s) = Done d1 /\ st_index d1 = st_index (sn_disk s) /\
    (forall name, name <> path cfg index -> st_files d1 !! name = st_files (sn_disk s) !! name) /\
    let s1 := mkSnap d1 (sn_rows s) (sn_files s) in snap_ok s1 /\ evolves s [s] s1.
Proof.
  intros Hok Hcur Hce. pose proof Hcur as [Hs Hd Hf Hi Hn].
  destruct (holds_close crc32 _ _ evs (di_open _ _ _ _ _ _ Hd) (di_holds _ _ _ _ _ _ Hd)) as (d1 & E1 & (b & Fb & Hb) & Ed1 & Hsame).
  assert (st_index d1 = st_index (sn_disk s)) as Hix by (by rewrite Ed1). exists d1. do 3 (split; [done|]).
  set (s1 := mkSnap d1 (sn_rows s) (sn_files s)).
  destruct (core_write s s1 index evs evs before Hcur Hf (log_current _ _ _ _ Hcur)) as [Hcore Hnew].
  { intros f Hff. exists (close evs), b. split; [by right|]. split; [done|]. change (sn_disk s1) with d1 in Hff. congruence. }
  { exact Hsame. } { unfold s1. cbn [sn_disk sn_rows]. rewrite Hix. exact (di_index _ _ _ _ _ _ Hd). } { by left. }
  split; [done|]. apply evolves_one; [by eapply A_clear|done|]. apply (later_files _ _ []); [by rewrite app_nil_r|by rewrite Hnew, Hn].
Qed.

Lemma head_evolves s evs body :
  snap_ok s -> base + zlen (sn_files s) + 1 <= LLONG_MAX -> log_ok cfg evs -> flush_all crc32 evs = Done body ->
  st_files (sn_disk s) !! path cfg (base + zlen (sn_files s)) = None ->
  let s' := mkSnap (append_file (path cfg (base + zlen (sn_files s))) (binlog_file body) (sn_disk s)) (sn_rows s) (sn_files s ++ [evs]) in
  snap_ok s' /\ evolves s [s] s'.
Proof.
  intros Hs Hmax Hl Hb Hnone s'.
  assert (snap_ok s') as Hok'.
  { apply (core_extend s s' evs Hs); try done; [|by intros name Hne; unfold s'; cbn [sn_disk st_files append_file]; rewrite lookup_insert_ne|exact (so_index _ Hs)].
    apply holds_kept. exists body. split; [done|]. unfold s'. cbn [sn_disk st_files append_file]. by rewrite lookup_insert_eq, Hnone. }
  split; [done|]. apply evolves_one; [by apply A_head|done|by apply (later_files _ _ [evs])].
Qed.

Lemma next_evolves s index evs before rot r :
  snap_ok s -> current s index evs before -> complete evs -> record_for cfg index r -> event_ok rot ->
  rotates_to cfg (index + 1) rot -> head_fits rot -> index + 2 <= LLONG_MAX ->
  exists l s' r', evolves s l s' /\ snap_ok s' /\ init_next_binlog_file cfg crc32 rot r (sn_disk s) = Done (r', sn_disk s') /\
    record_for cfg (index + 1) r' /\ sn_rows s' = sn_rows s ++ [r'] /\ current s' (index + 1) (head_of cfg rot) (before ++ [evs]).
Proof.
  intros Hok Hcur Hce Hr Hrok Hto Hfit Hmax. pose proof Hcur as [Hs Hd Hf Hi Hn].
  destruct (init_next_binlog_file_ok cfg crc32 u cfg_ok index _ _ evs rot r Hd Hr Hrok Hto Hfit ltac:(lia)) as (d' & r' & E & Hrow & Hd' & _ & _).
  destruct (head_log_ok (index + 1) rot Hrok Hto Hfit) as [Hlh Hnc]. destruct (head_of_ok cfg crc32 u cfg_ok (index + 1) rot Hrok Hto Hfit) as (hb & Eh & Ehb & _ & _).
  pose proof Hto as (e & Eb & Ei & _ & En & _). destruct (clear_evolves s index evs before Hok Hcur Hce) as (d1 & E1 & Hix & Hsame & Hok1 & Hev1).
  assert (base + zlen (sn_files s) = index + 1) as Hi1 by (rewrite Hf, zlen_app; change (zlen [evs]) with 1; lia).
  set (s1 := mkSnap d1 (sn_rows s) (sn_files s)) in *. pose proof (di_bound _ _ _ _ _ _ Hd) as Hb.
  destruct (head_evolves s1 (head_of cfg rot) hb Hok1) as [Hok2 Hev2]; try done; unfold s1; cbn [sn_files sn_disk]; rewrite ?Hi1; [lia| |].
  { rewrite Hsame; [apply (di_fresh _ _ _ _ _ _ Hd); lia|]. intros Ep. apply path_inj in Ep; lia. }
  unfold s1 in Hok2, Hev2. cbn [sn_files sn_disk sn_rows] in Hok2, Hev2. rewrite Hi1 in Hok2, Hev2. fold s1 in Hev2.
  set (s2 := mkSnap (append_file _ _ d1) _ _) in *. set (s' := mkSnap d' (sn_rows s ++ [r']) (sn_files s ++ [head_of cfg rot])).
  pose proof E as Eadd. unfold init_next_binlog_file in Eadd. rewrite Eb, Ei in Eadd.
  rewrite u64_id in Eadd by (unfold is_u64, LLONG_MAX in *; lia). replace (index + 1 - 1) with index in Eadd by lia.
  fold (path cfg index) in Eadd. rewrite E1 in Eadd. cbn [mbind outcome_bind] in Eadd. unfold next_gtids in Eh. rewrite Eb in Eh. rewrite Eh in Eadd.
  cbn [mbind outcome_bind] in Eadd. rewrite En in Eadd. fold (path cfg (index + 1)) in Eadd. change (append_file _ _ d1) with (sn_disk s2) in Eadd.
  assert (st_files d' = st_files (sn_disk s2)) as Hsf.
  { unfold add_next_binlog_index in Eadd. cbn [add_index disk_ok d_open d_append written w_short w_reported write_ok] in Eadd. apply Done_inj in Eadd. by injection Eadd as _ <-. }
  assert (newest s2 = index) as Hn2 by exact Hn.
  destruct (core_row s2 s' r' Hok2 eq_refl Hsf (di_index _ _ _ _ _ _ Hd') eq_refl) as [Hcore Hnew].
  { rewrite Hn2. apply Hrow. } { rewrite Hn2. unfold s2. cbn [sn_files]. rewrite zlen_app. change (zlen [_]) with 1. lia. }
  assert (current s' (index + 1) (head_of cfg rot) (before ++ [evs])) as Hcur'.
  { split; [done|done|unfold s'; cbn [sn_files]; by rewrite Hf|rewrite <-Hi1, Hf; done|by rewrite Hnew, Hn2]. }
  exists ([s] ++ [s1] ++ [s2]), s', r'. split; [|by destruct Hrow].
  eapply evolves_app; [exact Hev1|]. eapply evolves_app; [exact Hev2|]. apply evolves_one; [by eapply A_add|done|].
  apply (later_files _ _ []); [by rewrite app_nil_r|rewrite Hnew; lia].
Qed.

(** ** A batch in the storage stage *)

(** The files a batch closes, as [Pipeline.closed_files] before the in-use flag is cleared. *)
Fixpoint full_files (evs : list ObLogEvent) (segs : list (list ObLogEvent * ObLogEvent)) : list (list ObLogEvent) :=
  match segs with
  | [] => []
  | (seg, rot) :: segs => (evs ++ unfiltered seg ++ [rot]) :: full_files (head_of cfg rot) segs
  end.

(** The events a file has besides those of the transactions. *)
Definition framing (ev : ObLogEvent) : Prop :=
  h_type_code (get_header ev) ∈ [FORMAT_DESCRIPTION_EVENT; PREVIOUS_GTIDS_LOG_EVENT; ROTATE_EVENT].
#[export] Instance framing_dec ev : Decision (framing ev).
Proof. unfold framing. apply _. Defined.

(** An event of a transaction, with the checksum mode of the configuration. *)
Definition plain (ev : ObLogEvent) : Prop := same_config (c_binlog_checksum cfg) ev /\ ~ framing ev.
#[export] Instance plain_dec ev : Decision (plain ev).
Proof. unfold plain. apply _. Defined.

Lemma zlen_full_files evs segs : zlen (full_files evs segs) = zlen segs.
Proof. revert evs. induction segs as [|[seg rot] segs IH]; intros evs; [done|]. cbn [full_files]. by rewrite !zlen_cons, IH. Qed.

Lemma rotate_type index rot : event_ok rot -> rotates_to cfg index rot -> h_type_code (get_header rot) = ROTATE_EVENT.
Proof. intros (_ & _ & Ht & _) (e & Eb & _). rewrite Eb in Ht. by apply Z.eqb_eq in Ht. Qed.

Lemma plain_unfiltered evs : Forall plain evs -> Forall plain (unfiltered evs).
Proof. rewrite !Forall_forall. intros H x Hx. apply H. unfold unfiltered in Hx. by apply list_elem_of_filter in Hx as [_ Hx]. Qed.

Lemma plain_config evs : Forall plain evs -> Forall (same_config (c_binlog_checksum cfg)) evs.
Proof. intros H. eapply Forall_impl; [exact H|]. by intros ev [].  Qed.

Lemma plain_no_rotate evs k ev : Forall plain evs -> evs !! k = Some ev -> h_type_code (get_header ev) <> ROTATE_EVENT.
Proof. intros H Hk Ht. rewrite Forall_lookup in H. destruct (H k ev Hk) as [_ []]. unfold framing. rewrite Ht. set_solver. Qed.

Lemma plain_incomplete evs new : ~ complete evs -> Forall plain new -> ~ complete (evs ++ new).
Proof.
  intros He Hp (ev & Hl & Ht). destruct new as [|x new _] using rev_ind; [rewrite app_nil_r in Hl; by destruct He; exists ev|].
  rewrite app_assoc, last_snoc in Hl. injection Hl as ->. by apply (plain_no_rotate _ (length new) ev) in Hp; [|rewrite lookup_app_r, Nat.sub_diag by done].
Qed.

Lemma segment_rotates index seg rot :
  Forall plain seg -> event_ok rot -> rotates_to cfg index rot ->
  Forall (same_config (c_binlog_checksum cfg)) (seg ++ [rot]) /\ rotate_last (seg ++ [rot]) /\
  forall evs, complete (evs ++ seg ++ [rot]).
Proof.
  intros Hp Hok Hto. split; [|split].
  - apply Forall_app. split; [by apply plain_config|]. apply Forall_singleton. destruct Hto as (e & _ & _ & _ & _ & _ & _ & _ & H). exact H.
  - intros k ev Hk Ht. rewrite length_app. cbn. apply lookup_app_Some in Hk as [Hk|[Hle Hk]]; [by destruct (plain_no_rotate _ _ _ Hp Hk)|].
    destruct (k - length seg)%nat eqn:E; [lia|done].
  - intros evs. exists rot. split; [by rewrite app_assoc, last_snoc|by eapply rotate_type].
Qed.

Record stored_as (s : snapshot) (index : Z) (evs : list ObLogEvent) (before : list (list ObLogEvent)) segs (l : list snapshot) (s' : snapshot) : Prop := {
  st_evolves : evolves s l s';
  st_ok : snap_ok s';
  st_current : current s' (index + zlen segs) (open_events cfg evs segs) (before ++ full_files evs segs);
  st_open : ~ complete (open_events cfg evs segs)
}.

Lemma store_loop_evolves segs : forall tail recs index bodies tb pre s evs before,
  layout cfg (file_len evs) index segs tail recs -> segment_bodies crc32 segs bodies ->
  snap_ok s -> current s index evs before -> ~ complete evs -> Forall (fun sg => Forall plain (unfiltered sg.1)) segs ->
  Forall head_fits (snd <$> segs) -> index + zlen segs + 1 <= LLONG_MAX ->
  exists l s' r, stored_as s index evs before segs l s' /\ record_for cfg (index + zlen segs) r /\
    chained (file_len (open_events cfg evs segs)) (unfiltered tail) /\
    store_loop cfg crc32 (pre ++ mjoin bodies ++ tb) (ends (zlen pre) bodies) (snd <$> segs) recs (zlen pre) (sn_disk s)
    = Done (zlen pre + zlen (mjoin bodies), [r], sn_disk s').
Proof.
  induction segs as [|[seg rot] segs IH]; intros tail recs index bodies tb pre s evs before Hl Hbs Hok Hcur Hnc Hpl Hfit Hmax.
  { apply Forall2_nil_inv_l in Hbs as ->. destruct recs as [|r []]; try done. destruct Hl as [Hc Hr].
    exists [], s, r. rewrite zlen_nil, Z.add_0_r. split; [|split; [done|split; [done|cbn; by rewrite Z.add_0_r]]].
    split; [constructor|done|by rewrite zlen_nil, Z.add_0_r, app_nil_r|done]. }
  destruct recs as [|r recs]; [done|]. destruct Hl as (Hne & Hc & Hr & Hto & Hl).
  apply Forall2_cons_inv_l in Hbs as (body & bodies' & Eb & Hbs & ->). cbn [fst snd] in Eb.
  cbn [fmap list_fmap snd] in *. apply Forall_cons in Hfit as [Hfit Hfits]. apply Forall_cons in Hpl as [Hpl Hpls]. cbn [fst] in Hpl.
  rewrite zlen_cons in Hmax |- *. pose proof (zlen_nonneg segs). pose proof (zlen_segment crc32 _ _ _ _ Hc Eb) as Hbody.
  assert (event_ok rot) as Hrok by (apply chained_split in Hc as [_ (? & _)]; done).
  destruct (segment_rotates _ _ _ Hpl Hrok Hto) as (Hsc & Hrl & Hce).
  destruct (persist_evolves s index evs before _ body r Hcur Hnc Hr Hc Hsc Hrl Eb) as (l1 & s1 & r1 & Hev1 & Hok1 & E1 & [Hr1 _] & _ & Hcur1).
  destruct (next_evolves s1 index _ before rot r1 Hok1 Hcur1 (Hce evs) Hr1 Hrok Hto Hfit ltac:(lia)) as (l2 & s2 & r2 & Hev2 & Hok2 & E2 & _ & _ & Hcur2).
  destruct (head_of_ok cfg crc32 u cfg_ok (index + 1) rot Hrok Hto Hfit) as (_ & _ & _ & _ & Hstart). rewrite <-Hstart in Hl.
  destruct (head_log_ok (index + 1) rot Hrok Hto Hfit) as [_ Hnh].
  destruct (IH tail recs (index + 1) bodies' tb (pre ++ body) s2 _ _ Hl Hbs Hok2 Hcur2 Hnh Hpls Hfits ltac:(lia)) as (l3 & s' & rl & [Hev3 Hok3 Hcur3 Hop] & Hrl' & Htail & E).
  exists (l1 ++ l2 ++ l3), s', rl. split; [|split; [|split; [done|]]].
  - split; [by eapply evolves_app; [|eapply evolves_app]|done| |done].
    rewrite zlen_cons, Z.add_assoc. cbn [full_files open_events]. by rewrite <-app_assoc in Hcur3.
  - by rewrite Z.add_assoc.
  - cbn [store_loop ends]. rewrite join_cons, <-app_assoc. rewrite Z.gtb_ltb, (proj2 (Z.ltb_lt _ _)) by lia.
    rewrite skip_app, first_app by lia. rewrite E1. cbn [mbind outcome_bind]. rewrite E2. cbn [mbind outcome_bind].
    rewrite <-zlen_app, (app_assoc pre body), E. rewrite !zlen_app, Z.add_assoc. done.
Qed.

(** The files a batch leaves, the open one last. *)
Record batch_stored (s : snapshot) (index : Z) (evs : list ObLogEvent) (before : list (list ObLogEvent)) segs tail (l : list snapshot) (s' : snapshot) : Prop := {
  bs_evolves : evolves s l s';
  bs_ok : snap_ok s';
  bs_current : current s' (index + zlen segs) (open_events cfg evs segs ++ unfiltered tail) (before ++ full_files evs segs);
  bs_open : ~ complete (open_events cfg evs segs ++ unfiltered tail)
}.

Lemma tail_evolves s index evs before segs tail tb l1 s1 r :
  stored_as s index evs before segs l1 s1 -> record_for cfg (index + zlen segs) r -> Forall plain tail ->
  chained (file_len (open_events cfg evs segs)) (unfiltered tail) -> flush_all crc32 (unfiltered tail) = Done tb ->
  exists l s' r', persistent_binlog cfg tb r (sn_disk s1) = Done (r', sn_disk s') /\ batch_stored s index evs before segs tail l s'.
Proof.
  intros [Hev Hok Hcur Hop] Hr Hpl Hc Et. apply plain_unfiltered in Hpl.
  destruct (persist_evolves s1 _ _ _ (unfiltered tail) tb r Hcur Hop Hr Hc (plain_config _ Hpl)) as (l2 & s' & r' & Hev2 & Hok' & E & _ & _ & Hcur'); [|done|].
  { intros k ev Hk Ht. by destruct (plain_no_rotate _ _ _ Hpl Hk). }
  exists (l1 ++ l2), s', r'. split; [done|]. split; [by eapply evolves_app|done|done|by apply plain_incomplete].
Qed.

Lemma storage_on_event_evolves b s index evs before segs tail recs bodies tb :
  snap_ok s -> current s index evs before -> ~ complete evs -> layout cfg (file_len evs) index segs tail recs ->
  index + zlen segs + 1 <= LLONG_MAX -> Forall plain (all_events segs tail) ->
  Forall head_fits (snd <$> segs) -> segment_bodies crc32 segs bodies -> flush_all crc32 (unfiltered tail) = Done tb ->
  b_data (sb_buffer b) = mjoin bodies ++ tb -> sb_rotate_offsets b = ends 0 bodies -> sb_rotate_events b = snd <$> segs ->
  sb_index_records b = recs -> sb_is_rotation b = match segs with [] => false | _ => true end ->
  exists l s', storage_on_event cfg crc32 b (sn_disk s) = Done (mkBatch (sb_events b) (sb_buffer b) false [] [] 0 [], sn_disk s') /\
    batch_stored s index evs before segs tail l s'.
Proof.
  intros Hok Hcur Hnc Hl Hm Hpl Hfit Hbs Et Eb Eo Er Erec Erot. apply Forall_app in Hpl as [Hps Hpt].
  assert (Forall (fun sg => Forall plain (unfiltered sg.1)) segs) as Hpu.
  { clear -Hps. induction segs as [|sg segs IH]; constructor; rewrite fmap_cons, join_cons in Hps; apply Forall_app in Hps as [H1 H2]; [by apply plain_unfiltered|by apply IH]. }
  destruct (store_loop_evolves segs tail recs index bodies tb [] s evs before Hl Hbs Hok Hcur Hnc Hpu Hfit Hm) as (l1 & s1 & r & Hst & Hr & Hc & E).
  destruct (tail_evolves _ _ _ _ _ tail tb _ _ r Hst Hr Hpt Hc Et) as (l & s' & r' & Ep & Hp).
  unfold storage_on_event. rewrite Eb, Eo, Er, Erec, Erot. destruct segs as [|sg segs].
  { apply Forall2_nil_inv_l in Hbs as ->. destruct recs as [|r0 []]; try done.
    cbn in E. apply Done_inj in E. injection E as -> Hd. rewrite <-Hd in Ep. cbn [mjoin list_join app]. rewrite Ep. by eexists _, _. }
  cbn [app] in E. rewrite zlen_nil in E. rewrite E. cbn [mbind outcome_bind]. rewrite Z.add_0_l, zlen_app.
  pose proof (zlen_nonneg tb). destruct (Z.ltb_spec (zlen (mjoin bodies)) (zlen (mjoin bodies) + zlen tb)) as [_|H0].
  { rewrite skip_app by done. rewrite Ep. by eexists _, _. }
  assert (unfiltered tail = []) as Enil.
  { apply zlen_0_nil. pose proof (sum_len_pos crc32 _ (chained_ok _ _ Hc)). rewrite (zlen_flush_all crc32 _ tb (chained_ok _ _ Hc) Et) in H0.
    pose proof (zlen_nonneg (unfiltered tail)). lia. }
  cbn [mbind outcome_bind]. eexists _, _. split; [done|]. destruct Hst as [H1 H2 H3 H4]. split; rewrite ?Enil, ?app_nil_r; done.
Qed.

(** What an event keeps when it is numbered and placed. *)
Lemma erase_plain evs evs' : erase <$> evs' = erase <$> evs -> Forall plain evs -> Forall plain evs'.
Proof.
  revert evs. induction evs' as [|ev' evs' IH]; intros [|ev evs] E H; try done. rewrite !fmap_cons in E.
  pose proof (f_equal head E) as E1. pose proof (f_equal tail E) as E2. cbn [head tail] in E1, E2. apply (inj Some) in E1. apply Forall_cons in H as [[H1 H2] H]. constructor; [|by apply (IH evs)].
  split; [unfold same_config; rewrite <-H1; exact (f_equal get_checksum_flag E1)|].
  pose proof (f_equal (fun x => h_type_code (get_header x)) E1) as Et. unfold framing in *. cbn in Et. by rewrite Et.
Qed.

(** ** What the files hold of the transactions *)

Definition payload (evs : list ObLogEvent) : list ObLogEvent := filter (fun ev => ~ framing ev) evs.

Lemma payload_app a b : payload (a ++ b) = payload a ++ payload b.
Proof. apply filter_app. Qed.

Lemma payload_plain evs : Forall plain evs -> payload evs = evs.
Proof.
  induction 1 as [|ev evs [_ Hp] _ IH]; [done|]. unfold payload in *. rewrite filter_cons_True by done. by rewrite IH.
Qed.

Lemma payload_framing evs : Forall framing evs -> payload evs = [].
Proof. induction 1 as [|ev evs Hp _ IH]; [done|]. unfold payload in *. by rewrite filter_cons_False by naive_solver. Qed.

Lemma head_framing evs : log_ok cfg evs -> Forall framing (take 2 evs).
Proof.
  intros Hl. pose proof (chained_ok _ _ (lo_chain _ _ Hl)) as Hok. destruct (lo_head _ _ Hl) as (a & b & rest & n & ms & -> & Ha & Hb).
  apply Forall_cons in Hok as [(_ & _ & Ta & _) Hok]. apply Forall_cons in Hok as [(_ & _ & Tb & _) _].
  change (take 2 (a :: b :: rest)) with [a; b]. unfold framing. apply Forall_cons. split; [|apply Forall_singleton].
  - destruct Ha as [[e Eb] _]. rewrite Eb in Ta. apply Z.eqb_eq in Ta. rewrite Ta. set_solver.
  - rewrite Hb in Tb. apply Z.eqb_eq in Tb. rewrite Tb. set_solver.
Qed.

Lemma join_snoc {A} (l : list (list A)) x : mjoin (l ++ [x]) = mjoin l ++ x.
Proof. rewrite join_app. cbn. by rewrite app_nil_r. Qed.

Lemma unfiltered_app a b : unfiltered (a ++ b) = unfiltered a ++ unfiltered b.
Proof. apply filter_app. Qed.

Lemma head_payload index rot : event_ok rot -> rotates_to cfg index rot -> head_fits rot -> payload (head_of cfg rot) = [].
Proof.
  intros Hok Hto Hfit. destruct (head_log_ok index rot Hok Hto Hfit) as [Hl _]. apply payload_framing.
  apply head_framing in Hl. replace (take 2 (head_of cfg rot)) with (head_of cfg rot) in Hl; [done|].
  unfold head_of, head_events. destruct (new_previous_gtids _ _ _ _ _); done.
Qed.

(** A batch adds its events, and nothing else, to what the files hold of the transactions. *)
Lemma batch_payload segs : forall tail recs pos index evs,
  layout cfg pos index segs tail recs -> Forall head_fits (snd <$> segs) -> Forall plain (all_events segs tail) ->
  payload (mjoin (full_files evs segs) ++ open_events cfg evs segs ++ unfiltered tail) = payload evs ++ unfiltered (all_events segs tail).
Proof.
  induction segs as [|[seg rot] segs IH]; intros tail recs pos index evs Hl Hfit Hpl.
  { cbn. rewrite payload_app. f_equal. by apply payload_plain, plain_unfiltered. }
  destruct recs as [|r recs]; [done|]. destruct Hl as (_ & Hc & _ & Hto & Hl). apply Forall_cons in Hfit as [Hfit Hfits]. cbn [snd] in Hfit.
  unfold all_events in *. rewrite fmap_cons, join_cons in *. cbn [fst] in *. rewrite <-app_assoc in Hpl. apply Forall_app in Hpl as [Hps Hpl].
  assert (event_ok rot) as Hrok by (apply chained_split in Hc as [_ (? & _)]; done). cbn [full_files open_events].
  rewrite join_cons, <-app_assoc, payload_app, (IH tail recs _ (index + 1)) by done. rewrite (head_payload _ _ Hrok Hto Hfit).
  rewrite !payload_app, (payload_plain (unfiltered seg)) by (by apply plain_unfiltered).
  rewrite (payload_framing [rot]) by (apply Forall_singleton; unfold framing; rewrite (rotate_type _ _ Hrok Hto); set_solver).
  by rewrite !unfiltered_app, app_nil_r, <-!app_assoc.
Qed.

(** ** A batch through the three stages *)

(** Storage and allocation agree: same file, and the next event goes where it ends. *)
Record serving (k : Z) (s : snapshot) (a : Allocator) (evs : list ObLogEvent) (before : list (list ObLogEvent)) : Prop := {
  sv_ok : snap_ok s;
  sv_current : current s (a_binlog_file_index a) evs before;
  sv_open : ~ complete evs;
  sv_alloc : alloc_ok cfg k a;
  sv_pos : a_cur_pos a = file_len evs
}.

(** What one batch needs: numbers, file numbers and positions left, and previous GTIDs that
    fit the buffer of the next file's head. *)
Record room_for (a : Allocator) (b : SerializeEvent) (events : list ObLogEvent) : Prop := {
  rf_alloc : alloc_ok cfg (2 * zlen events) a;
  rf_index : a_binlog_file_index a + 2 * zlen events < LLONG_MAX;
  rf_space : headroom (2 * zlen events) a events;
  rf_head : match global_allocation_of_backfill_events cfg a (with_events events b) with
            | Done (_, b1) => Forall head_fits (sb_rotate_events b1)
            | Crash => True
            end
}.

Lemma layout_segs pos index segs tail recs : layout cfg pos index segs tail recs -> zlen segs <= zlen (all_events segs tail).
Proof.
  revert pos index recs. induction segs as [|[seg rot] segs IH]; intros pos index recs Hl; [apply zlen_nonneg|].
  destruct recs as [|r recs]; [done|]. destruct Hl as (Hne & _ & _ & _ & Hl). apply IH in Hl. unfold all_events in *.
  rewrite fmap_cons, join_cons, <-app_assoc, zlen_app, zlen_cons. cbn [fst]. destruct seg as [|ev seg]; [done|]. rewrite zlen_cons. pose proof (zlen_nonneg seg). lia.
Qed.

Lemma batch_begins s index evs before valid g :
  snap_ok s -> current s index evs before -> Forall has_uuid (gtid_executed_set g) ->
  let d := sn_disk s in
  let s0 := mkSnap (mkStore (st_files d) (st_index d) (st_file_name d) (st_offset d) valid g) (sn_rows s) (sn_files s) in
  evolves s [s] s0 /\ snap_ok s0 /\ current s0 index evs before.
Proof.
  intros [H1 H2 H3 H4 H5 H6 H7] [_ [D1 D2 D3 D4 D5 D6 D7] Hf Hi Hn] Hg d s0.
  assert (snap_ok s0) as Hok by (split; done).
  split; [|split; [done|]].
  - apply evolves_one; [apply A_batch|done|]. apply (later_files _ _ []); [by rewrite app_nil_r|done].
  - split; try done.
Qed.

(** The events of [all] that are kept are those that the state of allocation asks for. *)
Definition marked (a : Allocator) (events all : list ObLogEvent) (a' : Allocator) : Prop :=
  forall more, keeps a (events ++ more) = ((fun ev => negb (is_filter ev)) <$> all) ++ keeps a' more.

Lemma marked_all a events all a' : marked a events all a' -> (fun ev => negb (is_filter ev)) <$> all = keeps a events.
Proof. intros H. specialize (H []). by rewrite keeps_nil, !app_nil_r in H. Qed.

Lemma run_batch_evolves s a b evs before events :
  serving 0 s a evs before -> room_for a b events -> Forall incoming events -> Forall plain events -> idle_batch b ->
  exists all a' b' l s' evs' before', run_batch cfg crc32 events a b (sn_disk s) = Done (a', b', sn_disk s') /\
    evolves s l s' /\ idle_batch b' /\ serving 0 s' a' evs' before' /\ marked a events all a' /\
    erase <$> all = erase <$> events /\ payload (mjoin (sn_files s')) = payload (mjoin (sn_files s)) ++ unfiltered all.
Proof.
  intros [Hok Hcur Hnc _ Hpos] [Ha Hix Hroom Hhead] Hev Hpl (Hrot & Ho & Hr & Hp & Hrec & Hg).
  destruct (allocate_loop_ok cfg u cfg_ok events [] a (with_events events b) 0 Ha Hev) as (segs & tail & recs & a1 & Hal & E).
  { split; [done|]. cbn. by rewrite Hp, Hrec. } { done. }
  set (b1 := batch_after [] 0 (with_events events b) segs tail recs) in *. destruct Hal as [Hl He Hn Hi Hq Hs Hmk _].
  assert (sb_rotate_events b1 = snd <$> segs) as Hb1 by (unfold b1, batch_after; cbn; by rewrite Hr).
  assert (sb_is_rotation b1 = match segs with [] => false | _ => true end) as Hb2 by (unfold b1, batch_after; cbn; by rewrite Hrot).
  assert (sb_index_records b1 = recs) as Hb3 by (unfold b1, batch_after; cbn; by rewrite Hrec).
  assert (Forall head_fits (snd <$> segs)) as Hfit.
  { unfold global_allocation_of_backfill_events in Hhead. cbn [with_events sb_events] in Hhead. rewrite E in Hhead. by rewrite <-Hb1. }
  destruct (serialize_on_event_ok cfg crc32 b1 segs tail recs _ _ Hl ltac:(destruct Hroom; lia) Hg Ho eq_refl Hb1 Hb2)
    as (bodies & tb & c & Hbs & Et & Es).
  pose proof (layout_segs _ _ _ _ _ Hl) as Hsegs. rewrite Hpos in Hl.
  assert (zlen (all_events segs tail) = zlen events) as Hze by (unfold zlen; by rewrite <-(length_fmap erase), He, length_fmap).
  destruct (batch_begins s _ evs before (a_valid_events_coming a1) (a_gtid a1) Hok Hcur (ao_executed _ _ _ Hs)) as (Hev0 & Hok0 & Hcur0).
  set (s0 := mkSnap (mkStore _ _ _ _ _ _) _ _) in *. match type of Es with _ = Done ?x => set (b2 := x) in Es end. pose proof (zlen_nonneg segs).
  destruct (storage_on_event_evolves b2 s0 _ evs before segs tail recs bodies tb Hok0 Hcur0 Hnc Hl ltac:(lia) (erase_plain _ _ He Hpl) Hfit Hbs Et
    eq_refl eq_refl eq_refl Hb3 Hb2) as (l & s' & Est & [Hev' Hok' Hcur' Hop']).
  pose proof (erase_plain _ _ He Hpl) as Hall.
  eexists (all_events segs tail), _, _, ([s] ++ l), s', _, _. split.
  { unfold run_batch, global_allocation_of_backfill_events. cbn [with_events sb_events]. rewrite E. cbn [mbind outcome_bind].
    rewrite Es. cbn [mbind outcome_bind]. change (mkStore _ _ _ _ _ _) with (sn_disk s0). rewrite Est. cbn [mbind outcome_bind]. reflexivity. }
  split; [by eapply evolves_app|]. split; [done|]. split; [split; [done| |exact Hop'| |]|split; [done|split; [done|]]].
  - cbn [a_binlog_file_index with_gtid_manager]. by rewrite Hi.
  - apply alloc_ok_manager'; [|done]. by destruct Hcur' as [_ [] _ _ _].
  - cbn [a_cur_pos with_gtid_manager]. rewrite Hq, Hpos. by apply (end_pos_file_len cfg crc32 u segs evs tail recs (a_binlog_file_index a)).
  - rewrite (cu_files _ _ _ _ Hcur), (cu_files _ _ _ _ Hcur'), !join_snoc, join_app.
    rewrite !payload_app, <-!app_assoc, <-(batch_payload _ _ _ _ _ evs Hl Hfit Hall), !payload_app. done.
Qed.

(** ** Batch after batch *)

Fixpoint run_batches (batches : list (list ObLogEvent)) (a : Allocator) (b : SerializeEvent) (d : Disk)
    : outcome (Allocator * SerializeEvent * Disk) :=
  match batches with
  | [] => Done (a, b, d)
  | events :: batches => '(a, b, d) ← run_batch cfg crc32 events a b d; run_batches batches a b d
  end.

Fixpoint roomy (batches : list (list ObLogEvent)) (a : Allocator) (b : SerializeEvent) (d : Disk) : Prop :=
  match batches with
  | [] => True
  | events :: batches =>
      room_for a b events /\
      match run_batch cfg crc32 events a b d with Done (a, b, d) => roomy batches a b d | Crash => True end
  end.

Lemma run_batches_evolve batches : forall s a b evs before,
  serving 0 s a evs before -> idle_batch b -> roomy batches a b (sn_disk s) -> Forall incoming (mjoin batches) -> Forall plain (mjoin batches) ->
  exists all a' b' l s' evs' before', run_batches batches a b (sn_disk s) = Done (a', b', sn_disk s') /\
    evolves s l s' /\ serving 0 s' a' evs' before' /\ marked a (mjoin batches) all a' /\
    erase <$> all = erase <$> mjoin batches /\ payload (mjoin (sn_files s')) = payload (mjoin (sn_files s)) ++ unfiltered all.
Proof.
  induction batches as [|events batches IH]; intros s a b evs before Hs Hb Hroom Hin Hpl.
  { exists [], a, b, [], s, evs, before. split; [done|]. split; [constructor|]. split; [done|]. split; [done|]. split; [done|]. by rewrite app_nil_r. }
  rewrite join_cons in Hin, Hpl. apply Forall_app in Hin as [Hi1 Hi2]. apply Forall_app in Hpl as [Hp1 Hp2]. destruct Hroom as [Hr1 Hr2].
  destruct (run_batch_evolves s a b evs before events Hs Hr1 Hi1 Hp1 Hb) as (all1 & a1 & b1 & l1 & s1 & evs1 & before1 & E1 & Hev1 & Hb1 & Hs1 & Hm1 & He1 & Hpay1).
  cbn [run_batches]. rewrite E1 in Hr2 |- *. cbn [mbind outcome_bind].
  destruct (IH s1 a1 b1 evs1 before1 Hs1 Hb1 Hr2 Hi2 Hp2) as (all2 & a' & b' & l2 & s' & evs' & before' & E2 & Hev2 & Hs' & Hm2 & He2 & Hpay2).
  exists (all1 ++ all2), a', b', (l1 ++ l2), s', evs', before'. split; [done|]. split; [by eapply evolves_app|]. split; [done|].
  split; [intros more; by rewrite join_cons, <-app_assoc, Hm1, Hm2, fmap_app, app_assoc|].
  split; [by rewrite join_cons, !fmap_app, He1, He2|]. by rewrite Hpay2, Hpay1, unfiltered_app, app_assoc.
Qed.

(** ** What a replica has received of the transactions *)

(** A reader of [evs] that started at place [a], has read [P] and stands at place [b]: it
    reads on, or goes back as [again] allows. *)
Inductive reading (again : nat -> nat -> Prop) (evs : list ObLogEvent) (a : nat) : list ObLogEvent -> nat -> Prop :=
| Rd_start : (a <= length evs)%nat -> reading again evs a [] a
| Rd_more P b c : reading again evs a P b -> (b <= c <= length evs)%nat -> reading again evs a (P ++ take (c - b) (drop b evs)) c
| Rd_again P b c : reading again evs a P b -> again b c -> (c <= b)%nat -> reading again evs a P c.

Lemma reading_straight again evs a P b : (forall x y, ~ again x y) -> reading again evs a P b ->
  (a <= b <= length evs)%nat /\ P = take (b - a) (drop a evs).
Proof.
  intros Hn. induction 1 as [|P b c _ [Hab IH] Hc|P b c _ _ Hag _]; [split; [lia|]; by rewrite Nat.sub_diag| |by destruct (Hn b c)].
  split; [lia|]. rewrite IH. replace (c - a)%nat with ((b - a) + (c - b))%nat by lia. rewrite <-take_take_drop, drop_drop. do 3 f_equal. lia.
Qed.

Section Slice.
Context (h : list snapshot) (final : snapshot) (seen : nat -> nat).
Context (final_core : snap_ok final) (final_logs : forall i, log_ok cfg (log_of final i)).

Definition whole : list ObLogEvent := payload (mjoin (sn_files final)).

(** How many events of transactions there are before file [i], and before its event [k]. *)
Definition offset (i : Z) : nat := length (payload (mjoin (take (Z.to_nat (i - base)) (sn_files final)))).
Definition position_of (i : Z) (k : nat) : nat := offset i + length (payload (take k (log_of final i))).

(** From the end of a file back to its start, when the index was behind. *)
Definition resend (b c : nat) : Prop := exists i, lags h final seen i /\ b = offset (i + 1) /\ c = offset i.

Lemma log_of_outside i : i < base \/ base + zlen (sn_files final) <= i -> payload (log_of final i) = [].
Proof.
  intros Hi. assert (log_of final i = take 2 (hd [] (sn_files final))) as ->.
  { unfold log_of. destruct (decide (base <= i)); [|done]. unfold file_of. rewrite lookup_ge_None_2; [done|]. unfold zlen in Hi. lia. }
  apply payload_framing, head_framing. pose proof (newest_file _ final_core) as Hn. pose proof (so_log _ final_core) as Hl.
  destruct (sn_files final) as [|evs l]; [rewrite zlen_nil in Hn; lia|]. by inversion Hl.
Qed.

(** The files before file [i], file [i], and the files after it. *)
Lemma whole_split i : exists x y, whole = x ++ payload (log_of final i) ++ y /\ length x = offset i /\ offset (i + 1) = (offset i + length (payload (log_of final i)))%nat.
Proof.
  unfold whole, offset. set (n := Z.to_nat (i - base)).
  exists (payload (mjoin (take n (sn_files final)))). destruct (decide (base <= i < base + zlen (sn_files final))) as [Hi|Hi].
  - unfold zlen in Hi. destruct (lookup_lt_is_Some_2 (sn_files final) n) as [evs He]; [lia|].
    assert (log_of final i = evs) as -> by (unfold log_of, file_of; rewrite decide_True by lia; fold n; by rewrite He).
    exists (payload (mjoin (drop (S n) (sn_files final)))). rewrite <-(take_drop_middle _ _ _ He) at 1.
    rewrite join_app, join_cons, !payload_app. split; [done|]. split; [done|].
    replace (Z.to_nat (i + 1 - base)) with (S n) by lia. by rewrite (take_S_r _ _ _ He), join_snoc, payload_app, length_app.
  - rewrite log_of_outside by lia. exists (payload (mjoin (drop n (sn_files final)))).
    rewrite <-(take_drop n (sn_files final)) at 1. rewrite join_app, payload_app. split; [done|]. split; [done|]. cbn [length]. rewrite Nat.add_0_r.
    do 2 f_equal. destruct (decide (i < base)); [by replace (Z.to_nat (i + 1 - base)) with n by lia|]. unfold zlen in Hi. by rewrite !take_ge by lia.
Qed.

Lemma payload_take1 i : payload (take 1 (log_of final i)) = [].
Proof.
  pose proof (head_framing _ (final_logs i)) as H. rewrite <-(take_drop 1 (take 2 _)), take_take in H. apply Forall_app in H as [H _].
  by apply payload_framing.
Qed.

Lemma place_start i : position_of i (0 `max` 1) = offset i.
Proof. unfold position_of. rewrite payload_take1. cbn. lia. Qed.
Lemma place_end i k : (length (log_of final i) <= k)%nat -> position_of i k = offset (i + 1).
Proof. intros Hk. destruct (whole_split i) as (? & ? & _ & _ & ->). unfold position_of. by rewrite take_ge. Qed.

(** A part of a file is the part of the whole between two places. *)
Lemma part_slice i ks k :
  let k' := ((ks `max` 1) `max` k)%nat in
  payload (part (log_of final) i ks k) = take (position_of i k' - position_of i (ks `max` 1)) (drop (position_of i (ks `max` 1)) whole) /\
  (position_of i (ks `max` 1) <= position_of i k' <= length whole)%nat.
Proof.
  intros k'. set (s := (ks `max` 1)%nat) in *. destruct (whole_split i) as (x & y & -> & Hx & _).
  assert (payload (take k' (log_of final i)) = payload (take s (log_of final i)) ++ payload (part (log_of final) i ks k)) as Hk'.
  { unfold part, chunk. fold s. rewrite (payload_app (take 1 _)), payload_take1. cbn [app]. rewrite <-payload_app. f_equal.
    replace k' with (s + (k - s))%nat by lia. by rewrite take_take_drop. }
  assert (payload (log_of final i) = payload (take k' (log_of final i)) ++ payload (drop k' (log_of final i))) as Hw by (by rewrite <-payload_app, take_drop).
  unfold position_of. rewrite Hk', length_app, <-Hx. set (p := payload (part _ _ _ _)) in *. set (q := payload (take s _)) in *. rewrite Hw, Hk'. split.
  - rewrite <-!app_assoc, (app_assoc x q). rewrite drop_app_length' by (by rewrite length_app).
    by rewrite take_app_length' by lia.
  - rewrite !length_app. lia.
Qed.

Lemma visits_reading env i0 k0 l i :
  (forall j, lagging cfg (log_of final) env (rows_seen (h ++ [final]) seen) j -> lags h final seen j) ->
  (k0 <= length (log_of final i0))%nat -> visits cfg (log_of final) env (rows_seen (h ++ [final]) seen) i0 l i ->
  (start_of k0 l <= length (log_of final i))%nat /\
  reading resend whole (position_of i0 (k0 `max` 1)) (payload (passes (log_of final) (part (log_of final)) k0 l)) (position_of i (start_of k0 l `max` 1)).
Proof.
  intros Hlag Hk0. induction 1 as [|l i _ [IHk IH]|l i _ [IHk IH] Hl].
  { split; [done|]. constructor. destruct (part_slice i0 k0 0) as [_ H]. cbn [start_of]. lia. }
  all: rewrite passes_snoc, payload_app, start_of_snoc, place_start; (split; [lia|]).
  all: destruct (part_slice i (start_of k0 l) (length (log_of final i))) as [Hp Hle]; rewrite (place_end i (_ `max` _)) in Hp, Hle by lia; rewrite Hp.
  all: assert (reading resend whole (position_of i0 (k0 `max` 1)) (payload (passes (log_of final) (part (log_of final)) k0 l) ++
    take (offset (i + 1) - position_of i (start_of k0 l `max` 1)) (drop (position_of i (start_of k0 l `max` 1)) whole)) (offset (i + 1))) as Hr by (by apply Rd_more).
  - done.
  - eapply Rd_again; [exact Hr|exists i; split; [by apply Hlag|done]|]. destruct (whole_split i) as (? & ? & _ & _ & ->). lia.
Qed.
End Slice.

(** ** From the pipeline to the replica *)

Section Replica.
Context (h : list snapshot) (final : snapshot) (env : nat -> World) (seen : nat -> nat).
Context (gtid_mod : bool) (exclude : gtid_map) (flag : Z).
Context (Hexclude : Forall (fun e : bytes * GtidMessage => is_Some (gtid_uuid e.2)) exclude).
Context (heartbeat_interval_us : Z) (master_heartbeat_period master_binlog_checksum : bytes).

(** What has been sent of the transactions is what a reader of [evs] has read who reads on
    from some place, and who only goes back from the end of a file to its start, and that
    only when the index was behind; with excluded GTIDs, events of it may be missing.  When
    the index was never seen behind, it is one part of [evs]. *)
Definition replicated (evs : list ObLogEvent) (s : BinlogDumper) : Prop :=
  exists E P a b, Forall2 (wire crc32) E (omap event_of (bd_sent s)) /\
    sublist (payload E) P /\ (filtering gtid_mod exclude = false -> payload E = P) /\
    reading (resend h final seen) evs a P b /\
    ((forall i, ~ lags h final seen i) -> exists x y, x ++ P ++ y = evs).

Lemma sublist_payload a b : sublist a b -> sublist (payload a) (payload b).
Proof.
  induction 1 as [|x a b _ IH|x a b _ IH]; [done|..]; unfold payload in *; rewrite !filter_cons.
  - destruct (decide _); [by constructor|done].
  - destruct (decide _); [by constructor|done].
Qed.

Lemma reading_part evs a P b : reading (resend h final seen) evs a P b -> (forall i, ~ lags h final seen i) -> exists x y, x ++ P ++ y = evs.
Proof.
  intros Hr Hn. apply reading_straight in Hr as [Hab ->]; [|intros x y (i & Hi & _); by destruct (Hn i)].
  exists (take a evs), (drop b evs). replace (drop b evs) with (drop (b - a) (drop a evs)) by (rewrite drop_drop; f_equal; lia). by rewrite !take_drop.
Qed.

Lemma delivered_replicated rel pos s :
  snap_ok final -> (forall i, log_ok cfg (log_of final i)) ->
  (forall j, lagging cfg (log_of final) env (rows_seen (h ++ [final]) seen) j -> lags h final seen j) ->
  delivered cfg crc32 (log_of final) gtid_mod exclude env (rows_seen (h ++ [final]) seen) rel pos s -> replicated (payload (mjoin (sn_files final))) s.
Proof.
  intros Hc Hl Hlag (E & Hw & [->|(i0 & k0 & l & i & k & (_ & Hk0 & _) & Hv & _ & (_ & Hs & Hf))]).
  - assert (reading (resend h final seen) (payload (mjoin (sn_files final))) 0 [] 0) as Hr by (constructor; lia).
    exists [], [], 0%nat, 0%nat. split; [done|]. split; [constructor|]. split; [done|]. split; [done|]. by eapply reading_part.
  - destruct (visits_reading h final seen Hc Hl env i0 k0 l i Hlag Hk0 Hv) as [_ Hr].
    destruct (part_slice final Hc Hl i (start_of k0 l) k) as [Hp Hle]. eapply Rd_more in Hr; [|exact Hle]. rewrite <-Hp, <-payload_app in Hr.
    eexists E, _, _, _. split; [done|]. split; [by apply sublist_payload|]. split; [intros Hoff; by rewrite (Hf Hoff)|]. split; [exact Hr|by eapply reading_part].
Qed.
End Replica.

(** A dumper that looks at the states the storage passes through. *)
Lemma served_dumper s l s' env seen gtid_mod exclude flag heartbeat_interval_us master_heartbeat_period master_binlog_checksum scan_fuel fuel dumper :
  snap_ok s -> evolves s l s' -> observes (l ++ [s']) env seen -> Forall (fun e : bytes * GtidMessage => is_Some (gtid_uuid e.2)) exclude ->
  fresh cfg crc32 (log_of s') gtid_mod exclude flag dumper -> (gtid_mod = true -> bd_start_pos dumper = BINLOG_MAGIC_SIZE) -> (2 <= scan_fuel)%nat ->
  let Q := replicated l s' seen gtid_mod exclude (payload (mjoin (sn_files s'))) in
  wp (run cfg crc32 heartbeat_interval_us master_heartbeat_period master_binlog_checksum env scan_fuel fuel) (fun _ => Q) Q dumper.
Proof.
  intros Hs Hev Hob Hex Hfr Hg Hsf Q. pose proof (evolves_history _ _ _ Hev Hs) as Hh. pose proof (history_env_ok l s' env seen Hh Hob) as Henv.
  assert (forall rel pos x, refined cfg crc32 (log_of s') gtid_mod exclude flag env (rows_seen (l ++ [s']) seen) rel pos x -> Q x) as HQ.
  { intros rel pos x Hx. eapply delivered_replicated; [by apply (final_ok l)|apply (log_of_ok l); done|intros j; by apply lagging_lags|]. by eapply refined_delivered. }
  eapply wp_mono; [by apply (run_refines cfg crc32 (log_of s') gtid_mod exclude flag Hex u cfg_ok _ _ _ env _ Henv scan_fuel fuel dumper Hfr Hg Hsf)|intros r x Hx; exact (HQ _ _ x Hx)|intros x Hx; exact (HQ _ _ x Hx)].
Qed.

(** C2: From the batches to the replica.  Batch after batch of events as the conversion makes
    them ([incoming], [plain]) goes through allocation, serialisation and storage without a
    crash, as long as there are numbers and positions left and the previous GTIDs fit the
    head of a file ([roomy]); all events but heartbeats and those before the restart point
    are kept; and a dumper that looks, at any pace, at the
    states the storage passes through meanwhile, one write at a time, has at every moment
    sent, of the transactions, what a reader has read who goes without gap or reordering
    through what the log held and what the batches brought, in the order of the batches, and
    who only ever goes back from the end of a file to its start, when the dumper has seen
    that file complete in the moment before the index is updated; when it has seen no such
    moment, what was sent is one part of the log without duplicate.  With excluded GTIDs,
    events may be left out. *)
Theorem replica_receives_batches batches s a b evs before :
  serving 0 s a evs before -> idle_batch b -> roomy batches a b (sn_disk s) -> Forall incoming (mjoin batches) -> Forall plain (mjoin batches) ->
  exists all a' b' l s', run_batches batches a b (sn_disk s) = Done (a', b', sn_disk s') /\ evolves s l s' /\
    erase <$> all = erase <$> mjoin batches /\ (fun ev => negb (is_filter ev)) <$> all = keeps a (mjoin batches) /\
    forall env seen gtid_mod exclude flag heartbeat_interval_us master_heartbeat_period master_binlog_checksum scan_fuel fuel dumper,
      observes (l ++ [s']) env seen -> Forall (fun e : bytes * GtidMessage => is_Some (gtid_uuid e.2)) exclude ->
      fresh cfg crc32 (log_of s') gtid_mod exclude flag dumper -> (gtid_mod = true -> bd_start_pos dumper = BINLOG_MAGIC_SIZE) -> (2 <= scan_fuel)%nat ->
      let Q := replicated l s' seen gtid_mod exclude (payload (mjoin (sn_files s)) ++ unfiltered all) in
      wp (run cfg crc32 heartbeat_interval_us master_heartbeat_period master_binlog_checksum env scan_fuel fuel) (fun _ => Q) Q dumper.
Proof.
  intros Hs Hb Hroom Hin Hpl. destruct (run_batches_evolve batches s a b evs before Hs Hb Hroom Hin Hpl) as (all & a' & b' & l & s' & evs' & before' & E & Hev & Hs' & Hm & He & Hp).
  exists all, a', b', l, s'. do 3 (split; [done|]). split; [by apply marked_all in Hm|]. intros env seen gm ex fl hi mp mc sf fuel dm Hob Hex Hfr Hg Hsf. rewrite <-Hp. by eapply served_dumper; [apply (sv_ok _ _ _ _ _ Hs)|..].
Qed.

End Service.

(** ** A concrete service *)

Definition v_cfg : storage_config := sample_config true.
Definition v_snap : snapshot := mkSnap sample_disk [sample_row] [sample_open].
Definition v_batches : list (list ObLogEvent) := [sample_events; sample_transaction].

Lemma v_core : snap_ok v_cfg sample_crc 1 v_snap.
Proof.
  split.
  - by_compute.
  - apply Forall_singleton. split; [by_compute|by_compute| |].
    + eexists _, _, _, _, _. split; [reflexivity|]. split; [|reflexivity]. split; [by eexists|by_compute].
    + intros [|[|k]] ev Hk; [injection Hk as <-; by vm_compute..|done].
  - intros [|j] evs; [|done]. intros [= <-]. apply holds_kept. exact (di_holds _ _ _ _ _ _ sample_disk_inv).
  - intros i f Hi Hf. destruct (decide (i = 1)) as [->|]; [by_compute|]. unfold v_snap, sample_disk in Hf. cbn [sn_disk st_files] in Hf.
    apply lookup_singleton_Some in Hf as [E _]. apply path_inj in E; unfold LLONG_MAX in *; lia.
  - unfold v_snap, sample_disk. cbn [sn_disk st_files]. apply lookup_singleton_ne. by vm_compute.
  - exact (di_index _ _ _ _ _ _ sample_disk_inv).
  - exists 1. split; [lia|]. split; [done|]. split; [by_compute|]. intros [|n] r; [intros [= <-]; by_compute|done].
Qed.

Lemma v_serving : serving v_cfg sample_crc 1 0 v_snap sample_allocator sample_open [].
Proof.
  assert (~ complete sample_open) as Hn by (intros (ev & [= <-] & H); by vm_compute in H).
  split; [exact v_core|split; [exact v_core|exact sample_disk_inv|done..]|done|split; by_compute|vm_compute; reflexivity].
Qed.

Definition v_ran : Allocator * SerializeEvent * Disk :=
  match run_batch v_cfg sample_crc sample_events sample_allocator idle sample_disk with
  | Done x => x
  | Crash => (sample_allocator, idle, sample_disk)
  end.
Definition v_allocator : Allocator := Eval vm_compute in v_ran.1.1.
Definition v_batch : SerializeEvent := Eval vm_compute in v_ran.1.2.

Lemma v_roomy : roomy v_cfg sample_crc v_batches sample_allocator idle sample_disk.
Proof.
  cbn [v_batches roomy]. split; [split; [split; by_compute|by_compute..|]|].
  { vm_compute. repeat (apply Forall_cons; split; [done|]). by apply Forall_nil. }
  replace (run_batch v_cfg sample_crc sample_events sample_allocator idle sample_disk) with (Done (v_allocator, v_batch, v_ran.2)) by (vm_compute; reflexivity).
  split; [split; [split; by_compute|by_compute..|]|].
  { vm_compute. repeat (apply Forall_cons; split; [done|]). by apply Forall_nil. }
  by destruct (run_batch _ _ _ _ _ _) as [[[]]|].
Qed.

(** A dumper that sees one more state of the history at each look. *)
Definition v_seen (h : list snapshot) (t : nat) : nat := (t `min` pred (length h))%nat.
Definition v_env (h : list snapshot) (t : nat) : World :=
  let s := default v_snap (h !! v_seen h t) in mkWorld (st_files (sn_disk s)) (st_index (sn_disk s)) true false true.

Lemma v_observes h s : observes (h ++ [s]) (v_env (h ++ [s])) (v_seen (h ++ [s])).
Proof.
  split; [unfold v_seen; lia| |done|done]. intros t.
  destruct (lookup_lt_is_Some_2 (h ++ [s]) (v_seen (h ++ [s]) t)) as [x Hx]; [unfold v_seen; rewrite length_app; cbn; lia|].
  exists x. split; [done|]. unfold v_env. by rewrite Hx.
Qed.

Lemma v_fresh log : fresh v_cfg sample_crc log false [] 0 (s_dumper false [] 0 (binlog_name v_cfg 1) 4).
Proof.
  split; [split; [reflexivity|split; [reflexivity|split; [reflexivity|constructor]]]|reflexivity|reflexivity|].
  right. exists 1, 0%nat. split; [unfold LLONG_MAX; lia|]. split; [lia|]. split; [reflexivity|]. split; reflexivity.
Qed.

Lemma replica_receives_batches_witness :
  exists all a' b' l s', run_batches v_cfg sample_crc v_batches sample_allocator idle sample_disk = Done (a', b', sn_disk s') /\
    evolves v_cfg sample_crc 1 v_snap l s' /\ erase <$> all = erase <$> mjoin v_batches /\ Forall (fun ev => is_filter ev = false) all /\
    let Q := replicated v_cfg sample_crc 1 l s' (v_seen (l ++ [s'])) false [] (payload (mjoin [sample_open]) ++ unfiltered all) in
    wp (run v_cfg sample_crc 0 [] [] (v_env (l ++ [s'])) 2 100) (fun _ => Q) Q (s_dumper false [] 0 (binlog_name v_cfg 1) 4).
Proof.
  destruct (replica_receives_batches v_cfg sample_crc sample_uuid sample_config_ok 1 v_batches v_snap sample_allocator idle sample_open [])
    as (all & a' & b' & l & s' & E & Hev & He & Hk & H).
  - exact v_serving.
  - by_compute.
  - exact v_roomy.
  - by_compute.
  - by_compute.
  - exists all, a', b', l, s'. do 3 (split; [done|]). split; [|apply (H _ _ false [] 0 _ _ _ _ _ _ (v_observes l s') (Forall_nil_2 _)); [|done|lia]; exact (v_fresh _)].
    apply Forall_lookup. intros n ev Hn. apply (f_equal (fun l => l !! n)) in Hk. rewrite list_lookup_fmap, Hn in Hk.
    change (keeps sample_allocator (mjoin v_batches)) with (replicate (length (mjoin v_batches)) true) in Hk. symmetry in Hk.
    apply lookup_replicate in Hk as [Hk _]. by destruct (is_filter ev).
Defined.

(** Run, with the dumper at the end: both files, all five transactions. *)
Example v_dump :
  match run_batches v_cfg sample_crc v_batches sample_allocator idle sample_disk with
  | Done (_, _, d) =>
      kinds (run v_cfg sample_crc 0 [] [] (fun _ => mkWorld (st_files d) (st_index d) true false true) 2 40 (s_dumper false [] 0 (binlog_name v_cfg 1) 4))
      = Some (true, [0; 15; 35; 33; 2; 16; 33; 2; 16; 33; 2; 16; 4; -1; 0; 15; 35; 33; 2; 16; 33; 2; 16; -1])
  | Crash => False
  end.
Proof. vm_compute. reflexivity. Qed.
