(* ===== verification/DataType.v ===== *)
(** * Column values

    [src/src/binlog/data_type.cpp]: the metadata of a column in a table map event, the bytes
    of a value in a rows event for every column type, and the images of a row.  Values are
    read back the way a replica reads them, from the metadata and the bytes. *)

From S2P Require Import Prelude Bytes Str Json Decimal Temporal Floats Events.

#[local] Open Scope Z_scope.

(** ** Types *)

Definition OB_TYPE_DECIMAL : Z := 0.
Definition OB_TYPE_TINY : Z := 1.
Definition OB_TYPE_SHORT : Z := 2.
Definition OB_TYPE_LONG : Z := 3.
Definition OB_TYPE_FLOAT : Z := 4.
Definition OB_TYPE_DOUBLE : Z := 5.
Definition OB_TYPE_NULL : Z := 6.
Definition OB_TYPE_TIMESTAMP : Z := 7.
Definition OB_TYPE_LONGLONG : Z := 8.
Definition OB_TYPE_INT24 : Z := 9.
Definition OB_TYPE_DATE : Z := 10.
Definition OB_TYPE_TIME : Z := 11.
Definition OB_TYPE_DATETIME : Z := 12.
Definition OB_TYPE_YEAR : Z := 13.
Definition OB_TYPE_NEWDATE : Z := 14.
Definition OB_TYPE_VARCHAR : Z := 15.
Definition OB_TYPE_BIT : Z := 16.
Definition OB_TYPE_TIMESTAMP2 : Z := 17.
Definition OB_TYPE_DATETIME2 : Z := 18.
Definition OB_TYPE_TIME2 : Z := 19.
Definition OB_TYPE_JSON : Z := 245.
Definition OB_TYPE_NEWDECIMAL : Z := 246.
Definition OB_TYPE_ENUM : Z := 247.
Definition OB_TYPE_SET : Z := 248.
Definition OB_TYPE_TINY_BLOB : Z := 249.
Definition OB_TYPE_MEDIUM_BLOB : Z := 250.
Definition OB_TYPE_LONG_BLOB : Z := 251.
Definition OB_TYPE_BLOB : Z := 252.
Definition OB_TYPE_VAR_STRING : Z := 253.
Definition OB_TYPE_STRING : Z := 254.
Definition OB_TYPE_GEOMETRY : Z := 255.

Definition one_of (x : Z) (l : list Z) : bool := bool_decide (x ∈ l).

(** ** Helpers *)

Definition fixed_len (len : Z) : Z := u64 (len + 7) `div` 8.

Definition any_string_equal (s : bytes) (strings : list string) : bool := existsb (fun t => strcasecmp_eq (str t) s) strings.
Definition charset_encoding_bytes (charset : bytes) : Z :=
  match charset with
  | [] => 4
  | _ =>
      if any_string_equal charset ["dec8"; "cp850"; "hp8"; "koi8r"; "latin1"; "latin2"; "swe7"; "ascii"; "hebrew"; "tis620"; "koi8u"; "greek"; "cp1250"; "latin5"; "armscii8"; "cp866"; "keybcs2"; "macce"; "macroman"; "cp852"; "latin7"; "cp1251"; "cp1256"; "cp1257"; "binary"; "geostd8"]%string then 1
      else if any_string_equal charset ["big5"; "sjis"; "euckr"; "gb2312"; "gbk"; "ucs2"; "cp932"]%string then 2
      else if any_string_equal charset ["ujis"; "utf8"; "eucjpms"]%string then 3
      else if any_string_equal charset ["utf8mb4"; "utf16"; "utf16le"; "utf32"; "gb18030"]%string then 4
      else 4
  end.

(** [std::stoull]: a negative number wraps; [None] is the exception. *)
Definition stoull (s : bytes) : option Z :=
  let '(v, ok) := read_number s in if ok && (Z.abs v <? 2 ^ 64) then Some (u64 v) else None.

(** [std::bitset]: the characters of [to_string], the most significant first. *)
Definition bitset_string (n : nat) (v : Z) : list bool := rev ((fun i => Z.testbit v (Z.of_nat i)) <$> seq 0 n).
Definition to_ulong (l : list bool) : Z := foldl (fun a b => 2 * a + Z.b2z b) 0 l.
(** The loop over the string in steps of eight. *)
Fixpoint bit_bytes (n : nat) (real : list bool) : bytes :=
  match n with O => [] | S n => u8 (to_ulong (take 8 real)) :: bit_bytes n (drop 8 real) end.

Section Columns.
Context (ndebug : bool).

(** ** Column metadata *)

Definition set_column_metadata (col_meta : IColMeta) : outcome bytes :=
  let col_len := getLength col_meta in let ty := getType col_meta in
  if ty =? OB_TYPE_BIT then Done (int1store (Z.rem (getPrecision col_meta) 8) ++ int1store (Z.quot (getPrecision col_meta) 8))
  else if ty =? OB_TYPE_FLOAT then Done (int1store (if 24 <? getPrecision col_meta then 8 else 4))
  else if ty =? OB_TYPE_DOUBLE then Done (int1store 8)
  else if ty =? OB_TYPE_STRING then
    let col_len := col_len * charset_encoding_bytes (getEncoding col_meta) in
    Done [u8 (Z.lxor ty (Z.shiftr (Z.land col_len 0x300) 4)); u8 col_len]
  else if (ty =? OB_TYPE_VAR_STRING) || (ty =? OB_TYPE_VARCHAR) then Done (int2store (col_len * charset_encoding_bytes (getEncoding col_meta)))
  else if (ty =? OB_TYPE_DECIMAL) || (ty =? OB_TYPE_NEWDECIMAL) then
    assert_ ndebug ((0 <=? getScale col_meta) && (0 <=? getPrecision col_meta));;
    Done (int1store (getPrecision col_meta) ++ int1store (getScale col_meta))
  else if ty =? OB_TYPE_ENUM then Done [OB_TYPE_ENUM; if 255 <? zlen (getValuesOfEnumSet col_meta) then 2 else 1]
  else if ty =? OB_TYPE_SET then Done [OB_TYPE_SET; u8 (fixed_len (zlen (getValuesOfEnumSet col_meta)))]
  else if ty =? OB_TYPE_TINY_BLOB then Done [1]
  else if ty =? OB_TYPE_MEDIUM_BLOB then Done [3]
  else if one_of ty [OB_TYPE_JSON; OB_TYPE_LONG_BLOB; OB_TYPE_GEOMETRY] then Done [4]
  else if ty =? OB_TYPE_BLOB then Done [2]
  else if one_of ty [OB_TYPE_TIMESTAMP; OB_TYPE_DATETIME; OB_TYPE_TIME] then Done [u8 (getScale col_meta)]
  else Done [].

(** ** Values: the number of bytes returned, and the chunks appended *)

Definition binary_to_hex (binary : bytes) (len : Z) : outcome bytes :=
  v ← of_option (stoull binary);
  if 8 <? len then Crash (* [substr] throws *)
  else Done (bit_bytes (Z.to_nat len) (drop (Z.to_nat (64 - len * 8)) (bitset_string 64 v))).

Definition convert_binlog_bit (col_meta : IColMeta) (data : bytes) : outcome (Z * list bytes) :=
  let col_len := u64 (getPrecision col_meta) in
  let col_len := if col_len <=? 0 then zlen data else col_len in
  let len := u64 (col_len + 7) `div` 8 in
  buff ← binary_to_hex (cstr data) len;
  Done (len, [buff]).

Definition convert_binlog_var_string (col_meta : IColMeta) (data : bytes) : outcome (Z * list bytes) :=
  let col_len := u64 (u64 (getLength col_meta) * charset_encoding_bytes (getEncoding col_meta)) in
  let size := if 255 <? col_len then int2store (zlen data) else int1store (zlen data) in
  Done (zlen size + zlen data, [size ++ data]).

(** [memcmp] against the text of the value: it ends at the first difference, which is at
    the terminating zero at the latest. *)
Definition same_start (element data : bytes) : bool := beq (first (zlen element) (data ++ [0])) element.

Fixpoint enum_index (array : list bytes) (data : bytes) (i : Z) : option Z :=
  match array with
  | [] => None
  | e :: array => if same_start e data then Some i else enum_index array data (i + 1)
  end.
Definition convert_binlog_enum (col_meta : IColMeta) (data : bytes) : outcome (Z * list bytes) :=
  let array := getValuesOfEnumSet col_meta in
  match enum_index array data 0 with
  | Some i => let buff := if zlen array <? 256 then int1store (i + 1) else int2store (i + 1) in Done (zlen buff, [buff])
  | None => Done (0, [[]])
  end.

(** [bitmap.set(i)] throws beyond 64 bits. *)
Fixpoint set_bits (array set : list bytes) (i bitmap : Z) : outcome Z :=
  match array with
  | [] => Done bitmap
  | e :: array =>
      if existsb (same_start e) set then (if i <? 64 then set_bits array set (i + 1) (Z.setbit bitmap i) else Crash)
      else set_bits array set (i + 1) bitmap
  end.
Definition convert_binlog_set (col_meta : IColMeta) (data : bytes) : outcome (Z * list bytes) :=
  let array := getValuesOfEnumSet col_meta in
  let set := split (cstr data) 44 false in
  let bitmap_len := fixed_len (zlen array) in
  bitmap ← set_bits array (cstr <$> set) 0 0;
  if 8 <? bitmap_len then Crash (* [substr] throws *)
  else
    let real := drop (Z.to_nat (64 - bitmap_len * 8)) (bitset_string 64 bitmap) in
    Done (bitmap_len, [rev (bit_bytes (Z.to_nat bitmap_len) real)]).

(** [std::stoull] of the text, cut to the width of the column. *)
Definition int_two_complement (len : Z) (data : bytes) : outcome bytes :=
  num ← of_option (stoull (cstr data)); Done (int_variable_store num len).
Definition convert_binlog_integer (len : Z) (data : bytes) : outcome (Z * list bytes) :=
  buff ← int_two_complement len data; Done (len, [buff]).
Definition convert_binlog_tiny : bytes -> outcome (Z * list bytes) := convert_binlog_integer 1.
Definition convert_binlog_short : bytes -> outcome (Z * list bytes) := convert_binlog_integer 2.
Definition convert_binlog_int24 : bytes -> outcome (Z * list bytes) := convert_binlog_integer 3.
Definition convert_binlog_long : bytes -> outcome (Z * list bytes) := convert_binlog_integer 4.
Definition convert_binlog_longlong : bytes -> outcome (Z * list bytes) := convert_binlog_integer 8.

Definition convert_binlog_tiny_blob (data : bytes) : outcome (Z * list bytes) := Done (1 + zlen data, [int1store (zlen data) ++ data]).
Definition convert_binlog_blob (data : bytes) : outcome (Z * list bytes) := Done (2 + zlen data, [int2store (zlen data) ++ data]).
Definition convert_binlog_medium_blob (data : bytes) : outcome (Z * list bytes) := Done (3 + zlen data, [int3store (zlen data) ++ data]).
Definition convert_binlog_long_blob (data : bytes) : outcome (Z * list bytes) := Done (4 + zlen data, [int4store (zlen data) ++ data]).

(** ** External formats *)

(** [Parse]: rapidjson; [createFromWkt]: OGR, the WKB form (little-endian) of a geometry;
    [alloc]: what is in a block that [malloc] returns. *)
Context (Parse : bytes -> option json) (createFromWkt : bytes -> option bytes) (alloc : Z -> bytes).

Definition convert_binlog_json (data : bytes) (is_json_diff : bool) : outcome (Z * list bytes) :=
  json ← (if is_json_diff then parse_json_diff Parse (cstr data) else Done (parser Parse (cstr data)));
  Done (4 + zlen json, [int4store (zlen json); json]).

(** The SRID in front of the first semicolon, behind five characters; [std::istringstream]
    reads an [int].  [None]: [OMS_FAILED]. *)
Definition parse_ewkt (ewkt : bytes) : outcome (option (Z * bytes)) :=
  match list_find (fun c => c = 59) ewkt with
  | None => Done (Some (0, ewkt))
  | Some (pos, _) =>
      let pos := Z.of_nat pos in
      if zlen ewkt <? 5 then Crash (* [substr] throws *)
      else
        let srid_str := if pos <? 5 then skip 5 ewkt else first (pos - 5) (skip 5 ewkt) in
        Done (srid ← stoi srid_str; Some (srid, skip (pos + 1) ewkt))
  end.

(** [OMS_FAILED], returned as a size. *)
Definition failed_size : Z := u64 (-1).
Definition convert_wkt_to_wkb (data : bytes) : outcome (Z * list bytes) :=
  r ← parse_ewkt (cstr data);
  match r with
  | None => Done (failed_size, [])
  | Some (srid, wkt) =>
      match createFromWkt wkt with
      | None => Done (failed_size, [])
      | Some wkb => Done (4 + zlen wkb + 4, [int4store (zlen wkb + 4) ++ int4store srid ++ wkb])
      end
  end.
Definition convert_binlog_geometry : bytes -> outcome (Z * list bytes) := convert_wkt_to_wkb.

Definition get_column_val_bytes (col_meta : IColMeta) (data : bytes) (is_json_diff : bool) : outcome (Z * list bytes) :=
  let ty := getType col_meta in
  if ty =? OB_TYPE_BIT then convert_binlog_bit col_meta data
  else if ty =? OB_TYPE_FLOAT then convert_binlog_float col_meta data
  else if ty =? OB_TYPE_DOUBLE then convert_binlog_double data
  else if one_of ty [OB_TYPE_STRING; OB_TYPE_VAR_STRING; OB_TYPE_VARCHAR] then convert_binlog_var_string col_meta data
  else if one_of ty [OB_TYPE_DECIMAL; OB_TYPE_NEWDECIMAL] then convert_binlog_decimal alloc ndebug col_meta data
  else if ty =? OB_TYPE_ENUM then convert_binlog_enum col_meta data
  else if ty =? OB_TYPE_SET then convert_binlog_set col_meta data
  else if ty =? OB_TYPE_TINY_BLOB then convert_binlog_tiny_blob data
  else if ty =? OB_TYPE_MEDIUM_BLOB then convert_binlog_medium_blob data
  else if ty =? OB_TYPE_LONG_BLOB then convert_binlog_long_blob data
  else if ty =? OB_TYPE_BLOB then convert_binlog_blob data
  else if ty =? OB_TYPE_TINY then convert_binlog_tiny data
  else if ty =? OB_TYPE_NULL then Done (1, [])
  else if ty =? OB_TYPE_TIMESTAMP then convert_binlog_timestamp alloc ndebug col_meta data
  else if ty =? OB_TYPE_LONGLONG then convert_binlog_longlong data
  else if ty =? OB_TYPE_INT24 then convert_binlog_int24 data
  else if one_of ty [OB_TYPE_DATE; OB_TYPE_NEWDATE] then convert_binlog_date ndebug data
  else if ty =? OB_TYPE_TIME then convert_binlog_time alloc ndebug col_meta data
  else if ty =? OB_TYPE_DATETIME then convert_binlog_datetime alloc ndebug col_meta data
  else if ty =? OB_TYPE_YEAR then convert_binlog_year ndebug data
  else if ty =? OB_TYPE_SHORT then convert_binlog_short data
  else if ty =? OB_TYPE_LONG then convert_binlog_long data
  else if ty =? OB_TYPE_JSON then convert_binlog_json data is_json_diff
  else if ty =? OB_TYPE_GEOMETRY then convert_binlog_geometry data
  else Done (0, []).

(** ** Row images *)

(** What the conversion asks of [ITableMeta] and [ILogRecord]; a column is [None] when its
    pointer is null, and a new value comes with the mark of a JSON diff. *)
End Columns.

Record ITableMeta := mkTableMeta { getName : bytes; getCols : list IColMeta }.
Inductive RecordType := EBEGIN | ECOMMIT | EDDL | EINSERT | EDELETE | EUPDATE | HEARTBEAT | Unsupported (type : Z).
#[export] Instance RecordType_eq_dec : EqDecision RecordType.
Proof. solve_decision. Defined.
Record ILogRecord := mkRecord {
  recordType : RecordType;
  isParsedRecord : bool;
  parsedOldCols : list (option bytes);
  oldCols : list (option bytes);
  parsedNewCols : list (option bytes);
  newCols : list (option bytes * bool);
  parsedNewValueDiff : list bool;
  getTableMeta : ITableMeta;
  tbname : bytes;
  dbname : bytes;
  getTimestamp : Z;
  getRecordUsec : Z;
  getCheckpoint1 : Z;
  getCheckpoint2 : Z;
  getThreadId : Z;
  filterValues : option (list bytes)
}.

Definition fill_bitmap (col_count col_bytes : Z) (bitmap : bytes) : outcome bytes :=
  bitmap ← heap_write 0 (replicate (Z.to_nat (Z.quot col_count 8)) 0) bitmap;
  if Z.quot col_count 8 =? u64 (col_bytes - 1) then heap_write (col_bytes - 1) [u8 (Z.shiftl 0xFF (Z.rem col_count 8))] bitmap else Done bitmap.

(** [bitmap[i / 8] |= 1 << (i % 8)] *)
Definition mark_bit (i : Z) (bitmap : bytes) : outcome bytes :=
  b ← heap_read (i `div` 8) 1 bitmap;
  heap_write (i `div` 8) [u8 (Z.lor (le_combine b) (Z.shiftl 1 (i `mod` 8)))] bitmap.

Section Rows.
Context (ndebug : bool) (Parse : bytes -> option json) (createFromWkt : bytes -> option bytes) (alloc : Z -> bytes).

(** Null bitmap, position and chunks of an image. *)
Definition image : Type := bytes * Z * list bytes.
Definition add_value (col : IColMeta) (data : bytes) (is_json_diff : bool) (im : image) : outcome image :=
  let '(bitmap, pos, val) := im in
  '(n, chunks) ← get_column_val_bytes ndebug Parse createFromWkt alloc col data is_json_diff;
  Done (bitmap, u64 (pos + n), val ++ chunks).
Definition add_null (i : Z) (im : image) : outcome image :=
  let '(bitmap, pos, val) := im in bitmap ← mark_bit i bitmap; Done (bitmap, pos, val).

Fixpoint before_loop (cols : list IColMeta) (vals : list (option bytes)) (i : nat) (im : image) : outcome image :=
  match cols with
  | [] => Done im
  | col :: cols =>
      data ← at_ vals i;
      im ← (match data with None => add_null (Z.of_nat i) im | Some data => add_value col data false im end);
      before_loop cols vals (S i) im
  end.
Definition serialize_before (record : ILogRecord) (table_meta : ITableMeta) (im : image) : outcome image :=
  before_loop (getCols table_meta) (if isParsedRecord record then parsedOldCols record else oldCols record) 0 im.

(** The image, the bitmap of partial columns, the next JSON column, and whether there was a
    diff. *)
Record after_state := mkAfter { af_image : image; af_partial : option bytes; af_json_index : Z; af_any_diff : bool }.

Definition new_value (record : ILogRecord) (i : nat) : outcome (option bytes * bool) :=
  if isParsedRecord record then data ← at_ (parsedNewCols record) i; d ← at_ (parsedNewValueDiff record) i; Done (data, d)
  else at_ (newCols record) i.

Fixpoint after_loop (record : ILogRecord) (ty : RowsEventType) (cols : list IColMeta) (i : nat) (s : after_state) : outcome after_state :=
  match cols with
  | [] => Done s
  | col :: cols =>
      '(data, is_json_diff) ← new_value record i;
      '(im, is_json_diff) ←
        (match data with
         | None => im ← add_null (Z.of_nat i) (af_image s); Done (im, false)
         | Some data =>
             let is_json_diff := bool_decide (ty = UPDATE) && is_json_diff in
             im ← add_value col data is_json_diff (af_image s); Done (im, is_json_diff)
         end);
      s ←
        (if getType col =? OB_TYPE_JSON then
           match is_json_diff, af_partial s with
           | true, Some p => p ← mark_bit (af_json_index s) p; Done (mkAfter im (Some p) (af_json_index s + 1) true)
           | _, _ => Done (mkAfter im (af_partial s) (af_json_index s + 1) (af_any_diff s))
           end
         else Done (mkAfter im (af_partial s) (af_json_index s) (af_any_diff s)));
      after_loop record ty cols (S i) s
  end.
Definition serialize_after (record : ILogRecord) (table_meta : ITableMeta) (ty : RowsEventType) (im : image) (partial : option bytes) : outcome after_state :=
  after_loop record ty (getCols table_meta) 0 (mkAfter im partial 0 false).

Definition json_col_count (cols : list IColMeta) : Z := zlen (filter (fun col => getType col = OB_TYPE_JSON) cols).

(** Both images, the bitmap of partial columns with its size, and the bytes of the values. *)
Definition col_val_bytes (record : ILogRecord) (table_meta : ITableMeta) (ty : RowsEventType) (before after : image) : outcome (image * image * option bytes * Z) :=
  before ← (if bool_decide (ty = INSERT) then Done before else serialize_before record table_meta before);
  let count := json_col_count (getCols table_meta) in
  '(partial, partial_cols_bytes) ←
    (if bool_decide (ty = UPDATE) && negb (count =? 0) then
       let n := (count + 7) `div` 8 in p ← fill_bitmap count n (alloc n); Done (Some p, n)
     else Done (None, 0));
  s ← (if bool_decide (ty = DELETE) then Done (mkAfter after partial 0 false) else serialize_after record table_meta ty after partial);
  let '(partial, partial_cols_bytes) := if af_any_diff s then (af_partial s, partial_cols_bytes) else (None, match af_partial s with None => partial_cols_bytes | _ => 0 end) in
  Done (before, af_image s, partial, partial_cols_bytes).
End Rows.
