(* ===== verification/RowImage.v ===== *)
(** * Row images, read by a replica

    What a replica makes of the metadata of a column and of the bytes of its values, after
    the formats of MySQL, and the theorems that the conversions of [DataType] write values
    that it reads back: column by column, and for the whole image of a row with its null
    bitmap. *)

From S2P Require Import Prelude Bytes Str Json Decimal Temporal Floats Events DataType.

#[local] Open Scope Z_scope.

(** ** The types of a table map event *)

(** The [switch] of [parallel_convert_table_map_event]. *)
Definition col_data_type (col_meta : IColMeta) : Z :=
  let ty := getType col_meta in
  if one_of ty [OB_TYPE_TINY_BLOB; OB_TYPE_MEDIUM_BLOB; OB_TYPE_LONG_BLOB; OB_TYPE_BLOB] then OB_TYPE_BLOB
  else if ty =? OB_TYPE_VAR_STRING then OB_TYPE_VARCHAR
  else if ty =? OB_TYPE_DATETIME then OB_TYPE_DATETIME2
  else if ty =? OB_TYPE_TIME then OB_TYPE_TIME2
  else if ty =? OB_TYPE_TIMESTAMP then OB_TYPE_TIMESTAMP2
  else if one_of ty [OB_TYPE_ENUM; OB_TYPE_SET] then OB_TYPE_STRING
  else if (ty =? OB_TYPE_FLOAT) && (24 <? getPrecision col_meta) then OB_TYPE_DOUBLE
  else ty.

(** ** Reading values *)

Inductive cell :=
| VInt (v : Z) | VRaw (b : bytes) | VDecimal (v : bool * Z) | VText (b : bytes) | VEnum (i : Z) | VSet (bits : Z) | VBit (v : Z)
| VTime (packed : Z) | VDatetime (v : Z * Z * Z * (Z * Z * Z) * Z) | VTimestamp (v : Z * Z) | VDate (v : Z * Z * Z) | VYear (v : Z)
| VJson (v : json) | VGeometry (srid : Z) (wkb : bytes).

(** Metadata of a type: how many bytes it has. *)
Definition metadata_len (ty : Z) : Z :=
  if one_of ty [OB_TYPE_BIT; OB_TYPE_STRING; OB_TYPE_VARCHAR; OB_TYPE_DECIMAL; OB_TYPE_NEWDECIMAL] then 2
  else if one_of ty [OB_TYPE_FLOAT; OB_TYPE_DOUBLE; OB_TYPE_BLOB; OB_TYPE_JSON; OB_TYPE_GEOMETRY; OB_TYPE_TIMESTAMP2; OB_TYPE_DATETIME2; OB_TYPE_TIME2] then 1
  else 0.

Definition byte_at (i : nat) (b : bytes) : Z := match b !! i with Some x => x | None => 0 end.
(** A length in front of the value. *)
Definition prefixed (k : Z) (b : bytes) : Z := k + le_combine (first k b).
(** The type inside the metadata of a STRING column, and its maximal length. *)
Definition max_string_length (meta : bytes) : Z := Z.lxor (Z.land (Z.shiftl (byte_at 0 meta) 4) 0x300) 0x300 + byte_at 1 meta.
Definition decimal_len (precision scale : Z) : Z := sum (snd <$> layout precision scale).

(** How many bytes a value takes. *)
Definition value_len (ty : Z) (meta b : bytes) : Z :=
  if one_of ty [OB_TYPE_TINY; OB_TYPE_YEAR] then 1
  else if ty =? OB_TYPE_SHORT then 2
  else if one_of ty [OB_TYPE_INT24; OB_TYPE_DATE; OB_TYPE_NEWDATE] then 3
  else if one_of ty [OB_TYPE_LONG; OB_TYPE_FLOAT] then 4
  else if one_of ty [OB_TYPE_LONGLONG; OB_TYPE_DOUBLE] then 8
  else if ty =? OB_TYPE_VARCHAR then prefixed (if 255 <? le_combine meta then 2 else 1) b
  else if ty =? OB_TYPE_STRING then
    (if one_of (byte_at 0 meta) [OB_TYPE_ENUM; OB_TYPE_SET] then byte_at 1 meta
     else prefixed (if 255 <? max_string_length meta then 2 else 1) b)
  else if one_of ty [OB_TYPE_BLOB; OB_TYPE_JSON; OB_TYPE_GEOMETRY] then prefixed (byte_at 0 meta) b
  else if one_of ty [OB_TYPE_DECIMAL; OB_TYPE_NEWDECIMAL] then decimal_len (byte_at 0 meta) (byte_at 1 meta)
  else if ty =? OB_TYPE_BIT then (byte_at 0 meta + 8 * byte_at 1 meta + 7) `div` 8
  else if ty =? OB_TYPE_TIMESTAMP2 then 4 + remainder_switch (byte_at 0 meta)
  else if ty =? OB_TYPE_TIME2 then 3 + remainder_switch (byte_at 0 meta)
  else if ty =? OB_TYPE_DATETIME2 then 5 + remainder_switch (byte_at 0 meta)
  else 0.

Definition decode_cell (fuel : nat) (ty : Z) (meta v : bytes) : option cell :=
  if one_of ty [OB_TYPE_TINY; OB_TYPE_SHORT; OB_TYPE_INT24; OB_TYPE_LONG; OB_TYPE_LONGLONG] then Some (VInt (le_combine v))
  else if one_of ty [OB_TYPE_FLOAT; OB_TYPE_DOUBLE] then Some (VRaw v)
  else if ty =? OB_TYPE_YEAR then Some (VYear (read_year v))
  else if one_of ty [OB_TYPE_DATE; OB_TYPE_NEWDATE] then Some (VDate (read_date v))
  else if ty =? OB_TYPE_VARCHAR then Some (VText (skip (if 255 <? le_combine meta then 2 else 1) v))
  else if ty =? OB_TYPE_STRING then
    (if byte_at 0 meta =? OB_TYPE_ENUM then Some (VEnum (le_combine v))
     else if byte_at 0 meta =? OB_TYPE_SET then Some (VSet (le_combine v))
     else Some (VText (skip (if 255 <? max_string_length meta then 2 else 1) v)))
  else if ty =? OB_TYPE_BLOB then Some (VText (skip (byte_at 0 meta) v))
  else if ty =? OB_TYPE_JSON then VJson <$> read_document fuel (skip (byte_at 0 meta) v)
  else if ty =? OB_TYPE_GEOMETRY then let g := skip (byte_at 0 meta) v in Some (VGeometry (le_combine (first 4 g)) (skip 4 g))
  else if one_of ty [OB_TYPE_DECIMAL; OB_TYPE_NEWDECIMAL] then VDecimal <$> bin2decimal (byte_at 0 meta) (byte_at 1 meta) v
  else if ty =? OB_TYPE_BIT then Some (VBit (be_combine v))
  else if ty =? OB_TYPE_TIMESTAMP2 then Some (VTimestamp (read_timestamp (byte_at 0 meta) v))
  else if ty =? OB_TYPE_TIME2 then Some (VTime (read_time (byte_at 0 meta) v))
  else if ty =? OB_TYPE_DATETIME2 then Some (VDatetime (read_datetime (byte_at 0 meta) v))
  else None.

(** A value and what follows it. *)
Definition read_cell (fuel : nat) (ty : Z) (meta b : bytes) : option (cell * bytes) :=
  let n := value_len ty meta b in
  if (0 <=? n) && (n <=? zlen b) then v ← decode_cell fuel ty meta (first n b); Some (v, skip n b) else None.

(** ** Texts of values *)

Definition int_width (ty : Z) : Z :=
  if ty =? OB_TYPE_TINY then 1 else if ty =? OB_TYPE_SHORT then 2 else if ty =? OB_TYPE_INT24 then 3 else if ty =? OB_TYPE_LONG then 4 else if ty =? OB_TYPE_LONGLONG then 8 else 0.
Definition blob_width (ty : Z) : Z :=
  if ty =? OB_TYPE_TINY_BLOB then 1 else if ty =? OB_TYPE_BLOB then 2 else if ty =? OB_TYPE_MEDIUM_BLOB then 3 else if ty =? OB_TYPE_LONG_BLOB then 4 else 0.
Definition max_bytes (m : IColMeta) : Z := getLength m * charset_encoding_bytes (getEncoding m).

(** The members of a SET that a value has, in the order of the column. *)
Definition chosen (array : list bytes) (bits : list bool) : list bytes := (zip array bits) ≫= (fun p => if p.2 : bool then [p.1] else []).
Definition bits_value (bits : list bool) : Z := foldr (fun (b : bool) v => Z.b2z b + 2 * v) 0 bits.
(** No name is a prefix of another, names are not empty and have no comma and no NUL. *)
Definition set_names (array : list bytes) : Prop :=
  Forall (fun e => e <> [] /\ (0 ∉ e) /\ (44 ∉ e)) array /\ forall i j a b, array !! i = Some a -> array !! j = Some b -> a `prefix_of` b -> i = j.

Section Values.
Context (fuel : nat) (ndebug : bool) (Parse : bytes -> option json) (createFromWkt : bytes -> option bytes) (alloc : Z -> bytes).

(** [shows m c data]: [data] is the text of the value [c] of the column [m]. *)
Inductive shows (m : IColMeta) : cell -> bytes -> Prop :=
| shows_int neg ds : 0 < int_width (getType m) -> digits ds -> ds <> [] -> val ds < 256 ^ int_width (getType m) ->
    shows m (VInt ((if neg : bool then - val ds else val ds) `mod` 256 ^ int_width (getType m))) (sign_of neg ++ ds)
| shows_text data : one_of (getType m) [OB_TYPE_STRING; OB_TYPE_VAR_STRING; OB_TYPE_VARCHAR] = true -> 0 <= getLength m ->
    max_bytes m < (if getType m =? OB_TYPE_STRING then 1024 else 65536) -> zlen data <= max_bytes m -> shows m (VText data) data
| shows_blob data : 0 < blob_width (getType m) -> zlen data < 256 ^ blob_width (getType m) -> shows m (VText data) data
| shows_decimal neg ip fp : one_of (getType m) [OB_TYPE_DECIMAL; OB_TYPE_NEWDECIMAL] = true -> getPrecision m < 256 -> decimal_fits (getPrecision m) (getScale m) ip fp ->
    ndebug = true \/ zlen fp `mod` 9 = 0 -> shows m (VDecimal (neg, digits_val (ip ++ fp) 0)) (decimal_text neg ip fp)
| shows_enum i data : getType m = OB_TYPE_ENUM -> zlen (getValuesOfEnumSet m) < 65536 -> getValuesOfEnumSet m !! i = Some data -> (0 ∉ data) ->
    (forall j e, (j < i)%nat -> getValuesOfEnumSet m !! j = Some e -> (0 ∉ e) /\ ~ e `prefix_of` data) -> shows m (VEnum (Z.of_nat i + 1)) data
| shows_set bits : getType m = OB_TYPE_SET -> length bits = length (getValuesOfEnumSet m) -> zlen bits <= 64 -> set_names (getValuesOfEnumSet m) ->
    shows m (VSet (bits_value bits)) (intercalate 44 (chosen (getValuesOfEnumSet m) bits))
| shows_bit ds : getType m = OB_TYPE_BIT -> 0 < getPrecision m <= 64 -> digits ds -> ds <> [] -> val ds < 2 ^ getPrecision m -> shows m (VBit (val ds)) ds
| shows_timestamp s f : getType m = OB_TYPE_TIMESTAMP -> 0 <= getScale m <= 6 -> digits s -> s <> [] -> zlen s <= 18 -> val s < 2 ^ 32 -> fraction f ->
    shows m (VTimestamp (val s, frac_value (2 * remainder_switch (getScale m)) f * 10 ^ (6 - 2 * remainder_switch (getScale m)))) (timestamp_text s f)
| shows_time neg h mi s f : getType m = OB_TYPE_TIME -> 0 <= getScale m <= 6 -> field h 838 -> field mi 59 -> field s 59 -> fraction f ->
    neg = false \/ zlen f <= 2 * remainder_switch (getScale m) ->
    shows m (VTime ((if neg : bool then -1 else 1) * ((val h * 4096 + val mi * 64 + val s) * 2 ^ 24 + frac_value (2 * remainder_switch (getScale m)) f * 10 ^ (6 - 2 * remainder_switch (getScale m)))))
      (sign_of neg ++ time_text h mi s f)
| shows_datetime y mo d h mi s f : getType m = OB_TYPE_DATETIME -> 0 <= getScale m <= 6 -> field y 9999 -> field mo 12 -> field d 31 -> field h 23 -> field mi 59 -> field s 59 -> fraction f ->
    shows m (VDatetime (val y, val mo, val d, (val h, val mi, val s), frac_value (2 * remainder_switch (getScale m)) f * 10 ^ (6 - 2 * remainder_switch (getScale m)))) (datetime_text y mo d h mi s f)
| shows_date y mo d : one_of (getType m) [OB_TYPE_DATE; OB_TYPE_NEWDATE] = true -> field y 9999 -> field mo 12 -> field d 31 -> shows m (VDate (val y, val mo, val d)) (date_text y mo d)
| shows_year y : getType m = OB_TYPE_YEAR -> field y 2155 -> val y = 0 \/ 1901 <= val y -> shows m (VYear (val y)) y
| shows_float data f : getType m = OB_TYPE_FLOAT -> stod data = Some f -> shows m (VRaw (if 24 <? getPrecision m then double_bytes f else float_bytes (to_float f))) data
| shows_double data f : getType m = OB_TYPE_DOUBLE -> stod data = Some f -> shows m (VRaw (double_bytes f)) data
| shows_json data v : getType m = OB_TYPE_JSON -> Parse (cstr data) = Some v -> representable v -> (height v <= 99)%nat -> (height v <= fuel)%nat -> zlen (top_level v) < 2 ^ 32 ->
    shows m (VJson v) data
| shows_geometry data srid wkt wkb : getType m = OB_TYPE_GEOMETRY -> parse_ewkt (cstr data) = Done (Some (srid, wkt)) -> createFromWkt wkt = Some wkb -> zlen wkb + 4 < 2 ^ 32 ->
    shows m (VGeometry (u32 srid) wkb) data.

(** What a column promises: its metadata, and a value that a replica reads back. *)
Definition column_ok (m : IColMeta) (c : cell) (data : bytes) (is_json_diff : bool) : Prop :=
  exists meta chunks, set_column_metadata ndebug m = Done meta /\ zlen meta = metadata_len (col_data_type m) /\
    get_column_val_bytes ndebug Parse createFromWkt alloc m data is_json_diff = Done (zlen (mjoin chunks), chunks) /\
    forall rest, read_cell fuel (col_data_type m) meta (mjoin chunks ++ rest) = Some (c, rest).
End Values.

(** ** Reading a value back *)

Section Columns.
Context (fuel : nat) (ndebug : bool) (Parse : bytes -> option json) (createFromWkt : bytes -> option bytes) (alloc : Z -> bytes).
Context (Halloc : forall n, 0 <= n -> zlen (alloc n) = n).
Abbreviation column_ok := (column_ok fuel ndebug Parse createFromWkt alloc).
Abbreviation get_column_val_bytes := (get_column_val_bytes ndebug Parse createFromWkt alloc).

(** A value whose length and contents are read from its bytes. *)
Lemma read_cell_ok ty meta b c : (forall rest, value_len ty meta (b ++ rest) = zlen b) -> decode_cell fuel ty meta b = Some c -> forall rest, read_cell fuel ty meta (b ++ rest) = Some (c, rest).
Proof using.
  intros Hl Hd rest. unfold read_cell. rewrite Hl. pose proof (zlen_nonneg b). pose proof (zlen_nonneg rest). rewrite (proj2 (Z.leb_le 0 _)), (proj2 (Z.leb_le _ (zlen (b ++ rest)))) by (rewrite ?zlen_app; lia). cbn [andb].
  by rewrite first_app, skip_app, Hd by done.
Qed.
Lemma single_ok m c data d meta b : set_column_metadata ndebug m = Done meta -> zlen meta = metadata_len (col_data_type m) -> get_column_val_bytes m data d = Done (zlen b, [b]) ->
  (forall rest, value_len (col_data_type m) meta (b ++ rest) = zlen b) -> decode_cell fuel (col_data_type m) meta b = Some c -> column_ok m c data d.
Proof using.
  intros Hm Hz Hg Hl Hd. exists meta, [b]. change (mjoin [b]) with (b ++ []). rewrite app_nil_r. split_and!; [done..|]. by apply read_cell_ok.
Qed.

(** *** Integers *)

Lemma read_number_signed neg ds : digits ds -> ds <> [] -> read_number (sign_of neg ++ ds) = (if neg then - val ds else val ds, true).
Proof using.
  intros Hd Hne. destruct neg; [|cbn [sign_of app]; by rewrite read_number_digits]. pose proof (read_number_digits ds Hd Hne) as H. unfold read_number in *.
  assert (forall l, 0 ∉ l -> cstr (45 :: l) = 45 :: l) as Hc by (intros l Hl; apply cstr_id; rewrite not_elem_of_cons; done). cbn [sign_of app]. rewrite Hc by (apply digits_not_in; [done|lia]). cbn [ltrim]. change (isspace 45) with false. cbn iota. cbn [read_sign]. change (45 =? 45) with true. cbn iota.
  destruct ds as [|c ds]; [done|]. apply Forall_cons in Hd as [Hr Hd]. by rewrite (proj2 (isdigit_spec c)).
Qed.
Lemma stoull_signed neg ds : digits ds -> ds <> [] -> val ds < 2 ^ 64 -> stoull (sign_of neg ++ ds) = Some (u64 (if neg then - val ds else val ds)).
Proof using.
  intros Hd Hne Hv. unfold stoull. rewrite read_number_signed by done. pose proof (digits_val_bound ds Hd). unfold val in *. cbn [andb]. rewrite (proj2 (Z.ltb_lt _ _)) by (destruct neg; lia). done.
Qed.
Lemma signed_cstr neg ds : digits ds -> cstr (sign_of neg ++ ds) = sign_of neg ++ ds.
Proof using. intros Hd. apply cstr_id. rewrite not_elem_of_app. split; [destruct neg; [apply not_elem_of_cons; split; [done|]|]; apply not_elem_of_nil|by apply digits_not_in; [|lia]]. Qed.

Lemma variable_store w v : w ∈ [1; 2; 3; 4; 8] -> int_variable_store v w = le_split (Z.to_nat w) v.
Proof using.
  rewrite !elem_of_cons, elem_of_nil. intros [->|[->|[->|[->|[->|[]]]]]]; cbn [int_variable_store]; rewrite ?int2store_le, ?int3store_le, ?int4store_le, ?int8store_le; reflexivity.
Qed.
Lemma le_split_u64 w v : (w <= 8)%nat -> le_combine (le_split w (u64 v)) = v `mod` 256 ^ Z.of_nat w.
Proof using. intros Hw. rewrite le_combine_split. unfold u64. change (2 ^ 64) with (256 ^ 8). apply Z.mod_mod_divide. exists (256 ^ (8 - Z.of_nat w)). rewrite <-Z.pow_add_r by lia. f_equal. lia. Qed.

Lemma int_cases ty : 0 < int_width ty -> ty ∈ [OB_TYPE_TINY; OB_TYPE_SHORT; OB_TYPE_INT24; OB_TYPE_LONG; OB_TYPE_LONGLONG] /\ int_width ty ∈ [1; 2; 3; 4; 8].
Proof using. unfold int_width. repeat (case_match; [intros _; rewrite !elem_of_cons; split; lia|]). lia. Qed.

Lemma int_column m neg ds d : 0 < int_width (getType m) -> digits ds -> ds <> [] -> val ds < 256 ^ int_width (getType m) ->
  column_ok m (VInt ((if neg : bool then - val ds else val ds) `mod` 256 ^ int_width (getType m))) (sign_of neg ++ ds) d.
Proof using.
  intros Hw Hd Hne Hv. destruct (int_cases _ Hw) as [Hty Hwd]. set (v := if neg then - val ds else val ds).
  assert (val ds < 2 ^ 64) as Hv64 by (eapply Z.lt_le_trans; [exact Hv|]; change (2 ^ 64) with (256 ^ 8); apply Z.pow_le_mono_r; [done|]; clear -Hwd; rewrite !elem_of_cons, elem_of_nil in Hwd; lia).
  assert (convert_binlog_integer (int_width (getType m)) (sign_of neg ++ ds) = Done (int_width (getType m), [le_split (Z.to_nat (int_width (getType m))) (u64 v)])) as Hc.
  { unfold convert_binlog_integer, int_two_complement. rewrite signed_cstr, stoull_signed by done. cbn [of_option mbind outcome_bind]. by rewrite variable_store. }
  assert (zlen (le_split (Z.to_nat (int_width (getType m))) (u64 v)) = int_width (getType m)) as Hz by (rewrite zlen_le_split; lia).
  apply (single_ok m _ _ _ [] (le_split (Z.to_nat (int_width (getType m))) (u64 v))).
  - clear -Hty. rewrite !elem_of_cons, elem_of_nil in Hty. unfold set_column_metadata. destruct Hty as [->|[->|[->|[->|[->|[]]]]]]; reflexivity.
  - clear -Hty. rewrite !elem_of_cons, elem_of_nil in Hty. unfold col_data_type. destruct Hty as [->|[->|[->|[->|[->|[]]]]]]; reflexivity.
  - rewrite Hz, <-Hc. clear -Hty. rewrite !elem_of_cons, elem_of_nil in Hty. unfold DataType.get_column_val_bytes. destruct Hty as [->|[->|[->|[->|[->|[]]]]]]; reflexivity.
  - intros rest. rewrite Hz. clear -Hty. rewrite !elem_of_cons, elem_of_nil in Hty. unfold col_data_type, value_len. destruct Hty as [->|[->|[->|[->|[->|[]]]]]]; reflexivity.
  - replace (v `mod` 256 ^ int_width (getType m)) with (le_combine (le_split (Z.to_nat (int_width (getType m))) (u64 v))).
    + clear -Hty. rewrite !elem_of_cons, elem_of_nil in Hty. unfold col_data_type, decode_cell. destruct Hty as [->|[->|[->|[->|[->|[]]]]]]; reflexivity.
    + rewrite le_split_u64 by (clear -Hwd; rewrite !elem_of_cons, elem_of_nil in Hwd; lia). by rewrite Z2Nat.id by lia.
Qed.

(** *** Strings *)

Lemma le_split_small w v : 0 <= v < 256 ^ Z.of_nat w -> le_combine (le_split w v) = v.
Proof using. intros Hv. rewrite le_combine_split. by apply Z.mod_small. Qed.
Lemma prefixed_ok w data rest : zlen data < 256 ^ Z.of_nat w -> prefixed (Z.of_nat w) ((le_split w (zlen data) ++ data) ++ rest) = zlen (le_split w (zlen data) ++ data).
Proof using. intros Hd. pose proof (zlen_nonneg data). unfold prefixed. rewrite <-app_assoc, first_app by apply zlen_le_split. rewrite le_split_small by lia. by rewrite zlen_app, zlen_le_split. Qed.
Lemma unprefixed w data : skip (Z.of_nat w) (le_split w (zlen data) ++ data) = data.
Proof using. apply skip_app, zlen_le_split. Qed.

Lemma string_metadata len : 0 <= len < 1024 -> let meta := [u8 (Z.lxor 254 (Z.shiftr (Z.land len 0x300) 4)); u8 len] in
  max_string_length meta = len /\ one_of (byte_at 0 meta) [OB_TYPE_ENUM; OB_TYPE_SET] = false.
Proof using.
  intros Hl. assert (Forall (fun k => let len := Z.of_nat k in let meta := [u8 (Z.lxor 254 (Z.shiftr (Z.land len 0x300) 4)); u8 len] in (max_string_length meta =? len) && negb (one_of (byte_at 0 meta) [OB_TYPE_ENUM; OB_TYPE_SET]) = true) (seq 0 1024)) as H by by_compute.
  rewrite Forall_forall in H. specialize (H (Z.to_nat len) ltac:(apply elem_of_seq; lia)). cbn zeta in *. rewrite Z2Nat.id in H by lia. apply andb_true_iff in H as [H1 H2]. split; [lia|by destruct (one_of _ _)].
Qed.

(** The width of the length in front of a string. *)
Definition text_width (m : IColMeta) : nat := if 255 <? max_bytes m then 2 else 1.
Lemma text_value m data : one_of (getType m) [OB_TYPE_STRING; OB_TYPE_VAR_STRING; OB_TYPE_VARCHAR] = true -> 0 <= getLength m -> max_bytes m < 65536 -> zlen data <= max_bytes m ->
  convert_binlog_var_string m data = Done (zlen (le_split (text_width m) (zlen data) ++ data), [le_split (text_width m) (zlen data) ++ data]) /\ zlen data < 256 ^ Z.of_nat (text_width m).
Proof using.
  intros _ Hl Hm Hd. unfold convert_binlog_var_string. assert (1 <= charset_encoding_bytes (getEncoding m)) as Hc by (unfold charset_encoding_bytes; repeat case_match; done).
  assert (u64 (u64 (getLength m) * charset_encoding_bytes (getEncoding m)) = max_bytes m) as ->.
  { unfold max_bytes in *. assert (getLength m < 65536) by nia. assert (u64 (getLength m) = getLength m) as -> by (unfold u64; apply Z.mod_small; lia). unfold u64. apply Z.mod_small. nia. }
  unfold text_width. destruct (Z.ltb_spec 255 (max_bytes m)); rewrite ?int2store_le, ?int1store_le, zlen_app, zlen_le_split; (split; [done|]); [change (256 ^ Z.of_nat 2) with 65536|change (256 ^ Z.of_nat 1) with 256]; lia.
Qed.

Lemma text_column m data d : one_of (getType m) [OB_TYPE_STRING; OB_TYPE_VAR_STRING; OB_TYPE_VARCHAR] = true -> 0 <= getLength m ->
  max_bytes m < (if getType m =? OB_TYPE_STRING then 1024 else 65536) -> zlen data <= max_bytes m -> column_ok m (VText data) data d.
Proof using.
  intros Hty Hl Hm Hd. destruct (text_value m data Hty Hl) as [Hc Hw]; [destruct (_ =? _); lia|done|]. pose proof (zlen_nonneg data). set (b := le_split (text_width m) (zlen data) ++ data) in *.
  assert (get_column_val_bytes m data d = Done (zlen b, [b])) as Hg.
  { rewrite <-Hc. apply bool_decide_eq_true in Hty. rewrite !elem_of_cons, elem_of_nil in Hty. unfold DataType.get_column_val_bytes. destruct Hty as [->|[->|[->|[]]]]; reflexivity. }
  assert (forall c, (if (255 <? c) : bool then 2 else 1) = Z.of_nat (if (255 <? c) : bool then 2 else 1)) as Hif by (intros c; by destruct (255 <? c)).
  assert (getType m = OB_TYPE_STRING \/ getType m = OB_TYPE_VAR_STRING \/ getType m = OB_TYPE_VARCHAR) as Hcase by (apply bool_decide_eq_true in Hty; rewrite !elem_of_cons, elem_of_nil in Hty; destruct Hty as [?|[?|[?|[]]]]; auto).
  destruct Hcase as [E|Hcase].
  - rewrite E in Hm. change (OB_TYPE_STRING =? OB_TYPE_STRING) with true in Hm. cbn iota in Hm. destruct (string_metadata (max_bytes m) ltac:(lia)) as [Hms Hone]. set (meta := [u8 (Z.lxor 254 (Z.shiftr (Z.land (max_bytes m) 0x300) 4)); u8 (max_bytes m)]) in *.
    assert (col_data_type m = OB_TYPE_STRING) as Hct by (unfold col_data_type; by rewrite E). apply (single_ok m _ _ _ meta b); [unfold set_column_metadata; rewrite E; reflexivity|by rewrite Hct|done| |].
    + intros rest. rewrite Hct. change (value_len OB_TYPE_STRING ?meta ?b) with (if one_of (byte_at 0 meta) [OB_TYPE_ENUM; OB_TYPE_SET] then byte_at 1 meta else prefixed (if 255 <? max_string_length meta then 2 else 1) b). rewrite Hone, Hms, Hif. by apply prefixed_ok.
    + rewrite Hct. change (decode_cell fuel OB_TYPE_STRING ?meta ?v) with (if byte_at 0 meta =? OB_TYPE_ENUM then Some (VEnum (le_combine v)) else if byte_at 0 meta =? OB_TYPE_SET then Some (VSet (le_combine v)) else Some (VText (skip (if 255 <? max_string_length meta then 2 else 1) v))).
      apply bool_decide_eq_false in Hone. rewrite !not_elem_of_cons in Hone. rewrite (proj2 (Z.eqb_neq (byte_at 0 meta) OB_TYPE_ENUM)), (proj2 (Z.eqb_neq (byte_at 0 meta) OB_TYPE_SET)) by tauto. rewrite Hms, Hif. f_equal. f_equal. apply unprefixed.
  - assert (max_bytes m < 65536) as Hm2 by (destruct Hcase as [E|E]; rewrite E in Hm; exact Hm). assert (col_data_type m = OB_TYPE_VARCHAR) as Hct by (unfold col_data_type; destruct Hcase as [->| ->]; reflexivity).
    assert (le_combine (int2store (max_bytes m)) = max_bytes m) as Hlc by (rewrite int2store_le; apply le_split_small; change (256 ^ Z.of_nat 2) with 65536; lia).
    apply (single_ok m _ _ _ (int2store (max_bytes m)) b); [unfold set_column_metadata; destruct Hcase as [->| ->]; reflexivity|by rewrite Hct|done| |].
    + intros rest. rewrite Hct. change (value_len OB_TYPE_VARCHAR ?meta ?b) with (prefixed (if 255 <? le_combine meta then 2 else 1) b). rewrite Hlc, Hif. by apply prefixed_ok.
    + rewrite Hct. change (decode_cell fuel OB_TYPE_VARCHAR ?meta ?b) with (Some (VText (skip (if 255 <? le_combine meta then 2 else 1) b))). rewrite Hlc, Hif. f_equal. f_equal. apply unprefixed.
Qed.

(** *** Blobs *)

Lemma blob_cases ty : 0 < blob_width ty -> ty ∈ [OB_TYPE_TINY_BLOB; OB_TYPE_BLOB; OB_TYPE_MEDIUM_BLOB; OB_TYPE_LONG_BLOB] /\ blob_width ty ∈ [1; 2; 3; 4].
Proof using. unfold blob_width. repeat (case_match; [intros _; rewrite !elem_of_cons; split; lia|]). lia. Qed.
Lemma blob_column m data d : 0 < blob_width (getType m) -> zlen data < 256 ^ blob_width (getType m) -> column_ok m (VText data) data d.
Proof using.
  intros Hw Hd. destruct (blob_cases _ Hw) as [Hty Hwd]. rewrite !elem_of_cons, elem_of_nil in Hty. set (w := Z.to_nat (blob_width (getType m))). assert (blob_width (getType m) = Z.of_nat w) as Ew by lia. rewrite Ew in Hd.
  apply (single_ok m _ _ _ [blob_width (getType m)] (le_split w (zlen data) ++ data)).
  - unfold set_column_metadata. destruct Hty as [->|[->|[->|[->|[]]]]]; reflexivity.
  - unfold col_data_type. destruct Hty as [->|[->|[->|[->|[]]]]]; reflexivity.
  - unfold DataType.get_column_val_bytes, w. rewrite zlen_app, zlen_le_split. destruct Hty as [->|[->|[->|[->|[]]]]]; cbn -[le_split zlen];
      [change (convert_binlog_tiny_blob data) with (Done (1 + zlen data, [int1store (zlen data) ++ data]))|change (convert_binlog_blob data) with (Done (2 + zlen data, [int2store (zlen data) ++ data]))|change (convert_binlog_medium_blob data) with (Done (3 + zlen data, [int3store (zlen data) ++ data]))|change (convert_binlog_long_blob data) with (Done (4 + zlen data, [int4store (zlen data) ++ data]))];
      rewrite ?int1store_le, ?int2store_le, ?int3store_le, ?int4store_le; reflexivity.
  - intros rest. assert (col_data_type m = OB_TYPE_BLOB) as -> by (unfold col_data_type; destruct Hty as [->|[->|[->|[->|[]]]]]; reflexivity). change (value_len OB_TYPE_BLOB [?k] ?b) with (prefixed k b). rewrite Ew. by apply prefixed_ok.
  - assert (col_data_type m = OB_TYPE_BLOB) as -> by (unfold col_data_type; destruct Hty as [->|[->|[->|[->|[]]]]]; reflexivity). change (decode_cell fuel OB_TYPE_BLOB [?k] ?b) with (Some (VText (skip k b))). rewrite Ew. f_equal. f_equal. apply unprefixed.
Qed.

(** *** Numbers with a scale, dates and times *)

Lemma u8_small v : 0 <= v < 256 -> u8 v = v.
Proof using. intros Hv. unfold u8. by apply Z.mod_small. Qed.
Lemma sum_replicate k v : sum (replicate k v) = Z.of_nat k * v.
Proof using. unfold sum. induction k as [|k IH]; [done|]. cbn [replicate foldr]. rewrite IH. lia. Qed.

Lemma sum_append a b : sum (a ++ b) = sum a + sum b.
Proof using. unfold sum. induction a as [|x a IH]; [done|]. cbn [app foldr]. rewrite IH. lia. Qed.
Lemma decimal_len_eq p sc : 0 <= sc <= p -> decimal_len p sc = (p - sc) / 9 * 4 + group_bytes ((p - sc) `mod` 9) + (sc / 9 * 4 + group_bytes (sc `mod` 9)).
Proof using.
  intros H. unfold decimal_len, layout. rewrite !fmap_app, !sum_append, !fmap_replicate, !sum_replicate. cbn [fmap list_fmap snd sum foldr]. assert (0 <= (p - sc) / 9) by (apply Z.div_pos; lia). assert (0 <= sc / 9) by (apply Z.div_pos; lia). rewrite !Z2Nat.id by lia. lia.
Qed.

Lemma decimal_column m neg ip fp d : one_of (getType m) [OB_TYPE_DECIMAL; OB_TYPE_NEWDECIMAL] = true -> getPrecision m < 256 -> decimal_fits (getPrecision m) (getScale m) ip fp ->
  ndebug = true \/ zlen fp `mod` 9 = 0 -> column_ok m (VDecimal (neg, digits_val (ip ++ fp) 0)) (decimal_text neg ip fp) d.
Proof using Halloc.
  intros Hty Hp Hf Hnd. destruct (decimal_readable alloc ndebug m neg ip fp Halloc Hf Hnd) as (b & Ec & Hz & Hr). assert (0 <= getScale m <= getPrecision m) as Hs.
  { destruct Hf as (_ & _ & Hne & Hsc & Hp0 & Hi). pose proof (zlen_nonneg fp). pose proof (zlen_nonneg ip). destruct Hi as [Hi|[-> _]]; lia. }
  rewrite <-decimal_len_eq in Hz by done. assert (getType m = OB_TYPE_DECIMAL \/ getType m = OB_TYPE_NEWDECIMAL) as Hc by (apply bool_decide_eq_true in Hty; rewrite !elem_of_cons, elem_of_nil in Hty; destruct Hty as [?|[?|[]]]; auto).
  assert (col_data_type m = getType m) as Hct by (unfold col_data_type; destruct Hc as [->| ->]; reflexivity).
  assert (byte_at 0 (int1store (getPrecision m) ++ int1store (getScale m)) = getPrecision m /\ byte_at 1 (int1store (getPrecision m) ++ int1store (getScale m)) = getScale m) as [B0 B1] by (unfold int1store; rewrite !u8_small by lia; done).
  apply (single_ok m _ _ _ (int1store (getPrecision m) ++ int1store (getScale m)) b).
  - unfold set_column_metadata. rewrite (proj2 (Z.leb_le 0 (getScale m))), (proj2 (Z.leb_le 0 (getPrecision m))) by lia. cbn [andb]. rewrite assert_true. destruct Hc as [->| ->]; reflexivity.
  - rewrite Hct. destruct Hc as [->| ->]; reflexivity.
  - rewrite <-Ec. unfold DataType.get_column_val_bytes. destruct Hc as [->| ->]; reflexivity.
  - intros rest. rewrite Hct, Hz. transitivity (decimal_len (byte_at 0 (int1store (getPrecision m) ++ int1store (getScale m))) (byte_at 1 (int1store (getPrecision m) ++ int1store (getScale m)))); [|by rewrite B0, B1]. unfold value_len. destruct Hc as [->| ->]; reflexivity.
  - rewrite Hct. transitivity (VDecimal <$> bin2decimal (byte_at 0 (int1store (getPrecision m) ++ int1store (getScale m))) (byte_at 1 (int1store (getPrecision m) ++ int1store (getScale m))) b); [|by rewrite B0, B1, Hr]. unfold decode_cell. destruct Hc as [->| ->]; reflexivity.
Qed.

(** Types with their scale as metadata and a fixed length. *)
Lemma scaled_ok m c data d k b : 0 <= getScale m <= 6 -> set_column_metadata ndebug m = Done [u8 (getScale m)] -> metadata_len (col_data_type m) = 1 ->
  get_column_val_bytes m data d = Done (zlen b, [b]) -> zlen b = k + remainder_switch (getScale m) ->
  (forall rest meta, value_len (col_data_type m) meta rest = k + remainder_switch (byte_at 0 meta)) -> decode_cell fuel (col_data_type m) [getScale m] b = Some c -> column_ok m c data d.
Proof using. intros Hs Hm Hml Hg Hz Hv Hd. rewrite u8_small in Hm by lia. apply (single_ok m _ _ _ [getScale m] b); [done|by rewrite Hml|done| |done]. intros rest. by rewrite Hv, Hz. Qed.

Lemma timestamp_column m s f d : getType m = OB_TYPE_TIMESTAMP -> 0 <= getScale m <= 6 -> digits s -> s <> [] -> zlen s <= 18 -> val s < 2 ^ 32 -> fraction f ->
  column_ok m (VTimestamp (val s, frac_value (2 * remainder_switch (getScale m)) f * 10 ^ (6 - 2 * remainder_switch (getScale m)))) (timestamp_text s f) d.
Proof using Halloc.
  intros Hty Hs Hd Hne Hz Hv Hf. destruct (timestamp_readable alloc ndebug m Halloc Hs s f Hd Hne Hz Hv Hf) as (b & Ec & Hb & Hr). assert (col_data_type m = OB_TYPE_TIMESTAMP2) as Hct by (unfold col_data_type; by rewrite Hty).
  apply (scaled_ok m _ _ _ 4 b Hs); [unfold set_column_metadata; by rewrite Hty|by rewrite Hct|rewrite <-Ec; unfold DataType.get_column_val_bytes; by rewrite Hty|done|by rewrite Hct|]. rewrite Hct, <-Hr. done.
Qed.
Lemma time_column m neg h mi s f d : getType m = OB_TYPE_TIME -> 0 <= getScale m <= 6 -> field h 838 -> field mi 59 -> field s 59 -> fraction f -> neg = false \/ zlen f <= 2 * remainder_switch (getScale m) ->
  column_ok m (VTime ((if neg : bool then -1 else 1) * ((val h * 4096 + val mi * 64 + val s) * 2 ^ 24 + frac_value (2 * remainder_switch (getScale m)) f * 10 ^ (6 - 2 * remainder_switch (getScale m))))) (sign_of neg ++ time_text h mi s f) d.
Proof using Halloc.
  intros Hty Hs Hh Hmi Hsec Hf Hneg. destruct (time_readable alloc ndebug m Halloc Hs neg h mi s f Hh Hmi Hsec Hf Hneg) as (b & Ec & Hb & Hr). assert (col_data_type m = OB_TYPE_TIME2) as Hct by (unfold col_data_type; by rewrite Hty).
  apply (scaled_ok m _ _ _ 3 b Hs); [unfold set_column_metadata; by rewrite Hty|by rewrite Hct|rewrite <-Ec; unfold DataType.get_column_val_bytes; by rewrite Hty|done|by rewrite Hct|]. rewrite Hct, <-Hr. done.
Qed.
Lemma datetime_column m y mo da h mi s f d : getType m = OB_TYPE_DATETIME -> 0 <= getScale m <= 6 -> field y 9999 -> field mo 12 -> field da 31 -> field h 23 -> field mi 59 -> field s 59 -> fraction f ->
  column_ok m (VDatetime (val y, val mo, val da, (val h, val mi, val s), frac_value (2 * remainder_switch (getScale m)) f * 10 ^ (6 - 2 * remainder_switch (getScale m)))) (datetime_text y mo da h mi s f) d.
Proof using Halloc.
  intros Hty Hs Hy Hmo Hda Hh Hmi Hsec Hf. destruct (datetime_readable alloc ndebug m Halloc Hs y mo da h mi s f Hy Hmo Hda Hh Hmi Hsec Hf) as (b & Ec & Hb & Hr). assert (col_data_type m = OB_TYPE_DATETIME2) as Hct by (unfold col_data_type; by rewrite Hty).
  apply (scaled_ok m _ _ _ 5 b Hs); [unfold set_column_metadata; by rewrite Hty|by rewrite Hct|rewrite <-Ec; unfold DataType.get_column_val_bytes; by rewrite Hty|done|by rewrite Hct|]. rewrite Hct, <-Hr. done.
Qed.

Lemma date_column m y mo da d : one_of (getType m) [OB_TYPE_DATE; OB_TYPE_NEWDATE] = true -> field y 9999 -> field mo 12 -> field da 31 -> column_ok m (VDate (val y, val mo, val da)) (date_text y mo da) d.
Proof using.
  intros Hty Hy Hmo Hda. destruct (date_readable ndebug y mo da Hy Hmo Hda) as (b & Ec & Hb & Hr). assert (getType m = OB_TYPE_DATE \/ getType m = OB_TYPE_NEWDATE) as Hc by (apply bool_decide_eq_true in Hty; rewrite !elem_of_cons, elem_of_nil in Hty; destruct Hty as [?|[?|[]]]; auto).
  assert (col_data_type m = getType m) as Hct by (unfold col_data_type; destruct Hc as [->| ->]; reflexivity). rewrite <-Hr.
  apply (single_ok m _ _ _ [] b); [unfold set_column_metadata; destruct Hc as [->| ->]; reflexivity|rewrite Hct; destruct Hc as [->| ->]; reflexivity|rewrite <-Ec; unfold DataType.get_column_val_bytes; destruct Hc as [->| ->]; reflexivity| |rewrite Hct; unfold decode_cell; destruct Hc as [->| ->]; reflexivity].
  intros rest. rewrite Hct, Hb. unfold value_len. destruct Hc as [->| ->]; reflexivity.
Qed.
Lemma year_column m y d : getType m = OB_TYPE_YEAR -> field y 2155 -> val y = 0 \/ 1901 <= val y -> column_ok m (VYear (val y)) y d.
Proof using.
  intros Hty Hy Hv. destruct (year_readable ndebug y Hy Hv) as (b & Ec & Hb & Hr). assert (col_data_type m = OB_TYPE_YEAR) as Hct by (unfold col_data_type; by rewrite Hty). rewrite <-Hr.
  apply (single_ok m _ _ _ [] b); [unfold set_column_metadata; by rewrite Hty|by rewrite Hct|rewrite <-Ec; unfold DataType.get_column_val_bytes; by rewrite Hty| |by rewrite Hct]. intros rest. by rewrite Hct, Hb.
Qed.

(** *** Floating point, documents and geometries *)

Lemma float_column m data f d : getType m = OB_TYPE_FLOAT -> stod data = Some f -> column_ok m (VRaw (if 24 <? getPrecision m then double_bytes f else float_bytes (to_float f))) data d.
Proof using.
  intros Hty Hf. destruct (24 <? getPrecision m) eqn:Ep.
  - apply (single_ok m _ _ _ [8] (double_bytes f)); [unfold set_column_metadata; rewrite Hty, Ep; reflexivity|unfold col_data_type; rewrite Hty, Ep; reflexivity| |intros rest; unfold col_data_type; rewrite Hty, Ep; reflexivity|unfold col_data_type; rewrite Hty, Ep; reflexivity].
    unfold DataType.get_column_val_bytes. rewrite Hty. cbn -[convert_binlog_float]. unfold convert_binlog_float. by rewrite Hf, Ep.
  - apply (single_ok m _ _ _ [4] (float_bytes (to_float f))); [unfold set_column_metadata; rewrite Hty, Ep; reflexivity|unfold col_data_type; rewrite Hty, Ep; reflexivity| |intros rest; unfold col_data_type; rewrite Hty, Ep; reflexivity|unfold col_data_type; rewrite Hty, Ep; reflexivity].
    unfold DataType.get_column_val_bytes. rewrite Hty. cbn -[convert_binlog_float]. unfold convert_binlog_float. by rewrite Hf, Ep.
Qed.
Lemma double_column m data f d : getType m = OB_TYPE_DOUBLE -> stod data = Some f -> column_ok m (VRaw (double_bytes f)) data d.
Proof using.
  intros Hty Hf. apply (single_ok m _ _ _ [8] (double_bytes f)); [unfold set_column_metadata; by rewrite Hty|unfold col_data_type; by rewrite Hty| |intros rest; unfold col_data_type; by rewrite Hty|unfold col_data_type; by rewrite Hty].
  unfold DataType.get_column_val_bytes. rewrite Hty. cbn -[convert_binlog_double]. unfold convert_binlog_double. by rewrite Hf.
Qed.

(** Four bytes of length in a chunk of their own or not. *)
Lemma long_chunks m c data d chunks body : zlen body < 2 ^ 32 -> mjoin chunks = int4store (zlen body) ++ body -> set_column_metadata ndebug m = Done [4] -> metadata_len (col_data_type m) = 1 -> get_column_val_bytes m data d = Done (4 + zlen body, chunks) ->
  (forall b, value_len (col_data_type m) [4] b = prefixed 4 b) -> decode_cell fuel (col_data_type m) [4] (int4store (zlen body) ++ body) = Some c -> column_ok m c data d.
Proof using.
  intros Hb Hj Hm Hml Hg Hv Hd. exists [4], chunks. rewrite Hj, int4store_le. split_and!; [done|by rewrite Hml|by rewrite Hg, zlen_app, zlen_le_split|]. rewrite int4store_le in Hd. apply read_cell_ok; [|exact Hd]. intros rest. rewrite Hv. apply (prefixed_ok 4). exact Hb.
Qed.

Lemma json_column m data v : getType m = OB_TYPE_JSON -> Parse (cstr data) = Some v -> representable v -> (height v <= 99)%nat -> (height v <= fuel)%nat -> zlen (top_level v) < 2 ^ 32 -> column_ok m (VJson v) data false.
Proof using.
  intros Hty Hp Hr H99 Hfu Hz. assert (col_data_type m = OB_TYPE_JSON) as Hct by (unfold col_data_type; by rewrite Hty).
  apply (long_chunks m _ _ _ [int4store (zlen (top_level v)); top_level v] (top_level v)); [done| |unfold set_column_metadata; by rewrite Hty|by rewrite Hct| |by rewrite Hct|].
  - change (mjoin [?a; ?b]) with (a ++ b ++ []). by rewrite app_nil_r.
  - unfold DataType.get_column_val_bytes. rewrite Hty. cbn -[convert_binlog_json]. unfold convert_binlog_json, parser. rewrite Hp. reflexivity.
  - rewrite Hct. change (decode_cell fuel OB_TYPE_JSON [4] ?b) with (VJson <$> read_document fuel (skip 4 b)). rewrite int4store_le, (unprefixed 4), top_level_read by (done || lia). done.
Qed.

Lemma geometry_column m data srid wkt wkb d : getType m = OB_TYPE_GEOMETRY -> parse_ewkt (cstr data) = Done (Some (srid, wkt)) -> createFromWkt wkt = Some wkb -> zlen wkb + 4 < 2 ^ 32 -> column_ok m (VGeometry (u32 srid) wkb) data d.
Proof using.
  intros Hty Hp Hw Hz. assert (col_data_type m = OB_TYPE_GEOMETRY) as Hct by (unfold col_data_type; by rewrite Hty). assert (zlen (int4store srid ++ wkb) = zlen wkb + 4) as Hzb by (rewrite zlen_app, int4store_le, zlen_le_split; lia).
  apply (long_chunks m _ _ _ [int4store (zlen wkb + 4) ++ int4store srid ++ wkb] (int4store srid ++ wkb)); [lia| |unfold set_column_metadata; by rewrite Hty|by rewrite Hct| |by rewrite Hct|].
  - change (mjoin [?a]) with (a ++ []). by rewrite app_nil_r, Hzb.
  - transitivity (convert_wkt_to_wkb createFromWkt data); [unfold DataType.get_column_val_bytes; by rewrite Hty|]. unfold convert_wkt_to_wkb. rewrite Hp. cbn [mbind outcome_bind]. rewrite Hw, Hzb. do 2 f_equal. lia.
  - rewrite Hct. change (decode_cell fuel OB_TYPE_GEOMETRY [4] ?b) with (Some (VGeometry (le_combine (first 4 (skip 4 b))) (skip 4 (skip 4 b)))). rewrite (int4store_le (zlen _)), (unprefixed 4), int4store_le, first_app, skip_app by apply zlen_le_split. rewrite le_combine_split. done.
Qed.

(** *** Bits *)

Lemma bitset_string_S n v : bitset_string (S n) v = Z.testbit v (Z.of_nat n) :: bitset_string n v.
Proof using. unfold bitset_string. rewrite seq_S, fmap_app, rev_app_distr. done. Qed.
Lemma bitset_string_drop k n v : drop k (bitset_string (k + n) v) = bitset_string n v.
Proof using. induction k as [|k IH]; [done|]. cbn [Nat.add]. rewrite bitset_string_S. apply IH. Qed.
Lemma to_ulong_acc l a : foldl (fun a b => 2 * a + Z.b2z b) a l = a * 2 ^ zlen l + to_ulong l.
Proof using.
  unfold to_ulong. revert a. induction l as [|b l IH]; intros a; [cbn; change (2 ^ zlen (@nil bool)) with 1; lia|]. cbn [foldl]. rewrite IH, (IH (2 * 0 + _)), zlen_cons, Z.pow_add_r by (pose proof (zlen_nonneg l); lia). change (2 ^ 1) with 2. lia.
Qed.
Lemma to_ulong_bits k n v : to_ulong (take k (bitset_string (k + n) v)) = (v / 2 ^ Z.of_nat n) `mod` 2 ^ Z.of_nat k.
Proof using.
  induction k as [|k IH]; [cbn; by rewrite Z.mod_1_r|]. cbn [Nat.add]. rewrite bitset_string_S. cbn [take]. unfold to_ulong at 1. cbn [foldl]. rewrite to_ulong_acc, IH.
  assert (zlen (take k (bitset_string (k + n) v)) = Z.of_nat k) as -> by (unfold zlen, bitset_string; rewrite length_take, length_rev, length_fmap, length_seq; lia).
  rewrite Nat2Z.inj_succ, Z.pow_succ_r, (Z.mul_comm 2 (2 ^ Z.of_nat k)) by lia. rewrite Z.rem_mul_r by (lia || (apply Z.pow_nonzero; lia)). rewrite Z.testbit_spec' by lia. rewrite Z.div_div by (lia || (apply Z.pow_nonzero; lia) || (apply Z.pow_pos_nonneg; lia)). rewrite <-Z.pow_add_r by lia. replace (Z.of_nat (k + n)) with (Z.of_nat n + Z.of_nat k) by lia. lia.
Qed.
Lemma bit_bytes_be n v : bit_bytes n (bitset_string (8 * n) v) = be_split n v.
Proof using.
  induction n as [|n IH]; [done|]. replace (8 * S n)%nat with (8 + 8 * n)%nat by lia. cbn [bit_bytes]. rewrite bitset_string_drop, IH, be_split_S. f_equal. rewrite to_ulong_bits. change (2 ^ Z.of_nat 8) with 256. unfold u8. change (2 ^ 8) with 256. rewrite Z.mod_mod by lia. do 2 f_equal. rewrite Nat2Z.inj_mul, Z.pow_mul_r by lia. done.
Qed.
Lemma bits_written len v : 0 <= len <= 8 -> bit_bytes (Z.to_nat len) (drop (Z.to_nat (64 - len * 8)) (bitset_string 64 v)) = be_split (Z.to_nat len) v.
Proof using. intros Hl. replace 64%nat with (Z.to_nat (64 - len * 8) + 8 * Z.to_nat len)%nat by lia. rewrite bitset_string_drop. apply bit_bytes_be. Qed.

Lemma bit_column m ds d : getType m = OB_TYPE_BIT -> 0 < getPrecision m <= 64 -> digits ds -> ds <> [] -> val ds < 2 ^ getPrecision m -> column_ok m (VBit (val ds)) ds d.
Proof using.
  intros Hty Hp Hd Hne Hv. set (p := getPrecision m) in *. pose proof (Z.rem_bound_pos p 8 ltac:(lia) ltac:(lia)) as Hrem. pose proof (Z.quot_rem' p 8) as Hqr. assert (0 <= Z.quot p 8) as Hq0 by (apply Z.quot_pos; lia). set (len := (p + 7) / 8). assert (0 <= len <= 8 /\ p <= 8 * len) as [Hlen Hpl] by (unfold len; Z.to_euclidean_division_equations; lia). pose proof (digits_val_bound ds Hd) as [H0 _]. fold (val ds) in H0.
  assert (val ds < 2 ^ 64) as H64 by (eapply Z.lt_le_trans; [exact Hv|]; apply Z.pow_le_mono_r; lia). assert (col_data_type m = OB_TYPE_BIT) as Hct by (unfold col_data_type; by rewrite Hty).
  assert (zlen (be_split (Z.to_nat len) (val ds)) = len) as Hz by (rewrite zlen_be_split; lia).
  apply (single_ok m _ _ _ (int1store (Z.rem p 8) ++ int1store (Z.quot p 8)) (be_split (Z.to_nat len) (val ds))).
  - unfold set_column_metadata. rewrite Hty. reflexivity.
  - by rewrite Hct.
  - transitivity (convert_binlog_bit m ds); [unfold DataType.get_column_val_bytes; by rewrite Hty|]. unfold convert_binlog_bit. fold p. assert (u64 p = p) as -> by (unfold u64; apply Z.mod_small; lia). rewrite (proj2 (Z.leb_gt p 0)) by lia. assert (u64 (p + 7) = p + 7) as -> by (unfold u64; apply Z.mod_small; lia). fold len.
    pose proof (stoull_signed false ds Hd Hne H64) as Hs. cbn [sign_of app] in Hs. unfold binary_to_hex. rewrite cstr_id by (apply digits_not_in; [done|lia]). rewrite Hs. cbn [of_option mbind outcome_bind]. rewrite (proj2 (Z.ltb_ge 8 len)) by lia. cbn [mbind outcome_bind].
    rewrite bits_written by lia. assert (u64 (val ds) = val ds) as -> by (unfold u64; apply Z.mod_small; lia). by rewrite Hz.
  - intros rest. rewrite Hct, Hz. change (value_len OB_TYPE_BIT ?meta ?b) with ((byte_at 0 meta + 8 * byte_at 1 meta + 7) / 8). unfold int1store. cbn [app byte_at]. unfold byte_at. cbn [lookup list_lookup]. rewrite !u8_small by lia. unfold len. f_equal. lia.
  - rewrite Hct. change (decode_cell fuel OB_TYPE_BIT ?meta ?b) with (Some (VBit (be_combine b))). rewrite be_combine_split, Z2Nat.id by lia. rewrite Z.mod_small; [done|]. split; [lia|]. eapply Z.lt_le_trans; [exact Hv|]. change 256 with (2 ^ 8). rewrite <-Z.pow_mul_r by lia. apply Z.pow_le_mono_r; lia.
Qed.

(** *** Enumerations and sets *)

Lemma same_start_refl e : same_start e e = true.
Proof using. unfold same_start. apply beq_true. by apply first_app. Qed.
Lemma same_start_prefix e x : 0 ∉ e -> same_start e x = true -> e `prefix_of` x.
Proof using.
  intros H0. unfold same_start. rewrite beq_true. intros He. assert (exists r, x ++ [0] = e ++ r) as [r Hr] by (exists (skip (zlen e) (x ++ [0])); by rewrite <-He at 1; rewrite first_skip).
  destruct (decide (r = [])) as [->|Hne]; [exfalso; apply H0; rewrite app_nil_r in Hr; rewrite <-Hr; rewrite elem_of_app; right; by left|]. destruct (exists_last Hne) as (r' & z & ->). rewrite app_assoc in Hr. apply app_inj_tail in Hr as [-> _]. by exists r'.
Qed.

Lemma enum_index_ok array data i : forall k, array !! i = Some data -> (forall j e, (j < i)%nat -> array !! j = Some e -> same_start e data = false) -> enum_index array data k = Some (k + Z.of_nat i).
Proof using.
  revert array. induction i as [|i IH]; intros array k Hi Hj; destruct array as [|e array]; try done.
  - injection Hi as ->. cbn [enum_index]. rewrite same_start_refl. f_equal. lia.
  - cbn [enum_index]. rewrite (Hj O e) by (done || lia). rewrite (IH array (k + 1)); [f_equal; lia|done|]. intros j e' Hlt He'. apply (Hj (S j) e'); [lia|done].
Qed.

Lemma enum_column m i data d : getType m = OB_TYPE_ENUM -> zlen (getValuesOfEnumSet m) < 65536 -> getValuesOfEnumSet m !! i = Some data -> (0 ∉ data) ->
  (forall j e, (j < i)%nat -> getValuesOfEnumSet m !! j = Some e -> (0 ∉ e) /\ ~ e `prefix_of` data) -> column_ok m (VEnum (Z.of_nat i + 1)) data d.
Proof using.
  intros Hty Hz Hi H0 Hj. set (array := getValuesOfEnumSet m) in *. assert (Z.of_nat i < zlen array) as Hlt by (apply lookup_lt_Some in Hi; unfold zlen; lia).
  assert (enum_index array data 0 = Some (Z.of_nat i)) as He by (rewrite (enum_index_ok array data i 0 Hi); [done|]; intros j e Hl Hje; destruct (Hj j e Hl Hje) as [He0 Hp]; destruct (same_start e data) eqn:Es; [|done]; by apply same_start_prefix in Es).
  set (w := if 255 <? zlen array then 2%nat else 1%nat). assert (Z.of_nat i + 1 < 256 ^ Z.of_nat w) as Hw by (unfold w; destruct (Z.ltb_spec 255 (zlen array)); [change (256 ^ Z.of_nat 2) with 65536|change (256 ^ Z.of_nat 1) with 256]; lia).
  assert (col_data_type m = OB_TYPE_STRING) as Hct by (unfold col_data_type; by rewrite Hty).
  assert ((if 255 <? zlen array then 2 else 1) = Z.of_nat w) as Ew by (unfold w; by destruct (255 <? zlen array)).
  apply (single_ok m _ _ _ [OB_TYPE_ENUM; Z.of_nat w] (le_split w (Z.of_nat i + 1))).
  - unfold set_column_metadata. rewrite Hty. cbn -[zlen]. fold array. by rewrite Ew.
  - by rewrite Hct.
  - transitivity (convert_binlog_enum m data); [unfold DataType.get_column_val_bytes; by rewrite Hty|]. unfold convert_binlog_enum. fold array. rewrite He. unfold w. destruct (Z.ltb_spec 255 (zlen array)), (Z.ltb_spec (zlen array) 256); try lia; by rewrite ?int1store_le, ?int2store_le.
  - intros rest. rewrite Hct, zlen_le_split. done.
  - rewrite Hct. change (decode_cell fuel OB_TYPE_STRING [OB_TYPE_ENUM; ?k] ?v) with (Some (VEnum (le_combine v))). by rewrite le_split_small by lia.
Qed.

Lemma setbit_top bm i : 0 <= i -> 0 <= bm < 2 ^ i -> Z.setbit bm i = bm + 2 ^ i.
Proof using.
  intros Hi Hb. unfold Z.setbit. rewrite Z.lor_comm, lor_shiftl by done. lia.
Qed.
Lemma set_bits_ok array set : forall bits i bm, Forall2 (fun e b => existsb (same_start e) set = b) array bits -> 0 <= i -> i + zlen bits <= 64 -> 0 <= bm < 2 ^ i ->
  set_bits array set i bm = Done (bm + bits_value bits * 2 ^ i) /\ 0 <= bits_value bits < 2 ^ zlen bits.
Proof using.
  induction array as [|e array IH]; intros bits i bm Hb Hi Hz Hbm; inversion Hb as [|? b ? bits' Eb Hb']; subst; clear Hb; [change (bits_value []) with 0; change (2 ^ zlen (@nil bool)) with 1; cbn [set_bits]; split; [f_equal; lia|lia]|]. cbn [set_bits].
  change (bits_value (?b :: ?bits)) with (Z.b2z b + 2 * bits_value bits). rewrite zlen_cons in *. pose proof (zlen_nonneg bits').
  assert (2 ^ (i + 1) = 2 * 2 ^ i) as E2 by (rewrite Z.pow_add_r by lia; lia). rewrite (Z.pow_add_r 2 1) by lia. change (2 ^ 1) with 2. destruct (existsb (same_start e) set).
  - rewrite (proj2 (Z.ltb_lt i 64)) by lia. rewrite setbit_top by done. destruct (IH bits' (i + 1) (bm + 2 ^ i) Hb' ltac:(lia) ltac:(lia) ltac:(lia)) as [-> Hv]. rewrite E2. cbn [Z.b2z]. split; [f_equal; lia|lia].
  - destruct (IH bits' (i + 1) bm Hb' ltac:(lia) ltac:(lia) ltac:(lia)) as [-> Hv]. rewrite E2. cbn [Z.b2z]. split; [f_equal; lia|lia].
Qed.

Lemma elem_of_chosen array bits x : x ∈ chosen array bits <-> exists i, array !! i = Some x /\ bits !! i = Some true.
Proof using.
  unfold chosen. revert bits. induction array as [|e array IH]; intros bits; [split; [by intros ?%elem_of_nil|by intros (i & ? & _)]|]. destruct bits as [|b bits]; [split; [by intros ?%elem_of_nil|by intros (i & _ & ?)]|].
  cbn [zip zip_with]. rewrite bind_cons, elem_of_app, IH. split.
  - intros [Hx|(i & H1 & H2)]; [|by exists (S i)]. exists O. destruct b; [|by apply elem_of_nil in Hx]. apply list_elem_of_singleton in Hx. by subst.
  - intros ([|i] & H1 & H2); [|right; by exists i]. left. injection H1 as ->. injection H2 as ->. by apply list_elem_of_singleton.
Qed.
Lemma chosen_bits array bits : set_names array -> length bits = length array -> Forall2 (fun e b => existsb (same_start e) (chosen array bits) = b) array bits.
Proof using.
  intros [Hn Hp] Hl. apply Forall2_same_length_lookup_2; [done|]. intros i e b Hi Hb. rewrite Forall_lookup in Hn. destruct b.
  - apply existsb_exists. exists e. split; [|apply same_start_refl]. apply list_elem_of_In. rewrite elem_of_chosen. by exists i.
  - destruct (existsb _ _) eqn:E; [|done]. apply existsb_exists in E as (x & Hx & Hs). apply list_elem_of_In, elem_of_chosen in Hx as (j & Hj & Hbj). destruct (Hn i e Hi) as (_ & He0 & _). apply same_start_prefix in Hs; [|done]. rewrite (Hp i j e x Hi Hj Hs) in Hb. congruence.
Qed.
Lemma chosen_split array bits : set_names array -> split (cstr (intercalate 44 (chosen array bits))) 44 false = chosen array bits /\ Forall (fun e => 0 ∉ e) (chosen array bits).
Proof using.
  intros [Hn Hp]. assert (Forall (fun e => e <> [] /\ (0 ∉ e) /\ (44 ∉ e)) (chosen array bits)) as Hall by (rewrite Forall_forall in *; intros x Hx; apply elem_of_chosen in Hx as (i & Hi & _); apply Hn; by eapply list_elem_of_lookup_2).
  assert (Forall (fun e => 0 ∉ e) (chosen array bits)) as H0 by (eapply Forall_impl; [exact Hall|]; by intros e (_ & ? & _)). split; [|done]. rewrite cstr_id by (by apply intercalate_not_in).
  destruct (decide (chosen array bits = [])) as [->|Hne]; [done|]. apply split_intercalate.
  - destruct (chosen array bits) as [|x [|y l]]; [done| |]; apply Forall_cons in Hall as [(Hx & _) _]; by destruct x.
  - by apply intercalate_not_in.
  - eapply Forall_impl; [exact Hall|]. by intros e (_ & _ & ?).
Qed.

Lemma set_column m bits d : getType m = OB_TYPE_SET -> length bits = length (getValuesOfEnumSet m) -> zlen bits <= 64 -> set_names (getValuesOfEnumSet m) ->
  column_ok m (VSet (bits_value bits)) (intercalate 44 (chosen (getValuesOfEnumSet m) bits)) d.
Proof using.
  intros Hty Hl Hz Hn. set (array := getValuesOfEnumSet m) in *. assert (zlen array = zlen bits) as Hza by (unfold zlen; lia). pose proof (zlen_nonneg bits).
  destruct (chosen_split array bits Hn) as [Hsp H0]. pose proof (chosen_bits array bits Hn Hl) as Hf2. destruct (set_bits_ok array (chosen array bits) bits 0 0 Hf2 ltac:(lia) ltac:(lia) ltac:(done)) as [Hsb Hv]. rewrite Z.add_0_l, Z.mul_1_r in Hsb.
  set (len := (zlen array + 7) / 8). assert (0 <= len <= 8 /\ zlen array <= 8 * len) as [Hlen Hal] by (unfold len; Z.to_euclidean_division_equations; lia). assert (fixed_len (zlen array) = len) as Hfl by (unfold fixed_len, u64; rewrite Z.mod_small by lia; done).
  assert (col_data_type m = OB_TYPE_STRING) as Hct by (unfold col_data_type; by rewrite Hty). assert (zlen (le_split (Z.to_nat len) (bits_value bits)) = len) as Hzl by (rewrite zlen_le_split; lia).
  apply (single_ok m _ _ _ [OB_TYPE_SET; len] (le_split (Z.to_nat len) (bits_value bits))).
  - transitivity (Done [OB_TYPE_SET; u8 (fixed_len (zlen array))]); [unfold set_column_metadata; by rewrite Hty|]. by rewrite Hfl, u8_small by lia.
  - by rewrite Hct.
  - transitivity (convert_binlog_set m (intercalate 44 (chosen array bits))); [unfold DataType.get_column_val_bytes; by rewrite Hty|]. unfold convert_binlog_set. fold array. rewrite Hsp, Hfl.
    assert (cstr <$> chosen array bits = chosen array bits) as -> by (rewrite <-(list_fmap_id (chosen array bits)) at 2; apply list_fmap_ext; intros i x Hx; apply cstr_id; rewrite Forall_lookup in H0; by eapply H0). rewrite Hsb. cbn [mbind outcome_bind]. rewrite (proj2 (Z.ltb_ge 8 len)) by lia.
    rewrite bits_written by lia. unfold be_split. by rewrite rev_involutive, Hzl.
  - intros rest. rewrite Hct, Hzl. done.
  - rewrite Hct. change (decode_cell fuel OB_TYPE_STRING [OB_TYPE_SET; ?k] ?v) with (Some (VSet (le_combine v))). rewrite le_split_small; [done|]. rewrite Z2Nat.id by lia. split; [lia|]. eapply Z.lt_le_trans; [apply Hv|]. change 256 with (2 ^ 8). rewrite <-Z.pow_mul_r by lia. apply Z.pow_le_mono_r; lia.
Qed.

(** Every value. *)
Lemma shows_ok m c data : shows fuel ndebug Parse createFromWkt m c data -> column_ok m c data false.
Proof using Halloc.
  destruct 1; [by apply int_column|by apply text_column|by apply blob_column|by apply decimal_column|by apply enum_column|by apply set_column|by apply bit_column|by apply timestamp_column|by apply time_column|by apply datetime_column|by apply date_column|by apply year_column|by apply float_column|by apply double_column|by apply json_column|by eapply geometry_column].
Qed.
End Columns.

(** ** Null bitmaps *)

Definition null_bit (j : nat) (bitmap : bytes) : bool := Z.testbit (byte_at (j / 8) bitmap) (Z.of_nat (j mod 8)).
Definition bitmap_ok (n : nat) (bitmap : bytes) : Prop := zlen bitmap = (Z.of_nat n + 7) / 8 /\ Forall (fun b => 0 <= b < 256) bitmap.

Lemma u8_lor a b : 0 <= a < 256 -> 0 <= b < 8 -> u8 (Z.lor a (Z.shiftl 1 b)) = Z.lor a (Z.shiftl 1 b) /\ 0 <= Z.lor a (Z.shiftl 1 b) < 256.
Proof.
  intros Ha Hb. assert (0 <= Z.lor a (Z.shiftl 1 b) < 256) as H; [|split; [unfold u8; by apply Z.mod_small|done]]. assert (0 <= Z.shiftl 1 b < 2 ^ 8) as Hs.
  { rewrite Z.shiftl_mul_pow2, Z.mul_1_l by lia. split; [apply Z.pow_nonneg; lia|]. apply Z.pow_lt_mono_r; lia. }
  split; [apply Z.lor_nonneg; lia|]. change 256 with (2 ^ 8) in *. destruct (decide (Z.lor a (Z.shiftl 1 b) = 0)) as [->|Hne]; [done|]. apply Z.log2_lt_pow2; [assert (0 <= Z.lor a (Z.shiftl 1 b)) by (apply Z.lor_nonneg; lia); lia|].
  rewrite Z.log2_lor by lia. apply Z.max_lub_lt; [destruct (decide (a = 0)) as [->|]; [done|]|destruct (decide (Z.shiftl 1 b = 0)) as [->|]; [done|]]; apply Z.log2_lt_pow2; lia.
Qed.

Lemma mark_bit_ok n i bm : bitmap_ok n bm -> (i < n)%nat -> exists bm', mark_bit (Z.of_nat i) bm = Done bm' /\ bitmap_ok n bm' /\ forall j, null_bit j bm' = null_bit j bm || bool_decide (i = j).
Proof.
  intros [Hz Hb] Hi. unfold mark_bit. assert (Z.of_nat i `div` 8 = Z.of_nat (i / 8)) as Ed by (rewrite Nat2Z.inj_div; done). assert (Z.of_nat i `mod` 8 = Z.of_nat (i mod 8)) as Em by (rewrite Nat2Z.inj_mod; done). rewrite Ed, Em.
  assert ((i / 8 < length bm)%nat) as Hlt by (unfold zlen in Hz; apply Nat2Z.inj_lt; rewrite Hz, Nat2Z.inj_div; change (Z.of_nat 8) with 8; Z.to_euclidean_division_equations; lia). destruct (lookup_lt_is_Some_2 bm (i / 8)%nat Hlt) as [x Hx]. pose proof (take_drop_middle bm (i / 8)%nat x Hx) as Hsp. set (pre := take (i / 8) bm) in *. set (post := drop (S (i / 8)) bm) in *.
  assert (zlen pre = Z.of_nat (i / 8)) as Zp by (unfold zlen, pre; rewrite length_take; lia). assert (0 <= x < 256) as Bx by (rewrite Forall_lookup in Hb; by apply (Hb (i / 8)%nat)). assert (Z.of_nat (i mod 8) < 8) as Bm by (pose proof (Nat.mod_upper_bound i 8); lia).
  destruct (u8_lor x (Z.of_nat (i mod 8)) Bx ltac:(lia)) as [Eu Bu]. rewrite <-Hsp, <-Zp. change (x :: post) with ([x] ++ post). rewrite heap_read_at with (x := [x]). cbn [mbind outcome_bind le_combine]. rewrite Z.mul_0_r, Z.add_0_r, Eu.
  set (y := Z.lor x (Z.shiftl 1 (Z.of_nat (i mod 8)))) in *. exists (pre ++ y :: post). split_and!.
  - unfold heap_write. pose proof (zlen_nonneg post). rewrite (proj2 (Z.leb_le _ _)) by (rewrite !zlen_app; change (zlen [x]) with 1; change (zlen [y]) with 1; pose proof (zlen_nonneg pre); lia). unfold overwrite. rewrite first_app by done. change (zlen [y]) with (zlen [x]). rewrite <-zlen_app, (app_assoc pre [x] post), skip_app by done. done.
  - split; [rewrite <-Hz, <-Hsp, !zlen_app, !zlen_cons; done|]. rewrite <-Hsp in Hb. rewrite Forall_app, Forall_cons in *. destruct Hb as [Hb1 [_ Hb2]]. done.
  - intros j. unfold null_bit, byte_at. cbn [app]. assert (length pre = (i / 8)%nat) as Lp by (unfold zlen in Zp; lia). destruct (decide (j / 8 = i / 8)%nat) as [E|E].
    + rewrite E, !list_lookup_middle by done. unfold y. rewrite Z.lor_spec. f_equal. rewrite Z.shiftl_spec by lia. change 1 with (2 ^ 0). rewrite Z.pow2_bits_eqb by lia. pose proof (Nat.div_mod_eq i 8). pose proof (Nat.div_mod_eq j 8). destruct (Z.eqb_spec 0 (Z.of_nat (j mod 8) - Z.of_nat (i mod 8))); case_bool_decide; lia.
    + rewrite (bool_decide_eq_false_2 (i = j)) by (intros ->; done). rewrite orb_false_r. do 2 f_equal. destruct (decide (j / 8 < i / 8)%nat); [by rewrite !lookup_app_l by lia|]. rewrite !lookup_app_r by lia. destruct (j / 8 - length pre)%nat eqn:Ej; [lia|done].
Qed.

Lemma fill_bitmap_ok n bm : Z.of_nat n < 2 ^ 31 -> zlen bm = (Z.of_nat n + 7) / 8 -> exists bm', fill_bitmap (Z.of_nat n) ((Z.of_nat n + 7) / 8) bm = Done bm' /\ bitmap_ok n bm' /\ forall j, (j < n)%nat -> null_bit j bm' = false.
Proof.
  intros Hn Hz. change (2 ^ 31) with 2147483648 in Hn. unfold bitmap_ok. set (k := (Z.of_nat n + 7) / 8) in *. unfold fill_bitmap. rewrite Z.quot_div_nonneg, Z.rem_mod_nonneg by lia. set (q := Z.of_nat n / 8).
  assert (0 <= q /\ k < 2 ^ 31 /\ 8 * q + Z.of_nat n `mod` 8 = Z.of_nat n /\ (q = k /\ Z.of_nat n `mod` 8 = 0 \/ q = k - 1 /\ 0 < Z.of_nat n `mod` 8)) as (Hq0 & Hk & Hdm & Hq) by (unfold q, k; change (2 ^ 31) with 2147483648; Z.to_euclidean_division_equations; lia).
  destruct (heap_write_filled [] k (bm, 0) (replicate (Z.to_nat q) 0)) as (b1 & E1 & F1); [done|change (zlen (@nil Z)) with 0; rewrite zlen_replicate; lia|]. cbn [fst snd app] in E1, F1. rewrite Z.add_0_l, zlen_replicate, Z2Nat.id in F1 by lia. rewrite E1. cbn [mbind outcome_bind].
  assert (forall l j, (j < Z.to_nat q * 8)%nat -> null_bit j (replicate (Z.to_nat q) 0 ++ l) = false) as Hzero.
  { intros l j Hj. unfold null_bit, byte_at. assert (j / 8 < Z.to_nat q)%nat by (apply Nat.Div0.div_lt_upper_bound; lia). rewrite lookup_app_l by (rewrite length_replicate; lia). rewrite lookup_replicate_2 by lia. apply Z.bits_0. }
  destruct Hq as [[E Em]|[E Em]].
  - rewrite (proj2 (Z.eqb_neq q (u64 (k - 1)))) by (unfold u64; destruct (decide (k = 0)) as [Ek|Ek]; [rewrite E, Ek; done|rewrite Z.mod_small by lia; lia]). destruct F1 as (_ & Hz1 & Hw). cbn [fst] in Hz1, Hw. rewrite first_ge in Hw by (rewrite zlen_replicate; lia). exists b1. split_and!; [done|done|rewrite Hw; by apply Forall_replicate|].
    intros j Hj. rewrite Hw, <-(app_nil_r (replicate _ _)). apply Hzero. lia.
  - rewrite (proj2 (Z.eqb_eq q (u64 (k - 1)))) by (unfold u64; rewrite Z.mod_small; lia). set (last := u8 (Z.shiftl 255 (Z.of_nat n `mod` 8))). rewrite <-E. destruct (heap_write_filled _ k (b1, q) [last] F1) as (b2 & E2 & _ & Hz2 & Hw2); [rewrite zlen_replicate; change (zlen [last]) with 1; lia|].
    cbn [fst snd] in E2, Hz2, Hw2. rewrite first_ge in Hw2 by (rewrite zlen_app, zlen_replicate; change (zlen [last]) with 1; lia). exists b2. split_and!; [done|done|rewrite Hw2; apply Forall_app; split; [by apply Forall_replicate|repeat constructor; unfold last, u8; apply Z.mod_pos_bound; lia]|].
    pose proof (Z.mod_pos_bound (Z.of_nat n) 8 ltac:(lia)) as Hm8. intros j Hj. rewrite Hw2. destruct (decide (j < Z.to_nat q * 8)%nat) as [Hlt|Hge]; [by apply Hzero|]. unfold null_bit, byte_at. assert (j / 8 = Z.to_nat q)%nat as -> by (symmetry; apply (Nat.div_unique _ _ _ (j - Z.to_nat q * 8)); lia). rewrite list_lookup_middle by (by rewrite length_replicate).
    unfold last, u8. rewrite Z.mod_pow2_bits_low by (pose proof (Nat.mod_upper_bound j 8); lia). apply Z.shiftl_spec_low. assert (j mod 8 = j - Z.to_nat q * 8)%nat as -> by (symmetry; apply (Nat.mod_unique _ _ (Z.to_nat q)); lia). lia.
Qed.

(** ** Rows *)

Fixpoint read_row (fuel : nat) (cols : list (Z * bytes)) (i : nat) (bitmap b : bytes) : option (list (option cell) * bytes) :=
  match cols with
  | [] => Some ([], b)
  | (ty, meta) :: cols =>
      if null_bit i bitmap then '(row, b) ← read_row fuel cols (S i) bitmap b; Some (None :: row, b)
      else '(c, b) ← read_cell fuel ty meta b; '(row, b) ← read_row fuel cols (S i) bitmap b; Some (Some c :: row, b)
  end.

Section ReadRows.
Context (fuel : nat) (ndebug : bool) (Parse : bytes -> option json) (createFromWkt : bytes -> option bytes) (alloc : Z -> bytes).
Context (Halloc : forall n, 0 <= n -> zlen (alloc n) = n).

(** A column has metadata; a field of a row is null or the text of a value. *)
Definition column_described (m : IColMeta) : Prop := exists meta, set_column_metadata ndebug m = Done meta /\ zlen meta = metadata_len (col_data_type m).
Definition field_shows (m : IColMeta) (data : option bytes) (c : option cell) : Prop :=
  match data, c with
  | None, None => column_described m
  | Some data, Some c => shows fuel ndebug Parse createFromWkt m c data
  | _, _ => False
  end.
(** What the table map event says about a column. *)
Definition description (m : IColMeta) : Z * bytes := (col_data_type m, match set_column_metadata ndebug m with Done meta => meta | Crash => [] end).

Definition is_null (row : list (option cell)) (j : nat) : bool := match row !! j with Some None => true | _ => false end.

Lemma null_bits_cons (c : option cell) row i bm bm1 bm' :
  (forall j, null_bit j bm1 = null_bit j bm || bool_decide (i = j) && match c with None => true | _ => false end) -> (forall j, null_bit j bm' = null_bit j bm1 || ((S i <=? j)%nat && is_null row (j - S i))) ->
  forall j, null_bit j bm' = null_bit j bm || ((i <=? j)%nat && is_null (c :: row) (j - i)).
Proof using.
  intros H1 H2 j. rewrite H2, H1, <-orb_assoc. f_equal. unfold is_null. destruct (Nat.leb_spec (S i) j) as [H|H].
  - rewrite (bool_decide_eq_false_2 (i = j)), (proj2 (Nat.leb_le i j)) by lia. replace (j - i)%nat with (S (j - S i)) by lia. done.
  - rewrite andb_false_l, orb_false_r. case_bool_decide as E; [subst j; rewrite Nat.leb_refl, Nat.sub_diag; by destruct c|]. by rewrite (proj2 (Nat.leb_gt i j)) by lia.
Qed.
Lemma nulls_tail (c : option cell) row i n bmf : (forall j, (i <= j < i + S n)%nat -> null_bit j bmf = is_null (c :: row) (j - i)) ->
  null_bit i bmf = (match c with None => true | _ => false end) /\ forall j, (S i <= j < S i + n)%nat -> null_bit j bmf = is_null row (j - S i).
Proof using.
  intros H. split; [rewrite H, Nat.sub_diag by lia; by destruct c|]. intros j Hj. rewrite H by lia. replace (j - i)%nat with (S (j - S i)) by lia. done.
Qed.
Lemma mjoin_app (a b : list bytes) : mjoin (a ++ b) = mjoin a ++ mjoin b.
Proof using. induction a as [|x a IH]; [done|]. change (mjoin ((x :: a) ++ b)) with (x ++ mjoin (a ++ b)). rewrite IH. change (mjoin (x :: a)) with (x ++ mjoin a). by rewrite app_assoc. Qed.

(** A whole image: the conversion succeeds, the bitmap has the nulls, and the row is read
    back from the bitmap and the bytes. *)
Lemma before_loop_ok n vals : forall cols row i bm pos chunks, Forall3 field_shows cols (drop i vals) row -> bitmap_ok n bm -> (i + length cols <= n)%nat -> u64 pos = pos ->
  exists bm' new, before_loop ndebug Parse createFromWkt alloc cols vals i (bm, pos, chunks) = Done (bm', u64 (pos + zlen (mjoin new)), chunks ++ new) /\
    bitmap_ok n bm' /\ (forall j, null_bit j bm' = null_bit j bm || ((i <=? j)%nat && is_null row (j - i))) /\
    forall bmf rest, (forall j, (i <= j < i + length cols)%nat -> null_bit j bmf = is_null row (j - i)) -> read_row fuel (description <$> cols) i bmf (mjoin new ++ rest) = Some (row, rest).
Proof using Halloc.
  induction cols as [|m cols IH]; intros row i bm pos chunks Hf Hbm Hn Hpos.
  - inversion Hf as [Hnil|]; subst. exists bm, []. change (zlen (mjoin (@nil bytes))) with 0. rewrite Z.add_0_r, Hpos, app_nil_r. split_and!; [done|done|intros j; unfold is_null; rewrite lookup_nil, andb_false_r, orb_false_r; done|done].
  - apply Forall3_cons_inv_l in Hf as (v & vs & c & row' & Ev & -> & Hfield & Hf). assert (vals !! i = Some v) as Hv by (rewrite <-(Nat.add_0_r i), <-lookup_drop, Ev; done). assert (drop (S i) vals = vs) as Hd by (by rewrite (drop_S vals v i Hv) in Ev; injection Ev). rewrite <-Hd in Hf. cbn [length] in Hn.
    cbn [before_loop]. unfold at_. rewrite Hv. cbn [of_option mbind outcome_bind]. destruct v as [data|], c as [c|]; cbn [field_shows] in Hfield; try done.
    + destruct (shows_ok fuel ndebug Parse createFromWkt alloc Halloc m c data Hfield) as (meta & ch & Hmeta & Hzm & Hget & Hread). unfold add_value. rewrite Hget. cbn [mbind outcome_bind].
      destruct (IH row' (S i) bm (u64 (pos + zlen (mjoin ch))) (chunks ++ ch) Hf Hbm ltac:(lia)) as (bm' & new & -> & Hbm' & Hnull & Hrd); [unfold u64; by rewrite Z.mod_mod|]. exists bm', (ch ++ new). split_and!.
      * rewrite mjoin_app, zlen_app, app_assoc. do 3 f_equal. unfold u64. rewrite Zplus_mod_idemp_l. f_equal. lia.
      * done.
      * apply (null_bits_cons (Some c) row' i bm bm bm'); [intros j; by rewrite andb_false_r, orb_false_r|exact Hnull].
      * intros bmf rest Hbmf. apply (nulls_tail (Some c)) in Hbmf as [Hi Hbmf]. cbn [fmap list_fmap read_row]. unfold description at 1. rewrite Hmeta, Hi, mjoin_app, <-app_assoc, Hread. cbn [mbind option_bind]. rewrite (Hrd bmf rest Hbmf). done.
    + destruct (mark_bit_ok n i bm Hbm ltac:(lia)) as (bm1 & E1 & Hb1 & Hn1). unfold add_null. rewrite E1. cbn [mbind outcome_bind].
      destruct (IH row' (S i) bm1 pos chunks Hf Hb1 ltac:(lia) Hpos) as (bm' & new & -> & Hbm' & Hnull & Hrd). exists bm', new. split_and!; [done|done| |].
      * apply (null_bits_cons None row' i bm bm1 bm'); [intros j; by rewrite Hn1, andb_true_r|exact Hnull].
      * intros bmf rest Hbmf. apply (nulls_tail None) in Hbmf as [Hi Hbmf]. cbn [fmap list_fmap read_row]. unfold description at 1. rewrite Hi, (Hrd bmf rest Hbmf). done.
Qed.

(** The loop over the new values does the same when none of them is a diff. *)
Lemma after_loop_ok record ty vals : forall cols i s, (forall j v, vals !! j = Some v -> exists d, new_value record j = Done (v, d) /\ (ty = UPDATE -> d = false)) -> (i + length cols <= length vals)%nat ->
  exists k, after_loop ndebug Parse createFromWkt alloc record ty cols i s = (im ← before_loop ndebug Parse createFromWkt alloc cols vals i (af_image s); Done (mkAfter im (af_partial s) k (af_any_diff s))).
Proof using.
  induction cols as [|m cols IH]; intros i s Hnv Hl; [exists (af_json_index s); by destruct s|]. cbn [length] in Hl. destruct (lookup_lt_is_Some_2 vals i ltac:(lia)) as [v Hv]. destruct (Hnv i v Hv) as (d & Ed & Hd). cbn [after_loop before_loop]. unfold at_. rewrite Ed, Hv. cbn [of_option mbind outcome_bind].
  assert (bool_decide (ty = UPDATE) && d = false) as Hdiff by (case_bool_decide; [rewrite Hd; done|done]).
  assert (forall im k, exists k', after_loop ndebug Parse createFromWkt alloc record ty cols (S i) (mkAfter im (af_partial s) k (af_any_diff s)) = (im ← before_loop ndebug Parse createFromWkt alloc cols vals (S i) im; Done (mkAfter im (af_partial s) k' (af_any_diff s)))) as Hgo.
  { intros im k. destruct (IH (S i) (mkAfter im (af_partial s) k (af_any_diff s)) Hnv ltac:(lia)) as [k' ->]. by exists k'. }
  destruct v as [data|].
  - rewrite Hdiff. destruct (add_value ndebug Parse createFromWkt alloc m data false (af_image s)) as [im|]; [|by exists 0]. cbn [mbind outcome_bind]. destruct (getType m =? OB_TYPE_JSON); cbn [mbind outcome_bind]; apply Hgo.
  - destruct (add_null (Z.of_nat i) (af_image s)) as [im|]; [|by exists 0]. cbn [mbind outcome_bind]. destruct (getType m =? OB_TYPE_JSON); cbn [mbind outcome_bind]; apply Hgo.
Qed.
End ReadRows.
