(* ===== verification/TableCache.v ===== *)
(** * Table identifiers

    [src/src/binlog/binlog-instance/table_cache.{h,cpp}]: the 48-bit identifiers that table
    map events give to tables, and the cache from names to identifiers.  Identifiers in use
    are shown to be valid, never zero, and different for different tables, also across the
    wrap-around. *)

From stdpp Require Import gmap.
From S2P Require Import Prelude Bytes.

#[local] Open Scope Z_scope.

(** [TableId::TABLE_ID_MAX] *)
Definition TABLE_ID_MAX : Z := Z.shiftr (u64 (Z.lnot 0)) 16.

(** [TableId::operator++] *)
Definition next_table_id (m_id : Z) : Z := if m_id =? TABLE_ID_MAX then 0 else m_id + 1.

(** The cache, with the counter [last_table_id] of the file. *)
Record TableCache := mkTableCache { last_table_id : Z; cache : gmap (bytes * bytes) Z }.
Definition new_TableCache : TableCache := mkTableCache 0 ∅.

(** Zero is skipped: the recursion is one level deep. *)
Fixpoint assign_new_table_id (fuel : nat) (tc : TableCache) : Z * TableCache :=
  match fuel with
  | O => (0, tc)
  | S f =>
      let table_id := last_table_id tc in
      let tc := mkTableCache (next_table_id table_id) (cache tc) in
      if table_id =? 0 then let '(table_id, tc) := assign_new_table_id f tc in (table_id, mkTableCache (last_table_id tc) ∅) else (table_id, tc)
  end.

Definition get_table_id (db_name tb_name : bytes) (tc : TableCache) : Z * TableCache :=
  match cache tc !! (db_name, tb_name) with
  | Some table_id => (table_id, tc)
  | None =>
      let '(table_id, tc) := assign_new_table_id 2 tc in
      (table_id, mkTableCache (last_table_id tc) (<[(db_name, tb_name) := table_id]> (cache tc)))
  end.

Definition refresh_table_id (db_name tb_name : bytes) (tc : TableCache) : TableCache :=
  match db_name, tb_name with
  | [], _ | _, [] => tc
  | _, _ =>
      let '(table_id, tc) := assign_new_table_id 2 tc in
      mkTableCache (last_table_id tc) (<[(db_name, tb_name) := table_id]> (cache tc))
  end.

(** ** Identifiers *)

(** The counter is valid; what is in the cache was handed out since the last wrap-around. *)
Record cache_ok (tc : TableCache) : Prop := {
  co_last : 0 <= last_table_id tc <= TABLE_ID_MAX;
  co_range : forall k id, cache tc !! k = Some id -> 1 <= id <= TABLE_ID_MAX /\ (last_table_id tc = 0 \/ id < last_table_id tc);
  co_distinct : forall k k' id, cache tc !! k = Some id -> cache tc !! k' = Some id -> k = k'
}.

Lemma table_id_max : TABLE_ID_MAX = 2 ^ 48 - 1.
Proof. reflexivity. Qed.

Lemma new_cache_ok : cache_ok new_TableCache.
Proof. split; cbn [last_table_id cache new_TableCache]; [rewrite table_id_max; lia|intros k id; by rewrite lookup_empty|intros k k' id; by rewrite lookup_empty]. Qed.

(** A new identifier is valid and not in use, and the invariant is kept. *)
Lemma assign_ok tc : cache_ok tc -> exists id tc', assign_new_table_id 2 tc = (id, tc') /\ cache_ok tc' /\ 1 <= id <= TABLE_ID_MAX /\ (forall k, cache tc' !! k <> Some id) /\
  (last_table_id tc' = 0 \/ id < last_table_id tc') /\ cache tc' ⊆ cache tc.
Proof.
  intros [H1 H2 H3]. pose proof table_id_max as Hm. change (2 ^ 48 - 1) with 281474976710655 in Hm. cbn [assign_new_table_id]. unfold next_table_id. destruct (Z.eqb_spec (last_table_id tc) 0) as [E|E].
  - rewrite E. rewrite (proj2 (Z.eqb_neq 0 TABLE_ID_MAX)) by lia. change (0 + 1) with 1. cbn [last_table_id cache]. change (1 =? 0) with false. cbn iota. rewrite (proj2 (Z.eqb_neq 1 TABLE_ID_MAX)) by lia. change (1 + 1) with 2. do 2 eexists. split; [done|]. cbn [last_table_id cache]. split_and!; [|lia|lia|intros k; by rewrite lookup_empty|lia|apply map_empty_subseteq].
    split; cbn [last_table_id cache]; [lia|intros k id; by rewrite lookup_empty|intros k k' id; by rewrite lookup_empty].
  - do 2 eexists. split; [done|]. cbn [last_table_id cache]. assert (forall k id, cache tc !! k = Some id -> id < last_table_id tc) as Hlt by (intros k id Hk; destruct (H2 k id Hk) as [_ [?|?]]; [lia|done]).
    split_and!; [|lia|lia|intros k Hk; specialize (Hlt k _ Hk); lia|destruct (Z.eqb_spec (last_table_id tc) TABLE_ID_MAX); lia|done].
    split; cbn [last_table_id cache]; [destruct (Z.eqb_spec (last_table_id tc) TABLE_ID_MAX); lia| |done]. intros k id Hk. destruct (H2 k id Hk) as [Hr _]. specialize (Hlt k id Hk). destruct (Z.eqb_spec (last_table_id tc) TABLE_ID_MAX); lia.
Qed.

Lemma insert_ok k id tc : cache_ok tc -> 1 <= id <= TABLE_ID_MAX -> (forall k, cache tc !! k <> Some id) -> last_table_id tc = 0 \/ id < last_table_id tc -> cache_ok (mkTableCache (last_table_id tc) (<[k := id]> (cache tc))).
Proof.
  intros [H1 H2 H3] Hid Hnew Hlast. split; cbn [last_table_id cache]; [done| |].
  - intros k' id' [[-> <-]|[_ Hk]]%lookup_insert_Some; [done|by eapply H2].
  - intros a b x [[<- <-]|[_ Ha]]%lookup_insert_Some [[<- E]|[_ Hb]]%lookup_insert_Some; [done|by apply Hnew in Hb|subst; by apply Hnew in Ha|by eapply H3].
Qed.

Lemma get_table_id_ok db tb tc : cache_ok tc -> let '(id, tc') := get_table_id db tb tc in
  cache_ok tc' /\ 1 <= id <= TABLE_ID_MAX /\ cache tc' !! (db, tb) = Some id.
Proof.
  intros Hok. unfold get_table_id. destruct (cache tc !! (db, tb)) as [id|] eqn:E; [split_and!; [done|apply (co_range tc Hok _ _ E)|apply (co_range tc Hok _ _ E)|done]|].
  destruct (assign_ok tc Hok) as (id & tc' & -> & Hok' & Hid & Hnew & Hlast & _). split_and!; [by apply insert_ok|lia|lia|]. cbn [cache]. apply lookup_insert_eq.
Qed.
Lemma refresh_table_id_ok db tb tc : cache_ok tc -> cache_ok (refresh_table_id db tb tc).
Proof.
  intros Hok. unfold refresh_table_id. destruct db as [|c db], tb as [|c' tb]; try done. destruct (assign_ok tc Hok) as (id & tc' & -> & Hok' & Hid & Hnew & Hlast & _). by apply insert_ok.
Qed.

(** The same table has the same identifier until it is refreshed. *)
Lemma get_table_id_again db tb tc : let '(id, tc') := get_table_id db tb tc in get_table_id db tb tc' = (id, tc').
Proof.
  unfold get_table_id. destruct (cache tc !! (db, tb)) as [id|] eqn:E; [by rewrite E|]. destruct (assign_new_table_id 2 tc) as [id tc']. cbn [cache]. by rewrite lookup_insert_eq.
Qed.

(** ** Any use of the cache *)

Inductive cache_op := Get (db_name tb_name : bytes) | Refresh (db_name tb_name : bytes).
Definition cache_step (op : cache_op) (tc : TableCache) : TableCache :=
  match op with Get db tb => (get_table_id db tb tc).2 | Refresh db tb => refresh_table_id db tb tc end.
Definition cache_run (ops : list cache_op) (tc : TableCache) : TableCache := fold_left (fun tc op => cache_step op tc) ops tc.

Lemma cache_run_ok ops tc : cache_ok tc -> cache_ok (cache_run ops tc).
Proof.
  unfold cache_run. revert tc. induction ops as [|op ops IH]; intros tc Hok; [done|]. cbn [fold_left]. apply IH. destruct op as [db tb|db tb]; cbn [cache_step]; [|by apply refresh_table_id_ok].
  pose proof (get_table_id_ok db tb tc Hok) as H. destruct (get_table_id db tb tc). apply H.
Qed.

(** Without a wrap-around a new identifier leaves the others as they are. *)
Lemma assign_straight tc : 1 <= last_table_id tc < TABLE_ID_MAX ->
  assign_new_table_id 2 tc = (last_table_id tc, mkTableCache (last_table_id tc + 1) (cache tc)).
Proof.
  intros H. cbn [assign_new_table_id]. rewrite (proj2 (Z.eqb_neq (last_table_id tc) 0)) by lia. unfold next_table_id. by rewrite (proj2 (Z.eqb_neq _ _)) by lia.
Qed.

Lemma cache_step_keeps k id op tc : 1 <= last_table_id tc < TABLE_ID_MAX -> cache tc !! k = Some id -> op <> Refresh k.1 k.2 ->
  cache (cache_step op tc) !! k = Some id /\ last_table_id tc <= last_table_id (cache_step op tc) <= last_table_id tc + 1.
Proof.
  intros Hl Hk Hop. destruct op as [db tb|db tb]; cbn [cache_step].
  - unfold get_table_id. destruct (cache tc !! (db, tb)) eqn:E; [cbn; split; [done|lia]|]. rewrite assign_straight by done. cbn [snd cache last_table_id]. rewrite lookup_insert_ne by congruence. split; [done|lia].
  - unfold refresh_table_id. destruct db as [|c db], tb as [|c' tb]; try (split; [done|lia]). rewrite assign_straight by done. cbn [cache last_table_id]. rewrite lookup_insert_ne by (destruct k; cbn in *; congruence). split; [done|lia].
Qed.

Lemma cache_run_keeps k id ops : forall tc, 1 <= last_table_id tc -> last_table_id tc + zlen ops <= TABLE_ID_MAX -> cache tc !! k = Some id -> Refresh k.1 k.2 ∉ ops ->
  cache (cache_run ops tc) !! k = Some id.
Proof.
  induction ops as [|op ops IH]; intros tc Hl Hn Hk Hops; [done|]. rewrite zlen_cons in Hn. pose proof (zlen_nonneg ops). apply not_elem_of_cons in Hops as [Hop Hops].
  destruct (cache_step_keeps k id op tc ltac:(lia) Hk ltac:(congruence)) as [Hk' Hl']. apply (IH (cache_step op tc)); [lia|lia|done|done].
Qed.

(** C31: However the cache is used (any sequence of lookups and refreshes from the empty cache,
    any number of tables, also after the 48-bit counter has wrapped around), a lookup
    returns a valid identifier that is not zero.  Whatever is done after it, a later lookup
    returns the same identifier, as long as the table itself is not refreshed and the
    counter does not wrap around; and another table gets another identifier (a
    wrap-around in between empties the cache). *)
Theorem table_ids_distinct (ops more : list cache_op) (start : Z) (db tb db' tb' : bytes) (Hstart : 0 <= start <= TABLE_ID_MAX) :
  let tc := cache_run ops (mkTableCache start ∅) in
  let '(id, tc1) := get_table_id db tb tc in
  let tc2 := cache_run more tc1 in
  let '(id', tc3) := get_table_id db' tb' tc2 in
  1 <= id <= TABLE_ID_MAX /\
  (Refresh db tb ∉ more -> 1 <= last_table_id tc1 -> last_table_id tc1 + zlen more <= TABLE_ID_MAX -> get_table_id db tb tc2 = (id, tc2)) /\
  (cache tc3 !! (db, tb) = Some id -> id = id' <-> (db, tb) = (db', tb')).
Proof.
  cbn zeta. set (tc := cache_run ops (mkTableCache start ∅)). assert (cache_ok tc) as Hok by (apply cache_run_ok; split; cbn; [lia|intros k id; by rewrite lookup_empty|intros k k' id; by rewrite lookup_empty]).
  pose proof (get_table_id_ok db tb tc Hok) as H1. destruct (get_table_id db tb tc) as [id tc1] eqn:E1. destruct H1 as (Hok1 & Hid & Hk).
  pose proof (get_table_id_ok db' tb' (cache_run more tc1) (cache_run_ok more _ Hok1)) as H2. destruct (get_table_id db' tb' (cache_run more tc1)) as [id' tc3] eqn:E2. destruct H2 as (Hok3 & Hid' & Hk'). split_and!; [lia|lia| |].
  - intros Hmore Hl Hn. unfold get_table_id. by rewrite (cache_run_keeps (db, tb) id more tc1) by done.
  - intros Hin. split; [|congruence]. intros <-. by eapply (co_distinct tc3 Hok3).
Qed.

(** The counter wraps around before the first lookup; another table is refreshed and looked
    up between the first and the second. *)
Lemma table_ids_distinct_witness :
  let ops := [Get [100] [97]; Get [100] [98]; Refresh [100] [97]] in let more := [Get [100] [97]; Refresh [100] [97]; Get [100] [116]] in
  let '(id, tc1) := get_table_id [100] [116] (cache_run ops (mkTableCache (TABLE_ID_MAX - 1) ∅)) in
  let tc2 := cache_run more tc1 in
  let '(id', tc3) := get_table_id [100] [97] tc2 in 1 <= id <= TABLE_ID_MAX /\ get_table_id [100] [116] tc2 = (id, tc2) /\ id <> id'.
Proof.
  pose proof (table_ids_distinct [Get [100] [97]; Get [100] [98]; Refresh [100] [97]] [Get [100] [97]; Refresh [100] [97]; Get [100] [116]] (TABLE_ID_MAX - 1) [100] [116] [100] [97] ltac:(rewrite table_id_max; lia)) as H.
  cbv zeta in H |- *. revert H. destruct (get_table_id [100] [116] (cache_run _ _)) as [id tc1] eqn:E1. vm_compute in E1. injection E1 as <- <-.
  destruct (get_table_id [100] [97] (cache_run _ _)) as [id' tc3] eqn:E2. intros (H1 & H2 & H3). split; [exact H1|]. split.
  - apply H2; [|vm_compute; discriminate|vm_compute; discriminate]. rewrite !not_elem_of_cons. split_and!; [discriminate..|]. apply not_elem_of_nil.
  - vm_compute in E2. injection E2 as <- <-. intros E. apply H3 in E; [discriminate|vm_compute; reflexivity].
Defined.

(** A refresh between the two lookups for one row (by the DDL of another record that is
    converted at the same time) gives its table map event and its rows event different
    identifiers. *)
Example refresh_between_lookups : let '(id, tc) := get_table_id [100] [116] new_TableCache in id <> (get_table_id [100] [116] (refresh_table_id [100] [116] tc)).1.
Proof. vm_compute. discriminate. Qed.
