(* ===== verification/Converter.v ===== *)
(** * Conversion of records to events

    [src/src/binlog/binlog-instance/parallel_convert.cpp]: what a convert handler makes of
    the records of a batch, with the accessors of [src/src/binlog/common_util.h].  Parameters:
    the records and the metadata of their tables (classes of the log-message library), the
    DDL parser (a Java library), and the configuration.  An exception of a handler ends the
    program ([ConvertExceptionHandler] calls [exit]): it is [Crash] here. *)

From S2P Require Import Prelude Bytes Str Gtid Json Decimal Temporal Floats Events DataType RowImage TableCache.

#[local] Open Scope Z_scope.

(** ** CommonUtils *)

Definition get_timestamp_sec (record : ILogRecord) : Z := u64 (getTimestamp record).
Definition get_checkpoint_usec (record : ILogRecord) : Z := u64 (getCheckpoint1 record * 1000 * 1000 + getCheckpoint2 record).
Definition get_transaction_id (record : ILogRecord) : outcome bytes :=
  match filterValues record with
  | None => Done []
  | Some binlog_buf => buf ← at_ binlog_buf 1; Done (cstr buf)
  end.

Definition STMT_END_F : Z := 1.
Definition Q_FLAGS2_CODE : Z := 0.
Definition Q_CHARSET_CODE : Z := 4.
Definition status_vars_bitfield : list Z := [4; 8; 255; 4; 6; 255; 2; 2; 8; 4; 255; 255; 255; 255; 255; 1; 8; 2; 2; 2; 2].
Definition XID_LEN : Z := 8.
Definition XID_HEADER_LEN : Z := 0.
Definition ROWS_HEADER_LEN : Z := 8.
Definition VAR_HEADER_LEN : Z := 2.

Record convert_config := mkConvertConfig {
  cc_tenant : bytes;
  cc_master_server_uuid : bytes;
  cc_binlog_checksum : bool;
  cc_server_id : Z;
  cc_ddl_convert : bool;
  cc_ignore_unsupported_ddl : bool;
  cc_ignore_unsupported_event : bool
}.

Section Convert.
(** [ddl_parse]: [None] is a failure; [undefined]: what a field holds that no constructor
    sets (the number of the transaction, which the storage assigns). *)
Context (cfg : convert_config) (ndebug : bool) (Parse : bytes -> option json) (createFromWkt : bytes -> option bytes) (alloc : Z -> bytes).
Context (ddl_parse : bytes -> option bytes) (undefined : Z).

Abbreviation make_event := (new_event (cc_binlog_checksum cfg)).
Abbreviation make_header := (new_header (cc_server_id cfg)).
Abbreviation checksum_len := (config_checksum_len (cc_binlog_checksum cfg)).

Definition dbname_of (record : ILogRecord) : bytes := get_dbname_without_tenant (dbname record) (cc_tenant cfg).
Definition with_txn (ob_txn : bytes) (checkpoint : Z) (ev : ObLogEvent) : ObLogEvent :=
  mkEvent (get_header ev) ob_txn checkpoint (get_checksum_flag ev) (is_filter ev) (get_body ev).

(** ** Query events *)

Definition status_vars : bytes := int1store Q_FLAGS2_CODE ++ int4store 0 ++ int1store Q_CHARSET_CODE ++ int2store 45 ++ int2store 45 ++ int2store 83.
Definition status_var_len : outcome Z :=
  a ← at_ status_vars_bitfield (Z.to_nat Q_FLAGS2_CODE); b ← at_ status_vars_bitfield (Z.to_nat Q_CHARSET_CODE); Done (u16 (a + 1 + b + 1)).

(** The statement of a DDL record: the first of its new columns. *)
Definition ddl_text (record : ILogRecord) : outcome bytes := v ← at_ (newCols record) 0; Done (default [] v.1).

Definition parallel_convert_query_event (record : ILogRecord) (tc : TableCache) : outcome (ObLogEvent * TableCache) :=
  '(sql, is_ddl_event, tc) ←
    (if bool_decide (recordType record = EBEGIN) then Done (BEGIN_VAR, false, tc)
     else
       sql ← ddl_text record;
       if cc_ddl_convert cfg then Done (default sql (ddl_parse sql), true, refresh_table_id (dbname_of record) (tbname record) tc)
       else Done (sql, true, tc));
  var_len ← status_var_len;
  status_vars ← heap_write 0 status_vars (alloc var_len);
  let dbname := dbname_of record in
  let event := mkQuery (u32 (getThreadId record)) 0 (zlen dbname) (zlen sql) 0 var_len status_vars dbname sql is_ddl_event in
  let event_len := COMMON_HEADER_LENGTH + QUERY_HEADER_LEN + var_len + zlen dbname + 1 + zlen sql + checksum_len in
  Done (make_event (make_header QUERY_EVENT (get_timestamp_sec record) event_len 0) (QueryEvent event), tc).

Definition parallel_ddl_need_to_be_stored (record : ILogRecord) : outcome bool :=
  sql ← ddl_text record;
  if cc_ddl_convert cfg then
    match ddl_parse sql with
    | None => Done (negb (cc_ignore_unsupported_ddl cfg))
    | Some _ => Done true
    end
  else Done true.

(** ** GTID events *)

(** [GtidLogEvent::set_gtid_uuid]: the five parts at their places; the pointer stays unset
    when there are not five, which is no memory at all. *)
Definition gtid_event_uuid (gtid_uuid : bytes) : outcome bytes :=
  match split gtid_uuid 45 false with
  | [p0; p1; p2; p3; p4] =>
      let bin p := hex_to_bin (length p) p in
      b ← heap_write 0 (bin p0) (alloc SERVER_UUID_LEN); b ← heap_write 4 (bin p1) b; b ← heap_write 6 (bin p2) b; b ← heap_write 8 (bin p3) b; heap_write 10 (bin p4) b
  | _ => Done []
  end.

Definition parallel_convert_gtid_log_event (record : ILogRecord) (tc : TableCache) : outcome (list ObLogEvent * TableCache) :=
  uuid ← gtid_event_uuid (cc_master_server_uuid cfg);
  ob_txn ← get_transaction_id record;
  let event_len := COMMON_HEADER_LENGTH + GTID_HEADER_LEN + checksum_len in
  let gtid_log_event := mkGtidLog 1 uuid undefined 2 (u64 (getTimestamp record)) (u64 (getRecordUsec record)) in
  let ev := with_txn ob_txn (get_checkpoint_usec record) (make_event (make_header GTID_LOG_EVENT (get_timestamp_sec record) event_len 0) (GtidLogEvent gtid_log_event)) in
  '(query, tc) ← parallel_convert_query_event record tc;
  Done ([ev; query], tc).

Definition parallel_convert_xid_event (record : ILogRecord) : ObLogEvent :=
  let xid_event_len := COMMON_HEADER_LENGTH + XID_HEADER_LEN + XID_LEN + checksum_len in
  make_event (make_header XID_EVENT (get_timestamp_sec record) xid_event_len 0) (XidEvent 0).

(** ** Table map events *)

(** The loop over the columns: types, null bits (each is added once) and metadata, which is
    appended to a block of two bytes per column; only what is written of it is kept. *)
Fixpoint describe_columns (cols : list IColMeta) (index : nat) (s : bytes * bytes * bytes) : outcome (bytes * bytes * bytes) :=
  match cols with
  | [] => Done s
  | col :: cols =>
      let '(types, null_bits, metadata) := s in
      let types := types ++ int1store (col_data_type col) in
      null_bits ← (if isNotNull col then Done null_bits else mark_bit (Z.of_nat index) null_bits);
      meta ← set_column_metadata ndebug col;
      describe_columns cols (S index) (types, null_bits, metadata ++ meta)
  end.

Definition parallel_convert_table_map_event (record : ILogRecord) (tc : TableCache) : outcome (ObLogEvent * TableCache) :=
  let dbname := dbname_of record in
  let table_meta := getTableMeta record in
  let tb_name := getName table_meta in
  let col_count := zlen (getCols table_meta) in
  let '(table_id, tc) := get_table_id dbname (tbname record) tc in
  '(col_type, null_bits, col_metadata) ← describe_columns (getCols table_meta) 0 ([], replicate (Z.to_nat (bitmap_bytes col_count)) 0, []);
  let event := mkTableMap table_id 1 dbname (zlen dbname) tb_name (zlen tb_name) col_count (Some col_type) (zlen col_metadata) (Some col_metadata) (Some null_bits) in
  let body_size := (zlen dbname + 2) + (zlen tb_name + 2) + (zlen (packet_store_length col_count) + col_count) + bitmap_bytes col_count +
    zlen (packet_store_length (zlen col_metadata)) + zlen col_metadata in
  let event_len := COMMON_HEADER_LENGTH + TABLE_MAP_HEADER_LEN + body_size + checksum_len in
  Done (make_event (make_header TABLE_MAP_EVENT (get_timestamp_sec record) event_len 0) (TableMapEvent event), tc).

(** ** Rows events *)

(** A fresh bitmap for the columns. *)
Definition new_bitmap (col_count : Z) : outcome bytes := let n := bitmap_bytes col_count in fill_bitmap col_count n (alloc n).

Definition finish_rows (record : ILogRecord) (type_code body_size : Z) (rows : Rows) : outcome ObLogEvent :=
  ob_txn ← get_transaction_id record;
  let event_len := COMMON_HEADER_LENGTH + ROWS_HEADER_LEN + VAR_HEADER_LEN + body_size + checksum_len in
  Done (with_txn ob_txn (get_checkpoint_usec record) (make_event (make_header type_code (get_timestamp_sec record) event_len 0) (RowsEvent rows))).

Definition parallel_convert_write_rows_event (record : ILogRecord) (tc : TableCache) : outcome (ObLogEvent * TableCache) :=
  let table_meta := getTableMeta record in
  let col_count := zlen (getCols table_meta) in
  let '(table_id, tc) := get_table_id (dbname_of record) (tbname record) tc in
  let col_bytes := bitmap_bytes col_count in
  bitmap ← new_bitmap col_count;
  '(before, after, _, _) ← col_val_bytes ndebug Parse createFromWkt alloc record table_meta INSERT ([], 0, []) (bitmap, 0, []);
  let '(_, before_pos, before_row) := before in let '(bitmap, after_pos, after_row) := after in
  let body_size := col_bytes + col_bytes + u64 (before_pos + after_pos) + get_packed_integer col_count in
  ev ← finish_rows record WRITE_ROWS_EVENT body_size
    (mkRows table_id STMT_END_F 2 col_count 0 col_bytes None (Some bitmap) None 0 before_row after_row before_pos after_pos INSERT);
  Done (ev, tc).

Definition parallel_convert_delete_rows_event (record : ILogRecord) (tc : TableCache) : outcome (ObLogEvent * TableCache) :=
  let table_meta := getTableMeta record in
  let col_count := zlen (getCols table_meta) in
  let '(table_id, tc) := get_table_id (dbname_of record) (tbname record) tc in
  let col_bytes := bitmap_bytes col_count in
  bitmap ← new_bitmap col_count;
  '(before, after, _, _) ← col_val_bytes ndebug Parse createFromWkt alloc record table_meta DELETE (bitmap, 0, []) ([], 0, []);
  let '(bitmap, before_pos, before_row) := before in let '(_, after_pos, after_row) := after in
  let body_size := col_bytes + col_bytes + u64 (before_pos + after_pos) + get_packed_integer col_count in
  ev ← finish_rows record DELETE_ROWS_EVENT body_size
    (mkRows table_id STMT_END_F 2 col_count col_bytes 0 (Some bitmap) None None 0 before_row after_row before_pos after_pos DELETE);
  Done (ev, tc).

Definition parallel_convert_update_rows_event (record : ILogRecord) (tc : TableCache) : outcome (ObLogEvent * TableCache) :=
  let table_meta := getTableMeta record in
  let col_count := zlen (getCols table_meta) in
  let '(table_id, tc) := get_table_id (dbname_of record) (tbname record) tc in
  let col_bytes := bitmap_bytes col_count in
  before_bitmap ← new_bitmap col_count;
  after_bitmap ← new_bitmap col_count;
  '(before, after, partial_cols_bitmap, partial_cols_bytes) ← col_val_bytes ndebug Parse createFromWkt alloc record table_meta UPDATE (before_bitmap, 0, []) (after_bitmap, 0, []);
  let '(before_bitmap, before_pos, before_row) := before in let '(after_bitmap, after_pos, after_row) := after in
  let '(update_type, partial_size) := match partial_cols_bitmap with Some _ => (PARTIAL_UPDATE_ROWS_EVENT, 1 + partial_cols_bytes) | None => (UPDATE_ROWS_EVENT, 0) end in
  let body_size := u64 (before_pos + after_pos) + partial_size + 4 * col_bytes + get_packed_integer col_count in
  ev ← finish_rows record update_type body_size
    (mkRows table_id STMT_END_F 2 col_count col_bytes col_bytes (Some before_bitmap) (Some after_bitmap) partial_cols_bitmap
       (match partial_cols_bitmap with Some _ => partial_cols_bytes | None => 0 end) before_row after_row before_pos after_pos UPDATE);
  Done (ev, tc).

Definition parallel_pass_heartbeat_checkpoint (record : ILogRecord) : ObLogEvent :=
  with_txn [] (get_checkpoint_usec record) (new_heartbeat (cc_binlog_checksum cfg) (cc_server_id cfg)).

(** ** The handler *)

Definition convert_record (record : ILogRecord) (tc : TableCache) : outcome (list ObLogEvent * TableCache) :=
  let rows (convert : ILogRecord -> TableCache -> outcome (ObLogEvent * TableCache)) :=
    '(table_map, tc) ← parallel_convert_table_map_event record tc; '(rows, tc) ← convert record tc; Done ([table_map; rows], tc) in
  match recordType record with
  | EBEGIN => parallel_convert_gtid_log_event record tc
  | ECOMMIT => Done ([parallel_convert_xid_event record], tc)
  | EDDL => b ← parallel_ddl_need_to_be_stored record; if b : bool then parallel_convert_gtid_log_event record tc else Done ([], tc)
  | EINSERT => rows parallel_convert_write_rows_event
  | EDELETE => rows parallel_convert_delete_rows_event
  | EUPDATE => rows parallel_convert_update_rows_event
  | HEARTBEAT => Done ([parallel_pass_heartbeat_checkpoint record], tc)
  | Unsupported _ => if cc_ignore_unsupported_event cfg then Done ([], tc) else Crash
  end.

(** [BinlogEventConvertHandler::onEvent] *)
Fixpoint convert_on_event (records : list ILogRecord) (tc : TableCache) : outcome (list ObLogEvent * TableCache) :=
  match records with
  | [] => Done ([], tc)
  | record :: records =>
      '(evs, tc) ← convert_record record tc;
      '(rest, tc) ← convert_on_event records tc;
      Done (evs ++ rest, tc)
  end.
End Convert.
