(* ===== verification/Replay.v ===== *)
(** * From records to a replica

    What a replica makes of the events of the conversion: transactions, statements and the
    rows of tables.  Records that show such changes are converted into well-formed events
    from which the replica reads the same changes; with [Service], the changes of batches
    of records reach it through the storage and the dumper. *)

From S2P Require Import Prelude Bytes Str Gtid Json Decimal Temporal Floats Events EventWire EventScan BinlogIndex GtidManager Storage Pipeline Dumper Stream Service DataType RowImage TableCache Converter.

#[local] Open Scope Z_scope.

(** ** Changes *)

Definition row : Type := list (option cell).
Inductive change :=
| Begin (db : bytes) | Commit | Statement (db sql : bytes)
| Inserted (db tb : bytes) (new : row) | Deleted (db tb : bytes) (old : row) | Updated (db tb : bytes) (old new : row).

(** Types and metadata of the columns, from a table map event. *)
Fixpoint read_descriptions (types metadata : bytes) : option (list (Z * bytes)) :=
  match types with
  | [] => if beq metadata [] then Some [] else None
  | ty :: types =>
      let n := metadata_len ty in
      if n <=? zlen metadata then rest ← read_descriptions types (skip n metadata); Some ((ty, first n metadata) :: rest) else None
  end.

Section Replica.
Context (fuel : nat).

Definition read_image (tm : TableMap) (bitmap : option bytes) (values : list bytes) : option row :=
  types ← tm_column_type tm; metadata ← tm_metadata tm; bitmap ← bitmap;
  cols ← read_descriptions types metadata;
  '(r, rest) ← read_row fuel cols 0 bitmap (mjoin values);
  if beq rest [] then Some r else None.

Definition read_rows_event (tm : TableMap) (type_code : Z) (e : Rows) : option change :=
  if (r_table_id e =? tm_table_id tm) && (r_width e =? tm_column_count tm) then
    match r_rows_event_type e with
    | INSERT => new ← read_image tm (r_columns_after_bitmaps e) (r_after_row e); Some (Inserted (tm_db_name tm) (tm_tb_name tm) new)
    | DELETE => old ← read_image tm (r_columns_before_bitmaps e) (r_before_row e); Some (Deleted (tm_db_name tm) (tm_tb_name tm) old)
    | UPDATE =>
        if type_code =? UPDATE_ROWS_EVENT then
          old ← read_image tm (r_columns_before_bitmaps e) (r_before_row e); new ← read_image tm (r_columns_after_bitmaps e) (r_after_row e);
          Some (Updated (tm_db_name tm) (tm_tb_name tm) old new)
        else None
    end
  else None.

(** The changes of a sequence of events. *)
Fixpoint read_changes (evs : list ObLogEvent) : option (list change) :=
  match evs with
  | [] => Some []
  | ev :: evs' =>
      match get_body ev, evs' with
      | GtidLogEvent _, query :: evs =>
          match get_body query with
          | QueryEvent q => rest ← read_changes evs; Some ((if beq (q_sql_statment q) BEGIN_VAR then Begin (q_dbname q) else Statement (q_dbname q) (q_sql_statment q)) :: rest)
          | _ => None
          end
      | XidEvent _, _ => rest ← read_changes evs'; Some (Commit :: rest)
      | TableMapEvent tm, rows :: evs =>
          match get_body rows with
          | RowsEvent e => c ← read_rows_event tm (h_type_code (get_header rows)) e; rest ← read_changes evs; Some (c :: rest)
          | _ => None
          end
      | _, _ => None
      end
  end.
End Replica.

(** ** Records that show changes *)

Section Conversion.
Context (cfg : convert_config) (ndebug : bool) (Parse : bytes -> option json) (createFromWkt : bytes -> option bytes) (alloc : Z -> bytes).
Context (ddl_parse : bytes -> option bytes) (undefined : Z) (fuel : nat) (u : bytes).

(** The parameters: blocks have the size asked for, the UUID of the server is one. *)
Record convert_ok : Prop := {
  cv_alloc : forall n, 0 <= n -> zlen (alloc n) = n;
  cv_uuid : is_uuid u;
  cv_text : cc_master_server_uuid cfg = uuid_hex_bin_to_str_with_delim u;
  cv_server : is_u32 (cc_server_id cfg);
  cv_undefined : is_u64 undefined
}.

(** What every record has: times and a transaction that fit, names without NUL. *)
Record log_record_ok (r : ILogRecord) : Prop := {
  rk_time : is_u32 (getTimestamp r);
  rk_usec : is_u64 (getRecordUsec r);
  rk_checkpoint : is_i63 (getCheckpoint1 r * 1000 * 1000 + getCheckpoint2 r);
  rk_txn : exists t, get_transaction_id r = Done t /\ text_ok [0; 9; 10; 61] t;
  rk_db : zlen (dbname_of cfg r) < 256 /\ (0 ∉ dbname_of cfg r)
}.

(** Rows of a table: its columns, with values that show the cells. *)
Definition row_shows (cols : list IColMeta) (vals : list (option bytes)) (cells : row) : Prop :=
  Forall (fun m => 0 <= getType m < 256) cols /\ Forall3 (field_shows fuel ndebug Parse createFromWkt) cols vals cells.
Definition table_ok (r : ILogRecord) : Prop := zlen (getCols (getTableMeta r)) < 2 ^ 15 /\ zlen (getName (getTableMeta r)) < 256.

Definition old_values (r : ILogRecord) : list (option bytes) := if isParsedRecord r then parsedOldCols r else oldCols r.
Definition new_values (r : ILogRecord) : list (option bytes) := if isParsedRecord r then parsedNewCols r else fst <$> newCols r.
Definition diff_marks (r : ILogRecord) : list bool := if isParsedRecord r then parsedNewValueDiff r else snd <$> newCols r.

(** [record_shows r c]: the record [r] is the change [c]. *)
Inductive record_shows (r : ILogRecord) : change -> Prop :=
| rs_begin : recordType r = EBEGIN -> record_shows r (Begin (dbname_of cfg r))
| rs_commit : recordType r = ECOMMIT -> record_shows r Commit
| rs_ddl sql : recordType r = EDDL -> ddl_text r = Done sql ->
    (cc_ddl_convert cfg = true -> ddl_parse sql = None -> cc_ignore_unsupported_ddl cfg = false) ->
    (if cc_ddl_convert cfg then default sql (ddl_parse sql) else sql) <> BEGIN_VAR ->
    record_shows r (Statement (dbname_of cfg r) (if cc_ddl_convert cfg then default sql (ddl_parse sql) else sql))
| rs_insert new : recordType r = EINSERT -> table_ok r -> row_shows (getCols (getTableMeta r)) (new_values r) new -> length (diff_marks r) = length (new_values r) ->
    record_shows r (Inserted (dbname_of cfg r) (getName (getTableMeta r)) new)
| rs_delete old : recordType r = EDELETE -> table_ok r -> row_shows (getCols (getTableMeta r)) (old_values r) old -> record_shows r (Deleted (dbname_of cfg r) (getName (getTableMeta r)) old)
| rs_update old new : recordType r = EUPDATE -> table_ok r -> row_shows (getCols (getTableMeta r)) (old_values r) old -> row_shows (getCols (getTableMeta r)) (new_values r) new ->
    length (diff_marks r) = length (new_values r) -> Forall (fun d => d = false) (diff_marks r) ->
    record_shows r (Updated (dbname_of cfg r) (getName (getTableMeta r)) old new).

(** Events whose size fits their header. *)
Definition fits (ev : ObLogEvent) : Prop :=
  match get_body ev with
  | QueryEvent e => zlen (q_sql_statment e) < 2 ^ 31
  | RowsEvent e => zlen (mjoin (r_before_row e)) + zlen (mjoin (r_after_row e)) < 2 ^ 31
  | _ => True
  end.
#[export] Instance fits_dec ev : Decision (fits ev).
Proof. unfold fits. destruct (get_body ev); apply _. Defined.
(** What the storage asks of an event. *)
Definition good_event (ev : ObLogEvent) : Prop :=
  fits ev -> incoming ev /\ get_checksum_flag ev = config_checksum_flag (cc_binlog_checksum cfg) /\
    h_type_code (get_header ev) ∉ [FORMAT_DESCRIPTION_EVENT; PREVIOUS_GTIDS_LOG_EVENT; ROTATE_EVENT].

(** ** Images and descriptions *)

Context (Hcv : convert_ok).

Lemma image_read cols vals cells : zlen cols < 2 ^ 31 -> row_shows cols vals cells ->
  exists bm0 bm new, new_bitmap alloc (zlen cols) = Done bm0 /\ before_loop ndebug Parse createFromWkt alloc cols vals 0 (bm0, 0, []) = Done (bm, u64 (zlen (mjoin new)), new) /\
    zlen bm = bitmap_bytes (zlen cols) /\ read_row fuel (description ndebug <$> cols) 0 bm (mjoin new) = Some (cells, []).
Proof using Hcv.
  intros Hz [_ Hf]. assert (0 <= bitmap_bytes (zlen cols)) as H0 by (unfold bitmap_bytes; apply Z.div_pos; [pose proof (zlen_nonneg cols); lia|lia]).
  destruct (fill_bitmap_ok (length cols) (alloc (bitmap_bytes (zlen cols))) Hz ltac:(by rewrite (cv_alloc Hcv) by done)) as (bm0 & E0 & Hb0 & Hn0).
  destruct (before_loop_ok fuel ndebug Parse createFromWkt alloc (cv_alloc Hcv) (length cols) vals cols cells 0 bm0 0 [] ltac:(by rewrite drop_0) Hb0 ltac:(lia) eq_refl) as (bm & new & E & Hb & Hnull & Hread).
  exists bm0, bm, new. split_and!; [done|by rewrite E|apply Hb|]. rewrite <-(app_nil_r (mjoin new)). apply Hread. intros j Hj. rewrite Hnull, Hn0, Nat.sub_0_r by lia. done.
Qed.

Lemma type_range m : 0 <= getType m < 256 -> 0 <= col_data_type m < 256.
Proof using.
  intros Hm. unfold col_data_type. repeat (case_match; [unfold OB_TYPE_BLOB, OB_TYPE_VARCHAR, OB_TYPE_DATETIME2, OB_TYPE_TIME2, OB_TYPE_TIMESTAMP2, OB_TYPE_STRING, OB_TYPE_DOUBLE; lia|]). done.
Qed.
Lemma described cols vals cells : row_shows cols vals cells -> Forall (fun m => 0 <= col_data_type m < 256 /\ column_described ndebug m) cols.
Proof using Hcv.
  intros [Ht Hf]. revert Ht. induction Hf as [|m v c cols vals cells Hm Hf IH]; intros Ht; [constructor|]. apply Forall_cons in Ht as [Hm1 Ht]. constructor; [|by apply IH]. split; [by apply type_range|].
  destruct v, c; cbn [field_shows] in Hm; try done. destruct (shows_ok fuel ndebug Parse createFromWkt alloc (cv_alloc Hcv) m _ _ Hm) as (meta & _ & E & Hz & _). by exists meta.
Qed.

Lemma metadata_len_bound ty : 0 <= metadata_len ty <= 2.
Proof using. unfold metadata_len. repeat case_match; lia. Qed.

Lemma columns_described n cols : Forall (fun m => 0 <= col_data_type m < 256 /\ column_described ndebug m) cols -> forall i t nb md, bitmap_ok n nb -> (i + length cols <= n)%nat ->
  exists nb' metas, describe_columns ndebug cols i (t, nb, md) = Done (t ++ (col_data_type <$> cols), nb', md ++ metas) /\ bitmap_ok n nb' /\ 0 <= zlen metas <= 2 * zlen cols /\
    read_descriptions (col_data_type <$> cols) metas = Some (description ndebug <$> cols).
Proof using.
  induction 1 as [|m cols [Hty (meta & Em & Hz)] Hall IH]; intros i t nb md Hnb Hl.
  - exists nb, []. cbn [describe_columns fmap list_fmap read_descriptions]. rewrite !app_nil_r. split_and!; done.
  - cbn [length] in Hl. cbn [describe_columns]. assert (exists nb1, (if isNotNull m then Done nb else mark_bit (Z.of_nat i) nb) = Done nb1 /\ bitmap_ok n nb1) as (nb1 & -> & Hnb1) by (destruct (isNotNull m); [by exists nb|]; destruct (mark_bit_ok n i nb Hnb ltac:(lia)) as (nb1 & E & Hb & _); by exists nb1).
    cbn [mbind outcome_bind]. rewrite Em. cbn [mbind outcome_bind]. destruct (IH (S i) (t ++ int1store (col_data_type m)) nb1 (md ++ meta) Hnb1 ltac:(lia)) as (nb' & metas & -> & Hnb' & Hzm & Hr). exists nb', (meta ++ metas). pose proof (metadata_len_bound (col_data_type m)). pose proof (zlen_nonneg metas).
    split_and!; [|done|apply zlen_nonneg|rewrite zlen_app, zlen_cons; lia|].
    + unfold int1store. rewrite u8_small by lia. by rewrite fmap_cons, <-!app_assoc.
    + rewrite !fmap_cons. cbn [read_descriptions]. rewrite <-Hz, zlen_app, (proj2 (Z.leb_le _ _)) by lia. rewrite skip_app, first_app, Hr by done. cbn [mbind option_bind]. unfold description at 2. by rewrite Em.
Qed.

Lemma image_of_event tm bm values cols cells : tm_column_type tm = Some (col_data_type <$> cols) -> (exists metas, tm_metadata tm = Some metas /\ read_descriptions (col_data_type <$> cols) metas = Some (description ndebug <$> cols)) ->
  read_row fuel (description ndebug <$> cols) 0 bm (mjoin values) = Some (cells, []) -> read_image fuel tm (Some bm) values = Some cells.
Proof using. intros E1 (metas & E2 & E3) Hr. unfold read_image. rewrite E1, E2. cbn [mbind option_bind]. rewrite E3. cbn [mbind option_bind]. rewrite Hr. done. Qed.

(** ** Sizes *)

Lemma packet_store_size v : 0 <= v < 2 ^ 16 -> zlen (packet_store_length v) = lenenc_size v /\ get_packed_integer v = lenenc_size v.
Proof using.
  intros Hv. unfold packet_store_length, lenenc_size, get_packed_integer. change (2 ^ 16) with 65536 in *. change (Z.shiftl 2 16) with 131072. destruct (Z.ltb_spec v 251); [done|]. rewrite !(proj2 (Z.ltb_lt v _)) by lia. done.
Qed.
Lemma lenenc_size_bound v : 1 <= lenenc_size v <= 9.
Proof using. unfold lenenc_size. repeat case_match; lia. Qed.

Lemma checksum_bound : 0 <= config_checksum_len (cc_binlog_checksum cfg) <= 4.
Proof using. unfold config_checksum_len, config_checksum_flag, checksum_len_of, COMMON_CHECKSUM_LENGTH, OFF, CRC32. by destruct (cc_binlog_checksum cfg). Qed.

(** An event made by the constructors, with the length that its body has. *)
Lemma made_event_ok ty ts len b ob_txn checkpoint : is_u32 ts -> is_u8 ty -> ty ∉ [FORMAT_DESCRIPTION_EVENT; PREVIOUS_GTIDS_LOG_EVENT; ROTATE_EVENT] -> body_type_ok ty b = true -> body_ok ty b ->
  len = COMMON_HEADER_LENGTH + body_length ty b + config_checksum_len (cc_binlog_checksum cfg) -> 0 <= len < 2 ^ 32 -> text_ok [0; 9; 10; 61] ob_txn -> is_i63 checkpoint ->
  good_event (with_txn ob_txn checkpoint (new_event (cc_binlog_checksum cfg) (new_header (cc_server_id cfg) ty ts len 0) b)).
Proof using Hcv.
  intros Hts Hty Hnf Hbt Hb El Hl Htx Hc _. assert (u64 ts = ts) as Et by (unfold u64, is_u32 in *; apply Z.mod_small; lia). assert (u32 len = len) as Eu by (unfold u32; by apply Z.mod_small).
  split_and!; [|done|done]. unfold incoming, event_ok. cbn [get_header get_body with_txn new_event new_header h_type_code h_event_length get_checksum_flag is_filter get_ob_txn Events.get_checkpoint]. rewrite Eu.
  split_and!; [|unfold flag_ok, config_checksum_flag; destruct (cc_binlog_checksum cfg); auto|done|done|done|done|done|apply Hc..].
  unfold header_ok. cbn. rewrite Et, Eu. split_and!; try (apply Hts || apply Hty || apply (cv_server Hcv)); change (u32 0) with 0; unfold is_u32, is_u16; lia.
Qed.

(** ** Statements *)

Lemma block_filled (new block : bytes) : zlen block = zlen new -> heap_write 0 new block = Done new.
Proof using. intros Hz. pose proof (heap_write_mid 0 [] block [] new eq_refl (eq_sym Hz)) as H. by rewrite !app_nil_r in H. Qed.

Lemma gtid_event_uuid_ok : gtid_event_uuid alloc (cc_master_server_uuid cfg) = Done u.
Proof using Hcv.
  rewrite (cv_text Hcv). destruct (uuid_segments u (cv_uuid Hcv)) as (a & b & c & d & e & -> & La & Lb & Lc & Ld & Le & Ha & Hb & Hc & Hd & He). rewrite uuid_text_intercalate by done. unfold gtid_event_uuid. rewrite split_intercalate.
  2: { cbn [intercalate]. intros [? ?]%app_eq_nil. done. }
  2: { apply intercalate_not_in; [done|]. repeat constructor; apply low_hex_not_in; (done || lia). }
  2: { repeat constructor; apply low_hex_not_in; (done || lia). }
  cbn zeta. rewrite !low_hex_bin by done. pose proof (cv_alloc Hcv SERVER_UUID_LEN ltac:(done)) as Hz. unfold SERVER_UUID_LEN in Hz.
  destruct (heap_write_filled [] 16 (alloc SERVER_UUID_LEN, 0) a) as (b1 & E1 & F1); [done|rewrite La; done|]. cbn [fst snd app] in E1, F1. rewrite E1. cbn [mbind outcome_bind]. rewrite La in F1.
  destruct (heap_write_filled a 16 (b1, 4) b F1) as (b2 & E2 & F2); [lia|]. cbn [fst snd] in E2, F2. rewrite E2. cbn [mbind outcome_bind]. rewrite Lb in F2.
  destruct (heap_write_filled (a ++ b) 16 (b2, 6) c F2) as (b3 & E3 & F3); [rewrite zlen_app; lia|]. cbn [fst snd] in E3, F3. rewrite E3. cbn [mbind outcome_bind]. rewrite Lc in F3.
  destruct (heap_write_filled ((a ++ b) ++ c) 16 (b3, 8) d F3) as (b4 & E4 & F4); [rewrite !zlen_app; lia|]. cbn [fst snd] in E4, F4. rewrite E4. cbn [mbind outcome_bind]. rewrite Ld in F4.
  destruct (heap_write_filled (((a ++ b) ++ c) ++ d) 16 (b4, 10) e F4) as (b5 & E5 & _ & F5 & F6); [rewrite !zlen_app; lia|]. cbn [fst snd] in E5, F5, F6. rewrite E5. f_equal. rewrite <-!app_assoc in F6. rewrite <-F6. symmetry. apply first_ge. rewrite !zlen_app. lia.
Qed.

Lemma record_times r : log_record_ok r -> is_u32 (get_timestamp_sec r) /\ is_i63 (get_checkpoint_usec r).
Proof using.
  intros [Ht _ Hc _ _]. unfold get_timestamp_sec, get_checkpoint_usec, u64, is_u32, is_i63, LLONG_MAX in *. rewrite !Z.mod_small by lia. done.
Qed.

Lemma query_converted r tc sql ddl tc' : log_record_ok r ->
  (if bool_decide (recordType r = EBEGIN) then Done (BEGIN_VAR, false, tc)
   else sql ← ddl_text r; if cc_ddl_convert cfg then Done (default sql (ddl_parse sql), true, refresh_table_id (dbname_of cfg r) (tbname r) tc) else Done (sql, true, tc)) = Done (sql, ddl, tc') ->
  exists ev q, parallel_convert_query_event cfg alloc ddl_parse r tc = Done (ev, tc') /\ get_body ev = QueryEvent q /\ q_sql_statment q = sql /\ q_dbname q = dbname_of cfg r /\ good_event ev.
Proof using Hcv.
  intros Hr E. unfold parallel_convert_query_event. rewrite E. cbn [mbind outcome_bind]. change status_var_len with (Done 12). cbn [mbind outcome_bind]. rewrite block_filled by (rewrite (cv_alloc Hcv); done). cbn [mbind outcome_bind]. do 2 eexists. split; [done|]. split; [done|]. split; [done|]. split; [done|].
  destruct (record_times r Hr) as [Ht _]. destruct (rk_db r Hr) as [Hdb Hnul]. pose proof checksum_bound. pose proof (zlen_nonneg sql). pose proof (zlen_nonneg (dbname_of cfg r)). intros Hfit. cbn in Hfit. revert Hfit. change (2 ^ 31) with 2147483648. intros Hfit.
  apply (made_event_ok QUERY_EVENT (get_timestamp_sec r) _ _ [] 0); [done|done|by_compute|done| | | |constructor|done|done].
  - cbn [body_ok q_thread_id q_query_exec_time q_db_len q_dbname q_error_code q_status_var_len q_status_vars q_sql_statment_len q_sql_statment]. split_and!; try done; try (unfold u32; apply Z.mod_pos_bound; lia); [unfold is_u8; lia..|]. by_compute.
  - cbn [body_length q_status_vars q_dbname q_sql_statment]. change (zlen status_vars) with 12. lia.
  - unfold COMMON_HEADER_LENGTH, QUERY_HEADER_LEN. lia.
Qed.

Lemma gtid_converted r tc sql ddl tc' : log_record_ok r ->
  (if bool_decide (recordType r = EBEGIN) then Done (BEGIN_VAR, false, tc)
   else sql ← ddl_text r; if cc_ddl_convert cfg then Done (default sql (ddl_parse sql), true, refresh_table_id (dbname_of cfg r) (tbname r) tc) else Done (sql, true, tc)) = Done (sql, ddl, tc') ->
  exists evs, parallel_convert_gtid_log_event cfg alloc ddl_parse undefined r tc = Done (evs, tc') /\ Forall good_event evs /\
    forall rest, read_changes fuel (evs ++ rest) = (cs ← read_changes fuel rest; Some ((if beq sql BEGIN_VAR then Begin (dbname_of cfg r) else Statement (dbname_of cfg r) sql) :: cs)).
Proof using Hcv.
  intros Hr E. unfold parallel_convert_gtid_log_event. rewrite gtid_event_uuid_ok. destruct (rk_txn r Hr) as (t & -> & Ht). cbn [mbind outcome_bind]. destruct (query_converted r tc sql ddl tc' Hr E) as (ev & q & -> & Hq & Hs & Hdb & Hgood). cbn [mbind outcome_bind]. eexists. split; [done|]. split.
  - constructor; [|by constructor]. destruct (record_times r Hr) as [Hts Hck]. pose proof checksum_bound. destruct (cv_uuid Hcv) as [Hz _].
    intros Hfit. apply made_event_ok; [done|done|by_compute|done| |done| |done|done|done].
    + cbn [body_ok gl_commit_flag gl_gtid_uuid gl_gtid_txn_id gl_ts_type gl_last_committed gl_sequence_number]. split_and!; [done|done|apply (cv_undefined Hcv)|done|unfold u64; apply Z.mod_pos_bound; lia..].
    + unfold COMMON_HEADER_LENGTH, GTID_HEADER_LEN. lia.
  - intros rest. cbn [app read_changes]. change (get_body (with_txn _ _ _)) with (GtidLogEvent (mkGtidLog 1 u undefined 2 (u64 (getTimestamp r)) (u64 (getRecordUsec r)))). rewrite Hq, Hs, Hdb. done.
Qed.

Lemma xid_converted r : log_record_ok r -> good_event (parallel_convert_xid_event cfg r).
Proof using Hcv.
  intros Hr. destruct (record_times r Hr) as [Hts _]. pose proof checksum_bound. intros Hfit. apply (made_event_ok XID_EVENT (get_timestamp_sec r) _ _ [] 0); [done|done|by_compute|done|done|done| |constructor|done|done].
  unfold COMMON_HEADER_LENGTH, XID_HEADER_LEN, XID_LEN. lia.
Qed.

(** ** Rows *)

(** What the table map event of a record says. *)
Record table_map_of (r : ILogRecord) (id : Z) (tm : TableMap) : Prop := {
  to_id : tm_table_id tm = id;
  to_count : tm_column_count tm = zlen (getCols (getTableMeta r));
  to_db : tm_db_name tm = dbname_of cfg r;
  to_tb : tm_tb_name tm = getName (getTableMeta r);
  to_types : tm_column_type tm = Some (col_data_type <$> getCols (getTableMeta r));
  to_metadata : exists metas, tm_metadata tm = Some metas /\ read_descriptions (col_data_type <$> getCols (getTableMeta r)) metas = Some (description ndebug <$> getCols (getTableMeta r))
}.

Lemma bitmap_bytes_bound n : 0 <= n < 2 ^ 15 -> 0 <= bitmap_bytes n < 2 ^ 13.
Proof using. change (2 ^ 15) with 32768. change (2 ^ 13) with 8192. intros Hn. unfold bitmap_bytes. split; [apply Z.div_pos; lia|apply Z.div_lt_upper_bound; lia]. Qed.

Lemma table_map_converted r tc id tc' : log_record_ok r -> table_ok r -> Forall (fun m => 0 <= col_data_type m < 256 /\ column_described ndebug m) (getCols (getTableMeta r)) -> 1 <= id <= TABLE_ID_MAX ->
  get_table_id (dbname_of cfg r) (tbname r) tc = (id, tc') ->
  exists ev tm, parallel_convert_table_map_event cfg ndebug r tc = Done (ev, tc') /\ get_body ev = TableMapEvent tm /\ table_map_of r id tm /\ good_event ev.
Proof using Hcv.
  intros Hr [Hc Htb] Hcols Hid E. set (cols := getCols (getTableMeta r)) in *. pose proof (zlen_nonneg cols) as Hc0. pose proof (bitmap_bytes_bound (zlen cols) ltac:(lia)) as Hbb.
  destruct (columns_described (length cols) cols Hcols 0%nat [] (replicate (Z.to_nat (bitmap_bytes (zlen cols))) 0) []) as (nb & metas & Ed & Hnb & Hzm & Hread).
  { split; [rewrite zlen_replicate, Z2Nat.id by lia; done|]. apply Forall_replicate. done. }
  { lia. }
  unfold parallel_convert_table_map_event. fold cols. rewrite E, Ed. cbn [mbind outcome_bind app]. do 2 eexists. split; [done|]. split; [done|]. split; [by split; try (by exists metas)|].
  destruct (record_times r Hr) as [Hts _]. destruct (rk_db r Hr) as [Hdb Hnul]. pose proof checksum_bound. pose proof (zlen_nonneg (dbname_of cfg r)). pose proof (zlen_nonneg (getName (getTableMeta r))). change (2 ^ 15) with 32768 in *. change (2 ^ 13) with 8192 in *.
  destruct (packet_store_size (zlen cols) ltac:(lia)) as [E1 _]. destruct (packet_store_size (zlen metas) ltac:(lia)) as [E2 _]. pose proof (lenenc_size_bound (zlen cols)). pose proof (lenenc_size_bound (zlen metas)).
  intros Hfit. apply (made_event_ok TABLE_MAP_EVENT (get_timestamp_sec r) _ _ [] 0); [done|done|by_compute|done| | | |constructor|done|done].
  - cbn [body_ok tm_table_id tm_flags tm_db_len tm_db_name tm_tb_len tm_tb_name tm_column_count tm_column_type tm_metadata_len tm_metadata tm_null_bits has_len]. rewrite table_id_max in Hid. unfold lenenc_ok, is_u8. split_and!; try done; try lia; [by rewrite zlen_fmap|apply Hnb].
  - cbn [body_length tm_db_name tm_tb_name tm_column_count tm_metadata_len]. rewrite E1, E2. lia.
  - rewrite E1, E2. unfold COMMON_HEADER_LENGTH, TABLE_MAP_HEADER_LEN. lia.
Qed.

Lemma rows_finished r ty size e : log_record_ok r -> is_u8 ty -> ty ∉ [FORMAT_DESCRIPTION_EVENT; PREVIOUS_GTIDS_LOG_EVENT; ROTATE_EVENT] -> body_type_ok ty (RowsEvent e) = true ->
  (zlen (mjoin (r_before_row e)) + zlen (mjoin (r_after_row e)) < 2 ^ 31 -> body_ok ty (RowsEvent e) /\ 10 + size = body_length ty (RowsEvent e) /\ 0 <= size < 2 ^ 31 + 2 ^ 20) ->
  exists ev, finish_rows cfg r ty size e = Done ev /\ get_body ev = RowsEvent e /\ h_type_code (get_header ev) = ty /\ good_event ev.
Proof using Hcv.
  intros Hr Hu8 Hnf Hbt Hbody. unfold finish_rows. destruct (rk_txn r Hr) as (t & -> & Ht). cbn [mbind outcome_bind]. eexists. split; [done|]. split; [done|]. split; [done|].
  intros Hfit. destruct (Hbody Hfit) as (Hb & Hl & Hs). destruct (record_times r Hr) as [Hts Hck]. pose proof checksum_bound. change (2 ^ 31 + 2 ^ 20) with 2148532224 in Hs.
  apply made_event_ok; try done; unfold COMMON_HEADER_LENGTH, ROWS_HEADER_LEN, VAR_HEADER_LEN; lia.
Qed.

Lemma new_values_read r ty : length (diff_marks r) = length (new_values r) -> (ty = UPDATE -> Forall (fun d => d = false) (diff_marks r)) ->
  forall j v, new_values r !! j = Some v -> exists d, new_value r j = Done (v, d) /\ (ty = UPDATE -> d = false).
Proof using.
  intros Hl Hd j v Hj. destruct (lookup_lt_is_Some_2 (diff_marks r) j) as [d Hdj]; [rewrite Hl; by eapply lookup_lt_Some|]. exists d. split; [|intros Hty; by apply (Forall_lookup_1 _ _ j d (Hd Hty))].
  unfold new_value, new_values, diff_marks, at_ in *. destruct (isParsedRecord r); [by rewrite Hj, Hdj|]. apply list_lookup_fmap_Some in Hj as ([v' d'] & -> & Hn). rewrite list_lookup_fmap, Hn in Hdj. injection Hdj as <-. by rewrite Hn.
Qed.

Lemma row_shows_length cols vals cells : row_shows cols vals cells -> length cols = length vals.
Proof using. intros [_ Hf]. by apply Forall3_length_lm in Hf. Qed.

(** The new image of a record without diffs. *)
Lemma after_image r ty new partial : let cols := getCols (getTableMeta r) in
  zlen cols < 2 ^ 31 -> row_shows cols (new_values r) new -> length (diff_marks r) = length (new_values r) -> (ty = UPDATE -> Forall (fun d => d = false) (diff_marks r)) ->
  exists bm0 bm val k, new_bitmap alloc (zlen cols) = Done bm0 /\ serialize_after ndebug Parse createFromWkt alloc r (getTableMeta r) ty (bm0, 0, []) partial = Done (mkAfter (bm, u64 (zlen (mjoin val)), val) partial k false) /\
    zlen bm = bitmap_bytes (zlen cols) /\ read_row fuel (description ndebug <$> cols) 0 bm (mjoin val) = Some (new, []).
Proof using Hcv.
  intros cols Hz Hrow Hl Hd. destruct (image_read cols (new_values r) new Hz Hrow) as (bm0 & bm & val & E0 & Eb & Hbm & Hread).
  destruct (after_loop_ok ndebug Parse createFromWkt alloc r ty (new_values r) cols 0 (mkAfter (bm0, 0, []) partial 0 false) (new_values_read r ty Hl Hd)) as [k Ek]; [rewrite (row_shows_length _ _ _ Hrow); lia|].
  exists bm0, bm, val, k. split_and!; [done| |done|done]. unfold serialize_after. fold cols. rewrite Ek. cbn [af_image]. rewrite Eb. done.
Qed.

(** The bitmap of the partial columns. *)
Lemma partial_bitmap cols : zlen cols < 2 ^ 31 -> exists p, (if negb (json_col_count cols =? 0) then let n := (json_col_count cols + 7) `div` 8 in p ← fill_bitmap (json_col_count cols) n (alloc n); Done (Some p, n) else Done (None, 0)) = Done p.
Proof using Hcv.
  intros Hz. destruct (negb (json_col_count cols =? 0)); [|by eexists]. cbn zeta. unfold json_col_count. set (js := filter _ cols). assert (zlen js <= zlen cols) as Hj by (unfold zlen, js; apply Nat2Z.inj_le, length_filter).
  destruct (fill_bitmap_ok (length js) (alloc (bitmap_bytes (zlen js))) ltac:(unfold zlen in *; lia)) as (p & E & _); [rewrite (cv_alloc Hcv); [done|unfold bitmap_bytes; apply Z.div_pos; [pose proof (zlen_nonneg js); lia|lia]]|].
  unfold bitmap_bytes in E. fold (zlen js) in E. rewrite E. by eexists.
Qed.

(** A rows event that the replica reads as [c] after the table map event of the record. *)
Definition reads_as (r : ILogRecord) (id : Z) (ev : ObLogEvent) (c : change) : Prop :=
  good_event ev /\ exists e, get_body ev = RowsEvent e /\ forall tm, table_map_of r id tm -> read_rows_event fuel tm (h_type_code (get_header ev)) e = Some c.

(** Numbers of the columns that the size of an event depends on. *)
Lemma column_numbers (cols : list IColMeta) : zlen cols < 2 ^ 15 ->
  zlen cols < 2 ^ 31 /\ 0 <= zlen cols < 2 ^ 15 /\ 0 <= bitmap_bytes (zlen cols) < 8192 /\ get_packed_integer (zlen cols) = lenenc_size (zlen cols) /\ 1 <= lenenc_size (zlen cols) <= 9 /\ lenenc_ok (zlen cols).
Proof using.
  intros Hc. pose proof (zlen_nonneg cols). pose proof (bitmap_bytes_bound (zlen cols) ltac:(lia)). destruct (packet_store_size (zlen cols)) as [_ E]; [change (2 ^ 15) with 32768 in *; change (2 ^ 16) with 65536; lia|]. pose proof (lenenc_size_bound (zlen cols)).
  unfold lenenc_ok. change (2 ^ 15) with 32768 in *. change (2 ^ 31) with 2147483648. change (2 ^ 13) with 8192 in *. split_and!; try lia; done.
Qed.
Lemma same_table r id tm e : table_map_of r id tm -> r_table_id e = id -> r_width e = zlen (getCols (getTableMeta r)) -> (r_table_id e =? tm_table_id tm) && (r_width e =? tm_column_count tm) = true.
Proof using. intros Htm -> ->. by rewrite (to_id _ _ _ Htm), (to_count _ _ _ Htm), !Z.eqb_refl. Qed.
Lemma event_image r id tm bm val cells : table_map_of r id tm -> read_row fuel (description ndebug <$> getCols (getTableMeta r)) 0 bm (mjoin val) = Some (cells, []) -> read_image fuel tm (Some bm) val = Some cells.
Proof using. intros Htm. apply image_of_event; apply Htm. Qed.
Lemma small_u64 x : 0 <= x < 2147483648 -> u64 x = x.
Proof using. intros H. unfold u64. apply Z.mod_small. lia. Qed.

(** The fields of an image, when the event has it. *)
Definition image_fields (absent : bool) (n cols : Z) (bitmap : option bytes) (pos : Z) (val : list bytes) : Prop :=
  pos = u64 (zlen (mjoin val)) /\ if absent then val = [] else cols = n /\ has_len n bitmap.

Lemma rows_converted r id ty size e c : let n := bitmap_bytes (zlen (getCols (getTableMeta r))) in
  log_record_ok r -> table_ok r -> (ty = WRITE_ROWS_EVENT \/ ty = DELETE_ROWS_EVENT \/ ty = UPDATE_ROWS_EVENT) -> body_type_ok ty (RowsEvent e) = true -> 1 <= id <= TABLE_ID_MAX ->
  r_table_id e = id -> r_flags e = STMT_END_F -> r_var_header_len e = 2 -> r_width e = zlen (getCols (getTableMeta r)) ->
  image_fields (no_before e) n (r_before_image_cols e) (r_columns_before_bitmaps e) (r_before_pos e) (r_before_row e) -> image_fields (no_after e) n (r_after_image_cols e) (r_columns_after_bitmaps e) (r_after_pos e) (r_after_row e) ->
  size = (if no_before e then 0 else n + n) + (if no_after e then 0 else n + n) + u64 (r_before_pos e + r_after_pos e) + get_packed_integer (zlen (getCols (getTableMeta r))) ->
  (forall tm, table_map_of r id tm -> read_rows_event fuel tm ty e = Some c) ->
  exists ev, finish_rows cfg r ty size e = Done ev /\ reads_as r id ev c.
Proof using Hcv.
  intros n Hr [Hc _] Hty Hbt Hid E1 E2 E3 E4 [P1 F1] [P2 F2] -> Hread. destruct (column_numbers _ Hc) as (_ & Hn & Hb & Hp & Hle & Hok).
  destruct (rows_finished r ty ((if no_before e then 0 else n + n) + (if no_after e then 0 else n + n) + u64 (r_before_pos e + r_after_pos e) + get_packed_integer (zlen (getCols (getTableMeta r)))) e) as (ev & Ef & Hbody & Hev & Hgood); [done|by destruct Hty as [->|[->| ->]]|destruct Hty as [->|[->| ->]]; by_compute|done| |].
  2: { exists ev. split; [done|]. split; [done|]. exists e. split; [done|]. rewrite Hev. done. }
  assert (ty <> PARTIAL_UPDATE_ROWS_EVENT) as Hpart by (by destruct Hty as [->|[->| ->]]).
  change (2 ^ 31) with 2147483648. change (2147483648 + 2 ^ 20) with 2148532224. intros Hfit. pose proof (zlen_nonneg (mjoin (r_before_row e))). pose proof (zlen_nonneg (mjoin (r_after_row e))). rewrite P1, P2, !(small_u64 (zlen _)), (small_u64 (_ + _)) by lia. rewrite table_id_max in Hid. fold n in Hb.
  split_and!; [| |destruct (no_before e), (no_after e); lia|destruct (no_before e), (no_after e); lia].
  - cbn [body_ok]. rewrite E1, E2, E3, E4. fold n. split_and!; [lia|lia|done|done|done|intros Eb; rewrite Eb in F1; rewrite P1, small_u64 by lia; by destruct F1|intros Ea; rewrite Ea in F2; rewrite P2, small_u64 by lia; by destruct F2|done].
  - cbn [body_length]. rewrite E4, P1, P2, !small_u64, Hp, (proj2 (Z.eqb_neq _ _) Hpart) by lia. fold n. unfold ROWS_HEADER_LEN_V2. destruct (no_before e) eqn:Eb, (no_after e) eqn:Ea; rewrite ?F1, ?F2; change (zlen (mjoin (@nil bytes))) with 0; lia.
Qed.

#[local] Ltac read_rows Htm := unfold read_rows_event; rewrite (same_table _ _ _ _ Htm) by done; cbn [r_rows_event_type r_columns_before_bitmaps r_columns_after_bitmaps r_before_row r_after_row];
  repeat (erewrite (event_image _ _ _ _ _ _ Htm) by eassumption); by rewrite (to_db _ _ _ Htm), (to_tb _ _ _ Htm).

Lemma write_converted r tc id new : log_record_ok r -> table_ok r -> row_shows (getCols (getTableMeta r)) (new_values r) new -> length (diff_marks r) = length (new_values r) -> 1 <= id <= TABLE_ID_MAX ->
  get_table_id (dbname_of cfg r) (tbname r) tc = (id, tc) ->
  exists ev, parallel_convert_write_rows_event cfg ndebug Parse createFromWkt alloc r tc = Done (ev, tc) /\ reads_as r id ev (Inserted (dbname_of cfg r) (getName (getTableMeta r)) new).
Proof using Hcv.
  intros Hr Ht Hrow Hl Hid E. destruct (column_numbers _ (proj1 Ht)) as (Hz & _). destruct (after_image r INSERT new None Hz Hrow Hl) as (bm0 & bm & val & k & E0 & Ea & Hbm & Hread); [done|].
  unfold parallel_convert_write_rows_event. rewrite E, E0. cbn [mbind outcome_bind]. unfold col_val_bytes. rewrite (bool_decide_eq_true_2 (INSERT = INSERT)), (bool_decide_eq_false_2 (INSERT = UPDATE)), (bool_decide_eq_false_2 (INSERT = DELETE)) by done. cbn [andb mbind outcome_bind]. rewrite Ea. cbn [mbind outcome_bind af_any_diff af_image af_partial].
  eassert (exists ev, finish_rows cfg r WRITE_ROWS_EVENT _ _ = Done ev /\ reads_as r id ev _) as (ev & -> & Hev); [|by exists ev].
  apply rows_converted; [done|done|auto|done|done|done|done|done|done|done|done|change (no_before _) with true; change (no_after _) with false; cbn [r_before_pos r_after_pos]; lia|]. intros tm Htm. read_rows Htm.
Qed.

Lemma delete_converted r tc id old : log_record_ok r -> table_ok r -> row_shows (getCols (getTableMeta r)) (old_values r) old -> 1 <= id <= TABLE_ID_MAX ->
  get_table_id (dbname_of cfg r) (tbname r) tc = (id, tc) ->
  exists ev, parallel_convert_delete_rows_event cfg ndebug Parse createFromWkt alloc r tc = Done (ev, tc) /\ reads_as r id ev (Deleted (dbname_of cfg r) (getName (getTableMeta r)) old).
Proof using Hcv.
  intros Hr Ht Hrow Hid E. destruct (column_numbers _ (proj1 Ht)) as (Hz & _). destruct (image_read _ (old_values r) old Hz Hrow) as (bm0 & bm & val & E0 & Eb & Hbm & Hread).
  unfold parallel_convert_delete_rows_event. rewrite E, E0. cbn [mbind outcome_bind]. unfold col_val_bytes. rewrite (bool_decide_eq_false_2 (DELETE = INSERT)), (bool_decide_eq_false_2 (DELETE = UPDATE)), (bool_decide_eq_true_2 (DELETE = DELETE)) by done. unfold serialize_before. fold (old_values r). rewrite Eb. cbn [andb mbind outcome_bind af_any_diff af_image af_partial].
  eassert (exists ev, finish_rows cfg r DELETE_ROWS_EVENT _ _ = Done ev /\ reads_as r id ev _) as (ev & -> & Hev); [|by exists ev].
  apply rows_converted; [done|done|auto|done|done|done|done|done|done|done|done|change (no_before _) with false; change (no_after _) with true; cbn [r_before_pos r_after_pos]; lia|]. intros tm Htm. read_rows Htm.
Qed.

Lemma update_converted r tc id old new : log_record_ok r -> table_ok r -> row_shows (getCols (getTableMeta r)) (old_values r) old -> row_shows (getCols (getTableMeta r)) (new_values r) new ->
  length (diff_marks r) = length (new_values r) -> Forall (fun d => d = false) (diff_marks r) -> 1 <= id <= TABLE_ID_MAX -> get_table_id (dbname_of cfg r) (tbname r) tc = (id, tc) ->
  exists ev, parallel_convert_update_rows_event cfg ndebug Parse createFromWkt alloc r tc = Done (ev, tc) /\ reads_as r id ev (Updated (dbname_of cfg r) (getName (getTableMeta r)) old new).
Proof using Hcv.
  intros Hr Ht Ho Hn Hl Hd Hid E. destruct (column_numbers _ (proj1 Ht)) as (Hz & _). destruct (image_read _ (old_values r) old Hz Ho) as (bm0 & bm & val & E0 & Eb & Hbm & Hread). destruct (partial_bitmap _ Hz) as [[partial n] Ep].
  destruct (after_image r UPDATE new partial Hz Hn Hl (fun _ => Hd)) as (bm0' & bm' & val' & k & E0' & Ea & Hbm' & Hread'). rewrite E0 in E0'. injection E0' as <-.
  unfold parallel_convert_update_rows_event. rewrite E, E0. cbn [mbind outcome_bind]. unfold col_val_bytes. rewrite (bool_decide_eq_false_2 (UPDATE = INSERT)), (bool_decide_eq_true_2 (UPDATE = UPDATE)), (bool_decide_eq_false_2 (UPDATE = DELETE)) by done. unfold serialize_before. fold (old_values r). rewrite Eb, andb_true_l. cbn [mbind outcome_bind]. cbn zeta in *. rewrite Ep. cbn [mbind outcome_bind]. rewrite Ea. cbn [mbind outcome_bind af_any_diff af_image af_partial].
  eassert (exists ev, finish_rows cfg r UPDATE_ROWS_EVENT _ _ = Done ev /\ reads_as r id ev _) as (ev & -> & Hev); [|by exists ev].
  apply rows_converted; [done|done|auto|done|done|done|done|done|done|done|done|change (no_before _) with false; change (no_after _) with false; cbn [r_before_pos r_after_pos]; lia|]. intros tm Htm. read_rows Htm.
Qed.

(** ** Records *)

Lemma rows_record r c convert tc : log_record_ok r -> table_ok r -> cache_ok tc -> Forall (fun m => 0 <= col_data_type m < 256 /\ column_described ndebug m) (getCols (getTableMeta r)) ->
  (forall id tc, 1 <= id <= TABLE_ID_MAX -> get_table_id (dbname_of cfg r) (tbname r) tc = (id, tc) -> exists ev, convert r tc = Done (ev, tc) /\ reads_as r id ev c) ->
  exists evs tc', ('(table_map, tc) ← parallel_convert_table_map_event cfg ndebug r tc; '(rows, tc) ← convert r tc; Done ([table_map; rows], tc)) = Done (evs, tc') /\ cache_ok tc' /\ Forall good_event evs /\
    forall rest, read_changes fuel (evs ++ rest) = (cs ← read_changes fuel rest; Some (c :: cs)).
Proof using Hcv.
  intros Hr Ht Htc Hcols Hrows. pose proof (get_table_id_ok (dbname_of cfg r) (tbname r) tc Htc) as Hg. pose proof (get_table_id_again (dbname_of cfg r) (tbname r) tc) as Hag. destruct (get_table_id (dbname_of cfg r) (tbname r) tc) as [id tc'] eqn:E. destruct Hg as (Htc' & Hid & _).
  destruct (table_map_converted r tc id tc' Hr Ht Hcols Hid E) as (ev & tm & -> & Hb & Htm & Hgood). cbn [mbind outcome_bind]. destruct (Hrows id tc' Hid Hag) as (ev' & -> & Hgood' & e & Hb' & Hread). cbn [mbind outcome_bind]. exists [ev; ev'], tc'. split_and!; [done|done|constructor; [done|by constructor]|].
  intros rest. cbn [app read_changes]. rewrite Hb, Hb', (Hread tm Htm). done.
Qed.

Lemma record_converted r c tc : log_record_ok r -> record_shows r c -> cache_ok tc ->
  exists evs tc', convert_record cfg ndebug Parse createFromWkt alloc ddl_parse undefined r tc = Done (evs, tc') /\ cache_ok tc' /\ Forall good_event evs /\
    forall rest, read_changes fuel (evs ++ rest) = (cs ← read_changes fuel rest; Some (c :: cs)).
Proof using Hcv.
  intros Hr Hs Htc. unfold convert_record. destruct Hs as [Hty|Hty|sql Hty Es Hst Hb|new Hty Ht Hn Hl|old Hty Ht Ho|old new Hty Ht Ho Hn Hl Hd]; rewrite Hty.
  - destruct (gtid_converted r tc BEGIN_VAR false tc Hr) as (evs & -> & Hg & Hrd); [by rewrite bool_decide_eq_true_2 by done|]. rewrite beq_refl in Hrd. by exists evs, tc.
  - exists [parallel_convert_xid_event cfg r], tc. split_and!; [done|done|constructor; [by apply xid_converted|constructor]|done].
  - unfold parallel_ddl_need_to_be_stored. rewrite Es. cbn [mbind outcome_bind].
    destruct (gtid_converted r tc (if cc_ddl_convert cfg then default sql (ddl_parse sql) else sql) true (if cc_ddl_convert cfg then refresh_table_id (dbname_of cfg r) (tbname r) tc else tc) Hr) as (evs & Ev & Hg & Hrd); [rewrite bool_decide_eq_false_2, Es by (by rewrite Hty); cbn [mbind outcome_bind]; by destruct (cc_ddl_convert cfg)|].
    exists evs, (if cc_ddl_convert cfg then refresh_table_id (dbname_of cfg r) (tbname r) tc else tc). rewrite (proj2 (beq_false _ _) Hb) in Hrd. split_and!; [|destruct (cc_ddl_convert cfg); [by apply refresh_table_id_ok|done]|done|done].
    destruct (cc_ddl_convert cfg) eqn:Ec; [|exact Ev]. destruct (ddl_parse sql); cbn [mbind outcome_bind]; [exact Ev|]. rewrite Hst by done. exact Ev.
  - apply rows_record; [done|done|done|by eapply described|]. intros id tc' Hid E. by apply write_converted.
  - apply rows_record; [done|done|done|by eapply described|]. intros id tc' Hid E. by apply delete_converted.
  - apply rows_record; [done|done|done|by eapply described|]. intros id tc' Hid E. by apply update_converted.
Qed.

Lemma records_converted records changes : Forall log_record_ok records -> Forall2 record_shows records changes -> forall tc, cache_ok tc ->
  exists evs tc', convert_on_event cfg ndebug Parse createFromWkt alloc ddl_parse undefined records tc = Done (evs, tc') /\ cache_ok tc' /\ Forall good_event evs /\
    forall rest, read_changes fuel (evs ++ rest) = (cs ← read_changes fuel rest; Some (changes ++ cs)).
Proof using Hcv.
  intros Hall Hs. revert Hall. induction Hs as [|r c records changes Hr Hs IH]; intros Hall tc Htc; [exists [], tc; split_and!; [done|done|done|]; intros rest; cbn [app]; by destruct (read_changes fuel rest)|].
  apply Forall_cons in Hall as [Hok Hall]. cbn [convert_on_event].
  destruct (record_converted r c tc Hok Hr Htc) as (evs & tc1 & -> & Htc1 & Hg & Hrd). cbn [mbind outcome_bind]. destruct (IH Hall tc1 Htc1) as (rest & tc2 & -> & Htc2 & Hg2 & Hrd2). cbn [mbind outcome_bind]. exists (evs ++ rest), tc2. split_and!; [done|done|by apply Forall_app|].
  intros more. rewrite <-app_assoc, Hrd, Hrd2. by destruct (read_changes fuel more).
Qed.

(** C4: Conversion keeps what the records say.  A batch of records of transactions, statements
    and changed rows, with NULLs and values that [shows] relates to their texts, is converted
    without a crash, from any state of the table cache; a replica reads from the events
    exactly those changes, in their order; and every event that fits its header is well
    formed: its length is the one that its bytes have.  [shows] has every column type, but
    not these values: an ENUM value after a member that is a prefix of it, SET columns with a
    member that is a prefix of another, negative TIME values with more digits than are
    stored, DECIMAL texts with fewer fraction digits than the scale, JSON documents of more
    than 99 levels; and updates of JSON columns by differences are not among the changes. *)
Theorem records_replayed (records : list ILogRecord) (changes : list change) (tc : TableCache) : Forall log_record_ok records -> Forall2 record_shows records changes -> cache_ok tc ->
  exists evs tc', convert_on_event cfg ndebug Parse createFromWkt alloc ddl_parse undefined records tc = Done (evs, tc') /\ cache_ok tc' /\
    read_changes fuel evs = Some changes /\ Forall (fun ev => fits ev -> incoming ev) evs.
Proof using Hcv.
  intros Hall Hs Htc. destruct (records_converted records changes Hall Hs tc Htc) as (evs & tc' & E & Htc' & Hg & Hrd). exists evs, tc'. split_and!; [done|done| |].
  - specialize (Hrd []). rewrite app_nil_r in Hrd. rewrite Hrd. cbn [read_changes mbind option_bind]. by rewrite app_nil_r.
  - eapply Forall_impl; [exact Hg|]. intros ev Hev Hf. by apply Hev.
Qed.

(** ** Through the storage *)

Lemma read_changes_erase evs : read_changes fuel (erase <$> evs) = read_changes fuel evs.
Proof using.
  induction evs as [evs IH] using (induction_ltof1 _ (@length ObLogEvent)). unfold ltof in IH. destruct evs as [|ev [|ev' evs]]; [done| |].
  - cbn [fmap list_fmap read_changes]. change (get_body (erase ev)) with (erase_body (get_body ev)). by destruct (get_body ev).
  - assert (read_changes fuel (erase <$> evs) = read_changes fuel evs) as H1 by (apply IH; cbn; lia). assert (read_changes fuel (erase <$> (ev' :: evs)) = read_changes fuel (ev' :: evs)) as H2 by (apply IH; cbn; lia).
    rewrite !fmap_cons in *. cbn [read_changes] in *. change (get_body (erase ev)) with (erase_body (get_body ev)). change (get_body (erase ev')) with (erase_body (get_body ev')) in *. change (get_header (erase ev')) with (set_next_position 0 (get_header ev')) in *. 
    destruct (get_body ev); cbn [erase_body]; try done.
    + by destruct (get_body ev'); cbn [erase_body]; rewrite ?H1.
    + by rewrite H2.
    + by destruct (get_body ev'); cbn [erase_body]; rewrite ?H1.
Qed.

Lemma batches_converted (batches : list (list ILogRecord * TableCache)) (changes : list (list change)) :
  Forall (fun b => Forall log_record_ok b.1 /\ cache_ok b.2) batches -> Forall2 (fun b cs => Forall2 record_shows b.1 cs) batches changes ->
  exists evss, Forall2 (fun b evs => exists tc', convert_on_event cfg ndebug Parse createFromWkt alloc ddl_parse undefined b.1 b.2 = Done (evs, tc') /\ cache_ok tc') batches evss /\
    Forall good_event (mjoin evss) /\ read_changes fuel (mjoin evss) = Some (mjoin changes).
Proof using Hcv.
  intros Hall Hs. revert Hall. induction Hs as [|[records tc] cs batches changes Hr Hs IH]; intros Hall; [exists []; by split_and!|]. apply Forall_cons in Hall as [[Hok Htc] Hall].
  destruct (records_converted records cs Hok Hr tc Htc) as (evs & tc' & E & Htc' & Hg & Hrd). destruct (IH Hall) as (evss & Hconv & Hgs & Hrds). exists (evs :: evss). rewrite !join_cons. split_and!; [constructor; [by exists tc'|done]|by apply Forall_app|]. by rewrite Hrd, Hrds.
Qed.

Section Stored.
Context (scfg : storage_config) (crc32 : bytes -> Z) (v : bytes) (scfg_ok : config_ok scfg v) (base : Z) (Hsum : c_binlog_checksum scfg = cc_binlog_checksum cfg).

Lemma good_incoming evs : Forall good_event evs -> Forall fits evs -> Forall incoming evs /\ Forall (plain scfg) evs.
Proof using Hsum.
  intros Hg Hf. split; apply Forall_forall; intros ev Hin; (assert (good_event ev) as H by (by eapply Forall_forall in Hg)); (assert (fits ev) as Hfit by (by eapply Forall_forall in Hf)); destruct (H Hfit) as (H1 & H2 & H3); [done|]. split; [|done]. unfold same_config. by rewrite Hsum.
Qed.

(** C1: From the records to the replica.  Batches of records, each converted from any state of
    the table cache, go through allocation, serialisation and storage without a crash, as
    long as events fit their headers, there are numbers and positions left and the previous
    GTIDs fit the head of a file ([fits], [roomy]); the files then hold, after what they held, events from which a replica reads the changes of
    all the batches in order, less heartbeats and those before the restart point; and a
    dumper that looks, at any pace, at the states the storage passes through meanwhile, one
    write at a time, has at every moment sent what a reader of that log has read who goes on
    without gap or reordering and only ever goes back from the end of a file to its start,
    when it was seen complete in the moment before the index is updated; when no such moment
    was seen, one part of the log without duplicate.  With excluded GTIDs, events may be left
    out.  The changes a replica reads are those
    of the values a column type stores without loss: see [records_replayed] for the values
    that are left out. *)
Theorem records_reach_replica (batches : list (list ILogRecord * TableCache)) (changes : list (list change)) :
  Forall (fun b => Forall log_record_ok b.1 /\ cache_ok b.2) batches -> Forall2 (fun b cs => Forall2 record_shows b.1 cs) batches changes ->
  exists evss, Forall2 (fun b evs => exists tc', convert_on_event cfg ndebug Parse createFromWkt alloc ddl_parse undefined b.1 b.2 = Done (evs, tc') /\ cache_ok tc') batches evss /\
    forall s a b evs before, Forall fits (mjoin evss) -> serving scfg crc32 base 0 s a evs before -> idle_batch b -> roomy scfg crc32 evss a b (sn_disk s) ->
    exists all a' b' l s', run_batches scfg crc32 evss a b (sn_disk s) = Done (a', b', sn_disk s') /\ evolves scfg crc32 base s l s' /\
      payload (mjoin (sn_files s')) = payload (mjoin (sn_files s)) ++ unfiltered all /\ read_changes fuel all = Some (mjoin changes) /\
      (fun ev => negb (is_filter ev)) <$> all = keeps a (mjoin evss) /\
      forall env seen gtid_mod exclude flag heartbeat_interval_us master_heartbeat_period master_binlog_checksum scan_fuel run_fuel dumper,
        observes (l ++ [s']) env seen -> Forall (fun e : bytes * GtidMessage => is_Some (gtid_uuid e.2)) exclude ->
        fresh scfg crc32 (log_of base s') gtid_mod exclude flag dumper -> (gtid_mod = true -> bd_start_pos dumper = BINLOG_MAGIC_SIZE) -> (2 <= scan_fuel)%nat ->
        let Q := replicated scfg crc32 base l s' seen gtid_mod exclude (payload (mjoin (sn_files s'))) in
        wp (run scfg crc32 heartbeat_interval_us master_heartbeat_period master_binlog_checksum env scan_fuel run_fuel) (fun _ => Q) Q dumper.
Proof using Hcv scfg_ok Hsum.
  intros Hall Hs. destruct (batches_converted batches changes Hall Hs) as (evss & Hconv & Hg & Hrd). exists evss. split; [done|]. intros s a b evs before Hfit Hsv Hb Hroom. destruct (good_incoming _ Hg Hfit) as [Hin Hpl].
  destruct (run_batches_evolve scfg crc32 v scfg_ok base evss s a b evs before Hsv Hb Hroom Hin Hpl) as (all & a' & b' & l & s' & evs' & before' & E & Hev & Hsv' & Hmk & He & Hp).
  exists all, a', b', l, s'. split_and!; [done|done|done|by rewrite <-read_changes_erase, He, read_changes_erase|by eapply marked_all|]. intros. eapply (served_dumper scfg crc32 v scfg_ok base); try done. apply (sv_ok _ _ _ _ _ _ _ _ Hsv).
Qed.
End Stored.
End Conversion.

(** ** A concrete transaction *)

Definition t_cols : list IColMeta :=
  [mkColMeta OB_TYPE_LONG 11 11 0 [] [] true; mkColMeta OB_TYPE_VAR_STRING 10 0 0 (str "utf8mb4") [] false;
   mkColMeta OB_TYPE_NEWDECIMAL 5 5 2 [] [] false; mkColMeta OB_TYPE_DATETIME 19 0 0 [] [] false].
Definition t_config : convert_config := mkConvertConfig (str "tenant") (uuid_hex_bin_to_str_with_delim sample_uuid) true 1 false false false.
Definition t_record (ty : RecordType) (old new : list (option bytes)) : ILogRecord :=
  mkRecord ty false [] old [] ((fun v => (v, false)) <$> new) [] (mkTableMeta (str "t") t_cols) (str "t") (str "tenant.db") 1700000000 5 1700000000 7 1 (Some [[]; str "txn_1"]).
Definition t_old : list (option bytes) := [Some (str "-7"); Some (str "ab"); Some (str "1.25"); None].
Definition t_new : list (option bytes) := [Some (str "8"); None; Some (str "-0.50"); Some (str "2024-02-29 23:59:58.5")].
Definition t_old_cells : row := [Some (VInt 4294967289); Some (VText (str "ab")); Some (VDecimal (false, 125)); None].
Definition t_new_cells : row := [Some (VInt 8); None; Some (VDecimal (true, 50)); Some (VDatetime (2024, 2, 29, (23, 59, 58), 0))].
Definition t_alloc (n : Z) : bytes := replicate (Z.to_nat n) 0.
Definition t_records : list ILogRecord :=
  [t_record EBEGIN [] []; t_record EINSERT [] t_old; t_record EUPDATE t_old t_new; t_record EDELETE t_new []; t_record ECOMMIT [] [];
   t_record EDDL [] [Some (str "DROP TABLE t")]].
Definition t_changes : list change :=
  [Begin (str "db"); Inserted (str "db") (str "t") t_old_cells; Updated (str "db") (str "t") t_old_cells t_new_cells; Deleted (str "db") (str "t") t_new_cells; Commit;
   Statement (str "db") (str "DROP TABLE t")].

Lemma t_convert_ok : convert_ok t_config t_alloc 0 sample_uuid.
Proof. split; [|by_compute|done|by_compute|by_compute]. intros n Hn. unfold t_alloc. rewrite zlen_replicate. lia. Qed.
Lemma t_record_ok ty old new : log_record_ok t_config (t_record ty old new).
Proof. split; [by_compute|by_compute|by_compute| |by_compute]. exists (str "txn_1"). split; [reflexivity|by_compute]. Qed.
Lemma t_all_ok : Forall (log_record_ok t_config) t_records.
Proof. repeat (apply Forall_cons; split; [apply t_record_ok|]). by apply Forall_nil. Qed.

Lemma shows_as fuel ndebug Parse createFromWkt m c c' data data' : shows fuel ndebug Parse createFromWkt m c data -> c = c' -> data = data' -> shows fuel ndebug Parse createFromWkt m c' data'.
Proof. by intros ? <- <-. Qed.
#[local] Tactic Notation "show_as" uconstr(H) := eapply shows_as; [apply H; by_compute|reflexivity|reflexivity].

Lemma t_old_shows Parse createFromWkt : row_shows true Parse createFromWkt 0 t_cols t_old t_old_cells.
Proof.
  split; [by_compute|]. repeat apply Forall3_cons; [| | | |apply Forall3_nil].
  - show_as (shows_int _ _ _ _ _ true (str "7")).
  - apply shows_text; by_compute.
  - show_as (shows_decimal _ _ _ _ _ false (str "1") (str "25")).
  - exists [0]. done.
Qed.
Lemma t_new_shows Parse createFromWkt : row_shows true Parse createFromWkt 0 t_cols t_new t_new_cells.
Proof.
  split; [by_compute|]. repeat apply Forall3_cons; [| | | |apply Forall3_nil].
  - show_as (shows_int _ _ _ _ _ false (str "8")).
  - exists [40; 0]. done.
  - show_as (shows_decimal _ _ _ _ _ true (str "0") (str "50")).
  - show_as (shows_datetime _ _ _ _ _ (str "2024") (str "02") (str "29") (str "23") (str "59") (str "58") (str "5")).
Qed.
Lemma t_shows Parse createFromWkt ddl_parse : Forall2 (record_shows t_config true Parse createFromWkt ddl_parse 0) t_records t_changes.
Proof.
  pose proof (t_old_shows Parse createFromWkt). pose proof (t_new_shows Parse createFromWkt). unfold t_records, t_changes. apply Forall2_cons_2; [|apply Forall2_cons_2; [|apply Forall2_cons_2; [|apply Forall2_cons_2; [|apply Forall2_cons_2; [|apply Forall2_cons_2; [|apply Forall2_nil_2]]]]]].
  - by apply rs_begin.
  - by apply rs_insert.
  - apply rs_update; (done || by_compute).
  - by apply rs_delete.
  - by apply rs_commit.
  - by apply (rs_ddl t_config true Parse createFromWkt ddl_parse 0 (t_record EDDL [] [Some (str "DROP TABLE t")]) (str "DROP TABLE t")).
Qed.

(** No JSON, no geometry and no DDL conversion in the sample. *)
Abbreviation t_convert := (convert_on_event t_config true (fun _ => None) (fun _ => None) t_alloc (fun _ => None) 0).

Lemma records_replayed_witness : exists evs tc', t_convert t_records new_TableCache = Done (evs, tc') /\ cache_ok tc' /\ read_changes 0 evs = Some t_changes /\ Forall (fun ev => fits ev -> incoming ev) evs.
Proof.
  apply (records_replayed t_config true (fun _ => None) (fun _ => None) t_alloc (fun _ => None) 0 0 sample_uuid t_convert_ok t_records t_changes new_TableCache t_all_ok); [apply t_shows|exact new_cache_ok].
Defined.

Definition t_events : list ObLogEvent := match t_convert t_records new_TableCache with Done (evs, _) => evs | Crash => [] end.
Definition t_batches : list (list ILogRecord * TableCache) := [(t_records, new_TableCache); ([t_record EBEGIN [] []; t_record ECOMMIT [] []], mkTableCache TABLE_ID_MAX ∅)].
Definition t_more : list ObLogEvent := match t_convert [t_record EBEGIN [] []; t_record ECOMMIT [] []] (mkTableCache TABLE_ID_MAX ∅) with Done (evs, _) => evs | Crash => [] end.
Definition t_ran : Allocator * SerializeEvent * Disk := match run_batch v_cfg sample_crc t_events sample_allocator idle sample_disk with Done x => x | Crash => (sample_allocator, idle, sample_disk) end.
Definition t_allocator : Allocator := Eval vm_compute in t_ran.1.1.
Definition t_batch : SerializeEvent := Eval vm_compute in t_ran.1.2.

Lemma t_roomy : roomy v_cfg sample_crc [t_events; t_more] sample_allocator idle sample_disk.
Proof.
  cbn [roomy]. split; [split; [split; by_compute|by_compute..|]|].
  { vm_compute. repeat (apply Forall_cons; split; [done|]). by apply Forall_nil. }
  replace (run_batch v_cfg sample_crc t_events sample_allocator idle sample_disk) with (Done (t_allocator, t_batch, t_ran.2)) by (vm_compute; reflexivity).
  split; [split; [split; by_compute|by_compute..|]|].
  { vm_compute. repeat (apply Forall_cons; split; [done|]). by apply Forall_nil. }
  by destruct (run_batch _ _ _ _ _ _) as [[[]]|].
Qed.

Lemma records_reach_replica_witness :
  exists all a' b' l s', run_batches v_cfg sample_crc [t_events; t_more] sample_allocator idle sample_disk = Done (a', b', sn_disk s') /\ evolves v_cfg sample_crc 1 v_snap l s' /\
    read_changes 0 all = Some (t_changes ++ [Begin (str "db"); Commit]) /\
    let Q := replicated v_cfg sample_crc 1 l s' (v_seen (l ++ [s'])) false [] (payload (mjoin (sn_files s'))) in wp (run v_cfg sample_crc 0 [] [] (v_env (l ++ [s'])) 2 100) (fun _ => Q) Q (s_dumper false [] 0 (binlog_name v_cfg 1) 4).
Proof.
  destruct (records_reach_replica t_config true (fun _ => None) (fun _ => None) t_alloc (fun _ => None) 0 0 sample_uuid t_convert_ok v_cfg sample_crc sample_uuid sample_config_ok 1 eq_refl t_batches [t_changes; [Begin (str "db"); Commit]])
    as (evss & Hconv & H).
  - apply Forall_cons. split; [split; [exact t_all_ok|exact new_cache_ok]|]. apply Forall_singleton. split; [repeat (apply Forall_cons; split; [apply t_record_ok|]); by apply Forall_nil|]. split; cbn; [unfold TABLE_ID_MAX; by_compute|intros k id; by rewrite lookup_empty..].
  - apply Forall2_cons_2; [apply t_shows|]. apply Forall2_cons_2; [|apply Forall2_nil_2]. apply Forall2_cons_2; [by apply rs_begin|]. apply Forall2_cons_2; [by apply rs_commit|apply Forall2_nil_2].
  - assert (evss = [t_events; t_more]) as ->.
    { inversion_clear Hconv as [|? evs1 ? ? (tc1 & E1 & _) H2]. inversion_clear H2 as [|? evs2 ? ? (tc2 & E2 & _) H3]. inversion_clear H3. unfold t_events, t_more. cbn [t_batches fst snd] in E1, E2. by rewrite E1, E2. }
    destruct (H v_snap sample_allocator idle sample_open []) as (all & a' & b' & l & s' & E & Hev & _ & Hrd & _ & Hdump); [by_compute|exact v_serving|by_compute|exact t_roomy|].
    exists all, a', b', l, s'. split; [done|]. split; [done|]. split; [done|]. apply (Hdump _ _ false [] 0 _ _ _ _ _ _ (v_observes l s') (Forall_nil_2 _)); [|done|lia]. exact (v_fresh _).
Defined.
