(* ===== verification/PacketBuf.v ===== *)
(** * PacketBuf: the buffer MySQL packets are built in and read from

    [src/src/binlog/mysql-protocol/packet_buf.{h,inl}] and [byte_order.h].  One block of
    memory with a read and a write index, both 32-bit.  A write past the block and a read
    past it are [Crash]; a read of memory that was allocated but not written yields what
    [alloc] says is there. *)

From S2P Require Import Prelude Bytes Str.

#[local] Open Scope Z_scope.

(** ** Byte order *)

Definition encoded_bytes_length (v : Z) : Z :=
  if v <? 0xFB then 1 else if v <? Z.shiftl 1 16 then 3 else if v <? Z.shiftl 1 24 then 4 else 9.

Definition write_htole8 (v : Z) : bytes := [u8 v].
Definition write_htole16 (v : Z) : bytes := le_split 2 (u16 v).
Definition write_htole24 (v : Z) : bytes := write_htole16 (u16 v) ++ write_htole8 (u8 (Z.shiftr v 16)).
Definition write_htole32 (v : Z) : bytes := le_split 4 (u32 v).
Definition write_htole48 (v : Z) : bytes := write_htole32 (u32 v) ++ write_htole16 (u16 (Z.shiftr v 32)).
Definition write_htole64 (v : Z) : bytes := le_split 8 (u64 v).

Definition read_le24toh (l : bytes) : Z := Z.lor (Z.shiftl (le_combine (skip 2 l)) 16) (le_combine (first 2 l)).
Definition read_le48toh (l : bytes) : Z := Z.lor (Z.shiftl (le_combine (skip 4 l)) 32) (le_combine (first 4 l)).

(** ** The buffer *)

Record PacketBuf := mkPacketBuf {
  buf_ : bytes;
  capacity_ : Z;
  min_capacity_ : Z;
  max_capacity_ : Z;
  read_index_ : Z;
  write_index_ : Z;
  error_msg_ : bytes
}.

Definition with_buf (b : bytes) (c : Z) (s : PacketBuf) : PacketBuf :=
  mkPacketBuf b c (min_capacity_ s) (max_capacity_ s) (read_index_ s) (write_index_ s) (error_msg_ s).
Definition set_read_index (i : Z) (s : PacketBuf) : PacketBuf :=
  mkPacketBuf (buf_ s) (capacity_ s) (min_capacity_ s) (max_capacity_ s) i (write_index_ s) (error_msg_ s).
Definition set_write_index (i : Z) (s : PacketBuf) : PacketBuf :=
  mkPacketBuf (buf_ s) (capacity_ s) (min_capacity_ s) (max_capacity_ s) (read_index_ s) i (error_msg_ s).
Definition set_error_msg (m : bytes) (s : PacketBuf) : PacketBuf :=
  mkPacketBuf (buf_ s) (capacity_ s) (min_capacity_ s) (max_capacity_ s) (read_index_ s) (write_index_ s) m.

(** A computation on the buffer. *)
Abbreviation pbuf := (stateful PacketBuf).

Definition readable_bytes (s : PacketBuf) : Z := u32 (write_index_ s - read_index_ s).
Definition is_readable_n (n : Z) (s : PacketBuf) : bool := n <=? readable_bytes s.
Definition fast_writable_bytes (s : PacketBuf) : Z := u32 (capacity_ s - write_index_ s).
Definition is_fast_writable_n (n : Z) (s : PacketBuf) : bool := n <=? fast_writable_bytes s.

Definition clear (s : PacketBuf) : PacketBuf := set_error_msg [] (set_write_index 0 (set_read_index 0 s)).

Definition io_size : Z := 4096.

Section Buffer.
(** What [new uint8_t[n]] finds in memory. *)
Context (alloc : Z -> bytes).

Definition new_packet_buf (min_capacity max_capacity : Z) : PacketBuf :=
  mkPacketBuf (if 0 <? min_capacity then alloc min_capacity else []) min_capacity min_capacity max_capacity 0 0 [].

Definition reset (s : PacketBuf) : PacketBuf :=
  let s := clear s in
  if min_capacity_ s <? capacity_ s then with_buf (alloc (min_capacity_ s)) (min_capacity_ s) s else s.

Definition extend (new_capacity : Z) : pbuf unit := fun s =>
  live ← heap_read (read_index_ s) (readable_bytes s) (buf_ s);
  new_buf ← heap_write (read_index_ s) live (alloc new_capacity);
  Done (tt, with_buf new_buf new_capacity s).

Definition ensure_readable (bytes_ : Z) : pbuf bool := fun s =>
  if is_readable_n bytes_ s then Done (true, s)
  else Done (false, set_error_msg (str "Try to read " ++ to_dec bytes_ ++ str "B, but only " ++ to_dec (readable_bytes s) ++ str "B readable") s).

Definition ensure_writable (bytes_ : Z) : pbuf bool := fun s =>
  let new_write_index := u32 (write_index_ s + bytes_) in
  if new_write_index <=? capacity_ s then Done (true, s)
  else if new_write_index >? max_capacity_ s then
    Done (false, set_error_msg (str "Packet buffer size too large: " ++ to_dec new_write_index ++
                                str ", max allowed size: " ++ to_dec (max_capacity_ s)) s)
  else (extend (Z.min (Z.land (u32 (new_write_index + io_size - 1)) (u32 (Z.lnot (io_size - 1)))) (max_capacity_ s));; mret true) s.

(** ** Writing *)

(** The bytes at the write index, which moves behind them. *)
Definition put (data : bytes) : pbuf unit := fun s =>
  b ← heap_write (write_index_ s) data (buf_ s);
  Done (tt, set_write_index (u32 (write_index_ s + zlen data)) (with_buf b (capacity_ s) s)).

Definition write_fixed (n : Z) (data : bytes) : pbuf Z :=
  ok ← ensure_writable n;
  if ok : bool then put data;; mret n else mret (-1).

Definition write_uint1 (v : Z) : pbuf Z := write_fixed 1 (write_htole8 v).
Definition write_uint2 (v : Z) : pbuf Z := write_fixed 2 (write_htole16 v).
Definition write_uint3 (v : Z) : pbuf Z := write_fixed 3 (write_htole24 v).
Definition write_uint4 (v : Z) : pbuf Z := write_fixed 4 (write_htole32 v).
Definition write_uint6 (v : Z) : pbuf Z := write_fixed 6 (write_htole48 v).
Definition write_uint8 (v : Z) : pbuf Z := write_fixed 8 (write_htole64 v).

Definition write_uint (v : Z) : pbuf Z :=
  let length := encoded_bytes_length v in
  ok ← ensure_writable length;
  if negb ok then mret (-1)
  else
    (if length =? 1 then put (write_htole8 v)
     else if length =? 3 then put (write_htole8 0xFC);; put (write_htole16 v)
     else if length =? 4 then put (write_htole8 0xFD);; put (write_htole24 v)
     else put (write_htole8 0xFE);; put (write_htole64 v));;
    mret length.

Definition write_string (s : bytes) (prefix_with_encoded_len : bool) : pbuf Z :=
  let len := u32 (zlen s) in
  let total_len := u32 ((if prefix_with_encoded_len then encoded_bytes_length len else 0) + len) in
  ok ← ensure_writable total_len;
  if negb ok then mret (-1)
  else
    (if prefix_with_encoded_len then write_uint len;; mret tt else mret tt);;
    put (first len s);; mret total_len.

Definition write_cstring (s : bytes) : pbuf Z := write_string (s ++ [0]) false.

(** ** Reading *)

(** [n] bytes at the read index, which moves behind them. *)
Definition take_bytes (n : Z) : pbuf bytes := fun s =>
  data ← heap_read (read_index_ s) n (buf_ s);
  Done (data, set_read_index (u32 (read_index_ s + n)) s).

(** A read that fails leaves its result as it was: [None]. *)
Definition read_n {A} (n : Z) (decode : bytes -> A) : pbuf (option A) :=
  ok ← ensure_readable n;
  if ok : bool then data ← take_bytes n; mret (Some (decode data)) else mret None.

Definition read_uint1 : pbuf (option Z) := read_n 1 le_combine.
Definition read_uint2 : pbuf (option Z) := read_n 2 le_combine.
Definition read_uint3 : pbuf (option Z) := read_n 3 read_le24toh.
Definition read_uint4 : pbuf (option Z) := read_n 4 le_combine.
Definition read_uint6 : pbuf (option Z) := read_n 6 read_le48toh.
Definition read_uint8 : pbuf (option Z) := read_n 8 le_combine.

(** [buf_[read_index_]] *)
Definition peek : pbuf Z := fun s =>
  b ← heap_read (read_index_ s) 1 (buf_ s);
  Done (le_combine b, s).

(** With the number of bytes it takes. *)
Definition read_tail (n : Z) (decode : bytes -> Z) : pbuf (option (Z * Z)) :=
  ok ← ensure_readable n;
  if ok : bool then take_bytes 1;; data ← take_bytes (n - 1); mret (Some (n, decode data)) else mret None.

Definition read_uint : pbuf (option (Z * Z)) :=
  ok ← ensure_readable 1;
  if ok : bool then
    first_byte ← peek;
    if first_byte <? 0xFB then take_bytes 1;; mret (Some (1, first_byte))
    else if first_byte =? 0xFC then read_tail 3 le_combine
    else if first_byte =? 0xFD then read_tail 4 read_le24toh
    else if first_byte =? 0xFE then read_tail 9 le_combine
    else fun s =>
      Done (None, set_error_msg (str "Try to read an encoded integer, but the first byte is " ++ to_dec first_byte) s)
  else mret None.

Definition read_fixed_length_string (len : Z) : pbuf (option bytes) := read_n (u32 len) id.

(** With the number of bytes it takes; when the string is not there the read index goes back. *)
Definition back_off (n : Z) : pbuf unit := fun s => Done (tt, set_read_index (u32 (read_index_ s - n)) s).
Definition read_length_encoded_string : pbuf (option (Z * bytes)) :=
  r ← read_uint;
  match r with
  | None => mret None
  | Some (len_read_sz, len) =>
      t ← read_fixed_length_string len;
      match t with
      | Some t => mret (Some (len_read_sz + u32 len, t))
      | None => back_off len_read_sz;; mret None
      end
  end.

(** Up to the next zero byte, wherever it is. *)
Definition until_zero (l : bytes) : outcome bytes :=
  if bool_decide (0 ∈ l) then Done (cstr l) else Crash.
Definition read_null_terminated_string : pbuf bytes := fun s =>
  t ← until_zero (skip (read_index_ s) (buf_ s));
  Done (t, set_read_index (u32 (read_index_ s + u32 (zlen t + 1))) s).

Definition read_bytes (len : Z) : pbuf (option bytes) := read_n (u32 len) id.
Definition read_skip (len : Z) : pbuf (option unit) := read_n (u32 len) (fun _ => tt).

Definition read_remaining_bytes : pbuf bytes := fun s =>
  data ← heap_read (read_index_ s) (readable_bytes s) (buf_ s);
  Done (data, set_read_index (write_index_ s) s).

End Buffer.

(** ** Correctness *)

(** The constraint that [packet_buf.h] states, and that the indices stay below [2^32] when
    they are rounded. *)
Record buf_ok (s : PacketBuf) : Prop := {
  bo_len : zlen (buf_ s) = capacity_ s;
  bo_caps : 0 <= min_capacity_ s <= capacity_ s /\ capacity_ s <= max_capacity_ s;
  bo_max : max_capacity_ s + io_size <= 2 ^ 32;
  bo_idx : 0 <= read_index_ s <= write_index_ s /\ write_index_ s <= capacity_ s
}.
#[export] Instance buf_ok_dec s : Decision (buf_ok s).
Proof.
  destruct (decide ((zlen (buf_ s) = capacity_ s /\ max_capacity_ s + io_size <= 2 ^ 32) /\
    (0 <= min_capacity_ s <= capacity_ s /\ capacity_ s <= max_capacity_ s) /\
    (0 <= read_index_ s <= write_index_ s /\ write_index_ s <= capacity_ s))) as [H|H];
    [left; by destruct H as [[H1 H2] [H3 H4]]|right; intros [H1 H2 H3 H4]; by apply H].
Defined.

(** What can still be read. *)
Definition pending (s : PacketBuf) : bytes := first (write_index_ s - read_index_ s) (skip (read_index_ s) (buf_ s)).

Lemma pending_eq s pre mid post :
  buf_ s = pre ++ mid ++ post -> read_index_ s = zlen pre -> write_index_ s = zlen pre + zlen mid -> pending s = mid.
Proof.
  intros E Er Ew. unfold pending. rewrite E, Er, Ew. rewrite skip_app by done. replace (zlen pre + zlen mid - zlen pre) with (zlen mid) by lia.
  by apply first_app.
Qed.

Lemma buf_split s : buf_ok s -> exists pre post, buf_ s = pre ++ pending s ++ post /\ zlen pre = read_index_ s /\
  zlen (pending s) = write_index_ s - read_index_ s /\ zlen post = capacity_ s - write_index_ s.
Proof.
  intros [Hl Hc _ [Hr Hw]]. exists (first (read_index_ s) (buf_ s)), (skip (write_index_ s) (buf_ s)).
  assert (zlen (skip (read_index_ s) (buf_ s)) = capacity_ s - read_index_ s) as Hz by (rewrite zlen_skip; lia).
  unfold pending. rewrite (zlen_first (read_index_ s)), (zlen_first (_ - _)), zlen_skip by lia. split; [|lia].
  replace (skip (write_index_ s) (buf_ s)) with (skip (write_index_ s - read_index_ s) (skip (read_index_ s) (buf_ s))).
  - by rewrite first_skip, first_skip.
  - rewrite skip_skip by lia. f_equal. lia.
Qed.

Lemma readable_pending s : buf_ok s -> readable_bytes s = zlen (pending s).
Proof.
  intros Hs. destruct (buf_split s Hs) as (_ & _ & _ & _ & -> & _). destruct Hs as [_ ? Hm [? ?]]. unfold readable_bytes.
  apply u32_id. unfold is_u32, io_size in *. lia.
Qed.

(** Bytes were appended, bytes were consumed. *)
Record appended (data : bytes) (s s' : PacketBuf) : Prop := {
  ap_ok : buf_ok s';
  ap_pending : pending s' = pending s ++ data;
  ap_read : read_index_ s' = read_index_ s;
  ap_write : write_index_ s' = write_index_ s + zlen data;
  ap_max : max_capacity_ s' = max_capacity_ s /\ min_capacity_ s' = min_capacity_ s;
  ap_cap : capacity_ s <= capacity_ s'
}.
Record consumed (data : bytes) (s s' : PacketBuf) : Prop := {
  cs_ok : buf_ok s';
  cs_pending : pending s = data ++ pending s';
  cs_read : read_index_ s' = read_index_ s + zlen data;
  cs_same : buf_ s' = buf_ s /\ capacity_ s' = capacity_ s /\ min_capacity_ s' = min_capacity_ s /\ max_capacity_ s' = max_capacity_ s /\
    write_index_ s' = write_index_ s
}.

Lemma appended_nil s : buf_ok s -> appended [] s s.
Proof. intros H. split; rewrite ?app_nil_r, ?zlen_nil, ?Z.add_0_r; done. Qed.
Lemma appended_app a b s s1 s2 : appended a s s1 -> appended b s1 s2 -> appended (a ++ b) s s2.
Proof.
  intros [A1 A2 A3 A4 [A5 A6] A7] [B1 B2 B3 B4 [B5 B6] B7].
  split; [done|by rewrite B2, A2, app_assoc|congruence|rewrite zlen_app; lia|split; congruence|lia].
Qed.
Lemma consumed_nil s : buf_ok s -> consumed [] s s.
Proof. intros H. split; rewrite ?zlen_nil, ?Z.add_0_r; done. Qed.
Lemma consumed_app a b s s1 s2 : consumed a s s1 -> consumed b s1 s2 -> consumed (a ++ b) s s2.
Proof.
  intros [A1 A2 A3 (A4 & A5 & A6 & A7 & A8)] [B1 B2 B3 (B4 & B5 & B6 & B7 & B8)].
  split; [done|by rewrite A2, B2, app_assoc|rewrite zlen_app; lia|split_and!; congruence].
Qed.
Lemma appended_error m s : buf_ok s -> appended [] s (set_error_msg m s).
Proof. intros [H1 H2 H3 H4]. split; [by split|by rewrite app_nil_r|done|rewrite zlen_nil; cbn; lia|done|done]. Qed.
Lemma consumed_error m s : buf_ok s -> consumed [] s (set_error_msg m s).
Proof. intros [H1 H2 H3 H4]. split; [by split|done|rewrite zlen_nil; cbn; lia|done]. Qed.

Lemma round_up x : 0 <= x -> x + io_size <= 2 ^ 32 ->
  x <= Z.land (u32 (x + io_size - 1)) (u32 (Z.lnot (io_size - 1))) <= x + io_size - 1.
Proof.
  unfold io_size. intros H0 H1. rewrite u32_id by (unfold is_u32; lia). set (a := x + 4096 - 1).
  assert (Z.land a (u32 (Z.lnot (4096 - 1))) = Z.ldiff a (Z.ones 12)) as ->.
  { apply Z.bits_inj'. intros i Hi. rewrite Z.land_spec, Z.ldiff_spec. change (u32 (Z.lnot (4096 - 1))) with (Z.shiftl (Z.ones 20) 12).
    rewrite Z.shiftl_spec by lia. destruct (Z.ltb_spec i 32) as [H|H].
    - f_equal. destruct (Z.ltb_spec i 12) as [H'|H']; [rewrite (Z.ones_spec_low 12), Z.testbit_neg_r by lia; done|].
      rewrite (Z.ones_spec_high 12), Z.ones_spec_low by lia. done.
    - rewrite (Z.bits_above_log2 a), !andb_false_l; [done|lia|]. destruct (decide (a = 0)) as [->|]; [cbn; lia|].
      apply Z.log2_lt_pow2; [lia|]. apply Z.lt_le_trans with (2 ^ 32); [lia|]. apply Z.pow_le_mono_r; lia. }
  rewrite Z.ldiff_ones_r, Z.shiftr_div_pow2, Z.shiftl_mul_pow2 by lia. pose proof (Z.div_mod a (2 ^ 12)). pose proof (Z.mod_pos_bound a (2 ^ 12)). lia.
Qed.

(** Integers in the form they are written. *)
Definition lenenc (v : Z) : bytes :=
  if v <? 251 then [v] else if v <? 2 ^ 16 then 252 :: le_split 2 v else if v <? 2 ^ 24 then 253 :: le_split 3 v else 254 :: le_split 8 v.

Lemma zlen_lenenc v : zlen (lenenc v) = encoded_bytes_length v.
Proof. unfold lenenc, encoded_bytes_length. change (Z.shiftl 1 16) with (2 ^ 16). change (Z.shiftl 1 24) with (2 ^ 24). by repeat destruct (_ <? _). Qed.

Lemma write_htole24_le v : write_htole24 v = le_split 3 v.
Proof.
  unfold write_htole24, write_htole16, write_htole8, u16, u8. rewrite !(le_split_wrap 2), Z.mod_mod, Z.shiftr_div_pow2 by lia.
  cbn [le_split app]. by rewrite Z.div_div by lia.
Qed.

Lemma write_htole48_le v : write_htole48 v = le_split 6 v.
Proof.
  unfold write_htole48, write_htole32, write_htole16, u32, u16. rewrite !(le_split_wrap 4), !(le_split_wrap 2), Z.shiftr_div_pow2 by lia.
  cbn [le_split app]. by rewrite !Z.div_div by lia.
Qed.

Section Specs.
Context (alloc : Z -> bytes) (alloc_len : forall n, 0 <= n -> zlen (alloc n) = n).

Lemma new_packet_buf_ok lo hi : 0 <= lo <= hi -> hi + io_size <= 2 ^ 32 -> buf_ok (new_packet_buf alloc lo hi) /\ pending (new_packet_buf alloc lo hi) = [].
Proof.
  intros H1 H2. split; [|done]. split; cbn; try lia. destruct (Z.ltb_spec 0 lo); [by apply alloc_len; lia|]. rewrite zlen_nil. lia.
Qed.

Lemma clear_ok s : buf_ok s -> buf_ok (clear s) /\ pending (clear s) = [].
Proof. intros [H1 H2 H3 H4]. split; [|done]. split; cbn; try done; lia. Qed.

Lemma reset_buf_ok s : buf_ok s -> buf_ok (reset alloc s) /\ pending (reset alloc s) = [] /\ capacity_ (reset alloc s) = min_capacity_ s.
Proof.
  intros [H1 H2 H3 H4]. unfold reset. cbn. destruct (Z.ltb_spec (min_capacity_ s) (capacity_ s)); (split; [|split; [done|cbn; lia]]); split; cbn; try done; try lia.
  apply alloc_len. lia.
Qed.

Lemma extend_ok c s : buf_ok s -> write_index_ s <= c -> capacity_ s <= c <= max_capacity_ s ->
  runs (extend alloc c) s (fun _ s' => appended [] s s' /\ capacity_ s' = c).
Proof.
  intros Hs Hw Hc. pose proof Hs as [H1 H2 H3 [H4 H5]]. destruct (buf_split s Hs) as (pre & post & Eb & Hp & Hq & Hpost).
  unfold runs, extend. rewrite readable_pending by done. unfold heap_read. rewrite bool_decide_eq_true_2 by lia. cbn [mbind outcome_bind].
  assert (first (zlen (pending s)) (skip (read_index_ s) (buf_ s)) = pending s) as -> by (rewrite Hq; done).
  pose proof (alloc_len c ltac:(lia)) as Ha. unfold heap_write. destruct (Z.leb_spec (read_index_ s + zlen (pending s)) (zlen (alloc c))); [|lia].
  cbn [mbind outcome_bind]. set (nb := overwrite _ _ _). assert (zlen nb = c) as Hn by (unfold nb; rewrite zlen_overwrite; lia).
  split; [|done]. split; cbn; try done; [split; cbn; try done; lia| |rewrite zlen_nil; lia|lia].
  rewrite app_nil_r. apply (pending_eq _ (first (read_index_ s) (alloc c)) (pending s) (skip (read_index_ s + zlen (pending s)) (alloc c))); [done| |];
    rewrite zlen_first by lia; cbn; lia.
Qed.

Lemma ensure_writable_ok n s : buf_ok s -> 0 <= n -> write_index_ s + n < 2 ^ 32 ->
  runs (ensure_writable alloc n) s (fun ok s' => appended [] s s' /\ ok = bool_decide (write_index_ s + n <= max_capacity_ s) /\
    (ok = true -> write_index_ s + n <= capacity_ s')).
Proof.
  intros Hs Hn Hu. pose proof Hs as [H1 H2 H3 [H4 H5]]. unfold runs, ensure_writable. rewrite u32_id by (unfold is_u32; lia).
  destruct (Z.leb_spec (write_index_ s + n) (capacity_ s)).
  { split; [by apply appended_nil|]. rewrite bool_decide_eq_true_2 by lia. done. }
  rewrite Z.gtb_ltb. destruct (Z.ltb_spec (max_capacity_ s) (write_index_ s + n)).
  { split; [by apply appended_error|]. rewrite bool_decide_eq_false_2 by lia. done. }
  pose proof (round_up (write_index_ s + n) ltac:(lia) ltac:(lia)) as Hr. set (c := Z.min _ _).
  assert (write_index_ s + n <= c <= max_capacity_ s) as Hc by (unfold c; lia).
  apply (runs_bind (extend alloc c) (fun _ => mret true)). eapply runs_mono; [apply extend_ok; [done|lia|lia]|].
  intros [] s' [Ha Ec]. apply runs_ret. rewrite bool_decide_eq_true_2 by lia. split; [done|]. split; [done|]. lia.
Qed.

Lemma put_writes data s : buf_ok s -> write_index_ s + zlen data <= capacity_ s ->
  runs (put data) s (fun _ s' => appended data s s' /\ capacity_ s' = capacity_ s).
Proof.
  intros Hs Hw. pose proof Hs as [H1 H2 H3 [H4 H5]]. pose proof (zlen_nonneg data) as Hz. destruct (buf_split s Hs) as (pre & post & Eb & Hp & Hq & Hpost).
  unfold runs, put, heap_write. destruct (Z.leb_spec (write_index_ s + zlen data) (zlen (buf_ s))); [|lia]. cbn [mbind outcome_bind].
  rewrite u32_id by (unfold is_u32, io_size in *; lia). split; [|done].
  assert (overwrite (write_index_ s) data (buf_ s) = pre ++ (pending s ++ data) ++ skip (zlen data) post) as Eo.
  { replace (buf_ s) with ((pre ++ pending s) ++ first (zlen data) post ++ skip (zlen data) post) by (by rewrite first_skip, <-app_assoc).
    rewrite overwrite_app; [by rewrite <-!app_assoc|rewrite zlen_app; lia|rewrite zlen_first; lia]. }
  split; cbn; try done.
  - split; cbn; try done; [rewrite zlen_overwrite by lia; done|lia].
  - apply (pending_eq _ pre (pending s ++ data) (skip (zlen data) post)); cbn; [done|lia|rewrite zlen_app; lia].
Qed.

(** [m] appends [data], or fails and appends nothing when that would exceed the maximum. *)
Definition writes (m : pbuf Z) (data : bytes) : Prop :=
  forall s, buf_ok s -> write_index_ s + zlen data < 2 ^ 32 ->
  runs m s (fun r s' => if bool_decide (write_index_ s + zlen data <= max_capacity_ s) then r = zlen data /\ appended data s s'
                        else r = -1 /\ appended [] s s').

Lemma write_fixed_ok n data : zlen data = n -> writes (write_fixed alloc n data) data.
Proof.
  intros Hn s Hs Hu. pose proof (zlen_nonneg data). unfold write_fixed. apply runs_bind.
  eapply runs_mono; [apply (ensure_writable_ok n s Hs); lia|]. intros ok s1 (Ha & Eok & Hcap). rewrite Hn. rewrite <-Eok.
  destruct ok; [|by apply runs_ret]. apply runs_bind.
  eapply runs_mono; [apply put_writes; [by destruct Ha|rewrite (ap_write _ _ _ Ha), zlen_nil; specialize (Hcap eq_refl); lia]|].
  intros [] s2 [Hb _]. apply runs_ret. split; [done|]. by apply (appended_app [] data s s1 s2).
Qed.

Lemma put_put_ok a b s : buf_ok s -> write_index_ s + zlen a + zlen b <= capacity_ s ->
  runs (put a;; put b) s (fun _ s' => appended (a ++ b) s s' /\ capacity_ s' = capacity_ s).
Proof.
  intros Hs Hw. pose proof (zlen_nonneg b). apply runs_bind. eapply runs_mono; [apply put_writes; [done|lia]|]. intros [] s1 [Ha Hc].
  eapply runs_mono; [apply put_writes; [by destruct Ha|rewrite (ap_write _ _ _ Ha); lia]|]. intros [] s2 [Hb Hc2].
  split; [by eapply appended_app|congruence].
Qed.

Lemma write_uint_ok v : is_u64 v -> writes (write_uint alloc v) (lenenc v).
Proof.
  intros Hv s Hs Hu. rewrite zlen_lenenc in *. set (n := encoded_bytes_length v) in *.
  assert (1 <= n) as Hn1 by (unfold n, encoded_bytes_length; zif). unfold write_uint. apply runs_bind.
  eapply runs_mono; [apply (ensure_writable_ok _ s Hs); unfold n in *; lia|]. intros ok s1 (Ha & Eok & Hcap). fold n in Eok, Hcap |- *. rewrite <-Eok.
  destruct ok; [|by apply runs_ret]. specialize (Hcap eq_refl). cbn [negb]. apply runs_bind.
  apply (runs_mono _ _ (fun _ s' => appended (lenenc v) s1 s' /\ capacity_ s' = capacity_ s1)).
  2: { intros [] s2 [Hb _]. apply runs_ret. split; [done|]. by apply (appended_app [] _ s s1 s2). }
  destruct Ha as [Hok1 _ _ Hw _ _]. rewrite zlen_nil, Z.add_0_r in Hw. rewrite <-Hw in Hcap. unfold is_u64 in Hv.
  unfold n, lenenc, encoded_bytes_length in *. change (Z.shiftl 1 16) with (2 ^ 16) in *. change (Z.shiftl 1 24) with (2 ^ 24) in *.
  destruct (Z.ltb_spec v 251); [|destruct (Z.ltb_spec v (2 ^ 16)); [|destruct (Z.ltb_spec v (2 ^ 24))]]; cbn [Z.eqb Pos.eqb].
  - replace [v] with (write_htole8 v) by (unfold write_htole8; rewrite u8_id; [done|unfold is_u8; lia]). by apply put_writes.
  - replace (le_split 2 v) with (write_htole16 v) by apply (le_split_wrap 2 v). apply (put_put_ok [252]); [done|]. change (zlen [252]) with 1. change (zlen (write_htole16 v)) with 2. lia.
  - rewrite <-write_htole24_le. apply (put_put_ok [253]); [done|]. change (zlen [253]) with 1. change (zlen (write_htole24 v)) with 3. lia.
  - replace (le_split 8 v) with (write_htole64 v) by apply (le_split_wrap 8 v). apply (put_put_ok [254]); [done|]. change (zlen [254]) with 1. change (zlen (write_htole64 v)) with 8. lia.
Qed.

Lemma write_string_ok t (prefix : bool) : is_u32 (zlen t) ->
  writes (write_string alloc t prefix) ((if prefix then lenenc (zlen t) else []) ++ t).
Proof.
  intros Ht s Hs Hu. set (data := _ ++ t) in *. pose proof (zlen_nonneg data) as Hd. pose proof Hs as [_ Hc Hm [Hi1 Hi2]].
  unfold write_string. rewrite (u32_id (zlen t)) by done.
  replace ((if prefix then encoded_bytes_length (zlen t) else 0) + zlen t) with (zlen data)
    by (unfold data; rewrite zlen_app; destruct prefix; rewrite ?zlen_lenenc, ?zlen_nil; lia).
  rewrite u32_id by (unfold is_u32; lia). rewrite first_ge by lia. apply runs_bind.
  eapply runs_mono; [apply (ensure_writable_ok _ s Hs); lia|]. intros ok s1 (Ha & Eok & Hcap). rewrite <-Eok.
  destruct ok; [|by apply runs_ret]. specialize (Hcap eq_refl). cbn [negb]. symmetry in Eok. apply bool_decide_eq_true in Eok.
  pose proof Ha as [Hok1 _ _ Hw [Hmax _] _]. rewrite zlen_nil, Z.add_0_r in Hw. rewrite <-Hw in Hcap.
  assert (zlen data = zlen (if prefix then lenenc (zlen t) else []) + zlen t) as Ed by (unfold data; by rewrite zlen_app).
  apply runs_bind. apply (runs_mono _ _ (fun _ s' => appended (if prefix then lenenc (zlen t) else []) s1 s' /\ capacity_ s1 <= capacity_ s')).
  { destruct prefix; [|apply runs_ret; split; [by apply appended_nil|lia]]. apply runs_bind. pose proof (zlen_nonneg t).
    eapply runs_mono; [apply write_uint_ok; [unfold is_u64, is_u32 in *; lia|done|lia]|].
    intros r s2 H2. rewrite bool_decide_eq_true_2 in H2 by lia. destruct H2 as [_ H2]. apply runs_ret. split; [done|by destruct H2]. }
  intros [] s2 [Hb Hc2]. apply runs_bind. eapply runs_mono; [apply put_writes; [by destruct Hb|rewrite (ap_write _ _ _ Hb); lia]|].
  intros [] s3 [Hd3 _]. apply runs_ret. split; [done|]. eapply (appended_app [] data); [done|]. by eapply appended_app.
Qed.

End Specs.

(** ** Reading back *)

Lemma zlen_consumed data s s' : consumed data s s' -> zlen (pending s) = zlen data + zlen (pending s').
Proof. intros [_ -> _ _]. by rewrite zlen_app. Qed.

Lemma take_bytes_ok data rest s : buf_ok s -> pending s = data ++ rest -> runs (take_bytes (zlen data)) s (fun r s' => r = data /\ consumed data s s').
Proof.
  intros Hs Hp. destruct (buf_split s Hs) as (pre & post & Eb & Hpre & Hq & Hpost). rewrite Hp, <-app_assoc in Eb. rewrite Hp, zlen_app in Hq.
  pose proof (zlen_nonneg data). pose proof (zlen_nonneg rest). pose proof Hs as [H1 H2 H3 [H4 H5]].
  unfold runs, take_bytes, heap_read. rewrite bool_decide_eq_true_2 by (rewrite Eb, !zlen_app in *; pose proof (zlen_nonneg post); lia). cbn [mbind outcome_bind].
  rewrite u32_id by (unfold is_u32, io_size in *; lia). rewrite Eb at 1. rewrite skip_app, first_app by done. split; [done|].
  split; cbn; try done.
  - split; cbn; try done; lia.
  - rewrite Hp. f_equal. symmetry. apply (pending_eq _ (pre ++ data) rest post); cbn; rewrite ?Eb, <-?app_assoc; [done|rewrite zlen_app; lia|rewrite zlen_app; lia].
Qed.

Lemma ensure_readable_ok n s : buf_ok s -> runs (ensure_readable n) s (fun ok s' => consumed [] s s' /\ ok = bool_decide (n <= zlen (pending s))).
Proof.
  intros Hs. unfold runs, ensure_readable, is_readable_n. rewrite readable_pending by done. destruct (Z.leb_spec n (zlen (pending s))).
  - split; [by apply consumed_nil|]. by rewrite bool_decide_eq_true_2.
  - split; [by apply consumed_error|]. rewrite bool_decide_eq_false_2; [done|lia].
Qed.

(** [m] decodes [data] into [x], whatever follows it. *)
Definition reads {A} (m : pbuf (option A)) (data : bytes) (x : A) : Prop :=
  forall s rest, buf_ok s -> pending s = data ++ rest -> runs m s (fun r s' => r = Some x /\ consumed data s s').

(** [m] never crashes, and consumes nothing when it fails. *)
Definition reads_safely {A} (m : pbuf (option A)) : Prop :=
  forall s, buf_ok s -> runs m s (fun r s' => exists data, consumed data s s' /\ (r = None -> data = [])).

Lemma consumed_pending s s1 rest : consumed [] s s1 -> pending s = rest -> pending s1 = rest.
Proof. intros [_ H _ _] <-. by rewrite H. Qed.

Lemma read_n_ok {A} n (decode : bytes -> A) data : zlen data = n -> reads (read_n n decode) data (decode data).
Proof.
  intros Hn s rest Hs Hp. pose proof (zlen_nonneg rest). apply runs_bind. eapply runs_mono; [by apply ensure_readable_ok|]. intros ok s1 [Hc Eok].
  rewrite Hp, zlen_app, bool_decide_eq_true_2 in Eok by lia. subst ok. apply runs_bind. rewrite <-Hn.
  eapply runs_mono; [apply (take_bytes_ok data rest); [by destruct Hc|by apply (consumed_pending s)]|]. intros r s2 [-> Hc2]. apply runs_ret.
  split; [done|]. by apply (consumed_app [] data s s1 s2).
Qed.

Lemma read_n_safe {A} n (decode : bytes -> A) : 0 <= n -> reads_safely (read_n n decode).
Proof.
  intros Hn s Hs. apply runs_bind. eapply runs_mono; [by apply ensure_readable_ok|]. intros ok s1 [Hc Eok]. destruct ok.
  - symmetry in Eok. apply bool_decide_eq_true in Eok. apply runs_bind. rewrite <-(zlen_first n (pending s)) by lia.
    eapply runs_mono; [apply (take_bytes_ok _ (skip n (pending s))); [by destruct Hc|apply (consumed_pending s); [done|by rewrite first_skip]]|].
    intros r s2 [_ Hc2]. apply runs_ret. exists ([] ++ first n (pending s)). split; [by eapply consumed_app|done].
  - apply runs_ret. by exists [].
Qed.

Lemma peek_ok b rest s : buf_ok s -> pending s = b :: rest -> runs peek s (fun r s' => r = b /\ s' = s).
Proof.
  intros Hs Hp. destruct (buf_split s Hs) as (pre & post & Eb & Hpre & Hq & Hpost). rewrite Hp in Eb. pose proof Hs as [H1 H2 H3 [H4 H5]].
  unfold runs, peek, heap_read. rewrite bool_decide_eq_true_2.
  - cbn [mbind outcome_bind]. rewrite Eb, skip_app by done. split; [|done]. cbn [app]. change (first 1 (b :: rest ++ post)) with [b]. cbn [le_combine]. lia.
  - rewrite Eb, zlen_app. cbn [app]. rewrite zlen_cons, zlen_app. pose proof (zlen_nonneg rest). pose proof (zlen_nonneg post). lia.
Qed.

(** The two halves of an integer put together. *)
Lemma read_halves (n m : nat) v : 0 <= v < 256 ^ Z.of_nat (n + m) ->
  Z.lor (Z.shiftl (le_combine (skip (Z.of_nat n) (le_split (n + m) v))) (8 * Z.of_nat n)) (le_combine (first (Z.of_nat n) (le_split (n + m) v))) = v.
Proof.
  intros Hv. assert (le_split (n + m) v = le_split n v ++ le_split m (v / 256 ^ Z.of_nat n)) as ->.
  { clear Hv. revert v. induction n as [|n IH]; intros v; [by rewrite Z.div_1_r|]. cbn [Nat.add le_split app]. f_equal. rewrite IH. do 2 f_equal.
    rewrite Z.div_div by lia. f_equal. rewrite Nat2Z.inj_succ, Z.pow_succ_r by lia. done. }
  rewrite skip_app, first_app by (by rewrite zlen_le_split). rewrite !le_combine_split.
  replace (2 ^ (8 * Z.of_nat n)) with (256 ^ Z.of_nat n) by (rewrite Z.pow_mul_r by lia; done).
  rewrite lor_shiftl; [|lia|rewrite Z.pow_mul_r by lia; apply Z.mod_pos_bound; lia].
  rewrite Z.pow_mul_r by lia. change (2 ^ 8) with 256. rewrite Nat2Z.inj_add, Z.pow_add_r in Hv by lia.
  rewrite (Z.mod_small (_ / _)); [rewrite Z.mul_comm, <-Z.div_mod; lia|]. split; [apply Z.div_pos; lia|apply Z.div_lt_upper_bound; lia].
Qed.

Lemma read_le24toh_le v : 0 <= v < 2 ^ 24 -> read_le24toh (le_split 3 v) = v.
Proof.
  intros H. pose proof (read_halves 2 1 v) as E. change (256 ^ Z.of_nat (2 + 1)) with (2 ^ 24) in E. change (8 * Z.of_nat 2) with 16 in E.
  change (Z.of_nat 2) with 2 in E. change (2 + 1)%nat with 3%nat in E. unfold read_le24toh. by apply E.
Qed.
Lemma read_le48toh_le v : 0 <= v < 2 ^ 48 -> read_le48toh (le_split 6 v) = v.
Proof.
  intros H. pose proof (read_halves 4 2 v) as E. change (256 ^ Z.of_nat (4 + 2)) with (2 ^ 48) in E. change (8 * Z.of_nat 4) with 32 in E.
  change (Z.of_nat 4) with 4 in E. change (4 + 2)%nat with 6%nat in E. unfold read_le48toh. by apply E.
Qed.

Lemma read_tail_ok n (decode : bytes -> Z) b data : n = 1 + zlen data -> reads (read_tail n decode) (b :: data) (n, decode data).
Proof.
  intros -> s rest Hs Hp. pose proof (zlen_nonneg rest). pose proof (zlen_nonneg data). apply runs_bind. eapply runs_mono; [by apply ensure_readable_ok|].
  intros ok s1 [Hc Eok]. rewrite Hp, zlen_app, zlen_cons, bool_decide_eq_true_2 in Eok by lia. subst ok. apply runs_bind.
  eapply runs_mono; [apply (take_bytes_ok [b] (data ++ rest)); [by destruct Hc|by apply (consumed_pending s)]|]. intros r s2 [_ Hc2]. apply runs_bind.
  replace (1 + zlen data - 1) with (zlen data) by lia.
  eapply runs_mono; [apply (take_bytes_ok data rest); [by destruct Hc2|]|].
  { destruct Hc as [_ E1 _ _], Hc2 as [_ E2 _ _]. rewrite E2 in E1. rewrite E1 in Hp. by injection Hp. }
  intros r3 s3 [-> Hc3]. apply runs_ret. split; [done|]. by apply (consumed_app [] (b :: data) s s1 s3), (consumed_app [b] data s1 s2 s3).
Qed.

Lemma read_uint_step b l s (Q : option (Z * Z) -> PacketBuf -> Prop) :
  buf_ok s -> pending s = b :: l ->
  (forall s1, consumed [] s s1 -> runs (if b <? 251 then take_bytes 1;; mret (Some (1, b))
    else if b =? 252 then read_tail 3 le_combine else if b =? 253 then read_tail 4 read_le24toh else if b =? 254 then read_tail 9 le_combine
    else fun s => Done (None, set_error_msg (str "Try to read an encoded integer, but the first byte is " ++ to_dec b) s)) s1 Q) ->
  runs read_uint s Q.
Proof.
  intros Hs Hp H. apply runs_bind. eapply runs_mono; [by apply ensure_readable_ok|]. intros ok s1 [Hc ->].
  rewrite bool_decide_eq_true_2 by (rewrite Hp, zlen_cons; pose proof (zlen_nonneg l); lia). apply runs_bind.
  eapply runs_mono; [apply (peek_ok b l); [by destruct Hc|by apply (consumed_pending s)]|]. intros r s2 [-> ->]. by apply H.
Qed.

Lemma read_uint_ok v : is_u64 v -> reads read_uint (lenenc v) (zlen (lenenc v), v).
Proof.
  intros Hv s rest Hs Hp. unfold is_u64 in Hv.
  assert (forall b data, lenenc v = b :: data -> forall m s1, consumed [] s s1 -> reads m (b :: data) (zlen (lenenc v), v) ->
    runs m s1 (fun r s' => r = Some (zlen (lenenc v), v) /\ consumed (lenenc v) s s')) as Hfin.
  { intros b data El m s1 Hc Hm. eapply runs_mono; [apply (Hm s1 rest); [by destruct Hc|apply (consumed_pending s); [done|by rewrite <-El]]|].
    intros r s2 [-> Hc2]. split; [done|]. rewrite El. by apply (consumed_app [] _ s s1 s2). }
  unfold lenenc in *. destruct (Z.ltb_spec v 251); [|destruct (Z.ltb_spec v (2 ^ 16)); [|destruct (Z.ltb_spec v (2 ^ 24))]];
    (eapply read_uint_step; [done|exact Hp|]); intros s1 Hc; cbn [Z.ltb Z.compare Pos.compare Pos.compare_cont Z.eqb Pos.eqb].
  - rewrite (proj2 (Z.ltb_lt v 251)) by lia. apply runs_bind.
    eapply runs_mono; [apply (take_bytes_ok [v] rest); [by destruct Hc|by apply (consumed_pending s)]|]. intros r s2 [_ Hc2]. apply runs_ret.
    split; [done|]. by apply (consumed_app [] [v] s s1 s2).
  - eapply Hfin; [done|done|]. rewrite <-(le_combine_split_id 2 v) at 3 by lia. by apply read_tail_ok.
  - eapply Hfin; [done|done|]. rewrite <-(read_le24toh_le v) at 3 by lia. by apply read_tail_ok.
  - eapply Hfin; [done|done|]. rewrite <-(le_combine_split_id 8 v) at 3 by lia. by apply read_tail_ok.
Qed.

(** [m] never crashes; the size it reports is what it consumes, and nothing when it fails. *)
Definition reads_sized {A} (m : pbuf (option (Z * A))) : Prop :=
  forall s, buf_ok s -> runs m s (fun r s' => exists data, consumed data s s' /\ match r with Some (n, _) => zlen data = n | None => data = [] end).

Lemma read_tail_sized n decode : 1 <= n -> reads_sized (read_tail n decode).
Proof.
  intros Hn s Hs. destruct (decide (n <= zlen (pending s))) as [Hle|Hgt].
  - destruct (pending s) as [|b l] eqn:Hp; [rewrite zlen_nil in Hle; lia|]. rewrite zlen_cons in Hle.
    eapply runs_mono; [apply (read_tail_ok n decode b (first (n - 1) l)) with (rest := skip (n - 1) l); [rewrite zlen_first; lia|done|]|].
    { rewrite Hp. cbn [app]. by rewrite first_skip. }
    intros r s' [-> Hc]. eexists. split; [done|]. rewrite zlen_cons, zlen_first; lia.
  - apply runs_bind. eapply runs_mono; [by apply ensure_readable_ok|]. intros ok s1 [Hc ->]. rewrite bool_decide_eq_false_2 by done.
    apply runs_ret. by exists [].
Qed.

Lemma read_uint_sized : reads_sized read_uint.
Proof.
  intros s Hs. destruct (pending s) as [|b l] eqn:Hp.
  { apply runs_bind. eapply runs_mono; [by apply ensure_readable_ok|]. intros ok s1 [Hc ->]. rewrite Hp. apply runs_ret. by exists []. }
  eapply read_uint_step; [done|exact Hp|]. intros s1 Hc.
  assert (forall m : pbuf (option (Z * Z)), reads_sized m -> runs m s1 (fun r s' => exists data, consumed data s s' /\ match r with Some (n, _) => zlen data = n | None => data = [] end)) as Hm.
  { intros m Hm. eapply runs_mono; [apply Hm; by destruct Hc|]. intros r s2 (data & H1 & H2). exists data. split; [|done]. by apply (consumed_app [] _ s s1 s2). }
  destruct (b <? 251).
  { apply runs_bind. eapply runs_mono; [apply (take_bytes_ok [b] l); [by destruct Hc|by apply (consumed_pending s)]|]. intros r s2 [_ Hc2]. apply runs_ret.
    exists [b]. split; [|done]. by apply (consumed_app [] _ s s1 s2). }
  destruct (b =? 252); [by apply Hm, read_tail_sized|]. destruct (b =? 253); [by apply Hm, read_tail_sized|]. destruct (b =? 254); [by apply Hm, read_tail_sized|].
  exists []. split; [|done]. apply (consumed_app [] [] s s1); [done|]. apply consumed_error. by destruct Hc.
Qed.

Lemma read_length_encoded_string_ok t : is_u32 (zlen t) ->
  reads read_length_encoded_string (lenenc (zlen t) ++ t) (zlen (lenenc (zlen t)) + zlen t, t).
Proof.
  intros Ht s rest Hs Hp. rewrite <-app_assoc in Hp. apply runs_bind.
  eapply runs_mono; [apply (read_uint_ok (zlen t)) with (rest := t ++ rest); [unfold is_u64, is_u32 in *; lia|done|done]|]. intros r s1 [-> Hc]. apply runs_bind.
  unfold read_fixed_length_string. rewrite u32_id by done.
  eapply runs_mono; [apply (read_n_ok (zlen t) id t) with (rest := rest); [done|by destruct Hc|]|].
  { destruct Hc as [_ E _ _]. rewrite E in Hp. by apply app_inv_head in Hp. }
  intros r s2 [-> Hc2]. apply runs_ret. split; [done|]. by eapply consumed_app.
Qed.

Lemma back_off_ok data s s1 : consumed data s s1 -> buf_ok s -> runs (back_off (zlen data)) s1 (fun _ s' => consumed [] s s').
Proof.
  intros [Hok Hp Hr (E1 & E2 & E3 & E4 & E5)] Hs. unfold runs, back_off. replace (read_index_ s1 - zlen data) with (read_index_ s) by lia.
  rewrite u32_id by (destruct Hs as [_ ? Hm [? ?]]; unfold is_u32, io_size in *; lia). destruct Hs as [H1 H2 H3 H4].
  split; cbn; [split; cbn; rewrite ?E1, ?E2, ?E3, ?E4, ?E5; done| |rewrite zlen_nil; lia|done]. unfold pending. cbn. by rewrite E1, E5.
Qed.

Lemma read_length_encoded_string_sized : reads_sized read_length_encoded_string.
Proof.
  intros s Hs. apply runs_bind. eapply runs_mono; [by apply read_uint_sized|]. intros [[n v]|] s1 (data & Hc & Hn); [|apply runs_ret; by exists data].
  apply runs_bind. unfold read_fixed_length_string. set (len := u32 v). pose proof (u32_range v) as Hu. fold len in Hu.
  destruct (decide (len <= zlen (pending s1))) as [Hle|Hgt].
  - eapply runs_mono; [apply (read_n_ok len id (first len (pending s1))) with (rest := skip len (pending s1)); [rewrite zlen_first; unfold is_u32 in *; lia|by destruct Hc|by rewrite first_skip]|].
    intros r s2 [-> Hc2]. apply runs_ret. exists (data ++ first len (pending s1)). split; [by eapply consumed_app|].
    rewrite zlen_app, zlen_first; [lia|unfold is_u32 in *; lia].
  - eapply runs_mono; [unfold read_n; apply runs_bind; eapply runs_mono; [apply ensure_readable_ok; by destruct Hc|]|].
    { intros ok s2 [Hc2 ->]. rewrite bool_decide_eq_false_2 by done.
      instantiate (1 := fun r s2 => r = None /\ consumed [] s1 s2). by apply runs_ret. }
    intros r s2 [-> Hc2]. apply runs_bind. rewrite <-Hn. eapply runs_mono; [apply (back_off_ok data s)|]; [|done|].
    { rewrite <-(app_nil_r data). by eapply consumed_app. }
    intros [] s3 Hc3. apply runs_ret. by exists [].
Qed.

Lemma cstr_terminated t rest : 0 ∉ t -> cstr (t ++ 0 :: rest) = t.
Proof.
  induction t as [|c t IH]; intros H; [done|]. cbn [app cstr]. destruct (Z.eqb_spec c 0) as [->|]; [set_solver|]. f_equal. apply IH. set_solver.
Qed.

Lemma read_null_terminated_string_ok t rest s : buf_ok s -> pending s = t ++ 0 :: rest -> 0 ∉ t ->
  runs read_null_terminated_string s (fun r s' => r = t /\ consumed (t ++ [0]) s s').
Proof.
  intros Hs Hp Ht. destruct (buf_split s Hs) as (pre & post & Eb & Hpre & Hq & Hpost). rewrite Hp in Eb, Hq. pose proof Hs as [H1 H2 H3 [H4 H5]].
  unfold runs, read_null_terminated_string, until_zero.
  assert (skip (read_index_ s) (buf_ s) = t ++ 0 :: (rest ++ post)) as -> by (rewrite Eb, skip_app, <-app_assoc by done; done).
  rewrite bool_decide_eq_true_2 by (apply elem_of_app; right; by left). cbn [mbind outcome_bind]. rewrite cstr_terminated by done. split; [done|].
  rewrite zlen_app, zlen_cons in Hq. pose proof (zlen_nonneg t). pose proof (zlen_nonneg rest).
  rewrite (u32_id (zlen t + 1)), u32_id by (unfold is_u32, io_size in *; lia).
  split; cbn; rewrite ?zlen_app; [split; cbn; try done; lia| |change (zlen [0]) with 1; lia|done].
  rewrite Hp, <-app_assoc. do 2 f_equal. symmetry.
  apply (pending_eq _ (pre ++ t ++ [0]) rest post); cbn; rewrite ?Eb, ?zlen_app; [by rewrite <-!app_assoc|change (zlen [0]) with 1; lia..].
Qed.

(** ** Packets as sequences of fields *)

Inductive field :=
| U1 (v : Z) | U2 (v : Z) | U3 (v : Z) | U4 (v : Z) | U6 (v : Z) | U8 (v : Z)
| Lenenc (v : Z) | Fixed (t : bytes) | LenencStr (t : bytes).

Definition field_ok (f : field) : Prop :=
  match f with
  | U1 v => 0 <= v < 2 ^ 8 | U2 v => 0 <= v < 2 ^ 16 | U3 v => 0 <= v < 2 ^ 24 | U4 v => 0 <= v < 2 ^ 32 | U6 v => 0 <= v < 2 ^ 48
  | U8 v | Lenenc v => 0 <= v < 2 ^ 64
  | Fixed t | LenencStr t => zlen t < 2 ^ 32
  end.
#[export] Instance field_ok_dec f : Decision (field_ok f).
Proof. destruct f; cbn; apply _. Defined.

(** The bytes the protocol has for a field. *)
Definition encode (f : field) : bytes :=
  match f with
  | U1 v => le_split 1 v | U2 v => le_split 2 v | U3 v => le_split 3 v | U4 v => le_split 4 v | U6 v => le_split 6 v | U8 v => le_split 8 v
  | Lenenc v => lenenc v
  | Fixed t => t
  | LenencStr t => lenenc (zlen t) ++ t
  end.
Definition encode_all (fs : list field) : bytes := mjoin (encode <$> fs).

Definition write_field (alloc : Z -> bytes) (f : field) : pbuf Z :=
  match f with
  | U1 v => write_uint1 alloc v | U2 v => write_uint2 alloc v | U3 v => write_uint3 alloc v | U4 v => write_uint4 alloc v
  | U6 v => write_uint6 alloc v | U8 v => write_uint8 alloc v | Lenenc v => write_uint alloc v
  | Fixed t => write_string alloc t false | LenencStr t => write_string alloc t true
  end.

(** The read that goes with a field, and what it makes of it. *)
Definition read_as {A} (k : A -> field) (m : pbuf (option A)) : pbuf (option field) := r ← m; mret (k <$> r).
Definition read_field (f : field) : pbuf (option field) :=
  match f with
  | U1 _ => read_as U1 read_uint1 | U2 _ => read_as U2 read_uint2 | U3 _ => read_as U3 read_uint3 | U4 _ => read_as U4 read_uint4
  | U6 _ => read_as U6 read_uint6 | U8 _ => read_as U8 read_uint8
  | Lenenc _ => read_as (fun r => Lenenc r.2) read_uint
  | Fixed t => read_as Fixed (read_fixed_length_string (zlen t))
  | LenencStr _ => read_as (fun r => LenencStr r.2) read_length_encoded_string
  end.

Fixpoint write_all (alloc : Z -> bytes) (fs : list field) : pbuf unit :=
  match fs with [] => mret tt | f :: fs => write_field alloc f;; write_all alloc fs end.
Fixpoint read_all (fs : list field) : pbuf (list (option field)) :=
  match fs with [] => mret [] | f :: fs => r ← read_field f; rs ← read_all fs; mret (r :: rs) end.

Lemma write_field_ok alloc f : (forall n, 0 <= n -> zlen (alloc n) = n) -> field_ok f -> writes (write_field alloc f) (encode f).
Proof.
  intros Ha Hf. destruct f as [v|v|v|v|v|v|v|t|t]; cbn [write_field encode]; cbn in Hf.
  - by apply write_fixed_ok.
  - unfold write_uint2, write_htole16, u16. rewrite (le_split_wrap 2). by apply write_fixed_ok.
  - unfold write_uint3. rewrite write_htole24_le. by apply write_fixed_ok.
  - unfold write_uint4, write_htole32, u32. rewrite (le_split_wrap 4). by apply write_fixed_ok.
  - unfold write_uint6. rewrite write_htole48_le. by apply write_fixed_ok.
  - unfold write_uint8, write_htole64, u64. rewrite (le_split_wrap 8). by apply write_fixed_ok.
  - by apply write_uint_ok.
  - apply (write_string_ok alloc Ha t false). unfold is_u32. pose proof (zlen_nonneg t). lia.
  - apply (write_string_ok alloc Ha t true). unfold is_u32. pose proof (zlen_nonneg t). lia.
Qed.

Lemma read_as_ok {A} (k : A -> field) m data x : reads m data x -> reads (read_as k m) data (k x).
Proof. intros H s rest Hs Hp. apply runs_bind. eapply runs_mono; [by apply (H s rest)|]. intros r s' [-> Hc]. by apply runs_ret. Qed.

Lemma read_field_ok f : field_ok f -> reads (read_field f) (encode f) f.
Proof.
  destruct f as [v|v|v|v|v|v|v|t|t]; cbn [field_ok read_field encode]; intros Hf.
  - rewrite <-(le_combine_split_id 1 v) at 2 by lia. by apply read_as_ok, read_n_ok.
  - rewrite <-(le_combine_split_id 2 v) at 2 by lia. by apply read_as_ok, read_n_ok.
  - replace (U3 v) with (U3 (read_le24toh (le_split 3 v))) by (by rewrite read_le24toh_le). by apply read_as_ok, read_n_ok.
  - rewrite <-(le_combine_split_id 4 v) at 2 by lia. by apply read_as_ok, read_n_ok.
  - replace (U6 v) with (U6 (read_le48toh (le_split 6 v))) by (by rewrite read_le48toh_le). by apply read_as_ok, read_n_ok.
  - rewrite <-(le_combine_split_id 8 v) at 2 by lia. by apply read_as_ok, read_n_ok.
  - by apply (read_as_ok (fun r : Z * Z => Lenenc r.2) _ _ (zlen (lenenc v), v)), read_uint_ok.
  - unfold read_fixed_length_string. rewrite u32_id by (unfold is_u32; pose proof (zlen_nonneg t); lia). by apply (read_as_ok Fixed _ t t), read_n_ok.
  - apply (read_as_ok (fun r : Z * bytes => LenencStr r.2) _ _ (zlen (lenenc (zlen t)) + zlen t, t)), read_length_encoded_string_ok.
    unfold is_u32. pose proof (zlen_nonneg t). lia.
Qed.

Lemma encode_all_cons f fs : encode_all (f :: fs) = encode f ++ encode_all fs.
Proof. done. Qed.

Lemma write_all_ok alloc fs : (forall n, 0 <= n -> zlen (alloc n) = n) -> Forall field_ok fs -> forall s, buf_ok s ->
  write_index_ s + zlen (encode_all fs) <= max_capacity_ s -> runs (write_all alloc fs) s (fun _ s' => appended (encode_all fs) s s').
Proof.
  intros Ha. induction 1 as [|f fs Hf _ IH]; intros s Hs Hw; [by apply runs_ret, appended_nil|]. rewrite encode_all_cons, zlen_app in *.
  pose proof (zlen_nonneg (encode_all fs)). pose proof (bo_max _ Hs) as Hm. unfold io_size in Hm. cbn [write_all]. apply runs_bind.
  eapply runs_mono; [apply (write_field_ok alloc f Ha Hf s Hs); lia|]. intros r s1 H1. rewrite bool_decide_eq_true_2 in H1 by lia. destruct H1 as [_ H1].
  pose proof H1 as [Hok _ _ Hwi [Hmx _] _]. eapply runs_mono; [apply (IH s1 Hok); lia|]. intros [] s2 H2. by eapply appended_app.
Qed.

Lemma read_all_ok fs : Forall field_ok fs -> forall s rest, buf_ok s -> pending s = encode_all fs ++ rest ->
  runs (read_all fs) s (fun r s' => r = Some <$> fs /\ consumed (encode_all fs) s s').
Proof.
  induction 1 as [|f fs Hf _ IH]; intros s rest Hs Hp; [by apply runs_ret; split; [|apply consumed_nil]|].
  rewrite encode_all_cons, <-app_assoc in *. cbn [read_all]. apply runs_bind. eapply runs_mono; [by apply (read_field_ok f Hf s (encode_all fs ++ rest))|].
  intros r s1 [-> Hc]. apply runs_bind. eapply runs_mono; [apply (IH s1 rest); [by destruct Hc|]|].
  { destruct Hc as [_ E _ _]. rewrite E in Hp. by apply app_inv_head in Hp. }
  intros rs s2 [-> Hc2]. apply runs_ret. split; [done|]. by eapply consumed_app.
Qed.

(** C26: A packet that is written into the buffer is read back from it, field by field, and
    nothing else: however the buffer grows in between, as long as the packet fits its
    maximum. *)
Theorem packet_roundtrip alloc fs s :
  (forall n, 0 <= n -> zlen (alloc n) = n) -> Forall field_ok fs -> buf_ok s -> pending s = [] ->
  write_index_ s + zlen (encode_all fs) <= max_capacity_ s ->
  exists s1 s2, write_all alloc fs s = Done (tt, s1) /\ pending s1 = encode_all fs /\
    read_all fs s1 = Done (Some <$> fs, s2) /\ pending s2 = [] /\ buf_ok s2.
Proof.
  intros Ha Hfs Hs Hp Hw. pose proof (write_all_ok alloc fs Ha Hfs s Hs Hw) as H1. apply runs_done in H1 as ([] & s1 & E1 & [Hok1 Hp1 _ _ _ _]).
  rewrite Hp in Hp1. pose proof (read_all_ok fs Hfs s1 [] Hok1 ltac:(by rewrite app_nil_r)) as H2. apply runs_done in H2 as (r & s2 & E2 & -> & [Hok2 Hp2 _ _]).
  exists s1, s2. split; [done|]. split; [done|]. split; [done|]. split; [|done]. rewrite Hp1 in Hp2. cbn [app] in Hp2.
  rewrite <-(app_nil_r (encode_all fs)) in Hp2 at 1. by apply app_inv_head in Hp2.
Qed.

(** ** Any use of the buffer *)

Inductive packet_op := Write (f : field) | Read (f : field) | ReadBytes (n : Z) | ReadSkip (n : Z) | ReadString | ReadRemaining | Clear | Reset.

Definition run_op (alloc : Z -> bytes) (op : packet_op) : pbuf unit :=
  match op with
  | Write f => write_field alloc f;; mret tt
  | Read f => read_field f;; mret tt
  | ReadBytes n => read_bytes n;; mret tt
  | ReadSkip n => read_skip n;; mret tt
  | ReadString => read_null_terminated_string;; mret tt
  | ReadRemaining => read_remaining_bytes;; mret tt
  | Clear => fun s => Done (tt, clear s)
  | Reset => fun s => Done (tt, reset alloc s)
  end.
Fixpoint run_ops (alloc : Z -> bytes) (ops : list packet_op) : pbuf unit :=
  match ops with [] => mret tt | op :: ops => run_op alloc op;; run_ops alloc ops end.

(** Strings that are written are not so long that the 32-bit index wraps, and a string that is
    read up to its terminator has one in what was received. *)
Definition op_ok (op : packet_op) (s : PacketBuf) : Prop :=
  match op with
  | Write f => field_ok f /\ max_capacity_ s + zlen (encode f) < 2 ^ 32
  | ReadString => 0 ∈ pending s
  | _ => True
  end.
#[export] Instance op_ok_dec op s : Decision (op_ok op s).
Proof. destruct op; cbn; apply _. Defined.

(** So for each operation in the state that it runs in. *)
Fixpoint ops_ok (alloc : Z -> bytes) (ops : list packet_op) (s : PacketBuf) : Prop :=
  match ops with
  | [] => True
  | op :: ops => op_ok op s /\ match run_op alloc op s with Done (_, s') => ops_ok alloc ops s' | Crash => True end
  end.
#[export] Instance ops_ok_dec alloc ops s : Decision (ops_ok alloc ops s).
Proof. revert s. induction ops as [|op ops IH]; intros s; cbn; [apply _|]. apply and_dec; [apply _|]. destruct (run_op alloc op s) as [[_ s']|]; apply _. Defined.

Lemma read_safe {A} (m : pbuf (option A)) s : reads_safely m -> buf_ok s ->
  runs (m;; mret tt) s (fun _ s' => buf_ok s' /\ max_capacity_ s' = max_capacity_ s).
Proof.
  intros Hm Hs. apply runs_bind. eapply runs_mono; [by apply Hm|]. intros r s' (data & [Hok _ _ (_ & _ & _ & Hmx & _)] & _). by apply runs_ret.
Qed.

Lemma sized_safe {A} (m : pbuf (option (Z * A))) : reads_sized m -> reads_safely m.
Proof. intros Hm s Hs. eapply runs_mono; [by apply Hm|]. intros r s' (data & Hc & H). exists data. split; [done|]. by intros ->. Qed.

Lemma read_as_safe {A} (k : A -> field) m : reads_safely m -> reads_safely (read_as k m).
Proof.
  intros Hm s Hs. apply runs_bind. eapply runs_mono; [by apply Hm|]. intros r s' (data & Hc & H). apply runs_ret. exists data. split; [done|].
  destruct r; [done|]. intros _. by apply H.
Qed.

Lemma read_field_safe f : reads_safely (read_field f).
Proof.
  destruct f as [v|v|v|v|v|v|v|t|t]; cbn [read_field]; apply read_as_safe; try (by apply read_n_safe).
  - by apply sized_safe, read_uint_sized.
  - apply read_n_safe. apply u32_range.
  - by apply sized_safe, read_length_encoded_string_sized.
Qed.

Lemma read_remaining_ok s : buf_ok s -> runs read_remaining_bytes s (fun r s' => r = pending s /\ consumed (pending s) s s').
Proof.
  intros Hs. pose proof (take_bytes_ok (pending s) [] s Hs ltac:(by rewrite app_nil_r)) as H. unfold runs, take_bytes, read_remaining_bytes in *.
  rewrite readable_pending by done. destruct (heap_read _ _ _) as [d|]; [|done]. cbn [mbind outcome_bind] in *.
  destruct (buf_split s Hs) as (_ & _ & _ & _ & Hq & _). rewrite Hq in H. replace (read_index_ s + (write_index_ s - read_index_ s)) with (write_index_ s) in H by lia.
  rewrite u32_id in H; [done|]. destruct Hs as [_ ? Hm [? ?]]. unfold is_u32, io_size in *. lia.
Qed.

Lemma run_op_safe alloc op s : (forall n, 0 <= n -> zlen (alloc n) = n) -> buf_ok s -> op_ok op s ->
  runs (run_op alloc op) s (fun _ s' => buf_ok s' /\ max_capacity_ s' = max_capacity_ s).
Proof.
  intros Ha Hs Hop. destruct op as [f|f|n|n| | | |]; cbn [run_op].
  - destruct Hop as [Hf Hm]. apply runs_bind. eapply runs_mono; [apply (write_field_ok alloc f Ha Hf s Hs)|].
    { destruct Hs as [_ ? _ [? ?]]. lia. }
    intros r s' H. apply runs_ret. destruct (bool_decide _), H as [_ [Hok _ _ _ [Hmx _] _]]; done.
  - apply read_safe; [apply read_field_safe|done].
  - apply read_safe; [|done]. apply read_n_safe, u32_range.
  - apply read_safe; [|done]. apply read_n_safe, u32_range.
  - apply list_elem_of_split_l in Hop as (t & rest & Ep & Ht). apply runs_bind. eapply runs_mono; [by apply (read_null_terminated_string_ok t rest)|].
    intros r s' [_ [Hok _ _ (_ & _ & _ & Hmx & _)]]. by apply runs_ret.
  - apply runs_bind. eapply runs_mono; [by apply read_remaining_ok|]. intros r s' [_ [Hok _ _ (_ & _ & _ & Hmx & _)]]. by apply runs_ret.
  - unfold runs. split; [by apply clear_ok|done].
  - unfold runs. split; [by apply reset_buf_ok|]. unfold reset. by destruct (_ <? _).
Qed.

(** C27: The constraint on the indices and capacities that [packet_buf.h] states is kept by
    every sequence of writes, reads, clears and resets, and none of them touches memory
    outside the block, whatever is read or written, as long as each zero-terminated string
    that is read has its terminator in what was received (one without breaks the constraint:
    [unterminated_string_disables_checks]) and what is written does not wrap the 32-bit
    index. *)
Theorem packet_buf_invariant alloc ops s :
  (forall n, 0 <= n -> zlen (alloc n) = n) -> buf_ok s -> ops_ok alloc ops s ->
  exists s', run_ops alloc ops s = Done (tt, s') /\ buf_ok s' /\ max_capacity_ s' = max_capacity_ s.
Proof.
  intros Ha Hs Hops. revert s Hs Hops. induction ops as [|op ops IH]; intros s Hs Hops; [by exists s|].
  destruct Hops as [Hop Hops]. pose proof (run_op_safe alloc op s Ha Hs Hop) as H. apply runs_done in H as ([] & s1 & E & Hok & Hm).
  rewrite E in Hops. destruct (IH s1 Hok Hops) as (s' & E' & Hok' & Hm'). exists s'. split; [|split; [done|congruence]].
  cbn [run_ops]. unfold mbind, stateful_bind. by rewrite E.
Qed.

(** Reading a zero-terminated string is not checked: when the packet ends before the
    terminator, the string continues with bytes that were never received, the read index
    passes the write index, and from then on every length check succeeds. *)
Theorem unterminated_string_disables_checks s t s' :
  buf_ok s -> 0 ∉ pending s -> read_null_terminated_string s = Done (t, s') ->
  (pending s `prefix_of` t) /\ write_index_ s' < read_index_ s' /\
  forall n, 0 <= n <= 2 ^ 32 - (read_index_ s' - write_index_ s') -> is_readable_n n s' = true.
Proof.
  intros Hs Hz E. destruct (buf_split s Hs) as (pre & post & Eb & Hpre & Hq & Hpost). pose proof Hs as [H1 H2 H3 [H4 H5]].
  unfold read_null_terminated_string, until_zero in E. rewrite Eb, skip_app in E by done.
  destruct (decide (0 ∈ post)) as [Hin|Hn].
  2: { rewrite bool_decide_eq_false_2 in E by (rewrite elem_of_app; by intros [?|?]). done. }
  apply list_elem_of_split_l in Hin as (p1 & p2 & -> & Hp1).
  assert (0 ∉ pending s ++ p1) as Hn by (rewrite elem_of_app; by intros [?|?]).
  rewrite app_assoc, bool_decide_eq_true_2, cstr_terminated in E by (done || (apply elem_of_app; right; by left)). cbn [mbind outcome_bind] in E. apply Done_inj in E.
  injection E as <- <-. split; [by apply prefix_app_r|]. cbn. rewrite zlen_app, zlen_cons in Hpost. pose proof (zlen_nonneg p1). pose proof (zlen_nonneg p2).
  pose proof (zlen_nonneg (pending s)). rewrite (u32_id (zlen _ + 1)), u32_id by (unfold is_u32, io_size in *; rewrite zlen_app; lia). rewrite zlen_app.
  split; [lia|]. intros n Hb. unfold is_readable_n, readable_bytes. cbn. apply Z.leb_le. unfold u32.
  rewrite <-(Z.mod_unique_pos (write_index_ s - (read_index_ s + (zlen (pending s) + zlen p1 + 1))) (2 ^ 32) (-1)
    (2 ^ 32 + (write_index_ s - (read_index_ s + (zlen (pending s) + zlen p1 + 1))))); [lia|unfold io_size in *; lia|lia].
Qed.

(** ** Concrete instances *)

Definition zeroed (n : Z) : bytes := replicate (Z.to_nat n) 0.
Lemma zeroed_len n : 0 <= n -> zlen (zeroed n) = n.
Proof. intros. unfold zeroed. rewrite zlen_replicate. lia. Qed.

(** A buffer of four bytes that may grow to 8192, and a packet longer than that. *)
Definition p_buf : PacketBuf := new_packet_buf zeroed 4 8192.
Definition p_fields : list field := [U1 18; U4 4; U2 0; Lenenc 70000; LenencStr (str "mysql-bin.000001"); U8 (2 ^ 40); Fixed (replicate 300 7)].

Lemma packet_roundtrip_witness :
  exists s1 s2, write_all zeroed p_fields p_buf = Done (tt, s1) /\ pending s1 = encode_all p_fields /\
    read_all p_fields s1 = Done (Some <$> p_fields, s2) /\ pending s2 = [] /\ buf_ok s2.
Proof. apply (packet_roundtrip zeroed p_fields p_buf zeroed_len); [by_compute|by_compute|done|by_compute]. Defined.

Lemma packet_buf_invariant_witness :
  exists s', run_ops zeroed [Write (U4 7); Read (U8 0); Read (LenencStr []); ReadSkip 3; Write (LenencStr (str "abc")); Write (U1 0); ReadString; ReadRemaining; Reset] p_buf = Done (tt, s') /\
    buf_ok s' /\ max_capacity_ s' = 8192.
Proof. apply (packet_buf_invariant zeroed _ p_buf zeroed_len); by_compute. Defined.

(** A handshake response cut off in the user name, in a buffer that held a longer packet. *)
Definition p_stale : PacketBuf := mkPacketBuf (str "rootsecret" ++ [0] ++ zeroed 5) 16 16 64 0 4 [].
Lemma unterminated_string_disables_checks_witness :
  exists t s', read_null_terminated_string p_stale = Done (t, s') /\ (pending p_stale `prefix_of` t) /\ write_index_ s' < read_index_ s' /\
    forall n, 0 <= n <= 2 ^ 32 - (read_index_ s' - write_index_ s') -> is_readable_n n s' = true.
Proof.
  eexists _, _. split; [vm_compute; reflexivity|].
  apply (unterminated_string_disables_checks p_stale); [by_compute|by_compute|vm_compute; reflexivity].
Defined.
