(* ===== verification/Sha1.v ===== *)
(** * Sha1: the hash of the password exchange

    [src/src/obaccess/ob_sha1.{h,cpp}].  Words are 32-bit, the message length 64-bit.  The
    class hashes a message that comes in pieces; the reference is the standard's definition
    on the whole message, written from FIPS 180-4 without the definitions of the class. *)

From S2P Require Import Prelude Bytes.

#[local] Open Scope Z_scope.

(** ** The class *)

Definition SHA1_HASH_SIZE : Z := 20.
Inductive ResultCode := SHA_SUCCESS | SHA_NULL | SHA_INPUT_TOO_LONG | SHA_STATE_ERROR.
#[export] Instance ResultCode_eq_dec : EqDecision ResultCode.
Proof. solve_decision. Defined.

Record words := mkWords { h0 : Z; h1 : Z; h2 : Z; h3 : Z; h4 : Z }.

Record SHA1 := mkSHA1 {
  _length : Z;
  _intermediate_hash : words;
  _computed : bool;
  _corrupted : ResultCode;
  _message_block_index : Z;
  _message_block : bytes
}.

Definition sha_const_key : words := mkWords 0x67452301 0xEFCDAB89 0x98BADCFE 0x10325476 0xC3D2E1F0.
Definition SHA1CircularShift (bits word : Z) : Z := Z.lor (u32 (Z.shiftl word bits)) (Z.shiftr word (32 - bits)).

(** The first 16 words, then the words that follow from them. *)
Definition block_word (b : bytes) (t : nat) : Z :=
  let at_ i := nth (4 * t + i) b 0 in
  let w := u32 (Z.shiftl (at_ 0%nat) 24) in
  let w := u32 (Z.lor w (Z.shiftl (at_ 1%nat) 16)) in
  let w := u32 (Z.lor w (Z.shiftl (at_ 2%nat) 8)) in
  u32 (Z.lor w (at_ 3%nat)).
Fixpoint fill_words (n : nat) (W : list Z) : list Z :=
  match n with
  | O => W
  | S n =>
      let t := length W in
      let w i := nth (t - i) W 0 in
      fill_words n (W ++ [SHA1CircularShift 1 (Z.lxor (Z.lxor (Z.lxor (w 3%nat) (w 8%nat)) (w 14%nat)) (w 16%nat))])
  end.
Definition message_words (b : bytes) : list Z := fill_words 64 (block_word b <$> seq 0 16).

(** One turn of a loop, with the function and the constant of that loop. *)
Definition turn (f : Z -> Z -> Z -> Z) (k : Z) (W : list Z) (v : words) (t : nat) : words :=
  let temp := u32 (SHA1CircularShift 5 (h0 v) + f (h1 v) (h2 v) (h3 v) + h4 v + nth t W 0 + k) in
  mkWords temp (h0 v) (SHA1CircularShift 30 (h1 v)) (h2 v) (h3 v).

Definition choose (B C D : Z) : Z := Z.lor (Z.land B C) (Z.land (u32 (Z.lnot B)) D).
Definition parity (B C D : Z) : Z := Z.lxor (Z.lxor B C) D.
Definition majority (B C D : Z) : Z := Z.lor (Z.lor (Z.land B C) (Z.land B D)) (Z.land C D).

Definition process_block (hash : words) (block : bytes) : words :=
  let W := message_words block in
  let v := fold_left (turn choose 0x5A827999 W) (seq 0 20) hash in
  let v := fold_left (turn parity 0x6ED9EBA1 W) (seq 20 20) v in
  let v := fold_left (turn majority 0x8F1BBCDC W) (seq 40 20) v in
  let v := fold_left (turn parity 0xCA62C1D6 W) (seq 60 20) v in
  mkWords (u32 (h0 hash + h0 v)) (u32 (h1 hash + h1 v)) (u32 (h2 hash + h2 v)) (u32 (h3 hash + h3 v)) (u32 (h4 hash + h4 v)).

Definition process_message_block (s : SHA1) : SHA1 :=
  mkSHA1 (_length s) (process_block (_intermediate_hash s) (_message_block s)) (_computed s) (_corrupted s) 0 (_message_block s).

Definition with_block (b : bytes) (i : Z) (s : SHA1) : SHA1 :=
  mkSHA1 (_length s) (_intermediate_hash s) (_computed s) (_corrupted s) i b.

Definition pad_message (s : SHA1) : SHA1 :=
  let i := _message_block_index s in
  let s :=
    if i >? 55 then
      let b := overwrite i [0x80] (_message_block s) in
      let b := overwrite (i + 1) (replicate (Z.to_nat (64 - (i + 1))) 0) b in
      let s := process_message_block (with_block b 64 s) in
      with_block (overwrite 0 (replicate 56 0) (_message_block s)) 56 s
    else
      let b := overwrite i [0x80] (_message_block s) in
      let b := overwrite (i + 1) (replicate (Z.to_nat (56 - (i + 1))) 0) b in
      with_block b 56 s in
  let len := _length s in
  let tail := [u8 (Z.shiftr len 56); u8 (Z.shiftr len 48); u8 (Z.shiftr len 40); u8 (Z.shiftr len 32);
               u8 (Z.shiftr len 24); u8 (Z.shiftr len 16); u8 (Z.shiftr len 8); u8 len] in
  process_message_block (with_block (overwrite 56 tail (_message_block s)) (_message_block_index s) s).

(** [memory]: what the block holds before anything is written to it. *)
Definition new_SHA1 (memory : bytes) : SHA1 := mkSHA1 0 sha_const_key false SHA_SUCCESS 0 memory.
Definition reset (s : SHA1) : SHA1 := mkSHA1 0 sha_const_key false SHA_SUCCESS 0 (_message_block s).

Definition digest_byte (h : words) (i : nat) : Z :=
  let w := nth (i / 4) [h0 h; h1 h; h2 h; h3 h; h4 h] 0 in u8 (Z.shiftr w (8 * (3 - Z.of_nat (i mod 4)))).
Definition get_result (s : SHA1) : bytes * SHA1 :=
  let s :=
    if _computed s then s
    else
      let s := pad_message s in
      mkSHA1 0 (_intermediate_hash s) true (_corrupted s) (_message_block_index s) (replicate 64 0) in
  (digest_byte (_intermediate_hash s) <$> seq 0 20, s).

Fixpoint input_loop (message : bytes) (s : SHA1) : ResultCode * SHA1 :=
  match message with
  | [] => (SHA_SUCCESS, s)
  | c :: message =>
      let s := mkSHA1 (u64 (_length s + 8)) (_intermediate_hash s) (_computed s) (_corrupted s) (_message_block_index s + 1)
                 (overwrite (_message_block_index s) [c] (_message_block s)) in
      if _length s =? 0 then
        (SHA_INPUT_TOO_LONG, mkSHA1 (_length s) (_intermediate_hash s) (_computed s) SHA_INPUT_TOO_LONG (_message_block_index s) (_message_block s))
      else input_loop message (if _message_block_index s =? 64 then process_message_block s else s)
  end.
Definition input (message : bytes) (s : SHA1) : ResultCode * SHA1 :=
  match message with
  | [] => (SHA_SUCCESS, s)
  | _ =>
      if _computed s then
        (SHA_STATE_ERROR, mkSHA1 (_length s) (_intermediate_hash s) (_computed s) SHA_STATE_ERROR (_message_block_index s) (_message_block s))
      else if decide (_corrupted s = SHA_SUCCESS) then input_loop message s
      else (_corrupted s, s)
  end.

(** A message in one piece. *)
Definition sha1_of (memory message : bytes) : bytes := (get_result (input message (new_SHA1 memory)).2).1.


Example sha1_abc :
  sha1_of (replicate 64 7) (str "abc") =
  [0xA9; 0x99; 0x3E; 0x36; 0x47; 0x06; 0x81; 0x6A; 0xBA; 0x3E; 0x25; 0x71; 0x78; 0x50; 0xC2; 0x6C; 0x9C; 0xD0; 0xD8; 0x9D].
Proof. vm_compute. reflexivity. Qed.

(** ** The standard *)

(** FIPS 180-4.  2.2.2, 3.2: addition and rotation of 32-bit words. *)
Definition add32 (x y : Z) : Z := (x + y) `mod` 2 ^ 32.
Definition ROTL (n x : Z) : Z := Z.lor (Z.land (Z.shiftl x n) (Z.ones 32)) (Z.shiftr x (32 - n)).

(** 4.1.1, 4.2.1: the functions and constants by step. *)
Definition Ch (x y z : Z) : Z := Z.lxor (Z.land x y) (Z.land (Z.lnot x) z).
Definition Parity (x y z : Z) : Z := Z.lxor x (Z.lxor y z).
Definition Maj (x y z : Z) : Z := Z.lxor (Z.land x y) (Z.lxor (Z.land x z) (Z.land y z)).
Definition f_t (t : nat) : Z -> Z -> Z -> Z :=
  if decide (t < 20)%nat then Ch else if decide (t < 40)%nat then Parity else if decide (t < 60)%nat then Maj else Parity.
Definition K_t (t : nat) : Z :=
  if decide (t < 20)%nat then 0x5A827999 else if decide (t < 40)%nat then 0x6ED9EBA1 else if decide (t < 60)%nat then 0x8F1BBCDC else 0xCA62C1D6.

(** 5.2.1, 6.1.2 step 1: the words of a block, the most significant byte first, and the
    message schedule; the words are listed from the last to the first. *)
Definition M_t (block : bytes) (t : nat) : Z :=
  Z.land (fold_left (fun x j => Z.lor (Z.shiftl x 8) (nth (4 * t + j) block 0)) (seq 0 4) 0) (Z.ones 32).
Fixpoint schedule_from (n : nat) (w : list Z) : list Z :=
  match n with
  | O => w
  | S n => schedule_from n (ROTL 1 (Z.lxor (nth 2 w 0) (Z.lxor (nth 7 w 0) (Z.lxor (nth 13 w 0) (nth 15 w 0)))) :: w)
  end.
Definition schedule (block : bytes) : list Z := rev (schedule_from 64 (rev (M_t block <$> seq 0 16))).

(** Steps 2 to 4: 80 turns on the working variables, added to the hash value. *)
Definition hash_value : Type := Z * Z * Z * Z * Z.
Definition step (v : hash_value) (tw : nat * Z) : hash_value :=
  let '(a, b, c, d, e) := v in
  let '(t, w) := tw in
  (add32 (add32 (add32 (add32 (ROTL 5 a) (f_t t b c d)) e) (K_t t)) w, a, ROTL 30 b, c, d).
Definition compress (h : hash_value) (block : bytes) : hash_value :=
  let '(a, b, c, d, e) := fold_left step (zip (seq 0 80) (schedule block)) h in
  let '(h0, h1, h2, h3, h4) := h in
  (add32 a h0, add32 b h1, add32 c h2, add32 d h3, add32 e h4).

(** 5.3.1 *)
Definition H_0 : hash_value := (0x67452301, 0xefcdab89, 0x98badcfe, 0x10325476, 0xc3d2e1f0).

(** 5.1.1: a one, zeros, and the length in bits, up to a whole number of blocks. *)
Definition padding (n : Z) : bytes := 0x80 :: replicate (Z.to_nat ((55 - n) `mod` 64)) 0 ++ be_split 8 (8 * n).

Fixpoint chunks (n : nat) (l : bytes) : list bytes :=
  match n with O => [] | S n => first 64 l :: chunks n (skip 64 l) end.
Definition blocks (l : bytes) : list bytes := chunks (Z.to_nat (zlen l / 64)) l.

Definition sha1 (message : bytes) : bytes :=
  let '(a, b, c, d, e) := fold_left compress (blocks (message ++ padding (zlen message))) H_0 in
  be_split 4 a ++ be_split 4 b ++ be_split 4 c ++ be_split 4 d ++ be_split 4 e.

(** The examples of the standard: one block, and two. *)
Example sha1_one_block : sha1 (str "abc") = be_split 20 0xA9993E364706816ABA3E25717850C26C9CD0D89D.
Proof. vm_compute. reflexivity. Qed.
Example sha1_two_blocks : sha1 (str "abcdbcdecdefdefgefghfghighijhijkijkljklmklmnlmnomnopnopq") = be_split 20 0x84983E441C3BD26EBAAE4AA1F95129E5E54670F1.
Proof. vm_compute. reflexivity. Qed.

(** ** The class computes the standard *)

Lemma land_word x : Z.land x (Z.ones 32) = u32 x.
Proof. by rewrite Z.land_ones by lia. Qed.

Lemma shift_ROTL n x : SHA1CircularShift n x = ROTL n x.
Proof. unfold SHA1CircularShift, ROTL. by rewrite land_word. Qed.

(** In the sum only the low 32 bits count, and those above are those of [~B] as a word. *)
Lemma choose_Ch x y z : u32 (choose x y z) = u32 (Ch x y z).
Proof.
  apply Z.bits_inj'. intros i Hi. unfold choose, Ch, u32. destruct (Z.ltb_spec i 32); [|by rewrite !Z.mod_pow2_bits_high by lia].
  rewrite !Z.mod_pow2_bits_low, Z.lor_spec, Z.lxor_spec, !Z.land_spec, Z.mod_pow2_bits_low, Z.lnot_spec by lia.
  by destruct (Z.testbit x i), (Z.testbit y i), (Z.testbit z i).
Qed.

Lemma parity_Parity x y z : parity x y z = Parity x y z.
Proof. apply Z.lxor_assoc. Qed.

Lemma majority_Maj x y z : majority x y z = Maj x y z.
Proof.
  apply Z.bits_inj'. intros i Hi. unfold majority, Maj. rewrite !Z.lor_spec, !Z.lxor_spec, !Z.land_spec.
  by destruct (Z.testbit x i), (Z.testbit y i), (Z.testbit z i).
Qed.

Lemma block_word_M b t : block_word b t = M_t b t.
Proof.
  unfold M_t. cbn [seq fold_left]. rewrite land_word. unfold block_word. cbv zeta.
  generalize (nth (4 * t + 0) b 0) (nth (4 * t + 1) b 0) (nth (4 * t + 2) b 0) (nth (4 * t + 3) b 0). intros a0 a1 a2 a3.
  rewrite !Z.shiftl_lor, !Z.shiftl_shiftl, Z.shiftl_0_l, Z.lor_0_l by lia. apply Z.bits_inj'. intros i Hi. unfold u32.
  destruct (Z.ltb_spec i 32); [|by rewrite !Z.mod_pow2_bits_high by lia]. by repeat ((rewrite Z.mod_pow2_bits_low by lia) || rewrite Z.lor_spec).
Qed.

Lemma fill_extend n : forall W, (16 <= length W)%nat -> fill_words n W = rev (schedule_from n (rev W)).
Proof.
  induction n as [|n IH]; intros W HW; [cbn; by rewrite rev_involutive|]. cbn [fill_words schedule_from].
  assert (forall i, (1 <= i <= 16)%nat -> nth (length W - i) W 0 = nth (i - 1) (rev W) 0) as Hn.
  { intros i Hi. rewrite rev_nth by lia. f_equal. lia. }
  rewrite !Hn, shift_ROTL, !Z.lxor_assoc by lia. rewrite IH by (rewrite length_app; cbn; lia). by rewrite rev_app_distr.
Qed.

Lemma message_words_schedule b : message_words b = schedule b.
Proof.
  unfold message_words, schedule. rewrite fill_extend by (by rewrite length_fmap, length_seq).
  rewrite (list_fmap_ext (block_word b) (M_t b)); [done|]. intros. apply block_word_M.
Qed.

Definition words_of (h : words) : hash_value := (h0 h, h1 h, h2 h, h3 h, h4 h).

Lemma turn_step f t W v : (forall x y z, u32 (f x y z) = u32 (f_t t x y z)) -> words_of (turn f (K_t t) W v t) = step (words_of v) (t, nth t W 0).
Proof.
  intros Hf. unfold turn, step, words_of, add32. cbn [h0 h1 h2 h3 h4]. do 4 f_equal; [|apply shift_ROTL].
  rewrite shift_ROTL. specialize (Hf (h1 v) (h2 v) (h3 v)). unfold u32 in *. rewrite !Z.add_mod_idemp_l by lia.
  rewrite (Z.add_comm (ROTL 5 (h0 v)) (f _ _ _)), (Z.add_comm (ROTL 5 (h0 v)) (f_t _ _ _ _)). rewrite <-!Z.add_assoc.
  rewrite <-(Z.add_mod_idemp_l (f _ _ _)), Hf, !Z.add_mod_idemp_l by lia. f_equal. lia.
Qed.

(** The turns of one of the four loops are steps. *)
Lemma loop_steps f k W n : forall from v, (forall t, (from <= t < from + n)%nat -> K_t t = k /\ forall x y z, u32 (f x y z) = u32 (f_t t x y z)) ->
  (from + n <= length W)%nat ->
  words_of (fold_left (turn f k W) (seq from n) v) = fold_left step (zip (seq from n) (drop from W)) (words_of v).
Proof.
  induction n as [|n IH]; intros from v H HW; [done|]. destruct (H from ltac:(lia)) as [Ek Ef]. cbn [seq fold_left].
  destruct (drop from W) as [|w W'] eqn:Ed; [apply (f_equal length) in Ed; rewrite length_drop in Ed; cbn in Ed; lia|].
  assert (W' = drop (S from) W) as -> by (rewrite <-Nat.add_1_r, <-drop_drop, Ed; done).
  cbn [zip zip_with fold_left]. rewrite IH by (try lia; intros; apply H; lia). f_equal. rewrite <-Ek, turn_step by done. do 2 f_equal.
  rewrite <-(take_drop from W), Ed, app_nth2 by (rewrite length_take; lia). rewrite length_take. by replace (from - from `min` length W)%nat with O by lia.
Qed.

Lemma length_schedule b : length (schedule b) = 80%nat.
Proof.
  unfold schedule. rewrite length_rev. assert (forall n w, length (schedule_from n w) = (n + length w)%nat) as H.
  { induction n as [|n IH]; intros w; [done|]. cbn [schedule_from]. rewrite IH. cbn. lia. }
  rewrite H, length_rev, length_fmap, length_seq. done.
Qed.

Lemma process_block_compress hash block : words_of (process_block hash block) = compress (words_of hash) block.
Proof.
  unfold process_block, compress. rewrite message_words_schedule. pose proof (length_schedule block) as Hl. set (W := schedule block) in *. cbv zeta.
  assert (zip (seq 0 80) W = zip (seq 0 20) (drop 0 W) ++ zip (seq 20 20) (drop 20 W) ++ zip (seq 40 20) (drop 40 W) ++ zip (seq 60 20) (drop 60 W)) as ->.
  { do 80 (destruct W as [|? W]; [done|]). by destruct W. }
  rewrite !fold_left_app.
  rewrite <-(loop_steps choose 0x5A827999 W 20 0 hash); [|intros t Ht; unfold K_t, f_t; rewrite !decide_True by lia; split; [done|apply choose_Ch]|lia].
  rewrite <-(loop_steps parity 0x6ED9EBA1 W 20 20); [|intros t Ht; unfold K_t, f_t; rewrite !(decide_False (P := (t < 20)%nat)), !decide_True by lia; split; [done|intros; by rewrite parity_Parity]|lia].
  rewrite <-(loop_steps majority 0x8F1BBCDC W 20 40); [|intros t Ht; unfold K_t, f_t; rewrite !(decide_False (P := (t < 20)%nat)), !(decide_False (P := (t < 40)%nat)), !decide_True by lia; split; [done|intros; by rewrite majority_Maj]|lia].
  rewrite <-(loop_steps parity 0xCA62C1D6 W 20 60); [|intros t Ht; unfold K_t, f_t; rewrite !decide_False by lia; split; [done|intros; by rewrite parity_Parity]|lia].
  unfold words_of, add32, u32. cbn [h0 h1 h2 h3 h4]. by rewrite !(Z.add_comm (_ hash)).
Qed.

Lemma process_message_hash s : words_of (_intermediate_hash (process_message_block s)) = compress (words_of (_intermediate_hash s)) (_message_block s).
Proof. apply process_block_compress. Qed.

#[local] Opaque compress process_block.

Lemma chunks_join bs rest : Forall (fun b => zlen b = 64) bs -> chunks (length bs) (mjoin bs ++ rest) = bs.
Proof.
  induction 1 as [|b bs Hb _ IH]; [done|]. cbn [length chunks]. rewrite join_cons, <-app_assoc, first_app, skip_app by done. by rewrite IH.
Qed.

Lemma zlen_blocks bs : Forall (fun b : bytes => zlen b = 64) bs -> zlen (mjoin bs) = 64 * zlen bs.
Proof. induction 1 as [|b bs Hb _ IH]; [done|]. rewrite join_cons, zlen_app, zlen_cons, IH, Hb. lia. Qed.

Lemma blocks_join bs : Forall (fun b => zlen b = 64) bs -> blocks (mjoin bs) = bs.
Proof.
  intros H. unfold blocks. rewrite zlen_blocks by done. rewrite Z.mul_comm, Z.div_mul, to_nat_zlen by lia.
  rewrite <-(app_nil_r (mjoin bs)). by apply chunks_join.
Qed.

(** What the object has seen: whole blocks, hashed, and a tail in its block. *)
Record absorbed (s : SHA1) (message : bytes) : Prop := {
  ab_parts : exists bs tail, message = mjoin bs ++ tail /\ Forall (fun b => zlen b = 64) bs /\ zlen tail = _message_block_index s /\
    words_of (_intermediate_hash s) = fold_left compress bs H_0 /\ first (_message_block_index s) (_message_block s) = tail;
  ab_index : 0 <= _message_block_index s < 64;
  ab_block : zlen (_message_block s) = 64;
  ab_length : _length s = 8 * zlen message;
  ab_state : _computed s = false /\ _corrupted s = SHA_SUCCESS
}.

Lemma absorbed_new memory : zlen memory = 64 -> absorbed (new_SHA1 memory) [].
Proof. intros Hm. split; try done. by exists [], []. Qed.

Lemma first_overwrite_snoc (b : bytes) i c : 0 <= i < zlen b -> first (i + 1) (overwrite i [c] b) = first i b ++ [c].
Proof.
  intros Hi. unfold overwrite. rewrite app_assoc. apply first_app. rewrite zlen_app, zlen_first by lia. done.
Qed.

Lemma input_loop_ok piece : forall s message, absorbed s message -> 8 * (zlen message + zlen piece) < 2 ^ 64 ->
  exists s', input_loop piece s = (SHA_SUCCESS, s') /\ absorbed s' (message ++ piece).
Proof.
  induction piece as [|c piece IH]; intros s message Hs Hl; [exists s; by rewrite app_nil_r|]. cbn [input_loop].
  pose proof Hs as [(bs & tail & -> & Hbs & Ht & Hh & Hf) Hi Hb Hlen [Hc Hk]]. rewrite zlen_cons in Hl. set (message := mjoin bs ++ tail) in *.
  pose proof (zlen_nonneg message). pose proof (zlen_nonneg piece). rewrite u64_id by (unfold is_u64; lia). cbn [_length].
  destruct (Z.eqb_spec (_length s + 8) 0); [lia|]. cbn [_message_block_index].
  replace (message ++ c :: piece) with ((message ++ [c]) ++ piece) by (by rewrite <-app_assoc).
  apply IH; [|rewrite zlen_app; change (zlen [c]) with 1; lia].
  assert (zlen (overwrite (_message_block_index s) [c] (_message_block s)) = 64) as Hz by (rewrite zlen_overwrite; change (zlen [c]) with 1; lia).
  pose proof (first_overwrite_snoc (_message_block s) (_message_block_index s) c ltac:(lia)) as Hsn. rewrite Hf in Hsn.
  destruct (Z.eqb_spec (_message_block_index s + 1) 64) as [E|E].
  - split; cbn [process_message_block _length _intermediate_hash _message_block _message_block_index _computed _corrupted];
      [|lia|done|rewrite zlen_app; change (zlen [c]) with 1; lia|done]. exists (bs ++ [tail ++ [c]]), [].
    unfold message. rewrite join_app. cbn [mjoin list_join]. rewrite !app_nil_r, <-app_assoc. split; [done|].
    split; [apply Forall_app; split; [done|]; apply Forall_singleton; rewrite zlen_app; change (zlen [c]) with 1; lia|]. split; [done|]. split; [|done].
    rewrite process_block_compress, fold_left_app, Hh. cbn [fold_left]. f_equal. rewrite E in Hsn. by rewrite first_ge in Hsn by lia.
  - split; cbn [_length _intermediate_hash _message_block _message_block_index _computed _corrupted];
      [|lia|done|rewrite zlen_app; change (zlen [c]) with 1; lia|done]. exists bs, (tail ++ [c]). unfold message. rewrite <-app_assoc.
    split; [done|]. split; [done|]. split; [rewrite zlen_app; change (zlen [c]) with 1; lia|]. done.
Qed.

Lemma length_bytes z : [u8 (Z.shiftr z 56); u8 (Z.shiftr z 48); u8 (Z.shiftr z 40); u8 (Z.shiftr z 32);
  u8 (Z.shiftr z 24); u8 (Z.shiftr z 16); u8 (Z.shiftr z 8); u8 z] = be_split 8 z.
Proof. solve_store. Qed.

Lemma digest_split h : digest_byte h <$> seq 0 20 = be_split 4 (h0 h) ++ be_split 4 (h1 h) ++ be_split 4 (h2 h) ++ be_split 4 (h3 h) ++ be_split 4 (h4 h).
Proof.
  assert (forall w, [u8 (Z.shiftr w 24); u8 (Z.shiftr w 16); u8 (Z.shiftr w 8); u8 w] = be_split 4 w) as H by (intros w; solve_store).
  rewrite <-!H. reflexivity.
Qed.

(** Writing right behind what is known of a block, up to its end or not. *)
Lemma overwrite_known (l a new : bytes) off :
  first off l = a -> zlen a = off -> off + zlen new <= zlen l ->
  zlen (overwrite off new l) = zlen l /\ first (off + zlen new) (overwrite off new l) = a ++ new.
Proof.
  intros Ha Hz Hle. pose proof (zlen_nonneg a). split; [by apply zlen_overwrite; [lia|]|]. unfold overwrite. rewrite Ha, app_assoc.
  apply first_app. rewrite zlen_app. lia.
Qed.

(** The last one or two blocks. *)
Lemma pad_blocks s message : absorbed s message -> 8 * zlen message < 2 ^ 64 ->
  exists bs, message ++ padding (zlen message) = mjoin bs /\ Forall (fun b => zlen b = 64) bs /\
    words_of (_intermediate_hash (pad_message s)) = fold_left compress bs H_0.
Proof.
  intros [(bs & tail & -> & Hbs & Ht & Hh & Hf) Hi Hb Hlen _] Hl. set (i := _message_block_index s) in *. set (n := zlen (mjoin bs ++ tail)) in *.
  assert (n = 64 * zlen bs + i) as Hn by (unfold n; rewrite zlen_app, zlen_blocks; [lia|done]).
  destruct (overwrite_known (_message_block s) tail [0x80] i Hf Ht ltac:(change (zlen [0x80]) with 1; lia)) as [Hz1 Hf1].
  change (zlen [0x80]) with 1 in Hf1. unfold pad_message. fold i. rewrite Z.gtb_ltb. set (c1 := overwrite i [0x80] _) in *.
  assert (zlen (tail ++ [0x80]) = i + 1) as Ht1 by (rewrite zlen_app; change (zlen [0x80]) with 1; lia).
  assert (forall k, Z.of_nat k <= 63 - i -> zlen (overwrite (i + 1) (replicate k 0) c1) = 64 /\
    first (i + 1 + Z.of_nat k) (overwrite (i + 1) (replicate k 0) c1) = (tail ++ [0x80]) ++ replicate k 0) as Hk.
  { intros k Hk. destruct (overwrite_known c1 _ (replicate k 0) (i + 1) Hf1 Ht1) as [E1 E2]; [rewrite zlen_replicate; lia|].
    rewrite zlen_replicate in E2. split; [lia|done]. }
  destruct (Z.ltb_spec 55 i) as [H55|H55].
  - destruct (Hk (Z.to_nat (64 - (i + 1))) ltac:(lia)) as [Hz2 Hf2]. rewrite first_ge in Hf2 by lia. rewrite Hf2 in *. clear Hf2.
    set (b1 := (tail ++ [0x80]) ++ replicate _ 0) in *. set (b2 := replicate 56 0 ++ be_split 8 (8 * n)).
    exists (bs ++ [b1; b2]). split; [|split].
    + rewrite join_app. cbn [mjoin list_join]. rewrite app_nil_r, <-app_assoc. f_equal. unfold b1, b2, padding. rewrite <-!app_assoc. cbn [app]. do 2 f_equal.
      rewrite app_assoc, <-replicate_add. do 2 f_equal. rewrite Hn. replace (55 - (64 * zlen bs + i)) with (119 - i + (- zlen bs - 1) * 64) by lia.
      rewrite Z.mod_add, Z.mod_small by lia. lia.
    + apply Forall_app. split; [done|]. apply Forall_cons. split; [done|]. apply Forall_singleton. unfold b2. by rewrite zlen_app, zlen_be_split.
    + rewrite fold_left_app. cbn [fold_left]. rewrite <-Hh, process_message_hash. cbn [with_block _intermediate_hash _message_block].
      rewrite process_message_hash. cbn [process_message_block with_block _intermediate_hash _message_block _message_block_index _length].
      rewrite length_bytes, Hlen. refine (f_equal (compress (compress (words_of (_intermediate_hash s)) b1)) _).
      destruct (overwrite_known b1 [] (replicate 56 0) 0) as [Hz3 Hf3]; [done|done|rewrite zlen_replicate; lia|]. rewrite zlen_replicate in Hf3.
      destruct (overwrite_known _ _ (be_split 8 (8 * n)) 56 Hf3) as [Hz4 Hf4]; [done|rewrite zlen_be_split; lia|].
      rewrite first_ge in Hf4 by (rewrite zlen_be_split; lia). exact Hf4.
  - destruct (Hk (Z.to_nat (56 - (i + 1))) ltac:(lia)) as [Hz2 Hf2]. replace (i + 1 + Z.of_nat (Z.to_nat (56 - (i + 1)))) with 56 in Hf2 by lia.
    set (c2 := overwrite (i + 1) _ c1) in *.
    destruct (overwrite_known c2 _ (be_split 8 (8 * n)) 56 Hf2) as [Hz3 Hf3]; [rewrite zlen_app, zlen_replicate; lia|rewrite zlen_be_split; lia|].
    rewrite first_ge in Hf3 by (rewrite zlen_be_split; lia). set (b1 := _ ++ be_split _ _) in Hf3. exists (bs ++ [b1]). split; [|split].
    + rewrite join_app. cbn [mjoin list_join]. rewrite app_nil_r, <-app_assoc. f_equal. unfold b1, padding. rewrite <-!app_assoc. cbn [app]. do 4 f_equal.
      rewrite Hn. replace (55 - (64 * zlen bs + i)) with (55 - i + (- zlen bs) * 64) by lia. rewrite Z.mod_add, Z.mod_small by lia. lia.
    + apply Forall_app. split; [done|]. apply Forall_singleton. rewrite <-Hf3. lia.
    + rewrite fold_left_app. cbn [fold_left]. rewrite <-Hh, process_message_hash, <-Hf3. cbn [with_block _intermediate_hash _message_block _message_block_index _length].
      by rewrite length_bytes, Hlen.
Qed.

Fixpoint input_all (pieces : list bytes) (s : SHA1) : list ResultCode * SHA1 :=
  match pieces with
  | [] => ([], s)
  | p :: pieces => let '(r, s) := input p s in let '(rs, s) := input_all pieces s in (r :: rs, s)
  end.

Lemma input_ok p s message : absorbed s message -> 8 * (zlen message + zlen p) < 2 ^ 64 ->
  exists s', input p s = (SHA_SUCCESS, s') /\ absorbed s' (message ++ p).
Proof.
  intros Hs Hl. unfold input. destruct p as [|c p]; [exists s; by rewrite app_nil_r|]. destruct (ab_state _ _ Hs) as [-> ->].
  rewrite decide_True by done. by apply input_loop_ok.
Qed.

Lemma input_all_ok pieces : forall s message, absorbed s message -> 8 * (zlen message + zlen (mjoin pieces)) < 2 ^ 64 ->
  exists s', input_all pieces s = (replicate (length pieces) SHA_SUCCESS, s') /\ absorbed s' (message ++ mjoin pieces).
Proof.
  induction pieces as [|p pieces IH]; intros s message Hs Hl; [exists s; by rewrite app_nil_r|]. rewrite join_cons, zlen_app in *.
  pose proof (zlen_nonneg (mjoin pieces)). destruct (input_ok p s message Hs) as (s1 & E1 & H1); [lia|].
  destruct (IH s1 (message ++ p) H1) as (s2 & E2 & H2); [rewrite zlen_app; lia|]. exists s2. cbn [input_all length replicate]. rewrite E1, E2. split; [done|].
  by rewrite app_assoc.
Qed.

Lemma get_result_ok s message : absorbed s message -> 8 * zlen message < 2 ^ 64 -> (get_result s).1 = sha1 message.
Proof.
  intros Hs Hl. destruct (pad_blocks s message Hs Hl) as (bs & E & Hbs & Hh). unfold get_result, sha1. destruct (ab_state _ _ Hs) as [-> _]. cbn [fst _intermediate_hash].
  rewrite E, blocks_join, <-Hh by done. cbn [words_of]. apply digest_split.
Qed.

(** After [reset] the object can be used again. *)
Lemma reset_absorbed s message : absorbed s message -> absorbed (reset (get_result s).2) [].
Proof.
  intros Hs. unfold get_result. destruct (ab_state _ _ Hs) as [-> _]. cbn [snd reset _message_block].
  split; [by exists [], []|cbn; lia|reflexivity|reflexivity|done].
Qed.

(** C24: The class computes SHA-1: for a message of less than [2^61] bytes that comes in any
    pieces, every [input] succeeds and the digest is that of the standard, whatever the
    block held before.  The standard is [sha1], which has its own schedule, functions,
    constants and padding and is checked on the examples of FIPS 180. *)
Theorem sha1_streaming memory pieces :
  zlen memory = 64 -> 8 * zlen (mjoin pieces) < 2 ^ 64 ->
  exists s, input_all pieces (new_SHA1 memory) = (replicate (length pieces) SHA_SUCCESS, s) /\ (get_result s).1 = sha1 (mjoin pieces).
Proof.
  intros Hm Hl. destruct (input_all_ok pieces (new_SHA1 memory) [] (absorbed_new _ Hm) Hl) as (s & E & Hs). exists s. split; [done|]. by apply get_result_ok.
Qed.

Lemma sha1_of_ok memory message : zlen memory = 64 -> 8 * zlen message < 2 ^ 64 -> sha1_of memory message = sha1 message.
Proof.
  intros Hm Hl. unfold sha1_of. destruct (input_ok message (new_SHA1 memory) [] (absorbed_new _ Hm) Hl) as (s & -> & Hs). by apply get_result_ok.
Qed.

Lemma zlen_sha1 message : zlen (sha1 message) = 20.
Proof. unfold sha1. destruct (fold_left _ _ _) as [[[[a b] c] d] e]. by rewrite !zlen_app, !zlen_be_split. Qed.

Lemma sha1_streaming_witness :
  exists s, input_all [str "The quick brown fox jumps over"; []; str " the lazy dog and the quick brown fox jumps over"; str " the lazy dog"]
      (new_SHA1 (replicate 64 1)) = (replicate 4 SHA_SUCCESS, s) /\
    (get_result s).1 = sha1 (str "The quick brown fox jumps over the lazy dog and the quick brown fox jumps over the lazy dog").
Proof. apply (sha1_streaming (replicate 64 1)); [done|by_compute]. Defined.
