(* ===== verification/Auth.v ===== *)
(** * Auth: the password exchange

    [src/src/binlog/password.cpp], [Connection::auth] and, for the side that logs in,
    [MysqlProtocol::calc_mysql_auth_info].  The server stores the hash of the hash of the
    password and checks the token of the client against it and the scramble it has sent.
    The user table and the configured instance user are parameters. *)

From S2P Require Import Prelude Bytes Str PacketBuf Sha1.

#[local] Open Scope Z_scope.

Definition SCRAMBLE_LENGTH : Z := 20.

(** What [c_str()] of a string points to. *)
Definition c_buffer (s : bytes) : bytes := s ++ [0].

Definition my_xor (s1 s2 : bytes) (len : Z) : outcome bytes :=
  a ← heap_read 0 len s1;
  b ← heap_read 0 len s2;
  Done (zip_with Z.lxor a b).

(** ** The server's check *)

Section Check.
(** What the block of a hash object holds before it is used. *)
Context (memory : bytes).

Definition compute_sha1_hash (buf : bytes) : bytes := sha1_of memory buf.

(** [strcpy] and [strcat] into an array of [len1 + len2 + 1] bytes. *)
Definition compute_sha1_hash_multi (buf1 : bytes) (len1 : Z) (buf2 : bytes) (len2 : Z) : outcome bytes :=
  let scramble_combined := cstr buf1 ++ cstr buf2 in
  if zlen scramble_combined + 1 <=? len1 + len2 + 1 then Done (compute_sha1_hash scramble_combined) else Crash.

Definition compute_two_stage_sha1_hash (password : bytes) : bytes * bytes :=
  let hash_stage1 := compute_sha1_hash password in (hash_stage1, compute_sha1_hash hash_stage1).

Definition check_scramble_sha1 (token scramble hash_stage2 : bytes) : outcome bool :=
  sha1_combined ← compute_sha1_hash_multi scramble SCRAMBLE_LENGTH hash_stage2 SHA1_HASH_SIZE;
  hash_stage1 ← my_xor sha1_combined (c_buffer token) SHA1_HASH_SIZE;
  let hash_stage2_reassured := compute_sha1_hash hash_stage1 in
  stored ← heap_read 0 SHA1_HASH_SIZE (c_buffer hash_stage2);
  Done (beq stored hash_stage2_reassured).

Record AuthInfo := mkAuthInfo { ai_user : bytes; ai_password : bytes; ai_scramble : bytes; ai_passwd_used : bool }.
Record User := mkUser { us_username : bytes; us_password : bytes }.
Inductive ConnectionType := OBM | OBI.
#[export] Instance ConnectionType_eq_dec : EqDecision ConnectionType.
Proof. solve_decision. Defined.

(** What is sent back. *)
Inductive reply := SendOk | SendErr (err_code : Z) (err_msg sql_state : bytes).
Definition BINLOG_ACCESS_DENIED_ERROR : Z := 1045.

Context (query_user_by_name : bytes -> option User) (instance_user instance_password : bytes).

Definition denied (message : bytes) : reply := SendErr BINLOG_ACCESS_DENIED_ERROR message (str "28000").
Definition access_denied (i : AuthInfo) : reply :=
  denied (str "Access denied for user " ++ ai_user i ++ str " (using password: " ++ str (if ai_passwd_used i then "YES" else "NO") ++ str ")").

(** The stored hash, in hexadecimal, or why there is none. *)
Definition stored_password (conn_type : ConnectionType) (user : bytes) : reply + bytes :=
  if decide (conn_type = OBM) then
    match query_user_by_name user with
    | None => inl (denied (str "Internal error, please try again"))
    | Some u => if beq (us_username u) [] then inl (denied (str "Invalid user")) else inr (us_password u)
    end
  else if beq (cstr instance_user) (cstr user) then inr instance_password else inl (denied (str "Invalid user")).

Definition auth (conn_type : ConnectionType) (i : AuthInfo) : outcome reply :=
  match stored_password conn_type (ai_user i) with
  | inl r => Done r
  | inr password_hex =>
      let password_sha2 := default [] (hex2bin password_hex) in
      let empty := bool_decide (password_sha2 = []) in
      if negb (ai_passwd_used i) && empty then Done SendOk
      else if (ai_passwd_used i && empty) || (negb (ai_passwd_used i) && negb empty) then Done (access_denied i)
      else
        ok ← check_scramble_sha1 (ai_password i) (ai_scramble i) password_sha2;
        Done (if ok : bool then SendOk else access_denied i)
  end.

(** ** The token of a client *)

Definition do_sha_password (pswd : bytes) : bytes := sha1_of memory pswd.

Definition calc_mysql_auth_info (passwd_sha1 scramble : bytes) : outcome (option bytes) :=
  let '(r1, s) := input passwd_sha1 (new_SHA1 memory) in
  if negb (bool_decide (r1 = SHA_SUCCESS)) then Done None
  else
    let '(passwd_stage2, s) := get_result s in
    let scramble_combined := scramble ++ passwd_stage2 in
    let '(r2, s) := input scramble_combined (reset s) in
    if negb (bool_decide (r2 = SHA_SUCCESS)) then Done None
    else
      let '(sha_combined, _) := get_result s in
      if negb (zlen passwd_sha1 =? zlen sha_combined) then Done None
      else t ← my_xor passwd_sha1 sha_combined (zlen sha_combined); Done (Some t).

End Check.

(** ** The exchange *)

Lemma heap_read_all n b : zlen b = n -> heap_read 0 n b = Done b.
Proof.
  intros <-. unfold heap_read. rewrite bool_decide_eq_true_2 by (pose proof (zlen_nonneg b); lia). rewrite skip_0, first_ge by lia. done.
Qed.
Lemma heap_read_prefix n a b : zlen a = n -> heap_read 0 n (a ++ b) = Done a.
Proof.
  intros <-. unfold heap_read. rewrite bool_decide_eq_true_2 by (rewrite zlen_app; pose proof (zlen_nonneg a); pose proof (zlen_nonneg b); lia).
  rewrite skip_0, first_app by done. done.
Qed.

Lemma xor_back (a b : bytes) : length a = length b -> zip_with Z.lxor a (zip_with Z.lxor b a) = b.
Proof.
  revert b. induction a as [|x a IH]; intros [|y b] H; try done. cbn. injection H as H. rewrite IH by done. f_equal.
  by rewrite (Z.lxor_comm y x), <-Z.lxor_assoc, Z.lxor_nilpotent, Z.lxor_0_l.
Qed.

#[local] Opaque sha1 pad_message.

Section Exchange.
Context (memory : bytes) (memory_len : zlen memory = 64).

(** The token is the hash of the password, hidden by the hash of the scramble and the stored
    hash. *)
Definition token_of (password scramble : bytes) : bytes :=
  zip_with Z.lxor (sha1 password) (sha1 (scramble ++ sha1 (sha1 password))).

Lemma calc_mysql_auth_info_ok password scramble :
  8 * (zlen scramble + 20) < 2 ^ 64 -> calc_mysql_auth_info memory (sha1 password) scramble = Done (Some (token_of password scramble)).
Proof.
  intros Hl. pose proof (zlen_nonneg scramble). unfold calc_mysql_auth_info.
  destruct (input_ok (sha1 password) (new_SHA1 memory) [] (absorbed_new _ memory_len)) as (s1 & -> & Hs1); [rewrite zlen_sha1, zlen_nil; lia|].
  cbn [app] in Hs1. rewrite bool_decide_eq_true_2 by done. cbn [negb]. pose proof (get_result_ok _ _ Hs1 ltac:(rewrite zlen_sha1; lia)) as Eg.
  pose proof (reset_absorbed _ _ Hs1) as Hr. destruct (get_result s1) as [st2 s2]. cbn [fst snd] in Eg, Hr. subst st2.
  destruct (input_ok (scramble ++ sha1 (sha1 password)) (reset s2) [] Hr) as (s3 & -> & Hs3); [rewrite zlen_app, zlen_sha1, zlen_nil; lia|].
  rewrite bool_decide_eq_true_2 by done. cbn [negb app] in *. pose proof (get_result_ok _ _ Hs3 ltac:(rewrite zlen_app, zlen_sha1; lia)) as Eg.
  destruct (get_result s3) as [sc s4]. cbn [fst] in Eg. subst sc. rewrite !zlen_sha1. cbn [Z.eqb Pos.eqb negb]. unfold my_xor.
  rewrite !heap_read_all by apply zlen_sha1. done.
Qed.

(** What the check computes, when its operands have the right sizes. *)
Lemma check_scramble_sha1_eq token scramble stage2 :
  zlen token = 20 -> zlen (cstr scramble) = 20 -> zlen stage2 = 20 ->
  check_scramble_sha1 memory token scramble stage2 =
  Done (beq stage2 (sha1 (zip_with Z.lxor (sha1 (cstr scramble ++ cstr stage2)) token))).
Proof.
  intros Ht Hs H2. assert (0 <= zlen (cstr stage2) <= 20) as Hc.
  { rewrite <-H2. split; [apply zlen_nonneg|]. unfold zlen. clear. induction stage2 as [|c l IH]; [done|]. cbn. destruct (c =? 0); cbn; lia. }
  unfold check_scramble_sha1, compute_sha1_hash_multi, SCRAMBLE_LENGTH, SHA1_HASH_SIZE. rewrite zlen_app, Hs.
  destruct (Z.leb_spec (20 + zlen (cstr stage2) + 1) (20 + 20 + 1)); [|lia]. cbn [mbind outcome_bind]. unfold compute_sha1_hash.
  rewrite (sha1_of_ok memory (_ ++ _) memory_len) by (rewrite zlen_app; lia). unfold my_xor, c_buffer.
  rewrite (heap_read_all 20 (sha1 _)) by apply zlen_sha1. rewrite heap_read_prefix by done. cbn [mbind outcome_bind]. rewrite heap_read_prefix by done. cbn [mbind outcome_bind].
  rewrite sha1_of_ok; [done|done|]. unfold zlen. rewrite length_zip_with. unfold zlen in *. lia.
Qed.

Lemma zlen_token password scramble : zlen (token_of password scramble) = 20.
Proof using. unfold token_of, zlen. rewrite length_zip_with. pose proof (zlen_sha1 password). pose proof (zlen_sha1 (scramble ++ sha1 (sha1 password))). clear memory_len. unfold zlen in *. lia. Qed.

Lemma token_accepted password scramble : zlen scramble = 20 -> 0 ∉ scramble -> 0 ∉ sha1 (sha1 password) ->
  check_scramble_sha1 memory (token_of password scramble) scramble (sha1 (sha1 password)) = Done true.
Proof.
  intros Hs Hz H2. rewrite check_scramble_sha1_eq; [|apply zlen_token|by rewrite cstr_id|by rewrite zlen_sha1]. rewrite !cstr_id by done. unfold token_of. rewrite xor_back, beq_refl; [done|].
  pose proof (zlen_sha1 password). pose proof (zlen_sha1 (scramble ++ sha1 (sha1 password))). unfold zlen in *. lia.
Qed.

(** The token that the client side computes from the password and the scramble is
    accepted by the server side, for every password whose stored hash has no zero byte. *)
Theorem right_password_accepted password scramble :
  8 * zlen password < 2 ^ 64 -> zlen scramble = 20 -> 0 ∉ scramble -> 0 ∉ sha1 (sha1 password) ->
  exists token, calc_mysql_auth_info memory (do_sha_password memory password) scramble = Done (Some token) /\
    check_scramble_sha1 memory token scramble (compute_two_stage_sha1_hash memory password).2 = Done true.
Proof.
  intros Hp Hs Hz H2. unfold do_sha_password, compute_two_stage_sha1_hash, compute_sha1_hash. cbn [snd]. rewrite (sha1_of_ok memory password) by done.
  rewrite sha1_of_ok by (done || (rewrite zlen_sha1; lia)). eexists. split; [apply calc_mysql_auth_info_ok; lia|]. by apply token_accepted.
Qed.

(** A token of one to eighteen bytes, which the client chooses, makes the check read past
    the end of the token. *)
Theorem short_token_overread token scramble stage2 :
  1 <= zlen token <= 18 -> zlen scramble <= 20 -> zlen stage2 = 20 ->
  check_scramble_sha1 memory token scramble stage2 = Crash.
Proof.
  intros Ht Hs H2. assert (forall l : bytes, zlen (cstr l) <= zlen l) as Hc.
  { intros l. unfold zlen. induction l as [|c l IH]; [done|]. cbn. destruct (c =? 0); cbn; lia. }
  unfold check_scramble_sha1, compute_sha1_hash_multi, SCRAMBLE_LENGTH, SHA1_HASH_SIZE. rewrite zlen_app. pose proof (Hc scramble). pose proof (Hc stage2).
  pose proof (zlen_nonneg (cstr scramble)). pose proof (zlen_nonneg (cstr stage2)).
  destruct (Z.leb_spec (zlen (cstr scramble) + zlen (cstr stage2) + 1) (20 + 20 + 1)); [|lia]. cbn [mbind outcome_bind]. unfold compute_sha1_hash, my_xor, c_buffer.
  rewrite (sha1_of_ok memory (_ ++ _) memory_len) by (rewrite zlen_app; lia). rewrite (heap_read_all 20 (sha1 _)) by apply zlen_sha1. cbn [mbind outcome_bind].
  assert (heap_read 0 20 (token ++ [0]) = Crash) as ->; [|done]. unfold heap_read. rewrite bool_decide_eq_false_2; [done|].
  rewrite zlen_app. change (zlen [0]) with 1. lia.
Qed.
End Exchange.

(** ** Concrete instances *)

Definition h_memory : bytes := replicate 64 0.
Definition h_scramble : bytes := str "abcdefghijklmnopqrst".

Lemma right_password_accepted_witness :
  exists token, calc_mysql_auth_info h_memory (do_sha_password h_memory (str "root")) h_scramble = Done (Some token) /\
    check_scramble_sha1 h_memory token h_scramble (compute_two_stage_sha1_hash h_memory (str "root")).2 = Done true.
Proof. apply (right_password_accepted h_memory eq_refl (str "root") h_scramble); [by_compute|done|by_compute|by_compute]. Defined.

Lemma short_token_overread_witness : check_scramble_sha1 h_memory (str "x") h_scramble (replicate 20 1) = Crash.
Proof. apply (short_token_overread h_memory eq_refl); [by_compute|by_compute|done]. Defined.

(** The stored hash of the password [root19] has a zero byte.  The check joins scramble
    and stored hash as C strings, so that only what is before that byte counts, and the
    right password is refused. *)
Theorem right_password_refused :
  let password := str "root19" in
  let stored := (compute_two_stage_sha1_hash h_memory password).2 in
  (0 ∈ stored) /\
  exists token, calc_mysql_auth_info h_memory (do_sha_password h_memory password) h_scramble = Done (Some token) /\
    check_scramble_sha1 h_memory token h_scramble stored = Done false.
Proof.
  cbn zeta. split; [by_compute|]. eexists. split; [vm_compute; reflexivity|]. vm_compute. reflexivity.
Qed.

(** A stored password that is not a whole number of hexadecimal digits counts as none. *)
Example malformed_password_is_empty :
  auth h_memory (fun _ => None) (str "instance") (str "ABC") OBI (mkAuthInfo (str "instance") [] h_scramble false) = Done SendOk.
Proof. vm_compute. reflexivity. Qed.
