(* ===== verification/Connection.v ===== *)
(** * Connection: MySQL packets over a socket

    The transport of [src/src/binlog/connection.{h,cpp}] and [readn]/[writen] of
    [src/src/communication/io.cpp].  A data packet is cut into frames of
    at most [2^24 - 1] bytes, each with its length and a sequence number; a frame that is not
    full is the last.  The socket is the list of what [read] and [write] will return: short
    reads and writes, interruptions and errors are all in it. *)

From S2P Require Import Prelude Bytes Str Dumper PacketBuf Sha1 Auth.

#[local] Open Scope Z_scope.

(** ** The socket *)

(** What [read] returns: bytes, [EINTR] or [EAGAIN], another error; no bytes, or nothing
    more, is end of file. *)
Inductive read_result := R_data (d : bytes) | R_again | R_error.
(** What [write] accepts; at the end of the list, everything. *)
Inductive write_result := W_data (n : nat) | W_again | W_error.

Inductive io_ret := IO_OK | IO_CLOSED | IO_FAILED.
#[export] Instance io_ret_eq_dec : EqDecision io_ret.
Proof. solve_decision. Defined.

Fixpoint readn_loop (needed size : Z) (tmp : bytes) (l : list read_result) : io_ret * bytes * list read_result :=
  if size <=? 0 then (IO_OK, tmp, l)
  else
    match l with
    | [] => (if size =? needed then IO_CLOSED else IO_FAILED, tmp, [])
    | R_data [] :: _ => (if size =? needed then IO_CLOSED else IO_FAILED, tmp, l)
    | R_data d :: l =>
        if zlen d <=? size then readn_loop needed (size - zlen d) (tmp ++ d) l
        else (IO_OK, tmp ++ first size d, R_data (skip size d) :: l)
    | R_again :: l => readn_loop needed size tmp l
    | R_error :: l => (IO_FAILED, tmp, l)
    end.
Definition readn (size : Z) (l : list read_result) : io_ret * bytes * list read_result := readn_loop size size [] l.

Fixpoint writen (data : bytes) (ws : list write_result) (out : bytes) : bool * list write_result * bytes :=
  match data, ws with
  | [], _ => (true, ws, out)
  | _, [] => (true, [], out ++ data)
  | _, W_data n :: ws => writen (drop n data) ws (out ++ take n data)
  | _, W_again :: ws => writen data ws out
  | _, W_error :: ws => (false, ws, out)
  end.

(** ** The connection *)

Inductive KilledState := NOT_KILLED | KILL_BAD_DATA | KILL_CONNECTION | KILL_QUERY | KILL_TIMEOUT | KILLED_NO_VALUE.
#[export] Instance KilledState_eq_dec : EqDecision KilledState.
Proof. solve_decision. Defined.

Record Connection := mkConnection {
  sock_in : list read_result;
  sock_out : bytes;
  sock_writes : list write_result;
  pkt_buf_ : PacketBuf;
  seq_no_ : Z;
  client_capabilities_ : Z;
  thread_id_ : Z;
  _conn_type : ConnectionType;
  sa_local : bool;
  _is_admin : bool;
  user_ : bytes;
  ob_user_ : bytes;
  ob_tenant_ : bytes;
  ob_cluster_ : bytes;
  _connect_attrs : list (bytes * bytes);
  _real_host : bytes;
  _real_port : bytes;
  _auth_info : AuthInfo;
  _session_vars : list (bytes * bytes);
  _server_command : Z;
  _killed : KilledState
}.

Definition with_io (i : list read_result) (o : bytes) (w : list write_result) (c : Connection) : Connection :=
  mkConnection i o w (pkt_buf_ c) (seq_no_ c) (client_capabilities_ c) (thread_id_ c) (_conn_type c) (sa_local c) (_is_admin c) (user_ c)
    (ob_user_ c) (ob_tenant_ c) (ob_cluster_ c) (_connect_attrs c) (_real_host c) (_real_port c) (_auth_info c) (_session_vars c) (_server_command c) (_killed c).
Definition with_pkt_buf (b : PacketBuf) (c : Connection) : Connection :=
  mkConnection (sock_in c) (sock_out c) (sock_writes c) b (seq_no_ c) (client_capabilities_ c) (thread_id_ c) (_conn_type c) (sa_local c) (_is_admin c) (user_ c)
    (ob_user_ c) (ob_tenant_ c) (ob_cluster_ c) (_connect_attrs c) (_real_host c) (_real_port c) (_auth_info c) (_session_vars c) (_server_command c) (_killed c).
Definition with_seq_no (n : Z) (c : Connection) : Connection :=
  mkConnection (sock_in c) (sock_out c) (sock_writes c) (pkt_buf_ c) n (client_capabilities_ c) (thread_id_ c) (_conn_type c) (sa_local c) (_is_admin c) (user_ c)
    (ob_user_ c) (ob_tenant_ c) (ob_cluster_ c) (_connect_attrs c) (_real_host c) (_real_port c) (_auth_info c) (_session_vars c) (_server_command c) (_killed c).

Abbreviation conn := (stateful Connection).

Definition on_buf {A} (m : pbuf A) : conn A := fun c =>
  match m (pkt_buf_ c) with Done (x, b) => Done (x, with_pkt_buf b c) | Crash => Crash end.
Definition get_conn : conn Connection := fun c => Done (c, c).
Definition cassert (b : bool) : conn unit := fun c => if b then Done (tt, c) else Crash.

Definition clear_buf : conn unit := on_buf (fun s => Done (tt, clear s)).

(** ** Frames *)

Definition mysql_pkt_header_length : Z := 4.
Definition mysql_pkt_max_length : Z := Z.shiftl 1 24 - 1.

(** [logproxy::writen] and [logproxy::readn] on the connection's socket. *)
Definition sock_write (data : bytes) : conn bool := fun c =>
  let '(ok, ws, out) := writen data (sock_writes c) (sock_out c) in Done (ok, with_io (sock_in c) out ws c).
Definition sock_read (size : Z) : conn (io_ret * bytes) := fun c =>
  let '(r, data, l) := readn size (sock_in c) in Done ((r, data), with_io l (sock_out c) (sock_writes c) c).

Definition bump_seq_no : conn unit := fun c => Done (tt, with_seq_no (u8 (seq_no_ c + 1)) c).

Definition send_mysql_packet (payload : bytes) : conn IoResult :=
  cassert (zlen payload <=? mysql_pkt_max_length);;
  c ← get_conn;
  let header := write_htole24 (zlen payload) ++ write_htole8 (seq_no_ c) in
  bump_seq_no;;
  ok ← sock_write header;
  if ok : bool then
    ok ← sock_write payload;
    mret (if ok : bool then SUCCESS else FAIL)
  else mret FAIL.

Fixpoint send_data_loop (fuel : nat) : conn IoResult :=
  c ← get_conn;
  if mysql_pkt_max_length <=? readable_bytes (pkt_buf_ c) then
    match fuel with
    | O => mret FAIL
    | S fuel =>
        payload ← on_buf (read_bytes mysql_pkt_max_length);
        match payload with
        | Some payload =>
            r ← send_mysql_packet payload;
            if decide (r = SUCCESS) then send_data_loop fuel else mret FAIL
        | None => fun _ => Crash
        end
    end
  else payload ← on_buf read_remaining_bytes; send_mysql_packet payload.
Definition send_data_packet : conn IoResult :=
  c ← get_conn;
  send_data_loop (Z.to_nat (readable_bytes (pkt_buf_ c) / mysql_pkt_max_length)).

Fixpoint send_event_loop (fuel : nat) (event_buf : bytes) : conn IoResult :=
  if mysql_pkt_max_length <=? zlen event_buf then
    match fuel with
    | O => mret FAIL
    | S fuel =>
        r ← send_mysql_packet (first mysql_pkt_max_length event_buf);
        if decide (r = SUCCESS) then send_event_loop fuel (skip mysql_pkt_max_length event_buf) else mret FAIL
    end
  else send_mysql_packet event_buf.
Definition send_binlog_event (event_buf : bytes) : conn IoResult :=
  send_event_loop (Z.to_nat (zlen event_buf / mysql_pkt_max_length)) event_buf.

Section Reading.
Context (alloc : Z -> bytes).

(** [readn] into the buffer, at its write index. *)
Definition store (data : bytes) : pbuf unit := fun s =>
  b ← heap_write (write_index_ s) data (buf_ s); Done (tt, with_buf b (capacity_ s) s).

Definition advance (n : Z) : pbuf unit := fun s => Done (tt, set_write_index (u32 (write_index_ s + n)) s).

(** With the length of the payload, when there is one. *)
Definition read_mysql_packet : conn (IoResult * Z) :=
  '(r, header) ← sock_read mysql_pkt_header_length;
  if negb (bool_decide (r = IO_OK)) then mret (FAIL, 0)
  else
    let payload_length := read_le24toh (first 3 header) in
    let sequence := le_combine (skip 3 header) in
    c ← get_conn;
    if negb (sequence =? seq_no_ c) then mret (FAIL, payload_length)
    else
      ok ← on_buf (ensure_writable alloc payload_length);
      if negb ok then mret (FAIL, payload_length)
      else
        '(r, data) ← sock_read payload_length;
        on_buf (store data);;
        if negb (bool_decide (r = IO_OK)) then mret (FAIL, payload_length)
        else
          on_buf (advance payload_length);;
          bump_seq_no;;
          mret (SUCCESS, payload_length).

(** [None]: more frames than [fuel]. *)
Fixpoint read_data_loop (fuel : nat) : conn (option IoResult) :=
  match fuel with
  | O => mret None
  | S fuel =>
      '(r, payload_length) ← read_mysql_packet;
      if negb (bool_decide (r = SUCCESS)) then mret (Some FAIL)
      else if payload_length =? mysql_pkt_max_length then read_data_loop fuel
      else mret (Some SUCCESS)
  end.

(** The bytes that are still to come. *)
Definition incoming_bytes (l : list read_result) : bytes := mjoin ((fun r => match r with R_data d => d | _ => [] end) <$> l).

Definition read_data_packet : conn (option IoResult) :=
  clear_buf;;
  c ← get_conn;
  read_data_loop (S (Z.to_nat (zlen (incoming_bytes (sock_in c)) / mysql_pkt_max_length))).

End Reading.

(** ** The socket, whatever the kernel splits *)

Definition calm (l : list read_result) : Prop :=
  Forall (fun r => match r with R_data d => d <> [] | R_again => True | R_error => False end) l.
Definition calm_writes (ws : list write_result) : Prop := Forall (fun w => w <> W_error) ws.

Lemma incoming_cons r l : incoming_bytes (r :: l) = match r with R_data d => d | _ => [] end ++ incoming_bytes l.
Proof. done. Qed.

Lemma readn_loop_ok needed l : forall tmp data rest, calm l -> incoming_bytes l = data ++ rest ->
  exists l', readn_loop needed (zlen data) tmp l = (IO_OK, tmp ++ data, l') /\ calm l' /\ incoming_bytes l' = rest.
Proof.
  induction l as [|r l IH]; intros tmp data rest Hc E; cbn [readn_loop].
  { symmetry in E. apply app_nil in E as [-> ->]. exists []. rewrite app_nil_r, zlen_nil. split; [done|]. split; [by apply Forall_nil|done]. }
  destruct (Z.leb_spec (zlen data) 0) as [H0|H0].
  { assert (data = []) as -> by (apply zlen_0_nil; pose proof (zlen_nonneg data); lia). exists (r :: l). by rewrite app_nil_r. }
  apply Forall_cons in Hc as [Hr Hc]. rewrite incoming_cons in E. destruct r as [d| |]; [|by apply IH|done].
  destruct d as [|x d]; [done|]. set (d' := x :: d) in *. destruct (Z.leb_spec (zlen d') (zlen data)) as [Hle|Hgt].
  - assert (exists more, data = d' ++ more) as [more ->].
    { exists (skip (zlen d') data). rewrite <-(first_skip (zlen d') data) at 1. f_equal. pose proof (f_equal (first (zlen d')) E) as H.
      rewrite first_app in H by done. etrans; [|symmetry; exact H]. unfold first. rewrite take_app_le; [done|]. unfold zlen in *. lia. }
    rewrite <-app_assoc in E. apply app_inv_head in E. rewrite zlen_app. replace (zlen d' + zlen more - zlen d') with (zlen more) by lia.
    destruct (IH (tmp ++ d') more rest Hc E) as (l' & E' & H1 & H2). exists l'. rewrite E', <-app_assoc. done.
  - assert (exists more, d' = data ++ more /\ more <> []) as (more & Ed & Hm).
    { exists (skip (zlen data) d'). split; [|intros Hn; apply (f_equal zlen) in Hn; rewrite zlen_skip, zlen_nil in Hn; lia].
      rewrite <-(first_skip (zlen data) d') at 1. f_equal. pose proof (f_equal (first (zlen data)) E) as H.
      rewrite (first_app (zlen data) data) in H by done. etrans; [|exact H]. unfold first. rewrite take_app_le; [done|]. unfold zlen in *. lia. }
    rewrite Ed in *. rewrite first_app, skip_app by done. exists (R_data more :: l). split; [done|]. split; [by apply Forall_cons|].
    rewrite incoming_cons. rewrite <-app_assoc in E. by apply app_inv_head in E.
Qed.

Lemma readn_ok data rest l : calm l -> incoming_bytes l = data ++ rest ->
  exists l', readn (zlen data) l = (IO_OK, data, l') /\ calm l' /\ incoming_bytes l' = rest.
Proof. apply readn_loop_ok. Qed.

(** Whatever a read returns, it takes bytes from the front, never more than it was asked for, and
    all of them when it succeeds. *)
Lemma readn_loop_takes needed l : forall size tmp r data l', 0 <= size -> readn_loop needed size tmp l = (r, data, l') ->
  exists d, data = tmp ++ d /\ zlen d <= size /\ incoming_bytes l = d ++ incoming_bytes l' /\ (r = IO_OK -> zlen d = size).
Proof.
  induction l as [|x l IH]; intros size tmp r data l' Hs; cbn [readn_loop]; destruct (Z.leb_spec size 0).
  - intros [= <- <- <-]. exists []. rewrite app_nil_r, zlen_nil. split_and!; [done|lia|done|lia].
  - intros [= <- <- <-]. exists []. rewrite app_nil_r, zlen_nil. split_and!; [done|lia|done|by destruct (size =? needed)].
  - intros [= <- <- <-]. exists []. rewrite app_nil_r, zlen_nil. split_and!; [done|lia|done|lia].
  - destruct x as [[|x d]| |].
    + intros [= <- <- <-]. exists []. rewrite app_nil_r, zlen_nil. split_and!; [done|lia|done|by destruct (size =? needed)].
    + set (d' := x :: d). destruct (Z.leb_spec (zlen d') size).
      * intros E. apply IH in E as (d2 & -> & Hz & E & Hok); [|lia]. exists (d' ++ d2). rewrite zlen_app, <-app_assoc. split_and!; [done|lia| |].
        { rewrite incoming_cons, E. by rewrite app_assoc. } intros Hr. specialize (Hok Hr). lia.
      * intros [= <- <- <-]. exists (first size d'). rewrite zlen_first by lia. split_and!; [done|lia| |done]. rewrite !incoming_cons, app_assoc. by rewrite first_skip.
    + intros E. apply IH in E; [done|lia].
    + intros [= <- <- <-]. exists []. rewrite app_nil_r, zlen_nil. split_and!; [done|lia|done|done].
Qed.

Lemma writen_ok data ws : forall out, calm_writes ws -> exists ws', writen data ws out = (true, ws', out ++ data) /\ calm_writes ws'.
Proof.
  revert data. induction ws as [|w ws IH]; intros data out Hc; cbn [writen].
  { destruct data; [exists []; by rewrite app_nil_r|by exists []]. }
  pose proof Hc as Hc'. apply Forall_cons in Hc as [Hw Hc]. destruct data as [|x data]; [exists (w :: ws); by rewrite app_nil_r|]. destruct w as [n| |]; [|by apply IH|done].
  destruct (IH (drop n (x :: data)) (out ++ take n (x :: data)) Hc) as (ws' & E & H'). exists ws'. rewrite E, <-app_assoc, take_drop. done.
Qed.

(** ** Frames on the wire *)

Definition frame (seq : Z) (payload : bytes) : bytes := le_split 3 (zlen payload) ++ [u8 seq] ++ payload.
Fixpoint frames (n : nat) (seq : Z) (payload : bytes) : bytes :=
  match n with
  | O => frame seq payload
  | S n => frame seq (first mysql_pkt_max_length payload) ++ frames n (seq + 1) (skip mysql_pkt_max_length payload)
  end.
Definition full_frames (payload : bytes) : nat := Z.to_nat (zlen payload / mysql_pkt_max_length).
Definition wire_of (seq : Z) (payload : bytes) : bytes := frames (full_frames payload) seq payload.

(** What neither sending nor receiving touches. *)
Definition self_of (c : Connection) :=
  (client_capabilities_ c, thread_id_ c, _conn_type c, sa_local c, (_is_admin c, user_ c, ob_user_ c, ob_tenant_ c, ob_cluster_ c),
   (_connect_attrs c, _real_host c, _real_port c, _auth_info c, _session_vars c, _server_command c, _killed c)).
Definition identity_of (c : Connection) := (sock_in c, self_of c).

Record sent (data : bytes) (n : Z) (c c' : Connection) : Prop := {
  se_out : sock_out c' = sock_out c ++ data;
  se_writes : calm_writes (sock_writes c');
  se_seq : seq_no_ c' = u8 (seq_no_ c + n);
  se_same : identity_of c' = identity_of c
}.

Lemma sent_app a b n m c c1 c2 : sent a n c c1 -> sent b m c1 c2 -> sent (a ++ b) (n + m) c c2.
Proof.
  intros [A1 A2 A3 A4] [B1 B2 B3 B4]. split; [by rewrite B1, A1, app_assoc|done| |congruence].
  rewrite B3, A3. unfold u8. rewrite Zplus_mod_idemp_l. f_equal. lia.
Qed.

Lemma sock_write_ok data c : calm_writes (sock_writes c) ->
  runs (sock_write data) c (fun ok c' => ok = true /\ sock_out c' = sock_out c ++ data /\ calm_writes (sock_writes c') /\
    seq_no_ c' = seq_no_ c /\ identity_of c' = identity_of c /\ pkt_buf_ c' = pkt_buf_ c).
Proof. intros Hc. unfold runs, sock_write. destruct (writen_ok data (sock_writes c) (sock_out c) Hc) as (ws' & -> & Hc'). done. Qed.

Lemma send_mysql_packet_ok p c : calm_writes (sock_writes c) -> zlen p <= mysql_pkt_max_length ->
  runs (send_mysql_packet p) c (fun r c' => r = SUCCESS /\ sent (frame (seq_no_ c) p) 1 c c' /\ pkt_buf_ c' = pkt_buf_ c).
Proof.
  intros Hc Hz. unfold send_mysql_packet. apply runs_bind. unfold cassert, runs at 1. rewrite (proj2 (Z.leb_le _ _)) by done.
  apply runs_bind. unfold get_conn, runs at 1. apply runs_bind. unfold bump_seq_no, runs at 1. apply runs_bind.
  eapply runs_mono; [by apply sock_write_ok|]. intros ok c1 (-> & O1 & W1 & S1 & I1 & B1). apply runs_bind.
  eapply runs_mono; [by apply sock_write_ok|]. intros ok c2 (-> & O2 & W2 & S2 & I2 & B2). apply runs_ret. split; [done|]. split; [|by rewrite B2, B1].
  split; [|done|by rewrite S2, S1|by rewrite I2, I1]. rewrite O2, O1. cbn [sock_out with_seq_no]. rewrite write_htole24_le. unfold frame. by rewrite <-!app_assoc.
Qed.

Lemma frames_seq n : forall s s' p, u8 s = u8 s' -> frames n s p = frames n s' p.
Proof.
  induction n as [|n IH]; intros s s' p E; cbn [frames]; unfold frame; rewrite E; [done|]. f_equal. apply IH. unfold u8 in *.
  rewrite <-(Zplus_mod_idemp_l s), <-(Zplus_mod_idemp_l s'), E. done.
Qed.

Lemma full_frames_0 p : full_frames p = O <-> zlen p < mysql_pkt_max_length.
Proof.
  unfold full_frames. pose proof (zlen_nonneg p). change mysql_pkt_max_length with 16777215. split; intros H1.
  - pose proof (Z.div_mod (zlen p) 16777215 ltac:(lia)). pose proof (Z.mod_pos_bound (zlen p) 16777215). lia.
  - rewrite Z.div_small by lia. done.
Qed.
Lemma full_frames_S p n : full_frames p = S n -> mysql_pkt_max_length <= zlen p /\ full_frames (skip mysql_pkt_max_length p) = n.
Proof.
  intros E. assert (mysql_pkt_max_length <= zlen p) as Hz by (destruct (Z.le_gt_cases mysql_pkt_max_length (zlen p)) as [|H]; [done|]; apply full_frames_0 in H; congruence).
  split; [done|]. unfold full_frames in *. rewrite zlen_skip by done. change mysql_pkt_max_length with 16777215 in *.
  replace (zlen p) with (1 * 16777215 + (zlen p - 16777215)) in E by lia. rewrite Z.div_add_l in E by lia.
  pose proof (Z.div_pos (zlen p - 16777215) 16777215). lia.
Qed.

Lemma runs_on_buf {A} (m : pbuf A) c Q : runs m (pkt_buf_ c) (fun x b => Q x (with_pkt_buf b c)) -> runs (on_buf m) c Q.
Proof. unfold runs, on_buf. by destruct (m (pkt_buf_ c)) as [[]|]. Qed.

Lemma runs_get_conn {A} (k : Connection -> conn A) c Q : runs (k c) c Q -> runs (get_conn ≫= k) c Q.
Proof. done. Qed.

Lemma sent_buf d n b c c' : sent d n (with_pkt_buf b c) c' -> sent d n c c'.
Proof. by intros [H1 H2 H3 H4]. Qed.

(** The same block of memory, whatever was read from it. *)
Definition same_block (b b' : PacketBuf) : Prop :=
  buf_ b' = buf_ b /\ capacity_ b' = capacity_ b /\ min_capacity_ b' = min_capacity_ b /\ max_capacity_ b' = max_capacity_ b.
Lemma consumed_block d b b' : consumed d b b' -> same_block b b'.
Proof. by intros [_ _ _ (? & ? & ? & ? & _)]. Qed.
Lemma same_block_trans b1 b2 b3 : same_block b1 b2 -> same_block b2 b3 -> same_block b1 b3.
Proof. intros (? & ? & ? & ?) (? & ? & ? & ?). split_and!; congruence. Qed.

(** The two loops that cut a payload into frames. *)
Lemma send_data_loop_ok n : forall c, calm_writes (sock_writes c) -> buf_ok (pkt_buf_ c) -> full_frames (pending (pkt_buf_ c)) = n ->
  runs (send_data_loop n) c (fun r c' => r = SUCCESS /\ sent (frames n (seq_no_ c) (pending (pkt_buf_ c))) (Z.of_nat n + 1) c c' /\
    buf_ok (pkt_buf_ c') /\ pending (pkt_buf_ c') = [] /\ same_block (pkt_buf_ c) (pkt_buf_ c')).
Proof.
  induction n as [|n IH]; intros c Hw Hb Hn; cbn [send_data_loop]; apply runs_get_conn; rewrite readable_pending by done.
  - apply full_frames_0 in Hn. destruct (Z.leb_spec mysql_pkt_max_length (zlen (pending (pkt_buf_ c)))); [lia|]. apply runs_bind, runs_on_buf.
    eapply runs_mono; [by apply read_remaining_ok|]. intros d b [-> Hc].
    eapply runs_mono; [apply send_mysql_packet_ok; [done|lia]|]. intros r c' (-> & Hs & E). rewrite E. split; [done|]. split; [by apply sent_buf in Hs|]. split; [by destruct Hc|].
    split; [|by apply consumed_block in Hc]. destruct Hc as [_ Ep _ _]. apply (f_equal zlen) in Ep. rewrite zlen_app in Ep. apply zlen_0_nil. cbn [pkt_buf_ with_pkt_buf] in *. lia.
  - apply full_frames_S in Hn as [Hz Hn]. rewrite (proj2 (Z.leb_le _ _)) by done. apply runs_bind, runs_on_buf. set (p := pending (pkt_buf_ c)) in *.
    eapply runs_mono; [apply (read_n_ok (u32 mysql_pkt_max_length) id (first mysql_pkt_max_length p)) with (rest := skip mysql_pkt_max_length p);
      [rewrite zlen_first; [done|by split]|done|by rewrite first_skip]|].
    intros r b [-> Hc]. apply runs_bind. unfold id. eapply runs_mono; [apply send_mysql_packet_ok; [done|rewrite zlen_first; [done|by split]]|]. intros r c1 (-> & Hs%sent_buf & E).
    rewrite decide_True by done. assert (pending (pkt_buf_ c1) = skip mysql_pkt_max_length p) as Ep.
    { rewrite E. destruct Hc as [_ Ep _ _]. fold p in Ep. rewrite <-(first_skip mysql_pkt_max_length p) in Ep at 1. by apply app_inv_head in Ep. }
    eapply runs_mono; [apply IH; [by destruct Hs|rewrite E; by destruct Hc|by rewrite Ep]|].
    intros r c' (-> & Hs' & Hb' & Hp' & Eb'). split; [done|]. split; [|split; [done|]; split; [done|]]. 2: { eapply same_block_trans; [|exact Eb']. rewrite E. by apply consumed_block in Hc. }
    cbn [frames]. replace (Z.of_nat (S n) + 1) with (1 + (Z.of_nat n + 1)) by lia. eapply sent_app; [exact Hs|]. rewrite Ep in Hs'.
    rewrite (frames_seq n (seq_no_ c + 1) (seq_no_ c1)); [done|]. destruct Hs as [_ _ -> _]. cbn. unfold u8. by rewrite Z.mod_mod.
Qed.

Lemma send_data_packet_ok c : calm_writes (sock_writes c) -> buf_ok (pkt_buf_ c) ->
  runs send_data_packet c (fun r c' => r = SUCCESS /\
    sent (wire_of (seq_no_ c) (pending (pkt_buf_ c))) (Z.of_nat (full_frames (pending (pkt_buf_ c))) + 1) c c' /\
    buf_ok (pkt_buf_ c') /\ pending (pkt_buf_ c') = [] /\ same_block (pkt_buf_ c) (pkt_buf_ c')).
Proof. intros Hw Hb. unfold send_data_packet. apply runs_get_conn. rewrite readable_pending by done. by apply send_data_loop_ok. Qed.

Lemma send_event_loop_ok n : forall p c, calm_writes (sock_writes c) -> full_frames p = n ->
  runs (send_event_loop n p) c (fun r c' => r = SUCCESS /\ sent (frames n (seq_no_ c) p) (Z.of_nat n + 1) c c' /\ pkt_buf_ c' = pkt_buf_ c).
Proof.
  induction n as [|n IH]; intros p c Hw Hn; cbn [send_event_loop].
  - apply full_frames_0 in Hn. destruct (Z.leb_spec mysql_pkt_max_length (zlen p)); [lia|]. apply send_mysql_packet_ok; [done|lia].
  - apply full_frames_S in Hn as [Hz Hn]. rewrite (proj2 (Z.leb_le _ _)) by done. apply runs_bind.
    eapply runs_mono; [apply send_mysql_packet_ok; [done|rewrite zlen_first; [done|by split]]|]. intros r c1 (-> & Hs & E). rewrite decide_True by done.
    eapply runs_mono; [apply (IH (skip mysql_pkt_max_length p)); [by destruct Hs|done]|]. intros r c' (-> & Hs' & E'). split; [done|]. split; [|congruence].
    cbn [frames]. replace (Z.of_nat (S n) + 1) with (1 + (Z.of_nat n + 1)) by lia. eapply sent_app; [exact Hs|].
    rewrite (frames_seq n (seq_no_ c + 1) (seq_no_ c1)); [done|]. destruct Hs as [_ _ -> _]. unfold u8. by rewrite Z.mod_mod.
Qed.

Lemma send_binlog_event_ok p c : calm_writes (sock_writes c) ->
  runs (send_binlog_event p) c (fun r c' => r = SUCCESS /\ sent (wire_of (seq_no_ c) p) (Z.of_nat (full_frames p) + 1) c c' /\ pkt_buf_ c' = pkt_buf_ c).
Proof. intros Hw. by apply send_event_loop_ok. Qed.

(** ** Receiving *)

Record received (data rest : bytes) (n : Z) (c c' : Connection) : Prop := {
  re_calm : calm (sock_in c');
  re_rest : incoming_bytes (sock_in c') = rest;
  re_data : appended data (pkt_buf_ c) (pkt_buf_ c');
  re_seq : seq_no_ c' = u8 (seq_no_ c + n);
  re_out : sock_out c' = sock_out c /\ sock_writes c' = sock_writes c;
  re_same : self_of c' = self_of c
}.

Lemma received_app a b r1 r2 n m c c1 c2 : received a r1 n c c1 -> received b r2 m c1 c2 -> received (a ++ b) r2 (n + m) c c2.
Proof.
  intros [A1 A2 A3 A4 [A5 A6] A7] [B1 B2 B3 B4 [B5 B6] B7]. split; [done|done|by eapply appended_app| |split; congruence|congruence].
  rewrite B4, A4. unfold u8. rewrite Zplus_mod_idemp_l. f_equal. lia.
Qed.

Lemma sock_read_ok data rest c : calm (sock_in c) -> incoming_bytes (sock_in c) = data ++ rest ->
  runs (sock_read (zlen data)) c (fun r c' => r = (IO_OK, data) /\ calm (sock_in c') /\ incoming_bytes (sock_in c') = rest /\
    c' = with_io (sock_in c') (sock_out c) (sock_writes c) c).
Proof. intros Hc E. unfold runs, sock_read. destruct (readn_ok data rest (sock_in c) Hc E) as (l' & -> & H1 & H2). done. Qed.

Lemma store_advance_ok data s : buf_ok s -> write_index_ s + zlen data <= capacity_ s ->
  runs (store data) s (fun _ s1 => runs (advance (zlen data)) s1 (fun _ s' => appended data s s')).
Proof.
  intros Hs Hw. pose proof (put_writes data s Hs Hw) as H. unfold runs, put, store, advance in *. by destruct (heap_write _ _ _) as [b|]; [destruct H|].
Qed.

Section ReadingOk.
Context (alloc : Z -> bytes) (alloc_len : forall n, 0 <= n -> zlen (alloc n) = n).

Lemma read_mysql_packet_ok p rest c : calm (sock_in c) -> incoming_bytes (sock_in c) = frame (seq_no_ c) p ++ rest -> is_u8 (seq_no_ c) ->
  zlen p <= mysql_pkt_max_length -> buf_ok (pkt_buf_ c) -> write_index_ (pkt_buf_ c) + zlen p <= max_capacity_ (pkt_buf_ c) ->
  runs (read_mysql_packet alloc) c (fun r c' => r = (SUCCESS, zlen p) /\ received p rest 1 c c').
Proof.
  intros Hc E Hu Hz Hb Hm. pose proof (zlen_nonneg p) as Hp. unfold frame in E. rewrite u8_id, <-!app_assoc, (app_assoc _ [_]) in E by done. unfold read_mysql_packet.
  set (header := le_split 3 (zlen p) ++ [seq_no_ c]) in E. change mysql_pkt_header_length with (zlen header). apply runs_bind.
  eapply runs_mono; [by apply (sock_read_ok header (p ++ rest))|]. intros r c1 (-> & Hc1 & E1 & Es1). rewrite bool_decide_eq_true_2 by done. cbn [negb].
  change mysql_pkt_max_length with 16777215 in Hz. unfold header. rewrite first_app by (by rewrite zlen_le_split). rewrite skip_app by (by rewrite zlen_le_split). rewrite read_le24toh_le by lia. apply runs_get_conn.
  assert (seq_no_ c1 = seq_no_ c) as -> by (by rewrite Es1). cbn [le_combine]. rewrite Z.mul_0_r, Z.add_0_r, Z.eqb_refl. cbn [negb]. apply runs_bind, runs_on_buf.
  assert (pkt_buf_ c1 = pkt_buf_ c) as -> by (by rewrite Es1). pose proof Hb as [_ Hcap Hmax _].
  eapply runs_mono; [apply (ensure_writable_ok alloc alloc_len); [done|done|unfold io_size in *; lia]|]. intros ok b (Ha & -> & Hfit).
  rewrite bool_decide_eq_true_2 in * by done. specialize (Hfit eq_refl). cbn [negb]. apply runs_bind.
  eapply runs_mono; [by apply (sock_read_ok p rest)|]. intros r c2 (-> & Hc2 & E2 & Es2). apply runs_bind, runs_on_buf.
  assert (pkt_buf_ c2 = b) as -> by (by rewrite Es2). rewrite bool_decide_eq_true_2 by done. cbn [negb].
  eapply runs_mono; [apply store_advance_ok; [by destruct Ha|rewrite (ap_write _ _ _ Ha), zlen_nil; lia]|]. intros [] b2 Hadv. apply runs_bind, runs_on_buf. cbn [pkt_buf_ with_pkt_buf].
  eapply runs_mono; [exact Hadv|]. intros [] b3 Hb3. apply runs_bind. unfold bump_seq_no, runs at 1. apply runs_ret. split; [done|].
  rewrite Es2, Es1. split; cbn; [done|done| |done|done|done]. by apply (appended_app [] p _ b b3).
Qed.

Lemma read_data_loop_ok n : forall fuel p rest c, (n < fuel)%nat -> calm (sock_in c) -> incoming_bytes (sock_in c) = frames n (seq_no_ c) p ++ rest ->
  is_u8 (seq_no_ c) -> full_frames p = n -> buf_ok (pkt_buf_ c) -> write_index_ (pkt_buf_ c) + zlen p <= max_capacity_ (pkt_buf_ c) ->
  runs (read_data_loop alloc fuel) c (fun r c' => r = Some SUCCESS /\ received p rest (Z.of_nat n + 1) c c').
Proof.
  induction n as [|n IH]; intros [|fuel] p rest c Hf Hc E Hu Hn Hb Hm; [lia| |lia|]; cbn [read_data_loop frames] in *; apply runs_bind.
  - apply full_frames_0 in Hn. eapply runs_mono; [apply read_mysql_packet_ok; [done|exact E|done|lia|done|done]|]. intros r c' [-> Hr].
    rewrite bool_decide_eq_true_2 by done. cbn [negb]. rewrite (proj2 (Z.eqb_neq _ _)) by lia. by apply runs_ret.
  - apply full_frames_S in Hn as [Hz Hn]. assert (zlen (first mysql_pkt_max_length p) = mysql_pkt_max_length) as Hz1 by (by rewrite zlen_first by (by split)).
    assert (zlen (skip mysql_pkt_max_length p) = zlen p - mysql_pkt_max_length) as Hz2 by (by rewrite zlen_skip by (by split)). rewrite <-app_assoc in E.
    pose proof (zlen_nonneg (skip mysql_pkt_max_length p)).
    eapply runs_mono; [apply read_mysql_packet_ok; [done|exact E|done|lia|done|lia]|]. intros r c1 [-> Hr].
    rewrite bool_decide_eq_true_2 by done. cbn [negb]. rewrite Hz1, Z.eqb_refl. pose proof Hr as [R1 R2 R3 R4 R5 R6].
    assert (u8 (seq_no_ c1) = u8 (seq_no_ c + 1)) as Eseq by (rewrite R4; unfold u8; by rewrite Z.mod_mod).
    eapply runs_mono; [apply (IH fuel (skip mysql_pkt_max_length p) rest c1); [lia|done|by rewrite (frames_seq n _ _ _ Eseq)|rewrite R4; apply Z.mod_pos_bound; lia|done|by destruct R3|]|].
    { rewrite (ap_write _ _ _ R3). destruct (ap_max _ _ _ R3) as [-> _]. lia. }
    intros r c' [-> Hr']. split; [done|]. rewrite <-(first_skip mysql_pkt_max_length p). replace (Z.of_nat (S n) + 1) with (1 + (Z.of_nat n + 1)) by lia. by eapply received_app.
Qed.

Lemma zlen_frames n : forall seq p, zlen p <= zlen (frames n seq p).
Proof.
  induction n as [|n IH]; intros seq p; cbn [frames]; unfold frame; rewrite ?zlen_app; [rewrite zlen_le_split, zlen_cons, zlen_nil; lia|].
  rewrite <-(first_skip mysql_pkt_max_length p) at 1. specialize (IH (seq + 1) (skip mysql_pkt_max_length p)).
  rewrite zlen_app, zlen_le_split, zlen_cons, zlen_nil. lia.
Qed.

Lemma clear_buf_ok {A} (k : unit -> conn A) c Q : runs (k tt) (with_pkt_buf (clear (pkt_buf_ c)) c) Q -> runs (clear_buf ≫= k) c Q.
Proof. done. Qed.

Lemma read_data_packet_ok p rest c : calm (sock_in c) -> incoming_bytes (sock_in c) = wire_of (seq_no_ c) p ++ rest ->
  is_u8 (seq_no_ c) -> buf_ok (pkt_buf_ c) -> zlen p <= max_capacity_ (pkt_buf_ c) ->
  runs (read_data_packet alloc) c (fun r c' => r = Some SUCCESS /\ buf_ok (pkt_buf_ c') /\ pending (pkt_buf_ c') = p /\
    received p rest (Z.of_nat (full_frames p) + 1) (with_pkt_buf (clear (pkt_buf_ c)) c) c').
Proof.
  intros Hc E Hu Hb Hm. unfold read_data_packet. apply clear_buf_ok, runs_get_conn. destruct (clear_ok (pkt_buf_ c) Hb) as [Hb' Hp].
  eapply runs_mono; [apply (read_data_loop_ok (full_frames p) _ p rest); [|done|exact E|done|done|done|cbn; lia]|].
  - cbn [sock_in with_pkt_buf]. rewrite E. apply Nat.lt_succ_r. unfold full_frames. apply Z2Nat.inj_le; [apply Z.div_pos; [apply zlen_nonneg|done]|apply Z.div_pos; [apply zlen_nonneg|done]|].
    apply Z.div_le_mono; [done|]. rewrite zlen_app. unfold wire_of. pose proof (zlen_frames (full_frames p) (seq_no_ c) p). pose proof (zlen_nonneg rest). lia.
  - intros r c' [-> Hr]. split; [done|]. pose proof (re_data _ _ _ _ _ Hr) as Ha. split; [by destruct Ha|]. split; [|done].
    rewrite (ap_pending _ _ _ Ha). cbn [pkt_buf_ with_pkt_buf]. by rewrite Hp.
Qed.

(** *** Whatever arrives *)

Lemma sock_read_takes size c : 0 <= size ->
  runs (sock_read size) c (fun '(r, d) c' => zlen d <= size /\ incoming_bytes (sock_in c) = d ++ incoming_bytes (sock_in c') /\ (r = IO_OK -> zlen d = size) /\
    c' = with_io (sock_in c') (sock_out c) (sock_writes c) c).
Proof.
  intros Hs. unfold runs, sock_read, readn. destruct (readn_loop size size [] (sock_in c)) as [[r d] l'] eqn:E.
  apply readn_loop_takes in E as (d' & -> & H1 & H2 & H3); [|done]. done.
Qed.

Lemma store_safe data s : buf_ok s -> write_index_ s + zlen data <= capacity_ s ->
  runs (store data) s (fun _ s' => exists b, s' = with_buf b (capacity_ s) s /\ zlen b = zlen (buf_ s)).
Proof.
  intros [H1 H2 _ [H3 H4]] Hw. unfold runs, store, heap_write. rewrite (proj2 (Z.leb_le _ _)) by lia. cbn [mbind outcome_bind].
  eexists. split; [done|]. apply zlen_overwrite; lia.
Qed.

(** The maximum that leaves room for a frame below [2^32]. *)
Definition sane_max (s : PacketBuf) : Prop := max_capacity_ s + 2 ^ 24 <= 2 ^ 32.

Record sound (c : Connection) : Prop := {
  so_buf : buf_ok (pkt_buf_ c);
  so_max : sane_max (pkt_buf_ c);
  so_bytes : Forall is_u8 (incoming_bytes (sock_in c))
}.

Lemma header_ranges h : Forall is_u8 h -> zlen h = 4 -> 0 <= read_le24toh (first 3 h) < 2 ^ 24.
Proof.
  intros Hu Hz. destruct h as [|a [|b [|c [|d h]]]]; rewrite ?zlen_cons, ?zlen_nil in Hz; try lia. apply Forall_cons in Hu as [Ha Hu]. apply Forall_cons in Hu as [Hb Hu].
  apply Forall_cons in Hu as [Hc _]. unfold is_u8 in *.
  change (0 <= Z.lor (Z.shiftl (c + 256 * 0) 16) (a + 256 * (b + 256 * 0)) < 2 ^ 24). rewrite lor_shiftl by lia. lia.
Qed.

Lemma read_mysql_packet_safe c : sound c ->
  runs (read_mysql_packet alloc) c (fun '(r, n) c' => sound c' /\
    (r = SUCCESS -> 0 <= n /\ zlen (incoming_bytes (sock_in c)) = 4 + n + zlen (incoming_bytes (sock_in c')))).
Proof.
  intros [Hb Hm Hu]. unfold read_mysql_packet. apply runs_bind. eapply runs_mono; [by apply sock_read_takes|].
  intros [r h] c1 (Hz & E1 & Hok & Ec1). rewrite E1 in Hu. apply Forall_app in Hu as [Hh Hu]. destruct (decide (r = IO_OK)) as [Hr|Hr].
  2: { rewrite bool_decide_eq_false_2 by done. apply runs_ret. split; [|done]. by rewrite Ec1. }
  rewrite bool_decide_eq_true_2 by done. specialize (Hok Hr). cbn [negb]. pose proof (header_ranges h Hh Hok) as Hn. set (n := read_le24toh _) in *. apply runs_get_conn.
  assert (pkt_buf_ c1 = pkt_buf_ c) as Eb1 by (by rewrite Ec1). destruct (negb (_ =? _)).
  { apply runs_ret. split; [|done]. split; rewrite ?Eb1; done. }
  apply runs_bind, runs_on_buf. rewrite Eb1. pose proof Hb as [_ Hcap _ [Hi1 Hi2]]. unfold sane_max in Hm.
  eapply runs_mono; [apply (ensure_writable_ok alloc alloc_len); [done|lia|lia]|]. intros ok b (Ha & _ & Hfit). destruct (ap_max _ _ _ Ha) as [Hmax _].
  destruct ok; cbn [negb]; [|apply runs_ret; split; [|done]; split; [by destruct Ha|cbn; unfold sane_max; by rewrite Hmax|done]].
  specialize (Hfit eq_refl). apply runs_bind. eapply runs_mono; [apply sock_read_takes; lia|]. intros [r2 d] c2 (Hz2 & E2 & Hok2 & Ec2). cbn [sock_in with_pkt_buf] in E2.
  rewrite E2 in Hu. apply Forall_app in Hu as [_ Hu]. apply runs_bind, runs_on_buf. assert (pkt_buf_ c2 = b) as -> by (by rewrite Ec2).
  assert (write_index_ b + n <= capacity_ b) as Hfit' by (rewrite (ap_write _ _ _ Ha), zlen_nil; lia).
  eapply runs_mono; [apply store_safe; [by destruct Ha|lia]|]. intros [] b2 (bytes2 & -> & Hlen). destruct Ha as [[B1 B2 B3 B4] _ _ _ _ _].
  destruct (decide (r2 = IO_OK)) as [Hr2|Hr2].
  - rewrite bool_decide_eq_true_2 by done. cbn [negb]. apply runs_bind, runs_on_buf. unfold advance, runs at 1. apply runs_bind. unfold bump_seq_no, runs at 1.
    apply runs_ret. split; [split; cbn; [|unfold sane_max; cbn; by rewrite Hmax|done]|].
    + rewrite u32_id by (unfold is_u32, io_size in *; lia). split; cbn; [lia|done|done|lia].
    + intros _. cbn [sock_in with_seq_no with_pkt_buf]. specialize (Hok2 Hr2). split; [lia|]. rewrite E1, E2, !zlen_app. change mysql_pkt_header_length with 4 in Hok. lia.
  - rewrite bool_decide_eq_false_2 by done. apply runs_ret. split; [|done]. split; cbn; [|unfold sane_max; cbn; by rewrite Hmax|done]. split; cbn; [lia|done|done|done].
Qed.

Lemma read_data_loop_safe fuel : forall c, sound c -> zlen (incoming_bytes (sock_in c)) < mysql_pkt_max_length * Z.of_nat fuel ->
  runs (read_data_loop alloc fuel) c (fun r c' => sound c' /\ r <> None).
Proof.
  induction fuel as [|fuel IH]; intros c Hc Hf; [pose proof (zlen_nonneg (incoming_bytes (sock_in c))); lia|]. cbn [read_data_loop]. apply runs_bind.
  eapply runs_mono; [by apply read_mysql_packet_safe|]. intros [r n] c1 [Hc1 Hz]. destruct (decide (r = SUCCESS)) as [Hr|Hr].
  - rewrite bool_decide_eq_true_2 by done. cbn [negb]. specialize (Hz Hr) as [Hn Hz]. destruct (Z.eqb_spec n mysql_pkt_max_length); [|by apply runs_ret].
    apply IH; [done|]. lia.
  - rewrite bool_decide_eq_false_2 by done. by apply runs_ret.
Qed.

End ReadingOk.

(** C22: A data packet that is sent is received as it was, for every way in which the kernels of
    both sides split and interrupt the transfer, and for payloads of several frames: the
    receiver's buffer holds the payload, what follows stays in the socket, and both sides
    agree on the next sequence number. *)
Theorem framing_roundtrip alloc c d rest :
  (forall n, 0 <= n -> zlen (alloc n) = n) -> calm_writes (sock_writes c) -> buf_ok (pkt_buf_ c) ->
  calm (sock_in d) -> buf_ok (pkt_buf_ d) -> is_u8 (seq_no_ d) -> seq_no_ d = seq_no_ c -> zlen (pending (pkt_buf_ c)) <= max_capacity_ (pkt_buf_ d) ->
  exists c' wire, send_data_packet c = Done (SUCCESS, c') /\ sock_out c' = sock_out c ++ wire /\
    (incoming_bytes (sock_in d) = wire ++ rest ->
     exists d', read_data_packet alloc d = Done (Some SUCCESS, d') /\ pending (pkt_buf_ d') = pending (pkt_buf_ c) /\
       incoming_bytes (sock_in d') = rest /\ seq_no_ d' = seq_no_ c').
Proof.
  intros Ha Hw Hb Hc Hbd Hu Hq Hz. destruct (proj1 (runs_done _ _ _) (send_data_packet_ok c Hw Hb)) as (r & c' & E & -> & Hs & _). exists c', (wire_of (seq_no_ c) (pending (pkt_buf_ c))).
  split; [done|]. split; [by destruct Hs|]. intros Ein. rewrite <-Hq in Ein.
  destruct (proj1 (runs_done _ _ _) (read_data_packet_ok alloc Ha _ rest d Hc Ein Hu Hbd Hz)) as (r & d' & Ed & -> & _ & Hp & Hr). exists d'. split; [done|].
  split; [done|]. split; [by destruct Hr|]. rewrite (re_seq _ _ _ _ _ Hr), (se_seq _ _ _ _ Hs). cbn [seq_no_ with_pkt_buf]. by rewrite Hq.
Qed.

(** C23: Reading a packet comes to an end and stays inside the buffer, whatever arrives: any
    bytes, split in any way, with errors and the end of the stream at any point. *)
Theorem reading_is_safe alloc c :
  (forall n, 0 <= n -> zlen (alloc n) = n) -> sound c ->
  exists r c', read_data_packet alloc c = Done (Some r, c') /\ sound c'.
Proof.
  intros Ha [Hb Hm Hu]. assert (runs (read_data_packet alloc) c (fun r c' => sound c' /\ r <> None)) as H.
  { unfold read_data_packet. apply clear_buf_ok, runs_get_conn. cbn [sock_in with_pkt_buf]. apply read_data_loop_safe; [done|split; [by apply clear_ok|done|done]|].
    cbn [sock_in with_pkt_buf]. set (z := zlen _). assert (0 <= z) as Hz by apply zlen_nonneg. change mysql_pkt_max_length with 16777215.
    pose proof (Z.div_mod z 16777215 ltac:(lia)). pose proof (Z.mod_pos_bound z 16777215). pose proof (Z.div_pos z 16777215). lia. }
  apply runs_done in H as ([r|] & c' & E & Hs & Hn); [|done]. by exists r, c'.
Qed.

(** ** Concrete instances *)

Definition k_conn (i : list read_result) (b : PacketBuf) : Connection :=
  mkConnection i [] [W_data 3; W_again; W_data 0] b 0 0 7 OBI false true [] [] [] [] [] [] [] (mkAuthInfo [] [] [] false) [] 0 NOT_KILLED.
Definition k_payload : bytes := str "select @@version".
Definition k_sender : Connection := k_conn [] (mkPacketBuf (k_payload ++ zeroed 16) 32 32 64 0 16 []).
(** The answer arrives in pieces, with the next packet behind it. *)
Definition k_receiver : Connection :=
  k_conn [R_data [16; 0]; R_again; R_data ([0; 0] ++ str "select"); R_data (str " @@version" ++ [1; 0; 0; 1; 14])] p_buf.

Lemma framing_roundtrip_witness :
  exists c' wire, send_data_packet k_sender = Done (SUCCESS, c') /\ sock_out c' = sock_out k_sender ++ wire /\
    (incoming_bytes (sock_in k_receiver) = wire ++ [1; 0; 0; 1; 14] ->
     exists d', read_data_packet zeroed k_receiver = Done (Some SUCCESS, d') /\ pending (pkt_buf_ d') = k_payload /\
       incoming_bytes (sock_in d') = [1; 0; 0; 1; 14] /\ seq_no_ d' = seq_no_ c').
Proof.
  apply (framing_roundtrip zeroed k_sender k_receiver [1; 0; 0; 1; 14] zeroed_len); [|by_compute| |by_compute|by_compute|done|by_compute].
  - by apply Forall_cons; split; [|apply Forall_cons; split; [|apply Forall_singleton]].
  - by apply Forall_cons; split; [|apply Forall_cons; split; [|apply Forall_cons; split; [|apply Forall_singleton]]].
Defined.

(** A header that promises more than the buffer may hold, and a stream that breaks off. *)
Lemma reading_is_safe_witness :
  (exists r c', read_data_packet zeroed (k_conn [R_data [255; 255; 255; 0; 1]; R_error] p_buf) = Done (Some r, c') /\ sound c').
Proof. apply (reading_is_safe zeroed _ zeroed_len). split; by_compute. Defined.
