(* ===== verification/Handshake.v ===== *)
(** * Handshake: MySQL packets and the server's side of a login

    The packets of [src/src/binlog/mysql-protocol] and the sending and handshake operations of
    [src/src/binlog/connection.cpp].  A packet is what can be serialised into the buffer; the
    laws of [PacketLaws] say which fields it consists of, and sending is proved against them. *)

From S2P Require Import Prelude Bytes Str Dumper PacketBuf Sha1 Auth Connection.

#[local] Open Scope Z_scope.

(** ** Packets *)

(** Writes one after the other, their sizes added up. *)
Fixpoint write_seq (ws : list (pbuf Z)) : pbuf Z :=
  match ws with [] => mret 0 | w :: ws => n ← w; m ← write_seq ws; mret (n + m) end.
Definition passert (b : PacketBuf -> bool) : pbuf unit := fun s => if b s then Done (tt, s) else Crash.

Definition client_protocol_41 : Z := Z.shiftl 1 9.
Definition client_transactions : Z := Z.shiftl 1 13.
Definition client_session_track : Z := Z.shiftl 1 23.
Definition client_connect_with_db : Z := Z.shiftl 1 3.
Definition client_plugin_auth : Z := Z.shiftl 1 19.
Definition client_connect_attrs : Z := Z.shiftl 1 20.
Definition client_plugin_auth_lenenc_client_data : Z := Z.shiftl 1 21.
Definition has_capability (capabilities expected : Z) : bool := negb (Z.land capabilities expected =? 0).
Definition ob_binlog_server_capabilities : Z :=
  foldr Z.lor 0 [Z.shiftl 1 0; Z.shiftl 1 4; Z.shiftl 1 8; client_protocol_41; Z.shiftl 1 10; Z.shiftl 1 14; Z.shiftl 1 15; client_plugin_auth].

Definition autocommit : Z := Z.shiftl 1 1.
Definition session_state_changed : Z := Z.shiftl 1 14.
Definition has_status_flag (flags expected : Z) : bool := negb (Z.land flags expected =? 0).
Definition ob_binlog_server_status_flags : Z := autocommit.

(** [DataPacket]: what can be serialised. *)
Class DataPacket (P : Type) := serialize : (Z -> bytes) -> P -> Z -> pbuf Z.

Record ErrPacket := mkErrPacket { err_code_ : Z; err_msg_ : bytes; sql_state_ : bytes }.
Definition max_err_msg_sz : Z := 512.
Definition sql_state_length : Z := 5.
Definition new_err_packet (err_code : Z) (err_msg sql_state : bytes) : outcome ErrPacket :=
  if (zlen err_msg <=? max_err_msg_sz) && (zlen sql_state =? sql_state_length) then Done (mkErrPacket err_code err_msg sql_state) else Crash.
#[export] Instance err_packet : DataPacket ErrPacket := fun alloc p client_capabilities =>
  let client_protocol_41_enabled := has_capability client_capabilities client_protocol_41 in
  let serialized_sz := 1 + 2 + (if client_protocol_41_enabled then 1 + sql_state_length else 0) + zlen (err_msg_ p) in
  passert (is_fast_writable_n serialized_sz);;
  sz ← write_seq ([write_uint1 alloc 0xFF; write_uint2 alloc (err_code_ p)] ++
    (if client_protocol_41_enabled then [write_uint1 alloc 35; write_string alloc (sql_state_ p) false] else []) ++
    [write_string alloc (err_msg_ p) false]);
  passert (fun _ => serialized_sz =? sz);;
  mret sz.

Record EofPacket := mkEofPacket { eof_warnings_ : Z; eof_status_flags_ : Z }.
#[export] Instance eof_packet : DataPacket EofPacket := fun alloc p client_capabilities =>
  let client_protocol_41_enabled := has_capability client_capabilities client_protocol_41 in
  let serialized_sz := 1 + (if client_protocol_41_enabled then 2 + 2 else 0) in
  passert (is_fast_writable_n serialized_sz);;
  sz ← write_seq ([write_uint1 alloc 0xFE] ++
    (if client_protocol_41_enabled then [write_uint2 alloc (eof_warnings_ p); write_uint2 alloc (eof_status_flags_ p)] else []));
  passert (fun _ => serialized_sz =? sz);;
  mret sz.

Record OkPacket := mkOkPacket { affected_rows_ : Z; last_insert_id_ : Z; ok_status_flags_ : Z; ok_warnings_ : Z; info_ : bytes }.
#[export] Instance ok_packet : DataPacket OkPacket := fun alloc p client_capabilities =>
  let info := [write_string alloc (info_ p) true] in
  sz ← write_seq ([write_uint1 alloc 0x00; write_uint alloc (affected_rows_ p); write_uint alloc (last_insert_id_ p)] ++
    (if has_capability client_capabilities client_protocol_41 then [write_uint2 alloc (ok_status_flags_ p); write_uint2 alloc (ok_warnings_ p)]
     else if has_capability client_capabilities client_transactions then [write_uint2 alloc (ok_status_flags_ p)] else []) ++
    (if has_capability client_capabilities client_session_track then
       if has_status_flag (ok_status_flags_ p) session_state_changed || (0 <? zlen (info_ p)) then info else []
     else if 0 <? zlen (info_ p) then info else []));
  passert (fun _ => negb (has_capability client_capabilities client_session_track && has_status_flag (ok_status_flags_ p) session_state_changed));;
  mret sz.

Record ColumnPacket := mkColumnPacket {
  schema_ : bytes; table_ : bytes; origin_table_ : bytes; name_ : bytes; origin_name_ : bytes;
  character_set_ : Z; length_ : Z; type_ : Z; flags_ : Z; decimals_ : Z }.
#[export] Instance column_packet : DataPacket ColumnPacket := fun alloc p _ =>
  write_seq [write_string alloc (str "def") true; write_string alloc (schema_ p) true; write_string alloc (table_ p) true;
    write_string alloc (origin_table_ p) true; write_string alloc (name_ p) true; write_string alloc (origin_name_ p) true;
    write_uint alloc 0x0C; write_uint2 alloc (character_set_ p); write_uint4 alloc (length_ p); write_uint1 alloc (type_ p);
    write_uint2 alloc (flags_ p); write_uint1 alloc (decimals_ p); write_uint2 alloc 0].

Record ColumnCountPacket := mkColumnCountPacket { nof_columns_ : Z }.
#[export] Instance column_count_packet : DataPacket ColumnCountPacket := fun alloc p _ => write_uint alloc (nof_columns_ p).

Record HandshakePacket := mkHandshakePacket { hs_thread_id_ : Z; hs_character_set_nr_ : Z; hs_server_status_flags_ : Z; hs_scramble_ : bytes }.
(** [rand]: what [rand_r] returns. *)
Definition generate_scramble (rand : nat -> Z) : bytes :=
  (fun i => let c := Z.land (rand i) 0x7F in if (c =? 0) || (c =? 36) then c + 1 else c) <$> seq 0 20.
Definition new_handshake_packet (rand : nat -> Z) (thread_id character_set_nr : Z) : HandshakePacket :=
  mkHandshakePacket thread_id character_set_nr ob_binlog_server_status_flags (generate_scramble rand).
#[export] Instance handshake_packet : DataPacket HandshakePacket := fun alloc p client_capabilities =>
  write_seq [write_uint1 alloc 10; write_cstring alloc (str "5.7.35-obs"); write_uint4 alloc (hs_thread_id_ p);
    write_string alloc (first 8 (hs_scramble_ p)) false; write_uint1 alloc 0; write_uint2 alloc (u16 client_capabilities);
    write_uint1 alloc (hs_character_set_nr_ p); write_uint2 alloc (hs_server_status_flags_ p);
    write_uint2 alloc (Z.shiftr client_capabilities 16); write_uint1 alloc 21; write_string alloc (replicate 10 0) false;
    write_cstring alloc (skip 8 (hs_scramble_ p)); write_cstring alloc (str "mysql_native_password")].

(** ** Sending *)

Definition send {P} `{DataPacket P} (alloc : Z -> bytes) (data_packet : P) : conn IoResult :=
  clear_buf;;
  c ← get_conn;
  on_buf (serialize alloc data_packet (client_capabilities_ c));;
  send_data_packet.

Definition send_ok_packet (alloc : Z -> bytes) : conn IoResult := send alloc (mkOkPacket 0 0 ob_binlog_server_status_flags 0 []).
Definition send_eof_packet (alloc : Z -> bytes) : conn IoResult := send alloc (mkEofPacket 0 ob_binlog_server_status_flags).
Definition send_err_packet (alloc : Z -> bytes) (err_code : Z) (err_msg sql_state : bytes) : conn IoResult := fun c =>
  p ← new_err_packet err_code err_msg sql_state; send alloc p c.

Fixpoint send_columns (alloc : Z -> bytes) (l : list ColumnPacket) : conn IoResult :=
  match l with
  | [] => send_eof_packet alloc
  | p :: l => r ← send alloc p; if decide (r = SUCCESS) then send_columns alloc l else mret FAIL
  end.
Definition send_result_metadata (alloc : Z -> bytes) (column_packets : list ColumnPacket) : conn IoResult :=
  r ← send alloc (mkColumnCountPacket (u16 (zlen column_packets)));
  if decide (r = SUCCESS) then send_columns alloc column_packets else mret FAIL.

(** Rows, as [store_string], [store_uint64] and [store_null] put them into the buffer. *)
Inductive cell := Text (t : bytes) | Number (n : Z) | Null.
Definition start_row : conn unit := clear_buf.
Definition store_string (alloc : Z -> bytes) (value : bytes) (prefix_with_encoded_len : bool) : conn Z := on_buf (write_string alloc value prefix_with_encoded_len).
Definition store_uint64 (alloc : Z -> bytes) (value : Z) : conn Z := store_string alloc (to_dec value) true.
Definition store_null (alloc : Z -> bytes) : conn Z := on_buf (write_uint1 alloc 0xFB).
Definition store_cell (alloc : Z -> bytes) (x : cell) : conn Z :=
  match x with Text t => store_string alloc t true | Number n => store_uint64 alloc n | Null => store_null alloc end.
Fixpoint store_cells (alloc : Z -> bytes) (l : list cell) : conn unit :=
  match l with [] => mret tt | x :: l => store_cell alloc x;; store_cells alloc l end.

Definition killed (c : Connection) : bool := bool_decide (_killed c = KILL_QUERY \/ _killed c = KILL_CONNECTION).
Definition BINLOG_ERROR_WHEN_EXECUTING_COMMAND : Z := 1220.
Definition send_row (alloc : Z -> bytes) : conn IoResult :=
  c ← get_conn;
  if killed c then
    (if decide (_killed c = KILL_QUERY) then
       send_err_packet alloc BINLOG_ERROR_WHEN_EXECUTING_COMMAND (str "Query execution was interrupted") (str "HY000");; mret tt
     else mret tt);;
    mret KILL
  else send_data_packet.
(** The calls that a command makes for one row. *)
Definition put_row (alloc : Z -> bytes) (l : list cell) : conn IoResult := start_row;; store_cells alloc l;; send_row alloc.

(** ** The handshake *)

(** Before and after the last occurrence of a character. *)
Definition rsplit (ch : Z) (s : bytes) : option (bytes * bytes) :=
  match list_find (fun x => x = ch) (reverse s) with
  | Some (i, _) => Some (take (length s - S i) s, drop (length s - i) s)
  | None => None
  end.

(** [ob_full_user_name_pattern], user@tenant#cluster: a dot is no line end, and each group
    takes as much as it can. *)
Definition full_user_name (user : bytes) : option (bytes * bytes * bytes) :=
  if bool_decide (10 ∈ user \/ 13 ∈ user) then None
  else
    '(l, cluster) ← rsplit 35 user;
    '(u, tenant) ← rsplit 64 l;
    Some (u, tenant, cluster).

Definition as_user (user : bytes) (c : Connection) : Connection :=
  let sm := full_user_name user in
  mkConnection (sock_in c) (sock_out c) (sock_writes c) (pkt_buf_ c) (seq_no_ c) (client_capabilities_ c) (thread_id_ c) (_conn_type c) (sa_local c)
    (bool_decide (sm = None)) user (from_option (fun m => m.1.1) (ob_user_ c) sm) (from_option (fun m => m.1.2) (ob_tenant_ c) sm) (from_option snd (ob_cluster_ c) sm)
    (_connect_attrs c) (_real_host c) (_real_port c) (_auth_info c) (_session_vars c) (_server_command c) (_killed c).
Definition set_user (user : bytes) : conn unit := fun c => Done (tt, as_user user c).
Definition with_capabilities (n : Z) (c : Connection) : Connection :=
  mkConnection (sock_in c) (sock_out c) (sock_writes c) (pkt_buf_ c) (seq_no_ c) n (thread_id_ c) (_conn_type c) (sa_local c) (_is_admin c) (user_ c)
    (ob_user_ c) (ob_tenant_ c) (ob_cluster_ c) (_connect_attrs c) (_real_host c) (_real_port c) (_auth_info c) (_session_vars c) (_server_command c) (_killed c).
Definition set_capabilities (n : Z) : conn unit := fun c => Done (tt, with_capabilities n c).
Definition with_auth_info (i : AuthInfo) (c : Connection) : Connection :=
  mkConnection (sock_in c) (sock_out c) (sock_writes c) (pkt_buf_ c) (seq_no_ c) (client_capabilities_ c) (thread_id_ c) (_conn_type c) (sa_local c)
    (_is_admin c) (user_ c) (ob_user_ c) (ob_tenant_ c) (ob_cluster_ c) (_connect_attrs c) (_real_host c) (_real_port c) i (_session_vars c) (_server_command c) (_killed c).
Definition set_auth_info (i : AuthInfo) : conn unit := fun c => Done (tt, with_auth_info i c).
Definition add_attr (key value : bytes) : conn unit := fun c =>
  Done (tt, mkConnection (sock_in c) (sock_out c) (sock_writes c) (pkt_buf_ c) (seq_no_ c) (client_capabilities_ c) (thread_id_ c) (_conn_type c) (sa_local c)
    (_is_admin c) (user_ c) (ob_user_ c) (ob_tenant_ c) (ob_cluster_ c) (omap_emplace key value (_connect_attrs c))
    (if strcasecmp_eq key (str "__client_ip") then value else _real_host c)
    (if strcasecmp_eq key (str "__client_addr_port") then value else _real_port c) (_auth_info c) (_session_vars c) (_server_command c) (_killed c)).

(** One attribute string: what [attrs_len] loses, -1 when there is none. *)
Definition read_attr : conn (Z * bytes) :=
  r ← on_buf read_length_encoded_string;
  mret (default (-1, []) r).

(** [None]: still in the loop after [fuel] turns. *)
Fixpoint read_attrs (fuel : nat) (attrs_len : Z) : conn (option unit) :=
  if attrs_len =? 0 then mret (Some tt)
  else
    match fuel with
    | O => mret None
    | S fuel =>
        '(n, key) ← read_attr;
        '(m, value) ← read_attr;
        add_attr key value;;
        read_attrs fuel (u64 (u64 (attrs_len - n) - m))
    end.

Section Handshake.
Context (alloc : Z -> bytes) (memory : bytes).
Context (query_user_by_name : bytes -> option User) (instance_user instance_password : bytes) (enable_auth : bool).

Definition send_handshake_packet (rand : nat -> Z) : conn IoResult :=
  c ← get_conn;
  let handshake_pkt := new_handshake_packet rand (thread_id_ c) 33 in
  set_auth_info (mkAuthInfo (ai_user (_auth_info c)) (ai_password (_auth_info c)) (hs_scramble_ handshake_pkt) (ai_passwd_used (_auth_info c)));;
  send alloc handshake_pkt.

Definition send_reply (r : reply) : conn IoResult :=
  match r with SendOk => send_ok_packet alloc | SendErr code msg state => send_err_packet alloc code msg state end.

Definition auth_connection : conn IoResult := fun c =>
  match auth memory query_user_by_name instance_user instance_password (_conn_type c) (_auth_info c) with
  | Done r => send_reply r c
  | Crash => Crash
  end.

(** What follows the attributes. *)
Definition finish_handshake (user auth_response client_plugin_name : bytes) : conn IoResult :=
  c ← get_conn;
  if enable_auth && (negb (bool_decide (_conn_type c = OBI)) || negb (sa_local c)) then
    set_auth_info (mkAuthInfo user auth_response (ai_scramble (_auth_info c)) (negb (bool_decide (auth_response = []))));;
    if negb (beq (cstr client_plugin_name) (str "mysql_native_password")) then
      send_err_packet alloc BINLOG_ACCESS_DENIED_ERROR (str "Unsupported client plugin: " ++ client_plugin_name) (str "28000")
    else auth_connection
  else send_ok_packet alloc.

Definition read_auth_response (client_capabilities : Z) : conn bytes :=
  if has_capability client_capabilities client_plugin_auth_lenenc_client_data then
    r ← on_buf read_length_encoded_string; mret (match r with Some (_, t) => t | None => [] end)
  else
    n ← on_buf read_uint1;
    r ← on_buf (read_fixed_length_string (default 0 n)); mret (default [] r).

Definition read_string_if (b : bool) : conn bytes := if b then on_buf read_null_terminated_string else mret [].

(** What follows the authentication data.  The loop over the attributes has no bound of its
    own: [None] when it is still running. *)
Definition process_attrs (fuel : nat) (client_capabilities : Z) (user auth_response client_plugin_name : bytes) : conn (option IoResult) :=
  done_ ← (if has_capability client_capabilities client_connect_attrs then
             n ← on_buf read_uint; read_attrs fuel (match n with Some (_, v) => v | None => 0 end)
           else mret (Some tt));
  match done_ with
  | Some _ => r ← finish_handshake user auth_response client_plugin_name; mret (Some r)
  | None => mret None
  end.

(** The response up to the attributes, or the result when the handshake ends here. *)
Definition read_response : conn (option IoResult + Z * bytes * bytes * bytes) :=
  r ← read_data_packet alloc;
  if negb (bool_decide (r = Some SUCCESS)) then mret (inl (match r with Some _ => Some FAIL | None => None end))
  else
    flags ← on_buf read_uint4;
    let client_capabilities := default 0 flags in
    if negb (has_capability client_capabilities client_protocol_41) then mret (inl (Some FAIL))
    else
      c ← get_conn;
      set_capabilities (Z.land (client_capabilities_ c) client_capabilities);;
      on_buf read_uint4;;
      on_buf read_uint1;;
      on_buf (read_skip 23);;
      user ← on_buf read_null_terminated_string;
      set_user user;;
      auth_response ← read_auth_response client_capabilities;
      database ← read_string_if (has_capability client_capabilities client_connect_with_db);
      client_plugin_name ← read_string_if (has_capability client_capabilities client_plugin_auth);
      mret (inr (client_capabilities, user, auth_response, client_plugin_name)).

Definition process_handshake_response (fuel : nat) : conn (option IoResult) :=
  r ← read_response;
  match r with
  | inl result => mret result
  | inr (client_capabilities, user, auth_response, client_plugin_name) => process_attrs fuel client_capabilities user auth_response client_plugin_name
  end.

End Handshake.


(** ** Packets and their fields *)

(** What a packet promises to the operation that sends it: its fields, in the order of the
    protocol, and whether it insists on room that is there without growing the buffer. *)
Class PacketLaws (P : Type) `{DataPacket P} := {
  fields : P -> Z -> list field;
  pk_ok : P -> Z -> Prop;
  pk_asserts_room : bool;
  serialize_ok : forall alloc p caps s, (forall n, 0 <= n -> zlen (alloc n) = n) -> Forall field_ok (fields p caps) -> pk_ok p caps -> buf_ok s ->
    write_index_ s + zlen (encode_all (fields p caps)) <= (if pk_asserts_room then capacity_ s else max_capacity_ s) ->
    runs (serialize alloc p caps) s (fun _ s' => appended (encode_all (fields p caps)) s s')
}.

Lemma write_seq_ok alloc fs : (forall n, 0 <= n -> zlen (alloc n) = n) -> Forall field_ok fs -> forall s, buf_ok s ->
  write_index_ s + zlen (encode_all fs) <= max_capacity_ s ->
  runs (write_seq (write_field alloc <$> fs)) s (fun r s' => r = zlen (encode_all fs) /\ appended (encode_all fs) s s').
Proof.
  intros Ha. induction 1 as [|f fs Hf _ IH]; intros s Hs Hw; [by apply runs_ret; split; [|apply appended_nil]|]. rewrite encode_all_cons, zlen_app in *.
  pose proof (zlen_nonneg (encode_all fs)). pose proof (bo_max _ Hs) as Hm. unfold io_size in Hm. apply runs_bind.
  eapply runs_mono; [apply (write_field_ok alloc f Ha Hf s Hs); lia|]. intros r s1 H1. rewrite bool_decide_eq_true_2 in H1 by lia. destruct H1 as [-> H1].
  pose proof H1 as [Hok _ _ Hwi [Hmx _] _]. apply runs_bind. eapply runs_mono; [apply (IH s1 Hok); lia|]. intros r s2 [-> H2]. apply runs_ret. split; [done|]. by eapply appended_app.
Qed.

Lemma write_fields_ok alloc fs ws s : (forall n, 0 <= n -> zlen (alloc n) = n) -> Forall field_ok fs -> ws = write_field alloc <$> fs -> buf_ok s ->
  write_index_ s + zlen (encode_all fs) <= max_capacity_ s ->
  runs (write_seq ws) s (fun r s' => r = zlen (encode_all fs) /\ appended (encode_all fs) s s').
Proof. intros Ha Hf -> Hs Hw. by apply write_seq_ok. Qed.

(** A packet that asserts room for [n] bytes before it writes and [n] bytes written after. *)
Lemma asserting_ok alloc fs ws n s : (forall n, 0 <= n -> zlen (alloc n) = n) -> Forall field_ok fs -> ws = write_field alloc <$> fs -> buf_ok s ->
  zlen (encode_all fs) = n -> write_index_ s + zlen (encode_all fs) <= capacity_ s ->
  runs (passert (is_fast_writable_n n);; sz ← write_seq ws; passert (fun _ => n =? sz);; mret sz) s (fun _ s' => appended (encode_all fs) s s').
Proof.
  intros Ha Hf -> Hs Hn Hw. pose proof Hs as [_ Hc Hm [Hi1 Hi2]]. pose proof (zlen_nonneg (encode_all fs)). apply runs_bind. unfold passert at 1, runs at 1, is_fast_writable_n, fast_writable_bytes.
  rewrite u32_id by (unfold is_u32, io_size in *; lia). rewrite (proj2 (Z.leb_le _ _)) by lia. apply runs_bind.
  eapply runs_mono; [by apply (write_seq_ok alloc fs Ha Hf s Hs); lia|]. intros r s' [-> Hap]. apply runs_bind. unfold passert, runs at 1. rewrite Hn, Z.eqb_refl. by apply runs_ret.
Qed.

Definition err_fields (p : ErrPacket) (caps : Z) : list field :=
  [U1 0xFF; U2 (err_code_ p)] ++ (if has_capability caps client_protocol_41 then [U1 35; Fixed (sql_state_ p)] else []) ++ [Fixed (err_msg_ p)].
#[export, refine] Instance err_packet_laws : PacketLaws ErrPacket :=
  {| fields := err_fields; pk_ok p _ := zlen (sql_state_ p) = sql_state_length; pk_asserts_room := true |}.
Proof.
  intros alloc p caps s Ha Hf Hp Hs Hw. unfold serialize, err_packet, err_fields in *. apply (asserting_ok alloc); try done.
  - rewrite !fmap_app. by destruct (has_capability _ _).
  - unfold encode_all. rewrite !fmap_app, !join_app, !zlen_app. destruct (has_capability _ _); cbn [fmap list_fmap mjoin list_join encode];
      rewrite ?app_nil_r, ?zlen_app, ?zlen_le_split, ?zlen_nil, ?Hp; lia.
Defined.

Definition eof_fields (p : EofPacket) (caps : Z) : list field :=
  U1 0xFE :: (if has_capability caps client_protocol_41 then [U2 (eof_warnings_ p); U2 (eof_status_flags_ p)] else []).
#[export, refine] Instance eof_packet_laws : PacketLaws EofPacket := {| fields := eof_fields; pk_ok _ _ := True; pk_asserts_room := true |}.
Proof.
  intros alloc p caps s Ha Hf _ Hs Hw. unfold serialize, eof_packet, eof_fields in *. apply (asserting_ok alloc); try done; by destruct (has_capability _ _).
Defined.

Definition ok_fields (p : OkPacket) (caps : Z) : list field :=
  [U1 0; Lenenc (affected_rows_ p); Lenenc (last_insert_id_ p)] ++
  (if has_capability caps client_protocol_41 then [U2 (ok_status_flags_ p); U2 (ok_warnings_ p)]
   else if has_capability caps client_transactions then [U2 (ok_status_flags_ p)] else []) ++
  (if bool_decide (info_ p = []) then [] else [LenencStr (info_ p)]).
(** The server tracks no session state. *)
#[export, refine] Instance ok_packet_laws : PacketLaws OkPacket :=
  {| fields := ok_fields; pk_ok p _ := has_status_flag (ok_status_flags_ p) session_state_changed = false; pk_asserts_room := false |}.
Proof.
  intros alloc p caps s Ha Hf Hp Hs Hw. unfold serialize, ok_packet. apply runs_bind. eapply runs_mono; [apply (write_fields_ok alloc (ok_fields p caps)); try done|].
  - unfold ok_fields. rewrite Hp. cbn [orb]. rewrite !fmap_app. f_equal. f_equal; [by repeat destruct (has_capability _ _)|].
    case_bool_decide as Hi; [rewrite Hi; by destruct (has_capability _ _)|].
    assert (0 < zlen (info_ p)) by (destruct (info_ p); [done|]; rewrite zlen_cons; pose proof (zlen_nonneg l); lia). rewrite (proj2 (Z.ltb_lt _ _)) by done. by destruct (has_capability _ _).
  - intros r s' [_ H']. apply runs_bind. unfold passert, runs at 1. rewrite Hp, andb_false_r. by apply runs_ret.
Defined.

Definition column_fields (p : ColumnPacket) (_ : Z) : list field :=
  [LenencStr (str "def"); LenencStr (schema_ p); LenencStr (table_ p); LenencStr (origin_table_ p); LenencStr (name_ p); LenencStr (origin_name_ p);
   Lenenc 12; U2 (character_set_ p); U4 (length_ p); U1 (type_ p); U2 (flags_ p); U1 (decimals_ p); U2 0].
#[export, refine] Instance column_packet_laws : PacketLaws ColumnPacket := {| fields := column_fields; pk_ok _ _ := True; pk_asserts_room := false |}.
Proof.
  intros alloc p caps s Ha Hf _ Hs Hw. eapply runs_mono; [by apply (write_fields_ok alloc (column_fields p caps))|]. by intros r s' [_ H].
Defined.

#[export, refine] Instance column_count_packet_laws : PacketLaws ColumnCountPacket :=
  {| fields p _ := [Lenenc (nof_columns_ p)]; pk_ok _ _ := True; pk_asserts_room := false |}.
Proof.
  intros alloc p caps s Ha Hf _ Hs Hw. apply Forall_cons in Hf as [Hf _]. unfold encode_all in *. cbn in Hw |- *. rewrite app_nil_r in *. pose proof (bo_max _ Hs). unfold io_size in *.
  eapply runs_mono; [apply (write_field_ok alloc _ Ha Hf s Hs); cbn [encode]; lia|]. intros r s' H'. cbn [encode] in H'. rewrite bool_decide_eq_true_2 in H' by lia. by destruct H'.
Defined.

Definition handshake_fields (p : HandshakePacket) (caps : Z) : list field :=
  [U1 10; Fixed (str "5.7.35-obs" ++ [0]); U4 (hs_thread_id_ p); Fixed (first 8 (hs_scramble_ p)); U1 0; U2 (u16 caps); U1 (hs_character_set_nr_ p);
   U2 (hs_server_status_flags_ p); U2 (Z.shiftr caps 16); U1 21; Fixed (replicate 10 0); Fixed (skip 8 (hs_scramble_ p) ++ [0]); Fixed (str "mysql_native_password" ++ [0])].
#[export, refine] Instance handshake_packet_laws : PacketLaws HandshakePacket := {| fields := handshake_fields; pk_ok _ _ := True; pk_asserts_room := false |}.
Proof.
  intros alloc p caps s Ha Hf _ Hs Hw. eapply runs_mono; [by apply (write_fields_ok alloc (handshake_fields p caps))|]. by intros r s' [_ H].
Defined.

(** ** Sending, proved against the laws *)

(** Packets one after the other, each with its frames. *)
Fixpoint wires (seq : Z) (payloads : list bytes) : bytes :=
  match payloads with [] => [] | p :: ps => wire_of seq p ++ wires (seq + (Z.of_nat (full_frames p) + 1)) ps end.
Definition nframes (payloads : list bytes) : Z := foldr Z.add 0 ((fun p => Z.of_nat (full_frames p) + 1) <$> payloads).

Lemma wires_seq ps : forall s s', u8 s = u8 s' -> wires s ps = wires s' ps.
Proof.
  induction ps as [|p ps IH]; intros s s' E; [done|]. cbn [wires]. unfold wire_of. rewrite (frames_seq _ _ _ _ E). f_equal. apply IH. unfold u8 in *.
  by rewrite <-(Zplus_mod_idemp_l s), <-(Zplus_mod_idemp_l s'), E.
Qed.
Lemma nframes_app ps qs : nframes (ps ++ qs) = nframes ps + nframes qs.
Proof. unfold nframes. induction ps as [|p ps IH]; [done|]. cbn [app fmap list_fmap foldr] in *. lia. Qed.
Lemma wires_app ps qs : forall seq, wires seq (ps ++ qs) = wires seq ps ++ wires (seq + nframes ps) qs.
Proof.
  induction ps as [|p ps IH]; intros seq; [cbn; by rewrite Z.add_0_r|]. cbn [app wires]. rewrite IH, <-app_assoc. do 3 f_equal. unfold nframes. cbn [fmap list_fmap foldr]. lia.
Qed.

Record ready (c : Connection) : Prop := { rd_writes : calm_writes (sock_writes c); rd_buf : buf_ok (pkt_buf_ c) }.

Record delivered (payloads : list bytes) (c c' : Connection) : Prop := {
  dl_sent : sent (wires (seq_no_ c) payloads) (nframes payloads) c c';
  dl_buf : buf_ok (pkt_buf_ c');
  dl_limits : min_capacity_ (pkt_buf_ c') = min_capacity_ (pkt_buf_ c) /\ max_capacity_ (pkt_buf_ c') = max_capacity_ (pkt_buf_ c)
}.
Definition delivers (m : conn IoResult) (payloads : list bytes) (c : Connection) : Prop :=
  runs m c (fun r c' => r = SUCCESS /\ delivered payloads c c').

Lemma delivered_ready ps c c' : delivered ps c c' -> ready c'.
Proof. intros [[_ H _ _] Hb _]. by split. Qed.
Lemma delivered_caps ps c c' : delivered ps c c' -> client_capabilities_ c' = client_capabilities_ c.
Proof. intros [[_ _ _ H] _ _]. unfold identity_of, self_of in H. congruence. Qed.
Lemma delivered_app ps qs c c1 c2 : delivered ps c c1 -> delivered qs c1 c2 -> delivered (ps ++ qs) c c2.
Proof.
  intros [A1 A2 [A3 A4]] [B1 B2 [B3 B4]]. split; [|done|split; congruence]. rewrite wires_app, nframes_app. eapply sent_app; [done|].
  rewrite (wires_seq qs _ (seq_no_ c1)); [done|]. destruct A1 as [_ _ -> _]. unfold u8. by rewrite Z.mod_mod.
Qed.

(** One after the other, when the first succeeds. *)
Lemma delivers_then m k ps qs c : delivers m ps c -> (forall c', delivered ps c c' -> delivers k qs c') ->
  delivers (r ← m; if decide (r = SUCCESS) then k else mret FAIL) (ps ++ qs) c.
Proof.
  intros Hm Hk. apply runs_bind. eapply runs_mono; [exact Hm|]. intros r c1 [-> H1]. rewrite decide_True by done.
  eapply runs_mono; [by apply Hk|]. intros r c2 [-> H2]. split; [done|]. by eapply delivered_app.
Qed.

Lemma send_data_packet_delivers c : ready c -> delivers send_data_packet [pending (pkt_buf_ c)] c.
Proof.
  intros [Hw Hb]. eapply runs_mono; [by apply send_data_packet_ok|]. intros r c' (-> & Hs & Hb' & _ & (_ & _ & H1 & H2)). split; [done|]. split; [|done|done].
  cbn [wires]. rewrite app_nil_r. unfold nframes. cbn [fmap list_fmap foldr]. by rewrite Z.add_0_r.
Qed.

(** A packet of [P] that the buffer has room for. *)
Definition packet_fits {P} `{PacketLaws P} (p : P) (caps lo hi : Z) : Prop :=
  Forall field_ok (fields p caps) /\ pk_ok p caps /\ zlen (encode_all (fields p caps)) <= (if pk_asserts_room then lo else hi).

Section Sending.
Context (alloc : Z -> bytes) (alloc_len : forall n, 0 <= n -> zlen (alloc n) = n).

(** What was written into the cleared buffer goes out as one packet. *)
Lemma built_delivers {A} (m : pbuf A) (k : A -> conn IoResult) data c : ready c ->
  runs m (clear (pkt_buf_ c)) (fun _ b => appended data (clear (pkt_buf_ c)) b) ->
  (forall x b c', c' = with_pkt_buf b c -> ready c' -> pending b = data -> delivers (k x) [data] c') ->
  delivers (clear_buf;; x ← on_buf m; k x) [data] c.
Proof.
  intros [Hw Hb] Hm Hk. apply clear_buf_ok, runs_bind, runs_on_buf. eapply runs_mono; [exact Hm|]. intros x b Hap. destruct (clear_ok _ Hb) as [Hcb Hp].
  eapply runs_mono; [apply (Hk x b); [done|by split; [|destruct Hap]|rewrite (ap_pending _ _ _ Hap); cbn [pkt_buf_ with_pkt_buf]; by rewrite Hp]|].
  intros r c' [-> [Hs Hb' [Hl1 Hl2]]]. split; [done|]. destruct (ap_max _ _ _ Hap) as [Hm1 Hm2]. cbn in Hl1, Hl2, Hm1, Hm2. split; [by destruct Hs|done|split; congruence].
Qed.

Lemma send_delivers {P} `{PacketLaws P} (p : P) c : ready c ->
  packet_fits p (client_capabilities_ c) (min_capacity_ (pkt_buf_ c)) (max_capacity_ (pkt_buf_ c)) ->
  delivers (send alloc p) [encode_all (fields p (client_capabilities_ c))] c.
Proof.
  intros Hr (Hf & Hok & Hz). pose proof Hr as [_ Hb]. unfold send. apply clear_buf_ok, runs_get_conn. cbn [client_capabilities_ with_pkt_buf].
  apply (built_delivers (serialize alloc p (client_capabilities_ c)) (fun _ => send_data_packet) _ c Hr).
  - apply serialize_ok; try done; [by apply clear_ok|]. destruct Hb as [_ [Hc1 Hc2] _ _]. cbn [write_index_ clear set_error_msg set_write_index]. destruct pk_asserts_room; cbn; lia.
  - intros x b c' -> Hr' Hp. apply send_data_packet_delivers in Hr'. cbn [pkt_buf_ with_pkt_buf] in Hr'. by rewrite Hp in Hr'.
Qed.

Lemma send_columns_delivers l : forall c, ready c -> packet_fits (mkEofPacket 0 ob_binlog_server_status_flags) (client_capabilities_ c) (min_capacity_ (pkt_buf_ c)) (max_capacity_ (pkt_buf_ c)) ->
  Forall (fun p : ColumnPacket => packet_fits p (client_capabilities_ c) (min_capacity_ (pkt_buf_ c)) (max_capacity_ (pkt_buf_ c))) l ->
  delivers (send_columns alloc l)
    (((fun p : ColumnPacket => encode_all (fields p (client_capabilities_ c))) <$> l) ++ [encode_all (fields (mkEofPacket 0 ob_binlog_server_status_flags) (client_capabilities_ c))]) c.
Proof.
  induction l as [|p l IH]; intros c Hr He Hl; [by apply (send_delivers (mkEofPacket 0 ob_binlog_server_status_flags))|].
  apply Forall_cons in Hl as [Hp Hl]. cbn [send_columns fmap list_fmap app]. apply (delivers_then (send alloc p) (send_columns alloc l) [_]); [by apply send_delivers|].
  intros c1 H1. pose proof (delivered_caps _ _ _ H1) as Ec. destruct (dl_limits _ _ _ H1) as [E1 E2]. rewrite <-Ec. apply IH; [by eapply delivered_ready| |]; by rewrite Ec, E1, E2.
Qed.

(** The fields of a row. *)
Definition cell_field (x : cell) : field :=
  match x with Text t => LenencStr t | Number n => LenencStr (to_dec n) | Null => U1 0xFB end.

Lemma store_cells_ok l : forall c (Q : unit -> Connection -> Prop),
  Forall field_ok (cell_field <$> l) -> buf_ok (pkt_buf_ c) -> write_index_ (pkt_buf_ c) + zlen (encode_all (cell_field <$> l)) <= max_capacity_ (pkt_buf_ c) ->
  (forall b, appended (encode_all (cell_field <$> l)) (pkt_buf_ c) b -> Q tt (with_pkt_buf b c)) -> runs (store_cells alloc l) c Q.
Proof.
  induction l as [|x l IH]; intros c Q Hf Hb Hw HQ.
  { apply runs_ret. specialize (HQ (pkt_buf_ c) (appended_nil _ Hb)). by destruct c. }
  cbn [fmap list_fmap] in *. apply Forall_cons in Hf as [Hx Hf]. rewrite encode_all_cons, zlen_app in *. pose proof (zlen_nonneg (encode_all (cell_field <$> l))).
  pose proof (bo_max _ Hb) as Hm. unfold io_size in Hm. cbn [store_cells]. apply runs_bind.
  assert (store_cell alloc x = on_buf (write_field alloc (cell_field x))) as -> by (by destruct x). apply runs_on_buf.
  eapply runs_mono; [apply (write_field_ok alloc _ alloc_len Hx _ Hb); lia|]. intros r b H1. rewrite bool_decide_eq_true_2 in H1 by lia. destruct H1 as [_ H1].
  destruct (ap_max _ _ _ H1) as [Hmx _]. apply IH; [done|by destruct H1|cbn [pkt_buf_ with_pkt_buf]; rewrite Hmx, (ap_write _ _ _ H1); lia|]. intros b2 H2. apply HQ. by eapply appended_app.
Qed.

Definition row_fits (l : list cell) (hi : Z) : Prop := Forall field_ok (cell_field <$> l) /\ zlen (encode_all (cell_field <$> l)) <= hi.

Lemma put_row_delivers l c : ready c -> _killed c = NOT_KILLED -> row_fits l (max_capacity_ (pkt_buf_ c)) ->
  delivers (put_row alloc l) [encode_all (cell_field <$> l)] c.
Proof.
  intros Hr Hk [Hf Hz]. pose proof Hr as [Hw Hb]. unfold put_row, start_row. apply clear_buf_ok, runs_bind. destruct (clear_ok _ Hb) as [Hcb Hp].
  apply store_cells_ok; [done|done|cbn; lia|]. cbn [pkt_buf_ with_pkt_buf]. intros b Hap. unfold send_row. apply runs_get_conn. unfold killed. cbn [_killed with_pkt_buf].
  rewrite Hk, bool_decide_eq_false_2 by (by intros [?|?]).
  eapply runs_mono; [apply send_data_packet_delivers; split; [done|by destruct Hap]|]. intros r c' [-> [Hs Hb' [Hl1 Hl2]]]. split; [done|].
  cbn [pkt_buf_ with_pkt_buf] in *. rewrite (ap_pending _ _ _ Hap), Hp in Hs. destruct (ap_max _ _ _ Hap) as [Hm1 Hm2]. split; [by destruct Hs|done|]. cbn in Hm1, Hm2. split; congruence.
Qed.

End Sending.

(** ** The scramble and the user *)

Lemma generate_scramble_ok rand : zlen (generate_scramble rand) = 20 /\ (0 ∉ generate_scramble rand) /\ Forall is_u8 (generate_scramble rand).
Proof.
  split; [unfold generate_scramble; by rewrite zlen_fmap|]. assert (Forall (fun x => 0 < x < 128) (generate_scramble rand)) as H.
  - apply Forall_fmap, Forall_true. intros i. cbn. set (c := Z.land (rand i) 127).
    assert (0 <= c < 128) as Hc by (unfold c; change 127 with (Z.ones 7); rewrite Z.land_ones by lia; apply Z.mod_pos_bound; lia).
    destruct (Z.eqb_spec c 0); [cbn; lia|]. destruct (Z.eqb_spec c 36); cbn; lia.
  - rewrite Forall_forall in H. split; [intros Hin; apply H in Hin; lia|]. apply Forall_forall. intros x Hx. apply H in Hx. unfold is_u8. lia.
Qed.

Lemma rsplit_app ch a b : ch ∉ b -> rsplit ch (a ++ ch :: b) = Some (a, b).
Proof.
  intros Hb. unfold rsplit. assert (list_find (fun x => x = ch) (reverse (a ++ ch :: b)) = Some (length b, ch)) as ->.
  - rewrite reverse_app, reverse_cons, <-app_assoc. apply list_find_Some. split_and!; [|done|].
    + rewrite lookup_app_r by (rewrite length_reverse; lia). by rewrite length_reverse, Nat.sub_diag.
    + intros j y Hj Hlt ->. rewrite lookup_app_l in Hj by (rewrite length_reverse; lia). apply Hb, elem_of_reverse. by eapply list_elem_of_lookup_2.
  - rewrite length_app. cbn [length]. replace (length a + S (length b) - S (length b))%nat with (length a) by lia. replace (length a + S (length b) - length b)%nat with (S (length a)) by lia.
    f_equal. f_equal; [by apply take_app_length'|]. rewrite drop_app_ge by lia. by replace (S (length a) - length a)%nat with 1%nat by lia.
Qed.
Lemma rsplit_none ch s : ch ∉ s -> rsplit ch s = None.
Proof.
  intros H. unfold rsplit. assert (list_find (fun x => x = ch) (reverse s) = None) as ->; [|done]. apply list_find_None, Forall_forall. intros x Hx ->. by apply H, elem_of_reverse.
Qed.

(** A user name of the form user@tenant#cluster is taken apart into its three parts, the
    tenant without an at sign and the cluster without a hash; a name without a hash, or
    without an at sign before it, is an administrator's. *)
Theorem full_user_name_spec user :
  (forall u t k, ~ (10 ∈ user \/ 13 ∈ user) -> 64 ∉ t -> 35 ∉ k -> user = u ++ 64 :: t ++ 35 :: k -> full_user_name user = Some (u, t, k)) /\
  (35 ∉ user -> full_user_name user = None) /\
  (forall l k, user = l ++ 35 :: k -> 35 ∉ k -> 64 ∉ l -> full_user_name user = None).
Proof.
  unfold full_user_name. split_and!.
  - intros u t k Hn Ht Hk ->. rewrite bool_decide_eq_false_2 by done. rewrite app_comm_cons, app_assoc, rsplit_app by done. cbn [mbind option_bind]. by rewrite rsplit_app.
  - intros H. case_bool_decide; [done|]. by rewrite rsplit_none.
  - intros l k -> Hk Hl. case_bool_decide; [done|]. rewrite rsplit_app by done. cbn [mbind option_bind]. by rewrite rsplit_none.
Qed.

(** ** What a client can do before it is authenticated *)

(** A stretch of the loop in which nothing is left to read. *)
Lemma read_attr_empty c : buf_ok (pkt_buf_ c) -> pending (pkt_buf_ c) = [] ->
  runs read_attr c (fun r c' => r = (-1, []) /\ buf_ok (pkt_buf_ c') /\ pending (pkt_buf_ c') = []).
Proof.
  intros Hb Hp. apply runs_bind, runs_on_buf, runs_bind, runs_bind. eapply runs_mono; [by apply ensure_readable_ok|]. intros ok b [Hc ->]. rewrite Hp.
  rewrite bool_decide_eq_false_2 by (rewrite zlen_nil; lia). do 3 apply runs_ret. split; [done|]. split; [by destruct Hc|]. by apply (consumed_pending (pkt_buf_ c)).
Qed.

Lemma read_attrs_spins fuel : forall attrs_len c, buf_ok (pkt_buf_ c) -> pending (pkt_buf_ c) = [] -> Z.odd attrs_len = true ->
  runs (read_attrs fuel attrs_len) c (fun r _ => r = None).
Proof.
  induction fuel as [|fuel IH]; intros n c Hb Hp Ho; cbn [read_attrs]; (destruct (Z.eqb_spec n 0) as [->|_]; [done|]); [by apply runs_ret|].
  apply runs_bind. eapply runs_mono; [by apply read_attr_empty|]. intros r c1 (-> & Hb1 & Hp1). apply runs_bind. eapply runs_mono; [by apply read_attr_empty|].
  intros r c2 (-> & Hb2 & Hp2). apply runs_bind. unfold add_attr, runs at 1. apply IH; [done|done|].
  unfold u64. rewrite Zminus_mod_idemp_l. replace (n - -1 - -1) with (n + 2 * 1) by lia. 
  rewrite <-Z.bit0_odd in *. rewrite Z.mod_pow2_bits_low by lia. rewrite Z.bit0_odd in *. by rewrite Z.odd_add_mul_2.
Qed.

(** ** A handshake response *)

Record response := mkResponse {
  rs_flags : Z; rs_max_packet : Z; rs_charset : Z; rs_reserved : bytes; rs_user : bytes; rs_auth : bytes; rs_database : bytes; rs_plugin : bytes }.

(** The fields that Protocol::HandshakeResponse41 has, up to the attributes. *)
Definition response_fields (r : response) : list field :=
  [U4 (rs_flags r); U4 (rs_max_packet r); U1 (rs_charset r); Fixed (rs_reserved r); Fixed (rs_user r ++ [0])] ++
  (if has_capability (rs_flags r) client_plugin_auth_lenenc_client_data then [LenencStr (rs_auth r)] else [U1 (zlen (rs_auth r)); Fixed (rs_auth r)]) ++
  (if has_capability (rs_flags r) client_connect_with_db then [Fixed (rs_database r ++ [0])] else []) ++
  (if has_capability (rs_flags r) client_plugin_auth then [Fixed (rs_plugin r ++ [0])] else []).

Record response_ok (r : response) : Prop := {
  ro_fields : Forall field_ok (response_fields r);
  ro_41 : has_capability (rs_flags r) client_protocol_41 = true;
  ro_reserved : zlen (rs_reserved r) = 23;
  ro_user : 0 ∉ rs_user r;
  ro_database : 0 ∉ rs_database r;
  ro_plugin : 0 ∉ rs_plugin r;
  ro_absent : has_capability (rs_flags r) client_plugin_auth = false -> rs_plugin r = []
}.

Lemma run_reads {A B} (m : pbuf (option A)) data x (k : option A -> conn B) rest c Q :
  reads m data x -> buf_ok (pkt_buf_ c) -> pending (pkt_buf_ c) = data ++ rest ->
  (forall b, buf_ok b -> same_block (pkt_buf_ c) b -> pending b = rest -> runs (k (Some x)) (with_pkt_buf b c) Q) -> runs (on_buf m ≫= k) c Q.
Proof.
  intros Hm Hb Hp Hk. apply runs_bind, runs_on_buf. eapply runs_mono; [exact (Hm (pkt_buf_ c) rest Hb Hp)|]. intros r b [-> Hcs]. pose proof (consumed_block _ _ _ Hcs) as Hsb. destruct Hcs as [Hb' Hp' _ _]. apply Hk; [done|done|].
  rewrite Hp in Hp'. by apply app_inv_head in Hp'.
Qed.

Lemma run_reads_string {B} t (k : bytes -> conn B) rest c Q :
  0 ∉ t -> buf_ok (pkt_buf_ c) -> pending (pkt_buf_ c) = (t ++ [0]) ++ rest ->
  (forall b, buf_ok b -> same_block (pkt_buf_ c) b -> pending b = rest -> runs (k t) (with_pkt_buf b c) Q) -> runs (on_buf read_null_terminated_string ≫= k) c Q.
Proof.
  intros Ht Hb Hp Hk. apply runs_bind, runs_on_buf. rewrite <-app_assoc in Hp.
  eapply runs_mono; [exact (read_null_terminated_string_ok t rest _ Hb Hp Ht)|]. intros r b [-> Hcs]. pose proof (consumed_block _ _ _ Hcs) as Hsb. destruct Hcs as [Hb' Hp' _ _]. apply Hk; [done|done|].
  rewrite Hp, <-app_assoc in Hp'. apply app_inv_head in Hp'. by injection Hp'.
Qed.

Lemma encode_all_app a b : encode_all (a ++ b) = encode_all a ++ encode_all b.
Proof. unfold encode_all. by rewrite fmap_app, join_app. Qed.

Lemma run_reads_uint4 {B} v (k : option Z -> conn B) rest c Q : 0 <= v < 2 ^ 32 -> buf_ok (pkt_buf_ c) -> pending (pkt_buf_ c) = encode (U4 v) ++ rest ->
  (forall b, buf_ok b -> same_block (pkt_buf_ c) b -> pending b = rest -> runs (k (Some v)) (with_pkt_buf b c) Q) -> runs (on_buf read_uint4 ≫= k) c Q.
Proof. intros Hv. apply run_reads. pose proof (read_n_ok 4 le_combine (encode (U4 v))) as H. cbn [encode] in H. rewrite (le_combine_split_id 4 v) in H by lia. by apply H. Qed.
Lemma run_reads_uint1 {B} v (k : option Z -> conn B) rest c Q : 0 <= v < 2 ^ 8 -> buf_ok (pkt_buf_ c) -> pending (pkt_buf_ c) = encode (U1 v) ++ rest ->
  (forall b, buf_ok b -> same_block (pkt_buf_ c) b -> pending b = rest -> runs (k (Some v)) (with_pkt_buf b c) Q) -> runs (on_buf read_uint1 ≫= k) c Q.
Proof. intros Hv. apply run_reads. pose proof (read_n_ok 1 le_combine (encode (U1 v))) as H. cbn [encode] in H. rewrite (le_combine_split_id 1 v) in H by lia. by apply H. Qed.

Lemma read_auth_response_ok r rest c : Forall field_ok (response_fields r) -> buf_ok (pkt_buf_ c) ->
  pending (pkt_buf_ c) = encode_all (if has_capability (rs_flags r) client_plugin_auth_lenenc_client_data then [LenencStr (rs_auth r)] else [U1 (zlen (rs_auth r)); Fixed (rs_auth r)]) ++ rest ->
  runs (read_auth_response (rs_flags r)) c (fun t c' => t = rs_auth r /\ exists b, c' = with_pkt_buf b c /\ buf_ok b /\ same_block (pkt_buf_ c) b /\ pending b = rest).
Proof.
  intros Hf Hb Hp. unfold read_auth_response. unfold response_fields in Hf. rewrite !Forall_app in Hf. destruct Hf as (_ & Hf & _). pose proof (zlen_nonneg (rs_auth r)).
  destruct (has_capability (rs_flags r) client_plugin_auth_lenenc_client_data); unfold encode_all in Hp; cbn [fmap list_fmap mjoin list_join encode] in Hp; rewrite ?app_nil_r in Hp.
  - apply Forall_cons in Hf as [Hf _]. cbn in Hf. eapply run_reads; [apply (read_length_encoded_string_ok (rs_auth r)); unfold is_u32; lia|done|exact Hp|].
    intros b Hb' Hsb Hp'. apply runs_ret. split; [done|]. by exists b.
  - apply Forall_cons in Hf as [Hf1 Hf]. apply Forall_cons in Hf as [Hf2 _]. cbn in Hf1, Hf2. rewrite <-app_assoc in Hp. eapply run_reads_uint1; [exact Hf1|done|exact Hp|].
    intros b Hb' Hsb Hp'. cbn [default]. eapply run_reads; [apply (read_n_ok (u32 (zlen (rs_auth r))) id (rs_auth r)); rewrite u32_id by (unfold is_u32; lia); done|done|exact Hp'|].
    intros b2 Hb2 Hsb2 Hp2. apply runs_ret. split; [done|]. exists b2. split_and!; try done. by eapply same_block_trans.
Qed.

Lemma read_string_if_ok (cond : bool) t rest c : 0 ∉ t -> buf_ok (pkt_buf_ c) -> pending (pkt_buf_ c) = encode_all (if cond then [Fixed (t ++ [0])] else []) ++ rest ->
  runs (read_string_if cond) c (fun s c' => s = (if cond then t else []) /\ exists b, c' = with_pkt_buf b c /\ buf_ok b /\ same_block (pkt_buf_ c) b /\ pending b = rest).
Proof.
  intros Ht Hb Hp. unfold read_string_if. destruct cond; unfold encode_all in Hp; cbn [fmap list_fmap mjoin list_join encode] in Hp; rewrite ?app_nil_r in Hp.
  - apply runs_on_buf. rewrite <-app_assoc in Hp. eapply runs_mono; [exact (read_null_terminated_string_ok t rest _ Hb Hp Ht)|]. intros s b [-> Hcs]. pose proof (consumed_block _ _ _ Hcs). destruct Hcs as [Hb' Hp' _ _]. split; [done|].
    exists b. split_and!; try done. rewrite Hp, <-app_assoc in Hp'. apply app_inv_head in Hp'. by injection Hp'.
  - apply runs_ret. split; [done|]. exists (pkt_buf_ c). split; [by destruct c|]. by split_and!.
Qed.

Section Response.
Context (alloc : Z -> bytes) (alloc_len : forall n, 0 <= n -> zlen (alloc n) = n) (memory : bytes).
Context (query_user_by_name : bytes -> option User) (instance_user instance_password : bytes) (enable_auth : bool).

(** The connection once the response is read, up to the attributes. *)
Definition responded (r : response) (b : PacketBuf) (c : Connection) : Connection :=
  with_pkt_buf b (as_user (rs_user r) (with_capabilities (Z.land (client_capabilities_ c) (rs_flags r)) c)).

Lemma read_response_ok r attrs rest c : response_ok r ->
  calm (sock_in c) -> incoming_bytes (sock_in c) = wire_of (seq_no_ c) (encode_all (response_fields r) ++ attrs) ++ rest ->
  is_u8 (seq_no_ c) -> buf_ok (pkt_buf_ c) -> zlen (encode_all (response_fields r) ++ attrs) <= max_capacity_ (pkt_buf_ c) ->
  exists c0 b, read_response alloc c = Done (inr (rs_flags r, rs_user r, rs_auth r, rs_plugin r), responded r b c0) /\
    received (encode_all (response_fields r) ++ attrs) rest (Z.of_nat (full_frames (encode_all (response_fields r) ++ attrs)) + 1) (with_pkt_buf (clear (pkt_buf_ c)) c) c0 /\
    buf_ok b /\ same_block (pkt_buf_ c0) b /\ pending b = attrs.
Proof.
  intros [Hf H41 Hres Hu Hd Hpl Habs] Hc Hin Hseq Hb Hz.
  cut (runs (read_response alloc) c (fun x c' => x = inr (rs_flags r, rs_user r, rs_auth r, rs_plugin r) /\ exists c0 b, c' = responded r b c0 /\
    received (encode_all (response_fields r) ++ attrs) rest (Z.of_nat (full_frames (encode_all (response_fields r) ++ attrs)) + 1) (with_pkt_buf (clear (pkt_buf_ c)) c) c0 /\
    buf_ok b /\ same_block (pkt_buf_ c0) b /\ pending b = attrs)).
  { intros H. apply runs_done in H as (x & c' & E & -> & c0 & b & -> & H). by exists c0, b. }
  unfold read_response. apply runs_bind.
  eapply runs_mono; [exact (read_data_packet_ok alloc alloc_len _ rest c Hc Hin Hseq Hb Hz)|]. intros res c0 (-> & Hb0 & Hp0 & Hrec). rewrite bool_decide_eq_true_2 by done. cbn [negb].
  pose proof Hf as Hf'. unfold response_fields in Hp0, Hf'. rewrite !encode_all_app, <-!app_assoc in Hp0. rewrite !Forall_app in Hf'. destruct Hf' as (Hf1 & Hf2 & Hf3 & Hf4).
  apply Forall_cons in Hf1 as [F1 Hf1]. apply Forall_cons in Hf1 as [F2 Hf1]. apply Forall_cons in Hf1 as [F3 _]. rewrite !encode_all_cons, <-!app_assoc in Hp0. cbn in F1, F2, F3.
  eapply run_reads_uint4; [exact F1|done|exact Hp0|]. intros b1 Hb1 Hs1 Hp1. cbn zeta. change (default 0 (Some (rs_flags r))) with (rs_flags r). rewrite H41. cbn [negb]. apply runs_get_conn, runs_bind. unfold set_capabilities, runs at 1.
  eapply run_reads_uint4; [exact F2|done|exact Hp1|]. intros b2 Hb2 Hs2 Hp2. eapply run_reads_uint1; [exact F3|done|exact Hp2|]. intros b3 Hb3 Hs3 Hp3.
  eapply run_reads; [apply (read_n_ok (u32 23) (fun _ => tt) (rs_reserved r)); exact Hres|done|exact Hp3|]. intros b4 Hb4 Hs4 Hp4.
  eapply run_reads_string; [exact Hu|done|exact Hp4|]. intros b5 Hb5 Hs5 Hp5. apply runs_bind. unfold set_user, runs at 1. apply runs_bind.
  eapply runs_mono; [eapply (read_auth_response_ok r); [exact Hf|exact Hb5|exact Hp5]|]. intros t c6 (-> & b6 & -> & Hb6 & Hs6 & Hp6). apply runs_bind.
  eapply runs_mono; [eapply (read_string_if_ok _ (rs_database r)); [exact Hd|exact Hb6|exact Hp6]|]. intros t7 c7 (_ & b7 & -> & Hb7 & Hs7 & Hp7). apply runs_bind.
  eapply runs_mono; [eapply (read_string_if_ok _ (rs_plugin r)); [exact Hpl|exact Hb7|exact Hp7]|]. intros t8 c8 (-> & b8 & -> & Hb8 & Hs8 & Hp8).
  replace (if has_capability (rs_flags r) client_plugin_auth then rs_plugin r else []) with (rs_plugin r) by (destruct (has_capability (rs_flags r) client_plugin_auth); [done|by apply Habs]).
  apply runs_ret. split; [done|]. exists c0, b8. split_and!; try done. cbn in *. repeat (eapply same_block_trans; [eassumption|]). by repeat split.
Qed.

(** *** The answer *)

Definition reply_fields (r : reply) (caps : Z) : list field :=
  match r with
  | SendOk => fields (mkOkPacket 0 0 ob_binlog_server_status_flags 0 []) caps
  | SendErr code msg state => fields (mkErrPacket code msg state) caps
  end.
Definition reply_ok (r : reply) : Prop :=
  match r with SendOk => True | SendErr code msg state => 0 <= code < 2 ^ 16 /\ zlen msg <= max_err_msg_sz /\ zlen state = sql_state_length end.

Lemma zlen_ok_fields caps : zlen (encode_all (reply_fields SendOk caps)) <= 7.
Proof. cbn [reply_fields fields ok_packet_laws]. unfold ok_fields. by repeat destruct (has_capability _ _). Qed.

Lemma send_reply_delivers r c : ready c -> reply_ok r -> 1024 <= min_capacity_ (pkt_buf_ c) ->
  delivers (send_reply alloc r) [encode_all (reply_fields r (client_capabilities_ c))] c.
Proof.
  intros Hr Hok Hmin. pose proof (bo_caps _ (rd_buf _ Hr)) as Hcap. destruct r as [|code msg state]; cbn [send_reply].
  - apply (send_delivers alloc alloc_len (mkOkPacket _ _ _ _ _) c Hr). split_and!; [|done|].
    + unfold fields, ok_packet_laws, ok_fields. by repeat destruct (has_capability _ _); repeat (apply Forall_cons; split; [done|]); apply Forall_nil.
    + cbn [pk_asserts_room ok_packet_laws]. pose proof (zlen_ok_fields (client_capabilities_ c)). cbn [reply_fields] in *. lia.
  - destruct Hok as (Hc & Hm & Hst). unfold send_err_packet, new_err_packet. rewrite (proj2 (Z.leb_le _ _)), (proj2 (Z.eqb_eq _ _)) by done. cbn [andb mbind outcome_bind].
    apply (send_delivers alloc alloc_len (mkErrPacket code msg state) c Hr). unfold max_err_msg_sz, sql_state_length in *. pose proof (zlen_nonneg msg). split_and!; [|done|].
    + unfold fields, err_packet_laws, err_fields. apply Forall_app. split; [apply Forall_cons; split; [done|]; apply Forall_cons; split; [cbn; lia|by apply Forall_nil]|].
      apply Forall_app. split; [|apply Forall_cons; split; [cbn; lia|by apply Forall_nil]]. destruct (has_capability _ _); [|by apply Forall_nil].
      apply Forall_cons; split; [done|]; apply Forall_cons; split; [cbn; lia|by apply Forall_nil].
    + cbn [pk_asserts_room err_packet_laws fields]. unfold err_fields, encode_all. rewrite !fmap_app, !join_app, !zlen_app.
      destruct (has_capability _ _); cbn [fmap list_fmap mjoin list_join encode]; rewrite ?app_nil_r, ?zlen_app, ?zlen_le_split, ?zlen_nil; cbn [err_msg_ sql_state_]; lia.
Qed.

(** What the server makes of the credentials. *)
Definition verdict (c : Connection) (user auth_response client_plugin_name : bytes) : outcome reply :=
  if enable_auth && (negb (bool_decide (_conn_type c = OBI)) || negb (sa_local c)) then
    if negb (beq (cstr client_plugin_name) (str "mysql_native_password"))
    then Done (SendErr BINLOG_ACCESS_DENIED_ERROR (str "Unsupported client plugin: " ++ client_plugin_name) (str "28000"))
    else auth memory query_user_by_name instance_user instance_password (_conn_type c)
           (mkAuthInfo user auth_response (ai_scramble (_auth_info c)) (negb (bool_decide (auth_response = []))))
  else Done SendOk.

Lemma finish_handshake_ok user auth_response plugin answer c : ready c -> verdict c user auth_response plugin = Done answer -> reply_ok answer -> 1024 <= min_capacity_ (pkt_buf_ c) ->
  runs (finish_handshake alloc memory query_user_by_name instance_user instance_password enable_auth user auth_response plugin) c (fun r c' => r = SUCCESS /\
    exists i, delivered [encode_all (reply_fields answer (client_capabilities_ c))] (with_auth_info i c) c').
Proof.
  intros Hr Hv Hok Hmin. unfold finish_handshake. apply runs_get_conn. unfold verdict in Hv. destruct (enable_auth && _).
  - apply runs_bind. unfold set_auth_info, runs at 1. set (i := mkAuthInfo _ _ _ _) in *. assert (ready (with_auth_info i c)) as Hr' by (by destruct Hr; split).
    destruct (beq (cstr plugin) _); cbn [negb] in *.
    + unfold auth_connection, runs. change (_conn_type (with_auth_info i c)) with (_conn_type c). change (_auth_info (with_auth_info i c)) with i. rewrite Hv.
      pose proof (send_reply_delivers answer _ Hr' Hok Hmin) as H. apply runs_done in H as (r & c' & E & -> & H). rewrite E. split; [done|]. by exists i.
    + injection Hv as <-. eapply runs_mono; [exact (send_reply_delivers (SendErr _ _ _) _ Hr' Hok Hmin)|]. intros r c' [-> H]. split; [done|]. by exists i.
  - injection Hv as <-. eapply runs_mono; [exact (send_reply_delivers SendOk c Hr Hok Hmin)|]. intros r c' [-> H]. split; [done|]. exists (_auth_info c). by destruct c.
Qed.

Lemma response_answered fuel r answer rest c :
  response_ok r -> has_capability (rs_flags r) client_connect_attrs = false ->
  calm (sock_in c) -> incoming_bytes (sock_in c) = wire_of (seq_no_ c) (encode_all (response_fields r)) ++ rest -> is_u8 (seq_no_ c) ->
  ready c -> 1024 <= min_capacity_ (pkt_buf_ c) -> zlen (encode_all (response_fields r)) <= max_capacity_ (pkt_buf_ c) ->
  verdict c (rs_user r) (rs_auth r) (rs_plugin r) = Done answer -> reply_ok answer ->
  let seq := seq_no_ c + Z.of_nat (full_frames (encode_all (response_fields r))) + 1 in
  exists c', process_handshake_response alloc memory query_user_by_name instance_user instance_password enable_auth fuel c = Done (Some SUCCESS, c') /\
    sock_out c' = sock_out c ++ wire_of seq (encode_all (reply_fields answer (Z.land (client_capabilities_ c) (rs_flags r)))) /\
    user_ c' = rs_user r /\ incoming_bytes (sock_in c') = rest /\ calm (sock_in c') /\ ready c'.
Proof.
  intros Hro Hno Hc Hin Hseq Hr Hmin Hz Hv Hok seq. 
  cut (runs (process_handshake_response alloc memory query_user_by_name instance_user instance_password enable_auth fuel) c (fun x c' => x = Some SUCCESS /\
    (sock_out c' = sock_out c ++ wire_of seq (encode_all (reply_fields answer (Z.land (client_capabilities_ c) (rs_flags r)))) /\
     user_ c' = rs_user r /\ incoming_bytes (sock_in c') = rest /\ calm (sock_in c') /\ ready c'))).
  { intros H; apply runs_done in H as (x & c' & E & -> & H); by exists c'. }
  rewrite <-(app_nil_r (encode_all (response_fields r))) in Hin, Hz. destruct Hr as [Hw Hb].
  destruct (read_response_ok r [] rest c Hro Hc Hin Hseq Hb Hz) as (c0 & b & E & Hrec & Hb' & Hsb & Hp). rewrite app_nil_r in Hrec.
  apply runs_bind. unfold runs at 1. rewrite E. unfold process_attrs. rewrite Hno.
  apply runs_bind, runs_ret, runs_bind. destruct Hrec as [R1 R2 R3 R4 [R5 R6] R7]. cbn [seq_no_ sock_out sock_writes with_pkt_buf] in R4, R5, R6.
  assert (_conn_type c0 = _conn_type c /\ sa_local c0 = sa_local c /\ _auth_info c0 = _auth_info c /\ client_capabilities_ c0 = client_capabilities_ c) as (S1 & S2 & S3 & S4).
  { unfold self_of in R7. cbn in R7. split_and!; congruence. }
  eapply runs_mono; [apply (finish_handshake_ok (rs_user r) (rs_auth r) (rs_plugin r) answer)|].
  - split; [by rewrite <-R6 in Hw|done].
  - rewrite <-Hv. unfold verdict, responded. cbn. by rewrite S1, S2, S3.
  - done.
  - cbn. destruct Hsb as (_ & _ & -> & _). by destruct (ap_max _ _ _ R3) as [_ ->].
  - intros res c' (-> & i & [[D1 D2 D3 D4] Hb2 _]). apply runs_ret. split; [done|]. unfold responded in *. cbn in D1, D4. rewrite app_nil_r, S4, R5 in D1. split_and!.
    + rewrite D1. f_equal. apply frames_seq. rewrite R4. unfold u8, seq. rewrite Z.mod_mod by lia. f_equal. lia.
    + unfold identity_of, self_of in D4. cbn in D4. congruence.
    + unfold identity_of in D4. cbn in D4. assert (sock_in c' = sock_in c0) as -> by congruence. done.
    + unfold identity_of in D4. cbn in D4. assert (sock_in c' = sock_in c0) as -> by congruence. done.
    + by split.
Qed.

(** A well-formed handshake response is answered with one packet, the verdict on its
    credentials under the capabilities both sides share, whatever the kernel splits; the
    connection then knows the user, and what the client sent after the response is still
    there to be read. *)
Theorem handshake_response_answered fuel r answer rest c :
  response_ok r -> has_capability (rs_flags r) client_connect_attrs = false ->
  calm (sock_in c) -> incoming_bytes (sock_in c) = wire_of (seq_no_ c) (encode_all (response_fields r)) ++ rest -> is_u8 (seq_no_ c) ->
  ready c -> 1024 <= min_capacity_ (pkt_buf_ c) -> zlen (encode_all (response_fields r)) <= max_capacity_ (pkt_buf_ c) ->
  verdict c (rs_user r) (rs_auth r) (rs_plugin r) = Done answer -> reply_ok answer ->
  let seq := seq_no_ c + Z.of_nat (full_frames (encode_all (response_fields r))) + 1 in
  exists c', process_handshake_response alloc memory query_user_by_name instance_user instance_password enable_auth fuel c = Done (Some SUCCESS, c') /\
    sock_out c' = sock_out c ++ wire_of seq (encode_all (reply_fields answer (Z.land (client_capabilities_ c) (rs_flags r)))) /\
    user_ c' = rs_user r /\ incoming_bytes (sock_in c') = rest /\ calm (sock_in c') /\ ready c'.
Proof. apply response_answered. Qed.

(** A client that announces attributes of odd total length and sends none keeps the server
    in the loop over the attributes for ever, before it is authenticated: each failed read
    adds one to the bytes that are still expected. *)
Theorem handshake_never_ends fuel r n rest c :
  response_ok r -> has_capability (rs_flags r) client_connect_attrs = true -> is_u64 n -> Z.odd n = true ->
  calm (sock_in c) -> incoming_bytes (sock_in c) = wire_of (seq_no_ c) (encode_all (response_fields r) ++ lenenc n) ++ rest -> is_u8 (seq_no_ c) ->
  buf_ok (pkt_buf_ c) -> zlen (encode_all (response_fields r) ++ lenenc n) <= max_capacity_ (pkt_buf_ c) ->
  exists c', process_handshake_response alloc memory query_user_by_name instance_user instance_password enable_auth fuel c = Done (None, c').
Proof.
  intros Hro Hyes Hn Hodd Hc Hin Hseq Hb Hz. destruct (read_response_ok r _ rest c Hro Hc Hin Hseq Hb Hz) as (c0 & b & E & _ & Hb' & _ & Hp).
  cut (runs (process_handshake_response alloc memory query_user_by_name instance_user instance_password enable_auth fuel) c (fun x _ => x = None)).
  { intros H. apply runs_done in H as (x & c' & E' & ->). by exists c'. }
  apply runs_bind. unfold runs at 1. rewrite E. apply runs_bind. rewrite Hyes. rewrite <-(app_nil_r (lenenc n)) in Hp.
  eapply run_reads; [by apply (read_uint_ok n)|exact Hb'|exact Hp|]. intros b2 Hb2 _ Hp2.
  eapply runs_mono; [by apply read_attrs_spins|]. intros x c' ->. by apply runs_ret.
Qed.

(** A client that names an authentication plugin of more than 485 bytes brings the server
    down, before it is authenticated: the message of the error packet exceeds the length the
    packet asserts. *)
Theorem long_plugin_name_aborts fuel r rest c :
  response_ok r -> has_capability (rs_flags r) client_connect_attrs = false -> 485 < zlen (rs_plugin r) -> enable_auth = true -> sa_local c = false ->
  calm (sock_in c) -> incoming_bytes (sock_in c) = wire_of (seq_no_ c) (encode_all (response_fields r)) ++ rest -> is_u8 (seq_no_ c) ->
  buf_ok (pkt_buf_ c) -> zlen (encode_all (response_fields r)) <= max_capacity_ (pkt_buf_ c) ->
  process_handshake_response alloc memory query_user_by_name instance_user instance_password enable_auth fuel c = Crash.
Proof.
  intros Hro Hno Hlong He Hl Hc Hin Hseq Hb Hz. rewrite <-(app_nil_r (encode_all (response_fields r))) in Hin, Hz.
  destruct (read_response_ok r [] rest c Hro Hc Hin Hseq Hb Hz) as (c0 & b & E & Hrec & _). unfold process_handshake_response, mbind at 1, stateful_bind at 1. rewrite E.
  unfold process_attrs. rewrite Hno. unfold mbind at 1, stateful_bind at 1, mret at 1, stateful_ret at 1. unfold mbind at 1, stateful_bind at 1.
  assert (sa_local c0 = false) as Hl0. { destruct Hrec as [_ _ _ _ _ Hs]. unfold self_of in Hs. cbn in Hs. congruence. }
  unfold finish_handshake, get_conn, mbind at 1, stateful_bind at 1. change (sa_local (responded r b c0)) with (sa_local c0). rewrite Hl0, He, orb_true_r. cbn [andb].
  unfold mbind at 1, stateful_bind at 1, set_auth_info. rewrite cstr_id by apply Hro.
  assert (beq (rs_plugin r) (str "mysql_native_password") = false) as ->.
  { apply beq_false. intros Hq. rewrite Hq in Hlong. done. }
  cbn [negb]. unfold send_err_packet, new_err_packet, max_err_msg_sz. rewrite zlen_app. change (zlen (str "Unsupported client plugin: ")) with 27.
  destruct (Z.leb_spec (27 + zlen (rs_plugin r)) 512); [lia|]. done.
Qed.

End Response.

(** ** Concrete instances *)

Definition g_flags : Z := foldr Z.lor 0 [client_protocol_41; client_plugin_auth; client_plugin_auth_lenenc_client_data].
Definition g_response (flags : Z) (user auth_response plugin : bytes) : response := mkResponse flags (2 ^ 24) 33 (zeroed 23) user auth_response [] plugin.
(** A connection over TCP whose client has sent one packet, in two pieces. *)
Definition g_conn (scramble payload : bytes) : Connection :=
  let wire := wire_of 1 payload in
  mkConnection [R_data (first 7 wire); R_again; R_data (skip 7 wire)] [] [W_data 2] (new_packet_buf zeroed 1024 (2 ^ 20)) 1 ob_binlog_server_capabilities 7 OBI false
    false [] [] [] [] [] [] [] (mkAuthInfo [] [] scramble false) [] 0 NOT_KILLED.

Lemma g_calm a b : a <> [] -> b <> [] -> calm [R_data a; R_again; R_data b].
Proof. intros Ha Hb. by apply Forall_cons; split; [|apply Forall_cons; split; [|apply Forall_singleton]]. Qed.
#[export] Instance response_ok_dec r : Decision (response_ok r).
Proof.
  destruct (decide (Forall field_ok (response_fields r) /\ (has_capability (rs_flags r) client_protocol_41 = true /\ zlen (rs_reserved r) = 23) /\
    (0 ∉ rs_user r) /\ (0 ∉ rs_database r) /\ (0 ∉ rs_plugin r) /\ (has_capability (rs_flags r) client_plugin_auth = true \/ rs_plugin r = []))) as [H|H].
  - left. destruct H as (H1 & (H2 & H3) & H4 & H5 & H6 & H7). split; try done. intros Hn. destruct H7 as [H7|H7]; [congruence|done].
  - right. intros [H1 H2 H3 H4 H5 H6 H7]. apply H. split_and!; try done. destruct (has_capability (rs_flags r) client_plugin_auth); [by left|right; by apply H7].
Defined.

Lemma full_user_name_spec_witness : full_user_name (str "root@a#b@sys#obcluster") = Some (str "root@a#b", str "sys", str "obcluster").
Proof. apply (proj1 (full_user_name_spec _) (str "root@a#b") (str "sys") (str "obcluster")); by_compute. Defined.

(** A login without a password, for a user that has none. *)
Definition g_login : response := g_response g_flags (str "instance") [] (str "mysql_native_password").
Lemma handshake_response_answered_witness :
  exists c', process_handshake_response zeroed h_memory (fun _ => None) (str "instance") [] true 0 (g_conn h_scramble (encode_all (response_fields g_login))) = Done (Some SUCCESS, c') /\
    sock_out c' = [] ++ wire_of 2 [0; 0; 0; 2; 0; 0; 0] /\ user_ c' = str "instance" /\ incoming_bytes (sock_in c') = [] /\ calm (sock_in c') /\ ready c'.
Proof.
  apply (handshake_response_answered zeroed zeroed_len h_memory (fun _ => None) (str "instance") [] true 0 g_login SendOk [] (g_conn h_scramble (encode_all (response_fields g_login)))).
  1: by_compute. 1: done. 1: by apply g_calm. 1: vm_compute; reflexivity. 1: by_compute. 1: by split; [apply Forall_singleton|by_compute]. 1: by_compute. 1: by_compute.
  1: vm_compute; reflexivity. done.
Defined.

(** Attributes of one byte, of which none comes. *)
Definition g_stuck : response := g_response (Z.lor g_flags client_connect_attrs) (str "x") [] [].
Lemma handshake_never_ends_witness :
  exists c', process_handshake_response zeroed h_memory (fun _ => None) (str "instance") [] true 1000 (g_conn h_scramble (encode_all (response_fields g_stuck) ++ lenenc 1)) = Done (None, c').
Proof.
  apply (handshake_never_ends zeroed zeroed_len h_memory (fun _ => None) (str "instance") [] true 1000 g_stuck 1 [] (g_conn h_scramble (encode_all (response_fields g_stuck) ++ lenenc 1))).
  1: by_compute. 1: done. 1: by_compute. 1: done. 1: by apply g_calm. 1: vm_compute; reflexivity. all: by_compute.
Defined.

Definition g_long : response := g_response g_flags (str "x") [] (replicate 486 65).
Lemma long_plugin_name_aborts_witness :
  process_handshake_response zeroed h_memory (fun _ => None) (str "instance") [] true 0 (g_conn h_scramble (encode_all (response_fields g_long))) = Crash.
Proof.
  apply (long_plugin_name_aborts zeroed zeroed_len h_memory (fun _ => None) (str "instance") [] true 0 g_long [] (g_conn h_scramble (encode_all (response_fields g_long)))).
  1: by_compute. 1: done. 1: by_compute. 1: done. 1: done. 1: by apply g_calm. 1: vm_compute; reflexivity. all: by_compute.
Defined.
