(* ===== verification/MsgBuf.v ===== *)
(** * MsgBuf: a message in pieces, and the reader over it

    [src/src/common/msg_buf.{h,cpp}].  A [MsgBuf] is a list of chunks; the reader keeps an
    iterator over the chunks, a position in the current one and the number of bytes read.
    The reader refines a cursor over the concatenated bytes, whatever the chunks are;
    [next] leaves that abstraction. *)

From S2P Require Import Prelude Bytes Str.

#[local] Open Scope Z_scope.

(** ** The reader *)

Definition MsgBuf : Type := list bytes.
Definition msg_bytes (b : MsgBuf) : bytes := mjoin b.
Definition byte_size (b : MsgBuf) : Z := foldr Z.add 0 (zlen <$> b).

Record MsgBufReader := mkReader { _buffer : MsgBuf; _iter : nat; _pos : Z; _byte_size : Z; _read_size : Z }.
Definition new_reader (buffer : MsgBuf) : MsgBufReader := mkReader buffer 0 0 (byte_size buffer) 0.

Abbreviation reading := (stateful MsgBufReader).

(** The chunks from the iterator on: where the reader stands when there is enough, and what was
    copied, also when there is not. *)
Fixpoint read_chunks (l : list bytes) (chunk_iter : nat) (chunk_pos size read_size : Z) (buf : bytes) : option (nat * Z) * bytes :=
  match l with
  | [] => (None, buf)
  | chunk :: l =>
      if read_size <? size then
        let chunk_size := zlen chunk - chunk_pos in
        if size <=? read_size + chunk_size
        then (Some (chunk_iter, chunk_pos + (size - read_size)), buf ++ first (size - read_size) (skip chunk_pos chunk))
        else read_chunks l (S chunk_iter) 0 size (read_size + chunk_size) (buf ++ skip chunk_pos chunk)
      else (None, buf)
  end.

Definition read_any (size : Z) : reading (bool * bytes) := fun r =>
  match read_chunks (drop (_iter r) (_buffer r)) (_iter r) (_pos r) size 0 [] with
  | (Some (i, p), buf) => Done ((true, buf), mkReader (_buffer r) i p (_byte_size r) (_read_size r + size))
  | (None, buf) => Done ((false, buf), r)
  end.
Definition read (size : Z) : reading (bool * bytes) := if size =? 0 then mret (true, []) else read_any size.
Definition forward (count : Z) : reading bool := r ← read_any count; mret r.1.

(** [size] bytes over a little-endian variable of [width] bytes that holds [v]. *)
Definition read_over (width : nat) (size v : Z) : reading (bool * Z) :=
  '(ok, d) ← read size;
  mret (ok, le_combine (overwrite 0 d (le_split width v))).
Definition read_uint8 (v : Z) : reading (bool * Z) := read_over 1 1 v.
Definition read_uint16 (v : Z) : reading (bool * Z) := read_over 2 2 v.
Definition read_uint24 (v : Z) : reading (bool * Z) := read_over 4 3 v.
Definition read_uint32 (v : Z) : reading (bool * Z) := read_over 4 4 v.
Definition read_uint48 (v : Z) : reading (bool * Z) := read_over 8 6 v.
Definition read_uint64 (v : Z) : reading (bool * Z) := read_over 8 8 v.

(** The next chunk that is not empty, from the position in it. *)
Fixpoint next_chunk (l : list bytes) (iter : nat) (pos : Z) : bytes * nat :=
  match l with
  | [] => ([], iter)
  | chunk :: l =>
      let data := skip pos chunk in
      match data, l with [], _ :: _ => next_chunk l (S iter) 0 | _, _ => (data, S iter) end
  end.
Definition next : reading (option bytes) := fun r =>
  if Nat.eqb (_iter r) (length (_buffer r)) then Done (None, r)
  else
    let '(data, iter) := next_chunk (drop (_iter r) (_buffer r)) (_iter r) (_pos r) in
    let r' := mkReader (_buffer r) iter 0 (_byte_size r) (_read_size r) in
    Done (if (zlen data =? 0) && Nat.eqb iter (length (_buffer r)) then None else Some data, r').

(** [None]: the iterator would pass the first chunk. *)
Fixpoint back_chunks (b : list bytes) (chunk_iter : nat) (chunk_pos backward_count : Z) : option (nat * Z) :=
  if chunk_pos <? backward_count then
    match chunk_iter with
    | O => None
    | S i => back_chunks b i (zlen (default [] (b !! i))) (backward_count - chunk_pos)
    end
  else Some (chunk_iter, chunk_pos - backward_count).
Definition backward (count : Z) : reading bool := fun r =>
  if count >? _read_size r then Done (false, r)
  else
    match back_chunks (_buffer r) (_iter r) (_pos r) count with
    | Some (i, p) => Done (true, mkReader (_buffer r) i p (_byte_size r) (_read_size r - count))
    | None => Crash
    end.

Definition remain_size (r : MsgBufReader) : Z := _byte_size r - _read_size r.
Fixpoint more_in (l : list bytes) (pos : Z) : bool :=
  match l with [] => false | chunk :: l => (pos <? zlen chunk) || more_in l 0 end.
Definition has_more (r : MsgBufReader) : bool := more_in (drop (_iter r) (_buffer r)) (_pos r).

(** ** Length-encoded values *)

Section Lenenc.
(** The longest string that can be allocated. *)
Context (limit : Z).

(** The value, and 0 or the byte that is none. *)
Definition read_lenenc_uint : reading (Z * Z) :=
  '(_, byte) ← read_over 1 1 0;
  if byte <? 251 then mret (0, byte)
  else if byte =? 252 then '(_, v) ← read_over 8 2 0; mret (0, v)
  else if byte =? 253 then '(_, v) ← read_over 8 3 0; mret (0, v)
  else if byte =? 254 then '(_, v) ← read_over 8 8 0; mret (0, v)
  else mret (byte, 0).

(** What is missing of the string stays zero. *)
Definition read_lenenc_str : reading bytes :=
  '(_, length) ← read_lenenc_uint;
  if length <=? limit then '(_, d) ← read length; mret (overwrite 0 d (replicate (Z.to_nat length) 0))
  else fun _ => Crash.

End Lenenc.

(** ** The cursor that the reader implements *)

(** All the bytes, and how many of them are read. *)
Record cursor_spec := mkCursor { all_bytes : bytes; at_ : Z }.

Inductive reader_op := OpRead (n : Z) | OpForward (n : Z) | OpBackward (n : Z) | OpMore | OpRemain.
Inductive reader_out := OutRead (ok : bool) (d : bytes) | OutFlag (ok : bool) | OutSize (n : Z).

Definition spec_op (op : reader_op) (k : cursor_spec) : reader_out * cursor_spec :=
  let rest := skip (at_ k) (all_bytes k) in
  match op with
  | OpRead n => if n <=? zlen rest then (OutRead true (first n rest), mkCursor (all_bytes k) (at_ k + n)) else (OutRead false rest, k)
  | OpForward n => if (0 <? n) && (n <=? zlen rest) then (OutFlag true, mkCursor (all_bytes k) (at_ k + n)) else (OutFlag false, k)
  | OpBackward n => if n <=? at_ k then (OutFlag true, mkCursor (all_bytes k) (at_ k - n)) else (OutFlag false, k)
  | OpMore => (OutFlag (0 <? zlen rest), k)
  | OpRemain => (OutSize (zlen rest), k)
  end.
Fixpoint spec_ops (ops : list reader_op) (k : cursor_spec) : list reader_out * cursor_spec :=
  match ops with [] => ([], k) | op :: ops => let '(x, k) := spec_op op k in let '(xs, k) := spec_ops ops k in (x :: xs, k) end.

Definition run_op (op : reader_op) : reading reader_out :=
  match op with
  | OpRead n => '(ok, d) ← read n; mret (OutRead ok d)
  | OpForward n => ok ← forward n; mret (OutFlag ok)
  | OpBackward n => ok ← backward n; mret (OutFlag ok)
  | OpMore => fun r => Done (OutFlag (has_more r), r)
  | OpRemain => fun r => Done (OutSize (remain_size r), r)
  end.
Fixpoint run_ops (ops : list reader_op) : reading (list reader_out) :=
  match ops with [] => mret [] | op :: ops => x ← run_op op; xs ← run_ops ops; mret (x :: xs) end.

(** The position that iterator and offset stand for. *)
Definition at_chunk (l : list bytes) (i : nat) (p : Z) : Z := zlen (mjoin (take i l)) + p.
Definition place_ok (l : list bytes) (i : nat) (p : Z) : Prop :=
  match drop i l with [] => (i <= length l)%nat /\ p = 0 | chunk :: _ => 0 <= p <= zlen chunk end.

Record reader_ok (r : MsgBufReader) : Prop := {
  rk_place : place_ok (_buffer r) (_iter r) (_pos r);
  rk_size : _byte_size r = zlen (msg_bytes (_buffer r));
  rk_read : _read_size r = at_chunk (_buffer r) (_iter r) (_pos r)
}.
Definition spec_of (r : MsgBufReader) : cursor_spec := mkCursor (msg_bytes (_buffer r)) (_read_size r).

(** ** The refinement *)


Lemma byte_size_eq b : byte_size b = zlen (msg_bytes b).
Proof. unfold byte_size, msg_bytes. induction b as [|c b IH]; [done|]. cbn [fmap list_fmap foldr mjoin list_join] in *. by rewrite zlen_app, IH. Qed.

Lemma new_reader_ok b : reader_ok (new_reader b).
Proof.
  split; [|apply byte_size_eq|done]. unfold place_ok, new_reader. cbn [_buffer _iter _pos]. rewrite drop_0. destruct b as [|c b]; [by split|]. pose proof (zlen_nonneg c). lia.
Qed.

Lemma place_next (l : list bytes) i chunk rest : drop i l = chunk :: rest -> drop (S i) l = rest /\ (i < length l)%nat /\ l !! i = Some chunk.
Proof.
  intros E. assert (l !! i = Some chunk) as Hi by (rewrite <-(Nat.add_0_r i), <-lookup_drop, E; done). split; [|split; [by eapply lookup_lt_Some|done]].
  rewrite (drop_S l chunk i Hi) in E. by injection E.
Qed.
Lemma join_take_S (l : list bytes) i chunk : l !! i = Some chunk -> mjoin (take (S i) l) = mjoin (take i l) ++ chunk.
Proof. intros Hi. rewrite (take_S_r _ _ _ Hi), join_app. cbn. by rewrite app_nil_r. Qed.

(** What is left at a place. *)
Lemma rest_at l i p : place_ok l i p -> skip (at_chunk l i p) (mjoin l) = skip p (mjoin (drop i l)).
Proof.
  intros Hp. rewrite <-(take_drop i l) at 2. rewrite join_app. unfold at_chunk. pose proof (zlen_nonneg (mjoin (take i l))).
  assert (0 <= p) by (unfold place_ok in Hp; destruct (drop i l); lia). rewrite <-skip_skip by lia. by rewrite skip_app.
Qed.

Lemma zlen_rest r : reader_ok r -> zlen (skip (_read_size r) (msg_bytes (_buffer r))) = remain_size r /\ 0 <= _read_size r <= _byte_size r.
Proof.
  intros [Hp Hs Hr]. assert (0 <= _read_size r <= _byte_size r) as Hb; [|split; [|done]; rewrite zlen_skip by lia; unfold remain_size; lia].
  assert (zlen (msg_bytes (_buffer r)) = zlen (mjoin (take (_iter r) (_buffer r))) + zlen (mjoin (drop (_iter r) (_buffer r)))) as E
    by (rewrite <-zlen_app, <-join_app, take_drop; done).
  rewrite Hr, Hs, E. unfold at_chunk. pose proof (zlen_nonneg (mjoin (take (_iter r) (_buffer r)))).
  unfold place_ok in Hp. destruct (drop (_iter r) (_buffer r)) as [|chunk rest]; [pose proof (zlen_nonneg (mjoin (@nil bytes))); lia|]. rewrite join_cons, zlen_app. pose proof (zlen_nonneg (mjoin rest)). lia.
Qed.

Lemma skip_app_le {A} n (a b : list A) : 0 <= n <= zlen a -> skip n (a ++ b) = skip n a ++ b.
Proof. unfold skip, zlen. intros. apply drop_app_le. lia. Qed.
Lemma first_app_le {A} n (a b : list A) : n <= zlen a -> first n (a ++ b) = first n a.
Proof. unfold first, zlen. intros. apply take_app_le. lia. Qed.
Lemma first_app_ge {A} n (a b : list A) : zlen a <= n -> first n (a ++ b) = a ++ first (n - zlen a) b.
Proof. unfold first, zlen. intros. rewrite take_app_ge by lia. do 2 f_equal. lia. Qed.

Lemma read_chunks_ok b : forall l i pos size rs buf, drop i b = l -> place_ok b i pos -> rs < size ->
  let rest := skip pos (mjoin l) in
  if size - rs <=? zlen rest
  then exists i' p', read_chunks l i pos size rs buf = (Some (i', p'), buf ++ first (size - rs) rest) /\ place_ok b i' p' /\ at_chunk b i' p' = at_chunk b i pos + (size - rs)
  else read_chunks l i pos size rs buf = (None, buf ++ rest).
Proof.
  induction l as [|chunk l IH]; intros i pos size rs buf Ed Hp Hlt rest; cbn [read_chunks].
  { unfold rest. cbn [mjoin list_join]. unfold skip at 1. rewrite drop_nil, zlen_nil. destruct (Z.leb_spec (size - rs) 0); [lia|]. unfold skip. by rewrite drop_nil, app_nil_r. }
  rewrite (proj2 (Z.ltb_lt _ _)) by done. destruct (place_next _ _ _ _ Ed) as (Ed' & Hi & Hli). unfold place_ok in Hp. rewrite Ed in Hp.
  assert (rest = skip pos chunk ++ mjoin l) as Er by (unfold rest; rewrite join_cons; by apply skip_app_le).
  assert (zlen (skip pos chunk) = zlen chunk - pos) as Hz by (by rewrite zlen_skip). pose proof (zlen_nonneg (mjoin l)) as Hl. rewrite Er, zlen_app, Hz.
  destruct (Z.leb_spec size (rs + (zlen chunk - pos))) as [Hle|Hgt].
  - rewrite (proj2 (Z.leb_le _ _)) by lia. exists i, (pos + (size - rs)). rewrite first_app_le by lia. split; [done|]. split; [unfold place_ok; rewrite Ed; lia|]. unfold at_chunk. lia.
  - assert (place_ok b (S i) 0) as Hp'. { unfold place_ok. rewrite Ed'. destruct l as [|c' l']; [split; [lia|done]|]. pose proof (zlen_nonneg c'). lia. }
    specialize (IH (S i) 0 size (rs + (zlen chunk - pos)) (buf ++ skip pos chunk) Ed' Hp' ltac:(lia)). cbn zeta in IH. rewrite skip_0 in IH.
    replace (size - (rs + (zlen chunk - pos)) <=? zlen (mjoin l)) with (size - rs <=? zlen chunk - pos + zlen (mjoin l)) in IH
      by (destruct (Z.leb_spec (size - rs) (zlen chunk - pos + zlen (mjoin l))); symmetry; [apply Z.leb_le|apply Z.leb_gt]; lia).
    destruct (size - rs <=? _).
    + destruct IH as (i' & p' & -> & Hp2 & Ha). exists i', p'. rewrite first_app_ge, Hz, <-app_assoc by lia. split; [do 4 f_equal; lia|]. split; [done|].
      rewrite Ha. unfold at_chunk. rewrite (join_take_S _ _ _ Hli), zlen_app. lia.
    + by rewrite IH, <-app_assoc.
Qed.

Lemma back_chunks_ok b : forall i pos count, place_ok b i pos -> 0 <= count <= at_chunk b i pos ->
  exists i' p', back_chunks b i pos count = Some (i', p') /\ place_ok b i' p' /\ at_chunk b i' p' = at_chunk b i pos - count.
Proof.
  induction i as [|i IH]; intros pos count Hp Hc; cbn [back_chunks].
  - assert (forall p, at_chunk b 0 p = p) as E0 by done. rewrite !E0 in *. destruct (Z.ltb_spec pos count); [lia|]. exists O, (pos - count). split; [done|].
    split; [|apply E0]. unfold place_ok in *. destruct (drop 0 b); [split; [lia|]; lia|lia].
  - destruct (Z.ltb_spec pos count) as [Hlt|Hge].
    + assert (i < length b)%nat as Hi by (unfold place_ok in Hp; destruct (drop (S i) b) eqn:E; [lia|]; apply place_next in E as (_ & ? & _); lia).
      destruct (lookup_lt_is_Some_2 b i Hi) as [chunk Hli]. rewrite Hli. cbn [default from_option id].
      assert (at_chunk b (S i) pos = at_chunk b i (zlen chunk) + pos) as Ea by (unfold at_chunk; rewrite (join_take_S _ _ _ Hli), zlen_app; lia).
      destruct (IH (zlen chunk) (count - pos)) as (i' & p' & E & Hp' & Ha).
      * unfold place_ok. rewrite (drop_S _ _ _ Hli). pose proof (zlen_nonneg chunk). lia.
      * lia.
      * exists i', p'. split; [done|]. split; [done|]. lia.
    + exists (S i), (pos - count). split; [done|]. split; [|unfold at_chunk; lia]. unfold place_ok in *. destruct (drop (S i) b); [split; [lia|]; lia|lia].
Qed.

Lemma more_in_ok b i pos : place_ok b i pos -> more_in (drop i b) pos = (0 <? zlen (skip pos (mjoin (drop i b)))).
Proof.
  unfold place_ok. destruct (drop i b) as [|chunk l]; [intros [_ ->]; done|]. cbn [more_in]. rewrite join_cons. intros Hp. rewrite skip_app_le, zlen_app, zlen_skip by done.
  assert (forall l : list bytes, more_in l 0 = (0 <? zlen (mjoin l))) as H0.
  { clear. induction l as [|c l IH]; [done|]. cbn [more_in]. rewrite join_cons, IH, zlen_app. pose proof (zlen_nonneg c). pose proof (zlen_nonneg (mjoin l)).
    destruct (Z.ltb_spec 0 (zlen c)), (Z.ltb_spec 0 (zlen (mjoin l))), (Z.ltb_spec 0 (zlen c + zlen (mjoin l))); cbn; lia. }
  rewrite H0. pose proof (zlen_nonneg (mjoin l)). destruct (Z.ltb_spec pos (zlen chunk)), (Z.ltb_spec 0 (zlen (mjoin l))), (Z.ltb_spec 0 (zlen chunk - pos + zlen (mjoin l))); cbn; lia.
Qed.

Definition op_ok (op : reader_op) : Prop := match op with OpRead n | OpForward n | OpBackward n => 0 <= n | _ => True end.

(** Reading, in terms of what is left. *)
Lemma read_any_ok n r : reader_ok r -> 0 < n ->
  runs (read_any n) r (fun x r' => reader_ok r' /\ _buffer r' = _buffer r /\
    let rest := skip (_read_size r) (msg_bytes (_buffer r)) in
    if n <=? zlen rest then x = (true, first n rest) /\ _read_size r' = _read_size r + n else x = (false, rest) /\ r' = r).
Proof.
  intros Hr Hn. pose proof Hr as [Hp Hs Ha]. unfold runs, read_any. pose proof (read_chunks_ok (_buffer r) (drop (_iter r) (_buffer r)) (_iter r) (_pos r) n 0 [] eq_refl Hp Hn) as H.
  cbn zeta in H. rewrite Z.sub_0_r in H. unfold msg_bytes. rewrite Ha, (rest_at _ _ _ Hp). destruct (n <=? _).
  - destruct H as (i' & p' & -> & Hp' & Ha'). split; [|done]. split; cbn; [done|done|lia].
  - rewrite H. done.
Qed.

Lemma read_ok n r : reader_ok r -> 0 <= n ->
  runs (read n) r (fun x r' => reader_ok r' /\ _buffer r' = _buffer r /\
    let rest := skip (_read_size r) (msg_bytes (_buffer r)) in
    if n <=? zlen rest then x = (true, first n rest) /\ _read_size r' = _read_size r + n else x = (false, rest) /\ r' = r).
Proof.
  intros Hr Hn. unfold read. destruct (Z.eqb_spec n 0) as [->|]; [|apply read_any_ok; [done|lia]]. apply runs_ret. split; [done|]. split; [done|]. cbn zeta.
  pose proof (zlen_nonneg (skip (_read_size r) (msg_bytes (_buffer r)))). rewrite (proj2 (Z.leb_le _ _)) by done. split; [done|lia].
Qed.

Lemma reader_op_refines op r : reader_ok r -> op_ok op ->
  runs (run_op op) r (fun x r' => reader_ok r' /\ (x, spec_of r') = spec_op op (spec_of r)).
Proof.
  intros Hr Hop. destruct (zlen_rest r Hr) as [Hz Hb]. destruct op as [n|n|n| |]; cbn [run_op spec_op op_ok] in *.
  - apply runs_bind. eapply runs_mono; [by apply read_ok|]. intros x r' (Hr' & Eb & H). cbn [spec_of all_bytes at_] in *. destruct (n <=? _).
    + destruct H as [-> Es]. apply runs_ret. split; [done|]. unfold spec_of. by rewrite Eb, Es.
    + destruct H as [-> ->]. by apply runs_ret.
  - unfold forward. apply runs_bind, runs_bind. cbn [spec_of all_bytes at_]. destruct (Z.ltb_spec 0 n) as [Hn|Hn]; cbn [andb].
    + eapply runs_mono; [by apply read_any_ok|]. intros x r' (Hr' & Eb & H). cbn zeta in H. destruct (n <=? _).
      * destruct H as [-> Es]. do 2 apply runs_ret. split; [done|]. unfold spec_of. by rewrite Eb, Es.
      * destruct H as [-> ->]. by do 2 apply runs_ret.
    + assert (n = 0) as -> by lia. unfold read_any, runs at 1. assert (read_chunks (drop (_iter r) (_buffer r)) (_iter r) (_pos r) 0 0 [] = (None, [])) as -> by (by destruct (drop _ _)). by do 2 apply runs_ret.
  - apply runs_bind. unfold backward, runs at 1. cbn [spec_of all_bytes at_]. rewrite Z.gtb_ltb. destruct (Z.ltb_spec (_read_size r) n).
    + rewrite (proj2 (Z.leb_gt _ _)) by done. by apply runs_ret.
    + rewrite (proj2 (Z.leb_le _ _)) by done. pose proof Hr as [Hp Hs Ha]. destruct (back_chunks_ok (_buffer r) (_iter r) (_pos r) n Hp ltac:(lia)) as (i' & p' & -> & Hp' & Ha').
      apply runs_ret. split; [split; cbn; [done|done|lia]|done].
  - split; [done|]. unfold has_more. pose proof Hr as [Hp Hs Ha]. rewrite more_in_ok by done. unfold spec_of, msg_bytes. cbn [all_bytes at_]. by rewrite Ha, rest_at.
  - split; [done|]. cbn [spec_of all_bytes at_]. by rewrite Hz.
Qed.

(** C25: The reader over a message in chunks behaves as a cursor over its bytes: any sequence of
    reads, skips, steps back and questions gives the same answers for every way the message is
    cut into chunks, empty ones included, and never leaves the message. *)
Theorem reader_refines_cursor ops buffer :
  Forall op_ok ops ->
  exists outs r', run_ops ops (new_reader buffer) = Done (outs, r') /\ reader_ok r' /\ (outs, spec_of r') = spec_ops ops (mkCursor (msg_bytes buffer) 0).
Proof.
  intros Hops. change (mkCursor (msg_bytes buffer) 0) with (spec_of (new_reader buffer)). generalize (new_reader_ok buffer). generalize (new_reader buffer). induction Hops as [|op ops Hop _ IH]; intros r Hr.
  { by exists [], r. }
  cbn [run_ops spec_ops]. destruct (proj1 (runs_done _ _ _) (reader_op_refines op r Hr Hop)) as (x & r1 & E & Hr1 & Hx). destruct (IH r1 Hr1) as (xs & r2 & E2 & Hr2 & Hxs).
  exists (x :: xs), r2. unfold mbind, stateful_bind. rewrite E, E2. split; [done|]. split; [done|]. rewrite <-Hx. by rewrite <-Hxs.
Qed.

(** The pieces that [next] hands out are not counted as read, so that stepping back over one
    of them fails and its bytes are lost. *)
Theorem next_cannot_be_undone data more count :
  data <> [] -> 0 < count ->
  exists r, next (new_reader (data :: more)) = Done (Some data, r) /\ remain_size r = zlen (data ++ mjoin more) /\ backward count r = Done (false, r).
Proof.
  intros Hd Hc. unfold next, new_reader. cbn [_iter _buffer _pos length Nat.eqb drop next_chunk]. rewrite skip_0. destruct data as [|x d]; [done|].
  assert (0 < zlen (x :: d)) by (rewrite zlen_cons; pose proof (zlen_nonneg d); lia). rewrite (proj2 (Z.eqb_neq _ 0)) by lia. cbn [andb].
  eexists. split; [done|]. split; [unfold remain_size; cbn [_byte_size _read_size]; rewrite byte_size_eq; unfold msg_bytes; rewrite join_cons; lia|].
  unfold backward. cbn [_read_size]. rewrite Z.gtb_ltb, (proj2 (Z.ltb_lt _ _)) by lia. done.
Qed.

Lemma reader_refines_cursor_witness :
  exists outs r', run_ops [OpRead 3; OpBackward 2; OpForward 4; OpMore; OpRemain; OpRead 9] (new_reader [str "ab"; []; str "cde"; str "f"]) = Done (outs, r') /\ reader_ok r' /\
    (outs, spec_of r') = spec_ops [OpRead 3; OpBackward 2; OpForward 4; OpMore; OpRemain; OpRead 9] (mkCursor (str "abcdef") 0).
Proof. apply (reader_refines_cursor [OpRead 3; OpBackward 2; OpForward 4; OpMore; OpRemain; OpRead 9] [str "ab"; []; str "cde"; str "f"]). repeat (apply Forall_cons; split; [cbn; lia|]). by apply Forall_nil. Defined.

Lemma next_cannot_be_undone_witness :
  exists r, next (new_reader [str "ab"; str "c"]) = Done (Some (str "ab"), r) /\ remain_size r = zlen (str "ab" ++ mjoin [str "c"]) /\ backward 1 r = Done (false, r).
Proof. apply (next_cannot_be_undone (str "ab") [str "c"] 1); [done|lia]. Defined.
