(* ===== verification/Client.v ===== *)
(** * Client: the MySQL client that logs in to binlog instances and observers

    [src/src/obaccess/mysql_protocol.cpp] and the packets of
    [src/src/obaccess/ob_mysql_packet.{h,cpp}]: the login, a query with its result set, and a
    query that is routed to another server. *)

From S2P Require Import Prelude Bytes Str Dumper PacketBuf Sha1 Auth Connection MsgBuf.

#[local] Open Scope Z_scope.

Inductive oms_ret := OMS_OK | OMS_FAILED | OMS_TIMEOUT | OMS_CLIENT_CLOSED | OMS_CONNECT_FAILED.
#[export] Instance oms_ret_eq_dec : EqDecision oms_ret.
Proof. solve_decision. Defined.

(** What [poll] finds; at the end of the list, something to read. *)
Inductive poll_result := P_in | P_timeout | P_failed | P_err.

Record MysqlProtocol := mkClient {
  cl_in : list read_result;
  cl_out : bytes;
  cl_writes : list write_result;
  cl_polls : list poll_result;
  _username : bytes;
  _passwd_sha1 : bytes;
  _database : bytes
}.
Definition with_client_io (i : list read_result) (o : bytes) (w : list write_result) (p : list poll_result) (k : MysqlProtocol) : MysqlProtocol :=
  mkClient i o w p (_username k) (_passwd_sha1 k) (_database k).

Abbreviation client := (stateful MysqlProtocol).

(** ** Packets on the socket *)

Definition client_read (size : Z) : client (io_ret * bytes) := fun k =>
  let '(r, d, l) := readn size (cl_in k) in Done ((r, d), with_client_io l (cl_out k) (cl_writes k) (cl_polls k) k).
Definition client_write (d : bytes) : client bool := fun k =>
  let '(ok, ws, out) := writen d (cl_writes k) (cl_out k) in Done (ok, with_client_io (cl_in k) out ws (cl_polls k) k).
Definition poll : client poll_result := fun k =>
  match cl_polls k with
  | [] => Done (P_in, k)
  | p :: ps => Done (p, with_client_io (cl_in k) (cl_out k) (cl_writes k) ps k)
  end.
Definition io_code (r : io_ret) : oms_ret := match r with IO_OK => OMS_OK | IO_CLOSED => OMS_CLIENT_CLOSED | IO_FAILED => OMS_FAILED end.

(** The payload and the sequence number, or why there is none. *)
Definition recv_mysql_packet : client (oms_ret + bytes * Z) :=
  p ← poll;
  match p with
  | P_timeout => mret (inl OMS_TIMEOUT)
  | P_failed | P_err => mret (inl OMS_FAILED)
  | P_in =>
      '(r, h) ← client_read 4;
      if negb (bool_decide (r = IO_OK)) then mret (inl (io_code r))
      else
        let packet_header := le_combine h in
        let sequence := Z.shiftr (Z.land packet_header 0xFF000000) 24 in
        let packet_length := Z.land packet_header 0x00FFFFFF in
        if 2 ^ 32 - 1 - 4 <=? packet_length then mret (inl OMS_FAILED)
        else
          '(r, payload) ← client_read packet_length;
          if negb (bool_decide (r = IO_OK)) then mret (inl (io_code r)) else mret (inr (payload, sequence))
  end.

Fixpoint write_chunks (l : list bytes) : client oms_ret :=
  match l with
  | [] => mret OMS_OK
  | chunk :: l => ok ← client_write chunk; if ok : bool then write_chunks l else mret OMS_FAILED
  end.
Definition send_mysql_packet (msgbuf : MsgBuf) (sequence : Z) : client oms_ret :=
  let packet_length := Z.lor (Z.land (byte_size msgbuf) 0x00FFFFFF) (u32 (Z.shiftl sequence 24)) in
  ok ← client_write (le_split 4 packet_length);
  if ok : bool then write_chunks msgbuf else mret OMS_FAILED.

(** ** Decoding *)

Section Decoding.
(** The longest string that can be allocated, and what an uninitialised byte holds. *)
Context (limit junk : Z).

(** A decoder with a reader of its own over the message. *)
Definition decode_with {A} (m : reading A) (msgbuf : MsgBuf) : outcome A := r ← m (new_reader msgbuf); Done r.1.

Record MySQLOkPacket := mkMySQLOk { _affected_rows : Z; _last_insert_id : Z }.
Definition decode_ok (msgbuf : MsgBuf) : outcome (oms_ret * MySQLOkPacket) :=
  decode_with (
    '(_, packet_type) ← read_uint8 junk;
    '(_, affected_rows) ← read_lenenc_uint;
    '(ret, last_insert_id) ← read_lenenc_uint;
    mret (if (ret =? 0) && (packet_type =? 0) then OMS_OK else OMS_FAILED, mkMySQLOk affected_rows last_insert_id)) msgbuf.

Record MySQLEofPacket := mkMySQLEof { _warnings_count : Z; _status_flags : Z }.
(** [w] and [f]: what the members hold before. *)
Definition decode_eof (msgbuf : MsgBuf) (w f : Z) : outcome (oms_ret * MySQLEofPacket) :=
  if 9 <=? byte_size msgbuf then Done (OMS_FAILED, mkMySQLEof w f)
  else
    decode_with ('(_, code) ← read_uint8 0;
          if negb (code =? 0xfe) then mret (OMS_FAILED, mkMySQLEof w f)
          else
            '(_, w) ← read_uint16 w;
            '(_, f) ← read_uint16 f;
            mret (OMS_OK, mkMySQLEof w f)) msgbuf.

Record MySQLErrorPacket := mkMySQLError { _code : Z; _sql_state_marker : bytes; _sql_state : bytes; _message : bytes }.
Definition get_remain : reading Z := fun r => Done (remain_size r, r).
Definition decode_err (msgbuf : MsgBuf) : outcome (oms_ret * MySQLErrorPacket) :=
  decode_with ('(ok, code) ← read_uint16 junk;
        if negb ok then mret (OMS_FAILED, mkMySQLError code [] [] [])
        else
          '(ok, d) ← read 1;
          let marker := overwrite 0 d [0] in
          if negb ok then mret (OMS_FAILED, mkMySQLError code marker [] [])
          else
            '(ok, d) ← read 6;
            let state := overwrite 0 d (replicate 6 0) in
            if negb ok then mret (OMS_FAILED, mkMySQLError code marker state [])
            else
              n ← get_remain;
              '(ok, message) ← read n;
              mret (if ok : bool then OMS_OK else OMS_FAILED, mkMySQLError code marker state message)) msgbuf.

Record MySQLCol := mkMySQLCol {
  _catalog : bytes; _schema : bytes; _table : bytes; _org_table : bytes; _name : bytes; _org_name : bytes;
  _len_of_fixed_len : Z; _charset : Z; _column_len : Z; _type : Z; _flags : Z; _decimals : Z; _filler : Z }.
Definition decode_col (msgbuf : MsgBuf) : outcome MySQLCol :=
  decode_with (catalog ← read_lenenc_str limit;
        schema ← read_lenenc_str limit;
        table ← read_lenenc_str limit;
        org_table ← read_lenenc_str limit;
        name ← read_lenenc_str limit;
        org_name ← read_lenenc_str limit;
        '(_, len_of_fixed_len) ← read_uint8 junk;
        '(_, charset) ← read_uint16 junk;
        '(_, column_len) ← read_uint32 junk;
        '(_, type) ← read_uint8 junk;
        '(_, flags) ← read_uint16 junk;
        '(_, decimals) ← read_uint8 junk;
        '(_, filler) ← read_uint16 junk;
        mret (mkMySQLCol catalog schema table org_table name org_name len_of_fixed_len charset column_len type flags decimals filler)) msgbuf.

Fixpoint read_fields (col_count : nat) : reading (list bytes) :=
  match col_count with O => mret [] | S n => data ← read_lenenc_str limit; l ← read_fields n; mret (data :: l) end.
Definition decode_row (col_count : Z) (msgbuf : MsgBuf) : outcome (list bytes) := decode_with (read_fields (Z.to_nat col_count)) msgbuf.

(** What a query is answered with: an error, [OK], or the number of columns. *)
Inductive query_response := RespErr (e : MySQLErrorPacket) | RespOk (p : MySQLOkPacket) | RespCols (col_count : Z).
Definition decode_query_response (msgbuf : MsgBuf) : outcome query_response :=
  '((_, packet_ret), reader) ← read_uint8 0xff (new_reader msgbuf);
  if packet_ret =? 0xff then e ← decode_err msgbuf; Done (RespErr e.2)
  else if packet_ret =? 0xfb then Done (RespErr (mkMySQLError junk [] [] []))
  else if packet_ret =? 0x00 then p ← decode_ok msgbuf; Done (RespOk p.2)
  else
    r ← ((backward 1;; read_lenenc_uint) : reading _) reader;
    Done (RespCols r.1.2).

(** *** The greeting *)

(** Up to a zero byte or the end. *)
Fixpoint read_until_zero (fuel : nat) (s : bytes) : reading bytes := fun r =>
  match fuel with
  | O => Done (s, r)
  | S fuel =>
      if has_more r then
        (('(_, c) ← read_over 1 1 0;
          if c =? 0 then mret s else read_until_zero fuel (s ++ [c])) : reading bytes) r
      else Done (s, r)
  end.
Definition read_string_z : reading bytes := fun r => read_until_zero (S (Z.to_nat (remain_size r))) [] r.
Definition ask_more : reading bool := fun r => Done (has_more r, r).

Definition CLIENT_PLUGIN_AUTH : Z := Z.shiftl 1 19.
Definition CLIENT_SECURE_CONNECTION : Z := 32768.
Definition has_flag (flags f : Z) : bool := negb (Z.land flags f =? 0).

Record greeting := mkGreeting { g_valid : bool; g_scramble : bytes }.
Definition or_fail {A} (ok : bool) (k : reading (oms_ret * A)) (d : A) : reading (oms_ret * A) := if ok then k else mret (OMS_FAILED, d).

(** After the flags: the second part of the scramble and the name of the plugin. *)
Definition decode_greeting_tail (flags : Z) (scramble : bytes) : reading (oms_ret * greeting) :=
  let g := mkGreeting false scramble in
  '(ok, auth_plugin_data_len) ← (if has_flag flags CLIENT_PLUGIN_AUTH then read_uint8 0 else forward 1;; mret (true, 0));
  or_fail ok (
    ok ← forward 10;
    or_fail ok (
      let auth_plugin_data_part_2_len := Z.max 13 (auth_plugin_data_len - 8) in
      '(ok, g) ← (if has_flag flags CLIENT_SECURE_CONNECTION then
                    '(ok, d) ← read auth_plugin_data_part_2_len;
                    mret (ok, mkGreeting ok (scramble ++ overwrite 0 d (replicate (Z.to_nat auth_plugin_data_part_2_len) 0)))
                  else mret (true, g));
      or_fail ok (
        auth_plugin_name ← (if has_flag flags CLIENT_PLUGIN_AUTH then read_string_z else mret []);
        if negb (beq auth_plugin_name (str "mysql_native_password")) then mret (OMS_FAILED, g)
        else mret (OMS_OK, mkGreeting (g_valid g) (first 20 (g_scramble g)))) g) g) g.

Definition decode_greeting (msgbuf : MsgBuf) : outcome (oms_ret * greeting) :=
  let g := mkGreeting false [] in
  decode_with ('(ok, protocol_version) ← read_uint8 0;
        or_fail ok (
          if negb (protocol_version =? 10) then mret (OMS_FAILED, g)
          else
            read_string_z;;
            '(ok, _) ← read_uint32 junk;
            or_fail ok (
              '(ok, d) ← read 8;
              let scramble := overwrite 0 d (replicate 8 0) in
              or_fail ok (
                ok ← forward 1;
                or_fail ok (
                  '(ok, lower) ← read 2;
                  or_fail ok (
                    more ← ask_more;
                    if negb more then mret (OMS_OK, mkGreeting true scramble)
                    else
                      ok ← forward 3;
                      or_fail ok (
                        '(ok, upper) ← read 2;
                        or_fail ok (decode_greeting_tail (le_combine (lower ++ upper)) scramble) g) g) g) g) g) g) g) msgbuf.

(** ** The login *)

Context (memory : bytes) (heap : bytes).

Definition response_flags (database : bytes) : Z :=
  Z.lor (foldr Z.lor 0 [1; 4; 512; 8192; 32768; Z.shiftl 1 16; Z.shiftl 1 17; Z.shiftl 1 18; Z.shiftl 1 19; Z.shiftl 1 21; Z.shiftl 1 22; Z.shiftl 1 27])
    (if bool_decide (database = []) then 0 else 8).

(** The bytes at an offset of the buffer, and the offset behind them. *)
Definition emit (o : option bytes) (s : bytes * Z) : option (bytes * Z) :=
  d ← o; Some (overwrite s.2 d s.1, s.2 + zlen d).

(** [heap]: the 200 bytes that [malloc] returns. *)
Definition encode_response (username database auth_response : bytes) : option bytes :=
  let capacity := 200 in
  let flags := response_flags database in
  s ← emit (Some (le_split 4 flags)) (heap, 0);
  s ← emit (Some (le_split 4 (16 * 1024 * 1024))) s;
  s ← emit (Some [33]) s;
  let s := (s.1, s.2 + 23) in
  s ← emit (write_null_terminate_string (capacity - s.2) username) s;
  s ← (if has_flag flags (Z.shiftl 1 21) then
         s ← emit (write_lenenc_uint (capacity - s.2) (zlen auth_response)) s;
         emit (Bytes.write_string (capacity - s.2) auth_response) s
       else if has_flag flags CLIENT_SECURE_CONNECTION then
         emit (Bytes.write_string (capacity - s.2) auth_response) (overwrite s.2 [u8 (zlen auth_response)] s.1, s.2)
       else emit (write_null_terminate_string (capacity - s.2) auth_response) s);
  s ← (if has_flag flags 8 then emit (write_null_terminate_string (capacity - s.2) database) s else Some s);
  s ← (if has_flag flags CLIENT_PLUGIN_AUTH then emit (write_null_terminate_string (capacity - s.2) (str "mysql_native_password")) s else Some s);
  Some (first s.2 s.1).

Definition send_auth (auth_info : bytes) (sequence : Z) : client oms_ret := fun k =>
  match encode_response (_username k) (_database k) auth_info with
  | None => Done (OMS_FAILED, k)
  | Some payload => send_mysql_packet [payload] sequence k
  end.

Definition lift {A} (o : outcome A) : client A := fun k => x ← o; Done (x, k).
Definition get_client : client MysqlProtocol := fun k => Done (k, k).

Definition handshake : client oms_ret :=
  r ← recv_mysql_packet;
  match r with
  | inl ret => mret ret
  | inr (payload, sequence) =>
      '(ret, g) ← lift (decode_greeting [payload]);
      if negb (bool_decide (ret = OMS_OK)) || negb (g_valid g) then mret ret
      else
        k ← get_client;
        a ← (if bool_decide (_passwd_sha1 k = []) then mret (Some []) else lift (calc_mysql_auth_info memory (_passwd_sha1 k) (g_scramble g)));
        match a with
        | None => mret OMS_FAILED
        | Some auth =>
            ret ← send_auth auth (u8 (sequence + 1));
            if negb (bool_decide (ret = OMS_OK)) then mret OMS_FAILED
            else
              r ← recv_mysql_packet;
              match r with
              | inl _ => mret OMS_FAILED
              | inr (payload, _) =>
                  '(ret, _) ← lift (decode_ok [payload]);
                  (if decide (ret = OMS_OK) then mret tt else lift (decode_err [payload]);; mret tt);;
                  mret ret
              end
        end
  end.

(** ** Queries *)

Record MySQLResultSet := mkResultSet { col_count : Z; cols : list MySQLCol; rows : list (list bytes); affect_rows : Z; rs_code : Z; rs_message : bytes }.
Definition rs_reset (rs : MySQLResultSet) : MySQLResultSet := mkResultSet 0 [] [] (affect_rows rs) (rs_code rs) (rs_message rs).
Definition with_result (n : Z) (cs : list MySQLCol) (l : list (list bytes)) (rs : MySQLResultSet) : MySQLResultSet :=
  mkResultSet n cs l (affect_rows rs) (rs_code rs) (rs_message rs).
(** A column that was never received. *)
Definition blank_col : MySQLCol := mkMySQLCol [] [] [] [] [] [] junk junk junk junk junk junk junk.

Fixpoint recv_cols (n : nat) (acc : list MySQLCol) : client (oms_ret * list MySQLCol) :=
  match n with
  | O => mret (OMS_OK, acc)
  | S n =>
      r ← recv_mysql_packet;
      match r with
      | inl _ => mret (OMS_CONNECT_FAILED, acc)
      | inr (payload, _) => column ← lift (decode_col [payload]); recv_cols n (acc ++ [column])
      end
  end.

(** [buffer()[0]] *)
Definition first_byte (payload : bytes) : client Z := match payload with [] => fun _ => Crash | c :: _ => mret c end.

(** [None]: more packets than [fuel]. *)
Fixpoint recv_rows (fuel : nat) (n : Z) (acc : list (list bytes)) : client (option (oms_ret * list (list bytes))) :=
  match fuel with
  | O => mret None
  | S fuel =>
      r ← recv_mysql_packet;
      match r with
      | inl _ => mret (Some (OMS_CONNECT_FAILED, acc))
      | inr (payload, _) =>
          eof_code ← first_byte payload;
          if eof_code =? 0xfe then mret (Some (OMS_OK, acc))
          else row ← lift (decode_row n [payload]); recv_rows fuel n (acc ++ [row])
      end
  end.
(** Every packet takes at least four bytes of what is still to come. *)
Definition packets_left (k : MysqlProtocol) : nat := S (Z.to_nat (zlen (incoming_bytes (cl_in k)) / 4)).

Definition recv_result (n : Z) (rs : MySQLResultSet) : client (option (oms_ret * MySQLResultSet)) :=
  if limit <? n then fun _ => Crash
  else
    '(ret, cs) ← recv_cols (Z.to_nat n) [];
    let cs := cs ++ replicate (Z.to_nat n - length cs) blank_col in
    if negb (bool_decide (ret = OMS_OK)) then mret (Some (ret, with_result n cs [] rs))
    else
      r ← recv_mysql_packet;
      match r with
      | inl _ => mret (Some (OMS_CONNECT_FAILED, with_result n cs [] rs))
      | inr (payload, _) =>
          '(ret, _) ← lift (decode_eof [payload] junk junk);
          if negb (bool_decide (ret = OMS_OK)) then mret (Some (OMS_OK, with_result n cs [] rs))
          else
            k ← get_client;
            r ← recv_rows (packets_left k) n [];
            mret ((fun x => (x.1, with_result n cs x.2 rs)) <$> r)
      end.

Definition query (sql : bytes) (rs : MySQLResultSet) : client (option (oms_ret * MySQLResultSet)) :=
  let rs := rs_reset rs in
  ret ← send_mysql_packet [[3]; sql] 0;
  if negb (bool_decide (ret = OMS_OK)) then mret (Some (OMS_CONNECT_FAILED, rs))
  else
    r ← recv_mysql_packet;
    match r with
    | inl _ => mret (Some (OMS_CONNECT_FAILED, rs))
    | inr (payload, _) =>
        resp ← lift (decode_query_response [payload]);
        match resp with
        | RespErr e => mret (Some (OMS_FAILED, mkResultSet 0 [] [] (affect_rows rs) (_code e) (_message e)))
        | RespOk p => mret (Some (OMS_OK, mkResultSet 0 [] [] (_affected_rows p) (rs_code rs) (rs_message rs)))
        | RespCols n => if n =? 0 then mret (Some (OMS_OK, mkResultSet 0 [] [] junk (rs_code rs) (rs_message rs))) else recv_result n rs
        end
    end.

(** ** Queries for another server *)

(** Packets up to one whose first byte ends them. *)
Fixpoint route_until (stop : Z -> bool) (fuel : nat) (acc : list bytes) : client (option (oms_ret * list bytes)) :=
  match fuel with
  | O => mret None
  | S fuel =>
      r ← recv_mysql_packet;
      match r with
      | inl _ => mret (Some (OMS_CONNECT_FAILED, acc))
      | inr (payload, _) =>
          packet_code ← first_byte payload;
          if stop packet_code then mret (Some (OMS_OK, acc ++ [payload])) else route_until stop fuel (acc ++ [payload])
      end
  end.
Definition route_query (request_buf : MsgBuf) : client (option (oms_ret * list bytes)) :=
  ret ← send_mysql_packet request_buf 0;
  if negb (bool_decide (ret = OMS_OK)) then mret (Some (OMS_CONNECT_FAILED, []))
  else
    r ← recv_mysql_packet;
    match r with
    | inl _ => mret (Some (OMS_CONNECT_FAILED, []))
    | inr (payload, _) =>
        packet_ret ← first_byte payload;
        if (packet_ret =? 0xff) || (packet_ret =? 0xfb) || (packet_ret =? 0x00) then mret (Some (OMS_OK, [payload]))
        else
          k ← get_client;
          r ← route_until (fun c => c =? 0xfe) (packets_left k) [payload];
          match r with
          | Some (OMS_OK, acc) => k ← get_client; route_until (fun c => (c =? 0xfe) || (c =? 0xff)) (packets_left k) acc
          | r => mret r
          end
    end.

End Decoding.

(** ** Reading what was encoded *)

(** What a reader has left. *)
Definition left_of (r : MsgBufReader) : bytes := skip (_read_size r) (msg_bytes (_buffer r)).

(** [m] decodes [data] into [x], whatever follows it. *)
Definition decodes {A} (m : reading A) (data : bytes) (x : A) : Prop :=
  forall r rest, reader_ok r -> left_of r = data ++ rest -> runs m r (fun y r' => y = x /\ reader_ok r' /\ left_of r' = rest).

Lemma decodes_bind {A B} (m : reading A) (k : A -> reading B) a b x y : decodes m a x -> decodes (k x) b y -> decodes (m ≫= k) (a ++ b) y.
Proof.
  intros Hm Hk r rest Hr Hl. rewrite <-app_assoc in Hl. apply runs_bind. eapply runs_mono; [exact (Hm r _ Hr Hl)|]. intros z r1 (-> & Hr1 & Hl1). exact (Hk r1 rest Hr1 Hl1).
Qed.
Lemma decodes_ret {A} (x : A) : decodes (mret x) [] x.
Proof. intros r rest Hr Hl. by apply runs_ret. Qed.
Lemma decodes_last {A B} (m : reading A) (k : A -> reading B) a x y : decodes m a x -> (forall r, k x r = Done (y, r)) -> decodes (m ≫= k) a y.
Proof. intros Hm Hk r rest Hr Hl. apply runs_bind. eapply runs_mono; [exact (Hm r _ Hr Hl)|]. intros z r1 (-> & Hr1 & Hl1). unfold runs. by rewrite Hk. Qed.

Lemma read_decodes d : decodes (read (zlen d)) d (true, d).
Proof.
  intros r rest Hr Hl. eapply runs_mono; [apply (read_ok (zlen d) r Hr (zlen_nonneg d))|]. intros x r' (Hr' & Eb & H). cbn zeta in H. fold (left_of r) in H. rewrite Hl, zlen_app in H.
  pose proof (zlen_nonneg rest). rewrite (proj2 (Z.leb_le _ _)) in H by lia. destruct H as [-> Es]. rewrite first_app by done. split; [done|]. split; [done|].
  unfold left_of in *. destruct (zlen_rest r Hr) as [_ ?]. pose proof (zlen_nonneg d). rewrite Eb, Es, <-skip_skip, Hl, skip_app by lia. done.
Qed.

Lemma overwrite_prefix {A} (d l : list A) : overwrite 0 d l = d ++ skip (zlen d) l.
Proof. done. Qed.
Lemma overwrite_all {A} (d l : list A) : zlen d = zlen l -> overwrite 0 d l = d.
Proof. intros E. rewrite overwrite_prefix. unfold skip. rewrite drop_ge by (unfold zlen in *; lia). by rewrite app_nil_r. Qed.

Lemma read_over_decodes w n v d : zlen d = n -> decodes (read_over w n v) d (true, le_combine (overwrite 0 d (le_split w v))).
Proof. intros <-. eapply decodes_last; [apply read_decodes|done]. Qed.

(** An integer of the width of the variable, and a shorter one over zero. *)
Lemma read_exact_decodes w v x : 0 <= x < 256 ^ Z.of_nat w -> decodes (read_over w (Z.of_nat w) v) (le_split w x) (true, x).
Proof.
  intros Hx. pose proof (read_over_decodes w (Z.of_nat w) v (le_split w x) (zlen_le_split _ _)) as H. rewrite overwrite_all in H by (by rewrite !zlen_le_split).
  by rewrite le_combine_split_id in H.
Qed.
Lemma le_combine_zeros l n : le_combine (l ++ replicate n 0) = le_combine l.
Proof. induction l as [|x l IH]; cbn [app le_combine]; [|by rewrite IH]. induction n as [|n IH]; [done|]. cbn [replicate le_combine]. by rewrite IH. Qed.
Lemma le_split_0 n : le_split n 0 = replicate n 0.
Proof. induction n as [|n IH]; [done|]. cbn [le_split replicate]. rewrite Zmod_0_l, Zdiv_0_l. by rewrite IH. Qed.
Lemma read_short_decodes w (n : nat) x : (n <= w)%nat -> 0 <= x < 256 ^ Z.of_nat n -> decodes (read_over w (Z.of_nat n) 0) (le_split n x) (true, x).
Proof.
  intros Hn Hx. pose proof (read_over_decodes w (Z.of_nat n) 0 (le_split n x) (zlen_le_split _ _)) as H. rewrite overwrite_prefix, zlen_le_split, le_split_0 in H.
  unfold skip in H. rewrite Nat2Z.id, drop_replicate, le_combine_zeros, le_combine_split_id in H by done. done.
Qed.

Lemma read_lenenc_uint_decodes v : is_u64 v -> decodes read_lenenc_uint (lenenc v) (0, v).
Proof.
  unfold is_u64. intros Hv. unfold read_lenenc_uint, lenenc.
  assert (forall b, 0 <= b < 256 -> decodes (read_over 1 1 0) [b] (true, b)) as Hb.
  { intros b Hb. pose proof (read_exact_decodes 1 0 b ltac:(cbn; lia)) as H. cbn [le_split] in H. by rewrite Z.mod_small in H. }
  destruct (Z.ltb_spec v 251) as [H1|H1]; [|destruct (Z.ltb_spec v (2 ^ 16)) as [H2|H2]; [|destruct (Z.ltb_spec v (2 ^ 24)) as [H3|H3]]].
  - eapply decodes_last; [apply Hb; lia|]. intros r. cbv beta iota. by rewrite (proj2 (Z.ltb_lt _ _)).
  - apply (decodes_bind _ _ [252] _ (true, 252)); [by apply Hb|]. eapply decodes_last; [apply (read_short_decodes 8 2 v); [lia|cbn; lia]|done].
  - apply (decodes_bind _ _ [253] _ (true, 253)); [by apply Hb|]. eapply decodes_last; [apply (read_short_decodes 8 3 v); [lia|cbn; lia]|done].
  - apply (decodes_bind _ _ [254] _ (true, 254)); [by apply Hb|]. eapply decodes_last; [apply (read_short_decodes 8 8 v); [lia|cbn; lia]|done].
Qed.

Lemma read_lenenc_str_decodes limit t : zlen t <= limit -> zlen t < 2 ^ 32 -> decodes (read_lenenc_str limit) (encode (LenencStr t)) t.
Proof.
  intros Hl Ht. pose proof (zlen_nonneg t). cbn [encode]. unfold read_lenenc_str. eapply decodes_bind; [apply read_lenenc_uint_decodes; unfold is_u64; lia|]. cbv beta iota.
  rewrite (proj2 (Z.leb_le _ _)) by done. eapply decodes_last; [apply read_decodes|]. intros r. cbv beta iota. rewrite overwrite_all by (rewrite zlen_replicate; lia). done.
Qed.
(** A null is read as the empty string. *)
Lemma read_null_decodes limit : 0 <= limit -> decodes (read_lenenc_str limit) [251] [].
Proof.
  intros Hl. unfold read_lenenc_str. rewrite <-(app_nil_r [251]). apply (decodes_bind _ _ [251] [] (251, 0)).
  - unfold read_lenenc_uint. eapply decodes_last; [apply (read_exact_decodes 1 0 251); cbn; lia|done].
  - cbv beta iota. rewrite (proj2 (Z.leb_le _ _)) by done. eapply decodes_last; [apply (read_decodes [])|done].
Qed.

(** A decoder run on a packet of its own, with more behind what it reads. *)
Lemma decode_with_ok {A} (m : reading A) data rest x : decodes m data x -> decode_with m [data ++ rest] = Done x.
Proof.
  intros Hm. assert (left_of (new_reader [data ++ rest]) = data ++ rest) as E0 by (unfold left_of; cbn [_read_size _buffer new_reader]; rewrite skip_0; unfold msg_bytes; by rewrite join_cons, app_nil_r).
  pose proof (Hm _ rest (new_reader_ok _) E0) as H. apply runs_done in H as (y & r' & E & -> & _). unfold decode_with. by rewrite E.
Qed.
Lemma decode_with_all {A} (m : reading A) data x : decodes m data x -> decode_with m [data] = Done x.
Proof. intros Hm. rewrite <-(app_nil_r data). by apply decode_with_ok. Qed.

(** [m] decodes [data], the whole of what is left. *)
Definition decodes_all {A} (m : reading A) (data : bytes) (x : A) : Prop := forall r, reader_ok r -> left_of r = data -> runs m r (fun y _ => y = x).
Lemma decodes_all_bind {A B} (m : reading A) (k : A -> reading B) a b x y : decodes m a x -> decodes_all (k x) b y -> decodes_all (m ≫= k) (a ++ b) y.
Proof. intros Hm Hk r Hr Hl. apply runs_bind. eapply runs_mono; [exact (Hm r b Hr Hl)|]. intros z r1 (-> & Hr1 & Hl1). exact (Hk r1 Hr1 Hl1). Qed.
Lemma read_remaining_decodes {B} (k : bool * bytes -> reading B) d y : (forall r, k (true, d) r = Done (y, r)) -> decodes_all (n ← get_remain; read n ≫= k) d y.
Proof.
  intros Hk r Hr Hl. apply runs_bind. unfold get_remain, runs at 1. apply runs_bind. destruct (zlen_rest r Hr) as [<- _]. fold (left_of r). rewrite Hl.
  eapply runs_mono; [apply (read_decodes d r [] Hr); by rewrite app_nil_r|]. intros x r1 (-> & _). unfold runs. by rewrite Hk.
Qed.
Lemma decode_with_exact {A} (m : reading A) data x : decodes_all m data x -> decode_with m [data] = Done x.
Proof.
  intros Hm. assert (left_of (new_reader [data]) = data) as E0 by (unfold left_of; cbn [_read_size _buffer new_reader]; rewrite skip_0; unfold msg_bytes; by rewrite join_cons, app_nil_r).
  pose proof (Hm _ (new_reader_ok _) E0) as H. apply runs_done in H as (y & r' & E & ->). unfold decode_with. by rewrite E.
Qed.

Lemma forward_decodes d : 0 < zlen d -> decodes (forward (zlen d)) d true.
Proof.
  intros Hd r rest Hr Hl. unfold forward. apply runs_bind. eapply runs_mono; [by apply read_any_ok|]. intros x r' (Hr' & Eb & H). cbn zeta in H. fold (left_of r) in H. rewrite Hl, zlen_app in H.
  pose proof (zlen_nonneg rest). rewrite (proj2 (Z.leb_le _ _)) in H by lia. destruct H as [-> Es]. apply runs_ret. split; [done|]. split; [done|].
  unfold left_of in *. destruct (zlen_rest r Hr) as [_ ?]. rewrite Eb, Es, <-skip_skip, Hl, skip_app by lia. done.
Qed.

Lemma has_more_left r : reader_ok r -> has_more r = (0 <? zlen (left_of r)).
Proof. intros [Hp _ Ha]. unfold has_more. rewrite more_in_ok by done. unfold left_of, msg_bytes. by rewrite Ha, rest_at. Qed.

Lemma read_until_zero_decodes t : forall fuel s, 0 ∉ t -> Forall is_u8 t -> (length t < fuel)%nat -> decodes (read_until_zero fuel s) (t ++ [0]) (s ++ t).
Proof.
  induction t as [|c t IH]; intros [|fuel] s Hz Hu Hf; cbn [length] in Hf; try lia; intros r rest Hr Hl; unfold runs; cbn [read_until_zero]; rewrite has_more_left, Hl by done;
    cbn [app]; rewrite zlen_cons.
  - pose proof (zlen_nonneg rest). rewrite (proj2 (Z.ltb_lt _ _)) by lia.
    apply (runs_bind (read_over 1 1 0)). eapply runs_mono; [apply (read_exact_decodes 1 0 0 ltac:(cbn; lia) r rest Hr); exact Hl|]. intros x r' (-> & Hr' & Hl'). cbv beta iota. rewrite Z.eqb_refl.
    apply runs_ret. by rewrite app_nil_r.
  - apply Forall_cons in Hu as [Hc Hu]. unfold is_u8 in Hc. assert (c <> 0 /\ 0 ∉ t) as [Hc0 Ht] by (split; [intros ->; apply Hz; by left|intros H'; apply Hz; by right]).
    pose proof (zlen_nonneg ((t ++ [0]) ++ rest)). rewrite (proj2 (Z.ltb_lt _ _)) by lia. apply (runs_bind (read_over 1 1 0)).
    eapply runs_mono; [apply (read_exact_decodes 1 0 c ltac:(cbn; lia) r ((t ++ [0]) ++ rest) Hr); rewrite Hl; cbn [le_split app]; by rewrite Z.mod_small|].
    intros x r' (-> & Hr' & Hl'). cbv beta iota. rewrite (proj2 (Z.eqb_neq _ _)) by done.
    pose proof (IH fuel (s ++ [c]) Ht Hu ltac:(lia) r' rest Hr' Hl') as H2. by rewrite <-app_assoc in H2.
Qed.

Lemma read_string_z_decodes t : 0 ∉ t -> Forall is_u8 t -> decodes read_string_z (t ++ [0]) t.
Proof.
  intros Hz Hu r rest Hr Hl. unfold read_string_z, runs. refine (read_until_zero_decodes t _ [] Hz Hu _ r rest Hr Hl).
  destruct (zlen_rest r Hr) as [E _]. rewrite <-E. fold (left_of r). rewrite Hl, !zlen_app. unfold zlen. cbn [length]. lia.
Qed.

(** ** Packets, whatever the kernel splits *)

Record client_ready (k : MysqlProtocol) : Prop := {
  cr_in : calm (cl_in k);
  cr_writes : calm_writes (cl_writes k);
  cr_polls : Forall (fun p => p = P_in) (cl_polls k)
}.
Definition who (k : MysqlProtocol) := (_username k, _passwd_sha1 k, _database k).

(** The client has consumed the input up to [rest] and sent [out]. *)
Record talked (rest out : bytes) (k k' : MysqlProtocol) : Prop := {
  tk_ready : client_ready k';
  tk_rest : incoming_bytes (cl_in k') = rest;
  tk_out : cl_out k' = cl_out k ++ out;
  tk_who : who k' = who k
}.

Lemma talked_trans r1 r2 o1 o2 k k1 k2 : talked r1 o1 k k1 -> talked r2 o2 k1 k2 -> talked r2 (o1 ++ o2) k k2.
Proof. intros [A1 A2 A3 A4] [B1 B2 B3 B4]. split; [done|done|by rewrite B3, A3, app_assoc|congruence]. Qed.

Lemma frame_header seq n : 0 <= n < 2 ^ 24 ->
  le_split 4 (n + u8 seq * 2 ^ 24) = le_split 3 n ++ [u8 seq] /\ Z.land (n + u8 seq * 2 ^ 24) 0x00FFFFFF = n /\ Z.shiftr (Z.land (n + u8 seq * 2 ^ 24) 0xFF000000) 24 = u8 seq.
Proof.
  intros Hn. assert (0 <= u8 seq < 256) as Hu by (apply Z.mod_pos_bound; lia). set (q := u8 seq) in *. split_and!.
  - rewrite <-(le_split_combine (le_split 3 n ++ [q])).
    + change (length (le_split 3 n ++ [q])) with 4%nat. f_equal. change (le_split 3 n) with [n mod 256; n / 256 mod 256; n / 256 / 256 mod 256]. cbn [app le_combine].
      pose proof (Z.div_mod n 256). pose proof (Z.div_mod (n / 256) 256). pose proof (Z.mod_small (n / 256 / 256) 256).
      assert (0 <= n / 256 / 256 < 256) by (rewrite Z.div_div by lia; split; [apply Z.div_pos; lia|apply Z.div_lt_upper_bound; lia]). lia.
    + apply Forall_app. split; [apply le_split_u8|by apply Forall_singleton].
  - change 0x00FFFFFF with (Z.ones 24). rewrite Z.land_ones by lia. rewrite Z.mod_add by lia. by apply Z.mod_small.
  - rewrite Z.shiftr_land. change (Z.shiftr 4278190080 24) with (Z.ones 8). rewrite Z.land_ones, Z.shiftr_div_pow2 by lia. rewrite Z.div_add by lia. rewrite (Z.div_small n) by lia. apply Z.mod_small. lia.
Qed.

Lemma client_read_ok d rest k : client_ready k -> incoming_bytes (cl_in k) = d ++ rest ->
  runs (client_read (zlen d)) k (fun x k' => x = (IO_OK, d) /\ talked rest [] k k').
Proof.
  intros [H1 H2 H3] E. unfold runs, client_read. destruct (readn_ok d rest (cl_in k) H1 E) as (l' & -> & Hc & El). split; [done|]. split; [by split|done|cbn; by rewrite app_nil_r|done].
Qed.
Lemma client_write_ok d k : client_ready k -> runs (client_write d) k (fun ok k' => ok = true /\ talked (incoming_bytes (cl_in k)) d k k').
Proof. intros [H1 H2 H3]. unfold runs, client_write. destruct (writen_ok d (cl_writes k) (cl_out k) H2) as (ws' & -> & Hc). split; [done|]. by split; [split|..]. Qed.
Lemma poll_ok k : client_ready k -> runs poll k (fun p k' => p = P_in /\ talked (incoming_bytes (cl_in k)) [] k k').
Proof.
  intros [H1 H2 H3]. unfold runs, poll. destruct (cl_polls k) as [|p ps] eqn:E.
  - split; [done|]. split; [split; [done|done|by rewrite E]|done|by rewrite app_nil_r|done].
  - apply Forall_cons in H3 as [-> H3]. split; [done|]. split; [by split|done|cbn; by rewrite app_nil_r|done].
Qed.

Lemma recv_mysql_packet_ok seq p rest k : client_ready k -> incoming_bytes (cl_in k) = frame seq p ++ rest -> zlen p < 2 ^ 24 ->
  runs recv_mysql_packet k (fun x k' => x = inr (p, u8 seq) /\ talked rest [] k k').
Proof.
  intros Hr Hin Hz. pose proof (zlen_nonneg p) as Hp. destruct (frame_header seq (zlen p)) as (E1 & E2 & E3); [lia|]. unfold frame in Hin. rewrite (app_assoc _ [_]), <-E1, <-app_assoc in Hin.
  unfold recv_mysql_packet. apply runs_bind. eapply runs_mono; [by apply poll_ok|]. intros x k1 [-> T1]. pose proof T1 as [R1 I1 _ _]. rewrite Hin in I1. apply runs_bind.
  eapply runs_mono; [exact (client_read_ok (le_split 4 _) _ k1 R1 I1)|]. intros x k2 [-> T2]. pose proof T2 as [R2 I2 _ _]. rewrite bool_decide_eq_true_2 by done. cbn [negb].
  assert (0 <= u8 seq < 256) as Hu by (apply Z.mod_pos_bound; lia). rewrite le_combine_split_id by (change (256 ^ Z.of_nat 4) with (2 ^ 32); lia). cbn zeta. rewrite E2, E3.
  rewrite (proj2 (Z.leb_gt _ _)) by lia. apply runs_bind. eapply runs_mono; [exact (client_read_ok p rest k2 R2 I2)|]. intros x k3 [-> T3]. rewrite bool_decide_eq_true_2 by done. cbn [negb].
  apply runs_ret. split; [done|]. exact (talked_trans _ _ [] [] k k1 k3 T1 (talked_trans _ _ [] [] k1 k2 k3 T2 T3)).
Qed.

Lemma write_chunks_ok l : forall k, client_ready k -> runs (write_chunks l) k (fun x k' => x = OMS_OK /\ talked (incoming_bytes (cl_in k)) (mjoin l) k k').
Proof.
  induction l as [|c l IH]; intros k Hr; cbn [write_chunks].
  { apply runs_ret. split; [done|]. split; [done|done|by rewrite app_nil_r|done]. }
  apply runs_bind. eapply runs_mono; [by apply client_write_ok|]. intros ok k1 [-> T1]. eapply runs_mono; [apply IH; by destruct T1|]. intros x k2 [-> T2]. split; [done|].
  rewrite join_cons. destruct T1 as [? E1 ? ?]. rewrite E1 in T2. eapply talked_trans; [by split|done].
Qed.

Lemma client_send_ok l seq k : client_ready k -> zlen (mjoin l) < 2 ^ 24 -> is_u8 seq ->
  runs (send_mysql_packet l seq) k (fun x k' => x = OMS_OK /\ talked (incoming_bytes (cl_in k)) (frame seq (mjoin l)) k k').
Proof.
  intros Hr Hz Hs. pose proof (zlen_nonneg (mjoin l)) as Hl. destruct (frame_header seq (zlen (mjoin l))) as (E1 & _ & _); [lia|]. unfold send_mysql_packet.
  assert (Z.lor (Z.land (byte_size l) 0x00FFFFFF) (u32 (Z.shiftl seq 24)) = zlen (mjoin l) + u8 seq * 2 ^ 24) as ->.
  { rewrite byte_size_eq. change 0x00FFFFFF with (Z.ones 24). rewrite Z.land_ones, Z.mod_small by (unfold msg_bytes; lia). unfold is_u8 in Hs.
    rewrite u32_id by (unfold is_u32; rewrite Z.shiftl_mul_pow2; lia). rewrite Z.lor_comm, lor_shiftl by (unfold msg_bytes; lia). rewrite u8_id by done. unfold msg_bytes. lia. }
  rewrite E1. apply runs_bind. eapply runs_mono; [by apply client_write_ok|]. intros ok k1 [-> T1]. eapply runs_mono; [apply write_chunks_ok; by destruct T1|]. intros x k2 [-> T2].
  split; [done|]. unfold frame. rewrite app_assoc. destruct T1 as [? Ei ? ?]. rewrite Ei in T2. eapply talked_trans; [by split|done].
Qed.

(** A packet that is received takes at least four bytes, so that [packets_left] is enough. *)
Lemma recv_mysql_packet_takes k : runs recv_mysql_packet k (fun x k' => zlen (incoming_bytes (cl_in k')) + (match x with inr _ => 4 | inl _ => 0 end) <= zlen (incoming_bytes (cl_in k))).
Proof.
  assert (forall n k, 0 <= n -> runs (client_read n) k (fun '(r, d) k' => zlen (incoming_bytes (cl_in k)) = zlen d + zlen (incoming_bytes (cl_in k')) /\ (r = IO_OK -> zlen d = n))) as Hread.
  { clear k. intros n k Hn. unfold runs, client_read, readn. destruct (readn_loop n n [] (cl_in k)) as [[r d] l'] eqn:E. apply readn_loop_takes in E as (d' & -> & H1 & H2 & H3); [|done].
    cbn [app cl_in with_client_io]. rewrite H2, zlen_app. done. }
  assert (runs poll k (fun _ k' => incoming_bytes (cl_in k') = incoming_bytes (cl_in k))) as Hpoll by (unfold runs, poll; by destruct (cl_polls k)).
  unfold recv_mysql_packet. apply runs_bind. eapply runs_mono; [exact Hpoll|]. intros p k1 E1. rewrite <-E1. destruct p; try (apply runs_ret; lia). apply runs_bind.
  eapply runs_mono; [by apply (Hread 4)|]. intros [r h] k2 [E2 Hh]. pose proof (zlen_nonneg h). destruct (decide (r = IO_OK)) as [Hr|Hr].
  2: { rewrite bool_decide_eq_false_2 by done. apply runs_ret. lia. }
  rewrite bool_decide_eq_true_2 by done. specialize (Hh Hr). cbn [negb]. destruct (_ <=? _); [apply runs_ret; lia|]. apply runs_bind.
  eapply runs_mono; [apply Hread; apply Z.land_nonneg; right; lia|]. intros [r2 d] k3 [E3 Hd]. pose proof (zlen_nonneg d). destruct (negb _); apply runs_ret; lia.
Qed.
