(* ===== verification/Login.v ===== *)
(** * Login: the client and the server together

    The login of [MysqlProtocol] at a server of [Connection], and a query with its result
    set: what one side encodes with its own code, the other decodes with its own. *)

From S2P Require Import Prelude Bytes Str Dumper PacketBuf Sha1 Auth Connection Handshake MsgBuf Client.

#[local] Open Scope Z_scope.

(** ** The greeting *)

Lemma decodes_more {B} (k : bool -> reading B) d y : d <> [] -> decodes (k true) d y -> decodes (ask_more ≫= k) d y.
Proof.
  intros Hd Hk r rest Hr Hl. apply runs_bind. unfold ask_more, runs at 1. rewrite has_more_left, Hl by done.
  assert (0 < zlen (d ++ rest)) as Hz by (destruct d as [|x d]; [done|]; cbn [app]; rewrite zlen_cons; pose proof (zlen_nonneg (d ++ rest)); lia).
  rewrite (proj2 (Z.ltb_lt _ _)) by done. by apply Hk.
Qed.

Lemma greeting_tail_decodes scramble : zlen scramble = 20 -> 0 ∉ scramble ->
  decodes (decode_greeting_tail ob_binlog_server_capabilities (first 8 scramble)) ([21] ++ replicate 10 0 ++ (skip 8 scramble ++ [0]) ++ str "mysql_native_password" ++ [0])
    (OMS_OK, mkGreeting true scramble).
Proof.
  intros Hz H0. unfold decode_greeting_tail. change (has_flag ob_binlog_server_capabilities CLIENT_PLUGIN_AUTH) with true. change (has_flag ob_binlog_server_capabilities CLIENT_SECURE_CONNECTION) with true.
  cbv beta iota. eapply decodes_bind; [apply (read_exact_decodes 1 0 21); cbn; lia|]. cbv beta iota. unfold or_fail at 1.
  eapply decodes_bind; [by apply (forward_decodes (replicate 10 0))|]. cbv beta. unfold or_fail at 1. change (Z.max 13 (21 - 8)) with 13. cbn zeta.
  assert (zlen (skip 8 scramble ++ [0]) = 13) as Hz2 by (rewrite zlen_app, zlen_skip by lia; rewrite Hz; done).
  eapply decodes_bind; [eapply decodes_last; [rewrite <-Hz2; apply read_decodes|intros r; cbv beta iota; reflexivity]|]. cbv beta iota. unfold or_fail at 1.
  eapply decodes_last; [apply read_string_z_decodes; [by_compute|apply str_u8]|]. intros r. cbv beta. rewrite beq_refl. cbn [negb g_valid g_scramble]. unfold mret, stateful_ret. do 3 f_equal.
  rewrite overwrite_all by (rewrite zlen_replicate; lia). rewrite app_assoc, first_skip. f_equal. by apply first_app.
Qed.

Lemma handshake_packet_decodes junk p : zlen (hs_scramble_ p) = 20 -> 0 ∉ hs_scramble_ p -> 0 <= hs_thread_id_ p < 2 ^ 32 ->
  decode_greeting junk [encode_all (handshake_fields p ob_binlog_server_capabilities)] = Done (OMS_OK, mkGreeting true (hs_scramble_ p)).
Proof.
  intros Hz H0 Ht. apply decode_with_all. unfold handshake_fields. rewrite !encode_all_cons. eapply decodes_bind; [apply (read_exact_decodes 1 0 10); cbn; lia|]. cbv beta iota. unfold or_fail at 1.
  change (negb (10 =? 10)) with false. cbv iota. eapply decodes_bind; [apply read_string_z_decodes; [by_compute|apply str_u8]|]. cbv beta.
  eapply decodes_bind; [apply (read_exact_decodes 4 junk (hs_thread_id_ p)); cbn; lia|]. cbv beta iota. unfold or_fail at 1.
  assert (zlen (first 8 (hs_scramble_ p)) = 8) as Hz8 by (rewrite zlen_first; lia).
  pose proof (read_decodes (first 8 (hs_scramble_ p))) as Hd. rewrite Hz8 in Hd. eapply decodes_bind; [exact Hd|]. cbv beta iota zeta. unfold or_fail at 1. rewrite overwrite_all by (rewrite zlen_replicate; lia).
  eapply decodes_bind; [by apply (forward_decodes [0])|]. cbv beta. unfold or_fail at 1. eapply decodes_bind; [apply (read_decodes (encode (U2 (u16 ob_binlog_server_capabilities))))|].
  cbv beta iota. unfold or_fail at 1. apply decodes_more; [done|]. cbn [negb]. rewrite (app_assoc (encode (U1 _)) (encode (U2 _))).
  eapply decodes_bind; [by apply (forward_decodes (encode (U1 (hs_character_set_nr_ p)) ++ encode (U2 (hs_server_status_flags_ p))))|]. cbv beta. unfold or_fail at 1.
  eapply decodes_bind; [apply (read_decodes (encode (U2 (Z.shiftr ob_binlog_server_capabilities 16))))|]. cbv beta iota. unfold or_fail at 1.
  change (le_combine (encode (U2 (u16 ob_binlog_server_capabilities)) ++ encode (U2 (Z.shiftr ob_binlog_server_capabilities 16)))) with ob_binlog_server_capabilities.
  by apply greeting_tail_decodes.
Qed.

(** ** The response *)

Section Response.
Context (heap : bytes).

(** The buffer once [out] is written, and the offset behind it. *)
Definition filled (out : bytes) : bytes * Z := (out ++ skip (zlen out) heap, zlen out).

Lemma emit_filled out d : zlen out + zlen d <= zlen heap -> emit (Some d) (filled out) = Some (filled (out ++ d)).
Proof.
  intros Hz. pose proof (zlen_nonneg out). pose proof (zlen_nonneg d). unfold emit, filled. cbn [mbind option_bind fst snd]. do 2 f_equal; [|by rewrite zlen_app].
  rewrite <-(first_skip (zlen d) (skip (zlen out) heap)) at 1. rewrite overwrite_app; [|done|rewrite zlen_first; [done|rewrite zlen_skip; lia]].
  rewrite skip_skip, zlen_app, <-app_assoc by lia. done.
Qed.
Lemma leave_ok out n : 0 <= n -> zlen out + n <= zlen heap -> ((filled out).1, (filled out).2 + n) = filled (out ++ first n (skip (zlen out) heap)).
Proof.
  intros Hn Hz. pose proof (zlen_nonneg out). unfold filled. cbn [fst snd]. rewrite zlen_app, zlen_first by (rewrite zlen_skip; lia). f_equal.
  rewrite <-app_assoc. f_equal. rewrite <-skip_skip by lia. by rewrite first_skip.
Qed.
Lemma filled_out out : first (filled out).2 (filled out).1 = out.
Proof. by apply first_app. Qed.

Lemma emit_string out t : zlen heap = 200 -> zlen out + zlen (t ++ [0]) <= 200 ->
  emit (write_null_terminate_string (200 - (filled out).2) t) (filled out) = Some (filled (out ++ (t ++ [0]))).
Proof.
  intros Hh Hz. pose proof Hz as Hz'. rewrite zlen_app in Hz'. change (zlen [0]) with 1 in Hz'. unfold write_null_terminate_string. rewrite Z.gtb_ltb, (proj2 (Z.ltb_ge _ _)) by (cbn [filled snd]; lia). apply emit_filled. lia.
Qed.
Lemma emit_length out n : zlen heap = 200 -> zlen out + 1 <= 200 -> 0 <= n < 251 -> emit (write_lenenc_uint (200 - (filled out).2) n) (filled out) = Some (filled (out ++ [n])).
Proof.
  intros Hh Hz Hn. unfold write_lenenc_uint. rewrite (proj2 (Z.ltb_lt _ _)), (proj2 (Z.leb_le _ _)) by (cbn [filled snd]; lia). rewrite u8_id by (unfold is_u8; lia). apply emit_filled. change (zlen [n]) with 1. lia.
Qed.
Lemma emit_raw out t : zlen heap = 200 -> zlen out + zlen t <= 200 -> emit (Bytes.write_string (200 - (filled out).2) t) (filled out) = Some (filled (out ++ t)).
Proof. intros Hh Hz. unfold Bytes.write_string. rewrite Z.gtb_ltb, (proj2 (Z.ltb_ge _ _)) by (cbn [filled snd]; lia). apply emit_filled. lia. Qed.

(** What the client puts into its response: 23 bytes of it are what the heap held. *)
Definition response_of (username database auth_response : bytes) : response :=
  mkResponse (response_flags database) (2 ^ 24) 33 (first 23 (skip 9 heap)) username auth_response database (str "mysql_native_password").

Lemma response_flags_eq database : response_flags database = if bool_decide (database = []) then 141533701 else 141533709.
Proof. unfold response_flags. by case_bool_decide. Qed.

Lemma encode_response_ok username database auth_response :
  zlen heap = 200 -> zlen auth_response < 251 -> zlen (encode_all (response_fields (response_of username database auth_response))) <= 200 ->
  encode_response heap username database auth_response = Some (encode_all (response_fields (response_of username database auth_response))).
Proof.
  intros Hh Ha Hz. pose proof (zlen_nonneg username). pose proof (zlen_nonneg database). pose proof (zlen_nonneg auth_response).
  set (dbs := if bool_decide (database = []) then [] else database ++ [0]).
  assert (encode_all (response_fields (response_of username database auth_response)) =
    ((((((le_split 4 (response_flags database) ++ le_split 4 (2 ^ 24)) ++ [33]) ++ first 23 (skip 9 heap)) ++ username ++ [0]) ++ [zlen auth_response]) ++ auth_response) ++
    dbs ++ str "mysql_native_password" ++ [0]) as E.
  { unfold response_fields, response_of. cbn [rs_flags rs_max_packet rs_charset rs_reserved rs_user rs_auth rs_database rs_plugin].
    assert (lenenc (zlen auth_response) = [zlen auth_response]) as El by (unfold lenenc; by rewrite (proj2 (Z.ltb_lt _ _))). unfold dbs. rewrite response_flags_eq. case_bool_decide.
    - change (has_capability 141533701 client_plugin_auth_lenenc_client_data) with true. change (has_capability 141533701 client_connect_with_db) with false. change (has_capability 141533701 client_plugin_auth) with true.
      cbn [app]. rewrite !encode_all_cons. cbn [encode]. rewrite El, <-!app_assoc. unfold encode_all. cbn [fmap list_fmap mjoin list_join app]. done.
    - change (has_capability 141533709 client_plugin_auth_lenenc_client_data) with true. change (has_capability 141533709 client_connect_with_db) with true. change (has_capability 141533709 client_plugin_auth) with true.
      cbn [app]. rewrite !encode_all_cons. cbn [encode]. rewrite El, <-!app_assoc. unfold encode_all. cbn [fmap list_fmap mjoin list_join app]. done. }
  rewrite E in *. clear E. set (o1 := le_split 4 (response_flags database)) in *. set (o2 := le_split 4 (2 ^ 24)) in *. assert (zlen o1 = 4 /\ zlen o2 = 4) as [Z1 Z2] by done.
  assert (zlen (first 23 (skip 9 heap)) = 23) as Z3 by (rewrite zlen_first; [done|rewrite zlen_skip; lia]). pose proof (zlen_nonneg dbs).
  rewrite !zlen_app in Hz. rewrite Z1, Z2, Z3 in Hz. change (zlen [33]) with 1 in Hz. change (zlen [0]) with 1 in Hz. change (zlen [zlen auth_response]) with 1 in Hz.
  change (zlen (str "mysql_native_password")) with 21 in Hz. unfold encode_response. cbn zeta. fold o1. change (le_split 4 (16 * 1024 * 1024)) with o2.
  assert ((heap, 0) = filled []) as -> by done.
  assert (forall t : Z, zlen [t] = 1) as Zs by done. assert (zlen (@nil Z) = 0) as Zn by done.
  rewrite emit_filled by (rewrite Zn; lia). cbn [mbind option_bind app]. rewrite emit_filled by lia. cbn [mbind option_bind]. rewrite emit_filled by (rewrite zlen_app, Zs; lia). cbn [mbind option_bind].
  rewrite leave_ok by (rewrite ?zlen_app, ?Zs; lia). assert (zlen ((o1 ++ o2) ++ [33]) = 9) as -> by (rewrite !zlen_app, Zs; lia).
  rewrite emit_string by (rewrite ?zlen_app, ?Zs; lia). cbn [mbind option_bind]. rewrite (response_flags_eq database).
  assert (forall n, n = 141533701 \/ n = 141533709 -> has_flag n (Z.shiftl 1 21) = true /\ has_flag n CLIENT_PLUGIN_AUTH = true) as Hfl by (by intros n [->| ->]).
  destruct (Hfl (if bool_decide (database = []) then 141533701 else 141533709)) as [-> ->]; [case_bool_decide; auto|].
  rewrite emit_length by (rewrite ?zlen_app, ?Zs; lia). cbn [mbind option_bind]. rewrite emit_raw by (rewrite ?zlen_app, ?Zs; lia). cbn [mbind option_bind].
  assert (has_flag (if bool_decide (database = []) then 141533701 else 141533709) 8 = negb (bool_decide (database = []))) as -> by (by case_bool_decide).
  unfold dbs in *. case_bool_decide; cbn [negb app] in *.
  - cbn [mbind option_bind]. rewrite emit_string by (rewrite ?zlen_app, ?Zs; change (zlen (str "mysql_native_password")) with 21; lia). cbn [mbind option_bind]. by rewrite filled_out.
  - rewrite zlen_app, Zs in *. rewrite emit_string by (rewrite ?zlen_app, ?Zs; lia). cbn [mbind option_bind].
    rewrite emit_string by (rewrite ?zlen_app, ?Zs; change (zlen (str "mysql_native_password")) with 21; lia). cbn [mbind option_bind]. by rewrite filled_out, <-app_assoc.
Qed.

End Response.

Lemma response_of_ok heap username database auth_response :
  zlen heap = 200 -> zlen auth_response < 251 -> zlen username <= 124 -> zlen database <= 124 -> 0 ∉ username -> 0 ∉ database ->
  response_ok (response_of heap username database auth_response).
Proof.
  intros Hh Ha Hu Hd H1 H2. pose proof (response_flags_eq database) as Hf. split; cbn [response_of rs_flags rs_reserved rs_user rs_database rs_plugin]; try done.
  - assert (forall t : bytes, zlen t <= 124 -> field_ok (Fixed (t ++ [0]))) as Hs by (intros t Ht; cbn; rewrite zlen_app; change (zlen [0]) with 1; lia).
    unfold response_fields. cbn [response_of rs_flags rs_max_packet rs_charset rs_reserved rs_user rs_auth rs_database rs_plugin]. rewrite Hf. rewrite !Forall_app. split_and!.
    + repeat (apply Forall_cons; split); [by case_bool_decide|done|done| |by apply Hs|by apply Forall_nil]. cbn. rewrite zlen_first; [lia|rewrite zlen_skip; lia].
    + case_bool_decide; (apply Forall_cons; split; [cbn; lia|by apply Forall_nil]).
    + case_bool_decide; [by apply Forall_nil|]. apply Forall_cons; split; [by apply Hs|by apply Forall_nil].
    + case_bool_decide; (apply Forall_cons; split; [done|by apply Forall_nil]).
  - rewrite Hf. by case_bool_decide.
  - rewrite zlen_first; [done|rewrite zlen_skip; lia].
  - by_compute.
  - rewrite Hf. by case_bool_decide.
Qed.

Lemma zlen_response heap username auth_response : zlen heap = 200 -> zlen auth_response < 251 ->
  zlen (encode_all (response_fields (response_of heap username [] auth_response))) = 56 + zlen username + zlen auth_response.
Proof.
  intros Hh Ha. pose proof (zlen_nonneg auth_response). unfold response_fields, response_of. cbn [rs_flags rs_max_packet rs_charset rs_reserved rs_user rs_auth rs_database rs_plugin].
  change (response_flags []) with 141533701. change (has_capability 141533701 client_plugin_auth_lenenc_client_data) with true. change (has_capability 141533701 client_connect_with_db) with false.
  change (has_capability 141533701 client_plugin_auth) with true. cbn [app]. rewrite !encode_all_cons. cbn [encode]. rewrite !zlen_app, !zlen_le_split, zlen_first by (rewrite zlen_skip; lia).
  rewrite zlen_lenenc. unfold encoded_bytes_length. rewrite (proj2 (Z.ltb_lt _ _)) by done. change (zlen [0]) with 1. change (zlen (str "mysql_native_password")) with 21. change (zlen (encode_all [])) with 0. lia.
Qed.

(** ** The answer *)

Lemma ok_reply_decodes junk caps : exists p, decode_ok junk [encode_all (reply_fields SendOk caps)] = Done (OMS_OK, p).
Proof.
  exists (mkMySQLOk 0 0). cbn [reply_fields fields ok_packet_laws]. unfold ok_fields. rewrite encode_all_app. cbn [affected_rows_ last_insert_id_]. apply decode_with_ok.
  change (encode_all [U1 0; Lenenc 0; Lenenc 0]) with ([0] ++ lenenc 0 ++ lenenc 0). eapply decodes_bind; [apply (read_exact_decodes 1 junk 0); cbn; lia|]. cbv beta iota.
  eapply decodes_bind; [by apply read_lenenc_uint_decodes|]. cbv beta iota. eapply decodes_last; [by apply read_lenenc_uint_decodes|done].
Qed.

(** ** The login *)

Section Login.
Context (alloc : Z -> bytes) (alloc_len : forall n, 0 <= n -> zlen (alloc n) = n) (memory heap : bytes) (memory_len : zlen memory = 64) (heap_len : zlen heap = 200).
Context (junk : Z) (rand : nat -> Z) (query_user_by_name : bytes -> option User).

(** A connection that was just accepted. *)
Record accepted (c : Connection) : Prop := {
  ac_ready : ready c;
  ac_room : 1024 <= min_capacity_ (pkt_buf_ c);
  ac_seq : seq_no_ c = 0;
  ac_caps : client_capabilities_ c = ob_binlog_server_capabilities;
  ac_thread : 0 <= thread_id_ c < 2 ^ 32;
  ac_remote : _conn_type c = OBI /\ sa_local c = false
}.

Definition scrambled (c : Connection) : Connection :=
  with_auth_info (mkAuthInfo (ai_user (_auth_info c)) (ai_password (_auth_info c)) (generate_scramble rand) (ai_passwd_used (_auth_info c))) c.
Definition greeting_of (c : Connection) : bytes := encode_all (handshake_fields (new_handshake_packet rand (thread_id_ c) 33) ob_binlog_server_capabilities).

Lemma greeting_fits c lo hi : 0 <= thread_id_ c < 2 ^ 32 -> 1024 <= lo <= hi -> packet_fits (new_handshake_packet rand (thread_id_ c) 33) ob_binlog_server_capabilities lo hi /\ zlen (greeting_of c) = 78.
Proof.
  intros Ht Hlo. destruct (generate_scramble_ok rand) as (Hz & _ & _). set (scr := generate_scramble rand) in *.
  assert (zlen (first 8 scr) = 8 /\ zlen (skip 8 scr ++ [0]) = 13) as [Z1 Z2] by (rewrite zlen_app, zlen_skip, zlen_first by lia; rewrite Hz; done).
  assert (zlen (greeting_of c) = 78) as Hg.
  { unfold greeting_of, handshake_fields. rewrite !encode_all_cons. cbn [encode new_handshake_packet hs_scramble_]. fold scr. rewrite !zlen_app, !zlen_le_split, Z1. rewrite zlen_app in Z2. change (zlen (encode_all [])) with 0.
    change (zlen [0]) with 1 in *. change (zlen (str "5.7.35-obs")) with 10. change (zlen (str "mysql_native_password")) with 21. change (zlen (replicate 10 0)) with 10. lia. }
  split; [|done]. split_and!; [|done|].
  - cbn [fields handshake_packet_laws]. unfold handshake_fields. cbn [new_handshake_packet hs_thread_id_ hs_scramble_ hs_character_set_nr_ hs_server_status_flags_]. fold scr.
    repeat (apply Forall_cons; split); try done.
  - cbn [pk_asserts_room handshake_packet_laws fields]. fold (greeting_of c). lia.
Qed.

Lemma send_handshake_ok c : accepted c ->
  runs (send_handshake_packet alloc rand) c (fun r c' => r = SUCCESS /\ delivered [greeting_of c] (scrambled c) c').
Proof.
  intros [[Hw Hb] Hroom Hseq Hcaps Ht _]. unfold send_handshake_packet. apply runs_get_conn, runs_bind. unfold set_auth_info, runs at 1. fold (scrambled c).
  pose proof (send_delivers alloc alloc_len (new_handshake_packet rand (thread_id_ c) 33) (scrambled c)) as H. unfold delivers in H. cbn [client_capabilities_ scrambled with_auth_info] in H. rewrite Hcaps in H. apply H.
  - by split.
  - apply greeting_fits; [done|]. cbn. destruct Hb as [_ [? ?] _ _]. lia.
Qed.

Lemma single_frame p : zlen p < mysql_pkt_max_length -> forall seq, wire_of seq p = frame seq p /\ full_frames p = O.
Proof. intros Hz seq. apply full_frames_0 in Hz. unfold wire_of. by rewrite Hz. Qed.

(** The two parties, each with the other's packets. *)
Lemma client_logs_in user password reply c k rest :
  client_ready k -> who k = (user, sha1 password, []) -> 0 <= thread_id_ c < 2 ^ 32 -> zlen user <= 124 -> zlen reply < 2 ^ 24 ->
  (exists p, decode_ok junk [reply] = Done (OMS_OK, p)) -> incoming_bytes (cl_in k) = frame 0 (greeting_of c) ++ frame 2 reply ++ rest ->
  exists k', handshake junk memory heap k = Done (OMS_OK, k') /\
    cl_out k' = cl_out k ++ frame 1 (encode_all (response_fields (response_of heap user [] (token_of password (generate_scramble rand))))) /\ incoming_bytes (cl_in k') = rest.
Proof.
  intros Hk Hwho Ht Hu Hr [p Hok] Hin. destruct (generate_scramble_ok rand) as (Hs1 & Hs2 & _). set (scr := generate_scramble rand) in *. set (token := token_of password scr).
  assert (zlen token = 20) as Htok by apply zlen_token. pose proof (zlen_nonneg user).
  destruct (greeting_fits c 1024 1024 Ht ltac:(lia)) as [_ Hg]. set (payload := encode_all (response_fields (response_of heap user [] token))).
  assert (zlen payload = 76 + zlen user) as Hpl by (unfold payload; rewrite zlen_response by lia; lia).
  cut (runs (handshake junk memory heap) k (fun x k' => x = OMS_OK /\ talked rest (frame 1 payload) k k')).
  { intros H'. apply runs_done in H' as (x & k' & E & -> & [_ T2 T3 _]). by exists k'. }
  unfold handshake. apply runs_bind. eapply runs_mono; [exact (recv_mysql_packet_ok 0 _ _ k Hk Hin ltac:(lia))|]. intros x k1 [-> T1]. apply runs_bind. unfold lift at 1, runs at 1.
  unfold greeting_of. rewrite handshake_packet_decodes by done. cbn [mbind outcome_bind]. rewrite bool_decide_eq_true_2 by done. cbn [negb orb g_valid g_scramble new_handshake_packet hs_scramble_]. fold scr.
  apply runs_bind. unfold get_client, runs at 1. apply runs_bind.
  assert (_username k1 = user /\ _passwd_sha1 k1 = sha1 password /\ _database k1 = []) as (W1 & W2 & W3) by (pose proof (tk_who _ _ _ _ T1) as W; rewrite Hwho in W; unfold who in W; split_and!; congruence).
  rewrite W2, bool_decide_eq_false_2 by (intros E; apply (f_equal zlen) in E; rewrite zlen_sha1 in E; done). unfold lift at 1, runs at 1. rewrite calc_mysql_auth_info_ok by (done || lia). cbn [mbind outcome_bind].
  fold token. apply runs_bind. unfold send_auth, runs at 1. rewrite W1, W3, encode_response_ok by (done || (fold payload; lia) || lia). fold payload.
  pose proof (client_send_ok [payload] (u8 (0 + 1)) k1 (tk_ready _ _ _ _ T1)) as Hsend. unfold runs in Hsend. rewrite join_cons, app_nil_r in Hsend.
  specialize (Hsend ltac:(lia) ltac:(by_compute)). change (u8 0 + 1) with 1 in *. destruct (send_mysql_packet [payload] _ k1) as [[ret k2]|]; [|done]. destruct Hsend as [-> T2]. change (u8 (0 + 1)) with 1 in T2.
  rewrite bool_decide_eq_true_2 by done. cbn [negb]. rewrite (tk_rest _ _ _ _ T1) in T2. apply runs_bind.
  eapply runs_mono; [exact (recv_mysql_packet_ok 2 reply rest k2 (tk_ready _ _ _ _ T2) (tk_rest _ _ _ _ T2) Hr)|]. intros x k3 [-> T3]. apply runs_bind. unfold lift at 1, runs at 1. rewrite Hok. cbn [mbind outcome_bind].
  apply runs_bind. rewrite decide_True by done. do 2 apply runs_ret. split; [done|]. pose proof (talked_trans _ _ _ _ _ _ _ (talked_trans _ _ _ _ _ _ _ T1 T2) T3) as T. by rewrite app_nil_r in T.
Qed.

Lemma server_accepts fuel user password stored c c1 rest :
  accepted c -> delivered [greeting_of c] (scrambled c) c1 -> calm (sock_in c) -> zlen user <= 124 -> 0 ∉ user ->
  hex2bin stored = Some (sha1 (sha1 password)) -> 0 ∉ sha1 (sha1 password) ->
  incoming_bytes (sock_in c1) = frame 1 (encode_all (response_fields (response_of heap user [] (token_of password (generate_scramble rand))))) ++ rest ->
  exists c2, process_handshake_response alloc memory query_user_by_name user stored true fuel c1 = Done (Some SUCCESS, c2) /\
    sock_out c2 = sock_out c1 ++ frame 2 (encode_all (reply_fields SendOk (Z.land ob_binlog_server_capabilities (response_flags [])))) /\ user_ c2 = user /\ incoming_bytes (sock_in c2) = rest.
Proof.
  intros Hac D1 Hc Hu H0 Hst Hz Hin. destruct (generate_scramble_ok rand) as (Hs1 & Hs2 & _). pose proof Hac as [[_ Hb] Hroom Hseq Hcaps Ht [Hobi Hrem]].
  set (scr := generate_scramble rand) in *. set (token := token_of password scr) in *. assert (zlen token = 20) as Htok by apply zlen_token. pose proof (zlen_nonneg user).
  set (r := response_of heap user [] token) in *. set (payload := encode_all (response_fields r)) in *. assert (zlen payload = 76 + zlen user) as Hpl by (unfold payload, r; rewrite zlen_response by lia; lia).
  destruct (greeting_fits c 1024 1024 Ht ltac:(lia)) as [_ Hg]. destruct (single_frame (greeting_of c) ltac:(change mysql_pkt_max_length with 16777215; lia) 0) as [_ Ef0].
  destruct (single_frame payload ltac:(change mysql_pkt_max_length with 16777215; lia) 1) as [Ew Ef]. destruct D1 as [[S1 S2 S3 S4] D2 [D3 D4]].
  assert (seq_no_ c1 = 1) as Eseq by (rewrite S3; cbn [seq_no_ scrambled with_auth_info]; rewrite Hseq; unfold nframes; cbn [fmap list_fmap foldr]; rewrite Ef0; done).
  unfold identity_of, self_of in S4. cbn in S4. cbn in D3, D4.
  assert (sock_in c1 = sock_in c /\ client_capabilities_ c1 = ob_binlog_server_capabilities /\ _conn_type c1 = OBI /\ sa_local c1 = false /\ ai_scramble (_auth_info c1) = scr) as (I1 & I2 & I3 & I4 & I5).
  { rewrite <-Hcaps, <-Hobi, <-Hrem. split_and!; try congruence. assert (_auth_info c1 = _auth_info (scrambled c)) as -> by (unfold scrambled; cbn; congruence). done. }
  destruct (response_answered alloc alloc_len memory query_user_by_name user stored true fuel r SendOk rest c1) as (c2 & E & O2 & U2 & R2 & _).
  - apply response_of_ok; (done || lia || by_compute).
  - done.
  - by rewrite I1.
  - rewrite Eseq. fold payload. by rewrite Ew.
  - by rewrite Eseq.
  - by split.
  - by rewrite D3.
  - fold payload. rewrite D4. destruct Hb as [_ [? ?] _ _]. lia.
  - unfold verdict. rewrite I3, I4, I5. cbn [andb negb orb bool_decide]. rewrite orb_true_r. change (rs_plugin r) with (str "mysql_native_password"). change (rs_user r) with user. change (rs_auth r) with token.
    change (beq (cstr (str "mysql_native_password")) (str "mysql_native_password")) with true. cbn [negb]. unfold auth, stored_password. rewrite decide_False by done. cbn [ai_user]. rewrite beq_refl, Hst. cbn [default from_option id].
    assert (sha1 (sha1 password) <> []) as Hne by (intros E; apply (f_equal zlen) in E; rewrite zlen_sha1 in E; done). assert (token <> []) as Hnt by (intros E; rewrite E in Htok; done).
    rewrite !bool_decide_eq_false_2 by done. cbn [ai_passwd_used negb andb orb ai_password ai_scramble]. unfold token. rewrite token_accepted by done. done.
  - done.
  - exists c2. fold payload in O2. rewrite Ef, I2, Eseq in O2. change (1 + Z.of_nat 0 + 1) with 2 in O2. split; [done|]. split; [|done]. by rewrite O2.
Qed.

(** C7: Logging in with the right password succeeds, end to end: the client decodes the greeting
    that the server sends, the server finds the user and the token in the response that the
    client encodes, and the client recognises the answer; whatever the kernels split, for
    every password whose stored hash, SHA1(SHA1(password)), has no zero byte.  With a zero
    byte in it the right password is refused: [right_password_refused]. *)
Theorem login_succeeds fuel user password stored c k rest rest' :
  accepted c -> calm (sock_in c) -> client_ready k -> who k = (user, do_sha_password memory password, []) ->
  zlen user <= 124 -> 0 ∉ user -> 8 * zlen password < 2 ^ 64 -> hex2bin stored = Some (compute_two_stage_sha1_hash memory password).2 ->
  0 ∉ (compute_two_stage_sha1_hash memory password).2 ->
  exists c1 greeting response answer,
    send_handshake_packet alloc rand c = Done (SUCCESS, c1) /\ sock_out c1 = sock_out c ++ greeting /\
    (incoming_bytes (cl_in k) = greeting ++ answer ++ rest ->
     exists k', handshake junk memory heap k = Done (OMS_OK, k') /\ cl_out k' = cl_out k ++ response /\ incoming_bytes (cl_in k') = rest) /\
    (incoming_bytes (sock_in c1) = response ++ rest' ->
     exists c2, process_handshake_response alloc memory query_user_by_name user stored true fuel c1 = Done (Some SUCCESS, c2) /\ sock_out c2 = sock_out c1 ++ answer /\
       user_ c2 = user /\ incoming_bytes (sock_in c2) = rest').
Proof.
  intros Hac Hc Hk Hwho Hu H0 Hp Hst Hz. destruct (generate_scramble_ok rand) as (Hs1 & Hs2 & _). set (scr := generate_scramble rand) in *.
  destruct (proj1 (runs_done _ _ _) (send_handshake_ok c Hac)) as (r & c1 & E1 & -> & D1). exists c1.
  pose proof Hac as [[_ Hb] Hroom Hseq Hcaps Ht [Hobi Hrem]]. destruct (greeting_fits c 1024 1024 Ht ltac:(lia)) as [_ Hg].
  exists (frame 0 (greeting_of c)), (frame 1 (encode_all (response_fields (response_of heap user [] (token_of password scr))))),
    (frame 2 (encode_all (reply_fields SendOk (Z.land ob_binlog_server_capabilities (response_flags []))))).
  unfold compute_two_stage_sha1_hash, compute_sha1_hash in Hst, Hz. cbn [snd] in Hst, Hz. unfold do_sha_password in Hwho. rewrite (sha1_of_ok memory password memory_len Hp) in Hst, Hz, Hwho.
  rewrite (sha1_of_ok memory (sha1 password) memory_len) in Hst, Hz by (rewrite zlen_sha1; lia). split; [done|]. split; [|split].
  - destruct D1 as [[S1 _ _ _] _ _]. rewrite S1. cbn [sock_out scrambled with_auth_info seq_no_ wires]. rewrite Hseq, app_nil_r. done.
  - intros Hin. eapply client_logs_in; try done; [|apply ok_reply_decodes]. pose proof (zlen_ok_fields (Z.land ob_binlog_server_capabilities (response_flags []))). lia.
  - intros Hin. by apply (server_accepts fuel user password stored c c1 rest').
Qed.
End Login.

(** ** Concrete instances *)

Definition l_stored : bytes := Eval vm_compute in str "81F5E21E35407D884A6CD4A731AEBFB6AF209E1B".
Definition l_rand (i : nat) : Z := 97 + Z.of_nat i.
Definition l_heap : bytes := replicate 200 170.
Definition l_conn (i : list read_result) : Connection :=
  mkConnection i [] [W_data 5; W_again] (new_packet_buf zeroed 1024 (2 ^ 20)) 0 ob_binlog_server_capabilities 7 OBI false true [] [] [] [] [] [] [] (mkAuthInfo [] [] [] false) [] 0 NOT_KILLED.
Definition l_client (i : list read_result) (password : bytes) : MysqlProtocol := mkClient i [] [W_data 1] [P_in] (str "instance") (do_sha_password h_memory password) [].

Lemma l_accepted i : accepted (l_conn i).
Proof. split; try by_compute. split; [by apply Forall_cons; split; [|apply Forall_singleton]|by_compute]. Qed.
Lemma l_client_ready password : client_ready (l_client [] password).
Proof. split; [by apply Forall_nil|by apply Forall_singleton|by apply Forall_singleton]. Qed.

Lemma login_succeeds_witness :
  exists c1 greeting response answer,
    send_handshake_packet zeroed l_rand (l_conn []) = Done (SUCCESS, c1) /\ sock_out c1 = [] ++ greeting /\
    (incoming_bytes (cl_in (l_client [] (str "root"))) = greeting ++ answer ++ [] ->
     exists k', handshake 0 h_memory l_heap (l_client [] (str "root")) = Done (OMS_OK, k') /\ cl_out k' = [] ++ response /\ incoming_bytes (cl_in k') = []) /\
    (incoming_bytes (sock_in c1) = response ++ [] ->
     exists c2, process_handshake_response zeroed h_memory (fun _ => None) (str "instance") l_stored true 0 c1 = Done (Some SUCCESS, c2) /\ sock_out c2 = sock_out c1 ++ answer /\
       user_ c2 = str "instance" /\ incoming_bytes (sock_in c2) = []).
Proof.
  apply (login_succeeds zeroed zeroed_len h_memory l_heap eq_refl eq_refl 0 l_rand (fun _ => None) 0 (str "instance") (str "root") l_stored (l_conn []) (l_client [] (str "root")) [] []).
  1: apply l_accepted. 1: by apply Forall_nil. 1: apply l_client_ready. 1: done. 1: by_compute. 1: by_compute. 1: by_compute. 1: vm_compute; reflexivity. by_compute.
Defined.

(** The exchange, evaluated: what each side sends is what the other finds in its socket. *)
Definition l_pieces (d : bytes) : list read_result := [R_data (first 9 d); R_again; R_data (skip 9 d)].
Definition l_greeting : bytes := Eval vm_compute in
  match send_handshake_packet zeroed l_rand (l_conn []) with Done (_, c) => sock_out c | Crash => [] end.
Definition l_answer : bytes := [7; 0; 0; 2; 0; 0; 0; 2; 0; 0; 0].
Definition l_response (password : bytes) : bytes :=
  match handshake 0 h_memory l_heap (l_client (l_pieces (l_greeting ++ l_answer)) password) with Done (OMS_OK, k) => cl_out k | _ => [] end.
Example l_login_runs :
  match send_handshake_packet zeroed l_rand (l_conn (l_pieces (l_response (str "root")))) with
  | Done (_, c) =>
      match process_handshake_response zeroed h_memory (fun _ => None) (str "instance") l_stored true 0 c with
      | Done (r, c') => r = Some SUCCESS /\ sock_out c' = l_greeting ++ l_answer
      | Crash => False
      end
  | Crash => False
  end.
Proof. vm_compute. done. Qed.
