(* ===== verification/ResultSet.v ===== *)
(** * ResultSet: a result set from the server to the client

    What the SQL commands of [src/src/binlog/sql_cmd_processor.cpp] send (columns, rows, the
    end) and what [MysqlProtocol::query] makes of it. *)

From S2P Require Import Prelude Bytes Str Dumper PacketBuf Sha1 Auth Connection Handshake MsgBuf Client Login.

#[local] Open Scope Z_scope.

(** ** Sending *)

(** The loop over the rows: what [send_row] returns when it fails is the result. *)
Fixpoint send_rows (alloc : Z -> bytes) (l : list (list cell)) (k : conn IoResult) : conn IoResult :=
  match l with
  | [] => k
  | row :: l => r ← put_row alloc row; if decide (r = SUCCESS) then send_rows alloc l k else mret r
  end.
Definition send_result (alloc : Z -> bytes) (column_packets : list ColumnPacket) (rows : list (list cell)) : conn IoResult :=
  r ← send_result_metadata alloc column_packets;
  if decide (r = SUCCESS) then send_rows alloc rows (send_eof_packet alloc) else mret FAIL.

(** The packets that go out. *)
Definition eof : EofPacket := mkEofPacket 0 ob_binlog_server_status_flags.
Definition row_payload (l : list cell) : bytes := encode_all (cell_field <$> l).
Definition result_payloads (caps : Z) (column_packets : list ColumnPacket) (rows : list (list cell)) : list bytes :=
  [lenenc (zlen column_packets)] ++ ((fun p => encode_all (column_fields p caps)) <$> column_packets) ++ [encode_all (eof_fields eof caps)] ++
  (row_payload <$> rows) ++ [encode_all (eof_fields eof caps)].

(** What fits: into the buffer of the server, into one frame, into the memory of the client. *)
Definition text_of (x : cell) : bytes := match x with Text t => t | Number n => to_dec n | Null => [] end.
Definition row_texts (row : list cell) : list bytes := text_of <$> row.
Record column_ok (limit caps lo hi : Z) (p : ColumnPacket) : Prop := {
  ck_fits : packet_fits p caps lo hi;
  ck_small : zlen (encode_all (column_fields p caps)) < mysql_pkt_max_length;
  ck_limit : Forall (fun t => zlen t <= limit) [str "def"; schema_ p; table_ p; origin_table_ p; name_ p; origin_name_ p]
}.
Record row_ok (limit hi : Z) (n : nat) (l : list cell) : Prop := {
  wk_fits : row_fits l hi;
  wk_small : zlen (row_payload l) < mysql_pkt_max_length;
  wk_limit : Forall (fun x => zlen (text_of x) <= limit) l;
  wk_count : length l = n
}.

Section Server.
Context (alloc : Z -> bytes) (alloc_len : forall n, 0 <= n -> zlen (alloc n) = n).

Lemma eof_fits caps lo hi : 1024 <= lo -> packet_fits eof caps lo hi.
Proof.
  intros Hlo. split_and!; [|done|].
  - cbn [fields eof_packet_laws]. unfold eof_fields. destruct (has_capability _ _); repeat (apply Forall_cons; split; [done|]); by apply Forall_nil.
  - cbn [fields eof_packet_laws pk_asserts_room]. unfold eof_fields. destruct (has_capability _ _); (etrans; [|exact Hlo]); done.
Qed.

Lemma send_eof_delivers c : ready c -> 1024 <= min_capacity_ (pkt_buf_ c) -> delivers (send_eof_packet alloc) [encode_all (eof_fields eof (client_capabilities_ c))] c.
Proof. intros Hr Hlo. exact (send_delivers alloc alloc_len eof c Hr (eof_fits _ _ _ Hlo)). Qed.

Lemma send_metadata_delivers limit l c : ready c -> 1024 <= min_capacity_ (pkt_buf_ c) -> zlen l < 2 ^ 16 ->
  Forall (column_ok limit (client_capabilities_ c) (min_capacity_ (pkt_buf_ c)) (max_capacity_ (pkt_buf_ c))) l ->
  delivers (send_result_metadata alloc l)
    ([lenenc (zlen l)] ++ ((fun p => encode_all (column_fields p (client_capabilities_ c))) <$> l) ++ [encode_all (eof_fields eof (client_capabilities_ c))]) c.
Proof.
  intros Hr Hlo Hn Hl. unfold send_result_metadata. pose proof (zlen_nonneg l). assert (u16 (zlen l) = zlen l) as -> by (unfold u16; apply Z.mod_small; lia).
  apply (delivers_then (send alloc (mkColumnCountPacket (zlen l))) (send_columns alloc l) [lenenc (zlen l)]).
  - pose proof (send_delivers alloc alloc_len (mkColumnCountPacket (zlen l)) c Hr) as H'. cbn [fields column_count_packet_laws nof_columns_] in H'. unfold encode_all in H'. cbn [fmap list_fmap mjoin list_join encode] in H'.
    rewrite app_nil_r in H'. apply H'. split_and!; [|done|]; cbn [fields column_count_packet_laws nof_columns_ pk_asserts_room].
    + apply Forall_singleton. cbn. lia.
    + unfold encode_all. cbn [fmap list_fmap mjoin list_join encode]. rewrite app_nil_r, zlen_lenenc. pose proof (bo_caps _ (rd_buf _ Hr)). unfold encoded_bytes_length. repeat destruct (_ <? _); lia.
  - intros c' D. pose proof (delivered_caps _ _ _ D) as Ec. destruct (dl_limits _ _ _ D) as [E1 E2]. rewrite <-Ec. apply (send_columns_delivers alloc alloc_len); [by eapply delivered_ready| |].
    + rewrite E1. by apply eof_fits.
    + rewrite Ec, E1, E2. eapply Forall_impl; [exact Hl|]. by intros p [? _ _].
Qed.

Lemma delivered_killed ps c c' : delivered ps c c' -> _killed c' = _killed c.
Proof. intros [[_ _ _ H] _ _]. unfold identity_of, self_of in H. congruence. Qed.

(** Ready, and configured as before. *)
Record alike (c c' : Connection) : Prop := {
  al_ready : ready c';
  al_caps : client_capabilities_ c' = client_capabilities_ c;
  al_limits : min_capacity_ (pkt_buf_ c') = min_capacity_ (pkt_buf_ c) /\ max_capacity_ (pkt_buf_ c') = max_capacity_ (pkt_buf_ c);
  al_killed : _killed c' = _killed c
}.
Lemma alike_refl c : ready c -> alike c c.
Proof. by split. Qed.
Lemma delivered_alike ps c c' : delivered ps c c' -> alike c c'.
Proof. intros D. split; [by eapply delivered_ready|by eapply delivered_caps|by destruct D|by eapply delivered_killed]. Qed.
Lemma alike_trans c c1 c2 : alike c c1 -> alike c1 c2 -> alike c c2.
Proof. intros [A1 A2 [A3 A4] A5] [B1 B2 [B3 B4] B5]. split; [done|congruence|split; congruence|congruence]. Qed.

Lemma send_rows_delivers limit n l : forall c k qs, ready c -> _killed c = NOT_KILLED -> Forall (row_ok limit (max_capacity_ (pkt_buf_ c)) n) l ->
  (forall c', alike c c' -> delivers k qs c') -> delivers (send_rows alloc l k) ((row_payload <$> l) ++ qs) c.
Proof.
  induction l as [|row l IH]; intros c k qs Hr Hk Hl Hq; cbn [send_rows fmap list_fmap app]; [by apply Hq, alike_refl|].
  apply Forall_cons in Hl as [Hrow Hl]. apply runs_bind. eapply runs_mono; [apply (put_row_delivers alloc alloc_len row c Hr Hk); by destruct Hrow|]. intros r c1 [-> D1]. rewrite decide_True by done.
  pose proof (delivered_alike _ _ _ D1) as A1. pose proof A1 as [R1 _ [_ E2] K1]. eapply runs_mono; [apply (IH c1 k qs); [done|by rewrite K1|by rewrite E2|]|].
  - intros c' A'. apply Hq. by eapply alike_trans.
  - intros r c2 [-> D2]. split; [done|]. by apply (delivered_app [row_payload row] _ c c1 c2).
Qed.

Lemma send_result_delivers limit cols rows c : ready c -> _killed c = NOT_KILLED -> 1024 <= min_capacity_ (pkt_buf_ c) -> zlen cols < 2 ^ 16 ->
  Forall (column_ok limit (client_capabilities_ c) (min_capacity_ (pkt_buf_ c)) (max_capacity_ (pkt_buf_ c))) cols ->
  Forall (row_ok limit (max_capacity_ (pkt_buf_ c)) (length cols)) rows ->
  delivers (send_result alloc cols rows) (result_payloads (client_capabilities_ c) cols rows) c.
Proof.
  intros Hr Hk Hlo Hn Hc Hw. unfold send_result. set (e := encode_all (eof_fields eof (client_capabilities_ c))).
  assert (result_payloads (client_capabilities_ c) cols rows =
    ([lenenc (zlen cols)] ++ ((fun p => encode_all (column_fields p (client_capabilities_ c))) <$> cols) ++ [e]) ++ ((row_payload <$> rows) ++ [e])) as -> by (unfold result_payloads; by rewrite <-!app_assoc).
  apply (delivers_then (send_result_metadata alloc cols) (send_rows alloc rows (send_eof_packet alloc))); [by apply (send_metadata_delivers limit)|].
  intros c1 D1. apply delivered_alike in D1 as [R1 C1 [L1 L2] K1]. apply (send_rows_delivers limit (length cols)); [done|by rewrite K1|by rewrite L2|].
  intros c2 [R2 C2 [M1 M2] _]. unfold e. rewrite <-C1, <-C2. apply send_eof_delivers; [done|]. by rewrite M1, L1.
Qed.
End Server.

(** ** Receiving *)

(** What the client keeps of a column. *)
Definition col_of (p : ColumnPacket) : MySQLCol :=
  mkMySQLCol (str "def") (schema_ p) (table_ p) (origin_table_ p) (name_ p) (origin_name_ p) 12 (character_set_ p) (length_ p) (type_ p) (flags_ p) (decimals_ p) 0.

Lemma wires_cons seq p ps rest : zlen p < mysql_pkt_max_length -> wires seq (p :: ps) ++ rest = frame seq p ++ wires (seq + 1) ps ++ rest.
Proof. intros Hz. cbn [wires]. destruct (single_frame p Hz seq) as [-> ->]. by rewrite <-app_assoc. Qed.

Lemma recv_wires seq p ps rest k : client_ready k -> zlen p < mysql_pkt_max_length -> incoming_bytes (cl_in k) = wires seq (p :: ps) ++ rest ->
  runs recv_mysql_packet k (fun x k' => x = inr (p, u8 seq) /\ talked (wires (seq + 1) ps ++ rest) [] k k').
Proof. intros Hk Hz Hin. rewrite wires_cons in Hin by done. apply recv_mysql_packet_ok; [done|done|]. change mysql_pkt_max_length with 16777215 in Hz. lia. Qed.

Section Client.
Context (limit junk : Z).

Lemma decode_col_ok caps lo hi p : column_ok limit caps lo hi p -> decode_col limit junk [encode_all (column_fields p caps)] = Done (col_of p).
Proof.
  intros [(Hf & _ & _) _ Hl]. cbn [fields column_packet_laws] in Hf. unfold column_fields in *. apply decode_with_all.
  repeat match goal with H : Forall _ (_ :: _) |- _ => let H1 := fresh "F" in let H2 := fresh "G" in apply Forall_cons in H as [H1 H2] end. cbn [field_ok] in *.
  rewrite !encode_all_cons. unfold col_of. do 6 (eapply decodes_bind; [by apply read_lenenc_str_decodes|]; cbv beta).
  eapply decodes_bind; [apply (read_exact_decodes 1 junk 12); cbn; lia|]. cbv beta iota. eapply decodes_bind; [apply (read_exact_decodes 2 junk (character_set_ p)); cbn; lia|]. cbv beta iota.
  eapply decodes_bind; [apply (read_exact_decodes 4 junk (length_ p)); cbn; lia|]. cbv beta iota. eapply decodes_bind; [apply (read_exact_decodes 1 junk (type_ p)); cbn; lia|]. cbv beta iota.
  eapply decodes_bind; [apply (read_exact_decodes 2 junk (flags_ p)); cbn; lia|]. cbv beta iota. eapply decodes_bind; [apply (read_exact_decodes 1 junk (decimals_ p)); cbn; lia|]. cbv beta iota.
  eapply decodes_bind; [apply (read_exact_decodes 2 junk 0); cbn; lia|]. cbv beta iota. apply decodes_ret.
Qed.

Lemma decode_cell x : 0 <= limit -> zlen (text_of x) <= limit -> field_ok (cell_field x) -> decodes (read_lenenc_str limit) (encode (cell_field x)) (text_of x).
Proof. intros H0 Hl Hf. destruct x as [t|n|]; [by apply read_lenenc_str_decodes|by apply read_lenenc_str_decodes|by apply read_null_decodes]. Qed.

Lemma decode_row_ok hi n row : 0 <= limit -> row_ok limit hi n row -> decode_row limit (Z.of_nat n) [row_payload row] = Done (row_texts row).
Proof.
  intros H0 [[Hf _] _ Hl Hn]. apply decode_with_all. rewrite Nat2Z.id. subst n. clear hi. unfold row_payload. induction row as [|x row IH]; [apply decodes_ret|].
  cbn [fmap list_fmap length read_fields] in *. apply Forall_cons in Hf as [Hx Hf]. apply Forall_cons in Hl as [Hlx Hl]. rewrite encode_all_cons. eapply decodes_bind; [by apply decode_cell|].
  rewrite <-(app_nil_r (encode_all _)). eapply decodes_bind; [by apply IH|]. apply decodes_ret.
Qed.

(** A row does not look like the end of the rows. *)
Lemma row_first_byte hi n row : row_ok limit hi n row -> (0 < n)%nat -> exists b l, row_payload row = b :: l /\ b <> 0xfe.
Proof.
  intros [[Hf _] Hz _ Hn] Hpos. destruct row as [|x row]; [cbn in Hn; lia|]. unfold row_payload in *. cbn [fmap list_fmap] in *. rewrite encode_all_cons in *. rewrite zlen_app in Hz.
  pose proof (zlen_nonneg (encode_all (cell_field <$> row))). change mysql_pkt_max_length with 16777215 in Hz.
  assert (forall t : bytes, zlen (encode (LenencStr t)) < 16777215 -> exists b l, encode (LenencStr t) = b :: l /\ b <> 254) as Ht.
  { intros t H'. cbn [encode] in *. rewrite zlen_app in H'. pose proof (zlen_nonneg (lenenc (zlen t))). unfold lenenc in *. destruct (Z.ltb_spec (zlen t) 251); [exists (zlen t), t; split; [done|lia]|].
    destruct (Z.ltb_spec (zlen t) (2 ^ 16)); [by eexists _, _|]. destruct (Z.ltb_spec (zlen t) (2 ^ 24)); [by eexists _, _|lia]. }
  destruct x as [t|v|]; cbn [cell_field] in *.
  - destruct (Ht t ltac:(lia)) as (b & l & -> & Hb). by exists b, (l ++ encode_all (cell_field <$> row)).
  - destruct (Ht (to_dec v) ltac:(lia)) as (b & l & -> & Hb). by exists b, (l ++ encode_all (cell_field <$> row)).
  - by eexists _, _.
Qed.

Lemma decode_eof_ok caps w f : exists p, decode_eof [encode_all (eof_fields eof caps)] w f = Done (OMS_OK, p).
Proof.
  unfold decode_eof. rewrite byte_size_eq. unfold msg_bytes. rewrite join_cons, app_nil_r. unfold eof_fields. destruct (has_capability caps client_protocol_41).
  - exists (mkMySQLEof 0 2). change (zlen (encode_all [U1 254; U2 (eof_warnings_ eof); U2 (eof_status_flags_ eof)])) with 5. cbn [Z.leb Z.compare Pos.compare Pos.compare_cont]. apply decode_with_all. rewrite !encode_all_cons.
    eapply decodes_bind; [apply (read_exact_decodes 1 0 254); cbn; lia|]. cbv beta iota. change (negb (254 =? 254)) with false. cbv iota. eapply decodes_bind; [apply (read_exact_decodes 2 w 0); cbn; lia|]. cbv beta iota.
    eapply decodes_bind; [apply (read_exact_decodes 2 f 2); cbn; lia|]. apply decodes_ret.
  - exists (mkMySQLEof (le_combine (overwrite 0 [] (le_split 2 w))) (le_combine (overwrite 0 [] (le_split 2 f)))). done.
Qed.

Lemma recv_cols_ok caps lo hi ps rest : forall l seq acc k, client_ready k -> Forall (column_ok limit caps lo hi) l ->
  incoming_bytes (cl_in k) = wires seq (((fun p => encode_all (column_fields p caps)) <$> l) ++ ps) ++ rest ->
  runs (recv_cols limit junk (length l) acc) k (fun x k' => x = (OMS_OK, acc ++ (col_of <$> l)) /\ talked (wires (seq + Z.of_nat (length l)) ps ++ rest) [] k k').
Proof.
  induction l as [|p l IH]; intros seq acc k Hk Hl Hin; cbn [length recv_cols].
  { apply runs_ret. split; [by rewrite app_nil_r|]. split; [done|by rewrite Z.add_0_r|by rewrite app_nil_r|done]. }
  apply Forall_cons in Hl as [Hp Hl]. cbn [fmap list_fmap app] in Hin. apply runs_bind. eapply runs_mono; [exact (recv_wires _ _ _ _ k Hk (ck_small _ _ _ _ _ Hp) Hin)|]. intros x k1 [-> T1].
  apply runs_bind. unfold lift, runs at 1. rewrite (decode_col_ok _ _ _ _ Hp). cbn [mbind outcome_bind]. eapply runs_mono; [exact (IH (seq + 1) (acc ++ [col_of p]) k1 (tk_ready _ _ _ _ T1) Hl (tk_rest _ _ _ _ T1))|].
  intros x k2 [-> T2]. split; [by rewrite <-app_assoc|]. replace (seq + Z.of_nat (S (length l))) with (seq + 1 + Z.of_nat (length l)) by lia. exact (talked_trans _ _ [] [] k k1 k2 T1 T2).
Qed.

Lemma recv_rows_ok caps hi n rest : (0 < n)%nat -> 0 <= limit -> forall (l : list (list cell)) seq acc fuel k, client_ready k -> Forall (row_ok limit hi n) l -> (length l < fuel)%nat ->
  incoming_bytes (cl_in k) = wires seq ((row_payload <$> l) ++ [encode_all (eof_fields eof caps)]) ++ rest ->
  runs (recv_rows limit fuel (Z.of_nat n) acc) k (fun x k' => x = Some (OMS_OK, acc ++ (row_texts <$> l)) /\ talked rest [] k k').
Proof.
  intros Hn H0. induction l as [|row l IH]; intros seq acc [|fuel] k Hk Hl Hf Hin; cbn [length] in Hf; try lia; cbn [recv_rows fmap list_fmap app] in *; apply runs_bind.
  - assert (zlen (encode_all (eof_fields eof caps)) < mysql_pkt_max_length) as He by (unfold eof_fields; by destruct (has_capability _ _)).
    eapply runs_mono; [exact (recv_wires _ _ _ _ k Hk He Hin)|]. intros x k1 [-> T1]. apply runs_bind.
    assert (exists l, encode_all (eof_fields eof caps) = 254 :: l) as [tl ->] by (unfold eof_fields; rewrite encode_all_cons; by eexists). apply runs_ret. change (254 =? 254) with true. cbv iota. apply runs_ret.
    split; [by rewrite app_nil_r|done].
  - apply Forall_cons in Hl as [Hrow Hl]. eapply runs_mono; [exact (recv_wires _ _ _ _ k Hk (wk_small _ _ _ _ Hrow) Hin)|]. intros x k1 [-> T1]. apply runs_bind.
    destruct (row_first_byte _ _ _ Hrow Hn) as (b & tl & Eb & Hb). rewrite Eb. apply runs_ret. rewrite (proj2 (Z.eqb_neq _ _)) by done. rewrite <-Eb. apply runs_bind. unfold lift, runs at 1.
    rewrite (decode_row_ok _ _ _ H0 Hrow). cbn [mbind outcome_bind].
    eapply runs_mono; [exact (IH (seq + 1) (acc ++ [row_texts row]) fuel k1 (tk_ready _ _ _ _ T1) Hl ltac:(lia) (tk_rest _ _ _ _ T1))|].
    intros x k2 [-> T2]. split; [by rewrite <-app_assoc|]. exact (talked_trans _ _ [] [] k k1 k2 T1 T2).
Qed.

(** The answer that announces columns. *)
Lemma decode_cols_response n : 0 < n < 2 ^ 16 -> decode_query_response junk [lenenc n] = Done (RespCols n).
Proof.
  intros Hn. set (r0 := new_reader [lenenc n]). pose proof (new_reader_ok [lenenc n]) as Hr0. fold r0 in Hr0.
  assert (left_of r0 = lenenc n) as Hl0 by (unfold left_of, r0; cbn [_read_size _buffer new_reader]; rewrite skip_0; unfold msg_bytes; by rewrite join_cons, app_nil_r).
  assert (exists b l, lenenc n = b :: l /\ 0 < b < 256 /\ b <> 255 /\ b <> 251) as (b & l & Eb & Hb & Hb1 & Hb2).
  { unfold lenenc. destruct (Z.ltb_spec n 251); [by eexists _, _; split; [done|lia]|]. rewrite (proj2 (Z.ltb_lt _ _)) by lia. by eexists _, _; split. }
  assert (runs (read_uint8 255) r0 (fun x r1 => x = (true, b) /\ reader_ok r1 /\ _buffer r1 = _buffer r0 /\ _read_size r1 = 1)) as H1.
  { apply runs_bind. eapply runs_mono; [apply (read_ok 1 r0 Hr0); lia|]. intros x r1 (Hr1 & Ebuf & H1). cbn zeta in H1. fold (left_of r0) in H1. rewrite Hl0, Eb, zlen_cons in H1. pose proof (zlen_nonneg l).
    rewrite (proj2 (Z.leb_le _ _)) in H1 by lia. destruct H1 as [-> Es]. apply runs_ret. split; [|done]. change (le_combine (overwrite 0 (first 1 (b :: l)) (le_split 1 255))) with (b + 256 * 0). f_equal. lia. }
  apply runs_done in H1 as (x & r1 & E1 & -> & Hr1 & Ebuf & Es). unfold decode_query_response. fold r0. rewrite E1. cbn [mbind outcome_bind].
  rewrite (proj2 (Z.eqb_neq b 255)), (proj2 (Z.eqb_neq b 251)), (proj2 (Z.eqb_neq b 0)) by lia.
  assert (runs (backward 1;; read_lenenc_uint) r1 (fun x _ => x = (0, n))) as H2.
  { apply runs_bind. pose proof (reader_op_refines (OpBackward 1) r1 Hr1 ltac:(done)) as H2. cbn [run_op spec_op spec_of all_bytes at_] in H2. unfold mbind, stateful_bind, runs in H2. unfold runs at 1.
    destruct (backward 1 r1) as [[ok r2]|]; [|done]. cbn [mret stateful_ret] in H2. destruct H2 as [Hr2 H2]. rewrite Es, (proj2 (Z.leb_le _ _)) in H2 by (cbn; lia). unfold spec_of in H2. injection H2 as _ E2 E3.
    pose proof (read_lenenc_uint_decodes n ltac:(unfold is_u64; lia) r2 [] Hr2) as H3. eapply runs_mono; [apply H3|by intros x r' (-> & _)].
    unfold left_of. rewrite E2, E3, Ebuf, app_nil_r. change (_read_size r0) with 0. rewrite skip_0. unfold r0, msg_bytes. cbn [_buffer new_reader]. by rewrite join_cons, app_nil_r. }
  apply runs_done in H2 as (x & r' & E2 & ->). rewrite E2. done.
Qed.

End Client.

Lemma zlen_wires ps : forall seq, 4 * zlen ps <= zlen (wires seq ps).
Proof.
  induction ps as [|p ps IH]; intros seq; [done|]. cbn [wires]. rewrite zlen_app, zlen_cons. specialize (IH (seq + (Z.of_nat (full_frames p) + 1))).
  assert (4 <= zlen (wire_of seq p)); [|lia]. unfold wire_of. destruct (full_frames p); cbn [frames]; unfold frame; rewrite !zlen_app, zlen_le_split, zlen_cons; pose proof (zlen_nonneg p);
    pose proof (@zlen_nonneg Z []); try lia. pose proof (zlen_nonneg (first mysql_pkt_max_length p)). pose proof (zlen_nonneg (frames n (seq + 1) (skip mysql_pkt_max_length p))). lia.
Qed.

Lemma query_ok limit junk sql rs caps lo hi cols rows seq rest k :
  client_ready k -> zlen sql < 2 ^ 24 - 1 -> 0 < zlen cols < 2 ^ 16 -> zlen cols <= limit ->
  Forall (column_ok limit caps lo hi) cols -> Forall (row_ok limit hi (length cols)) rows ->
  incoming_bytes (cl_in k) = wires seq (result_payloads caps cols rows) ++ rest ->
  runs (query limit junk sql rs) k (fun x k' => x = Some (OMS_OK, with_result (zlen cols) (col_of <$> cols) (row_texts <$> rows) (rs_reset rs)) /\ talked rest (frame 0 (3 :: sql)) k k').
Proof.
  intros Hk Hsql Hn Hlim Hc Hw Hin. unfold query. cbn zeta. apply runs_bind. pose proof (client_send_ok [[3]; sql] 0 k Hk) as H1. rewrite !join_cons in H1. cbn [mjoin list_join] in H1. rewrite app_nil_r in H1.
  cbn [app] in H1. rewrite zlen_cons in H1. eapply runs_mono; [apply H1; [lia|by_compute]|]. clear H1. intros x k1 [-> T1]. rewrite bool_decide_eq_true_2 by done. cbn [negb]. apply runs_bind. rewrite Hin in T1.
  assert (zlen (lenenc (zlen cols)) < mysql_pkt_max_length) as Hz by (rewrite zlen_lenenc; unfold encoded_bytes_length; by repeat destruct (_ <? _)).
  eapply runs_mono; [exact (recv_wires _ _ _ _ k1 (tk_ready _ _ _ _ T1) Hz (tk_rest _ _ _ _ T1))|]. intros x k2 [-> T2]. apply runs_bind. unfold lift at 1, runs at 1. rewrite decode_cols_response by done. cbn [mbind outcome_bind].
  rewrite (proj2 (Z.eqb_neq _ 0)) by lia. unfold recv_result. rewrite (proj2 (Z.ltb_ge _ _)) by done. assert (Z.to_nat (zlen cols) = length cols) as -> by (unfold zlen; lia). apply runs_bind.
  eapply runs_mono; [exact (recv_cols_ok limit junk caps lo hi _ rest cols _ [] k2 (tk_ready _ _ _ _ T2) Hc (tk_rest _ _ _ _ T2))|]. intros x k3 [-> T3]. cbn zeta. cbn [app].
  rewrite length_fmap, Nat.sub_diag. cbn [replicate]. rewrite app_nil_r, bool_decide_eq_true_2 by done. cbn [negb]. apply runs_bind.
  assert (zlen (encode_all (eof_fields eof caps)) < mysql_pkt_max_length) as He by (unfold eof_fields; by destruct (has_capability _ _)).
  eapply runs_mono; [exact (recv_wires _ _ _ _ k3 (tk_ready _ _ _ _ T3) He (tk_rest _ _ _ _ T3))|]. intros x k4 [-> T4]. apply runs_bind. unfold lift at 1, runs at 1. destruct (decode_eof_ok caps junk junk) as [p ->].
  cbn [mbind outcome_bind]. rewrite bool_decide_eq_true_2 by done. cbn [negb]. apply runs_bind. unfold get_client, runs at 1. apply runs_bind. unfold zlen at 1.
  eapply runs_mono; [apply (recv_rows_ok limit caps hi (length cols) rest ltac:(unfold zlen in Hn; lia) ltac:(lia) rows (seq + 1 + Z.of_nat (length cols) + 1) [] _ k4 (tk_ready _ _ _ _ T4) Hw)|].
  - unfold packets_left. rewrite (tk_rest _ _ _ _ T4), zlen_app. pose proof (zlen_wires ((row_payload <$> rows) ++ [encode_all (eof_fields eof caps)]) (seq + 1 + Z.of_nat (length cols) + 1)) as H5.
    rewrite zlen_app, zlen_fmap in H5. change (zlen [encode_all (eof_fields eof caps)]) with 1 in H5. pose proof (zlen_nonneg rest). pose proof (zlen_nonneg rows).
    assert (zlen rows + 1 <= (zlen (wires (seq + 1 + Z.of_nat (length cols) + 1) ((row_payload <$> rows) ++ [encode_all (eof_fields eof caps)])) + zlen rest) / 4) as H6 by (apply Z.div_le_lower_bound; lia).
    apply Nat.lt_succ_r. unfold zlen in H6 at 1. lia.
  - exact (tk_rest _ _ _ _ T4).
  - intros x k5 [-> T5]. apply runs_ret. split; [done|]. pose proof (talked_trans _ _ _ _ _ _ _ T1 (talked_trans _ _ _ _ _ _ _ T2 (talked_trans _ _ _ _ _ _ _ T3 (talked_trans _ _ _ _ _ _ _ T4 T5)))) as T. by rewrite !app_nil_r in T.
Qed.

Lemma result_received alloc limit junk sql rs cols rows c k rest :
  (forall n, 0 <= n -> zlen (alloc n) = n) -> ready c -> _killed c = NOT_KILLED -> 1024 <= min_capacity_ (pkt_buf_ c) ->
  0 < zlen cols < 2 ^ 16 -> zlen cols <= limit ->
  Forall (column_ok limit (client_capabilities_ c) (min_capacity_ (pkt_buf_ c)) (max_capacity_ (pkt_buf_ c))) cols ->
  Forall (row_ok limit (max_capacity_ (pkt_buf_ c)) (length cols)) rows ->
  client_ready k -> zlen sql < 2 ^ 24 - 1 ->
  exists c' wire, send_result alloc cols rows c = Done (SUCCESS, c') /\ sock_out c' = sock_out c ++ wire /\
    (incoming_bytes (cl_in k) = wire ++ rest ->
     exists k', query limit junk sql rs k = Done (Some (OMS_OK, with_result (zlen cols) (col_of <$> cols) (row_texts <$> rows) (rs_reset rs)), k') /\
       cl_out k' = cl_out k ++ frame 0 (3 :: sql) /\ incoming_bytes (cl_in k') = rest).
Proof.
  intros Ha Hr Hkl Hlo Hn Hlim Hc Hw Hk Hsql. destruct (proj1 (runs_done _ _ _) (send_result_delivers alloc Ha limit cols rows c Hr Hkl Hlo ltac:(lia) Hc Hw)) as (r & c' & E & -> & D).
  exists c', (wires (seq_no_ c) (result_payloads (client_capabilities_ c) cols rows)). split; [done|]. split; [by destruct D as [[? _ _ _] _ _]|]. intros Hin.
  destruct (proj1 (runs_done _ _ _) (query_ok limit junk sql rs _ _ _ cols rows _ rest k Hk Hsql Hn Hlim Hc Hw Hin)) as (x & k' & Ek & -> & [_ T2 T3 _]). by exists k'.
Qed.

(** C10: A result set that the server sends arrives as it was: the client's query yields the
    columns with their names, types and flags and the rows with their texts, a null as the
    empty string, for every number of columns and rows and whatever the kernels split; what
    the server sends afterwards is still there. *)
Theorem result_set_roundtrip alloc limit junk sql rs cols rows c k rest :
  (forall n, 0 <= n -> zlen (alloc n) = n) -> ready c -> _killed c = NOT_KILLED -> 1024 <= min_capacity_ (pkt_buf_ c) ->
  0 < zlen cols < 2 ^ 16 -> zlen cols <= limit ->
  Forall (column_ok limit (client_capabilities_ c) (min_capacity_ (pkt_buf_ c)) (max_capacity_ (pkt_buf_ c))) cols ->
  Forall (row_ok limit (max_capacity_ (pkt_buf_ c)) (length cols)) rows ->
  client_ready k -> zlen sql < 2 ^ 24 - 1 ->
  exists c' wire, send_result alloc cols rows c = Done (SUCCESS, c') /\ sock_out c' = sock_out c ++ wire /\
    (incoming_bytes (cl_in k) = wire ++ rest ->
     exists k', query limit junk sql rs k = Done (Some (OMS_OK, with_result (zlen cols) (col_of <$> cols) (row_texts <$> rows) (rs_reset rs)), k') /\
       cl_out k' = cl_out k ++ frame 0 (3 :: sql) /\ incoming_bytes (cl_in k') = rest).
Proof. apply result_received. Qed.

(** ** Errors *)

Lemma decode_err_ok junk code msg state : 0 <= code < 2 ^ 16 -> zlen state = 5 ->
  decode_query_response junk [encode_all ([U1 255; U2 code; U1 35; Fixed state] ++ [Fixed msg])] =
  Done (RespErr (mkMySQLError (255 + 256 * (code mod 256)) [code / 256] (35 :: state) msg)).
Proof.
  intros Hc Hst. set (payload := encode_all _). assert (payload = le_split 2 (255 + 256 * (code mod 256)) ++ [code / 256] ++ (35 :: state) ++ msg) as Ep.
  { unfold payload. cbn [app]. rewrite !encode_all_cons. cbn [encode le_split app]. unfold encode_all. cbn [fmap list_fmap mjoin list_join]. rewrite app_nil_r. pose proof (Z.mod_pos_bound code 256 ltac:(lia)).
    assert (0 <= code / 256 < 256) by (split; [apply Z.div_pos; lia|apply Z.div_lt_upper_bound; lia]).
    replace ((255 + 256 * (code mod 256)) mod 256) with 255 by (rewrite Z.add_comm, Z.mul_comm, Z.add_mod, Z.mod_mul by lia; done).
    replace ((255 + 256 * (code mod 256)) / 256) with (code mod 256) by (rewrite Z.add_comm, Z.mul_comm, Z.div_add_l by lia; change (255 / 256) with 0; lia). rewrite Z.mod_mod, (Z.mod_small (code / 256)) by lia. done. }
  unfold decode_query_response. assert (exists r, read_uint8 255 (new_reader [payload]) = Done ((true, 255), r)) as [r ->].
  { pose proof (read_exact_decodes 1 255 255 ltac:(cbn; lia) (new_reader [payload]) (skip 1 payload) (new_reader_ok _)) as H. unfold left_of at 1 in H. cbn [_read_size _buffer new_reader] in H. rewrite skip_0 in H. unfold msg_bytes in H.
    rewrite join_cons, app_nil_r in H. specialize (H ltac:(by unfold payload)). apply runs_done in H as (x & r & E & -> & _). by exists r. }
  cbn [mbind outcome_bind]. change (255 =? 255) with true. cbv iota. unfold decode_err. rewrite (decode_with_exact _ payload (OMS_OK, mkMySQLError (255 + 256 * (code mod 256)) [code / 256] (35 :: state) msg)); [done|]. rewrite Ep.
  assert (zlen (35 :: state) = 6) as Hz by (rewrite zlen_cons; lia). pose proof (Z.mod_pos_bound code 256 ltac:(lia)).
  eapply decodes_all_bind; [apply (read_exact_decodes 2 junk (255 + 256 * (code mod 256))); cbn; lia|]. cbv beta iota. cbn [negb]. eapply decodes_all_bind; [exact (read_decodes [code / 256])|]. cbv beta iota zeta. cbn [negb].
  pose proof (read_decodes (35 :: state)) as Hd. rewrite Hz in Hd. eapply decodes_all_bind; [exact Hd|]. cbv beta iota zeta. cbn [negb]. rewrite !overwrite_all by (rewrite ?Hz; done). by apply read_remaining_decodes.
Qed.

(** When the server answers a query with an error, the client reports the message that was
    sent, but a code that is made of the first byte of the packet and the low byte of the
    code: it is never the code that was sent. *)
Theorem error_code_misread alloc limit junk sql rs code msg state c k rest :
  (forall n, 0 <= n -> zlen (alloc n) = n) -> ready c -> 1024 <= min_capacity_ (pkt_buf_ c) -> has_capability (client_capabilities_ c) client_protocol_41 = true ->
  0 <= code < 2 ^ 16 - 1 -> zlen msg <= 512 -> zlen state = 5 -> client_ready k -> zlen sql < 2 ^ 24 - 1 ->
  exists c' wire, send_err_packet alloc code msg state c = Done (SUCCESS, c') /\ sock_out c' = sock_out c ++ wire /\
    (incoming_bytes (cl_in k) = wire ++ rest ->
     exists k' rs', query limit junk sql rs k = Done (Some (OMS_FAILED, rs'), k') /\ rs_message rs' = msg /\ rs_code rs' <> code).
Proof.
  intros Ha Hr Hlo H41 Hc Hm Hst Hk Hsql. pose proof (send_reply_delivers alloc Ha (SendErr code msg state) c Hr) as H.
  destruct (proj1 (runs_done _ _ _) (H ltac:(cbn; unfold max_err_msg_sz, sql_state_length; lia) Hlo)) as (r & c' & E & -> & D). exists c', (wires (seq_no_ c) [encode_all (reply_fields (SendErr code msg state) (client_capabilities_ c))]).
  split; [done|]. split; [by destruct D as [[? _ _ _] _ _]|]. intros Hin.
  assert (reply_fields (SendErr code msg state) (client_capabilities_ c) = [U1 255; U2 code; U1 35; Fixed state] ++ [Fixed msg]) as Ef by (cbn [reply_fields fields err_packet_laws]; unfold err_fields; by rewrite H41).
  rewrite Ef in Hin. set (payload := encode_all _) in Hin. assert (zlen payload = 9 + zlen msg) as Hz.
  { unfold payload. cbn [app]. rewrite !encode_all_cons. cbn [encode]. rewrite !zlen_app, !zlen_le_split, Hst. change (zlen (encode_all [])) with 0. lia. }
  assert (runs (query limit junk sql rs) k (fun x _ => exists rs', x = Some (OMS_FAILED, rs') /\ rs_message rs' = msg /\ rs_code rs' = 255 + 256 * (code mod 256))) as Hq.
  { unfold query. cbn zeta. apply runs_bind. pose proof (client_send_ok [[3]; sql] 0 k Hk) as H1. rewrite !join_cons in H1. cbn [mjoin list_join] in H1. rewrite app_nil_r in H1. cbn [app] in H1. rewrite zlen_cons in H1.
    eapply runs_mono; [apply H1; [lia|by_compute]|]. clear H1. intros x k1 [-> T1]. rewrite bool_decide_eq_true_2 by done. cbn [negb]. apply runs_bind. rewrite Hin in T1.
    eapply runs_mono; [apply (recv_wires _ _ _ _ k1 (tk_ready _ _ _ _ T1)) with (2 := tk_rest _ _ _ _ T1); change mysql_pkt_max_length with 16777215; lia|]. intros x k2 [-> T2]. apply runs_bind. unfold lift, runs at 1.
    unfold payload. rewrite decode_err_ok by lia. cbn [mbind outcome_bind]. apply runs_ret. by eexists. }
  apply runs_done in Hq as (x & k' & Ek & rs' & -> & Em & Ec). exists k', rs'. split; [done|]. split; [done|]. rewrite Ec. intros E'. pose proof (Z.div_mod code 256 ltac:(lia)). pose proof (Z.mod_pos_bound code 256 ltac:(lia)). lia.
Qed.

(** ** Concrete instances *)

(** What SHOW BINARY LOGS would send for two files, one of them of unknown size. *)
Definition r_cols : list ColumnPacket :=
  [mkColumnPacket [] [] [] (str "Log_name") (str "Log_name") 33 56 253 2 31; mkColumnPacket [] [] [] (str "File_size") (str "File_size") 63 8 8 144 0].
Definition r_rows : list (list cell) := [[Text (str "mysql-bin.000001"); Number 4]; [Text (str "mysql-bin.000002"); Null]].
Definition r_conn : Connection := l_conn [].
Definition r_client (i : list read_result) : MysqlProtocol := l_client i (str "root").
Definition r_set : MySQLResultSet := mkResultSet 0 [] [] 0 0 [].

Lemma r_ready : ready r_conn.
Proof. apply l_accepted. Qed.
Lemma r_cols_ok : Forall (column_ok 64 (client_capabilities_ r_conn) (min_capacity_ (pkt_buf_ r_conn)) (max_capacity_ (pkt_buf_ r_conn))) r_cols.
Proof. repeat (apply Forall_cons; split; [split; [split_and!; [repeat (apply Forall_cons; split; [by_compute|]); by apply Forall_nil|by_compute..]|by_compute|by_compute]|]). by apply Forall_nil. Qed.
Lemma r_rows_ok : Forall (row_ok 64 (max_capacity_ (pkt_buf_ r_conn)) (length r_cols)) r_rows.
Proof. repeat (apply Forall_cons; split; [split; [split; [repeat (apply Forall_cons; split; [by_compute|]); by apply Forall_nil|by_compute..]|by_compute|by_compute|by_compute]|]). by apply Forall_nil. Qed.

Lemma result_set_roundtrip_witness :
  exists c' wire, send_result zeroed r_cols r_rows r_conn = Done (SUCCESS, c') /\ sock_out c' = [] ++ wire /\
    (incoming_bytes (cl_in (r_client [])) = wire ++ [] ->
     exists k', query 64 0 (str "SHOW BINARY LOGS") r_set (r_client []) = Done (Some (OMS_OK, with_result 2 (col_of <$> r_cols) (row_texts <$> r_rows) (rs_reset r_set)), k') /\
       cl_out k' = [] ++ frame 0 (3 :: str "SHOW BINARY LOGS") /\ incoming_bytes (cl_in k') = []).
Proof.
  apply (result_set_roundtrip zeroed 64 0 (str "SHOW BINARY LOGS") r_set r_cols r_rows r_conn (r_client []) [] zeroed_len r_ready eq_refl); try by_compute.
  - exact r_cols_ok.
  - exact r_rows_ok.
  - apply l_client_ready.
Defined.

Lemma error_code_misread_witness :
  exists c' wire, send_err_packet zeroed 1064 (str "You have an error") (str "42000") r_conn = Done (SUCCESS, c') /\ sock_out c' = [] ++ wire /\
    (incoming_bytes (cl_in (r_client [])) = wire ++ [] ->
     exists k' rs', query 64 0 (str "SHOW") r_set (r_client []) = Done (Some (OMS_FAILED, rs'), k') /\ rs_message rs' = str "You have an error" /\ rs_code rs' <> 1064).
Proof.
  apply (error_code_misread zeroed 64 0 (str "SHOW") r_set 1064 (str "You have an error") (str "42000") r_conn (r_client []) [] zeroed_len r_ready); try by_compute.
  apply l_client_ready.
Defined.
