(* ===== verification/SqlCommands.v ===== *)
(** * SqlCommands: the SQL commands on binlog files

    The processors of [src/src/binlog/sql_cmd_processor.cpp] that a binlog instance runs on
    its index and its files: SHOW BINARY LOGS, SHOW BINLOG EVENTS, SHOW MASTER STATUS and
    PURGE BINARY LOGS; the texts of [print_event_info] in [src/src/binlog/ob_log_event.cpp].
    The statement that the parser builds is the argument of each: a null pointer is the
    empty text, which the handlers make of it.  The theorems run a handler against the
    client of [Client]. *)

From S2P Require Import Prelude Bytes Str Gtid Events EventWire EventScan BinlogIndex Dumper PacketBuf Sha1 Auth Connection Handshake MsgBuf Client Login ResultSet.

#[local] Open Scope Z_scope.

(** ** print_event_info *)

Definition event_type_to_str (type : Z) : bytes :=
  if type =? QUERY_EVENT then str "Query"
  else if type =? ROTATE_EVENT then str "Rotate"
  else if type =? XID_EVENT then str "Xid"
  else if type =? 14 then str "User var"
  else if type =? FORMAT_DESCRIPTION_EVENT then str "Format_desc"
  else if type =? TABLE_MAP_EVENT then str "Table_map"
  else if type =? 29 then str "Rows_query"
  else if type =? WRITE_ROWS_EVENT then str "Write_rows"
  else if type =? UPDATE_ROWS_EVENT then str "Update_rows"
  else if type =? PARTIAL_UPDATE_ROWS_EVENT then str "Update_rows_partial"
  else if type =? DELETE_ROWS_EVENT then str "Delete_rows"
  else if type =? GTID_LOG_EVENT then str "Gtid"
  else if type =? 34 then str "Anonymous_Gtid"
  else if type =? PREVIOUS_GTIDS_LOG_EVENT then str "Previous_gtids"
  else if type =? HEARTBEAT_LOG_EVENT then str "Heartbeat"
  else str "Unknown".

Definition gtid_format (gtid_uuid : bytes) (gtid_txn_id : Z) : bytes :=
  uuid_hex_bin_to_str_with_delim gtid_uuid ++ str ":" ++ to_dec gtid_txn_id.

(** [print_event_info] of each event class; a message without a UUID is dereferenced. *)
Definition format_description_info (e : FormatDescription) : bytes :=
  str "Server ver: " ++ fd_server_version e ++ str ", Binlog ver: " ++ to_dec (fd_version e).
Definition previous_gtids_info (ms : gtid_map) : outcome bytes := texts ← format_all ms; Done (intercalate 10 texts).
Definition rotate_info (e : Rotate) : bytes :=
  str "Binlog Position: " ++ to_dec (ro_next_binlog_position e) ++ str ", Log name: " ++ ro_next_binlog_file_name e.
Definition query_info (e : Query) : bytes :=
  if beq (q_sql_statment e) (str "BEGIN") then BEGIN_VAR else str "use " ++ q_dbname e ++ str ";" ++ q_sql_statment e.
Definition xid_info (xid : Z) : bytes := str "Xid ID=" ++ to_dec xid.
Definition rows_info (e : Rows) : bytes :=
  str "table_id: " ++ to_dec (r_table_id e) ++ (if r_flags e =? 1 then str " flags: STMT_END_F" else []).
Definition gtid_log_info (e : GtidLog) : bytes :=
  str "SET @@SESSION.GTID_NEXT= " ++ str "'" ++ gtid_format (gl_gtid_uuid e) (gl_gtid_txn_id e) ++ str "'".
Definition table_map_info (e : TableMap) : bytes :=
  str "table id: " ++ to_dec (tm_table_id e) ++ str " (" ++ tm_db_name e ++ str "." ++ tm_tb_name e ++ str ")".

(** The virtual method. *)
Definition print_event_info (b : EventBody) : outcome bytes :=
  match b with
  | FormatDescriptionEvent e => Done (format_description_info e)
  | PreviousGtidsLogEvent _ ms => previous_gtids_info ms
  | RotateEvent e => Done (rotate_info e)
  | QueryEvent e => Done (query_info e)
  | XidEvent xid => Done (xid_info xid)
  | RowsEvent e => Done (rows_info e)
  | GtidLogEvent e => Done (gtid_log_info e)
  | TableMapEvent e => Done (table_map_info e)
  | HeartbeatEvent _ => Done []
  end.

(** The [switch] of SHOW BINLOG EVENTS: an object of the class of the event, set to the
    checksum mode of the file, reads the bytes; other types have no text. *)
Definition event_info (checksum_flag type_code : Z) (event : bytes) : outcome bytes :=
  match deserialize_event (negb (checksum_flag =? OFF)) type_code with
  | Some rd => ev ← of_option (run_reader rd event); print_event_info (get_body ev)
  | None => Done []
  end.

(** ** The commands *)

(** A computation that does not touch the connection. *)
Definition run {S A} (o : outcome A) : stateful S A := fun s => x ← o; Done (x, s).

(** [std::stoull]: a minus sign negates in the unsigned type. *)
Definition stoull (s : bytes) : option Z :=
  let '(v, ok) := read_number s in
  if ok && (Z.abs v <? 2 ^ 64) then Some (u64 v) else None.
Definition number (s : bytes) (d : Z) : outcome Z := match s with [] => Done d | _ => of_option (stoull s) end.

Definition utf8_cs : Z := 33.
Definition binary_cs : Z := 63.
Definition ct_longlong : Z := 8.
Definition ct_var_string : Z := 253.
Definition not_null_flag : Z := 1.
Definition pri_key_flag : Z := 2.
Definition binary_blob_flags : Z := Z.lor 128 16.
(** The constructor without schema and tables. *)
Definition column (name origin_name : bytes) (character_set length type flags decimals : Z) : ColumnPacket :=
  mkColumnPacket [] [] [] name origin_name character_set length type flags decimals.
Definition text_column (name : bytes) : ColumnPacket := column name [] utf8_cs 56 ct_var_string pri_key_flag 31.

Definition binary_logs_columns : list ColumnPacket :=
  [text_column (str "Log_name"); column (str "File_size") [] binary_cs 8 ct_longlong binary_blob_flags 0].
Definition binlog_events_columns : list ColumnPacket :=
  [text_column (str "Log_name"); column (str "Pos") [] binary_cs 8 ct_longlong binary_blob_flags 0; text_column (str "Event_type");
   text_column (str "Server_id"); text_column (str "End_log_pos"); text_column (str "Info")].
Definition master_status_columns : list ColumnPacket :=
  [column (str "File") [] utf8_cs 255 ct_var_string pri_key_flag 31; column (str "Position") [] utf8_cs 8 ct_longlong binary_blob_flags 0;
   column (str "Binlog_Do_DB") [] utf8_cs 255 ct_var_string not_null_flag 31; column (str "Binlog_Ignore_DB") [] utf8_cs 255 ct_var_string binary_blob_flags 0;
   column (str "Executed_Gtid_Set") [] utf8_cs 255 ct_var_string binary_blob_flags 0].

Definition no_such_file : bytes := str "Error when executing command SHOW BINLOG EVENTS: Could not find target binlog file.".
Definition cannot_open : bytes := str "Error when executing command SHOW BINLOG EVENTS: Could not find target binlog file".
Definition bad_format : bytes := str "The binlog file format is invalid.".
Definition wrong_offset : bytes := str "Error when executing command SHOW BINLOG EVENTS: Wrong offset or I/O error.".
Definition BINLOG_FATAL_ERROR : Z := 1236.

(** [prefix], [width]: how binlog files are named.  [files]: the files that can be opened.
    [binlog_checksum]: the configured checksum mode, which need not be that of a file. *)
Section Commands.
Context (alloc : Z -> bytes) (prefix : bytes) (width : Z) (files : bytes -> option bytes) (binlog_checksum : bool).

Definition log_row (record : BinlogIndexRecord) : list cell :=
  [Text (fill_binlog_file_name prefix width (get_index record)); Number (get_position record)].

(** [ShowBinaryLogsProcessor::process] *)
Definition show_binary_logs (m : BinlogIndexManager) : conn IoResult :=
  r ← send_result_metadata alloc binary_logs_columns;
  if decide (r = SUCCESS) then
    '(ret, index_records) ← run (fetch_index_vector m);
    if decide (ret = Prelude.OMS_OK) then send_rows alloc (log_row <$> index_records) (send_eof_packet alloc)
    else send_eof_packet alloc
  else mret FAIL.

(** [ShowMasterStatusProcessor::process]: [get_memory_index] may fill the record the index
    keeps in memory.  [gtid_executed]: the global variable, empty when it is not defined. *)
Definition status_row (binlog_gtid_display : bool) (gtid_executed : bytes) (record : BinlogIndexRecord) : list cell :=
  [Text (fill_binlog_file_name prefix width (get_index record)); Number (get_position record); Text []; Text [];
   Text (if binlog_gtid_display then gtid_executed else [])].
Definition show_master_status (binlog_gtid_display : bool) (gtid_executed : bytes) (m : BinlogIndexManager) : conn (IoResult * BinlogIndexManager) :=
  r ← send_result_metadata alloc master_status_columns;
  if decide (r = SUCCESS) then
    '(index_record, m) ← run (get_memory_index m);
    r ← (if beq (get_file_name index_record) [] then send_eof_packet alloc
         else send_rows alloc [status_row binlog_gtid_display gtid_executed index_record] (send_eof_packet alloc));
    mret (r, m)
  else mret (FAIL, m).

(** The loop of SHOW BINLOG EVENTS.  [inl (error, count)]: it ended; [inr r]: the handler
    returns [r]; [None]: not enough fuel. *)
Definition event_row (binlog_file : bytes) (pos : Z) (header : OblogEventHeader) (info : bytes) : list cell :=
  [Text binlog_file; Number pos; Text (event_type_to_str (h_type_code header)); Text (to_dec (h_server_id header));
   Number (h_next_position header); Text info].
Fixpoint events_loop (fuel : nat) (file binlog_file : bytes) (checksum_flag limit offset end_pos index count pos : Z)
    : conn (option ((bool * Z) + IoResult)) :=
  if u64 pos <? end_pos then
    match fuel with
    | O => mret None
    | S fuel =>
        match read_header file pos with
        | None => mret (Some (inl (true, count)))
        | Some header =>
            match read_file file pos (h_event_length header) with
            | None => mret (Some (inl (true, count)))
            | Some event =>
                if limit <=? count then mret (Some (inl (false, count)))
                else if offset <=? index then
                  info ← run (event_info checksum_flag (h_type_code header) event);
                  r ← put_row alloc (event_row binlog_file pos header info);
                  if decide (r = SUCCESS) then
                    events_loop fuel file binlog_file checksum_flag limit offset end_pos (index + 1) (count + 1) (h_next_position header)
                  else mret (Some (inr r))
                else events_loop fuel file binlog_file checksum_flag limit offset end_pos (index + 1) count (h_next_position header)
            end
        end
    end
  else mret (Some (inl (false, count))).

Definition failed_with (message : bytes) : conn (option IoResult) :=
  r ← send_err_packet alloc BINLOG_ERROR_WHEN_EXECUTING_COMMAND message (str "HY000"); mret (Some r).

(** The part of the handler that has the file open. *)
Definition show_file (fuel : nat) (file binlog_file : bytes) (position limit offset end_pos : Z) : conn (option IoResult) :=
  ok ← run (check_magic file 0);
  if (ok : bool) then
    r ← run (seek_events binlog_checksum fuel file FORMAT_DESCRIPTION_EVENT true);
    match r with
    | None => mret None
    | Some (_, []) => failed_with wrong_offset
    | Some (_, format_event :: _) =>
        r ← events_loop fuel file binlog_file (get_checksum_flag format_event) limit offset end_pos 0 0 (sint 64 position);
        match r with
        | None => mret None
        | Some (inr r) => mret (Some r)
        | Some (inl (error, count)) =>
            if (count <? limit) && error then failed_with wrong_offset
            else r ← send_eof_packet alloc; mret (Some r)
        end
    end
  else failed_with bad_format.

(** [ShowBinlogEventsProcessor::process] *)
Definition show_binlog_events (fuel : nat) (m : BinlogIndexManager) (binlog_file start_pos offset_str limit_str : bytes) : conn (option IoResult) :=
  r ← send_result_metadata alloc binlog_events_columns;
  if decide (r = SUCCESS) then
    '(ret, index_record) ← run (match binlog_file with [] => get_first_index m empty_record | _ => get_index_of prefix width m binlog_file empty_record end);
    if decide (ret = Prelude.OMS_FAILED) then failed_with no_such_file
    else
      let binlog_file := match binlog_file with [] => fill_binlog_file_name prefix width (get_index index_record) | _ => binlog_file end in
      position ← run (number start_pos BINLOG_MAGIC_SIZE);
      limit ← run (number limit_str (2 ^ 64 - 1));
      offset ← run (number offset_str 0);
      match files (get_file_name index_record) with
      | None => failed_with cannot_open
      | Some file => show_file fuel file binlog_file position limit offset (get_position index_record)
      end
  else mret (Some FAIL).
End Commands.

(** ** What the commands show *)

(** The text of an event that can be written. *)
Definition info_text (ev : ObLogEvent) : bytes := match print_event_info (get_body ev) with Done t => t | Crash => [] end.

(** The rows for the events that start at [pos]. *)
Fixpoint event_rows (binlog_file : bytes) (pos : Z) (evs : list ObLogEvent) : list (list cell) :=
  match evs with
  | [] => []
  | ev :: evs => event_row binlog_file pos (get_header ev) (info_text ev) :: event_rows binlog_file (h_next_position (get_header ev)) evs
  end.

(** The row of the index that the statement means. *)
Definition named (prefix : bytes) (width : Z) (binlog_file : bytes) (r : BinlogIndexRecord) : bool :=
  (0 <? get_index r) && strcmp_eq binlog_file (fill_binlog_file_name prefix width (get_index r)).
Definition asked_for (prefix : bytes) (width : Z) (binlog_file : bytes) (rs : list BinlogIndexRecord) : option BinlogIndexRecord :=
  match binlog_file with [] => head rs | _ => head (filter (fun r => named prefix width binlog_file r = true) rs) end.

(** *** Texts *)

Lemma format_all_ok ms : Forall message_ok ms -> exists l, format_all ms = Done l.
Proof.
  induction 1 as [|[k m] ms Hm _ [l IH]]; [by eexists|]. destruct Hm as (Hu & _). cbn [snd fst] in Hu. cbn [format_all]. unfold format_string. destruct (gtid_uuid m); [|done]. rewrite IH. by eexists.
Qed.

Lemma print_event_info_ok ev : event_ok ev -> print_event_info (get_body ev) = Done (info_text ev).
Proof.
  intros (_ & _ & _ & Hb & _). unfold info_text. destruct (get_body ev) as [e|n ms|e|e|e|xid|e|e|name]; try done.
  destruct Hb as (_ & _ & _ & Hm). destruct (format_all_ok ms Hm) as [l E]. cbn [print_event_info]. unfold previous_gtids_info. by rewrite E.
Qed.

Lemma print_reread b : readable b = true -> print_event_info (reread_body b) = print_event_info b.
Proof. destruct b as [e|n ms|e|e|e|xid|e|e|name]; intros H; try done. cbn [reread_body print_event_info]. unfold rows_info. by destruct (no_after e). Qed.

(** An update event is read only as far as its text needs. *)
Lemma update_read binlog_checksum h e tail : header_ok h -> body_ok (h_type_code h) (RowsEvent e) -> r_rows_event_type e = UPDATE ->
  zlen tail = config_checksum_len binlog_checksum ->
  h_event_length h = COMMON_HEADER_LENGTH + body_length (h_type_code h) (RowsEvent e) + config_checksum_len binlog_checksum ->
  exists p ev, body_flush h (RowsEvent e) = Done p /\ run_reader (update_rows_deserialize binlog_checksum) (header_flush h ++ p ++ tail) = Some ev /\
    print_event_info (get_body ev) = print_event_info (RowsEvent e).
Proof.
  intros Hh Hok Hu Ht Hl. cbn [body_flush]. destruct (body_flush_length h (RowsEvent e) Hok) as (p & Ep & Hp); [done|]. cbn [body_flush] in Ep. rewrite <-Hp in Hl.
  destruct (rows_flush_ok _ _ Hok) as (w & b1 & b2 & pt & Ew & Hw & H1 & H2 & _ & _ & _ & E). rewrite Ep in E. apply Done_inj in E as ->.
  destruct Hok as (? & ? & ? & Hwd & _). assert (no_before e = false /\ no_after e = false) as [En1 En2] by (unfold no_before, no_after; by rewrite Hu). rewrite En1, En2 in *.
  assert (zlen (fill_bit_map (bitmap_bytes (r_width e))) = bitmap_bytes (r_width e)) as Hf by (by apply zlen_fill_bit_map, bitmap_bytes_nonneg, lenenc_ok_nonneg).
  clear Hp. set (rest := image_bytes false b1 (r_before_row e) ++ pt ++ image_bytes false b2 (r_after_row e)) in *.
  eexists _, _. split; [done|]. rewrite !zlen_app, !zlen_int2store, zlen_int6store, Hf in Hl. unfold run_reader, update_rows_deserialize. rd_run.
  erewrite reader_bind_eq by (eapply rd_lenenc_write; [|exact Hwd|exact Ew]; done). rd_run.
  erewrite reader_bind_eq by (apply rd_take_app; unfold COMMON_HEADER_LENGTH in *; lia). done.
Qed.

Section Shown.
Context (alloc : Z -> bytes) (crc32 : bytes -> Z) (binlog_checksum : bool).

Lemma event_info_update ev e b : event_ok ev -> same_config binlog_checksum ev -> get_body ev = RowsEvent e -> r_rows_event_type e = UPDATE -> flush_to_buff crc32 ev = Done b ->
  exists ev', run_reader (update_rows_deserialize binlog_checksum) b = Some ev' /\ print_event_info (get_body ev') = print_event_info (get_body ev).
Proof using.
  intros Hok Hc Eb Hu Hb. destruct (flush_to_buff_eq crc32 ev Hok) as (p & ci & E & _ & Hp). rewrite E in Hb. apply Done_inj in Hb as <-. rewrite Eb in *.
  destruct Hok as (Hh & Hf & _ & Hbo & Hl). rewrite Eb in *. unfold get_checksum_len in Hl. rewrite Hc in Hl.
  destruct (update_read binlog_checksum (get_header ev) e (trailer crc32 (get_checksum_flag ev) ci) Hh Hbo Hu) as (q & ev' & Eq & Er & Ep); [|done|].
  - rewrite zlen_trailer by done. by rewrite Hc.
  - destruct Hp as [Hp _]. rewrite Eq in Hp. apply Done_inj in Hp as ->. by exists ev'.
Qed.

Lemma event_info_ok ev b : event_ok ev -> same_config binlog_checksum ev -> flush_to_buff crc32 ev = Done b ->
  event_info (config_checksum_flag binlog_checksum) (h_type_code (get_header ev)) b = Done (info_text ev).
Proof using.
  intros Hok Hc Hb. unfold event_info. assert (negb (config_checksum_flag binlog_checksum =? OFF) = binlog_checksum) as -> by (by destruct binlog_checksum).
  pose proof (print_event_info_ok ev Hok) as Hpr. destruct (readable (get_body ev)) eqn:Hr.
  - rewrite (deserialize_event_class _ _ (get_body ev)) by (done || apply Hok). rewrite (event_read_back crc32 binlog_checksum ev b) by done. cbn [of_option mbind outcome_bind reread get_body]. by rewrite print_reread.
  - pose proof Hok as (_ & _ & Ht & _). destruct (get_body ev) as [e|n ms|e|e|e|xid|e|e|name] eqn:Eb; try done.
    + cbn [readable] in Hr. apply bool_decide_eq_false in Hr. destruct (r_rows_event_type e) eqn:Eu; try by destruct Hr.
      destruct (event_info_update ev e b Hok Hc Eb Eu Hb) as (ev' & Er & Ep). rewrite Eb, Hpr in Ep.
      assert (deserialize_event binlog_checksum (h_type_code (get_header ev)) = Some (update_rows_deserialize binlog_checksum)) as ->.
      { cbn [body_type_ok] in Ht. rewrite Eu in Ht. apply orb_prop in Ht as [Ht%Z.eqb_eq|Ht%Z.eqb_eq]; by rewrite Ht. }
      rewrite Er. cbn [of_option mbind outcome_bind]. done.
    + cbn [body_type_ok] in Ht. apply Z.eqb_eq in Ht as ->. by rewrite <-Hpr.
Qed.

(** A return in the middle of a handler. *)
Definition finished (r : IoResult) : conn (option IoResult) := mret (Some r).

Lemma bind_assoc {S A B C} (m : stateful S A) (f : A -> stateful S B) (g : B -> stateful S C) s : ((m ≫= f) ≫= g) s = (m ≫= (fun x => f x ≫= g)) s.
Proof using. unfold mbind, stateful_bind. by destruct (m s) as [[x s']|]. Qed.
Lemma bind_ext {S A B} (m : stateful S A) (f g : A -> stateful S B) s : (forall x s', f x s' = g x s') -> (m ≫= f) s = (m ≫= g) s.
Proof using. intros H. unfold mbind, stateful_bind. by destruct (m s) as [[x s']|]; [apply H|]. Qed.

Lemma run_done {S A B} (o : outcome A) x (k : A -> stateful S B) s : o = Done x -> (run o ≫= k) s = k x s.
Proof using. by intros ->. Qed.

Lemma send_rows_bind row l fin c : (send_rows alloc (row :: l) fin ≫= finished) c =
  (put_row alloc row ≫= (fun r => if decide (r = SUCCESS) then send_rows alloc l fin ≫= finished else finished r)) c.
Proof using. cbn [send_rows]. rewrite bind_assoc. apply bind_ext. intros r s. by destruct (decide (r = SUCCESS)). Qed.

(** Over written events the loop sends the rows that the limits leave, and ends well. *)
Lemma events_loop_ok name limit offset (k : option ((bool * Z) + IoResult) -> conn (option IoResult)) (fin : conn IoResult) evs :
  (forall n c, k (Some (inl (false, n))) c = (fin ≫= finished) c) -> (forall r c, k (Some (inr r)) c = finished r c) ->
  forall fuel pre body rest index count pos c,
  chained pos evs -> Forall (same_config binlog_checksum) evs -> flush_all crc32 evs = Done body -> zlen pre = pos -> pos < 2 ^ 32 -> (length evs < fuel)%nat ->
  (events_loop alloc fuel (pre ++ body ++ rest) name (config_checksum_flag binlog_checksum) limit offset (pos + zlen body) index count pos ≫= k) c =
  (send_rows alloc (take (Z.to_nat (limit - count)) (drop (Z.to_nat (offset - index)) (event_rows name pos evs))) fin ≫= finished) c.
Proof using.
  intros Hk1 Hk2. induction evs as [|ev evs IH]; intros fuel pre body rest index count pos c Hc HP Hb Hp Hpos Hf; pose proof (zlen_nonneg pre) as Hp0.
  - injection Hb as <-. change (zlen []) with 0. rewrite Z.add_0_r. destruct fuel; [simpl in Hf; lia|]. cbn [events_loop event_rows]. rewrite u64_id by (unfold is_u64; lia). rewrite drop_nil, take_nil, Z.ltb_irrefl. cbn [send_rows].
    unfold mbind at 1, stateful_bind at 1, mret, stateful_ret. cbn [mbind outcome_bind]. apply Hk1.
  - destruct Hc as (Hok & Hnext & Hc). apply Forall_cons in HP as [HPe HP]. cbn [flush_all] in Hb. destruct (flush_length crc32 ev Hok) as (b & E & Hbl). rewrite E in Hb. cbn [mbind outcome_bind] in Hb.
    destruct (flush_all crc32 evs) as [bs|] eqn:Ebs; [|done]. apply Done_inj in Hb as <-.
    assert (placed crc32 (pre ++ (b ++ bs) ++ rest) pos ev) as Hpl by (exists pre, b, (bs ++ rest); by rewrite <-app_assoc).
    pose proof (placed_bounds _ _ _ _ Hpl) as (_ & ? & _). unfold COMMON_HEADER_LENGTH in *. pose proof (zlen_nonneg bs).
    destruct fuel as [|fuel]; [simpl in Hf; lia|]. cbn [events_loop]. rewrite u64_id by (unfold is_u64; lia). rewrite (proj2 (Z.ltb_lt _ _)) by (rewrite zlen_app; lia).
    rewrite (placed_header _ _ _ _ Hpl), (placed_read _ _ _ _ _ Hpl E).
    assert (forall index count c, (events_loop alloc fuel (pre ++ (b ++ bs) ++ rest) name (config_checksum_flag binlog_checksum) limit offset (pos + zlen (b ++ bs)) index count (h_next_position (get_header ev)) ≫= k) c =
      (send_rows alloc (take (Z.to_nat (limit - count)) (drop (Z.to_nat (offset - index)) (event_rows name (h_next_position (get_header ev)) evs))) fin ≫= finished) c) as IH'.
    { intros i n c'. specialize (IH fuel (pre ++ b) bs rest i n (h_next_position (get_header ev)) c'). rewrite <-IH; try done.
      - by rewrite <-!app_assoc, zlen_app, Hnext, Hbl, Z.add_assoc.
      - by rewrite zlen_app, Hp, Hbl, Hnext.
      - destruct Hok as ((_ & _ & _ & _ & Hn & _) & _). unfold is_u32 in Hn. lia.
      - simpl in Hf. lia. }
    cbn [event_rows]. destruct (Z.leb_spec limit count).
    { replace (Z.to_nat (limit - count)) with O by lia. cbn [take send_rows]. unfold mbind at 1, stateful_bind at 1, mret, stateful_ret. cbn [mbind outcome_bind]. apply Hk1. }
    destruct (Z.leb_spec offset index).
    + replace (Z.to_nat (offset - index)) with O by lia. cbn [drop]. replace (Z.to_nat (limit - count)) with (S (Z.to_nat (limit - (count + 1)))) by lia. cbn [take]. rewrite send_rows_bind.
      rewrite (bind_assoc (run _)). unfold mbind at 1, stateful_bind at 1, run. rewrite (event_info_ok ev b Hok HPe E). cbn [mbind outcome_bind]. rewrite bind_assoc. apply bind_ext.
      intros r s. destruct (decide (r = SUCCESS)); [|apply Hk2]. rewrite IH'. replace (Z.to_nat (offset - (index + 1))) with O by lia. done.
    + replace (Z.to_nat (offset - index)) with (S (Z.to_nat (offset - (index + 1)))) by lia. cbn [drop]. apply IH'.
Qed.

(** A file that starts with what the index knows of: [size] bytes with these events. *)
Record shown_file (evs : list ObLogEvent) (file : bytes) (size : Z) : Prop := {
  sf_chained : chained BINLOG_MAGIC_SIZE evs;
  sf_config : Forall (same_config binlog_checksum) evs;
  sf_bytes : exists body rest, flush_all crc32 evs = Done body /\ file = binlog_file (body ++ rest) /\ size = BINLOG_MAGIC_SIZE + zlen body;
  sf_first : exists ev e tl, evs = ev :: tl /\ get_body ev = FormatDescriptionEvent e
}.

Lemma seek_format config evs file size fuel : shown_file evs file size ->
  exists ev tl, evs = ev :: tl /\ seek_events config (S fuel) file FORMAT_DESCRIPTION_EVENT true = Done (Some (Prelude.OMS_OK, [reread ev])).
Proof using.
  intros [Hc HP (body & rest & Hb & -> & _) (ev & e & tl & -> & Ebd)]. exists ev, tl. split; [done|]. unfold seek_events. rewrite check_magic_file. cbn [mbind outcome_bind].
  pose proof (chained_placed crc32 [] ev tl binlog_magic body rest BINLOG_MAGIC_SIZE Hc Hb eq_refl) as Hpl. cbn [end_pos fold_left] in Hpl. fold (binlog_file (body ++ rest)) in Hpl.
  pose proof Hpl as (_ & b & _ & _ & _ & Eb & Hok). pose proof Hok as (_ & _ & Ht & _). rewrite Ebd in Ht. cbn [body_type_ok] in Ht. apply Z.eqb_eq in Ht. apply Forall_cons in HP as [HPe _].
  pose proof (placed_bounds _ _ _ _ Hpl) as (_ & ? & ?). unfold COMMON_HEADER_LENGTH, BINLOG_MAGIC_SIZE in *. cbn [seek_loop]. rewrite (proj2 (Z.ltb_lt _ _)) by lia. rewrite (placed_header _ _ _ _ Hpl). cbn [of_option mbind outcome_bind].
  assert (seek_step config (binlog_file (body ++ rest)) 4 FORMAT_DESCRIPTION_EVENT (get_header ev) [] = Done [reread ev]) as ->; [|done].
  pose proof (seek_step_placed crc32 binlog_checksum _ _ _ FORMAT_DESCRIPTION_EVENT [] Hpl HPe) as H'. unfold wanted in H'. rewrite Ht, Z.eqb_refl, orb_true_r in H'. specialize (H' ltac:(by rewrite Ebd)). etrans; [|exact H']. unfold seek_step. by rewrite Ht.
Qed.

Lemma show_file_ok config skipped shown file size name limit offset fuel c : shown_file (skipped ++ shown) file size -> (length (skipped ++ shown) < fuel)%nat ->
  show_file alloc config fuel file name (end_pos BINLOG_MAGIC_SIZE skipped) limit offset size c =
  (send_rows alloc (take (Z.to_nat limit) (drop (Z.to_nat offset) (event_rows name (end_pos BINLOG_MAGIC_SIZE skipped) shown))) (send_eof_packet alloc) ≫= finished) c.
Proof using.
  intros Hs Hf. destruct fuel as [|fuel]; [lia|]. destruct (seek_format config _ _ _ fuel Hs) as (ev & tl & E & Hseek). destruct Hs as [Hc HP (body & rest & Hb & -> & ->) _].
  unfold show_file. rewrite (run_done _ _ _ _ (check_magic_file _)). cbv iota. rewrite (run_done _ _ _ _ Hseek).
  apply flush_all_app in Hb as (b1 & b2 & Hb1 & Hb2 & ->). apply chained_app in Hc as [Hc1 Hc2]. apply Forall_app in HP as [HP1 HP2]. pose proof (chained_end crc32 _ _ _ Hc1 Hb1) as Hend.
  assert (get_checksum_flag (reread ev) = config_checksum_flag binlog_checksum) as ->.
  { assert (same_config binlog_checksum ev); [|done]. destruct skipped; simplify_eq/=; by eapply Forall_inv. }
  assert (0 <= end_pos BINLOG_MAGIC_SIZE skipped < 2 ^ 32) as Hpos.
  { rewrite Hend. pose proof (zlen_nonneg b1). split; [unfold BINLOG_MAGIC_SIZE; lia|]. rewrite <-Hend. clear -Hc1. destruct skipped as [|x l] using rev_ind; [done|].
    unfold end_pos. rewrite fold_left_app. cbn. apply chained_app in Hc1 as [_ (((_ & _ & _ & _ & Hn & _) & _) & _)]. apply Hn. }
  assert (sint 64 (end_pos BINLOG_MAGIC_SIZE skipped) = end_pos BINLOG_MAGIC_SIZE skipped) as -> by (unfold sint; change (2 ^ (64 - 1)) with (2 ^ 63); rewrite Z.mod_small by lia; lia).
  replace (binlog_file ((b1 ++ b2) ++ rest)) with ((binlog_magic ++ b1) ++ b2 ++ rest) by (unfold binlog_file; by rewrite <-!app_assoc).
  replace (BINLOG_MAGIC_SIZE + zlen (b1 ++ b2)) with (end_pos BINLOG_MAGIC_SIZE skipped + zlen b2) by (rewrite Hend, zlen_app; lia).
  etrans; [apply (events_loop_ok name limit offset _ (send_eof_packet alloc) shown)|by rewrite !Z.sub_0_r]; try done.
  - intros n c'. by rewrite andb_false_r.
  - by rewrite zlen_app, Hend.
  - lia.
  - rewrite length_app in Hf. lia.
Qed.
End Shown.

(** *** The commands are result sets *)

(** A number as the statement has it; [None] when it is left out. *)
Definition literal (o : option Z) : bytes := match o with Some n => to_dec n | None => [] end.
Definition u64_or_none (o : option Z) : Prop := match o with Some n => is_u64 n | None => True end.

Lemma number_literal o d : u64_or_none o -> number (literal o) d = Done (default d o).
Proof.
  destruct o as [n|]; [|done]. intros Hn. cbn [u64_or_none literal default from_option id] in *. unfold is_u64 in Hn. unfold number. destruct (to_dec n) as [|b l] eqn:E; [by apply to_dec_nonempty in E|]. rewrite <-E. unfold stoull.
  pose proof (read_number_to_dec n [] ltac:(lia)) as H. rewrite app_nil_r in H. rewrite H by done. cbn [andb]. rewrite (proj2 (Z.ltb_lt _ _)) by lia. cbn [of_option]. by rewrite u64_id.
Qed.

Section Results.
Context (alloc : Z -> bytes) (prefix : bytes) (width : Z) (files : bytes -> option bytes) (config : bool).

Lemma metadata_bind {A} (cols : list ColumnPacket) rows (f : IoResult -> conn A) c k :
  (forall c', k c' = (send_rows alloc rows (send_eof_packet alloc) ≫= f) c') ->
  (send_result_metadata alloc cols ≫= (fun r => if decide (r = SUCCESS) then k else f FAIL)) c = (send_result alloc cols rows ≫= f) c.
Proof using. intros Hk. unfold send_result. rewrite bind_assoc. apply bind_ext. intros r s. by destruct (decide (r = SUCCESS)); [apply Hk|]. Qed.

Lemma bind_ret {S A} (m : stateful S A) s : (m ≫= mret) s = m s.
Proof using. unfold mbind, stateful_bind. by destruct (m s) as [[]|]. Qed.

Lemma show_binary_logs_ok m rs c : represents m rs ->
  show_binary_logs alloc prefix width m c = send_result alloc binary_logs_columns (log_row prefix width <$> filter (fun r => 0 < get_index r) rs) c.
Proof using.
  intros Hm. unfold show_binary_logs. etrans; [|apply bind_ret]. apply (metadata_bind binary_logs_columns _ mret). intros c'.
  rewrite (run_done _ _ _ _ (fetch_represented _ _ Hm)). cbv beta iota. rewrite decide_True by done. by rewrite bind_ret.
Qed.

Lemma asked_for_ok m rs binlog_file r : represents m rs -> asked_for prefix width binlog_file rs = Some r ->
  match binlog_file with [] => get_first_index m empty_record | _ => get_index_of prefix width m binlog_file empty_record end = Done (Prelude.OMS_OK, r).
Proof using.
  intros [Hi Hrs] Ha. destruct binlog_file as [|b l].
  - unfold get_first_index. rewrite Hi, (proj1 (index_lines _ Hrs)). destruct rs as [|r0 rs]; [done|]. injection Ha as <-. cbn [hd fmap list_fmap]. rewrite parse_line by (by apply Forall_inv in Hrs). done.
  - unfold get_index_of. rewrite Hi, (proj1 (index_lines _ Hrs)). cbn [asked_for] in Ha. assert (find_index prefix width (b :: l) (line <$> rs) = Done (Some r)) as ->; [|done]. clear Hi.
    induction Hrs as [|r0 rs Hr0 _ IH]; [done|]. cbn [fmap list_fmap find_index]. rewrite parse_line by done. cbn [mbind outcome_bind]. fold (named prefix width (b :: l) r0). rewrite filter_cons in Ha.
    destruct (named prefix width (b :: l) r0) eqn:En; [|by apply IH]. cbn in Ha. by injection Ha as <-.
Qed.

Definition shown_name (binlog_file : bytes) (r : BinlogIndexRecord) : bytes :=
  match binlog_file with [] => fill_binlog_file_name prefix width (get_index r) | _ => binlog_file end.

Lemma show_binlog_events_ok crc32 mode fuel m rs binlog_file r file skipped shown start limit offset c :
  represents m rs -> asked_for prefix width binlog_file rs = Some r -> files (get_file_name r) = Some file ->
  shown_file crc32 mode (skipped ++ shown) file (get_position r) -> (length (skipped ++ shown) < fuel)%nat ->
  default BINLOG_MAGIC_SIZE start = end_pos BINLOG_MAGIC_SIZE skipped -> u64_or_none start -> u64_or_none limit -> u64_or_none offset ->
  show_binlog_events alloc prefix width files config fuel m binlog_file (literal start) (literal offset) (literal limit) c =
  (send_result alloc binlog_events_columns (take (Z.to_nat (default (2 ^ 64 - 1) limit)) (drop (Z.to_nat (default 0 offset))
     (event_rows (shown_name binlog_file r) (end_pos BINLOG_MAGIC_SIZE skipped) shown))) ≫= finished) c.
Proof using.
  intros Hm Ha Hfile Hs Hf Hst H1 H2 H3. unfold show_binlog_events. apply (metadata_bind binlog_events_columns _ finished). intros c'. rewrite (run_done _ _ _ _ (asked_for_ok _ _ _ _ Hm Ha)). cbv beta iota.
  rewrite decide_False by done. cbv zeta. rewrite (run_done _ _ _ _ (number_literal _ _ H1)), (run_done _ _ _ _ (number_literal _ _ H2)), (run_done _ _ _ _ (number_literal _ _ H3)). rewrite Hfile, Hst.
  by apply (show_file_ok alloc crc32 mode).
Qed.

(** The record that SHOW MASTER STATUS shows: the one in memory once there is one, and the
    last row [r] of the file before. *)
Definition known (m : BinlogIndexManager) (r : BinlogIndexRecord) : BinlogIndexRecord :=
  if beq (get_file_name (im_memory_index_record m)) [] then r else im_memory_index_record m.

Lemma memory_index_ok m rs r : represents m (rs ++ [r]) -> get_memory_index m = Done (known m r, mkIndexManager (im_index_file m) (known m r)).
Proof using.
  intros Hm. unfold get_memory_index, known. destruct (beq (get_file_name (im_memory_index_record m)) []) eqn:E.
  - by rewrite (latest_represented _ rs r).
  - by destruct m.
Qed.

Lemma show_master_status_ok display gtids m rs r c c' : represents m (rs ++ [r]) -> get_file_name r <> [] ->
  send_result alloc master_status_columns [status_row prefix width display gtids (known m r)] c = Done (SUCCESS, c') ->
  show_master_status alloc prefix width display gtids m c = Done ((SUCCESS, mkIndexManager (im_index_file m) (known m r)), c').
Proof using.
  intros Hm Hr. unfold send_result, show_master_status, mbind at 1 2, stateful_bind at 1 2. destruct (send_result_metadata _ _ c) as [[r1 c1]|]; [|done]. cbn [mbind outcome_bind].
  destruct (decide (r1 = SUCCESS)); [|done]. intros E. rewrite (run_done _ _ _ _ (memory_index_ok _ _ _ Hm)). cbv beta iota.
  assert (get_file_name (known m r) <> []) as Hk by (unfold known; by destruct (beq (get_file_name (im_memory_index_record m)) []) eqn:Eb; [|apply beq_false in Eb]).
  rewrite (proj2 (beq_false _ _)) by done. unfold mbind, stateful_bind. by rewrite E.
Qed.
End Results.

(** *** The columns fit *)

(** Columns of the seven-argument constructor with short names. *)
Definition short_column (p : ColumnPacket) : Prop :=
  schema_ p = [] /\ table_ p = [] /\ origin_table_ p = [] /\ origin_name_ p = [] /\ zlen (name_ p) <= 20 /\ 0 <= character_set_ p < 2 ^ 16 /\ 0 <= length_ p < 2 ^ 32 /\ 0 <= type_ p < 2 ^ 8 /\ 0 <= flags_ p < 2 ^ 16 /\ 0 <= decimals_ p < 2 ^ 8.
#[export] Instance short_column_dec p : Decision (short_column p).
Proof. unfold short_column. apply _. Defined.

Lemma short_column_ok limit caps lo hi p : 20 <= limit -> 1024 <= hi -> short_column p -> column_ok limit caps lo hi p.
Proof.
  destruct p as [sc tb ot nm on cs len ty fl de]. unfold short_column. cbn [schema_ table_ origin_table_ name_ origin_name_ character_set_ length_ type_ flags_ decimals_]. intros Hlim Hhi (-> & -> & -> & -> & ? & ? & ? & ? & ? & ?). pose proof (zlen_nonneg nm).
  assert (zlen (encode_all (column_fields (mkColumnPacket [] [] [] nm [] cs len ty fl de) caps)) <= 50) as Hz.
  { unfold column_fields. cbn [schema_ table_ origin_table_ name_ origin_name_ character_set_ length_ type_ flags_ decimals_]. rewrite !encode_all_cons. cbn [encode]. rewrite !zlen_app, !zlen_le_split, !zlen_lenenc. unfold encoded_bytes_length. rewrite (proj2 (Z.ltb_lt (zlen nm) 251)) by lia. change (zlen (encode_all [])) with 0.
    change (zlen (str "def")) with 3. change (zlen (@nil Z)) with 0. change (3 <? 251) with true. change (0 <? 251) with true. change (12 <? 251) with true. cbv iota. lia. }
  split; [split_and!; [|done|]| |].
  - cbn [fields column_packet_laws]. unfold column_fields. cbn [schema_ table_ origin_table_ name_ origin_name_ character_set_ length_ type_ flags_ decimals_]. repeat (apply Forall_cons; split; [cbn [field_ok]; change (zlen (str "def")) with 3; change (zlen (@nil Z)) with 0; lia|]). by apply Forall_nil.
  - cbn [fields column_packet_laws pk_asserts_room]. lia.
  - change mysql_pkt_max_length with 16777215. lia.
  - cbn [schema_ table_ origin_table_ name_ origin_name_]. repeat (apply Forall_cons; split; [change (zlen (@nil Z)) with 0; change (zlen (str "def")) with 3; lia|]). by apply Forall_nil.
Qed.

(** ** Properties *)

(** A command that the server runs on [c] for the query [sql] of the client [k] returns [v],
    and the client has the result set [cols], [rows]; [rest] follows. *)
Definition received (mem junk : Z) (sql : bytes) (rs : MySQLResultSet) (c : Connection) (k : MysqlProtocol) (rest : bytes)
    (cols : list ColumnPacket) (rows : list (list cell)) {A} (command : conn A) (v : A) : Prop :=
  exists c' wire, command c = Done (v, c') /\ sock_out c' = sock_out c ++ wire /\
    (incoming_bytes (cl_in k) = wire ++ rest ->
     exists k', query mem junk sql rs k = Done (Some (OMS_OK, with_result (zlen cols) (col_of <$> cols) (row_texts <$> rows) (rs_reset rs)), k') /\
       cl_out k' = cl_out k ++ frame 0 (3 :: sql) /\ incoming_bytes (cl_in k') = rest).

Section Properties.
Context (alloc : Z -> bytes) (alloc_len : forall n, 0 <= n -> zlen (alloc n) = n) (prefix : bytes) (width : Z) (files : bytes -> option bytes) (config : bool).
Context (mem junk : Z) (sql : bytes) (res : MySQLResultSet) (c : Connection) (k : MysqlProtocol) (rest : bytes).
Context (Hready : ready c) (Hkilled : _killed c = NOT_KILLED) (Hmin : 1024 <= min_capacity_ (pkt_buf_ c)) (Hclient : client_ready k) (Hsql : zlen sql < 2 ^ 24 - 1) (Hmem : 20 <= mem).

Definition fits (n : nat) (rows : list (list cell)) : Prop := Forall (row_ok mem (max_capacity_ (pkt_buf_ c)) n) rows.

Lemma received_ok cols rows : Forall short_column cols -> 0 < zlen cols <= 20 -> fits (length cols) rows ->
  received mem junk sql res c k rest cols rows (send_result alloc cols rows) SUCCESS.
Proof using alloc_len Hready Hkilled Hmin Hclient Hsql Hmem.
  intros Hc Hn Hr. apply (result_received alloc mem junk sql res cols rows c k rest); try done; [lia|lia|]. eapply Forall_impl; [exact Hc|]. intros p. apply short_column_ok; [lia|]. destruct Hready as [_ [_ [? ?] _ _]]. lia.
Qed.

(** C17: SHOW BINARY LOGS lists every file of the index in order, with its name and the size
    that the index has.  SHOW MASTER STATUS shows the record that the index has in memory and,
    when it has none since the start, the last row of the file, which it then keeps.  The
    record in memory is that of the last update of the index: after a rotation it is still
    the file before, until the first batch is written to the new one
    ([status_after_rotation]). *)
Theorem index_commands_correct m rs r display gtids :
  represents m (rs ++ [r]) -> Forall (fun r => 0 < get_index r) (rs ++ [r]) -> get_file_name r <> [] ->
  fits 2 (log_row prefix width <$> rs ++ [r]) -> fits 5 [status_row prefix width display gtids (known m r)] ->
  received mem junk sql res c k rest binary_logs_columns (log_row prefix width <$> rs ++ [r]) (show_binary_logs alloc prefix width m) SUCCESS /\
  received mem junk sql res c k rest master_status_columns [status_row prefix width display gtids (known m r)]
    (show_master_status alloc prefix width display gtids m) (SUCCESS, mkIndexManager (im_index_file m) (known m r)).
Proof using alloc_len Hready Hkilled Hmin Hclient Hsql Hmem.
  intros Hm Hpos Hr Hf1 Hf2. split.
  - destruct (received_ok binary_logs_columns (log_row prefix width <$> rs ++ [r])) as (c' & wire & E & H'); [by_compute|by_compute|done|]. exists c', wire. split; [|done].
    rewrite (show_binary_logs_ok _ _ _ _ _ _ Hm). rewrite filter_all; [done|]. intros x Hx. by eapply Forall_forall in Hpos.
  - destruct (received_ok master_status_columns [status_row prefix width display gtids (known m r)]) as (c' & wire & E & H'); [by_compute|by_compute|done|]. exists c', wire. split; [|done]. by apply (show_master_status_ok _ _ _ _ _ _ rs).
Qed.

(** C9: SHOW BINLOG EVENTS on a file of the index shows the events that the storage wrote:
    one row per event from the position that is asked for to the end that the index knows,
    with the type, the end and the text of the event, cut as LIMIT says; also for update
    events, which the server cannot decode in full, and when the checksum mode of the file
    is not the configured one.  The scan ends with the fuel that the number of events
    needs. *)
Theorem show_binlog_events_correct crc32 mode fuel m rs binlog_file r file skipped shown start limit offset :
  represents m rs -> asked_for prefix width binlog_file rs = Some r -> files (get_file_name r) = Some file ->
  shown_file crc32 mode (skipped ++ shown) file (get_position r) -> (length (skipped ++ shown) < fuel)%nat ->
  default BINLOG_MAGIC_SIZE start = end_pos BINLOG_MAGIC_SIZE skipped -> u64_or_none start -> u64_or_none limit -> u64_or_none offset ->
  let rows := take (Z.to_nat (default (2 ^ 64 - 1) limit)) (drop (Z.to_nat (default 0 offset)) (event_rows (shown_name prefix width binlog_file r) (end_pos BINLOG_MAGIC_SIZE skipped) shown)) in
  fits 6 rows ->
  received mem junk sql res c k rest binlog_events_columns rows
    (show_binlog_events alloc prefix width files config fuel m binlog_file (literal start) (literal offset) (literal limit)) (Some SUCCESS).
Proof using alloc_len Hready Hkilled Hmin Hclient Hsql Hmem.
  intros Hm Ha Hfile Hs Hf Hst H1 H2 H3 rows Hfit. destruct (received_ok binlog_events_columns rows) as (c' & wire & E & H'); [by_compute|by_compute|done|]. exists c', wire. split; [|done].
  rewrite (show_binlog_events_ok alloc prefix width files config crc32 mode fuel m rs binlog_file r file skipped shown start limit offset c) by done. fold rows. unfold mbind, stateful_bind. by rewrite E.
Qed.
End Properties.

(** ** Concrete instances *)

Definition s_evs : list ObLogEvent := sample_evs ++ [sample_end].
Definition s_file : bytes := Eval vm_compute in binlog_file (bytes_of (flush_all sample_crc s_evs) ++ [9]).
Definition s_record : BinlogIndexRecord := sample_record 1 10 361.
Definition s_last : BinlogIndexRecord := sample_record 2 10 155.
Definition s_index : BinlogIndexManager := mkIndexManager (Some (index_text ([s_record] ++ [s_last]))) empty_record.
Definition s_files (n : bytes) : option bytes := if beq n (get_file_name s_record) then Some s_file else None.
Definition s_rows : list (list cell) := Eval vm_compute in take 3 (drop 1 (event_rows (str "mysql-bin.000001") 4 s_evs)).

Lemma s_represents : represents s_index ([s_record] ++ [s_last]).
Proof. split; [done|by_compute]. Qed.
Lemma s_shown : shown_file sample_crc true ([] ++ s_evs) s_file (get_position s_record).
Proof.
  split; [by_compute|repeat constructor| |by eexists _, _, _]. exists (bytes_of (flush_all sample_crc s_evs)), [9]. split_and!; vm_compute; reflexivity.
Qed.
Ltac fits_by_compute :=
  repeat (apply Forall_cons; split; [split; [split; [repeat (apply Forall_cons; split; [by_compute|]); by apply Forall_nil|by_compute]|by_compute|by_compute|by_compute]|]); by apply Forall_nil.

(** After a rotation: the last update of the index was that of the first file, and the row
    of the second one has been added. *)
Definition s_rotated : BinlogIndexManager := (add_index disk_ok (mkIndexManager (Some (index_text [s_record])) s_record) s_last).2.
Lemma s_rotated_represents : represents s_rotated ([s_record] ++ [s_last]).
Proof. split; [vm_compute; reflexivity|by_compute]. Qed.

(** The new file is in SHOW BINARY LOGS, and SHOW MASTER STATUS names the one before. *)
Lemma status_after_rotation : known s_rotated s_last = s_record /\ get_index s_record < get_index s_last.
Proof. split; vm_compute; reflexivity. Qed.

Lemma index_commands_correct_witness :
  (received 512 0 (str "SHOW BINARY LOGS") r_set r_conn (r_client []) [] binary_logs_columns (log_row (str "mysql-bin") 6 <$> [s_record] ++ [s_last]) (show_binary_logs zeroed (str "mysql-bin") 6 s_index) SUCCESS /\
   received 512 0 (str "SHOW BINARY LOGS") r_set r_conn (r_client []) [] master_status_columns [status_row (str "mysql-bin") 6 true (str "u:1-10") s_last]
     (show_master_status zeroed (str "mysql-bin") 6 true (str "u:1-10") s_index) (SUCCESS, mkIndexManager (im_index_file s_index) s_last)) /\
  received 512 0 (str "SHOW BINARY LOGS") r_set r_conn (r_client []) [] master_status_columns [status_row (str "mysql-bin") 6 true (str "u:1-10") s_record]
    (show_master_status zeroed (str "mysql-bin") 6 true (str "u:1-10") s_rotated) (SUCCESS, mkIndexManager (im_index_file s_rotated) s_record).
Proof.
  pose proof (fun m => index_commands_correct zeroed zeroed_len (str "mysql-bin") 6 512 0 (str "SHOW BINARY LOGS") r_set r_conn (r_client []) [] r_ready eq_refl ltac:(by_compute) (l_client_ready _) ltac:(by_compute) ltac:(by_compute)
    m [s_record] s_last true (str "u:1-10")) as H. split.
  - apply (H s_index s_represents).
    + by_compute.
    + done.
    + unfold fits. fits_by_compute.
    + unfold fits. fits_by_compute.
  - apply (H s_rotated s_rotated_represents).
    + by_compute.
    + done.
    + unfold fits. fits_by_compute.
    + unfold fits. fits_by_compute.
Defined.

Lemma show_binlog_events_correct_witness :
  received 512 0 (str "SHOW BINLOG EVENTS") r_set r_conn (r_client []) [] binlog_events_columns s_rows
    (show_binlog_events zeroed (str "mysql-bin") 6 s_files false 10 s_index (str "mysql-bin.000001") [] (str "1") (str "3")) (Some SUCCESS).
Proof.
  apply (show_binlog_events_correct zeroed zeroed_len (str "mysql-bin") 6 s_files false 512 0 (str "SHOW BINLOG EVENTS") r_set r_conn (r_client []) [] r_ready eq_refl ltac:(by_compute) (l_client_ready _) ltac:(by_compute) ltac:(by_compute)
    sample_crc true 10 s_index ([s_record] ++ [s_last]) (str "mysql-bin.000001") s_record s_file [] s_evs None (Some 3) (Some 1) s_represents).
  - vm_compute. reflexivity.
  - vm_compute. reflexivity.
  - exact s_shown.
  - cbn. lia.
  - done.
  - done.
  - by_compute.
  - by_compute.
  - unfold fits. change (Forall (row_ok 512 (max_capacity_ (pkt_buf_ r_conn)) 6) s_rows). unfold s_rows. fits_by_compute.
Defined.

(** What the client has of the command, evaluated: an excluded first event, three shown. *)
Definition s_exchange (binlog_file offset limit : bytes) : option (oms_ret * list (list bytes)) :=
  match show_binlog_events zeroed (str "mysql-bin") 6 s_files false 10 s_index binlog_file [] offset limit r_conn with
  | Done (_, c) => match query 512 0 (str "SHOW") r_set (r_client (l_pieces (sock_out c))) with Done (Some (ret, rs), _) => Some (ret, rows rs) | _ => None end
  | Crash => None
  end.
Example s_events_runs :
  match s_exchange (str "mysql-bin.000001") (str "2") (str "2") with
  | Some (OMS_OK, rows) => (fun row : list bytes => List.last row []) <$> rows = [str "SET @@SESSION.GTID_NEXT= '89fbcea2-db65-11e7-a851-fa163e618bac:10'"; str "BEGIN"]
  | _ => False
  end.
Proof. vm_compute. reflexivity. Qed.

(** An error after the columns: the client takes the packet for a row and waits for more,
    so that it has neither the message nor the failure. *)
Example s_error_is_a_row : match s_exchange (str "mysql-bin.000009") [] [] with Some (OMS_CONNECT_FAILED, [row]) => hd [1] row = [] | _ => False end.
Proof. vm_compute. reflexivity. Qed.
