(* ===== verification/Command.v ===== *)
(** * Command: the commands of a connection

    [Connection::do_cmd] of [src/src/binlog/connection.cpp] and the processors of
    [src/src/binlog/cmd_processor.{h,cpp}]: one packet is read, its first byte selects the
    processor; a dump request becomes a [BinlogDumper], which the theorems of [Stream] and
    [Service] are about; the requests for another instance are forwarded.  The SQL parser
    and the table of the SQL processors are parameters. *)

From S2P Require Import Prelude Bytes Str Gtid Events EventWire EventScan BinlogIndex GtidManager Storage Pipeline Recovery Dumper Stream PacketBuf Sha1 Auth Connection Handshake MsgBuf Client Login ResultSet.

#[local] Open Scope Z_scope.

(** ** Reading requests *)

(** A variable that a failed read leaves as it was. *)
Definition read_or {A} (d : A) (m : pbuf (option A)) : pbuf A := r ← m; mret (default d r).

Definition crashed {S A} : stateful S A := fun _ => Crash.

(** The intervals of one UUID: [start] and [end] are declared outside of the loop. *)
Fixpoint read_intervals (n : nat) (start end_ : Z) (txn_ranges : list txn_range) : pbuf (list txn_range) :=
  match n with
  | O => mret txn_ranges
  | S n =>
      start ← read_or start PacketBuf.read_uint8;
      end_ ← read_or end_ PacketBuf.read_uint8;
      read_intervals n start end_ (txn_ranges ++ [(start, end_)])
  end.

(** The UUIDs: [gtid_uuid] points into the buffer, at first nowhere.  [memory]: how many
    entries fit into memory. *)
Fixpoint read_sids (memory : Z) (n : nat) (gtid_uuid : option bytes) (gtids : gtid_map) : pbuf gtid_map :=
  match n with
  | O => mret gtids
  | S n =>
      r ← read_bytes SERVER_UUID_LEN;
      match (match r with Some b => Some b | None => gtid_uuid end) with
      | None => crashed
      | Some uuid =>
          n_intervals ← read_or 0 PacketBuf.read_uint8;
          if memory <? n_intervals then crashed
          else
            txn_ranges ← read_intervals (Z.to_nat n_intervals) 0 0 [];
            read_sids memory n (Some uuid) (omap_emplace (dumphex uuid) (mkGtidMessage (Some uuid) n_intervals txn_ranges) gtids)
      end
  end.

(** ** The processors *)

Inductive CmdProcessor := QueryCmd | BinlogDumpCmd | BinlogDumpGtidCmd | RegisterSlaveCmd | QuitCmd.

Definition com_quit : Z := 1.
Definition com_query : Z := 3.
Definition com_binlog_dump : Z := 18.
Definition com_register_slave : Z := 21.
Definition com_binlog_dump_gtid : Z := 30.

Definition cmd_processor (conn_type : ConnectionType) (server_command : Z) : option CmdProcessor :=
  if decide (conn_type = OBM) then (if server_command =? com_query then Some QueryCmd else None)
  else if server_command =? com_query then Some QueryCmd
  else if server_command =? com_binlog_dump then Some BinlogDumpCmd
  else if server_command =? com_binlog_dump_gtid then Some BinlogDumpGtidCmd
  else if server_command =? com_register_slave then Some RegisterSlaveCmd
  else if server_command =? com_quit then Some QuitCmd
  else None.

(** A [BinlogDumper] as the processors build it, and its heartbeat interval. *)
Definition new_dumper (gtid_mod : bool) (exclude_gtid : gtid_map) (flag : Z) (file : bytes) (start_pos : Z) : BinlogDumper :=
  mkDumper (binlog_path file) file start_pos gtid_mod exclude_gtid ([], 0) flag [] None 0 UNDEF [] 0 [].
Definition heartbeat_period (binlog_heartbeat_interval_us : Z) (master_heartbeat_period : bytes) : Z :=
  match master_heartbeat_period with [] => binlog_heartbeat_interval_us | s => u64 (atoll s) end.

(** What a command leaves: its result and the dumper that it started. *)
Abbreviation command := (conn (IoResult * option (BinlogDumper * Z))).

Section Processors.
Context (alloc : Z -> bytes) (memory : Z).
(** The heartbeat interval of the configuration, the variable of the session, and whether
    one more dumper is allowed. *)
Context (binlog_heartbeat_interval_us : Z) (master_heartbeat_period : bytes) (can_add_one : bool).
(** [ObSqlParser::parse] and the table [sql_cmd_processor]. *)
Context {SQLStatement : Type} (parse : bytes -> option (list SQLStatement)) (sql_cmd_processor : ConnectionType -> SQLStatement -> option (conn IoResult)).
(** [InstanceClient::init] for the instance of the user: the connection to it, logged in. *)
Context (enable_instance_proxy : bool) (instance : option MysqlProtocol).

Definition answer (m : conn IoResult) : command := r ← m; mret (r, None).
Definition dump_started (bd : BinlogDumper) : command :=
  mret (BINLOG_DUMP, Some (bd, heartbeat_period binlog_heartbeat_interval_us master_heartbeat_period)).
Definition no_resources : command := answer (send_err_packet alloc 1236 (str "Insufficient binlog instance resources") (str "HY000")).

Definition query_process : command :=
  c ← get_conn;
  query ← on_buf (read_or [] (read_fixed_length_string (readable_bytes (pkt_buf_ c))));
  match parse query with
  | None | Some [] => answer (send_ok_packet alloc)
  | Some (statement :: _) =>
      match sql_cmd_processor (_conn_type c) statement with
      | Some process => answer process
      | None => answer (send_ok_packet alloc)
      end
  end.

Definition binlog_dump_process : command :=
  binlog_pos ← on_buf (read_or 0 read_uint4);
  flags ← on_buf (read_or 0 read_uint2);
  _ ← on_buf (read_or 0 read_uint4);
  binlog_file ← on_buf read_remaining_bytes;
  if can_add_one then dump_started (new_dumper false [] flags binlog_file binlog_pos) else no_resources.

Definition binlog_dump_gtid_process : command :=
  flags ← on_buf (read_or 0 read_uint2);
  _ ← on_buf (read_or 0 read_uint4);
  binlog_file_name_size ← on_buf (read_or 0 read_uint4);
  binlog_file_name ← on_buf (read_or [] (read_fixed_length_string binlog_file_name_size));
  binlog_pos ← on_buf (read_or 0 PacketBuf.read_uint8);
  _ ← on_buf (read_or 0 read_uint4);
  n_sids ← on_buf (read_or 0 PacketBuf.read_uint8);
  if can_add_one then
    if memory <? n_sids then crashed
    else
      gtids ← on_buf (read_sids memory (Z.to_nat n_sids) None []);
      dump_started (new_dumper true gtids flags binlog_file_name binlog_pos)
  else no_resources.

Definition register_slave_process : command :=
  _ ← on_buf read_uint4;
  host_len ← on_buf (read_or 0 read_uint1);
  _ ← on_buf (read_fixed_length_string host_len);
  user_len ← on_buf (read_or 0 read_uint1);
  _ ← on_buf (read_fixed_length_string user_len);
  password_len ← on_buf (read_or 0 read_uint1);
  _ ← on_buf (read_fixed_length_string password_len);
  _ ← on_buf read_uint2;
  _ ← on_buf (read_or 0 read_uint4);
  _ ← on_buf (read_or 0 read_uint4);
  answer (send_ok_packet alloc).

Fixpoint send_chunks (l : list bytes) : conn IoResult :=
  match l with
  | [] => mret SUCCESS
  | chunk :: l => r ← Connection.send_mysql_packet chunk; if decide (r = SUCCESS) then send_chunks l else mret FAIL
  end.

(** [InstanceProxyCmdProcessor::process], with the connection to the instance as it is left;
    [None] when the answer does not end. *)
Definition instance_proxy_process : conn (option IoResult * option MysqlProtocol) :=
  match instance with
  | None => send_err_packet alloc 1236 (str "Failed connect to instance") (str "HY000");; mret (Some FAIL, None)
  | Some client =>
      c ← get_conn;
      match route_query [first (readable_bytes (pkt_buf_ c)) (buf_ (pkt_buf_ c))] client with
      | Crash => crashed
      | Done (None, client) => mret (None, Some client)
      | Done (Some (OMS_OK, msg_buf), client) => r ← send_chunks msg_buf; mret (Some r, Some client)
      | Done (Some _, client) => send_err_packet alloc 1236 (str "Failed route sql to binlog instance") (str "HY000");; mret (Some FAIL, Some client)
      end
  end.

Definition process (p : CmdProcessor) : command :=
  match p with
  | QueryCmd => query_process
  | BinlogDumpCmd => binlog_dump_process
  | BinlogDumpGtidCmd => binlog_dump_gtid_process
  | RegisterSlaveCmd => register_slave_process
  | QuitCmd => answer (send_ok_packet alloc)
  end.

Definition reset_seq_no : conn unit := fun c => Done (tt, with_seq_no 0 c).

(** The result and the dumper started, and the connection to the instance when the command
    was forwarded. *)
Definition do_cmd : conn (option (IoResult * option (BinlogDumper * Z)) * option MysqlProtocol) :=
  reset_seq_no;;
  r ← read_data_packet alloc;
  match r with
  | None => mret (None, None)
  | Some r =>
      if decide (r = SUCCESS) then
        c ← get_conn;
        if enable_instance_proxy && bool_decide (_conn_type c = OBM) && negb (_is_admin c) then
          r ← instance_proxy_process; mret ((fun x => (x, None)) <$> r.1, r.2)
        else
          command ← on_buf (read_or 0 read_uint1);
          match cmd_processor (_conn_type c) command with
          | Some p => r ← process p; mret (Some r, None)
          | None => mret (Some (FAIL, None), None)
          end
      else mret (Some (FAIL, None), None)
  end.
End Processors.

(** ** Requests, as the protocol lays them out *)

Definition sid : Type := bytes * list txn_range.
Inductive dump_request :=
| DumpAt (flags server_id : Z) (file : bytes) (pos : Z)
| DumpGtid (flags server_id : Z) (file : bytes) (pos size : Z) (sids : list sid).

Definition range_fields (r : txn_range) : list field := [U8 r.1; U8 r.2].
Definition sid_fields (x : sid) : list field := [Fixed x.1; U8 (zlen x.2)] ++ mjoin (range_fields <$> x.2).
Definition request_fields (r : dump_request) : list field :=
  match r with
  | DumpAt flags server_id file pos => [U1 com_binlog_dump; U4 pos; U2 flags; U4 server_id; Fixed file]
  | DumpGtid flags server_id file pos size sids =>
      [U1 com_binlog_dump_gtid; U2 flags; U4 server_id; U4 (zlen file); Fixed file; U8 pos; U4 size; U8 (zlen sids)] ++ mjoin (sid_fields <$> sids)
  end.
Definition request_payload (r : dump_request) : bytes := encode_all (request_fields r).

Definition sid_ok (memory : Z) (x : sid) : Prop := zlen x.1 = SERVER_UUID_LEN /\ zlen x.2 <= memory.
Definition request_ok (memory : Z) (r : dump_request) : Prop :=
  Forall field_ok (request_fields r) /\ match r with DumpAt _ _ _ _ => True | DumpGtid _ _ _ _ _ sids => Forall (sid_ok memory) sids /\ zlen sids <= memory end.

(** What is asked for: the first entry of a UUID counts. *)
Definition excluded_by (sids : list sid) : gtid_map :=
  fold_left (fun gtids x => omap_emplace (dumphex x.1) (mkGtidMessage (Some x.1) (zlen x.2) x.2) gtids) sids [].
Definition asks_gtid (r : dump_request) : bool := match r with DumpAt _ _ _ _ => false | DumpGtid _ _ _ _ _ _ => true end.
Definition asks_exclude (r : dump_request) : gtid_map := match r with DumpAt _ _ _ _ => [] | DumpGtid _ _ _ _ _ sids => excluded_by sids end.
Definition asks_flags (r : dump_request) : Z := match r with DumpAt f _ _ _ | DumpGtid f _ _ _ _ _ => f end.
Definition asks_file (r : dump_request) : bytes := match r with DumpAt _ _ f _ | DumpGtid _ _ f _ _ _ => f end.
Definition asks_pos (r : dump_request) : Z := match r with DumpAt _ _ _ p | DumpGtid _ _ _ p _ _ => p end.
Definition asked_dumper (r : dump_request) : BinlogDumper := new_dumper (asks_gtid r) (asks_exclude r) (asks_flags r) (asks_file r) (asks_pos r).

(** *** Reading them *)

(** [m] makes [x] of [data], whatever follows it. *)
Definition takes {A} (m : pbuf A) (data : bytes) (x : A) : Prop :=
  forall s rest, buf_ok s -> pending s = data ++ rest -> runs m s (fun y s' => y = x /\ consumed data s s').

Lemma takes_ret {A} (x : A) : takes (mret x) [] x.
Proof. intros s rest Hs Hp. apply runs_ret. split; [done|by apply consumed_nil]. Qed.
Lemma takes_bind {A B} (m : pbuf A) (k : A -> pbuf B) a b x y : takes m a x -> takes (k x) b y -> takes (m ≫= k) (a ++ b) y.
Proof.
  intros Hm Hk s rest Hs Hp. rewrite <-app_assoc in Hp. apply runs_bind. eapply runs_mono; [exact (Hm s _ Hs Hp)|]. intros z s1 [-> C1].
  eapply runs_mono; [apply (Hk s1 rest); [by destruct C1|]|].
  - destruct C1 as [_ E _ _]. rewrite E in Hp. by apply app_inv_head in Hp.
  - intros z s2 [-> C2]. split; [done|]. by eapply consumed_app.
Qed.
Lemma read_or_takes {A} (d : A) m data x : reads m data x -> takes (read_or d m) data x.
Proof. intros Hm s rest Hs Hp. apply runs_bind. eapply runs_mono; [exact (Hm s rest Hs Hp)|]. intros r s' [-> C]. by apply runs_ret. Qed.

Lemma read_int_takes (n : nat) d v : 0 <= v < 256 ^ Z.of_nat n -> takes (read_or d (read_n (Z.of_nat n) le_combine)) (le_split n v) v.
Proof. intros Hv. apply read_or_takes. rewrite <-(le_combine_split_id n v) at 2 by done. apply read_n_ok. by rewrite zlen_le_split. Qed.
Lemma read_text_takes d t : zlen t < 2 ^ 32 -> takes (read_or d (read_fixed_length_string (zlen t))) t t.
Proof. intros Ht. apply read_or_takes. unfold read_fixed_length_string. pose proof (zlen_nonneg t). rewrite u32_id by (unfold is_u32; lia). by apply (read_n_ok (zlen t) id). Qed.

Lemma read_intervals_takes l : forall start end_ acc, Forall field_ok (mjoin (range_fields <$> l)) ->
  takes (read_intervals (length l) start end_ acc) (encode_all (mjoin (range_fields <$> l))) (acc ++ l).
Proof.
  induction l as [|[a b] l IH]; intros start end_ acc Hf; [rewrite app_nil_r; apply takes_ret|]. cbn [fmap list_fmap length read_intervals] in *. rewrite join_cons in *. cbn [range_fields app fst snd] in *. rewrite !encode_all_cons.
  apply Forall_cons in Hf as [Ha Hf]. apply Forall_cons in Hf as [Hb Hf]. cbn [field_ok] in Ha, Hb. cbn [encode].
  eapply takes_bind; [by apply (read_int_takes 8)|]. eapply takes_bind; [by apply (read_int_takes 8)|]. pose proof (IH a b (acc ++ [(a, b)]) Hf) as H. rewrite <-app_assoc in H. exact H.
Qed.

Lemma read_sids_takes memory l : forall uuid gtids, Forall (sid_ok memory) l -> Forall field_ok (mjoin (sid_fields <$> l)) ->
  takes (read_sids memory (length l) uuid gtids) (encode_all (mjoin (sid_fields <$> l)))
    (fold_left (fun gtids x => omap_emplace (dumphex x.1) (mkGtidMessage (Some x.1) (zlen x.2) x.2) gtids) l gtids).
Proof.
  induction l as [|[u rs] l IH]; intros uuid gtids Hs Hf; [apply takes_ret|]. apply Forall_cons in Hs as [[Hu Hm] Hs]. cbn [fst snd] in Hu, Hm. cbn [fmap list_fmap length read_sids fold_left fst snd] in *. rewrite join_cons in *.
  unfold sid_fields at 1. unfold sid_fields at 1 in Hf. cbn [app fst snd] in *. apply Forall_cons in Hf as [_ Hf]. apply Forall_cons in Hf as [Hn Hf]. apply Forall_app in Hf as [Hr Hf]. cbn [field_ok] in Hn.
  rewrite !encode_all_cons, encode_all_app. cbn [encode]. eapply takes_bind.
  { apply (read_n_ok SERVER_UUID_LEN id). exact Hu. }
  cbv iota. eapply takes_bind; [by apply (read_int_takes 8)|]. rewrite (proj2 (Z.ltb_ge _ _)) by done. eapply takes_bind; [|by apply IH].
  replace (Z.to_nat (zlen rs)) with (length rs) by (unfold zlen; lia). exact (read_intervals_takes rs 0 0 [] Hr).
Qed.

(** *** The command loop on a request *)

Lemma on_buf_step {A B} (m : pbuf A) (k : A -> conn B) data x rest c b Q : takes m data x -> buf_ok b -> pending b = data ++ rest ->
  (forall b', buf_ok b' -> pending b' = rest -> runs (k x) (with_pkt_buf b' c) Q) -> runs (on_buf m ≫= k) (with_pkt_buf b c) Q.
Proof.
  intros Hm Hb Hp Hk. apply runs_bind, runs_on_buf. eapply runs_mono; [exact (Hm b rest Hb Hp)|]. intros y b' [-> C]. apply Hk; [by destruct C|]. destruct C as [_ E _ _]. rewrite E in Hp. by apply app_inv_head in Hp.
Qed.

Ltac int_step n v b Hb Hp := eapply (on_buf_step _ _ (le_split n v) v); [by apply (read_int_takes n)|done|exact Hp|]; clear Hp; intros b Hb Hp.

Section Requests.
Context (alloc : Z -> bytes) (alloc_len : forall n, 0 <= n -> zlen (alloc n) = n) (memory binlog_heartbeat_interval_us : Z) (master_heartbeat_period : bytes).
Context {SQLStatement : Type} (parse : bytes -> option (list SQLStatement)) (sql_cmd_processor : ConnectionType -> SQLStatement -> option (conn IoResult)).
Context (enable_instance_proxy : bool) (instance : option MysqlProtocol).

Lemma remaining_step {B} (k : bytes -> conn B) data c b Q : buf_ok b -> pending b = data -> (forall b', runs (k data) (with_pkt_buf b' c) Q) ->
  runs (on_buf read_remaining_bytes ≫= k) (with_pkt_buf b c) Q.
Proof using.
  intros Hb <- Hk. apply runs_bind, runs_on_buf. eapply runs_mono; [exact (read_remaining_ok b Hb)|]. intros x b' [-> _]. apply Hk.
Qed.

Lemma dump_at_ok flags server_id file pos c b : Forall field_ok [U4 pos; U2 flags; U4 server_id; Fixed file] -> buf_ok b ->
  pending b = encode_all [U4 pos; U2 flags; U4 server_id; Fixed file] ->
  runs (binlog_dump_process alloc binlog_heartbeat_interval_us master_heartbeat_period true) (with_pkt_buf b c)
    (fun x c' => x = (BINLOG_DUMP, Some (new_dumper false [] flags file pos, heartbeat_period binlog_heartbeat_interval_us master_heartbeat_period)) /\ exists b', c' = with_pkt_buf b' c).
Proof using.
  intros Hf Hb Hp. repeat match goal with H : Forall _ (_ :: _) |- _ => let H1 := fresh "F" in apply Forall_cons in H as [H1 H] end. cbn [field_ok] in *. rewrite !encode_all_cons in Hp. cbn [encode] in Hp. unfold encode_all in Hp. cbn [fmap list_fmap mjoin list_join] in Hp. rewrite app_nil_r in Hp.
  unfold binlog_dump_process. int_step 4%nat pos b1 Hb1 Hp. int_step 2%nat flags b2 Hb2 Hp.
  int_step 4%nat server_id b3 Hb3 Hp. eapply remaining_step; [done|exact Hp|]. intros b4. apply runs_ret. split; [done|by eexists].
Qed.

Lemma dump_gtid_ok flags server_id file pos size sids c b :
  let fs := [U2 flags; U4 server_id; U4 (zlen file); Fixed file; U8 pos; U4 size; U8 (zlen sids)] ++ mjoin (sid_fields <$> sids) in
  Forall field_ok fs -> Forall (sid_ok memory) sids -> zlen sids <= memory -> buf_ok b -> pending b = encode_all fs ->
  runs (binlog_dump_gtid_process alloc memory binlog_heartbeat_interval_us master_heartbeat_period true) (with_pkt_buf b c)
    (fun x c' => x = (BINLOG_DUMP, Some (new_dumper true (excluded_by sids) flags file pos, heartbeat_period binlog_heartbeat_interval_us master_heartbeat_period)) /\ exists b', c' = with_pkt_buf b' c).
Proof using.
  intros fs Hf Hs Hm Hb Hp. unfold fs in Hf, Hp. cbn [app] in Hf, Hp. repeat match goal with H : Forall _ (_ :: _) |- _ => let H1 := fresh "F" in apply Forall_cons in H as [H1 H] end. cbn [field_ok] in *. rewrite !encode_all_cons in Hp. cbn [encode] in Hp.
  unfold binlog_dump_gtid_process. int_step 2%nat flags b1 Hb1 Hp. int_step 4%nat server_id b2 Hb2 Hp.
  int_step 4%nat (zlen file) b3 Hb3 Hp. eapply on_buf_step; [by apply read_text_takes|done|exact Hp|]. clear Hp. intros b4 Hb4 Hp.
  int_step 8%nat pos b5 Hb5 Hp. int_step 4%nat size b6 Hb6 Hp.
  int_step 8%nat (zlen sids) b7 Hb7 Hp. cbv iota. rewrite (proj2 (Z.ltb_ge _ _)) by done. replace (Z.to_nat (zlen sids)) with (length sids) by (unfold zlen; lia).
  eapply on_buf_step; [by apply read_sids_takes|done|rewrite app_nil_r; exact Hp|]. intros b8 _ _. apply runs_ret. split; [done|by eexists].
Qed.

Lemma do_cmd_dump r c rest : request_ok memory r -> calm (sock_in c) -> incoming_bytes (sock_in c) = wire_of 0 (request_payload r) ++ rest -> buf_ok (pkt_buf_ c) -> zlen (request_payload r) <= max_capacity_ (pkt_buf_ c) -> _conn_type c = OBI ->
  runs (do_cmd alloc memory binlog_heartbeat_interval_us master_heartbeat_period true parse sql_cmd_processor enable_instance_proxy instance) c
    (fun x c' => x = (Some (BINLOG_DUMP, Some (asked_dumper r, heartbeat_period binlog_heartbeat_interval_us master_heartbeat_period)), None) /\ sock_out c' = sock_out c /\ incoming_bytes (sock_in c') = rest).
Proof using alloc_len.
  intros [Hf Hr] Hc Hin Hb Hz Ht. unfold do_cmd. apply runs_bind. unfold reset_seq_no, runs at 1. apply runs_bind.
  eapply runs_mono; [exact (read_data_packet_ok alloc alloc_len (request_payload r) rest (with_seq_no 0 c) Hc Hin ltac:(done) Hb Hz)|]. intros x c1 (-> & Hb1 & Hp1 & Hrec). rewrite decide_True by done.
  assert (_conn_type c1 = OBI) as Ht1 by (rewrite <-Ht; pose proof (re_same _ _ _ _ _ Hrec) as E; unfold self_of in E; cbn in E; congruence). apply runs_get_conn. rewrite Ht1, (bool_decide_eq_false_2 (OBI = OBM)) by done. rewrite andb_false_r. cbn [andb].
  assert (sock_out c1 = sock_out c /\ incoming_bytes (sock_in c1) = rest) as [Ho Hi] by (destruct Hrec as [_ ? _ _ [? _] _]; done). clear Hrec Hin Hz.
  assert (exists b, c1 = with_pkt_buf b c1 /\ buf_ok b /\ pending b = request_payload r) as (b & -> & Hbb & Hpb) by (exists (pkt_buf_ c1); by destruct c1). cbn [sock_out sock_in with_pkt_buf] in Ho, Hi.
  destruct r as [flags server_id file pos|flags server_id file pos size sids]; unfold request_payload in Hpb; cbn [request_fields app] in Hf, Hpb; rewrite encode_all_cons in Hpb; apply Forall_cons in Hf as [_ Hf]; cbn [encode] in Hpb.
  - int_step 1%nat com_binlog_dump b' Hb' Hpb. change (cmd_processor OBI com_binlog_dump) with (Some BinlogDumpCmd). cbv iota. apply runs_bind. cbn [process].
    eapply runs_mono; [exact (dump_at_ok flags server_id file pos _ b' Hf Hb' Hpb)|]. intros x c2 [-> [b2 ->]]. by apply runs_ret.
  - destruct Hr as [Hs Hm]. int_step 1%nat com_binlog_dump_gtid b' Hb' Hpb. change (cmd_processor OBI com_binlog_dump_gtid) with (Some BinlogDumpGtidCmd). cbv iota. apply runs_bind. cbn [process].
    eapply runs_mono; [exact (dump_gtid_ok flags server_id file pos size sids _ b' Hf Hs Hm Hb' Hpb)|]. intros x c2 [-> [b2 ->]]. by apply runs_ret.
Qed.
End Requests.

(** The dumper of a request has sent nothing, and has a UUID for every set it excludes. *)
Lemma excluded_by_uuids sids : Forall (fun e : bytes * GtidMessage => is_Some (gtid_uuid e.2)) (excluded_by sids).
Proof.
  unfold excluded_by. assert (forall k (m : GtidMessage) l, is_Some (gtid_uuid m) -> Forall (fun e : bytes * GtidMessage => is_Some (gtid_uuid e.2)) l -> Forall (fun e : bytes * GtidMessage => is_Some (gtid_uuid e.2)) (omap_emplace k m l)) as He.
  { intros k m l Hm. induction 1 as [|[k' m'] l Hk' Hl IH]; cbn [omap_emplace]; [by apply Forall_singleton|]. destruct (bytes_ltb k k'); [by repeat constructor|]. destruct (beq k k'); by constructor. }
  generalize (Forall_nil_2 (fun e : bytes * GtidMessage => is_Some (gtid_uuid e.2))). generalize (@nil (bytes * GtidMessage)). induction sids as [|x l IH]; intros g Hg; [done|]. apply IH, He; [by eexists|done].
Qed.
Lemma asked_uuids r : Forall (fun e : bytes * GtidMessage => is_Some (gtid_uuid e.2)) (asks_exclude r).
Proof. destruct r; [constructor|apply excluded_by_uuids]. Qed.
Lemma asked_fresh cfg crc32 log r : named cfg log (asked_dumper r) -> fresh cfg crc32 log (asks_gtid r) (asks_exclude r) (asks_flags r) (asked_dumper r).
Proof. intros Hn. split; [by split_and!|done|done|done]. Qed.

(** C8: A request to dump, as the protocol lays it out, is served: the server reads the file,
    the position and the GTIDs that the replica has as they were sent, in one packet or
    several and whatever the kernel splits, answers nothing, and starts a dumper that, in any
    world whose files hold parts of one log and get no shorter, sends nothing or a run of the
    abstract dump machine, with those GTIDs left out.  The run starts at the file and position asked for
    (a position where an event starts), without a file name at the first file of the index,
    and in GTID mode (position 4) at the first file when nothing is excluded, otherwise at
    the newest file whose previous GTIDs the code finds covered by the excluded ones (which
    can be one too late: [first_file_misses_transaction] in Stream). *)
Theorem dump_request_served alloc memory interval session {SQLStatement : Type} (parse : bytes -> option (list SQLStatement)) sql_cmd_processor proxy instance
    cfg crc32 u log env rows checksum scan_fuel fuel r c rest :
  (forall n, 0 <= n -> zlen (alloc n) = n) -> request_ok memory r -> calm (sock_in c) -> incoming_bytes (sock_in c) = wire_of 0 (request_payload r) ++ rest ->
  buf_ok (pkt_buf_ c) -> zlen (request_payload r) <= max_capacity_ (pkt_buf_ c) -> _conn_type c = OBI ->
  config_ok cfg u -> env_ok cfg crc32 log env rows -> named cfg log (asked_dumper r) -> (asks_gtid r = true -> asks_pos r = BINLOG_MAGIC_SIZE) -> (2 <= scan_fuel)%nat ->
  exists bd hb c',
    do_cmd alloc memory interval session true parse sql_cmd_processor proxy instance c = Done (Some (BINLOG_DUMP, Some (bd, hb)), None, c') /\
    sock_out c' = sock_out c /\ incoming_bytes (sock_in c') = rest /\
    let Q := refined cfg crc32 log (asks_gtid r) (asks_exclude r) (asks_flags r) env rows (asks_file r) (asks_pos r) in
    wp (run cfg crc32 hb session checksum env scan_fuel fuel) (fun _ => Q) Q bd.
Proof.
  intros Ha Hr Hc Hin Hb Hz Ht Hcfg Henv Hn Hg Hsf.
  destruct (proj1 (runs_done _ _ _) (do_cmd_dump alloc Ha memory interval session parse sql_cmd_processor proxy instance r c rest Hr Hc Hin Hb Hz Ht)) as (x & c' & E & -> & Ho & Hi).
  exists (asked_dumper r), (heartbeat_period interval session), c'. do 3 (split; [done|]). intros Q.
  exact (run_refines cfg crc32 log (asks_gtid r) (asks_exclude r) (asks_flags r) (asked_uuids r) u Hcfg _ session checksum env rows Henv scan_fuel fuel (asked_dumper r) (asked_fresh _ _ _ _ Hn) Hg Hsf).
Qed.

(** ** A request that is cut short *)

Lemma bind_crash {S A B} (m : stateful S A) (k : A -> stateful S B) s : m s = Crash -> (m ≫= k) s = Crash.
Proof. unfold mbind, stateful_bind. by intros ->. Qed.
Lemma on_buf_crash {A B} (m : pbuf A) (k : A -> conn B) data x rest c b : takes m data x -> buf_ok b -> pending b = data ++ rest ->
  (forall b', buf_ok b' -> pending b' = rest -> k x (with_pkt_buf b' c) = Crash) -> (on_buf m ≫= k) (with_pkt_buf b c) = Crash.
Proof.
  intros Hm Hb Hp Hk. destruct (proj1 (runs_done _ _ _) (Hm b rest Hb Hp)) as (y & b' & E & -> & C). unfold mbind, stateful_bind, on_buf. cbn [pkt_buf_ with_pkt_buf]. rewrite E. apply Hk; [by destruct C|].
  destruct C as [_ E' _ _]. rewrite E' in Hp. by apply app_inv_head in Hp.
Qed.
Ltac int_crash n v b Hb Hp := eapply (on_buf_crash _ _ (le_split n v) v); [by apply (read_int_takes n)|done|exact Hp|]; clear Hp; intros b Hb Hp.

(** The bytes of a UUID are not there: the pointer that is copied from is null. *)
Lemma read_sids_crash memory n gtids s : buf_ok s -> zlen (pending s) < SERVER_UUID_LEN -> read_sids memory (S n) None gtids s = Crash.
Proof.
  intros Hs Hz. cbn [read_sids]. unfold mbind at 1, stateful_bind at 1, read_bytes, read_n. change (u32 SERVER_UUID_LEN) with SERVER_UUID_LEN.
  destruct (proj1 (runs_done _ _ _) (ensure_readable_ok SERVER_UUID_LEN s Hs)) as (ok & s1 & E & _ & ->). unfold mbind at 1, stateful_bind at 1. rewrite E, bool_decide_eq_false_2 by lia. done.
Qed.

(** A dump request for GTIDs that announces a UUID and ends before it makes the server
    crash: the read that fails leaves the null pointer that is then copied from. *)
Theorem short_gtid_request_crashes alloc memory interval session {SQLStatement : Type} (parse : bytes -> option (list SQLStatement)) sql_cmd_processor proxy instance
    flags server_id file pos size n tail c rest :
  let payload := encode_all [U1 com_binlog_dump_gtid; U2 flags; U4 server_id; U4 (zlen file); Fixed file; U8 pos; U4 size; U8 n] ++ tail in
  (forall k, 0 <= k -> zlen (alloc k) = k) -> Forall field_ok [U2 flags; U4 server_id; U4 (zlen file); Fixed file; U8 pos; U4 size; U8 n] -> 0 < n <= memory -> zlen tail < SERVER_UUID_LEN ->
  calm (sock_in c) -> incoming_bytes (sock_in c) = wire_of 0 payload ++ rest -> buf_ok (pkt_buf_ c) -> zlen payload <= max_capacity_ (pkt_buf_ c) -> _conn_type c = OBI ->
  do_cmd alloc memory interval session true parse sql_cmd_processor proxy instance c = Crash.
Proof.
  intros payload Ha Hf Hn Htl Hc Hin Hb Hz Ht. unfold do_cmd, reset_seq_no. unfold mbind at 1, stateful_bind at 1.
  destruct (proj1 (runs_done _ _ _) (read_data_packet_ok alloc Ha payload rest (with_seq_no 0 c) Hc Hin ltac:(done) Hb Hz)) as (x & c1 & E & -> & Hb1 & Hp1 & Hrec). unfold mbind at 1, stateful_bind at 1. rewrite E. rewrite decide_True by done.
  assert (_conn_type c1 = OBI) as Ht1 by (rewrite <-Ht; pose proof (re_same _ _ _ _ _ Hrec) as E'; unfold self_of in E'; cbn in E'; congruence). unfold mbind at 1, stateful_bind at 1, get_conn at 1. rewrite Ht1, (bool_decide_eq_false_2 (OBI = OBM)) by done. rewrite andb_false_r. cbn [andb].
  clear Hrec E. assert (exists b, c1 = with_pkt_buf b c1 /\ buf_ok b /\ pending b = payload) as (b & -> & Hbb & Hpb) by (exists (pkt_buf_ c1); by destruct c1).
  unfold payload in Hpb. rewrite !encode_all_cons, <-!app_assoc in Hpb. cbn [encode] in Hpb. repeat match goal with H : Forall _ (_ :: _) |- _ => let H1 := fresh "F" in apply Forall_cons in H as [H1 H] end. cbn [field_ok] in *.
  int_crash 1%nat com_binlog_dump_gtid b0 Hb0 Hpb. change (cmd_processor OBI com_binlog_dump_gtid) with (Some BinlogDumpGtidCmd). cbn [process]. apply bind_crash. unfold binlog_dump_gtid_process.
  int_crash 2%nat flags b1 Hb1' Hpb. int_crash 4%nat server_id b2 Hb2 Hpb. int_crash 4%nat (zlen file) b3 Hb3 Hpb. eapply on_buf_crash; [by apply read_text_takes|done|exact Hpb|]. clear Hpb. intros b4 Hb4 Hpb.
  int_crash 8%nat pos b5 Hb5 Hpb. int_crash 4%nat size b6 Hb6 Hpb. int_crash 8%nat n b7 Hb7 Hpb. rewrite (proj2 (Z.ltb_ge _ _)) by lia. destruct (Z.to_nat n) as [|k] eqn:Ek; [lia|].
  apply bind_crash. unfold on_buf. cbn [pkt_buf_ with_pkt_buf]. rewrite read_sids_crash; [done|done|]. rewrite Hpb. done.
Qed.

(** ** Requests that are forwarded *)

(** A packet that the loop goes on after, and one that ends it. *)
Definition small (p : bytes) : Prop := zlen p < mysql_pkt_max_length.
Definition starts_with (P : Z -> Prop) (p : bytes) : Prop := exists b l, p = b :: l /\ P b.

Lemma packets_left_enough k seq ps rest : incoming_bytes (cl_in k) = wires seq ps ++ rest -> (length ps < packets_left k)%nat.
Proof.
  intros E. unfold packets_left. rewrite E, zlen_app. pose proof (zlen_wires ps seq). pose proof (zlen_nonneg rest). apply Nat.lt_succ_r.
  assert (zlen ps <= (zlen (wires seq ps) + zlen rest) / 4) as H' by (apply Z.div_le_lower_bound; lia). unfold zlen in H' at 1. lia.
Qed.

Lemma route_until_ok stop p qs rest ps : forall seq acc fuel k, client_ready k -> Forall (fun p => small p /\ starts_with (fun b => stop b = false) p) ps -> small p -> starts_with (fun b => stop b = true) p ->
  (length ps < fuel)%nat -> incoming_bytes (cl_in k) = wires seq (ps ++ p :: qs) ++ rest ->
  runs (route_until stop fuel acc) k (fun x k' => x = Some (OMS_OK, acc ++ ps ++ [p]) /\ exists seq', talked (wires seq' qs ++ rest) [] k k').
Proof.
  induction ps as [|q ps IH]; intros seq acc [|fuel] k Hk Hps Hp (b & l & Eb & Hb) Hf Hin; cbn [length] in Hf; try lia; cbn [route_until app] in *; apply runs_bind.
  - eapply runs_mono; [exact (recv_wires _ _ _ _ k Hk Hp Hin)|]. intros x k1 [-> T1]. apply runs_bind. rewrite Eb. apply runs_ret. rewrite Hb. apply runs_ret. split; [done|by eexists].
  - apply Forall_cons in Hps as [[Hq (b' & l' & Eq & Hb')] Hps]. eapply runs_mono; [exact (recv_wires _ _ _ _ k Hk Hq Hin)|]. intros x k1 [-> T1]. apply runs_bind. rewrite Eq. apply runs_ret. rewrite Hb'.
    eapply runs_mono; [apply (IH (seq + 1) (acc ++ [b' :: l']) fuel k1 (tk_ready _ _ _ _ T1) Hps Hp); [by exists b, l|lia|exact (tk_rest _ _ _ _ T1)]|].
    intros x k2 [-> [seq' T2]]. split; [by rewrite <-app_assoc|]. exists seq'. exact (talked_trans _ _ [] [] k k1 k2 T1 T2).
Qed.

Lemma eof_small caps : small (encode_all (eof_fields eof caps)) /\ starts_with (fun b => b = 254) (encode_all (eof_fields eof caps)).
Proof. unfold eof_fields, small, starts_with. destruct (has_capability _ _); split; try by_compute; by eexists _, _. Qed.

Lemma row_first_byte_err limit hi n row : row_ok limit hi n row -> (0 < n)%nat -> starts_with (fun b => (b =? 0xfe) || (b =? 0xff) = false) (row_payload row).
Proof.
  intros Hrow Hn. destruct (row_first_byte limit hi n row Hrow Hn) as (b & l & E & Hb). exists b, l. split; [done|]. rewrite (proj2 (Z.eqb_neq b 254)) by done. apply Z.eqb_neq. intros ->.
  destruct Hrow as [_ _ _ Hl]. destruct row as [|x row]; [cbn in Hl; lia|]. unfold row_payload in E. cbn [fmap list_fmap] in E. rewrite encode_all_cons in E.
  assert (forall t r : bytes, encode (LenencStr t) ++ r = 255 :: l -> False) as Ht.
  { intros t r. cbn [encode]. unfold lenenc. pose proof (zlen_nonneg t). destruct (Z.ltb_spec (zlen t) 251); [cbn; intros [= E1 _]; lia|]. by repeat destruct (_ <? _). }
  destruct x; cbn [cell_field] in E; first [by apply Ht in E|done].
Qed.

(** An answer, packet by packet: OK or an error; or a result set, that is the number of
    columns, the columns, a marker, the rows, and a marker or an error. *)
Inductive instance_answer : list bytes -> Prop :=
| An_one p : small p -> starts_with (fun b => b = 0x00 \/ b = 0xff) p -> instance_answer [p]
| An_set n cols e rows e' :
    Forall small (n :: cols ++ e :: rows ++ [e']) ->
    starts_with (fun b => (b =? 0xff) || (b =? 0xfb) || (b =? 0x00) = false) n ->
    Forall (starts_with (fun b => (b =? 0xfe) = false)) cols -> starts_with (fun b => (b =? 0xfe) = true) e ->
    Forall (starts_with (fun b => (b =? 0xfe) || (b =? 0xff) = false)) rows -> starts_with (fun b => (b =? 0xfe) || (b =? 0xff) = true) e' ->
    instance_answer (n :: cols ++ e :: rows ++ [e']).

Lemma answer_small ps : instance_answer ps -> Forall small ps.
Proof. destruct 1; [by apply Forall_singleton|done]. Qed.

Lemma result_answer limit caps lo hi cols rows : 0 < zlen cols < 2 ^ 16 -> Forall (column_ok limit caps lo hi) cols -> Forall (row_ok limit hi (length cols)) rows ->
  instance_answer (result_payloads caps cols rows).
Proof.
  intros Hn Hc Hw. destruct (eof_small caps) as [He1 (b' & l' & He2 & ->)].
  assert (small (lenenc (zlen cols))) as Hz by (unfold small; rewrite zlen_lenenc; unfold encoded_bytes_length; by repeat destruct (_ <? _)).
  assert (exists b l, lenenc (zlen cols) = b :: l /\ b <> 255 /\ b <> 251 /\ b <> 0) as (b & l & Eb & Hb1 & Hb2 & Hb3).
  { unfold lenenc. destruct (Z.ltb_spec (zlen cols) 251); [eexists _, _; split; [done|lia]|]. rewrite (proj2 (Z.ltb_lt _ _)) by lia. by eexists _, _. }
  unfold result_payloads. set (e := encode_all (eof_fields eof caps)) in *. change ([lenenc (zlen cols)] ++ ?l) with (lenenc (zlen cols) :: l).
  cbn [app]. apply An_set.
  - apply Forall_cons. split; [done|]. apply Forall_app. split; [apply Forall_fmap; eapply Forall_impl; [exact Hc|]; by intros p []|].
    apply Forall_cons. split; [done|]. apply Forall_app. split; [apply Forall_fmap; eapply Forall_impl; [exact Hw|]; by intros row []|by apply Forall_singleton].
  - exists b, l. split; [done|]. by rewrite (proj2 (Z.eqb_neq b 255)), (proj2 (Z.eqb_neq b 251)), (proj2 (Z.eqb_neq b 0)).
  - apply Forall_fmap. eapply Forall_impl; [exact Hc|]. intros p _. unfold compose, starts_with, column_fields. rewrite encode_all_cons. by eexists _, _.
  - by exists 254, l'.
  - apply Forall_fmap. eapply Forall_impl; [exact Hw|]. intros row Hrow. apply (row_first_byte_err _ _ _ _ Hrow). unfold zlen in Hn. lia.
  - by exists 254, l'.
Qed.

(** The request goes to the instance in one packet, and its answer is taken packet by packet. *)
Lemma route_query_ok ps req seq rest k : client_ready k -> zlen req < 2 ^ 24 -> instance_answer ps -> incoming_bytes (cl_in k) = wires seq ps ++ rest ->
  runs (route_query [req]) k (fun x k' => x = Some (OMS_OK, ps) /\ cl_out k' = cl_out k ++ frame 0 req).
Proof.
  intros Hk Hreq Hps Hin. unfold route_query. apply runs_bind. pose proof (client_send_ok [req] 0 k Hk) as H1. rewrite join_cons, app_nil_r in H1. eapply runs_mono; [apply H1; [done|by_compute]|]. clear H1. intros x k1 [-> T1].
  rewrite bool_decide_eq_true_2 by done. cbn [negb]. apply runs_bind. rewrite Hin in T1.
  destruct Hps as [p Hp (b & l & -> & Hb)|n cols e rows e' Hs (b & l & -> & Hb) Hc He Hr He'].
  { eapply runs_mono; [exact (recv_wires _ _ _ _ k1 (tk_ready _ _ _ _ T1) Hp (tk_rest _ _ _ _ T1))|]. intros x k2 [-> T2]. apply runs_bind, runs_ret.
    assert ((b =? 255) || (b =? 251) || (b =? 0) = true) as -> by (destruct Hb as [->| ->]; done). apply runs_ret. split; [done|]. rewrite (tk_out _ _ _ _ T2), app_nil_r. exact (tk_out _ _ _ _ T1). }
  apply Forall_cons in Hs as [Hn Hs]. apply Forall_app in Hs as [Hsc Hs]. apply Forall_cons in Hs as [Hse Hs]. apply Forall_app in Hs as [Hsr Hse']. rewrite Forall_singleton in Hse'.
  eapply runs_mono; [exact (recv_wires _ _ _ _ k1 (tk_ready _ _ _ _ T1) Hn (tk_rest _ _ _ _ T1))|]. intros x k2 [-> T2]. apply runs_bind, runs_ret. rewrite Hb.
  apply runs_bind. unfold get_client, runs at 1. apply runs_bind. pose proof (tk_rest _ _ _ _ T2) as R2.
  eapply runs_mono; [apply (route_until_ok (fun c => c =? 254) e (rows ++ [e']) rest cols (seq + 1) [b :: l] _ k2 (tk_ready _ _ _ _ T2)); [|exact Hse|exact He| |exact R2]|].
  - apply Forall_forall. intros p Hp. rewrite Forall_forall in Hsc, Hc. split; [by apply Hsc|by apply Hc].
  - pose proof (packets_left_enough _ _ _ _ R2) as Hpl. rewrite length_app in Hpl. lia.
  - intros x k3 [-> [seq' T3]]. cbv iota. apply runs_bind. unfold get_client, runs at 1. pose proof (tk_rest _ _ _ _ T3) as R3.
    eapply runs_mono; [apply (route_until_ok _ e' [] rest rows seq' _ _ k3 (tk_ready _ _ _ _ T3)); [|exact Hse'|exact He'| |exact R3]|].
    + apply Forall_forall. intros p Hp. rewrite Forall_forall in Hsr, Hr. split; [by apply Hsr|by apply Hr].
    + pose proof (packets_left_enough _ _ _ _ R3) as Hpl. rewrite length_app in Hpl. cbn [length] in Hpl. lia.
    + intros x k4 [-> [seq'' T4]]. split; [cbn [app]; by rewrite <-!app_assoc|].
      rewrite (tk_out _ _ _ _ T4), (tk_out _ _ _ _ T3), (tk_out _ _ _ _ T2), !app_nil_r. exact (tk_out _ _ _ _ T1).
Qed.

Lemma send_chunks_ok ps : forall c, calm_writes (sock_writes c) -> Forall small ps -> runs (send_chunks ps) c (fun r c' => r = SUCCESS /\ sock_out c' = sock_out c ++ wires (seq_no_ c) ps).
Proof.
  induction ps as [|p ps IH]; intros c Hw Hs; cbn [send_chunks]; [apply runs_ret; by rewrite app_nil_r|]. apply Forall_cons in Hs as [Hp Hs]. apply runs_bind.
  eapply runs_mono; [apply (Connection.send_mysql_packet_ok p c Hw); unfold small in Hp; lia|]. intros r c1 (-> & [S1 S2 S3 _] & _). rewrite decide_True by done. eapply runs_mono; [by apply IH|].
  intros r c2 [-> E2]. split; [done|]. rewrite E2, S1, <-app_assoc. f_equal. cbn [wires]. destruct (single_frame p Hp (seq_no_ c)) as [-> ->]. f_equal. apply wires_seq. rewrite S3. change (Z.of_nat 0 + 1) with 1. unfold u8. by rewrite Z.mod_mod.
Qed.

(** C16: The manager is transparent for the users of an instance: the instance receives the
    request exactly as the user sent it, in one packet, and the user receives exactly the
    packets of the instance's answer, numbered from 1 on; be the answer OK, an error, or a
    result set that ends with its marker or with an error. *)
Theorem proxy_transparent alloc memory interval session can_add {SQLStatement : Type} (parse : bytes -> option (list SQLStatement)) sql_cmd_processor
    req ps seq rest_i rest c ki :
  (forall n, 0 <= n -> zlen (alloc n) = n) -> ready c -> calm (sock_in c) -> _conn_type c = OBM -> _is_admin c = false ->
  incoming_bytes (sock_in c) = wire_of 0 req ++ rest -> zlen req < 2 ^ 24 - 1 -> zlen req <= max_capacity_ (pkt_buf_ c) ->
  client_ready ki -> incoming_bytes (cl_in ki) = wires seq ps ++ rest_i -> instance_answer ps ->
  exists c' ki', do_cmd alloc memory interval session can_add parse sql_cmd_processor true (Some ki) c = Done (Some (SUCCESS, None), Some ki', c') /\
    cl_out ki' = cl_out ki ++ frame 0 req /\ sock_out c' = sock_out c ++ wires 1 ps.
Proof.
  intros Ha [Hwr Hb] Hc Ht Had Hin Hreq Hmax Hki Hini Hps.
  assert (small req) as Hsm by (unfold small; change mysql_pkt_max_length with 16777215; lia).
  assert (runs (do_cmd alloc memory interval session can_add parse sql_cmd_processor true (Some ki)) c
    (fun x c' => (x.1 = Some (SUCCESS, None) /\ exists ki', x.2 = Some ki' /\ cl_out ki' = cl_out ki ++ frame 0 req) /\ sock_out c' = sock_out c ++ wires 1 ps)) as Hrun.
  { unfold do_cmd. apply runs_bind. unfold reset_seq_no, runs at 1. apply runs_bind. eapply runs_mono; [exact (read_data_packet_ok alloc Ha req rest (with_seq_no 0 c) Hc Hin ltac:(done) Hb ltac:(cbn [pkt_buf_ with_seq_no]; lia))|].
    intros x c1 (-> & Hb1 & Hp1 & [_ _ Hap Hsq [Ho Hws] Hse]). rewrite decide_True by done. apply runs_get_conn. cbn in Hsq, Ho, Hws, Hap.
    assert (_conn_type c1 = OBM /\ _is_admin c1 = false) as [-> ->] by (unfold self_of in Hse; cbn in Hse; split; congruence). rewrite bool_decide_eq_true_2 by done. cbn [andb negb]. apply runs_bind. unfold instance_proxy_process. apply runs_get_conn.
    assert (first (readable_bytes (pkt_buf_ c1)) (buf_ (pkt_buf_ c1)) = req) as ->.
    { rewrite readable_pending by done. destruct (buf_split _ Hb1) as (pre & post & Eb & Hpre & _ & _). pose proof (ap_read _ _ _ Hap) as Er. cbn in Er. rewrite Er in Hpre. apply zlen_0_nil in Hpre as ->. cbn [app] in Eb. rewrite Eb, first_app by done. done. }
    pose proof (route_query_ok ps req seq rest_i ki Hki ltac:(lia) Hps Hini) as Hrt. unfold runs in Hrt. destruct (route_query [req] ki) as [[x ki']|]; [|done]. destruct Hrt as [-> Hout]. apply runs_bind.
    eapply runs_mono; [apply (send_chunks_ok _ c1); [by rewrite Hws|by apply answer_small]|]. intros r c2 [-> E2]. do 2 apply runs_ret. cbn [fst snd fmap option_fmap option_map]. split; [split; [done|by exists ki']|]. rewrite E2, Ho. f_equal. rewrite Hsq. destruct (single_frame req Hsm 0) as [_ ->]. done. }
  apply runs_done in Hrun as ([x y] & c' & E & (Ex & ki' & Ey & Hout) & Ho). cbn [fst snd] in Ex, Ey. subst x y. by exists c', ki'.
Qed.

(** ** Concrete instances *)

(** A replica that has the transactions 1 to 10. *)
Definition m_request : dump_request := DumpGtid 0 7 [] 4 40 [(sample_uuid, [(1, 11)])].
Definition m_conn (payload : bytes) : Connection := l_conn (l_pieces (wire_of 0 payload)).
Lemma m_calm payload : 9 < zlen (wire_of 0 payload) -> calm (sock_in (m_conn payload)).
Proof.
  intros H. unfold m_conn. cbn [sock_in l_conn l_pieces]. repeat (apply Forall_cons; split; [|]); [|done| |by apply Forall_nil]; intros E; apply (f_equal zlen) in E; change (zlen []) with 0 in E.
  - rewrite zlen_first in E; lia.
  - rewrite zlen_skip in E; lia.
Qed.
Definition m_parse (s : bytes) : option (list unit) := None.
Definition m_sql (t : ConnectionType) (s : unit) : option (conn IoResult) := None.

Lemma dump_request_served_witness :
  exists bd hb c',
    do_cmd zeroed 100 1000000 [] true m_parse m_sql false None (m_conn (request_payload m_request)) = Done (Some (BINLOG_DUMP, Some (bd, hb)), None, c') /\
    sock_out c' = [] /\ incoming_bytes (sock_in c') = [] /\
    let Q := refined s_cfg sample_crc (fun _ => s_log) true (s_exclude 1 11) 0 s_turning s_turning_rows [] 4 in
    wp (run s_cfg sample_crc hb [] [] s_turning 2 8) (fun _ => Q) Q bd.
Proof.
  apply (dump_request_served zeroed 100 1000000 [] m_parse m_sql false None s_cfg sample_crc sample_uuid (fun _ => s_log) s_turning s_turning_rows [] 2 8 m_request (m_conn (request_payload m_request)) [] zeroed_len).
  - by_compute.
  - apply m_calm. by_compute.
  - vm_compute. reflexivity.
  - by_compute.
  - by_compute.
  - done.
  - exact sample_config_ok.
  - exact s_turning_ok.
  - by left.
  - done.
  - lia.
Defined.

Lemma short_gtid_request_crashes_witness :
  do_cmd zeroed 100 1000000 [] true m_parse m_sql false None
    (m_conn (encode_all [U1 com_binlog_dump_gtid; U2 0; U4 7; U4 (zlen (str "mysql-bin.000001")); Fixed (str "mysql-bin.000001"); U8 4; U4 8; U8 1] ++ [1; 2; 3])) = Crash.
Proof.
  apply (short_gtid_request_crashes zeroed 100 1000000 [] m_parse m_sql false None 0 7 (str "mysql-bin.000001") 4 8 1 [1; 2; 3]
    (m_conn (encode_all [U1 com_binlog_dump_gtid; U2 0; U4 7; U4 (zlen (str "mysql-bin.000001")); Fixed (str "mysql-bin.000001"); U8 4; U4 8; U8 1] ++ [1; 2; 3])) [] zeroed_len).
  - by_compute.
  - by_compute.
  - by_compute.
  - apply m_calm. by_compute.
  - vm_compute. reflexivity.
  - by_compute.
  - by_compute.
  - done.
Defined.

(** The manager, a user of an instance, and the instance with a result set. *)
Definition m_manager (payload : bytes) : Connection :=
  mkConnection (l_pieces (wire_of 0 payload)) [] [W_data 5; W_again] (new_packet_buf zeroed 1024 (2 ^ 20)) 0 ob_binlog_server_capabilities 7 OBM false false (str "i1") [] [] [] [] [] [] (mkAuthInfo [] [] [] false) [] 0 NOT_KILLED.
Definition m_wires : bytes := Eval vm_compute in wires 1 (result_payloads ob_binlog_server_capabilities r_cols r_rows).
Definition m_instance : MysqlProtocol := r_client (l_pieces m_wires).
Lemma m_instance_ready : client_ready m_instance.
Proof. split; [|by apply Forall_singleton|by apply Forall_singleton]. repeat (apply Forall_cons; split; [by vm_compute|]); by apply Forall_nil. Qed.

Lemma proxy_transparent_witness :
  exists c' ki', do_cmd zeroed 100 1000000 [] true m_parse m_sql true (Some m_instance) (m_manager (3 :: str "SHOW BINARY LOGS")) = Done (Some (SUCCESS, None), Some ki', c') /\
    cl_out ki' = cl_out m_instance ++ frame 0 (3 :: str "SHOW BINARY LOGS") /\
    sock_out c' = [] ++ wires 1 (result_payloads ob_binlog_server_capabilities r_cols r_rows).
Proof.
  apply (proxy_transparent zeroed 100 1000000 [] true m_parse m_sql (3 :: str "SHOW BINARY LOGS") (result_payloads ob_binlog_server_capabilities r_cols r_rows) 1 [] []
    (m_manager (3 :: str "SHOW BINARY LOGS")) m_instance zeroed_len).
  - split; [by repeat (apply Forall_cons; split; [done|]); apply Forall_nil|by_compute].
  - repeat (apply Forall_cons; split; [by vm_compute|]); by apply Forall_nil.
  - done.
  - done.
  - vm_compute. reflexivity.
  - by_compute.
  - by_compute.
  - exact m_instance_ready.
  - vm_compute. reflexivity.
  - apply (result_answer 64 ob_binlog_server_capabilities 1024 (2 ^ 20)); [by_compute|exact r_cols_ok|exact r_rows_ok].
Defined.

(** A request and its dump, evaluated. *)
Example m_dump_runs :
  match do_cmd zeroed 100 1000000 [] true m_parse m_sql false None (m_conn (request_payload m_request)) with
  | Done (Some (_, Some (bd, hb)), _, _) =>
      hb = 1000000 /\ bd_exclude_gtid bd = s_exclude 1 11 /\
      kinds (run s_cfg sample_crc hb [] [] s_turning 2 30 bd) = kinds (run s_cfg sample_crc hb [] [] s_turning 2 30 (s_dumper true (s_exclude 1 11) 0 [] 4))
  | _ => False
  end.
Proof. vm_compute. done. Qed.
