(* ===== verification/Selection.v ===== *)
(** * Choosing nodes and instances

    [src/src/binlog/selection_strategy.{h,cpp}]: the node a new instance is placed on, by a
    chain of filters over the nodes of the cluster; the instance that becomes the master of a
    tenant; the instance whose starting point a new one takes over.  Queries to the metadata
    database are parameters.  Floating-point arithmetic is that of IEEE 754 (the operations
    of the Standard Library's [SpecFloat]). *)

From Stdlib Require Import SpecFloat.
From S2P Require Import Prelude Bytes Str Decimal Floats PortPool.

#[local] Open Scope Z_scope.

(** ** Nodes and instances *)

(** The members of [SysMetric] that are read. *)
Record SysMetric := mkMetric {
  cpu_used_ratio : spec_float;
  mem_used_ratio : spec_float;
  disk_used_ratio : spec_float;
  mem_total_size_mb : Z;
  mem_used_size_mb : Z;
  disk_total_size_mb : Z;
  disk_used_size_mb : Z;
  network_rx_bytes : Z;
  network_wx_bytes : Z
}.
Record Node := mkNode { nd_id : bytes; nd_ip : bytes; nd_region : bytes; nd_zone : bytes; nd_group : bytes; nd_metric : SysMetric }.

Record SlotConfig := mkSlot { slot_ip : bytes; slot_zone : bytes; slot_region : bytes; slot_group : bytes }.
Record InstanceMeta := mkInstanceMeta {
  mt_slot_config : SlotConfig;
  memory_limit : bytes;
  binlog_expire_logs_size : Z;
  mt_expiration : Z;
  mt_start_timestamp : Z;
  mt_initial_ob_txn_id : bytes;
  mt_initial_ob_txn_gtid_seq : Z
}.

(** The members of [BinlogEntry] that are read here and in the modules built on this one; the
    states of an instance are those of [PortPool]. *)
Record BinlogEntry := mkEntry {
  en_node_id : bytes;
  en_ip : bytes;
  en_instance_name : bytes;
  en_cluster : bytes;
  en_tenant : bytes;
  en_cluster_id : bytes;
  en_tenant_id : bytes;
  en_state : InstanceState;
  en_config : InstanceMeta;
  en_heartbeat : Z;
  en_delay : Z;
  en_min_dump_checkpoint : Z
}.

Definition is_dropped (e : BinlogEntry) : bool := bool_decide (en_state e = S_DROP) || bool_decide (en_state e = S_LOGICAL_DROP).

Record selection_config := mkSelectionConfig {
  enable_resource_check : bool;
  node_cpu_limit_threshold_percent : Z;
  node_mem_limit_threshold_percent : Z;
  node_disk_limit_threshold_percent : Z;
  cpu_mem_disk_net_weighted : bytes
}.

(** [strcmp(a.c_str(), b.c_str()) == 0] *)
Definition same_text (a b : bytes) : bool := beq (cstr a) (cstr b).

(** ** Floating point *)

Definition float_of (v : Z) : spec_float := binary_normalize 24 128 v 0 false.
Definition double_of (v : Z) : spec_float := binary_normalize 53 1024 v 0 false.
(** [float] to [double], which is exact. *)
Definition widen (f : spec_float) : spec_float :=
  match f with S754_finite s m e => binary_normalize 53 1024 (if s then Zneg m else Zpos m) e s | _ => f end.
Abbreviation fadd := (SFadd 24 128).
Abbreviation fsub := (SFsub 24 128).
Abbreviation fmul := (SFmul 24 128).
Abbreviation fdiv := (SFdiv 24 128).
Definition fzero : spec_float := S754_zero false.

(** [percent * 0.01], in double precision. *)
Definition ratio_limit (percent : Z) : spec_float := SFmul 53 1024 (double_of percent) (round_ratio false 1 100).

(** ** Filters *)

(** The class [Filter]: result, nodes that remain, error message. *)
Record Filter := mkFilter {
  can_filter : InstanceMeta -> list Node -> bool;
  do_filter : InstanceMeta -> list Node -> bytes -> outcome (ret * list Node * bytes)
}.

(** The loop over the nodes of [IpFilter], [ZoneFilter], [GroupFilter] and of the region. *)
Definition keep_matching (what : bytes) (wanted : bytes) (attribute : Node -> bytes) (nodes : list Node) (err_msg : bytes) : ret * list Node * bytes :=
  let nodes := filter (fun n => same_text wanted (attribute n) = true) nodes in
  match nodes with
  | [] => (OMS_FAILED, [], str "Not matched any node with " ++ what ++ str ": " ++ wanted)
  | _ => (OMS_OK, nodes, err_msg)
  end.

Definition non_empty {A} (l : list A) : bool := match l with [] => false | _ => true end.
Definition several {A} (l : list A) : bool := match l with _ :: _ :: _ => true | _ => false end.

Section Selection.
Context (cfg : selection_config) (ndebug : bool).
(** [query_instances] for the tenant of the new instance; [None] is a failure. *)
Context (query_instances : option (list BinlogEntry)).
(** The number in [0,1) that the random engine draws. *)
Context (canonical : spec_float).

Definition slot_filter (what : bytes) (wanted : SlotConfig -> bytes) (attribute : Node -> bytes) : Filter := {|
  can_filter meta nodes := non_empty nodes && non_empty (wanted (mt_slot_config meta));
  do_filter meta nodes err_msg := Done (keep_matching what (wanted (mt_slot_config meta)) attribute nodes err_msg)
|}.
Definition IpFilter : Filter := slot_filter (str "ip") slot_ip nd_ip.
Definition ZoneFilter : Filter := slot_filter (str "zone") slot_zone nd_zone.
Definition GroupFilter : Filter := slot_filter (str "group") slot_group nd_group.

(** *** RegionFilter *)

Definition remove_instances_in_drop (entries : list BinlogEntry) : list BinlogEntry := filter (fun e => is_dropped e = false) entries.

(** The region of an address; [operator[]] gives the empty string for an unknown one. *)
Definition ip_region_mapping (nodes : list Node) : gmap bytes bytes := foldl (fun m n => <[nd_ip n := nd_region n]> m) ∅ nodes.

Definition spread (entries : list BinlogEntry) (nodes : list Node) : list Node :=
  let all_regions : gset bytes := list_to_set (nd_region <$> nodes) in
  let all_nodes : gset bytes := list_to_set (nd_id <$> nodes) in
  let mapping := ip_region_mapping nodes in
  let regions_for_existing_instances : gset bytes := list_to_set ((fun e => default [] (mapping !! en_ip e)) <$> entries) in
  let nodes_for_existing_instances : gset bytes := list_to_set (en_node_id <$> entries) in
  let available_regions := all_regions ∖ regions_for_existing_instances in
  if decide (available_regions <> ∅) then filter (fun n => nd_region n ∈ available_regions) nodes
  else if (size nodes_for_existing_instances <? size all_nodes)%nat then filter (fun n => nd_id n ∉ nodes_for_existing_instances) nodes
  else nodes.

Definition RegionFilter : Filter := {|
  can_filter _ nodes := several nodes;
  do_filter meta nodes err_msg :=
    let region := slot_region (mt_slot_config meta) in
    if non_empty region then Done (keep_matching (str "region") region nd_region nodes err_msg)
    else
      match query_instances with
      | None => Done (OMS_FAILED, nodes, err_msg)
      | Some entries =>
          let entries := remove_instances_in_drop entries in
          Done (OMS_OK, if non_empty entries then spread entries nodes else nodes, err_msg)
      end
|}.

(** *** ResourcesFilter *)

Definition meet_resource_needs (meta : InstanceMeta) (node : Node) : bool :=
  let m := nd_metric node in
  let meet_required_threshold :=
    SFltb (widen (cpu_used_ratio m)) (ratio_limit (node_cpu_limit_threshold_percent cfg)) &&
    SFltb (widen (mem_used_ratio m)) (ratio_limit (node_mem_limit_threshold_percent cfg)) &&
    SFltb (widen (disk_used_ratio m)) (ratio_limit (node_disk_limit_threshold_percent cfg)) in
  let memory_limit_gb := match memory_limit meta with [] => 20 | s => u32 (atoi (first (zlen s - 1) s)) end in
  let available_memory_gb := u32 (u64 (mem_total_size_mb m - mem_used_size_mb m) `div` 1024) in
  let binlog_size_gb := ((binlog_expire_logs_size meta `div` 1024) `div` 1024) `div` 1024 in
  let available_disk_gb := u64 (disk_total_size_mb m - disk_used_size_mb m) `div` 1024 in
  meet_required_threshold && (memory_limit_gb <=? available_memory_gb) && (binlog_size_gb <=? available_disk_gb).

Definition ResourcesFilter : Filter := {|
  can_filter _ nodes := non_empty nodes && enable_resource_check cfg;
  do_filter meta nodes err_msg :=
    match filter (fun n => meet_resource_needs meta n = true) nodes with
    | [] => Done (OMS_FAILED, [], str "Node resources are insufficient")
    | nodes => Done (OMS_OK, nodes, err_msg)
    end
|}.

(** *** WeightedRandomFilter *)

(** The vector is created with four elements, and the configured weights are put behind
    them. *)
Definition weights : list spec_float := replicate 4 fzero ++ ((fun w => float_of (atoi w)) <$> split (cpu_mem_disk_net_weighted cfg) 58 false).

Definition weight (i : nat) : spec_float := nth i weights fzero.
Definition net_kb (m : SysMetric) : spec_float := to_float (SFdiv 53 1024 (double_of (u64 (network_rx_bytes m + network_wx_bytes m))) (double_of 1024)).
Definition own_weight (m : SysMetric) : spec_float :=
  fadd (fadd (fmul (weight 0) (fsub (float_of 1) (cpu_used_ratio m))) (fmul (weight 1) (fsub (float_of 1) (mem_used_ratio m))))
    (fmul (weight 2) (fsub (float_of 1) (disk_used_ratio m))).

(** The first loop: weights, net traffic, and its total. *)
Definition measure (nodes : list Node) : list (bytes * spec_float) * list (bytes * spec_float) * spec_float :=
  foldl (fun '(weighted, net, total) n =>
      let kb := net_kb (nd_metric n) in
      (omap_set (nd_id n) (own_weight (nd_metric n)) weighted, omap_set (nd_id n) kb net, fadd total kb))
    ([], [], fzero) nodes.

(** The second loop, in the order of the map: final weights and their total. *)
Definition net_share (net : list (bytes * spec_float)) (total_net_kb : spec_float) (e : bytes * spec_float) : bytes * spec_float :=
  (e.1, fadd e.2 (fmul (weight 3) (fsub (float_of 1) (fdiv (default fzero (omap_find e.1 net)) total_net_kb)))).

Definition weighted_nodes (nodes : list Node) : outcome (spec_float * list (bytes * spec_float)) :=
  assert_ ndebug (zlen (split (cpu_mem_disk_net_weighted cfg) 58 false) =? 4);;
  let '(weighted, net, total_net_kb) := measure nodes in
  let weighted := net_share net total_net_kb <$> weighted in
  Done (foldl (fun t e => fadd t e.2) fzero weighted, weighted).

(** [std::uniform_real_distribution<float>(0, total)] *)
Definition draw (total : spec_float) : spec_float := fadd (fmul canonical (fsub total fzero)) fzero.

Fixpoint pick (random : spec_float) (weighted : list (bytes * spec_float)) : bytes :=
  match weighted with
  | [] => []
  | (id, w) :: weighted => let random := fsub random w in if SFleb random fzero then id else pick random weighted
  end.

Definition weighted_selection (weighted : list (bytes * spec_float)) (total_weight : spec_float) : outcome bytes :=
  match pick (draw total_weight) weighted, weighted with
  | [], [] => Crash
  | [], (id, _) :: _ => Done id
  | id, _ => Done id
  end.

Definition WeightedRandomFilter : Filter := {|
  can_filter _ nodes := several nodes;
  do_filter meta nodes err_msg :=
    '(total_weight, weighted) ← weighted_nodes nodes;
    node_id ← weighted_selection weighted total_weight;
    Done (OMS_OK, filter (fun n => same_text node_id (nd_id n) = true) nodes, err_msg)
|}.

(** *** load_balancing_node *)

Definition load_balancing_filters : list Filter := [IpFilter; ZoneFilter; GroupFilter; ResourcesFilter; RegionFilter; WeightedRandomFilter].

Fixpoint run_filters (filters : list Filter) (meta : InstanceMeta) (r : ret) (nodes : list Node) (err_msg : bytes) : outcome (ret * list Node * bytes) :=
  match filters with
  | [] => Done (r, nodes, err_msg)
  | f :: filters =>
      match r with
      | OMS_FAILED => Done (r, nodes, err_msg)
      | OMS_OK =>
          if can_filter f meta nodes then '(r, nodes, err_msg) ← do_filter f meta nodes err_msg; run_filters filters meta r nodes err_msg
          else run_filters filters meta r nodes err_msg
      end
  end.

Definition load_balancing_nodes (meta : InstanceMeta) (nodes : list Node) (err_msg : bytes) : outcome (ret * list Node * bytes) :=
  match nodes with
  | [] => Done (OMS_FAILED, [], str "No nodes in running status")
  | _ => run_filters load_balancing_filters meta OMS_OK nodes err_msg
  end.

(** [query_nodes]: the nodes that are online; [None] is a failure. *)
Definition load_balancing_node (query_nodes : option (list Node)) (meta : InstanceMeta) : outcome (option Node * bytes) :=
  match query_nodes with
  | None => Done (None, str "Failed to get nodes in cluster")
  | Some nodes =>
      '(r, nodes, err_msg) ← load_balancing_nodes meta nodes [];
      match r, nodes with
      | OMS_OK, n :: _ => Done (Some n, err_msg)
      | _, _ => Done (None, err_msg)
      end
  end.
End Selection.

(** ** The weights *)

(** Everything that is computed from the weights is zero or not a number. *)
Definition null_weight (f : spec_float) : Prop := match f with S754_zero _ | S754_nan => True | _ => False end.

Lemma null_mul f : null_weight (fmul fzero f).
Proof. by destruct f. Qed.
Lemma null_add f g : null_weight f -> null_weight g -> null_weight (fadd f g).
Proof. destruct f as [[]| | |], g as [[]| | |]; done. Qed.
Lemma nan_add_l f : fadd S754_nan f = S754_nan.
Proof. done. Qed.

Section Weights.
Context (cfg : selection_config) (ndebug : bool) (canonical : spec_float).

Lemma weight_zero i : (i < 4)%nat -> weight cfg i = fzero.
Proof using. intros Hi. unfold weight, weights. rewrite app_nth1 by (rewrite length_replicate; lia). by destruct i as [|[|[|[|i]]]]; [..|lia]. Qed.

Lemma own_weight_null m : null_weight (own_weight cfg m).
Proof using. unfold own_weight. rewrite !weight_zero by lia. auto using null_add, null_mul. Qed.
Lemma net_share_null net total e : null_weight e.2 -> null_weight (net_share cfg net total e).2.
Proof using. intros He. cbn [net_share snd]. rewrite weight_zero by lia. auto using null_add, null_mul. Qed.
End Weights.

Section Chosen.
Context (cfg : selection_config) (ndebug : bool) (canonical : spec_float).
(** A number in [0,1). *)
Context (Hdraw : match canonical with S754_zero _ | S754_finite _ _ _ => True | _ => False end).
Context (Hweights : ndebug = true \/ zlen (split (cpu_mem_disk_net_weighted cfg) 58 false) = 4).

Lemma measure_ok nodes : let '(weighted, net, total) := measure cfg nodes in
  keys_sorted weighted /\ (forall id, id ∈ (fst <$> weighted) <-> id ∈ (nd_id <$> nodes)) /\ Forall (fun e => null_weight e.2) weighted.
Proof using.
  unfold measure. induction nodes as [|n nodes IH] using rev_ind; [split_and!; [by constructor|reflexivity|constructor]|]. rewrite foldl_app. destruct (foldl _ _ nodes) as [[weighted net] total]. destruct IH as (Hs & Hk & Hn). cbn [foldl]. split_and!.
  - by apply omap_set_sorted.
  - intros id. rewrite omap_set_keys, Hk, fmap_app, elem_of_app. change (nd_id <$> [n]) with [nd_id n]. rewrite list_elem_of_singleton. apply or_comm.
  - apply Forall_forall. intros e [->|He]%omap_set_elem; [apply own_weight_null|by eapply Forall_forall in Hn].
Qed.

(** The total of the weights is zero, and then all are, or not a number. *)
Lemma sum_null weighted t : null_weight t -> Forall (fun e : bytes * spec_float => null_weight e.2) weighted ->
  let total := foldl (fun t e => fadd t e.2) t weighted in
  total = S754_nan \/ (exists s, total = S754_zero s) /\ (exists s, t = S754_zero s) /\ Forall (fun e => exists s, e.2 = S754_zero s) weighted.
Proof using.
  intros Ht Hw. cbn zeta. revert t Ht. induction Hw as [|e weighted He Hw IH]; intros t Ht; cbn [foldl]; [destruct t; try done; [right; by split_and!; try eexists|by left]|].
  destruct (IH (fadd t e.2)) as [E|(E & [s Es] & Hall)]; [by apply null_add|by left|right]. split; [done|]. destruct t as [st| | |], e.2 as [se| | |] eqn:Ee; try done. split; [by eexists|]. constructor; [by exists se|done].
Qed.

Lemma draw_null total : (total = S754_nan -> draw canonical total = S754_nan) /\ (forall s, total = S754_zero s -> exists s', draw canonical total = S754_zero s').
Proof using Hdraw.
  split; [intros ->|intros s ->]; unfold draw; destruct canonical as [c| | |c m e]; try done; destruct s, c; cbn; by eexists.
Qed.
Lemma pick_nan weighted : pick S754_nan weighted = [].
Proof using. induction weighted as [|[id w] weighted IH]; [done|]. cbn [pick]. exact IH. Qed.

(** Whatever the metrics are, the first key is selected. *)
Lemma selection_first id w weighted : null_weight w -> Forall (fun e => null_weight e.2) weighted ->
  weighted_selection canonical ((id, w) :: weighted) (foldl (fun t e => fadd t e.2) fzero ((id, w) :: weighted)) = Done id.
Proof using Hdraw.
  intros Hw Hall. unfold weighted_selection. destruct (sum_null ((id, w) :: weighted) fzero I) as [E|([s E] & _ & Hz)]; [by constructor|..]; destruct (draw_null (foldl (fun t e => fadd t e.2) fzero ((id, w) :: weighted))) as [Hn Hs].
  - by rewrite (Hn E), pick_nan.
  - destruct (Hs s E) as [s' ->]. apply Forall_cons in Hz as [[sw Ew] _]. cbn [snd] in Ew. subst w. cbn [pick]. assert (SFleb (fsub (S754_zero s') (S754_zero sw)) fzero = true) as -> by (by destruct s', sw). by destruct id.
Qed.

Definition least_id (nodes : list Node) (id : bytes) : Prop := id ∈ (nd_id <$> nodes) /\ forall id', id' ∈ (nd_id <$> nodes) -> bytes_ltb id' id = false.

Lemma weighted_least meta nodes err : nodes <> [] -> exists id, least_id nodes id /\
  do_filter (WeightedRandomFilter cfg ndebug canonical) meta nodes err = Done (OMS_OK, filter (fun n => same_text id (nd_id n) = true) nodes, err).
Proof using Hdraw Hweights.
  intros Hne. cbn [WeightedRandomFilter do_filter]. unfold weighted_nodes. assert (assert_ ndebug (zlen (split (cpu_mem_disk_net_weighted cfg) 58 false) =? 4) = Done tt) as -> by (unfold assert_; destruct Hweights as [-> | ->]; [done|by rewrite orb_true_r]). cbn [mbind outcome_bind].
  pose proof (measure_ok nodes) as Hm. destruct (measure cfg nodes) as [[weighted net] total]. destruct Hm as (Hs & Hk & Hn). cbn [mbind outcome_bind].
  destruct weighted as [|[id w] weighted]; [exfalso; destruct nodes as [|n nodes]; [done|]; destruct (Hk (nd_id n)) as [_ H]; specialize (H (list_elem_of_here _ _)); by apply not_elem_of_nil in H|].
  rewrite fmap_cons. change (net_share cfg net total (id, w)) with (id, (net_share cfg net total (id, w)).2). rewrite selection_first.
  - cbn [mbind outcome_bind]. exists id. split; [|done]. split; [apply Hk, list_elem_of_here|]. intros id' Hin. apply Hk in Hin. rewrite fmap_cons in Hin. apply elem_of_cons in Hin as [->|Hin]; [apply bytes_ltb_irrefl|]. apply bytes_ltb_asym. apply keys_sorted_cons in Hs as [_ Hs]. apply list_elem_of_fmap in Hin as (e & -> & He). by apply Hs.
  - apply net_share_null. by apply Forall_cons in Hn as [Hn _].
  - apply Forall_cons in Hn as [_ Hn]. apply Forall_fmap. eapply Forall_impl; [exact Hn|]. intros e He. by apply net_share_null.
Qed.
End Chosen.

(** ** Placement *)

(** What is asked of a node: an attribute that is not given is met by all. *)
Definition slot_met (wanted attribute : bytes) : bool := negb (non_empty wanted) || same_text wanted attribute.
Definition acceptable (cfg : selection_config) (meta : InstanceMeta) (n : Node) : bool :=
  let slot := mt_slot_config meta in
  slot_met (slot_ip slot) (nd_ip n) && slot_met (slot_zone slot) (nd_zone n) && slot_met (slot_group slot) (nd_group n) &&
  (negb (enable_resource_check cfg) || meet_resource_needs cfg meta n).

(** The nodes to choose from; a single one is taken without a look at its region. *)
Definition eligible (cfg : selection_config) (query_instances : option (list BinlogEntry)) (meta : InstanceMeta) (nodes : list Node) : option (list Node) :=
  match filter (fun n => acceptable cfg meta n = true) nodes with
  | [] => None
  | [n] => Some [n]
  | ns =>
      match slot_region (mt_slot_config meta) with
      | [] => entries ← query_instances; Some (match remove_instances_in_drop entries with [] => ns | entries => spread entries ns end)
      | region => match filter (fun n => same_text region (nd_region n) = true) ns with [] => None | ns => Some ns end
      end
  end.

Lemma filter_andb {A} (p q : A -> bool) (l : list A) : filter (fun x => p x && q x = true) l = filter (fun x => q x = true) (filter (fun x => p x = true) l).
Proof.
  induction l as [|x l IH]; [done|]. destruct (p x) eqn:Ep.
  - rewrite (filter_cons_True (fun x => p x = true)) by done. destruct (q x) eqn:Eq; [rewrite !filter_cons_True by (rewrite ?Ep, ?Eq; done)|rewrite !filter_cons_False by (rewrite ?Ep, ?Eq; done)]; by rewrite IH.
  - rewrite !filter_cons_False by (rewrite ?Ep; done). exact IH.
Qed.
Lemma filter_every {A} (p : A -> bool) (l : list A) : (forall x, p x = true) -> filter (fun x => p x = true) l = l.
Proof. intros Hp. induction l as [|x l IH]; [done|]. rewrite filter_cons_True by done. by rewrite IH. Qed.

(** A filter that keeps the nodes with [p], and fails when there is none. *)
Definition keeps (f : Filter) (meta : InstanceMeta) (p : Node -> bool) : Prop := forall nodes err, nodes <> [] ->
  (can_filter f meta nodes = false /\ forall n, p n = true) \/
  can_filter f meta nodes = true /\
    match filter (fun n => p n = true) nodes with
    | [] => exists msg, do_filter f meta nodes err = Done (OMS_FAILED, [], msg)
    | ns => do_filter f meta nodes err = Done (OMS_OK, ns, err)
    end.

Lemma run_failed fs meta nodes err : run_filters fs meta OMS_FAILED nodes err = Done (OMS_FAILED, nodes, err).
Proof. by destruct fs. Qed.

Lemma run_keeps f fs meta p nodes err : keeps f meta p -> nodes <> [] ->
  match filter (fun n => p n = true) nodes with
  | [] => exists msg, run_filters (f :: fs) meta OMS_OK nodes err = Done (OMS_FAILED, [], msg)
  | ns => run_filters (f :: fs) meta OMS_OK nodes err = run_filters fs meta OMS_OK ns err
  end.
Proof.
  intros Hf Hne. cbn [run_filters]. destruct (Hf nodes err Hne) as [[-> Hp]|[-> H]]; [rewrite filter_every by done; by destruct nodes|].
  destruct (filter (fun n => p n = true) nodes) as [|n ns]; [destruct H as [msg ->]; exists msg; apply run_failed|by rewrite H].
Qed.

Lemma slot_keeps what wanted attribute meta : keeps (slot_filter what wanted attribute) meta (fun n => slot_met (wanted (mt_slot_config meta)) (attribute n)).
Proof.
  intros nodes err Hne. cbn [slot_filter can_filter do_filter]. unfold slot_met, keep_matching. destruct nodes as [|n ns]; [done|]. cbn [non_empty andb]. destruct (wanted (mt_slot_config meta)) as [|c w]; [by left|right]. split; [done|]. cbn [non_empty negb orb].
  destruct (filter _ (n :: ns)); [by eexists|done].
Qed.
Lemma resources_keeps cfg meta : keeps (ResourcesFilter cfg) meta (fun n => negb (enable_resource_check cfg) || meet_resource_needs cfg meta n).
Proof.
  intros nodes err Hne. cbn [ResourcesFilter can_filter do_filter]. destruct nodes as [|n ns]; [done|]. cbn [non_empty andb]. destruct (enable_resource_check cfg); [right; split; [done|]|by left]. cbn [negb orb].
  destruct (filter _ (n :: ns)); [by eexists|done].
Qed.

(** Spreading over regions and nodes leaves something to choose from. *)
Lemma spread_non_empty entries nodes : nodes <> [] -> spread entries nodes <> [].
Proof.
  intros Hne. unfold spread. set (av := list_to_set (nd_region <$> nodes) ∖ _). destruct (decide (av <> ∅)) as [Ha|_].
  - apply set_choose_L in Ha as [r Hr]. pose proof Hr as Hin. apply elem_of_difference in Hin as [Hin _]. apply elem_of_list_to_set, list_elem_of_fmap in Hin as (n & -> & Hn). intros E. assert (n ∈ filter (fun n => nd_region n ∈ av) nodes) as H by (by apply list_elem_of_filter). rewrite E in H. by apply not_elem_of_nil in H.
  - destruct (Nat.ltb_spec (size (list_to_set (en_node_id <$> entries) : gset bytes)) (size (list_to_set (nd_id <$> nodes) : gset bytes))) as [Hs|_]; [|done].
    intros E. apply (Nat.lt_irrefl (size (list_to_set (nd_id <$> nodes) : gset bytes))). eapply Nat.le_lt_trans; [|exact Hs]. apply subseteq_size. intros id Hid. destruct (decide (id ∈ (list_to_set (en_node_id <$> entries) : gset bytes))) as [|Hn]; [done|exfalso].
    apply elem_of_list_to_set, list_elem_of_fmap in Hid as (n & -> & Hin). assert (n ∈ filter (fun n => nd_id n ∉ (list_to_set (en_node_id <$> entries) : gset bytes)) nodes) as H by (by apply list_elem_of_filter). rewrite E in H. by apply not_elem_of_nil in H.
Qed.

Section Placement.
Context (cfg : selection_config) (ndebug : bool) (query_instances : option (list BinlogEntry)) (canonical : spec_float).
Context (Hdraw : match canonical with S754_zero _ | S754_finite _ _ _ => True | _ => False end).
Context (Hweights : ndebug = true \/ zlen (split (cpu_mem_disk_net_weighted cfg) 58 false) = 4).

(** The first four filters. *)
Lemma run_slots meta nodes err : nodes <> [] ->
  match filter (fun n => acceptable cfg meta n = true) nodes with
  | [] => exists msg, run_filters (load_balancing_filters cfg ndebug query_instances canonical) meta OMS_OK nodes err = Done (OMS_FAILED, [], msg)
  | ns => run_filters (load_balancing_filters cfg ndebug query_instances canonical) meta OMS_OK nodes err = run_filters [RegionFilter query_instances; WeightedRandomFilter cfg ndebug canonical] meta OMS_OK ns err
  end.
Proof using.
  intros Hne. unfold load_balancing_filters, acceptable. rewrite !filter_andb.
  pose proof (run_keeps IpFilter [ZoneFilter; GroupFilter; ResourcesFilter cfg; RegionFilter query_instances; WeightedRandomFilter cfg ndebug canonical] meta _ nodes err (slot_keeps _ _ _ _) Hne) as H1. cbv beta in H1.
  destruct (filter (fun n => slot_met (slot_ip _) _ = true) nodes) as [|n1 l1]; [exact H1|]. rewrite H1.
  pose proof (run_keeps ZoneFilter [GroupFilter; ResourcesFilter cfg; RegionFilter query_instances; WeightedRandomFilter cfg ndebug canonical] meta _ (n1 :: l1) err (slot_keeps _ _ _ _) ltac:(done)) as H2. cbv beta in H2.
  destruct (filter (fun n => slot_met (slot_zone _) _ = true) (n1 :: l1)) as [|n2 l2]; [exact H2|]. rewrite H2.
  pose proof (run_keeps GroupFilter [ResourcesFilter cfg; RegionFilter query_instances; WeightedRandomFilter cfg ndebug canonical] meta _ (n2 :: l2) err (slot_keeps _ _ _ _) ltac:(done)) as H3. cbv beta in H3.
  destruct (filter (fun n => slot_met (slot_group _) _ = true) (n2 :: l2)) as [|n3 l3]; [exact H3|]. rewrite H3.
  exact (run_keeps (ResourcesFilter cfg) [RegionFilter query_instances; WeightedRandomFilter cfg ndebug canonical] meta _ (n3 :: l3) err (resources_keeps _ _) ltac:(done)).
Qed.

(** The last filter, on the nodes that are left. *)
Lemma run_weighted meta ns err : ns <> [] -> Forall (fun n => 0 ∉ nd_id n) ns -> exists n rest,
  run_filters [WeightedRandomFilter cfg ndebug canonical] meta OMS_OK ns err = Done (OMS_OK, n :: rest, err) /\ n ∈ ns /\ forall n', n' ∈ ns -> bytes_ltb (nd_id n') (nd_id n) = false.
Proof using Hdraw Hweights.
  intros Hne Hid. destruct ns as [|n [|n1 ns]]; [done| |].
  { exists n, []. split_and!; [done|apply list_elem_of_here|]. intros n' ->%list_elem_of_singleton. apply bytes_ltb_irrefl. }
  cbn [run_filters]. change (can_filter (WeightedRandomFilter cfg ndebug canonical) meta (n :: n1 :: ns)) with true. cbn iota. destruct (weighted_least cfg ndebug canonical Hdraw Hweights meta (n :: n1 :: ns) err ltac:(done)) as (id & [Hin Hleast] & ->). cbn [mbind outcome_bind].
  destruct (filter (fun n => same_text id (nd_id n) = true) (n :: n1 :: ns)) as [|m ms] eqn:E.
  - exfalso. apply list_elem_of_fmap in Hin as (m & -> & Hm). assert (m ∈ filter (fun n => same_text (nd_id m) (nd_id n) = true) (n :: n1 :: ns)) as H by (apply list_elem_of_filter; split; [apply beq_refl|done]). rewrite E in H. by apply not_elem_of_nil in H.
  - assert (m ∈ filter (fun n => same_text id (nd_id n) = true) (n :: n1 :: ns)) as [Hs Hm]%list_elem_of_filter by (rewrite E; apply list_elem_of_here). exists m, ms. split_and!; [done|done|]. intros n' Hn'. rewrite Forall_forall in Hid. unfold same_text in Hs. apply beq_true in Hs.
    apply list_elem_of_fmap in Hin as (m0 & -> & Hm0). rewrite !cstr_id in Hs by auto. rewrite <-Hs. apply Hleast. by apply list_elem_of_fmap_2.
Qed.

Lemma spread_sub entries nodes n : n ∈ spread entries nodes -> n ∈ nodes.
Proof using. unfold spread. destruct (decide (_ ∖ _ <> ∅)); [by intros [_ ?]%list_elem_of_filter|]. destruct (_ <? _)%nat; [by intros [_ ?]%list_elem_of_filter|done]. Qed.

(** The node that is taken: of the eligible ones the one with the least identifier, whatever
    their metrics and the configured weights are. *)
Lemma least_node_placed (meta : InstanceMeta) (nodes : list Node) (Hid : Forall (fun n => 0 ∉ nd_id n) nodes) :
  match eligible cfg query_instances meta nodes with
  | None => exists msg, load_balancing_node cfg ndebug query_instances canonical (Some nodes) meta = Done (None, msg)
  | Some ns => exists n, load_balancing_node cfg ndebug query_instances canonical (Some nodes) meta = Done (Some n, []) /\
      n ∈ ns /\ n ∈ nodes /\ acceptable cfg meta n = true /\ forall n', n' ∈ ns -> bytes_ltb (nd_id n') (nd_id n) = false
  end.
Proof using Hdraw Hweights.
  unfold load_balancing_node, load_balancing_nodes. destruct nodes as [|n0 nodes]; [by eexists|]. set (all := n0 :: nodes) in *. pose proof (run_slots meta all [] ltac:(done)) as Hrun. unfold eligible.
  assert (forall n, n ∈ filter (fun n => acceptable cfg meta n = true) all -> n ∈ all /\ acceptable cfg meta n = true) as Hacc by (by intros n [? ?]%list_elem_of_filter). rewrite Forall_forall in Hid.
  destruct (filter (fun n => acceptable cfg meta n = true) all) as [|n1 l] eqn:El; [destruct Hrun as [msg ->]; by exists msg|]. rewrite Hrun.
  assert (forall ns, ns <> [] -> (forall n, n ∈ ns -> n ∈ n1 :: l) -> exists n, ('(r, nodes, err_msg) ← run_filters [WeightedRandomFilter cfg ndebug canonical] meta OMS_OK ns []; match r, nodes with OMS_OK, n :: _ => Done (Some n, err_msg) | _, _ => Done (None, err_msg) end) = Done (Some n, []) /\
    n ∈ ns /\ n ∈ all /\ acceptable cfg meta n = true /\ forall n', n' ∈ ns -> bytes_ltb (nd_id n') (nd_id n) = false) as Hlast.
  { intros ns Hne Hsub. destruct (run_weighted meta ns [] Hne) as (n & rest & -> & Hin & Hleast); [apply Forall_forall; intros n Hn; by apply Hid, Hacc, Hsub|]. exists n. split; [done|]. split; [done|]. destruct (Hacc n (Hsub n Hin)). split_and!; done. }
  change (run_filters (RegionFilter query_instances :: ?fs) meta OMS_OK ?ns ?e) with (if several ns then '(r, nodes, err_msg) ← do_filter (RegionFilter query_instances) meta ns e; run_filters fs meta r nodes err_msg else run_filters fs meta OMS_OK ns e).
  destruct l as [|n2 l]; [apply Hlast; [done|auto]|]. cbn [several RegionFilter do_filter]. unfold keep_matching. destruct (slot_region (mt_slot_config meta)) as [|c region].
  - cbn [non_empty]. destruct query_instances as [entries|]; [|by eexists]. cbn [mbind outcome_bind option_bind]. destruct (remove_instances_in_drop entries) as [|e es]; cbn [non_empty]; apply Hlast; [done|auto|by apply spread_non_empty|apply spread_sub].
  - cbn [non_empty]. destruct (filter (fun n => same_text (c :: region) (nd_region n) = true) (n1 :: n2 :: l)) as [|n3 l3] eqn:Er; [cbn [mbind outcome_bind]; rewrite run_failed; by eexists|]. apply Hlast; [done|]. intros n Hn. rewrite <-Er in Hn. by apply list_elem_of_filter in Hn as [_ Hn].
Qed.

End Placement.

(** ** A concrete cluster *)

Definition p_metric (cpu : spec_float) (free : Z) : SysMetric := mkMetric cpu fzero fzero 65536 (65536 - free) 102400 0 (2 ^ 20) (2 ^ 20).
Definition p_busy : spec_float := to_float (round_ratio false 79 100).
Definition p_node (id region : string) (m : SysMetric) : Node := mkNode (str id) (str id) (str region) (str "z") (str "g") m.
Definition p_config : selection_config := mkSelectionConfig true 80 85 70 (str "1:1:1:1").
Definition p_meta (region : string) : InstanceMeta := mkInstanceMeta (mkSlot [] (str "z") (str region) []) (str "4G") 53687091200 10 0 [] 0.
Definition p_nodes : list Node := [p_node "c" "east" (p_metric fzero 40960); p_node "b" "west" (p_metric fzero 40960); p_node "d" "west" (p_metric fzero 1024); p_node "a" "west" (p_metric p_busy 8192)].
Definition p_entry : BinlogEntry := mkEntry (str "c") (str "c") (str "i1") (str "ob") (str "t") [] [] S_RUNNING (p_meta "") 0 0 0.


(** The busier of the two is taken, although its weight is the smaller one. *)
Example weights_ignored : exists n, load_balancing_node p_config false (Some [p_entry]) (round_ratio false 1 2) (Some p_nodes) (p_meta "") = Done (Some n, []) /\ nd_id n = str "a".
Proof. eexists. split; [vm_compute; reflexivity|reflexivity]. Qed.

(** A region that was asked for does not count when one acceptable node is left. *)
Example region_ignored : exists n, load_balancing_node p_config false (Some []) fzero (Some [p_node "c" "east" (p_metric fzero 40960)]) (p_meta "west") = Done (Some n, []) /\ nd_region n = str "east".
Proof. eexists. split; [vm_compute; reflexivity|reflexivity]. Qed.
