(* ===== verification/Metadata.v ===== *)
(** * The checkpoints of the instances in the metadata database

    Every binlog instance keeps its transaction / GTID checkpoints ([GtidManager]) and the
    manager keeps a copy of those of all the instances in the table [instances_gtid_seq].
    Modelled here: the statements on that table and the probe that brings it up to date
    ([src/src/cluster/database_protocol.cpp]: [InstanceGtidSeqDAO], [update_instance_gtid_seq],
    [binlog_instance_exploration]), the text of a report ([deserialize_gtid_seq_str] of
    [src/src/cluster/node.cpp]) and the row an instance answers a probe with
    ([ReportProcessor] of [src/src/binlog/sql_cmd_processor.cpp]).

    The database is a parameter: the class [GtidSeqTable] names the statements the code
    executes and [GtidSeqTableLaws] what SQL says of them. *)

From S2P Require Import Prelude Bytes Str Decimal Gtid BinlogIndex GtidManager PortPool Selection.

#[local] Open Scope Z_scope.

(** ** The table *)

Record InstanceGtidSeq := mkInstanceGtidSeq {
  gs_cluster : bytes;
  gs_tenant : bytes;
  gs_cluster_id : bytes;
  gs_tenant_id : bytes;
  gs_instance_name : bytes;
  commit_version_start : Z;
  xid_start : bytes;
  gtid_start : Z;
  trxs_num : Z
}.
Definition no_gtid_seq : InstanceGtidSeq := mkInstanceGtidSeq [] [] [] [] [] 0 [] 0 0.

(** The statements on [instances_gtid_seq]; [None] is a failed one, which changes nothing.
    [select_first] and [select_last] are [SELECT * ... WHERE c ORDER BY commit_version_start
    ASC | DESC LIMIT 1]; [delete_rows d c n] is [DELETE ... WHERE c LIMIT n] and gives the
    number of rows deleted. *)
Class GtidSeqTable (D : Type) := {
  select_first : D -> (InstanceGtidSeq -> bool) -> option (option InstanceGtidSeq);
  select_last : D -> (InstanceGtidSeq -> bool) -> option (option InstanceGtidSeq);
  insert_rows : D -> list InstanceGtidSeq -> option D;
  delete_rows : D -> (InstanceGtidSeq -> bool) -> Z -> option (Z * D)
}.

Definition chosen_row (le : Z -> Z -> Prop) (c : InstanceGtidSeq -> bool) (rows : list InstanceGtidSeq) (r : option InstanceGtidSeq) : Prop :=
  match r with
  | None => Forall (fun s => c s = false) rows
  | Some s => s ∈ rows /\ c s = true /\ forall s', s' ∈ rows -> c s' = true -> le (commit_version_start s) (commit_version_start s')
  end.

Class GtidSeqTableLaws (D : Type) `{GtidSeqTable D} := {
  contents : D -> list InstanceGtidSeq;
  select_first_law d c r : select_first d c = Some r -> chosen_row Z.le c (contents d) r;
  select_last_law d c r : select_last d c = Some r -> chosen_row Z.ge c (contents d) r;
  insert_law d l d' : insert_rows d l = Some d' -> contents d' ≡ₚ contents d ++ l;
  delete_law d c n k d' : delete_rows d c n = Some (k, d') -> exists gone,
    contents d ≡ₚ gone ++ contents d' /\ Forall (fun s => c s = true) gone /\ k = zlen gone /\ (0 <= n -> k <= n) /\
    (k < n -> Forall (fun s => c s = false) (contents d'))
}.

Section Table.
Context {D : Type} `{GtidSeqTable D}.

(** [execute_at_most_one_query]: without a row the object is as it was. *)
Definition at_most_one (r : option (option InstanceGtidSeq)) (s : InstanceGtidSeq) : ret * InstanceGtidSeq :=
  match r with
  | None => (OMS_FAILED, s)
  | Some None => (OMS_OK, s)
  | Some (Some row) => (OMS_OK, row)
  end.

(** The boundary of the rows with [c], of an instance or of a tenant. *)
Definition boundary_of (d : D) (c : InstanceGtidSeq -> bool) : ret * (InstanceGtidSeq * InstanceGtidSeq) :=
  let '(r, f) := at_most_one (select_first d c) no_gtid_seq in
  match r with
  | OMS_OK => let '(r, l) := at_most_one (select_last d c) no_gtid_seq in (r, (f, l))
  | _ => (OMS_FAILED, (f, no_gtid_seq))
  end.

(** The columns are compared as byte strings. *)
Definition of_instance (name : bytes) (s : InstanceGtidSeq) : bool := beq (gs_instance_name s) name.
Definition of_tenant (cluster tenant : bytes) (s : InstanceGtidSeq) : bool := beq (gs_cluster s) cluster && beq (gs_tenant s) tenant.

Definition get_instance_boundary_gtid_seq (d : D) (instance_name : bytes) : ret * (InstanceGtidSeq * InstanceGtidSeq) :=
  boundary_of d (of_instance instance_name).
Definition tenant_boundary_gtid_seq (d : D) (cluster tenant : bytes) : ret * (InstanceGtidSeq * InstanceGtidSeq) :=
  boundary_of d (of_tenant cluster tenant).

Definition find_tenant_gtid_seq_by_timestamp (d : D) (cluster tenant : bytes) (timestamp : Z) : ret * InstanceGtidSeq :=
  at_most_one (select_last d (fun s => of_tenant cluster tenant s && (commit_version_start s <=? timestamp))) no_gtid_seq.
Definition find_instance_gtid_seq_by_timestamp (d : D) (instance : bytes) (timestamp : Z) : ret * InstanceGtidSeq :=
  at_most_one (select_last d (fun s => of_instance instance s && (commit_version_start s <=? timestamp))) no_gtid_seq.

(** The inserted columns leave out the identifiers of the cluster and of the tenant. *)
Definition stored (s : InstanceGtidSeq) : InstanceGtidSeq :=
  mkInstanceGtidSeq (gs_cluster s) (gs_tenant s) [] [] (gs_instance_name s) (commit_version_start s) (xid_start s) (gtid_start s) (trxs_num s).

Definition add_gtid_seq_batch (d : D) (gtid_seq_vec : list InstanceGtidSeq) : ret * D :=
  match gtid_seq_vec with
  | [] => (OMS_OK, d)
  | _ => match insert_rows d (stored <$> gtid_seq_vec) with Some d' => (OMS_OK, d') | None => (OMS_FAILED, d) end
  end.

(** The loop of the removals: at most [max_delete_rows] rows a statement, until one deletes
    nothing.  [None]: more than [fuel] statements. *)
Fixpoint remove_rows (fuel : nat) (max_delete_rows : Z) (c : InstanceGtidSeq -> bool) (d : D) : option (ret * D) :=
  match fuel with
  | O => None
  | S fuel =>
      match delete_rows d c max_delete_rows with
      | None => Some (OMS_FAILED, d)
      | Some (affected_rows, d) => if 0 <? affected_rows then remove_rows fuel max_delete_rows c d else Some (OMS_OK, d)
      end
  end.

Definition before_gtid (instance_name : bytes) (gtid : Z) (s : InstanceGtidSeq) : bool :=
  of_instance instance_name s && (gtid_start s <=? gtid).
Definition before_checkpoint (instance_name : bytes) (checkpoint : Z) (s : InstanceGtidSeq) : bool :=
  of_instance instance_name s && (commit_version_start s <? checkpoint) && beq (xid_start s) [].

Context (fuel : nat) (max_delete_rows : Z).
Definition remove_instance_gtid_seq_before_gtid (d : D) (instance_name : bytes) (gtid : Z) : option (ret * D) :=
  remove_rows fuel max_delete_rows (before_gtid instance_name gtid) d.
Definition remove_instance_gtid_seq_before_checkpoint (d : D) (instance_name : bytes) (checkpoint : Z) : option (ret * D) :=
  remove_rows fuel max_delete_rows (before_checkpoint instance_name checkpoint) d.
Definition remove_instance_gtid_seq (d : D) (instance : bytes) : option (ret * D) :=
  remove_rows fuel max_delete_rows (of_instance instance) d.
Definition remove_tenant_gtid_seq (d : D) (cluster tenant : bytes) : option (ret * D) :=
  remove_rows fuel max_delete_rows (of_tenant cluster tenant) d.

(** ** The probe of an instance *)

Definition deserialize_gtid_seq_str (instance : BinlogEntry) (gtid_seq_str : bytes) : list InstanceGtidSeq :=
  omap (fun each => match split each 35 false with
    | [f0; f1; f2; f3] => Some (mkInstanceGtidSeq (en_cluster instance) (en_tenant instance) (en_cluster_id instance)
        (en_tenant_id instance) (en_instance_name instance) (u64 (atoll f0)) f1 (u64 (atoll f2)) (u64 (atoll f3)))
    | _ => None
    end) (split gtid_seq_str 124 false).

(** The first part of [update_instance_gtid_seq]; [front()] of an empty vector is undefined. *)
Definition add_reported (d : D) (instance : BinlogEntry) (last_known : InstanceGtidSeq) (incr_gtid_seq_str : bytes) : outcome (ret * D) :=
  match incr_gtid_seq_str with
  | [] => Done (OMS_OK, d)
  | _ =>
      match deserialize_gtid_seq_str instance incr_gtid_seq_str with
      | [] => Crash
      | (front :: _) as gtid_seq_vec =>
          if commit_version_start last_known <? commit_version_start front then Done (add_gtid_seq_batch d gtid_seq_vec) else Done (OMS_OK, d)
      end
  end.

Definition update_instance_gtid_seq (d : D) (instance : BinlogEntry) (boundary : InstanceGtidSeq * InstanceGtidSeq)
    (last_purged_gtid : Z) (incr_gtid_seq_str : bytes) (last_purged_checkpoint : Z) : outcome (option (ret * D)) :=
  '(r, d) ← add_reported d instance boundary.2 incr_gtid_seq_str;
  let name := en_instance_name instance in
  Done (
    let and_then (c : bool) (step : D -> option (ret * D)) (state : option (ret * D)) :=
      match state with
      | Some (OMS_OK, d) => if c then step d else Some (OMS_OK, d)
      | _ => state
      end in
    and_then ((commit_version_start boundary.1 <? last_purged_checkpoint) && (en_heartbeat instance mod 600 <? 5))
      (fun d => remove_instance_gtid_seq_before_checkpoint d name last_purged_checkpoint)
      (and_then (gtid_start boundary.1 <? last_purged_gtid)
        (fun d => remove_instance_gtid_seq_before_gtid d name last_purged_gtid)
        (Some (r, d)))).
End Table.

(** The counters an instance reports with its checkpoints. *)
Record report_counters := mkReportCounters {
  convert_running : bool;
  convert_delay_us : Z;
  convert_rps : Z;
  convert_eps : Z;
  convert_iops : Z;
  nof_dump : Z;
  minimum_dump_point : Z;
  convert_checkpoint_us : Z;
  dump_error_count : Z
}.

(** The row [ReportProcessor::process] answers [report <timestamp>] with. *)
Definition report_row (cfg : gtid_config) (c : report_counters) (m : GtidManager) (timestamp_str : bytes) : list bytes :=
  let timestamp := u64 (atoll timestamp_str) in
  [ if convert_running c then str "Yes" else str "No";
    to_dec (convert_delay_us c / 1000);
    to_dec (convert_rps c);
    to_dec (convert_eps c);
    to_dec (convert_iops c);
    to_dec (nof_dump c);
    to_dec (minimum_dump_point c);
    get_instance_incr_gtids_string cfg timestamp m [];
    to_dec (last_gtid_purged m);
    to_dec (convert_checkpoint_us c);
    to_dec (dump_error_count c);
    to_dec (last_checkpoint_purged m) ].

(** What a probe does to the rest of the metadata: the row of the instance is replaced, or
    the instance is handed to failover. *)
Inductive probe_action := UpdateInstance (updated previous : BinlogEntry) | Failover (e : BinlogEntry).

Definition with_probe (state : InstanceState) (heartbeat delay min_dump : Z) (e : BinlogEntry) : BinlogEntry :=
  mkEntry (en_node_id e) (en_ip e) (en_instance_name e) (en_cluster e) (en_tenant e) (en_cluster_id e) (en_tenant_id e)
    state (en_config e) heartbeat delay min_dump.

Section Probe.
Context {D : Type} `{GtidSeqTable D}.
Context (fuel : nat) (max_delete_rows : Z) (now_s : Z).
(** Whether the process answers [kill(pid, 0)], and whether [update_instance] succeeds. *)
Context (alive update_ok : bool) (node_id : bytes).

(** [fields()[k]], undefined past the end. *)
Definition field (row : list bytes) (k : nat) : outcome bytes := of_option (row !! k).

Definition probe_answered (d : D) (instance : BinlogEntry) (boundary : InstanceGtidSeq * InstanceGtidSeq) (row : list bytes)
    : outcome (option (D * list probe_action)) :=
  f1 ← field row 1;
  f6 ← field row 6;
  incr_gtid_seq_str ← field row 7;
  f8 ← field row 8;
  let last_purged_checkpoint := match row !! 9%nat with Some f9 => u64 (atoll f9) | None => 0 end in
  let binlog_instance := with_probe (en_state instance) now_s (u64 (atoll f1)) (u64 (atoll f6)) instance in
  r ← update_instance_gtid_seq fuel max_delete_rows d binlog_instance boundary (u64 (atoll f8)) incr_gtid_seq_str last_purged_checkpoint;
  Done (match r with
    | None => None
    | Some (OMS_FAILED, d) => Some (d, [])
    | Some (OMS_OK, d) =>
        let state := if negb (bool_decide (en_state instance = S_GRAYSCALE)) || negb (bool_decide (en_state instance = S_PAUSED))
                     then S_RUNNING else en_state instance in
        Some (d, [UpdateInstance (with_probe state now_s (u64 (atoll f1)) (u64 (atoll f6)) instance) instance])
    end).

Definition probe_failed (instance : BinlogEntry) : list probe_action :=
  if (u64 (mt_expiration (en_config instance)) <? u64 (now_s - en_heartbeat instance)) && bool_decide (en_state instance = S_RUNNING) then
    if same_text (en_node_id instance) node_id && alive then
      [UpdateInstance (with_probe (en_state instance) now_s (en_delay instance) (en_min_dump_checkpoint instance) instance) instance]
    else
      UpdateInstance (with_probe S_OFFLINE (en_heartbeat instance) (en_delay instance) (en_min_dump_checkpoint instance) instance) instance
      :: (if update_ok then [Failover instance] else [])
  else [].

(** [binlog_instance_exploration], with a connection to the database: [query] is the answer
    of the instance to [report <timestamp>], [None] when it cannot be reached. *)
Definition binlog_instance_exploration (query : bytes -> option (list (list bytes))) (d : D) (instance : BinlogEntry)
    : outcome (option (D * list probe_action)) :=
  let '(r, boundary) := get_instance_boundary_gtid_seq d (en_instance_name instance) in
  match r with
  | OMS_FAILED => Done (Some (d, []))
  | OMS_OK =>
      match query (to_dec (commit_version_start boundary.2)) with
      | Some (row :: _) => probe_answered d instance boundary row
      | _ => Done (Some (d, probe_failed instance))
      end
  end.
End Probe.

(** ** Reports *)

#[local] Abbreviation ver := get_commit_version_start.

(** The checkpoints an instance holds: all of them in the file, the latest ones cached, in
    order of time. *)
Record keeps_checkpoints (m : GtidManager) (L : list GtidSeq) : Prop := {
  kc_ok : Forall seq_ok L;
  kc_sorted : StronglySorted Z.lt (ver <$> L);
  kc_file : gtid_seq_file m = Some (unlines (serialize <$> L));
  kc_cache : exists older newer, L = older ++ newer /\ (newer = [] -> L = []) /\
    gtid_seq_set m = (fun s => (ver s, serialize s)) <$> newer
}.

Definition newer_than (timestamp : Z) (L : list GtidSeq) : list GtidSeq := filter (fun s => timestamp < ver s) L.

Lemma removelast_bars (ss : list GtidSeq) : removelast (mjoin ((fun s => serialize s ++ [124]) <$> ss)) = report ss.
Proof.
  unfold report. induction ss as [|s ss IH]; [done|].
  destruct ss as [|s' ss]; [cbn; rewrite app_nil_r; by rewrite removelast_last|].
  change (mjoin _) with ((serialize s ++ [124]) ++ mjoin ((fun s => serialize s ++ [124]) <$> s' :: ss)).
  rewrite removelast_app, IH; [by rewrite <-app_assoc|]. cbn. intros [[_ ?]%app_nil _]%app_nil. done.
Qed.

Lemma incr_loop_spec cfg timestamp ss : forall count gtids, 0 <= count <= max_incr_gtid_seqs_num cfg ->
  incr_loop cfg timestamp ((fun s => (ver s, serialize s)) <$> ss) count gtids =
  gtids ++ mjoin ((fun s => serialize s ++ [124]) <$> take (Z.to_nat (max_incr_gtid_seqs_num cfg + 1 - count)) (newer_than timestamp ss)).
Proof.
  unfold newer_than. induction ss as [|s ss IH]; intros count gtids Hc; [cbn; rewrite take_nil; by rewrite app_nil_r|].
  rewrite fmap_cons. cbn [incr_loop fst snd]. rewrite filter_cons.
  destruct (Z.ltb_spec timestamp (ver s)) as [Hn|Hn]; [rewrite decide_True by done|rewrite decide_False by lia].
  - replace (Z.to_nat (max_incr_gtid_seqs_num cfg + 1 - count)) with (S (Z.to_nat (max_incr_gtid_seqs_num cfg + 1 - (count + 1)))) by lia.
    rewrite firstn_cons, fmap_cons. cbn [mjoin list_join].
    destruct (Z.ltb_spec (max_incr_gtid_seqs_num cfg) (count + 1)) as [Hm|Hm].
    + replace (Z.to_nat _) with O by lia. by rewrite app_nil_r.
    + rewrite IH by lia. by rewrite <-!app_assoc.
  - destruct (Z.ltb_spec (max_incr_gtid_seqs_num cfg) count); [lia|]. by apply IH.
Qed.

Lemma newer_take n timestamp L s : s ∈ take n (newer_than timestamp L) -> timestamp < ver s /\ s ∈ L.
Proof.
  intros Hs. assert (s ∈ newer_than timestamp L) as Hn; [|by apply list_elem_of_filter in Hn].
  rewrite <-(take_drop n (newer_than timestamp L)). apply elem_of_app. by left.
Qed.

Lemma newer_app timestamp a b : newer_than timestamp (a ++ b) = newer_than timestamp a ++ newer_than timestamp b.
Proof. apply filter_app. Qed.

Lemma newer_old timestamp a : (forall s, s ∈ a -> ver s <= timestamp) -> newer_than timestamp a = [].
Proof.
  intros Ha. unfold newer_than. induction a as [|s a IH]; [done|]. rewrite filter_cons, decide_False by (specialize (Ha s ltac:(left)); lia).
  apply IH. intros x Hx. apply Ha. by right.
Qed.

Lemma sorted_app_lt a b s s' : StronglySorted Z.lt (ver <$> a ++ b) -> s ∈ a -> s' ∈ b -> ver s < ver s'.
Proof.
  rewrite fmap_app. intros Hs Ha Hb. eapply StronglySorted_app_1_elem_of; [done| |]; by apply list_elem_of_fmap_2.
Qed.

(** The text an instance answers a probe with: the oldest of its checkpoints after the
    timestamp of the probe. *)
Lemma incr_reported cfg m L timestamp : keeps_checkpoints m L -> 0 <= max_incr_gtid_seqs_num cfg ->
  get_instance_incr_gtids_string cfg timestamp m [] =
  report (take (Z.to_nat (max_incr_gtid_seqs_num cfg + 1)) (newer_than timestamp L)).
Proof.
  intros [Hok Hs Hf (older & new & -> & Hne & Hset)] Hmax. unfold get_instance_incr_gtids_string. rewrite Hset.
  destruct new as [|e new]; [rewrite (Hne eq_refl); cbn; by rewrite take_nil|].
  rewrite fmap_cons at 1. cbn [fst]. destruct (Z.leb_spec (ver e) timestamp) as [Hle|Hle].
  - rewrite incr_loop_spec by lia. cbn [app]. rewrite Z.sub_0_r, removelast_bars, newer_app.
    rewrite (newer_old _ older); [done|]. intros s Hin. pose proof (sorted_app_lt _ _ s e Hs Hin ltac:(left)). lia.
  - rewrite Hf, getlines_unlines.
    2: { apply Forall_fmap. eapply Forall_impl; [exact Hok|]. intros s Hsq. apply serialize_not_in; [done|lia]. }
    rewrite <-list_fmap_compose.
    rewrite (list_fmap_ext _ (fun s => (ver s, serialize s)) (older ++ e :: new)).
    + rewrite incr_loop_spec by lia. cbn [app]. by rewrite Z.sub_0_r, removelast_bars.
    + intros i s Hi%list_elem_of_lookup_2. unfold compose. rewrite deserialize_serialize; [done|]. by eapply Forall_forall.
Qed.

(** ... and as it arrives in the table of the manager. *)
Definition row_of (e : BinlogEntry) (s : GtidSeq) : InstanceGtidSeq :=
  mkInstanceGtidSeq (en_cluster e) (en_tenant e) [] [] (en_instance_name e) (ver s) (get_xid_start s) (get_gtid_start s) (get_trxs_num s).
Definition received (e : BinlogEntry) (s : GtidSeq) : InstanceGtidSeq :=
  mkInstanceGtidSeq (en_cluster e) (en_tenant e) (en_cluster_id e) (en_tenant_id e) (en_instance_name e)
    (ver s) (get_xid_start s) (get_gtid_start s) (get_trxs_num s).

Lemma deserialize_report e ss : Forall seq_ok ss -> ss <> [] -> deserialize_gtid_seq_str e (report ss) = received e <$> ss.
Proof.
  intros Hok Hne. unfold deserialize_gtid_seq_str. rewrite split_report by done. clear Hne.
  induction Hok as [|s ss Hs Hok IH]; [done|]. rewrite !fmap_cons. cbn [omap list_omap].
  rewrite split_serialize by done. destruct Hs as (H1 & _ & H3 & H4). rewrite !atoll_i63, !u64_i63 by done. unfold received at 1. by f_equal.
Qed.

(** ** Statements on the table *)

Lemma filter_fmap {A B} (f : A -> B) (P : B -> Prop) (Q : A -> Prop) `{forall x, Decision (P x)} `{forall x, Decision (Q x)} (l : list A) :
  (forall x, P (f x) <-> Q x) -> filter P (f <$> l) = f <$> filter Q l.
Proof.
  intros Hpq. induction l as [|x l IH]; [done|]. rewrite fmap_cons, !filter_cons, IH.
  destruct (decide (Q x)) as [Hx|Hx]; [by rewrite decide_True by (by apply Hpq)|]. by rewrite decide_False by (by rewrite Hpq).
Qed.

Lemma filter_lengths {A} (p : A -> bool) (l : list A) :
  (length (filter (fun x => p x = true) l) + length (filter (fun x => p x = false) l) = length l)%nat.
Proof.
  induction l as [|x l IH]; [done|]. rewrite !filter_cons.
  destruct (p x); [rewrite decide_True, decide_False by done|rewrite decide_False, decide_True by done]; cbn [length]; lia.
Qed.

Section Rows.
Context {D : Type} `{GtidSeqTableLaws D}.

(** No statement fails. *)
Record reliable : Prop := {
  first_runs : forall d c, select_first d c <> None;
  last_runs : forall d c, select_last d c <> None;
  insert_runs : forall d l, insert_rows d l <> None;
  delete_runs : forall d c n, delete_rows d c n <> None
}.

Definition rows (d : D) (name : bytes) : list InstanceGtidSeq := filter (fun s => of_instance name s = true) (contents d).
Definition other_rows (d : D) (name : bytes) : list InstanceGtidSeq := filter (fun s => of_instance name s = false) (contents d).

(** Deleting in portions deletes every row with [c], and ends: each statement but the last
    deletes a row. *)
Lemma remove_rows_all fuel n c d : reliable -> 0 < n -> (length (contents d) < fuel)%nat ->
  exists d', remove_rows fuel n c d = Some (OMS_OK, d') /\ contents d' ≡ₚ filter (fun s => c s = false) (contents d).
Proof.
  intros HR Hn. revert d. induction fuel as [|fuel IH]; intros d Hf; [lia|]. cbn [remove_rows].
  destruct (delete_rows d c n) as [[k d1]|] eqn:Ed; [|by destruct (delete_runs HR d c n)].
  destruct (delete_law _ _ _ _ _ Ed) as (gone & Hp & Hg & -> & Hk & Hall).
  assert (filter (fun s => c s = false) (contents d) ≡ₚ filter (fun s => c s = false) (contents d1)) as Hfl.
  { rewrite Hp, filter_app, (filter_none _ gone); [done|]. eapply Forall_impl; [exact Hg|]. cbn. congruence. }
  destruct (Z.ltb_spec 0 (zlen gone)) as [Hz|Hz].
  - destruct (IH d1) as (d' & E & Hd'); [apply Permutation_length in Hp; rewrite length_app in Hp; unfold zlen in Hz; lia|].
    exists d'. split; [done|]. by rewrite Hd', Hfl.
  - exists d1. split; [done|]. rewrite Hfl, filter_all; [done|]. apply Forall_forall, Hall. lia.
Qed.

Lemma rows_of_removed d d' c name : contents d' ≡ₚ filter (fun s => c s = false) (contents d) ->
  (forall s, c s = true -> of_instance name s = true) ->
  rows d' name ≡ₚ filter (fun s => c s = false) (rows d name) /\ other_rows d' name ≡ₚ other_rows d name.
Proof.
  intros Hp Hc. unfold rows, other_rows. rewrite Hp. rewrite !list_filter_filter. split.
  - apply reflexive_eq, list_filter_iff. tauto.
  - apply reflexive_eq, list_filter_iff. intros s. specialize (Hc s). destruct (c s), (of_instance name s); intuition congruence.
Qed.

Lemma rows_of_added d d' l name : contents d' ≡ₚ contents d ++ l -> Forall (fun s => of_instance name s = true) l ->
  rows d' name ≡ₚ rows d name ++ l /\ other_rows d' name ≡ₚ other_rows d name.
Proof.
  intros Hp Hl. unfold rows, other_rows. rewrite Hp, !filter_app. rewrite Forall_forall in Hl. split.
  - by rewrite (filter_all (fun s => of_instance name s = true) l).
  - rewrite (filter_none (fun s => of_instance name s = false) l); [by rewrite app_nil_r|]. apply Forall_forall. intros s Hs. rewrite Hl; done.
Qed.

(** The boundary of the rows of an instance: its oldest and its latest checkpoint. *)
Lemma chosen_in le c d r name P (f : GtidSeq -> InstanceGtidSeq) : c = of_instance name -> rows d name ≡ₚ f <$> P ->
  chosen_row le c (contents d) r ->
  match r with
  | None => P = []
  | Some s => exists x, x ∈ P /\ s = f x /\ forall y, y ∈ P -> le (commit_version_start (f x)) (commit_version_start (f y))
  end.
Proof.
  intros -> Hrows. unfold chosen_row. destruct r as [s|].
  - intros (Hin & Hs & Hle). assert (s ∈ f <$> P) as (x & -> & Hx)%list_elem_of_fmap by (rewrite <-Hrows; by apply list_elem_of_filter).
    exists x. do 2 (split; [done|]). intros y Hy. assert (f y ∈ rows d name) as [? ?]%list_elem_of_filter by (rewrite Hrows; by apply list_elem_of_fmap_2). auto.
  - intros Hn. unfold rows in Hrows. rewrite filter_none in Hrows; [by apply Permutation_nil_l in Hrows; destruct P|].
    eapply Forall_impl; [exact Hn|]. cbn. congruence.
Qed.
End Rows.

(** ** The copy of the checkpoints *)

Lemma sorted_head x P : StronglySorted Z.lt (ver <$> P) -> x ∈ P -> (forall y, y ∈ P -> ver x <= ver y) -> head P = Some x.
Proof.
  destruct P as [|p P]; [by intros _ ?%elem_of_nil|]. intros Hs [->|Hx]%elem_of_cons Hm; [done|].
  pose proof (sorted_app_lt [p] P p x Hs ltac:(left) Hx). specialize (Hm p ltac:(left)). lia.
Qed.

Lemma sorted_last x P : StronglySorted Z.lt (ver <$> P) -> x ∈ P -> (forall y, y ∈ P -> ver x >= ver y) -> last P = Some x.
Proof.
  induction P as [|p P _] using rev_ind; [by intros _ ?%elem_of_nil|]. intros Hs [Hx| ->%list_elem_of_singleton]%elem_of_app Hm; rewrite last_snoc; [|done].
  pose proof (sorted_app_lt P [p] x p Hs Hx ltac:(left)). specialize (Hm p ltac:(apply elem_of_app; right; left)). lia.
Qed.

(** The checkpoints of [ss] left once the instance has purged up to [last_gtid]: when the
    oldest one that was known starts before it, all those that start at or before it go. *)
Definition unpurged (last_gtid : Z) (known : list GtidSeq) (ss : list GtidSeq) : list GtidSeq :=
  if default 0 (get_gtid_start <$> head known) <? last_gtid then filter (fun s => (get_gtid_start s <=? last_gtid) = false) ss else ss.

(** The checkpoints left by the removals of a probe: [checkpoint] is the one the manager
    takes from the report. *)
Definition after_purges (now_s last_gtid checkpoint : Z) (known : list GtidSeq) (ss : list GtidSeq) : list GtidSeq :=
  let ss := unpurged last_gtid known ss in
  if (default 0 (ver <$> head known) <? checkpoint) && (now_s mod 600 <? 5)
  then filter (fun s => (ver s <? checkpoint) && beq (get_xid_start s) [] = false) ss else ss.

Definition newest (ss : list GtidSeq) : Z := default 0 (ver <$> last ss).

Section Mirror.
Context {D : Type} `{GtidSeqTableLaws D}.
Context (Hrel : reliable (D := D)) (fuel : nat) (max_delete_rows : Z) (Hmax : 0 < max_delete_rows).
Context (cfg : gtid_config) (Hincr : 0 <= max_incr_gtid_seqs_num cfg).

Lemma boundary_known d e P : rows d (en_instance_name e) ≡ₚ row_of e <$> P -> StronglySorted Z.lt (ver <$> P) ->
  get_instance_boundary_gtid_seq d (en_instance_name e) =
  (OMS_OK, (default no_gtid_seq (row_of e <$> head P), default no_gtid_seq (row_of e <$> last P))).
Proof using Hrel.
  intros Hr Hs. unfold get_instance_boundary_gtid_seq, boundary_of.
  destruct (select_first d _) as [f|] eqn:Ef; [|by apply (first_runs Hrel) in Ef].
  destruct (select_last d _) as [l|] eqn:El; [|by apply (last_runs Hrel) in El].
  pose proof (chosen_in _ _ _ _ _ _ _ eq_refl Hr (select_first_law _ _ _ Ef)) as Hf.
  pose proof (chosen_in _ _ _ _ _ _ _ eq_refl Hr (select_last_law _ _ _ El)) as Hl.
  destruct f as [f|]; [destruct Hf as (x & Hx & -> & Hx')|by subst P; destruct l as [l|]; [destruct Hl as (? & ?%elem_of_nil & _)|]].
  destruct l as [l|]; [destruct Hl as (y & Hy & -> & Hy')|by subst P; apply elem_of_nil in Hx].
  by rewrite (sorted_head x P), (sorted_last y P).
Qed.

Lemma reported_added d e known ss : Forall seq_ok ss -> Forall (fun s => commit_version_start known < ver s) ss ->
  exists d', add_reported d e known (report ss) = Done (OMS_OK, d') /\
    rows d' (en_instance_name e) ≡ₚ rows d (en_instance_name e) ++ (row_of e <$> ss) /\
    other_rows d' (en_instance_name e) ≡ₚ other_rows d (en_instance_name e) /\
    length (contents d') = (length (contents d) + length ss)%nat.
Proof using Hrel.
  intros Hok Hk. destruct ss as [|s ss]; [exists d; by rewrite app_nil_r, Nat.add_0_r|].
  unfold add_reported. rewrite deserialize_report by done.
  assert (report (s :: ss) <> []) as Hne by (intros E; by pose proof (deserialize_report e (s :: ss) Hok ltac:(done)) as Hd; rewrite E in Hd).
  destruct (report (s :: ss)); [done|]. rewrite fmap_cons. inversion Hk as [|? ? Hs _]; subst.
  change (commit_version_start (received e s)) with (ver s). rewrite (proj2 (Z.ltb_lt _ _) Hs). unfold add_gtid_seq_batch. rewrite <-fmap_cons, <-list_fmap_compose.
  destruct (insert_rows d _) as [d'|] eqn:Ei; [|by apply (insert_runs Hrel) in Ei].
  apply insert_law in Ei. exists d'. split; [done|]. change (stored ∘ received e) with (row_of e) in Ei.
  destruct (rows_of_added d d' _ (en_instance_name e) Ei) as [Ha Hb]; [apply Forall_fmap, Forall_forall; intros x _; apply beq_refl|].
  do 2 (split; [done|]). apply Permutation_length in Ei. by rewrite length_app, length_fmap in Ei.
Qed.
Lemma rows_purged (d : D) e c (p : GtidSeq -> bool) (ss : list GtidSeq) : rows d (en_instance_name e) ≡ₚ row_of e <$> ss ->
  (forall s, c s = true -> of_instance (en_instance_name e) s = true) -> (forall s, c (row_of e s) = p s) ->
  (length (contents d) < fuel)%nat ->
  exists d', remove_rows fuel max_delete_rows c d = Some (OMS_OK, d') /\
    rows d' (en_instance_name e) ≡ₚ row_of e <$> filter (fun s => p s = false) ss /\
    other_rows d' (en_instance_name e) ≡ₚ other_rows d (en_instance_name e) /\ (length (contents d') <= length (contents d))%nat.
Proof using Hrel Hmax.
  intros Hr Hc Hp Hf. destruct (remove_rows_all fuel max_delete_rows c d Hrel Hmax Hf) as (d' & E & Hd).
  exists d'. split; [done|]. destruct (rows_of_removed d d' c _ Hd Hc) as [Ha Hb]. split; [|split; [done|]].
  - rewrite Ha, Hr. apply reflexive_eq, filter_fmap. intros s. by rewrite Hp.
  - rewrite Hd. apply length_filter.
Qed.

(** [update_instance_gtid_seq] on a report. *)
Lemma table_updated (d : D) e (P ss : list GtidSeq) last_gtid checkpoint : rows d (en_instance_name e) ≡ₚ row_of e <$> P -> Forall seq_ok ss ->
  Forall (fun s => newest P < ver s) ss -> (length (contents d) + length ss < fuel)%nat ->
  exists d', update_instance_gtid_seq fuel max_delete_rows d e
      (default no_gtid_seq (row_of e <$> head P), default no_gtid_seq (row_of e <$> last P)) last_gtid (report ss) checkpoint = Done (Some (OMS_OK, d')) /\
    rows d' (en_instance_name e) ≡ₚ row_of e <$> after_purges (en_heartbeat e) last_gtid checkpoint P (P ++ ss) /\
    other_rows d' (en_instance_name e) ≡ₚ other_rows d (en_instance_name e).
Proof using Hrel Hmax.
  intros Hr Hok Hn Hf. unfold update_instance_gtid_seq. cbn [fst snd].
  destruct (reported_added d e (default no_gtid_seq (row_of e <$> last P)) ss Hok) as (d1 & -> & Hr1 & Ho1 & Hl1).
  { unfold newest in Hn. by destruct (last P). }
  rewrite Hr, <-fmap_app in Hr1. cbn [mbind outcome_bind fst snd]. unfold after_purges, unpurged. cbv beta zeta iota.
  replace (gtid_start (default no_gtid_seq (row_of e <$> head P))) with (default 0 (get_gtid_start <$> head P)) by (by destruct (head P)).
  replace (commit_version_start (default no_gtid_seq (row_of e <$> head P))) with (default 0 (ver <$> head P)) by (by destruct (head P)).
  set (ss1 := if _ <? last_gtid then filter _ (P ++ ss) else _).
  assert (exists d2, (if default 0 (get_gtid_start <$> head P) <? last_gtid
      then remove_instance_gtid_seq_before_gtid fuel max_delete_rows d1 (en_instance_name e) last_gtid else Some (OMS_OK, d1)) = Some (OMS_OK, d2) /\
    rows d2 (en_instance_name e) ≡ₚ row_of e <$> ss1 /\
    other_rows d2 (en_instance_name e) ≡ₚ other_rows d (en_instance_name e) /\ (length (contents d2) < fuel)%nat) as (d2 & -> & Hr2 & Ho2 & Hl2).
  { subst ss1. destruct (_ <? last_gtid); [|exists d1; split_and!; [done|done|done|lia]].
    destruct (rows_purged d1 e (before_gtid (en_instance_name e) last_gtid) (fun s => get_gtid_start s <=? last_gtid) _ Hr1) as (d2 & E & Ha & Hb & Hc);
      [by intros s [? _]%andb_true_iff|intros s; unfold before_gtid, of_instance; cbn; by rewrite beq_refl|lia|].
    exists d2. split_and!; [done|done|by rewrite Hb|lia]. }
  destruct (_ && _); [|by exists d2].
  destruct (rows_purged d2 e (before_checkpoint (en_instance_name e) checkpoint) (fun s => (ver s <? checkpoint) && beq (get_xid_start s) []) _ Hr2) as (d3 & E & Ha & Hb & Hc);
    [by intros s [[? _]%andb_true_iff _]%andb_true_iff|intros s; unfold before_checkpoint, of_instance; cbn; by rewrite beq_refl|lia|].
  exists d3. unfold remove_instance_gtid_seq_before_checkpoint. rewrite E. split; [done|]. split; [done|]. by rewrite Hb.
Qed.

(** The counters fit the signed integers the manager reads them with. *)
Definition counters_ok (c : report_counters) (m : GtidManager) : Prop :=
  is_i63 (convert_delay_us c / 1000) /\ is_i63 (minimum_dump_point c) /\ is_i63 (last_gtid_purged m) /\ is_i63 (convert_checkpoint_us c).

Context (alive update_ok : bool) (node_id : bytes).

Definition probe (query : bytes -> option (list (list bytes))) (now_s : Z) (d : D) (e : BinlogEntry) : outcome (option (D * list probe_action)) :=
  binlog_instance_exploration fuel max_delete_rows now_s alive update_ok node_id query d e.
Definition answers (c : report_counters) (m : GtidManager) (timestamp : bytes) : option (list (list bytes)) := Some [report_row cfg c m timestamp].
Definition updated (c : report_counters) (now_s : Z) (e : BinlogEntry) : BinlogEntry :=
  with_probe S_RUNNING now_s (convert_delay_us c / 1000) (minimum_dump_point c) e.

Lemma newest_i63 P : Forall seq_ok P -> is_i63 (newest P).
Proof using.
  unfold newest. destruct (last P) as [s|] eqn:E; [|done]. intros Hok. apply last_Some_elem_of in E.
  rewrite Forall_forall in Hok. by destruct (Hok s E).
Qed.

(** One probe. *)
Lemma probe_mirrors (d : D) e (P L : list GtidSeq) c m now_s : rows d (en_instance_name e) ≡ₚ row_of e <$> P ->
  StronglySorted Z.lt (ver <$> P) -> Forall seq_ok P -> keeps_checkpoints m L -> counters_ok c m -> (length (contents d) + length L < fuel)%nat ->
  exists d', probe (answers c m) now_s d e = Done (Some (d', [UpdateInstance (updated c now_s e) e])) /\
    rows d' (en_instance_name e) ≡ₚ row_of e <$> after_purges now_s (last_gtid_purged m) (convert_checkpoint_us c) P
      (P ++ take (Z.to_nat (max_incr_gtid_seqs_num cfg + 1)) (newer_than (newest P) L)) /\
    other_rows d' (en_instance_name e) ≡ₚ other_rows d (en_instance_name e).
Proof using Hrel Hmax Hincr.
  intros Hr Hs Hok HL (H1 & H2 & H3 & H4) Hf. unfold probe, binlog_instance_exploration. rewrite (boundary_known d e P Hr Hs). cbn [fst snd].
  replace (commit_version_start (default no_gtid_seq (row_of e <$> last P))) with (newest P) by (unfold newest; by destruct (last P)).
  unfold answers, report_row. rewrite (atoll_i63 (newest P)), (u64_i63 (newest P)) by (by apply newest_i63).
  rewrite (incr_reported cfg m L) by done. set (ss := take _ (newer_than (newest P) L)).
  unfold probe_answered, field. cbn [lookup list_lookup of_option mbind outcome_bind]. rewrite !atoll_i63, !u64_i63 by done.
  set (e1 := with_probe (en_state e) now_s _ _ e).
  assert (forall s, s ∈ ss -> newest P < ver s /\ s ∈ L) as Hss.
  { intros s. apply newer_take. }
  destruct (table_updated d e1 P ss (last_gtid_purged m) (convert_checkpoint_us c) Hr) as (d' & E & Ha & Hb).
  - apply Forall_forall. intros s Hin%Hss. destruct HL as [HLok _ _ _]. rewrite Forall_forall in HLok. by apply HLok, Hin.
  - apply Forall_forall. intros s Hin%Hss. apply Hin.
  - assert (length ss <= length L)%nat; [|lia]. subst ss. rewrite length_take. pose proof (length_filter (fun s => newest P < ver s) L). unfold newer_than. lia.
  - exists d'. change (default no_gtid_seq (row_of e <$> head P)) with (default no_gtid_seq (row_of e1 <$> head P)).
    change (default no_gtid_seq (row_of e <$> last P)) with (default no_gtid_seq (row_of e1 <$> last P)). rewrite E. cbn [mbind outcome_bind].
    split; [|split; [exact Ha|exact Hb]]. unfold updated. by destruct (en_state e).
Qed.

(** Probes at the given times; each takes the entry as the previous one has left it. *)
Fixpoint probes (query : bytes -> option (list (list bytes))) (times : list Z) (d : D) (e : BinlogEntry) : outcome (option (D * BinlogEntry)) :=
  match times with
  | [] => Done (Some (d, e))
  | now_s :: times =>
      r ← probe query now_s d e;
      match r with
      | None => Done None
      | Some (d, actions) => probes query times d (match actions with UpdateInstance u _ :: _ => u | _ => e end)
      end
  end.

Lemma contents_length (d : D) name : length (contents d) = (length (rows d name) + length (other_rows d name))%nat.
Proof using. symmetry. apply filter_lengths. Qed.

Lemma newer_drop k L : StronglySorted Z.lt (ver <$> L) -> Forall (fun s => 0 < ver s) L -> newer_than (newest (take k L)) L = drop k L.
Proof using.
  intros Hs Hpos. rewrite <-(take_drop k L) at 2. rewrite newer_app. rewrite <-(take_drop k L) in Hs.
  rewrite (newer_old _ (take k L)).
  - apply filter_all. intros s Hin. unfold newest. destruct (last (take k L)) as [x|] eqn:E; cbn.
    + apply last_Some_elem_of in E. by eapply sorted_app_lt.
    + rewrite Forall_forall in Hpos. apply Hpos. rewrite <-(take_drop k L). apply elem_of_app. by right.
  - intros s Hin. unfold newest. destruct (last (take k L)) as [x|] eqn:E; [|apply last_None in E; rewrite E in Hin; by apply elem_of_nil in Hin].
    apply last_Some in E as [l0 E]. rewrite E, <-app_assoc in Hs. rewrite E in Hin. cbn. apply elem_of_app in Hin as [Hin| ->%list_elem_of_singleton]; [|lia].
    pose proof (sorted_app_lt l0 ([x] ++ drop k L) s x Hs Hin ltac:(left)). lia.
Qed.

Lemma outside_window now_s last_gtid checkpoint P ss : 5 <= now_s mod 600 -> after_purges now_s last_gtid checkpoint P ss = unpurged last_gtid P ss.
Proof using. intros Hn. unfold after_purges. by rewrite (proj2 (Z.ltb_ge (now_s mod 600) 5)), andb_false_r by lia. Qed.

Lemma no_purges now_s checkpoint P ss : Forall seq_ok P -> 5 <= now_s mod 600 -> after_purges now_s 0 checkpoint P ss = ss.
Proof using.
  intros Hok Hn. rewrite outside_window by done. unfold unpurged.
  destruct P as [|s P]; [done|]. cbn. rewrite (proj2 (Z.ltb_ge _ _)); [done|]. inversion Hok as [|? ? (_ & _ & Hg & _)]; subst. apply Hg.
Qed.

Lemma sorted_take k L : StronglySorted Z.lt (ver <$> L) -> StronglySorted Z.lt (ver <$> take k L).
Proof using. intros Hs. rewrite <-(take_drop k L), fmap_app in Hs. by apply StronglySorted_app_1_l in Hs. Qed.

Lemma probes_progress c m L others times : keeps_checkpoints m L -> Forall (fun s => 0 < ver s) L -> counters_ok c m -> last_gtid_purged m = 0 ->
  (others + 2 * length L < fuel)%nat -> Forall (fun t => 5 <= t mod 600) times ->
  forall k (d : D) e, rows d (en_instance_name e) ≡ₚ row_of e <$> take k L -> length (other_rows d (en_instance_name e)) = others ->
  exists d' e', probes (answers c m) times d e = Done (Some (d', e')) /\
    rows d' (en_instance_name e) ≡ₚ row_of e <$> take (k + length times * Z.to_nat (max_incr_gtid_seqs_num cfg + 1)) L /\
    other_rows d' (en_instance_name e) ≡ₚ other_rows d (en_instance_name e).
Proof using Hrel Hmax Hincr.
  intros HL Hpos Hc Hg Hf Ht. pose proof (kc_sorted _ _ HL) as Hs. pose proof (kc_ok _ _ HL) as Hok. induction Ht as [|t times Ht Hts IH]; intros k d e Hr Ho.
  { exists d, e. by rewrite Nat.add_0_r. }
  destruct (probe_mirrors d e (take k L) L c m t Hr) as (d1 & E & Hr1 & Ho1); [by apply sorted_take|by apply Forall_take|done|done| |].
  { rewrite (contents_length d (en_instance_name e)), Hr, length_fmap, length_take, Ho. lia. }
  rewrite newer_drop, Hg, no_purges in Hr1 by (try apply Forall_take; done).
  destruct (IH (k + Z.to_nat (max_incr_gtid_seqs_num cfg + 1))%nat d1 (updated c t e)) as (d' & e' & E' & Hr' & Ho').
  - cbn [updated with_probe en_instance_name]. rewrite Hr1. apply reflexive_eq, (f_equal (fmap (row_of e))). by rewrite <-take_take_drop.
  - cbn [updated with_probe en_instance_name]. by rewrite Ho1.
  - exists d', e'. cbn [probes]. rewrite E. cbn [mbind outcome_bind]. split; [done|]. cbn [length]. split.
    + cbn [updated with_probe en_instance_name] in Hr'. rewrite Nat.mul_succ_l, (Nat.add_comm (_ * _)), Nat.add_assoc. exact Hr'.
    + cbn [updated with_probe en_instance_name] in Ho'. by rewrite Ho'.
Qed.
End Mirror.

(** ** A table that satisfies the laws: the list of its rows *)

Fixpoint best_row (leb : Z -> Z -> bool) (c : InstanceGtidSeq -> bool) (l : list InstanceGtidSeq) : option InstanceGtidSeq :=
  match l with
  | [] => None
  | s :: l =>
      if c s then
        match best_row leb c l with
        | Some b => if leb (commit_version_start s) (commit_version_start b) then Some s else Some b
        | None => Some s
        end
      else best_row leb c l
  end.

Fixpoint delete_some (c : InstanceGtidSeq -> bool) (n : nat) (l : list InstanceGtidSeq) : Z * list InstanceGtidSeq :=
  match n, l with
  | O, _ | _, [] => (0, l)
  | S n', s :: l => if c s then let '(k, r) := delete_some c n' l in (k + 1, r) else let '(k, r) := delete_some c n l in (k, s :: r)
  end.

#[export] Instance list_table : GtidSeqTable (list InstanceGtidSeq) := {|
  select_first d c := Some (best_row Z.leb c d);
  select_last d c := Some (best_row Z.geb c d);
  insert_rows d l := Some (d ++ l);
  delete_rows d c n := Some (delete_some c (Z.to_nat n) d)
|}.

Lemma best_row_law (leb : Z -> Z -> bool) (le : Z -> Z -> Prop) c l :
  (forall x y, leb x y = true -> le x y) -> (forall x y, leb x y = false -> le y x) -> (forall x y z, le x y -> le y z -> le x z) -> (forall x, le x x) ->
  chosen_row le c l (best_row leb c l).
Proof.
  intros Ht Hf Htr Hrefl. induction l as [|s l IH]; [by constructor|]. cbn [best_row]. unfold chosen_row in *.
  destruct (c s) eqn:Ec.
  - destruct (best_row leb c l) as [b|].
    + destruct IH as (Hb & Hcb & Hle). destruct (leb _ _) eqn:El; (split; [constructor; done|split; [done|]]);
        intros s' [->|Hs']%elem_of_cons Hc'; eauto.
    + split; [left|split; [done|]]. intros s' [->|Hs']%elem_of_cons Hc'; [done|]. eapply Forall_forall in IH; [|exact Hs']. congruence.
  - destruct (best_row leb c l) as [b|]; [|by constructor]. destruct IH as (Hb & Hcb & Hle). split; [by right|split; [done|]].
    intros s' [->|Hs']%elem_of_cons Hc'; [congruence|auto].
Qed.

Lemma delete_some_law c l : forall n k l', delete_some c n l = (k, l') -> exists gone,
  l ≡ₚ gone ++ l' /\ Forall (fun s => c s = true) gone /\ k = zlen gone /\ k <= Z.of_nat n /\ (k < Z.of_nat n -> Forall (fun s => c s = false) l').
Proof.
  induction l as [|s l IH]; intros [|n] k l'; cbn [delete_some].
  1-3: intros [= <- <-]; exists []; split_and!; (done || lia || constructor).
  - destruct (c s) eqn:Ec.
    + destruct (delete_some c n l) as [k1 r] eqn:E. intros [= <- <-]. destruct (IH _ _ _ E) as (gone & H1 & H2 & -> & H4 & H5).
      exists (s :: gone). split_and!; [by rewrite H1|by constructor|unfold zlen; cbn [length]; lia|lia|intros; apply H5; lia].
    + destruct (delete_some c (S n) l) as [k1 r] eqn:E. intros [= <- <-]. destruct (IH _ _ _ E) as (gone & H1 & H2 & -> & H4 & H5).
      exists gone. split_and!; [by rewrite H1, Permutation_middle|done|done|done|intros; constructor; auto].
Qed.

#[export] Program Instance list_table_laws : GtidSeqTableLaws (list InstanceGtidSeq) := {| contents d := d |}.
Next Obligation. intros d c r [= <-]. apply best_row_law; intros; lia. Qed.
Next Obligation. intros d c r [= <-]. apply best_row_law; intros; lia. Qed.
Next Obligation. by intros d l d' [= <-]. Qed.
Next Obligation.
  intros d c n k d' [= E]. apply delete_some_law in E as (gone & H1 & H2 & H3 & H4 & H5).
  exists gone. split_and!; [done|done|done|lia|intros; apply H5; lia].
Qed.

Lemma list_table_reliable : reliable (D := list InstanceGtidSeq).
Proof. by split. Qed.

(** ** What the manager knows of an instance *)

Section Claims.
Context {D : Type} `{GtidSeqTableLaws D}.
Context (Hrel : reliable (D := D)) (fuel : nat) (max_delete_rows : Z) (Hmax : 0 < max_delete_rows).
Context (cfg : gtid_config) (Hincr : 0 <= max_incr_gtid_seqs_num cfg).
Context (alive update_ok : bool) (node_id : bytes).
Context (m : GtidManager) (L : list GtidSeq) (HL : keeps_checkpoints m L) (c : report_counters) (Hc : counters_ok c m).

(** C18: a probe, outside the first five seconds of ten minutes, of an instance that answers
    and is neither paused nor in grayscale succeeds and leaves in the table exactly the
    checkpoints that were there and the next [max_incr_gtid_seqs_num + 1] ones of the
    instance after the newest of them; when the oldest one known starts before the GTID that
    the instance has purged, those that start at or before it are gone.  The rows of other
    instances stay, and the row of the instance is updated once: running, with the time, the
    delay and the dump point of the report.  (Within those five seconds checkpoints are lost:
    [heartbeat_checkpoints_lost]; paused and grayscale instances are marked running too:
    [paused_marked_running].) *)
Theorem checkpoints_mirrored (d : D) (e : BinlogEntry) (P : list GtidSeq) (now_s : Z)
    (Hstate : en_state e <> S_GRAYSCALE /\ en_state e <> S_PAUSED) (Hnow : 5 <= now_s mod 600)
    (Hrows : rows d (en_instance_name e) ≡ₚ row_of e <$> P) (Hsorted : StronglySorted Z.lt (ver <$> P)) (Hok : Forall seq_ok P)
    (Hfuel : (length (contents d) + length L < fuel)%nat) :
  exists d', binlog_instance_exploration fuel max_delete_rows now_s alive update_ok node_id (answers cfg c m) d e =
      Done (Some (d', [UpdateInstance (updated c now_s e) e])) /\
    rows d' (en_instance_name e) ≡ₚ row_of e <$> unpurged (last_gtid_purged m) P
      (P ++ take (Z.to_nat (max_incr_gtid_seqs_num cfg + 1)) (newer_than (newest P) L)) /\
    other_rows d' (en_instance_name e) ≡ₚ other_rows d (en_instance_name e).
Proof using Hrel Hmax Hincr HL Hc.
  rewrite <-(outside_window now_s (last_gtid_purged m) (convert_checkpoint_us c)) by done.
  by apply (probe_mirrors Hrel fuel max_delete_rows Hmax cfg Hincr alive update_ok node_id d e P L c m now_s).
Qed.

(** The condition on the state is always true: an instance that is paused or in grayscale is
    marked running by the first probe that it answers. *)
Theorem paused_marked_running (d : D) (e : BinlogEntry) (P : list GtidSeq) (now_s : Z)
    (Hrows : rows d (en_instance_name e) ≡ₚ row_of e <$> P) (Hsorted : StronglySorted Z.lt (ver <$> P)) (Hok : Forall seq_ok P)
    (Hfuel : (length (contents d) + length L < fuel)%nat) :
  exists d', binlog_instance_exploration fuel max_delete_rows now_s alive update_ok node_id (answers cfg c m) d e =
      Done (Some (d', [UpdateInstance (updated c now_s e) e])) /\ en_state (updated c now_s e) = S_RUNNING.
Proof using Hrel Hmax Hincr HL Hc.
  destruct (probe_mirrors Hrel fuel max_delete_rows Hmax cfg Hincr alive update_ok node_id d e P L c m now_s) as (d' & E & _); [done..|]. by exists d'.
Qed.

(** An instance that writes no new checkpoint and has purged nothing, probed only outside
    those seconds: a table without the instance holds all of its checkpoints, and no other
    row of it, once it has been probed often enough, [max_incr_gtid_seqs_num + 1] of them
    with each probe. *)
Theorem mirror_catches_up (d : D) (e : BinlogEntry) (times : list Z)
    (Hnew : rows d (en_instance_name e) = []) (Hpos : Forall (fun s => 0 < ver s) L) (Hpurged : last_gtid_purged m = 0)
    (Htimes : Forall (fun t => 5 <= t mod 600) times) (Henough : Z.of_nat (length L) <= Z.of_nat (length times) * (max_incr_gtid_seqs_num cfg + 1))
    (Hfuel : (length (contents d) + 2 * length L < fuel)%nat) :
  exists d' e', probes fuel max_delete_rows alive update_ok node_id (answers cfg c m) times d e = Done (Some (d', e')) /\
    rows d' (en_instance_name e) ≡ₚ row_of e <$> L /\ other_rows d' (en_instance_name e) ≡ₚ other_rows d (en_instance_name e).
Proof using Hrel Hmax Hincr HL Hc.
  destruct (probes_progress Hrel fuel max_delete_rows Hmax cfg Hincr alive update_ok node_id c m L (length (other_rows d (en_instance_name e))) times
    HL Hpos Hc Hpurged) with (k := O) (d := d) (e := e) as (d' & e' & E & Hr & Ho); [|done|by rewrite Hnew|done|].
  { rewrite (contents_length d (en_instance_name e)) in Hfuel. lia. }
  exists d', e'. split; [done|]. split; [|done]. rewrite Hr, take_ge; [done|]. nia.
Qed.

(** the manager takes the progress of the conversion (microseconds) for the purged
    checkpoint (seconds): within the first five seconds of ten minutes a probe deletes every
    checkpoint of the instance that stands for a heartbeat, although the instance has
    purged nothing. *)
Theorem heartbeat_checkpoints_lost (d : D) (e : BinlogEntry) (P : list GtidSeq) (now_s : Z)
    (Hrows : rows d (en_instance_name e) ≡ₚ row_of e <$> P) (Hsorted : StronglySorted Z.lt (ver <$> P)) (Hok : Forall seq_ok P)
    (Hfuel : (length (contents d) + length L < fuel)%nat)
    (Hpurged : last_gtid_purged m = 0) (Hpurged_c : last_checkpoint_purged m = 0) (Hnow : now_s mod 600 < 5)
    (Hknown : P <> []) (Hunit : Forall (fun s => ver s < convert_checkpoint_us c) (P ++ L)) :
  exists d' actions, binlog_instance_exploration fuel max_delete_rows now_s alive update_ok node_id (answers cfg c m) d e = Done (Some (d', actions)) /\
    Forall (fun s => xid_start s <> []) (rows d' (en_instance_name e)).
Proof using Hrel Hmax Hincr HL Hc.
  destruct (probe_mirrors Hrel fuel max_delete_rows Hmax cfg Hincr alive update_ok node_id d e P L c m now_s) as (d' & E & Hr & _); [done..|].
  exists d'. eexists. split; [exact E|]. rewrite Hr. rewrite Forall_forall in Hunit. unfold after_purges, unpurged. destruct P as [|p P]; [done|].
  change (default 0 (get_gtid_start <$> head (p :: P))) with (get_gtid_start p). change (default 0 (ver <$> head (p :: P))) with (ver p).
  rewrite (proj2 (Z.ltb_lt (ver p) _)), (proj2 (Z.ltb_lt (now_s mod 600) 5)) by (done || by apply Hunit; left). cbn [andb].
  rewrite Hpurged, (proj2 (Z.ltb_ge (get_gtid_start p) 0)) by (inversion Hok as [|? ? (_ & _ & Hg & _)]; subst; apply Hg).
  apply Forall_fmap, Forall_forall. intros s [Hk Hs]%list_elem_of_filter. cbn [row_of xid_start compose]. intros Hx. rewrite Hx in Hk.
  assert (ver s < convert_checkpoint_us c) as Hv; [|rewrite (proj2 (Z.ltb_lt _ _) Hv) in Hk; done].
  apply Hunit. apply elem_of_app in Hs as [Hs|Hs]; apply elem_of_app; [by left|right].
  by eapply newer_take.
Qed.
End Claims.

(** ** Witnesses *)

Definition w_entry : BinlogEntry :=
  mkEntry (str "n1") (str "10.0.0.1") (str "i1") (str "ob") (str "t") (str "1") (str "1002") S_STARTING
    (mkInstanceMeta (mkSlot [] [] [] []) (str "4G") 0 10 0 [] 0) 0 0 0.
Definition w_checkpoints : list GtidSeq :=
  [mkGtidSeq 100 [] 0 1; mkGtidSeq 160 (str "{x}") 1 3; mkGtidSeq 220 [] 4 0; mkGtidSeq 280 (str "{y}") 4 2; mkGtidSeq 300 (str "{z}") 6 1].
Definition w_incr : gtid_config := mkGtidConfig 100 10 100 100 1 86400 1 [].
Definition w_manager : GtidManager :=
  mkGtidManager 0 0 0 0 (Some (unlines (serialize <$> w_checkpoints))) false [] 0 0
    ((fun s => (ver s, serialize s)) <$> drop 2 w_checkpoints) [] [] [] [].
Definition w_counters : report_counters := mkReportCounters true 2500000 10 10 10 1 250 300000000 0.
Definition w_other : InstanceGtidSeq := mkInstanceGtidSeq (str "ob") (str "t") [] [] (str "i2") 90 [] 0 0.
Definition w_table (k : nat) : list InstanceGtidSeq := w_other :: (row_of w_entry <$> take k w_checkpoints).

Lemma w_keeps : keeps_checkpoints w_manager w_checkpoints.
Proof.
  split; [by_compute|by_compute|reflexivity|]. exists (take 2 w_checkpoints), (drop 2 w_checkpoints). done.
Qed.
Lemma w_counters_ok : counters_ok w_counters w_manager.
Proof. unfold counters_ok. by_compute. Qed.

Lemma checkpoints_mirrored_witness : exists d', binlog_instance_exploration 20 2 10 false true (str "n1") (answers w_incr w_counters w_manager) (w_table 2) w_entry =
    Done (Some (d', [UpdateInstance (updated w_counters 10 w_entry) w_entry])) /\
  rows d' (str "i1") ≡ₚ row_of w_entry <$> take 4 w_checkpoints /\ other_rows d' (str "i1") ≡ₚ [w_other].
Proof.
  apply (checkpoints_mirrored list_table_reliable 20 2 ltac:(lia) w_incr ltac:(by_compute) false true (str "n1") w_manager w_checkpoints w_keeps
    w_counters w_counters_ok (w_table 2) w_entry (take 2 w_checkpoints) 10); [by_compute|by_compute|reflexivity|by_compute|by_compute|by_compute].
Defined.

Lemma mirror_catches_up_witness : exists d' e', probes 20 2 false true (str "n1") (answers w_incr w_counters w_manager) [10; 20; 30] (w_table 0) w_entry = Done (Some (d', e')) /\
  rows d' (str "i1") ≡ₚ row_of w_entry <$> w_checkpoints /\ other_rows d' (str "i1") ≡ₚ [w_other].
Proof.
  apply (mirror_catches_up list_table_reliable 20 2 ltac:(lia) w_incr ltac:(by_compute) false true (str "n1") w_manager w_checkpoints w_keeps
    w_counters w_counters_ok (w_table 0) w_entry [10; 20; 30]); [reflexivity|by_compute|reflexivity|by_compute|by_compute|by_compute].
Defined.

Lemma heartbeat_checkpoints_lost_witness : exists d' actions,
  binlog_instance_exploration 20 2 603 false true (str "n1") (answers w_incr w_counters w_manager) (w_table 3) w_entry = Done (Some (d', actions)) /\
  Forall (fun s => xid_start s <> []) (rows d' (str "i1")).
Proof.
  apply (heartbeat_checkpoints_lost list_table_reliable 20 2 ltac:(lia) w_incr ltac:(by_compute) false true (str "n1") w_manager w_checkpoints w_keeps
    w_counters w_counters_ok (w_table 3) w_entry (take 3 w_checkpoints) 603); [reflexivity|by_compute|by_compute|by_compute|reflexivity|reflexivity|by_compute|done|by_compute].
Defined.
