(* ===== verification/Election.v ===== *)
(** * The master of a tenant and the starting point of an instance

    [src/src/binlog/selection_strategy.cpp] ([select_master_instance] and its filters,
    [filter_instance_by_initial_point]) and [src/src/binlog/instance_tasks.cpp]
    ([correct_initial_gtid], [init_starting_point], [init_recovery_point]): which of the
    instances of a tenant serves it, and the transaction and GTID a new instance starts
    with, so that the instances of a tenant number its transactions alike.  The table of the
    checkpoints is that of [Metadata]; the other queries are parameters. *)

From Stdlib Require Import SpecFloat.
From S2P Require Import Prelude Bytes Str Decimal Floats Gtid BinlogIndex GtidManager PortPool Selection Metadata.

#[local] Open Scope Z_scope.

Definition INT64_MAX : Z := 2 ^ 63 - 1.
Definition INT64_MIN : Z := - 2 ^ 63.

(** ** Election *)

Definition boundaries : Type := InstanceGtidSeq * InstanceGtidSeq.

Section Election.
Context {D : Type} `{GtidSeqTable D}.
Context (cfg : selection_config) (now_s : Z).
(** [query_node_by_id]; [None]: the node is not found, and has no metric. *)
Context (query_node_by_id : bytes -> option Node).

Definition filter_master_by_min_checkpoint (minimal_checkpoint : Z) (instance_vec : list (BinlogEntry * boundaries)) : list (BinlogEntry * boundaries) :=
  if 0 =? minimal_checkpoint then instance_vec
  else filter (fun i => (commit_version_start i.2.1 =? 0) || (minimal_checkpoint <? commit_version_start i.2.1) = false) instance_vec.

(** The cpu of a node is above the limit; a null metric is dereferenced. *)
Definition overloaded (node_id : bytes) : outcome bool :=
  node ← of_option (query_node_by_id node_id);
  Done (SFltb (ratio_limit (node_cpu_limit_threshold_percent cfg)) (widen (cpu_used_ratio (nd_metric node)))).

Fixpoint erase_overloaded (instance_vec : list (BinlogEntry * boundaries)) : outcome (list (BinlogEntry * boundaries)) :=
  match instance_vec with
  | [] => Done []
  | i :: rest =>
      b ← overloaded (en_node_id i.1);
      rest ← erase_overloaded rest;
      Done (if b : bool then rest else i :: rest)
  end.
Definition filter_master_by_resource (instance_vec : list (BinlogEntry * boundaries)) : outcome (list (BinlogEntry * boundaries)) :=
  if enable_resource_check cfg then erase_overloaded instance_vec else Done instance_vec.

Definition delay_threshold (min_dump_checkpoint : Z) : Z :=
  Z.min (if min_dump_checkpoint <? now_s then now_s - min_dump_checkpoint else 0) 300.
Definition delayed (threshold : Z) (i : BinlogEntry * boundaries) : bool :=
  (commit_version_start i.2.2 <? now_s) && (threshold <? now_s - commit_version_start i.2.2).

Definition filter_master_by_delay (min_dump_checkpoint : Z) (instance_vec : list (BinlogEntry * boundaries)) : list (BinlogEntry * boundaries) :=
  let threshold := delay_threshold min_dump_checkpoint in
  let instances_with_delay := (fun i => en_instance_name i.1) <$> filter (fun i => delayed threshold i = true) instance_vec in
  match instances_with_delay with
  | [] => instance_vec
  | _ =>
      if Nat.eqb (length instances_with_delay) (length instance_vec) then instance_vec
      else filter (fun i => en_instance_name i.1 ∉ instances_with_delay) instance_vec
  end.

(** The loop over the latest checkpoints of the remaining instances. *)
Definition least_checkpoint (instance_vec : list (BinlogEntry * boundaries)) (election_instance : BinlogEntry) : Z * BinlogEntry :=
  foldl (fun acc i =>
    if negb (commit_version_start i.2.2 =? 0) && (commit_version_start i.2.2 <? acc.1) then (commit_version_start i.2.2, i.1) else acc)
    (2 ^ 64 - 1, election_instance) instance_vec.

(** [select_master_instance]: the instance the loop finds is then replaced by the first one.  [inl] is
    the message of a failure. *)
Definition select_master_instance (d : D) (running_instances : list BinlogEntry) (min_dump_checkpoint : Z) (election_instance : BinlogEntry)
    : outcome (bytes + BinlogEntry) :=
  _ ← of_option (head running_instances);
  let instance_vec := (fun i => (i, (get_instance_boundary_gtid_seq d (en_instance_name i)).2)) <$> running_instances in
  match filter_master_by_min_checkpoint min_dump_checkpoint instance_vec with
  | [] => Done (inl (str "All instances in running status do not meet the min dump checkpoint requirement"))
  | instance_vec =>
      instance_vec ← filter_master_by_resource instance_vec;
      match instance_vec with
      | [] => Done (inl (str "All instances in running status for tenant do not have enough resources to provide service."))
      | _ =>
          let instance_vec := filter_master_by_delay min_dump_checkpoint instance_vec in
          let election_instance := (least_checkpoint instance_vec election_instance).2 in
          front ← of_option (head instance_vec);
          let election_instance := front.1 in
          Done (inr election_instance)
      end
  end.
End Election.

(** ** The starting point *)

(** An instance without a name, as a default-constructed one. *)
Definition no_entry : BinlogEntry :=
  mkEntry [] [] [] [] [] [] [] S_UNDEFINED (mkInstanceMeta (mkSlot [] [] [] []) [] 0 0 0 [] 0) 0 0 0.

Definition initial_point_step (timestamp : Z) (acc : (Z * BinlogEntry) * (Z * BinlogEntry)) (instance : BinlogEntry) : (Z * BinlogEntry) * (Z * BinlogEntry) :=
  let interval := sint 64 (u64 (timestamp - mt_start_timestamp (en_config instance))) in
  let less := if (0 <=? interval) && (interval <? acc.1.1) then (interval, instance) else acc.1 in
  let greater := if (interval <? 0) && (acc.2.1 <? interval) then (interval, instance) else acc.2 in
  (less, greater).

Definition filter_instance_by_initial_point (timestamp : Z) (instances : list BinlogEntry) : outcome BinlogEntry :=
  let '((_, less_than_instance), (_, greater_than_instance)) :=
    foldl (initial_point_step timestamp) ((INT64_MAX, no_entry), (INT64_MIN, no_entry)) instances in
  if non_empty (en_instance_name less_than_instance) then Done less_than_instance
  else if non_empty (en_instance_name greater_than_instance) then Done greater_than_instance
  else of_option (head instances).

Definition with_initial_point (timestamp : Z) (txn_id : bytes) (txn_gtid_seq : Z) (e : BinlogEntry) : BinlogEntry :=
  let m := en_config e in
  mkEntry (en_node_id e) (en_ip e) (en_instance_name e) (en_cluster e) (en_tenant e) (en_cluster_id e) (en_tenant_id e) (en_state e)
    (mkInstanceMeta (mt_slot_config m) (memory_limit m) (binlog_expire_logs_size m) (mt_expiration m) timestamp txn_id txn_gtid_seq)
    (en_heartbeat e) (en_delay e) (en_min_dump_checkpoint e).

(** The two overloads of [BinlogEntry::update_initial_gtid]. *)
Definition update_initial_gtid (s : InstanceGtidSeq) (e : BinlogEntry) : BinlogEntry :=
  with_initial_point (commit_version_start s) (xid_start s) (if non_empty (xid_start s) then gtid_start s else u64 (gtid_start s + 1)) e.
Definition update_initial_gtid_from (from e : BinlogEntry) : BinlogEntry :=
  with_initial_point (mt_start_timestamp (en_config from)) (mt_initial_ob_txn_id (en_config from)) (mt_initial_ob_txn_gtid_seq (en_config from)) e.

Section StartingPoint.
Context {D : Type} `{GtidSeqTable D}.
Context (d : D).

Definition correct_initial_gtid (timestamp : Z) (instance_entries : list BinlogEntry) (instance : BinlogEntry) : outcome (ret * BinlogEntry) :=
  front ← of_option (head instance_entries);
  let cluster := en_cluster front in
  let tenant := en_tenant front in
  let '(r, gtid_seq) := find_tenant_gtid_seq_by_timestamp d cluster tenant timestamp in
  match r with
  | OMS_FAILED => Done (OMS_FAILED, instance)
  | OMS_OK =>
      if 0 <? commit_version_start gtid_seq then Done (OMS_OK, update_initial_gtid gtid_seq instance)
      else
        let '(r, boundary_gtid_pair) := tenant_boundary_gtid_seq d cluster tenant in
        match r with
        | OMS_FAILED => Done (OMS_FAILED, instance)
        | OMS_OK =>
            if timestamp <? commit_version_start boundary_gtid_pair.1 then Done (OMS_OK, update_initial_gtid boundary_gtid_pair.1 instance)
            else
              selected_instance ← filter_instance_by_initial_point timestamp instance_entries;
              Done (OMS_OK, update_initial_gtid_from selected_instance instance)
        end
  end.

Definition takes_part (e : BinlogEntry) : bool := negb (is_dropped e || bool_decide (en_state e = S_INIT)).

Definition init_starting_point (instance_entries : list BinlogEntry) (instance : BinlogEntry) : outcome (ret * BinlogEntry) :=
  match filter (fun e => takes_part e = true) instance_entries with
  | [] => Done (OMS_OK, instance)
  | instance_entries => correct_initial_gtid (mt_start_timestamp (en_config instance)) instance_entries instance
  end.

(** [init_recovery_point]; the queries it makes besides those on the checkpoints. *)
Context (query_min_clog_timestamp : option Z) (query_instance_by_name : bytes -> option BinlogEntry) (now_s : Z) (recovery_point_strategy : bytes).

Definition recover_start_timestamp (offline_instance : BinlogEntry) (min_clog_timestamp : Z) (first : InstanceGtidSeq) : Z :=
  if same_text recovery_point_strategy (str "fast") then
    let min_dump_checkpoint := if en_min_dump_checkpoint offline_instance =? 0 then now_s else en_min_dump_checkpoint offline_instance in
    let min_dump_checkpoint := u64 (min_dump_checkpoint - 600) in
    if min_dump_checkpoint <? min_clog_timestamp then min_clog_timestamp else min_dump_checkpoint
  else
    let min_gtid_timestamp := if commit_version_start first =? 0 then now_s else commit_version_start first in
    if min_gtid_timestamp <? min_clog_timestamp then min_clog_timestamp else min_gtid_timestamp.

Definition init_recovery_point (instance : BinlogEntry) (offline_instance_name : bytes) : ret * BinlogEntry :=
  match query_min_clog_timestamp with
  | None | Some 0 => (OMS_FAILED, instance)
  | Some min_clog_timestamp =>
      match query_instance_by_name offline_instance_name with
      | None => (OMS_FAILED, instance)
      | Some offline_instance =>
          let '(r, boundary_gtid_pair) := get_instance_boundary_gtid_seq d offline_instance_name in
          match r with
          | OMS_FAILED => (OMS_FAILED, instance)
          | OMS_OK =>
              let timestamp := recover_start_timestamp offline_instance min_clog_timestamp boundary_gtid_pair.1 in
              let '(_, gtid_seq) := find_instance_gtid_seq_by_timestamp d offline_instance_name timestamp in
              if commit_version_start gtid_seq =? 0 then
                if negb (commit_version_start boundary_gtid_pair.1 =? 0) then (OMS_OK, update_initial_gtid boundary_gtid_pair.1 instance)
                else if negb (commit_version_start boundary_gtid_pair.2 =? 0) then (OMS_OK, update_initial_gtid boundary_gtid_pair.2 instance)
                else (OMS_FAILED, instance)
              else (OMS_OK, update_initial_gtid gtid_seq instance)
          end
      end
  end.
End StartingPoint.

(** ** The elected instance *)

Section Elected.
Context {D : Type} `{GtidSeqTable D}.
Context (cfg : selection_config) (now_s : Z) (query_node_by_id : bytes -> option Node).

Definition covers (min_dump_checkpoint : Z) (i : BinlogEntry * boundaries) : bool :=
  (0 =? min_dump_checkpoint) || negb ((commit_version_start i.2.1 =? 0) || (min_dump_checkpoint <? commit_version_start i.2.1)).
Definition powerful (i : BinlogEntry * boundaries) : bool :=
  negb (enable_resource_check cfg) ||
  match query_node_by_id (en_node_id i.1) with
  | Some n => negb (SFltb (ratio_limit (node_cpu_limit_threshold_percent cfg)) (widen (cpu_used_ratio (nd_metric n))))
  | None => false
  end.

Lemma min_checkpoint_covers c l : filter_master_by_min_checkpoint c l = filter (fun i => covers c i = true) l.
Proof.
  unfold filter_master_by_min_checkpoint, covers. destruct (0 =? c); cbn [orb]; [by rewrite filter_every|].
  apply list_filter_iff. intros i. destruct (_ || _); naive_solver.
Qed.

Lemma resource_powerful l : Forall (fun i : BinlogEntry * boundaries => query_node_by_id (en_node_id i.1) <> None) l ->
  filter_master_by_resource cfg query_node_by_id l = Done (filter (fun i => powerful i = true) l).
Proof.
  intros Hl. unfold filter_master_by_resource, powerful. destruct (enable_resource_check cfg); cbn [negb orb]; [|by rewrite filter_every].
  induction Hl as [|i l Hi _ IH]; [done|]. cbn [erase_overloaded]. unfold overloaded. rewrite filter_cons.
  destruct (query_node_by_id _) as [n|]; [|done]. cbn [of_option mbind outcome_bind]. rewrite IH. cbn [mbind outcome_bind].
  by destruct (SFltb _ _).
Qed.

(** Erasing by name erases the delayed ones, when names are distinct. *)
Lemma delayed_by_name (p : BinlogEntry * boundaries -> bool) l : NoDup ((fun i => en_instance_name i.1) <$> l) ->
  filter (fun i => en_instance_name i.1 ∉ (fun i => en_instance_name i.1) <$> filter (fun i => p i = true) l) l = filter (fun i => p i = false) l.
Proof.
  intros Hnd. assert (forall i, i ∈ l -> (en_instance_name i.1 ∉ (fun i => en_instance_name i.1) <$> filter (fun i => p i = true) l <-> p i = false)) as Hiff.
  { intros i Hi. split.
    - intros Hn. destruct (p i) eqn:E; [|done]. destruct Hn. apply (list_elem_of_fmap_2 (fun i => en_instance_name i.1)). by apply list_elem_of_filter.
    - intros E (j & Hj & [Hpj Hin]%list_elem_of_filter)%list_elem_of_fmap.
      apply list_elem_of_lookup in Hi as [ni Hi], Hin as [nj Hin].
      assert (ni = nj) as ->; [|congruence]. apply (NoDup_lookup _ ni nj (en_instance_name i.1) Hnd); rewrite list_lookup_fmap; [by rewrite Hi|]. rewrite Hin. cbn. by rewrite Hj. }
  revert Hiff. generalize ((fun i : BinlogEntry * boundaries => en_instance_name i.1) <$> filter (fun i => p i = true) l). clear Hnd. intros names Hiff.
  induction l as [|i l IH]; [done|]. rewrite !filter_cons, IH by (intros j Hj; apply Hiff; by right).
  specialize (Hiff i ltac:(left)). destruct (decide (p i = false)) as [Hp|Hp]; [by rewrite decide_True by tauto|by rewrite decide_False by tauto].
Qed.

Lemma delay_prefers c l : NoDup ((fun i => en_instance_name i.1) <$> l) ->
  filter_master_by_delay now_s c l =
  match filter (fun i => delayed now_s (delay_threshold now_s c) i = false) l with [] => l | fresh => fresh end.
Proof.
  intros Hnd. unfold filter_master_by_delay. set (p := delayed now_s (delay_threshold now_s c)).
  pose proof (delayed_by_name p l Hnd) as Hby. rewrite Hby.
  pose proof (filter_lengths p l) as Hlen.
  destruct (filter (fun i => p i = true) l) as [|i slow] eqn:Es.
  - rewrite (filter_all (fun i => p i = false) l); [by destruct l|]. intros i Hi. destruct (p i) eqn:E; [|done].
    assert (i ∈ filter (fun i => p i = true) l) as Hin by (by apply list_elem_of_filter). rewrite Es in Hin. by apply elem_of_nil in Hin.
  - rewrite fmap_cons. cbn [length]. rewrite length_fmap. destruct (filter (fun i => p i = false) l) as [|j fresh]; cbn [length] in *.
    + rewrite (proj2 (Nat.eqb_eq _ _)); [done|lia].
    + rewrite (proj2 (Nat.eqb_neq _ _)); [done|lia].
Qed.

Definition candidates (d : D) (running_instances : list BinlogEntry) : list (BinlogEntry * boundaries) :=
  (fun i => (i, (get_instance_boundary_gtid_seq d (en_instance_name i)).2)) <$> running_instances.

(** The instance that is taken of those left by the filters: the first one, not the one with
    the least checkpoint, which the loop before looks for. *)
Lemma first_elected (d : D) (running_instances : list BinlogEntry) (min_dump_checkpoint : Z) (e0 : BinlogEntry)
    (Hsome : running_instances <> []) (Hnames : NoDup (en_instance_name <$> running_instances))
    (Hnodes : Forall (fun i => query_node_by_id (en_node_id i) <> None) running_instances) :
  let able := filter (fun i => covers min_dump_checkpoint i && powerful i = true) (candidates d running_instances) in
  let fresh := filter (fun i => delayed now_s (delay_threshold now_s min_dump_checkpoint) i = false) able in
  exists r, select_master_instance cfg now_s query_node_by_id d running_instances min_dump_checkpoint e0 = Done r /\
    match r with
    | inl _ => able = []
    | inr e => exists b, head (if non_empty fresh then fresh else able) = Some (e, b)
    end.
Proof.
  intros able fresh. assert (Ef : fresh = filter (fun i => delayed now_s (delay_threshold now_s min_dump_checkpoint) i = false) able) by done. clearbody fresh.
  assert (Ea : able = filter (fun i => powerful i = true) (filter (fun i => covers min_dump_checkpoint i = true) (candidates d running_instances))) by apply filter_andb.
  clearbody able. unfold select_master_instance. destruct (head running_instances) as [h|] eqn:Eh; [|by destruct running_instances].
  cbn [of_option mbind outcome_bind]. fold (candidates d running_instances). rewrite min_checkpoint_covers.
  destruct (filter (fun i => covers min_dump_checkpoint i = true) (candidates d running_instances)) as [|x l] eqn:E1; [by eexists|]. rewrite <-E1 in *. clear E1 x l.
  rewrite resource_powerful by (apply Forall_filter_sub, Forall_fmap; exact Hnodes).
  cbn [mbind outcome_bind]. rewrite <-Ea. destruct able as [|x l] eqn:Eb; [by eexists|]. rewrite <-Eb in *. assert (able <> []) as Hable by (by rewrite Eb). clear Eb x l.
  rewrite delay_prefers, <-Ef.
  - destruct fresh as [|[e b] fresh]; cbn [non_empty]; [destruct able as [|[e b] able]; [done|]|]; cbn; eexists; (split; [reflexivity|]); cbn; eauto.
  - rewrite Ea. eapply sublist_NoDup; [exact Hnames|].
    replace (en_instance_name <$> running_instances) with ((fun i : BinlogEntry * boundaries => en_instance_name i.1) <$> candidates d running_instances)
      by (unfold candidates; by rewrite <-list_fmap_compose).
    apply fmap_sublist. etransitivity; apply sublist_filter.
Qed.

(** C32: the election of a master for a tenant with running instances, all on known nodes,
    fails only when none of them is able to serve: its checkpoints reach back to the oldest
    dump, and its node has processor time left.  The instance that is elected is running and
    able, and it is not behind unless all the able ones are. *)
Theorem master_elected (d : D) (running_instances : list BinlogEntry) (min_dump_checkpoint : Z) (e0 : BinlogEntry)
    (Hsome : running_instances <> []) (Hnames : NoDup (en_instance_name <$> running_instances))
    (Hnodes : Forall (fun i => query_node_by_id (en_node_id i) <> None) running_instances) :
  let able := filter (fun i => covers min_dump_checkpoint i && powerful i = true) (candidates d running_instances) in
  let fresh := filter (fun i => delayed now_s (delay_threshold now_s min_dump_checkpoint) i = false) able in
  exists r, select_master_instance cfg now_s query_node_by_id d running_instances min_dump_checkpoint e0 = Done r /\
    match r with
    | inl _ => able = []
    | inr e => e ∈ running_instances /\ exists b, (e, b) ∈ able /\ (fresh <> [] -> (e, b) ∈ fresh)
    end.
Proof.
  intros able fresh. destruct (first_elected d running_instances min_dump_checkpoint e0 Hsome Hnames Hnodes) as (r & E & Hr). fold able in Hr. fold fresh in Hr.
  exists r. split; [exact E|]. destruct r as [msg|e]; [exact Hr|]. destruct Hr as (b & Hb%head_Some_elem_of).
  assert ((e, b) ∈ able /\ (fresh <> [] -> (e, b) ∈ fresh)) as [Ha Hf] by (destruct (non_empty fresh) eqn:En; [split; [by apply list_elem_of_filter in Hb as [_ Hb]|done]|split; [done|by destruct fresh]]).
  split; [|by exists b]. apply list_elem_of_filter in Ha as [_ Ha]. unfold candidates in Ha. apply list_elem_of_fmap in Ha as (x & [= -> _] & Hx). exact Hx.
Qed.
End Elected.

(** ** Nearest positions *)

(** The element at the latest position not after [t], or, when all of them are after [t],
    at the earliest one. *)
Definition nearest {A} (pos : A -> Z) (t : Z) (l : list A) (x : A) : Prop :=
  x ∈ l /\ ((pos x <= t /\ forall y, y ∈ l -> pos y <= t -> pos y <= pos x) \/ (t < pos x /\ forall y, y ∈ l -> pos x <= pos y)).

Definition in_time (t : Z) : Prop := 0 <= t < INT64_MAX.
Definition starts (e : BinlogEntry) : Z := mt_start_timestamp (en_config e).

(** What the loop knows of one side of the timestamp: the element with the least distance
    [dist], none when no distance is positive or null.  [v] is the value kept with it. *)
Definition found (dist : BinlogEntry -> Z) (v : Z -> Z) (none : Z) (l : list BinlogEntry) (r : Z * BinlogEntry) : Prop :=
  (r = (none, no_entry) /\ forall y, y ∈ l -> dist y < 0) \/
  (r.2 ∈ l /\ r.1 = v (dist r.2) /\ 0 <= dist r.2 /\ forall y, y ∈ l -> 0 <= dist y -> dist r.2 <= dist y).

Lemma forall_snoc {A} (Q : A -> Prop) (l : list A) x : (forall y, y ∈ l -> Q y) -> Q x -> forall y, y ∈ l ++ [x] -> Q y.
Proof. intros Hl Hx y [Hy| ->%list_elem_of_singleton]%elem_of_app; auto. Qed.

Lemma found_step dist v none l r x (c : bool) : found dist v none l r ->
  (c = true -> 0 <= dist x) -> (c = true -> r.1 = v (dist r.2) -> dist x <= dist r.2) ->
  (c = false -> r.1 = none -> dist x < 0) -> (c = false -> r.1 = v (dist r.2) -> dist x < 0 \/ dist r.2 <= dist x) ->
  found dist v none (l ++ [x]) (if c then (v (dist x), x) else r).
Proof.
  intros Hr H1 H2 H3 H4. destruct c; [right; cbn [fst snd]|].
  - split; [apply elem_of_app; right; left|]. do 2 (split; [auto|]). apply (forall_snoc (fun y => 0 <= dist y -> dist x <= dist y)); [|lia]. intros y Hy Hd.
    destruct Hr as [[-> Hn]|(Hin & E & _ & Hall)]; [specialize (Hn y Hy); lia|]. specialize (Hall y Hy Hd). specialize (H2 eq_refl E). lia.
  - destruct Hr as [[-> Hn]|(Hin & E & Hp & Hall)]; [left|right].
    + split; [done|]. apply (forall_snoc (fun y => dist y < 0)); [done|]. by apply H3.
    + split; [apply elem_of_app; by left|]. do 2 (split; [done|]). apply (forall_snoc (fun y => 0 <= dist y -> dist r.2 <= dist y)); [done|]. specialize (H4 eq_refl E). lia.
Qed.

Definition before (t : Z) (e : BinlogEntry) : Z := t - starts e.
Definition after (t : Z) (e : BinlogEntry) : Z := starts e - t - 1.
Definition both_found (t : Z) (l : list BinlogEntry) (acc : (Z * BinlogEntry) * (Z * BinlogEntry)) : Prop :=
  found (before t) (fun p => p) INT64_MAX l acc.1 /\ found (after t) (fun p => - p - 1) INT64_MIN l acc.2.

Lemma initial_point_step_found t l x acc : in_time t -> in_time (starts x) -> both_found t l acc -> both_found t (l ++ [x]) (initial_point_step t acc x).
Proof.
  unfold in_time, INT64_MAX. intros Ht Hx [Hlo Hhi]. unfold initial_point_step. fold (starts x).
  assert (sint 64 (u64 (t - starts x)) = t - starts x) as -> by (apply (sint_id 64); lia).
  split; cbn [fst snd].
  - apply (found_step _ _ _ _ _ x ((0 <=? t - starts x) && (t - starts x <? acc.1.1)) Hlo); unfold before, INT64_MAX in *; intros; lia.
  - replace (t - starts x) with (- after t x - 1) at 3 by (unfold after; lia).
    apply (found_step _ _ _ _ _ x ((t - starts x <? 0) && (acc.2.1 <? t - starts x)) Hhi); unfold after, INT64_MIN in *; intros; lia.
Qed.

Lemma initial_point_found t l : in_time t -> Forall (fun e => in_time (starts e)) l ->
  both_found t l (foldl (initial_point_step t) ((INT64_MAX, no_entry), (INT64_MIN, no_entry)) l).
Proof.
  intros Ht. induction l as [|x l IH] using rev_ind; [by intros _; split; left; (split; [done|]); intros y ?%elem_of_nil|].
  rewrite Forall_app, foldl_app. intros [Hl [Hx _]%Forall_cons]. cbn [foldl]. apply initial_point_step_found; auto.
Qed.

(** The instance a new one takes its starting point from. *)
Lemma initial_point_nearest t l : l <> [] -> in_time t -> Forall (fun e => in_time (starts e)) l -> Forall (fun e => en_instance_name e <> []) l ->
  exists x, filter_instance_by_initial_point t l = Done x /\ nearest starts t l x.
Proof.
  intros Hne Ht Hl Hn. unfold filter_instance_by_initial_point. pose proof (initial_point_found t l Ht Hl) as [Hlo Hhi]. rewrite Forall_forall in Hn.
  destruct (foldl _ _ l) as [[lo x] [hi y]]. cbn [fst snd] in *. unfold found, before, after in *. cbn [fst snd] in *.
  destruct Hlo as [[E Hno]|(Hin & _ & Hp & Hall)].
  - injection E as -> ->. cbn [no_entry en_instance_name non_empty]. destruct Hhi as [[E Hno']|(Hin & _ & Hp & Hall)].
    + destruct l as [|z l]; [done|]. specialize (Hno z ltac:(left)). specialize (Hno' z ltac:(left)). lia.
    + exists y. destruct (en_instance_name y) as [|n ns] eqn:Ey; [by destruct (Hn y Hin)|]. cbn [non_empty]. split; [done|]. split; [done|]. right.
      split; [lia|]. intros z Hz. specialize (Hno z Hz). specialize (Hall z Hz). lia.
  - exists x. destruct (en_instance_name x) as [|n ns] eqn:Ex; [by destruct (Hn x Hin)|]. cbn [non_empty]. split; [done|]. split; [done|]. left.
    split; [lia|]. intros z Hz Hzt. specialize (Hall z Hz). lia.
Qed.

Section Points.
Context {D : Type} `{GtidSeqTableLaws D}.
Context (Hrel : reliable (D := D)) (d : D).

Definition rows_with (c : InstanceGtidSeq -> bool) : list InstanceGtidSeq := filter (fun s => c s = true) (contents d).

(** Looking for the latest row at or before [t], then for the first of all. *)
Lemma nearest_row c t : Forall (fun s => 0 < commit_version_start s) (rows_with c) -> rows_with c <> [] -> 0 <= t ->
  exists r first last, boundary_of d c = (OMS_OK, (first, last)) /\
    at_most_one (select_last d (fun s => c s && (commit_version_start s <=? t))) no_gtid_seq = (OMS_OK, r) /\ 0 < commit_version_start first /\
    (first ∈ rows_with c /\ forall y, y ∈ rows_with c -> commit_version_start first <= commit_version_start y) /\
    (nearest commit_version_start t (rows_with c) r /\ 0 < commit_version_start r \/
     r = no_gtid_seq /\ t < commit_version_start first /\ nearest commit_version_start t (rows_with c) first).
Proof using Hrel.
  intros Hpos Hne Ht. unfold boundary_of. rewrite Forall_forall in Hpos.
  destruct (select_first d c) as [f|] eqn:Ef; [|by apply (first_runs Hrel) in Ef]. destruct (select_last d c) as [l|] eqn:El; [|by apply (last_runs Hrel) in El].
  destruct (select_last d (fun s => c s && _)) as [r|] eqn:Er; [|by apply (last_runs Hrel) in Er].
  apply select_first_law in Ef. apply select_last_law in Er.
  destruct f as [f|]; [|destruct Hne; apply filter_none; eapply Forall_impl; [exact Ef|cbn; congruence]]. destruct Ef as (Hf & Hcf & Hmin).
  assert (f ∈ rows_with c) as Hf' by (by apply list_elem_of_filter).
  exists (default no_gtid_seq r), f, (default no_gtid_seq l). split; [by destruct l as [l|]|]. split; [by destruct r as [r|]|]. split; [by apply Hpos|].
  split; [split; [done|]; intros y [Hcy Hy]%list_elem_of_filter; auto|].
  destruct r as [r|]; cbn [default from_option id].
  - left. destruct Er as (Hr & [Hcr Hle]%andb_true_iff & Hmax). assert (r ∈ rows_with c) as Hr' by (by apply list_elem_of_filter).
    split; [|by apply Hpos]. split; [done|]. left. split; [lia|]. intros y [Hcy Hy]%list_elem_of_filter Hyt.
    specialize (Hmax y Hy). rewrite Hcy, (proj2 (Z.leb_le _ _) Hyt) in Hmax. specialize (Hmax eq_refl). lia.
  - right. split; [done|]. cbn [chosen_row] in Er. rewrite Forall_forall in Er. specialize (Er f Hf). rewrite Hcf in Er. cbn [andb] in Er.
    split; [lia|]. split; [done|]. right. split; [lia|]. intros y [Hcy Hy]%list_elem_of_filter. auto.
Qed.

Lemma no_rows c : rows_with c = [] -> boundary_of d c = (OMS_OK, (no_gtid_seq, no_gtid_seq)) /\
  forall t, at_most_one (select_last d (fun s => c s && (commit_version_start s <=? t))) no_gtid_seq = (OMS_OK, no_gtid_seq).
Proof using Hrel.
  intros He. assert (forall s, s ∈ contents d -> c s = true -> False) as Hn.
  { intros s Hs Hc. assert (s ∈ rows_with c) as Hin by (by apply list_elem_of_filter). rewrite He in Hin. by apply elem_of_nil in Hin. }
  unfold boundary_of.
  destruct (select_first d c) as [f|] eqn:Ef; [|by apply (first_runs Hrel) in Ef]. destruct (select_last d c) as [l|] eqn:El; [|by apply (last_runs Hrel) in El].
  apply select_first_law in Ef. apply select_last_law in El.
  destruct f as [f|]; [destruct Ef as (? & ? & _); by destruct (Hn f)|]. destruct l as [l|]; [destruct El as (? & ? & _); by destruct (Hn l)|]. split; [done|]. intros t.
  destruct (select_last d (fun s => c s && _)) as [r|] eqn:Er; [|by apply (last_runs Hrel) in Er]. apply select_last_law in Er.
  destruct r as [r|]; [|done]. destruct Er as (Hr & [? ?]%andb_true_iff & _). by destruct (Hn r).
Qed.

(** C19: a new instance starts where the tenant already has a GTID: at the latest checkpoint of the tenant
    at or before its own starting time, at the first checkpoint when all are later, and, when the tenant has no checkpoint, with the
    starting point of the nearest instance; it keeps its own when it is the first instance of
    the tenant. *)
Theorem starting_point_chosen (entries : list BinlogEntry) (e : BinlogEntry)
    (Hpos : Forall (fun s => 0 < commit_version_start s) (contents d)) (Ht : in_time (starts e))
    (Hstarts : Forall (fun x => in_time (starts x)) entries) (Hnames : Forall (fun x => en_instance_name x <> []) entries) :
  let valid := filter (fun x => takes_part x = true) entries in
  exists e', init_starting_point d entries e = Done (OMS_OK, e') /\
    match valid with
    | [] => e' = e
    | front :: _ =>
        let T := rows_with (of_tenant (en_cluster front) (en_tenant front)) in
        (exists s, nearest commit_version_start (starts e) T s /\ e' = update_initial_gtid s e) \/
        (T = [] /\ exists x, nearest starts (starts e) valid x /\ e' = update_initial_gtid_from x e)
    end.
Proof using Hrel.
  intros valid. unfold init_starting_point. fold valid. destruct valid as [|front rest] eqn:Ev; [by exists e|]. rewrite <-Ev. cbv zeta.
  unfold correct_initial_gtid. replace (head valid) with (Some front) by (by rewrite Ev). cbn [of_option mbind outcome_bind]. fold (starts e).
  unfold find_tenant_gtid_seq_by_timestamp, tenant_boundary_gtid_seq.
  set (T := rows_with _). destruct (decide (T = [])) as [HT|HT].
  - destruct (no_rows _ HT) as [-> Hf]. rewrite Hf. cbn [no_gtid_seq commit_version_start fst]. rewrite (proj2 (Z.ltb_ge (starts e) 0)) by apply Ht.
    destruct (initial_point_nearest (starts e) valid) as (x & -> & Hx); [by rewrite Ev|done|by apply Forall_filter_sub|by apply Forall_filter_sub|].
    eexists. split; [reflexivity|]. right. split; [done|]. by exists x.
  - destruct (nearest_row (of_tenant (en_cluster front) (en_tenant front)) (starts e)) as (r & first & last & -> & -> & Hfirst & _ & Hr);
      [by apply Forall_filter_sub|done|apply Ht|].
    destruct Hr as [[Hr Hp]|(-> & Hlt & Hr)].
    + rewrite (proj2 (Z.ltb_lt 0 _) Hp). eexists. split; [reflexivity|]. left. by exists r.
    + cbn [no_gtid_seq commit_version_start fst]. rewrite (proj2 (Z.ltb_lt _ _) Hlt). eexists. split; [reflexivity|]. left. by exists first.
Qed.

(** C33: an instance that replaces a lost one starts at the latest checkpoint of the lost
    one at or before the recovery time, or at its first checkpoint; the recovery time is ten
    minutes before the oldest dump (the first checkpoint, when recovery is to be complete),
    but not before the oldest log that is left; without a checkpoint the recovery fails. *)
Theorem recovery_point_chosen (query_instance_by_name : bytes -> option BinlogEntry) (now_s : Z) (strategy : bytes)
    (e offline : BinlogEntry) (name : bytes) (clog : Z)
    (Hpos : Forall (fun s => 0 < commit_version_start s) (contents d)) (Hclog : 0 < clog) (Hoff : query_instance_by_name name = Some offline)
    (Hdump : let dump := if en_min_dump_checkpoint offline =? 0 then now_s else en_min_dump_checkpoint offline in 600 <= dump < 2 ^ 64) :
  let T := rows_with (of_instance name) in
  let recovered := init_recovery_point d (Some clog) query_instance_by_name now_s strategy e name in
  (T = [] /\ recovered = (OMS_FAILED, e)) \/
  (exists first s, (first ∈ T /\ forall y, y ∈ T -> commit_version_start first <= commit_version_start y) /\
    let dump := if en_min_dump_checkpoint offline =? 0 then now_s else en_min_dump_checkpoint offline in
    nearest commit_version_start (Z.max clog (if same_text strategy (str "fast") then dump - 600 else commit_version_start first)) T s /\
    recovered = (OMS_OK, update_initial_gtid s e)).
Proof using Hrel.
  intros T recovered. subst recovered. unfold init_recovery_point. rewrite Hoff. destruct clog as [|clog|]; [done| |done].
  unfold get_instance_boundary_gtid_seq, find_instance_gtid_seq_by_timestamp.
  destruct (decide (T = [])) as [HT|HT]; [left; split; [done|]; destruct (no_rows _ HT) as [-> Hf]; by rewrite Hf|]. right.
  assert (forall first, 0 < commit_version_start first -> recover_start_timestamp now_s strategy offline (Z.pos clog) first =
    Z.max (Z.pos clog) (if same_text strategy (str "fast") then (if en_min_dump_checkpoint offline =? 0 then now_s else en_min_dump_checkpoint offline) - 600 else commit_version_start first)) as Et.
  { intros first Hf. unfold recover_start_timestamp. cbv zeta in *. set (dump := if en_min_dump_checkpoint offline =? 0 then _ else _) in *. rewrite (proj2 (Z.eqb_neq (commit_version_start first) 0)) by lia.
    rewrite u64_id by (unfold is_u64; lia). destruct (same_text _ _); [destruct (Z.ltb_spec (dump - 600) (Z.pos clog))|destruct (Z.ltb_spec (commit_version_start first) (Z.pos clog))]; lia. }
  assert (exists first last, boundary_of d (of_instance name) = (OMS_OK, (first, last)) /\ 0 < commit_version_start first) as (first & last & Eb & Hfp).
  { destruct (nearest_row (of_instance name) 0) as (r & first & last & ? & _ & ? & _); [by apply Forall_filter_sub|done|done|eauto]. }
  rewrite Eb. cbn [fst snd]. rewrite (Et first Hfp). cbv zeta. set (t := Z.max _ _).
  destruct (nearest_row (of_instance name) t) as (r & first' & last' & Eb' & -> & _ & Hmin & Hr); [by apply Forall_filter_sub|done|lia|].
  rewrite Eb in Eb'. injection Eb' as <- <-. exists first.
  destruct Hr as [[Hr Hp]|(-> & Hlt & Hr)].
  - exists r. rewrite (proj2 (Z.eqb_neq (commit_version_start r) 0)) by lia. split; [done|]. by split.
  - exists first. cbn [no_gtid_seq commit_version_start]. rewrite (proj2 (Z.eqb_neq (commit_version_start first) 0)) by lia. split; [done|]. by split.
Qed.
End Points.

(** ** Witnesses *)

Definition v_entry (name node : string) (state : InstanceState) (start dump : Z) : BinlogEntry :=
  mkEntry (str node) (str node) (str name) (str "ob") (str "t") [] [] state
    (mkInstanceMeta (mkSlot [] [] [] []) (str "4G") 0 10 start (str "{s}") 7) 0 0 dump.
Definition v_row (name : string) (version : Z) (xid : string) (gtid : Z) : InstanceGtidSeq :=
  mkInstanceGtidSeq (str "ob") (str "t") [] [] (str name) version (str xid) gtid 1.
Definition v_table : list InstanceGtidSeq :=
  [v_row "i1" 5000 "{a}" 10; v_row "i1" 9000 "" 20; v_row "i2" 1000 "{b}" 1; v_row "i2" 8000 "{c}" 15; v_row "i3" 1000 "{b}" 1; v_row "i3" 9000 "" 20].
Definition v_node (busy : bool) : Node := p_node "n" "east" (p_metric (if busy then to_float (round_ratio false 90 100) else fzero) 40960).
Definition v_nodes (id : bytes) : option Node := Some (v_node (beq id (str "busy"))).
Definition v_running : list BinlogEntry :=
  [v_entry "i1" "idle" S_RUNNING 0 0; v_entry "i2" "idle" S_RUNNING 0 0; v_entry "i4" "busy" S_RUNNING 0 0; v_entry "i3" "idle" S_RUNNING 0 0].

(** The oldest dump is at 2000: the first instance does not reach back that far, the second is
    behind, the third has no checkpoint. *)
Lemma master_elected_witness : exists r, select_master_instance p_config 9100 v_nodes v_table v_running 2000 no_entry = Done r /\
  match r with inl _ => False | inr e => en_instance_name e = str "i3" end.
Proof.
  destruct (master_elected p_config 9100 v_nodes v_table v_running 2000 no_entry) as (r & E & Hr); [done|by_compute|by repeat constructor|].
  exists r. split; [exact E|]. destruct r as [msg|e]; [discriminate Hr|]. destruct Hr as (_ & b & _ & Hb). vm_compute in Hb. specialize (Hb ltac:(discriminate)). apply list_elem_of_singleton in Hb. injection Hb as -> _. reflexivity.
Defined.

(** Two able instances, of which the second has the lesser checkpoint: the first is taken. *)
Example minimal_checkpoint_not_elected :
  let d := [v_row "i1" 1000 "{b}" 1; v_row "i1" 9000 "" 20; v_row "i2" 1000 "{b}" 1; v_row "i2" 8900 "{c}" 15] in
  exists e, select_master_instance p_config 9100 v_nodes d [v_entry "i1" "idle" S_RUNNING 0 0; v_entry "i2" "idle" S_RUNNING 0 0] 2000 no_entry = Done (inr e) /\ en_instance_name e = str "i1".
Proof. eexists. split; [vm_compute; reflexivity|reflexivity]. Qed.

(** The tenant has checkpoints at 1000, 5000, 8000 and 9000, and the new instance is to start at 8500. *)
Lemma starting_point_chosen_witness : exists e',
  init_starting_point v_table [v_entry "i0" "idle" S_LOGICAL_DROP 0 0; v_entry "i1" "idle" S_RUNNING 4000 0] (v_entry "i5" "idle" S_INIT 8500 0) = Done (OMS_OK, e') /\
  mt_initial_ob_txn_id (en_config e') = str "{c}" /\ mt_initial_ob_txn_gtid_seq (en_config e') = 15.
Proof.
  destruct (starting_point_chosen list_table_reliable v_table [v_entry "i0" "idle" S_LOGICAL_DROP 0 0; v_entry "i1" "idle" S_RUNNING 4000 0] (v_entry "i5" "idle" S_INIT 8500 0))
    as (e' & E & He); [by repeat constructor|done|by repeat constructor|by repeat constructor|].
  exists e'. split; [exact E|]. vm_compute in E. injection E as <-. by split.
Defined.

(** The oldest dump of the lost instance is at 8400, so the recovery time is 7800. *)
Lemma recovery_point_chosen_witness : exists s, nearest commit_version_start 7800 [v_row "i2" 1000 "{b}" 1; v_row "i2" 8000 "{c}" 15] s /\
  init_recovery_point v_table (Some 100) (fun _ => Some (v_entry "i2" "idle" S_OFFLINE 0 8400)) 9100 (str "fast") (v_entry "i5" "idle" S_INIT 0 0) (str "i2") =
    (OMS_OK, update_initial_gtid s (v_entry "i5" "idle" S_INIT 0 0)).
Proof.
  destruct (recovery_point_chosen list_table_reliable v_table (fun _ => Some (v_entry "i2" "idle" S_OFFLINE 0 8400)) 9100 (str "fast") (v_entry "i5" "idle" S_INIT 0 0)
    (v_entry "i2" "idle" S_OFFLINE 0 8400) (str "i2") 100) as [[HT _]|(first & s & _ & Hs & E)];
    [by repeat constructor|done|done|by split|discriminate HT|].
  exists s. split; [exact Hs|exact E].
Defined.
